(* ===== verification/_CoqProject ===== *)
-Q . S2P
Prelude.v
Mem.v
KString.v
Mmu.v
Kalloc.v
Vm.v
VmTheory.v
VmUser.v
VmCopy.v
VmProps.v
VmKernel.v
Spinlock.v
Pipe.v
Bio.v
BioTheory.v
Log.v
LogTheory.v
LogProps.v
Fs.v
FsBlocks.v
FsTheory.v
FsFile.v
FsData.v
FsInode.v
FsWrite.v
FsProps.v
FsMount.v
FsRun.v
FsDir.v
File.v
Wmap.v
Proc.v
Syscall.v
Sysfile.v
Exec.v
Fault.v
Sysproc.v
Trap.v
ProcTheory.v
ProcRefine.v
ProcProps.v
WmapTheory.v
WmapAlloc.v
FaultProps.v
SysprocProps.v
SyscallProps.v
FileProps.v
FileCalls.v
FileFork.v
Grep.v
Printf.v
Console.v
ConsoleProps.v
Sh.v
ShProps.v
ShPrint.v
Umalloc.v
UmallocProps.v
Ports.v
Devices.v
Ide.v
IdeProps.v
Boot.v
Mp.v
Asm.v
AsmProps.v
Desc.v
DescProps.v
Main.v
MainProps.v
Mkfs.v
MkfsTheory.v
MkfsMount.v
User.v
UserSys.v
ShRun.v
ShPool.v
ShLine.v
UserKernel.v
Usertests.v
