(* ===== verification/Prelude.v ===== *)
(** * A verification of the xv6 kernel with memory mappings

    The program is the xv6 teaching kernel for x86 in src/xv6-public, extended
    with the [wmap] family of system calls (sysproc.c, wmap.h, the page-fault
    case of trap.c) and with [getfilename], together with its boot code, its user
    library, shell and programs, and the builder of its file-system image.
    This library embeds it shallowly: every C function is a Rocq function on
    explicit state, integers are [Z] with their wrap-around written out, memory
    is a map of bytes, and a call returns an [outcome]: a result, a panic, or
    an access that C leaves undefined.  Assembly is a sequence of instructions,
    each a function on registers and memory.

    ** The parts, from the bottom up

    - Machine and strings.  [Prelude]: integers, outcomes, generic lemmas.
      [Mem]: byte memory, loads and stores (x86.h).  [KString]: string.c.
      [Mmu]: mmu.h, memlayout.h.
    - Memory.  [Kalloc]: kalloc.c, the free list threaded through the pages.
      [Vm]: vm.c, two-level page tables in the same memory as the free pages.
      [VmTheory], [VmUser], [VmCopy]: the map a table represents and the
      ownership of pages; [VmProps], [VmKernel]: the theorems, the kernel half
      of a table, and the copy of an address space.
    - Locks.  [Spinlock]: spinlock.c and sleeplock.c, with [acquire] and
      [release] cut into the atomic steps of interleaved CPUs.
    - Pipes.  [Pipe]: the ring of pipe.c as a system of readers and writers.
    - Disk.  [Bio]: bio.c over memide.c.  [Log]: log.c.  [BioTheory],
      [LogTheory], [LogProps]: one copy of every block, the sequence of disk
      writes, crashes at any write.
    - Files.  [Fs]: all of fs.c over the class [BlockOps] of what it calls of
      bio.c and log.c.  [FsBlocks]: the laws fs.c relies on ([BlockLaws]) and
      their proof for [Bio] and [Log].  [FsTheory], [FsFile], [FsData],
      [FsInode], [FsWrite]: bitmap, block map, contents, disk inodes;
      [FsProps], [FsRun]: theorems and concrete runs.  [FsMount]: mounting.
      [FsDir]: directories as lists of entries.  [File]: file.c and
      [pipealloc].
    - Processes.  [Proc]: proc.c, with files behind the class [FileRefs].
      [ProcTheory], [ProcRefine], [ProcProps]: an abstract scheduler, the
      refinement of proc.c to it, runs.
    - Mappings.  [Wmap]: the hash table of sysproc.c.  [WmapTheory],
      [WmapAlloc]: its invariant and the search for a free range.
    - The kernel as a whole.  [Syscall]: syscall.c, whose accesses to user
      memory walk the page table.  [Sysfile]: sysfile.c, and the instance of
      [FileRefs].  [Exec]: exec.c.  [Fault]: the page-fault handler.
      [Sysproc]: the rest of sysproc.c and the table of calls.  [Trap]: the
      dispatch of trap.c.  [FaultProps], [SysprocProps], [SyscallProps],
      [FileProps], [FileCalls], [FileFork]: their theorems.
    - Console.  [Console]: console.c (screen, input ring, readers) and kbd.c;
      [ConsoleProps]: its theorems.  [Printf]: the formatted output of
      console.c and printf.c, with ulib.c.
    - Devices.  [Ports]: the class [Machine] of port and register accesses.
      [Devices]: lapic.c, ioapic.c, picirq.c, uart.c.  [Ide], [IdeProps]: ide.c,
      its queue and its interrupt.  [Mp]: mp.c.
    - Starting and entering the kernel.  [Boot]: bootmain.c.  [Asm], [AsmProps]:
      swtch.S, trapasm.S, vectors.pl, usys.S, initcode.S.  [Desc], [DescProps]:
      segment, gate and task descriptors, the rest of vm.c and trap.c.  [Main],
      [MainProps]: bootasm.S, entry.S, entryother.S, main.c.
    - The image.  [Mkfs]: mkfs.c; [MkfsTheory], [MkfsMount].
    - User programs.  [Grep]: grep.c.  [Sh]: the parser of sh.c; [ShProps],
      [ShPrint].  [Umalloc], [UmallocProps]: umalloc.c.  [User]: the other
      programs as trees of system calls; [UserSys]: what they print on any
      system with the laws of [StdLaws].  [ShRun]: the rest of sh.c, and init.c;
      [ShPool], [ShLine]: the processes of a command line.  [UserKernel]: the
      programs on the kernel.  [Usertests]: usertests.c.

    They compose as the code does: [Trap] calls [Syscall.syscall] on the table
    of [Sysproc], whose handlers run on one kernel record ([Proc.kern]) that
    holds the process table, the page allocator with all memory, the mapping
    table and the file layer; the file layer holds pipes and the file system,
    which runs on the log and the buffer cache.  [UserKernel] puts the user
    programs on top of it and an image from [Mkfs] below.

    ** State and steps

    A pointer into a C array is an index, a pointer to a page its address, a
    pointer into a string the suffix it points to.  Code under a spinlock, or
    from one [sleep] to the next, is one step; [Spinlock] justifies this for
    the lock itself, whose test for a lock already held is one step too.  [fork],
    [exit] and [wait] are therefore single steps of [ProcRefine], up to the wakeups
    of [exit].  A call that sleeps returns the channel it sleeps on, or
    [None], and the system relations of [Pipe], [ProcTheory], [FileFork], [Ide]
    and [ShPool] run many processes in any order.  Hardware is a class of
    accesses with laws that state what its manual says of it ([AtaLaws] for the
    disk), and with an instance that satisfies them.

    ** What the theorems show

    - Crash safety: a crash at any disk write of a commit, then recovery,
      leaves all blocks of the transaction old or all new; recovery can itself
      be interrupted and repeated; a transaction stays within its reservation.
    - Files: what [writei] writes [readi] reads; other files keep their bytes;
      a name that [dirlink] adds is found by [dirlookup], and the others are as
      before; [balloc] and [bfree] act on the bitmap as a set; what [mkfs]
      builds mounts, and its files have the contents they were given.
    - Disk: the driver of ide.c, under every order of requests and interrupts,
      refines the disk of memide.c and serves every request.
    - Processes: proc.c refines an abstract machine whose invariant holds in
      every reachable state; a parent that waits is woken by a child's exit,
      and [exit] hands its children to init.
    - Entering and leaving: a switch resumes the other context with its
      registers; a trap and its return restore every register; an interrupt in
      user mode enters the kernel on the kernel stack with kernel segments; the
      tables hold what the processor must read in them; a new process, and the
      first one, start at the right instruction.
    - Descriptors: in every run of the file calls, [fork] and [exit], a file's
      count is the number of descriptors that name it.
    - Address spaces: [mappages], [allocuvm], [deallocuvm], [copyout] do what
      they say, and where they fail the theorem says when and what is left; no
      page is leaked or shared; the copy made by [fork] has the same bytes in
      pages of its own, and fails only for want of pages; every table maps the
      kernel.
    - System calls: [argptr] accepts exactly the buffers inside the process,
      which can be read and written; a string fetched is the string in user
      memory.
    - Mappings: without a fixed address, [wmap] takes the first free place from
      where its search starts; a fault inside an anonymous mapping loads a
      zeroed page and changes nothing else; what is inserted can be removed.
    - Locks: mutual exclusion under every interleaving.  Pipes: the bytes that
      readers get are those that each writer passed, in order, and no wakeup
      is lost.
    - Console: the ring refines a line editor on lists, the screen driver
      stays in its memory; numbers are printed faithfully and read back.
    - Starting: the boot loader puts every segment of the kernel where the
      file says; the processors of the firmware's table are found.
    - User code: [malloc] and [free] keep live blocks disjoint and always
      return, and [malloc] fails only when the break cannot move; the shell's
      parser ends on every line and reads back every command it can print; a
      command line ends however its processes interleave, and runs each command
      with the descriptors it asks for; the matcher of grep decides its language; [cat], [wc] and [echo] print what
      they should.  The tests of usertests.c that are modelled are run, as examples,
      on an image that [mkfs] makes.
    - Defects: theorems whose names say what goes wrong give inputs on which
      the code does not do what it means to; each has a comment at its place.

    ** Fuel

    Recursion that is not structural takes a bound.  Where the source has one
    (array sizes, 4096 bytes, the number of inodes) it is that; in a scan of a
    string or file it is the length.  A bound that is reached is undefined
    behaviour, never a result, so each theorem that a call returns shows the
    bound is enough: [Sh] takes four calls per character, [Umalloc] two rounds
    of the free list, [Grep] a read per byte, [wmap_search] one step per
    mapping (the table and the pool hold fewer than 64), and [Fault.touch] retries a fault once, since a fault that is not
    served then is never served.  A loop that polls a device takes the number of
    reads the laws of the device allow it ([patience]); a user program that
    loops takes a number of rounds, and its theorem says how many it needs.

    ** Abstractions

    [Desc.deliver] reads the tables that the kernel built, which is what the
    registers loaded by [lgdt], [lidt] and [ltr] point to.  [ShPool] runs the
    trees of system calls of the shell over pipes and descriptors with a semantics of
    its own, and [StdLaws] has an [open] that does not run out of descriptors;
    both state what sh.c and the programs rely on, not sysfile.c.  A read of the
    console that sleeps after it copied some bytes is not resumed by the events of [ConsoleProps].

    ** What is not modelled

    The tests of usertests.c that fork, call [sbrk] or fault on purpose need the
    memory of user programs and several processes at once, which the runs of
    [UserKernel], of one process alone, do not have; the remaining test programs
    (forktest.c, stressfs.c, testwmap.c and the like) are small clients of calls
    that are modelled.  [procdump] and [getcallerpcs] print or record a
    backtrace.  [strcpy], [strlen], [memset] and [memmove] of ulib.c repeat
    string.c.  Header files of prototypes have nothing to model.  The interrupt
    handlers of the devices and the device switch are parameters of the trap
    dispatch and of the file layer.  Messages to the console are not part of
    the kernel's state.  Caches, write buffers and self-modifying code of the
    processor, and the timing of interrupts within an instruction sequence, are
    below the level of the development. *)
From stdpp Require Export base list gmap strings.
From stdpp Require Import options.
From Stdlib Require Export ZArith Lia.
#[export] Set Warnings "-notation-overridden".
#[global] Open Scope Z_scope.

(** * Machine integers

    Values of the C integer types are integers; the wrap-around of the width
    is written out with these functions. *)

Definition W32 : Z := 4294967296.

Definition u32 (x : Z) : Z := x mod 4294967296.

Definition s32 (x : Z) : Z := (x + 2147483648) mod 4294967296 - 2147483648.

Definition u16 (x : Z) : Z := x mod 65536.

Definition s16 (x : Z) : Z := (x + 32768) mod 65536 - 32768.

Definition u8 (x : Z) : Z := x mod 256.

(** [is_u32 x]: [x] is the value of a [uint]. *)
Definition is_u32 (x : Z) : Prop := 0 <= x < 4294967296.

(** [is_s32 x]: [x] is the value of an [int]. *)
Definition is_s32 (x : Z) : Prop := -2147483648 <= x < 2147483648.

(** C truth values. *)
Definition b2z (b : bool) : Z := if b then 1 else 0.

(** * Outcomes

    A kernel routine returns, panics with a message ([panic] of console.c
    never returns), or performs an access C leaves undefined: a null
    dereference or an index outside its array. *)

Inductive outcome (A : Type) : Type :=
| Ok (a : A)
| Panic (msg : string)
| UB (what : string).
Arguments Ok {A} a.
Arguments Panic {A} msg.
Arguments UB {A} what.

Definition obind {A B : Type} (c : outcome A) (k : A -> outcome B) : outcome B :=
  match c with
  | Ok a => k a
  | Panic s => Panic s
  | UB s => UB s
  end.

Declare Scope kernel_scope.
Delimit Scope kernel_scope with kernel.
Notation "'let!' x := c 'in' k" := (obind c (fun x => k))
  (at level 200, x pattern, c at level 100, k at level 200) : kernel_scope.
#[global] Open Scope kernel_scope.

Definition is_ok {A : Type} (c : outcome A) : bool :=
  match c with Ok _ => true | _ => false end.

#[export] Instance outcome_eq_dec {A} `{EqDecision A} : EqDecision (outcome A).
Proof. solve_decision. Defined.

Lemma obind_Ok_inv {A B : Type} (c : outcome A) (k : A -> outcome B) b :
  obind c k = Ok b -> exists a, c = Ok a /\ k a = Ok b.
Proof. destruct c; simpl; intros; try discriminate; eauto. Qed.

(** * Tactics *)

(** Linear arithmetic with division and modulo by constants. *)
Ltac zlia := unfold is_u32, is_s32, u32, s32, u16, s16, u8, W32 in *; Z.to_euclidean_division_equations; lia.

(** Invert a successful sequence of bound calls. *)
Ltac inv_bind :=
  repeat match goal with
  | H : obind ?c ?k = Ok ?b |- _ =>
      let a := fresh "r" in let Ha := fresh "E" in
      apply obind_Ok_inv in H as (a & Ha & H)
  end.

(** Case analysis on every boolean comparison of integers in view. *)
Ltac zcase :=
  match goal with
  | |- context [Z.eqb ?a ?b] => destruct (Z.eqb_spec a b)
  | |- context [Z.ltb ?a ?b] => destruct (Z.ltb_spec a b)
  | |- context [Z.leb ?a ?b] => destruct (Z.leb_spec a b)
  | H : context [Z.eqb ?a ?b] |- _ => destruct (Z.eqb_spec a b)
  | H : context [Z.ltb ?a ?b] |- _ => destruct (Z.ltb_spec a b)
  | H : context [Z.leb ?a ?b] |- _ => destruct (Z.leb_spec a b)
  end.

(** * Lemmas on machine integers *)

Create HintDb word.

Lemma u32_range x : 0 <= u32 x < 4294967296.
Proof. unfold u32. apply Z.mod_pos_bound. lia. Qed.

Lemma u8_range x : 0 <= u8 x < 256.
Proof. unfold u8. apply Z.mod_pos_bound. lia. Qed.

Lemma s32_range x : is_s32 (s32 x).
Proof. zlia. Qed.

Lemma u32_id x : is_u32 x -> u32 x = x.
Proof. unfold is_u32, u32. intros. apply Z.mod_small. lia. Qed.

Lemma s32_id x : is_s32 x -> s32 x = x.
Proof. intros. zlia. Qed.

Lemma u8_id x : 0 <= x < 256 -> u8 x = x.
Proof. intros. unfold u8. apply Z.mod_small. lia. Qed.

Lemma u32_u32 x : u32 (u32 x) = u32 x.
Proof. apply u32_id, u32_range. Qed.

Lemma u8_u8 x : u8 (u8 x) = u8 x.
Proof. apply u8_id, u8_range. Qed.

Lemma u32_s32 x : u32 (s32 x) = u32 x.
Proof. zlia. Qed.

Lemma s32_u32 x : s32 (u32 x) = s32 x.
Proof. zlia. Qed.

Lemma u32_add_l x y : u32 (u32 x + y) = u32 (x + y).
Proof. unfold u32. apply Zplus_mod_idemp_l. Qed.

Lemma u32_add_r x y : u32 (x + u32 y) = u32 (x + y).
Proof. unfold u32. apply Zplus_mod_idemp_r. Qed.

Lemma u32_sub_l x y : u32 (u32 x - y) = u32 (x - y).
Proof. unfold u32. apply Zminus_mod_idemp_l. Qed.

(** Fields that do not overlap: [or] is addition. *)
Lemma lor_shiftl a b k : 0 <= k -> 0 <= b < 2 ^ k -> Z.lor (Z.shiftl a k) b = a * 2 ^ k + b.
Proof.
  intros Hk Hb. rewrite <- Z.shiftl_mul_pow2 by done. pose proof (Z.add_lor_land (Z.shiftl a k) b) as Hadd.
  assert (Z.land (Z.shiftl a k) b = 0) as Hl; [|lia].
  apply Z.bits_inj'. intros n Hn. rewrite Z.land_spec, Z.bits_0. destruct (Z.ltb_spec n k).
  - by rewrite Z.shiftl_spec_low.
  - rewrite <- (Z.mod_small b (2 ^ k)) by done. by rewrite Z.mod_pow2_bits_high, andb_false_r by lia.
Qed.

Create Rewrite HintDb word.
#[export] Hint Resolve u32_range u8_range s32_range : word.
#[export] Hint Rewrite u32_u32 u8_u8 u32_s32 s32_u32 u32_add_l u32_add_r u32_sub_l : word.

Lemma elem_of_rev {A} (x : A) l : x ∈ rev l <-> x ∈ l.
Proof. rewrite !list_elem_of_In. symmetry. apply in_rev. Qed.

Lemma alter_insert_list {A} (f : A -> A) (l : list A) i x :
  l !! i = Some x -> alter f i l = <[i := f x]> l.
Proof.
  intros H. apply list_eq. intros j. destruct (decide (i = j)) as [<-|Hne].
  - rewrite list_lookup_alter_eq, list_lookup_insert_eq by (by eapply lookup_lt_Some). by rewrite H.
  - by rewrite list_lookup_alter_ne, list_lookup_insert_ne.
Qed.

Lemma filter_iff_in {A} (P Q : A -> Prop) `{forall x, Decision (P x), forall x, Decision (Q x)} (l : list A) :
  (forall x, x ∈ l -> P x <-> Q x) -> filter P l = filter Q l.
Proof.
  induction l as [|x l IH]; intros H1; [done|]. rewrite !filter_cons.
  rewrite IH by (intros y Hy; apply H1; by right).
  pose proof (H1 x ltac:(by left)). destruct (decide (P x)), (decide (Q x)); tauto.
Qed.

Lemma filter_remove_one {A} (P Q : A -> Prop) `{forall x, Decision (P x), forall x, Decision (Q x)} (a : A) (l : list A) :
  NoDup l -> a ∈ l -> P a -> (forall x, x ∈ l -> Q x <-> P x /\ x <> a) ->
  length (filter P l) = S (length (filter Q l)).
Proof.
  intros Hnd Hin Ha HQ. induction Hnd as [|c l Hc Hnd IH]; [by apply not_elem_of_nil in Hin|].
  rewrite !filter_cons. pose proof (HQ c ltac:(by left)) as HQc.
  assert (forall x, x ∈ l -> Q x <-> P x /\ x <> a) as HQl by (intros x Hx; apply HQ; by right).
  apply elem_of_cons in Hin as [<-|Hin].
  - rewrite decide_True by done. rewrite decide_False by tauto. cbn [length]. f_equal. f_equal.
    apply filter_iff_in. intros x Hx. rewrite HQl by done. split; [|tauto]. intros HP. split; [done|]. by intros ->.
  - assert (c <> a) as Hca by (by intros ->). specialize (IH Hin HQl).
    destruct (decide (P c)), (decide (Q c)); cbn [length]; rewrite ?IH; tauto || done.
Qed.

Lemma filter_Forall {A} (P : A -> Prop) `{forall x, Decision (P x)} (l : list A) : Forall P l -> filter P l = l.
Proof. induction 1; [done|]. rewrite filter_cons_True by done. by f_equal. Qed.

Lemma snoc_cases {A} (l : list A) : l = [] \/ exists l' x, l = l' ++ [x].
Proof. destruct l using rev_ind; [by left|right; eauto]. Qed.

(** The C string in an array of characters. *)
Fixpoint cstr (b : list Z) : list Z :=
  match b with c :: b => if c =? 0 then [] else c :: cstr b | [] => [] end.
