(* ===== verification/Mem.v ===== *)
(** Byte-addressed memory of the machine, as the kernel sees it through its
    own page table: little-endian loads and stores of one and four bytes, and
    the two string-store instructions of x86.h. *)
From S2P Require Import Prelude.

(** Memory maps an address to a byte; an address never written reads as 0. *)
Abbreviation mem := (gmap Z Z).

Definition ld8 (m : mem) (a : Z) : Z := u8 (default 0 (m !! a)).

Definition st8 (m : mem) (a v : Z) : mem := <[a := u8 v]> m.

Definition ld32 (m : mem) (a : Z) : Z :=
  ld8 m a + 256 * ld8 m (a + 1) + 65536 * ld8 m (a + 2) + 16777216 * ld8 m (a + 3).

Definition st32 (m : mem) (a v : Z) : mem :=
  st8 (st8 (st8 (st8 m a v) (a + 1) (v / 256)) (a + 2) (v / 65536)) (a + 3) (v / 16777216).

Definition ld16 (m : mem) (a : Z) : Z := ld8 m a + 256 * ld8 m (a + 1).

Definition st16 (m : mem) (a v : Z) : mem := st8 (st8 m a v) (a + 1) (v / 256).

(** x86.h: [rep stosb] stores the low byte of [data] at [cnt] addresses. *)
Fixpoint rep_stosb (m : mem) (addr data : Z) (cnt : nat) : mem :=
  match cnt with
  | O => m
  | S k => rep_stosb (st8 m addr data) (addr + 1) data k
  end.

Definition stosb (m : mem) (addr data cnt : Z) : mem :=
  rep_stosb m addr data (Z.to_nat (u32 cnt)).

(** x86.h: [rep stosl] stores the word [data] at [cnt] consecutive words. *)
Fixpoint rep_stosl (m : mem) (addr data : Z) (cnt : nat) : mem :=
  match cnt with
  | O => m
  | S k => rep_stosl (st32 m addr data) (addr + 4) data k
  end.

Definition stosl (m : mem) (addr data cnt : Z) : mem :=
  rep_stosl m addr data (Z.to_nat (u32 cnt)).

(** * Loads after stores *)

Lemma ld8_range m a : 0 <= ld8 m a < 256.
Proof. apply u8_range. Qed.

Lemma ld8_st8 m a b v : ld8 (st8 m a v) b = if decide (a = b) then u8 v else ld8 m b.
Proof.
  unfold ld8, st8. rewrite lookup_insert. case_decide; [simpl|done]. apply u8_u8.
Qed.

Lemma ld8_st8_eq m a v : ld8 (st8 m a v) a = u8 v.
Proof. rewrite ld8_st8, decide_True by done. done. Qed.

Lemma ld8_st8_ne m a b v : a <> b -> ld8 (st8 m a v) b = ld8 m b.
Proof. intros. rewrite ld8_st8, decide_False by done. done. Qed.

Lemma ld32_range m a : 0 <= ld32 m a < 4294967296.
Proof.
  unfold ld32.
  pose proof (ld8_range m a). pose proof (ld8_range m (a + 1)).
  pose proof (ld8_range m (a + 2)). pose proof (ld8_range m (a + 3)). lia.
Qed.

Lemma ld8_st32_ne m a b v : (b < a \/ a + 4 <= b) -> ld8 (st32 m a v) b = ld8 m b.
Proof. intros. unfold st32. rewrite !ld8_st8_ne by lia. done. Qed.

(** Byte [i] of a stored word. *)
Lemma ld8_st32 m a v b :
  ld8 (st32 m a v) b = if decide (a <= b < a + 4) then u8 (v / 2 ^ (8 * (b - a))) else ld8 m b.
Proof.
  case_decide as H; [|apply ld8_st32_ne; lia].
  assert (b = a \/ b = a + 1 \/ b = a + 2 \/ b = a + 3) as [->|[->|[->| ->]]] by lia;
    unfold st32.
  - rewrite Z.sub_diag, Z.mul_0_r, Z.pow_0_r, Z.div_1_r. rewrite 3!ld8_st8_ne by lia.
    apply ld8_st8_eq.
  - replace (a + 1 - a) with 1 by lia. rewrite 2!ld8_st8_ne by lia. apply ld8_st8_eq.
  - replace (a + 2 - a) with 2 by lia. rewrite ld8_st8_ne by lia. apply ld8_st8_eq.
  - replace (a + 3 - a) with 3 by lia. apply ld8_st8_eq.
Qed.

Lemma ld32_st32_eq m a v : ld32 (st32 m a v) a = u32 v.
Proof.
  unfold ld32. rewrite !ld8_st32, !decide_True by lia.
  replace (a - a) with 0 by lia. replace (a + 1 - a) with 1 by lia.
  replace (a + 2 - a) with 2 by lia. replace (a + 3 - a) with 3 by lia.
  change (2 ^ (8 * 0)) with 1. change (2 ^ (8 * 1)) with 256.
  change (2 ^ (8 * 2)) with 65536. change (2 ^ (8 * 3)) with 16777216.
  zlia.
Qed.

Lemma ld32_st32_ne m a b v : (b + 4 <= a \/ a + 4 <= b) -> ld32 (st32 m a v) b = ld32 m b.
Proof. intros. unfold ld32. rewrite !ld8_st32_ne by lia. done. Qed.

(** A word is determined by its four bytes. *)
Lemma ld32_ext m m' a b :
  (forall i, 0 <= i < 4 -> ld8 m (a + i) = ld8 m' (b + i)) -> ld32 m a = ld32 m' b.
Proof.
  intros H. unfold ld32.
  pose proof (H 0 ltac:(lia)) as H0. rewrite !Z.add_0_r in H0.
  rewrite H0, (H 1), (H 2), (H 3) by lia. done.
Qed.

Lemma ld16_range m a : 0 <= ld16 m a < 65536.
Proof. unfold ld16. pose proof (ld8_range m a). pose proof (ld8_range m (a + 1)). lia. Qed.

Lemma ld16_st16_eq m a v : ld16 (st16 m a v) a = u16 v.
Proof.
  unfold ld16, st16. rewrite ld8_st8_ne, !ld8_st8_eq by lia. unfold u8, u16.
  Z.to_euclidean_division_equations. lia.
Qed.

(** * String stores *)

Lemma ld8_rep_stosb cnt m a c b :
  ld8 (rep_stosb m a c cnt) b =
    if decide (a <= b < a + Z.of_nat cnt) then u8 c else ld8 m b.
Proof.
  revert m a. induction cnt as [|k IH]; intros m a; cbn [rep_stosb].
  - rewrite decide_False by lia. done.
  - rewrite IH, ld8_st8. repeat case_decide; done || lia.
Qed.

(** The byte of a word that repeats [c] four times. *)
Lemma ld8_rep_stosl cnt m a c b :
  0 <= c < 256 ->
  ld8 (rep_stosl m a (c * 16777216 + c * 65536 + c * 256 + c) cnt) b =
    if decide (a <= b < a + 4 * Z.of_nat cnt) then c else ld8 m b.
Proof.
  intros Hc. revert m a. induction cnt as [|k IH]; intros m a; cbn [rep_stosl].
  - rewrite decide_False by lia. done.
  - rewrite IH, ld8_st32. repeat case_decide; try done; try lia.
    assert (b - a = 0 \/ b - a = 1 \/ b - a = 2 \/ b - a = 3) as Hi by lia.
    unfold u8. destruct Hi as [-> | [-> | [-> | ->]]];
    [change (2 ^ (8 * 0)) with 1 | change (2 ^ (8 * 1)) with 256
     | change (2 ^ (8 * 2)) with 65536 | change (2 ^ (8 * 3)) with 16777216];
    Z.to_euclidean_division_equations; lia.
Qed.
