(* ===== verification/KString.v ===== *)
(** string.c: the kernel's memory and string routines, over the byte memory
    of [Mem].  Pointers are addresses; a routine that writes returns the new
    memory.  The routines that scan to a terminating NUL take the number of
    bytes to look at as fuel. *)
From S2P Require Import Prelude Mem.

Definition memset (m : mem) (dst c n : Z) : mem :=
  if (Z.rem (s32 dst) 4 =? 0) && (n mod 4 =? 0) then
    let c := Z.land c 255 in
    stosl m dst (Z.lor (Z.lor (Z.lor (Z.shiftl c 24) (Z.shiftl c 16)) (Z.shiftl c 8)) c) (n / 4)
  else stosb m dst c n.

Fixpoint memcmp_loop (m : mem) (s1 s2 : Z) (n : nat) : Z :=
  match n with
  | O => 0
  | S k =>
      if negb (ld8 m s1 =? ld8 m s2) then ld8 m s1 - ld8 m s2
      else memcmp_loop m (s1 + 1) (s2 + 1) k
  end.

Definition memcmp (m : mem) (v1 v2 n : Z) : Z := memcmp_loop m v1 v2 (Z.to_nat n).

(** The loop that copies upwards: [*d++ = *s++]. *)
Fixpoint copy_up (m : mem) (d s : Z) (n : nat) : mem :=
  match n with
  | O => m
  | S k => copy_up (st8 m d (ld8 m s)) (d + 1) (s + 1) k
  end.

(** The loop that copies downwards: [*--d = *--s]. *)
Fixpoint copy_down (m : mem) (d s : Z) (n : nat) : mem :=
  match n with
  | O => m
  | S k => copy_down (st8 m (d - 1) (ld8 m (s - 1))) (d - 1) (s - 1) k
  end.

Definition memmove (m : mem) (dst src n : Z) : mem :=
  if (src <? dst) && (dst <? src + n) then copy_down m (dst + n) (src + n) (Z.to_nat n)
  else copy_up m dst src (Z.to_nat n).

Definition memcpy (m : mem) (dst src n : Z) : mem := memmove m dst src n.

Fixpoint strncmp_loop (m : mem) (p q : Z) (n : nat) : Z :=
  match n with
  | O => 0
  | S k =>
      if negb (ld8 m p =? 0) && (ld8 m p =? ld8 m q) then strncmp_loop m (p + 1) (q + 1) k
      else ld8 m p - ld8 m q
  end.

Definition strncmp (m : mem) (p q n : Z) : Z := strncmp_loop m p q (Z.to_nat n).

(** [while(n-- > 0) *s++ = 0;] *)
Fixpoint strncpy_pad (m : mem) (s : Z) (n : nat) : mem :=
  match n with
  | O => m
  | S k => strncpy_pad (st8 m s 0) (s + 1) k
  end.

(** [while(n-- > 0 && ( *s++ = *t++) != 0);] followed by the padding loop. *)
Fixpoint strncpy_loop (m : mem) (s t : Z) (n : nat) : mem :=
  match n with
  | O => m
  | S k =>
      let c := ld8 m t in
      let m := st8 m s c in
      if c =? 0 then strncpy_pad m (s + 1) k else strncpy_loop m (s + 1) (t + 1) k
  end.

Definition strncpy (m : mem) (s t n : Z) : mem := strncpy_loop m s t (Z.to_nat n).

(** [while(--n > 0 && ( *s++ = *t++) != 0);  *s = 0;] with [k] = [n - 1]. *)
Fixpoint safestrcpy_loop (m : mem) (s t : Z) (k : nat) : mem :=
  match k with
  | O => st8 m s 0
  | S j =>
      let c := ld8 m t in
      let m := st8 m s c in
      if c =? 0 then st8 m (s + 1) 0 else safestrcpy_loop m (s + 1) (t + 1) j
  end.

Definition safestrcpy (m : mem) (s t n : Z) : mem :=
  if n <=? 0 then m else safestrcpy_loop m s t (Z.to_nat (n - 1)).

(** [for(n = 0; s[n]; n++);] looking at no more than [fuel] bytes. *)
Fixpoint strlen_loop (m : mem) (s n : Z) (fuel : nat) : option Z :=
  match fuel with
  | O => None
  | S k => if ld8 m (s + n) =? 0 then Some n else strlen_loop m s (n + 1) k
  end.

Definition strlen (m : mem) (s : Z) (fuel : nat) : option Z := strlen_loop m s 0 fuel.

(** * Specification vocabulary *)

(** The [n] bytes at [a]. *)
Fixpoint bytes_at (m : mem) (a : Z) (n : nat) : list Z :=
  match n with
  | O => []
  | S k => ld8 m a :: bytes_at m (a + 1) k
  end.

(** The characters of the string at [a], looking at no more than [n] bytes. *)
Fixpoint cstring (m : mem) (a : Z) (n : nat) : list Z :=
  match n with
  | O => []
  | S k => if ld8 m a =? 0 then [] else ld8 m a :: cstring m (a + 1) k
  end.

(** * Lemmas *)

Lemma ld8_copy_up n m d s b :
  (d <= s \/ s + Z.of_nat n <= d) ->
  ld8 (copy_up m d s n) b =
    if decide (d <= b < d + Z.of_nat n) then ld8 m (s + (b - d)) else ld8 m b.
Proof.
  revert m d s. induction n as [|k IH]; intros m d s H; cbn [copy_up].
  - rewrite decide_False by lia. done.
  - rewrite IH by lia. repeat case_decide; try lia.
    + rewrite ld8_st8_ne by lia. f_equal. lia.
    + replace b with d by lia. rewrite ld8_st8_eq. unfold ld8 at 1. rewrite u8_u8.
      unfold ld8. repeat f_equal. lia.
    + rewrite ld8_st8_ne by lia. done.
Qed.

Lemma ld8_copy_down n m d s b :
  s < d ->
  ld8 (copy_down m d s n) b =
    if decide (d - Z.of_nat n <= b < d) then ld8 m (s + (b - d)) else ld8 m b.
Proof.
  revert m d s. induction n as [|k IH]; intros m d s H; cbn [copy_down].
  - rewrite decide_False by lia. done.
  - rewrite IH by lia. repeat case_decide; try lia.
    + rewrite ld8_st8_ne by lia. f_equal. lia.
    + replace b with (d - 1) by lia. rewrite ld8_st8_eq. unfold ld8 at 1. rewrite u8_u8.
      unfold ld8. repeat f_equal. lia.
    + rewrite ld8_st8_ne by lia. done.
Qed.

Lemma ld8_memmove m dst src n b :
  0 <= n ->
  ld8 (memmove m dst src n) b =
    if decide (dst <= b < dst + n) then ld8 m (src + (b - dst)) else ld8 m b.
Proof.
  intros Hn. unfold memmove. destruct (Z.ltb_spec src dst), (Z.ltb_spec dst (src + n)); simpl.
  - rewrite ld8_copy_down by lia. rewrite Z2Nat.id by lia.
    repeat case_decide; try lia; f_equal; lia.
  - rewrite ld8_copy_up by lia. rewrite Z2Nat.id by lia. done.
  - rewrite ld8_copy_up by lia. rewrite Z2Nat.id by lia. done.
  - rewrite ld8_copy_up by lia. rewrite Z2Nat.id by lia. done.
Qed.

Lemma lor_add x y : Z.land x y = 0 -> Z.lor x y = x + y.
Proof. intros H. pose proof (Z.add_lor_land x y). lia. Qed.

(** The bytes of a word repeating [c] do not overlap. *)
Lemma repeated_byte c :
  0 <= c < 256 ->
  Z.lor (Z.lor (Z.lor (Z.shiftl c 24) (Z.shiftl c 16)) (Z.shiftl c 8)) c =
    c * 16777216 + c * 65536 + c * 256 + c.
Proof.
  intros Hc.
  assert (forallb (fun c => Z.lor (Z.lor (Z.lor (Z.shiftl c 24) (Z.shiftl c 16)) (Z.shiftl c 8)) c
            =? c * 16777216 + c * 65536 + c * 256 + c) (map Z.of_nat (seq 0 256)) = true) as H
    by (vm_compute; done).
  rewrite forallb_forall in H. apply Z.eqb_eq, H, in_map_iff.
  exists (Z.to_nat c). split; [lia|]. apply in_seq. lia.
Qed.

Lemma land_255 c : Z.land c 255 = u8 c.
Proof. change 255 with (Z.ones 8). rewrite Z.land_ones by lia. done. Qed.

Lemma ld8_memset m dst c n b :
  is_u32 n ->
  ld8 (memset m dst c n) b = if decide (dst <= b < dst + n) then u8 c else ld8 m b.
Proof.
  intros Hn. unfold is_u32 in Hn. unfold memset.
  destruct (Z.rem (s32 dst) 4 =? 0); destruct (Z.eqb_spec (n mod 4) 0) as [E|E]; simpl.
  - rewrite land_255, repeated_byte by auto with word. unfold stosl.
    rewrite ld8_rep_stosl by auto with word.
    rewrite u32_id by zlia. rewrite Z2Nat.id by zlia.
    replace (4 * (n / 4)) with n by zlia. done.
  - unfold stosb. rewrite ld8_rep_stosb, u32_id, Z2Nat.id by (done || lia). done.
  - unfold stosb. rewrite ld8_rep_stosb, u32_id, Z2Nat.id by (done || lia). done.
  - unfold stosb. rewrite ld8_rep_stosb, u32_id, Z2Nat.id by (done || lia). done.
Qed.

Lemma bytes_at_length n m a : length (bytes_at m a n) = n.
Proof. revert a. induction n; intros; cbn [bytes_at length]; auto. Qed.

Lemma bytes_at_ext n m m' a a' :
  (forall i, 0 <= i < Z.of_nat n -> ld8 m (a + i) = ld8 m' (a' + i)) ->
  bytes_at m a n = bytes_at m' a' n.
Proof.
  revert a a'. induction n as [|k IH]; intros a a' H; cbn [bytes_at]; [done|].
  pose proof (H 0 ltac:(lia)) as H0. rewrite !Z.add_0_r in H0. rewrite H0. f_equal.
  apply IH. intros i Hi. rewrite <- !Z.add_assoc. apply H. lia.
Qed.

Lemma cstring_ext n m m' a a' :
  (forall i, 0 <= i < Z.of_nat n -> ld8 m (a + i) = ld8 m' (a' + i)) ->
  cstring m a n = cstring m' a' n.
Proof.
  revert a a'. induction n as [|k IH]; intros a a' H; cbn [cstring]; [done|].
  pose proof (H 0 ltac:(lia)) as H0. rewrite !Z.add_0_r in H0. rewrite H0.
  destruct (ld8 m' a' =? 0); [done|]. f_equal.
  apply IH. intros i Hi. rewrite <- !Z.add_assoc. apply H. lia.
Qed.

Lemma strncmp_loop_zero n m p q :
  strncmp_loop m p q n = 0 <-> cstring m p n = cstring m q n.
Proof.
  revert p q. induction n as [|k IH]; intros p q; cbn [strncmp_loop cstring]; [done|].
  destruct (Z.eqb_spec (ld8 m p) 0) as [E|E]; destruct (Z.eqb_spec (ld8 m p) (ld8 m q)) as [F|F];
    cbn [negb andb].
  - rewrite <- F, E. split; done.
  - destruct (Z.eqb_spec (ld8 m q) 0); [lia|]. split; [lia|done].
  - rewrite IH. destruct (Z.eqb_spec (ld8 m q) 0); [lia|]. rewrite F. split; [by intros ->|]. 
    by intros [= ->].
  - destruct (Z.eqb_spec (ld8 m q) 0); split; try lia; try done. by intros [= ? ?].
Qed.

Lemma ld8_strncpy_pad n m s b :
  ld8 (strncpy_pad m s n) b = if decide (s <= b < s + Z.of_nat n) then 0 else ld8 m b.
Proof.
  revert m s. induction n as [|k IH]; intros m s; cbn [strncpy_pad].
  - rewrite decide_False by lia. done.
  - rewrite IH, ld8_st8. repeat case_decide; try lia; done.
Qed.

(** [strncpy] into a buffer that does not overlap the source writes the string
    followed by zeros up to [n], and nothing else. *)
Lemma ld8_strncpy_loop n m s t b :
  (s + Z.of_nat n <= t \/ t + Z.of_nat n <= s) ->
  ld8 (strncpy_loop m s t n) b =
    if decide (s <= b < s + Z.of_nat n)
    then default 0 (cstring m t n !! Z.to_nat (b - s)) else ld8 m b.
Proof.
  revert m s t. induction n as [|k IH]; intros m s t H; cbn [strncpy_loop cstring].
  - rewrite decide_False by lia. done.
  - destruct (Z.eqb_spec (ld8 m t) 0) as [E|E].
    + rewrite ld8_strncpy_pad, ld8_st8, E. repeat case_decide; try lia; done.
    + rewrite IH by lia.
      rewrite (cstring_ext k _ m (t + 1) (t + 1))
        by (intros; apply ld8_st8_ne; lia).
      repeat case_decide; try lia.
      * replace (Z.to_nat (b - s)) with (S (Z.to_nat (b - (s + 1)))) by lia. done.
      * replace b with s by lia. rewrite Z.sub_diag. simpl. rewrite ld8_st8_eq. unfold ld8. apply u8_u8.
      * apply ld8_st8_ne. lia.
Qed.

Lemma cstring_length n m a : (length (cstring m a n) <= n)%nat.
Proof.
  revert a. induction n as [|k IH]; intros a; cbn [cstring length]; [lia|].
  destruct (_ =? _); simpl; [lia|]. specialize (IH (a + 1)). lia.
Qed.

Lemma strlen_loop_cstring fuel m s n k :
  strlen_loop m s n fuel = Some k -> k = n + Z.of_nat (length (cstring m (s + n) fuel)) /\ ld8 m (s + k) = 0.
Proof.
  revert n. induction fuel as [|f IH]; intros n H; cbn [strlen_loop cstring] in *; [done|].
  destruct (Z.eqb_spec (ld8 m (s + n)) 0) as [E|E].
  - injection H as <-. simpl. split; [lia|done].
  - apply IH in H as [Hk Hz]. rewrite Z.add_assoc in Hk. simpl. split; [|done]. lia.
Qed.
