(* ===== verification/Mmu.v ===== *)
(** mmu.h and memlayout.h: page geometry, the fields of a linear address and
    of a page-table entry, and the kernel's direct map.  The macros work on
    [uint] values; the wrap-around of the 32-bit sums is written out. *)
From S2P Require Import Prelude.

Definition PGSIZE : Z := 4096.
Definition NPDENTRIES : Z := 1024.
Definition NPTENTRIES : Z := 1024.
Definition PTXSHIFT : Z := 12.
Definition PDXSHIFT : Z := 22.

Definition PTE_P : Z := 1.
Definition PTE_W : Z := 2.
Definition PTE_U : Z := 4.

Definition EXTMEM : Z := 1048576.
Definition PHYSTOP : Z := 234881024.
Definition DEVSPACE : Z := 4261412864.
Definition KERNBASE : Z := 2147483648.
Definition MMAPBASE : Z := 1610612736.
Definition KERNLINK : Z := KERNBASE + EXTMEM.

Definition V2P (a : Z) : Z := u32 (a - KERNBASE).
Definition P2V (a : Z) : Z := u32 (a + KERNBASE).

Definition PDX (va : Z) : Z := Z.land (Z.shiftr (u32 va) PDXSHIFT) 1023.
Definition PTX (va : Z) : Z := Z.land (Z.shiftr (u32 va) PTXSHIFT) 1023.

Definition PGADDR (d t o : Z) : Z :=
  u32 (Z.lor (Z.lor (Z.shiftl d PDXSHIFT) (Z.shiftl t PTXSHIFT)) o).

(** [~(PGSIZE-1)] as a [uint]. *)
Definition PGMASK : Z := 4294963200.

Definition PGROUNDUP (sz : Z) : Z := Z.land (u32 (sz + PGSIZE - 1)) PGMASK.
Definition PGROUNDDOWN (a : Z) : Z := Z.land (u32 a) PGMASK.

Definition PTE_ADDR (pte : Z) : Z := Z.land (u32 pte) PGMASK.
Definition PTE_FLAGS (pte : Z) : Z := Z.land (u32 pte) 4095.

(** [x & f] is non-zero, for a flag of one bit. *)
Definition has (x f : Z) : bool := negb (Z.land x f =? 0).

(** traps.h: trap numbers and interrupt lines. *)
Definition T_PGFLT : Z := 14.
Definition T_SYSCALL : Z := 64.
Definition T_IRQ0 : Z := 32.
Definition IRQ_TIMER : Z := 0.
Definition IRQ_KBD : Z := 1.
Definition IRQ_COM1 : Z := 4.
Definition IRQ_IDE : Z := 14.
Definition IRQ_ERROR : Z := 19.
Definition IRQ_SPURIOUS : Z := 31.

(** The offset of [esp] in a trap frame. *)
Definition TF_esp : Z := 68.

(** * Arithmetic reading of the macros *)

Lemma land_PGMASK x : is_u32 x -> Z.land x PGMASK = x - x mod 4096.
Proof.
  unfold is_u32. intros Hx.
  assert (Z.land x PGMASK = Z.ldiff x (Z.ones 12)) as ->.
  { apply Z.bits_inj'. intros n Hn.
    rewrite Z.land_spec, Z.ldiff_spec, (Z.testbit_ones_nonneg 12 n) by lia.
    destruct (Z.ltb_spec n 12).
    - change PGMASK with (Z.shiftl (Z.ones 20) 12).
      rewrite Z.shiftl_spec_low by lia. by rewrite !andb_false_r.
    - destruct (Z.ltb_spec n 32).
      + replace (Z.testbit PGMASK n) with true; [by rewrite !andb_true_r|].
        change PGMASK with (Z.shiftl (Z.ones 20) 12).
        rewrite Z.shiftl_spec, Z.testbit_ones_nonneg by lia. destruct (Z.ltb_spec (n - 12) 20); lia.
      + replace (Z.testbit x n) with false; [done|]. symmetry.
        apply Z.bits_above_log2; [lia|]. destruct (Z.eq_dec x 0) as [->|]; [simpl; lia|].
        apply Z.log2_lt_pow2; [lia|]. apply Z.lt_le_trans with (2 ^ 32); [lia|].
        apply Z.pow_le_mono_r; lia. }
  rewrite Z.ldiff_ones_r, Z.shiftl_mul_pow2, Z.shiftr_div_pow2 by lia.
  change (2 ^ 12) with 4096. zlia.
Qed.

Lemma PGROUNDDOWN_alt a : is_u32 a -> PGROUNDDOWN a = a - a mod 4096.
Proof. intros. unfold PGROUNDDOWN. rewrite u32_id by done. by apply land_PGMASK. Qed.

Lemma PGROUNDUP_alt sz : 0 <= sz < 4294963201 -> PGROUNDUP sz = (sz + 4095) / 4096 * 4096.
Proof.
  intros. unfold PGROUNDUP, PGSIZE. rewrite u32_id by (unfold is_u32; lia).
  rewrite land_PGMASK by (unfold is_u32; lia). zlia.
Qed.

Lemma PTE_ADDR_alt pte : is_u32 pte -> PTE_ADDR pte = pte - pte mod 4096.
Proof. intros. unfold PTE_ADDR. rewrite u32_id by done. by apply land_PGMASK. Qed.

Lemma PTE_FLAGS_alt pte : is_u32 pte -> PTE_FLAGS pte = pte mod 4096.
Proof.
  intros. unfold PTE_FLAGS. rewrite u32_id by done. change 4095 with (Z.ones 12).
  by rewrite Z.land_ones by lia.
Qed.

Lemma land_1023 x : Z.land x 1023 = x mod 1024.
Proof. change 1023 with (Z.ones 10). by rewrite Z.land_ones by lia. Qed.

Lemma PDX_alt va : is_u32 va -> PDX va = va / 4194304.
Proof.
  unfold is_u32. intros. unfold PDX, PDXSHIFT. rewrite u32_id, land_1023, Z.shiftr_div_pow2 by done.
  change (2 ^ 22) with 4194304. zlia.
Qed.

Lemma PTX_alt va : is_u32 va -> PTX va = va / 4096 mod 1024.
Proof.
  intros. unfold PTX, PTXSHIFT. by rewrite u32_id, land_1023, Z.shiftr_div_pow2 by done.
Qed.

Lemma PDX_range va : 0 <= PDX va < 1024.
Proof. unfold PDX. rewrite land_1023. apply Z.mod_pos_bound. lia. Qed.

Lemma PTX_range va : 0 <= PTX va < 1024.
Proof. unfold PTX. rewrite land_1023. apply Z.mod_pos_bound. lia. Qed.

(** Disjoint bit fields: a multiple of [2^n] and a number below [2^n]. *)
Lemma lor_field x y n : 0 <= n -> 0 <= y < 2 ^ n -> Z.lor (x * 2 ^ n) y = x * 2 ^ n + y.
Proof.
  intros Hn Hy. pose proof (Z.add_lor_land (x * 2 ^ n) y) as H.
  assert (Z.land (x * 2 ^ n) y = 0); [|lia].
  apply Z.bits_inj'. intros i Hi. rewrite Z.land_spec, Z.bits_0.
  destruct (Z.ltb_spec i n).
  - rewrite Z.mul_pow2_bits_low by lia. done.
  - replace (Z.testbit y i) with false; [by rewrite andb_false_r|]. symmetry.
    destruct (Z.eq_dec y 0) as [->|]; [apply Z.bits_0|].
    apply Z.bits_above_log2; [lia|]. apply Z.log2_lt_pow2; [lia|].
    apply Z.lt_le_trans with (2 ^ n); [lia|]. apply Z.pow_le_mono_r; lia.
Qed.

Lemma PGADDR_alt d t o :
  0 <= d < 1024 -> 0 <= t < 1024 -> 0 <= o < 4096 -> PGADDR d t o = d * 4194304 + t * 4096 + o.
Proof.
  intros. unfold PGADDR, PDXSHIFT, PTXSHIFT. rewrite !Z.shiftl_mul_pow2 by lia.
  rewrite (lor_field d (t * 2 ^ 12) 22) by (change (2 ^ 12) with 4096; change (2 ^ 22) with 4194304; lia).
  change (2 ^ 22) with (1024 * 2 ^ 12). rewrite Z.mul_assoc, <- Z.mul_add_distr_r.
  rewrite lor_field by (change (2 ^ 12) with 4096; lia).
  change (2 ^ 12) with 4096. rewrite u32_id by (unfold is_u32; lia). lia.
Qed.

(** An entry built from an aligned frame and flags below [PGSIZE]. *)
Lemma pte_build pa flags :
  is_u32 pa -> pa mod 4096 = 0 -> 0 <= flags < 4096 ->
  Z.lor pa flags = pa + flags /\ is_u32 (pa + flags).
Proof.
  unfold is_u32. intros Hp Ha Hf. split; [|zlia].
  replace pa with (pa / 4096 * 2 ^ 12) at 1 2 by (change (2 ^ 12) with 4096; zlia).
  rewrite lor_field by (change (2 ^ 12) with 4096; lia). done.
Qed.

Lemma PTE_ADDR_add pa f :
  is_u32 pa -> pa mod 4096 = 0 -> 0 <= f < 4096 -> PTE_ADDR (pa + f) = pa.
Proof. intros. rewrite PTE_ADDR_alt by zlia. zlia. Qed.

Lemma PTE_FLAGS_add pa f :
  is_u32 pa -> pa mod 4096 = 0 -> 0 <= f < 4096 -> PTE_FLAGS (pa + f) = f.
Proof. intros. rewrite PTE_FLAGS_alt by zlia. zlia. Qed.

(** A flag of the low twelve bits is read from the flags part. *)
Lemma has_add pa f b :
  pa mod 4096 = 0 -> 0 <= f < 4096 -> 0 <= b < 4096 -> has (pa + f) b = has f b.
Proof.
  intros Ha Hf Hb. unfold has. do 2 f_equal.
  replace (pa + f) with (pa / 4096 * 2 ^ 12 + f) by (change (2 ^ 12) with 4096; zlia).
  rewrite <- lor_field by (change (2 ^ 12) with 4096; lia).
  rewrite Z.land_lor_distr_l.
  replace (Z.land (pa / 4096 * 2 ^ 12) b) with 0; [done|]. symmetry.
  pose proof (lor_field (pa / 4096) b 12 ltac:(lia) ltac:(change (2 ^ 12) with 4096; lia)).
  pose proof (Z.add_lor_land (pa / 4096 * 2 ^ 12) b). lia.
Qed.

Lemma V2P_P2V a : is_u32 a -> V2P (P2V a) = a.
Proof. unfold V2P, P2V, KERNBASE. intros. zlia. Qed.

Lemma P2V_V2P a : is_u32 a -> P2V (V2P a) = a.
Proof. unfold V2P, P2V, KERNBASE. intros. zlia. Qed.

Lemma has_true_bit x f : has x f = true <-> Z.land x f <> 0.
Proof. unfold has. destruct (Z.eqb_spec (Z.land x f) 0); simpl; split; done. Qed.
