(* ===== verification/Kalloc.v ===== *)
(** kalloc.c: the allocator of 4096-byte physical pages.  The free list is
    threaded through the free pages themselves, as in the source: the first
    word of a free page is the address of the next one.  The section
    parameter [kend] is the linker symbol [end] of kernel.ld, the first
    address after the loaded kernel.  The critical sections on [kmem.lock]
    are atomic steps of this model. *)
From S2P Require Import Prelude Mem KString Mmu.

(** Kernel memory together with [kmem]. *)
Record kst := Kst { kmem_mem : mem; freelist : Z; use_lock : bool }.

Definition set_mem (m : mem) (s : kst) : kst := Kst m (freelist s) (use_lock s).

Definition kalloc (s : kst) : Z * kst :=
  let r := freelist s in
  if r =? 0 then (r, s)
  else (r, Kst (kmem_mem s) (ld32 (kmem_mem s) r) (use_lock s)).

Section Kalloc.
Context (kend : Z).

Definition kfree (v : Z) (s : kst) : outcome kst :=
  if negb (v mod PGSIZE =? 0) || (v <? kend) || (PHYSTOP <=? V2P v) then Panic "kfree"
  else
    let m := memset (kmem_mem s) v 1 PGSIZE in
    let m := st32 m v (freelist s) in
    Ok (Kst m v (use_lock s)).

Fixpoint freerange_loop (fuel : nat) (p vend : Z) (s : kst) : outcome kst :=
  if p + PGSIZE <=? vend then
    match fuel with
    | O => UB "freerange: out of fuel"
    | S k => let! s := kfree p s in freerange_loop k (p + PGSIZE) vend s
    end
  else Ok s.

Definition freerange (vstart vend : Z) (s : kst) : outcome kst :=
  let p := PGROUNDUP vstart in
  freerange_loop (Z.to_nat ((vend - p) / PGSIZE)) p vend s.

Definition kinit1 (vstart vend : Z) (s : kst) : outcome kst :=
  let s := Kst (kmem_mem s) (freelist s) false in
  freerange vstart vend s.

Definition kinit2 (vstart vend : Z) (s : kst) : outcome kst :=
  let! s := freerange vstart vend s in
  Ok (Kst (kmem_mem s) (freelist s) true).

(** * Specification: the allocator is a stack of free pages *)

(** A page the allocator accepts. *)
Definition page_ok (p : Z) : Prop :=
  is_u32 p /\ p mod 4096 = 0 /\ kend <= p /\ V2P p < PHYSTOP.

Fixpoint flist (m : mem) (head : Z) (l : list Z) : Prop :=
  match l with
  | [] => head = 0
  | p :: l' => head = p /\ flist m (ld32 m p) l'
  end.

(** [l] is the content of the free list of [s]. *)
Record kmem_wf (s : kst) (l : list Z) : Prop := {
  kw_list : flist (kmem_mem s) (freelist s) l;
  kw_nodup : NoDup l;
  kw_pages : Forall page_ok l
}.

(** Two memories agree on the page at [p]. *)
Definition same_page (p : Z) (m m' : mem) : Prop :=
  forall a, p <= a < p + 4096 -> ld8 m' a = ld8 m a.

(** The kernel image starts at KERNLINK (kernel.ld), so the pages handed out
    lie in the kernel's half of the address space. *)
Definition kend_ok : Prop := KERNLINK <= kend.

Lemma page_ok_dec_spec v :
  is_u32 v ->
  (negb (v mod PGSIZE =? 0) || (v <? kend) || (PHYSTOP <=? V2P v) = false) <-> page_ok v.
Proof.
  intros Hv. unfold page_ok, PGSIZE. repeat zcase; simpl; split; intros; try done; try lia; intuition lia.
Qed.

Lemma page_ok_nonzero p : kend_ok -> page_ok p -> p <> 0.
Proof. unfold kend_ok, page_ok, KERNLINK, KERNBASE, EXTMEM. intros ? (?&?&?&?). lia. Qed.

(** The bounds of an allocatable page, in the kernel's direct map. *)
Lemma page_ok_bounds p :
  kend_ok -> page_ok p -> KERNLINK <= p /\ p + 4096 <= KERNBASE + PHYSTOP /\ V2P p = p - KERNBASE.
Proof.
  unfold kend_ok, page_ok, KERNLINK, V2P, KERNBASE, EXTMEM, PHYSTOP. intros ? (?&?&?&?). zlia.
Qed.

Lemma pages_disjoint p q a :
  p mod 4096 = 0 -> q mod 4096 = 0 -> p <> q -> p <= a < p + 4096 -> q <= a < q + 4096 -> False.
Proof. intros. zlia. Qed.

Lemma same_page_ld32 p m m' a :
  same_page p m m' -> p <= a -> a + 4 <= p + 4096 -> ld32 m' a = ld32 m a.
Proof. intros H ? ?. apply ld32_ext. intros i Hi. apply H. lia. Qed.

Lemma same_page_refl p m : same_page p m m.
Proof. done. Qed.

Lemma same_page_trans p m1 m2 m3 : same_page p m1 m2 -> same_page p m2 m3 -> same_page p m1 m3.
Proof. intros H1 H2 a Ha. rewrite H2, H1 by done. done. Qed.

Lemma same_page_st32 p q m a v :
  p mod 4096 = 0 -> q mod 4096 = 0 -> p <> q -> p <= a -> a + 4 <= p + 4096 ->
  same_page q m (st32 m a v).
Proof. intros. intros b Hb. apply ld8_st32_ne. zlia. Qed.

Lemma same_page_memset p q m c :
  p mod 4096 = 0 -> q mod 4096 = 0 -> p <> q -> same_page q m (memset m p c PGSIZE).
Proof.
  intros ? ? ? b Hb. rewrite ld8_memset by (unfold is_u32, PGSIZE; lia).
  rewrite decide_False; [done|]. unfold PGSIZE. zlia.
Qed.

Lemma flist_ext m m' l : forall head,
  Forall (fun p => same_page p m m') l -> flist m head l -> flist m' head l.
Proof.
  induction l as [|p l IH]; intros head HF H; simpl in *; [done|].
  apply Forall_cons in HF as [Hp HF]. destruct H as [-> H]. split; [done|].
  rewrite (same_page_ld32 p m) by (done || lia). auto.
Qed.

(** Writes outside the free pages do not disturb the free list. *)
Lemma kmem_wf_frame s m' l :
  kmem_wf s l -> Forall (fun p => same_page p (kmem_mem s) m') l -> kmem_wf (set_mem m' s) l.
Proof.
  intros [H1 H2 H3] HF. split; [|done|done]. simpl. by eapply flist_ext.
Qed.

Lemma kalloc_empty s : kmem_wf s [] -> kalloc s = (0, s).
Proof. intros [H _ _]. simpl in H. unfold kalloc. by rewrite H. Qed.

Lemma kalloc_cons s p l :
  kend_ok -> kmem_wf s (p :: l) ->
  exists s', kalloc s = (p, s') /\ kmem_mem s' = kmem_mem s /\ kmem_wf s' l /\ page_ok p /\ p ∉ l
    /\ use_lock s' = use_lock s.
Proof.
  intros Hk [[Hh Ht] Hn Hp]. apply Forall_cons in Hp as [Hp Hl].
  apply NoDup_cons in Hn as [Hin Hn]. unfold kalloc. rewrite Hh.
  destruct (Z.eqb_spec p 0) as [->|]; [by apply page_ok_nonzero in Hp|].
  eexists. split; [done|]. split; [done|]. split; [by split|]. done.
Qed.

Lemma kfree_ok s v l :
  kend_ok -> kmem_wf s l -> page_ok v -> v ∉ l ->
  exists s', kfree v s = Ok s' /\ kmem_wf s' (v :: l)
    /\ (forall q, q mod 4096 = 0 -> q <> v -> same_page q (kmem_mem s) (kmem_mem s'))
    /\ use_lock s' = use_lock s.
Proof.
  intros Hk [H1 H2 H3] Hv Hin. pose proof Hv as (Hu & Ha & _).
  unfold kfree. rewrite (proj2 (page_ok_dec_spec v Hu) Hv). eexists. split; [done|].
  assert (forall q, q mod 4096 = 0 -> q <> v ->
    same_page q (kmem_mem s) (st32 (memset (kmem_mem s) v 1 PGSIZE) v (freelist s))) as HF.
  { intros q Hq Hne. eapply same_page_trans; [by apply (same_page_memset v)|].
    apply (same_page_st32 v); lia || done. }
  split; [|done]. split; simpl.
  - split; [done|]. rewrite ld32_st32_eq.
    assert (u32 (freelist s) = freelist s) as ->.
    { apply u32_id. destruct l as [|p l]; simpl in H1; [rewrite H1; done|].
      destruct H1 as [-> _]. apply Forall_cons in H3 as [(?&_) _]. done. }
    eapply flist_ext; [|done]. rewrite Forall_forall in H3 |- *. intros p Hp. apply HF.
    + by apply H3 in Hp as (?&?&?).
    + intros ->. done.
  - by apply NoDup_cons.
  - by apply Forall_cons.
Qed.

Lemma kfree_bad s v : is_u32 v -> ~ page_ok v -> kfree v s = Panic "kfree".
Proof.
  intros Hu Hv. unfold kfree.
  destruct (_ || _) eqn:E; [done|]. by apply page_ok_dec_spec in E.
Qed.

(** The pages [p], [p + 4096], ... in the order [freerange] pushes them. *)
Fixpoint pages_from (p : Z) (n : nat) : list Z :=
  match n with
  | O => []
  | S k => p :: pages_from (p + PGSIZE) k
  end.

Lemma elem_of_pages_from n p q :
  q ∈ pages_from p n <-> exists i, 0 <= i < Z.of_nat n /\ q = p + i * 4096.
Proof.
  revert p. induction n as [|k IH]; intros p; cbn [pages_from].
  - split; [by intros ?%not_elem_of_nil|]. intros (i & ? & _). lia.
  - rewrite elem_of_cons, IH. unfold PGSIZE. split.
    + intros [->|(i & Hi & ->)]; [exists 0|exists (i + 1)]; lia.
    + intros (i & Hi & ->). destruct (Z.eq_dec i 0) as [->|]; [left; lia|].
      right. exists (i - 1). lia.
Qed.

Lemma freerange_loop_ok fuel p vend s l :
  kend_ok -> kmem_wf s l -> p mod 4096 = 0 -> kend <= p -> vend <= KERNBASE + PHYSTOP ->
  Z.of_nat fuel = (vend - p) / PGSIZE ->
  (forall q, q ∈ pages_from p fuel -> q ∉ l) ->
  exists s', freerange_loop fuel p vend s = Ok s' /\ kmem_wf s' (rev (pages_from p fuel) ++ l)
    /\ use_lock s' = use_lock s.
Proof.
  unfold kend_ok, KERNLINK, KERNBASE, PHYSTOP, EXTMEM.
  intros Hk. revert p s l. induction fuel as [|k IH]; intros p s l Hw Ha Hge Hend Hf Hd; unfold PGSIZE in *.
  - simpl. destruct (Z.leb_spec (p + PGSIZE) vend) as [H|H]; unfold PGSIZE in *; [zlia|]. eauto.
  - cbn [freerange_loop]. destruct (Z.leb_spec (p + PGSIZE) vend) as [H|H]; unfold PGSIZE in *; [|zlia].
    assert (page_ok p) as Hp.
    { unfold page_ok, V2P, PHYSTOP, KERNBASE. zlia. }
    destruct (kfree_ok s p l Hk Hw Hp) as (s1 & -> & Hw1 & _ & Hul).
    { apply Hd. cbn. apply elem_of_cons. by left. }
    cbn [obind]. destruct (IH (p + 4096) s1 (p :: l)) as (s' & -> & Hw' & Hul'); try done; try zlia.
    + intros q Hq. rewrite not_elem_of_cons. split.
      * apply elem_of_pages_from in Hq as (i & ? & ->). lia.
      * apply Hd. cbn. apply elem_of_cons. by right.
    + exists s'. split; [done|]. cbn [pages_from]. simpl. rewrite <- app_assoc. simpl. split; [done|]. congruence.
Qed.

End Kalloc.
