(* ===== verification/Vm.v ===== *)
(** vm.c: two-level page tables over the memory of [Kalloc].  A page table is
    the address [pgdir] of its directory page; entries are words of memory, so
    table pages, user frames and free pages share one store, as in the kernel.
    The section parameters are the linker symbols [end] ([kend]) and [data]
    ([kdata]).  Messages printed with [cprintf] are not part of the state. *)
From S2P Require Import Prelude Mem KString Mmu Kalloc.

(** The address of the entry for [va], or 0. *)
Definition walkpgdir (pgdir va : Z) (alloc : bool) (s : kst) : Z * kst :=
  let pde := pgdir + 4 * PDX va in
  let e := ld32 (kmem_mem s) pde in
  if has e PTE_P then (P2V (PTE_ADDR e) + 4 * PTX va, s)
  else if negb alloc then (0, s)
  else
    let '(pgtab, s) := kalloc s in
    if pgtab =? 0 then (0, s)
    else
      let m := memset (kmem_mem s) pgtab 0 PGSIZE in
      let m := st32 m pde (Z.lor (Z.lor (Z.lor (V2P pgtab) PTE_P) PTE_W) PTE_U) in
      (pgtab + 4 * PTX va, set_mem m s).

Fixpoint mappages_loop (fuel : nat) (pgdir a last pa perm : Z) (s : kst) : outcome (Z * kst) :=
  match fuel with
  | O => UB "mappages: out of fuel"
  | S k =>
      let '(pte, s) := walkpgdir pgdir a true s in
      if pte =? 0 then Ok (-1, s)
      else if has (ld32 (kmem_mem s) pte) PTE_P then Ok (-1, s)
      else
        let s := set_mem (st32 (kmem_mem s) pte (Z.lor (Z.lor pa perm) PTE_P)) s in
        if a =? last then Ok (0, s)
        else mappages_loop k pgdir (u32 (a + PGSIZE)) last (u32 (pa + PGSIZE)) perm s
  end.

(** The loop runs once for each page from [a] to [last], through the wrap of
    the address space when [last] is below [a]. *)
Definition mappages (pgdir va size pa perm : Z) (s : kst) : outcome (Z * kst) :=
  let a := PGROUNDDOWN va in
  let last := PGROUNDDOWN (u32 (va + size - 1)) in
  mappages_loop (S (Z.to_nat (u32 (last - a) / PGSIZE))) pgdir a last pa perm s.

Section Vm.
Context (kend kdata : Z).

Fixpoint deallocuvm_loop (fuel : nat) (pgdir a oldsz : Z) (s : kst) : outcome kst :=
  if a <? oldsz then
    match fuel with
    | O => UB "deallocuvm: out of fuel"
    | S k =>
        let '(pte, s) := walkpgdir pgdir a false s in
        if pte =? 0 then
          let a := u32 (PGADDR (PDX a + 1) 0 0 - PGSIZE) in
          deallocuvm_loop k pgdir (u32 (a + PGSIZE)) oldsz s
        else if has (ld32 (kmem_mem s) pte) PTE_P then
          let pa := PTE_ADDR (ld32 (kmem_mem s) pte) in
          if pa =? 0 then Panic "kfree"
          else
            let! s := kfree kend (P2V pa) s in
            let s := set_mem (st32 (kmem_mem s) pte 0) s in
            deallocuvm_loop k pgdir (u32 (a + PGSIZE)) oldsz s
        else deallocuvm_loop k pgdir (u32 (a + PGSIZE)) oldsz s
    end
  else Ok s.

Definition deallocuvm (pgdir oldsz newsz : Z) (s : kst) : outcome (Z * kst) :=
  if oldsz <=? newsz then Ok (oldsz, s)
  else
    let a := PGROUNDUP newsz in
    let! s := deallocuvm_loop (Z.to_nat (oldsz / PGSIZE + 1)) pgdir a oldsz s in
    Ok (newsz, s).

Fixpoint allocuvm_loop (fuel : nat) (pgdir a oldsz newsz : Z) (s : kst) : outcome (Z * kst) :=
  if a <? newsz then
    match fuel with
    | O => UB "allocuvm: out of fuel"
    | S k =>
        let '(mp, s) := kalloc s in
        if mp =? 0 then
          let! (_, s) := deallocuvm pgdir newsz oldsz s in Ok (0, s)
        else
          let s := set_mem (memset (kmem_mem s) mp 0 PGSIZE) s in
          let! (r, s) := mappages pgdir a PGSIZE (V2P mp) (Z.lor PTE_W PTE_U) s in
          if r <? 0 then
            let! (_, s) := deallocuvm pgdir newsz oldsz s in
            let! s := kfree kend mp s in
            Ok (0, s)
          else allocuvm_loop k pgdir (u32 (a + PGSIZE)) oldsz newsz s
    end
  else Ok (newsz, s).

Definition allocuvm (pgdir oldsz newsz : Z) (s : kst) : outcome (Z * kst) :=
  if KERNBASE <=? newsz then Ok (0, s)
  else if newsz <? oldsz then Ok (oldsz, s)
  else allocuvm_loop (Z.to_nat (newsz / PGSIZE + 1)) pgdir (PGROUNDUP oldsz) oldsz newsz s.

(** [for(i = 0; i < NPDENTRIES; i++)] of [freevm], from [i] with [n] to go. *)
Fixpoint freevm_loop (n : nat) (pgdir i : Z) (s : kst) : outcome kst :=
  match n with
  | O => Ok s
  | S k =>
      let e := ld32 (kmem_mem s) (pgdir + 4 * i) in
      let! s := (if has e PTE_P then kfree kend (P2V (PTE_ADDR e)) s else Ok s) in
      freevm_loop k pgdir (i + 1) s
  end.

Definition freevm (pgdir : Z) (s : kst) : outcome kst :=
  if pgdir =? 0 then Panic "freevm: no pgdir"
  else
    let! (_, s) := deallocuvm pgdir KERNBASE 0 s in
    let! s := freevm_loop (Z.to_nat NPDENTRIES) pgdir 0 s in
    kfree kend pgdir s.

(** One row of [kmap]: virtual start, physical start and end, permissions. *)
Record kmap_row := Kmap { virt : Z; phys_start : Z; phys_end : Z; kperm : Z }.

Definition kmap : list kmap_row :=
  [ Kmap KERNBASE 0 EXTMEM PTE_W;
    Kmap KERNLINK (V2P KERNLINK) (V2P kdata) 0;
    Kmap kdata (V2P kdata) PHYSTOP PTE_W;
    Kmap DEVSPACE DEVSPACE 0 PTE_W ].

Fixpoint setupkvm_loop (ks : list kmap_row) (pgdir : Z) (s : kst) : outcome (Z * kst) :=
  match ks with
  | [] => Ok (pgdir, s)
  | k :: ks =>
      let! (r, s) := mappages pgdir (virt k) (u32 (phys_end k - phys_start k)) (phys_start k) (kperm k) s in
      if r <? 0 then
        let! s := freevm pgdir s in Ok (0, s)
      else setupkvm_loop ks pgdir s
  end.

Definition setupkvm (s : kst) : outcome (Z * kst) :=
  let '(pgdir, s) := kalloc s in
  if pgdir =? 0 then Ok (0, s)
  else
    let s := set_mem (memset (kmem_mem s) pgdir 0 PGSIZE) s in
    if DEVSPACE <? P2V PHYSTOP then Panic "PHYSTOP too high"
    else setupkvm_loop kmap pgdir s.

Definition inituvm (pgdir init sz : Z) (s : kst) : outcome kst :=
  if PGSIZE <=? sz then Panic "inituvm: more than a page"
  else
    let '(mp, s) := kalloc s in
    if mp =? 0 then UB "inituvm: null page"
    else
      let s := set_mem (memset (kmem_mem s) mp 0 PGSIZE) s in
      let! (_, s) := mappages pgdir 0 PGSIZE (V2P mp) (Z.lor PTE_W PTE_U) s in
      Ok (set_mem (memmove (kmem_mem s) mp init sz) s).

Definition clearpteu (pgdir uva : Z) (s : kst) : outcome kst :=
  let '(pte, s) := walkpgdir pgdir uva false s in
  if pte =? 0 then Panic "clearpteu"
  else Ok (set_mem (st32 (kmem_mem s) pte (Z.ldiff (ld32 (kmem_mem s) pte) PTE_U)) s).

Fixpoint copyuvm_loop (fuel : nat) (pgdir d i sz : Z) (s : kst) : outcome (Z * kst) :=
  if i <? sz then
    match fuel with
    | O => UB "copyuvm: out of fuel"
    | S k =>
        let '(pte, s) := walkpgdir pgdir i false s in
        if pte =? 0 then Panic "copyuvm: pte should exist"
        else
          let e := ld32 (kmem_mem s) pte in
          if negb (has e PTE_P) then Panic "copyuvm: page not present"
          else
            let pa := PTE_ADDR e in
            let flags := PTE_FLAGS e in
            let '(mp, s) := kalloc s in
            if mp =? 0 then let! s := freevm d s in Ok (0, s)
            else
              let s := set_mem (memmove (kmem_mem s) mp (P2V pa) PGSIZE) s in
              let! (r, s) := mappages d i PGSIZE (V2P mp) flags s in
              if r <? 0 then
                let! s := kfree kend mp s in
                let! s := freevm d s in Ok (0, s)
              else copyuvm_loop k pgdir d (u32 (i + PGSIZE)) sz s
    end
  else Ok (d, s).

Definition copyuvm (pgdir sz : Z) (s : kst) : outcome (Z * kst) :=
  let! (d, s) := setupkvm s in
  if d =? 0 then Ok (0, s)
  else copyuvm_loop (Z.to_nat (sz / PGSIZE + 1)) pgdir d 0 sz s.

Definition uva2ka (pgdir uva : Z) (s : kst) : outcome Z :=
  let '(pte, s) := walkpgdir pgdir uva false s in
  if pte =? 0 then UB "uva2ka: null pte"
  else
    let e := ld32 (kmem_mem s) pte in
    if negb (has e PTE_P) then Ok 0
    else if negb (has e PTE_U) then Ok 0
    else Ok (P2V (PTE_ADDR e)).

Fixpoint copyout_loop (fuel : nat) (pgdir va buf len : Z) (s : kst) : outcome (Z * kst) :=
  if 0 <? len then
    match fuel with
    | O => UB "copyout: out of fuel"
    | S k =>
        let va0 := PGROUNDDOWN va in
        let! pa0 := uva2ka pgdir va0 s in
        if pa0 =? 0 then Ok (-1, s)
        else
          let n := PGSIZE - (va - va0) in
          let n := if len <? n then len else n in
          let s := set_mem (memmove (kmem_mem s) (pa0 + (va - va0)) buf n) s in
          copyout_loop k pgdir (u32 (va0 + PGSIZE)) (buf + n) (len - n) s
    end
  else Ok (0, s).

Definition copyout (pgdir va p len : Z) (s : kst) : outcome (Z * kst) :=
  copyout_loop (Z.to_nat len) pgdir va p len s.

End Vm.
