(* ===== verification/VmTheory.v ===== *)
(** Theory of the page tables of [Vm]: the map from virtual pages to entries
    that a table represents, the well-formedness of a table next to the free
    list, and what [walkpgdir] and a store to an entry do to both. *)
From S2P Require Import Prelude Mem KString Mmu Kalloc Vm.

(** * The map a page table represents *)

Definition pde (m : mem) (pgdir i : Z) : Z := ld32 m (pgdir + 4 * i).

(** The page-table page of directory slot [i]. *)
Definition ptp (m : mem) (pgdir i : Z) : Z := P2V (PTE_ADDR (pde m pgdir i)).

Definition pte_addr (m : mem) (pgdir va : Z) : Z := ptp m pgdir (PDX va) + 4 * PTX va.

(** The entry word for [va], when its table page exists. *)
Definition entry (m : mem) (pgdir va : Z) : option Z :=
  if has (pde m pgdir (PDX va)) PTE_P then Some (ld32 m (pte_addr m pgdir va)) else None.

(** The present entry for [va]. *)
Definition mapping (m : mem) (pgdir va : Z) : option Z :=
  match entry m pgdir va with
  | Some e => if has e PTE_P then Some e else None
  | None => None
  end.

Section Theory.
Context (kend : Z) (Hkend : kend_ok kend).

Definition slot (i : Z) : Prop := 0 <= i < 1024.

(** The pages a table is made of. *)
Definition tpage (m : mem) (pgdir q : Z) : Prop :=
  q = pgdir \/ exists i, slot i /\ has (pde m pgdir i) PTE_P = true /\ q = ptp m pgdir i.

(** A table whose pages are distinct, allocatable, and not on the free list. *)
Record pt_wf (m : mem) (l : list Z) (pgdir : Z) : Prop := {
  pw_dir : page_ok kend pgdir;
  pw_dir_l : pgdir ∉ l;
  pw_pt i : slot i -> has (pde m pgdir i) PTE_P = true ->
    page_ok kend (ptp m pgdir i) /\ ptp m pgdir i ∉ l /\ ptp m pgdir i <> pgdir;
  pw_inj i j : slot i -> slot j -> has (pde m pgdir i) PTE_P = true ->
    has (pde m pgdir j) PTE_P = true -> ptp m pgdir i = ptp m pgdir j -> i = j
}.

Lemma tpage_ok m l pgdir q : pt_wf m l pgdir -> tpage m pgdir q -> page_ok kend q /\ q ∉ l.
Proof.
  intros H [->|(i & Hi & Hp & ->)]; [split; apply H|].
  destruct (pw_pt _ _ _ H i Hi Hp) as (?&?&?). done.
Qed.

Lemma page_aligned p : page_ok kend p -> p mod 4096 = 0.
Proof. by intros (?&?&?). Qed.

(** * Frames *)

Lemma pde_frame m m' pgdir i :
  slot i -> same_page pgdir m m' -> pde m' pgdir i = pde m pgdir i.
Proof. intros Hi H. unfold pde. unfold slot in Hi. apply (same_page_ld32 pgdir); [done|lia|lia]. Qed.

Lemma PDX_slot va : slot (PDX va).
Proof. apply PDX_range. Qed.

Lemma ptp_frame m m' pgdir i : slot i -> same_page pgdir m m' -> ptp m' pgdir i = ptp m pgdir i.
Proof. intros. unfold ptp. by rewrite (pde_frame m m'). Qed.

(** A write that spares every page of the table leaves its map alone. *)
Lemma entry_frame m m' pgdir va :
  (forall q, tpage m pgdir q -> same_page q m m') -> entry m' pgdir va = entry m pgdir va.
Proof.
  intros H. assert (same_page pgdir m m') as Hd by (apply H; by left).
  unfold entry, pte_addr. rewrite (pde_frame m m') by (done || apply PDX_slot).
  destruct (has _ _) eqn:E; [|done]. rewrite (ptp_frame m m') by (done || apply PDX_slot).
  f_equal. pose proof (PTX_range va).
  apply (same_page_ld32 (ptp m pgdir (PDX va))); [|lia|lia].
  apply H. right. exists (PDX va). split; [apply PDX_slot|done].
Qed.

Lemma mapping_frame m m' pgdir va :
  (forall q, tpage m pgdir q -> same_page q m m') -> mapping m' pgdir va = mapping m pgdir va.
Proof. intros. unfold mapping. by rewrite (entry_frame m m'). Qed.

Lemma tpage_frame m m' pgdir q :
  same_page pgdir m m' -> tpage m' pgdir q <-> tpage m pgdir q.
Proof.
  intros H. split; (intros [->|(i & Hi & Hp & ->)]; [by left|]; right; exists i).
  - rewrite (pde_frame m m') in Hp by done. rewrite (ptp_frame m m') by done. done.
  - rewrite (pde_frame m m'), (ptp_frame m m') by done. done.
Qed.

Lemma pt_wf_frame m m' l l' pgdir :
  pt_wf m l pgdir -> same_page pgdir m m' ->
  (forall q, tpage m pgdir q -> q ∉ l') -> pt_wf m' l' pgdir.
Proof.
  intros [H1 H2 H3 H4] HF Hl. split.
  - done.
  - apply Hl. by left.
  - intros i Hi Hp. rewrite (pde_frame m m') in Hp by done. rewrite (ptp_frame m m') by done.
    destruct (H3 i Hi Hp) as (?&?&?). split; [done|]. split; [|done].
    apply Hl. right. eauto.
  - intros i j Hi Hj. rewrite !(pde_frame m m'), !(ptp_frame m m') by done. eauto.
Qed.

Lemma pt_wf_sub m l l' pgdir : pt_wf m l pgdir -> (forall q, q ∈ l' -> q ∈ l) -> pt_wf m l' pgdir.
Proof.
  intros H Hl. eapply pt_wf_frame; [done|apply same_page_refl|].
  intros q Hq Hin. apply Hl in Hin. by apply (tpage_ok m l pgdir q H Hq).
Qed.

(** * walkpgdir *)

Lemma pte_addr_nonzero m l pgdir va :
  pt_wf m l pgdir -> has (pde m pgdir (PDX va)) PTE_P = true -> pte_addr m pgdir va <> 0.
Proof.
  intros H Hp. destruct (pw_pt _ _ _ H _ (PDX_slot va) Hp) as (Hok & _).
  apply page_ok_bounds in Hok; [|done]. pose proof (PTX_range va).
  unfold pte_addr. unfold KERNLINK, KERNBASE, EXTMEM in Hok. lia.
Qed.

Lemma walkpgdir_noalloc s l pgdir va :
  pt_wf (kmem_mem s) l pgdir ->
  walkpgdir pgdir va false s =
    (match entry (kmem_mem s) pgdir va with Some _ => pte_addr (kmem_mem s) pgdir va | None => 0 end, s).
Proof.
  intros H. unfold walkpgdir, entry. fold (pde (kmem_mem s) pgdir (PDX va)).
  destruct (has _ _) eqn:E; done.
Qed.

(** The directory entry [walkpgdir] creates points at the new table page. *)
Lemma new_pde p :
  page_ok kend p ->
  let e := Z.lor (Z.lor (Z.lor (V2P p) PTE_P) PTE_W) PTE_U in
  u32 e = V2P p + 7 /\ has (u32 e) PTE_P = true /\ P2V (PTE_ADDR (u32 e)) = p.
Proof.
  intros Hp e. pose proof (page_ok_bounds kend p Hkend Hp) as (Hb & Hb2 & HV).
  assert (is_u32 (V2P p)) as Hu by apply u32_range.
  assert (V2P p mod 4096 = 0) as Ha.
  { apply page_aligned in Hp. rewrite HV. unfold KERNBASE. zlia. }
  assert (e = V2P p + 7) as He.
  { unfold e. rewrite <- !Z.lor_assoc. change (Z.lor PTE_P (Z.lor PTE_W PTE_U)) with 7.
    by apply pte_build. }
  destruct (pte_build (V2P p) 7 Hu Ha ltac:(lia)) as [_ Hu7].
  rewrite He, u32_id by done. split; [done|]. split.
  - rewrite has_add by (done || unfold PTE_P; lia). done.
  - rewrite PTE_ADDR_add by (done || lia). apply P2V_V2P. apply Hp.
Qed.

(** Installing a zeroed table page at slot [i]. *)
Lemma install_table m l pgdir i p :
  pt_wf m (p :: l) pgdir -> slot i -> has (pde m pgdir i) PTE_P = false -> p ∉ l -> page_ok kend p ->
  let m' := st32 (memset m p 0 PGSIZE) (pgdir + 4 * i)
              (Z.lor (Z.lor (Z.lor (V2P p) PTE_P) PTE_W) PTE_U) in
  pt_wf m' l pgdir
  /\ ptp m' pgdir i = p /\ has (pde m' pgdir i) PTE_P = true
  /\ (forall j, slot j -> j <> i -> pde m' pgdir j = pde m pgdir j)
  /\ (forall q, q mod 4096 = 0 -> q <> pgdir -> q <> p -> same_page q m m')
  /\ (forall a, p <= a < p + 4096 -> ld8 m' a = 0).
Proof.
  intros H Hi Hnp Hpl Hp m'.
  destruct (new_pde p Hp) as (_ & HP & HA). set (e := Z.lor _ PTE_U) in *.
  pose proof (page_aligned _ Hp) as Hpa. pose proof (page_aligned _ (pw_dir _ _ _ H)) as Hda.
  assert (pgdir <> p) as Hne.
  { intros ->. apply (pw_dir_l _ _ _ H). by left. }
  assert (forall q, q mod 4096 = 0 -> q <> pgdir -> q <> p -> same_page q m m') as HF.
  { intros q Hq ? ?. eapply same_page_trans; [by apply (same_page_memset p)|].
    unfold slot in Hi. apply (same_page_st32 pgdir); done || lia. }
  assert (pde m' pgdir i = u32 e) as Hpi by (unfold pde, m'; apply ld32_st32_eq).
  assert (forall j, slot j -> j <> i -> pde m' pgdir j = pde m pgdir j) as Hpj.
  { intros j Hj Hji. unfold pde, m'. rewrite ld32_st32_ne by lia.
    unfold slot in *.
    apply (same_page_ld32 pgdir); [by apply (same_page_memset p)|lia|lia]. }
  assert (forall j, slot j -> j <> i -> ptp m' pgdir j = ptp m pgdir j) as Hqj.
  { intros j Hj Hji. unfold ptp. by rewrite Hpj. }
  assert (ptp m' pgdir i = p) as Hqi by (unfold ptp; by rewrite Hpi).
  assert (forall j, slot j -> j <> i -> has (pde m' pgdir j) PTE_P = true ->
    has (pde m pgdir j) PTE_P = true /\ ptp m pgdir j <> p /\ ptp m pgdir j ∉ l
    /\ page_ok kend (ptp m pgdir j) /\ ptp m pgdir j <> pgdir) as Hold.
  { intros j Hj Hji HPj. rewrite Hpj in HPj by done.
    destruct (pw_pt _ _ _ H j Hj HPj) as (? & Hn & ?). rewrite not_elem_of_cons in Hn. tauto. }
  split.
  { split.
    - apply H.
    - pose proof (pw_dir_l _ _ _ H) as Hn. rewrite not_elem_of_cons in Hn. tauto.
    - intros j Hj HPj. destruct (Z.eq_dec j i) as [->|Hji].
      + rewrite Hqi. done.
      + rewrite Hqj by done. apply Hold in HPj as (?&?&?&?&?); done.
    - intros j k Hj Hk HPj HPk Heq.
      destruct (Z.eq_dec j i) as [->|Hji], (Z.eq_dec k i) as [->|Hki]; try done.
      + rewrite Hqi, Hqj in Heq by done. apply Hold in HPk as (?&?&?); done.
      + rewrite Hqi, Hqj in Heq by done. apply Hold in HPj as (?&?&?); done.
      + rewrite !Hqj in Heq by done. apply (pw_inj _ _ _ H); try done; by apply Hold. }
  split; [done|]. split; [by rewrite Hpi|]. split; [done|]. split; [done|].
  intros a Ha. unfold m'. unfold slot in Hi. rewrite ld8_st32_ne by zlia.
  rewrite ld8_memset, decide_True by (unfold is_u32, PGSIZE; lia). done.
Qed.

(** The word [walkpgdir] leaves for [va] in a fresh table page is zero. *)
Lemma ld32_zero m a : (forall b, a <= b < a + 4 -> ld8 m b = 0) -> ld32 m a = 0.
Proof. intros H. unfold ld32. rewrite !H by lia. done. Qed.

Lemma walkpgdir_alloc s l pgdir va :
  kmem_wf kend s l -> pt_wf (kmem_mem s) l pgdir ->
  let '(r, s') := walkpgdir pgdir va true s in
  let m := kmem_mem s in let m' := kmem_mem s' in
  (r = 0 /\ l = [] /\ s' = s /\ entry m pgdir va = None)
  \/ (exists l', r = pte_addr m' pgdir va /\ r <> 0
      /\ kmem_wf kend s' l' /\ pt_wf m' l' pgdir
      /\ (l' = l \/ exists p, l = p :: l')
      /\ entry m' pgdir va = Some (default 0 (entry m pgdir va))
      /\ (forall va', mapping m' pgdir va' = mapping m pgdir va')
      /\ (forall q, q mod 4096 = 0 -> ~ tpage m pgdir q -> q ∉ l -> same_page q m m')
      /\ (forall q, tpage m' pgdir q -> tpage m pgdir q \/ q ∈ l)).
Proof.
  intros Hk Hw. unfold walkpgdir. fold (pde (kmem_mem s) pgdir (PDX va)).
  destruct (has (pde (kmem_mem s) pgdir (PDX va)) PTE_P) eqn:E; cbn [negb].
  { right. exists l. assert (entry (kmem_mem s) pgdir va =
      Some (ld32 (kmem_mem s) (pte_addr (kmem_mem s) pgdir va))) as He.
    { unfold entry. by rewrite E. }
    split; [done|]. split; [by eapply pte_addr_nonzero|]. rewrite He. simpl.
    split; [done|]. split; [done|]. split; [by left|]. split; [done|].
    split; [done|]. split; [intros; apply same_page_refl|]. tauto. }
  assert (entry (kmem_mem s) pgdir va = None) as He by (unfold entry; by rewrite E).
  destruct l as [|p l].
  { rewrite (kalloc_empty kend) by done. cbn. left. done. }
  destruct (kalloc_cons kend s p l Hkend Hk) as (s1 & -> & Hm & Hk1 & Hp & Hpl & _).
  destruct (Z.eqb_spec p 0) as [->|_]; [by apply page_ok_nonzero in Hp|].
  right. exists l. rewrite Hm.
  destruct (install_table (kmem_mem s) l pgdir (PDX va) p) as (Hw' & Hq & HP & Hj & HF & Hz);
    try done; [apply PDX_slot|].
  cbn [kmem_mem set_mem]. set (m' := st32 _ _ _) in *.
  assert (forall va', mapping m' pgdir va' = mapping (kmem_mem s) pgdir va') as HM.
  { intros va'. destruct (Z.eq_dec (PDX va') (PDX va)) as [Heq|Hne].
    - unfold mapping, entry, pte_addr. rewrite Heq, HP, E, Hq.
      pose proof (PTX_range va'). rewrite ld32_zero; [done|]. intros b Hb. apply Hz. lia.
    - unfold mapping, entry, pte_addr, ptp.
      rewrite Hj by (done || apply PDX_slot).
      destruct (has (pde (kmem_mem s) pgdir (PDX va')) PTE_P) eqn:E'; [|done].
      fold (ptp (kmem_mem s) pgdir (PDX va')).
      destruct (pw_pt _ _ _ Hw _ (PDX_slot va') E') as (Hok & Hnl & Hnd).
      rewrite not_elem_of_cons in Hnl. pose proof (PTX_range va').
      rewrite (same_page_ld32 (ptp (kmem_mem s) pgdir (PDX va')) (kmem_mem s)); [done| |lia|lia].
      apply HF; [by apply page_aligned|done|tauto]. }
  unfold pte_addr at 1. rewrite Hq.
  split; [done|]. split.
  { apply page_ok_bounds in Hp; [|done]. unfold KERNLINK, KERNBASE, EXTMEM in Hp.
    pose proof (PTX_range va). lia. }
  split.
  { rewrite <- Hm in *. apply (kmem_wf_frame kend s1 m' l Hk1).
    apply Forall_forall. intros q Hin. destruct Hk1 as [_ _ Hpages]. rewrite Forall_forall in Hpages.
    apply HF; [by apply page_aligned, Hpages| |].
    - intros ->. apply (pw_dir_l _ _ _ Hw). by right.
    - by intros ->. }
  split; [done|]. split; [right; by exists p|]. split.
  { rewrite He. unfold entry, pte_addr. rewrite HP, Hq. simpl. f_equal.
    pose proof (PTX_range va). apply ld32_zero. intros b Hb. apply Hz. lia. }
  split; [done|]. split.
  { intros q Hqa Hnt Hnl. rewrite not_elem_of_cons in Hnl. apply HF; [done| |tauto].
    intros ->. apply Hnt. by left. }
  intros q [->|(i & Hi & HPi & ->)]; [left; by left|].
  destruct (Z.eq_dec i (PDX va)) as [->|Hne]; [right; rewrite Hq; by left|].
  left. right. exists i. unfold ptp. rewrite Hj in HPi |- * by done. done.
Qed.

(** * Storing an entry *)

Lemma same_vpage va va' :
  is_u32 va -> is_u32 va' -> va' / 4096 = va / 4096 <-> PDX va' = PDX va /\ PTX va' = PTX va.
Proof. intros. rewrite !PDX_alt, !PTX_alt by done. zlia. Qed.

Lemma store_entry s l pgdir va old v :
  kmem_wf kend s l -> pt_wf (kmem_mem s) l pgdir -> is_u32 va ->
  entry (kmem_mem s) pgdir va = Some old ->
  let m := kmem_mem s in
  let m' := st32 m (pte_addr m pgdir va) v in
  kmem_wf kend (set_mem m' s) l /\ pt_wf m' l pgdir
  /\ (forall va', is_u32 va' ->
        entry m' pgdir va' = if decide (va' / 4096 = va / 4096) then Some (u32 v) else entry m pgdir va')
  /\ (forall q, q mod 4096 = 0 -> ~ tpage m pgdir q -> same_page q m m')
  /\ (forall q, tpage m' pgdir q <-> tpage m pgdir q).
Proof.
  intros Hk Hw Hva He m m'. unfold entry in He. fold m in He, Hw.
  destruct (has (pde m pgdir (PDX va)) PTE_P) eqn:HP; [|done].
  destruct (pw_pt _ _ _ Hw _ (PDX_slot va) HP) as (Hok & Hnl & Hnd).
  set (t := ptp m pgdir (PDX va)) in *. pose proof (page_aligned _ Hok) as Hta.
  pose proof (PTX_range va) as Hx.
  assert (forall q, q mod 4096 = 0 -> q <> t -> same_page q m m') as HF.
  { intros q Hq Hne. apply (same_page_st32 t); unfold pte_addr; fold t; done || lia. }
  pose proof (page_aligned _ (pw_dir _ _ _ Hw)) as Hda.
  assert (same_page pgdir m m') as Hd by (apply HF; done).
  split.
  { apply kmem_wf_frame; [done|]. apply Forall_forall. intros q Hq.
    destruct Hk as [_ _ Hpages]. rewrite Forall_forall in Hpages.
    apply HF; [by apply page_aligned, Hpages|]. by intros ->. }
  split; [eapply pt_wf_frame; [done|done|]; intros q Hq; by apply (tpage_ok m l pgdir q Hw)|].
  split.
  { intros va' Hva'. unfold entry, pte_addr.
    rewrite (pde_frame m m'), (ptp_frame m m') by (done || apply PDX_slot).
    pose proof (PTX_range va') as Hx'. case_decide as Hc.
    - apply same_vpage in Hc as [Hc1 Hc2]; [|done|done]. rewrite Hc1, Hc2, HP. f_equal.
      fold t. unfold m', pte_addr. fold t. apply ld32_st32_eq.
    - destruct (has (pde m pgdir (PDX va')) PTE_P) eqn:HP'; [|done]. f_equal.
      destruct (Z.eq_dec (PDX va') (PDX va)) as [Heq|Hne].
      + rewrite Heq. fold t. unfold m', pte_addr. fold t.
        assert (PTX va' <> PTX va) by (intros ?; apply Hc; by apply same_vpage).
        apply ld32_st32_ne. lia.
      + apply (same_page_ld32 (ptp m pgdir (PDX va'))); [|lia|lia].
        destruct (pw_pt _ _ _ Hw _ (PDX_slot va') HP') as (Hok' & _).
        apply HF; [by apply page_aligned|]. intros Heq. apply Hne.
        eapply (pw_inj _ _ _ Hw); eauto using PDX_slot. }
  split.
  { intros q Hq Hnt. apply HF; [done|]. intros ->. apply Hnt. right. exists (PDX va).
    split; [apply PDX_slot|done]. }
  intros q. by apply tpage_frame.
Qed.

(** * mappages *)

(** How the memory and the free list change around a table: pages are only
    taken from the free list, and only pages of the table or of the free list
    are written. *)
Record evolves (pgdir : Z) (m : mem) (l : list Z) (m' : mem) (l' : list Z) : Prop := {
  ev_sub q : q ∈ l' -> q ∈ l;
  ev_frame q : q mod 4096 = 0 -> ~ tpage m pgdir q -> q ∉ l -> same_page q m m';
  ev_tpage q : tpage m' pgdir q -> tpage m pgdir q \/ q ∈ l
}.

Lemma evolves_refl pgdir m l : evolves pgdir m l m l.
Proof. split; [done|intros; apply same_page_refl|tauto]. Qed.

Lemma evolves_trans pgdir m1 l1 m2 l2 m3 l3 :
  evolves pgdir m1 l1 m2 l2 -> evolves pgdir m2 l2 m3 l3 -> evolves pgdir m1 l1 m3 l3.
Proof.
  intros [S1 F1 T1] [S2 F2 T2]. split.
  - auto.
  - intros q Hq Hnt Hnl. eapply same_page_trans; [by apply F1|]. apply F2; [done| |].
    + intros Ht. apply T1 in Ht. tauto.
    + intros Hin. by apply Hnl, S1.
  - intros q Hq. apply T2 in Hq as [Hq|Hq]; [|right; auto]. by apply T1.
Qed.

(** The map after [n] pages from [a] were mapped to frames from [pa] with the
    entry flags [fl]. *)
Definition map_range (M : Z -> option Z) (a n pa fl va : Z) : option Z :=
  if decide (a <= va < a + 4096 * n) then Some (pa + (va - va mod 4096 - a) + fl) else M va.

(** One iteration of the loop of [mappages]. *)
Lemma map_one s l pgdir a v :
  kmem_wf kend s l -> pt_wf (kmem_mem s) l pgdir -> is_u32 a -> has v PTE_P = true -> is_u32 v ->
  let '(pte, s1) := walkpgdir pgdir a true s in
  (pte = 0 /\ l = [] /\ s1 = s)
  \/ exists l', pte <> 0 /\ kmem_wf kend s1 l' /\ pt_wf (kmem_mem s1) l' pgdir
     /\ evolves pgdir (kmem_mem s) l (kmem_mem s1) l'
     /\ (forall va', mapping (kmem_mem s1) pgdir va' = mapping (kmem_mem s) pgdir va')
     /\ (has (ld32 (kmem_mem s1) pte) PTE_P = true <-> mapping (kmem_mem s) pgdir a <> None)
     /\ let s2 := set_mem (st32 (kmem_mem s1) pte v) s1 in
        kmem_wf kend s2 l' /\ pt_wf (kmem_mem s2) l' pgdir
        /\ evolves pgdir (kmem_mem s) l (kmem_mem s2) l'
        /\ forall va', is_u32 va' -> mapping (kmem_mem s2) pgdir va' =
             if decide (va' / 4096 = a / 4096) then Some v else mapping (kmem_mem s) pgdir va'.
Proof.
  intros Hk Hw Ha Hv Huv. pose proof (walkpgdir_alloc s l pgdir a Hk Hw) as H.
  destruct (walkpgdir pgdir a true s) as [pte s1] eqn:Ewalk.
  destruct H as [(-> & -> & -> & _)|(l' & Hpte & Hnz & Hk1 & Hw1 & Hl & He & HM & HF & HT)]; [by left|].
  right. exists l'.
  assert (evolves pgdir (kmem_mem s) l (kmem_mem s1) l') as Hev.
  { split; [|done|done]. intros q Hq. destruct Hl as [->|(p & ->)]; [done|by right]. }
  destruct (store_entry s1 l' pgdir a _ v Hk1 Hw1 Ha He) as (Hk2 & Hw2 & He2 & HF2 & HT2).
  rewrite <- Hpte in *.
  split; [done|]. split; [done|]. split; [done|]. split; [done|]. split; [done|]. split.
  { rewrite <- HM. unfold mapping.
    assert (entry (kmem_mem s1) pgdir a = Some (ld32 (kmem_mem s1) pte)) as ->.
    { unfold entry at 1. unfold entry at 1 in He. rewrite <- Hpte in *.
      destruct (has (pde (kmem_mem s1) _ _) _); done. }
    destruct (has (ld32 _ _) _); split; done. }
  split; [done|]. split; [done|]. split.
  { eapply evolves_trans; [done|]. split; [done| |].
    - intros q Hq Hnt _. by apply HF2.
    - intros q Hq. apply HT2 in Hq. by left. }
  intros va' Hva'. unfold mapping. cbn [kmem_mem set_mem]. rewrite He2 by done.
  rewrite u32_id by done. case_decide.
  - by rewrite Hv.
  - fold (mapping (kmem_mem s1) pgdir va'). rewrite HM. done.
Qed.

Lemma flags_P perm : 0 <= perm < 4096 -> 0 <= Z.lor perm PTE_P < 4096 /\ has (Z.lor perm PTE_P) PTE_P = true.
Proof.
  intros H. split.
  - assert (0 <= Z.lor perm PTE_P) as Hnn by (apply Z.lor_nonneg; unfold PTE_P; lia).
    split; [done|].
    destruct (Z.eq_dec (Z.lor perm PTE_P) 0) as [->|Hn]; [lia|].
    apply (Z.log2_lt_pow2 _ 12); [lia|].
    rewrite Z.log2_lor by (unfold PTE_P; lia). apply Z.max_lub_lt; [|done].
    destruct (Z.eq_dec perm 0) as [->|]; [done|]. apply Z.log2_lt_pow2; [lia|]. change (2 ^ 12) with 4096. lia.
  - unfold has. rewrite Z.land_lor_distr_l. change (Z.land PTE_P PTE_P) with 1.
    destruct (Z.eqb_spec (Z.lor (Z.land perm PTE_P) 1) 0) as [E|]; [|done].
    apply Z.lor_eq_0_iff in E. lia.
Qed.

Lemma mappages_loop_spec pgdir perm n : forall a pa s l,
  kmem_wf kend s l -> pt_wf (kmem_mem s) l pgdir ->
  0 <= a -> a mod 4096 = 0 -> a + 4096 * Z.of_nat n < 4294967296 ->
  0 <= pa -> pa mod 4096 = 0 -> pa + 4096 * Z.of_nat n < 4294967296 -> 0 <= perm < 4096 ->
  exists r s' l' j,
    mappages_loop (S n) pgdir a (a + 4096 * Z.of_nat n) pa perm s = Ok (r, s')
    /\ kmem_wf kend s' l' /\ pt_wf (kmem_mem s') l' pgdir
    /\ evolves pgdir (kmem_mem s) l (kmem_mem s') l'
    /\ (forall va, is_u32 va -> mapping (kmem_mem s') pgdir va =
          map_range (mapping (kmem_mem s) pgdir) a j pa (Z.lor perm PTE_P) va)
    /\ ((r = 0 /\ j = Z.of_nat n + 1)
        \/ (r = -1 /\ 0 <= j <= Z.of_nat n
            /\ (l' = [] \/ mapping (kmem_mem s) pgdir (a + 4096 * j) <> None))).
Proof.
  induction n as [|n IH]; intros a pa s l Hk Hw Ha Haa Hab Hp Hpa Hpb Hperm.
  all: destruct (flags_P perm Hperm) as [Hfl HflP].
  all: assert (Z.lor (Z.lor pa perm) PTE_P = pa + Z.lor perm PTE_P /\ is_u32 (pa + Z.lor perm PTE_P)) as [Hlor Hvu]
    by (rewrite <- Z.lor_assoc; apply pte_build; unfold is_u32; done || lia).
  all: assert (has (pa + Z.lor perm PTE_P) PTE_P = true) as HvP
    by (rewrite has_add; done || unfold PTE_P; lia).
  all: pose proof (map_one s l pgdir a _ Hk Hw ltac:(unfold is_u32; lia) HvP Hvu) as H1.
  all: cbn [mappages_loop]; destruct (walkpgdir pgdir a true s) as [pte s1] eqn:Ew.
  all: destruct H1 as [(-> & -> & ->)|(l1 & Hnz & Hk1 & Hw1 & Hev1 & HM1 & Hpres & Hk2 & Hw2 & Hev2 & HM2)].
  1,3: exists (-1), s, [], 0; cbn; split; [done|]; split; [done|]; split; [done|];
    split; [apply evolves_refl|]; split; [intros; unfold map_range; rewrite decide_False by lia; done|];
    right; split; [done|]; split; [lia|]; by left.
  all: destruct (Z.eqb_spec pte 0) as [|_]; [done|].
  all: destruct (has (ld32 (kmem_mem s1) pte) PTE_P) eqn:EP.
  1,3: exists (-1), s1, l1, 0; split; [done|]; split; [done|]; split; [done|]; split; [done|];
    split; [intros; rewrite HM1; unfold map_range; rewrite decide_False by lia; done|];
    right; split; [done|]; split; [lia|]; right; rewrite Z.mul_0_r, Z.add_0_r; by apply Hpres.
  all: rewrite Hlor.
  - destruct (Z.eqb_spec a (a + 4096 * Z.of_nat 0)) as [_|]; [|lia].
    exists 0, (set_mem (st32 (kmem_mem s1) pte (pa + Z.lor perm PTE_P)) s1), l1, 1. split; [done|].
    split; [done|]. split; [done|]. split; [done|]. split; [|by left].
    intros va Hva. rewrite HM2 by done. unfold map_range. repeat case_decide; try zlia; f_equal; zlia.
  - destruct (Z.eqb_spec a (a + 4096 * Z.of_nat (S n))) as [|_]; [lia|].
    unfold PGSIZE. rewrite !u32_id by (unfold is_u32; lia).
    destruct (IH (a + 4096) (pa + 4096) _ l1 Hk2 Hw2) as (r & s' & l' & j & Hrun & Hk' & Hw' & Hev' & HM' & Hr);
      try zlia.
    exists r, s', l', (j + 1).
    replace (a + 4096 * Z.of_nat (S n)) with (a + 4096 + 4096 * Z.of_nat n) by lia.
    assert (0 <= j) by (destruct Hr as [(? & ?)|(? & ? & ?)]; lia).
    split; [done|]. split; [done|]. split; [done|]. split; [by eapply evolves_trans|]. split.
    + intros va Hva. rewrite HM' by done. unfold map_range. rewrite HM2 by done.
      repeat case_decide; try zlia; f_equal; zlia.
    + destruct Hr as [[-> ->]|(-> & Hj & Hr)]; [left; lia|]. right. split; [done|]. split; [lia|].
      destruct Hr as [->|Hr]; [by left|]. right.
      replace (a + 4096 * (j + 1)) with (a + 4096 + 4096 * j) by lia.
      rewrite HM2 in Hr by zlia. rewrite decide_False in Hr by zlia. done.
Qed.

End Theory.
