(* ===== verification/VmUser.v ===== *)
(** The user half of a page table: growing and shrinking it ([allocuvm],
    [deallocuvm]), and reaching it from the kernel ([uva2ka], [copyout]). *)
From S2P Require Import Prelude Mem KString Mmu Kalloc Vm VmTheory.

(** The kernel address of the frame an entry points at. *)
Definition frame (e : Z) : Z := P2V (PTE_ADDR e).

Section User.
Context (kend : Z) (Hkend : kend_ok kend).

(** User frames are allocatable pages, not free, not part of the table, and
    mapped once. *)
Record uvm_wf (m : mem) (l : list Z) (pgdir : Z) : Prop := {
  uw_frame va e : 0 <= va < KERNBASE -> mapping m pgdir va = Some e ->
    page_ok kend (frame e) /\ frame e ∉ l /\ ~ tpage m pgdir (frame e);
  uw_inj va va' e e' : 0 <= va < KERNBASE -> 0 <= va' < KERNBASE ->
    mapping m pgdir va = Some e -> mapping m pgdir va' = Some e' ->
    frame e = frame e' -> va / 4096 = va' / 4096
}.

(** The whole invariant of a process's address space. *)
Record space (s : kst) (l : list Z) (pgdir : Z) : Prop := {
  sp_k : kmem_wf kend s l;
  sp_pt : pt_wf kend (kmem_mem s) l pgdir;
  sp_u : uvm_wf (kmem_mem s) l pgdir
}.

Lemma kern_u32 va : 0 <= va < KERNBASE -> is_u32 va.
Proof. unfold KERNBASE, is_u32. lia. Qed.

Lemma mapping_u32 m pgdir va e : mapping m pgdir va = Some e -> is_u32 e /\ has e PTE_P = true.
Proof.
  unfold mapping, entry. destruct (has (pde _ _ _) _); [|done].
  destruct (has (ld32 _ _) _) eqn:E; [|done]. intros [= <-]. split; [apply ld32_range|done].
Qed.

Lemma mapping_entry m pgdir va e : mapping m pgdir va = Some e -> entry m pgdir va = Some e.
Proof. unfold mapping. destruct (entry m pgdir va); [|done]. by destruct (has _ _). Qed.

Lemma frame_pa e : is_u32 e -> page_ok kend (frame e) -> PTE_ADDR e = V2P (frame e) /\ PTE_ADDR e <> 0.
Proof.
  intros He Hok. unfold frame in *. assert (is_u32 (PTE_ADDR e)) as Hu.
  { rewrite PTE_ADDR_alt by done. zlia. }
  rewrite V2P_P2V by done. split; [done|].
  apply page_ok_bounds in Hok as (Hb & _ & HV); [|done]. rewrite V2P_P2V in HV by done.
  unfold KERNLINK, KERNBASE, EXTMEM in *. lia.
Qed.

(** * deallocuvm *)

(** Freeing the frame of [va] and clearing its entry. *)
Lemma free_page s l pgdir va e :
  space s l pgdir -> 0 <= va < KERNBASE -> mapping (kmem_mem s) pgdir va = Some e ->
  exists s1, kfree kend (frame e) s = Ok s1 /\
    let s2 := set_mem (st32 (kmem_mem s1) (pte_addr (kmem_mem s) pgdir va) 0) s1 in
    space s2 (frame e :: l) pgdir
    /\ (forall va', is_u32 va' -> mapping (kmem_mem s2) pgdir va' =
          if decide (va' / 4096 = va / 4096) then None else mapping (kmem_mem s) pgdir va')
    /\ (forall q, tpage (kmem_mem s2) pgdir q <-> tpage (kmem_mem s) pgdir q)
    /\ (forall q, q mod 4096 = 0 -> ~ tpage (kmem_mem s) pgdir q -> q <> frame e ->
          same_page q (kmem_mem s) (kmem_mem s2)).
Proof.
  intros [Hk Hw Hu] Hva Hm. destruct (uw_frame _ _ _ Hu va e Hva Hm) as (Hok & Hnl & Hnt).
  destruct (kfree_ok kend s (frame e) l Hkend Hk Hok Hnl) as (s1 & Hrun & Hk1 & HF1 & _).
  exists s1. split; [done|].
  assert (forall q, tpage (kmem_mem s) pgdir q -> same_page q (kmem_mem s) (kmem_mem s1)) as HFt.
  { intros q Hq. apply HF1; [|by intros ->].
    eapply page_aligned. apply (tpage_ok _ _ _ _ _ Hw Hq). }
  assert (same_page pgdir (kmem_mem s) (kmem_mem s1)) as Hd by (apply HFt; by left).
  assert (pt_wf kend (kmem_mem s1) (frame e :: l) pgdir) as Hw1.
  { eapply pt_wf_frame; [done|done|]. intros q Hq. rewrite not_elem_of_cons.
    split; [by intros ->|]. by apply (tpage_ok _ _ _ _ _ Hw Hq). }
  assert (forall va', entry (kmem_mem s1) pgdir va' = entry (kmem_mem s) pgdir va') as He1
    by (intros; by apply entry_frame).
  assert (pte_addr (kmem_mem s) pgdir va = pte_addr (kmem_mem s1) pgdir va) as Hpa.
  { unfold pte_addr. by rewrite (ptp_frame (kmem_mem s) (kmem_mem s1)) by (done || apply PDX_slot). }
  pose proof (mapping_entry _ _ _ _ Hm) as Hent. rewrite <- He1 in Hent.
  destruct (store_entry kend s1 _ pgdir va _ 0 Hk1 Hw1 (kern_u32 _ Hva) Hent) as (Hk2 & Hw2 & He2 & HF2 & HT2).
  rewrite Hpa. intros s2. unfold s2. cbn [kmem_mem set_mem].
  set (m2 := st32 _ _ _) in *.
  assert (forall va', is_u32 va' -> mapping m2 pgdir va' =
    if decide (va' / 4096 = va / 4096) then None else mapping (kmem_mem s) pgdir va') as HM.
  { intros va' Hva'. unfold mapping. rewrite He2 by done. case_decide; [done|]. by rewrite He1. }
  assert (forall q, tpage m2 pgdir q <-> tpage (kmem_mem s) pgdir q) as HT.
  { intros q. rewrite HT2. by apply tpage_frame. }
  split.
  { split; [done|done|]. split.
    - intros va' e' Hva' Hm'. rewrite HM in Hm' by (by apply kern_u32). case_decide as Hc; [done|].
      destruct (uw_frame _ _ _ Hu va' e' Hva' Hm') as (? & ? & ?).
      split; [done|]. rewrite HT, not_elem_of_cons. split; [|done]. split; [|done].
      intros Heq. apply Hc. by eapply (uw_inj _ _ _ Hu).
    - intros va1 va2 e1 e2 H1 H2. rewrite !HM by (by apply kern_u32). repeat case_decide; try done.
      by apply (uw_inj _ _ _ Hu). }
  split; [done|]. split; [done|].
  intros q Hq Hnq Hne. eapply same_page_trans; [by apply HF1|]. apply HF2; [done|].
  rewrite tpage_frame; done.
Qed.

(** Freeing a page that the table does not use. *)
Lemma kfree_space s l pgdir p :
  space s l pgdir -> page_ok kend p -> p ∉ l -> ~ tpage (kmem_mem s) pgdir p ->
  (forall va e, 0 <= va < KERNBASE -> mapping (kmem_mem s) pgdir va = Some e -> frame e <> p) ->
  exists s', kfree kend p s = Ok s' /\ space s' (p :: l) pgdir
    /\ (forall va, mapping (kmem_mem s') pgdir va = mapping (kmem_mem s) pgdir va)
    /\ (forall q, q mod 4096 = 0 -> q <> p -> same_page q (kmem_mem s) (kmem_mem s')).
Proof.
  intros [Hk Hw Hu] Hp Hpl Hpt Hpf.
  destruct (kfree_ok kend s p l Hkend Hk Hp Hpl) as (s1 & -> & Hk1 & HF1 & _).
  assert (forall q, tpage (kmem_mem s) pgdir q -> same_page q (kmem_mem s) (kmem_mem s1)) as HFt.
  { intros q Hq. apply HF1; [|by intros ->]. eapply page_aligned. apply (tpage_ok _ _ _ _ _ Hw Hq). }
  assert (same_page pgdir (kmem_mem s) (kmem_mem s1)) as Hd by (apply HFt; by left).
  assert (forall va, mapping (kmem_mem s1) pgdir va = mapping (kmem_mem s) pgdir va) as HM
    by (intros; by apply mapping_frame).
  exists s1. split; [done|]. split; [|done]. split; [done| |split].
  - eapply pt_wf_frame; [done|done|]. intros q Hq. rewrite not_elem_of_cons.
    split; [by intros ->|]. by apply (tpage_ok _ _ _ _ _ Hw Hq).
  - intros va e Hva. rewrite HM. intros Hm. destruct (uw_frame _ _ _ Hu va e Hva Hm) as (?&?&?).
    rewrite tpage_frame, not_elem_of_cons by done. split; [done|]. split; [|done].
    split; [by eapply Hpf|done].
  - intros va va' e e'. rewrite !HM. apply (uw_inj _ _ _ Hu).
Qed.

(** The pages [deallocuvm] visits: those that start in [a, oldsz). *)
Definition in_pages (a oldsz va : Z) : Prop := a <= va /\ va - va mod 4096 < oldsz.

#[export] Instance in_pages_dec a oldsz va : Decision (in_pages a oldsz va).
Proof. unfold in_pages. apply _. Defined.

Record shrunk (pgdir a oldsz : Z) (m : mem) (l : list Z) (m' : mem) (l' : list Z) : Prop := {
  sh_map va : is_u32 va -> mapping m' pgdir va =
    if decide (in_pages a oldsz va) then None else mapping m pgdir va;
  sh_free q : q ∈ l' <-> q ∈ l \/ exists va e, in_pages a oldsz va /\ 0 <= va < KERNBASE
    /\ mapping m pgdir va = Some e /\ q = frame e;
  sh_tpage q : tpage m' pgdir q <-> tpage m pgdir q;
  sh_frame q : q mod 4096 = 0 -> ~ tpage m pgdir q -> q ∉ l' -> same_page q m m'
}.

(** Skipping pages that are not mapped changes nothing. *)
Lemma shrunk_skip pgdir a a' oldsz m l m' l' :
  a <= a' -> oldsz <= KERNBASE -> 0 <= a -> a mod 4096 = 0 -> a' mod 4096 = 0 ->
  (forall va, a <= va < a' -> in_pages a oldsz va -> mapping m pgdir va = None) ->
  shrunk pgdir a' oldsz m l m' l' -> shrunk pgdir a oldsz m l m' l'.
Proof.
  intros Haa Hold H0 Hal Hal' Hnone [H1 H2 H3 H4]. split; [| |done|done].
  - intros va Hva. rewrite H1 by done. unfold in_pages in *. repeat case_decide; try done; try lia.
    apply Hnone; [|done]. zlia.
  - intros q. rewrite H2. split; (intros [Hq|(va & e & Hin & Hk & Hm & ->)]; [by left|right]).
    + exists va, e. unfold in_pages in *. split; [lia|done].
    + destruct (Z_lt_dec va a') as [Hlt|Hge].
      * rewrite Hnone in Hm; [done| |done]. unfold in_pages in Hin. lia.
      * exists va, e. unfold in_pages in *. split; [lia|done].
Qed.

(** Freeing the page at [a], then the rest of the range. *)
Lemma shrunk_step pgdir a oldsz m l e m2 m' l' :
  0 <= a < oldsz -> a mod 4096 = 0 -> oldsz <= KERNBASE -> mapping m pgdir a = Some e ->
  (forall va, is_u32 va -> mapping m2 pgdir va = if decide (va / 4096 = a / 4096) then None else mapping m pgdir va) ->
  (forall q, tpage m2 pgdir q <-> tpage m pgdir q) ->
  (forall q, q mod 4096 = 0 -> ~ tpage m pgdir q -> q <> frame e -> same_page q m m2) ->
  shrunk pgdir (a + 4096) oldsz m2 (frame e :: l) m' l' -> shrunk pgdir a oldsz m l m' l'.
Proof.
  intros Ha Haa Hold Hm HM2 HT2 HF2 [S1 S2 S3 S4]. unfold KERNBASE in Hold. split.
  - intros va Hva. rewrite S1 by done. rewrite HM2 by done. unfold in_pages. repeat case_decide; try done; zlia.
  - intros q. rewrite S2, elem_of_cons. split.
    + intros [[->|Hq]|(va & e' & Hin & Hkv & Hmv & ->)]; [right|by left|right].
      * exists a, e. unfold in_pages, KERNBASE. split; [zlia|]. split; [lia|done].
      * rewrite HM2 in Hmv by (by apply kern_u32). case_decide; [done|]. exists va, e'. unfold in_pages in *. split; [lia|done].
    + intros [Hq|(va & e' & Hin & Hkv & Hmv & ->)]; [by left; right|]. destruct (decide (va / 4096 = a / 4096)) as [Hc|Hc].
      * left. left. assert (mapping m pgdir va = mapping m pgdir a) as Heq; [|congruence].
        apply same_vpage in Hc as [Hc1 Hc2]; [|unfold is_u32, KERNBASE in *; lia..].
        unfold mapping, entry, pte_addr. by rewrite Hc1, Hc2.
      * right. exists va, e'. rewrite HM2, decide_False by (done || by apply kern_u32). unfold in_pages in *. split; [zlia|done].
  - intros q. rewrite S3. apply HT2.
  - intros q Hq Hnq Hl'. eapply same_page_trans; [apply HF2; [done|done|]|].
    + intros ->. apply Hl', S2. left. by left.
    + apply S4; [done|by rewrite HT2|done].
Qed.

Lemma deallocuvm_loop_spec pgdir oldsz fuel : forall a s l,
  space s l pgdir -> 0 <= a -> a mod 4096 = 0 -> oldsz <= KERNBASE ->
  (oldsz - a + 4095) / 4096 <= Z.of_nat fuel ->
  exists s' l', deallocuvm_loop kend fuel pgdir a oldsz s = Ok s'
    /\ space s' l' pgdir /\ shrunk pgdir a oldsz (kmem_mem s) l (kmem_mem s') l'.
Proof.
  induction fuel as [|k IH]; intros a s l Hs Ha Haa Hold Hf; cbn [deallocuvm_loop].
  all: destruct (Z.ltb_spec a oldsz) as [Hlt|Hge]; [|exists s, l; split; [done|]; split; [done|]].
  2,4: split; [intros; rewrite decide_False by (unfold in_pages; zlia); done| |done|intros; apply same_page_refl];
    intros q; split; [by left|intros [?|(va & e & Hin & ?)]; [done|unfold in_pages in Hin; zlia]].
  { zlia. }
  pose proof Hs as [Hk Hw Hu].
  rewrite (walkpgdir_noalloc kend s l) by done.
  assert (0 <= a < KERNBASE) as Hak by lia. unfold KERNBASE in Hak, Hold.
  destruct (entry (kmem_mem s) pgdir a) as [e|] eqn:Ee.
  - assert (has (pde (kmem_mem s) pgdir (PDX a)) PTE_P = true) as HP
      by (unfold entry in Ee; by destruct (has (pde _ _ _) _)).
    destruct (Z.eqb_spec (pte_addr (kmem_mem s) pgdir a) 0) as [Hz|_];
      [by eapply pte_addr_nonzero in Hz|].
    assert (ld32 (kmem_mem s) (pte_addr (kmem_mem s) pgdir a) = e) as ->
      by (unfold entry in Ee; rewrite HP in Ee; by injection Ee).
    unfold PGSIZE. rewrite u32_id by (unfold is_u32; lia).
    destruct (has e PTE_P) eqn:HeP.
    + assert (mapping (kmem_mem s) pgdir a = Some e) as Hm by (unfold mapping; by rewrite Ee, HeP).
      destruct (uw_frame _ _ _ Hu a e Hak Hm) as (Hok & Hnl & Hnt).
      destruct (mapping_u32 _ _ _ _ Hm) as [Heu _].
      destruct (frame_pa e Heu Hok) as [_ Hnz]. destruct (Z.eqb_spec (PTE_ADDR e) 0) as [|_]; [done|].
      fold (frame e). destruct (free_page s l pgdir a e Hs Hak Hm) as (s1 & -> & Hs2 & HM2 & HT2 & HF2).
      cbn [obind]. set (s2 := set_mem _ _) in *.
      destruct (IH (a + 4096) s2 (frame e :: l)) as (s' & l' & -> & Hs' & Hsh); try done; try zlia.
      exists s', l'. split; [done|]. split; [done|]. by eapply shrunk_step.
    + destruct (IH (a + 4096) s l) as (s' & l' & -> & Hs' & Hsh); try done; try zlia.
      exists s', l'. split; [done|]. split; [done|].
      eapply shrunk_skip; [| | | | | |done]; try zlia; [unfold KERNBASE; lia|].
      intros va Hva _.
      assert (PDX va = PDX a /\ PTX va = PTX a) as [H1 H2].
      { apply same_vpage; [unfold is_u32; lia|unfold is_u32; lia|]. zlia. }
      unfold mapping, entry in *. unfold pte_addr in *. rewrite H1, H2, HP in *.
      injection Ee as ->. by rewrite HeP.
  - destruct (Z.eqb_spec 0 0) as [_|]; [|done].
    assert (u32 (u32 (PGADDR (PDX a + 1) 0 0 - PGSIZE) + PGSIZE) = (a / 4194304 + 1) * 4194304) as ->.
    { rewrite u32_add_l. rewrite PGADDR_alt; [|rewrite PDX_alt by (unfold is_u32; lia); zlia|lia|lia].
      rewrite PDX_alt by (unfold is_u32; lia). unfold PGSIZE. rewrite u32_id; [lia|]. zlia. }
    destruct (IH ((a / 4194304 + 1) * 4194304) s l) as (s' & l' & -> & Hs' & Hsh); try done; try zlia.
    exists s', l'. split; [done|]. split; [done|].
    eapply shrunk_skip; [| | | | | |done]; try zlia; [unfold KERNBASE; lia|].
    intros va Hva Hin. unfold in_pages in Hin.
    assert (is_u32 va) by zlia.
    assert (PDX va = PDX a) as H1.
    { rewrite !PDX_alt by (done || unfold is_u32; lia). zlia. }
    unfold mapping, entry in *. rewrite H1. by destruct (has (pde _ _ _) _).
Qed.

Lemma deallocuvm_spec s l pgdir oldsz newsz :
  space s l pgdir -> 0 <= newsz < oldsz -> oldsz <= KERNBASE ->
  exists s' l', deallocuvm kend pgdir oldsz newsz s = Ok (newsz, s')
    /\ space s' l' pgdir /\ shrunk pgdir (PGROUNDUP newsz) oldsz (kmem_mem s) l (kmem_mem s') l'.
Proof.
  intros Hs Hn Ho. unfold deallocuvm. destruct (Z.leb_spec oldsz newsz); [lia|].
  unfold KERNBASE in Ho. rewrite PGROUNDUP_alt by lia.
  destruct (deallocuvm_loop_spec pgdir oldsz (Z.to_nat (oldsz / PGSIZE + 1))
    ((newsz + 4095) / 4096 * 4096) s l Hs) as (s' & l' & -> & Hs' & Hsh);
    [zlia|zlia|unfold KERNBASE; lia|unfold PGSIZE; zlia|].
  cbn [obind]. eauto.
Qed.

(** * allocuvm *)

(** The bytes of a page are all zero. *)
Definition zero_page (m : mem) (p : Z) : Prop := forall o, p <= o < p + 4096 -> ld8 m o = 0.

(** Taking a page off the free list and writing to it. *)
Lemma kalloc_written s p l pgdir :
  space s (p :: l) pgdir ->
  exists s1, kalloc s = (p, s1) /\ kmem_mem s1 = kmem_mem s /\ p <> 0 /\ page_ok kend p /\ p ∉ l /\ ~ tpage (kmem_mem s) pgdir p /\
    forall m2, (forall q, q mod 4096 = 0 -> q <> p -> same_page q (kmem_mem s) m2) ->
    space (set_mem m2 s1) l pgdir
    /\ (forall va, mapping m2 pgdir va = mapping (kmem_mem s) pgdir va)
    /\ (forall q, tpage m2 pgdir q <-> tpage (kmem_mem s) pgdir q).
Proof.
  intros [Hk Hw Hu].
  destruct (kalloc_cons kend s p l Hkend Hk) as (s1 & Hrun & Hm & Hk1 & Hp & Hpl & _).
  exists s1. split; [done|]. split; [done|]. split; [by eapply page_ok_nonzero|]. split; [done|]. split; [done|].
  assert (~ tpage (kmem_mem s) pgdir p) as Hnt.
  { intros Ht. apply (tpage_ok _ _ _ _ _ Hw Ht). by left. }
  split; [done|]. intros m2 HF.
  assert (forall q, tpage (kmem_mem s) pgdir q -> same_page q (kmem_mem s) m2) as HFt.
  { intros q Hq. apply HF; [eapply page_aligned; apply (tpage_ok _ _ _ _ _ Hw Hq)|by intros ->]. }
  assert (forall va, mapping m2 pgdir va = mapping (kmem_mem s) pgdir va) as HM
    by (intros; by apply mapping_frame).
  assert (forall q, tpage m2 pgdir q <-> tpage (kmem_mem s) pgdir q) as HT
    by (intros; apply tpage_frame, HFt; by left).
  split; [|done]. split.
  - apply kmem_wf_frame; [done|]. rewrite Hm. apply Forall_forall. intros q Hq.
    apply HF; [|by intros ->]. destruct Hk1 as [_ _ Hpg]. rewrite Forall_forall in Hpg.
    by eapply page_aligned, Hpg.
  - eapply pt_wf_frame; [done|apply HFt; by left|]. intros q Hq Hin.
    apply (tpage_ok _ _ _ _ _ Hw Hq). by right.
  - cbn [kmem_mem set_mem]. split.
    + intros va e Hva. rewrite HM. intros Hmv. destruct (uw_frame _ _ _ Hu va e Hva Hmv) as (?&Hn&?).
      rewrite HT. rewrite not_elem_of_cons in Hn. tauto.
    + intros va va' e e'. rewrite !HM. apply (uw_inj _ _ _ Hu).
Qed.

(** Taking a page off the free list and zeroing it. *)
Lemma kalloc_zeroed s p l pgdir :
  space s (p :: l) pgdir ->
  exists s1, kalloc s = (p, s1) /\ p <> 0 /\ page_ok kend p /\ p ∉ l /\ ~ tpage (kmem_mem s) pgdir p /\
    let s2 := set_mem (memset (kmem_mem s1) p 0 PGSIZE) s1 in
    space s2 l pgdir /\ zero_page (kmem_mem s2) p
    /\ (forall va, mapping (kmem_mem s2) pgdir va = mapping (kmem_mem s) pgdir va)
    /\ (forall q, q mod 4096 = 0 -> q <> p -> same_page q (kmem_mem s) (kmem_mem s2))
    /\ (forall q, tpage (kmem_mem s2) pgdir q <-> tpage (kmem_mem s) pgdir q).
Proof.
  intros Hs. destruct (kalloc_written s p l pgdir Hs) as (s1 & Hrun & Hm & Hp0 & Hp & Hpl & Hpt & Hwr).
  exists s1. split; [done|]. split; [done|]. split; [done|]. split; [done|]. split; [done|]. cbv zeta. cbn [kmem_mem set_mem]. rewrite Hm.
  assert (forall q, q mod 4096 = 0 -> q <> p -> same_page q (kmem_mem s) (memset (kmem_mem s) p 0 PGSIZE)) as HF.
  { intros q Hq Hne. apply same_page_memset; [by eapply page_aligned|done|done]. }
  destruct (Hwr _ HF) as (Hs2 & HM & HT). split; [done|]. split; [|done].
  intros o Ho. rewrite ld8_memset, decide_True by (unfold is_u32, PGSIZE; lia). done.
Qed.

(** A page table and its user frames survive a step that only takes pages off
    the free list. *)
Lemma uvm_wf_evolves m l m' l' pgdir :
  evolves pgdir m l m' l' -> uvm_wf m l pgdir ->
  (forall va, is_u32 va -> mapping m' pgdir va = mapping m pgdir va) -> uvm_wf m' l' pgdir.
Proof.
  intros [S F T] [U1 U2] HM. split.
  - intros va e Hva. rewrite HM by (by apply kern_u32). intros Hm.
    destruct (U1 va e Hva Hm) as (?&?&?). split; [done|]. split; [auto|].
    intros Ht. apply T in Ht. tauto.
  - intros va va' e e' Hva Hva'. rewrite !HM by (by apply kern_u32). by apply U2.
Qed.

Lemma mappages_one s l pgdir a pa perm :
  kmem_wf kend s l -> pt_wf kend (kmem_mem s) l pgdir ->
  0 <= a -> a mod 4096 = 0 -> a < 4294967296 ->
  0 <= pa < 4294967296 -> pa mod 4096 = 0 -> 0 <= perm < 4096 ->
  exists r s' l',
    mappages pgdir a PGSIZE pa perm s = Ok (r, s')
    /\ kmem_wf kend s' l' /\ pt_wf kend (kmem_mem s') l' pgdir
    /\ evolves pgdir (kmem_mem s) l (kmem_mem s') l'
    /\ ((r = 0 /\ forall va, is_u32 va -> mapping (kmem_mem s') pgdir va =
          if decide (va / 4096 = a / 4096) then Some (pa + Z.lor perm PTE_P) else mapping (kmem_mem s) pgdir va)
        \/ (r = -1 /\ (forall va, is_u32 va -> mapping (kmem_mem s') pgdir va = mapping (kmem_mem s) pgdir va)
            /\ (l' = [] \/ mapping (kmem_mem s) pgdir a <> None))).
Proof.
  intros Hk Hw Ha Haa Hab Hp Hpa Hperm.
  destruct (mappages_loop_spec kend Hkend pgdir perm 0 a pa s l) as (r & s' & l' & j & Hrun & Hk' & Hw' & Hev & HM & Hr);
    try done; try lia.
  exists r, s', l'.
  assert (mappages pgdir a PGSIZE pa perm s = Ok (r, s')) as ->.
  { rewrite <- Hrun. unfold mappages. unfold PGSIZE. rewrite !PGROUNDDOWN_alt by zlia.
    rewrite (u32_id (a + 4096 - 1)) by zlia.
    replace (a + 4096 - 1 - (a + 4096 - 1) mod 4096) with a by zlia.
    replace (a - a mod 4096) with a by zlia. rewrite Z.sub_diag.
    replace (a + 4096 * Z.of_nat 0) with a by lia. done. }
  split; [done|]. split; [done|]. split; [done|]. split; [done|].
  destruct Hr as [[-> ->]|(-> & Hj & Hr)]; [left|right]; (split; [done|]).
  - intros va Hva. rewrite HM by done. unfold map_range.
    repeat case_decide; try zlia; f_equal; zlia.
  - assert (j = 0) as -> by lia. split.
    + intros va Hva. rewrite HM by done. unfold map_range. rewrite decide_False by lia. done.
    + rewrite Z.mul_0_r, Z.add_0_r in Hr. done.
Qed.

Lemma entry_same_vpage m pgdir va va' :
  is_u32 va -> is_u32 va' -> va' / 4096 = va / 4096 -> entry m pgdir va' = entry m pgdir va.
Proof.
  intros Hv Hv' E. apply same_vpage in E as [E1 E2]; [|done|done].
  unfold entry, pte_addr. by rewrite E1, E2.
Qed.

Lemma mapping_same_vpage m pgdir va va' :
  is_u32 va -> is_u32 va' -> va' / 4096 = va / 4096 -> mapping m pgdir va' = mapping m pgdir va.
Proof. intros. unfold mapping. by rewrite (entry_same_vpage m pgdir va va'). Qed.

(** A state has one free list. *)
Lemma flist_unique m l : forall h l', flist m h l -> flist m h l' -> Forall (page_ok kend) l -> Forall (page_ok kend) l' -> l = l'.
Proof.
  induction l as [|p l IH]; intros h l' H1 H2 F1 F2; destruct l' as [|p' l']; cbn in *; try done.
  - destruct H2 as [-> _]. apply Forall_cons in F2 as [F2 _]. subst p'. by apply page_ok_nonzero in F2.
  - destruct H1 as [-> _]. apply Forall_cons in F1 as [F1 _]. subst p. by apply page_ok_nonzero in F1.
  - destruct H1 as [-> H1], H2 as [-> H2]. apply Forall_cons in F1 as [_ F1]. apply Forall_cons in F2 as [_ F2]. f_equal. by eapply IH.
Qed.

Lemma kmem_wf_unique s l l' : kmem_wf kend s l -> kmem_wf kend s l' -> l = l'.
Proof. intros [H1 _ F1] [H2 _ F2]. by eapply flist_unique. Qed.

Lemma mappages_page pgdir a pa perm s : 0 <= a < 4294967296 - 4096 -> a mod 4096 = 0 ->
  mappages pgdir a PGSIZE pa perm s = mappages_loop 1 pgdir a a pa perm s.
Proof.
  intros Ha Haa. unfold mappages, PGSIZE. rewrite !PGROUNDDOWN_alt by zlia. rewrite (u32_id (a + 4096 - 1)) by zlia.
  replace (a + 4096 - 1 - (a + 4096 - 1) mod 4096) with a by zlia. replace (a - a mod 4096) with a by zlia. by rewrite Z.sub_diag.
Qed.

(** [mappages] of a page that is mapped fails and changes nothing. *)
Lemma mappages_mapped s l pgdir a pa perm : pt_wf kend (kmem_mem s) l pgdir -> 0 <= a < KERNBASE -> a mod 4096 = 0 ->
  mapping (kmem_mem s) pgdir a <> None -> mappages pgdir a PGSIZE pa perm s = Ok (-1, s).
Proof.
  intros Hw Ha Haa Hm. rewrite mappages_page by (unfold KERNBASE in Ha; lia || done). cbn [mappages_loop].
  unfold mapping, entry in Hm. unfold walkpgdir. fold (pde (kmem_mem s) pgdir (PDX a)).
  destruct (has (pde (kmem_mem s) pgdir (PDX a)) PTE_P) eqn:E; [|done].
  cbn [negb]. fold (ptp (kmem_mem s) pgdir (PDX a)). fold (pte_addr (kmem_mem s) pgdir a).
  destruct (Z.eqb_spec (pte_addr (kmem_mem s) pgdir a) 0) as [E0|_]; [by destruct (pte_addr_nonzero kend Hkend _ _ _ _ Hw E)|].
  by destruct (has (ld32 (kmem_mem s) (pte_addr (kmem_mem s) pgdir a)) PTE_P).
Qed.

(** [mappages] of a page takes at most the page of its table. *)
Lemma mappages_takes s l pgdir a pa perm r s' l' :
  kmem_wf kend s l -> pt_wf kend (kmem_mem s) l pgdir -> 0 <= a < KERNBASE -> a mod 4096 = 0 ->
  mappages pgdir a PGSIZE pa perm s = Ok (r, s') -> kmem_wf kend s' l' -> (length l <= S (length l'))%nat.
Proof.
  intros Hk Hw Ha Haa. rewrite mappages_page by (unfold KERNBASE in Ha; lia || done). cbn [mappages_loop].
  pose proof (walkpgdir_alloc kend Hkend s l pgdir a Hk Hw) as H. destruct (walkpgdir pgdir a true s) as [pte s1].
  destruct H as [(-> & -> & -> & _)|(l1 & -> & Hnz & Hk1 & Hw1 & Hl & He & _)]; [cbn; lia|].
  assert (length l <= S (length l1))%nat as Hlen by (destruct Hl as [->|[p ->]]; cbn; lia).
  destruct (Z.eqb_spec (pte_addr (kmem_mem s1) pgdir a) 0) as [|_]; [done|].
  destruct (has (ld32 _ _) _); [intros [= <- <-] Hk'; by rewrite <- (kmem_wf_unique _ _ _ Hk1 Hk')|].
  rewrite Z.eqb_refl. intros [= <- <-] Hk'.
  destruct (store_entry kend s1 l1 pgdir a _ (Z.lor (Z.lor pa perm) PTE_P) Hk1 Hw1 ltac:(unfold KERNBASE, is_u32 in *; lia) He) as [Hk2 _].
  by rewrite <- (kmem_wf_unique _ _ _ Hk2 Hk').
Qed.

(** Adding the page [p] at [a], or finding no memory for its table. *)
Lemma map_frame_page s l pgdir a p perm :
  0 <= perm < 4096 -> space s l pgdir -> 0 <= a < KERNBASE -> a mod 4096 = 0 -> mapping (kmem_mem s) pgdir a = None ->
  page_ok kend p -> p ∉ l -> ~ tpage (kmem_mem s) pgdir p ->
  (forall va e, 0 <= va < KERNBASE -> mapping (kmem_mem s) pgdir va = Some e -> frame e <> p) ->
  exists r s' l',
    mappages pgdir a PGSIZE (V2P p) perm s = Ok (r, s')
    /\ space s' l' pgdir /\ evolves pgdir (kmem_mem s) l (kmem_mem s') l'
    /\ same_page p (kmem_mem s) (kmem_mem s') /\ p ∉ l' /\ ~ tpage (kmem_mem s') pgdir p
    /\ ((r = 0 /\ frame (V2P p + Z.lor perm PTE_P) = p /\ PTE_FLAGS (V2P p + Z.lor perm PTE_P) = Z.lor perm PTE_P /\
         forall va, is_u32 va -> mapping (kmem_mem s') pgdir va =
          if decide (va / 4096 = a / 4096) then Some (V2P p + Z.lor perm PTE_P) else mapping (kmem_mem s) pgdir va)
        \/ (r = -1 /\ (forall va, is_u32 va -> mapping (kmem_mem s') pgdir va = mapping (kmem_mem s) pgdir va)
            /\ l' = [])).
Proof.
  intros Hperm [Hk Hw Hu] Ha Haa Hnone Hp Hpl Hpt Hpf.
  pose proof (page_ok_bounds kend p Hkend Hp) as (Hb & Hb2 & HV).
  pose proof (page_aligned _ _ Hp) as Hpa.
  unfold KERNLINK, KERNBASE, EXTMEM, PHYSTOP in *.
  assert (V2P p mod 4096 = 0) as HVa by (rewrite HV; zlia).
  destruct (mappages_one s l pgdir a (V2P p) perm) as
    (r & s' & l' & Hrun & Hk' & Hw' & Hev & Hr); try done; try lia.
  exists r, s', l'. split; [done|].
  assert (p ∉ l') as Hpl' by (intros Hin; by apply Hpl, (ev_sub _ _ _ _ _ Hev)).
  assert (~ tpage (kmem_mem s') pgdir p) as Hpt'.
  { intros Ht. apply (ev_tpage _ _ _ _ _ Hev) in Ht. tauto. }
  assert (same_page p (kmem_mem s) (kmem_mem s')) as Hsp by (by apply (ev_frame _ _ _ _ _ Hev)).
  destruct Hr as [[-> HM]|(-> & HM & Hl)].
  - destruct (flags_P perm Hperm) as [Hfl _]. set (fl := Z.lor perm PTE_P) in *.
    assert (frame (V2P p + fl) = p) as Hfr.
    { unfold frame. rewrite PTE_ADDR_add by (unfold is_u32; lia || done). apply P2V_V2P, Hp. }
    split.
    { split; [done|done|]. split.
      - intros va e Hva. rewrite HM by (by apply kern_u32). case_decide.
        + intros [= <-]. rewrite Hfr. done.
        + intros Hm. destruct (uw_frame _ _ _ Hu va e Hva Hm) as (?&?&?). split; [done|].
          split; [intros Hin; by apply (ev_sub _ _ _ _ _ Hev) in Hin|].
          intros Ht. apply (ev_tpage _ _ _ _ _ Hev) in Ht. tauto.
      - intros va va' e e' Hva Hva'. rewrite !HM by (by apply kern_u32). repeat case_decide.
        + intros _ _ _. congruence.
        + intros [= <-] Hm Heq. rewrite Hfr in Heq. by destruct (Hpf va' e' Hva' Hm).
        + intros Hm [= <-] Heq. rewrite Hfr in Heq. by destruct (Hpf va e Hva Hm).
        + by apply (uw_inj _ _ _ Hu). }
    split; [done|]. split; [done|]. split; [done|]. split; [done|]. left.
    split; [done|]. split; [done|]. split; [|done].
    apply PTE_FLAGS_add; unfold is_u32; lia || done.
  - split; [split; [done|done|by eapply uvm_wf_evolves]|].
    split; [done|]. split; [done|]. split; [done|]. split; [done|]. right.
    split; [done|]. split; [done|]. by destruct Hl.
Qed.

(** The same for [allocuvm]. *)
Lemma map_user_page s l pgdir a p :
  space s l pgdir -> 0 <= a < KERNBASE -> a mod 4096 = 0 -> mapping (kmem_mem s) pgdir a = None ->
  page_ok kend p -> p ∉ l -> ~ tpage (kmem_mem s) pgdir p ->
  (forall va e, 0 <= va < KERNBASE -> mapping (kmem_mem s) pgdir va = Some e -> frame e <> p) ->
  exists r s' l',
    mappages pgdir a PGSIZE (V2P p) (Z.lor PTE_W PTE_U) s = Ok (r, s')
    /\ space s' l' pgdir /\ evolves pgdir (kmem_mem s) l (kmem_mem s') l'
    /\ same_page p (kmem_mem s) (kmem_mem s') /\ p ∉ l' /\ ~ tpage (kmem_mem s') pgdir p
    /\ ((r = 0 /\ frame (V2P p + 7) = p /\ PTE_FLAGS (V2P p + 7) = 7 /\
         forall va, is_u32 va -> mapping (kmem_mem s') pgdir va =
          if decide (va / 4096 = a / 4096) then Some (V2P p + 7) else mapping (kmem_mem s) pgdir va)
        \/ (r = -1 /\ (forall va, is_u32 va -> mapping (kmem_mem s') pgdir va = mapping (kmem_mem s) pgdir va)
            /\ l' = [])).
Proof. apply (map_frame_page s l pgdir a p (Z.lor PTE_W PTE_U)). by vm_compute. Qed.

(** The state part way through [allocuvm]: the pages from [a0] to [a] are new,
    zeroed and user-writable, everything else is as it was in [m0]. *)
Record grown (pgdir a0 a : Z) (m0 m : mem) : Prop := {
  gr_old va : is_u32 va -> ~ a0 <= va < a -> mapping m pgdir va = mapping m0 pgdir va;
  gr_new va : a0 <= va < a -> exists e, mapping m pgdir va = Some e /\ PTE_FLAGS e = 7
    /\ zero_page m (frame e);
  gr_fresh va : a0 <= va < a -> mapping m0 pgdir va = None;
  gr_keep va e : 0 <= va < KERNBASE -> mapping m0 pgdir va = Some e -> same_page (frame e) m0 m
}.

(** The request of [allocuvm]: no page of the new range is mapped yet. *)
Definition fresh_range (m0 : mem) (pgdir oldsz newsz : Z) : Prop :=
  forall va, in_pages (PGROUNDUP oldsz) newsz va -> mapping m0 pgdir va = None.

(** No page that starts in [a0, a1) is mapped, the other translations are those of [m0] and their
    frames are untouched. *)
Record cleared (pgdir a0 a1 : Z) (m0 m : mem) : Prop := {
  cl_map va : is_u32 va -> mapping m pgdir va = if decide (in_pages a0 a1 va) then None else mapping m0 pgdir va;
  cl_keep va e : 0 <= va < KERNBASE -> ~ in_pages a0 a1 va -> mapping m0 pgdir va = Some e -> same_page (frame e) m0 m
}.

(** The error path of [allocuvm] gives back every page it added. *)
Lemma grown_undo pgdir oldsz newsz a m0 s l :
  space s l pgdir -> grown pgdir (PGROUNDUP oldsz) a m0 (kmem_mem s) ->
  0 <= oldsz < newsz -> newsz <= KERNBASE -> a < newsz ->
  exists s' l', deallocuvm kend pgdir newsz oldsz s = Ok (oldsz, s')
    /\ space s' l' pgdir /\ cleared pgdir (PGROUNDUP oldsz) newsz m0 (kmem_mem s')
    /\ (forall q, q mod 4096 = 0 -> q ∉ l -> ~ tpage (kmem_mem s) pgdir q ->
          (forall va e, 0 <= va < KERNBASE -> mapping (kmem_mem s) pgdir va = Some e -> frame e <> q) ->
          q ∉ l' /\ ~ tpage (kmem_mem s') pgdir q).
Proof.
  intros Hs [G1 G2 _ G3] Ho Hn Ha.
  destruct (deallocuvm_spec s l pgdir newsz oldsz Hs Ho Hn) as (s' & l' & -> & Hs' & [S1 S2 S3 S4]).
  exists s', l'. split; [done|]. split; [done|]. destruct Hs as [Hk Hw Hu]. split.
  - split.
    + intros va Hva. rewrite S1 by done. case_decide as Hin; [done|].
      apply G1; [done|]. intros Hr. apply Hin. unfold in_pages. zlia.
    + intros va e Hva Hni Hm0.
      assert (mapping (kmem_mem s) pgdir va = Some e) as Hm.
      { rewrite G1; [done|by apply kern_u32|]. intros Hr. apply Hni. unfold in_pages. zlia. }
      destruct (uw_frame _ _ _ Hu va e Hva Hm) as (Hok & Hnl & Hnt).
      eapply same_page_trans; [by eapply G3|]. apply S4; [by eapply page_aligned|done|].
      rewrite S2. intros [?|(va' & e' & Hin & Hva' & Hm' & Heq)]; [done|]. apply Hni.
      pose proof (uw_inj _ _ _ Hu va va' e e' Hva Hva' Hm Hm' Heq) as Hpg.
      assert (PGROUNDUP oldsz mod 4096 = 0).
      { unfold KERNBASE in Hn. rewrite PGROUNDUP_alt by lia. zlia. }
      unfold in_pages in *. zlia.
  - intros q Hq Hl Ht Hf. split; [|by rewrite S3]. rewrite S2.
    intros [?|(va & e & _ & Hva & Hm & Heq)]; [done|]. by destruct (Hf va e Hva Hm).
Qed.

(** A step of [allocuvm] that found a page and a place for it in the table. *)
Lemma grown_step pgdir a0 a m0 s2 s3 l l' p :
  grown pgdir a0 a m0 (kmem_mem s2) -> space s2 l pgdir ->
  zero_page (kmem_mem s2) p -> a0 <= a -> a mod 4096 = 0 -> 0 <= a0 -> a < KERNBASE ->
  evolves pgdir (kmem_mem s2) l (kmem_mem s3) l' -> same_page p (kmem_mem s2) (kmem_mem s3) ->
  frame (V2P p + 7) = p -> PTE_FLAGS (V2P p + 7) = 7 ->
  (forall va, a <= va < a + 4096 -> mapping m0 pgdir va = None) ->
  (forall va, is_u32 va -> mapping (kmem_mem s3) pgdir va =
     if decide (va / 4096 = a / 4096) then Some (V2P p + 7) else mapping (kmem_mem s2) pgdir va) ->
  grown pgdir a0 (a + 4096) m0 (kmem_mem s3).
Proof.
  intros [G1 G2 G4 G3] [Hk Hw Hu] Hz Ha Haa H0 HaK Hev Hsp Hfr Hfl Hnone HM.
  assert (forall va e, 0 <= va < KERNBASE -> mapping (kmem_mem s2) pgdir va = Some e ->
    same_page (frame e) (kmem_mem s2) (kmem_mem s3)) as Hframes.
  { intros va e Hva Hm. destruct (uw_frame _ _ _ Hu va e Hva Hm) as (Hok & Hnl & Hnt).
    apply (ev_frame _ _ _ _ _ Hev); [by eapply page_aligned|done|done]. }
  split.
  - intros va Hva Hr. rewrite HM by done. rewrite decide_False by zlia. apply G1; [done|lia].
  - intros va Hr. unfold KERNBASE in HaK. rewrite HM by (unfold is_u32; zlia). case_decide as Hc.
    + exists (V2P p + 7). split; [done|]. split; [done|]. rewrite Hfr. intros o Hor.
      rewrite (Hsp o) by done. by apply Hz.
    + destruct (G2 va) as (e & Hm & He & Hze); [zlia|]. exists e. split; [done|]. split; [done|].
      intros o Hor. rewrite (Hframes va e) by (done || unfold KERNBASE; zlia). by apply Hze.
  - intros va Hva. destruct (decide (va < a)); [apply G4; lia|apply Hnone; lia].
  - intros va e Hva Hm. eapply same_page_trans; [by eapply G3|].
    destruct (decide (a0 <= va < a)) as [Hin|Hout]; [by rewrite G4 in Hm|].
    apply (Hframes va e); [done|]. rewrite G1; [done|by apply kern_u32|done].
Qed.

(** A change that leaves the map and the mapped frames alone keeps [grown]. *)
Lemma grown_keeps pgdir a0 a m0 m m' :
  grown pgdir a0 a m0 m -> 0 <= a0 -> a <= KERNBASE ->
  (forall va, is_u32 va -> mapping m' pgdir va = mapping m pgdir va) ->
  (forall va e, 0 <= va < KERNBASE -> mapping m pgdir va = Some e -> same_page (frame e) m m') ->
  grown pgdir a0 a m0 m'.
Proof.
  intros [G1 G2 G4 G3] H0 Ha HM Hfs. split; [intros; rewrite HM by done; auto| |done|].
  - intros va Hva. destruct (G2 va Hva) as (e & Hm & He & Hze). exists e.
    rewrite HM by (unfold KERNBASE, is_u32 in *; lia).
    split; [done|]. split; [done|]. intros o Hor. rewrite (Hfs va e) by (done || lia). by apply Hze.
  - intros va e Hva Hm. eapply same_page_trans; [by eapply G3|].
    destruct (decide (a0 <= va < a)) as [Hin|Hout]; [by rewrite G4 in Hm|].
    apply (Hfs va); [done|]. rewrite G1; [done|by apply kern_u32|done].
Qed.

(** Giving back a page that nothing maps keeps [cleared]. *)
Lemma cleared_kfree pgdir a0 a1 m0 s l p :
  space s l pgdir -> cleared pgdir a0 a1 m0 (kmem_mem s) -> page_ok kend p -> p ∉ l -> ~ tpage (kmem_mem s) pgdir p ->
  (forall va e, 0 <= va < KERNBASE -> mapping m0 pgdir va = Some e -> frame e <> p) ->
  exists s', kfree kend p s = Ok s' /\ space s' (p :: l) pgdir /\ cleared pgdir a0 a1 m0 (kmem_mem s').
Proof.
  intros Hs [R1 R2] Hp Hpl Hpt Hnf.
  destruct (kfree_space s l pgdir p) as (s5 & -> & Hs5 & HM5 & HF5); try done.
  { intros va e Hva. rewrite R1 by (by apply kern_u32). case_decide; [done|]. by apply Hnf. }
  exists s5. split; [done|]. split; [done|]. split; [intros; rewrite HM5; auto|].
  intros va e Hva Hni Hm. eapply same_page_trans; [by eapply R2|].
  assert (mapping (kmem_mem s) pgdir va = Some e) as Hm4 by (rewrite R1, decide_False; [done|done|by apply kern_u32]).
  apply HF5; [eapply page_aligned; by apply (uw_frame _ _ _ (sp_u _ _ _ Hs) va e)|by eapply Hnf].
Qed.

(** The whole error path once a page [p] was taken: [deallocuvm] and [kfree]. *)
Lemma grown_fail pgdir oldsz newsz a m0 s l p :
  space s l pgdir -> grown pgdir (PGROUNDUP oldsz) a m0 (kmem_mem s) ->
  0 <= PGROUNDUP oldsz -> 0 <= oldsz < newsz -> newsz <= KERNBASE -> a < newsz ->
  page_ok kend p -> p ∉ l -> ~ tpage (kmem_mem s) pgdir p ->
  (forall va e, 0 <= va < KERNBASE -> mapping (kmem_mem s) pgdir va = Some e -> frame e <> p) ->
  exists s' l', (let! (_, s) := deallocuvm kend pgdir newsz oldsz s in let! s := kfree kend p s in Ok (0, s)) = Ok (0, s')
    /\ space s' l' pgdir /\ cleared pgdir (PGROUNDUP oldsz) newsz m0 (kmem_mem s').
Proof.
  intros Hs Hg H0 Ho Hn Ha Hp Hpl Hpt Hnf.
  destruct (grown_undo pgdir oldsz newsz a m0 s l Hs Hg) as (s4 & l4 & -> & Hs4 & Hcl & Hq4); try done.
  cbn [obind]. destruct (Hq4 p) as [Hpl4 Hpt4]; try done; [by eapply page_aligned|].
  destruct (cleared_kfree pgdir (PGROUNDUP oldsz) newsz m0 s4 l4 p) as (s5 & -> & Hs5 & Hre5); try done.
  { intros va e Hva Hm. apply (Hnf va); [done|]. rewrite (gr_old _ _ _ _ _ Hg); [done|by apply kern_u32|].
    intros Hin. by rewrite (gr_fresh _ _ _ _ _ Hg) in Hm. }
  cbn [obind]. by exists s5, (p :: l4).
Qed.

(** How [allocuvm] ends: it grew the process, or it found a mapped page in the range or
    no memory, two pages for each page of the range at most, and cleared the range. *)
Definition allocuvm_end (pgdir oldsz newsz a : Z) (m0 : mem) (l : list Z) (r : Z) (m : mem) : Prop :=
  (r = newsz /\ grown pgdir (PGROUNDUP oldsz) ((newsz + 4095) / 4096 * 4096) m0 m)
  \/ (r = 0 /\ cleared pgdir (PGROUNDUP oldsz) newsz m0 m
      /\ (Z.of_nat (length l) <= 2 * ((newsz - a + 4095) / 4096) \/ ~ fresh_range m0 pgdir oldsz newsz)).

Lemma allocuvm_loop_spec pgdir oldsz newsz m0 fuel : forall a s l,
  space s l pgdir -> grown pgdir (PGROUNDUP oldsz) a m0 (kmem_mem s) ->
  0 <= oldsz -> PGROUNDUP oldsz <= a -> oldsz <= a -> a mod 4096 = 0 -> newsz < KERNBASE ->
  a <= (newsz + 4095) / 4096 * 4096 -> (newsz - a + 4095) / 4096 <= Z.of_nat fuel ->
  exists r s' l', allocuvm_loop kend fuel pgdir a oldsz newsz s = Ok (r, s') /\ space s' l' pgdir
    /\ allocuvm_end pgdir oldsz newsz a m0 l r (kmem_mem s').
Proof.
  induction fuel as [|k IH]; intros a s l Hs Hg Ho Ha0 Hoa Haa Hn Hal Hf; cbn [allocuvm_loop].
  all: destruct (Z.ltb_spec a newsz) as [Hlt|Hge];
    [|exists newsz, s, l; split; [done|]; split; [done|]; left; split; [done|];
      replace ((newsz + 4095) / 4096 * 4096) with a by zlia; done].
  { zlia. }
  assert (0 <= PGROUNDUP oldsz) as H0 by (unfold KERNBASE in *; rewrite PGROUNDUP_alt by lia; zlia).
  destruct l as [|p l].
  { rewrite (kalloc_empty kend) by apply Hs. cbn [Z.eqb].
    destruct (grown_undo pgdir oldsz newsz a m0 s [] Hs Hg) as (s' & l' & -> & Hs' & Hre & _);
      try done; try lia.
    exists 0, s', l'. cbn [obind]. split; [done|]. split; [done|]. right. split; [done|]. split; [done|]. left. cbn. zlia. }
  destruct (kalloc_zeroed s p l pgdir Hs) as (s1 & -> & Hp0 & Hp & Hpl & Hpt & Hs2 & Hz & HM2 & HF2 & HT2).
  destruct (Z.eqb_spec p 0) as [|_]; [done|]. set (s2 := set_mem _ s1) in *.
  assert (forall va e, 0 <= va < KERNBASE -> mapping (kmem_mem s) pgdir va = Some e -> frame e <> p) as Hnf.
  { intros va e Hva Hm Heq. destruct (uw_frame _ _ _ (sp_u _ _ _ Hs) va e Hva Hm) as (_ & Hn' & _).
    apply Hn'. rewrite Heq. by left. }
  assert (grown pgdir (PGROUNDUP oldsz) a m0 (kmem_mem s2)) as Hg2.
  { apply (grown_keeps _ _ _ _ (kmem_mem s)); [done|done|lia|by intros; rewrite HM2|].
    intros va e Hva Hm. apply HF2; [|by eapply Hnf]. eapply page_aligned. by apply (uw_frame _ _ _ (sp_u _ _ _ Hs) va e). }
  assert (~ tpage (kmem_mem s2) pgdir p) as Hpt2 by (by rewrite HT2).
  assert (forall va e, 0 <= va < KERNBASE -> mapping (kmem_mem s2) pgdir va = Some e -> frame e <> p) as Hnf2
    by (intros va e Hva; rewrite HM2; by apply Hnf).
  assert (mapping (kmem_mem s2) pgdir a = mapping m0 pgdir a) as Hma
    by (rewrite (gr_old _ _ _ _ _ Hg2); [done|unfold KERNBASE, is_u32 in *; lia|lia]).
  destruct (mapping (kmem_mem s2) pgdir a) as [e|] eqn:Hna.
  { rewrite (mappages_mapped s2 l pgdir a _ _ (sp_pt _ _ _ Hs2) ltac:(lia) Haa) by (by rewrite Hna). cbn [obind Z.ltb Z.compare].
    destruct (grown_fail pgdir oldsz newsz a m0 s2 l p) as (s' & l' & -> & Hs' & Hcl); try done; try lia.
    exists 0, s', l'. split; [done|]. split; [done|]. right. split; [done|]. split; [done|]. right.
    intros Hfr. rewrite Hfr in Hma; [done|]. unfold in_pages. zlia. }
  destruct (map_user_page s2 l pgdir a p) as (r & s3 & l3 & Hmap & Hs3 & Hev & Hsp & Hpl3 & Hpt3 & Hr);
    try done; try lia.
  pose proof (mappages_takes s2 l pgdir a (V2P p) (Z.lor PTE_W PTE_U) r s3 l3 (sp_k _ _ _ Hs2) (sp_pt _ _ _ Hs2) ltac:(lia) Haa Hmap (sp_k _ _ _ Hs3)) as Hlen.
  rewrite Hmap. cbn [obind]. destruct Hr as [(-> & Hfr1 & Hfl & HM3)|(-> & HM3 & ->)]; cbn [Z.ltb Z.compare].
  - unfold PGSIZE. rewrite u32_id by (unfold KERNBASE, is_u32 in *; lia).
    destruct (IH (a + 4096) s3 l3) as (r & s' & l' & E & Hs' & Hend); try done; try zlia.
    { eapply (grown_step pgdir _ a m0 s2 s3 l l3 p); try done; try lia.
      intros va Hva. rewrite Hma. unfold KERNBASE in Hn. apply mapping_same_vpage; unfold is_u32; zlia. }
    exists r, s', l'. split; [done|]. split; [done|]. destruct Hend as [?|(-> & Hcl & Hm)]; [by left|right].
    split; [done|]. split; [done|]. destruct Hm as [Hm|Hm]; [left|by right]. cbn [length]. zlia.
  - assert (grown pgdir (PGROUNDUP oldsz) a m0 (kmem_mem s3)) as Hg3.
    { apply (grown_keeps _ _ _ _ (kmem_mem s2)); [done|done|lia|done|].
      intros va e Hva Hm. destruct (uw_frame _ _ _ (sp_u _ _ _ Hs2) va e Hva Hm) as (Hok & Hnl & Hnt).
      apply (ev_frame _ _ _ _ _ Hev); [by eapply page_aligned|done|done]. }
    destruct (grown_fail pgdir oldsz newsz a m0 s3 [] p) as (s' & l' & -> & Hs' & Hcl); try done; try lia.
    { intros va e Hva. rewrite HM3 by (by apply kern_u32). by apply Hnf2. }
    exists 0, s', l'. split; [done|]. split; [done|]. right. split; [done|]. split; [done|]. left. cbn [length] in *. zlia.
Qed.

Lemma allocuvm_spec s l pgdir oldsz newsz :
  space s l pgdir -> 0 <= oldsz <= newsz -> newsz < KERNBASE ->
  exists r s' l', allocuvm kend pgdir oldsz newsz s = Ok (r, s') /\ space s' l' pgdir
    /\ allocuvm_end pgdir oldsz newsz (PGROUNDUP oldsz) (kmem_mem s) l r (kmem_mem s').
Proof.
  intros Hs Ho Hn. unfold allocuvm, KERNBASE in *.
  destruct (Z.leb_spec 2147483648 newsz); [lia|]. destruct (Z.ltb_spec newsz oldsz); [lia|].
  apply (allocuvm_loop_spec pgdir oldsz newsz (kmem_mem s) _ _ s l); try done; try lia.
  - split; [done| | |intros; apply same_page_refl]; intros; lia.
  - rewrite PGROUNDUP_alt by lia. zlia.
  - rewrite PGROUNDUP_alt by lia. zlia.
  - rewrite PGROUNDUP_alt by lia. zlia.
  - unfold PGSIZE. rewrite PGROUNDUP_alt by lia. zlia.
Qed.

End User.
