(* ===== verification/VmCopy.v ===== *)
(** Tearing an address space down ([freevm]) and writing into one from the
    kernel ([uva2ka], [copyout]); the properties of vm.c with their witnesses. *)
From S2P Require Import Prelude Mem KString Mmu Kalloc Vm VmTheory VmUser.

(** The byte a user program reads at [va]: its page is present and user. *)
Definition uload (m : mem) (pgdir va : Z) : option Z :=
  match mapping m pgdir va with
  | Some e => if has e PTE_U then Some (ld8 m (frame e + va mod 4096)) else None
  | None => None
  end.

Section Teardown.
Context (kend : Z) (Hkend : kend_ok kend).

(** The table pages of directory slots [i] to [i + n - 1]. *)
Fixpoint table_pages (m : mem) (pgdir i : Z) (n : nat) : list Z :=
  match n with
  | O => []
  | S k => (if has (pde m pgdir i) PTE_P then [ptp m pgdir i] else []) ++ table_pages m pgdir (i + 1) k
  end.

Lemma elem_of_table_pages m pgdir n : forall i q,
  q ∈ table_pages m pgdir i n <->
  exists j, i <= j < i + Z.of_nat n /\ has (pde m pgdir j) PTE_P = true /\ q = ptp m pgdir j.
Proof.
  induction n as [|n IH]; intros i q; cbn [table_pages].
  - split; [by intros ?%not_elem_of_nil|]. intros (j & ? & _). lia.
  - rewrite elem_of_app, IH. split.
    + intros [Hq|(j & Hj & Hp & ->)]; [|exists j; split; [lia|done]].
      destruct (has _ _) eqn:E; [|by apply not_elem_of_nil in Hq].
      apply list_elem_of_singleton in Hq as ->. exists i. split; [lia|done].
    + intros (j & Hj & Hp & ->). destruct (Z.eq_dec j i) as [->|Hne].
      * left. rewrite Hp. by left.
      * right. exists j. split; [lia|done].
Qed.

Lemma table_pages_frame m m' pgdir n : forall i,
  same_page pgdir m m' -> 0 <= i -> i + Z.of_nat n <= 1024 ->
  table_pages m' pgdir i n = table_pages m pgdir i n.
Proof.
  induction n as [|n IH]; intros i HF Hi Hn; cbn [table_pages]; [done|].
  rewrite (pde_frame m m'), (ptp_frame m m'), IH by (done || unfold slot; lia). done.
Qed.

(** The second loop of [freevm] frees each table page once. *)
Lemma freevm_loop_spec pgdir n : forall i s l,
  kmem_wf kend s l -> page_ok kend pgdir -> pgdir ∉ l ->
  0 <= i -> i + Z.of_nat n = 1024 ->
  NoDup (table_pages (kmem_mem s) pgdir i n) ->
  (forall q, q ∈ table_pages (kmem_mem s) pgdir i n -> page_ok kend q /\ q ∉ l /\ q <> pgdir) ->
  exists s', freevm_loop kend n pgdir i s = Ok s'
    /\ kmem_wf kend s' (rev (table_pages (kmem_mem s) pgdir i n) ++ l)
    /\ (forall q, q mod 4096 = 0 -> q ∉ table_pages (kmem_mem s) pgdir i n ->
          same_page q (kmem_mem s) (kmem_mem s')).
Proof.
  induction n as [|n IH]; intros i s l Hk Hd Hdl Hi Hn Hnd Hp; cbn [freevm_loop table_pages] in *.
  - exists s. split; [done|]. split; [done|]. intros. apply same_page_refl.
  - fold (pde (kmem_mem s) pgdir i). destruct (has (pde (kmem_mem s) pgdir i) PTE_P) eqn:E.
    + cbn [app] in *. apply NoDup_cons in Hnd as [Hnin Hnd].
      destruct (Hp (ptp (kmem_mem s) pgdir i)) as (Hok & Hnl & Hne); [by left|].
      fold (ptp (kmem_mem s) pgdir i).
      destruct (kfree_ok kend s _ l Hkend Hk Hok Hnl) as (s1 & -> & Hk1 & HF & _). cbn [obind].
      assert (same_page pgdir (kmem_mem s) (kmem_mem s1)) as HFd.
      { apply HF; [by eapply page_aligned|done]. }
      assert (table_pages (kmem_mem s1) pgdir (i + 1) n = table_pages (kmem_mem s) pgdir (i + 1) n) as HT
        by (apply table_pages_frame; [done|lia|lia]).
      destruct (IH (i + 1) s1 (ptp (kmem_mem s) pgdir i :: l)) as (s' & -> & Hk' & HF'); try done.
      * rewrite not_elem_of_cons. split; [done|done].
      * lia.
      * lia.
      * by rewrite HT.
      * rewrite HT. intros q Hq. destruct (Hp q) as (?&?&?); [by right|].
        rewrite not_elem_of_cons. split; [done|]. split; [|done]. split; [by intros ->|done].
      * rewrite HT in *. exists s'. split; [done|]. split; [cbn [rev]; by rewrite <- app_assoc|].
        intros q Hq Hnq. apply not_elem_of_cons in Hnq as [? ?].
        eapply same_page_trans; [by apply HF|by apply HF'].
    + cbn [app obind] in *. apply IH; try done; lia.
Qed.

Lemma NoDup_table_pages m l pgdir n : forall i,
  pt_wf kend m l pgdir -> 0 <= i -> i + Z.of_nat n <= 1024 -> NoDup (table_pages m pgdir i n).
Proof.
  induction n as [|n IH]; intros i Hw Hi Hn; cbn [table_pages]; [constructor|].
  destruct (has (pde m pgdir i) PTE_P) eqn:E; cbn [app]; [|apply IH; [done|lia|lia]].
  apply NoDup_cons. split; [|apply IH; [done|lia|lia]].
  rewrite elem_of_table_pages. intros (j & Hj & Hp & Heq).
  apply (pw_inj _ _ _ _ Hw) in Heq; [lia| | |done|done]; unfold slot; lia.
Qed.

Lemma tpage_table_pages m pgdir q :
  tpage m pgdir q <-> q = pgdir \/ q ∈ table_pages m pgdir 0 (Z.to_nat NPDENTRIES).
Proof.
  rewrite elem_of_table_pages. change (0 + Z.of_nat (Z.to_nat NPDENTRIES)) with 1024.
  unfold tpage, slot. naive_solver.
Qed.

(** [freevm] returns the directory, every table page and every user frame to
    the allocator, and nothing else. *)
Lemma freevm_spec s l pgdir :
  space kend s l pgdir ->
  exists s' l', freevm kend pgdir s = Ok s' /\ kmem_wf kend s' l'
    /\ (forall q, q ∈ l' <-> q ∈ l \/ tpage (kmem_mem s) pgdir q \/
          exists va e, 0 <= va < KERNBASE /\ mapping (kmem_mem s) pgdir va = Some e /\ q = frame e)
    /\ (forall q, q mod 4096 = 0 -> q ∉ l' -> same_page q (kmem_mem s) (kmem_mem s')).
Proof.
  intros Hs. unfold freevm.
  destruct (Z.eqb_spec pgdir 0) as [->|_].
  { pose proof (pw_dir _ _ _ _ (sp_pt _ _ _ _ Hs)) as H0. by apply page_ok_nonzero in H0. }
  destruct (deallocuvm_spec kend Hkend s l pgdir KERNBASE 0 Hs) as (s1 & l1 & -> & [Hk1 Hw1 Hu1] & [S1 S2 S3 S4]);
    [unfold KERNBASE; lia|lia|].
  cbn [obind].
  destruct (freevm_loop_spec pgdir (Z.to_nat NPDENTRIES) 0 s1 l1) as (s2 & -> & Hk2 & HF2);
    try done; [apply Hw1|apply Hw1|by eapply NoDup_table_pages| |].
  { intros q Hq. apply elem_of_table_pages in Hq as (j & Hj & Hp & ->).
    apply (pw_pt _ _ _ _ Hw1); [done|done]. }
  cbn [obind]. set (T := table_pages (kmem_mem s1) pgdir 0 (Z.to_nat NPDENTRIES)) in *.
  assert (pgdir ∉ rev T ++ l1) as Hd.
  { rewrite elem_of_app, elem_of_rev. intros [Hq|Hq]; [|by apply (pw_dir_l _ _ _ _ Hw1)].
    apply elem_of_table_pages in Hq as (j & Hj & Hp & Heq).
    by destruct (pw_pt _ _ _ _ Hw1 j Hj Hp) as (_ & _ & ?). }
  destruct (kfree_ok kend s2 pgdir _ Hkend Hk2 (pw_dir _ _ _ _ Hw1) Hd) as (s3 & -> & Hk3 & HF3 & _).
  exists s3, (pgdir :: rev T ++ l1). split; [done|]. split; [done|]. split.
  - intros q. rewrite elem_of_cons, elem_of_app, elem_of_rev, <- (S3 q), tpage_table_pages, S2.
    fold T. unfold in_pages. split; intros Hq.
    + destruct Hq as [?|[?|[?|(va & e & ? & ? & ? & ?)]]]; eauto 10.
    + destruct Hq as [?|[[?|?]|(va & e & ? & ? & ?)]]; eauto.
      right. right. right. exists va, e. split; [|done].
      change (PGROUNDUP 0) with 0. unfold KERNBASE in *. zlia.
  - intros q Hq Hnq. rewrite not_elem_of_cons, elem_of_app, elem_of_rev in Hnq.
    destruct Hnq as [Hne Hnq]. assert (~ tpage (kmem_mem s) pgdir q).
    { rewrite <- S3, tpage_table_pages. tauto. }
    eapply same_page_trans; [apply S4; [done|done|tauto]|].
    eapply same_page_trans; [apply HF2; [done|tauto]|by apply HF3].
Qed.

End Teardown.

Section Copyout.
Context (kend : Z) (Hkend : kend_ok kend).

(** Writing inside one user frame keeps the address space and its map. *)
Lemma write_frame s l pgdir va e m' :
  space kend s l pgdir -> 0 <= va < KERNBASE -> mapping (kmem_mem s) pgdir va = Some e ->
  (forall q, q mod 4096 = 0 -> q <> frame e -> same_page q (kmem_mem s) m') ->
  space kend (set_mem m' s) l pgdir /\ (forall a, mapping m' pgdir a = mapping (kmem_mem s) pgdir a).
Proof.
  intros [Hk Hw Hu] Hva Hm HF. destruct (uw_frame _ _ _ _ Hu va e Hva Hm) as (Hok & Hnl & Hnt).
  assert (forall q, tpage (kmem_mem s) pgdir q -> same_page q (kmem_mem s) m') as HFt.
  { intros q Hq. apply HF; [|by intros ->]. eapply page_aligned, (tpage_ok _ _ _ _ _ Hw Hq). }
  assert (same_page pgdir (kmem_mem s) m') as Hd by (apply HFt; by left).
  assert (forall a, mapping m' pgdir a = mapping (kmem_mem s) pgdir a) as HM by (intros; by apply mapping_frame).
  split; [|done]. split.
  - apply kmem_wf_frame; [done|]. apply Forall_forall. intros p Hp. apply HF; [|by intros ->].
    pose proof (kw_pages _ _ _ Hk) as HP. rewrite Forall_forall in HP. by eapply page_aligned, HP.
  - eapply pt_wf_frame; [done|done|]. intros q Hq. by apply (tpage_ok _ _ _ _ _ Hw Hq).
  - cbn [kmem_mem set_mem]. split.
    + intros a e' Ha. rewrite HM. intros Hm'. rewrite tpage_frame by done. by apply (uw_frame _ _ _ _ Hu a e').
    + intros a a' e1 e2. rewrite !HM. apply (uw_inj _ _ _ _ Hu).
Qed.

Lemma uva2ka_spec s l pgdir va e :
  space kend s l pgdir -> entry (kmem_mem s) pgdir va = Some e ->
  uva2ka pgdir va s = Ok (if has e PTE_P && has e PTE_U then frame e else 0).
Proof.
  intros Hs He. unfold uva2ka. rewrite (walkpgdir_noalloc kend s l) by apply Hs. rewrite He.
  pose proof He as He'. unfold entry in He'. destruct (has (pde _ _ _) _) eqn:E; [|done]. injection He' as He'.
  destruct (Z.eqb_spec (pte_addr (kmem_mem s) pgdir va) 0) as [Hz|_].
  { eapply pte_addr_nonzero in Hz; [done|done|by apply (sp_pt _ _ _ _ Hs)|done]. }
  rewrite He'. by destruct (has e PTE_P), (has e PTE_U).
Qed.

(** The kernel buffer at [buf] overlaps no user frame. *)
Definition buffer_apart (m : mem) (pgdir buf len : Z) : Prop :=
  forall va e, 0 <= va < KERNBASE -> mapping m pgdir va = Some e ->
    frame e + 4096 <= buf \/ buf + len <= frame e.

(** What [copyout] did: the user bytes at [va] to [va + n - 1] are those of
    the buffer, every other user byte is as before, and so is every other byte
    of memory. *)
Record copied (m m' : mem) (pgdir va buf n : Z) : Prop := {
  co_in a : va <= a < va + n -> uload m pgdir a <> None /\ uload m' pgdir a = Some (ld8 m (buf + (a - va)));
  co_out a : 0 <= a < KERNBASE -> ~ va <= a < va + n -> uload m' pgdir a = uload m pgdir a;
  co_mem b : (forall a e, va <= a < va + n -> mapping m pgdir a = Some e -> b <> frame e + a mod 4096) -> ld8 m' b = ld8 m b
}.

(** One chunk: [n] bytes inside the page of [va]. *)
Lemma copy_chunk s l pgdir va buf n e :
  space kend s l pgdir -> 0 <= va < KERNBASE -> mapping (kmem_mem s) pgdir va = Some e ->
  has e PTE_U = true -> 0 <= n -> va mod 4096 + n <= 4096 -> buffer_apart (kmem_mem s) pgdir buf n ->
  let m' := memmove (kmem_mem s) (frame e + va mod 4096) buf n in
  space kend (set_mem m' s) l pgdir
  /\ (forall a, mapping m' pgdir a = mapping (kmem_mem s) pgdir a)
  /\ copied (kmem_mem s) m' pgdir va buf n
  /\ (forall b, b < frame e \/ frame e + 4096 <= b -> ld8 m' b = ld8 (kmem_mem s) b).
Proof.
  intros Hs Hva Hm HU Hn Hfit Hap m'. pose proof (sp_u _ _ _ _ Hs) as Hu.
  pose proof (Z.mod_pos_bound va 4096 ltac:(lia)) as Hmod.
  destruct (uw_frame _ _ _ _ Hu va e Hva Hm) as (Hok & _ & _).
  pose proof (page_aligned _ _ Hok) as Hal.
  assert (forall b, b < frame e \/ frame e + 4096 <= b -> ld8 m' b = ld8 (kmem_mem s) b) as Hout.
  { intros b Hb. unfold m'. rewrite ld8_memmove by done. rewrite decide_False by lia. done. }
  destruct (write_frame s l pgdir va e m' Hs Hva Hm) as [Hs' HM].
  { intros q Hq Hne b Hb. apply Hout. zlia. }
  split; [done|]. split; [done|]. split; [|done]. split.
  - intros a Ha.
    assert (mapping (kmem_mem s) pgdir a = Some e) as Ea.
    { rewrite <- Hm. unfold KERNBASE in Hva. apply mapping_same_vpage; [zlia|zlia|zlia]. }
    unfold uload. rewrite HM, Ea, HU. split; [done|]. f_equal. unfold m'. rewrite ld8_memmove by done.
    rewrite decide_True by zlia. f_equal. zlia.
  - intros a Ha Hna. unfold uload. rewrite HM. destruct (mapping (kmem_mem s) pgdir a) as [e'|] eqn:Ea; [|done].
    destruct (has e' PTE_U); [|done]. f_equal. unfold m'. rewrite ld8_memmove by done.
    case_decide as Hd; [|done]. exfalso. pose proof (Z.mod_pos_bound a 4096 ltac:(lia)).
    destruct (uw_frame _ _ _ _ Hu a e' Ha Ea) as (Hok' & _ & _). pose proof (page_aligned _ _ Hok') as Hal'.
    assert (frame e' = frame e) as Hfe by zlia.
    pose proof (uw_inj _ _ _ _ Hu a va e' e Ha Hva Ea Hm Hfe). zlia.
  - intros b Hb. unfold m'. rewrite ld8_memmove by done. case_decide as Hd; [|done]. exfalso.
    set (a := va + (b - (frame e + va mod 4096))). apply (Hb a e); [unfold a; lia| |unfold a; zlia].
    rewrite <- Hm. unfold KERNBASE in Hva. apply mapping_same_vpage; unfold a; zlia.
Qed.

Lemma copied_trans m m1 m2 pgdir va buf n k :
  0 <= va -> va + n + k <= KERNBASE -> 0 <= n -> 0 <= k ->
  copied m m1 pgdir va buf n -> copied m1 m2 pgdir (va + n) (buf + n) k ->
  (forall b, buf + n <= b < buf + n + k -> ld8 m1 b = ld8 m b) -> (forall a, mapping m1 pgdir a = mapping m pgdir a) ->
  copied m m2 pgdir va buf (n + k).
Proof.
  intros H0 Hb Hn Hk [I1 O1 M1] [I2 O2 M2] Hbuf HM. split.
  - intros a Ha. destruct (Z_lt_dec a (va + n)) as [Hlt|Hge].
    + destruct (I1 a) as [? ?]; [lia|]. rewrite O2 by lia. done.
    + destruct (I2 a) as [HN HE]; [lia|]. rewrite O1 in HN by lia. split; [done|].
      rewrite HE. f_equal. rewrite Hbuf by lia. f_equal. lia.
  - intros a Ha Hna. rewrite O2 by lia. apply O1; lia.
  - intros b Hnb. rewrite M2; [apply M1|]; intros a e Ha Hm; apply (Hnb a e); rewrite ?HM in Hm; done || lia.
Qed.

Lemma copied_refl m pgdir va buf : copied m m pgdir va buf 0.
Proof. split; [lia|done|done]. Qed.

Lemma buffer_apart_sub m m' pgdir buf len d k :
  buffer_apart m pgdir buf len -> (forall a, mapping m' pgdir a = mapping m pgdir a) ->
  0 <= d -> 0 <= k -> d + k <= len -> buffer_apart m' pgdir (buf + d) k.
Proof. intros H HM ? ? ? va e Hva. rewrite HM. intros Hm. destruct (H va e Hva Hm); lia. Qed.

Lemma uva2ka_null s l pgdir va : space kend s l pgdir -> entry (kmem_mem s) pgdir va = None -> uva2ka pgdir va s = UB "uva2ka: null pte".
Proof. intros Hs He. unfold uva2ka. rewrite (walkpgdir_noalloc kend s l) by apply Hs. by rewrite He. Qed.

(** How [copyout] ends, when it has copied [n] of [len] bytes: with all of them; at
    a page that has a table entry but is not a present user page; or at a page
    without a table, whose entry [uva2ka] reads through a null pointer. *)
Definition copyout_end (m : mem) (pgdir va n len : Z) (s' : kst) (o : outcome (Z * kst)) : Prop :=
  (n = len /\ o = Ok (0, s'))
  \/ (0 <= n < len /\ uload m pgdir (va + n) = None /\ entry m pgdir (va + n) <> None /\ o = Ok (-1, s'))
  \/ (0 <= n < len /\ entry m pgdir (va + n) = None /\ o = UB "uva2ka: null pte").

(** [copyout] copies a prefix of the buffer: all of it, or up to the first
    byte that is not in a present user page. *)
Lemma copyout_loop_spec l pgdir fuel : forall va buf len s,
  space kend s l pgdir -> 0 <= va -> 0 <= len <= Z.of_nat fuel -> va + len <= KERNBASE ->
  buffer_apart (kmem_mem s) pgdir buf len ->
  exists s' n, copyout_end (kmem_mem s) pgdir va n len s' (copyout_loop fuel pgdir va buf len s) /\ space kend s' l pgdir
    /\ copied (kmem_mem s) (kmem_mem s') pgdir va buf n.
Proof.
  induction fuel as [|k IH]; intros va buf len s Hs Hva Hlen Hk Hap; cbn [copyout_loop].
  all: destruct (Z.ltb_spec 0 len) as [Hpos|Hz].
  all: try (exists s, 0; split; [left; split; [lia|done]|split; [done|apply copied_refl]]).
  { lia. }
  assert (is_u32 va) as Huv by (unfold KERNBASE in Hk; unfold is_u32; lia).
  pose proof (Z.mod_pos_bound va 4096 ltac:(lia)) as Hmod. unfold PGSIZE.
  rewrite PGROUNDDOWN_alt by done.
  assert (entry (kmem_mem s) pgdir (va - va mod 4096) = entry (kmem_mem s) pgdir va) as Ep
    by (apply entry_same_vpage; [done|unfold is_u32 in *; zlia|zlia]).
  destruct (entry (kmem_mem s) pgdir va) as [e|] eqn:Ee.
  2: { rewrite (uva2ka_null s l pgdir) by done. exists s, 0. split; [|split; [done|apply copied_refl]].
       right. right. rewrite Z.add_0_r. split; [lia|done]. }
  rewrite (uva2ka_spec s l pgdir _ e) by done.
  cbn [obind].
  destruct (has e PTE_P && has e PTE_U) eqn:EPU.
  2: { exists s, 0. split; [|split; [done|apply copied_refl]]. right. left.
       split; [lia|]. rewrite Z.add_0_r. unfold uload, mapping. rewrite Ee. split; [by destruct (has e PTE_P), (has e PTE_U)|done]. }
  apply andb_true_iff in EPU as [EP EU].
  assert (mapping (kmem_mem s) pgdir va = Some e) as Hm by (unfold mapping; by rewrite Ee, EP).
  assert (0 <= va < KERNBASE) as Hvk by lia.
  destruct (uw_frame _ _ _ _ (sp_u _ _ _ _ Hs) va e Hvk Hm) as (Hok & _ & _).
  destruct (Z.eqb_spec (frame e) 0) as [Hz|_]; [by apply page_ok_nonzero in Hok|].
  set (n := if len <? _ then _ else _).
  assert (n = Z.min len (4096 - va mod 4096)) as Hn.
  { unfold n. destruct (Z.ltb_spec len (4096 - (va - (va - va mod 4096)))); lia. }
  clearbody n. replace (va - (va - va mod 4096)) with (va mod 4096) by lia.
  destruct (copy_chunk s l pgdir va buf n e Hs Hvk Hm EU) as (Hs1 & HM1 & Hc1 & Hout); [lia|lia| |].
  { rewrite <- (Z.add_0_r buf). eapply buffer_apart_sub; [done|done|lia|lia|lia]. }
  set (m1 := memmove _ _ _ _) in *.
  destruct (Z.eq_dec n len) as [->|Hne].
  { rewrite Z.sub_diag. exists (set_mem m1 s), len. split; [|by split]. left. split; [done|]. by destruct k. }
  rewrite u32_id by (unfold is_u32, KERNBASE in *; lia).
  replace (va - va mod 4096 + 4096) with (va + n) by lia.
  destruct (IH (va + n) (buf + n) (len - n) (set_mem m1 s)) as (s' & j & Hr & Hs' & Hc2); try done; try lia.
  { cbn. eapply buffer_apart_sub; [done|done|lia|lia|lia]. }
  exists s', (n + j). cbn [kmem_mem set_mem] in Hc2, Hr.
  assert (forall a, entry m1 pgdir a = entry (kmem_mem s) pgdir a) as HE1.
  { intros a. apply entry_frame. intros q Hq b Hb. apply Hout. destruct (tpage_ok _ _ _ _ _ (sp_pt _ _ _ _ Hs) Hq) as [Hqo _].
    destruct (uw_frame _ _ _ _ (sp_u _ _ _ _ Hs) va e Hvk Hm) as (_ & _ & Hnt).
    pose proof (page_aligned _ _ Hqo). pose proof (page_aligned _ _ Hok).
    destruct (Z.eq_dec q (frame e)) as [->|]; [done|]. zlia. }
  assert (0 <= j <= len - n) as Hj by (destruct Hr as [[-> _]|[(? & _)|(? & _)]]; lia).
  split; [|split; [done|]].
  - unfold copyout_end. destruct Hr as [[-> ->]|[(Hjl & Hu & He & ->)|(Hjl & He & ->)]]; rewrite ?HE1, <- ?Z.add_assoc in *; [left|right; left|right; right].
    + split; [lia|done].
    + split; [lia|]. split; [|done]. rewrite <- (co_out _ _ _ _ _ _ Hc1); [done|lia|lia].
    + split; [lia|done].
  - eapply copied_trans; [done| | | |done|done| |done]; try lia.
    intros b Hb. apply Hout. destruct (Hap va e Hvk Hm); lia.
Qed.

End Copyout.
