(* ===== verification/VmProps.v ===== *)
(** The properties of vm.c and kalloc.c, each with a concrete run. *)
From S2P Require Import Prelude Mem KString Mmu Kalloc Vm VmTheory VmUser VmCopy.

(** * A concrete address space: an empty table and three free pages *)

Definition kend0 : Z := KERNLINK.
Definition page0 (i : Z) : Z := KERNLINK + 4096 * i.

Definition mem0 : mem := st32 (st32 ∅ (page0 1) (page0 2)) (page0 2) (page0 3).
Definition kst0 : kst := Kst mem0 (page0 1) true.
Definition free0 : list Z := [page0 1; page0 2; page0 3].
Definition pgdir0 : Z := page0 0.

Lemma kend0_ok : kend_ok kend0.
Proof. done. Qed.

Lemma page0_ok i : 0 <= i < 57088 -> page_ok kend0 (page0 i).
Proof.
  intros Hi. unfold page_ok, kend0, page0, is_u32, V2P, KERNLINK, KERNBASE, EXTMEM, PHYSTOP. zlia.
Qed.

Lemma kst0_wf : kmem_wf kend0 kst0 free0.
Proof.
  split; [by vm_compute| |].
  - repeat (apply NoDup_cons; split; [rewrite ?elem_of_cons, elem_of_nil; unfold page0; lia|]). constructor.
  - repeat (apply Forall_cons; split; [apply page0_ok; lia|]). constructor.
Qed.

(** A zeroed directory is a well-formed empty table. *)
Lemma empty_space kend s l pgdir :
  kmem_wf kend s l -> page_ok kend pgdir -> pgdir ∉ l -> zero_page (kmem_mem s) pgdir ->
  space kend s l pgdir /\ (forall va, mapping (kmem_mem s) pgdir va = None).
Proof.
  intros Hk Hp Hl Hz.
  assert (forall i, slot i -> pde (kmem_mem s) pgdir i = 0) as Hpde.
  { intros i Hi. unfold slot in Hi. apply ld32_zero. intros b Hb. apply Hz. lia. }
  assert (forall va, mapping (kmem_mem s) pgdir va = None) as HM.
  { intros va. unfold mapping, entry. by rewrite Hpde by apply PDX_slot. }
  split; [|done]. split; [done| |].
  - split; [done|done| |]; intros i; intros; rewrite Hpde in * by done; done.
  - split; intros *; rewrite !HM; done.
Qed.

Lemma space0 : space kend0 kst0 free0 pgdir0 /\ forall va, mapping mem0 pgdir0 va = None.
Proof.
  apply (empty_space kend0 kst0); [apply kst0_wf|by apply page0_ok| |].
  - unfold free0, pgdir0, page0. rewrite !not_elem_of_cons. split; [lia|]. split; [lia|]. split; [lia|]. apply not_elem_of_nil.
  - intros b Hb. cbn [kmem_mem kst0]. unfold mem0. unfold pgdir0, page0 in *.
    rewrite !ld8_st32_ne by lia. done.
Qed.

Section Props.
Context (kend : Z) (Hkend : kend_ok kend).

(** The physical page allocator is a stack of distinct pages: freeing a page
    it may own and allocating again gives that page back with the rest of the
    list intact; a page outside [end, PHYSTOP) or not aligned panics; the
    empty list yields 0. *)
Theorem kalloc_kfree s l v :
  kmem_wf kend s l -> is_u32 v -> v ∉ l ->
  match kfree kend v s with
  | Ok s1 => page_ok kend v /\ kmem_wf kend s1 (v :: l)
      /\ exists s2, kalloc s1 = (v, s2) /\ kmem_wf kend s2 l
         /\ (forall q, q mod 4096 = 0 -> q <> v -> same_page q (kmem_mem s) (kmem_mem s2))
  | Panic _ => ~ page_ok kend v
  | UB _ => False
  end
  /\ (l = [] -> kalloc s = (0, s)).
Proof using Hkend.
  intros Hk Hv Hl. split; [|intros ->; by eapply kalloc_empty].
  destruct (decide (v mod 4096 = 0 /\ kend <= v /\ V2P v < PHYSTOP)) as [Hc|Hc].
  - assert (page_ok kend v) as Hp by by split.
    destruct (kfree_ok kend s v l Hkend Hk Hp Hl) as (s1 & -> & Hk1 & HF & _).
    destruct (kalloc_cons kend s1 v l Hkend Hk1) as (s2 & E & Hm & Hk2 & _).
    split; [done|]. split; [done|]. exists s2. rewrite Hm. done.
  - assert (~ page_ok kend v) as Hp by (unfold page_ok; tauto).
    by rewrite kfree_bad.
Qed.

(** [freerange] puts every whole page of [vstart, vend) on the free list,
    once, and terminates. *)
Theorem freerange_all vstart vend s l :
  kmem_wf kend s l -> kend <= vstart -> vend <= KERNBASE + PHYSTOP -> vstart <= vend ->
  (forall q, q ∈ l -> q + 4096 <= vstart \/ vend <= q) ->
  exists s' l', freerange kend vstart vend s = Ok s' /\ kmem_wf kend s' l' /\
    forall q, q ∈ l' <-> q ∈ l \/ (q mod 4096 = 0 /\ vstart <= q /\ q + 4096 <= vend).
Proof using Hkend.
  intros Hk Hs He Hle Hd. unfold kend_ok, KERNLINK, KERNBASE, EXTMEM, PHYSTOP in *. unfold freerange.
  rewrite PGROUNDUP_alt by lia. set (p := (vstart + 4095) / 4096 * 4096).
  assert (vstart <= p < vstart + 4096 /\ p mod 4096 = 0) as [Hp Hpa] by (unfold p; zlia).
  destruct (Z_le_dec p vend) as [Hpv|Hpv].
  - destruct (freerange_loop_ok kend (Z.to_nat ((vend - p) / PGSIZE)) p vend s l) as (s' & -> & Hk' & _);
      unfold kend_ok, KERNLINK, KERNBASE, PHYSTOP, EXTMEM, PGSIZE; try done; try lia.
    + rewrite Z2Nat.id; [done|]. zlia.
    + intros q Hq Hin. apply elem_of_pages_from in Hq as (i & Hi & ->).
      destruct (Hd _ Hin) as [?|?]; [zlia|]. rewrite Z2Nat.id in Hi by zlia. zlia.
    + exists s'. eexists. split; [done|]. split; [done|]. intros q.
      rewrite elem_of_app, elem_of_rev, elem_of_pages_from. unfold PGSIZE in *. rewrite Z2Nat.id by zlia.
      split; [intros [(i & Hi & ->)|?]; [right; zlia|by left]|].
      intros [?|(H1 & H2 & H3)]; [by right|left]. exists ((q - p) / 4096). zlia.
  - exists s, l. unfold PGSIZE. replace (Z.to_nat ((vend - p) / 4096)) with O by zlia. cbn [freerange_loop].
    destruct (Z.leb_spec (p + PGSIZE) vend) as [?|_]; [unfold PGSIZE in *; lia|].
    split; [done|]. split; [done|]. intros q. split; [by left|]. intros [?|(?&?&?)]; [done|]. zlia.
Qed.

(** C27.  [mappages] maps each page that [va, va + size) touches to the frame at
    the same distance from [pa], with the given permissions and present, and
    leaves every other translation alone.  When it fails it has mapped a
    prefix, and either memory ran out or the next page was already mapped. *)
Theorem mappages_maps pgdir va size pa perm s l :
  kmem_wf kend s l -> pt_wf kend (kmem_mem s) l pgdir ->
  0 <= va -> 1 <= size -> va + size < 4294963200 -> 0 <= perm < 4096 ->
  0 <= pa -> pa mod 4096 = 0 -> pa + size < 4294959104 ->
  let a := va - va mod 4096 in
  let n := (va + size - 1) / 4096 - va / 4096 + 1 in
  exists r s' l' j, mappages pgdir va size pa perm s = Ok (r, s')
    /\ kmem_wf kend s' l' /\ pt_wf kend (kmem_mem s') l' pgdir
    /\ (forall x, is_u32 x -> mapping (kmem_mem s') pgdir x =
          if decide (a <= x < a + 4096 * j) then Some (pa + (x - x mod 4096 - a) + Z.lor perm PTE_P)
          else mapping (kmem_mem s) pgdir x)
    /\ ((r = 0 /\ j = n)
        \/ (r = -1 /\ 0 <= j < n /\ (l' = [] \/ mapping (kmem_mem s) pgdir (a + 4096 * j) <> None))).
Proof using Hkend.
  intros Hk Hw Hva Hsz Hb Hperm Hpa Hpaa Hpb a n. unfold mappages.
  rewrite (u32_id (va + size - 1)) by (unfold is_u32; lia). rewrite !PGROUNDDOWN_alt by (unfold is_u32; lia). fold a.
  set (k := Z.to_nat (n - 1)).
  assert (Z.of_nat k = n - 1) as Hkn by (unfold k, n; zlia). clearbody k. unfold n in Hkn.
  assert (va + size - 1 - (va + size - 1) mod 4096 = a + 4096 * Z.of_nat k) as -> by (unfold a in *; zlia).
  replace (a + 4096 * Z.of_nat k - a) with (4096 * Z.of_nat k) by lia.
  rewrite u32_id by (unfold is_u32; zlia).
  replace (Z.to_nat (4096 * Z.of_nat k / PGSIZE)) with k by (unfold PGSIZE; zlia).
  destruct (mappages_loop_spec kend Hkend pgdir perm k a pa s l)
    as (r & s' & l' & j & -> & Hk' & Hw' & _ & HM & Hr); try done; try (unfold a; zlia).
  exists r, s', l', j. split; [done|]. split; [done|]. split; [done|]. split; [exact HM|].
  destruct Hr as [[-> ->]|(-> & Hj & Hr)]; [left; lia|right; split; [done|]; split; [lia|done]].
Qed.

(** C31.  [allocuvm] to a size below KERNBASE is all or nothing: it returns [newsz] with every page of the
    grown range, none of which was mapped, mapped present, writable and user onto a
    zeroed frame; or it returns 0 with no page of the range mapped.  Every translation
    outside the range and every byte behind one is as before, and the invariant of the
    address space holds.  It returns 0 only when the free list holds at most two
    pages for each page of the range, or when the range held a mapped page, as a
    mapping of [wmap] does: the failing call unmaps such a page too. *)
Theorem allocuvm_atomic pgdir oldsz newsz s l :
  space kend s l pgdir -> 0 <= oldsz <= newsz -> newsz < KERNBASE ->
  exists r s' l', allocuvm kend pgdir oldsz newsz s = Ok (r, s') /\ space kend s' l' pgdir
    /\ ((r = newsz /\ fresh_range (kmem_mem s) pgdir oldsz newsz /\ grown pgdir (PGROUNDUP oldsz) (PGROUNDUP newsz) (kmem_mem s) (kmem_mem s'))
        \/ (r = 0 /\ cleared pgdir (PGROUNDUP oldsz) newsz (kmem_mem s) (kmem_mem s')
            /\ (Z.of_nat (length l) <= 2 * ((newsz - PGROUNDUP oldsz + 4095) / 4096) \/ ~ fresh_range (kmem_mem s) pgdir oldsz newsz))).
Proof using Hkend.
  intros Hs Ho Hn. destruct (allocuvm_spec kend Hkend s l pgdir oldsz newsz Hs Ho Hn) as (r & s' & l' & E & Hs' & Hend).
  exists r, s', l'. split; [done|]. split; [done|]. destruct Hend as [[-> Hg]|Hc]; [left|by right].
  unfold KERNBASE in *. rewrite (PGROUNDUP_alt newsz) by lia. split; [done|]. split; [|done].
  intros va Hva. apply (gr_fresh _ _ _ _ _ Hg). unfold in_pages in Hva. zlia.
Qed.

(** [deallocuvm] unmaps exactly the pages that start in
    [PGROUNDUP newsz, oldsz), and puts their frames on the free list. *)
Theorem deallocuvm_frees pgdir oldsz newsz s l :
  space kend s l pgdir -> 0 <= newsz < oldsz -> oldsz <= KERNBASE ->
  exists s' l', deallocuvm kend pgdir oldsz newsz s = Ok (newsz, s')
    /\ space kend s' l' pgdir
    /\ shrunk pgdir (PGROUNDUP newsz) oldsz (kmem_mem s) l (kmem_mem s') l'.
Proof using Hkend. apply deallocuvm_spec, Hkend. Qed.

(** C19.  [freevm] of an address space whose tables and user frames are distinct pages off the
    free list, which every other theorem on address spaces keeps, returns without a panic and
    frees the directory, the table pages and the user frames, each once, and no
    other page; every page it does not free keeps its bytes. *)
Theorem freevm_no_leak pgdir s l :
  space kend s l pgdir ->
  exists s' l', freevm kend pgdir s = Ok s' /\ kmem_wf kend s' l'
    /\ (forall q, q ∈ l' <-> q ∈ l \/ tpage (kmem_mem s) pgdir q \/
          exists va e, 0 <= va < KERNBASE /\ mapping (kmem_mem s) pgdir va = Some e /\ q = frame e)
    /\ (forall q, q mod 4096 = 0 -> q ∉ l' -> same_page q (kmem_mem s) (kmem_mem s')).
Proof using Hkend. apply freevm_spec, Hkend. Qed.

(** C29.  [copyout] of a kernel buffer that overlaps no user frame, to addresses below
    KERNBASE, writes it into user memory across page boundaries: it copies the bytes up to the first page that is
    not present and user, or all of them, and changes no other byte of memory.
    When all are copied it returns 0.  At a page that has an entry in a page
    table, it returns -1.  At a page without a page table, where it means to fail as
    well, [uva2ka] reads through the null pointer that [walkpgdir] returns. *)
Theorem copyout_copies pgdir va buf len s l :
  space kend s l pgdir -> 0 <= va -> 0 <= len -> va + len <= KERNBASE ->
  buffer_apart (kmem_mem s) pgdir buf len ->
  exists s' n, space kend s' l pgdir /\ copied (kmem_mem s) (kmem_mem s') pgdir va buf n
    /\ ((n = len /\ copyout pgdir va buf len s = Ok (0, s'))
        \/ (0 <= n < len /\ uload (kmem_mem s) pgdir (va + n) = None /\ entry (kmem_mem s) pgdir (va + n) <> None
            /\ copyout pgdir va buf len s = Ok (-1, s'))
        \/ (0 <= n < len /\ entry (kmem_mem s) pgdir (va + n) = None /\ copyout pgdir va buf len s = UB "uva2ka: null pte")).
Proof using Hkend.
  intros Hs Hva Hlen Hb Ha. destruct (copyout_loop_spec kend Hkend l pgdir (Z.to_nat len) va buf len s Hs Hva ltac:(lia) Hb Ha) as (s' & n & H1 & H2 & H3).
  by exists s', n.
Qed.

End Props.

(** * A concrete address space with one user page *)

(** Directory [page0 0], table page [page0 1], the user frame [page0 2] at
    virtual page 0, and one free page. *)
Definition mem1 : mem :=
  st32 (st32 (st8 ∅ (page0 4) 65) (page0 0) (V2P (page0 1) + 7)) (page0 1) (V2P (page0 2) + 7).
Definition kst1 : kst := Kst mem1 (page0 3) true.

Lemma pde1 i : slot i -> pde mem1 pgdir0 i = if decide (i = 0) then V2P (page0 1) + 7 else 0.
Proof.
  unfold slot. intros Hi. unfold pde, mem1, pgdir0. case_decide as H0.
  - subst i. by vm_compute.
  - unfold page0 in *. rewrite !ld32_st32_ne by lia. apply ld32_zero. intros b Hb.
    rewrite ld8_st8_ne by lia. done.
Qed.

Lemma entry1 va : is_u32 va ->
  entry mem1 pgdir0 va =
    if decide (va / 4194304 = 0) then Some (if decide (va / 4096 = 0) then V2P (page0 2) + 7 else 0) else None.
Proof.
  intros Hva. unfold entry, pte_addr, ptp. rewrite PDX_alt by done.
  rewrite pde1 by (unfold slot; zlia). case_decide as Hd; [|done].
  change (has (V2P (page0 1) + 7) PTE_P) with true. cbv iota. f_equal.
  change (P2V (PTE_ADDR (V2P (page0 1) + 7))) with (page0 1). rewrite PTX_alt by done. unfold mem1.
  case_decide as H0.
  - rewrite H0. by vm_compute.
  - unfold page0 in *. rewrite !ld32_st32_ne by zlia. apply ld32_zero. intros b Hb.
    rewrite ld8_st8_ne by zlia. done.
Qed.

Lemma mapping1 va : is_u32 va ->
  mapping mem1 pgdir0 va = if decide (va / 4096 = 0) then Some (V2P (page0 2) + 7) else None.
Proof.
  intros Hva. unfold mapping. rewrite entry1 by done. repeat case_decide; try done. zlia.
Qed.

Lemma space1 : space kend0 kst1 [page0 3] pgdir0.
Proof.
  assert (forall i, 0 <= i < 3 -> page0 i ∉ [page0 3]) as Hn.
  { intros i Hi. rewrite list_elem_of_singleton. unfold page0. lia. }
  split.
  - split; [by vm_compute| |]; [apply NoDup_singleton|].
    apply Forall_singleton. by apply page0_ok.
  - split; [by apply page0_ok|by apply (Hn 0)| |].
    + intros i Hi. unfold ptp. cbn [kmem_mem kst1]. rewrite pde1 by done. case_decide; [|done]. intros _.
      change (P2V (PTE_ADDR (V2P (page0 1) + 7))) with (page0 1).
      split; [by apply page0_ok|]. split; [by apply Hn|done].
    + intros i j Hi Hj. cbn [kmem_mem kst1]. rewrite !pde1 by done. repeat case_decide; try done. congruence.
  - assert (frame (V2P (page0 2) + 7) = page0 2) as Hfr by done.
    split; cbn [kmem_mem kst1].
    + intros va e Hva. rewrite mapping1 by (unfold KERNBASE, is_u32 in *; lia). case_decide; [|done].
      intros [= <-]. rewrite Hfr. split; [by apply page0_ok|]. split; [by apply Hn|].
      intros [Ht|(i & Hi & Hp & Ht)]; [done|]. unfold ptp in Ht. rewrite pde1 in Ht by done.
      rewrite pde1 in Hp by done. by case_decide.
    + intros va va' e e' Hva Hva'. rewrite !mapping1 by (unfold KERNBASE, is_u32 in *; lia).
      repeat case_decide; try done. congruence.
Qed.

(** * Witnesses *)

Lemma kalloc_kfree_witness :
  page_ok kend0 (page0 4) /\ exists s1, kfree kend0 (page0 4) kst0 = Ok s1 /\ kmem_wf kend0 s1 (page0 4 :: free0).
Proof.
  assert (page0 4 ∉ free0) as Hn.
  { unfold free0, page0. rewrite !not_elem_of_cons. split; [lia|]. split; [lia|]. split; [lia|]. apply not_elem_of_nil. }
  pose proof (kalloc_kfree kend0 kend0_ok kst0 free0 (page0 4) kst0_wf (proj1 (page0_ok 4 ltac:(lia))) Hn) as [H _].
  split; [by apply page0_ok|].
  destruct (kfree kend0 (page0 4) kst0) as [s1|msg|msg] eqn:E; [|by destruct H; apply page0_ok|done].
  exists s1. split; [reflexivity|]. exact (proj1 (proj2 H)).
Defined.

Lemma freerange_all_witness :
  exists s' (l' : list Z), freerange kend0 (page0 4) (page0 9) kst0 = Ok s' /\ page0 5 ∈ l' /\ page0 1 ∈ l'.
Proof.
  destruct (freerange_all kend0 kend0_ok (page0 4) (page0 9) kst0 free0 kst0_wf) as (s' & l' & E & _ & Hl).
  - unfold kend0, page0. lia.
  - unfold page0, KERNLINK, KERNBASE, EXTMEM, PHYSTOP. lia.
  - unfold page0. lia.
  - unfold free0. intros q Hq. rewrite !elem_of_cons, elem_of_nil in Hq. unfold page0 in *. lia.
  - exists s', l'. split; [exact E|]. split; apply Hl.
    + right. split; [done|]. unfold page0. lia.
    + left. by left.
Defined.

Lemma mappages_maps_witness :
  exists r s' l' j, mappages pgdir0 4096 8192 (V2P (page0 20)) 6 kst0 = Ok (r, s')
    /\ kmem_wf kend0 s' l' /\ pt_wf kend0 (kmem_mem s') l' pgdir0 /\ j <= 2.
Proof.
  destruct space0 as [[Hk Hw _] _].
  destruct (mappages_maps kend0 kend0_ok pgdir0 4096 8192 (V2P (page0 20)) 6 kst0 free0 Hk Hw)
    as (r & s' & l' & j & E & Hk' & Hw' & _ & Hr); [lia|lia|lia|lia|done|done|done|].
  exists r, s', l', j. split; [exact E|]. split; [exact Hk'|]. split; [exact Hw'|].
  destruct Hr as [[_ ->]|(_ & Hj & _)]; [done|]. 
  change ((4096 + 8192 - 1) / 4096 - 4096 / 4096 + 1) with 2 in Hj. lia.
Defined.

(** Growing into free addresses, and over a page that is mapped. *)
Lemma allocuvm_atomic_witness :
  (exists s', allocuvm kend0 pgdir0 0 4096 kst0 = Ok (4096, s') /\ exists e, mapping (kmem_mem s') pgdir0 100 = Some e /\ PTE_FLAGS e = 7)
  /\ exists s', allocuvm kend0 pgdir0 0 4096 kst1 = Ok (0, s') /\ mapping (kmem_mem s') pgdir0 0 = None.
Proof.
  split.
  - destruct space0 as [Hs HM].
    destruct (allocuvm_atomic kend0 kend0_ok pgdir0 0 4096 kst0 free0 Hs) as (r & s' & l' & E & Hs' & Hr); [lia|unfold KERNBASE; lia|].
    destruct Hr as [(-> & _ & Hg)|(_ & _ & Hr)].
    + exists s'. split; [exact E|]. clear E. destruct (gr_new _ _ _ _ _ Hg 100) as (e & Hm & He & _); [by vm_compute|]. by exists e.
    + exfalso. clear E. destruct Hr as [Hr|Hr]; [by vm_compute in Hr|]. apply Hr. intros va _. apply HM.
  - destruct (allocuvm_atomic kend0 kend0_ok pgdir0 0 4096 kst1 [page0 3] space1) as (r & s' & l' & E & Hs' & Hr); [lia|unfold KERNBASE; lia|].
    destruct Hr as [(-> & Hfr & _)|(-> & Hc & _)].
    + exfalso. clear E. assert (in_pages (PGROUNDUP 0) 4096 0) as H0 by (by vm_compute). by apply Hfr in H0; vm_compute in H0.
    + exists s'. split; [exact E|]. clear E. rewrite (cl_map _ _ _ _ _ Hc) by (by vm_compute). reflexivity.
Defined.

Lemma deallocuvm_frees_witness :
  exists s' (l' : list Z), deallocuvm kend0 pgdir0 4096 0 kst1 = Ok (0, s')
    /\ space kend0 s' l' pgdir0 /\ page0 2 ∈ l' /\ mapping (kmem_mem s') pgdir0 0 = None.
Proof.
  destruct (deallocuvm_frees kend0 kend0_ok pgdir0 4096 0 kst1 [page0 3] space1) as (s' & l' & E & Hs' & Hsh);
    [lia|unfold KERNBASE; lia|].
  exists s', l'. split; [exact E|]. split; [exact Hs'|]. split.
  - apply (sh_free _ _ _ _ _ _ _ Hsh). right. exists 0, (V2P (page0 2) + 7). clear.
    split; [by split|]. split; [by split|]. split; [by apply (mapping1 0)|reflexivity].
  - rewrite (sh_map _ _ _ _ _ _ _ Hsh) by by split. clear. by rewrite decide_True by by split.
Defined.

Lemma freevm_no_leak_witness :
  exists s' (l' : list Z), freevm kend0 pgdir0 kst1 = Ok s' /\ page0 0 ∈ l' /\ page0 2 ∈ l' /\ page0 3 ∈ l'.
Proof.
  destruct (freevm_no_leak kend0 kend0_ok pgdir0 kst1 [page0 3] space1) as (s' & l' & E & _ & Hl & _).
  exists s', l'. split; [exact E|]. split; [|split]; apply Hl.
  - right. left. by left.
  - right. right. exists 0, (V2P (page0 2) + 7). clear.
    split; [by split|]. split; [by apply (mapping1 0)|reflexivity].
  - left. by left.
Defined.

(** A byte that is copied, and one past the last page table. *)
Lemma copyout_copies_witness :
  (exists s', copyout pgdir0 100 (page0 4) 1 kst1 = Ok (0, s') /\ uload (kmem_mem s') pgdir0 100 = Some 65)
  /\ copyout pgdir0 4194304 (page0 4) 1 kst1 = UB "uva2ka: null pte".
Proof.
  assert (buffer_apart (kmem_mem kst1) pgdir0 (page0 4) 1) as Hap.
  { intros va e Hva. cbn [kmem_mem kst1]. rewrite mapping1 by (unfold KERNBASE, is_u32 in *; lia).
    case_decide; [|done]. intros [= <-]. left. by vm_compute. }
  split.
  - destruct (copyout_copies kend0 kend0_ok pgdir0 100 (page0 4) 1 kst1 [page0 3] space1) as (s' & n & _ & Hc & Hr); [lia|lia|unfold KERNBASE; lia|done|].
    exists s'. destruct Hr as [[-> E]|[(Hn & Hu & _)|(Hn & He & _)]].
    + split; [exact E|]. destruct (co_in _ _ _ _ _ _ Hc 100 ltac:(lia)) as [_ ->]. by vm_compute.
    + exfalso. replace (100 + n) with 100 in Hu by lia. by vm_compute in Hu.
    + exfalso. replace (100 + n) with 100 in He by lia. by vm_compute in He.
  - destruct (copyout_copies kend0 kend0_ok pgdir0 4194304 (page0 4) 1 kst1 [page0 3] space1) as (s' & n & _ & Hc & Hr); [lia|lia|unfold KERNBASE; lia|done|].
    destruct Hr as [[-> E]|[(Hn & _ & He & _)|(Hn & _ & E)]]; [| |exact E].
    + exfalso. by vm_compute in E.
    + exfalso. replace (4194304 + n) with 4194304 in He by lia. by apply He.
Defined.
