(* ===== verification/VmKernel.v ===== *)
(** The kernel part of an address space: [setupkvm] maps what [kmap] lists, and
    returns every page when memory runs out.  [copyuvm] makes the address space
    of a child a copy of that of its parent. *)
From S2P Require Import Prelude Mem KString Mmu Kalloc Vm VmTheory VmUser VmCopy VmProps.

Section Kernel.
Context (kend kdata : Z) (Hkend : kend_ok kend).

(** Every page taken from the free list became a page of the table, the table
    keeps its pages, and slots of the directory are filled only in [R]. *)
Definition taken (R : Z -> Prop) (pgdir : Z) (m : mem) (l : list Z) (m' : mem) (l' : list Z) : Prop :=
  (forall q, q ∈ l -> q ∈ l' \/ tpage m' pgdir q)
  /\ (forall i, slot i -> has (pde m pgdir i) PTE_P = true -> has (pde m' pgdir i) PTE_P = true /\ ptp m' pgdir i = ptp m pgdir i)
  /\ forall i, slot i -> has (pde m' pgdir i) PTE_P = true -> has (pde m pgdir i) PTE_P = true \/ R i.

Lemma taken_tpage R pgdir m l m' l' : taken R pgdir m l m' l' -> forall q, tpage m pgdir q -> tpage m' pgdir q.
Proof. intros (_ & H & _) q [->|(i & Hi & Hp & ->)]; [by left|]. destruct (H i Hi Hp) as [H1 H2]. right. by exists i. Qed.

Lemma taken_refl R pgdir m l : taken R pgdir m l m l.
Proof. split; [tauto|]. split; [tauto|]. by left. Qed.

Lemma taken_trans R pgdir m1 l1 m2 l2 m3 l3 : taken R pgdir m1 l1 m2 l2 -> taken R pgdir m2 l2 m3 l3 -> taken R pgdir m1 l1 m3 l3.
Proof.
  intros T1 T2. pose proof (taken_tpage _ _ _ _ _ _ T2) as HT. destruct T1 as (A1 & B1 & C1), T2 as (A2 & B2 & C2). split; [|split].
  - intros q Hq. destruct (A1 q Hq) as [H|H]; [by apply A2|right; by apply HT].
  - intros i Hi Hp. destruct (B1 i Hi Hp) as [H1 <-]. by apply B2.
  - intros i Hi Hp. destruct (C2 i Hi Hp) as [H|H]; [by apply C1|by right].
Qed.

Lemma taken_mono (R R' : Z -> Prop) pgdir m l m' l' : taken R pgdir m l m' l' ->
  (forall i, slot i -> R i -> has (pde m pgdir i) PTE_P = true \/ R' i) -> taken R' pgdir m l m' l'.
Proof. intros (A & B & C) HR. split; [done|]. split; [done|]. intros i Hi Hp. destruct (C i Hi Hp); [by left|by apply HR]. Qed.

Lemma walkpgdir_taken (R : Z -> Prop) s l pgdir va l' :
  R (PDX va) -> kmem_wf kend s l -> pt_wf kend (kmem_mem s) l pgdir -> kmem_wf kend (walkpgdir pgdir va true s).2 l' ->
  taken R pgdir (kmem_mem s) l (kmem_mem (walkpgdir pgdir va true s).2) l'.
Proof.
  intros HR Hk Hw. unfold walkpgdir. fold (pde (kmem_mem s) pgdir (PDX va)).
  destruct (has (pde (kmem_mem s) pgdir (PDX va)) PTE_P) eqn:E; cbn [negb snd].
  { intros Hk'. rewrite (kmem_wf_unique kend Hkend _ _ _ Hk Hk'). apply taken_refl. }
  destruct l as [|p l].
  { rewrite (kalloc_empty kend) by done. cbn [Z.eqb snd]. intros Hk'. rewrite (kmem_wf_unique kend Hkend _ _ _ Hk Hk'). apply taken_refl. }
  destruct (kalloc_cons kend s p l Hkend Hk) as (s1 & -> & Hm & Hk1 & Hp & Hpl & _).
  destruct (Z.eqb_spec p 0) as [->|_]; [by apply page_ok_nonzero in Hp|]. cbn [snd kmem_mem set_mem]. rewrite Hm. intros Hk'.
  destruct (install_table kend Hkend (kmem_mem s) l pgdir (PDX va) p) as (Hw' & Hq & HP & Hj & HF & _); try done; [apply PDX_slot|].
  assert (kmem_wf kend (set_mem (st32 (memset (kmem_mem s) p 0 PGSIZE) (pgdir + 4 * PDX va) (Z.lor (Z.lor (Z.lor (V2P p) PTE_P) PTE_W) PTE_U)) s1) l) as Hk2.
  { apply kmem_wf_frame; [done|]. apply Forall_forall. intros q Hin. destruct Hk1 as [_ _ Hpages]. rewrite Forall_forall in Hpages.
    rewrite Hm. apply HF; [by eapply page_aligned, Hpages| |by intros ->]. intros ->. apply (pw_dir_l _ _ _ _ Hw). by right. }
  rewrite <- (kmem_wf_unique kend Hkend _ _ _ Hk2 Hk'). clear Hk' Hk2. split; [|split].
  - intros q Hin. apply elem_of_cons in Hin as [->|Hin]; [right|by left]. right. exists (PDX va). split; [apply PDX_slot|]. by rewrite Hq.
  - intros i Hi HPi. assert (i <> PDX va) by (intros ->; congruence). unfold ptp. by rewrite Hj.
  - intros i Hi HPi. destruct (Z.eq_dec i (PDX va)) as [->|Hne]; [by right|]. left. by rewrite Hj in HPi.
Qed.

(** One iteration of the loop of [mappages]. *)
Lemma map_one_taken (R : Z -> Prop) s l pgdir a v l1 :
  R (PDX a) -> kmem_wf kend s l -> pt_wf kend (kmem_mem s) l pgdir -> is_u32 a ->
  let '(pte, s1) := walkpgdir pgdir a true s in
  pte <> 0 -> kmem_wf kend s1 l1 -> taken R pgdir (kmem_mem s) l (st32 (kmem_mem s1) pte v) l1.
Proof.
  intros HR Hk Hw Ha. pose proof (walkpgdir_alloc kend Hkend s l pgdir a Hk Hw) as H. pose proof (walkpgdir_taken R s l pgdir a l1 HR Hk Hw) as Ht.
  destruct (walkpgdir pgdir a true s) as [pte s1]. cbn [snd] in Ht. intros Hnz Hk1.
  destruct H as [(-> & _)|(l' & Hpte & _ & Hk1' & Hw1 & _ & He & _)]; [done|]. rewrite (kmem_wf_unique kend Hkend _ _ _ Hk1' Hk1) in *.
  apply (taken_trans _ _ _ _ _ _ _ _ (Ht Hk1)). split; [intros q Hq; by left|].
  assert (forall i, slot i -> pde (st32 (kmem_mem s1) pte v) pgdir i = pde (kmem_mem s1) pgdir i) as Hpd.
  2: { split; intros i Hi; unfold ptp; rewrite Hpd by done; [done|by left]. }
  intros i Hi. apply (pde_frame (kmem_mem s1) (st32 (kmem_mem s1) pte v)); [done|].
  unfold entry in He. destruct (has (pde (kmem_mem s1) pgdir (PDX a)) PTE_P) eqn:EP; [|done].
  destruct (pw_pt _ _ _ _ Hw1 _ (PDX_slot a) EP) as (Hok & _ & Hne). pose proof (PTX_range a).
  apply (same_page_st32 (ptp (kmem_mem s1) pgdir (PDX a))); unfold pte_addr in Hpte;
    [by eapply page_aligned|eapply page_aligned, (pw_dir _ _ _ _ Hw1)|done|lia|lia].
Qed.

Lemma mappages_loop_taken (R : Z -> Prop) pgdir perm n : forall a pa s l r s' l',
  (forall k, 0 <= k <= Z.of_nat n -> R (PDX (a + 4096 * k))) -> kmem_wf kend s l -> pt_wf kend (kmem_mem s) l pgdir ->
  0 <= a -> a mod 4096 = 0 -> a + 4096 * Z.of_nat n < 4294967296 ->
  0 <= pa -> pa mod 4096 = 0 -> pa + 4096 * Z.of_nat n < 4294967296 -> 0 <= perm < 4096 ->
  mappages_loop (S n) pgdir a (a + 4096 * Z.of_nat n) pa perm s = Ok (r, s') -> kmem_wf kend s' l' ->
  taken R pgdir (kmem_mem s) l (kmem_mem s') l'.
Proof.
  induction n as [|n IH]; intros a pa s l r s' l' HR Hk Hw Ha Haa Hab Hp Hpa Hpb Hperm Hrun Hk'.
  all: destruct (flags_P perm Hperm) as [Hfl HflP].
  all: assert (Z.lor (Z.lor pa perm) PTE_P = pa + Z.lor perm PTE_P /\ is_u32 (pa + Z.lor perm PTE_P)) as [Hlor Hvu]
    by (rewrite <- Z.lor_assoc; apply pte_build; unfold is_u32; done || lia).
  all: assert (has (pa + Z.lor perm PTE_P) PTE_P = true) as HvP by (rewrite has_add; done || unfold PTE_P; lia).
  all: pose proof (map_one kend Hkend s l pgdir a _ Hk Hw ltac:(unfold is_u32; lia) HvP Hvu) as H1.
  all: assert (R (PDX a)) as HRa by (replace a with (a + 4096 * 0) by lia; apply HR; lia).
  all: pose proof (fun l1 => map_one_taken R s l pgdir a (pa + Z.lor perm PTE_P) l1 HRa Hk Hw ltac:(unfold is_u32; lia)) as Ht2.
  all: pose proof (fun l' => walkpgdir_taken R s l pgdir a l' HRa Hk Hw) as Ht.
  all: cbn [mappages_loop] in Hrun; destruct (walkpgdir pgdir a true s) as [pte s1] eqn:Ew; cbn [snd] in Ht.
  all: destruct H1 as [(-> & -> & ->)|(l1 & Hnz & Hk1 & Hw1 & Hev1 & HM1 & Hpres & Hk2 & Hw2 & Hev2 & HM2)].
  all: try (cbn in Hrun; injection Hrun as <- <-; by apply Ht).
  all: destruct (Z.eqb_spec pte 0) as [|_]; [done|].
  all: destruct (has (ld32 (kmem_mem s1) pte) PTE_P) eqn:EP; [injection Hrun as <- <-; by apply Ht|].
  all: rewrite Hlor in Hrun; specialize (Ht2 l1 Hnz Hk1).
  - destruct (Z.eqb_spec a (a + 4096 * Z.of_nat 0)) as [_|]; [|lia]. injection Hrun as <- <-. by rewrite <- (kmem_wf_unique kend Hkend _ _ _ Hk2 Hk').
  - destruct (Z.eqb_spec a (a + 4096 * Z.of_nat (S n))) as [|_]; [lia|]. unfold PGSIZE in Hrun. rewrite !u32_id in Hrun by (unfold is_u32; lia).
    apply (taken_trans _ _ _ _ _ _ _ _ Ht2). replace (a + 4096 * Z.of_nat (S n)) with (a + 4096 + 4096 * Z.of_nat n) in Hrun by lia.
    apply (IH (a + 4096) (pa + 4096) (set_mem (st32 (kmem_mem s1) pte (pa + Z.lor perm PTE_P)) s1) l1 r s' l'); try zlia; try done.
    intros k Hk0. replace (a + 4096 + 4096 * k) with (a + 4096 * (k + 1)) by lia. apply HR. lia.
Qed.

Lemma mappages_one_taken (R : Z -> Prop) s l pgdir a pa perm r s' l' :
  R (PDX a) -> kmem_wf kend s l -> pt_wf kend (kmem_mem s) l pgdir ->
  0 <= a -> a mod 4096 = 0 -> a < 4294967296 ->
  0 <= pa < 4294967296 -> pa mod 4096 = 0 -> 0 <= perm < 4096 ->
  mappages pgdir a PGSIZE pa perm s = Ok (r, s') -> kmem_wf kend s' l' -> taken R pgdir (kmem_mem s) l (kmem_mem s') l'.
Proof.
  intros HR Hk Hw Ha Haa Hab Hp Hpa Hperm Hrun Hk'. apply (mappages_loop_taken R pgdir perm 0 a pa s l r s' l'); try done; try lia.
  { intros k Hk0. by replace (a + 4096 * k) with a by lia. }
  rewrite <- Hrun. unfold mappages. unfold PGSIZE. rewrite !PGROUNDDOWN_alt by zlia. rewrite (u32_id (a + 4096 - 1)) by zlia.
  replace (a + 4096 - 1 - (a + 4096 - 1) mod 4096) with a by zlia. replace (a - a mod 4096) with a by zlia. rewrite Z.sub_diag.
  replace (a + 4096 * Z.of_nat 0) with a by lia. done.
Qed.

(** * Rows of a kernel map *)

Definition row_size (k : kmap_row) : Z := u32 (phys_end k - phys_start k).

Definition row_entry (k : kmap_row) (x : Z) : Z := phys_start k + (x - x mod 4096 - virt k) + Z.lor (kperm k) PTE_P.

(** Where the rows map an address: the first row that covers it. *)
Fixpoint rows_map (ks : list kmap_row) (x : Z) : option Z :=
  match ks with
  | [] => None
  | k :: ks => if decide (virt k <= x < virt k + row_size k) then Some (row_entry k x) else rows_map ks x
  end.

(** A row of whole pages of the kernel part. *)
Definition row_ok (k : kmap_row) : Prop :=
  KERNBASE <= virt k /\ virt k mod 4096 = 0 /\ 4096 <= row_size k /\ row_size k mod 4096 = 0 /\ virt k + row_size k <= 4294967296
  /\ 0 <= phys_start k /\ phys_start k mod 4096 = 0 /\ phys_start k + row_size k <= 4294967296 /\ 0 <= kperm k < 4096.

(** Rows in ascending order. *)
Fixpoint rows_ok (lo : Z) (ks : list kmap_row) : Prop :=
  match ks with [] => True | k :: ks => lo <= virt k /\ row_ok k /\ rows_ok (virt k + row_size k) ks end.

Lemma mappages_row (R : Z -> Prop) k pgdir s l :
  (forall x, virt k <= x < virt k + row_size k -> R (PDX x)) -> kmem_wf kend s l -> pt_wf kend (kmem_mem s) l pgdir -> row_ok k ->
  (forall x, virt k <= x < virt k + row_size k -> mapping (kmem_mem s) pgdir x = None) ->
  exists r s' l' j, mappages pgdir (virt k) (row_size k) (phys_start k) (kperm k) s = Ok (r, s')
    /\ kmem_wf kend s' l' /\ pt_wf kend (kmem_mem s') l' pgdir /\ evolves pgdir (kmem_mem s) l (kmem_mem s') l'
    /\ taken R pgdir (kmem_mem s) l (kmem_mem s') l'
    /\ (forall x, is_u32 x -> mapping (kmem_mem s') pgdir x =
          if decide (virt k <= x < virt k + j) then Some (row_entry k x) else mapping (kmem_mem s) pgdir x)
    /\ ((r = 0 /\ j = row_size k) \/ (r = -1 /\ 0 <= j < row_size k /\ l' = [])).
Proof.
  intros HR Hk Hw (Hv & Hva & Hs & Hsa & Hve & Hp & Hpa & Hpe & Hperm) Hfree. unfold KERNBASE in Hv. set (n := Z.to_nat (row_size k / 4096 - 1)).
  assert (row_size k = 4096 * Z.of_nat n + 4096) as En by (unfold n; zlia). clearbody n.
  destruct (mappages_loop_spec kend Hkend pgdir (kperm k) n (virt k) (phys_start k) s l Hk Hw) as (r & s' & l' & j & Hrun & Hk' & Hw' & Hev & HM & Hr); try lia.
  exists r, s', l', (4096 * j). split.
  { unfold mappages. rewrite (u32_id (virt k + row_size k - 1)) by (unfold is_u32; lia). rewrite !PGROUNDDOWN_alt by (unfold is_u32; lia).
    replace (virt k - virt k mod 4096) with (virt k) by lia.
    replace (virt k + row_size k - 1 - (virt k + row_size k - 1) mod 4096) with (virt k + 4096 * Z.of_nat n) by zlia.
    rewrite u32_id by (unfold is_u32; lia). replace (Z.to_nat _) with n by (unfold PGSIZE; zlia). exact Hrun. }
  split; [done|]. split; [done|]. split; [done|]. split; [eapply (mappages_loop_taken R pgdir (kperm k) n (virt k) (phys_start k)); try done; try lia; intros k0 Hk0; apply HR; lia|].
  split; [intros x Hx; rewrite (HM x Hx); done|].
  destruct Hr as [[-> ->]|(-> & Hj & Hr)]; [left; lia|]. right. split; [done|]. split; [lia|]. destruct Hr as [->|Hr]; [done|].
  destruct Hr. apply Hfree. lia.
Qed.

(** The slots of a kernel map: 56 for the memory and 8 for the devices. *)
Definition kslots : list Z := seqZ 512 56 ++ seqZ 1016 8.

(** A table takes no more pages than there are slots it may fill. *)
Lemma taken_length s l pgdir m' l' R :
  kmem_wf kend s l -> pt_wf kend (kmem_mem s) l pgdir ->
  taken (fun i => i ∈ R) pgdir (kmem_mem s) l m' l' -> (length l <= length l' + length R)%nat.
Proof.
  intros [_ Hnd _] Hw (Ht & Hk & Hr). rewrite <- (length_map (ptp m' pgdir) R), <- length_app. apply submseteq_length, NoDup_submseteq; [done|].
  intros q Hq. apply elem_of_app. destruct (Ht q Hq) as [H|[->|(i & Hi & Hp & ->)]]; [by left|by apply (pw_dir_l _ _ _ _ Hw) in Hq|]. right.
  apply list_elem_of_fmap. exists i. split; [done|]. destruct (Hr i Hi Hp) as [H|H]; [|done].
  destruct (Hk i Hi H) as [_ Hpt]. rewrite Hpt in Hq. by destruct (pw_pt _ _ _ _ Hw i Hi H) as (_ & Hn & _).
Qed.

(** No user page is mapped. *)
Definition no_user (m : mem) (pgdir : Z) : Prop := forall x, 0 <= x < KERNBASE -> mapping m pgdir x = None.

Lemma no_user_space s l pgdir : kmem_wf kend s l -> pt_wf kend (kmem_mem s) l pgdir -> no_user (kmem_mem s) pgdir -> space kend s l pgdir.
Proof. intros Hk Hw Hn. split; [done|done|]. split; intros va; intros; by rewrite Hn in * by done. Qed.

Lemma rows_map_below lo ks x : rows_ok lo ks -> x < lo -> rows_map ks x = None.
Proof.
  revert lo. induction ks as [|k ks IH]; intros lo H Hx; cbn [rows_map rows_ok] in *; [done|].
  destruct H as (Hlo & (_ & _ & Hs & _) & Hks). rewrite decide_False by lia. apply (IH _ Hks). lia.
Qed.

Lemma setupkvm_loop_spec (R : Z -> Prop) pgdir ks : forall lo s l,
  (forall k x, k ∈ ks -> virt k <= x < virt k + row_size k -> R (PDX x)) -> kmem_wf kend s l -> pt_wf kend (kmem_mem s) l pgdir -> no_user (kmem_mem s) pgdir -> rows_ok lo ks ->
  (forall x, is_u32 x -> lo <= x -> mapping (kmem_mem s) pgdir x = None) ->
  exists d s' l', setupkvm_loop kend ks pgdir s = Ok (d, s') /\ kmem_wf kend s' l'
  /\ ((d = pgdir /\ pt_wf kend (kmem_mem s') l' pgdir /\ taken R pgdir (kmem_mem s) l (kmem_mem s') l'
        /\ evolves pgdir (kmem_mem s) l (kmem_mem s') l'
        /\ forall x, is_u32 x -> mapping (kmem_mem s') pgdir x = match rows_map ks x with Some e => Some e | None => mapping (kmem_mem s) pgdir x end)
      \/ (d = 0 /\ (exists m1, taken R pgdir (kmem_mem s) l m1 []) /\ (forall q, q ∈ l' <-> q ∈ l \/ tpage (kmem_mem s) pgdir q)
          /\ forall q, q mod 4096 = 0 -> q ∉ l' -> same_page q (kmem_mem s) (kmem_mem s'))).
Proof.
  induction ks as [|k ks IH]; intros lo s l HR Hk Hw Hn Hks Hfree; cbn [setupkvm_loop].
  { exists pgdir, s, l. split; [done|]. split; [done|]. left. split; [done|]. split; [done|]. split; [apply taken_refl|]. split; [apply evolves_refl|]. done. }
  destruct Hks as (Hlo & Hok & Hks). fold (row_size k).
  destruct (mappages_row R k pgdir s l ltac:(intros x Hx; apply (HR k); [by left|done]) Hk Hw Hok) as (r & s1 & l1 & j & -> & Hk1 & Hw1 & Hev & Ht & HM & Hr); [intros x Hx; destruct Hok as (Hv & _ & _ & _ & Hve & _); apply Hfree; unfold is_u32, KERNBASE in *; lia|].
  cbn [obind]. destruct Hok as (Hv & _ & Hs & _ & Hve & _).
  assert (no_user (kmem_mem s1) pgdir) as Hn1.
  { intros x Hx. rewrite HM by (unfold is_u32, KERNBASE in *; lia). rewrite decide_False by lia. by apply Hn. }
  destruct Hr as [[-> ->]|(-> & Hj & ->)]; cbn [Z.ltb Z.compare].
  - destruct (IH (virt k + row_size k) s1 l1) as (d & s' & l' & Hrun & Hk' & Hres); [|done..| |].
    { intros k' x Hk' Hx. apply (HR k'); [by right|done]. }
    { intros x Hu Hx. rewrite HM, decide_False by (done || lia). apply Hfree; [done|lia]. }
    exists d, s', l'. split; [done|]. split; [done|].
    destruct Hres as [(-> & Hw' & Ht' & Hev' & HM')|(-> & (m1 & Hm1) & Hq & HF)]; [left|right].
    + split; [done|]. split; [done|]. split; [by eapply taken_trans|]. split; [by eapply evolves_trans|].
      intros x Hx. rewrite HM', HM by done. cbn [rows_map]. case_decide; [|done]. by rewrite (rows_map_below (virt k + row_size k)) by (done || lia).
    + split; [done|]. split; [exists m1; by eapply taken_trans|].
      assert (forall q, q ∈ l' <-> q ∈ l \/ tpage (kmem_mem s) pgdir q) as Hq'.
      { intros q. rewrite Hq. split.
        - intros [H|H]; [left; by apply (ev_sub _ _ _ _ _ Hev)|]. apply (ev_tpage _ _ _ _ _ Hev) in H. tauto.
        - intros [H|H]; [by apply (proj1 Ht)|]. right. by apply (taken_tpage _ _ _ _ _ _ Ht). }
      split; [done|]. intros q Ha Hnq. eapply same_page_trans; [|by apply HF]. rewrite Hq' in Hnq. apply (ev_frame _ _ _ _ _ Hev); tauto.
  - destruct (freevm_spec kend Hkend s1 [] pgdir (no_user_space _ _ _ Hk1 Hw1 Hn1)) as (s' & l' & -> & Hk' & Hq & HF). cbn [obind].
    exists 0, s', l'. split; [done|]. split; [done|]. right. split; [done|]. split; [by eexists|].
    assert (forall q, q ∈ l' <-> q ∈ l \/ tpage (kmem_mem s) pgdir q) as Hq'.
    { intros q. rewrite Hq. split.
      - intros [H|[H|(va & e & Hva & He & _)]]; [by apply elem_of_nil in H| |by rewrite Hn1 in He]. apply (ev_tpage _ _ _ _ _ Hev) in H. tauto.
      - intros [H|H]; [destruct (proj1 Ht q H); tauto|]. right. left. by apply (taken_tpage _ _ _ _ _ _ Ht). }
    split; [done|]. intros q Ha Hnq. eapply same_page_trans; [|by apply HF]. rewrite Hq' in Hnq. apply (ev_frame _ _ _ _ _ Hev); tauto.
Qed.

(** The rows of [kmap] when the kernel's data starts at a page of its own. *)
Definition kdata_ok : Prop := KERNLINK < kdata < KERNBASE + PHYSTOP /\ kdata mod 4096 = 0.

Lemma kmap_ok : kdata_ok -> rows_ok KERNBASE (kmap kdata).
Proof.
  unfold kdata_ok, kmap, rows_ok, row_ok, row_size, KERNLINK, KERNBASE, EXTMEM, PHYSTOP, DEVSPACE, PTE_W, V2P, u32. unfold KERNBASE.
  cbn [virt phys_start phys_end kperm]. intros [H1 H2]. repeat split; zlia.
Qed.

Lemma kmap_slots k x : kdata_ok -> k ∈ kmap kdata -> virt k <= x < virt k + row_size k -> PDX x ∈ kslots.
Proof.
  unfold kslots. rewrite elem_of_app, !elem_of_seqZ. intros [Hd _] Hk Hx.
  assert (KERNBASE <= x < KERNBASE + PHYSTOP \/ DEVSPACE <= x < 4294967296) as H.
  { unfold kmap, row_size, KERNLINK, KERNBASE, EXTMEM, PHYSTOP, DEVSPACE, V2P, u32 in *. unfold KERNBASE in *.
    rewrite !elem_of_cons, elem_of_nil in Hk. destruct Hk as [->|[->|[->|[->|[]]]]]; cbn [virt phys_start phys_end] in Hx; zlia. }
  unfold KERNBASE, PHYSTOP, DEVSPACE in H. rewrite PDX_alt by (unfold is_u32; lia). zlia.
Qed.

(** [setupkvm] either builds a directory that maps the rows of [kmap] and nothing
    else, from pages of the free list; or returns 0 with every page back on the
    free list.  It fails only when fewer than 66 pages are free. *)
Theorem setupkvm_maps s l : kdata_ok -> kmem_wf kend s l ->
  exists d s' l', setupkvm kend kdata s = Ok (d, s') /\ kmem_wf kend s' l'
  /\ (forall q, q mod 4096 = 0 -> q ∉ l -> same_page q (kmem_mem s) (kmem_mem s'))
  /\ ((d <> 0 /\ d ∈ l /\ space kend s' l' d /\ (forall x, is_u32 x -> mapping (kmem_mem s') d x = rows_map (kmap kdata) x)
        /\ (forall q, q ∈ l <-> q ∈ l' \/ tpage (kmem_mem s') d q) /\ (length l <= length l' + 65)%nat)
      \/ (d = 0 /\ (length l <= 65)%nat /\ forall q, q ∈ l' <-> q ∈ l)).
Proof.
  intros Hkd Hk. unfold setupkvm. destruct l as [|p l].
  { rewrite (kalloc_empty kend) by done. exists 0, s, []. split; [done|]. split; [done|]. split; [intros; apply same_page_refl|]. right. split; [done|]. split; [cbn; lia|done]. }
  destruct (kalloc_cons kend s p l Hkend Hk) as (s1 & -> & Hm & Hk1 & Hp & Hpl & _).
  destruct (Z.eqb_spec p 0) as [->|Hp0]; [by apply page_ok_nonzero in Hp|]. change (DEVSPACE <? P2V PHYSTOP) with false. cbv iota zeta.
  set (s2 := set_mem (memset (kmem_mem s1) p 0 PGSIZE) s1). pose proof (page_aligned _ _ Hp) as Hpa.
  assert (forall q, q mod 4096 = 0 -> q <> p -> same_page q (kmem_mem s) (kmem_mem s2)) as HF.
  { intros q Hq Hne. unfold s2. cbn [kmem_mem set_mem]. rewrite <- Hm. by apply (same_page_memset p). }
  assert (kmem_wf kend s2 l) as Hk2.
  { apply kmem_wf_frame; [done|]. apply Forall_forall. intros q Hin. destruct Hk1 as [_ _ Hpages]. rewrite Forall_forall in Hpages.
    apply (same_page_memset p); [done|by eapply page_aligned, Hpages|by intros ->]. }
  assert (zero_page (kmem_mem s2) p) as Hz.
  { intros o Ho. unfold s2. cbn [kmem_mem set_mem]. by rewrite ld8_memset, decide_True by (unfold is_u32, PGSIZE; lia). }
  destruct (empty_space kend s2 l p Hk2 Hp Hpl Hz) as [[_ Hw2 _] HM2].
  assert (forall i, slot i -> has (pde (kmem_mem s2) p i) PTE_P = false) as Hpde.
  { intros i Hi. unfold pde. rewrite ld32_zero; [done|]. unfold slot in Hi. intros b Hb. apply Hz. lia. }
  assert (forall q, tpage (kmem_mem s2) p q -> q = p) as Htp.
  { intros q [->|(i & Hi & HP & _)]; [done|]. by rewrite Hpde in HP. }
  destruct (setupkvm_loop_spec (fun i => i ∈ kslots) p (kmap kdata) KERNBASE s2 l) as (d & s' & l' & -> & Hk' & Hres).
  { intros k x. by apply kmap_slots. } { done. } { done. } { intros x _. apply HM2. } { by apply kmap_ok. } { intros x _ _. apply HM2. }
  exists d, s', l'. split; [done|]. split; [done|]. destruct Hres as [(-> & Hw' & Ht & Hev & HM)|(-> & (m1 & Hm1) & Hq & HF')].
  - split.
    { intros q Hqa Hnl. apply not_elem_of_cons in Hnl as [Hne Hnl]. eapply same_page_trans; [by apply HF|].
      apply (ev_frame _ _ _ _ _ Hev); [done| |done]. intros Hin. by apply Htp in Hin. }
    left. split; [done|]. split; [by left|]. assert (forall x, is_u32 x -> mapping (kmem_mem s') p x = rows_map (kmap kdata) x) as HMx.
    { intros x Hx. rewrite HM, HM2 by done. by destruct (rows_map _ _). }
    split. { apply no_user_space; [done|done|]. intros x Hx. rewrite HMx by (unfold is_u32, KERNBASE in *; lia).
      apply (rows_map_below KERNBASE); [by apply kmap_ok|lia]. }
    split; [done|]. split.
    2: { pose proof (taken_length s2 l p _ l' kslots Hk2 Hw2 Ht) as Hlen. change (length kslots) with 64%nat in Hlen. cbn. lia. }
    intros q. rewrite elem_of_cons. split.
    + intros [->|Hin]; [right; by left|by apply (proj1 Ht)].
    + intros [Hin|Hin]; [right; by apply (ev_sub _ _ _ _ _ Hev)|]. apply (ev_tpage _ _ _ _ _ Hev) in Hin as [Hin|Hin]; [left; by apply Htp|by right].
  - assert (forall q, q ∈ l' <-> q ∈ p :: l) as Hq'; [|split].
    2: { intros q Hqa Hnl. eapply same_page_trans; [|apply HF'; [done|by rewrite Hq']]. apply HF; [done|]. intros ->. apply Hnl. by left. }
    2: { right. split; [done|]. split; [cbn; pose proof (taken_length s2 l p m1 [] kslots Hk2 Hw2 Hm1) as Hlen; change (length kslots) with 64%nat in Hlen; cbn in Hlen; lia|done]. }
    intros q. rewrite Hq, elem_of_cons. split; [intros [H|H]; [by right|left; by apply Htp]|]. intros [->|H]; [right; by left|by left].
Qed.

(** [inituvm] maps one page at address 0 with the bytes of the program, then
    zeros; three free pages are enough. *)
Lemma inituvm_maps pgdir init sz s l :
  space kend s l pgdir -> no_user (kmem_mem s) pgdir -> (3 <= length l)%nat -> 0 <= sz < 4096 ->
  (forall q b, q ∈ l \/ tpage (kmem_mem s) pgdir q -> init <= b < init + sz -> ~ q <= b < q + 4096) ->
  exists e s' l', inituvm pgdir init sz s = Ok s' /\ space kend s' l' pgdir /\ PTE_FLAGS e = 7
    /\ (forall va, is_u32 va -> mapping (kmem_mem s') pgdir va = if decide (va < 4096) then Some e else mapping (kmem_mem s) pgdir va)
    /\ (forall o, 0 <= o < 4096 -> ld8 (kmem_mem s') (frame e + o) = if o <? sz then ld8 (kmem_mem s) (init + o) else 0)
    /\ (frame e ∈ l /\ (forall q, q ∈ l' -> q ∈ l) /\ forall q, tpage (kmem_mem s') pgdir q -> tpage (kmem_mem s) pgdir q \/ q ∈ l)
    /\ forall q, q mod 4096 = 0 -> q ∉ l -> ~ tpage (kmem_mem s) pgdir q -> same_page q (kmem_mem s) (kmem_mem s').
Proof.
  intros Hs Hn Hl Hsz Hinit. destruct l as [|p l]; [cbn in Hl; lia|]. unfold inituvm. destruct (Z.leb_spec PGSIZE sz) as [Hge|_]; [unfold PGSIZE in Hge; lia|].
  destruct (kalloc_zeroed kend Hkend s p l pgdir Hs) as (s1 & -> & Hp0 & Hp & Hpl & Hpt & Hs2 & Hz & HM2 & HF2 & HT2). cbv zeta in *. set (s2 := set_mem _ s1) in *.
  destruct (map_user_page kend Hkend s2 l pgdir 0 p Hs2) as (r & s3 & l3 & Hmap & Hs3 & Hev & Hsp & Hpl3 & Hpt3 & Hr);
    [unfold KERNBASE; lia|done|rewrite HM2; apply Hn; unfold KERNBASE; lia|done|done|by rewrite HT2|intros va e Hva; by rewrite HM2, Hn|].
  destruct (Z.eqb_spec p 0) as [|_]; [done|]. rewrite Hmap. cbn [obind].
  pose proof (page_ok_bounds kend p Hkend Hp) as (Hb & Hb2 & HV). unfold KERNLINK, EXTMEM, PHYSTOP in Hb, Hb2. pose proof (page_aligned _ _ Hp) as Hpa.
  destruct Hr as [(-> & Hfr & Hfl & HM)|(-> & _ & ->)].
  2: { assert (taken (fun i => i ∈ [0]) pgdir (kmem_mem s2) l (kmem_mem s3) []) as Ht.
       { destruct Hs2 as [Hk2 Hw2 _], Hs3 as [Hk3 _ _]. unfold KERNBASE in *.
         eapply (mappages_one_taken _ s2 l pgdir 0 (V2P p) (Z.lor PTE_W PTE_U)); try done; [by left|lia..|rewrite HV; zlia]. }
       destruct Hs2 as [Hk2 Hw2 _]. pose proof (taken_length s2 l pgdir _ [] [0] Hk2 Hw2 Ht). cbn in *. lia. }
  set (e := V2P p + 7) in *. exists e.
  assert (mapping (kmem_mem s3) pgdir 0 = Some e) as Hm0 by (rewrite HM by done; done).
  destruct (write_frame kend s3 l3 pgdir 0 e (memmove (kmem_mem s3) p init sz) Hs3) as [Hs4 HM4]; [unfold KERNBASE; lia|done| |].
  { rewrite Hfr. intros q Hq Hne b Hb'. rewrite ld8_memmove, decide_False by zlia. done. }
  exists (set_mem (memmove (kmem_mem s3) p init sz) s3), l3. cbn [kmem_mem set_mem] in *. split; [done|]. split; [done|]. split; [done|]. split; [|split; [|split]].
  - intros va Hva. rewrite HM4, HM by done. unfold is_u32 in Hva. repeat case_decide; [done|zlia|zlia|apply HM2].
  - intros o Ho. rewrite Hfr, ld8_memmove by lia. destruct (Z.ltb_spec o sz).
    + rewrite decide_True by lia. replace (init + (p + o - p)) with (init + o) by lia.
      set (q := (init + o) - (init + o) mod 4096). assert (q mod 4096 = 0 /\ q <= init + o < q + 4096) as [Hq Hqb] by (unfold q; zlia).
      assert (q <> p /\ q ∉ l /\ ~ tpage (kmem_mem s2) pgdir q) as (H1 & H2 & H3).
      { rewrite HT2. split; [|split]; intros H'; apply (Hinit q (init + o)); try lia; try done; [left; rewrite H'; by left|left; by right|by right]. }
      rewrite (ev_frame _ _ _ _ _ Hev q Hq H3 H2) by done. by apply (HF2 q).
    + rewrite decide_False by lia. rewrite (Hsp (p + o)) by lia. apply Hz. lia.
  - rewrite Hfr. split; [by left|]. split; [intros q Hq; right; by apply (ev_sub _ _ _ _ _ Hev)|]. intros q.
    rewrite (tpage_frame (kmem_mem s3)). 2: { intros b Hb'. rewrite ld8_memmove, decide_False; [done| |lia]. intros Hbp.
      pose proof (page_aligned _ _ (pw_dir _ _ _ _ (sp_pt _ _ _ _ Hs3))). assert (pgdir <> p) by (intros ->; apply Hpt3; by left). zlia. }
    intros Ht. apply (ev_tpage _ _ _ _ _ Hev) in Ht as [Ht|Ht]; [left; by apply HT2|right; by right].
  - intros q Hq Hnl Hnt. apply not_elem_of_cons in Hnl as [Hne Hnl]. eapply same_page_trans; [by apply HF2|].
    eapply same_page_trans; [apply (ev_frame _ _ _ _ _ Hev); [done|by rewrite HT2|done]|].
    intros b Hb'. rewrite ld8_memmove, decide_False by zlia. done.
Qed.

(** The kernel's view of memory: physical memory at [KERNBASE], the text and what
    precedes the data not writable, devices at their own addresses; no page of it
    is for the user. *)
Lemma kernel_view x e : kdata_ok -> is_u32 x -> rows_map (kmap kdata) x = Some e ->
  KERNBASE <= x /\ has e PTE_U = false /\ has e PTE_W = negb ((KERNLINK <=? x) && (x <? kdata))
  /\ PTE_ADDR e = (if x <? DEVSPACE then x - x mod 4096 - KERNBASE else x - x mod 4096).
Proof.
  intros [[Hd1 Hd2] Hd3] Hx. unfold rows_map, kmap, row_size, row_entry. cbn [virt phys_start phys_end kperm].
  unfold V2P, u32, is_u32, KERNLINK, KERNBASE, EXTMEM, PHYSTOP, DEVSPACE, PTE_W in *. unfold KERNBASE in *. intros H.
  repeat case_decide; try done; injection H as <-.
  all: repeat match goal with |- context [?a <? ?b] => destruct (Z.ltb_spec a b); try zlia | |- context [?a <=? ?b] => destruct (Z.leb_spec a b); try zlia end.
  all: match goal with |- context [Z.lor ?p PTE_P] => change (Z.lor p PTE_P) with 3 || change (Z.lor p PTE_P) with 1 end.
  all: rewrite !has_add, PTE_ADDR_add by (unfold PTE_U, PTE_W, is_u32; zlia).
  all: split; [zlia|]; split; [done|]; split; [done|]; zlia.
Qed.
End Kernel.

(** 100 free pages are enough. *)
Definition kdata0 : Z := KERNLINK + 32768.

Lemma free_pages_100 : exists s, kmem_wf kend0 s (rev (pages_from (page0 100) 100) ++ []).
Proof.
  destruct (freerange_loop_ok kend0 100 (page0 100) (page0 200) (Kst ∅ 0 true) []) as (s & _ & Hk & _).
  - exact kend0_ok.
  - split; [done|constructor|constructor].
  - by vm_compute.
  - by vm_compute.
  - by vm_compute.
  - by vm_compute.
  - intros q _. apply not_elem_of_nil.
  - by exists s.
Qed.

Lemma pages_from_length n : forall p, length (pages_from p n) = n.
Proof. induction n as [|n IH]; intros p; cbn [pages_from length]; [done|]. by rewrite IH. Qed.

Lemma setupkvm_maps_witness : exists s d s', setupkvm kend0 kdata0 s = Ok (d, s') /\ d <> 0 /\ mapping (kmem_mem s') d 2149000000 <> None.
Proof.
  destruct free_pages_100 as [s Hk]. exists s.
  destruct (setupkvm_maps kend0 kdata0 kend0_ok s _ ltac:(split; [split|]; by vm_compute) Hk) as (d & s' & l' & Hrun & _ & _ & [(Hd & _ & _ & HM & _)|(_ & Hl & _)]).
  - exists d, s'. split; [done|]. split; [done|]. rewrite HM by (unfold is_u32; lia). by vm_compute.
  - rewrite length_app, length_rev, pages_from_length in Hl. cbn in Hl. lia.
Defined.

(** * The address space of a child *)

Section Fork.
Context (kend kdata : Z) (Hkend : kend_ok kend) (Hkd : kdata_ok kdata).

(** The frame of a user page of a table. *)
Definition uframe (m : mem) (pgdir q : Z) : Prop := exists va e, 0 <= va < KERNBASE /\ mapping m pgdir va = Some e /\ q = frame e.

(** The page at [va] of [d] in [m] is a copy, with the same flags, of that of [pgdir] in [m0]. *)
Definition copy_of (m0 : mem) (pgdir : Z) (m : mem) (d va : Z) : Prop :=
  exists e e', mapping m0 pgdir va = Some e /\ mapping m d va = Some e' /\ PTE_FLAGS e' = PTE_FLAGS e
    /\ forall o, 0 <= o < 4096 -> ld8 m (frame e' + o) = ld8 m0 (frame e + o).

(** The state of [copyuvm] before page [i]: the pages below it are copied, and
    every page that left the free list [l0] belongs to the new table. *)
Record copying (m0 : mem) (l0 : list Z) (pgdir d i : Z) (s : kst) (l : list Z) : Prop := {
  cp_space : space kend s l d;
  cp_same q : q mod 4096 = 0 -> q ∉ l0 -> same_page q m0 (kmem_mem s);
  cp_all q : q ∈ l0 <-> q ∈ l \/ tpage (kmem_mem s) d q \/ uframe (kmem_mem s) d q;
  cp_done va : 0 <= va < i -> copy_of m0 pgdir (kmem_mem s) d va;
  cp_rest va : is_u32 va -> i <= va -> mapping (kmem_mem s) d va = rows_map (kmap kdata) va
}.

Lemma copying_apart m0 l0 pgdir d i s l : copying m0 l0 pgdir d i s l -> pt_wf kend m0 l0 pgdir ->
  forall va, mapping (kmem_mem s) pgdir va = mapping m0 pgdir va /\ entry (kmem_mem s) pgdir va = entry m0 pgdir va
    /\ pte_addr (kmem_mem s) pgdir va = pte_addr m0 pgdir va.
Proof.
  intros Hc Hw va. assert (forall q, tpage m0 pgdir q -> same_page q m0 (kmem_mem s)) as HF.
  { intros q Hq. destruct (tpage_ok _ _ _ _ _ Hw Hq) as [Hok Hnl]. apply (cp_same _ _ _ _ _ _ _ Hc); [by eapply page_aligned|done]. }
  split; [by apply mapping_frame|]. split; [by apply entry_frame|]. unfold pte_addr. rewrite (ptp_frame m0); [done|apply PDX_slot|]. apply HF. by left.
Qed.

(** [bad]: everything goes back. *)
Lemma copyuvm_bad m0 l0 pgdir d i s l : copying m0 l0 pgdir d i s l ->
  exists s' l', (let! s := freevm kend d s in Ok (0, s)) = Ok (0, s') /\ kmem_wf kend s' l' /\ (forall q, q ∈ l' <-> q ∈ l0)
    /\ forall q, q mod 4096 = 0 -> q ∉ l0 -> same_page q m0 (kmem_mem s').
Proof.
  intros Hc. destruct (freevm_spec kend Hkend s l d (cp_space _ _ _ _ _ _ _ Hc)) as (s' & l' & -> & Hk & Hq & HF).
  exists s', l'. split; [done|]. split; [done|].
  assert (forall q, q ∈ l' <-> q ∈ l0) as Hl by (intros q; by rewrite Hq, (cp_all _ _ _ _ _ _ _ Hc q)).
  split; [done|]. intros q Ha Hn. eapply same_page_trans; [by apply (cp_same _ _ _ _ _ _ _ Hc)|]. apply HF; [done|]. by rewrite Hl.
Qed.

Lemma flags_present e : is_u32 e -> has e PTE_P = true -> Z.lor (PTE_FLAGS e) PTE_P = PTE_FLAGS e.
Proof.
  intros He Hp. unfold PTE_FLAGS. rewrite u32_id by done. unfold has in Hp. apply negb_true_iff, Z.eqb_neq in Hp.
  apply Z.bits_inj'. intros n Hn. rewrite Z.lor_spec. destruct (Z.eq_dec n 0) as [->|Hne].
  - rewrite Z.land_spec. change (Z.testbit 4095 0) with true. change (Z.testbit PTE_P 0) with true. rewrite orb_true_r, andb_true_r. symmetry.
    destruct (Z.testbit e 0) eqn:E; [done|]. destruct Hp. apply Z.bits_inj'. intros k Hk. rewrite Z.land_spec, Z.bits_0.
    destruct (Z.eq_dec k 0) as [->|]; [by rewrite E|]. unfold PTE_P. rewrite (Z.bits_above_log2 1 k) by (cbn; lia). by rewrite andb_false_r.
  - unfold PTE_P. rewrite (Z.bits_above_log2 1 n) by (cbn; lia). by rewrite orb_false_r.
Qed.

Section Step.
Context (m0 : mem) (l0 : list Z) (pgdir d : Z).
Context (Hw0 : pt_wf kend m0 l0 pgdir) (Hu0 : uvm_wf kend m0 l0 pgdir).

Lemma copied_page i s p l1 e m2 : copying m0 l0 pgdir d i s (p :: l1) ->
  0 <= i < KERNBASE -> mapping m0 pgdir i = Some e -> page_ok kend p ->
  m2 = memmove (kmem_mem s) p (frame e) PGSIZE ->
  (forall q, q mod 4096 = 0 -> q <> p -> same_page q (kmem_mem s) m2) /\ forall o, 0 <= o < 4096 -> ld8 m2 (p + o) = ld8 m0 (frame e + o).
Proof.
  intros Hc Hi He Hp ->. pose proof (page_aligned _ _ Hp) as Hpa. destruct (uw_frame _ _ _ _ Hu0 i e Hi He) as (Hok & Hnl & _).
  split.
  - intros q Hq Hne b Hb. rewrite ld8_memmove, decide_False by (unfold PGSIZE; zlia). done.
  - intros o Ho. rewrite ld8_memmove, decide_True by (unfold PGSIZE; zlia). replace (frame e + (p + o - p)) with (frame e + o) by lia.
    apply (cp_same _ _ _ _ _ _ _ Hc (frame e)); [by eapply page_aligned|done|lia].
Qed.

(** What writing the page [p] and extending the table of [d] leaves alone. *)
Lemma step_frames i s p l1 m2 m3 l3 :
  copying m0 l0 pgdir d i s (p :: l1) -> page_ok kend p ->
  (forall q, q mod 4096 = 0 -> q <> p -> same_page q (kmem_mem s) m2) -> (forall q, tpage m2 d q <-> tpage (kmem_mem s) d q) ->
  evolves d m2 l1 m3 l3 -> taken (fun _ => True) d m2 l1 m3 l3 ->
  (forall q, q mod 4096 = 0 -> q ∉ l0 -> same_page q m0 m3)
  /\ (forall q, (q ∈ p :: l1 \/ tpage (kmem_mem s) d q) <-> (q = p \/ q ∈ l3 \/ tpage m3 d q))
  /\ (forall va e, 0 <= va < KERNBASE -> mapping (kmem_mem s) d va = Some e -> same_page (frame e) (kmem_mem s) m3).
Proof.
  intros Hc Hp HF2 HT2 Hev Ht. destruct (cp_space _ _ _ _ _ _ _ Hc) as [Hk Hw Hu]. split; [|split].
  - intros q Hq Hn. assert (q ∉ p :: l1 /\ ~ tpage (kmem_mem s) d q) as [H1 H2] by (split; intros H; apply Hn, (cp_all _ _ _ _ _ _ _ Hc); tauto).
    apply not_elem_of_cons in H1 as [Hne H1]. eapply same_page_trans; [by apply (cp_same _ _ _ _ _ _ _ Hc)|].
    eapply same_page_trans; [by apply HF2|]. apply (ev_frame _ _ _ _ _ Hev); [done|by rewrite HT2|done].
  - intros q. rewrite elem_of_cons, <- HT2. split.
    + intros [[->|H]|H]; [by left| |]; right; [by apply (proj1 Ht)|right; by apply (taken_tpage _ _ _ _ _ _ Ht)].
    + intros [->|[H|H]]; [tauto|left; right; by apply (ev_sub _ _ _ _ _ Hev)|]. apply (ev_tpage _ _ _ _ _ Hev) in H. tauto.
  - intros va e Hva Hm. destruct (uw_frame _ _ _ _ Hu va e Hva Hm) as (Hok & Hn & Hnt). apply not_elem_of_cons in Hn as [Hne Hn].
    pose proof (page_aligned _ _ Hok). eapply same_page_trans; [by apply HF2|]. apply (ev_frame _ _ _ _ _ Hev); [done|by rewrite HT2|done].
Qed.

Lemma copy_of_frame i s l m3 va : copying m0 l0 pgdir d i s l -> 0 <= va < i -> i <= KERNBASE ->
  mapping m3 d va = mapping (kmem_mem s) d va ->
  (forall va e, 0 <= va < KERNBASE -> mapping (kmem_mem s) d va = Some e -> same_page (frame e) (kmem_mem s) m3) ->
  copy_of m0 pgdir m3 d va.
Proof.
  intros Hc Hva Hi HM HF. destruct (cp_done _ _ _ _ _ _ _ Hc va Hva) as (e & e' & H1 & H2 & H3 & H4). exists e, e'.
  split; [done|]. split; [by rewrite HM|]. split; [done|]. intros o Ho. rewrite (HF va e' ltac:(lia) H2) by lia. by apply H4.
Qed.

(** The page is mapped. *)
Lemma copy_mapped i s p l1 e m2 s3 l3 :
  copying m0 l0 pgdir d i s (p :: l1) -> 0 <= i < KERNBASE -> i mod 4096 = 0 -> mapping m0 pgdir i = Some e -> page_ok kend p ->
  (forall q, q mod 4096 = 0 -> q <> p -> same_page q (kmem_mem s) m2) -> (forall q, tpage m2 d q <-> tpage (kmem_mem s) d q) ->
  (forall va, mapping m2 d va = mapping (kmem_mem s) d va) -> (forall o, 0 <= o < 4096 -> ld8 m2 (p + o) = ld8 m0 (frame e + o)) ->
  space kend s3 l3 d -> evolves d m2 l1 (kmem_mem s3) l3 -> taken (fun _ => True) d m2 l1 (kmem_mem s3) l3 -> same_page p m2 (kmem_mem s3) ->
  frame (V2P p + PTE_FLAGS e) = p -> PTE_FLAGS (V2P p + PTE_FLAGS e) = PTE_FLAGS e ->
  (forall va, is_u32 va -> mapping (kmem_mem s3) d va = if decide (va / 4096 = i / 4096) then Some (V2P p + PTE_FLAGS e) else mapping m2 d va) ->
  copying m0 l0 pgdir d (i + 4096) s3 l3.
Proof.
  intros Hc Hi Hia He Hp HF2 HT2 HM2 Hb Hs3 Hev Ht Hsp Hfr Hfl HM. unfold KERNBASE in Hi.
  destruct (step_frames i s p l1 m2 _ l3 Hc Hp HF2 HT2 Hev Ht) as (HF & Hacc & Huf). split; [done|done| | |].
  - intros q. rewrite (cp_all _ _ _ _ _ _ _ Hc q). transitivity ((q = p \/ q ∈ l3 \/ tpage (kmem_mem s3) d q) \/ uframe (kmem_mem s) d q);
      [rewrite <- Hacc; tauto|]. unfold uframe. split.
    + intros [[->|[H|H]]|(va & e' & Hva & Hm & ->)]; [|tauto|tauto|].
      * right. right. exists i, (V2P p + PTE_FLAGS e). split; [done|]. by rewrite HM, decide_True by (unfold is_u32; lia || done).
      * right. right. exists va, e'. split; [done|]. split; [|done]. rewrite HM, HM2 by (by apply kern_u32). case_decide as Hv; [|done].
        rewrite (cp_rest _ _ _ _ _ _ _ Hc), (rows_map_below KERNBASE) in Hm; [done|by apply kmap_ok|lia|by apply kern_u32|zlia].
    + intros [H|[H|(va & e' & Hva & Hm & ->)]]; [tauto|tauto|]. rewrite HM in Hm by (by apply kern_u32). case_decide.
      * injection Hm as <-. rewrite Hfr. tauto.
      * rewrite HM2 in Hm. right. by exists va, e'.
  - intros va Hva. destruct (decide (va < i)) as [Hlt|Hge].
    + apply (copy_of_frame i s (p :: l1)); [done|lia|unfold KERNBASE; lia| |done]. rewrite HM, HM2 by (unfold is_u32; lia). by rewrite decide_False by zlia.
    + exists e, (V2P p + PTE_FLAGS e). assert (va / 4096 = i / 4096) as Hv by zlia.
      rewrite (mapping_same_vpage m0 pgdir i va) by (unfold is_u32; lia || done). split; [done|].
      rewrite HM, decide_True by (unfold is_u32; lia || done). split; [done|]. split; [done|]. intros o Ho. rewrite Hfr, (Hsp (p + o)) by lia. by apply Hb.
  - intros va Hva Hge. rewrite HM, HM2, decide_False by (done || zlia). apply (cp_rest _ _ _ _ _ _ _ Hc); [done|lia].
Qed.

(** There was no memory for its table: the page goes back. *)
Lemma copy_failed i s p l1 m2 s3 l3 :
  copying m0 l0 pgdir d i s (p :: l1) -> 0 <= i < KERNBASE -> page_ok kend p ->
  (forall q, q mod 4096 = 0 -> q <> p -> same_page q (kmem_mem s) m2) -> (forall q, tpage m2 d q <-> tpage (kmem_mem s) d q) ->
  (forall va, mapping m2 d va = mapping (kmem_mem s) d va) ->
  space kend s3 l3 d -> evolves d m2 l1 (kmem_mem s3) l3 -> taken (fun _ => True) d m2 l1 (kmem_mem s3) l3 -> p ∉ l3 -> ~ tpage (kmem_mem s3) d p ->
  (forall va, is_u32 va -> mapping (kmem_mem s3) d va = mapping m2 d va) ->
  exists s4, kfree kend p s3 = Ok s4 /\ copying m0 l0 pgdir d i s4 (p :: l3).
Proof.
  intros Hc Hi Hp HF2 HT2 HM2 Hs3 Hev Ht Hpl3 Hpt3 HM. unfold KERNBASE in Hi.
  destruct (step_frames i s p l1 m2 _ l3 Hc Hp HF2 HT2 Hev Ht) as (HF & Hacc & Huf).
  destruct (cp_space _ _ _ _ _ _ _ Hc) as [_ _ Hu].
  assert (forall va e, 0 <= va < KERNBASE -> mapping (kmem_mem s) d va = Some e -> frame e <> p) as Hfp.
  { intros va e Hva Hm Heq. destruct (uw_frame _ _ _ _ Hu va e Hva Hm) as (_ & Hn & _). apply Hn. rewrite Heq. by left. }
  destruct (kfree_space kend Hkend s3 l3 d p Hs3 Hp Hpl3 Hpt3) as (s4 & Hrun & Hs4 & HM4 & HF4).
  { intros va e Hva. rewrite HM, HM2 by (by apply kern_u32). by apply Hfp. }
  assert (forall va, is_u32 va -> mapping (kmem_mem s4) d va = mapping (kmem_mem s) d va) as HMs by (intros va Hva; by rewrite HM4, HM, HM2).
  assert (d <> p /\ d mod 4096 = 0) as [Hdp Hda].
  { destruct Hs3 as [_ Hw3 _]. split; [intros ->; apply Hpt3; by left|eapply page_aligned, (pw_dir _ _ _ _ Hw3)]. }
  exists s4. split; [done|]. split; [done| | | |].
  - intros q Hq Hn. eapply same_page_trans; [by apply HF|]. apply HF4; [done|]. intros ->. apply Hn, (cp_all _ _ _ _ _ _ _ Hc). left. by left.
  - intros q. rewrite (cp_all _ _ _ _ _ _ _ Hc q).
    transitivity ((q = p \/ q ∈ l3 \/ tpage (kmem_mem s3) d q) \/ uframe (kmem_mem s) d q); [rewrite <- Hacc; tauto|].
    rewrite elem_of_cons, (tpage_frame (kmem_mem s3) (kmem_mem s4)) by (by apply HF4).
    assert (uframe (kmem_mem s4) d q <-> uframe (kmem_mem s) d q) as ->; [|tauto].
    unfold uframe. split; intros (va & e & Hva & Hm & ->); exists va, e; (rewrite HMs in * by (by apply kern_u32)); done.
  - intros va Hva. apply (copy_of_frame i s (p :: l1)); [done|lia|unfold KERNBASE; lia|apply HMs; unfold is_u32; lia|].
    intros va' e Hva' Hm. eapply same_page_trans; [by eapply Huf|]. destruct (uw_frame _ _ _ _ Hu va' e Hva' Hm) as (Hok & _).
    apply HF4; [by eapply page_aligned|by eapply Hfp].
  - intros va Hva Hge. rewrite HMs by done. by apply (cp_rest _ _ _ _ _ _ _ Hc).
Qed.

(** The page tables that mapping [i], after all pages below it, can need. *)
Definition new_table (i : Z) : Z := if i mod 4194304 =? 0 then 1 else 0.

Lemma step_length i s p l1 m2 s1 m3 l3 :
  copying m0 l0 pgdir d i s (p :: l1) -> 0 <= i < KERNBASE -> i mod 4096 = 0 ->
  (forall va, mapping m2 d va = mapping (kmem_mem s) d va) ->
  kmem_wf kend s1 l1 -> kmem_mem s1 = m2 -> pt_wf kend m2 l1 d -> taken (fun j => j ∈ [PDX i]) d m2 l1 m3 l3 ->
  Z.of_nat (length l1) <= Z.of_nat (length l3) + new_table i.
Proof.
  intros Hc Hi Hia HM2 Hk <- Hw Ht. unfold new_table. destruct (Z.eqb_spec (i mod 4194304) 0) as [_|Hne].
  - pose proof (taken_length kend s1 l1 d m3 l3 [PDX i] Hk Hw Ht) as H. cbn in H. lia.
  - unfold KERNBASE in Hi. assert (taken (fun j => j ∈ []) d (kmem_mem s1) l1 m3 l3) as Ht0.
    { eapply taken_mono; [exact Ht|]. intros j _ ->%list_elem_of_singleton. left.
      destruct (cp_done _ _ _ _ _ _ _ Hc (i - 4096)) as (_ & e' & _ & Hm & _); [zlia|]. rewrite <- HM2 in Hm.
      apply mapping_entry in Hm. unfold entry in Hm. replace (PDX i) with (PDX (i - 4096)) by (rewrite !PDX_alt by (unfold is_u32; zlia); zlia).
      by destruct (has (pde (kmem_mem s1) d (PDX (i - 4096))) PTE_P). }
    pose proof (taken_length kend s1 l1 d m3 l3 [] Hk Hw Ht0) as H. cbn in H. lia.
Qed.

Lemma copyuvm_step i s p l1 e :
  copying m0 l0 pgdir d i s (p :: l1) -> 0 <= i < KERNBASE -> i mod 4096 = 0 -> mapping m0 pgdir i = Some e ->
  exists s1, kalloc s = (p, s1) /\ p <> 0 /\
  exists r s3, mappages d i PGSIZE (V2P p) (PTE_FLAGS e) (set_mem (memmove (kmem_mem s1) p (frame e) PGSIZE) s1) = Ok (r, s3)
  /\ ((r = 0 /\ exists l3, copying m0 l0 pgdir d (i + 4096) s3 l3 /\ Z.of_nat (length l1) <= Z.of_nat (length l3) + new_table i)
      \/ (r = -1 /\ Z.of_nat (length l1) <= new_table i /\ exists s4 l4, kfree kend p s3 = Ok s4 /\ copying m0 l0 pgdir d i s4 l4)).
Proof.
  intros Hc Hi Hia He. destruct (kalloc_written kend Hkend s p l1 d (cp_space _ _ _ _ _ _ _ Hc)) as (s1 & Hrun & Hm & Hp0 & Hp & Hpl & Hpt & Hwr).
  exists s1. split; [done|]. split; [done|]. rewrite Hm. destruct (copied_page i s p l1 e _ Hc Hi He Hp eq_refl) as [HF2 Hbytes].
  set (m2 := memmove (kmem_mem s) p (frame e) PGSIZE) in *. destruct (Hwr m2 HF2) as (Hs2 & HM2 & HT2). clear Hwr.
  destruct (mapping_u32 _ _ _ _ He) as [Heu HeP].
  assert (0 <= PTE_FLAGS e < 4096) as Hfl by (unfold PTE_FLAGS; change 4095 with (Z.ones 12); rewrite Z.land_ones by lia; apply Z.mod_pos_bound; lia).
  destruct (map_frame_page kend Hkend (set_mem m2 s1) l1 d i p (PTE_FLAGS e) Hfl Hs2 Hi Hia) as (r & s3 & l3 & Hmap & Hs3 & Hev & Hsp & Hpl3 & Hpt3 & Hr).
  { cbn [kmem_mem set_mem]. rewrite HM2, (cp_rest _ _ _ _ _ _ _ Hc) by (unfold is_u32, KERNBASE in *; lia).
    apply (rows_map_below KERNBASE); [by apply kmap_ok|lia]. }
  { done. } { done. } { cbn [kmem_mem set_mem]. by rewrite HT2. }
  { cbn [kmem_mem set_mem]. intros va e' Hva. rewrite HM2. intros Hme Heq.
    destruct (uw_frame _ _ _ _ (sp_u _ _ _ _ (cp_space _ _ _ _ _ _ _ Hc)) va e' Hva Hme) as (_ & Hn & _). apply Hn. rewrite Heq. by left. }
  exists r, s3. split; [done|]. cbn [kmem_mem set_mem] in *. rewrite flags_present in Hr by done.
  assert (taken (fun j => j ∈ [PDX i]) d m2 l1 (kmem_mem s3) l3) as Ht1.
  { pose proof (page_ok_bounds kend p Hkend Hp) as (Hb & Hb2 & HV). unfold KERNLINK, KERNBASE, EXTMEM, PHYSTOP in *.
    pose proof (page_aligned _ _ Hp). destruct Hs2 as [Hk2 Hw2 _], Hs3 as [Hk3 _ _].
    eapply (mappages_one_taken kend Hkend (fun j => j ∈ [PDX i]) (set_mem m2 s1) l1 d i (V2P p) (PTE_FLAGS e) r s3 l3); try done; [by left|lia..|rewrite HV; zlia]. }
  assert (taken (fun _ => True) d m2 l1 (kmem_mem s3) l3) as Ht by (eapply taken_mono; [exact Ht1|by right]).
  pose proof (step_length i s p l1 m2 (set_mem m2 s1) (kmem_mem s3) l3 Hc Hi Hia HM2 (sp_k _ _ _ _ Hs2) eq_refl (sp_pt _ _ _ _ Hs2) Ht1) as Hlen.
  destruct Hr as [(-> & Hfr & Hff & HM)|(-> & HM & ->)]; [left|right]; (split; [done|]).
  - exists l3. split; [by eapply copy_mapped|done].
  - split; [cbn in Hlen; lia|]. destruct (copy_failed i s p l1 m2 s3 []) as (s4 & H4 & Hc4); try done. by exists s4, [p].
Qed.

(** The pages that copying from [i] to [sz] takes at most: the frames and the tables. *)
Definition copy_cost (i sz : Z) : Z := (sz + 4095) / 4096 - i / 4096 + ((sz + 4194303) / 4194304 - (i + 4194303) / 4194304).

Lemma copy_cost_step i sz : 0 <= i < sz -> i mod 4096 = 0 -> copy_cost i sz = 1 + new_table i + copy_cost (i + 4096) sz /\ 1 + new_table i <= copy_cost i sz.
Proof. intros Hi Ha. unfold copy_cost, new_table. destruct (Z.eqb_spec (i mod 4194304) 0); zlia. Qed.

Lemma copyuvm_loop_spec sz fuel : forall i s l,
  copying m0 l0 pgdir d i s l -> 0 <= i -> i mod 4096 = 0 -> sz <= KERNBASE -> (forall va, 0 <= va < sz -> mapping m0 pgdir va <> None) ->
  sz <= i + 4096 * Z.of_nat fuel ->
  exists r s' l', copyuvm_loop kend fuel pgdir d i sz s = Ok (r, s') /\ kmem_wf kend s' l'
  /\ ((r = d /\ exists j, sz <= j /\ j mod 4096 = 0 /\ (j = i \/ j < sz + 4096) /\ copying m0 l0 pgdir d j s' l')
      \/ (r = 0 /\ Z.of_nat (length l) <= copy_cost i sz
          /\ (forall q, q ∈ l' <-> q ∈ l0) /\ forall q, q mod 4096 = 0 -> q ∉ l0 -> same_page q m0 (kmem_mem s'))).
Proof.
  induction fuel as [|fuel IH]; intros i s l Hc Hi Hia Hsz Hmap Hf; cbn [copyuvm_loop]; destruct (Z.ltb_spec i sz) as [Hlt|Hge]; try lia.
  1,3: exists d, s, l; split; [done|]; split; [apply (cp_space _ _ _ _ _ _ _ Hc)|]; left; split; [done|]; exists i; split; [lia|]; split; [done|]; split; [by left|done].
  destruct (copy_cost_step i sz ltac:(lia) Hia) as [Hcost Hcost1].
  destruct (copying_apart _ _ _ _ _ _ _ Hc Hw0 i) as (HMi & HEi & HPi).
  destruct (mapping m0 pgdir i) as [e|] eqn:He; [|by destruct (Hmap i ltac:(lia))].
  assert (pt_wf kend (kmem_mem s) l0 pgdir) as Hw.
  { eapply pt_wf_frame; [done|apply (cp_same _ _ _ _ _ _ _ Hc); [eapply page_aligned|]; apply Hw0|]. intros q Hq. by apply (tpage_ok _ _ _ _ _ Hw0 Hq). }
  pose proof (mapping_entry _ _ _ _ HMi) as Hent. rewrite (walkpgdir_noalloc kend s l0 pgdir i Hw), Hent. cbn [obind].
  assert (pte_addr (kmem_mem s) pgdir i <> 0) as Hnz.
  { eapply (pte_addr_nonzero kend Hkend); [done|]. unfold entry in Hent. by destruct (has (pde _ _ _) _). }
  destruct (Z.eqb_spec (pte_addr (kmem_mem s) pgdir i) 0) as [|_]; [done|].
  assert (ld32 (kmem_mem s) (pte_addr (kmem_mem s) pgdir i) = e) as ->.
  { unfold entry in Hent. destruct (has (pde _ _ _) _); [|done]. by injection Hent. }
  destruct (mapping_u32 _ _ _ _ He) as [_ HeP]. rewrite HeP. cbn [negb]. fold (frame e). destruct l as [|p l1].
  { rewrite (kalloc_empty kend) by apply (cp_space _ _ _ _ _ _ _ Hc). cbn [Z.eqb].
    destruct (copyuvm_bad _ _ _ _ _ _ _ Hc) as (s' & l' & Hrun & Hk & Hq & HF). exists 0, s', l'. split; [exact Hrun|]. split; [done|]. right. split; [done|]. split; [|done]. unfold new_table in Hcost1. cbn. destruct (_ =? _); lia. }
  destruct (copyuvm_step i s p l1 e Hc ltac:(lia) Hia He) as (s1 & -> & Hp0 & r & s3 & Hmp & Hr).
  destruct (Z.eqb_spec p 0) as [|_]; [done|]. rewrite Hmp. cbn [obind].
  destruct Hr as [(-> & l3 & Hc3 & Hlen)|(-> & Hlen & s4 & l4 & Hkf & Hc4)]; cbn [Z.ltb Z.compare].
  - unfold PGSIZE, KERNBASE in *. rewrite u32_id by (unfold is_u32; lia).
    destruct (IH (i + 4096) s3 l3 Hc3) as (r & s' & l' & Hrun & Hk & Hres); [lia|zlia|lia|done|lia|].
    exists r, s', l'. split; [done|]. split; [done|]. destruct Hres as [(-> & j & Hj & Hja & Hjs & Hcj)|(-> & Hl & Hres)]; [left|right].
    + split; [done|]. exists j. split; [done|]. split; [done|]. split; [right; destruct Hjs as [->|]; lia|done].
    + split; [done|]. split; [cbn [length]; lia|done].
  - rewrite Hkf. cbn [obind]. destruct (copyuvm_bad _ _ _ _ _ _ _ Hc4) as (s' & l' & Hrun & Hk & Hq & HF).
    exists 0, s', l'. split; [exact Hrun|]. split; [done|]. right. split; [done|]. split; [cbn [length]; lia|done].
Qed.
End Step.

(** C14.  [copyuvm]: given an address space whose pages below [sz] are all present, the
    child gets the same bytes with the same permissions in frames of its own, the
    kernel's mappings, and nothing else.  It returns 0 instead, with every page
    free again, only when there is not enough memory: at most 65 pages for the
    kernel's part, a frame for each page below [sz] and a table for each four
    megabytes are free.  Every page that was not free keeps its bytes, so
    the parent's address space is untouched. *)
Theorem copyuvm_copies pgdir sz s l :
  space kend s l pgdir -> 0 <= sz <= KERNBASE -> (forall va, 0 <= va < sz -> mapping (kmem_mem s) pgdir va <> None) ->
  exists d s' l', copyuvm kend kdata pgdir sz s = Ok (d, s') /\ kmem_wf kend s' l'
  /\ (forall q, q mod 4096 = 0 -> q ∉ l -> same_page q (kmem_mem s) (kmem_mem s'))
  /\ ((d = 0 /\ Z.of_nat (length l) <= 65 + (sz + 4095) / 4096 + (sz + 4194303) / 4194304 /\ forall q, q ∈ l' <-> q ∈ l)
      \/ (d <> 0 /\ space kend s' l' d
          /\ (forall va, 0 <= va < sz -> copy_of (kmem_mem s) pgdir (kmem_mem s') d va)
          /\ (forall va, is_u32 va -> sz + 4095 <= va -> mapping (kmem_mem s') d va = rows_map (kmap kdata) va)
          /\ forall q, q ∈ l <-> q ∈ l' \/ tpage (kmem_mem s') d q \/ uframe (kmem_mem s') d q)).
Proof.
  intros Hs Hsz Hmap. unfold copyuvm. destruct Hs as [Hk Hw Hu].
  destruct (setupkvm_maps kend kdata Hkend s l Hkd Hk) as (d & s1 & l1 & -> & Hk1 & Hres). cbn [obind].
  destruct Hres as (HF1 & [(Hd0 & Hdl & Hs1 & HM1 & Hq1 & Hlen)|(-> & Hlen & Hq)]).
  2: { exists 0, s1, l1. split; [done|]. split; [done|]. split; [done|]. left. split; [done|]. split; [zlia|done]. }
  destruct (Z.eqb_spec d 0) as [|_]; [done|].
  assert (copying (kmem_mem s) l pgdir d 0 s1 l1) as Hc.
  { split; [done|done| |intros va Hva; lia|intros va Hva _; by apply HM1]. intros q. rewrite Hq1. split; [tauto|].
    intros [H|[H|(va & e & Hva & Hm & _)]]; [tauto|tauto|]. rewrite HM1, (rows_map_below KERNBASE) in Hm; [done|by apply kmap_ok|lia|by apply kern_u32]. }
  destruct (copyuvm_loop_spec (kmem_mem s) l pgdir d Hw Hu sz (Z.to_nat (sz / PGSIZE + 1)) 0 s1 l1 Hc) as (r & s' & l' & Hrun & Hk' & Hres);
    [lia|done|lia|done|unfold PGSIZE; zlia|].
  exists r, s', l'. split; [done|]. split; [done|]. destruct Hres as [(-> & j & Hj & Hja & Hjs & [C1 C2 C3 C4 C5])|(-> & Hl & Hq & HF)].
  - split; [done|]. right. split; [done|]. split; [done|]. split; [intros va Hva; apply C4; lia|]. split; [|done].
    intros va Hva Hge. apply C5; [done|]. destruct Hjs as [->|]; zlia.
  - split; [done|]. left. split; [done|]. split; [unfold copy_cost in Hl; zlia|done].
Qed.
End Fork.

(** One user page, and any number of free pages from [page0 100] on. *)
Lemma kst1_more n : (n <= 1000)%nat -> exists s l, space kend0 s l pgdir0 /\ length l = S n
  /\ Forall (fun q => exists k, q = page0 k /\ 3 <= k < 100 + Z.of_nat n) l /\ same_page pgdir0 mem1 (kmem_mem s)
  /\ forall va, mapping (kmem_mem s) pgdir0 va = mapping mem1 pgdir0 va.
Proof.
  induction n as [|n IH]; intros Hn.
  { exists kst1, [page0 3]. split; [exact space1|]. split; [done|]. split; [constructor; [exists 3; split; [done|lia]|constructor]|]. split; [apply same_page_refl|done]. }
  destruct (IH ltac:(lia)) as (s & l & Hs & Hl & Hf & Hsd & HM). rewrite Forall_forall in Hf.
  set (p := page0 (100 + Z.of_nat n)). assert (page_ok kend0 p) as Hp by (apply page0_ok; lia).
  destruct (kfree_space kend0 kend0_ok s l pgdir0 p Hs Hp) as (s' & _ & Hs' & HM' & HF').
  - intros Hin. destruct (Hf p Hin) as (k & Hk & Hk2). unfold p, page0 in Hk. lia.
  - rewrite (tpage_frame mem1) by done. intros [Hq|(i & Hi & HP & Hq)]; [unfold p, pgdir0, page0 in Hq; lia|].
    unfold ptp in Hq. rewrite pde1 in HP, Hq by done. case_decide; [|done]. change (P2V (PTE_ADDR (V2P (page0 1) + 7))) with (page0 1) in Hq. unfold p, page0 in Hq. lia.
  - intros va e Hva. rewrite HM, mapping1 by (by apply kern_u32). case_decide; [|done]. intros [= <-].
    change (frame (V2P (page0 2) + 7)) with (page0 2). unfold p, page0. lia.
  - exists s', (p :: l). split; [done|]. split; [cbn; lia|]. split; [|split].
    + constructor; [exists (100 + Z.of_nat n); split; [done|lia]|]. apply Forall_forall. intros q Hq. destruct (Hf q Hq) as (k & -> & Hk). exists k. split; [done|lia].
    + eapply same_page_trans; [exact Hsd|]. apply HF'; [done|]. unfold p, pgdir0, page0. lia.
    + intros va. by rewrite HM'.
Qed.

(** With 101 pages free the page is copied. *)
Lemma copyuvm_copies_witness : exists s d s', copyuvm kend0 kdata0 pgdir0 4096 s = Ok (d, s') /\ d <> 0 /\ copy_of (kmem_mem s) pgdir0 (kmem_mem s') d 5.
Proof.
  destruct (kst1_more 100 ltac:(lia)) as (s & l & Hs & Hl & _ & _ & HM). exists s.
  destruct (copyuvm_copies kend0 kdata0 kend0_ok ltac:(split; [split|]; by vm_compute) pgdir0 4096 s l Hs) as (d & s' & l' & Hrun & _ & _ & Hres).
  - unfold KERNBASE. lia.
  - intros va Hva. rewrite HM, mapping1 by (unfold is_u32; lia). by rewrite decide_True by zlia.
  - exists d, s'. split; [done|]. destruct Hres as [(_ & Hle & _)|(Hd & _ & Hcp & _)]; [exfalso; rewrite Hl in Hle; zlia|].
    split; [done|]. apply Hcp. lia.
Defined.
