(* ===== verification/Spinlock.v ===== *)
(** spinlock.c and sleeplock.c.  [pushcli] and [popcli] are functions on one
    CPU; [acquire] and [release] are cut at their memory operations into
    atomic steps of a system of any number of CPUs that share one lock, so
    that mutual exclusion is proved for every interleaving. *)
From S2P Require Import Prelude.

(** * One CPU *)

(** The fields of [struct cpu] the locks use, and the interrupt flag of
    [eflags]. *)
Record cpu := Cpu { ncli : Z; intena : bool; IF : bool }.

Definition pushcli (c : cpu) : cpu :=
  let eflags := IF c in
  let c := Cpu (ncli c) (intena c) false in
  let c := if ncli c =? 0 then Cpu (ncli c) eflags (IF c) else c in
  Cpu (ncli c + 1) (intena c) (IF c).

Definition popcli (c : cpu) : outcome cpu :=
  if IF c then Panic "popcli - interruptible"
  else
    let c := Cpu (ncli c - 1) (intena c) (IF c) in
    if ncli c <? 0 then Panic "popcli"
    else if (ncli c =? 0) && intena c then Ok (Cpu (ncli c) (intena c) true)
    else Ok c.

(** A CPU between calls: interrupts are off while [ncli] is positive. *)
Definition cpu_wf (c : cpu) : Prop := 0 <= ncli c /\ (0 < ncli c -> IF c = false).

Fixpoint pushes (n : nat) (c : cpu) : cpu :=
  match n with O => c | S k => pushes k (pushcli c) end.

Fixpoint pops (n : nat) (c : cpu) : outcome cpu :=
  match n with O => Ok c | S k => let! c := popcli c in pops k c end.

Lemma pushcli_wf c : cpu_wf c -> cpu_wf (pushcli c) /\ ncli (pushcli c) = ncli c + 1 /\ IF (pushcli c) = false.
Proof. unfold cpu_wf, pushcli. intros [H1 H2]. cbn. repeat zcase; cbn; split; lia || done. Qed.

Lemma popcli_inner c :
  cpu_wf c -> 1 < ncli c -> popcli c = Ok (Cpu (ncli c - 1) (intena c) false).
Proof.
  intros [H1 H2] H. unfold popcli. rewrite H2 by lia. cbn.
  destruct (Z.ltb_spec (ncli c - 1) 0); [lia|]. destruct (Z.eqb_spec (ncli c - 1) 0); [lia|done].
Qed.

Lemma pushes_nested n : forall c,
  cpu_wf c -> 0 < ncli c -> pushes n c = Cpu (ncli c + Z.of_nat n) (intena c) false.
Proof.
  induction n as [|n IH]; intros c Hc Hp; cbn [pushes].
  - destruct c as [k i f]. cbn in *. destruct Hc as [_ Hf]. cbn in Hf. rewrite Hf by done. f_equal. lia.
  - destruct (pushcli_wf c Hc) as (Hc1 & Hn & _). rewrite IH by (done || lia). rewrite Hn.
    f_equal; [lia|]. unfold pushcli. cbn. destruct (Z.eqb_spec (ncli c) 0); [lia|done].
Qed.

Lemma pops_nested n : forall k i,
  0 < k -> pops n (Cpu (k + Z.of_nat n) i false) = Ok (Cpu k i false).
Proof.
  induction n as [|n IH]; intros k i Hk; cbn [pops].
  - do 2 f_equal. lia.
  - rewrite popcli_inner by (unfold cpu_wf; cbn; lia || done). cbn.
    replace (k + Z.of_nat (S n) - 1) with (k + Z.of_nat n) by lia. by apply IH.
Qed.

(** * [holding], and the lock *)

(** [struct spinlock]: [lk_cpu] is the [cpu] field, by CPU number. *)
Record spinlock := Spinlock { lk_locked : bool; lk_cpu : option nat }.

Definition initlock : spinlock := Spinlock false None.

(** [holding(lock)] on CPU [i], with its [pushcli] and [popcli]. *)
Definition holding (lk : spinlock) (i : nat) (c : cpu) : outcome (bool * cpu) :=
  let c := pushcli c in
  let r := lk_locked lk && bool_decide (lk_cpu lk = Some i) in
  let! c := popcli c in
  Ok (r, c).

(** * Many CPUs *)

(** Where a CPU is: outside, spinning in [acquire], past the [xchg], inside
    the critical section, past the store of [lk->cpu = 0] in [release], past
    the store of [lk->locked = 0]. *)
Inductive where_ := Outside | Spinning | Taken | Inside | Leaving | Left_.

#[export] Instance where_eq_dec : EqDecision where_.
Proof. solve_decision. Defined.

Record lsys := Lsys { lock : spinlock; cpus : list (cpu * where_) }.

Definition set_cpu (i : nat) (c : cpu) (w : where_) (s : lsys) : lsys :=
  Lsys (lock s) (<[i := (c, w)]> (cpus s)).

(** [acquire] up to the spin: [pushcli], and the panic when already held. *)
Definition acquire_enter (i : nat) (c : cpu) (s : lsys) : outcome lsys :=
  let c := pushcli c in
  let! (h, c) := holding (lock s) i c in
  if h then Panic "acquire" else Ok (set_cpu i c Spinning s).

(** One turn of [while(xchg(&lk->locked, 1) != 0)]. *)
Definition acquire_xchg (i : nat) (c : cpu) (s : lsys) : lsys :=
  if lk_locked (lock s) then set_cpu i c Spinning s
  else set_cpu i c Taken (Lsys (Spinlock true (lk_cpu (lock s))) (cpus s)).

(** [lk->cpu = mycpu()]. *)
Definition acquire_record (i : nat) (c : cpu) (s : lsys) : lsys :=
  set_cpu i c Inside (Lsys (Spinlock (lk_locked (lock s)) (Some i)) (cpus s)).

(** [release] up to [lk->cpu = 0]. *)
Definition release_check (i : nat) (c : cpu) (s : lsys) : outcome lsys :=
  let! (h, c) := holding (lock s) i c in
  if negb h then Panic "release"
  else Ok (set_cpu i c Leaving (Lsys (Spinlock (lk_locked (lock s)) None) (cpus s))).

(** The [movl $0] to [lk->locked]. *)
Definition release_store (i : nat) (c : cpu) (s : lsys) : lsys :=
  set_cpu i c Left_ (Lsys (Spinlock false (lk_cpu (lock s))) (cpus s)).

Definition release_pop (i : nat) (c : cpu) (s : lsys) : outcome lsys :=
  let! c := popcli c in Ok (set_cpu i c Outside s).

(** One step of CPU [i]. *)
Inductive lstep : lsys -> outcome lsys -> Prop :=
| ls_enter s i c : cpus s !! i = Some (c, Outside) -> lstep s (acquire_enter i c s)
| ls_xchg s i c : cpus s !! i = Some (c, Spinning) -> lstep s (Ok (acquire_xchg i c s))
| ls_record s i c : cpus s !! i = Some (c, Taken) -> lstep s (Ok (acquire_record i c s))
| ls_check s i c : cpus s !! i = Some (c, Inside) -> lstep s (release_check i c s)
| ls_store s i c : cpus s !! i = Some (c, Leaving) -> lstep s (Ok (release_store i c s))
| ls_pop s i c : cpus s !! i = Some (c, Left_) -> lstep s (release_pop i c s).

(** The states reached from a free lock with every CPU outside. *)
Inductive lreach : lsys -> Prop :=
| lr_init cs : Forall (fun x => cpu_wf x.1 /\ x.2 = Outside) cs -> lreach (Lsys initlock cs)
| lr_step s s' : lreach s -> lstep s (Ok s') -> lreach s'.

(** The CPU owns the lock word. *)
Definition owner (w : where_) : bool :=
  match w with Taken | Inside | Leaving => true | _ => false end.

Definition cpu_inv (i : nat) (lk : spinlock) (c : cpu) (w : where_) : Prop :=
  cpu_wf c
  /\ (w <> Outside -> 0 < ncli c)
  /\ (owner w = true -> lk_locked lk = true)
  /\ (w = Inside <-> lk_cpu lk = Some i).

Record lsys_inv (s : lsys) : Prop := {
  li_cpu i c w : cpus s !! i = Some (c, w) -> cpu_inv i (lock s) c w;
  li_one i j ci wi cj wj : cpus s !! i = Some (ci, wi) -> cpus s !! j = Some (cj, wj) ->
    owner wi = true -> owner wj = true -> i = j;
  li_rec i : lk_cpu (lock s) = Some i -> exists c, cpus s !! i = Some (c, Inside)
}.

(** [holding] leaves the nesting depth as it was. *)
Lemma holding_spec lk i c :
  cpu_wf c -> holding lk i c = Ok (lk_locked lk && bool_decide (lk_cpu lk = Some i),
    if ncli c =? 0 then Cpu 0 (IF c) (IF c) else c).
Proof.
  intros [H1 H2]. unfold holding, popcli, pushcli. destruct c as [n ie f]. cbn in *.
  destruct (Z.eqb_spec n 0) as [->|Hn]; cbn.
  - by destruct f.
  - destruct (Z.ltb_spec (n + 1 - 1) 0); [lia|]. destruct (Z.eqb_spec (n + 1 - 1) 0); [lia|]. cbn.
    rewrite H2 by lia. do 3 f_equal. lia.
Qed.

Lemma lsys_inv_update s i c w lk' c' w' :
  lsys_inv s -> cpus s !! i = Some (c, w) -> cpu_inv i lk' c' w' ->
  (forall j cj wj, j <> i -> cpus s !! j = Some (cj, wj) -> cpu_inv j lk' cj wj) ->
  (owner w' = true -> forall j cj wj, j <> i -> cpus s !! j = Some (cj, wj) -> owner wj = false) ->
  (forall j, lk_cpu lk' = Some j -> (j = i /\ w' = Inside) \/ (j <> i /\ lk_cpu (lock s) = Some j)) ->
  lsys_inv (Lsys lk' (<[i := (c', w')]> (cpus s))).
Proof.
  intros [H1 H2 H3] Hi Hc Ho Hx Hr. assert (i < length (cpus s))%nat as Hlt by (by eapply lookup_lt_Some).
  split; cbn.
  - intros j cj wj. destruct (decide (j = i)) as [->|Hne].
    + rewrite list_lookup_insert_eq by done. by intros [= <- <-].
    + rewrite list_lookup_insert_ne by done. by apply Ho.
  - intros j k cj wj ck wk Hj Hk Hoj Hok.
    destruct (decide (j = i)) as [->|Hji], (decide (k = i)) as [->|Hki]; [done| | |].
    + rewrite list_lookup_insert_eq in Hj by done. injection Hj as <- <-.
      rewrite list_lookup_insert_ne in Hk by done. by rewrite (Hx Hoj k ck wk) in Hok.
    + rewrite list_lookup_insert_eq in Hk by done. injection Hk as <- <-.
      rewrite list_lookup_insert_ne in Hj by done. by rewrite (Hx Hok j cj wj) in Hoj.
    + rewrite list_lookup_insert_ne in Hj by done. rewrite list_lookup_insert_ne in Hk by done. by eapply H2.
  - intros j Hj. destruct (Hr j Hj) as [[-> ->]|[Hne Hj']].
    + exists c'. by rewrite list_lookup_insert_eq.
    + rewrite list_lookup_insert_ne by done. by apply H3.
Qed.

Lemma cpu_inv_depth i lk c w : cpu_inv i lk c w -> w <> Outside ->
  (if ncli c =? 0 then Cpu 0 (IF c) (IF c) else c) = c.
Proof. intros (_ & H & _) Hw. destruct (Z.eqb_spec (ncli c) 0); [|done]. specialize (H Hw). lia. Qed.

Lemma not_inside i lk w w' :
  (w = Inside <-> lk_cpu lk = Some i) -> w <> Inside -> w' <> Inside -> (w' = Inside <-> lk_cpu lk = Some i).
Proof. tauto. Qed.

(** Solves the part of [cpu_inv] that a step does not touch. *)
Ltac cpu_part :=
  split; [done|]; split; [intros _; lia|]; split; [done|].

(** The checks of [acquire] and [release] pass and every step keeps the
    invariant. *)
Lemma lstep_inv s o : lsys_inv s -> lstep s o -> exists s', o = Ok s' /\ lsys_inv s'.
Proof.
  intros Hs Hst. pose proof Hs as [H1 H2 H3].
  assert (forall i c w, cpus s !! i = Some (c, w) -> w <> Inside -> forall j,
    lk_cpu (lock s) = Some j -> j <> i) as Hni.
  { intros i c w Hi Hw j Hj ->. destruct (H1 i c w Hi) as (_ & _ & _ & Hx). by apply Hw, Hx. }
  assert (forall i c w, cpus s !! i = Some (c, w) -> owner w = true -> forall j cj wj,
    j <> i -> cpus s !! j = Some (cj, wj) -> owner wj = false) as Hex.
  { intros i c w Hi Hw j cj wj Hne Hj. destruct (owner wj) eqn:E; [|done]. exfalso. by eapply Hne, (H2 j i). }
  destruct Hst as [s i c Hi|s i c Hi|s i c Hi|s i c Hi|s i c Hi|s i c Hi]; pose proof (H1 i c _ Hi) as (Hc & Hn & Hl & Hr); try specialize (Hn ltac:(done)).
  - unfold acquire_enter. destruct (pushcli_wf c Hc) as (Hpc & Hpn & Hpf).
    rewrite holding_spec by done. cbn [obind]. pose proof (proj1 Hc).
    destruct (Z.eqb_spec (ncli (pushcli c)) 0) as [E|_]; [lia|].
    rewrite bool_decide_false by (rewrite <- Hr; done). rewrite andb_false_r.
    eexists. split; [done|]. eapply (lsys_inv_update s); try done.
    + cpu_part. by eapply not_inside.
    + intros j cj wj _. apply H1.
    + intros j Hj. right. eauto.
  - eexists. split; [done|]. unfold acquire_xchg. destruct (lk_locked (lock s)) eqn:El.
    + eapply (lsys_inv_update s); try done.
      * intros j cj wj _. apply H1.
      * intros j Hj. right. eauto.
    + eapply (lsys_inv_update s); try done.
      * cpu_part. by eapply (not_inside i (lock s)).
      * intros j cj wj _ Hj. destruct (H1 j cj wj Hj) as (?&?&?&?). done.
      * intros _ j cj wj _ Hj. destruct (H1 j cj wj Hj) as (_ & _ & Ho & _).
        destruct (owner wj); [|done]. by rewrite Ho in El.
      * intros j Hj. right. eauto.
  - eexists. split; [done|]. eapply (lsys_inv_update s); try done.
    + intros j cj wj Hne Hj. destruct (H1 j cj wj Hj) as (?&?&?&Hx).
      split; [done|]. split; [done|]. split; [done|]. cbn. split; [|congruence].
      intros ->. by pose proof (Hex i c Taken Hi eq_refl j cj Inside Hne Hj).
    + intros _. by eapply Hex.
    + intros j [= <-]. by left.
  - unfold release_check. rewrite holding_spec by done. cbn [obind].
    rewrite (cpu_inv_depth i (lock s) c Inside) by (done || by apply H1).
    rewrite Hl by done. rewrite bool_decide_true by (by apply Hr). cbn.
    eexists. split; [done|]. eapply (lsys_inv_update s); try done.
    + intros j cj wj Hne Hj. destruct (H1 j cj wj Hj) as (?&?&?&Hx).
      split; [done|]. split; [done|]. split; [done|]. cbn. split; [|done].
      intros ->. by pose proof (Hex i c Inside Hi eq_refl j cj Inside Hne Hj).
    + intros _. by eapply Hex.
  - eexists. split; [done|]. eapply (lsys_inv_update s); try done.
    + cpu_part. by eapply (not_inside i (lock s)).
    + intros j cj wj Hne Hj. destruct (H1 j cj wj Hj) as (?&?&?&Hx).
      split; [done|]. split; [done|]. split; [|done].
      by rewrite (Hex i c Leaving Hi eq_refl j cj wj Hne Hj).
    + intros j Hj. right. eauto.
  - unfold release_pop, popcli. destruct Hc as [Hc0 Hc1]. rewrite Hc1 by done. cbn [ncli intena IF].
    destruct (Z.ltb_spec (ncli c - 1) 0); [lia|].
    assert (forall f, (0 < ncli c - 1 -> f = false) -> lsys_inv (set_cpu i (Cpu (ncli c - 1) (intena c) f) Outside s)) as HK.
    { intros f Hf. eapply (lsys_inv_update s); try done.
      - split; [split; [cbn; lia|done]|]. split; [done|]. split; [done|]. by eapply not_inside.
      - intros j cj wj _. apply H1.
      - intros j Hj. right. eauto. }
    destruct (Z.eqb_spec (ncli c - 1) 0), (intena c); cbn; eexists; (split; [done|]); apply HK; lia || done.
Qed.

Lemma lreach_inv s : lreach s -> lsys_inv s.
Proof.
  induction 1 as [cs Hcs|s s' Hr IH Hst].
  - rewrite Forall_lookup in Hcs. split; cbn.
    + intros i c w Hi. destruct (Hcs i _ Hi) as (Hc & Hw). cbn in *. subst w. by repeat split; try apply Hc.
    + intros i j ci wi cj wj Hi Hj. destruct (Hcs i _ Hi) as (_ & Hw). cbn in Hw. by subst wi.
    + done.
  - destruct (lstep_inv s _ IH Hst) as (s'' & [= <-] & Hs). done.
Qed.

(** C28.  Mutual exclusion, for any number of CPUs and every interleaving of the
    memory operations of [acquire] and [release]: two CPUs are never both
    between the [xchg] that takes the lock and the store that frees it, the
    panics of [acquire] and [release] are not reached, and a CPU that holds
    the lock runs with interrupts off. *)
Theorem spinlock_mutex s :
  lreach s ->
  (forall i j ci wi cj wj, cpus s !! i = Some (ci, wi) -> cpus s !! j = Some (cj, wj) ->
     owner wi = true -> owner wj = true -> i = j)
  /\ (forall o, lstep s o -> exists s', o = Ok s')
  /\ (forall i c w, cpus s !! i = Some (c, w) -> owner w = true -> IF c = false).
Proof.
  intros Hr. pose proof (lreach_inv s Hr) as Hs. split; [apply Hs|]. split.
  - intros o Hst. destruct (lstep_inv s o Hs Hst) as (s' & -> & _). eauto.
  - intros i c w Hi Ho. destruct (li_cpu _ Hs i c w Hi) as ((_ & Hf) & Hn & _).
    apply Hf, Hn. by intros ->.
Qed.

(** A CPU that is past the [xchg] can run to the end of [release], after which
    the lock is free: the holder is never stuck. *)
Theorem spinlock_release s i c :
  lreach s -> cpus s !! i = Some (c, Inside) ->
  exists s1 s2 s3, lstep s (Ok s1) /\ lstep s1 (Ok s2) /\ lstep s2 (Ok s3)
    /\ lk_locked (lock s3) = false /\ exists c', cpus s3 !! i = Some (c', Outside) /\ ncli c' = ncli c - 1.
Proof.
  intros Hr Hi. pose proof (lreach_inv s Hr) as Hs. pose proof (li_cpu _ Hs i c _ Hi) as Hci.
  destruct (lstep_inv s _ Hs (ls_check s i c Hi)) as (s1 & E1 & _).
  pose proof (ls_check s i c Hi) as St1. rewrite E1 in St1. pose proof Hci as (Hc & Hn & Hl & Hx).
  unfold release_check in E1. rewrite holding_spec in E1 by done. cbn [obind] in E1.
  rewrite (cpu_inv_depth i (lock s) c Inside) in E1 by done.
  rewrite Hl, bool_decide_true in E1 by (done || by apply Hx). injection E1 as <-.
  set (s1 := set_cpu _ _ _ _) in *. assert (i < length (cpus s))%nat as Hlt by (by eapply lookup_lt_Some).
  assert (cpus s1 !! i = Some (c, Leaving)) as Hi1 by (apply list_lookup_insert_eq; done).
  pose proof (ls_store s1 i c Hi1) as St2. set (s2 := release_store i c s1) in *.
  assert (cpus s2 !! i = Some (c, Left_)) as Hi2.
  { apply list_lookup_insert_eq. cbn. by rewrite length_insert. }
  pose proof (ls_pop s2 i c Hi2) as St3. specialize (Hn ltac:(done)). destruct Hc as [_ Hf].
  assert (exists c', popcli c = Ok c' /\ ncli c' = ncli c - 1) as (c' & Ep & En).
  { unfold popcli. rewrite Hf by done. cbn. destruct (Z.ltb_spec (ncli c - 1) 0); [lia|].
    destruct (_ && _); eexists; by split. }
  unfold release_pop in St3. rewrite Ep in St3. cbn [obind] in St3.
  exists s1, s2, (set_cpu i c' Outside s2). split; [done|]. split; [done|]. split; [done|]. split; [done|].
  exists c'. split; [|done]. apply list_lookup_insert_eq. cbn. by rewrite !length_insert.
Qed.

(** [popcli] undoes [pushcli], nested to any depth: [n] pushes and [n] pops
    give back the depth and the interrupt flag. *)
Theorem cli_nesting n c :
  cpu_wf c -> exists c', pops n (pushes n c) = Ok c' /\ ncli c' = ncli c /\ IF c' = IF c.
Proof.
  intros Hc. destruct n as [|n]; [by exists c|]. cbn [pushes].
  destruct (pushcli_wf c Hc) as (Hp & Hn & Hf). destruct Hc as [Hc0 Hc1].
  rewrite pushes_nested by (done || lia).
  replace (S n) with (n + 1)%nat by lia.
  assert (forall k d, pops (k + 1) d = let! d := pops k d in popcli d) as Happ.
  { induction k as [|k IH]; intros d; cbn [Nat.add pops obind].
    - destruct (popcli d); done.
    - destruct (popcli d); cbn [obind]; [apply IH|done|done]. }
  rewrite Happ, pops_nested by lia. cbn [obind]. unfold popcli. cbn [IF ncli intena]. rewrite Hn.
  replace (ncli c + 1 - 1) with (ncli c) by lia. destruct (Z.ltb_spec (ncli c) 0); [lia|].
  unfold pushcli. cbn. destruct (Z.eqb_spec (ncli c) 0) as [E|E]; cbn.
  - destruct (IF c); eexists; (split; [done|]); done.
  - eexists. split; [done|]. cbn. split; [done|]. by rewrite Hc1 by lia.
Qed.

Definition two_cpus : lsys := Lsys initlock [(Cpu 0 false true, Outside); (Cpu 0 false true, Outside)].

(** CPU 0 inside the critical section, CPU 1 spinning. *)
Definition contended : lsys :=
  Lsys (Spinlock true (Some 0%nat)) [(Cpu 1 true false, Inside); (Cpu 1 true false, Spinning)].

Lemma contended_reach : lreach contended.
Proof.
  set (s1 := Lsys (Spinlock false None) [(Cpu 1 true false, Spinning); (Cpu 0 false true, Outside)]).
  set (s2 := Lsys (Spinlock true None) [(Cpu 1 true false, Taken); (Cpu 0 false true, Outside)]).
  set (s3 := Lsys (Spinlock true (Some 0%nat)) [(Cpu 1 true false, Inside); (Cpu 0 false true, Outside)]).
  apply (lr_step s3 _); [|exact (ls_enter s3 1%nat (Cpu 0 false true) eq_refl)].
  apply (lr_step s2 _); [|exact (ls_record s2 0%nat (Cpu 1 true false) eq_refl)].
  apply (lr_step s1 _); [|exact (ls_xchg s1 0%nat (Cpu 1 true false) eq_refl)].
  apply (lr_step two_cpus _); [|exact (ls_enter two_cpus 0%nat (Cpu 0 false true) eq_refl)].
  apply lr_init. repeat (apply Forall_cons; split; [by repeat split|]). constructor.
Qed.

Lemma spinlock_mutex_witness : exists s', release_check 0 (Cpu 1 true false) contended = Ok s'.
Proof. apply (spinlock_mutex contended contended_reach). apply ls_check. reflexivity. Defined.

Lemma spinlock_release_witness : exists s1, lstep contended (Ok s1).
Proof.
  destruct (spinlock_release contended 0%nat (Cpu 1 true false) contended_reach eq_refl) as (s1 & _ & _ & H & _).
  exists s1. exact H.
Defined.

Lemma cli_nesting_witness : exists c', pops 3 (pushes 3 (Cpu 0 false true)) = Ok c' /\ IF c' = true.
Proof.
  destruct (cli_nesting 3 (Cpu 0 false true)) as (c' & E & _ & Hf); [by split|].
  exists c'. split; [exact E|exact Hf].
Defined.

(** * Sleep locks *)

(** A sleep lock and the processes asleep on it; a call runs under [lk->lk]
    from one [sleep] to the next. *)
Record sleeplock := Sleeplock { sl_locked : bool; sl_pid : Z }.

Definition initsleeplock : sleeplock := Sleeplock false 0.

(** The lock when [acquiresleep] returns, or [None] when it sleeps. *)
Definition acquiresleep (pid : Z) (lk : sleeplock) : option sleeplock :=
  if sl_locked lk then None else Some (Sleeplock true pid).

Definition releasesleep (lk : sleeplock) : sleeplock := Sleeplock false 0.

Definition holdingsleep (pid : Z) (lk : sleeplock) : bool := sl_locked lk && (sl_pid lk =? pid).

(** Processes asleep in [acquiresleep], runnable in it, and holding. *)
Record ssys := Ssys { slk : sleeplock; sl_asleep : list Z; sl_trying : list Z; sl_holders : list Z }.

Definition try_acquire (pid : Z) (s : ssys) : ssys :=
  match acquiresleep pid (slk s) with
  | Some lk => Ssys lk (sl_asleep s) (sl_trying s) (pid :: sl_holders s)
  | None => Ssys (slk s) (pid :: sl_asleep s) (sl_trying s) (sl_holders s)
  end.

Inductive sstep : ssys -> ssys -> Prop :=
| ss_start s pid : sstep s (try_acquire pid s)
| ss_retry s t1 t2 pid : sl_trying s = t1 ++ pid :: t2 ->
    sstep s (try_acquire pid (Ssys (slk s) (sl_asleep s) (t1 ++ t2) (sl_holders s)))
| ss_release s pid hs : sl_holders s = pid :: hs ->
    sstep s (Ssys (releasesleep (slk s)) [] (sl_trying s ++ sl_asleep s) hs).

Definition ssys_inv (s : ssys) : Prop :=
  (sl_holders s = [] /\ sl_locked (slk s) = false /\ sl_asleep s = [])
  \/ (exists pid, sl_holders s = [pid] /\ slk s = Sleeplock true pid).

Lemma try_acquire_inv pid s : ssys_inv s -> ssys_inv (try_acquire pid s).
Proof.
  intros [(Hh & Hl & Ha)|(p & Hh & Hl)]; unfold try_acquire, acquiresleep; rewrite Hl; cbn.
  - right. exists pid. by rewrite Hh.
  - right. exists p. done.
Qed.

(** A sleep lock has at most one holder, which is the process [holdingsleep]
    recognises, and no process stays asleep on a free lock. *)
Theorem sleeplock_exclusive s :
  rtc sstep (Ssys initsleeplock [] [] []) s ->
  (length (sl_holders s) <= 1)%nat
  /\ (forall pid, pid ∈ sl_holders s <-> holdingsleep pid (slk s) = true)
  /\ (sl_locked (slk s) = false -> sl_asleep s = []).
Proof.
  intros Hr. assert (ssys_inv s) as Hi.
  { assert (ssys_inv (Ssys initsleeplock [] [] [])) as H0 by (left; done).
    induction Hr as [s|s1 s2 s3 Hst Hr IH]; [done|]. apply IH. destruct Hst as [s pid|s t1 t2 pid E|s pid hs E].
    - by apply try_acquire_inv.
    - by apply try_acquire_inv.
    - left. cbn. destruct H0 as [(Hh & _)|(p & Hh & _)]; rewrite Hh in E; [done|]. by injection E as _ <-. }
  destruct Hi as [(-> & Hl & Ha)|(p & -> & Hl)]; (split; [cbn; lia|]); split.
  - intros pid. unfold holdingsleep. rewrite Hl. cbn. split; [by intros ?%not_elem_of_nil|done].
  - done.
  - intros pid. unfold holdingsleep. rewrite Hl, list_elem_of_singleton. cbn. rewrite Z.eqb_eq. naive_solver.
  - by rewrite Hl.
Qed.

Lemma sleeplock_exclusive_witness :
  holdingsleep 4 (slk (try_acquire 5 (try_acquire 4 (Ssys initsleeplock [] [] [])))) = true.
Proof.
  apply (sleeplock_exclusive (try_acquire 5 (try_acquire 4 (Ssys initsleeplock [] [] [])))); [|by left].
  eapply rtc_l; [apply ss_start|]. eapply rtc_l; [apply ss_start|]. apply rtc_refl.
Defined.
