(* ===== verification/Pipe.v ===== *)
(** pipe.c: the ring buffer of a pipe.  A system call runs under [p->lock]
    from one [sleep] to the next, so a run up to a [sleep] or a return is one
    step; [wakeup] calls are recorded in the order they are made.  The bytes a
    writer passes and a reader receives are lists, [myproc()->killed] is an
    argument of the run. *)
From S2P Require Import Prelude.

Definition PIPESIZE : Z := 512.

Record pipe := Pipe {
  pdata : list Z;
  nread : Z;
  nwrite : Z;
  readopen : bool;
  writeopen : bool
}.

(** The sleep channels [&p->nread] and [&p->nwrite]. *)
Inductive chan := NREAD | NWRITE.

#[export] Instance chan_eq_dec : EqDecision chan.
Proof. solve_decision. Defined.

(** A run ends asleep on a channel, with the position of the loop and the
    wakeups so far, or with a return value. *)
Inductive run (A : Type) :=
| Slept (c : chan) (woken : list chan) (at_ : Z) (p : pipe)
| Returned (r : A) (woken : list chan) (p : pipe).
Arguments Slept {A}.
Arguments Returned {A}.

Definition push_byte (b : Z) (p : pipe) : pipe :=
  Pipe (<[Z.to_nat (nwrite p mod PIPESIZE) := b]> (pdata p)) (nread p) (u32 (nwrite p + 1))
       (readopen p) (writeopen p).

Definition full (p : pipe) : bool := nwrite p =? u32 (nread p + PIPESIZE).

(** The fields [pipealloc] sets; the ring itself is whatever the page held. *)
Definition pipe_init (ring : list Z) : pipe := Pipe ring 0 0 true true.

(** The loop of [pipewrite] from index [i], with [bytes] still to write. *)
Fixpoint pipewrite_loop (killed : bool) (bytes : list Z) (i : Z) (p : pipe) : run Z :=
  match bytes with
  | [] => Returned i [NREAD] p
  | b :: bytes' =>
      if full p then
        if negb (readopen p) || killed then Returned (-1) [] p
        else Slept NWRITE [NREAD] i p
      else pipewrite_loop killed bytes' (i + 1) (push_byte b p)
  end.

Definition pipewrite (killed : bool) (addr : list Z) (p : pipe) : run Z :=
  pipewrite_loop killed addr 0 p.

Definition pop_byte (p : pipe) : option (Z * pipe) :=
  match pdata p !! Z.to_nat (nread p mod PIPESIZE) with
  | Some b => Some (b, Pipe (pdata p) (u32 (nread p + 1)) (nwrite p) (readopen p) (writeopen p))
  | None => None
  end.

(** The copy loop of [piperead]: [n] bytes still wanted. *)
Fixpoint piperead_copy (n : nat) (p : pipe) : list Z * pipe :=
  match n with
  | O => ([], p)
  | S k =>
      if nread p =? nwrite p then ([], p)
      else
        match pop_byte p with
        | None => ([], p)
        | Some (b, p) => let '(bs, p) := piperead_copy k p in (b :: bs, p)
        end
  end.

(** The result is [None] for -1, or the bytes copied. *)
Definition piperead (killed : bool) (n : Z) (p : pipe) : run (option (list Z)) :=
  if (nread p =? nwrite p) && writeopen p then
    if killed then Returned None [] p else Slept NREAD [] 0 p
  else
    let '(bs, p) := piperead_copy (Z.to_nat n) p in
    Returned (Some bs) [NWRITE] p.

(** The pipe after closing one end, the wakeup, and whether the page is freed. *)
Definition pipeclose (writable : bool) (p : pipe) : pipe * chan * bool :=
  let p' := if writable then Pipe (pdata p) (nread p) (nwrite p) (readopen p) false
            else Pipe (pdata p) (nread p) (nwrite p) false (writeopen p) in
  (p', if writable then NREAD else NWRITE, negb (readopen p') && negb (writeopen p')).

(** * The pipe as a bounded queue *)

(** Byte [k] of the queue, oldest first. *)
Definition ring_at (p : pipe) (k : nat) : Z :=
  default 0 (pdata p !! Z.to_nat ((nread p + Z.of_nat k) mod PIPESIZE)).

Definition count (p : pipe) : Z := u32 (nwrite p - nread p).

Definition contents (p : pipe) : list Z := ring_at p <$> seq 0 (Z.to_nat (count p)).

Record pipe_wf (p : pipe) : Prop := {
  pw_len : length (pdata p) = 512%nat;
  pw_nread : is_u32 (nread p);
  pw_nwrite : is_u32 (nwrite p);
  pw_count : count p <= PIPESIZE
}.

Lemma count_pos p : 0 <= count p.
Proof. unfold count. pose proof (u32_range (nwrite p - nread p)). unfold is_u32 in *. lia. Qed.

Lemma length_contents p : Z.of_nat (length (contents p)) = count p.
Proof. unfold contents. rewrite length_fmap, length_seq. pose proof (count_pos p). lia. Qed.

Lemma full_count p : pipe_wf p -> full p = true <-> count p = PIPESIZE.
Proof.
  intros [_ Hr Hw _]. unfold full, count, PIPESIZE. rewrite Z.eqb_eq. zlia.
Qed.

Lemma empty_count p : pipe_wf p -> nread p = nwrite p <-> count p = 0.
Proof. intros [_ Hr Hw _]. unfold count. zlia. Qed.

Lemma ring_slots n k j :
  0 <= k < 512 -> 0 <= j < 512 -> (n + k) mod 512 = (n + j) mod 512 -> k = j.
Proof. intros. zlia. Qed.

Lemma push_byte_spec b p :
  pipe_wf p -> full p = false ->
  pipe_wf (push_byte b p) /\ contents (push_byte b p) = contents p ++ [b].
Proof.
  intros Hw Hf. pose proof Hw as [Hl Hr Hn Hc].
  assert (count p < 512) as Hlt.
  { destruct (Z.eq_dec (count p) PIPESIZE) as [E|]; [|unfold PIPESIZE in *; lia].
    apply full_count in E; [|done]. congruence. }
  pose proof (count_pos p) as H0.
  assert (count (push_byte b p) = count p + 1) as Hcp by (unfold count, push_byte in *; cbn; zlia).
  assert (nwrite p mod 512 = (nread p + count p) mod 512) as Hidx by (unfold count in *; zlia).
  split.
  - split; cbn; [by rewrite length_insert|done|apply u32_range|]. unfold PIPESIZE. lia.
  - unfold contents. rewrite Hcp. rewrite Z2Nat.inj_add by lia. change (Z.to_nat 1) with 1%nat.
    rewrite Nat.add_1_r, seq_S, fmap_app. cbn [Nat.add]. f_equal.
    + apply list_fmap_ext. intros i k [-> Hi]%lookup_seq. unfold ring_at, push_byte. cbn. unfold PIPESIZE.
      rewrite list_lookup_insert_ne; [done|]. rewrite Hidx. intros E.
      apply Z2Nat.inj in E; [|apply Z.mod_pos_bound; lia|apply Z.mod_pos_bound; lia].
      apply ring_slots in E; lia.
    + cbn. f_equal. unfold ring_at, push_byte. cbn. unfold PIPESIZE. rewrite Z2Nat.id, Hidx by lia.
      rewrite list_lookup_insert_eq; [done|]. rewrite Hl. pose proof (Z.mod_pos_bound (nread p + count p) 512). lia.
Qed.

Lemma pop_byte_spec p :
  pipe_wf p -> nread p <> nwrite p ->
  exists b p', pop_byte p = Some (b, p') /\ pipe_wf p' /\ contents p = b :: contents p'
    /\ readopen p' = readopen p /\ writeopen p' = writeopen p.
Proof.
  intros Hw Hne. pose proof Hw as [Hl Hr Hn Hc]. pose proof (count_pos p) as H0.
  assert (count p <> 0) as Hcz by (intros E; apply empty_count in E; done).
  pose proof (Z.mod_pos_bound (nread p) 512 ltac:(lia)) as Hb.
  destruct (lookup_lt_is_Some_2 (pdata p) (Z.to_nat (nread p mod 512))) as [b Eb]; [lia|].
  unfold pop_byte, PIPESIZE. rewrite Eb. eexists b, _. split; [done|].
  set (p' := Pipe _ _ _ _ _).
  assert (count p' = count p - 1) as Hcp by (unfold count, p' in *; cbn in *; zlia).
  split; [split; cbn; [done|apply u32_range|done|unfold PIPESIZE in *; lia]|]. split; [|done].
  unfold contents. rewrite Hcp. replace (Z.to_nat (count p)) with (S (Z.to_nat (count p - 1))) by lia.
  cbn [seq]. rewrite fmap_cons. f_equal.
  - unfold ring_at, PIPESIZE. rewrite Z.add_0_r, Eb. done.
  - rewrite <- (fmap_S_seq 0), <- list_fmap_compose. apply list_fmap_ext. intros i k [-> Hi]%lookup_seq.
    unfold ring_at, compose, p'. cbn [pdata nread]. unfold PIPESIZE. do 3 f_equal. zlia.
Qed.

(** What one run of [pipewrite] from index [i] does. *)
Lemma pipewrite_loop_spec killed bytes : forall i p,
  pipe_wf p ->
  match pipewrite_loop killed bytes i p with
  | Returned r woken p' =>
      pipe_wf p' /\ readopen p' = readopen p /\ writeopen p' = writeopen p /\
      ((r = i + Z.of_nat (length bytes) /\ contents p' = contents p ++ bytes /\ woken = [NREAD])
       \/ (r = -1 /\ woken = [] /\ (readopen p = false \/ killed = true) /\ count p' = PIPESIZE
           /\ exists k, (k < length bytes)%nat /\ contents p' = contents p ++ take k bytes))
  | Slept c woken j p' =>
      pipe_wf p' /\ readopen p' = readopen p /\ writeopen p' = writeopen p /\
      c = NWRITE /\ woken = [NREAD] /\ readopen p = true /\ count p' = PIPESIZE
      /\ exists k, (k < length bytes)%nat /\ j = i + Z.of_nat k /\ contents p' = contents p ++ take k bytes
  end.
Proof.
  induction bytes as [|b bytes IH]; intros i p Hw; cbn [pipewrite_loop].
  - split; [done|]. split; [done|]. split; [done|]. left. rewrite app_nil_r. cbn. split; [lia|done].
  - destruct (full p) eqn:Ef.
    + pose proof (proj1 (full_count p Hw) Ef) as Hc.
      destruct (readopen p) eqn:Er, killed; cbn [negb orb].
      all: split; [done|]; split; [done|]; split; [done|].
      2: split; [done|]; split; [done|]; split; [done|]; split; [done|].
      2: exists 0%nat; cbn; rewrite app_nil_r; split; [lia|]; split; [lia|done].
      all: right; split; [done|]; split; [done|]; split; [tauto|]; split; [done|];
        exists 0%nat; cbn; rewrite app_nil_r; split; [lia|done].
    + destruct (push_byte_spec b p Hw Ef) as [Hw1 Hc1].
      specialize (IH (i + 1) (push_byte b p) Hw1).
      destruct (pipewrite_loop killed bytes (i + 1) (push_byte b p)) as [c woken j p'|r woken p'];
        rewrite Hc1 in IH; cbn [readopen writeopen push_byte] in IH; destruct IH as (Hw' & Ho & Hwo & IH).
      all: split; [done|]; split; [done|]; split; [done|].
      * destruct IH as (-> & -> & Hr & Hfull & k & Hk & -> & Hc).
        split; [done|]. split; [done|]. split; [done|]. split; [done|].
        exists (S k). cbn [length take]. split; [lia|]. split; [lia|]. by rewrite Hc, <- app_assoc.
      * destruct IH as [(-> & Hc & ->)|(-> & -> & Hr & Hfull & k & Hk & Hc)]; [left|right].
        -- cbn [length]. split; [lia|]. split; [by rewrite Hc, <- app_assoc|done].
        -- split; [done|]. split; [done|]. split; [done|]. split; [done|].
           exists (S k). cbn [length take]. split; [lia|]. by rewrite Hc, <- app_assoc.
Qed.

Lemma piperead_copy_spec n : forall p,
  pipe_wf p ->
  let '(bs, p') := piperead_copy n p in
  pipe_wf p' /\ readopen p' = readopen p /\ writeopen p' = writeopen p
  /\ contents p = bs ++ contents p' /\ length bs = Nat.min n (length (contents p)).
Proof.
  induction n as [|n IH]; intros p Hw; cbn [piperead_copy]; [done|].
  destruct (Z.eqb_spec (nread p) (nwrite p)) as [E|Hne].
  - split; [done|]. split; [done|]. split; [done|]. split; [done|].
    assert (count p = 0) as Hz by (by apply empty_count). pose proof (length_contents p).
    by assert (length (contents p) = 0%nat) as -> by lia.
  - destruct (pop_byte_spec p Hw Hne) as (b & p1 & -> & Hw1 & Hc & Hr & Hwo).
    specialize (IH p1 Hw1). destruct (piperead_copy n p1) as [bs p'].
    destruct IH as (Hw' & Hr' & Hwo' & Hc' & Hl). split; [done|]. split; [congruence|]. split; [congruence|].
    rewrite Hc, Hc'. split; [done|]. cbn [length]. rewrite Hl, Hc'. lia.
Qed.

(** * Any number of readers and writers *)

(** A call of [pipewrite]: the bytes it was given, the index its loop has come
    to, and whether it is running, asleep, or has returned [r]. *)
Inductive wstate := Wruns | Wsleeps | Wdone (r : Z).
Record wcall := Wcall { w_addr : list Z; w_at : Z; w_st : wstate }.

(** The pipe with the calls of [pipewrite] made so far, the calls of [piperead] in
    progress (the count they asked for), asleep or runnable; the bytes accepted from
    the calls, each with the number of its call; and the bytes delivered. *)
Record psys := Psys {
  ps_pipe : pipe;
  wcalls : list wcall;
  rsleep : list Z;
  rrun : list Z;
  written : list (nat * Z);
  delivered : list Z
}.

Definition wake_call (c : wcall) : wcall :=
  match w_st c with Wsleeps => Wcall (w_addr c) (w_at c) Wruns | _ => c end.

(** [wakeup]: every process asleep on the channel becomes runnable. *)
Definition wake1 (c : chan) (s : psys) : psys :=
  match c with
  | NREAD => Psys (ps_pipe s) (wcalls s) [] (rrun s ++ rsleep s) (written s) (delivered s)
  | NWRITE => Psys (ps_pipe s) (wake_call <$> wcalls s) (rsleep s) (rrun s) (written s) (delivered s)
  end.

Definition wake (cs : list chan) (s : psys) : psys := foldl (fun s c => wake1 c s) s cs.

Definition set_pipe (p : pipe) (s : psys) : psys := Psys p (wcalls s) (rsleep s) (rrun s) (written s) (delivered s).
Definition set_call (id : nat) (c : wcall) (s : psys) : psys :=
  Psys (ps_pipe s) (<[id := c]> (wcalls s)) (rsleep s) (rrun s) (written s) (delivered s).
Definition add_written (l : list (nat * Z)) (s : psys) : psys :=
  Psys (ps_pipe s) (wcalls s) (rsleep s) (rrun s) (written s ++ l) (delivered s).

(** What call [id], with [bytes] still to write, got rid of while the ring went
    from [p] to [p']: as many of its bytes as the ring has grown by. *)
Definition accepted (id : nat) (bytes : list Z) (p p' : pipe) : list (nat * Z) :=
  (fun b => (id, b)) <$> take (Z.to_nat (count p' - count p)) bytes.

(** Call [id] runs until it sleeps or returns. *)
Definition write_run (killed : bool) (id : nat) (s : psys) : psys :=
  match wcalls s !! id with
  | None => s
  | Some c =>
      let bytes := drop (Z.to_nat (w_at c)) (w_addr c) in
      match pipewrite_loop killed bytes (w_at c) (ps_pipe s) with
      | Slept _ woken j p =>
          wake woken (set_call id (Wcall (w_addr c) j Wsleeps) (add_written (accepted id bytes (ps_pipe s) p) (set_pipe p s)))
      | Returned r woken p =>
          wake woken (set_call id (Wcall (w_addr c) (w_at c) (Wdone r)) (add_written (accepted id bytes (ps_pipe s) p) (set_pipe p s)))
      end
  end.

Definition read_run (killed : bool) (n : Z) (s : psys) : psys :=
  match piperead killed n (ps_pipe s) with
  | Slept _ woken _ p =>
      let s := wake woken (set_pipe p s) in
      Psys (ps_pipe s) (wcalls s) (n :: rsleep s) (rrun s) (written s) (delivered s)
  | Returned bs woken p =>
      wake woken (set_pipe p (Psys (ps_pipe s) (wcalls s) (rsleep s) (rrun s) (written s) (delivered s ++ default [] bs)))
  end.

(** [lethal] says whether a writer may find itself killed.  A process inside a
    call holds a reference to its end of the pipe, so [fileclose] closes an end
    only when no process is inside a call on it. *)
Inductive pstep (lethal : bool) : psys -> psys -> Prop :=
| step_write_call s addr :
    writeopen (ps_pipe s) = true ->
    pstep lethal s (Psys (ps_pipe s) (wcalls s ++ [Wcall addr 0 Wruns]) (rsleep s) (rrun s) (written s) (delivered s))
| step_write_run s killed id c :
    wcalls s !! id = Some c -> w_st c = Wruns -> (killed = true -> lethal = true) ->
    pstep lethal s (write_run killed id s)
| step_read s killed n :
    readopen (ps_pipe s) = true -> pstep lethal s (read_run killed n s)
| step_read_resume s killed r1 r2 n :
    rrun s = r1 ++ n :: r2 ->
    pstep lethal s (read_run killed n (Psys (ps_pipe s) (wcalls s) (rsleep s) (r1 ++ r2) (written s) (delivered s)))
| step_close_write s p c freed :
    Forall (fun c => exists r, w_st c = Wdone r) (wcalls s) ->
    pipeclose true (ps_pipe s) = (p, c, freed) -> pstep lethal s (wake1 c (set_pipe p s))
| step_close_read s p c freed :
    rsleep s = [] -> rrun s = [] ->
    pipeclose false (ps_pipe s) = (p, c, freed) -> pstep lethal s (wake1 c (set_pipe p s)).

Definition psys_init (ring : list Z) : psys := Psys (pipe_init ring) [] [] [] [] [].

(** The bytes accepted from call [id], in order. *)
Definition sent_by (w : list (nat * Z)) (id : nat) : list Z := (filter (fun x => x.1 = id) w).*2.

(** A call that is at index [i] has got rid of its first [i] bytes; one that
    returned its length of all; one that returned -1 of some. *)
Definition call_ok (sent : list Z) (c : wcall) : Prop :=
  match w_st c with
  | Wdone r => (r = Z.of_nat (length (w_addr c)) /\ sent = w_addr c)
               \/ (r = -1 /\ exists k, (k < length (w_addr c))%nat /\ sent = take k (w_addr c))
  | _ => 0 <= w_at c <= Z.of_nat (length (w_addr c)) /\ sent = take (Z.to_nat (w_at c)) (w_addr c)
  end.

(** What was delivered and what the ring holds is what was accepted, in order;
    each call is as far as it says; a closed read end has no process inside
    [piperead]. *)
Record psys_inv (s : psys) : Prop := {
  pi_wf : pipe_wf (ps_pipe s);
  pi_fifo : (written s).*2 = delivered s ++ contents (ps_pipe s);
  pi_calls id c : wcalls s !! id = Some c -> call_ok (sent_by (written s) id) c;
  pi_tags : Forall (fun x => (x.1 < length (wcalls s))%nat) (written s);
  pi_closed : readopen (ps_pipe s) = false -> rsleep s = [] /\ rrun s = []
}.

Definition sleeping_writer (s : psys) : Prop := exists id c, wcalls s !! id = Some c /\ w_st c = Wsleeps.

(** A sleeping reader faces an empty ring with the write end open, a sleeping
    writer a full ring with the read end open. *)
Record psys_awake (s : psys) : Prop := {
  pi_reader : rsleep s <> [] -> contents (ps_pipe s) = [] /\ writeopen (ps_pipe s) = true;
  pi_writer : sleeping_writer s -> count (ps_pipe s) = PIPESIZE /\ readopen (ps_pipe s) = true
}.

Lemma pipe_init_wf ring : length ring = 512%nat -> pipe_wf (pipe_init ring) /\ contents (pipe_init ring) = [].
Proof. intros H. split; [by split|done]. Qed.

Lemma psys_init_inv ring : length ring = 512%nat -> psys_inv (psys_init ring).
Proof. intros Hl. destruct (pipe_init_wf ring Hl). split; cbn; try done. Qed.

(** ** The log of the accepted bytes *)

Lemma accepted_eq id bytes p p' k : contents p' = contents p ++ take k bytes -> (k <= length bytes)%nat ->
  accepted id bytes p p' = (fun b => (id, b)) <$> take k bytes.
Proof.
  intros Hc Hk. unfold accepted. do 2 f_equal. rewrite <- !length_contents, Hc, length_app, length_take. lia.
Qed.

Lemma sent_app w id l j : sent_by (w ++ ((fun b => (id, b)) <$> l)) j = sent_by w j ++ (if decide (id = j) then l else []).
Proof.
  unfold sent_by. rewrite filter_app, fmap_app. f_equal. induction l as [|b l IH]; [by case_decide|].
  rewrite fmap_cons, filter_cons. cbn [fst]. case_decide; cbn; by rewrite IH.
Qed.

Lemma sent_fresh w n id : Forall (fun x => (x.1 < n)%nat) w -> (n <= id)%nat -> sent_by w id = [].
Proof.
  intros Hw Hn. unfold sent_by. induction Hw as [|[j b] w Hj _ IH]; [done|]. cbn [fst] in Hj. rewrite filter_cons. cbn [fst].
  by rewrite decide_False by lia.
Qed.

Lemma tagged_snd (id : nat) (l : list Z) : ((fun b => (id, b)) <$> l).*2 = l.
Proof. rewrite <- list_fmap_compose. by apply list_fmap_id. Qed.

Lemma wake_call_ok l c : call_ok l (wake_call c) <-> call_ok l c.
Proof. unfold call_ok, wake_call. by destruct c as [a i []]. Qed.

(** A run of call [id] that moved [k] bytes and left the call as [c']. *)
Lemma run_inv s id c p' k c' :
  psys_inv s -> wcalls s !! id = Some c -> w_st c = Wruns -> pipe_wf p' -> readopen p' = readopen (ps_pipe s) ->
  (Z.to_nat (w_at c) + k <= length (w_addr c))%nat ->
  contents p' = contents (ps_pipe s) ++ take k (drop (Z.to_nat (w_at c)) (w_addr c)) ->
  call_ok (take (Z.to_nat (w_at c) + k) (w_addr c)) c' ->
  psys_inv (set_call id c' (add_written (accepted id (drop (Z.to_nat (w_at c)) (w_addr c)) (ps_pipe s) p') (set_pipe p' s))).
Proof.
  intros [Hw Hf Hc Ht Hcl] Hid Hst Hw' Hro Hk Hcont Hok. rewrite (accepted_eq _ _ _ _ k Hcont) by (rewrite length_drop; lia).
  split; cbn [ps_pipe wcalls rsleep rrun written delivered set_call add_written set_pipe]; [done| | | |by rewrite Hro].
  - by rewrite fmap_app, tagged_snd, Hf, Hcont, app_assoc.
  - intros j cj Hj. rewrite sent_app. destruct (decide (id = j)) as [<-|Hne].
    + rewrite list_lookup_insert_eq in Hj by (by eapply lookup_lt_Some). injection Hj as <-.
      specialize (Hc id c Hid). unfold call_ok in Hc. rewrite Hst in Hc. destruct Hc as [_ ->]. by rewrite take_take_drop.
    + rewrite list_lookup_insert_ne in Hj by done. rewrite app_nil_r. by apply Hc.
  - rewrite length_insert. apply Forall_app. split; [done|]. apply Forall_forall. intros x (b & -> & _)%list_elem_of_fmap. by eapply lookup_lt_Some.
Qed.

Lemma wake_readers_inv s : psys_inv s -> psys_inv (wake1 NREAD s).
Proof. intros [Hw Hf Hc Ht Hcl]. split; cbn; try done. intros Hro. by destruct (Hcl Hro) as [-> ->]. Qed.

Lemma wake_writers_inv s : psys_inv s -> psys_inv (wake1 NWRITE s).
Proof.
  intros [Hw Hf Hc Ht Hcl]. split; cbn; try done; [|by rewrite length_fmap].
  intros id c. rewrite list_lookup_fmap. destruct (wcalls s !! id) as [c0|] eqn:E; [|done]. intros [= <-]. apply wake_call_ok. by apply Hc.
Qed.

Lemma write_run_inv killed id c s : psys_inv s -> wcalls s !! id = Some c -> w_st c = Wruns -> psys_inv (write_run killed id s).
Proof.
  intros Hi Hid Hst. unfold write_run. rewrite Hid. set (bytes := drop (Z.to_nat (w_at c)) (w_addr c)).
  assert (0 <= w_at c <= Z.of_nat (length (w_addr c))) as Hat.
  { pose proof (pi_calls _ Hi id c Hid) as H. unfold call_ok in H. rewrite Hst in H. apply H. }
  assert (length bytes = length (w_addr c) - Z.to_nat (w_at c))%nat as Hlb by apply length_drop.
  pose proof (pipewrite_loop_spec killed bytes (w_at c) (ps_pipe s) (pi_wf _ Hi)) as H.
  destruct (pipewrite_loop killed bytes (w_at c) (ps_pipe s)) as [ch woken j p'|r woken p'].
  - destruct H as (Hw' & Ho & Hwo & -> & -> & Hop & Hfull & k & Hk & -> & Hc). apply wake_readers_inv.
    apply (run_inv s id c p' k); try done; [lia|]. unfold call_ok. cbn. split; [lia|]. f_equal. lia.
  - destruct H as (Hw' & Ho & Hwo & [(-> & Hc & ->)|(-> & -> & Hok & Hfull & k & Hk & Hc)]).
    + apply wake_readers_inv. apply (run_inv s id c p' (length bytes)); try done; [lia| |].
      * rewrite Hc. f_equal. symmetry. apply take_ge. lia.
      * unfold call_ok. cbn. left. split; [lia|]. apply take_ge. lia.
    + apply (run_inv s id c p' k); try done; [lia|]. unfold call_ok. cbn. right. split; [done|]. exists (Z.to_nat (w_at c) + k)%nat. split; [lia|done].
Qed.

Lemma read_run_inv killed n s :
  psys_inv s -> readopen (ps_pipe s) = true -> psys_inv (read_run killed n s).
Proof.
  intros [Hw Hf Hc Ht Hcl] Hro. unfold read_run, piperead.
  destruct (_ && _); [destruct killed|].
  - split; cbn; rewrite ?app_nil_r; try done; congruence.
  - split; cbn; try done; congruence.
  - pose proof (piperead_copy_spec (Z.to_nat n) (ps_pipe s) Hw) as H.
    destruct (piperead_copy _ _) as [bs p']. destruct H as (Hw' & Hr' & Hwo & Hcc & _).
    apply wake_writers_inv. split; cbn; try done; [by rewrite Hf, Hcc, app_assoc|congruence].
Qed.

Lemma resumable s r1 n r2 : psys_inv s -> rrun s = r1 ++ n :: r2 -> readopen (ps_pipe s) = true.
Proof.
  intros Hi E. destruct (readopen (ps_pipe s)) eqn:Ero; [done|]. destruct (pi_closed _ Hi Ero) as [_ Hn].
  rewrite Hn in E. by apply app_cons_not_nil in E.
Qed.

Lemma pstep_inv lethal s s' : pstep lethal s s' -> psys_inv s -> psys_inv s'.
Proof.
  intros Hst Hi. pose proof Hi as [Hw Hf Hc Ht Hcl]. destruct Hst as
    [s addr Hwo|s killed id c Hid Hr Hk|s killed n Hro|s killed r1 r2 n E|s p c freed E1 E|s p c freed E1 E2 E].
  - split; cbn [ps_pipe wcalls rsleep rrun written delivered]; try done.
    + intros id c Hid. apply lookup_app_Some in Hid as [Hid|[Hge Hid]]; [by apply Hc|]. apply list_lookup_singleton_Some in Hid as [Hz <-].
      rewrite (sent_fresh _ (length (wcalls s))) by (done || lia). unfold call_ok. cbn. split; [lia|done].
    + eapply Forall_impl; [exact Ht|]. cbn. intros x Hx. rewrite length_app. cbn. lia.
  - by eapply write_run_inv.
  - by apply read_run_inv.
  - pose proof (resumable _ _ _ _ Hi E) as Hro. apply read_run_inv; [|done]. split; cbn; try done. congruence.
  - injection E as <- <- <-. apply wake_readers_inv. destruct Hw. by split.
  - injection E as <- <- <-. apply wake_writers_inv. destruct Hw. by split.
Qed.

Lemma pipe_reachable_inv lethal ring s :
  length ring = 512%nat -> rtc (pstep lethal) (psys_init ring) s -> psys_inv s.
Proof.
  intros Hl Hr. pose proof (psys_init_inv ring Hl) as Hi. induction Hr as [s|s1 s2 s3 Hst Hr IH]; [done|]. by eapply IH, pstep_inv.
Qed.

(** ** Nobody sleeps for nothing *)

Lemma count_full_app p p' l :
  pipe_wf p' -> contents p' = contents p ++ l -> count p = PIPESIZE -> count p' = PIPESIZE.
Proof.
  intros Hw' Hc E. pose proof (length_contents p') as E1. pose proof (length_contents p) as E2.
  rewrite Hc, length_app in E1. pose proof (pw_count _ Hw'). unfold PIPESIZE in *. lia.
Qed.

Lemma done_sleeping id c l i r s s' : wcalls s !! id = Some c -> wcalls s' = <[id := Wcall l i (Wdone r)]> (wcalls s) ->
  sleeping_writer s' -> sleeping_writer s.
Proof.
  intros Hid E (j & cj & Hj & Hs). rewrite E in Hj. destruct (decide (id = j)) as [<-|Hne].
  - rewrite list_lookup_insert_eq in Hj by (by eapply lookup_lt_Some). by injection Hj as <-.
  - rewrite list_lookup_insert_ne in Hj by done. by exists j, cj.
Qed.

Lemma woken_writers s : ~ sleeping_writer (wake1 NWRITE s).
Proof.
  intros (j & cj & Hj & Hs). cbn in Hj. rewrite list_lookup_fmap in Hj. destruct (wcalls s !! j) as [[a i st]|]; [|done].
  injection Hj as <-. unfold wake_call in Hs. by destruct st.
Qed.

Lemma write_run_awake id c s :
  psys_inv s -> psys_awake s -> wcalls s !! id = Some c -> psys_awake (write_run false id s).
Proof.
  intros Hi [Hr Hs] Hid. unfold write_run. rewrite Hid. set (bytes := drop (Z.to_nat (w_at c)) (w_addr c)).
  pose proof (pipewrite_loop_spec false bytes (w_at c) (ps_pipe s) (pi_wf _ Hi)) as H.
  destruct (pipewrite_loop false bytes (w_at c) (ps_pipe s)) as [ch woken j p'|r woken p'].
  - destruct H as (Hw' & Ho & Hwo & -> & -> & Hop & Hfull & _).
    split; cbn; [done|intros _; split; congruence].
  - destruct H as (Hw' & Ho & Hwo & [(-> & Hc & ->)|(-> & -> & [Hro|?] & Hfull & k & Hk & Hc)]); [| |done].
    + split; [done|]. intros Hsl. destruct Hs as [Hfl Hop]; [eapply (done_sleeping id c); [exact Hid| |exact Hsl]; reflexivity|]. split; [|cbn; congruence]. cbn. by eapply count_full_app.
    + destruct (pi_closed _ Hi Hro) as [Hrs _]. split; cbn; [by rewrite Hrs|]. intros Hsl.
      destruct Hs as [_ ?]; [eapply (done_sleeping id c); [exact Hid| |exact Hsl]; reflexivity|]. congruence.
Qed.

Lemma read_run_awake killed n s :
  psys_inv s -> psys_awake s -> psys_awake (read_run killed n s).
Proof.
  intros Hi [Hr Hs]. pose proof (pi_wf _ Hi) as Hw. unfold read_run, piperead.
  destruct (Z.eqb_spec (nread (ps_pipe s)) (nwrite (ps_pipe s))) as [E|E]; cbn [andb].
  - assert (contents (ps_pipe s) = []) as Hz.
    { unfold contents. apply empty_count in E; [|done]. by rewrite E. }
    destruct (writeopen (ps_pipe s)) eqn:Ewo; [destruct killed|].
    + split; cbn; [by rewrite Ewo|exact Hs].
    + split; cbn; [done|exact Hs].
    + pose proof (piperead_copy_spec (Z.to_nat n) (ps_pipe s) Hw) as H.
      destruct (piperead_copy _ _) as [bs p']. destruct H as (Hw' & Hr' & Hwo & Hc & _).
      rewrite Hz in Hc. symmetry in Hc. apply app_nil in Hc as [_ Hc].
      split; [|intros Hsl; by apply woken_writers in Hsl]. cbn. intros Hne. destruct (Hr Hne). congruence.
  - pose proof (piperead_copy_spec (Z.to_nat n) (ps_pipe s) Hw) as H.
    destruct (piperead_copy _ _) as [bs p']. destruct H as (Hw' & Hr' & Hwo & Hc & _).
    split; [|intros Hsl; by apply woken_writers in Hsl]. cbn. intros Hne. destruct (Hr Hne) as [Hz ?].
    rewrite Hz in Hc. symmetry in Hc. apply app_nil in Hc as [_ Hc]. split; congruence.
Qed.

Lemma pstep_awake s s' : pstep false s s' -> psys_inv s -> psys_awake s -> psys_awake s'.
Proof.
  intros Hst Hi Ha. pose proof Ha as [Hr Hs]. destruct Hst as
    [s addr Hwo|s killed id c Hid Hrun Hk|s killed n Hro|s killed r1 r2 n E|s p c freed E1 E|s p c freed E1 E2 E].
  - split; cbn; [done|]. intros (id & c & Hid & Hsl). apply Hs. cbn in Hid.
    apply lookup_app_Some in Hid as [Hid|[_ Hid]]; [by exists id, c|]. by apply list_lookup_singleton_Some in Hid as [_ <-].
  - destruct killed; [by specialize (Hk eq_refl)|]. by eapply write_run_awake.
  - by apply read_run_awake.
  - pose proof (resumable _ _ _ _ Hi E) as Hro. apply read_run_awake; [|by split].
    destruct Hi as [Hw Hf Hc Ht Hcl]. split; cbn; try done. congruence.
  - injection E as <- <- <-. split; cbn; [done|]. intros (id & c & Hid & Hsl). rewrite Forall_lookup in E1.
    destruct (E1 id c Hid) as [r Hd]. congruence.
  - injection E as <- <- <-. split; [by cbn; rewrite E1|]. intros Hsl. by apply woken_writers in Hsl.
Qed.

(** * Properties *)

(** C23.  Under every interleaving of readers, writers, kills and closes, with the
    32-bit counters wrapping, the pipe is a FIFO queue of what the writers pass.  The
    bytes delivered so far followed by the bytes in the ring are the bytes
    accepted, in order, and the ring never holds more than PIPESIZE bytes.  The
    bytes accepted from a call of [pipewrite] are a prefix of its argument: all of
    it when the call has returned the length, some of it when it has returned -1,
    and exactly the first [i] while its loop is at index [i]. *)
Theorem pipe_fifo lethal ring s :
  length ring = 512%nat -> rtc (pstep lethal) (psys_init ring) s ->
  (written s).*2 = delivered s ++ contents (ps_pipe s)
  /\ Z.of_nat (length (contents (ps_pipe s))) <= PIPESIZE
  /\ Forall (fun x => (x.1 < length (wcalls s))%nat) (written s)
  /\ forall id c, wcalls s !! id = Some c -> call_ok (sent_by (written s) id) c.
Proof.
  intros Hl Hr. destruct (pipe_reachable_inv lethal ring s Hl Hr) as [Hw Hf Hc Ht _].
  split; [done|]. split; [rewrite length_contents; by apply pw_count|]. done.
Qed.

(** While no writer is killed no wakeup is lost: a reader sleeps only on an
    empty ring whose write end is open, a writer only on a full ring whose
    read end is open, so readers and writers are never asleep together. *)
Theorem pipe_no_lost_wakeup ring s :
  length ring = 512%nat -> rtc (pstep false) (psys_init ring) s ->
  (rsleep s <> [] -> contents (ps_pipe s) = [] /\ writeopen (ps_pipe s) = true)
  /\ (sleeping_writer s -> count (ps_pipe s) = PIPESIZE /\ readopen (ps_pipe s) = true)
  /\ (rsleep s = [] \/ ~ sleeping_writer s).
Proof.
  intros Hl Hr.
  assert (psys_awake s) as [H1 H2].
  { assert (psys_awake (psys_init ring)) as Ha by (split; cbn; [done|by intros (id & c & ? & _)]).
    pose proof (psys_init_inv ring Hl) as Hi. induction Hr as [s|s1 s2 s3 Hst Hr IH]; [done|].
    apply IH; [by eapply pstep_awake|by eapply pstep_inv]. }
  split; [done|]. split; [done|].
  destruct (rsleep s) as [|n rs] eqn:Er; [by left|]. right. intros Hsl.
  destruct H1 as [Hz _]; [done|]. destruct (H2 Hsl) as [Hc _].
  pose proof (length_contents (ps_pipe s)) as E. rewrite Hz, Hc in E. done.
Qed.

(** The state after a reader has gone to sleep and a writer has run. *)
Definition read_then_write (killed : bool) (n : Z) (addr : list Z) : psys :=
  let s := read_run false n (psys_init (replicate 512 0)) in
  write_run killed 0 (Psys (ps_pipe s) [Wcall addr 0 Wruns] (rsleep s) (rrun s) (written s) (delivered s)).

Lemma read_then_write_reachable lethal killed n addr : (killed = true -> lethal = true) ->
  rtc (pstep lethal) (psys_init (replicate 512 0)) (read_then_write killed n addr).
Proof.
  intros Hk. eapply rtc_l; [by apply (step_read lethal _ false n)|].
  eapply rtc_l; [by apply (step_write_call lethal _ addr)|].
  eapply rtc_l; [by eapply (step_write_run lethal _ killed 0)|]. apply rtc_refl.
Qed.

(** A writer that is killed while it fills the ring returns -1 without
    [wakeup(&p->nread)]: a reader can be left asleep with a full ring. *)
Theorem pipe_killed_writer_strands_reader :
  exists ring s, length ring = 512%nat /\ rtc (pstep true) (psys_init ring) s
    /\ rsleep s <> [] /\ count (ps_pipe s) = PIPESIZE.
Proof.
  exists (replicate 512 0), (read_then_write true 1 (replicate 513 7)).
  split; [done|]. split; [by apply read_then_write_reachable|by vm_compute].
Qed.

(** A writer of 514 bytes asleep on a full ring. *)
Lemma pipe_fifo_witness :
  let s := read_then_write false 2 (replicate 514 7) in
  (written s).*2 = replicate 512 7 /\ call_ok (sent_by (written s) 0) (Wcall (replicate 514 7) 512 Wsleeps).
Proof.
  cbv zeta. destruct (pipe_fifo false (replicate 512 0) (read_then_write false 2 (replicate 514 7))) as (_ & _ & _ & H).
  - reflexivity.
  - by apply read_then_write_reachable.
  - split; [by vm_compute|]. apply H. by vm_compute.
Defined.

Lemma pipe_no_lost_wakeup_witness : let s := read_then_write false 2 [1; 2; 3] in rsleep s = [] \/ ~ sleeping_writer s.
Proof.
  apply (pipe_no_lost_wakeup (replicate 512 0)); [done|by apply read_then_write_reachable].
Defined.
