(* ===== verification/Bio.v ===== *)
(** bio.c and memide.c: the buffer cache over a disk of 512-byte blocks.  The
    doubly linked list through [prev] and [next] is the list [order] of buffer
    numbers, most recently used first.  The data of a block is a memory of
    offsets 0 to 511.  [me] is [myproc()->pid]; a system call runs alone, so a
    buffer locked by another process would block forever. *)
From S2P Require Import Prelude Mem Spinlock.

Definition BSIZE : Z := 512.
Definition MAXOPBLOCKS : Z := 10.
Definition FSSIZE : Z := 1000.
Definition NBUF : nat := 30.
Definition ROOTDEV : Z := 1.

(** [struct buf]; the flags B_VALID and B_DIRTY are two booleans. *)
Record buf := Buf {
  b_valid : bool;
  b_dirty : bool;
  b_dev : Z;
  b_blockno : Z;
  b_lock : sleeplock;
  b_refcnt : Z;
  b_data : mem
}.

(** The cache ([bcache.buf] and the list) and the disk; [writes] records the
    blocks written to the disk, oldest first. *)
Record bst := Bst {
  bufs : list buf;
  order : list nat;
  disk : gmap Z mem;
  disksize : Z;
  writes : list (Z * mem)
}.

(** Block [b] of a disk. *)
Definition dblk (d : gmap Z mem) (b : Z) : mem := default ∅ (d !! b).

Definition buf0 : buf := Buf false false 0 0 initsleeplock 0 ∅.

(** Each buffer goes to the front of the list. *)
Definition binit (d : gmap Z mem) (size : Z) : bst :=
  Bst (replicate NBUF buf0) (foldl (fun l b => b :: l) [] (seq 0 NBUF)) d size [].

Definition set_buf (i : nat) (bf : buf) (s : bst) : bst :=
  Bst (<[i := bf]> (bufs s)) (order s) (disk s) (disksize s) (writes s).

Definition the_buf (i : nat) (s : bst) : outcome buf :=
  match bufs s !! i with Some bf => Ok bf | None => UB "buffer pointer out of bounds" end.

(** The first buffer along [l] that satisfies [P]. *)
Fixpoint scan (P : buf -> bool) (l : list nat) (bs : list buf) : option nat :=
  match l with
  | [] => None
  | i :: l =>
      match bs !! i with
      | Some bf => if P bf then Some i else scan P l bs
      | None => None
      end
  end.

Definition is_block (dev blockno : Z) (bf : buf) : bool := (b_dev bf =? dev) && (b_blockno bf =? blockno).

Definition recyclable (bf : buf) : bool := (b_refcnt bf =? 0) && negb (b_dirty bf).

Section Bio.
Context (me : Z).

(** [acquiresleep(&b->lock)]. *)
Definition lock_buf (i : nat) (s : bst) : outcome bst :=
  let! bf := the_buf i s in
  match acquiresleep me (b_lock bf) with
  | Some lk => Ok (set_buf i (Buf (b_valid bf) (b_dirty bf) (b_dev bf) (b_blockno bf) lk (b_refcnt bf) (b_data bf)) s)
  | None => UB "acquiresleep: sleeps forever"
  end.

Definition bget (dev blockno : Z) (s : bst) : outcome (nat * bst) :=
  match scan (is_block dev blockno) (order s) (bufs s) with
  | Some i =>
      let! bf := the_buf i s in
      let s := set_buf i (Buf (b_valid bf) (b_dirty bf) (b_dev bf) (b_blockno bf) (b_lock bf) (b_refcnt bf + 1) (b_data bf)) s in
      let! s := lock_buf i s in
      Ok (i, s)
  | None =>
      match scan recyclable (rev (order s)) (bufs s) with
      | Some i =>
          let! bf := the_buf i s in
          let s := set_buf i (Buf false false dev blockno (b_lock bf) 1 (b_data bf)) s in
          let! s := lock_buf i s in
          Ok (i, s)
      | None => Panic "bget: no buffers"
      end
  end.

(** [iderw] of memide.c. *)
Definition iderw (i : nat) (s : bst) : outcome bst :=
  let! bf := the_buf i s in
  if negb (holdingsleep me (b_lock bf)) then Panic "iderw: buf not locked"
  else if b_valid bf && negb (b_dirty bf) then Panic "iderw: nothing to do"
  else if negb (b_dev bf =? 1) then Panic "iderw: request not for disk 1"
  else if disksize s <=? b_blockno bf then Panic "iderw: block out of range"
  else
    if b_dirty bf then
      Ok (set_buf i (Buf true false (b_dev bf) (b_blockno bf) (b_lock bf) (b_refcnt bf) (b_data bf))
           (Bst (bufs s) (order s) (<[b_blockno bf := b_data bf]> (disk s)) (disksize s)
              (writes s ++ [(b_blockno bf, b_data bf)])))
    else
      Ok (set_buf i (Buf true false (b_dev bf) (b_blockno bf) (b_lock bf) (b_refcnt bf) (dblk (disk s) (b_blockno bf))) s).

Definition bread (dev blockno : Z) (s : bst) : outcome (nat * bst) :=
  let! (i, s) := bget dev blockno s in
  let! bf := the_buf i s in
  if negb (b_valid bf) then let! s := iderw i s in Ok (i, s) else Ok (i, s).

Definition set_dirty (bf : buf) : buf :=
  Buf (b_valid bf) true (b_dev bf) (b_blockno bf) (b_lock bf) (b_refcnt bf) (b_data bf).

Definition bwrite (i : nat) (s : bst) : outcome bst :=
  let! bf := the_buf i s in
  if negb (holdingsleep me (b_lock bf)) then Panic "bwrite"
  else iderw i (set_buf i (set_dirty bf) s).

Definition brelse (i : nat) (s : bst) : outcome bst :=
  let! bf := the_buf i s in
  if negb (holdingsleep me (b_lock bf)) then Panic "brelse"
  else
    let bf := Buf (b_valid bf) (b_dirty bf) (b_dev bf) (b_blockno bf) (releasesleep (b_lock bf)) (b_refcnt bf - 1) (b_data bf) in
    let s := set_buf i bf s in
    if b_refcnt bf =? 0 then
      Ok (Bst (bufs s) (i :: filter (fun j => j <> i) (order s)) (disk s) (disksize s) (writes s))
    else Ok s.

(** Changing [b->data], which the callers do on a locked buffer. *)
Definition set_data (i : nat) (d : mem) (s : bst) : outcome bst :=
  let! bf := the_buf i s in
  Ok (set_buf i (Buf (b_valid bf) (b_dirty bf) (b_dev bf) (b_blockno bf) (b_lock bf) (b_refcnt bf) d) s).

End Bio.
