(* ===== verification/BioTheory.v ===== *)
(** The buffer cache keeps one copy of each block: [view] is the content of
    every block as the kernel sees it, and the operations of [Bio] read and
    write that view. *)
From S2P Require Import Prelude Mem Spinlock Bio.

Section Theory.
Context (me : Z).

(** The state of one buffer between system-call steps. *)
Record buf_ok (d : gmap Z mem) (size : Z) (bf : buf) : Prop := {
  bo_lock : (b_refcnt bf = 0 /\ sl_locked (b_lock bf) = false)
    \/ (b_refcnt bf = 1 /\ b_lock bf = Sleeplock true me /\ b_dev bf = 1);
  bo_dirty : b_dirty bf = true -> b_dev bf = 1;
  bo_valid : b_dev bf = 1 -> b_valid bf = true /\ 0 <= b_blockno bf < size;
  bo_clean : b_dev bf = 1 -> b_dirty bf = false -> b_refcnt bf = 0 -> b_data bf = dblk d (b_blockno bf)
}.

Record bwf (s : bst) : Prop := {
  bw_order : order s ≡ₚ seq 0 (length (bufs s));
  bw_uniq i j bf bg : bufs s !! i = Some bf -> bufs s !! j = Some bg ->
    b_dev bf = 1 -> b_dev bg = 1 -> b_blockno bf = b_blockno bg -> i = j;
  bw_buf i bf : bufs s !! i = Some bf -> buf_ok (disk s) (disksize s) bf
}.

(** What the kernel sees in block [b]. *)
Definition view (s : bst) (b : Z) : mem :=
  match scan (is_block 1 b) (order s) (bufs s) with
  | Some i => default ∅ (b_data <$> bufs s !! i)
  | None => dblk (disk s) b
  end.

(** The caller holds buffer [i], which caches block [b]. *)
Definition holds (s : bst) (i : nat) (b : Z) : Prop :=
  exists bf, bufs s !! i = Some bf /\ b_dev bf = 1 /\ b_blockno bf = b /\ b_refcnt bf = 1.

(** The cached copy of [b] is dirty and stays in the cache. *)
Definition pinned (s : bst) (b : Z) : Prop :=
  exists i bf, bufs s !! i = Some bf /\ b_dev bf = 1 /\ b_blockno bf = b /\ b_dirty bf = true.

(** The buffers [bget] may recycle. *)
Definition spare (s : bst) : Z := Z.of_nat (length (filter (fun bf => recyclable bf = true) (bufs s))).

(** * Scans *)

Lemma scan_Some P l bs i :
  scan P l bs = Some i -> i ∈ l /\ exists bf, bs !! i = Some bf /\ P bf = true.
Proof.
  induction l as [|j l IH]; cbn [scan]; [done|]. destruct (bs !! j) as [bf|] eqn:E; [|done].
  destruct (P bf) eqn:EP.
  - intros [= <-]. split; [by left|eauto].
  - intros H. destruct (IH H) as [Hin Hbf]. split; [by right|done].
Qed.

Lemma scan_None P l bs :
  (forall i, i ∈ l -> (i < length bs)%nat) ->
  scan P l bs = None <-> forall i bf, i ∈ l -> bs !! i = Some bf -> P bf = false.
Proof.
  induction l as [|j l IH]; intros Hl; cbn [scan].
  - split; [|done]. intros _ i bf Hi. by apply not_elem_of_nil in Hi.
  - destruct (lookup_lt_is_Some_2 bs j) as [bf E]; [apply Hl; by left|]. rewrite E.
    destruct (P bf) eqn:EP.
    + split; [done|]. intros H. rewrite (H j bf) in EP; [done|by left|done].
    + rewrite IH by (intros i Hi; apply Hl; by right). split.
      * intros H i bg [->|Hi]%elem_of_cons Hbg; [congruence|by eapply H].
      * intros H i bg Hi. apply H. by right.
Qed.

Lemma order_lt s i : bwf s -> i ∈ order s <-> (i < length (bufs s))%nat.
Proof.
  intros Hw. rewrite (bw_order _ Hw), list_elem_of_In, in_seq. lia.
Qed.

Lemma is_block_spec d b bf : is_block d b bf = true <-> b_dev bf = d /\ b_blockno bf = b.
Proof. unfold is_block. rewrite andb_true_iff, !Z.eqb_eq. done. Qed.

Lemma is_block_false d b bf : is_block d b bf = false <-> ~ (b_dev bf = d /\ b_blockno bf = b).
Proof. rewrite <- is_block_spec. destruct (is_block d b bf); naive_solver. Qed.

Lemma find_cached s i bf b :
  bwf s -> bufs s !! i = Some bf -> b_dev bf = 1 -> b_blockno bf = b ->
  scan (is_block 1 b) (order s) (bufs s) = Some i.
Proof.
  intros Hw Hi Hd Hb. destruct (scan _ _ _) as [j|] eqn:E.
  - apply scan_Some in E as (_ & bg & Hj & Hp). apply is_block_spec in Hp as [Hd' Hb'].
    f_equal. apply (bw_uniq _ Hw j i bg bf); congruence.
  - rewrite scan_None in E by (intros j; by apply order_lt).
    specialize (E i bf). rewrite order_lt in E by done. rewrite is_block_false in E.
    exfalso. apply E; [by eapply lookup_lt_Some|done|done].
Qed.

Lemma find_absent s b :
  bwf s -> (forall i bf, bufs s !! i = Some bf -> b_dev bf = 1 -> b_blockno bf <> b) ->
  scan (is_block 1 b) (order s) (bufs s) = None.
Proof.
  intros Hw H. rewrite scan_None by (intros j; by apply order_lt).
  intros i bf _ Hi. apply is_block_false. intros [Hd Hb]. by eapply H.
Qed.

Lemma view_cached s i bf :
  bwf s -> bufs s !! i = Some bf -> b_dev bf = 1 -> view s (b_blockno bf) = b_data bf.
Proof. intros Hw Hi Hd. unfold view. by rewrite (find_cached s i bf), Hi. Qed.

Lemma view_absent s b :
  bwf s -> (forall i bf, bufs s !! i = Some bf -> b_dev bf = 1 -> b_blockno bf <> b) ->
  view s b = dblk (disk s) b.
Proof. intros Hw H. unfold view. by rewrite find_absent. Qed.

Lemma cached_dec s b :
  bwf s -> (exists i bf, bufs s !! i = Some bf /\ b_dev bf = 1 /\ b_blockno bf = b)
  \/ (forall i bf, bufs s !! i = Some bf -> b_dev bf = 1 -> b_blockno bf <> b).
Proof.
  intros Hw. destruct (scan (is_block 1 b) (order s) (bufs s)) as [i|] eqn:E.
  - left. apply scan_Some in E as (_ & bf & Hi & Hp%is_block_spec). naive_solver.
  - right. rewrite scan_None in E by (intros j; by apply order_lt). intros i bf Hi Hd Hb.
    specialize (E i bf). rewrite order_lt, is_block_false in E by done. apply E; [by eapply lookup_lt_Some|done|done].
Qed.

(** * Updating one buffer *)

Lemma lookup_set_buf i bf s j bg :
  (i < length (bufs s))%nat ->
  bufs (set_buf i bf s) !! j = Some bg <-> (j = i /\ bg = bf) \/ (j <> i /\ bufs s !! j = Some bg).
Proof.
  intros Hi. cbn. destruct (decide (j = i)) as [->|Hne].
  - rewrite list_lookup_insert_eq by done. naive_solver.
  - rewrite list_lookup_insert_ne by done. naive_solver.
Qed.

Lemma set_buf_wf i bf bf' s :
  bwf s -> bufs s !! i = Some bf -> buf_ok (disk s) (disksize s) bf' ->
  (b_dev bf' = 1 -> forall j bg, j <> i -> bufs s !! j = Some bg -> b_dev bg = 1 -> b_blockno bg <> b_blockno bf') ->
  bwf (set_buf i bf' s).
Proof.
  intros Hw Hi Hok Hu. assert (i < length (bufs s))%nat as Hlt by (by eapply lookup_lt_Some). split.
  - cbn. rewrite length_insert. apply Hw.
  - intros j k bg bh [[-> ->]|[Hj Hj']]%lookup_set_buf [[-> ->]|[Hk Hk']]%lookup_set_buf Hd Hd' E; try done.
    + exfalso. by eapply (Hu Hd k bh).
    + exfalso. by eapply (Hu Hd' j bg).
    + by eapply (bw_uniq _ Hw).
  - intros j bg [[-> ->]|[Hj Hj']]%lookup_set_buf; [done| |done]. by apply (bw_buf _ Hw j).
Qed.

Lemma view_set_buf i bf bf' s c :
  bwf s -> bwf (set_buf i bf' s) -> bufs s !! i = Some bf ->
  view (set_buf i bf' s) c =
    if decide (b_dev bf' = 1 /\ b_blockno bf' = c) then b_data bf'
    else if decide (b_dev bf = 1 /\ b_blockno bf = c) then dblk (disk s) c else view s c.
Proof.
  intros Hw Hw' Hi. assert (i < length (bufs s))%nat as Hlt by (by eapply lookup_lt_Some).
  assert (bufs (set_buf i bf' s) !! i = Some bf') as Hi' by (by apply list_lookup_insert_eq).
  case_decide as H1.
  - destruct H1 as [Hd <-]. by apply (view_cached (set_buf i bf' s) i).
  - case_decide as H2.
    + apply (view_absent (set_buf i bf' s)); [done|].
      intros j bg [[-> ->]|[Hj Hj']]%lookup_set_buf Hd Hb; [tauto| |done].
      apply Hj. destruct H2. apply (bw_uniq _ Hw j i bg bf); congruence.
    + destruct (cached_dec s c Hw) as [(j & bg & Hj & Hd & Hb)|Hn].
      * assert (j <> i) as Hne by (intros ->; naive_solver). rewrite <- Hb.
        rewrite (view_cached s j) by done. apply (view_cached (set_buf i bf' s) j); [done| |done].
        apply lookup_set_buf; [done|]. by right.
      * rewrite (view_absent s) by done. apply (view_absent (set_buf i bf' s)); [done|].
        intros j bg [[-> ->]|[Hj Hj']]%lookup_set_buf Hd Hb; [tauto|by eapply Hn|done].
Qed.

Lemma spare_set_buf i bf bf' s :
  bufs s !! i = Some bf -> spare (set_buf i bf' s) = spare s - b2z (recyclable bf) + b2z (recyclable bf').
Proof.
  unfold spare. cbn. generalize (bufs s). intros l. revert i.
  induction l as [|bg l IH]; intros [|i] Hi; cbn in Hi; try done.
  - injection Hi as ->. cbn [insert list_insert]. rewrite !filter_cons.
    unfold b2z. destruct (decide (recyclable bf' = true)) as [E1|E1%not_true_is_false], (decide (recyclable bf = true)) as [E2|E2%not_true_is_false];
      rewrite E1, E2; cbn [length]; lia.
  - change (<[S i := bf']> (bg :: l)) with (bg :: <[i := bf']> l). rewrite !filter_cons. specialize (IH i Hi).
    case_decide; cbn [length]; lia.
Qed.

Lemma holds_set_buf i bf bf' s j c :
  bufs s !! i = Some bf -> holds (set_buf i bf' s) j c <->
    (j = i /\ b_dev bf' = 1 /\ b_blockno bf' = c /\ b_refcnt bf' = 1) \/ (j <> i /\ holds s j c).
Proof.
  intros Hi. assert (i < length (bufs s))%nat as Hlt by (by eapply lookup_lt_Some). unfold holds. split.
  - intros (bg & Hj & H). apply lookup_set_buf in Hj as [[-> ->]|[Hne Hj]]; [naive_solver|naive_solver|done].
  - intros [(-> & H)|(Hne & bg & Hj & H)].
    + exists bf'. split; [by apply list_lookup_insert_eq|done].
    + exists bg. split; [|done]. apply lookup_set_buf; [done|]. by right.
Qed.

Lemma pinned_set_buf i bf bf' s c :
  bufs s !! i = Some bf -> pinned (set_buf i bf' s) c <->
    (b_dev bf' = 1 /\ b_blockno bf' = c /\ b_dirty bf' = true)
    \/ exists j bg, j <> i /\ bufs s !! j = Some bg /\ b_dev bg = 1 /\ b_blockno bg = c /\ b_dirty bg = true.
Proof.
  intros Hi. assert (i < length (bufs s))%nat as Hlt by (by eapply lookup_lt_Some). unfold pinned. split.
  - intros (j & bg & Hj & H). apply lookup_set_buf in Hj as [[-> ->]|[Hne Hj]]; [by left| |done].
    right. by exists j, bg.
  - intros [H|(j & bg & Hne & Hj & H)].
    + exists i, bf'. split; [by apply list_lookup_insert_eq|done].
    + exists j, bg. split; [|done]. apply lookup_set_buf; [done|]. by right.
Qed.

Lemma pinned_split i bf s c :
  bufs s !! i = Some bf -> pinned s c <->
    (b_dev bf = 1 /\ b_blockno bf = c /\ b_dirty bf = true)
    \/ exists j bg, j <> i /\ bufs s !! j = Some bg /\ b_dev bg = 1 /\ b_blockno bg = c /\ b_dirty bg = true.
Proof.
  intros Hi. unfold pinned. split.
  - intros (j & bg & Hj & H). destruct (decide (j = i)) as [->|Hne]; [left; congruence|right]. by exists j, bg.
  - intros [H|(j & bg & _ & H)]; eauto.
Qed.

Lemma pinned_same i bf bf' s c :
  bufs s !! i = Some bf ->
  ((b_dev bf' = 1 /\ b_blockno bf' = c /\ b_dirty bf' = true) <-> (b_dev bf = 1 /\ b_blockno bf = c /\ b_dirty bf = true)) ->
  pinned (set_buf i bf' s) c <-> pinned s c.
Proof. intros Hi H. rewrite (pinned_set_buf i bf), (pinned_split i bf) by done. tauto. Qed.

#[export] Instance pinned_dec s b : bwf s -> Decision (pinned s b).
Proof.
  intros Hw. destruct (scan (is_block 1 b) (order s) (bufs s)) as [i|] eqn:E.
  - destruct (bufs s !! i) as [bf|] eqn:Ei.
    + destruct (b_dirty bf) eqn:Ed.
      * left. apply scan_Some in E as (_ & bg & Hi & Hp%is_block_spec). rewrite Ei in Hi. injection Hi as <-.
        exists i, bf. naive_solver.
      * right. intros (j & bg & Hj & Hd & Hb & Hdd). rewrite (find_cached s j bg) in E by done. congruence.
    + right. apply scan_Some in E as (_ & bg & Hi & _). congruence.
  - right. intros (j & bg & Hj & Hd & Hb & Hdd). by rewrite (find_cached s j bg) in E.
Defined.

Lemma holds_inj s i j b : bwf s -> holds s i b -> holds s j b -> i = j.
Proof. intros Hw (bi & Hi & ? & ? & _) (bj & Hj & ? & ? & _). apply (bw_uniq _ Hw i j bi bj); congruence. Qed.

(** Everything a step of the cache keeps apart from the block it works on. *)
Record bframe (s s' : bst) (b : Z) : Prop := {
  bf_size : disksize s' = disksize s;
  bf_view c : c <> b -> view s' c = view s c;
  bf_pinned c : c <> b -> pinned s' c <-> pinned s c;
  bf_holds j c : c <> b -> holds s' j c <-> holds s j c;
  bf_disk c : c <> b -> dblk (disk s') c = dblk (disk s) c
}.

Lemma view_cached' s i bf b : bwf s -> bufs s !! i = Some bf -> b_dev bf = 1 -> b_blockno bf = b -> view s b = b_data bf.
Proof. intros Hw Hi Hd <-. by apply (view_cached s i). Qed.

(** * The operations *)

Lemma the_buf_eq s i bf : bufs s !! i = Some bf -> the_buf i s = Ok bf.
Proof. unfold the_buf. by intros ->. Qed.

Lemma the_buf_set s i bf bf' : bufs s !! i = Some bf -> the_buf i (set_buf i bf' s) = Ok bf'.
Proof. intros H. apply the_buf_eq. apply list_lookup_insert_eq. by eapply lookup_lt_Some. Qed.

Lemma set_buf_set_buf i bf bf' s : set_buf i bf' (set_buf i bf s) = set_buf i bf' s.
Proof. unfold set_buf. cbn. by rewrite list_insert_insert_eq. Qed.

(** A cached block that nobody holds. *)
Lemma bread_cached s b i bf :
  bwf s -> bufs s !! i = Some bf -> b_dev bf = 1 -> b_blockno bf = b -> b_refcnt bf = 0 ->
  bread me 1 b s = Ok (i, set_buf i (Buf (b_valid bf) (b_dirty bf) 1 b (Sleeplock true me) 1 (b_data bf)) s).
Proof.
  intros Hw Hi Hd Hb Hr. destruct (bw_buf _ Hw i bf Hi) as [Hl _ Hv _].
  destruct Hl as [[_ Hl]|[Hr' _]]; [|lia].
  unfold bread, bget. rewrite (find_cached s i bf b) by done. rewrite (the_buf_eq s i bf) by done. cbn [obind].
  unfold lock_buf. rewrite (the_buf_set s i bf) by done. cbn [obind]. unfold acquiresleep. cbn [b_lock]. rewrite Hl. cbn [obind].
  rewrite set_buf_set_buf, (the_buf_set s i bf) by done. cbn. rewrite (proj1 (Hv Hd)), Hd, Hb, Hr. done.
Qed.

(** A block read from the disk into a recycled buffer. *)
Lemma bread_absent s b :
  bwf s -> (forall i bf, bufs s !! i = Some bf -> b_dev bf = 1 -> b_blockno bf <> b) ->
  0 <= b < disksize s -> 0 < spare s ->
  exists i bf, bufs s !! i = Some bf /\ recyclable bf = true /\
    bread me 1 b s = Ok (i, set_buf i (Buf true false 1 b (Sleeplock true me) 1 (dblk (disk s) b)) s).
Proof.
  intros Hw Hn Hb Hsp. unfold bread, bget. rewrite (find_absent s b) by done.
  destruct (scan recyclable (rev (order s)) (bufs s)) as [i|] eqn:E.
  - apply scan_Some in E as (_ & bf & Hi & Hp). exists i, bf. split; [done|]. split; [done|].
    rewrite (the_buf_eq s i bf) by done. cbn [obind]. unfold lock_buf. rewrite (the_buf_set s i bf) by done. cbn [obind].
    unfold acquiresleep. cbn [b_lock].
    destruct (bw_buf _ Hw i bf Hi) as [[[_ Hl]|[Hr _]] _ _ _].
    2: { unfold recyclable in Hp. rewrite Hr in Hp. done. }
    rewrite Hl. cbn [obind]. rewrite set_buf_set_buf, (the_buf_set s i bf) by done. cbn [obind b_valid negb].
    unfold iderw. rewrite (the_buf_set s i bf) by done. cbn. unfold holdingsleep. cbn. rewrite Z.eqb_refl. cbn.
    destruct (Z.leb_spec (disksize s) b); [lia|]. by rewrite set_buf_set_buf.
  - exfalso. rewrite scan_None in E.
    + unfold spare in Hsp. destruct (filter _ (bufs s)) as [|bf l] eqn:Ef; [cbn in Hsp; lia|].
      assert (bf ∈ filter (fun bf => recyclable bf = true) (bufs s)) as Hin by (rewrite Ef; by left).
      apply list_elem_of_filter in Hin as [Hp Hin]. apply list_elem_of_lookup in Hin as [i Hi].
      rewrite (E i bf) in Hp; [done| |done]. rewrite elem_of_rev, order_lt by done. by eapply lookup_lt_Some.
    + intros i. rewrite elem_of_rev. by apply order_lt.
Qed.

Lemma recyclable_spec bf : recyclable bf = true <-> b_refcnt bf = 0 /\ b_dirty bf = false.
Proof. unfold recyclable. rewrite andb_true_iff, Z.eqb_eq, negb_true_iff. done. Qed.

(** What a successful [bread] leaves: the buffer is held and shows the view of
    the block. *)
Definition fetched s b i s' : Prop :=
  bwf s' /\ bframe s s' b /\ holds s' i b
  /\ view s' b = view s b /\ disk s' = disk s /\ writes s' = writes s /\ (pinned s' b <-> pinned s b)
  /\ (~ pinned s b -> view s b = dblk (disk s) b)
  /\ (pinned s b -> spare s' = spare s) /\ (~ pinned s b -> spare s' = spare s - 1).

Lemma bread_spec_cached s b i bf :
  bwf s -> (forall j, ~ holds s j b) -> bufs s !! i = Some bf -> b_dev bf = 1 -> b_blockno bf = b ->
  exists s', bread me 1 b s = Ok (i, s') /\ fetched s b i s'.
Proof.
  intros Hw Hnh Hi Hd Hbn.
  destruct (bw_buf _ Hw i bf Hi) as [Hl Hdy Hv Hc].
  assert (b_refcnt bf = 0) as Hr.
  { destruct Hl as [[? _]|(Hr & _)]; [done|]. exfalso. apply (Hnh i). by exists bf. }
  rewrite (bread_cached s b i bf) by done. eexists. split; [done|].
  set (bf' := Buf _ _ _ _ _ _ _). 
  assert (bwf (set_buf i bf' s)) as Hw'.
  { eapply set_buf_wf; [done|done| |].
    - split; cbn; [right; done|done|intros _; split; [apply Hv, Hd|lia]|done].
    - intros _ j bg Hne Hj Hdg Hbg. apply Hne, (bw_uniq _ Hw j i bg bf); cbn in *; congruence. }
  assert (pinned s b <-> b_dirty bf = true) as Hpin.
  { split; [|intros; by exists i, bf]. intros (j & bg & Hj & Hdg & Hbg & Hdd).
    assert (j = i) as -> by (apply (bw_uniq _ Hw j i bg bf); congruence). congruence. }
  assert (forall c, view (set_buf i bf' s) c = view s c) as HV.
  { intros c. rewrite (view_set_buf i bf) by done. cbn. case_decide as H1.
    - destruct H1 as [_ <-]. rewrite <- Hbn. symmetry. by eapply view_cached.
    - rewrite decide_False by (rewrite Hbn; tauto). done. }
  split; [done|]. split; [split|].
  - done.
  - intros c _. apply HV.
  - intros c Hcb. apply (pinned_same i bf); [done|]. cbn. rewrite Hbn. tauto.
  - intros j c Hcb. rewrite (holds_set_buf i bf) by done. cbn. split; [naive_solver|].
    intros Hh. right. split; [|done]. intros ->. destruct Hh as (bg & Hj & _ & ? & _). congruence.
  - done.
  - split; [apply (holds_set_buf i bf); [done|]; left; done|]. split; [apply HV|]. split; [done|]. split; [done|].
    split; [apply (pinned_same i bf); [done|]; cbn; tauto|].
    rewrite (spare_set_buf i bf) by done. rewrite Hpin.
    assert (recyclable bf' = false) as -> by done.
    assert (recyclable bf = negb (b_dirty bf)) as -> by (unfold recyclable; by rewrite Hr).
    split; [|split; intros Hdd].
    + intros Hdd. rewrite <- Hbn, (view_cached s i bf) by done. apply Hc; [done| |done]. by apply not_true_is_false.
    + rewrite Hdd. cbn. lia.
    + apply not_true_is_false in Hdd. rewrite Hdd. cbn. lia.
Qed.

Lemma bread_spec_absent s b :
  bwf s -> 0 <= b < disksize s -> 0 < spare s -> (forall i bf, bufs s !! i = Some bf -> b_dev bf = 1 -> b_blockno bf <> b) ->
  exists i s', bread me 1 b s = Ok (i, s') /\ fetched s b i s'.
Proof.
  intros Hw Hb Hsp Hn.
  assert (~ pinned s b) as Hnp.
  { intros (j & bg & Hj & Hdg & Hbg & _). by eapply Hn. }
  destruct (bread_absent s b Hw Hn Hb) as (i & bf & Hi & Hrc & ->); [tauto|].
  exists i. eexists. split; [done|]. set (bf' := Buf _ _ _ _ _ _ _).
  apply recyclable_spec in Hrc as [Hr Hdd]. destruct (bw_buf _ Hw i bf Hi) as [Hl Hdy Hv Hc].
  assert (bwf (set_buf i bf' s)) as Hw'.
  { eapply set_buf_wf; [done|done| |].
    - split; cbn; [right; done|done|intros _; split; [done|lia]|done].
    - intros _ j bg Hne Hj Hdg. cbn. by eapply Hn. }
  assert (forall c, view (set_buf i bf' s) c = view s c) as HV.
  { intros c. rewrite (view_set_buf i bf) by done. cbn. case_decide as H1.
    - destruct H1 as [_ <-]. symmetry. by apply view_absent.
    - case_decide as H2; [|done]. destruct H2 as [Hd <-]. rewrite (view_cached s i bf) by done. symmetry. by apply Hc. }
  split; [done|]. split; [split|].
  - done.
  - intros c _. apply HV.
  - intros c Hcb. apply (pinned_same i bf); [done|]. cbn. rewrite Hdd. split; by intros (_ & _ & ?).
  - intros j c Hcb. rewrite (holds_set_buf i bf) by done. cbn. split; [naive_solver|].
    intros Hh. right. split; [|done]. intros ->. destruct Hh as (bg & Hj & _ & _ & ?).
    assert (bg = bf) by congruence. subst. lia.
  - done.
  - split; [apply (holds_set_buf i bf); [done|]; left; done|]. split; [apply HV|]. split; [done|]. split; [done|].
    split; [apply (pinned_same i bf); [done|]; cbn; rewrite Hdd; split; by intros (_ & _ & ?)|].
    split; [intros _; by apply view_absent|]. split; [tauto|]. intros _.
    rewrite (spare_set_buf i bf) by done. assert (recyclable bf = true) as -> by (by apply recyclable_spec).
    assert (recyclable bf' = false) as -> by done. cbn. lia.
Qed.

(** [bread] of a block that is not held: it succeeds when the block is pinned
    or a buffer can be recycled, and shows the current view of the block. *)
Lemma bread_spec s b :
  bwf s -> 0 <= b < disksize s -> (forall j, ~ holds s j b) -> pinned s b \/ 0 < spare s ->
  exists i s', bread me 1 b s = Ok (i, s') /\ fetched s b i s'.
Proof.
  intros Hw Hb Hnh Hsp. destruct (cached_dec s b Hw) as [(i & bf & Hi & Hd & Hbn)|Hn].
  - exists i. by eapply bread_spec_cached.
  - apply bread_spec_absent; try done. destruct Hsp as [(j & bg & Hj & Hdg & Hbg & _)|]; [|done]. exfalso. by eapply Hn.
Qed.

(** Changing the data of a held buffer changes the view of its block. *)
Lemma set_data_spec s i b d :
  bwf s -> holds s i b ->
  exists s', set_data i d s = Ok s' /\ bwf s' /\ bframe s s' b /\ holds s' i b /\ view s' b = d
    /\ disk s' = disk s /\ writes s' = writes s /\ (pinned s' b <-> pinned s b) /\ spare s' = spare s.
Proof.
  intros Hw (bf & Hi & Hd & Hb & Hr). destruct (bw_buf _ Hw i bf Hi) as [Hl Hdy Hv Hc].
  unfold set_data. rewrite (the_buf_eq s i bf) by done. cbn [obind]. eexists. split; [done|].
  set (bf' := Buf _ _ _ _ _ _ _).
  assert (bwf (set_buf i bf' s)) as Hw'.
  { eapply set_buf_wf; [done|done| |].
    - split; cbn; [done|done|done|lia].
    - intros _ j bg Hne Hj Hdg Hbg. apply Hne, (bw_uniq _ Hw j i bg bf); cbn in *; congruence. }
  split; [done|]. split; [split|].
  - done.
  - intros c Hcb. rewrite (view_set_buf i bf) by done. cbn. rewrite !decide_False by (intros [_ ?]; congruence). done.
  - intros c Hcb. rewrite (pinned_set_buf i bf), (pinned_split i bf) by done. done.
  - intros j c Hcb. rewrite (holds_set_buf i bf) by done. cbn. split; [naive_solver|].
    intros Hh. right. split; [|done]. intros ->. destruct Hh as (bg & Hj & _ & ? & _). congruence.
  - done.
  - split; [apply (holds_set_buf i bf); [done|]; left; done|]. split.
    + rewrite (view_set_buf i bf) by done. cbn. by rewrite decide_True.
    + split; [done|]. split; [done|]. split; [by apply (pinned_same i bf)|].
      rewrite (spare_set_buf i bf) by done. assert (recyclable bf' = recyclable bf) as -> by done. lia.
Qed.

(** The order of the list does not matter to the view. *)
Lemma view_ext s s' b : bwf s -> bwf s' -> bufs s' = bufs s -> disk s' = disk s -> view s' b = view s b.
Proof.
  intros Hw Hw' Hb Hd. destruct (cached_dec s b Hw) as [(i & bf & Hi & Hdv & <-)|Hn].
  - rewrite (view_cached s i bf) by done. apply (view_cached s' i); [done|congruence|done].
  - rewrite (view_absent s), (view_absent s') by (done || by rewrite Hb). by rewrite Hd.
Qed.

(** B_DIRTY set on a held buffer, as [log_write] does. *)
Lemma set_dirty_spec s i b bf :
  bwf s -> holds s i b -> bufs s !! i = Some bf ->
  let s' := set_buf i (set_dirty bf) s in
  bwf s' /\ bframe s s' b /\ holds s' i b /\ view s' b = view s b /\ disk s' = disk s /\ writes s' = writes s
    /\ pinned s' b /\ spare s' = spare s.
Proof.
  intros Hw (bf0 & Hi & Hd & Hb & Hr) Hi'. rewrite Hi in Hi'. injection Hi' as <-.
  destruct (bw_buf _ Hw i bf0 Hi) as [Hl Hdy Hv Hc]. intros s'.
  assert (bwf s') as Hw'.
  { eapply set_buf_wf; [done|done| |].
    - split; cbn; [done|done|done|done].
    - intros _ j bg Hne Hj Hdg Hbg. apply Hne, (bw_uniq _ Hw j i bg bf0); cbn in *; congruence. }
  assert (forall c, view s' c = view s c) as HV.
  { intros c. unfold s'. rewrite (view_set_buf i bf0) by done. cbn. case_decide as H1; [|done].
    destruct H1 as [_ <-]. symmetry. by apply (view_cached s i). }
  split; [done|]. split; [split|].
  - done.
  - intros c _. apply HV.
  - intros c Hcb. apply (pinned_same i bf0); [done|]. cbn. rewrite Hb. split; intros (_ & ? & _); congruence.
  - intros j c Hcb. unfold s'. rewrite (holds_set_buf i bf0) by done. cbn. split; [naive_solver|].
    intros Hh. right. split; [|done]. intros ->. destruct Hh as (bg & Hj & _ & ? & _). congruence.
  - done.
  - split; [apply (holds_set_buf i bf0); [done|]; left; done|]. split; [apply HV|]. split; [done|]. split; [done|].
    split; [unfold s'; rewrite (pinned_set_buf i bf0) by done; left; done|].
    unfold s'. rewrite (spare_set_buf i bf0) by done.
    assert (recyclable (set_dirty bf0) = false) as -> by (unfold recyclable; cbn; apply andb_false_r).
    assert (recyclable bf0 = false) as -> by (unfold recyclable; by rewrite Hr). cbn. lia.
Qed.

(** [brelse] of a held buffer whose change, if any, was logged. *)
Lemma brelse_spec s i b :
  bwf s -> holds s i b -> pinned s b \/ view s b = dblk (disk s) b ->
  exists s', brelse me i s = Ok s' /\ bwf s' /\ bframe s s' b /\ (forall j, ~ holds s' j b)
    /\ view s' b = view s b /\ disk s' = disk s /\ writes s' = writes s /\ (pinned s' b <-> pinned s b)
    /\ (pinned s b -> spare s' = spare s) /\ (~ pinned s b -> spare s' = spare s + 1).
Proof.
  intros Hw (bf & Hi & Hd & Hb & Hr) Hsy. destruct (bw_buf _ Hw i bf Hi) as [Hl Hdy Hv Hc].
  destruct Hl as [[? _]|(_ & Hlk & _)]; [lia|].
  assert (i < length (bufs s))%nat as Hlt by (by eapply lookup_lt_Some).
  assert (pinned s b <-> b_dirty bf = true) as Hpin.
  { split; [|intros; by exists i, bf]. intros (j & bg & Hj & Hdg & Hbg & Hdd).
    assert (j = i) as -> by (apply (bw_uniq _ Hw j i bg bf); congruence). congruence. }
  assert (view s b = b_data bf) as Hvb by (rewrite <- Hb; by apply (view_cached s i)).
  unfold brelse. rewrite (the_buf_eq s i bf) by done. cbn [obind]. rewrite Hlk. unfold holdingsleep. cbn [sl_locked sl_pid andb].
  rewrite Z.eqb_refl. cbn [negb b_refcnt]. rewrite Hr. cbn [Z.sub Z.eqb]. change (1 - 1 =? 0) with true. cbv iota.
  eexists. split; [done|]. set (bf' := Buf _ _ _ _ _ _ _).
  set (s1 := set_buf i bf' s).
  assert (bwf s1) as Hw1.
  { eapply set_buf_wf; [done|done| |].
    - split; cbn; [left; split; [lia|done]|done|done|].
      intros _ Hdd _. rewrite Hb. destruct Hsy as [Hp|Hp]; [|congruence]. apply Hpin in Hp. congruence.
    - intros _ j bg Hne Hj Hdg Hbg. apply Hne, (bw_uniq _ Hw j i bg bf); cbn in *; congruence. }
  set (s' := Bst (bufs s1) (i :: filter (fun j => j <> i) (order s)) (disk s1) (disksize s1) (writes s1)).
  assert (bwf s') as Hw'.
  { split; [|apply (bw_uniq _ Hw1)|apply (bw_buf _ Hw1)].
    cbn. rewrite length_insert. rewrite (bw_order _ Hw).
    apply NoDup_Permutation.
    - apply NoDup_cons. split; [|apply NoDup_filter, NoDup_seq]. rewrite list_elem_of_filter. tauto.
    - apply NoDup_seq.
    - intros j. rewrite elem_of_cons, list_elem_of_filter, list_elem_of_In, in_seq.
      destruct (decide (j = i)); [subst; naive_solver lia|naive_solver]. }
  assert (forall c, view s' c = view s c) as HV.
  { intros c. rewrite (view_ext s1 s') by done. unfold s1. rewrite (view_set_buf i bf) by done. cbn.
    case_decide as H1; [|done]. destruct H1 as [_ <-]. by rewrite Hb. }
  assert (forall c, pinned s1 c <-> pinned s c) as HP.
  { intros c. unfold s1. rewrite (pinned_set_buf i bf), (pinned_split i bf) by done. done. }
  assert (forall j c, c <> b -> holds s1 j c <-> holds s j c) as HH.
  { intros j c Hcb. unfold s1. rewrite (holds_set_buf i bf) by done. cbn. split; [naive_solver lia|].
    intros Hh. right. split; [|done]. intros ->. destruct Hh as (bg & Hj & _ & ? & _). congruence. }
  assert (forall j, ~ holds s1 j b) as HN.
  { intros j. unfold s1. rewrite (holds_set_buf i bf) by done. cbn.
    intros [(_ & _ & _ & ?)|(Hne & bg & Hj & Hdg & Hbg & _)]; [lia|].
    apply Hne, (bw_uniq _ Hw j i bg bf); congruence. }
  split; [done|]. split; [split|].
  - done.
  - intros c _. apply HV.
  - intros c Hcb. exact (HP c).
  - intros j c Hcb. rewrite <- (HH j c Hcb). done.
  - done.
  - split; [exact HN|]. split; [apply HV|]. split; [done|]. split; [done|]. split; [exact (HP b)|].
    assert (spare s1 = spare s + b2z (negb (b_dirty bf))) as HS.
    { unfold s1. rewrite (spare_set_buf i bf) by done.
      assert (recyclable bf = false) as -> by (unfold recyclable; by rewrite Hr).
      assert (recyclable bf' = negb (b_dirty bf)) as -> by done.
      cbn. lia. }
    rewrite Hpin. split; intros Hdd; (etrans; [exact HS|]).
    + rewrite Hdd. cbn. lia.
    + apply not_true_is_false in Hdd. rewrite Hdd. cbn. lia.
Qed.

(** The state after the contents of [bf], which is in buffer [i], went to disk. *)
Definition flushed i bf s : bst :=
  Bst (<[i := bf]> (bufs s)) (order s) (<[b_blockno bf := b_data bf]> (disk s)) (disksize s) (writes s ++ [(b_blockno bf, b_data bf)]).

Section Flush.
Context (s : bst) (i : nat) (b : Z) (bf : buf).
Context (Hw : bwf s) (Hi : bufs s !! i = Some bf) (Hd : b_dev bf = 1) (Hb : b_blockno bf = b) (Hr : b_refcnt bf = 1) (Hrange : 0 <= b < disksize s).
Let bf' : buf := Buf true false 1 b (Sleeplock true me) 1 (b_data bf).
Let s' : bst := flushed i bf' s.

Lemma flushed_lookup j bg : bufs s' !! j = Some bg <-> (j = i /\ bg = bf') \/ (j <> i /\ bufs s !! j = Some bg).
Proof. change (bufs s') with (bufs (set_buf i bf' s)). apply lookup_set_buf. by eapply lookup_lt_Some. Qed.

Lemma flushed_disk c : c <> b -> dblk (disk s') c = dblk (disk s) c.
Proof. intros Hcb. unfold dblk, s', flushed. cbn. by rewrite lookup_insert_ne. Qed.

Lemma flushed_wf : bwf s'.
Proof.
  split.
  - cbn. rewrite length_insert. apply Hw.
  - intros j k bg bh [[-> ->]|[Hj Hj']]%flushed_lookup [[-> ->]|[Hk Hk']]%flushed_lookup Hdg Hdh E; [done| | |by eapply (bw_uniq _ Hw)].
    + exfalso. apply Hk, (bw_uniq _ Hw k i bh bf); cbn in *; congruence.
    + exfalso. apply Hj, (bw_uniq _ Hw j i bg bf); cbn in *; congruence.
  - intros j bg [[-> ->]|[Hj Hj']]%flushed_lookup.
    + split; cbn; [right; done|done|done|lia].
    + destruct (bw_buf _ Hw j bg Hj') as [L1 L2 L3 L4]. split; [done|done|done|].
      intros Hdg Hdd Hrg. rewrite L4 by done. symmetry. apply flushed_disk. intros E. apply Hj, (bw_uniq _ Hw j i bg bf); congruence.
Qed.

Lemma flushed_view c : view s' c = view s c.
Proof.
  destruct (decide (c = b)) as [->|Hcb].
  - rewrite (view_cached' s i bf b) by done. apply (view_cached s' i bf'); [exact flushed_wf| |done]. apply flushed_lookup. by left.
  - destruct (cached_dec s c Hw) as [(j & bg & Hj & Hdg & Hbg)|Hn].
    + assert (j <> i) by congruence. rewrite <- Hbg. rewrite (view_cached s j) by done.
      apply (view_cached s' j); [exact flushed_wf| |done]. apply flushed_lookup. by right.
    + rewrite (view_absent s) by done. rewrite (view_absent s'); [by apply flushed_disk|exact flushed_wf|].
      intros j bg [[-> ->]|[_ Hj]]%flushed_lookup Hdg; [cbn; congruence|by eapply Hn].
Qed.

Lemma flushed_frame : bframe s s' b.
Proof.
  split; [done| | | |exact flushed_disk].
  - intros c _. apply flushed_view.
  - intros c Hcb. unfold pinned. setoid_rewrite flushed_lookup. split.
    + intros (j & bg & [[-> ->]|[_ Hj]] & H); [by destruct H as (_ & _ & ?)|]. by exists j, bg.
    + intros (j & bg & Hj & H1 & H2 & H3). exists j, bg. split; [|done]. right. split; [|done]. intros ->. congruence.
  - intros j c Hcb. unfold holds. setoid_rewrite flushed_lookup. split.
    + intros (bg & [[-> ->]|[_ Hj]] & H); [cbn in H; destruct H as (_ & ? & _); congruence|]. by exists bg.
    + intros (bg & Hj & H1 & H2 & H3). exists bg. split; [|done]. right. split; [|done]. intros ->. congruence.
Qed.

Lemma flushed_unpinned : ~ pinned s' b.
Proof. intros (j & bg & [[-> ->]|[Hne Hj]]%flushed_lookup & H1 & H2 & H3); [done|]. apply Hne, (bw_uniq _ Hw j i bg bf); congruence. Qed.

Lemma flushed_spare : spare s' = spare s.
Proof.
  change (spare (set_buf i bf' s) = spare s). rewrite (spare_set_buf i bf) by done.
  assert (recyclable bf = false) as -> by (unfold recyclable; by rewrite Hr). cbn. lia.
Qed.
End Flush.

(** [bwrite] makes the disk agree with the view of the block. *)
Lemma bwrite_spec s i b :
  bwf s -> holds s i b ->
  exists s', bwrite me i s = Ok s' /\ bwf s' /\ bframe s s' b /\ holds s' i b /\ view s' b = view s b
    /\ disk s' = <[b := view s b]> (disk s)
    /\ writes s' = writes s ++ [(b, view s b)] /\ ~ pinned s' b /\ spare s' = spare s.
Proof.
  intros Hw (bf & Hi & Hd & Hb & Hr). destruct (bw_buf _ Hw i bf Hi) as [Hl Hdy Hv Hc].
  destruct Hl as [[? _]|(_ & Hlk & _)]; [lia|]. destruct (Hv Hd) as [Hvl Hrange].
  rewrite (view_cached' s i bf b) by done.
  unfold bwrite. rewrite (the_buf_eq s i bf) by done. cbn [obind]. rewrite Hlk. unfold holdingsleep. cbn [sl_locked sl_pid andb].
  rewrite Z.eqb_refl. cbn [negb]. unfold iderw. rewrite (the_buf_set s i bf) by done. cbn [obind set_dirty b_lock b_dirty b_valid b_dev b_blockno b_data b_refcnt].
  rewrite Hlk. unfold holdingsleep. cbn [sl_locked sl_pid andb]. rewrite Z.eqb_refl, andb_false_r, Hd. cbn [negb Z.eqb Pos.eqb].
  destruct (Z.leb_spec (disksize (set_buf i (set_dirty bf) s)) (b_blockno bf)) as [Hle|_]; [cbn in Hle; lia|].
  exists (flushed i (Buf true false 1 b (Sleeplock true me) 1 (b_data bf)) s).
  split; [unfold set_buf, flushed; cbn; by rewrite list_insert_insert_eq, Hb, Hr|].
  rewrite Hb in Hrange. split; [by apply (flushed_wf s i b bf)|]. split; [by apply (flushed_frame s i b bf)|].
  split; [eexists; split; [apply (flushed_lookup s i b bf); [done|by left]|done]|].
  split; [rewrite (flushed_view s i b bf) by done; by apply (view_cached' s i)|]. split; [done|]. split; [done|].
  split; [by apply (flushed_unpinned s i b bf)|by apply (flushed_spare s i b bf)].
Qed.

(** * The number of buffers *)

Lemma set_buf_length i bf s : length (bufs (set_buf i bf s)) = length (bufs s).
Proof. apply length_insert. Qed.

Lemma lock_buf_length i s s' : lock_buf me i s = Ok s' -> length (bufs s') = length (bufs s).
Proof.
  unfold lock_buf. intros H. inv_bind. destruct (acquiresleep _ _); [|done]. injection H as <-. apply set_buf_length.
Qed.

Lemma iderw_length i s s' : iderw me i s = Ok s' -> length (bufs s') = length (bufs s).
Proof.
  unfold iderw. intros H. inv_bind. 
  destruct (negb (holdingsleep _ _)); [done|]. destruct (b_valid r && _); [done|]. destruct (negb (b_dev r =? 1)); [done|].
  destruct (_ <=? _); [done|]. destruct (b_dirty r); injection H as <-; apply length_insert.
Qed.

Lemma bread_length dev b s i s' : bread me dev b s = Ok (i, s') -> length (bufs s') = length (bufs s).
Proof.
  unfold bread. intros H. inv_bind. destruct r as [j s1].
  assert (length (bufs s1) = length (bufs s)) as Hl.
  { unfold bget in E. destruct (scan _ _ _); [|destruct (scan _ _ _); [|done]]; inv_bind;
      match goal with Hl : lock_buf _ _ _ = _ |- _ => apply lock_buf_length in Hl; rewrite set_buf_length in Hl end; congruence. }
  inv_bind. destruct (negb _); inv_bind; injection H as <- <-; [|done].
  match goal with Hl : iderw _ _ _ = _ |- _ => apply iderw_length in Hl end. congruence.
Qed.

Lemma set_data_length i d s s' : set_data i d s = Ok s' -> length (bufs s') = length (bufs s).
Proof. unfold set_data. intros H. inv_bind. injection H as <-. apply set_buf_length. Qed.

Lemma bwrite_length i s s' : bwrite me i s = Ok s' -> length (bufs s') = length (bufs s).
Proof.
  unfold bwrite. intros H. inv_bind. destruct (negb _); [done|]. apply iderw_length in H. by rewrite H, set_buf_length.
Qed.

Lemma brelse_length i s s' : brelse me i s = Ok s' -> length (bufs s') = length (bufs s).
Proof.
  unfold brelse. intros H. inv_bind. destruct (negb _); [done|]. destruct (_ =? 0); injection H as <-; apply length_insert.
Qed.

(** With nothing held and nothing pinned, every buffer can be recycled. *)
Lemma spare_all s : bwf s -> (forall j c, ~ holds s j c) -> (forall c, ~ pinned s c) -> spare s = Z.of_nat (length (bufs s)).
Proof.
  intros Hw Hh Hp. unfold spare. rewrite filter_Forall; [done|]. apply Forall_forall. intros bf Hin.
  apply list_elem_of_lookup in Hin as [i Hi]. destruct (bw_buf _ Hw i bf Hi) as [Hl Hd _ _].
  apply recyclable_spec. destruct Hl as [[Hr _]|(Hr & _ & Hdv)].
  - split; [done|]. destruct (b_dirty bf) eqn:E; [|done]. exfalso. apply (Hp (b_blockno bf)). exists i, bf. auto.
  - exfalso. apply (Hh i (b_blockno bf)). by exists bf.
Qed.

End Theory.
