(* ===== verification/Log.v ===== *)
(** log.c: the write-ahead log over the buffer cache, with [readsb] of fs.c.
    The in-memory header [log.lh] is the list of its first [n] block numbers.
    A call runs from one [sleep] to the next as one step. *)
From S2P Require Import Prelude Mem Spinlock Bio.

Definition LOGSIZE : Z := 30.

(** [struct superblock]. *)
Record superblock := Superblock {
  sb_size : Z;
  sb_nblocks : Z;
  sb_ninodes : Z;
  sb_nlog : Z;
  sb_logstart : Z;
  sb_inodestart : Z;
  sb_bmapstart : Z
}.

Record lst := Lst {
  cache : bst;
  log_start : Z;
  log_size : Z;
  outstanding : Z;
  committing : bool;
  lh : list Z
}.

Definition set_cache (s : bst) (l : lst) : lst :=
  Lst s (log_start l) (log_size l) (outstanding l) (committing l) (lh l).
Definition set_lh (h : list Z) (l : lst) : lst :=
  Lst (cache l) (log_start l) (log_size l) (outstanding l) (committing l) h.
Definition set_outstanding (n : Z) (l : lst) : lst :=
  Lst (cache l) (log_start l) (log_size l) n (committing l) (lh l).
Definition set_committing (b : bool) (l : lst) : lst :=
  Lst (cache l) (log_start l) (log_size l) (outstanding l) b (lh l).

Definition decode_sb (d : mem) : superblock :=
  Superblock (ld32 d 0) (ld32 d 4) (ld32 d 8) (ld32 d 12) (ld32 d 16) (ld32 d 20) (ld32 d 24).

Section Log.
Context (me : Z).

(** The data of buffer [i]. *)
Definition data_of (i : nat) (s : bst) : outcome mem := let! bf := the_buf i s in Ok (b_data bf).

Definition readsb (s : bst) : outcome (superblock * bst) :=
  let! (i, s) := bread me ROOTDEV 1 s in
  let! d := data_of i s in
  let! s := brelse me i s in
  Ok (decode_sb d, s).

(** [install_trans], from [tail], with the block numbers still to install. *)
Fixpoint install_trans (start tail : Z) (blocks : list Z) (s : bst) : outcome bst :=
  match blocks with
  | [] => Ok s
  | b :: blocks =>
      let! (lbuf, s) := bread me ROOTDEV (start + tail + 1) s in
      let! (dbuf, s) := bread me ROOTDEV b s in
      let! d := data_of lbuf s in
      let! s := set_data dbuf d s in
      let! s := bwrite me dbuf s in
      let! s := brelse me lbuf s in
      let! s := brelse me dbuf s in
      install_trans start (tail + 1) blocks s
  end.

(** The block numbers [lh->block[i]], [n] of them from [i]. *)
Fixpoint header_blocks (d : mem) (n : nat) (i : Z) : list Z :=
  match n with
  | O => []
  | S n => s32 (ld32 d (4 + 4 * i)) :: header_blocks d n (i + 1)
  end.

(** [log.lh.block] has LOGSIZE entries. *)
Definition read_head (start : Z) (s : bst) : outcome (list Z * bst) :=
  let! (i, s) := bread me ROOTDEV start s in
  let! d := data_of i s in
  let n := s32 (ld32 d 0) in
  if LOGSIZE <? n then UB "read_head: block array overflow"
  else
    let! s := brelse me i s in
    Ok (header_blocks d (Z.to_nat n) 0, s).

(** [hb->block[i] = log.lh.block[i]], from [i]. *)
Fixpoint put_blocks (d : mem) (i : Z) (blocks : list Z) : mem :=
  match blocks with
  | [] => d
  | b :: blocks => put_blocks (st32 d (4 + 4 * i) b) (i + 1) blocks
  end.

Definition put_head (d : mem) (blocks : list Z) : mem :=
  put_blocks (st32 d 0 (Z.of_nat (length blocks))) 0 blocks.

Definition write_head (start : Z) (blocks : list Z) (s : bst) : outcome bst :=
  let! (i, s) := bread me ROOTDEV start s in
  let! d := data_of i s in
  let! s := set_data i (put_head d blocks) s in
  let! s := bwrite me i s in
  brelse me i s.

Definition recover_from_log (l : lst) : outcome lst :=
  let! (blocks, s) := read_head (log_start l) (cache l) in
  let! s := install_trans (log_start l) 0 blocks s in
  let! s := write_head (log_start l) [] s in
  Ok (set_lh [] (set_cache s l)).

(** [initlog] on the zeroed [log]; the header of 124 bytes fits a block. *)
Definition initlog (s : bst) : outcome lst :=
  let! (sb, s) := readsb s in
  recover_from_log (Lst s (s32 (sb_logstart sb)) (s32 (sb_nlog sb)) 0 false []).

(** [begin_op], or [None] when it sleeps on [&log]. *)
Definition begin_op (l : lst) : option lst :=
  if committing l then None
  else if LOGSIZE <? Z.of_nat (length (lh l)) + (outstanding l + 1) * MAXOPBLOCKS then None
  else Some (set_outstanding (outstanding l + 1) l).

(** [write_log], from [tail], with the block numbers still to copy. *)
Fixpoint write_log (start tail : Z) (blocks : list Z) (s : bst) : outcome bst :=
  match blocks with
  | [] => Ok s
  | b :: blocks =>
      let! (to, s) := bread me ROOTDEV (start + tail + 1) s in
      let! (from, s) := bread me ROOTDEV b s in
      let! d := data_of from s in
      let! s := set_data to d s in
      let! s := bwrite me to s in
      let! s := brelse me from s in
      let! s := brelse me to s in
      write_log start (tail + 1) blocks s
  end.

Definition commit (l : lst) : outcome lst :=
  match lh l with
  | [] => Ok l
  | _ =>
      let! s := write_log (log_start l) 0 (lh l) (cache l) in
      let! s := write_head (log_start l) (lh l) s in
      let! s := install_trans (log_start l) 0 (lh l) s in
      let! s := write_head (log_start l) [] s in
      Ok (set_lh [] (set_cache s l))
  end.

Definition end_op (l : lst) : outcome lst :=
  let l := set_outstanding (outstanding l - 1) l in
  if committing l then Panic "log.committing"
  else if outstanding l =? 0 then
    let! l := commit (set_committing true l) in
    Ok (set_committing false l)
  else Ok l.

(** The loop of [log_write]: the index of [b], or [n]. *)
Fixpoint log_index (b : Z) (blocks : list Z) (i : nat) : nat :=
  match blocks with
  | [] => i
  | c :: blocks => if c =? b then i else log_index b blocks (S i)
  end.

Definition log_write (i : nat) (l : lst) : outcome lst :=
  let n := Z.of_nat (length (lh l)) in
  if (LOGSIZE <=? n) || (log_size l - 1 <=? n) then Panic "too big a transaction"
  else if outstanding l <? 1 then Panic "log_write outside of trans"
  else
    let! bf := the_buf i (cache l) in
    let k := log_index (b_blockno bf) (lh l) 0 in
    let h := if decide (k = length (lh l)) then lh l ++ [b_blockno bf] else <[k := b_blockno bf]> (lh l) in
    Ok (set_lh h (set_cache (set_buf i (set_dirty bf) (cache l)) l)).

End Log.
