(* ===== verification/LogTheory.v ===== *)
(** The disk writes that commit and recovery make, in order, and what they do
    to the disk and to the view of the cache. *)
From S2P Require Import Prelude Mem Spinlock Bio BioTheory Log.

(** A list of block writes applied to a disk, or to one block's content. *)
Definition apply_writes (d : gmap Z mem) (W : list (Z * mem)) : gmap Z mem :=
  foldl (fun d w => <[w.1 := w.2]> d) d W.

Definition lw (W : list (Z * mem)) (c : Z) (x : mem) : mem :=
  foldl (fun x w => if decide (w.1 = c) then w.2 else x) x W.

Lemma dblk_apply_writes W : forall d c, dblk (apply_writes d W) c = lw W c (dblk d c).
Proof.
  induction W as [|[b x] W IH]; intros d c; cbn; [done|]. rewrite IH. f_equal. unfold dblk.
  case_decide as E; [subst; by rewrite lookup_insert_eq|by rewrite lookup_insert_ne].
Qed.

Lemma lw_app W1 W2 c x : lw (W1 ++ W2) c x = lw W2 c (lw W1 c x).
Proof. apply foldl_app. Qed.

Lemma lw_cons b d W c x : lw ((b, d) :: W) c x = lw W c (if decide (b = c) then d else x).
Proof. done. Qed.

Lemma lw_notin W : forall c x, c ∉ W.*1 -> lw W c x = x.
Proof.
  induction W as [|[b d] W IH]; intros c x; cbn; [done|]. rewrite not_elem_of_cons. intros [Hne Hin].
  rewrite decide_False by done. by apply IH.
Qed.

Lemma lw_in W : forall c x y, c ∈ W.*1 -> lw W c x = lw W c y.
Proof.
  induction W as [|[b d] W IH]; intros c x y; cbn; [by intros ?%not_elem_of_nil|].
  rewrite elem_of_cons. case_decide as E; [done|]. intros [->|H]; [done|]. by apply IH.
Qed.

Section Theory.
Context (me : Z).

(** Nothing is held between the steps of a commit. *)
Definition idle (s : bst) : Prop := forall j c, ~ holds s j c.

(** The state after a sequence [W] of synchronous block writes. *)
Record wrote (s s' : bst) (W : list (Z * mem)) : Prop := {
  wr_wf : bwf me s';
  wr_idle : idle s';
  wr_size : disksize s' = disksize s;
  wr_disk : disk s' = apply_writes (disk s) W;
  wr_writes : writes s' = writes s ++ W;
  wr_view c : view s' c = lw W c (view s c);
  wr_pinned c : pinned s' c <-> c ∉ W.*1 /\ pinned s c;
  wr_spare : spare s <= spare s'
}.

Lemma wrote_refl s : bwf me s -> idle s -> wrote s s [].
Proof.
  intros Hw Hi. split; try done; [by rewrite app_nil_r|].
  intros c. cbn. rewrite elem_of_nil. tauto.
Qed.

Lemma wrote_trans s1 s2 s3 W1 W2 : wrote s1 s2 W1 -> wrote s2 s3 W2 -> wrote s1 s3 (W1 ++ W2).
Proof.
  intros [A1 A2 A3 A4 A5 A6 A7 A8] [B1 B2 B3 B4 B5 B6 B7 B8]. split; try done.
  - congruence.
  - rewrite B4, A4. unfold apply_writes. by rewrite foldl_app.
  - by rewrite B5, A5, app_assoc.
  - intros c. by rewrite B6, A6, lw_app.
  - intros c. rewrite B7, A7, fmap_app, elem_of_app. tauto.
  - lia.
Qed.

(** A block outside the cache's holders can be read. *)
Definition in_disk (s : bst) (b : Z) : Prop := 0 <= b < disksize s.

Lemma data_of_holds s i b : bwf me s -> holds s i b -> data_of i s = Ok (view s b).
Proof.
  intros Hw (bf & Hi & Hd & Hb & _). unfold data_of. rewrite (the_buf_eq s i bf) by done. cbn.
  f_equal. rewrite <- Hb. symmetry. by apply (view_cached me s i).
Qed.

(** Reading a block, changing it and writing it out, with no other block held. *)
Lemma rewrite_block s b (f : mem -> mem) :
  bwf me s -> idle s -> in_disk s b -> 1 <= spare s ->
  exists s', (let! (i, s) := bread me ROOTDEV b s in
              let! d := data_of i s in
              let! s := set_data i (f d) s in
              let! s := bwrite me i s in
              brelse me i s) = Ok s' /\ wrote s s' [(b, f (view s b))].
Proof.
  intros Hw Hi Hb Hsp. unfold ROOTDEV.
  destruct (bread_spec me s b Hw Hb (fun j => Hi j b)) as (i & s1 & -> & Hw1 & F1 & Hh1 & Hv1 & Hd1 & Hwr1 & Hp1 & _ & Hsa & Hsb); [right; lia|].
  cbn [obind]. rewrite (data_of_holds s1 i b) by done. cbn [obind].
  destruct (set_data_spec me s1 i b (f (view s1 b)) Hw1 Hh1) as (s2 & -> & Hw2 & F2 & Hh2 & Hv2 & Hd2 & Hwr2 & Hp2 & Hs2).
  cbn [obind].
  destruct (bwrite_spec me s2 i b Hw2 Hh2) as (s3 & -> & Hw3 & F3 & Hh3 & Hv3 & Hd3 & Hwr3 & Hp3 & Hs3).
  cbn [obind].
  destruct (brelse_spec me s3 i b Hw3 Hh3) as (s4 & -> & Hw4 & F4 & Hh4 & Hv4 & Hd4 & Hwr4 & Hp4 & _ & Hs4).
  { right. rewrite Hd3, Hv3. unfold dblk. by rewrite lookup_insert_eq. }
  exists s4. split; [done|]. specialize (Hs4 Hp3).
  assert (view s2 b = f (view s b)) as E by (rewrite Hv2; congruence).
  split.
  - done.
  - intros j c Hh. destruct (decide (c = b)) as [->|Hne]; [by apply (Hh4 j)|].
    apply (bf_holds _ _ _ F4), (bf_holds _ _ _ F3), (bf_holds _ _ _ F2), (bf_holds _ _ _ F1) in Hh; [|done..].
    by apply (Hi j c).
  - rewrite (bf_size _ _ _ F4), (bf_size _ _ _ F3), (bf_size _ _ _ F2). apply F1.
  - cbn. rewrite Hd4, Hd3, Hd2, Hd1. by rewrite E.
  - rewrite Hwr4, Hwr3, Hwr2, Hwr1. by rewrite E.
  - intros c. cbn. case_decide as Hc; [subst; rewrite Hv4, Hv3; done|].
    rewrite (bf_view _ _ _ F4), (bf_view _ _ _ F3), (bf_view _ _ _ F2), (bf_view _ _ _ F1); done.
  - intros c. cbn. rewrite list_elem_of_singleton. destruct (decide (c = b)) as [->|Hne]; [tauto|].
    rewrite (bf_pinned _ _ _ F4), (bf_pinned _ _ _ F3), (bf_pinned _ _ _ F2), (bf_pinned _ _ _ F1) by done. tauto.
  - destruct (pinned_dec me s b Hw) as [Hp|Hp]; [specialize (Hsa Hp)|specialize (Hsb Hp)]; lia.
Qed.

(** A block nobody holds is pinned or the same on disk. *)
Lemma view_clean s c : bwf me s -> idle s -> pinned s c \/ view s c = dblk (disk s) c.
Proof.
  intros Hw Hi. destruct (cached_dec me s c Hw) as [(i & bf & Hl & Hd & Hb)|Hn].
  - destruct (b_dirty bf) eqn:Ed; [left; by exists i, bf|right].
    destruct (bw_buf _ _ Hw i bf Hl) as [Hlk _ _ Hc]. rewrite <- Hb, (view_cached me s i bf) by done.
    apply Hc; [done|done|]. destruct Hlk as [[? _]|(Hr & _)]; [done|]. exfalso. apply (Hi i c). by exists bf.
  - right. by apply (view_absent me).
Qed.


(** The buffers two reads take away. *)
Definition cost (s : bst) (b : Z) (n : Z) : Prop := (pinned s b /\ n = 0) \/ (~ pinned s b /\ n = 1).

Lemma cost_exists s b : bwf me s -> exists n, cost s b n /\ 0 <= n <= 1.
Proof.
  intros Hw. destruct (pinned_dec me s b Hw); [exists 0|exists 1]; (split; [|lia]); unfold cost; tauto.
Qed.

(** The state once the blocks [a] and [b] are read. *)
Record read2 (s s2 : bst) (i j : nat) (a b : Z) : Prop := {
  r2_wf : bwf me s2;
  r2_a : holds s2 i a;
  r2_b : holds s2 j b;
  r2_only k c : holds s2 k c -> c = a \/ c = b;
  r2_size : disksize s2 = disksize s;
  r2_view c : view s2 c = view s c;
  r2_disk : disk s2 = disk s;
  r2_writes : writes s2 = writes s;
  r2_pinned c : pinned s2 c <-> pinned s c;
  r2_spare na nb : cost s a na -> cost s b nb -> spare s2 = spare s - na - nb
}.

Lemma bread2 s a b :
  bwf me s -> idle s -> in_disk s a -> in_disk s b -> a <> b -> 2 <= spare s ->
  exists i s1 j s2, bread me ROOTDEV a s = Ok (i, s1) /\ bread me ROOTDEV b s1 = Ok (j, s2) /\ read2 s s2 i j a b.
Proof.
  intros Hw Hi Ha Hb Hne Hsp. unfold ROOTDEV.
  destruct (bread_spec me s a Hw Ha (fun j => Hi j a)) as (i & s1 & E1 & Hw1 & F1 & Hh1 & Hv1 & Hd1 & Hwr1 & Hp1 & _ & Hsa & Hsb); [right; lia|].
  destruct (cost_exists s a Hw) as (na & Hna & Hna1).
  assert (spare s1 = spare s - na) as Hs1.
  { destruct Hna as [[Hp ->]|[Hp ->]]; [rewrite (Hsa Hp)|rewrite (Hsb Hp)]; lia. }
  assert (forall j, ~ holds s1 j b) as Hnb.
  { intros j Hj. apply (bf_holds _ _ _ F1) in Hj; [|done]. by apply (Hi j b). }
  destruct (bread_spec me s1 b Hw1) as (j & s2 & E2 & Hw2 & F2 & Hh2 & Hv2 & Hd2 & Hwr2 & Hp2 & _ & Hsa2 & Hsb2);
    [rewrite (bf_size _ _ _ F1); exact Hb|done|right; lia|].
  assert (forall c, pinned s1 c <-> pinned s c) as HP1.
  { intros c. destruct (decide (c = a)) as [->|]; [done|by apply F1]. }
  exists i, s1, j, s2. split; [done|]. split; [done|]. split.
  - done.
  - apply (bf_holds _ _ _ F2); [done|done].
  - done.
  - intros k c Hk. destruct (decide (c = b)) as [|Hcb]; [by right|].
    apply (bf_holds _ _ _ F2) in Hk; [|done]. destruct (decide (c = a)) as [|Hca]; [by left|].
    apply (bf_holds _ _ _ F1) in Hk; [|done]. by destruct (Hi k c).
  - rewrite (bf_size _ _ _ F2). apply F1.
  - intros c. transitivity (view s1 c).
    + destruct (decide (c = b)) as [->|]; [done|by apply F2].
    + destruct (decide (c = a)) as [->|]; [done|by apply F1].
  - congruence.
  - congruence.
  - intros c. rewrite <- HP1. destruct (decide (c = b)) as [->|]; [done|by apply F2].
  - intros na' nb Hca Hcb. assert (na' = na) as -> by (unfold cost in *; naive_solver).
    rewrite <- Hs1. destruct Hcb as [[Hp ->]|[Hp ->]]; rewrite <- HP1 in Hp; [rewrite (Hsa2 Hp)|rewrite (Hsb2 Hp)]; lia.
Qed.

(** With [dst] and [src] held: copy [src] to [dst], write it, release both. *)
Lemma copy_tail s s2 t f dst src i j a b :
  bwf me s -> idle s -> read2 s s2 i j a b -> dst <> src ->
  ((t = i /\ f = j /\ dst = a /\ src = b) \/ (t = j /\ f = i /\ dst = b /\ src = a)) ->
  exists s', (let! d := data_of f s2 in
              let! s := set_data t d s2 in
              let! s := bwrite me t s in
              let! s := brelse me f s in
              brelse me t s) = Ok s' /\ wrote s s' [(dst, view s src)].
Proof.
  intros Hw Hid [R1 Ra Rb Ro R2 R3 R4 R5 R6 R7] Hne Hperm.
  assert (holds s2 t dst /\ holds s2 f src) as [Ht Hf] by (destruct Hperm as [(->&->&->&->)|(->&->&->&->)]; done).
  assert (forall k c, holds s2 k c -> c = dst \/ c = src) as Ronly.
  { intros k c Hk. destruct (Ro k c Hk), Hperm as [(_&_&->&->)|(_&_&->&->)]; auto. }
  assert (forall nd ns, cost s dst nd -> cost s src ns -> spare s2 = spare s - nd - ns) as Hcost.
  { intros nd ns Hnd Hns. destruct Hperm as [(_&_&->&->)|(_&_&->&->)]; [by apply R7|]. rewrite (R7 ns nd) by done. lia. }
  rewrite (data_of_holds s2 f src) by done. cbn [obind].
  destruct (set_data_spec me s2 t dst (view s2 src) R1 Ht) as (s3 & -> & Hw3 & F3 & Hh3 & Hv3 & Hd3 & Hwr3 & Hp3 & Hs3).
  cbn [obind].
  destruct (bwrite_spec me s3 t dst Hw3 Hh3) as (s4 & -> & Hw4 & F4 & Hh4 & Hv4 & Hd4 & Hwr4 & Hp4 & Hs4).
  cbn [obind].
  assert (holds s4 f src) as Hf4 by (apply (bf_holds _ _ _ F4), (bf_holds _ _ _ F3); done).
  assert (pinned s4 src <-> pinned s src) as Hp4s.
  { rewrite (bf_pinned _ _ _ F4), (bf_pinned _ _ _ F3) by done. apply R6. }
  assert (view s4 src = view s src) as Hv4s by (rewrite (bf_view _ _ _ F4), (bf_view _ _ _ F3) by done; apply R3).
  destruct (brelse_spec me s4 f src Hw4 Hf4) as (s5 & -> & Hw5 & F5 & Hh5 & Hv5 & Hd5 & Hwr5 & Hp5 & Hs5a & Hs5b).
  { rewrite Hp4s, Hv4s. rewrite (bf_disk _ _ _ F4), (bf_disk _ _ _ F3), R4 by done. by apply view_clean. }
  cbn [obind].
  assert (holds s5 t dst) as Ht5 by (by apply (bf_holds _ _ _ F5)).
  assert (~ pinned s5 dst) as Hp5d by (by rewrite (bf_pinned _ _ _ F5)).
  assert (view s5 dst = view s src) as Hv5d by (rewrite (bf_view _ _ _ F5), Hv4, Hv3 by done; apply R3).
  destruct (brelse_spec me s5 t dst Hw5 Ht5) as (s6 & -> & Hw6 & F6 & Hh6 & Hv6 & Hd6 & Hwr6 & Hp6 & _ & Hs6).
  { right. rewrite Hv5d, Hd5, Hd4, Hv3, R3. unfold dblk. by rewrite lookup_insert_eq. }
  exists s6. split; [done|]. specialize (Hs6 Hp5d). split.
  - done.
  - intros k c Hk. destruct (decide (c = dst)) as [->|Hcd]; [by apply (Hh6 k)|].
    apply (bf_holds _ _ _ F6) in Hk; [|done]. destruct (decide (c = src)) as [->|Hcs]; [by apply (Hh5 k)|].
    apply (bf_holds _ _ _ F5), (bf_holds _ _ _ F4), (bf_holds _ _ _ F3) in Hk; [|done..].
    by destruct (Ronly k c Hk).
  - rewrite (bf_size _ _ _ F6), (bf_size _ _ _ F5), (bf_size _ _ _ F4), (bf_size _ _ _ F3). apply R2.
  - cbn. by rewrite Hd6, Hd5, Hd4, Hd3, Hv3, R3, R4.
  - by rewrite Hwr6, Hwr5, Hwr4, Hwr3, Hv3, R3, R5.
  - intros c. cbn. case_decide as Hc; [subst c; by rewrite Hv6|].
    rewrite (bf_view _ _ _ F6) by done. destruct (decide (c = src)) as [->|Hcs]; [by rewrite Hv5|].
    rewrite (bf_view _ _ _ F5), (bf_view _ _ _ F4), (bf_view _ _ _ F3) by done. apply R3.
  - intros c. cbn. rewrite list_elem_of_singleton. destruct (decide (c = dst)) as [->|Hcd]; [tauto|].
    rewrite (bf_pinned _ _ _ F6) by done. destruct (decide (c = src)) as [->|Hcs]; [tauto|].
    rewrite (bf_pinned _ _ _ F5), (bf_pinned _ _ _ F4), (bf_pinned _ _ _ F3), R6 by done. tauto.
  - destruct (cost_exists s dst Hw) as (nd & Hnd & ?), (cost_exists s src Hw) as (ns & Hns & ?).
    specialize (Hcost nd ns Hnd Hns).
    assert (spare s5 = spare s4 + ns).
    { destruct Hns as [[Hp ->]|[Hp ->]]; rewrite <- Hp4s in Hp; [rewrite (Hs5a Hp)|rewrite (Hs5b Hp)]; lia. }
    lia.
Qed.

(** The writes of [write_log] and of [install_trans]. *)
Fixpoint log_writes (start tail : Z) (blocks : list Z) (v : Z -> mem) : list (Z * mem) :=
  match blocks with
  | [] => []
  | b :: blocks => (start + tail + 1, v b) :: log_writes start (tail + 1) blocks v
  end.

Fixpoint home_writes (start tail : Z) (blocks : list Z) (v : Z -> mem) : list (Z * mem) :=
  match blocks with
  | [] => []
  | b :: blocks => (b, v (start + tail + 1)) :: home_writes start (tail + 1) blocks v
  end.

(** The log occupies [nlog] blocks from [start], the first one its header. *)
Definition in_log (start nlog b : Z) : Prop := start <= b < start + nlog.

(** The blocks of a transaction: distinct, on the disk, outside the log. *)
Record layout (size start nlog : Z) (blocks : list Z) : Prop := {
  lo_start : 0 <= start /\ 0 < nlog /\ start + nlog <= size;
  lo_nodup : NoDup blocks;
  lo_home b : b ∈ blocks -> 0 <= b < size /\ ~ in_log start nlog b
}.

Lemma layout_tail size start nlog b blocks : layout size start nlog (b :: blocks) -> layout size start nlog blocks.
Proof.
  intros [H1 H2 H3]. apply NoDup_cons in H2 as [_ H2]. split; [done|done|]. intros c Hc. apply H3. by right.
Qed.

Lemma log_writes_ext start blocks v v' : forall tail,
  (forall b, b ∈ blocks -> v b = v' b) -> log_writes start tail blocks v = log_writes start tail blocks v'.
Proof.
  induction blocks as [|b blocks IH]; intros tail H; cbn; [done|].
  rewrite (H b) by (by left). f_equal. apply IH. intros c Hc. apply H. by right.
Qed.

Lemma log_writes_fst start blocks v c : forall tail,
  c ∈ (log_writes start tail blocks v).*1 <-> exists k, 0 <= k < Z.of_nat (length blocks) /\ c = start + tail + 1 + k.
Proof.
  induction blocks as [|b blocks IH]; intros tail; cbn [log_writes].
  - rewrite fmap_nil, elem_of_nil. split; [done|]. intros (k & ? & _). cbn in *. lia.
  - rewrite fmap_cons, elem_of_cons, IH. cbn [length fst]. split.
    + intros [->|(k & Hk & ->)]; [exists 0|exists (k + 1)]; lia.
    + intros (k & Hk & ->). destruct (Z.eq_dec k 0) as [->|]; [left; lia|right]. exists (k - 1). lia.
Qed.

Lemma home_writes_fst start blocks v : forall tail, (home_writes start tail blocks v).*1 = blocks.
Proof. induction blocks as [|b blocks IH]; intros tail; cbn; [done|]. f_equal. apply IH. Qed.

Lemma home_writes_ext start blocks v v' : forall tail,
  (forall k, 0 <= k < Z.of_nat (length blocks) -> v (start + tail + 1 + k) = v' (start + tail + 1 + k)) ->
  home_writes start tail blocks v = home_writes start tail blocks v'.
Proof.
  induction blocks as [|b blocks IH]; intros tail H; cbn [home_writes]; [done|]. cbn [length] in H.
  pose proof (H 0 ltac:(lia)) as H0. rewrite Z.add_0_r in H0. rewrite H0. f_equal. apply IH.
  intros k Hk. specialize (H (k + 1)). replace (start + (tail + 1) + 1 + k) with (start + tail + 1 + (k + 1)) by lia.
  apply H. lia.
Qed.

Lemma write_log_spec start nlog blocks : forall tail s,
  bwf me s -> idle s -> 2 <= spare s -> layout (disksize s) start nlog blocks ->
  0 <= tail -> tail + Z.of_nat (length blocks) < nlog ->
  exists s', write_log me start tail blocks s = Ok s' /\ wrote s s' (log_writes start tail blocks (view s)).
Proof.
  induction blocks as [|b blocks IH]; intros tail s Hw Hi Hsp Hl Ht Hn; cbn [write_log log_writes length] in *.
  - exists s. split; [done|by apply wrote_refl].
  - pose proof Hl as [Hst Hnd Hh]. destruct (Hh b) as [Hb Hbl]; [by left|]. unfold in_log in *.
    destruct (bread2 s (start + tail + 1) b Hw Hi) as (i & s1 & j & s2 & E1 & E2 & R); [unfold in_disk; lia|done|lia|done|].
    rewrite E1. cbn [obind]. rewrite E2. cbn [obind].
    destruct (copy_tail s s2 i j (start + tail + 1) b i j (start + tail + 1) b Hw Hi R) as (s' & E & W); [lia|by left|].
    apply obind_Ok_inv in E as (d & Ed & E). apply obind_Ok_inv in E as (s3 & Ea & E).
    apply obind_Ok_inv in E as (s4 & Eb & E). apply obind_Ok_inv in E as (s5 & Ec & E).
    rewrite Ed. cbn [obind]. rewrite Ea. cbn [obind]. rewrite Eb. cbn [obind]. rewrite Ec. cbn [obind]. rewrite E. cbn [obind].
    destruct (IH (tail + 1) s') as (s'' & E' & W').
    + apply W.
    + apply W.
    + pose proof (wr_spare _ _ _ W). lia.
    + rewrite (wr_size _ _ _ W). by eapply layout_tail.
    + lia.
    + lia.
    + exists s''. split; [done|]. change ((start + tail + 1, view s b) :: ?x) with ([(start + tail + 1, view s b)] ++ x).
      eapply wrote_trans; [done|]. erewrite log_writes_ext; [done|]. intros c Hc. cbn.
      rewrite (wr_view _ _ _ W). cbn. rewrite decide_False; [done|]. intros <-. destruct (Hh (start + tail + 1)); [by right|lia].
Qed.

Lemma install_trans_spec start nlog blocks : forall tail s,
  bwf me s -> idle s -> 2 <= spare s -> layout (disksize s) start nlog blocks ->
  0 <= tail -> tail + Z.of_nat (length blocks) < nlog ->
  exists s', install_trans me start tail blocks s = Ok s' /\ wrote s s' (home_writes start tail blocks (view s)).
Proof.
  induction blocks as [|b blocks IH]; intros tail s Hw Hi Hsp Hl Ht Hn; cbn [install_trans home_writes length] in *.
  - exists s. split; [done|by apply wrote_refl].
  - pose proof Hl as [Hst Hnd Hh]. destruct (Hh b) as [Hb Hbl]; [by left|]. unfold in_log in *.
    destruct (bread2 s (start + tail + 1) b Hw Hi) as (i & s1 & j & s2 & E1 & E2 & R); [unfold in_disk; lia|done|lia|done|].
    rewrite E1. cbn [obind]. rewrite E2. cbn [obind].
    destruct (copy_tail s s2 j i b (start + tail + 1) i j (start + tail + 1) b Hw Hi R) as (s' & E & W); [lia|by right|].
    apply obind_Ok_inv in E as (d & Ed & E). apply obind_Ok_inv in E as (s3 & Ea & E).
    apply obind_Ok_inv in E as (s4 & Eb & E). apply obind_Ok_inv in E as (s5 & Ec & E).
    rewrite Ed. cbn [obind]. rewrite Ea. cbn [obind]. rewrite Eb. cbn [obind]. rewrite Ec. cbn [obind]. rewrite E. cbn [obind].
    destruct (IH (tail + 1) s') as (s'' & E' & W').
    + apply W.
    + apply W.
    + pose proof (wr_spare _ _ _ W). lia.
    + rewrite (wr_size _ _ _ W). by eapply layout_tail.
    + lia.
    + lia.
    + exists s''. split; [done|]. change ((b, view s (start + tail + 1)) :: ?x) with ([(b, view s (start + tail + 1))] ++ x).
      eapply wrote_trans; [done|]. erewrite home_writes_ext; [done|]. intros k Hk. cbn.
      rewrite (wr_view _ _ _ W). cbn. rewrite decide_False; [done|]. lia.
Qed.

Lemma write_head_spec start blocks s :
  bwf me s -> idle s -> 1 <= spare s -> in_disk s start ->
  exists s', write_head me start blocks s = Ok s' /\ wrote s s' [(start, put_head (view s start) blocks)].
Proof. intros Hw Hi Hsp Hd. apply (rewrite_block s start (fun d => put_head d blocks)); done. Qed.

End Theory.

(** * The on-disk header *)

Lemma ld32_put_blocks blocks : forall d i j,
  0 <= i -> 0 <= j -> (j < i \/ i + Z.of_nat (length blocks) <= j) ->
  ld32 (put_blocks d i blocks) (4 + 4 * j) = ld32 d (4 + 4 * j).
Proof.
  induction blocks as [|b blocks IH]; intros d i j Hi Hj Hr; cbn [put_blocks]; [done|]. cbn [length] in Hr.
  rewrite IH by lia. apply ld32_st32_ne. lia.
Qed.

Lemma ld32_put_blocks_0 blocks : forall d i, 0 <= i -> ld32 (put_blocks d i blocks) 0 = ld32 d 0.
Proof.
  induction blocks as [|b blocks IH]; intros d i Hi; cbn [put_blocks]; [done|].
  rewrite IH by lia. apply ld32_st32_ne. lia.
Qed.

Lemma put_blocks_get blocks : forall d i,
  0 <= i -> Forall (fun b => 0 <= b < 2147483648) blocks ->
  header_blocks (put_blocks d i blocks) (length blocks) i = blocks.
Proof.
  induction blocks as [|b blocks IH]; intros d i Hi HF; cbn [put_blocks header_blocks length]; [done|].
  apply Forall_cons in HF as [Hb HF]. f_equal; [|by apply IH; [lia|]].
  rewrite ld32_put_blocks, ld32_st32_eq by lia. zlia.
Qed.

(** [read_head] reads what [write_head] wrote. *)
Lemma put_head_get d blocks :
  Z.of_nat (length blocks) <= LOGSIZE -> Forall (fun b => 0 <= b < 2147483648) blocks ->
  s32 (ld32 (put_head d blocks) 0) = Z.of_nat (length blocks)
  /\ header_blocks (put_head d blocks) (length blocks) 0 = blocks.
Proof.
  unfold LOGSIZE. intros Hn HF. unfold put_head. split; [|by apply put_blocks_get].
  rewrite ld32_put_blocks_0, ld32_st32_eq by lia. zlia.
Qed.

(** The content of block [b] once recovery has run on the disk [d]. *)
Definition header_of (start : Z) (d : gmap Z mem) : list Z :=
  header_blocks (dblk d start) (Z.to_nat (s32 (ld32 (dblk d start) 0))) 0.

Definition recovered (start : Z) (d : gmap Z mem) (b : Z) : mem :=
  lw (home_writes start 0 (header_of start d) (dblk d)) b (dblk d b).

Lemma header_put start d x blocks :
  dblk d start = put_head x blocks -> Z.of_nat (length blocks) <= LOGSIZE ->
  Forall (fun b => 0 <= b < 2147483648) blocks -> header_of start d = blocks.
Proof.
  intros E Hn HF. unfold header_of. rewrite E. destruct (put_head_get x blocks Hn HF) as [-> H].
  by rewrite Nat2Z.id.
Qed.

Lemma recovered_empty start d b : header_of start d = [] -> recovered start d b = dblk d b.
Proof. unfold recovered. by intros ->. Qed.

Lemma lw_home_writes start blocks v b x : forall tail k,
  NoDup blocks -> blocks !! k = Some b -> lw (home_writes start tail blocks v) b x = v (start + tail + 1 + Z.of_nat k).
Proof.
  induction blocks as [|c blocks IH] in x |- *; intros tail k Hnd Hk; cbn [home_writes]; [done|]. rewrite lw_cons.
  apply NoDup_cons in Hnd as [Hc Hnd]. destruct k as [|k]; cbn in Hk.
  - injection Hk as ->. rewrite decide_True by done. rewrite lw_notin by (by rewrite home_writes_fst). f_equal. lia.
  - rewrite (IH _ (tail + 1) k) by done. f_equal. lia.
Qed.

Lemma lw_log_writes start blocks v x : forall tail k b,
  blocks !! k = Some b -> lw (log_writes start tail blocks v) (start + tail + 1 + Z.of_nat k) x = v b.
Proof.
  induction blocks as [|c blocks IH] in x |- *; intros tail k b Hk; cbn [log_writes]; [done|].
  rewrite lw_cons. destruct k as [|k]; cbn in Hk.
  - injection Hk as ->. rewrite decide_True by lia. apply lw_notin.
    rewrite log_writes_fst. intros (j & Hj & E). lia.
  - rewrite decide_False by lia. replace (start + tail + 1 + Z.of_nat (S k)) with (start + (tail + 1) + 1 + Z.of_nat k) by lia.
    by apply IH.
Qed.

(** A prefix of a list of writes touches a subset of the blocks. *)
Lemma prefix_fst (p q W : list (Z * mem)) c : W = p ++ q -> c ∉ W.*1 -> c ∉ p.*1.
Proof. intros -> H Hc. apply H. rewrite fmap_app, elem_of_app. by left. Qed.

Lemma app_split {A} (W1 W2 p q : list A) :
  W1 ++ W2 = p ++ q -> (exists r, W1 = p ++ r) \/ (exists r, p = W1 ++ r /\ W2 = r ++ q).
Proof.
  revert p. induction W1 as [|a W1 IH]; intros p H.
  - right. exists p. done.
  - destruct p as [|b p]; [left; by exists (a :: W1)|]. injection H as <- H.
    destruct (IH p H) as [[r ->]|(r & -> & ->)]; [left|right]; by exists r.
Qed.
