(* ===== verification/LogProps.v ===== *)
(** Crash safety of the log: a crash at any disk write of a commit, followed
    by recovery, leaves the old or the new contents of every block. *)
From S2P Require Import Prelude Mem Spinlock Bio BioTheory Log LogTheory.

(** The state in which [end_op] commits: nothing is held, the blocks of the
    transaction and no others are pinned, the log on disk is empty. *)
Record ready (me : Z) (l : lst) : Prop := {
  rd_wf : bwf me (cache l);
  rd_idle : idle (cache l);
  rd_spare : 2 <= spare (cache l);
  rd_layout : layout (disksize (cache l)) (log_start l) (log_size l) (lh l);
  rd_size : disksize (cache l) <= 2147483648;
  rd_len : Z.of_nat (length (lh l)) <= LOGSIZE /\ Z.of_nat (length (lh l)) < log_size l;
  rd_pinned c : pinned (cache l) c <-> c ∈ lh l;
  rd_empty : header_of (log_start l) (disk (cache l)) = []
}.

Definition old_state (start nlog : Z) (d0 : gmap Z mem) (d : gmap Z mem) : Prop :=
  forall b, ~ in_log start nlog b -> recovered start d b = dblk d0 b.

Definition new_state (start nlog : Z) (v : Z -> mem) (d : gmap Z mem) : Prop :=
  forall b, ~ in_log start nlog b -> recovered start d b = v b.

Section Crash.
Context (me : Z).

Lemma layout_small size start nlog blocks :
  layout size start nlog blocks -> size <= 2147483648 -> Forall (fun b => 0 <= b < 2147483648) blocks.
Proof. intros [_ _ H] Hs. apply Forall_forall. intros b Hb. destruct (H b Hb). lia. Qed.

Lemma log_writes_in_log start nlog blocks v c tail :
  0 <= tail -> tail + Z.of_nat (length blocks) < nlog ->
  c ∈ (log_writes start tail blocks v).*1 -> in_log start nlog c /\ c <> start.
Proof. intros Ht Hn (k & Hk & ->)%log_writes_fst. unfold in_log. lia. Qed.

(** Installing some blocks of the logged transaction changes neither the
    header nor what recovery gives. *)
Lemma header_partial start nlog size d p :
  layout size start nlog (header_of start d) -> (forall c, c ∈ p.*1 -> c ∈ header_of start d) ->
  header_of start (apply_writes d p) = header_of start d.
Proof.
  intros Hl Hp. unfold header_of at 1 2. rewrite dblk_apply_writes, lw_notin; [done|].
  intros Hin%Hp. destruct (lo_home _ _ _ _ Hl start Hin) as [_ Hx]. apply Hx. pose proof (lo_start _ _ _ _ Hl). unfold in_log. lia.
Qed.

Lemma recovered_partial start nlog size d p b :
  layout size start nlog (header_of start d) -> Z.of_nat (length (header_of start d)) < nlog ->
  (forall c, c ∈ p.*1 -> c ∈ header_of start d) ->
  recovered start (apply_writes d p) b = recovered start d b.
Proof.
  intros Hl Hn Hp. set (blocks := header_of start d) in *.
  assert (forall c, in_log start nlog c -> dblk (apply_writes d p) c = dblk d c) as Hlog.
  { intros c Hc. rewrite dblk_apply_writes. apply lw_notin. intros Hin%Hp. by destruct (lo_home _ _ _ _ Hl c Hin). }
  unfold recovered at 1. rewrite (header_partial start nlog size) by done. fold blocks.
  assert (home_writes start 0 blocks (dblk (apply_writes d p)) = home_writes start 0 blocks (dblk d)) as ->.
  { apply home_writes_ext. intros k Hk. apply Hlog. unfold in_log. lia. }
  unfold recovered. fold blocks. destruct (decide (b ∈ blocks)) as [Hin|Hin].
  - apply lw_in. by rewrite home_writes_fst.
  - rewrite !lw_notin by (by rewrite home_writes_fst). rewrite dblk_apply_writes. apply lw_notin.
    intros ?%Hp. done.
Qed.

(** The four groups of writes of a commit. *)
Section Commit_writes.
Context (start nlog size : Z) (blocks : list Z) (d0 : gmap Z mem) (v v2 : Z -> mem) (x y : mem).
Context (Hl : layout size start nlog blocks) (Hsz : size <= 2147483648) (Hn : Z.of_nat (length blocks) <= LOGSIZE) (Hn' : Z.of_nat (length blocks) < nlog).
Context (Hem : header_of start d0 = []).
Context (Hclean : forall b, ~ in_log start nlog b -> b ∉ blocks -> dblk d0 b = v b).
Context (Hv2 : forall k b, blocks !! k = Some b -> v2 (start + 0 + 1 + Z.of_nat k) = v b).

Let L := log_writes start 0 blocks v.
Let H := [(start, put_head x blocks)].
Let I := home_writes start 0 blocks v2.
Let Z0 := [(start, put_head y [])].

Lemma start_home b : ~ in_log start nlog b -> b <> start.
Proof using Hl. intros Hb ->. apply Hb. pose proof (lo_start _ _ _ _ Hl). unfold in_log. lia. Qed.

Lemma L_in_log c : c ∈ L.*1 -> in_log start nlog c /\ c <> start.
Proof using Hn'. apply log_writes_in_log; lia. Qed.

Lemma I_value b z : b ∈ blocks -> lw I b z = v b.
Proof using Hl Hv2.
  intros Hb. apply list_elem_of_lookup in Hb as [k Hk]. unfold I.
  rewrite (lw_home_writes _ _ _ _ _ 0 k) by (done || apply Hl). by apply Hv2.
Qed.

(** Before the header is written, recovery gives the old state. *)
Lemma prefix_old p q : L = p ++ q ->
  header_of start (apply_writes d0 p) = [] /\ old_state start nlog d0 (apply_writes d0 p).
Proof using Hem Hn'.
  intros Hp. assert (forall c, c ∉ L.*1 -> dblk (apply_writes d0 p) c = dblk d0 c) as Hsub.
  { intros c Hc. rewrite dblk_apply_writes. apply lw_notin. by eapply prefix_fst. }
  assert (header_of start (apply_writes d0 p) = []) as Hh.
  { unfold header_of in *. rewrite Hsub by (intros ?%L_in_log; tauto). done. }
  split; [done|]. intros b Hb. rewrite recovered_empty by done. apply Hsub. intros ?%L_in_log. tauto.
Qed.

(** Once it is, the new one. *)
Lemma prefix_header : header_of start (apply_writes d0 (L ++ H)) = blocks /\ new_state start nlog v (apply_writes d0 (L ++ H)).
Proof using Hl Hsz Hn Hn' Hclean.
  assert (header_of start (apply_writes d0 (L ++ H)) = blocks) as Hh.
  { apply (header_put start _ x); [|done|by eapply layout_small].
    rewrite dblk_apply_writes, lw_app. unfold H. rewrite lw_cons. by rewrite decide_True. }
  split; [done|]. intros b Hb. unfold recovered. rewrite Hh.
  destruct (decide (b ∈ blocks)) as [Hin|Hin].
  - apply list_elem_of_lookup in Hin as [k Hk]. rewrite (lw_home_writes _ _ _ _ _ 0 k) by (done || apply Hl).
    rewrite dblk_apply_writes, lw_app. rewrite (lw_notin H) by (cbn; rewrite list_elem_of_singleton; lia).
    by apply lw_log_writes.
  - rewrite lw_notin by (by rewrite home_writes_fst). rewrite dblk_apply_writes, lw_app.
    rewrite (lw_notin H) by (cbn; rewrite list_elem_of_singleton; by apply start_home).
    rewrite lw_notin by (intros ?%L_in_log; tauto). by apply Hclean.
Qed.

Lemma prefix_install p q : I = p ++ q ->
  header_of start (apply_writes d0 ((L ++ H) ++ p)) = blocks /\ new_state start nlog v (apply_writes d0 ((L ++ H) ++ p)).
Proof using Hl Hsz Hn Hn' Hclean.
  intros Hp. destruct prefix_header as [Hh Hnew]. unfold apply_writes. rewrite foldl_app.
  fold (apply_writes d0 (L ++ H)). fold (apply_writes (apply_writes d0 (L ++ H)) p).
  assert (forall c, c ∈ p.*1 -> c ∈ blocks) as Hsub.
  { intros c Hc. rewrite <- (home_writes_fst start blocks v2 0). fold I. rewrite Hp, fmap_app, elem_of_app. by left. }
  split; [by rewrite (header_partial start nlog size) by (by rewrite Hh)|].
  intros b Hb. rewrite (recovered_partial start nlog size) by (by rewrite Hh). by apply Hnew.
Qed.

Lemma prefix_end : header_of start (apply_writes d0 (((L ++ H) ++ I) ++ Z0)) = []
  /\ new_state start nlog v (apply_writes d0 (((L ++ H) ++ I) ++ Z0)).
Proof using Hl Hsz Hn Hn' Hclean Hv2.
  assert (header_of start (apply_writes d0 (((L ++ H) ++ I) ++ Z0)) = []) as Hz.
  { apply (header_put start _ y []); [|done|constructor].
    rewrite dblk_apply_writes, lw_app. unfold Z0. rewrite lw_cons. by rewrite decide_True. }
  split; [done|]. intros b Hb. rewrite recovered_empty by exact Hz. rewrite dblk_apply_writes, !lw_app.
  rewrite (lw_notin Z0) by (cbn; rewrite list_elem_of_singleton; by apply start_home).
  destruct (decide (b ∈ blocks)) as [Hin|Hin]; [by apply I_value|].
  rewrite (lw_notin I) by (unfold I; by rewrite home_writes_fst).
  rewrite (lw_notin H) by (cbn; rewrite list_elem_of_singleton; by apply start_home).
  rewrite lw_notin by (intros ?%L_in_log; tauto). by apply Hclean.
Qed.

(** A crash at any point gives one of the two, with a header that recovery
    can read. *)
Lemma commit_prefix p q : ((L ++ H) ++ I) ++ Z0 = p ++ q ->
  (header_of start (apply_writes d0 p) = [] \/ header_of start (apply_writes d0 p) = blocks)
  /\ (old_state start nlog d0 (apply_writes d0 p) \/ new_state start nlog v (apply_writes d0 p)).
Proof using Hl Hsz Hn Hn' Hem Hclean Hv2.
  pose proof prefix_old as Po. pose proof prefix_header as Ph. pose proof prefix_install as Pi. pose proof prefix_end as Pe.
  intros Hpq. apply app_split in Hpq as [[r Hr]|(r & -> & Hr)].
  - apply app_split in Hr as [[r' Hr']|(r' & -> & Hr')]; [|destruct (Pi r' _ Hr'); tauto].
    apply app_split in Hr' as [[r2 Hr2]|(r2 & -> & Hr2)]; [destruct (Po p _ Hr2); tauto|].
    destruct r2 as [|h r2].
    + rewrite app_nil_r. destruct (Po L []) as [? ?]; [by rewrite app_nil_r|tauto].
    + injection Hr2 as <- Hr2. symmetry in Hr2. apply app_nil in Hr2 as [-> _]. fold H. tauto.
  - destruct r as [|h r].
    + rewrite app_nil_r. destruct (Pi I []) as [? ?]; [by rewrite app_nil_r|tauto].
    + injection Hr as <- Hr. symmetry in Hr. apply app_nil in Hr as [-> _]. fold Z0. tauto.
Qed.

End Commit_writes.

(** The writes of a commit, and their effect at every prefix. *)
Lemma commit_spec l :
  ready me l -> lh l <> [] ->
  exists s' W, commit me l = Ok (set_lh [] (set_cache s' l)) /\ wrote me (cache l) s' W
    /\ (forall b, ~ in_log (log_start l) (log_size l) b -> view s' b = view (cache l) b /\ dblk (disk s') b = view (cache l) b)
    /\ (forall c, ~ pinned s' c) /\ header_of (log_start l) (disk s') = []
    /\ (forall p q, W = p ++ q ->
          (header_of (log_start l) (apply_writes (disk (cache l)) p) = []
           \/ header_of (log_start l) (apply_writes (disk (cache l)) p) = lh l)
          /\ (old_state (log_start l) (log_size l) (disk (cache l)) (apply_writes (disk (cache l)) p)
              \/ new_state (log_start l) (log_size l) (view (cache l)) (apply_writes (disk (cache l)) p))).
Proof.
  intros [Hw Hi Hsp Hl Hsz [Hn Hn'] Hpin Hem] Hne. unfold commit.
  set (start := log_start l) in *. set (nlog := log_size l) in *. set (blocks := lh l) in *. set (s := cache l) in *.
  pose proof (lo_start _ _ _ _ Hl) as Hst.
  destruct (write_log_spec me start nlog blocks 0 s Hw Hi Hsp Hl) as (s1 & E1 & W1); [lia|lia|].
  pose proof (wr_spare _ _ _ _ W1) as Hs1.
  destruct (write_head_spec me start blocks s1) as (s2 & E2 & W2);
    [apply W1|apply W1|lia|unfold in_disk; rewrite (wr_size _ _ _ _ W1); lia|].
  pose proof (wr_spare _ _ _ _ W2) as Hs2.
  assert (disksize s2 = disksize s) as Hd2 by (rewrite (wr_size _ _ _ _ W2); apply W1).
  destruct (install_trans_spec me start nlog blocks 0 s2) as (s3 & E3 & W3);
    [apply W2|apply W2|lia|by rewrite Hd2|lia|lia|].
  pose proof (wr_spare _ _ _ _ W3) as Hs3.
  destruct (write_head_spec me start [] s3) as (s4 & E4 & W4);
    [apply W3|apply W3|lia|unfold in_disk; rewrite (wr_size _ _ _ _ W3), Hd2; lia|].
  pose proof (wrote_trans me _ _ _ _ _ (wrote_trans me _ _ _ _ _ (wrote_trans me _ _ _ _ _ W1 W2) W3) W4) as Wall.
  eexists s4, _. split.
  { destruct blocks as [|b0 bl] eqn:Eb; [done|]. rewrite <- Eb in *.
    rewrite E1. cbn [obind]. rewrite E2. cbn [obind]. rewrite E3. cbn [obind]. rewrite E4. done. }
  split; [exact Wall|].
  assert (forall k b, blocks !! k = Some b -> view s2 (start + 0 + 1 + Z.of_nat k) = view s b) as Hv2.
  { intros k b Hk. rewrite (wr_view _ _ _ _ W2), lw_notin by (cbn; rewrite list_elem_of_singleton; lia).
    rewrite (wr_view _ _ _ _ W1). by apply lw_log_writes. }
  assert (forall b, ~ in_log start nlog b -> b ∉ blocks -> dblk (disk s) b = view s b) as Hclean.
  { intros b _ Hb. destruct (view_clean me s b Hw Hi) as [Hp|?]; [by apply Hpin in Hp|done]. }
  destruct (prefix_end start nlog (disksize s) blocks (disk s) (view s) (view s2) (view s1 start) (view s3 start)
    Hl Hsz Hn Hn' Hclean Hv2) as [Hz Hnew].
  assert (forall c, ~ pinned s4 c) as Hnp.
  { intros c Hp. apply (wr_pinned _ _ _ _ Wall) in Hp as [Hni Hp]. apply Hpin in Hp. apply Hni.
    rewrite !fmap_app, !elem_of_app, home_writes_fst. tauto. }
  split; [|split; [done|split; [by rewrite (wr_disk _ _ _ _ Wall)|]]].
  - intros b Hb. assert (dblk (disk s4) b = view s b) as Hd.
    { rewrite (wr_disk _ _ _ _ Wall). rewrite <- (Hnew b Hb). by rewrite recovered_empty. }
    split; [|done]. destruct (view_clean me s4 b) as [Hp|Hc]; [apply W4|apply W4|by apply Hnp in Hp|congruence].
  - by apply (commit_prefix start nlog (disksize s)).
Qed.

(** * Recovery *)

(** Reading a block and releasing it changes nothing. *)
Lemma read_block s b :
  bwf me s -> idle s -> in_disk s b -> 1 <= spare s ->
  exists i s1 s2, bread me ROOTDEV b s = Ok (i, s1) /\ data_of i s1 = Ok (view s b) /\ brelse me i s1 = Ok s2
    /\ wrote me s s2 [].
Proof.
  intros Hw Hi Hb Hsp. unfold ROOTDEV.
  destruct (bread_spec me s b Hw Hb (fun j => Hi j b)) as (i & s1 & E1 & Hw1 & F1 & Hh1 & Hv1 & Hd1 & Hwr1 & Hp1 & Hcl & Hsa & Hsb); [right; lia|].
  destruct (brelse_spec me s1 i b Hw1 Hh1) as (s2 & E2 & Hw2 & F2 & Hh2 & Hv2 & Hd2 & Hwr2 & Hp2 & Hsa2 & Hsb2).
  { rewrite Hp1, Hv1, Hd1. by apply (view_clean me). }
  exists i, s1, s2. split; [done|]. split; [by rewrite (data_of_holds me s1 i b), Hv1|]. split; [done|]. split.
  - done.
  - intros j c Hj. destruct (decide (c = b)) as [->|Hne]; [by apply (Hh2 j)|].
    apply (bf_holds _ _ _ F2), (bf_holds _ _ _ F1) in Hj; [|done..]. by apply (Hi j c).
  - rewrite (bf_size _ _ _ F2). apply F1.
  - cbn. congruence.
  - rewrite app_nil_r. congruence.
  - intros c. cbn. destruct (decide (c = b)) as [->|Hne]; [congruence|].
    rewrite (bf_view _ _ _ F2), (bf_view _ _ _ F1); done.
  - intros c. cbn. rewrite elem_of_nil. destruct (decide (c = b)) as [->|Hne]; [tauto|].
    rewrite (bf_pinned _ _ _ F2), (bf_pinned _ _ _ F1) by done. tauto.
  - destruct (pinned_dec me s b Hw) as [Hp|Hp].
    + rewrite Hsa2 by (by apply Hp1). rewrite Hsa by done. lia.
    + rewrite Hsb2 by (by rewrite Hp1). rewrite Hsb by done. lia.
Qed.

Lemma length_header_blocks d n : forall i, length (header_blocks d n i) = n.
Proof. induction n as [|n IH]; intros i; cbn; [done|]. by rewrite IH. Qed.

(** The cache at boot. *)
Lemma binit_ok d size :
  bwf me (binit d size) /\ idle (binit d size) /\ spare (binit d size) = 30
  /\ (forall c, view (binit d size) c = dblk d c) /\ (forall c, ~ pinned (binit d size) c).
Proof.
  assert (forall i bf, bufs (binit d size) !! i = Some bf -> bf = buf0) as HB.
  { intros i bf Hi. by apply lookup_replicate_1 in Hi as [-> _]. }
  assert (bwf me (binit d size)) as Hw.
  { split.
    - change (order (binit d size)) with (rev (seq 0 30)). change (length (bufs (binit d size))) with 30%nat.
      symmetry. apply Permutation_rev.
    - intros i j bf bg Hi Hj Hd. apply HB in Hi as ->. done.
    - intros i bf Hi. apply HB in Hi as ->. split; cbn; try done. by left. }
  split; [done|]. split; [intros j c (bf & Hj & Hd & _); by apply HB in Hj as ->|]. split; [done|]. split.
  - intros c. apply (view_absent me); [done|]. intros i bf Hi. by apply HB in Hi as ->.
  - intros c (j & bf & Hj & Hd & _). by apply HB in Hj as ->.
Qed.

Lemma recover_from s d start nlog :
  bwf me s -> idle s -> 2 <= spare s -> (forall c, view s c = dblk d c) -> disk s = d ->
  layout (disksize s) start nlog (header_of start d) -> disksize s <= 2147483648 ->
  s32 (ld32 (dblk d start) 0) <= LOGSIZE -> Z.of_nat (length (header_of start d)) < nlog ->
  exists s' W, recover_from_log me (Lst s start nlog 0 false []) = Ok (Lst s' start nlog 0 false [])
    /\ wrote me s s' W
    /\ (forall b, ~ in_log start nlog b -> dblk (disk s') b = recovered start d b)
    /\ header_of start (disk s') = []
    /\ (forall p q, W = p ++ q -> forall b, ~ in_log start nlog b ->
          recovered start (apply_writes d p) b = recovered start d b).
Proof.
  intros Hw Hi Hsp Hv Hdk Hl Hsz Hn Hn'. pose proof (lo_start _ _ _ _ Hl) as Hst. unfold LOGSIZE in Hn.
  assert (Z.of_nat (length (header_of start d)) <= 30) as Hlen.
  { unfold header_of. rewrite length_header_blocks. lia. }
  unfold recover_from_log, read_head. cbn [log_start cache].
  destruct (read_block s start Hw Hi) as (i & s1 & s2 & E1 & E2 & E3 & W0); [unfold in_disk; lia|lia|].
  rewrite E1. cbn [obind]. rewrite E2. cbn [obind]. rewrite Hv. unfold LOGSIZE.
  destruct (Z.ltb_spec 30 (s32 (ld32 (dblk d start) 0))); [lia|]. rewrite E3. cbn [obind]. fold (header_of start d).
  set (blocks := header_of start d) in *. pose proof (wr_spare _ _ _ _ W0) as Hs2.
  assert (forall c, view s2 c = dblk d c) as Hv2 by (intros c; rewrite (wr_view _ _ _ _ W0); apply Hv).
  destruct (install_trans_spec me start nlog blocks 0 s2) as (s3 & E4 & W1);
    [apply W0|apply W0|lia|by rewrite (wr_size _ _ _ _ W0)|lia|lia|].
  rewrite E4. cbn [obind]. pose proof (wr_spare _ _ _ _ W1) as Hs3.
  destruct (write_head_spec me start [] s3) as (s4 & E5 & W2);
    [apply W1|apply W1|lia|unfold in_disk; rewrite (wr_size _ _ _ _ W1), (wr_size _ _ _ _ W0); lia|].
  rewrite E5. cbn [obind]. set (I := home_writes start 0 blocks (view s2)) in *.
  set (Z0 := [(start, put_head (view s3 start) [])]) in *. exists s4, (I ++ Z0). split; [done|].
  assert (wrote me s s4 (I ++ Z0)) as Wall.
  { change (I ++ Z0) with ([] ++ I ++ Z0). eapply wrote_trans; [done|]. by eapply wrote_trans. }
  split; [done|].
  assert (I.*1 = blocks) as HI by apply home_writes_fst.
  assert (I = home_writes start 0 blocks (dblk d)) as HId by (apply home_writes_ext; intros k _; apply Hv2).
  assert (forall c, in_log start nlog c -> c ∉ I.*1) as HIl.
  { intros c Hc Hin. rewrite HI in Hin. by destruct (lo_home _ _ _ _ Hl c Hin). }
  assert (forall b, ~ in_log start nlog b -> dblk (apply_writes d (I ++ Z0)) b = recovered start d b) as Hfin.
  { intros b Hb. rewrite dblk_apply_writes, lw_app.
    rewrite (lw_notin Z0) by (cbn; rewrite list_elem_of_singleton; intros ->; apply Hb; unfold in_log; lia).
    rewrite HId. done. }
  assert (header_of start (apply_writes d (I ++ Z0)) = []) as Hz.
  { apply (header_put start _ (view s3 start) []); [|done|constructor].
    rewrite dblk_apply_writes, lw_app. unfold Z0. rewrite lw_cons. by rewrite decide_True. }
  rewrite (wr_disk _ _ _ _ Wall), Hdk. split; [exact Hfin|]. split; [done|].
  intros p q Hpq b Hb.
  assert (forall p' q', I = p' ++ q' -> recovered start (apply_writes d p') b = recovered start d b) as HpI.
  { intros p' q' Hp'. apply (recovered_partial start nlog (disksize s)); [done|exact Hn'|].
    intros c Hc. fold blocks. rewrite <- HI, Hp', fmap_app, elem_of_app. by left. }
  apply app_split in Hpq as [[r Hr]|(r & -> & Hr)]; [by eapply HpI|]. destruct r as [|h r].
  - rewrite app_nil_r. apply (HpI I []). by rewrite app_nil_r.
  - injection Hr as <- Hr. symmetry in Hr. apply app_nil in Hr as [-> _].
    rewrite recovered_empty by exact Hz. by apply Hfin.
Qed.

(** At boot the cache is empty. *)
Lemma recover_spec d size start nlog :
  layout size start nlog (header_of start d) -> size <= 2147483648 ->
  s32 (ld32 (dblk d start) 0) <= LOGSIZE -> Z.of_nat (length (header_of start d)) < nlog ->
  exists s' W, recover_from_log me (Lst (binit d size) start nlog 0 false []) = Ok (Lst s' start nlog 0 false [])
    /\ wrote me (binit d size) s' W
    /\ (forall b, ~ in_log start nlog b -> dblk (disk s') b = recovered start d b)
    /\ header_of start (disk s') = []
    /\ (forall p q, W = p ++ q -> forall b, ~ in_log start nlog b ->
          recovered start (apply_writes d p) b = recovered start d b).
Proof.
  intros Hl Hsz Hn Hn'. destruct (binit_ok d size) as (Hw & Hi & Hsp & Hv & Hp). apply recover_from; done.
Qed.

End Crash.

(** * log_write and the reservation of [begin_op] *)

Lemma log_index_spec b blocks : forall i,
  (log_index b blocks i = (i + length blocks)%nat /\ b ∉ blocks)
  \/ exists k, log_index b blocks i = (i + k)%nat /\ blocks !! k = Some b.
Proof.
  induction blocks as [|c blocks IH]; intros i; cbn [log_index length].
  - left. split; [lia|apply not_elem_of_nil].
  - destruct (Z.eqb_spec c b) as [->|Hne].
    + right. exists 0%nat. split; [lia|done].
    + destruct (IH (S i)) as [[-> Hn]|(k & -> & Hk)].
      * left. split; [lia|]. rewrite not_elem_of_cons. done.
      * right. exists (S k). split; [lia|done].
Qed.

(** [log_write] adds the block to the header unless it is there already. *)
Lemma log_write_lh i l bf :
  bufs (cache l) !! i = Some bf -> Z.of_nat (length (lh l)) < LOGSIZE -> Z.of_nat (length (lh l)) < log_size l - 1 ->
  1 <= outstanding l ->
  log_write i l = Ok (set_lh (if decide (b_blockno bf ∈ lh l) then lh l else lh l ++ [b_blockno bf])
                       (set_cache (set_buf i (set_dirty bf) (cache l)) l)).
Proof.
  intros Hi Hn Hn' Ho. unfold log_write. destruct (Z.leb_spec LOGSIZE (Z.of_nat (length (lh l)))); [lia|].
  destruct (Z.leb_spec (log_size l - 1) (Z.of_nat (length (lh l)))); [lia|]. cbn [orb].
  destruct (Z.ltb_spec (outstanding l) 1); [lia|]. rewrite (the_buf_eq _ _ _ Hi). cbn [obind].
  destruct (log_index_spec (b_blockno bf) (lh l) 0) as [[-> Hni]|(k & -> & Hk)]; cbn [Nat.add].
  - rewrite decide_True by done. by rewrite decide_False.
  - rewrite decide_False by (apply lookup_lt_Some in Hk; lia).
    rewrite decide_True by (by eapply list_elem_of_lookup_2). by rewrite list_insert_id.
Qed.

Lemma log_write_shape i l l' : log_write i l = Ok l' ->
  (length (lh l) <= length (lh l') <= S (length (lh l)))%nat /\ outstanding l' = outstanding l
  /\ committing l' = committing l /\ log_size l' = log_size l /\ log_start l' = log_start l.
Proof.
  unfold log_write. destruct (_ || _); [done|]. destruct (_ <? 1); [done|]. destruct (the_buf _ _); cbn [obind]; try done.
  intros [= <-]. cbn. split; [|done]. case_decide; [rewrite length_app; cbn; lia|rewrite length_insert; lia].
Qed.

Section Reservation.
Context (me : Z).

(** Concurrent operations: [used] lists the blocks each has logged so far. *)
Inductive opstep : lst * list Z -> lst * list Z -> Prop :=
| op_begin l l' used : begin_op l = Some l' -> opstep (l, used) (l', 0 :: used)
| op_write l l' used k u i : used !! k = Some u -> u < MAXOPBLOCKS -> log_write i l = Ok l' ->
    opstep (l, used) (l', <[k := u + 1]> used)
| op_end l l' u1 u2 u : end_op me l = Ok l' -> opstep (l, u1 ++ u :: u2) (l', u1 ++ u2).

(** The blocks the open operations may still log. *)
Definition reserved (used : list Z) : Z := foldr (fun u n => MAXOPBLOCKS - u + n) 0 used.

Lemma reserved_app u1 u2 : reserved (u1 ++ u2) = reserved u1 + reserved u2.
Proof. induction u1 as [|u u1 IH]; cbn [reserved foldr app] in *; [done|]. fold (reserved u1) (reserved (u1 ++ u2)). lia. Qed.

Lemma reserved_bound used : Forall (fun u => 0 <= u <= MAXOPBLOCKS) used ->
  0 <= reserved used <= MAXOPBLOCKS * Z.of_nat (length used).
Proof.
  unfold MAXOPBLOCKS. induction 1 as [|u used Hu HF IH]; cbn [reserved foldr length]; [lia|].
  fold (reserved used). unfold MAXOPBLOCKS. lia.
Qed.

Record op_inv (x : lst * list Z) : Prop := {
  oi_out : outstanding x.1 = Z.of_nat (length x.2);
  oi_used : Forall (fun u => 0 <= u <= MAXOPBLOCKS) x.2;
  oi_room : Z.of_nat (length (lh x.1)) + reserved x.2 <= LOGSIZE;
  oi_commit : committing x.1 = false
}.

Lemma commit_shape l l' : commit me l = Ok l' ->
  lh l' = [] /\ outstanding l' = outstanding l /\ committing l' = committing l /\ log_size l' = log_size l.
Proof.
  unfold commit. destruct (lh l) eqn:E; [by intros [= <-]|]. intros H. inv_bind. injection H as <-. done.
Qed.

Lemma opstep_inv x y : op_inv x -> opstep x y -> op_inv y /\ log_size y.1 = log_size x.1.
Proof.
  intros [H1 H2 H3 H4] Hst. destruct Hst as [l l' used E|l l' used k u i Hk Hu E|l l' u1 u2 u E]; cbn [fst snd] in *.
  - unfold begin_op in E. rewrite H4 in E. destruct (Z.ltb_spec LOGSIZE (Z.of_nat (length (lh l)) + (outstanding l + 1) * MAXOPBLOCKS)); [done|].
    injection E as <-. pose proof (reserved_bound used H2). split; [|done]. split; cbn [fst snd]; [cbn [length]; cbn; lia| |cbn; fold (reserved used)|done].
    + apply Forall_cons. split; [unfold MAXOPBLOCKS; lia|done].
    + unfold MAXOPBLOCKS, LOGSIZE in *. lia.
  - destruct (log_write_shape i l l' E) as (Hlen & Ho & Hc & Hs & _). split; [|done].
    assert (reserved (<[k := u + 1]> used) = reserved used - 1) as Hr.
    { rewrite <- (take_drop_middle used k u Hk) at 2. rewrite (insert_take_drop used k (u + 1)) by (by eapply lookup_lt_Some).
      rewrite !reserved_app. cbn [reserved foldr]. lia. }
    split; cbn [fst snd]; [by rewrite length_insert, Ho| |rewrite Hr; lia|congruence].
    apply Forall_insert; [done|]. rewrite Forall_lookup in H2. specialize (H2 k u Hk). cbn in H2. lia.
  - unfold end_op in E. cbn in E. rewrite H4 in E. apply Forall_app in H2 as [HF1 HF2]. apply Forall_cons in HF2 as [Hu HF2].
    rewrite length_app in H1. cbn [length] in H1. rewrite reserved_app in H3. cbn [reserved foldr] in H3. fold (reserved u2) in H3.
    pose proof (reserved_bound u1 HF1). pose proof (reserved_bound u2 HF2).
    destruct (Z.eqb_spec (outstanding l - 1) 0) as [Hz|Hz].
    + apply obind_Ok_inv in E as (l1 & Ec & E). injection E as <-. destruct (commit_shape _ _ Ec) as (Hlh & Ho & _ & Hs).
      cbn in *. split; [|done]. assert (u1 = [] /\ u2 = []) as [-> ->] by (destruct u1, u2; cbn in *; done || lia).
      split; cbn; [lia|constructor|rewrite Hlh; unfold LOGSIZE; cbn; lia|done].
    + injection E as <-. split; [|done]. split; cbn [fst snd]; [cbn; rewrite length_app; lia|by apply Forall_app| |done].
      rewrite reserved_app. cbn [lh set_outstanding]. cbn beta in Hu. lia.
Qed.

End Reservation.

(** * Properties *)

Lemma header_count start d : s32 (ld32 (dblk d start) 0) <= Z.of_nat (length (header_of start d)).
Proof. unfold header_of. rewrite length_header_blocks. lia. Qed.

(** C1.  Transactions are atomic across crashes.  Cut the disk writes of a commit
    at any point, boot, and run recovery: recovery succeeds, and outside the
    log every block of the disk has its content from before the commit, or
    every block has the content the kernel saw when it committed. *)
Theorem commit_crash_atomic me l :
  ready me l -> lh l <> [] ->
  exists l' W, commit me l = Ok l' /\ writes (cache l') = writes (cache l) ++ W /\
    forall p q, W = p ++ q ->
    exists r, recover_from_log me (Lst (binit (apply_writes (disk (cache l)) p) (disksize (cache l)))
                (log_start l) (log_size l) 0 false []) = Ok r
      /\ ((forall b, ~ in_log (log_start l) (log_size l) b -> dblk (disk (cache r)) b = dblk (disk (cache l)) b)
          \/ (forall b, ~ in_log (log_start l) (log_size l) b -> dblk (disk (cache r)) b = view (cache l) b)).
Proof.
  intros Hr Hne. destruct (commit_spec me l Hr Hne) as (s' & W & E & HW & _ & _ & _ & Hp).
  eexists _, W. split; [exact E|]. split; [apply HW|]. intros p q Hpq. destruct (Hp p q Hpq) as [Hh Hs].
  destruct Hr as [_ _ _ Hl Hsz Hn _ _].
  assert (layout (disksize (cache l)) (log_start l) (log_size l) (header_of (log_start l) (apply_writes (disk (cache l)) p))
    /\ Z.of_nat (length (header_of (log_start l) (apply_writes (disk (cache l)) p))) <= LOGSIZE
    /\ Z.of_nat (length (header_of (log_start l) (apply_writes (disk (cache l)) p))) < log_size l) as (Hl' & Hn' & Hn2).
  { destruct Hh as [-> | ->]; [|done]. split; [|unfold LOGSIZE; cbn; lia].
    split; [apply Hl|constructor|]. intros b Hb. by apply not_elem_of_nil in Hb. }
  destruct (recover_spec me _ (disksize (cache l)) (log_start l) (log_size l) Hl' Hsz) as (s2 & W2 & E2 & _ & Hd & _).
  { etrans; [apply header_count|done]. } { done. }
  eexists. split; [exact E2|]. destruct Hs as [Ho|Hnw]; [left|right]; intros b Hb; cbn; rewrite Hd by done; auto.
Qed.

(** C34.  Recovery itself may be interrupted: at every prefix of its own writes the
    disk still recovers to the same contents, and when it finishes the log is
    empty and the home blocks hold those contents. *)
Theorem recovery_idempotent me d size start nlog :
  layout size start nlog (header_of start d) -> size <= 2147483648 ->
  Z.of_nat (length (header_of start d)) <= LOGSIZE -> Z.of_nat (length (header_of start d)) < nlog ->
  exists l' W, recover_from_log me (Lst (binit d size) start nlog 0 false []) = Ok l'
    /\ disk (cache l') = apply_writes d W
    /\ (forall b, ~ in_log start nlog b -> dblk (disk (cache l')) b = recovered start d b)
    /\ header_of start (disk (cache l')) = [] /\ lh l' = []
    /\ (forall p q, W = p ++ q -> forall b, ~ in_log start nlog b ->
          recovered start (apply_writes d p) b = recovered start d b).
Proof.
  intros Hl Hsz Hn Hn'. destruct (recover_spec me d size start nlog Hl Hsz) as (s' & W & E & HW & Hd & Hh & Hp).
  { etrans; [apply header_count|done]. } { done. }
  eexists _, W. split; [exact E|]. split; [apply HW|]. done.
Qed.


(** NBUF equals LOGSIZE, so a transaction that fills the log pins every
    buffer: [commit] then has no buffer for the first log block and panics,
    although [begin_op] and [log_write] admitted the transaction. *)
Theorem full_transaction_panics me l :
  bwf me (cache l) -> lh l <> [] ->
  (forall i bf, bufs (cache l) !! i = Some bf -> b_dirty bf = true /\ b_blockno bf <> log_start l + 0 + 1) ->
  commit me l = Panic "bget: no buffers".
Proof.
  intros Hw Hne Hd. unfold commit. destruct (lh l) as [|b0 bs] eqn:E; [done|]. cbn [write_log].
  unfold bread, bget, ROOTDEV. rewrite (find_absent me (cache l)); [|done|].
  - assert (scan recyclable (rev (order (cache l))) (bufs (cache l)) = None) as ->; [|done].
    apply scan_None; [intros i; rewrite elem_of_rev; by apply (order_lt me)|].
    intros i bf _ Hi. unfold recyclable. rewrite (proj1 (Hd i bf Hi)). apply andb_false_r.
  - intros i bf Hi _. by apply (Hd i bf Hi).
Qed.

(** * Runs *)

(** One block written in a transaction and not yet committed. *)
Lemma ready_exists : exists l, ready 7 l /\ lh l = [100] /\ log_start l = 2
  /\ view (cache l) 100 = st8 ∅ 0 65 /\ disk (cache l) = ∅.
Proof.
  destruct (binit_ok 7 ∅ 1000) as (Hw & Hi & Hsp & Hv & Hp). set (s := binit ∅ 1000) in *.
  destruct (bread_spec 7 s 100 Hw) as (i & s1 & _ & Hw1 & F1 & Hh1 & Hv1 & Hd1 & _ & Hp1 & _ & _ & Hs1);
    [cbn; lia|done|right; lia|]. specialize (Hs1 (Hp 100)).
  destruct (set_data_spec 7 s1 i 100 (st8 ∅ 0 65) Hw1 Hh1) as (s2 & _ & Hw2 & F2 & Hh2 & Hv2 & Hd2 & _ & Hp2 & Hs2).
  pose proof Hh2 as (bf & Hbf & _).
  destruct (set_dirty_spec 7 s2 i 100 bf Hw2 Hh2 Hbf) as (Hw3 & F3 & Hh3 & Hv3 & Hd3 & _ & Hp3 & Hs3).
  set (s3 := set_buf i (set_dirty bf) s2) in *.
  destruct (brelse_spec 7 s3 i 100 Hw3 Hh3) as (s4 & _ & Hw4 & F4 & Hh4 & Hv4 & Hd4 & _ & Hp4 & Hs4 & _); [by left|].
  specialize (Hs4 Hp3).
  assert (disksize s4 = 1000) as Hz.
  { rewrite (bf_size _ _ _ F4), (bf_size _ _ _ F3), (bf_size _ _ _ F2), (bf_size _ _ _ F1). done. }
  assert (disk s4 = ∅) as Hd by (rewrite Hd4, Hd3, Hd2, Hd1; done).
  exists (Lst s4 2 31 1 false [100]). split.
  - split; cbn.
    + done.
    + intros j c Hj. destruct (decide (c = 100)) as [->|Hne]; [by apply (Hh4 j)|].
      apply (bf_holds _ _ _ F4), (bf_holds _ _ _ F3), (bf_holds _ _ _ F2), (bf_holds _ _ _ F1) in Hj; [|done..].
      by apply (Hi j c).
    + lia.
    + rewrite Hz. split; [unfold LOGSIZE; lia|apply NoDup_singleton|].
      intros b ->%list_elem_of_singleton. unfold in_log. lia.
    + lia.
    + unfold LOGSIZE. lia.
    + intros c. rewrite list_elem_of_singleton. destruct (decide (c = 100)) as [->|Hne]; [tauto|].
      rewrite (bf_pinned _ _ _ F4), (bf_pinned _ _ _ F3), (bf_pinned _ _ _ F2), (bf_pinned _ _ _ F1) by done.
      split; [intros Hc; by apply Hp in Hc|done].
    + rewrite Hd. by vm_compute.
  - cbn. split; [done|]. split; [done|]. split; [congruence|done].
Qed.

Lemma commit_crash_atomic_witness : exists l l', view (cache l) 100 = st8 ∅ 0 65 /\ commit 7 l = Ok l'.
Proof.
  destruct ready_exists as (l & Hr & Hl & _ & Hv & _).
  destruct (commit_crash_atomic 7 l Hr) as (l' & W & E & _); [by rewrite Hl|].
  exists l, l'. split; [exact Hv|exact E].
Defined.

(** A disk whose log holds a committed block for block 100. *)
Definition logged_disk : gmap Z mem := <[2 := st32 (st32 ∅ 0 1) 4 100]> (<[3 := st8 ∅ 0 65]> ∅).

Lemma recovery_idempotent_witness :
  exists l', recover_from_log 7 (Lst (binit logged_disk 1000) 2 31 0 false []) = Ok l' /\ lh l' = []
    /\ dblk (disk (cache l')) 100 = dblk logged_disk 3.
Proof.
  assert (header_of 2 logged_disk = [100]) as H by (by vm_compute).
  destruct (recovery_idempotent 7 logged_disk 1000 2 31) as (l' & W & E & _ & Hr & _ & Hl & _).
  - rewrite H. split; [unfold LOGSIZE; lia|repeat constructor; apply not_elem_of_nil|].
    intros b ->%list_elem_of_singleton. unfold in_log. lia.
  - lia.
  - rewrite H. unfold LOGSIZE. cbn. lia.
  - rewrite H. cbn. lia.
  - exists l'. split; [exact E|]. split; [exact Hl|]. rewrite Hr by (unfold in_log; lia). clear E. by vm_compute.
Defined.


(** Thirty dirty buffers. *)
Definition full_cache : bst :=
  Bst ((fun i => Buf true true 1 (100 + Z.of_nat i) initsleeplock 0 ∅) <$> seq 0 30) (seq 0 30) ∅ 1000 [].

Lemma full_cache_lookup i bf :
  bufs full_cache !! i = Some bf -> bf = Buf true true 1 (100 + Z.of_nat i) initsleeplock 0 ∅ /\ (i < 30)%nat.
Proof.
  unfold full_cache. cbn [bufs]. rewrite list_lookup_fmap. intros (j & Hj & ->)%fmap_Some.
  apply lookup_seq in Hj as [-> Hlt]. done.
Qed.

Lemma full_cache_wf : bwf 7 full_cache.
Proof.
  split.
  - done.
  - intros i j bf bg [-> _]%full_cache_lookup [-> _]%full_cache_lookup. cbn. lia.
  - intros i bf [-> Hi]%full_cache_lookup. split; cbn; [by left|done|lia|done].
Qed.

Lemma full_transaction_panics_witness :
  commit 7 (Lst full_cache 2 31 1 false ((fun i => 100 + Z.of_nat i) <$> seq 0 30)) = Panic "bget: no buffers".
Proof.
  apply (full_transaction_panics 7); [exact full_cache_wf|done|].
  intros i bf [-> Hi]%full_cache_lookup. cbn. split; [reflexivity|lia].
Defined.
