(* ===== verification/Fs.v ===== *)
(** fs.c: block allocation, inodes, file contents, directories and path
    names.  The code is written over the operations of bio.c and log.c it
    calls, the class [BlockOps]; [FsBlocks] gives the instance of [Bio] and
    [Log] and the laws.  An inode pointer is the index of its entry in
    [icache.inode].  Bytes copied to a [dst] buffer are returned as a list, and
    a [src] buffer is the list of its bytes.  [me] is [myproc()->pid]: a call
    runs alone, and [acquiresleep] of a lock that is taken sleeps forever. *)
From S2P Require Import Prelude Mem KString Spinlock Bio Log.

Definition ROOTINO : Z := 1.
Definition NDIRECT : Z := 12.
Definition NINDIRECT : Z := 128.
Definition MAXFILE : Z := NDIRECT + NINDIRECT.
Definition IPB : Z := 8.
Definition BPB : Z := 4096.
Definition DIRSIZ : Z := 14.
Definition NINODE : nat := 50.
Definition NDEV : Z := 10.
Definition T_DIR : Z := 1.
Definition T_FILE : Z := 2.
Definition T_DEV : Z := 3.

(** What fs.c calls of bio.c and log.c. *)
Class BlockOps (S : Type) := {
  b_read : Z -> Z -> S -> outcome (nat * S);
  b_get : nat -> S -> outcome mem;
  b_set : nat -> mem -> S -> outcome S;
  b_log : nat -> S -> outcome S;
  b_rel : nat -> S -> outcome S;
  b_begin : S -> option S;
  b_end : S -> outcome S
}.

(** [struct inode]. *)
Record inode := Inode {
  i_dev : Z;
  i_inum : Z;
  i_ref : Z;
  i_lock : sleeplock;
  i_valid : bool;
  i_type : Z;
  i_major : Z;
  i_minor : Z;
  i_nlink : Z;
  i_size : Z;
  i_addrs : list Z
}.

Definition inode0 : inode := Inode 0 0 0 initsleeplock false 0 0 0 0 0 (replicate 13 0).

Definition i_with_ref (r : Z) (ip : inode) : inode :=
  Inode (i_dev ip) (i_inum ip) r (i_lock ip) (i_valid ip) (i_type ip) (i_major ip) (i_minor ip) (i_nlink ip) (i_size ip) (i_addrs ip).
Definition i_with_lock (l : sleeplock) (ip : inode) : inode :=
  Inode (i_dev ip) (i_inum ip) (i_ref ip) l (i_valid ip) (i_type ip) (i_major ip) (i_minor ip) (i_nlink ip) (i_size ip) (i_addrs ip).
Definition i_with_valid (v : bool) (ip : inode) : inode :=
  Inode (i_dev ip) (i_inum ip) (i_ref ip) (i_lock ip) v (i_type ip) (i_major ip) (i_minor ip) (i_nlink ip) (i_size ip) (i_addrs ip).
Definition i_with_type (t : Z) (ip : inode) : inode :=
  Inode (i_dev ip) (i_inum ip) (i_ref ip) (i_lock ip) (i_valid ip) t (i_major ip) (i_minor ip) (i_nlink ip) (i_size ip) (i_addrs ip).
Definition i_with_meta (major minor nlink : Z) (ip : inode) : inode :=
  Inode (i_dev ip) (i_inum ip) (i_ref ip) (i_lock ip) (i_valid ip) (i_type ip) major minor nlink (i_size ip) (i_addrs ip).
Definition i_with_size (z : Z) (ip : inode) : inode :=
  Inode (i_dev ip) (i_inum ip) (i_ref ip) (i_lock ip) (i_valid ip) (i_type ip) (i_major ip) (i_minor ip) (i_nlink ip) z (i_addrs ip).
Definition i_with_addrs (a : list Z) (ip : inode) : inode :=
  Inode (i_dev ip) (i_inum ip) (i_ref ip) (i_lock ip) (i_valid ip) (i_type ip) (i_major ip) (i_minor ip) (i_nlink ip) (i_size ip) a.

(** The block layer, [icache.inode] and [sb]. *)
Record fs (S : Type) := FS { blocks : S; icache : list inode; sb : superblock }.
Arguments FS {S}.
Arguments blocks {S}.
Arguments icache {S}.
Arguments sb {S}.

Section Fs.
Context {S : Type} `{BlockOps S} (me : Z).

(** The table [devsw], indexed by major device number. *)
Context (dev_read : Z -> option (nat -> Z -> fs S -> outcome (option (list Z) * fs S))).
Context (dev_write : Z -> option (nat -> list Z -> fs S -> outcome (Z * fs S))).

Definition set_blocks (s : S) (f : fs S) : fs S := FS s (icache f) (sb f).
Definition set_icache (c : list inode) (f : fs S) : fs S := FS (blocks f) c (sb f).
Definition upd_inode (ip : nat) (g : inode -> inode) (f : fs S) : fs S := set_icache (alter g ip (icache f)) f.

Definition the_inode (ip : nat) (f : fs S) : outcome inode :=
  match icache f !! ip with Some i => Ok i | None => UB "inode pointer out of bounds" end.

(** [bread], [bp->data], a change of [bp->data] with [log_write], [brelse]. *)
Definition fs_bread (dev b : Z) (f : fs S) : outcome (nat * fs S) :=
  let! (bp, s) := b_read dev b (blocks f) in Ok (bp, set_blocks s f).
Definition fs_data (bp : nat) (f : fs S) : outcome mem := b_get bp (blocks f).
Definition fs_log (bp : nat) (d : mem) (f : fs S) : outcome (fs S) :=
  let! s := b_set bp d (blocks f) in let! s := b_log bp s in Ok (set_blocks s f).
Definition fs_brelse (bp : nat) (f : fs S) : outcome (fs S) :=
  let! s := b_rel bp (blocks f) in Ok (set_blocks s f).

Definition IBLOCK (i : Z) (f : fs S) : Z := u32 (i / IPB + sb_inodestart (sb f)).
Definition BBLOCK (b : Z) (f : fs S) : Z := u32 (b / BPB + sb_bmapstart (sb f)).

(** * Blocks *)

Definition bzero (dev bno : Z) (f : fs S) : outcome (fs S) :=
  let! (bp, f) := fs_bread dev bno f in
  let! d := fs_data bp f in
  let! f := fs_log bp (memset d 0 0 BSIZE) f in
  fs_brelse bp f.

(** [1 << (bi % 8)] and [bp->data[bi/8] & m]. *)
Definition bit_mask (bi : Z) : Z := Z.shiftl 1 (bi mod 8).
Definition bit_set (d : mem) (bi : Z) : bool := negb (Z.land (ld8 d (bi / 8)) (bit_mask bi) =? 0).

(** The [bi] loop of [balloc] on the bitmap block that starts at block [b]. *)
Fixpoint find_clear (d : mem) (size b bi : Z) (n : nat) : option Z :=
  match n with
  | O => None
  | Datatypes.S n =>
      if negb (b + bi <? size) then None
      else if negb (bit_set d bi) then Some bi
      else find_clear d size b (bi + 1) n
  end.

(** The loop over bitmap blocks; [n] bounds the iterations left. *)
Fixpoint balloc_loop (n : nat) (dev b : Z) (f : fs S) : outcome (Z * fs S) :=
  match n with
  | O => Panic "balloc: out of blocks"
  | Datatypes.S n =>
      if negb (b <? sb_size (sb f)) then Panic "balloc: out of blocks"
      else
        let! (bp, f) := fs_bread dev (BBLOCK b f) f in
        let! d := fs_data bp f in
        match find_clear d (sb_size (sb f)) b 0 (Z.to_nat BPB) with
        | Some bi =>
            let! f := fs_log bp (st8 d (bi / 8) (Z.lor (ld8 d (bi / 8)) (bit_mask bi))) f in
            let! f := fs_brelse bp f in
            let! f := bzero dev (b + bi) f in
            Ok (b + bi, f)
        | None =>
            let! f := fs_brelse bp f in
            balloc_loop n dev (b + BPB) f
        end
  end.

Definition balloc (dev : Z) (f : fs S) : outcome (Z * fs S) :=
  balloc_loop (Z.to_nat (sb_size (sb f) / BPB + 1)) dev 0 f.

Definition bfree (dev b : Z) (f : fs S) : outcome (fs S) :=
  let! (bp, f) := fs_bread dev (BBLOCK b f) f in
  let bi := b mod BPB in
  let! d := fs_data bp f in
  if negb (bit_set d bi) then Panic "freeing free block"
  else
    let! f := fs_log bp (st8 d (bi / 8) (Z.land (ld8 d (bi / 8)) (Z.lnot (bit_mask bi)))) f in
    fs_brelse bp f.

(** * Inodes *)

(** The offset of disk inode [inum] in its block: 64 bytes each. *)
Definition dinode_at (inum : Z) : Z := 64 * (inum mod IPB).

Fixpoint get_words (d : mem) (a : Z) (n : nat) : list Z :=
  match n with O => [] | Datatypes.S n => ld32 d a :: get_words d (a + 4) n end.

Fixpoint put_words (d : mem) (a : Z) (ws : list Z) : mem :=
  match ws with [] => d | w :: ws => put_words (st32 d a w) (a + 4) ws end.

(** The fields of the disk inode at [a], copied from [ip]. *)
Definition put_dinode (d : mem) (a : Z) (ip : inode) : mem :=
  let d := st16 d a (i_type ip) in
  let d := st16 d (a + 2) (i_major ip) in
  let d := st16 d (a + 4) (i_minor ip) in
  let d := st16 d (a + 6) (i_nlink ip) in
  let d := st32 d (a + 8) (i_size ip) in
  put_words d (a + 12) (i_addrs ip).

(** The fields of [ip], copied from the disk inode at [a]. *)
Definition get_dinode (d : mem) (a : Z) (ip : inode) : inode :=
  Inode (i_dev ip) (i_inum ip) (i_ref ip) (i_lock ip) (i_valid ip)
    (s16 (ld16 d a)) (s16 (ld16 d (a + 2))) (s16 (ld16 d (a + 4))) (s16 (ld16 d (a + 6)))
    (ld32 d (a + 8)) (get_words d (a + 12) 13).

(** The loop of [iget], from entry [i]: the entry of [inum], or else the
    first empty one. *)
Fixpoint iget_scan (dev inum : Z) (i : nat) (l : list inode) (empty : option nat) : nat + option nat :=
  match l with
  | [] => inr empty
  | ip :: l =>
      if (0 <? i_ref ip) && (i_dev ip =? dev) && (i_inum ip =? inum) then inl i
      else
        let empty := match empty with Some _ => empty | None => if i_ref ip =? 0 then Some i else None end in
        iget_scan dev inum (Datatypes.S i) l empty
  end.

Definition iget (dev inum : Z) (f : fs S) : outcome (nat * fs S) :=
  match iget_scan dev inum 0 (icache f) None with
  | inl i => Ok (i, upd_inode i (fun ip => i_with_ref (i_ref ip + 1) ip) f)
  | inr None => Panic "iget: no inodes"
  | inr (Some i) =>
      let init ip := Inode dev inum 1 (i_lock ip) false (i_type ip) (i_major ip) (i_minor ip) (i_nlink ip) (i_size ip) (i_addrs ip) in
      Ok (i, upd_inode i init f)
  end.

Definition iinit (dev : Z) (s : S) : outcome (fs S) :=
  let f := FS s (replicate NINODE inode0) (Superblock 0 0 0 0 0 0 0) in
  let! (bp, f) := fs_bread dev 1 f in
  let! d := fs_data bp f in
  let! f := fs_brelse bp f in
  Ok (FS (blocks f) (icache f) (decode_sb d)).

(** The loop of [ialloc] from [inum]; [n] bounds the iterations left. *)
Fixpoint ialloc_loop (n : nat) (dev type inum : Z) (f : fs S) : outcome (nat * fs S) :=
  match n with
  | O => Panic "ialloc: no inodes"
  | Datatypes.S n =>
      if negb (inum <? sb_ninodes (sb f)) then Panic "ialloc: no inodes"
      else
        let! (bp, f) := fs_bread dev (IBLOCK inum f) f in
        let! d := fs_data bp f in
        let a := dinode_at inum in
        if s16 (ld16 d a) =? 0 then
          let! f := fs_log bp (st16 (memset d a 0 64) a type) f in
          let! f := fs_brelse bp f in
          iget dev inum f
        else
          let! f := fs_brelse bp f in
          ialloc_loop n dev type (inum + 1) f
  end.

Definition ialloc (dev type : Z) (f : fs S) : outcome (nat * fs S) :=
  ialloc_loop (Z.to_nat (sb_ninodes (sb f))) dev type 1 f.

Definition iupdate (ip : nat) (f : fs S) : outcome (fs S) :=
  let! i := the_inode ip f in
  let! (bp, f) := fs_bread (i_dev i) (IBLOCK (i_inum i) f) f in
  let! d := fs_data bp f in
  let! f := fs_log bp (put_dinode d (dinode_at (i_inum i)) i) f in
  fs_brelse bp f.

Definition idup (ip : nat) (f : fs S) : outcome (fs S) :=
  let! _ := the_inode ip f in
  Ok (upd_inode ip (fun i => i_with_ref (i_ref i + 1) i) f).

(** [acquiresleep(&ip->lock)]. *)
Definition lock_inode (ip : nat) (f : fs S) : outcome (fs S) :=
  let! i := the_inode ip f in
  match acquiresleep me (i_lock i) with
  | Some lk => Ok (upd_inode ip (i_with_lock lk) f)
  | None => UB "acquiresleep: sleeps forever"
  end.

Definition ilock (ip : nat) (f : fs S) : outcome (fs S) :=
  let! i := the_inode ip f in
  if i_ref i <? 1 then Panic "ilock"
  else
    let! f := lock_inode ip f in
    if i_valid i then Ok f
    else
      let! (bp, f) := fs_bread (i_dev i) (IBLOCK (i_inum i) f) f in
      let! d := fs_data bp f in
      let f := upd_inode ip (get_dinode d (dinode_at (i_inum i))) f in
      let! f := fs_brelse bp f in
      let f := upd_inode ip (i_with_valid true) f in
      let! i := the_inode ip f in
      if i_type i =? 0 then Panic "ilock: no type" else Ok f.

Definition iunlock (ip : nat) (f : fs S) : outcome (fs S) :=
  let! i := the_inode ip f in
  if negb (holdingsleep me (i_lock i)) || (i_ref i <? 1) then Panic "iunlock"
  else Ok (upd_inode ip (fun i => i_with_lock (releasesleep (i_lock i)) i) f).

(** The first loop of [itrunc], from [addrs[i]], with [n] addresses to go. *)
Fixpoint itrunc_direct (n : nat) (ip : nat) (k : nat) (f : fs S) : outcome (fs S) :=
  match n with
  | O => Ok f
  | Datatypes.S n =>
      let! i := the_inode ip f in
      let a := default 0 (i_addrs i !! k) in
      if a =? 0 then itrunc_direct n ip (Datatypes.S k) f
      else
        let! f := bfree (i_dev i) a f in
        itrunc_direct n ip (Datatypes.S k) (upd_inode ip (fun i => i_with_addrs (<[k := 0]> (i_addrs i)) i) f)
  end.

(** The loop over the indirect block: the addresses still to free. *)
Fixpoint bfree_all (dev : Z) (addrs : list Z) (f : fs S) : outcome (fs S) :=
  match addrs with
  | [] => Ok f
  | a :: addrs =>
      if a =? 0 then bfree_all dev addrs f
      else let! f := bfree dev a f in bfree_all dev addrs f
  end.

Definition itrunc (ip : nat) (f : fs S) : outcome (fs S) :=
  let! f := itrunc_direct (Z.to_nat NDIRECT) ip 0 f in
  let! i := the_inode ip f in
  let ind := default 0 (i_addrs i !! Z.to_nat NDIRECT) in
  let! f :=
    (if ind =? 0 then Ok f
     else
       let! (bp, f) := fs_bread (i_dev i) ind f in
       let! d := fs_data bp f in
       let! f := bfree_all (i_dev i) (get_words d 0 (Z.to_nat NINDIRECT)) f in
       let! f := fs_brelse bp f in
       let! f := bfree (i_dev i) ind f in
       Ok (upd_inode ip (fun i => i_with_addrs (<[Z.to_nat NDIRECT := 0]> (i_addrs i)) i) f)) in
  iupdate ip (upd_inode ip (i_with_size 0) f).

Definition iput (ip : nat) (f : fs S) : outcome (fs S) :=
  let! f := lock_inode ip f in
  let! i := the_inode ip f in
  let! f :=
    (if i_valid i && (i_nlink i =? 0) && (i_ref i =? 1) then
       let! f := itrunc ip f in
       let! f := iupdate ip (upd_inode ip (i_with_type 0) f) in
       Ok (upd_inode ip (i_with_valid false) f)
     else Ok f) in
  Ok (upd_inode ip (fun i => i_with_ref (i_ref i - 1) (i_with_lock (releasesleep (i_lock i)) i)) f).

Definition iunlockput (ip : nat) (f : fs S) : outcome (fs S) :=
  let! f := iunlock ip f in iput ip f.

(** * Inode content *)

Definition bmap (ip : nat) (bn : Z) (f : fs S) : outcome (Z * fs S) :=
  let! i := the_inode ip f in
  let set k a f := upd_inode ip (fun i => i_with_addrs (<[Z.to_nat k := a]> (i_addrs i)) i) f in
  if bn <? NDIRECT then
    let addr := default 0 (i_addrs i !! Z.to_nat bn) in
    if addr =? 0 then
      let! (addr, f) := balloc (i_dev i) f in
      Ok (addr, set bn addr f)
    else Ok (addr, f)
  else
    let bn := bn - NDIRECT in
    if bn <? NINDIRECT then
      let addr := default 0 (i_addrs i !! Z.to_nat NDIRECT) in
      let! (addr, f) :=
        (if addr =? 0 then
           let! (addr, f) := balloc (i_dev i) f in
           Ok (addr, set NDIRECT addr f)
         else Ok (addr, f)) in
      let! (bp, f) := fs_bread (i_dev i) addr f in
      let! d := fs_data bp f in
      let addr := ld32 d (4 * bn) in
      let! (addr, f) :=
        (if addr =? 0 then
           let! (addr, f) := balloc (i_dev i) f in
           let! f := fs_log bp (st32 d (4 * bn) addr) f in
           Ok (addr, f)
         else Ok (addr, f)) in
      let! f := fs_brelse bp f in
      Ok (addr, f)
    else Panic "bmap: out of range".

(** [struct stat]. *)
Record stat := Stat { st_type : Z; st_dev : Z; st_ino : Z; st_nlink : Z; st_size : Z }.

Definition stati (i : inode) : stat :=
  Stat (i_type i) (i_dev i) (i_inum i) (i_nlink i) (i_size i).

(** The loop of [readi] with [n] bytes to go at [off]; [fuel] bounds the
    blocks. *)
Fixpoint readi_loop (fuel : nat) (ip : nat) (off n : Z) (f : fs S) : outcome (list Z * fs S) :=
  if n <=? 0 then Ok ([], f)
  else match fuel with
  | O => UB "readi: fuel"
  | Datatypes.S fuel =>
      let! i := the_inode ip f in
      let! (b, f) := bmap ip (off / BSIZE) f in
      let! (bp, f) := fs_bread (i_dev i) b f in
      let m := Z.min n (BSIZE - off mod BSIZE) in
      let! d := fs_data bp f in
      let bytes := bytes_at d (off mod BSIZE) (Z.to_nat m) in
      let! f := fs_brelse bp f in
      let! (rest, f) := readi_loop fuel ip (off + m) (n - m) f in
      Ok (bytes ++ rest, f)
  end.

(** [None] is the result -1; otherwise the bytes put at [dst], whose number
    is the result. *)
Definition readi (ip : nat) (off n : Z) (f : fs S) : outcome (option (list Z) * fs S) :=
  let! i := the_inode ip f in
  if i_type i =? T_DEV then
    if (i_major i <? 0) || (NDEV <=? i_major i) then Ok (None, f)
    else match dev_read (i_major i) with
         | None => Ok (None, f)
         | Some g => g ip n f
         end
  else if (i_size i <? off) || (u32 (off + n) <? off) then Ok (None, f)
  else
    let n := if i_size i <? u32 (off + n) then i_size i - off else n in
    let! (bytes, f) := readi_loop (Z.to_nat (n / BSIZE + 2)) ip off n f in
    Ok (Some bytes, f).

(** [memmove(bp->data + a, src, m)]. *)
Fixpoint put_bytes (d : mem) (a : Z) (bytes : list Z) : mem :=
  match bytes with [] => d | b :: bytes => put_bytes (st8 d a b) (a + 1) bytes end.

Fixpoint writei_loop (fuel : nat) (ip : nat) (src : list Z) (off : Z) (f : fs S) : outcome (fs S) :=
  match src with
  | [] => Ok f
  | _ =>
      match fuel with
      | O => UB "writei: fuel"
      | Datatypes.S fuel =>
          let! i := the_inode ip f in
          let! (b, f) := bmap ip (off / BSIZE) f in
          let! (bp, f) := fs_bread (i_dev i) b f in
          let m := Z.min (Z.of_nat (length src)) (BSIZE - off mod BSIZE) in
          let! d := fs_data bp f in
          let! f := fs_log bp (put_bytes d (off mod BSIZE) (take (Z.to_nat m) src)) f in
          let! f := fs_brelse bp f in
          writei_loop fuel ip (drop (Z.to_nat m) src) (off + m) f
      end
  end.

Definition writei (ip : nat) (src : list Z) (off : Z) (f : fs S) : outcome (Z * fs S) :=
  let n := Z.of_nat (length src) in
  let! i := the_inode ip f in
  if i_type i =? T_DEV then
    if (i_major i <? 0) || (NDEV <=? i_major i) then Ok (-1, f)
    else match dev_write (i_major i) with
         | None => Ok (-1, f)
         | Some g => g ip src f
         end
  else if (i_size i <? off) || (u32 (off + n) <? off) then Ok (-1, f)
  else if MAXFILE * BSIZE <? u32 (off + n) then Ok (-1, f)
  else
    let! f := writei_loop (Z.to_nat (n / BSIZE + 2)) ip src off f in
    let! i := the_inode ip f in
    if (0 <? n) && (i_size i <? off + n) then
      let! f := iupdate ip (upd_inode ip (i_with_size (off + n)) f) in
      Ok (n, f)
    else Ok (n, f).

(** * Directories *)

(** [strncmp] and [strncpy] of string.c on buffers given by their bytes; a
    byte past the end of the list reads as 0. *)
Fixpoint strncmp_bytes (n : nat) (p q : list Z) : Z :=
  match n with
  | O => 0
  | Datatypes.S n =>
      let a := default 0 (head p) in
      let b := default 0 (head q) in
      if negb (a =? 0) && (a =? b) then strncmp_bytes n (tail p) (tail q) else a - b
  end.

Fixpoint strncpy_bytes (n : nat) (t : list Z) : list Z :=
  match n with
  | O => []
  | Datatypes.S n =>
      let a := default 0 (head t) in
      if a =? 0 then replicate (Datatypes.S n) 0 else a :: strncpy_bytes n (tail t)
  end.

Definition namecmp (s t : list Z) : Z := strncmp_bytes (Z.to_nat DIRSIZ) s t.

(** [struct dirent] as the 16 bytes of the file. *)
Definition de_inum (de : list Z) : Z := default 0 (de !! 0%nat) + 256 * default 0 (de !! 1%nat).
Definition de_name (de : list Z) : list Z := drop 2 de.
Definition mk_dirent (inum : Z) (name : list Z) : list Z :=
  u8 inum :: u8 (inum / 256) :: strncpy_bytes (Z.to_nat DIRSIZ) name.

Definition DESIZE : Z := 16.

Definition read_dirent (what : string) (dp : nat) (off : Z) (f : fs S) : outcome (list Z * fs S) :=
  let! (r, f) := readi dp off DESIZE f in
  match r with
  | Some de => if Z.of_nat (length de) =? DESIZE then Ok (de, f) else Panic what
  | None => Panic what
  end.

(** The loop of [dirlookup] from [off]; the result carries [*poff]. *)
Fixpoint dirlookup_loop (fuel : nat) (dp : nat) (name : list Z) (off : Z) (f : fs S)
    : outcome (option (nat * Z) * fs S) :=
  let! d := the_inode dp f in
  if negb (off <? i_size d) then Ok (None, f)
  else match fuel with
  | O => UB "dirlookup: fuel"
  | Datatypes.S fuel =>
      let! (de, f) := read_dirent "dirlookup read" dp off f in
      if de_inum de =? 0 then dirlookup_loop fuel dp name (off + DESIZE) f
      else if namecmp name (de_name de) =? 0 then
        let! (ip, f) := iget (i_dev d) (de_inum de) f in
        Ok (Some (ip, off), f)
      else dirlookup_loop fuel dp name (off + DESIZE) f
  end.

Definition dirlookup (dp : nat) (name : list Z) (f : fs S) : outcome (option (nat * Z) * fs S) :=
  let! d := the_inode dp f in
  if negb (i_type d =? T_DIR) then Panic "dirlookup not DIR"
  else dirlookup_loop (Z.to_nat (i_size d / DESIZE + 1)) dp name 0 f.

(** The loop of [dirlink] for an empty entry, from [off]. *)
Fixpoint free_dirent (fuel : nat) (dp : nat) (off : Z) (f : fs S) : outcome (Z * fs S) :=
  let! d := the_inode dp f in
  if negb (off <? i_size d) then Ok (off, f)
  else match fuel with
  | O => UB "dirlink: fuel"
  | Datatypes.S fuel =>
      let! (de, f) := read_dirent "dirlink read" dp off f in
      if de_inum de =? 0 then Ok (off, f) else free_dirent fuel dp (off + DESIZE) f
  end.

Definition dirlink (dp : nat) (name : list Z) (inum : Z) (f : fs S) : outcome (Z * fs S) :=
  let! (r, f) := dirlookup dp name f in
  match r with
  | Some (ip, _) => let! f := iput ip f in Ok (-1, f)
  | None =>
      let! d := the_inode dp f in
      let! (off, f) := free_dirent (Z.to_nat (i_size d / DESIZE + 1)) dp 0 f in
      let! (n, f) := writei dp (mk_dirent inum name) off f in
      if n =? DESIZE then Ok (0, f) else Panic "dirlink"
  end.

(** * Paths *)

Definition SLASH : Z := 47.

(** [while(c == '/') path++]. *)
Fixpoint skip_slashes (path : list Z) : list Z :=
  match path with
  | c :: rest => if c =? SLASH then skip_slashes rest else path
  | [] => []
  end.

(** The characters up to the next slash or the end, and the rest. *)
Fixpoint span_elem (path : list Z) : list Z * list Z :=
  match path with
  | [] => ([], [])
  | c :: rest => if c =? SLASH then ([], path) else let '(e, r) := span_elem rest in (c :: e, r)
  end.

(** [path] is the C string without its terminating 0; [name] is the array of
    DIRSIZ bytes, which keeps what is behind the 0 put in it. *)
Definition skipelem (path name : list Z) : option (list Z * list Z) :=
  match skip_slashes path with
  | [] => None
  | path =>
      let '(s, path) := span_elem path in
      let len := length s in
      let name :=
        if DIRSIZ <=? Z.of_nat len then take (Z.to_nat DIRSIZ) s
        else s ++ 0 :: drop (Datatypes.S len) name in
      Some (skip_slashes path, name)
  end.

(** The loop of [namex]; every element shortens the path. *)
Fixpoint namex_loop (fuel : nat) (ip : nat) (path : list Z) (parent : bool) (name : list Z) (f : fs S)
    : outcome (option (nat * list Z) * fs S) :=
  match skipelem path name with
  | None =>
      if parent then let! f := iput ip f in Ok (None, f)
      else Ok (Some (ip, name), f)
  | Some (path, name) =>
      match fuel with
      | O => UB "namex: fuel"
      | Datatypes.S fuel =>
          let! f := ilock ip f in
          let! i := the_inode ip f in
          if negb (i_type i =? T_DIR) then let! f := iunlockput ip f in Ok (None, f)
          else if parent && (match path with [] => true | _ => false end) then
            let! f := iunlock ip f in Ok (Some (ip, name), f)
          else
            let! (next, f) := dirlookup ip name f in
            match next with
            | None => let! f := iunlockput ip f in Ok (None, f)
            | Some (next, _) =>
                let! f := iunlockput ip f in
                namex_loop fuel next path parent name f
            end
      end
  end.

(** [cwd] is [myproc()->cwd]; the result carries [name]. *)
Definition namex (cwd : nat) (path : list Z) (parent : bool) (name : list Z) (f : fs S)
    : outcome (option (nat * list Z) * fs S) :=
  let! (ip, f) :=
    (if default 0 (head path) =? SLASH then iget ROOTDEV ROOTINO f
     else let! f := idup cwd f in Ok (cwd, f)) in
  namex_loop (length path) ip path parent name f.

Definition namei (cwd : nat) (path : list Z) (f : fs S) : outcome (option nat * fs S) :=
  let! (r, f) := namex cwd path false (replicate (Z.to_nat DIRSIZ) 0) f in
  Ok (fst <$> r, f).

Definition nameiparent (cwd : nat) (path name : list Z) (f : fs S) : outcome (option (nat * list Z) * fs S) :=
  namex cwd path true name f.

End Fs.
