(* ===== verification/FsBlocks.v ===== *)
(** The contract between fs.c and the block layer, as a class of laws over
    [BlockOps], and its discharge by the buffer cache and the log.  A state has
    a view of every block; reading a block gives a handle on it, a logged
    change updates the view, and releasing the handle keeps it.  The laws
    bound the blocks a transaction logs by [FSCAP] and the blocks held at once
    by three, which is what the 30 buffers of the cache allow. *)
From S2P Require Import Prelude Mem Spinlock Bio BioTheory Log LogTheory LogProps Fs.

Definition FSCAP : nat := 27.

Class BlockLaws (S : Type) `{BlockOps S} := {
  (** [b_ok s held]: the invariant, with the handles held and their blocks. *)
  b_ok : S -> list (nat * Z) -> Prop;
  b_view : S -> Z -> mem;
  b_logged : S -> gset Z;
  (** The blocks outside the log, and whether a transaction is open. *)
  b_home : S -> Z -> Prop;
  b_open : S -> Prop;
  b_read_law s held b :
    b_ok s held -> b_home s b -> b ∉ held.*2 -> (length held < 3)%nat ->
    exists i s', b_read ROOTDEV b s = Ok (i, s') /\ b_ok s' ((i, b) :: held)
      /\ (forall c, b_view s' c = b_view s c) /\ b_logged s' = b_logged s
      /\ (forall c, b_home s' c <-> b_home s c) /\ (b_open s' <-> b_open s);
  b_get_law s held i b : b_ok s held -> (i, b) ∈ held -> b_get i s = Ok (b_view s b);
  b_log_law s held i b d :
    b_ok s held -> (i, b) ∈ held -> b_home s b -> b_open s -> (size ({[b]} ∪ b_logged s) <= FSCAP)%nat ->
    exists s1 s', b_set i d s = Ok s1 /\ b_log i s1 = Ok s' /\ b_ok s' held
      /\ (forall c, b_view s' c = if decide (c = b) then d else b_view s c)
      /\ b_logged s' = {[b]} ∪ b_logged s
      /\ (forall c, b_home s' c <-> b_home s c) /\ (b_open s' <-> b_open s);
  b_rel_law s held i b :
    b_ok s ((i, b) :: held) ->
    exists s', b_rel i s = Ok s' /\ b_ok s' held
      /\ (forall c, b_view s' c = b_view s c) /\ b_logged s' = b_logged s
      /\ (forall c, b_home s' c <-> b_home s c) /\ (b_open s' <-> b_open s);
  b_begin_law s : b_ok s [] ->
    match b_begin s with
    | Some s' => b_ok s' [] /\ b_open s' /\ (forall c, b_view s' c = b_view s c)
        /\ b_logged s' = b_logged s /\ (forall c, b_home s' c <-> b_home s c)
    | None => True
    end;
  b_end_law s : b_ok s [] -> b_open s ->
    exists s', b_end s = Ok s' /\ b_ok s' [] /\ (forall c, b_home s c -> b_view s' c = b_view s c)
      /\ (forall c, b_home s' c <-> b_home s c) /\ b_logged s' ⊆ b_logged s
}.

(** * The buffer cache and the log *)

Section Instance.
Context (me : Z).

#[export] Instance log_blocks : BlockOps lst := {
  b_read dev b l := let! (i, s) := bread me dev b (cache l) in Ok (i, set_cache s l);
  b_get i l := data_of i (cache l);
  b_set i d l := let! s := set_data i d (cache l) in Ok (set_cache s l);
  b_log i l := log_write i l;
  b_rel i l := let! s := brelse me i (cache l) in Ok (set_cache s l);
  b_begin l := begin_op l;
  b_end l := end_op me l
}.

(** The held blocks that are not in the log. *)
Definition unlogged (l : lst) (held : list (nat * Z)) : list Z := filter (fun b => b ∉ lh l) held.*2.

Lemma unlogged_cons l i b held :
  unlogged l ((i, b) :: held) = if decide (b ∈ lh l) then unlogged l held else b :: unlogged l held.
Proof.
  unfold unlogged. rewrite fmap_cons, filter_cons. cbn [snd].
  destruct (decide (b ∈ lh l)); [rewrite decide_False by tauto|rewrite decide_True by done]; done.
Qed.

Record log_ok (l : lst) (held : list (nat * Z)) : Prop := {
  lk_wf : bwf me (cache l);
  lk_bufs : length (bufs (cache l)) = NBUF;
  lk_holds j c : holds (cache l) j c <-> (j, c) ∈ held;
  lk_nodup : NoDup held.*2;
  lk_spare : spare (cache l) = 30 - Z.of_nat (length (lh l)) - Z.of_nat (length (unlogged l held));
  lk_layout : layout (disksize (cache l)) (log_start l) (log_size l) (lh l);
  lk_size : disksize (cache l) <= 2147483648;
  lk_cap : (length (lh l) <= FSCAP)%nat;
  lk_pinned c : pinned (cache l) c <-> c ∈ lh l;
  lk_clean c : c ∈ held.*2 -> c ∉ lh l -> view (cache l) c = dblk (disk (cache l)) c;
  lk_empty : header_of (log_start l) (disk (cache l)) = [];
  lk_log : Z.of_nat FSCAP + 1 < log_size l;
  lk_commit : committing l = false;
  lk_open : 0 <= outstanding l
}.

Definition log_home (l : lst) (b : Z) : Prop := 0 <= b < disksize (cache l) /\ ~ in_log (log_start l) (log_size l) b.

Lemma log_read_law l held b :
  log_ok l held -> log_home l b -> b ∉ held.*2 -> (length held < 3)%nat ->
  exists i l', b_read ROOTDEV b l = Ok (i, l') /\ log_ok l' ((i, b) :: held)
    /\ (forall c, view (cache l') c = view (cache l) c) /\ lh l' = lh l
    /\ (forall c, log_home l' c <-> log_home l c) /\ outstanding l' = outstanding l.
Proof.
  intros [Hw Hbs Hh Hnd Hsp Hlay Hsz Hcap Hpin Hcl Hem Hlog Hcm Hop] [Hb Hnl] Hni Hlen.
  assert (length (unlogged l held) < 3)%nat as Hu.
  { unfold unlogged. pose proof (length_filter (fun b => b ∉ lh l) held.*2) as Hf. rewrite length_fmap in Hf. lia. }
  destruct (bread_spec me (cache l) b Hw Hb) as (i & s & E & Hw' & F & Hh' & Hv & Hd & _ & Hp & Hcb & Hs1 & Hs2).
  { intros j Hj%Hh. apply Hni, list_elem_of_fmap. by exists (j, b). }
  { right. unfold FSCAP in Hcap. lia. }
  exists i, (set_cache s l). cbn [b_read log_blocks]. unfold ROOTDEV. rewrite E. cbn [obind]. split; [done|].
  assert (forall c, view s c = view (cache l) c) as HV.
  { intros c. destruct (decide (c = b)) as [->|Hne]; [done|]. by apply F. }
  split; [split|]; cbn [cache set_cache lh log_start log_size committing outstanding]; try done.
  - rewrite <- Hbs. by eapply bread_length.
  - intros j c. rewrite elem_of_cons. destruct (decide (c = b)) as [->|Hne].
    + split.
      * intros Hj. left. f_equal. by apply (holds_inj me s j i b).
      * intros [[= ->]|Hin]; [done|]. exfalso. apply Hni, list_elem_of_fmap. by exists (j, b).
    + rewrite (bf_holds _ _ _ F) by done. rewrite Hh. split; [by right|]. intros [[= _ ->]|?]; done.
  - cbn. by apply NoDup_cons.
  - change (unlogged (set_cache s l)) with (unlogged l). rewrite unlogged_cons.
    case_decide as Hpb; rewrite <- Hpin in Hpb; [by rewrite Hs1|]. rewrite Hs2 by done. cbn [length]. lia.
  - by rewrite (bf_size _ _ _ F).
  - by rewrite (bf_size _ _ _ F).
  - intros c. destruct (decide (c = b)) as [->|Hne]; [by rewrite Hp|]. by rewrite (bf_pinned _ _ _ F).
  - intros c. rewrite fmap_cons, elem_of_cons, HV, Hd. intros [->|Hin] Hx; [|by apply Hcl].
    apply Hcb. by rewrite Hpin.
  - by rewrite Hd.
  - split; [done|]. split; [done|]. split; [|done]. intros c. unfold log_home. cbn. by rewrite (bf_size _ _ _ F).
Qed.

Lemma log_log_law l held i b d :
  log_ok l held -> (i, b) ∈ held -> log_home l b -> 1 <= outstanding l ->
  (b ∈ lh l \/ (length (lh l) < FSCAP)%nat) ->
  exists l1 l', b_set i d l = Ok l1 /\ b_log i l1 = Ok l' /\ log_ok l' held
    /\ (forall c, view (cache l') c = if decide (c = b) then d else view (cache l) c)
    /\ lh l' = (if decide (b ∈ lh l) then lh l else lh l ++ [b])
    /\ (forall c, log_home l' c <-> log_home l c) /\ outstanding l' = outstanding l.
Proof.
  intros [Hw Hbs Hh Hnd Hsp Hlay Hsz Hcap Hpin Hcl Hem Hlog Hcm Hop] Hin [Hb Hnl] Ho Hroom.
  destruct (set_data_spec me (cache l) i b d Hw) as (s1 & E1 & Hw1 & F1 & Hh1 & Hv1 & Hd1 & _ & Hp1 & Hs1); [by apply Hh|].
  pose proof Hh1 as (bf & Hbf & _ & Hbb & _).
  destruct (set_dirty_spec me s1 i b bf Hw1 Hh1 Hbf) as (Hw2 & F2 & Hh2 & Hv2 & Hd2 & _ & Hp2 & Hs2).
  set (s2 := set_buf i (set_dirty bf) s1) in *.
  set (h := if decide (b ∈ lh l) then lh l else lh l ++ [b]).
  exists (set_cache s1 l), (Lst s2 (log_start l) (log_size l) (outstanding l) (committing l) h).
  cbn [b_set log_blocks b_log]. rewrite E1. cbn [obind]. split; [done|].
  rewrite (log_write_lh i (set_cache s1 l) bf); [|done|unfold LOGSIZE, FSCAP in *; cbn; lia..|done].
  split; [by rewrite Hbb|].
  assert (disk s2 = disk (cache l)) as Hd by congruence.
  assert (disksize s2 = disksize (cache l)) as Hz by (rewrite (bf_size _ _ _ F2); apply F1).
  assert (forall c, view s2 c = if decide (c = b) then d else view (cache l) c) as HV.
  { intros c. case_decide as Hc; [rewrite Hc, Hv2; exact Hv1|]. rewrite (bf_view _ _ _ F2), (bf_view _ _ _ F1); done. }
  assert (forall c, c ∈ h <-> c = b \/ c ∈ lh l) as Hin_h.
  { intros c. unfold h. case_decide; [|rewrite elem_of_app, list_elem_of_singleton]; naive_solver. }
  split; [split|]; cbn [cache set_cache set_lh lh log_start log_size committing outstanding]; try done.
  - unfold s2. rewrite set_buf_length, <- Hbs. by eapply set_data_length.
  - intros j c. destruct (decide (c = b)) as [->|Hne].
    + split.
      * intros Hj. by rewrite (holds_inj me s2 j i b).
      * intros Hj%Hh. apply Hh in Hin. by rewrite (holds_inj me (cache l) j i b).
    + rewrite (bf_holds _ _ _ F2), (bf_holds _ _ _ F1) by done. apply Hh.
  - rewrite Hs2, Hs1, Hsp. unfold unlogged, h. cbn [lh]. case_decide as Hbl; [done|].
    rewrite length_app. cbn [length].
    rewrite (filter_remove_one _ (fun c => c ∉ lh l ++ [b]) b); [lia|done| |done|].
    + apply list_elem_of_fmap. by exists (i, b).
    + intros x _. rewrite elem_of_app, list_elem_of_singleton. tauto.
  - rewrite Hz. destruct Hlay as [L1 L2 L3]. split; [done| |].
    + unfold h. case_decide as Hbl; [done|]. apply NoDup_app. split; [done|]. split; [|apply NoDup_singleton].
      intros x Hx ->%list_elem_of_singleton. done.
    + intros c [->|Hc]%Hin_h; [|by apply L3]. done.
  - by rewrite Hz.
  - unfold h. case_decide; [done|]. rewrite length_app. cbn. destruct Hroom; [done|lia].
  - intros c. rewrite Hin_h. destruct (decide (c = b)) as [->|Hne]; [tauto|].
    rewrite (bf_pinned _ _ _ F2), (bf_pinned _ _ _ F1), Hpin by done. tauto.
  - intros c Hc Hx. rewrite Hin_h in Hx. rewrite HV, decide_False, Hd by tauto. apply Hcl; tauto.
  - by rewrite Hd.
  - split; [done|]. split; [done|]. split; [|done]. intros c. unfold log_home. cbn [cache log_start log_size]. by rewrite Hz.
Qed.

Lemma log_rel_law l held i b :
  log_ok l ((i, b) :: held) ->
  exists l', b_rel i l = Ok l' /\ log_ok l' held
    /\ (forall c, view (cache l') c = view (cache l) c) /\ lh l' = lh l
    /\ (forall c, log_home l' c <-> log_home l c) /\ outstanding l' = outstanding l.
Proof.
  intros [Hw Hbs Hh Hnd Hsp Hlay Hsz Hcap Hpin Hcl Hem Hlog Hcm Hop].
  cbn in Hnd. apply NoDup_cons in Hnd as [Hni Hnd].
  destruct (brelse_spec me (cache l) i b Hw) as (s & E & Hw' & F & Hh' & Hv & Hd & _ & Hp & Hs1 & Hs2).
  { apply Hh. by left. }
  { rewrite Hpin. destruct (decide (b ∈ lh l)); [by left|right]. apply Hcl; [by left|done]. }
  exists (set_cache s l). cbn [b_rel log_blocks]. rewrite E. cbn [obind]. split; [done|].
  assert (forall c, view s c = view (cache l) c) as HV.
  { intros c. destruct (decide (c = b)) as [->|Hne]; [done|]. by apply F. }
  split; [split|]; cbn [cache set_cache lh log_start log_size committing outstanding]; try done.
  - rewrite <- Hbs. by eapply brelse_length.
  - intros j c. destruct (decide (c = b)) as [->|Hne].
    + split; [intros Hj; by apply Hh' in Hj|]. intros Hin. exfalso. apply Hni, list_elem_of_fmap. by exists (j, b).
    + rewrite (bf_holds _ _ _ F), Hh, elem_of_cons by done. split; [|by right]. by intros [[= _ ->]|?].
  - change (unlogged (set_cache s l)) with (unlogged l). rewrite unlogged_cons in Hsp.
    case_decide as Hpb; rewrite <- Hpin in Hpb; [by rewrite Hs1|]. rewrite Hs2 by done. cbn [length] in Hsp. lia.
  - by rewrite (bf_size _ _ _ F).
  - by rewrite (bf_size _ _ _ F).
  - intros c. destruct (decide (c = b)) as [->|Hne]; [by rewrite Hp|]. by rewrite (bf_pinned _ _ _ F).
  - intros c Hc Hx. rewrite HV, Hd. apply Hcl; [by right|done].
  - by rewrite Hd.
  - split; [done|]. split; [done|]. split; [|done]. intros c. unfold log_home. cbn. by rewrite (bf_size _ _ _ F).
Qed.

(** The steps of a commit keep the number of buffers. *)
Ltac bufs_length :=
  repeat match goal with
  | r : (_ * _)%type |- _ => destruct r
  | E : bread _ _ _ _ = Ok _ |- _ => apply bread_length in E
  | E : set_data _ _ _ = Ok _ |- _ => apply set_data_length in E
  | E : bwrite _ _ _ = Ok _ |- _ => apply bwrite_length in E
  | E : brelse _ _ _ = Ok _ |- _ => apply brelse_length in E
  end.

Lemma write_head_length start blocks s s' : write_head me start blocks s = Ok s' -> length (bufs s') = length (bufs s).
Proof. unfold write_head. intros E. inv_bind. destruct r as [i s1]. inv_bind. bufs_length. congruence. Qed.

Lemma write_log_length start blocks : forall tail s s',
  write_log me start tail blocks s = Ok s' -> length (bufs s') = length (bufs s).
Proof.
  induction blocks as [|b blocks IH]; intros tail s s'; cbn [write_log]; [congruence|].
  intros E. inv_bind. destruct r as [i s1]. inv_bind. destruct r as [j s2]. inv_bind. apply IH in E. bufs_length. congruence.
Qed.

Lemma install_trans_length start blocks : forall tail s s',
  install_trans me start tail blocks s = Ok s' -> length (bufs s') = length (bufs s).
Proof.
  induction blocks as [|b blocks IH]; intros tail s s'; cbn [install_trans]; [congruence|].
  intros E. inv_bind. destruct r as [i s1]. inv_bind. destruct r as [j s2]. inv_bind. apply IH in E. bufs_length. congruence.
Qed.

Lemma commit_length l l' : commit me l = Ok l' -> length (bufs (cache l')) = length (bufs (cache l)).
Proof.
  unfold commit. destruct (lh l) as [|b bl]; [congruence|]. intros E. inv_bind. injection E as <-. cbn.
  repeat match goal with
  | E : write_log _ _ _ _ _ = Ok _ |- _ => apply write_log_length in E
  | E : write_head _ _ _ _ = Ok _ |- _ => apply write_head_length in E
  | E : install_trans _ _ _ _ _ = Ok _ |- _ => apply install_trans_length in E
  end. congruence.
Qed.

Lemma log_ok_ready l : log_ok l [] -> ready me l.
Proof.
  intros [Hw Hbs Hh Hnd Hsp Hlay Hsz Hcap Hpin Hcl Hem Hlog Hcm Hop]. split; try done.
  - intros j c Hj%Hh. by apply not_elem_of_nil in Hj.
  - cbn in Hsp. unfold FSCAP in Hcap. lia.
  - unfold LOGSIZE, FSCAP in *. lia.
Qed.

Lemma log_ok_count l n held : log_ok l held -> 0 <= n -> log_ok (Lst (cache l) (log_start l) (log_size l) n false (lh l)) held.
Proof. intros [Hw Hbs Hh Hnd Hsp Hlay Hsz Hcap Hpin Hcl Hem Hlog Hcm Hop] Hn. by split. Qed.

Lemma log_begin_law l l' : log_ok l [] -> begin_op l = Some l' -> l' = set_outstanding (outstanding l + 1) l /\ log_ok l' [].
Proof.
  intros Hok. unfold begin_op. destruct (committing l) eqn:Hc; [done|]. destruct (_ <? _); [done|]. intros [= <-]. split; [done|].
  unfold set_outstanding. rewrite Hc. apply log_ok_count; [done|]. destruct Hok. lia.
Qed.

Lemma log_end_law l : log_ok l [] -> 1 <= outstanding l ->
  exists l', end_op me l = Ok l' /\ log_ok l' [] /\ (forall c, log_home l c -> view (cache l') c = view (cache l) c)
    /\ (forall c, log_home l' c <-> log_home l c) /\ (lh l' = [] \/ lh l' = lh l).
Proof.
  intros Hok Ho. pose proof (log_ok_ready l Hok) as Hr. pose proof (commit_spec me l Hr) as Hc.
  pose proof (log_ok_count l (outstanding l - 1) [] Hok ltac:(lia)) as Hok1.
  destruct Hok as [Hw Hbs Hh Hnd Hsp Hlay Hsz Hcap Hpin Hcl Hem Hlog Hcm Hop].
  unfold end_op. cbn [committing set_outstanding]. rewrite Hcm. cbn [outstanding set_outstanding].
  destruct (Z.eqb_spec (outstanding l - 1) 0) as [Hz|Hz].
  - destruct (decide (lh l = [])) as [Hl|Hl].
    + assert (commit me (set_committing true (set_outstanding (outstanding l - 1) l))
        = Ok (set_committing true (set_outstanding (outstanding l - 1) l))) as -> by (unfold commit; cbn; by rewrite Hl).
      cbn [obind]. eexists. split; [done|]. split; [exact Hok1|by auto].
    + destruct (Hc Hl) as (s & W & E & HW & Hv & Hnp & Hhd & _).
      assert (commit me (set_committing true (set_outstanding (outstanding l - 1) l))
        = Ok (set_lh [] (set_cache s (set_committing true (set_outstanding (outstanding l - 1) l))))) as ->.
      { unfold commit in *. cbn [lh set_committing set_outstanding log_start cache]. destruct (lh l); [done|].
        inv_bind. rewrite E0. cbn [obind]. rewrite E1. cbn [obind]. rewrite E2. cbn [obind]. rewrite E3. cbn [obind].
        injection E as ->. done. }
      cbn [obind]. eexists. split; [done|].
      assert (length (bufs s) = NBUF) as Hbs' by (apply commit_length in E; cbn in E; congruence).
      assert (spare s = 30) as Hs.
      { rewrite (spare_all me) by (done || apply HW). by rewrite Hbs'. }
      pose proof (wr_size _ _ _ _ HW) as Hds.
      split; [split|]; cbn [cache set_cache set_lh set_committing lh log_start log_size committing outstanding length]; try done.
      * apply HW.
      * intros j c. rewrite elem_of_nil. split; [|done]. apply HW.
      * rewrite Hds. destruct Hlay as [L1 L2 L3]. split; [done|constructor|]. intros b Hb. by apply not_elem_of_nil in Hb.
      * by rewrite Hds.
      * unfold FSCAP. lia.
      * intros c. rewrite elem_of_nil. split; [|done]. apply Hnp.
      * cbn. lia.
      * split; [intros c [_ Hc']; by apply Hv|]. split; [|by left]. intros c. unfold log_home. cbn. by rewrite Hds.
  - eexists. split; [done|]. split; [|by auto]. unfold set_outstanding. rewrite Hcm. exact Hok1.
Qed.

#[export] Program Instance log_laws : BlockLaws lst := {
  b_ok := log_ok;
  b_view l := view (cache l);
  b_logged l := list_to_set (lh l);
  b_home := log_home;
  b_open l := 1 <= outstanding l
}.
Next Obligation.
  intros l held b Hok Hh Hb Hl. destruct (log_read_law l held b Hok Hh Hb Hl) as (i & l' & E & Hok' & Hv & Hlh & Hhm & Ho).
  exists i, l'. rewrite Hlh, Ho. done.
Qed.
Next Obligation. intros l held i b Hok Hin. apply (data_of_holds me); [apply Hok|by apply (lk_holds _ _ Hok)]. Qed.
Next Obligation.
  intros l held i b d Hok Hin Hh Ho Hsz.
  assert (NoDup (lh l)) as Hnd by (destruct (lk_layout _ _ Hok); done).
  destruct (log_log_law l held i b d Hok Hin Hh Ho) as (l1 & l' & E1 & E2 & Hok' & Hv & Hlh & Hhm & Ho').
  { destruct (decide (b ∈ lh l)) as [Hb|Hb]; [by left|right].
    rewrite size_union, size_singleton, size_list_to_set in Hsz by (done || set_solver). lia. }
  exists l1, l'. split; [done|]. split; [done|]. split; [done|]. split; [done|]. rewrite Hlh, Ho'. split; [|done].
  case_decide; [set_solver|]. rewrite list_to_set_app_L. set_solver.
Qed.
Next Obligation.
  intros l held i b Hok. destruct (log_rel_law l held i b Hok) as (l' & E & Hok' & Hv & Hlh & Hhm & Ho).
  exists l'. rewrite Hlh, Ho. done.
Qed.
Next Obligation.
  intros l Hok. cbn. destruct (begin_op l) as [l'|] eqn:E; [|done].
  destruct (log_begin_law l l' Hok E) as [-> Hok']. cbn. destruct Hok. split; [done|]. split; [lia|done].
Qed.
Next Obligation.
  intros l Hok Ho. destruct (log_end_law l Hok Ho) as (l' & E & Hok' & Hv & Hhm & Hl).
  exists l'. split; [done|]. split; [done|]. split; [done|]. split; [done|]. destruct Hl as [-> | ->]; set_solver.
Qed.

End Instance.
