(* ===== verification/FsTheory.v ===== *)
(** Block allocation of fs.c against the laws of the block layer: the effect
    of an operation is the map of the blocks it rewrites, and the bitmap is a
    set of blocks. *)
From S2P Require Import Prelude Mem KString Spinlock Bio Log Fs FsBlocks.

(** * Bits of a byte *)

Lemma bit_set_testbit d bi : 0 <= bi -> bit_set d bi = Z.testbit (ld8 d (bi / 8)) (bi mod 8).
Proof.
  intros Hb. unfold bit_set, bit_mask. rewrite Z.shiftl_1_l.
  set (k := bi mod 8). assert (0 <= k) by (unfold k; apply Z.mod_pos_bound; lia).
  destruct (Z.testbit (ld8 d (bi / 8)) k) eqn:E.
  - destruct (Z.eqb_spec (Z.land (ld8 d (bi / 8)) (2 ^ k)) 0) as [H0|H0]; [|done].
    apply (f_equal (fun x => Z.testbit x k)) in H0. rewrite Z.land_spec, E, Z.pow2_bits_true, Z.bits_0 in H0 by done. done.
  - replace (Z.land (ld8 d (bi / 8)) (2 ^ k)) with 0; [done|]. symmetry. apply Z.bits_inj'. intros n Hn.
    rewrite Z.land_spec, Z.bits_0. destruct (decide (n = k)) as [->|Hne]; [by rewrite E|].
    rewrite Z.pow2_bits_false by lia. apply andb_false_r.
Qed.

(** An index is determined by its byte and its bit. *)
Lemma byte_bit_inj a b : a / 8 = b / 8 -> a mod 8 = b mod 8 -> a = b.
Proof. intros. rewrite (Z.div_mod a 8), (Z.div_mod b 8) by lia. congruence. Qed.

Lemma testbit_u8 x k : 0 <= k < 8 -> Z.testbit (u8 x) k = Z.testbit x k.
Proof. intros. unfold u8. change 256 with (2 ^ 8). apply Z.mod_pow2_bits_low. lia. Qed.

Lemma bit_set_mark d bi bj :
  0 <= bi -> 0 <= bj ->
  bit_set (st8 d (bi / 8) (Z.lor (ld8 d (bi / 8)) (bit_mask bi))) bj = bool_decide (bj = bi) || bit_set d bj.
Proof.
  intros Hi Hj. rewrite !bit_set_testbit by done. rewrite ld8_st8.
  pose proof (Z.mod_pos_bound bj 8 ltac:(lia)). case_decide as E.
  - rewrite testbit_u8, Z.lor_spec, E by done. unfold bit_mask. rewrite Z.shiftl_1_l.
    case_bool_decide as Hb; [subst; rewrite Z.pow2_bits_true by lia; apply orb_true_r|].
    rewrite Z.pow2_bits_false, orb_false_r; [done|]. intros Hm. apply Hb. by apply byte_bit_inj.
  - rewrite bool_decide_eq_false_2; [done|]. intros ->. done.
Qed.

Lemma bit_set_clear d bi bj :
  0 <= bi -> 0 <= bj ->
  bit_set (st8 d (bi / 8) (Z.land (ld8 d (bi / 8)) (Z.lnot (bit_mask bi)))) bj = negb (bool_decide (bj = bi)) && bit_set d bj.
Proof.
  intros Hi Hj. rewrite !bit_set_testbit by done. rewrite ld8_st8.
  pose proof (Z.mod_pos_bound bj 8 ltac:(lia)). case_decide as E.
  - rewrite testbit_u8, Z.land_spec, Z.lnot_spec, E by lia. unfold bit_mask. rewrite Z.shiftl_1_l.
    case_bool_decide as Hb; [subst; rewrite Z.pow2_bits_true by lia; apply andb_false_r|].
    rewrite Z.pow2_bits_false, andb_true_r; [done|]. intros Hm. apply Hb. by apply byte_bit_inj.
  - rewrite bool_decide_eq_false_2; [done|]. intros ->. done.
Qed.

(** The scan of a bitmap block stops at the first clear bit. *)
Lemma find_clear_spec d size b n : forall bi,
  match find_clear d size b bi n with
  | Some k => bi <= k < bi + Z.of_nat n /\ b + k < size /\ bit_set d k = false
      /\ forall j, bi <= j < k -> bit_set d j = true
  | None => forall j, bi <= j < bi + Z.of_nat n -> b + j < size -> bit_set d j = true
  end.
Proof.
  induction n as [|n IH]; intros bi; cbn [find_clear]; [lia|].
  destruct (Z.ltb_spec (b + bi) size) as [Hs|Hs]; cbn [negb]; [|lia].
  destruct (bit_set d bi) eqn:E; cbn [negb].
  - specialize (IH (bi + 1)). destruct (find_clear d size b (bi + 1) n) as [k|].
    + destruct IH as (H1 & H2 & H3 & H4). split; [lia|]. split; [done|]. split; [done|].
      intros j Hj. destruct (decide (j = bi)) as [->|]; [done|]. apply H4. lia.
    + intros j Hj Hjs. destruct (decide (j = bi)) as [->|]; [done|]. apply IH; lia.
  - split; [lia|]. split; [done|]. split; [done|]. lia.
Qed.

Lemma size_union_le (X Y : gset Z) : (size (X ∪ Y) <= size X + size Y)%nat.
Proof. rewrite size_union_alt. pose proof (subseteq_size (Y ∖ X) Y ltac:(set_solver)). lia. Qed.

Lemma size_add (x : Z) (X : gset Z) : (size ({[x]} ∪ X) <= Datatypes.S (size X))%nat.
Proof. pose proof (size_union_le {[x]} X) as Hs. rewrite size_singleton in Hs. lia. Qed.

Section Theory.
Context {S : Type} `{BlockLaws S}.
Implicit Types f : fs S.

Abbreviation ok f := (b_ok (blocks f)).
Abbreviation V f := (b_view (blocks f)).
Abbreviation L f := (b_logged (blocks f)).
Abbreviation home f := (b_home (blocks f)).

(** What an operation does to the block layer: it rewrites the blocks of [W]. *)
Record effect (f f' : fs S) (W : gmap Z mem) : Prop := {
  ef_view c : V f' c = default (V f c) (W !! c);
  ef_logged : L f' = dom W ∪ L f;
  ef_home c : home f' c <-> home f c;
  ef_open : b_open (blocks f') <-> b_open (blocks f);
  ef_sb : sb f' = sb f
}.

Lemma effect_refl f : effect f f ∅.
Proof. split; try done. rewrite dom_empty_L. set_solver. Qed.

Lemma effect_trans f1 f2 f3 W1 W2 : effect f1 f2 W1 -> effect f2 f3 W2 -> effect f1 f3 (W2 ∪ W1).
Proof.
  intros [A1 A2 A3 A4 A5] [B1 B2 B3 B4 B5]. split.
  - intros c. rewrite B1, A1. rewrite lookup_union. destruct (W2 !! c), (W1 !! c); done.
  - rewrite B2, A2, dom_union_L. set_solver.
  - intros c. by rewrite B3.
  - by rewrite B4.
  - congruence.
Qed.

(** An operation that leaves the blocks alone. *)
Lemma effect_icache f g c W : effect f g W -> effect f (set_icache c g) W.
Proof. intros [A1 A2 A3 A4 A5]. by split. Qed.

Lemma ef_same f f' W c : effect f f' W -> W !! c = None -> V f' c = V f c.
Proof. intros E Hc. by rewrite (ef_view _ _ _ E), Hc. Qed.

Lemma fs_bread_spec f held b :
  ok f held -> home f b -> b ∉ held.*2 -> (length held < 3)%nat ->
  exists bp f', fs_bread ROOTDEV b f = Ok (bp, f') /\ ok f' ((bp, b) :: held) /\ effect f f' ∅ /\ icache f' = icache f
    /\ fs_data bp f' = Ok (V f b).
Proof.
  intros Hok Hh Hb Hl. destruct (b_read_law _ _ b Hok Hh Hb Hl) as (i & s' & E & Hok' & Hv & HL & Hhm & Ho).
  exists i, (set_blocks s' f). unfold fs_bread. rewrite E. cbn [obind]. split; [done|]. split; [done|]. split.
  - split; cbn; try done. rewrite dom_empty_L, HL. set_solver.
  - split; [done|]. unfold fs_data. cbn [blocks set_blocks]. rewrite (b_get_law s' _ i b Hok') by (by left). by rewrite Hv.
Qed.

Lemma fs_log_spec f held bp b d :
  ok f held -> (bp, b) ∈ held -> home f b -> b_open (blocks f) -> (size ({[b]} ∪ L f) <= FSCAP)%nat ->
  exists f', fs_log bp d f = Ok f' /\ ok f' held /\ effect f f' {[b := d]} /\ icache f' = icache f.
Proof.
  intros Hok Hin Hh Ho Hs. destruct (b_log_law _ _ bp b d Hok Hin Hh Ho Hs) as (s1 & s' & E1 & E2 & Hok' & Hv & HL & Hhm & Ho').
  exists (set_blocks s' f). unfold fs_log. rewrite E1. cbn [obind]. rewrite E2. cbn [obind]. split; [done|]. split; [done|].
  split; [|done]. split; cbn; try done.
  - intros c. rewrite Hv. case_decide as Hc; [subst; by rewrite lookup_singleton_eq|by rewrite lookup_singleton_ne].
  - rewrite HL, dom_singleton_L. done.
Qed.

Lemma fs_brelse_spec f held bp b :
  ok f ((bp, b) :: held) ->
  exists f', fs_brelse bp f = Ok f' /\ ok f' held /\ effect f f' ∅ /\ icache f' = icache f.
Proof.
  intros Hok. destruct (b_rel_law _ _ _ _ Hok) as (s' & E & Hok' & Hv & HL & Hhm & Ho).
  exists (set_blocks s' f). unfold fs_brelse. rewrite E. cbn [obind]. split; [done|]. split; [done|]. split; [|done].
  split; cbn; try done. rewrite dom_empty_L, HL. set_solver.
Qed.

Lemma effect_trans0 f1 f2 f3 W : effect f1 f2 ∅ -> effect f2 f3 W -> effect f1 f3 W.
Proof. intros A B. rewrite <- (map_union_empty W). by eapply effect_trans. Qed.

Lemma effect_trans1 f1 f2 f3 W : effect f1 f2 W -> effect f2 f3 ∅ -> effect f1 f3 W.
Proof. intros A B. rewrite <- (map_empty_union W). by eapply effect_trans. Qed.

(** Reading a block. *)
Lemma read_spec f held b :
  ok f held -> home f b -> b ∉ held.*2 -> (length held < 3)%nat ->
  exists bp f1 f', fs_bread ROOTDEV b f = Ok (bp, f1) /\ fs_data bp f1 = Ok (V f b) /\ fs_brelse bp f1 = Ok f'
    /\ ok f' held /\ effect f f' ∅ /\ icache f' = icache f.
Proof.
  intros Hok Hh Hb Hl. destruct (fs_bread_spec f held b Hok Hh Hb Hl) as (bp & f1 & E1 & Hok1 & F1 & I1 & D1).
  destruct (fs_brelse_spec f1 held bp b Hok1) as (f' & E2 & Hok2 & F2 & I2).
  exists bp, f1, f'. split; [done|]. split; [done|]. split; [done|]. split; [done|]. split; [by eapply effect_trans0|congruence].
Qed.

(** A logged change of one block. *)
Lemma rmw_steps (g : mem -> mem) f held b :
  ok f held -> home f b -> b ∉ held.*2 -> (length held < 3)%nat -> b_open (blocks f) -> (size ({[b]} ∪ L f) <= FSCAP)%nat ->
  exists bp f1 f2 f', fs_bread ROOTDEV b f = Ok (bp, f1) /\ fs_data bp f1 = Ok (V f b) /\ fs_log bp (g (V f b)) f1 = Ok f2
    /\ fs_brelse bp f2 = Ok f' /\ ok f' held /\ effect f f' {[b := g (V f b)]} /\ icache f' = icache f.
Proof.
  intros Hok Hh Hb Hl Ho Hs. destruct (fs_bread_spec f held b Hok Hh Hb Hl) as (bp & f1 & E1 & Hok1 & F1 & I1 & D1).
  destruct (fs_log_spec f1 _ bp b (g (V f b)) Hok1) as (f2 & E2 & Hok2 & F2 & I2).
  { by left. } { by apply F1. } { by apply F1. } { rewrite (ef_logged _ _ _ F1), dom_empty_L, union_empty_l_L. done. }
  destruct (fs_brelse_spec f2 held bp b Hok2) as (f3 & E3 & Hok3 & F3 & I3).
  exists bp, f1, f2, f3. repeat (split; [done|]). split; [|congruence].
  eapply effect_trans1; [|exact F3]. by eapply effect_trans0.
Qed.

Lemma rmw_spec (g : mem -> mem) f held b :
  ok f held -> home f b -> b ∉ held.*2 -> (length held < 3)%nat -> b_open (blocks f) -> (size ({[b]} ∪ L f) <= FSCAP)%nat ->
  exists f', (let! (bp, f) := fs_bread ROOTDEV b f in
              let! d := fs_data bp f in
              let! f := fs_log bp (g d) f in
              fs_brelse bp f) = Ok f'
    /\ ok f' held /\ effect f f' {[b := g (V f b)]} /\ icache f' = icache f.
Proof.
  intros Hok Hh Hb Hl Ho Hs. destruct (rmw_steps g f held b Hok Hh Hb Hl Ho Hs) as (bp & f1 & f2 & f' & E1 & E2 & E3 & E4 & HH).
  exists f'. rewrite E1. cbn [obind]. rewrite E2. cbn [obind]. rewrite E3. cbn [obind]. done.
Qed.

Lemma bzero_spec f held b :
  ok f held -> home f b -> b ∉ held.*2 -> (length held < 3)%nat -> b_open (blocks f) -> (size ({[b]} ∪ L f) <= FSCAP)%nat ->
  exists f', bzero ROOTDEV b f = Ok f' /\ ok f' held /\ effect f f' {[b := memset (V f b) 0 0 BSIZE]} /\ icache f' = icache f.
Proof. apply (rmw_spec (fun d => memset d 0 0 BSIZE)). Qed.

(** * The bitmap *)

(** The layout mkfs gives the disk: inode blocks, bitmap blocks, data. *)
Record geometry (f : fs S) : Prop := {
  ge_size : 0 < sb_size (sb f) < 2147483648;
  ge_inodes : 0 <= sb_inodestart (sb f) /\ 0 <= sb_ninodes (sb f)
    /\ sb_inodestart (sb f) + sb_ninodes (sb f) / IPB < sb_bmapstart (sb f);
  ge_bmap : sb_bmapstart (sb f) + sb_size (sb f) / BPB < sb_size (sb f);
  ge_home b : sb_inodestart (sb f) <= b < sb_size (sb f) -> home f b
}.

Definition datastart (f : fs S) : Z := sb_bmapstart (sb f) + sb_size (sb f) / BPB + 1.

(** Block [b] is marked in the bitmap. *)
Definition used (f : fs S) (b : Z) : bool := bit_set (V f (BBLOCK b f)) (b mod BPB).

Definition bitmap_blocks (f : fs S) : gset Z :=
  list_to_set ((fun k => sb_bmapstart (sb f) + Z.of_nat k) <$> seq 0 (Z.to_nat (sb_size (sb f) / BPB + 1))).

(** The blocks the allocator may hand out are those of the data area. *)
Definition meta_used (f : fs S) : Prop := forall b, 0 <= b < datastart f -> used f b = true.

Lemma BBLOCK_eq f b : geometry f -> 0 <= b < sb_size (sb f) -> BBLOCK b f = sb_bmapstart (sb f) + b / BPB.
Proof.
  intros [G1 G2 G3 _] Hb. unfold BBLOCK, BPB, IPB in *. rewrite u32_id; [lia|]. unfold is_u32.
  pose proof (Z.div_pos b 4096). pose proof (Z.div_le_mono b (sb_size (sb f)) 4096).
  pose proof (Z.div_pos (sb_ninodes (sb f)) 8). lia.
Qed.

Lemma BBLOCK_range f b : geometry f -> 0 <= b < sb_size (sb f) ->
  sb_inodestart (sb f) + sb_ninodes (sb f) / IPB < BBLOCK b f < datastart f /\ BBLOCK b f ∈ bitmap_blocks f.
Proof.
  intros HG Hb. rewrite BBLOCK_eq by done. destruct HG as [G1 G2 G3 _]. unfold datastart, BPB in *.
  pose proof (Z.div_pos b 4096). pose proof (Z.div_le_mono b (sb_size (sb f)) 4096). split; [lia|].
  unfold bitmap_blocks. rewrite elem_of_list_to_set, list_elem_of_fmap. exists (Z.to_nat (b / 4096)).
  split; [lia|]. rewrite list_elem_of_In, in_seq. unfold BPB. lia.
Qed.

Lemma BBLOCK_home f b : geometry f -> 0 <= b < sb_size (sb f) -> home f (BBLOCK b f).
Proof.
  intros HG Hb. destruct (BBLOCK_range f b HG Hb) as [Hr _]. apply (ge_home _ HG).
  destruct HG as [G1 G2 G3 _]. unfold datastart, IPB in *. pose proof (Z.div_pos (sb_ninodes (sb f)) 8). lia.
Qed.

Lemma datastart_le f : geometry f -> datastart f <= sb_size (sb f).
Proof. intros [G1 G2 G3 _]. unfold datastart. lia. Qed.

Lemma data_home f b : geometry f -> datastart f <= b < sb_size (sb f) -> home f b.
Proof.
  intros HG Hb. apply (ge_home _ HG). destruct HG as [G1 G2 G3 _]. unfold datastart, IPB, BPB in *.
  pose proof (Z.div_pos (sb_ninodes (sb f)) 8). pose proof (Z.div_pos (sb_size (sb f)) 4096). lia.
Qed.

Lemma bitmap_range f c : geometry f -> c ∈ bitmap_blocks f -> sb_bmapstart (sb f) <= c < datastart f.
Proof.
  intros [G1 G2 G3 _]. unfold bitmap_blocks. rewrite elem_of_list_to_set, list_elem_of_fmap. intros (k & -> & Hk).
  rewrite list_elem_of_In, in_seq in Hk. unfold datastart. lia.
Qed.

Lemma geometry_effect f f' W : effect f f' W -> geometry f -> geometry f'.
Proof.
  intros E [G1 G2 G3 G4]. pose proof (ef_sb _ _ _ E) as Hs. split; rewrite ?Hs; try done.
  intros b Hb. apply E, G4. exact Hb.
Qed.

Lemma BBLOCK_effect f f' W b : effect f f' W -> BBLOCK b f' = BBLOCK b f.
Proof. intros E. unfold BBLOCK. by rewrite (ef_sb _ _ _ E). Qed.

Lemma datastart_effect f f' W : effect f f' W -> datastart f' = datastart f.
Proof. intros E. unfold datastart. by rewrite (ef_sb _ _ _ E). Qed.

Lemma bitmap_effect f f' W : effect f f' W -> bitmap_blocks f' = bitmap_blocks f.
Proof. intros E. unfold bitmap_blocks. by rewrite (ef_sb _ _ _ E). Qed.

Lemma used_same f f' W b : effect f f' W -> W !! BBLOCK b f = None -> used f' b = used f b.
Proof. intros E Hw. unfold used. by rewrite (BBLOCK_effect _ _ _ _ E), (ef_same _ _ _ _ E Hw). Qed.

(** The state between the steps of a file operation; the blocks held are
    allocated data blocks. *)
Record fs_wf (f : fs S) (held : list (nat * Z)) : Prop := {
  fw_ok : ok f held;
  fw_geo : geometry f;
  fw_meta : meta_used f;
  fw_held c : c ∈ held.*2 -> datastart f <= c < sb_size (sb f) /\ used f c = true
}.

Lemma fs_wf_effect0 f f' held : fs_wf f held -> effect f f' ∅ -> ok f' held -> fs_wf f' held.
Proof.
  intros [A1 A2 A3 A4] E Hok. split.
  - done.
  - by eapply geometry_effect.
  - intros b. rewrite (datastart_effect _ _ _ E). intros Hb. rewrite (used_same _ _ _ _ E) by done. by apply A3.
  - intros c Hc. rewrite (datastart_effect _ _ _ E), (used_same _ _ _ _ E), (ef_sb _ _ _ E) by done. by apply A4.
Qed.

(** Holding one more allocated block. *)
Lemma fs_wf_hold f f' held bp b :
  fs_wf f held -> effect f f' ∅ -> ok f' ((bp, b) :: held) -> datastart f <= b < sb_size (sb f) -> used f b = true ->
  fs_wf f' ((bp, b) :: held).
Proof.
  intros [A1 A2 A3 A4] E Hok Hb Hu. split.
  - done.
  - by eapply geometry_effect.
  - intros c. rewrite (datastart_effect _ _ _ E). intros Hc. rewrite (used_same _ _ _ _ E) by done. by apply A3.
  - intros c Hc. rewrite (datastart_effect _ _ _ E), (used_same _ _ _ _ E), (ef_sb _ _ _ E) by done.
    rewrite fmap_cons in Hc. apply elem_of_cons in Hc as [->|Hc]; [done|]. by apply A4.
Qed.

(** The blocks [balloc] rewrites when it returns [a]. *)
Definition alloc_writes (f : fs S) (a : Z) : gmap Z mem :=
  let d := V f (BBLOCK a f) in
  let bi := a mod BPB in
  {[a := memset (V f a) 0 0 BSIZE]} ∪ {[BBLOCK a f := st8 d (bi / 8) (Z.lor (ld8 d (bi / 8)) (bit_mask bi))]}.

(** [a] is the block [balloc] chooses: the first free one. *)
Definition first_free (f : fs S) (a : Z) : Prop :=
  0 <= a < sb_size (sb f) /\ used f a = false /\ forall c, 0 <= c < a -> used f c = true.

Lemma first_free_data f held a : fs_wf f held -> first_free f a -> datastart f <= a /\ a ∉ bitmap_blocks f /\ a ∉ held.*2.
Proof.
  intros [A1 A2 A3 A4] (Ha & Hu & _). assert (datastart f <= a) as Hd.
  { destruct (decide (a < datastart f)) as [Hlt|]; [|lia]. rewrite (A3 a) in Hu by lia. done. }
  split; [done|]. split.
  - intros Hb%bitmap_range; [lia|done].
  - intros [_ Hc]%A4. congruence.
Qed.

Lemma alloc_writes_effect0 f f' a : effect f f' ∅ -> alloc_writes f' a = alloc_writes f a.
Proof.
  intros E. unfold alloc_writes. rewrite (BBLOCK_effect _ _ _ _ E). by rewrite !(ef_same _ _ _ _ E) by done.
Qed.

Lemma first_free_effect0 f f' a : effect f f' ∅ -> first_free f' a -> first_free f a.
Proof.
  intros E (H1 & H2 & H3). rewrite (ef_sb _ _ _ E) in H1. rewrite (used_same _ _ _ _ E) in H2 by done.
  split; [done|]. split; [done|]. intros c Hc. rewrite <- (used_same _ _ _ c E) by done. by apply H3.
Qed.

(** Marking and zeroing the block found, once its bitmap block is read. *)
Lemma balloc_take f held bp a f1 :
  fs_wf f held -> b_open (blocks f) -> (length held < 3)%nat -> (size (bitmap_blocks f ∪ L f) < FSCAP)%nat ->
  first_free f a -> ok f1 ((bp, BBLOCK a f) :: held) -> effect f f1 ∅ -> icache f1 = icache f ->
  let d := V f (BBLOCK a f) in
  let bi := a mod BPB in
  exists f', (let! f := fs_log bp (st8 d (bi / 8) (Z.lor (ld8 d (bi / 8)) (bit_mask bi))) f1 in
              let! f := fs_brelse bp f in
              let! f := bzero ROOTDEV a f in
              Ok (a, f)) = Ok (a, f')
    /\ ok f' held /\ effect f f' (alloc_writes f a) /\ icache f' = icache f.
Proof.
  intros Hw Ho Hl Hs Hff Hok1 F1 I1 d bi. pose proof Hff as (Ha & Hu & _).
  destruct (first_free_data f held a Hw Hff) as (Hd & Hnb & Hnh).
  destruct (BBLOCK_range f a (fw_geo _ _ Hw) Ha) as [Hr Hbb].
  assert (L f1 = L f) as HL1 by (rewrite (ef_logged _ _ _ F1), dom_empty_L; set_solver).
  assert (forall x, size ({[x]} ∪ (bitmap_blocks f ∪ L f)) <= FSCAP)%nat as Hroom.
  { intros x. pose proof (size_add x (bitmap_blocks f ∪ L f)). lia. }
  destruct (fs_log_spec f1 _ bp (BBLOCK a f) (st8 d (bi / 8) (Z.lor (ld8 d (bi / 8)) (bit_mask bi))) Hok1) as (f2 & -> & Hok2 & F2 & I2).
  { by left. } { apply F1, BBLOCK_home; [apply Hw|done]. } { by apply F1. }
  { rewrite HL1. etrans; [|apply (Hroom (BBLOCK a f))]. apply subseteq_size. set_solver. }
  cbn [obind]. destruct (fs_brelse_spec f2 held bp _ Hok2) as (f3 & -> & Hok3 & F3 & I3). cbn [obind].
  pose proof (effect_trans1 _ _ _ _ (effect_trans0 _ _ _ _ F1 F2) F3) as F13.
  assert (V f3 a = V f a) as Hva.
  { apply (ef_same _ _ _ _ F13). rewrite lookup_singleton_ne; [done|]. lia. }
  destruct (bzero_spec f3 held a Hok3) as (f4 & -> & Hok4 & F4 & I4); [| done|done|by apply F13| |].
  { apply F13, data_home; [apply Hw|lia]. }
  { rewrite (ef_logged _ _ _ F13), dom_singleton_L. etrans; [|apply (Hroom a)]. apply subseteq_size. set_solver. }
  cbn [obind]. exists f4. split; [done|]. split; [done|]. split; [|congruence].
  unfold alloc_writes. rewrite Hva in F4. by eapply effect_trans.
Qed.

Lemma bitmap_index f b k :
  geometry f -> 0 <= b < sb_size (sb f) -> b mod BPB = 0 -> 0 <= k < BPB -> b + k < sb_size (sb f) ->
  BBLOCK (b + k) f = BBLOCK b f /\ (b + k) mod BPB = k.
Proof.
  intros HG Hb Hm Hk Hs. rewrite !BBLOCK_eq by (done || lia). unfold BPB in *. split; zlia.
Qed.

Lemma balloc_loop_spec n : forall f held b,
  fs_wf f held -> b_open (blocks f) -> (length held < 3)%nat -> (size (bitmap_blocks f ∪ L f) < FSCAP)%nat ->
  0 <= b -> b mod BPB = 0 -> sb_size (sb f) <= b + Z.of_nat n * BPB ->
  (forall c, 0 <= c < b -> c < sb_size (sb f) -> used f c = true) ->
  (exists a f', balloc_loop n ROOTDEV b f = Ok (a, f') /\ first_free f a /\ ok f' held
     /\ effect f f' (alloc_writes f a) /\ icache f' = icache f)
  \/ (balloc_loop n ROOTDEV b f = Panic "balloc: out of blocks" /\ forall c, 0 <= c < sb_size (sb f) -> used f c = true).
Proof.
  induction n as [|n IH]; intros f held b Hw Ho Hl Hs Hb Hm Hn Hu; cbn [balloc_loop].
  { right. split; [done|]. intros c Hc. apply Hu; lia. }
  destruct (Z.ltb_spec b (sb_size (sb f))) as [Hlt|Hge]; cbn [negb].
  2: { right. split; [done|]. intros c Hc. apply Hu; lia. }
  pose proof (fw_geo _ _ Hw) as HG. destruct (BBLOCK_range f b HG ltac:(lia)) as [Hr _].
  destruct (fs_bread_spec f held (BBLOCK b f)) as (bp & f1 & -> & Hok1 & F1 & I1 & D1);
    [apply Hw|by apply BBLOCK_home|intros Hc%(fw_held _ _ Hw); lia|done|].
  cbn [obind]. rewrite D1. cbn [obind]. rewrite (ef_sb _ _ _ F1).
  pose proof (find_clear_spec (V f (BBLOCK b f)) (sb_size (sb f)) b (Z.to_nat BPB) 0) as Hf.
  assert (forall k, 0 <= k < BPB -> b + k < sb_size (sb f) -> bit_set (V f (BBLOCK b f)) k = used f (b + k)) as Hbit.
  { intros k Hk Hks. unfold used. destruct (bitmap_index f b k HG ltac:(lia) Hm Hk Hks) as [-> ->]. done. }
  destruct (find_clear _ _ _ _ _) as [k|].
  - left. destruct Hf as (Hk & Hks & Hbk & Hbj). rewrite Z2Nat.id in Hk by done.
    assert (first_free f (b + k)) as Hff.
    { split; [lia|]. split; [rewrite <- Hbit by lia; done|]. intros c Hc. destruct (decide (c < b)); [apply Hu; lia|].
      replace c with (b + (c - b)) by lia. rewrite <- Hbit by lia. apply Hbj. lia. }
    destruct (bitmap_index f b k HG ltac:(lia) Hm ltac:(lia) Hks) as [EB EM].
    rewrite <- EB in Hok1 |- *. rewrite <- EM.
    destruct (balloc_take f held bp (b + k) f1 Hw Ho Hl Hs Hff Hok1 F1 I1) as (f' & E & Hok' & F' & I').
    rewrite EM in E |- *. exists (b + k), f'. cbv zeta in E. done.
  - rewrite Z2Nat.id in Hf by done.
    destruct (fs_brelse_spec f1 held bp _ Hok1) as (f2 & -> & Hok2 & F2 & I2). cbn [obind].
    pose proof (effect_trans0 _ _ _ _ F1 F2) as F12.
    pose proof (fs_wf_effect0 _ _ _ Hw F12 Hok2) as Hw2.
    assert (forall c, used f2 c = used f c) as Hu2 by (intros c; by apply (used_same _ _ _ _ F12)).
    assert (L f2 = L f) as HL2 by (rewrite (ef_logged _ _ _ F12), dom_empty_L; set_solver).
    assert (forall c, V f2 c = V f c) as HV2 by (intros c; by apply (ef_same _ _ _ _ F12)).
    specialize (IH f2 held (b + BPB) Hw2). rewrite (bitmap_effect _ _ _ F12), HL2, (ef_sb _ _ _ F12) in IH.
    destruct IH as [(a & f' & E & Hff & Hok' & F' & I')|[E Hall]]; try done.
    + by apply F12.
    + unfold BPB in *. lia.
    + unfold BPB in *. zlia.
    + lia.
    + intros c Hc Hcs. rewrite Hu2. destruct (decide (c < b)); [apply Hu; lia|].
      replace c with (b + (c - b)) by lia. rewrite <- Hbit by lia. apply Hf; lia.
    + left. exists a, f'. split; [done|]. split.
      { destruct Hff as (H1 & H2 & H3). rewrite (ef_sb _ _ _ F12) in H1. split; [done|]. rewrite Hu2 in H2. split; [done|].
        intros c Hc. rewrite <- Hu2. by apply H3. }
      split; [done|]. split; [|congruence].
      eapply effect_trans0; [exact F12|]. unfold alloc_writes in *. rewrite (BBLOCK_effect _ _ _ _ F12), !HV2 in F'. exact F'.
    + right. split; [done|]. intros c Hc. rewrite <- Hu2. by apply Hall.
Qed.

(** [balloc] returns the first free block, marked and zeroed, or panics when
    there is none. *)
Lemma balloc_spec f held :
  fs_wf f held -> b_open (blocks f) -> (length held < 3)%nat -> (size (bitmap_blocks f ∪ L f) < FSCAP)%nat ->
  (exists a f', balloc ROOTDEV f = Ok (a, f') /\ first_free f a /\ ok f' held
     /\ effect f f' (alloc_writes f a) /\ icache f' = icache f)
  \/ (balloc ROOTDEV f = Panic "balloc: out of blocks" /\ forall c, 0 <= c < sb_size (sb f) -> used f c = true).
Proof.
  intros Hw Ho Hl Hs. unfold balloc. pose proof (ge_size _ (fw_geo _ _ Hw)).
  apply balloc_loop_spec; try done; [|lia].
  unfold BPB. pose proof (Z.div_pos (sb_size (sb f)) 4096 ltac:(lia) ltac:(lia)). rewrite Z2Nat.id by lia.
  pose proof (Z.mod_pos_bound (sb_size (sb f)) 4096 ltac:(lia)). pose proof (Z.div_mod (sb_size (sb f)) 4096 ltac:(lia)). lia.
Qed.

(** * What allocating and freeing do to the bitmap *)

Lemma used_mark f f' W b (g : mem -> mem) (u : bool -> Z -> bool) :
  geometry f -> effect f f' W -> 0 <= b < sb_size (sb f) -> W !! BBLOCK b f = Some (g (V f (BBLOCK b f))) ->
  (forall c, 0 <= c < sb_size (sb f) -> BBLOCK c f <> BBLOCK b f -> W !! BBLOCK c f = None) ->
  (forall d j, 0 <= j -> bit_set (g d) j = u (bit_set d j) (j - b mod BPB)) ->
  (forall x k, k <> 0 -> u x k = x) ->
  forall c, 0 <= c < sb_size (sb f) -> used f' c = u (used f c) (c - b).
Proof.
  intros HG E Hb Hwb Hwo Hg Hu c Hc. unfold used. rewrite (BBLOCK_effect _ _ _ _ E).
  pose proof (Z.mod_pos_bound c BPB ltac:(done)). pose proof (Z.mod_pos_bound b BPB ltac:(done)).
  destruct (decide (BBLOCK c f = BBLOCK b f)) as [Eb|Eb].
  - rewrite Eb, (ef_view _ _ _ E), Hwb. cbn [from_option id]. rewrite Hg by lia.
    assert (c / BPB = b / BPB) as Ed by (rewrite !BBLOCK_eq in Eb by done; lia).
    replace (c mod BPB - b mod BPB) with (c - b); [done|].
    pose proof (Z.div_mod c BPB ltac:(done)). pose proof (Z.div_mod b BPB ltac:(done)). rewrite Ed in *. lia.
  - rewrite (ef_same _ _ _ _ E) by (by apply Hwo). rewrite Hu; [done|]. intros Hcb. apply Eb. f_equal. lia.
Qed.

(** Block [a] has become allocated. *)
Definition allocated (f f' : fs S) (a : Z) : Prop :=
  forall c, 0 <= c < sb_size (sb f) -> used f' c = bool_decide (c = a) || used f c.

Lemma used_alloc f f' held a :
  fs_wf f held -> first_free f a -> effect f f' (alloc_writes f a) ->
  allocated f f' a.
Proof.
  intros Hw Hff E c Hc. destruct (first_free_data f held a Hw Hff) as (Hd & _ & _). pose proof Hff as (Ha & _ & _).
  pose proof (fw_geo _ _ Hw) as HG.
  assert (forall c, 0 <= c < sb_size (sb f) -> a <> BBLOCK c f) as Hne.
  { intros c' Hc'. destruct (BBLOCK_range f c' HG Hc'). lia. }
  rewrite (used_mark f f' (alloc_writes f a) a
    (fun d => st8 d ((a mod BPB) / 8) (Z.lor (ld8 d ((a mod BPB) / 8)) (bit_mask (a mod BPB))))
    (fun x k => bool_decide (k = 0) || x)); try done.
  - f_equal. apply bool_decide_ext. lia.
  - unfold alloc_writes. rewrite lookup_union_r by (rewrite lookup_singleton_ne; [done|by apply Hne]).
    by rewrite lookup_singleton_eq.
  - intros c' Hc' Hb. unfold alloc_writes. rewrite lookup_union_r by (rewrite lookup_singleton_ne; [done|by apply Hne]).
    by rewrite lookup_singleton_ne.
  - intros d j Hj. rewrite bit_set_mark by (done || apply Z.mod_pos_bound; done). f_equal. apply bool_decide_ext. lia.
  - intros x k Hk. by rewrite bool_decide_eq_false_2.
Qed.

Definition free_writes (f : fs S) (b : Z) : gmap Z mem :=
  let d := V f (BBLOCK b f) in
  let bi := b mod BPB in
  {[BBLOCK b f := st8 d (bi / 8) (Z.land (ld8 d (bi / 8)) (Z.lnot (bit_mask bi)))]}.

Lemma used_free f f' b :
  geometry f -> 0 <= b < sb_size (sb f) -> effect f f' (free_writes f b) ->
  forall c, 0 <= c < sb_size (sb f) -> used f' c = negb (bool_decide (c = b)) && used f c.
Proof.
  intros HG Hb E c Hc.
  rewrite (used_mark f f' (free_writes f b) b
    (fun d => st8 d ((b mod BPB) / 8) (Z.land (ld8 d ((b mod BPB) / 8)) (Z.lnot (bit_mask (b mod BPB)))))
    (fun x k => negb (bool_decide (k = 0)) && x)); try done.
  - f_equal. f_equal. apply bool_decide_ext. lia.
  - unfold free_writes. by rewrite lookup_singleton_eq.
  - intros c' Hc' Hn. unfold free_writes. by rewrite lookup_singleton_ne.
  - intros d j Hj. rewrite bit_set_clear by (done || apply Z.mod_pos_bound; done). f_equal. f_equal. apply bool_decide_ext. lia.
  - intros x k Hk. by rewrite bool_decide_eq_false_2.
Qed.

(** [bfree] clears the block's bit, and panics when it is clear already. *)
Lemma bfree_spec f held b :
  fs_wf f held -> b_open (blocks f) -> (length held < 3)%nat -> (size ({[BBLOCK b f]} ∪ L f) <= FSCAP)%nat ->
  0 <= b < sb_size (sb f) ->
  if used f b then exists f', bfree ROOTDEV b f = Ok f' /\ ok f' held /\ effect f f' (free_writes f b) /\ icache f' = icache f
  else bfree ROOTDEV b f = Panic "freeing free block".
Proof.
  intros Hw Ho Hl Hs Hb. pose proof (fw_geo _ _ Hw) as HG. destruct (BBLOCK_range f b HG Hb) as [Hr _].
  destruct (fs_bread_spec f held (BBLOCK b f)) as (bp & f1 & E1 & Hok1 & F1 & I1 & D1);
    [apply Hw|by apply BBLOCK_home|intros Hc%(fw_held _ _ Hw); lia|done|].
  unfold bfree, used. rewrite E1. cbn [obind]. rewrite D1. cbn [obind].
  destruct (bit_set _ _); cbn [negb]; [|done].
  destruct (fs_log_spec f1 _ bp (BBLOCK b f) (st8 (V f (BBLOCK b f)) (b mod BPB / 8)
    (Z.land (ld8 (V f (BBLOCK b f)) (b mod BPB / 8)) (Z.lnot (bit_mask (b mod BPB))))) Hok1) as (f2 & -> & Hok2 & F2 & I2).
  { by left. } { by apply F1, BBLOCK_home. } { by apply F1. } { rewrite (ef_logged _ _ _ F1), dom_empty_L, union_empty_l_L. done. }
  cbn [obind]. destruct (fs_brelse_spec f2 held bp _ Hok2) as (f3 & -> & Hok3 & F3 & I3).
  exists f3. split; [done|]. split; [done|]. split; [|congruence].
  eapply effect_trans1; [|exact F3]. by eapply effect_trans0.
Qed.

(** The number of free blocks. *)
Definition nfree (f : fs S) : nat := length (filter (fun b => used f b = false) (seqZ 0 (sb_size (sb f)))).

Lemma nfree_alloc f f' a : sb f' = sb f -> 0 <= a < sb_size (sb f) -> used f a = false -> allocated f f' a ->
  nfree f = Datatypes.S (nfree f').
Proof.
  intros Hsb Ha Hf Hu. unfold nfree. rewrite Hsb. apply (filter_remove_one _ _ a).
  - apply NoDup_seqZ.
  - apply elem_of_seqZ. lia.
  - done.
  - intros x Hx%elem_of_seqZ. rewrite Hu by lia. case_bool_decide; [naive_solver|]. cbn. naive_solver.
Qed.

Lemma nfree_none f : (forall c, 0 <= c < sb_size (sb f) -> used f c = true) -> nfree f = 0%nat.
Proof.
  intros Hall. unfold nfree. destruct (filter _ _) as [|x l] eqn:E; [done|].
  assert (x ∈ x :: l) as Hx by (by left). rewrite <- E in Hx. apply list_elem_of_filter in Hx as [Hu Hx%elem_of_seqZ].
  rewrite Hall in Hu by lia. done.
Qed.

Lemma nfree_effect0 f f' : effect f f' ∅ -> nfree f' = nfree f.
Proof.
  intros E. unfold nfree. rewrite (ef_sb _ _ _ E). f_equal. apply filter_iff_in. intros x _. by rewrite (used_same _ _ _ _ E).
Qed.

Lemma alloc_wf f f' held a : fs_wf f held -> sb f' = sb f -> geometry f' -> allocated f f' a -> ok f' held -> fs_wf f' held.
Proof.
  intros [A1 A2 A3 A4] Hsb HG Hu Hok. assert (datastart f' = datastart f) as Hd by (unfold datastart; by rewrite Hsb).
  pose proof (datastart_le f A2). split; try done.
  - intros b. rewrite Hd. intros Hb. rewrite Hu by lia. rewrite (A3 b) by done. apply orb_true_r.
  - intros c Hc. destruct (A4 c Hc) as [Hr Hc']. rewrite Hd, Hsb. split; [done|].
    destruct (decide (0 <= c)); [|].
    + rewrite Hu by lia. rewrite Hc'. apply orb_true_r.
    + exfalso. destruct A2 as [G1 G2 G3 _]. unfold datastart, BPB, IPB in *.
      pose proof (Z.div_pos (sb_ninodes (sb f)) 8). pose proof (Z.div_pos (sb_size (sb f)) 4096). lia.
Qed.

End Theory.
