(* ===== verification/FsFile.v ===== *)
(** The contents of a file: the block map of an inode, and what [bmap],
    [readi] and [writei] do to it. *)
From S2P Require Import Prelude Mem KString Spinlock Bio Log Fs FsBlocks FsTheory.

(** Inclusions between the sets of blocks a transaction logs. *)
Lemma logged_trans (L1 L2 L3 B I2 I3 X Y : gset Z) :
  L2 ⊆ L1 ∪ B ∪ I2 ∪ X -> L3 ⊆ L2 ∪ B ∪ I3 ∪ Y -> I2 ⊆ I3 -> L3 ⊆ L1 ∪ B ∪ I3 ∪ (X ∪ Y).
Proof. set_solver. Qed.

Lemma logged_new (L1 L2 B I1 I2 X : gset Z) : L2 ⊆ L1 ∪ B ∪ I2 ∪ X -> B ∪ L2 ∪ I2 ⊆ B ∪ L1 ∪ I1 ∪ X ∪ I2.
Proof. set_solver. Qed.

Lemma logged_old (L1 L2 B I X : gset Z) : L2 ⊆ L1 ∪ B ∪ I ∪ X -> B ∪ L2 ∪ I ⊆ B ∪ L1 ∪ I ∪ X.
Proof. set_solver. Qed.

Section File.
Context {S : Type} `{BlockLaws S}.
Implicit Types f : fs S.
Implicit Types i : inode.

Abbreviation ok f := (b_ok (blocks f)).
Abbreviation V f := (b_view (blocks f)).
Abbreviation L f := (b_logged (blocks f)).
Abbreviation home f := (b_home (blocks f)).

(** [ip->addrs[k]], and the indirect block. *)
Definition addr i (k : Z) : Z := default 0 (i_addrs i !! Z.to_nat k).
Definition ind i : Z := addr i NDIRECT.

(** The disk block of block [bn] of the file, 0 when there is none. *)
Definition blk f i (bn : Z) : Z :=
  if bn <? NDIRECT then addr i bn
  else if ind i =? 0 then 0 else ld32 (V f (ind i)) (4 * (bn - NDIRECT)).

(** The blocks of the file. *)
Definition owns f i (b : Z) : Prop := b <> 0 /\ (b = ind i \/ exists bn, 0 <= bn < MAXFILE /\ blk f i bn = b).

(** Byte [off] of the file. *)
Definition byte f i (off : Z) : Z := ld8 (V f (blk f i (off / BSIZE))) (off mod BSIZE).

(** A well-formed inode: its blocks are allocated data blocks, all
    different, and there is one for every byte below the size. *)
Record inode_ok f i : Prop := {
  io_dev : i_dev i = ROOTDEV;
  io_len : length (i_addrs i) = 13%nat;
  io_data b : owns f i b -> datastart f <= b < sb_size (sb f) /\ used f b = true;
  io_inj bn bn' : 0 <= bn < MAXFILE -> 0 <= bn' < MAXFILE -> blk f i bn <> 0 -> blk f i bn = blk f i bn' -> bn = bn';
  io_ind bn : 0 <= bn < MAXFILE -> ind i <> 0 -> blk f i bn <> ind i;
  io_size : 0 <= i_size i <= MAXFILE * BSIZE;
  io_full bn : 0 <= bn -> bn * BSIZE < i_size i -> blk f i bn <> 0
}.

(** * Lemmas on the block map *)

Lemma blk_view f f' i bn : (ind i <> 0 -> V f' (ind i) = V f (ind i)) -> blk f' i bn = blk f i bn.
Proof.
  intros Hv. unfold blk. destruct (bn <? NDIRECT); [done|]. destruct (Z.eqb_spec (ind i) 0); [done|]. by rewrite Hv.
Qed.

Lemma addr_set_eq i k a : length (i_addrs i) = 13%nat -> 0 <= k < 13 -> addr (i_with_addrs (<[Z.to_nat k := a]> (i_addrs i)) i) k = a.
Proof. intros Hl Hk. unfold addr. cbn. rewrite list_lookup_insert_eq by lia. done. Qed.

Lemma addr_set_ne i k j a : 0 <= k -> 0 <= j -> j <> k -> addr (i_with_addrs (<[Z.to_nat k := a]> (i_addrs i)) i) j = addr i j.
Proof. intros Hk Hj Hne. unfold addr. cbn. rewrite list_lookup_insert_ne by lia. done. Qed.

Lemma ld32_zeroed d k : 0 <= k -> k + 4 <= BSIZE -> ld32 (memset d 0 0 BSIZE) k = 0.
Proof.
  unfold BSIZE. intros Hk Hs. unfold ld32. rewrite !ld8_memset by (unfold is_u32; lia). rewrite !decide_True by lia. done.
Qed.

Lemma datastart_pos f : geometry f -> 0 < datastart f.
Proof.
  intros [G1 G2 G3 _]. unfold datastart, IPB, BPB in *.
  pose proof (Z.div_pos (sb_ninodes (sb f)) 8). pose proof (Z.div_pos (sb_size (sb f)) 4096). lia.
Qed.

Lemma owns_data f i b : geometry f -> inode_ok f i -> owns f i b -> 0 < b < sb_size (sb f) /\ used f b = true /\ datastart f <= b.
Proof.
  intros HG Hi Hb. destruct (io_data _ _ Hi b Hb) as [Hr Hu]. pose proof (datastart_pos f HG). split; [lia|]. split; [done|lia].
Qed.

Lemma owns_blk f i bn : 0 <= bn < MAXFILE -> blk f i bn <> 0 -> owns f i (blk f i bn).
Proof. intros Hb Hz. split; [done|]. right. by exists bn. Qed.

Lemma owns_ind f i : ind i <> 0 -> owns f i (ind i).
Proof. intros Hz. split; [done|by left]. Qed.

(** * Growing a file

    [grows f i f' i']: some blocks that were free now belong to the file, and
    apart from the bitmap only blocks of the file have changed.  [X] has the
    file blocks logged, [n] bounds the blocks allocated. *)
Definition ind_set i : gset Z := if decide (ind i = 0) then ∅ else {[ind i]}.
Definition ind_need i : nat := if decide (ind i = 0) then 1 else 0.

Record grows f i f' i' (X : gset Z) (n : nat) : Prop := {
  gr_meta : i' = i_with_addrs (i_addrs i') i;
  gr_blk bn : 0 <= bn < MAXFILE -> blk f i bn <> 0 -> blk f' i' bn = blk f i bn;
  gr_ind : ind i <> 0 -> ind i' = ind i;
  gr_new b : owns f' i' b -> owns f i b \/ (0 <= b < sb_size (sb f) /\ used f b = false);
  gr_used c : 0 <= c < sb_size (sb f) -> used f c = true -> used f' c = true;
  gr_fresh c : 0 <= c < sb_size (sb f) -> used f' c = true -> used f c = true \/ owns f' i' c;
  gr_view c : c ∉ bitmap_blocks f -> ~ owns f' i' c -> V f' c = V f c;
  gr_logged : L f' ⊆ L f ∪ bitmap_blocks f ∪ ind_set i' ∪ X;
  gr_home c : home f' c <-> home f c;
  gr_open : b_open (blocks f') <-> b_open (blocks f);
  gr_sb : sb f' = sb f;
  gr_nfree : (nfree f + ind_need i' <= nfree f' + ind_need i + n)%nat
}.

Lemma grows_owns f i f' i' X n b : grows f i f' i' X n -> owns f i b -> owns f' i' b.
Proof.
  intros G [Hz Hb]. split; [done|]. destruct Hb as [->|(bn & Hbn & <-)].
  - left. symmetry. by apply G.
  - right. exists bn. split; [done|]. by apply G.
Qed.

Lemma grows_ind_set f i f' i' X n : grows f i f' i' X n -> ind_set i ⊆ ind_set i'.
Proof.
  intros G. unfold ind_set. destruct (decide (ind i = 0)) as [|Hz]; [set_solver|].
  rewrite (gr_ind _ _ _ _ _ _ G Hz). by rewrite decide_False.
Qed.

Lemma grows_refl f i : grows f i f i ∅ 0.
Proof. split; try done; [by destruct i|by left|by left|set_solver|lia]. Qed.

Lemma grows_trans f1 i1 f2 i2 f3 i3 X Y n m :
  grows f1 i1 f2 i2 X n -> grows f2 i2 f3 i3 Y m -> grows f1 i1 f3 i3 (X ∪ Y) (n + m).
Proof.
  intros A B. pose proof (gr_sb _ _ _ _ _ _ A) as Hsb.
  assert (bitmap_blocks f2 = bitmap_blocks f1) as Hbm by (unfold bitmap_blocks; by rewrite Hsb). split.
  - rewrite (gr_meta _ _ _ _ _ _ B), (gr_meta _ _ _ _ _ _ A). done.
  - intros bn Hbn Hz. rewrite <- (gr_blk _ _ _ _ _ _ A) in * by done. by apply B.
  - intros Hz. rewrite <- (gr_ind _ _ _ _ _ _ A) in * by done. by apply B.
  - intros b [Hb|[Hr Hb]]%(gr_new _ _ _ _ _ _ B); [by apply (gr_new _ _ _ _ _ _ A)|]. right. rewrite Hsb in Hr.
    split; [done|]. destruct (used f1 b) eqn:E; [|done]. by rewrite (gr_used _ _ _ _ _ _ A) in Hb.
  - intros c Hc Hu. apply B; [by rewrite Hsb|]. by apply A.
  - intros c Hc Hu. apply (gr_fresh _ _ _ _ _ _ B) in Hu as [Hu|Ho]; [|by right|by rewrite Hsb].
    apply (gr_fresh _ _ _ _ _ _ A) in Hu as [Hu|Ho]; [by left| |done]. right. by eapply grows_owns.
  - intros c Hc Ho. rewrite (gr_view _ _ _ _ _ _ B), (gr_view _ _ _ _ _ _ A); try done; [|by rewrite Hbm].
    intros Ho2. apply Ho. by eapply grows_owns.
  - pose proof (gr_logged _ _ _ _ _ _ A). pose proof (gr_logged _ _ _ _ _ _ B) as HB. rewrite Hbm in HB.
    eapply logged_trans; [done|done|]. by eapply grows_ind_set.
  - intros c. by rewrite (gr_home _ _ _ _ _ _ B), (gr_home _ _ _ _ _ _ A).
  - by rewrite (gr_open _ _ _ _ _ _ B), (gr_open _ _ _ _ _ _ A).
  - rewrite (gr_sb _ _ _ _ _ _ B). done.
  - pose proof (gr_nfree _ _ _ _ _ _ A). pose proof (gr_nfree _ _ _ _ _ _ B). lia.
Qed.

(** The blocks a transaction has logged or is bound to log for this file. *)
Definition footprint f i : nat := (size (bitmap_blocks f ∪ L f ∪ ind_set i) + ind_need i)%nat.

Lemma ind_set_need i : (size (ind_set i) + ind_need i = 1)%nat.
Proof. unfold ind_set, ind_need. case_decide; [by rewrite size_empty|by rewrite size_singleton]. Qed.

Lemma grows_footprint f i f' i' X n : grows f i f' i' X n -> (footprint f' i' <= footprint f i + size X)%nat.
Proof.
  intros G. unfold footprint. pose proof (gr_logged _ _ _ _ _ _ G) as HL.
  assert (bitmap_blocks f' = bitmap_blocks f) as -> by (unfold bitmap_blocks; by rewrite (gr_sb _ _ _ _ _ _ G)).
  pose proof (ind_set_need i'). pose proof (size_union_le (bitmap_blocks f ∪ L f ∪ ind_set i) X).
  destruct (decide (ind i = 0)) as [Hz|Hz].
  - assert (ind_need i = 1%nat) as -> by (unfold ind_need; by rewrite decide_True).
    pose proof (size_union_le (bitmap_blocks f ∪ L f ∪ ind_set i ∪ X) (ind_set i')).
    pose proof (subseteq_size (bitmap_blocks f ∪ L f' ∪ ind_set i') _ (logged_new _ _ _ (ind_set i) _ _ HL)).
    lia.
  - pose proof (gr_ind _ _ _ _ _ _ G Hz) as Hi.
    assert (ind_need i' = ind_need i) as -> by (unfold ind_need; by rewrite Hi).
    assert (ind_set i' = ind_set i) as Hs by (unfold ind_set; by rewrite Hi). rewrite Hs in *.
    pose proof (subseteq_size (bitmap_blocks f ∪ L f' ∪ ind_set i) _ (logged_old _ _ _ _ _ HL)).
    lia.
Qed.

Lemma footprint_base f i f' i' X n : grows f i f' i' X n -> (size (bitmap_blocks f ∪ L f ∪ ind_set i') <= footprint f i)%nat.
Proof.
  intros G. unfold footprint. destruct (decide (ind i = 0)) as [Hz|Hz].
  - pose proof (ind_set_need i'). unfold ind_need, ind_set at 2. rewrite !decide_True by done. rewrite union_empty_r_L.
    pose proof (size_union_le (bitmap_blocks f ∪ L f) (ind_set i')). lia.
  - assert (ind_set i' = ind_set i) as -> by (unfold ind_set; by rewrite (gr_ind _ _ _ _ _ _ G Hz)). lia.
Qed.

(** One more block for the file. *)
Lemma grows_intro f i f' i' held a W X n :
  fs_wf f held -> inode_ok f i -> first_free f a -> effect f f' W -> allocated f f' a ->
  i' = i_with_addrs (i_addrs i') i ->
  (forall bn, 0 <= bn < MAXFILE -> blk f i bn <> 0 -> blk f' i' bn = blk f i bn) -> (ind i <> 0 -> ind i' = ind i) ->
  (forall b, owns f' i' b <-> owns f i b \/ b = a) ->
  dom W ⊆ bitmap_blocks f ∪ ind_set i' ∪ X -> (forall c, c ∈ X -> c = a) ->
  (Datatypes.S (ind_need i') <= ind_need i + n)%nat ->
  grows f i f' i' X n.
Proof.
  intros Hw Hi (Ha & Hf & _) E Hu Hm Hblk Hind Hown HW HX Hn. pose proof (fw_geo _ _ Hw) as HG.
  split; try done; try apply E.
  - intros b [Hb| ->]%Hown; [by left|by right].
  - intros c Hc Huc. rewrite Hu, Huc by done. apply orb_true_r.
  - intros c Hc. rewrite Hu by done. case_bool_decide; [|by left]. intros _. right. apply Hown. by right.
  - intros c Hcb Ho. apply (ef_same _ _ _ _ E). destruct (W !! c) eqn:Ec; [|done]. exfalso. apply Ho.
    assert (c ∈ dom W) as Hc by (by eapply elem_of_dom_2). apply HW in Hc.
    rewrite !elem_of_union in Hc. destruct Hc as [[?|Hc]|Hc]; [done| |].
    + unfold ind_set in Hc. case_decide; [by apply elem_of_empty in Hc|]. apply elem_of_singleton in Hc as ->. by apply owns_ind.
    + apply HX in Hc as ->. apply Hown. by right.
  - rewrite (ef_logged _ _ _ E). clear -HW. revert HW. generalize (dom W) (bitmap_blocks f) (ind_set i') (L f). set_solver.
  - rewrite (nfree_alloc f f' a) by (done || apply E). lia.
Qed.

(** The new block is block [bn0] of the file. *)
Lemma add_data f i f' i' held a bn0 W :
  fs_wf f held -> inode_ok f i -> first_free f a -> effect f f' W -> allocated f f' a ->
  i' = i_with_addrs (i_addrs i') i -> length (i_addrs i') = 13%nat -> ind i' = ind i ->
  0 <= bn0 < MAXFILE -> blk f i bn0 = 0 ->
  (forall bn, 0 <= bn < MAXFILE -> blk f' i' bn = if decide (bn = bn0) then a else blk f i bn) ->
  dom W ⊆ bitmap_blocks f ∪ ind_set i' ∪ {[a]} ->
  inode_ok f' i' /\ grows f i f' i' {[a]} 1.
Proof.
  intros Hw Hi Hff E Hu Hm Hlen Hind Hbn0 Hz Hblk HW. pose proof (fw_geo _ _ Hw) as HG.
  destruct (first_free_data f held a Hw Hff) as (Hda & _ & _). pose proof (datastart_pos f HG) as Hpos.
  pose proof Hff as (Ha & Hfa & _).
  assert (forall b, owns f i b -> b <> a) as Hna.
  { intros b Hb ->. destruct (owns_data f i a HG Hi Hb) as (_ & ? & _). congruence. }
  assert (forall b, owns f' i' b <-> owns f i b \/ b = a) as Hown.
  { intros b. split.
    - intros [Hb [->|(bn & Hbn & <-)]]; [left; rewrite Hind in *; by apply owns_ind|].
      rewrite Hblk in * by done. case_decide; [by right|left]. by apply owns_blk.
    - intros [[Hb [->|(bn & Hbn & <-)]]| ->].
      + rewrite <- Hind in *. by apply owns_ind.
      + assert (blk f' i' bn = blk f i bn) as E'; [|rewrite <- E' in *; by apply owns_blk].
        rewrite Hblk, decide_False; [done| |done]. intros ->. done.
      + assert (blk f' i' bn0 = a) as E' by (rewrite Hblk, decide_True; done). split; [lia|]. right. by exists bn0. }
  pose proof (datastart_effect _ _ _ E) as Hds. pose proof (ef_sb _ _ _ E) as Hsb.
  split.
  - split.
    + rewrite Hm. apply Hi.
    + done.
    + intros b Hb%Hown. rewrite Hds, Hsb. destruct Hb as [Hb| ->].
      * destruct (owns_data f i b HG Hi Hb) as (? & Hub & ?). rewrite Hu, Hub by lia. split; [lia|apply orb_true_r].
      * rewrite Hu by lia. rewrite bool_decide_eq_true_2 by done. split; [lia|done].
    + intros bn bn' Hbn Hbn'. rewrite !Hblk by done. repeat case_decide; try congruence.
      * intros _ Ebn. exfalso. apply (Hna (blk f i bn')); [|done]. apply owns_blk; [done|]. lia.
      * intros Hnz Ebn. exfalso. apply (Hna (blk f i bn)); [by apply owns_blk|done].
      * by apply Hi.
    + intros bn Hbn. rewrite Hind, Hblk by done. intros Hiz. case_decide; [|by apply Hi].
      intros Eai. apply (Hna (ind i)); [by apply owns_ind|done].
    + rewrite Hm. apply Hi.
    + rewrite Hm. intros bn Hbn Hsz. change (i_size (i_with_addrs (i_addrs i') i)) with (i_size i) in Hsz.
      pose proof (io_full _ _ Hi bn Hbn Hsz) as Hf. rewrite <- Hm. rewrite Hblk; [case_decide; lia|].
      pose proof (io_size _ _ Hi). unfold MAXFILE, NDIRECT, NINDIRECT, BSIZE in *. lia.
  - apply (grows_intro f i f' i' held a W); try done.
    + intros bn Hbn Hnz. rewrite Hblk, decide_False; [done| |done]. intros ->. done.
    + intros c Hc. by apply elem_of_singleton in Hc.
    + assert (ind_need i' = ind_need i) as -> by (unfold ind_need; by rewrite Hind). lia.
Qed.

(** The new block is the indirect block. *)
Lemma add_ind f i f' i' held a W :
  fs_wf f held -> inode_ok f i -> first_free f a -> effect f f' W -> allocated f f' a ->
  i' = i_with_addrs (i_addrs i') i -> length (i_addrs i') = 13%nat -> ind i = 0 -> ind i' = a ->
  (forall bn, 0 <= bn < MAXFILE -> blk f' i' bn = blk f i bn) ->
  dom W ⊆ bitmap_blocks f ∪ {[a]} ->
  inode_ok f' i' /\ grows f i f' i' ∅ 0.
Proof.
  intros Hw Hi Hff E Hu Hm Hlen Hiz Hia Hblk HW. pose proof (fw_geo _ _ Hw) as HG.
  destruct (first_free_data f held a Hw Hff) as (Hda & _ & _). pose proof (datastart_pos f HG) as Hpos.
  pose proof Hff as (Ha & Hfa & _).
  assert (forall b, owns f i b -> b <> a) as Hna.
  { intros b Hb ->. destruct (owns_data f i a HG Hi Hb) as (_ & ? & _). congruence. }
  assert (forall b, owns f' i' b <-> owns f i b \/ b = a) as Hown.
  { intros b. split.
    - intros [Hb [->|(bn & Hbn & <-)]]; [by right|]. left. rewrite Hblk in * by done. by apply owns_blk.
    - intros [[Hb [->|(bn & Hbn & <-)]]| ->].
      + done.
      + rewrite <- (Hblk bn) in * by done. by apply owns_blk.
      + split; [lia|]. by left. }
  pose proof (datastart_effect _ _ _ E) as Hds. pose proof (ef_sb _ _ _ E) as Hsb.
  assert (ind_set i' = {[a]}) as His by (unfold ind_set; rewrite Hia; rewrite decide_False by lia; done).
  split.
  - split.
    + rewrite Hm. apply Hi.
    + done.
    + intros b Hb%Hown. rewrite Hds, Hsb. destruct Hb as [Hb| ->].
      * destruct (owns_data f i b HG Hi Hb) as (? & Hub & ?). rewrite Hu, Hub by lia. split; [lia|apply orb_true_r].
      * rewrite Hu by lia. rewrite bool_decide_eq_true_2 by done. split; [lia|done].
    + intros bn bn' Hbn Hbn'. rewrite !Hblk by done. by apply Hi.
    + intros bn Hbn _. rewrite Hblk, Hia by done. destruct (decide (blk f i bn = 0)); [lia|]. apply Hna. by apply owns_blk.
    + rewrite Hm. apply Hi.
    + rewrite Hm. intros bn Hbn Hsz. change (i_size (i_with_addrs (i_addrs i') i)) with (i_size i) in Hsz.
      rewrite <- Hm. rewrite Hblk; [by apply Hi|].
      pose proof (io_size _ _ Hi). unfold MAXFILE, NDIRECT, NINDIRECT, BSIZE in *. lia.
  - apply (grows_intro f i f' i' held a W); try done.
    + intros bn Hbn _. by apply Hblk.
    + rewrite His. clear -HW. revert HW. generalize (dom W) (bitmap_blocks f). set_solver.
    + assert (ind_need i = 1%nat) as -> by (unfold ind_need; by rewrite decide_True).
      assert (ind_need i' = 0%nat) as -> by (unfold ind_need; rewrite decide_False; [done|lia]). lia.
Qed.

(** * bmap *)

Lemma the_inode_eq f ip i : icache f !! ip = Some i -> the_inode ip f = Ok i.
Proof. unfold the_inode. by intros ->. Qed.

(** A block the file has already. *)
Lemma bmap_mapped f held ip i bn :
  fs_wf f held -> (length held < 3)%nat -> icache f !! ip = Some i -> inode_ok f i -> 0 <= bn < MAXFILE -> blk f i bn <> 0 ->
  ind i ∉ held.*2 ->
  exists f', bmap ip bn f = Ok (blk f i bn, f') /\ ok f' held /\ effect f f' ∅ /\ icache f' = icache f.
Proof.
  intros Hw Hl Hip Hi Hbn Hnz Hnh. unfold bmap. rewrite (the_inode_eq f ip i Hip). cbn [obind].
  unfold blk in *. destruct (Z.ltb_spec bn NDIRECT) as [Hlt|Hge].
  - change (default 0 (i_addrs i !! Z.to_nat bn)) with (addr i bn).
    destruct (Z.eqb_spec (addr i bn) 0); [done|]. exists f. split; [done|]. split; [apply Hw|]. split; [apply effect_refl|done].
  - destruct (Z.ltb_spec (bn - NDIRECT) NINDIRECT); [|unfold MAXFILE in *; lia].
    change (default 0 (i_addrs i !! Z.to_nat NDIRECT)) with (ind i).
    destruct (Z.eqb_spec (ind i) 0) as [Hz|Hz]; [done|]. cbn [obind].
    rewrite (io_dev _ _ Hi). destruct (owns_data f i (ind i) (fw_geo _ _ Hw) Hi (owns_ind f i Hz)) as (Hr & _ & Hd).
    destruct (read_spec f held (ind i)) as (bp & f1 & f2 & -> & D & E & Hok & F & I);
      [apply Hw|apply data_home; [apply Hw|lia]|done|done|].
    cbn [obind]. rewrite D. cbn [obind]. destruct (Z.eqb_spec (ld32 (V f (ind i)) (4 * (bn - NDIRECT))) 0); [done|].
    cbn [obind]. rewrite E. cbn [obind]. exists f2. done.
Qed.

(** The blocks of the file keep their contents. *)
Definition data_kept f i f' : Prop :=
  forall bn, 0 <= bn < MAXFILE -> blk f i bn <> 0 -> V f' (blk f i bn) = V f (blk f i bn).

Lemma alloc_writes_dom f a : geometry f -> 0 <= a < sb_size (sb f) -> dom (alloc_writes f a) ⊆ bitmap_blocks f ∪ {[a]}.
Proof.
  intros HG Ha. destruct (BBLOCK_range f a HG Ha) as [_ Hb]. unfold alloc_writes. rewrite dom_union_L, !dom_singleton_L.
  set_solver.
Qed.

Lemma owns_not_bitmap f i b : geometry f -> inode_ok f i -> owns f i b -> b ∉ bitmap_blocks f.
Proof. intros HG Hi Hb Hin%bitmap_range; [|done]. destruct (owns_data f i b HG Hi Hb) as (_ & _ & ?). lia. Qed.

(** A block of the file does not change when another one is allocated. *)
Lemma alloc_keeps f held i f' a b :
  fs_wf f held -> inode_ok f i -> first_free f a -> effect f f' (alloc_writes f a) -> owns f i b -> V f' b = V f b.
Proof.
  intros Hw Hi Hff E Hb. apply (ef_same _ _ _ _ E). pose proof (fw_geo _ _ Hw) as HG. destruct Hff as (Ha & Hfa & _).
  apply not_elem_of_dom. intros Hin%alloc_writes_dom; [|done..]. apply elem_of_union in Hin as [Hin|Hin%elem_of_singleton].
  - by eapply owns_not_bitmap.
  - subst. destruct (owns_data f i a HG Hi Hb) as (_ & ? & _). congruence.
Qed.

Lemma alloc_zero f held f' a k :
  fs_wf f held -> first_free f a -> effect f f' (alloc_writes f a) -> 0 <= k < BSIZE -> ld8 (V f' a) k = 0.
Proof.
  intros Hw Hff E Hk. rewrite (ef_view _ _ _ E). unfold alloc_writes. rewrite lookup_union_l', lookup_singleton_eq by (by rewrite lookup_singleton_eq).
  cbn [from_option id]. unfold BSIZE in *. rewrite ld8_memset by (unfold is_u32; lia). by rewrite decide_True by lia.
Qed.

(** The result of allocating block [bn] of the file. *)
Record mapped f ip i f' i' (a bn : Z) : Prop := {
  mp_wf : fs_wf f' [];
  mp_icache : icache f' = <[ip := i']> (icache f);
  mp_ok : inode_ok f' i';
  mp_grows : grows f i f' i' {[a]} 1;
  mp_blk bn' : 0 <= bn' < MAXFILE -> blk f' i' bn' = if decide (bn' = bn) then a else blk f i bn';
  mp_new : a <> 0;
  mp_kept : data_kept f i f';
  mp_zero k : 0 <= k < BSIZE -> ld8 (V f' a) k = 0
}.

Lemma alter_lookup (g : inode -> inode) ip i (c : list inode) : c !! ip = Some i -> alter g ip c = <[ip := g i]> c.
Proof. apply alter_insert_list. Qed.

(** A direct block. *)
Lemma bmap_direct f ip i bn :
  fs_wf f [] -> b_open (blocks f) -> icache f !! ip = Some i -> inode_ok f i -> 0 <= bn < NDIRECT -> addr i bn = 0 ->
  (footprint f i < FSCAP)%nat -> (0 < nfree f)%nat ->
  exists a f' i', bmap ip bn f = Ok (a, f') /\ mapped f ip i f' i' a bn.
Proof.
  intros Hw Ho Hip Hi Hbn Hz Hfp Hnf. pose proof (fw_geo _ _ Hw) as HG. unfold bmap. rewrite (the_inode_eq f ip i Hip). cbn [obind].
  destruct (Z.ltb_spec bn NDIRECT); [|lia]. change (default 0 (i_addrs i !! Z.to_nat bn)) with (addr i bn).
  rewrite Hz, (io_dev _ _ Hi). cbn [Z.eqb].
  destruct (balloc_spec f [] Hw Ho) as [(a & f1 & -> & Hff & Hok1 & E1 & I1)|[_ Hall]]; [cbn; lia| | |].
  { unfold footprint in Hfp. pose proof (subseteq_size (bitmap_blocks f ∪ L f) (bitmap_blocks f ∪ L f ∪ ind_set i) ltac:(set_solver)). lia. }
  2: { apply nfree_none in Hall. lia. }
  set (i' := i_with_addrs (<[Z.to_nat bn := a]> (i_addrs i)) i).
  cbn [obind]. eexists a, _, i'. split; [done|].
  set (f' := upd_inode ip _ f1).
  assert (icache f' = <[ip := i']> (icache f)) as HI.
  { unfold f', upd_inode. cbn [icache set_icache]. rewrite I1. by rewrite (alter_lookup _ _ i). }
  assert (effect f f' (alloc_writes f a)) as E by (by apply effect_icache).
  pose proof (used_alloc f f' [] a Hw Hff E) as Hu.
  assert (ind i' = ind i) as Hind by (apply addr_set_ne; unfold NDIRECT in *; lia).
  assert (a <> 0) as Ha0.
  { destruct (first_free_data f [] a Hw Hff) as (? & _ & _). pose proof (datastart_pos f HG). lia. }
  assert (forall bn', 0 <= bn' < MAXFILE -> blk f' i' bn' = if decide (bn' = bn) then a else blk f i bn') as Hblk.
  { intros bn' Hbn'. unfold blk. rewrite Hind. destruct (Z.ltb_spec bn' NDIRECT).
    - case_decide as Hb; [subst; unfold i'; apply addr_set_eq; [apply Hi|unfold NDIRECT in *; lia]|].
      apply addr_set_ne; lia.
    - rewrite decide_False by lia. destruct (Z.eqb_spec (ind i) 0); [done|].
      by rewrite (alloc_keeps f [] i f' a (ind i) Hw Hi Hff E (owns_ind f i ltac:(done))). }
  assert (inode_ok f' i' /\ grows f i f' i' {[a]} 1) as [Hi' HGr].
  { apply (add_data f i f' i' [] a bn (alloc_writes f a)); try done.
    - unfold i'. cbn. rewrite length_insert. apply Hi.
    - unfold MAXFILE, NINDIRECT. lia.
    - unfold blk. destruct (Z.ltb_spec bn NDIRECT); [done|lia].
    - etrans; [apply alloc_writes_dom; [done|apply Hff]|]. set_solver. }
  split; try done.
  - apply (alloc_wf f f' [] a); [done|apply E|by eapply geometry_effect|done|done].
  - intros bn' Hbn' Hnz. eapply alloc_keeps; try done. by apply owns_blk.
  - intros k Hk. by eapply (alloc_zero f []).
Qed.

(** The part of [bmap] that works on the indirect block [addr]. *)
Definition bmap_tail (dev addr bn : Z) f : outcome (Z * fs S) :=
  let! (bp, f) := fs_bread dev addr f in
  let! d := fs_data bp f in
  let addr := ld32 d (4 * bn) in
  let! (addr, f) :=
    (if addr =? 0 then
       let! (addr, f) := balloc dev f in
       let! f := fs_log bp (st32 d (4 * bn) addr) f in
       Ok (addr, f)
     else Ok (addr, f)) in
  let! f := fs_brelse bp f in
  Ok (addr, f).

Lemma bmap_indirect f ip i bn :
  fs_wf f [] -> b_open (blocks f) -> icache f !! ip = Some i -> inode_ok f i -> NDIRECT <= bn < MAXFILE ->
  ind i <> 0 -> blk f i bn = 0 -> (footprint f i < FSCAP)%nat -> (0 < nfree f)%nat ->
  exists a f', bmap_tail ROOTDEV (ind i) (bn - NDIRECT) f = Ok (a, f') /\ mapped f ip i f' i a bn.
Proof.
  intros Hw Ho Hip Hi Hbn Hiz Hz Hfp Hnf. pose proof (fw_geo _ _ Hw) as HG. unfold bmap_tail.
  destruct (owns_data f i (ind i) HG Hi (owns_ind f i Hiz)) as (Hir & Hiu & Hid).
  assert (blk f i bn = ld32 (V f (ind i)) (4 * (bn - NDIRECT))) as Hbk.
  { unfold blk. destruct (Z.ltb_spec bn NDIRECT); [lia|]. by destruct (Z.eqb_spec (ind i) 0). }
  destruct (fs_bread_spec f [] (ind i)) as (bp & f1 & -> & Hok1 & E1 & I1 & D1);
    [apply Hw|by apply data_home; [|lia]|apply not_elem_of_nil|cbn; lia|].
  cbn [obind]. rewrite D1. cbn [obind]. rewrite <- Hbk, Hz. cbn [Z.eqb].
  pose proof (fs_wf_hold f f1 [] bp (ind i) Hw E1 Hok1 ltac:(lia) Hiu) as Hw1.
  assert (L f1 = L f) as HL1 by (rewrite (ef_logged _ _ _ E1), dom_empty_L; set_solver).
  assert (size (bitmap_blocks f ∪ L f) <= footprint f i)%nat as Hfp'.
  { unfold footprint. pose proof (subseteq_size (bitmap_blocks f ∪ L f) (bitmap_blocks f ∪ L f ∪ ind_set i) ltac:(set_solver)). lia. }
  destruct (balloc_spec f1 [(bp, ind i)] Hw1) as [(a & f2 & -> & Hff & Hok2 & E2 & I2)|[_ Hall]].
  { by apply E1. } { cbn; lia. } { rewrite (bitmap_effect _ _ _ E1), HL1. lia. }
  2: { apply nfree_none in Hall. rewrite (nfree_effect0 f f1 E1) in Hall. lia. }
  rewrite (alloc_writes_effect0 f f1 a E1) in E2. apply (first_free_effect0 f f1 a E1) in Hff.
  pose proof (effect_trans0 _ _ _ _ E1 E2) as E12.
  pose proof (used_alloc f f2 [] a Hw Hff E12) as Hu2.
  destruct (first_free_data f [] a Hw Hff) as (Hda & _ & _). pose proof Hff as (Har & Hfa & _). pose proof (datastart_pos f HG) as Hpos.
  assert (ind i <> a) as Hia by (intros Heq; rewrite <- Heq in Hfa; congruence).
  cbn [obind].
  destruct (fs_log_spec f2 [(bp, ind i)] bp (ind i) (st32 (V f (ind i)) (4 * (bn - NDIRECT)) a) Hok2) as (f3 & -> & Hok3 & E3 & I3).
  { by left. } { apply E12, data_home; [done|lia]. } { by apply E12. }
  { rewrite (ef_logged _ _ _ E12). pose proof (alloc_writes_dom f a HG Har) as Hdom.
    assert (ind_set i = {[ind i]}) as His by (unfold ind_set; by rewrite decide_False).
    pose proof (size_add a (bitmap_blocks f ∪ L f ∪ ind_set i)) as Hsa. unfold footprint in Hfp.
    etrans; [apply (subseteq_size _ ({[a]} ∪ (bitmap_blocks f ∪ L f ∪ ind_set i)))|lia]. rewrite His. clear -Hdom. set_solver. }
  cbn [obind]. destruct (fs_brelse_spec f3 [] bp (ind i) Hok3) as (f4 & -> & Hok4 & E4 & I4). cbn [obind].
  pose proof (effect_trans1 _ _ _ _ E3 E4) as E34. pose proof (effect_trans _ _ _ _ _ E12 E34) as E.
  set (W := {[ind i := _]} ∪ alloc_writes f a) in E.
  exists a, f4. split; [done|].
  assert (icache f4 = icache f) as HI by congruence.
  assert (V f4 (ind i) = st32 (V f (ind i)) (4 * (bn - NDIRECT)) a) as Hvi.
  { rewrite (ef_view _ _ _ E34), lookup_singleton_eq. done. }
  assert (forall c, c <> ind i -> V f4 c = V f2 c) as Hv4.
  { intros c Hc. apply (ef_same _ _ _ _ E34). by rewrite lookup_singleton_ne. }
  assert (allocated f f4 a) as Hu.
  { intros c Hc. rewrite <- Hu2 by done. apply (used_same _ _ _ _ E34). rewrite (BBLOCK_effect _ _ _ _ E12).
    destruct (BBLOCK_range f c HG Hc). rewrite lookup_singleton_ne; [done|lia]. }
  assert (forall bn', 0 <= bn' < MAXFILE -> blk f4 i bn' = if decide (bn' = bn) then a else blk f i bn') as Hblk.
  { intros bn' Hbn'. unfold blk. destruct (Z.ltb_spec bn' NDIRECT); [rewrite decide_False by lia; done|].
    destruct (Z.eqb_spec (ind i) 0); [done|]. rewrite Hvi. case_decide as Hb.
    - subst. rewrite ld32_st32_eq. pose proof (ge_size _ HG). apply u32_id. unfold is_u32. lia.
    - apply ld32_st32_ne. lia. }
  assert (inode_ok f4 i /\ grows f i f4 i {[a]} 1) as [Hi' HGr].
  { apply (add_data f i f4 i [] a bn W); try done.
    - by destruct i.
    - apply Hi.
    - unfold NDIRECT in *. lia.
    - unfold W. rewrite dom_union_L, dom_singleton_L. pose proof (alloc_writes_dom f a HG Har) as Hdom.
      assert (ind_set i = {[ind i]}) as -> by (unfold ind_set; by rewrite decide_False). clear -Hdom. set_solver. }
  split.
  - apply (alloc_wf f f4 [] a); [done|apply E|by eapply geometry_effect|done|done].
  - by rewrite HI, list_insert_id.
  - done.
  - done.
  - done.
  - lia.
  - intros bn' Hbn' Hnz. rewrite Hv4 by (by apply Hi). eapply (alloc_keeps f [] i); try done. by apply owns_blk.
  - intros k Hk. rewrite Hv4 by done. by eapply (alloc_zero f []).
Qed.

(** Allocating the indirect block. *)
Lemma bmap_new_ind f ip i :
  fs_wf f [] -> b_open (blocks f) -> icache f !! ip = Some i -> inode_ok f i -> ind i = 0 ->
  (footprint f i < FSCAP)%nat -> (0 < nfree f)%nat ->
  exists a f1, balloc ROOTDEV f = Ok (a, f1) /\ a <> 0 /\
    let i' := i_with_addrs (<[Z.to_nat NDIRECT := a]> (i_addrs i)) i in
    let f' := upd_inode ip (fun i => i_with_addrs (<[Z.to_nat NDIRECT := a]> (i_addrs i)) i) f1 in
    fs_wf f' [] /\ icache f' = <[ip := i']> (icache f) /\ inode_ok f' i' /\ grows f i f' i' ∅ 0 /\ ind i' = a
    /\ data_kept f i f' /\ (forall bn, 0 <= bn < MAXFILE -> blk f' i' bn = blk f i bn).
Proof.
  intros Hw Ho Hip Hi Hiz Hfp Hnf. pose proof (fw_geo _ _ Hw) as HG.
  destruct (balloc_spec f [] Hw Ho) as [(a & f1 & E1 & Hff & Hok1 & F1 & I1)|[_ Hall]]; [cbn; lia| | |].
  { unfold footprint in Hfp. pose proof (subseteq_size (bitmap_blocks f ∪ L f) (bitmap_blocks f ∪ L f ∪ ind_set i) ltac:(set_solver)). lia. }
  2: { apply nfree_none in Hall. lia. }
  assert (a <> 0) as Ha0.
  { destruct (first_free_data f [] a Hw Hff) as (? & _ & _). pose proof (datastart_pos f HG). lia. }
  exists a, f1. split; [done|]. split; [done|]. intros i' f'.
  assert (effect f f' (alloc_writes f a)) as E by (by apply effect_icache).
  pose proof (used_alloc f f' [] a Hw Hff E) as Hu.
  assert (ind i' = a) as Hind by (apply addr_set_eq; [apply Hi|done]).
  assert (forall bn, 0 <= bn < MAXFILE -> blk f' i' bn = blk f i bn) as Hblk.
  { intros bn Hbn. unfold blk. rewrite Hind, Hiz. destruct (Z.ltb_spec bn NDIRECT); [apply addr_set_ne; lia|].
    destruct (Z.eqb_spec a 0); [done|]. cbn [Z.eqb]. unfold ld32.
    rewrite !(alloc_zero f [] f' a) by (done || unfold MAXFILE, NDIRECT, NINDIRECT, BSIZE in *; lia). done. }
  assert (inode_ok f' i' /\ grows f i f' i' ∅ 0) as [Hi' HGr].
  { apply (add_ind f i f' i' [] a (alloc_writes f a)); try done; [|apply alloc_writes_dom; [done|apply Hff]].
    unfold i'. cbn. rewrite length_insert. apply Hi. }
  split; [apply (alloc_wf f f' [] a); [done|apply E|by eapply geometry_effect|done|done]|].
  split; [unfold f', upd_inode; cbn [icache set_icache]; rewrite I1; by rewrite (alter_lookup _ _ i)|].
  split; [done|]. split; [done|]. split; [done|]. split; [|done].
  intros bn Hbn Hnz. eapply (alloc_keeps f [] i); try done. by apply owns_blk.
Qed.

(** [bmap] of a block the file does not have yet. *)
Lemma bmap_fresh f ip i bn :
  fs_wf f [] -> b_open (blocks f) -> icache f !! ip = Some i -> inode_ok f i -> 0 <= bn < MAXFILE -> blk f i bn = 0 ->
  (footprint f i < FSCAP)%nat -> (ind_need i < nfree f)%nat ->
  exists a f' i', bmap ip bn f = Ok (a, f') /\ mapped f ip i f' i' a bn.
Proof.
  intros Hw Ho Hip Hi Hbn Hz Hfp Hnf. destruct (Z.ltb_spec bn NDIRECT) as [Hlt|Hge].
  { apply (bmap_direct f ip i bn); try done; [lia| |lia]. unfold blk in Hz. destruct (Z.ltb_spec bn NDIRECT); [done|lia]. }
  unfold bmap. rewrite (the_inode_eq f ip i Hip). cbn [obind]. destruct (Z.ltb_spec bn NDIRECT); [lia|].
  destruct (Z.ltb_spec (bn - NDIRECT) NINDIRECT); [|unfold MAXFILE in *; lia].
  change (default 0 (i_addrs i !! Z.to_nat NDIRECT)) with (ind i). rewrite (io_dev _ _ Hi).
  destruct (Z.eqb_spec (ind i) 0) as [Hiz|Hiz]; [|destruct (bmap_indirect f ip i bn) as (a & f' & HM); try done; [lia..|by exists a, f', i]].
  destruct (bmap_new_ind f ip i Hw Ho Hip Hi Hiz Hfp ltac:(lia)) as (a1 & f1 & -> & Ha1 & HH). cbv zeta in HH.
  set (i1 := i_with_addrs _ i) in HH. cbn [obind]. set (f1' := upd_inode ip _ f1) in *.
  destruct HH as (Hw1 & I1 & Hi1 & G1 & Hind1 & K1 & B1).
  assert (ind_need i = 1%nat) as Hn1 by (unfold ind_need; by rewrite decide_True).
  assert (ind_need i1 = 0%nat) as Hn2 by (unfold ind_need; rewrite Hind1; by rewrite decide_False).
  pose proof (gr_nfree _ _ _ _ _ _ G1) as Hnf1. pose proof (grows_footprint _ _ _ _ _ _ G1) as Hfp1. rewrite size_empty in Hfp1.
  destruct (bmap_indirect f1' ip i1 bn) as (a & f' & E & [M1 I2 Hi2 G2 B2 M3 M4 M5]); try done; try lia.
  { by apply G1. } { rewrite I1. apply list_lookup_insert_eq. by eapply lookup_lt_Some. } { by rewrite B1. }
  exists a, f', i1. rewrite <- Hind1 at 1. split; [exact E|]. split; try done.
  - by rewrite I2, I1, list_insert_insert_eq.
  - pose proof (grows_trans _ _ _ _ _ _ _ _ _ _ G1 G2) as G. rewrite union_empty_l_L in G. exact G.
  - intros bn' Hbn'. rewrite B2 by done. case_decide; [done|]. by apply B1.
  - intros bn' Hbn' Hnz. rewrite <- (K1 bn') by done. rewrite <- (B1 bn') in * by done. by apply M4.
Qed.

End File.
