(* ===== verification/FsData.v ===== *)
(** [readi] returns the bytes of the file, and [writei] replaces a range of
    them, growing the file as needed. *)
From S2P Require Import Prelude Mem KString Spinlock Bio Log Fs FsBlocks FsTheory FsFile.

(** * Byte lists and blocks *)

Lemma bytes_at_fmap n : forall m a, bytes_at m a n = (fun k => ld8 m (a + Z.of_nat k)) <$> seq 0 n.
Proof.
  induction n as [|n IH]; intros m a; [done|]. cbn [bytes_at seq]. rewrite fmap_cons, IH. f_equal; [f_equal; lia|].
  rewrite <- fmap_S_seq, <- list_fmap_compose. apply list_fmap_ext. intros j k _. cbn. f_equal. lia.
Qed.

Lemma ld8_put_bytes bytes : forall d a k,
  ld8 (put_bytes d a bytes) k =
    if decide (a <= k < a + Z.of_nat (length bytes)) then u8 (default 0 (bytes !! Z.to_nat (k - a))) else ld8 d k.
Proof.
  induction bytes as [|b bytes IH]; intros d a k; cbn [put_bytes length].
  - rewrite decide_False by lia. done.
  - rewrite IH, ld8_st8. repeat case_decide; try lia; try done.
    + f_equal. f_equal. replace (Z.to_nat (k - a)) with (Datatypes.S (Z.to_nat (k - (a + 1)))) by lia. done.
    + subst. replace (Z.to_nat (k - k)) with 0%nat by lia. done.
Qed.

Lemma logged_step (L1 L2 B I X : gset Z) a : L2 ⊆ L1 ∪ B ∪ I ∪ X -> X ⊆ {[a]} -> {[a]} ∪ L2 ⊆ {[a]} ∪ (B ∪ L1 ∪ I).
Proof. set_solver. Qed.

(** The blocks that [n] bytes at [off] touch. *)
Definition blocks_of (off n : Z) : nat :=
  if n <=? 0 then 0%nat else Z.to_nat ((off + n - 1) / BSIZE - off / BSIZE + 1).

Lemma blocks_of_step off n :
  0 <= off -> 0 < n ->
  let m := Z.min n (BSIZE - off mod BSIZE) in
  0 < m /\ blocks_of off n = Datatypes.S (blocks_of (off + m) (n - m)).
Proof.
  intros Ho Hn m. unfold m, blocks_of, BSIZE. split; [zlia|].
  destruct (Z.leb_spec n 0); [lia|]. destruct (Z.leb_spec (n - Z.min n (512 - off mod 512)) 0); zlia.
Qed.

Lemma div_mod_offset off k : 0 <= off -> 0 <= k -> off mod BSIZE + k < BSIZE ->
  (off + k) / BSIZE = off / BSIZE /\ (off + k) mod BSIZE = off mod BSIZE + k.
Proof. unfold BSIZE. intros. split; zlia. Qed.

Section Data.
Context {S : Type} `{BlockLaws S}.
Implicit Types f : fs S.
Implicit Types i : inode.

Abbreviation ok f := (b_ok (blocks f)).
Abbreviation V f := (b_view (blocks f)).
Abbreviation L f := (b_logged (blocks f)).
Abbreviation home f := (b_home (blocks f)).

(** Bytes [off] to [off + n] of the file. *)
Definition file_bytes f i (off : Z) (n : nat) : list Z := (fun k => byte f i (off + Z.of_nat k)) <$> seq 0 n.

Lemma file_bytes_length f i off n : length (file_bytes f i off n) = n.
Proof. unfold file_bytes. by rewrite length_fmap, length_seq. Qed.

Lemma file_bytes_app f i off n m : file_bytes f i off (n + m) = file_bytes f i off n ++ file_bytes f i (off + Z.of_nat n) m.
Proof.
  unfold file_bytes. rewrite seq_app, fmap_app. f_equal. cbn [Nat.add]. apply list_eq. intros k.
  rewrite !list_lookup_fmap. destruct (decide (k < m)%nat).
  - rewrite !lookup_seq_lt by done. cbn. f_equal. f_equal. lia.
  - rewrite !lookup_seq_ge by lia. done.
Qed.

Lemma byte_effect0 f f' i off : effect f f' ∅ -> byte f' i off = byte f i off.
Proof.
  intros E. unfold byte. rewrite (blk_view f f') by (intros _; by apply (ef_same _ _ _ _ E)). by rewrite (ef_same _ _ _ _ E).
Qed.

Lemma inode_ok_effect0 f f' i : effect f f' ∅ -> inode_ok f i -> inode_ok f' i.
Proof.
  intros E [A1 A2 A3 A4 A5 A6 A7].
  assert (forall bn, blk f' i bn = blk f i bn) as HB by (intros bn; apply blk_view; intros _; by apply (ef_same _ _ _ _ E)).
  split; try done.
  - intros b Hb. rewrite (datastart_effect _ _ _ E), (used_same _ _ _ _ E), (ef_sb _ _ _ E) by done. apply A3.
    destruct Hb as [Hz [->|(bn & Hbn & <-)]]; split; try done; [by left|right]. exists bn. by rewrite HB.
  - intros bn bn'. rewrite !HB. apply A4.
  - intros bn. rewrite HB. apply A5.
  - intros bn. rewrite HB. apply A7.
Qed.

Lemma grows_effect0 f f' i : effect f f' ∅ -> grows f i f' i ∅ 0.
Proof.
  intros E.
  assert (forall bn, blk f' i bn = blk f i bn) as HB by (intros bn; apply blk_view; intros _; by apply (ef_same _ _ _ _ E)).
  assert (forall b, owns f' i b <-> owns f i b) as HO by (intros b; unfold owns; by setoid_rewrite HB).
  split; try apply E; try done.
  - by destruct i.
  - intros b Hb. left. by apply HO.
  - intros c _. by rewrite (used_same _ _ _ _ E).
  - intros c _. rewrite (used_same _ _ _ _ E) by done. by left.
  - intros c _ _. by apply (ef_same _ _ _ _ E).
  - rewrite (ef_logged _ _ _ E), dom_empty_L. generalize (L f) (bitmap_blocks f) (ind_set i). set_solver.
  - rewrite (nfree_effect0 f f' E). lia.
Qed.

Lemma blk_home f i bn : geometry f -> inode_ok f i -> 0 <= bn < MAXFILE -> blk f i bn <> 0 -> home f (blk f i bn).
Proof.
  intros HG Hi Hbn Hz. destruct (owns_data f i _ HG Hi (owns_blk f i bn Hbn Hz)) as (? & _ & ?). apply data_home; [done|lia].
Qed.

(** One block's worth of the file. *)
Lemma block_bytes f i off m :
  0 <= off -> 0 <= m -> off mod BSIZE + m <= BSIZE ->
  bytes_at (V f (blk f i (off / BSIZE))) (off mod BSIZE) (Z.to_nat m) = file_bytes f i off (Z.to_nat m).
Proof.
  intros Ho Hm Hs. rewrite bytes_at_fmap. unfold file_bytes. apply list_fmap_ext. intros j k Hk%lookup_seq.
  unfold byte. destruct (div_mod_offset off (Z.of_nat k)) as [-> ->]; [lia..|]. done.
Qed.

Lemma readi_loop_spec fuel : forall f ip i off n,
  fs_wf f [] -> icache f !! ip = Some i -> inode_ok f i -> 0 <= off -> 0 <= n -> off + n <= i_size i -> (blocks_of off n <= fuel)%nat ->
  exists f', readi_loop fuel ip off n f = Ok (file_bytes f i off (Z.to_nat n), f') /\ ok f' [] /\ effect f f' ∅ /\ icache f' = icache f.
Proof.
  induction fuel as [|fuel IH]; intros f ip i off n Hw Hip Hi Ho Hn Hs Hf; cbn [readi_loop].
  - destruct (Z.leb_spec n 0) as [Hz|Hz].
    + assert (n = 0) as -> by lia. exists f. split; [done|]. split; [apply Hw|]. split; [apply effect_refl|done].
    + destruct (blocks_of_step off n Ho Hz) as [_ E]. lia.
  - destruct (Z.leb_spec n 0) as [Hz|Hz].
    { assert (n = 0) as -> by lia. exists f. split; [done|]. split; [apply Hw|]. split; [apply effect_refl|done]. }
    destruct (blocks_of_step off n Ho Hz) as [Hm Hbl]. set (m := Z.min n (BSIZE - off mod BSIZE)) in *.
    pose proof (Z.mod_pos_bound off BSIZE ltac:(done)) as Hmod.
    assert (0 <= off / BSIZE < MAXFILE) as Hbn.
    { pose proof (io_size _ _ Hi). unfold MAXFILE, NDIRECT, NINDIRECT, BSIZE in *. zlia. }
    assert (blk f i (off / BSIZE) <> 0) as Hnz by (apply Hi; [lia|unfold BSIZE in *; zlia]).
    rewrite (the_inode_eq f ip i Hip). cbn [obind].
    destruct (bmap_mapped f [] ip i (off / BSIZE) Hw) as (f1 & -> & Hok1 & E1 & I1); try done; [cbn; lia|apply not_elem_of_nil|].
    cbn [obind]. rewrite (io_dev _ _ Hi).
    destruct (read_spec f1 [] (blk f i (off / BSIZE)) Hok1) as (bp & f2 & f3 & -> & D & R & Hok3 & E3 & I3);
      [apply E1, blk_home; try done; apply Hw|apply not_elem_of_nil|cbn; lia|].
    cbn [obind]. rewrite D. cbn [obind]. rewrite R. cbn [obind]. rewrite (ef_same _ _ _ _ E1) by done.
    pose proof (effect_trans0 _ _ _ _ E1 E3) as E13.
    destruct (IH f3 ip i (off + m) (n - m)) as (f4 & -> & Hok4 & E4 & I4); try lia.
    { by eapply fs_wf_effect0. } { by rewrite I3, I1. } { by eapply inode_ok_effect0. }
    cbn [obind]. exists f4. split; [|split; [done|split; [by eapply effect_trans0|congruence]]].
    f_equal. f_equal. rewrite block_bytes by lia.
    replace (Z.to_nat n) with (Z.to_nat m + Z.to_nat (n - m))%nat by lia. rewrite file_bytes_app. f_equal.
    rewrite Z2Nat.id by lia. unfold file_bytes. apply list_fmap_ext. intros j k _. by apply byte_effect0.
Qed.

(** [readi] of a file: the bytes from [off] up to the end of the file, and
    -1 beyond it. *)
Lemma readi_spec (dev_read : Z -> option (nat -> Z -> fs S -> outcome (option (list Z) * fs S))) f ip i off n :
  fs_wf f [] -> icache f !! ip = Some i -> inode_ok f i -> i_type i <> T_DEV -> 0 <= off -> 0 <= n -> off + n < 4294967296 ->
  if decide (i_size i < off) then readi dev_read ip off n f = Ok (None, f)
  else exists f', readi dev_read ip off n f = Ok (Some (file_bytes f i off (Z.to_nat (Z.min n (i_size i - off)))), f')
    /\ ok f' [] /\ effect f f' ∅ /\ icache f' = icache f.
Proof.
  intros Hw Hip Hi Ht Ho Hn Hs. unfold readi. rewrite (the_inode_eq f ip i Hip). cbn [obind].
  destruct (Z.eqb_spec (i_type i) T_DEV); [done|]. rewrite (u32_id (off + n)) by (unfold is_u32; lia).
  destruct (Z.ltb_spec (i_size i) off) as [H1|H1]; cbn [orb]; [by rewrite decide_True by lia|].
  rewrite decide_False by lia. destruct (Z.ltb_spec (off + n) off); [lia|].
  set (n' := if i_size i <? off + n then i_size i - off else n).
  assert (n' = Z.min n (i_size i - off)) as Hn' by (unfold n'; destruct (Z.ltb_spec (i_size i) (off + n)); lia).
  destruct (readi_loop_spec (Z.to_nat (n' / BSIZE + 2)) f ip i off n') as (f' & -> & Hok & E & I); try done; try lia.
  { unfold blocks_of, BSIZE. destruct (Z.leb_spec n' 0); zlia. }
  cbn [obind]. exists f'. rewrite Hn'. done.
Qed.

(** * Writing *)

(** Byte [p] of the file, 0 where it has no block. *)
Definition fbyte f i (p : Z) : Z := if blk f i (p / BSIZE) =? 0 then 0 else byte f i p.

(** The file after [src] was put at [off]. *)
Record wrote f ip i f' i' (off : Z) (src : list Z) (X : gset Z) (n : nat) : Prop := {
  wt_wf : fs_wf f' [];
  wt_icache : icache f' = <[ip := i']> (icache f);
  wt_ok : inode_ok f' i';
  wt_grows : grows f i f' i' X n;
  wt_byte p : 0 <= p < MAXFILE * BSIZE ->
    fbyte f' i' p = if decide (off <= p < off + Z.of_nat (length src)) then u8 (default 0 (src !! Z.to_nat (p - off))) else fbyte f i p;
  wt_full p : 0 <= p < MAXFILE * BSIZE -> off <= p < off + Z.of_nat (length src) -> blk f' i' (p / BSIZE) <> 0
}.

Lemma page_range p : 0 <= p < MAXFILE * BSIZE -> 0 <= p / BSIZE < MAXFILE.
Proof. unfold MAXFILE, NDIRECT, NINDIRECT, BSIZE. intros. zlia. Qed.

Lemma fwrote_trans f ip i f1 i1 f2 i2 off s1 s2 X Y n m :
  wrote f ip i f1 i1 off s1 X n -> wrote f1 ip i1 f2 i2 (off + Z.of_nat (length s1)) s2 Y m -> 0 <= off ->
  off + Z.of_nat (length s1) <= MAXFILE * BSIZE ->
  wrote f ip i f2 i2 off (s1 ++ s2) (X ∪ Y) (n + m).
Proof.
  intros A B Ho Hl. split.
  - apply B.
  - by rewrite (wt_icache _ _ _ _ _ _ _ _ _ B), (wt_icache _ _ _ _ _ _ _ _ _ A), list_insert_insert_eq.
  - apply B.
  - eapply grows_trans; [apply A|apply B].
  - intros p Hp. rewrite (wt_byte _ _ _ _ _ _ _ _ _ B), (wt_byte _ _ _ _ _ _ _ _ _ A) by done. rewrite length_app.
    repeat case_decide; try lia; try done.
    + f_equal. f_equal. rewrite lookup_app_r by lia. f_equal. lia.
    + f_equal. f_equal. rewrite lookup_app_l by lia. done.
  - intros p Hp. rewrite length_app. intros Hr.
    destruct (decide (p < off + Z.of_nat (length s1))); [|apply (wt_full _ _ _ _ _ _ _ _ _ B); [done|lia]].
    pose proof (wt_full _ _ _ _ _ _ _ _ _ A p Hp ltac:(lia)) as Hz.
    rewrite (gr_blk _ _ _ _ _ _ (wt_grows _ _ _ _ _ _ _ _ _ B)); [done|by apply page_range|done].
Qed.

(** What [bmap] does, whether or not the file has the block. *)
Lemma bmap_wrote f ip i off :
  fs_wf f [] -> b_open (blocks f) -> icache f !! ip = Some i -> inode_ok f i -> 0 <= off < MAXFILE * BSIZE ->
  (footprint f i < FSCAP)%nat -> (ind_need i < nfree f)%nat ->
  exists a f' i' X n, bmap ip (off / BSIZE) f = Ok (a, f') /\ wrote f ip i f' i' off [] X n /\ X ⊆ {[a]} /\ (n <= 1)%nat
    /\ blk f' i' (off / BSIZE) = a /\ a <> 0 /\ (blk f i (off / BSIZE) <> 0 -> i' = i).
Proof.
  intros Hw Ho Hip Hi Hoff Hfp Hnf. pose proof (page_range off Hoff) as Hbn.
  destruct (decide (blk f i (off / BSIZE) = 0)) as [Hz|Hz].
  - destruct (bmap_fresh f ip i (off / BSIZE) Hw Ho Hip Hi Hbn Hz Hfp Hnf) as (a & f' & i' & E & [M1 M2 M3 M4 M5 M6 M7 M8]).
    exists a, f', i', {[a]}, 1%nat. split; [done|]. split; [split; try done|].
    + intros p Hp. cbn [length]. rewrite decide_False by lia. pose proof (page_range p Hp) as Hpb.
      unfold fbyte, byte. rewrite M5 by done. destruct (decide (p / BSIZE = off / BSIZE)) as [Ep|Ep].
      * rewrite Ep, Hz. cbn [Z.eqb]. destruct (Z.eqb_spec a 0); [done|]. apply M8. apply Z.mod_pos_bound. done.
      * destruct (Z.eqb_spec (blk f i (p / BSIZE)) 0); [done|]. by rewrite M7.
    + intros p _ Hp. cbn in Hp. lia.
    + split; [done|]. split; [lia|]. rewrite M5, decide_True by done. done.
  - destruct (bmap_mapped f [] ip i (off / BSIZE) Hw) as (f' & E & Hok & F & I); try done; [cbn; lia|apply not_elem_of_nil|].
    exists (blk f i (off / BSIZE)), f', i, ∅, 0%nat. split; [done|].
    assert (forall bn, blk f' i bn = blk f i bn) as HB by (intros bn; apply blk_view; intros _; by apply (ef_same _ _ _ _ F)).
    split; [split|].
    + by eapply fs_wf_effect0.
    + by rewrite I, list_insert_id.
    + by eapply inode_ok_effect0.
    + by apply grows_effect0.
    + intros p Hp. cbn [length]. rewrite decide_False by lia. unfold fbyte. rewrite HB. by rewrite (byte_effect0 f f').
    + intros p _ Hp. cbn in Hp. lia.
    + split; [set_solver|]. split; [lia|]. rewrite HB. done.
Qed.

(** Logging new contents for a data block of the file. *)
Lemma grows_write f f' i a d :
  fs_wf f [] -> inode_ok f i -> effect f f' {[a := d]} -> owns f i a -> a <> ind i -> ok f' [] ->
  fs_wf f' [] /\ inode_ok f' i /\ grows f i f' i {[a]} 0 /\ (forall bn, blk f' i bn = blk f i bn).
Proof.
  intros Hw Hi E Ha Hai Hok. pose proof (fw_geo _ _ Hw) as HG. destruct (owns_data f i a HG Hi Ha) as (Har & _ & Hda).
  assert (forall c, 0 <= c < sb_size (sb f) -> used f' c = used f c) as Hu.
  { intros c Hc. apply (used_same _ _ _ _ E). destruct (BBLOCK_range f c HG Hc). rewrite lookup_singleton_ne; [done|lia]. }
  assert (forall c, c <> a -> V f' c = V f c) as Hv by (intros c Hc; apply (ef_same _ _ _ _ E); by rewrite lookup_singleton_ne).
  assert (forall bn, blk f' i bn = blk f i bn) as HB by (intros bn; apply blk_view; intros _; by apply Hv).
  assert (forall b, owns f' i b <-> owns f i b) as HO by (intros b; unfold owns; by setoid_rewrite HB).
  pose proof (ef_sb _ _ _ E) as Hsb. pose proof (datastart_effect _ _ _ E) as Hds. pose proof (datastart_le f HG).
  split; [|split; [|split; [|done]]].
  - destruct Hw as [_ _ W3 _]. split; [done|by eapply geometry_effect| |intros c Hc; by apply not_elem_of_nil in Hc].
    intros b. rewrite Hds. intros Hb. rewrite Hu by lia. by apply W3.
  - destruct Hi as [A1 A2 A3 A4 A5 A6 A7]. split; try done.
    + intros b Hb%HO. rewrite Hds, Hsb. destruct (A3 b Hb). rewrite Hu; [done|]. pose proof (datastart_pos f HG). lia.
    + intros bn bn'. rewrite !HB. apply A4.
    + intros bn. rewrite HB. apply A5.
    + intros bn. rewrite HB. apply A7.
  - split; try done; try apply E.
    + by destruct i.
    + intros b Hb. left. by apply HO.
    + intros c Hc. by rewrite Hu.
    + intros c Hc. rewrite Hu by done. by left.
    + intros c _ Hno. apply Hv. intros ->. by apply Hno, HO.
    + rewrite (ef_logged _ _ _ E), dom_singleton_L. generalize (L f) (bitmap_blocks f) (ind_set i). set_solver.
    + unfold nfree. rewrite Hsb.
      assert (filter (fun b => used f' b = false) (seqZ 0 (sb_size (sb f))) = filter (fun b => used f b = false) (seqZ 0 (sb_size (sb f)))) as ->; [|lia].
      apply filter_iff_in. intros x Hx%elem_of_seqZ. rewrite Hu by lia. done.
Qed.

(** The steps of one turn of the loop of [writei]. *)
Lemma write_block f ip i off src :
  fs_wf f [] -> b_open (blocks f) -> icache f !! ip = Some i -> inode_ok f i ->
  0 <= off -> (0 < length src)%nat -> off mod BSIZE + Z.of_nat (length src) <= BSIZE -> off + Z.of_nat (length src) <= MAXFILE * BSIZE ->
  (footprint f i < FSCAP)%nat -> (ind_need i < nfree f)%nat ->
  exists a f1 bp f2 f3 f' i' n, bmap ip (off / BSIZE) f = Ok (a, f1) /\ fs_bread ROOTDEV a f1 = Ok (bp, f2)
    /\ fs_data bp f2 = Ok (V f1 a) /\ fs_log bp (put_bytes (V f1 a) (off mod BSIZE) src) f2 = Ok f3 /\ fs_brelse bp f3 = Ok f'
    /\ wrote f ip i f' i' off src {[a]} n /\ (n <= 1)%nat /\ (blk f i (off / BSIZE) <> 0 -> i' = i).
Proof.
  intros Hw Ho Hip Hi Hoff Hlen Hfit Hmax Hfp Hnf.
  destruct (bmap_wrote f ip i off Hw Ho Hip Hi ltac:(lia) Hfp Hnf) as (a & f1 & i1 & X & n & E1 & W1 & HX & Hn & Hb & Ha & Hsame).
  pose proof (page_range off ltac:(lia)) as Hbn. destruct W1 as [Hw1 I1 Hi1 G1 Hby1 _].
  assert (owns f1 i1 a) as Hown by (rewrite <- Hb in *; by apply owns_blk).
  pose proof (fw_geo _ _ Hw1) as HG1. destruct (owns_data f1 i1 a HG1 Hi1 Hown) as (Har & _ & Had).
  assert (a <> ind i1) as Hai.
  { destruct (decide (ind i1 = 0)); [lia|]. rewrite <- Hb. by apply Hi1. }
  assert (size ({[a]} ∪ L f1) <= FSCAP)%nat as Hroom.
  { pose proof (footprint_base _ _ _ _ _ _ G1). pose proof (size_add a (bitmap_blocks f ∪ L f ∪ ind_set i1)).
    etrans; [apply (subseteq_size _ ({[a]} ∪ (bitmap_blocks f ∪ L f ∪ ind_set i1)))|lia].
    eapply logged_step; [apply G1|done]. }
  destruct (rmw_steps (fun d => put_bytes d (off mod BSIZE) src) f1 [] a) as (bp & f2 & f3 & f' & E2 & E3 & E4 & E5 & Hok' & F & I').
  { apply Hw1. } { apply data_home; [done|lia]. } { apply not_elem_of_nil. } { cbn; lia. } { by apply G1. } { done. }
  destruct (grows_write f1 f' i1 a _ Hw1 Hi1 F Hown Hai Hok') as (Hw' & Hi' & G' & HB).
  exists a, f1, bp, f2, f3, f', i1, (n + 0)%nat. repeat (split; [done|]). split; [split|split; [lia|done]].
  - done.
  - by rewrite I', I1.
  - done.
  - pose proof (grows_trans _ _ _ _ _ _ _ _ _ _ G1 G') as G.
    replace {[a]} with (X ∪ {[a]}); [exact G|]. clear -HX. set_solver.
  - intros p Hp. pose proof (page_range p Hp) as Hpb. specialize (Hby1 p Hp). cbn [length] in Hby1.
    rewrite decide_False in Hby1 by lia. unfold fbyte, byte in *. rewrite HB.
    destruct (Z.eqb_spec (blk f1 i1 (p / BSIZE)) 0) as [Hz|Hz].
    { rewrite decide_False; [done|]. intros Hr. apply Ha. rewrite <- Hb.
      destruct (div_mod_offset off (p - off)) as [Ed _]; [lia..|]. rewrite <- Hz. f_equal. rewrite <- Ed. f_equal. lia. }
    destruct (decide (p / BSIZE = off / BSIZE)) as [Ep|Ep].
    + rewrite Ep, Hb, (ef_view _ _ _ F), lookup_singleton_eq. cbn [from_option id]. rewrite ld8_put_bytes.
      pose proof (Z.div_mod p BSIZE ltac:(done)). pose proof (Z.div_mod off BSIZE ltac:(done)). rewrite Ep in *.
      repeat case_decide; try lia.
      * f_equal. f_equal. f_equal. lia.
      * rewrite <- Hby1, Hb. done.
    + rewrite decide_False.
      2: { intros Hr. apply Ep. destruct (div_mod_offset off (p - off)) as [Ed _]; [lia..|]. rewrite <- Ed. f_equal. lia. }
      rewrite <- Hby1. f_equal. apply (ef_same _ _ _ _ F). rewrite lookup_singleton_ne; [done|].
      intros Ea. apply Ep. apply (io_inj _ _ Hi1); [done|done|done|]. congruence.
  - intros p Hp Hr. rewrite HB. destruct (div_mod_offset off (p - off)) as [Ed _]; [lia..|].
    replace (p / BSIZE) with (off / BSIZE) by (rewrite <- Ed; f_equal; lia). by rewrite Hb.
Qed.

Lemma wrote_nil f ip i off :
  fs_wf f [] -> icache f !! ip = Some i -> inode_ok f i -> wrote f ip i f i off [] ∅ 0.
Proof.
  intros Hw Hip Hi. split; try done.
  - by rewrite list_insert_id.
  - apply grows_refl.
  - intros p Hp. cbn [length]. by rewrite decide_False by lia.
  - intros p Hp Hr. cbn in Hr. lia.
Qed.

Lemma writei_loop_spec fuel : forall f ip i src off,
  fs_wf f [] -> b_open (blocks f) -> icache f !! ip = Some i -> inode_ok f i ->
  0 <= off -> off + Z.of_nat (length src) <= MAXFILE * BSIZE ->
  let k := blocks_of off (Z.of_nat (length src)) in
  (k <= fuel)%nat -> (footprint f i + k <= FSCAP)%nat -> (ind_need i + k <= nfree f)%nat ->
  exists f' i' X n, writei_loop fuel ip src off f = Ok f' /\ wrote f ip i f' i' off src X n /\ (size X <= k)%nat /\ (n <= k)%nat
    /\ ((forall p, 0 <= p < MAXFILE * BSIZE -> off <= p < off + Z.of_nat (length src) -> blk f i (p / BSIZE) <> 0) -> i' = i).
Proof.
  induction fuel as [|fuel IH]; intros f ip i src off Hw Ho Hip Hi Hoff Hmax k Hk Hfp Hnf; unfold k in *; clear k.
  - destruct src as [|b src]; cbn [writei_loop].
    + exists f, i, ∅, 0%nat. split; [done|]. split; [by apply wrote_nil|]. split; [by rewrite size_empty; lia|]. split; [lia|done].
    + destruct (blocks_of_step off (Z.of_nat (length (b :: src))) Hoff) as [_ Hb]; [cbn; lia|]. lia.
  - destruct src as [|b0 src0] eqn:Es; cbn [writei_loop].
    { exists f, i, ∅, 0%nat. split; [done|]. split; [by apply wrote_nil|]. split; [by rewrite size_empty; lia|]. split; [lia|done]. }
    rewrite <- Es in *. assert (0 < Z.of_nat (length src)) as Hpos by (rewrite Es; cbn; lia). clear Es.
    destruct (blocks_of_step off (Z.of_nat (length src)) Hoff Hpos) as [Hm Hbl].
    set (m := Z.min (Z.of_nat (length src)) (BSIZE - off mod BSIZE)) in *. rewrite Hbl in Hk, Hfp, Hnf |- *.
    rewrite (the_inode_eq f ip i Hip). cbn [obind]. rewrite (io_dev _ _ Hi).
    assert (Z.of_nat (length (take (Z.to_nat m) src)) = m) as Hlt by (rewrite length_take; lia).
    destruct (write_block f ip i off (take (Z.to_nat m) src)) as (a & f1 & bp & f2 & f3 & f4 & i4 & n4 & E1 & E2 & E3 & E4 & E5 & W & Hn4 & Hs4);
      try done; try lia.
    rewrite E1. cbn [obind]. rewrite E2. cbn [obind]. rewrite E3. cbn [obind]. rewrite E4. cbn [obind]. rewrite E5. cbn [obind].
    pose proof (wt_grows _ _ _ _ _ _ _ _ _ W) as G. pose proof (grows_footprint _ _ _ _ _ _ G) as Hg. rewrite size_singleton in Hg.
    pose proof (gr_nfree _ _ _ _ _ _ G) as Hgn.
    assert (Z.of_nat (length (drop (Z.to_nat m) src)) = Z.of_nat (length src) - m) as Hld by (rewrite length_drop; lia).
    destruct (IH f4 ip i4 (drop (Z.to_nat m) src) (off + m)) as (f' & i' & X & n & E & W' & HX & Hn & Hs);
      try (rewrite Hld); try lia.
    { apply W. } { by apply G. }
    { rewrite (wt_icache _ _ _ _ _ _ _ _ _ W). apply list_lookup_insert_eq. by eapply lookup_lt_Some. } { apply W. }
    exists f', i', ({[a]} ∪ X), (n4 + n)%nat. split; [done|]. split.
    + rewrite <- (take_drop (Z.to_nat m) src). eapply fwrote_trans; [exact W| |done|lia]. by rewrite Hlt.
    + rewrite Hld in *. split; [pose proof (size_add a X); lia|]. split; [lia|]. intros Hall.
      assert (i4 = i) as ->.
      { apply Hs4. apply Hall; lia. }
      apply Hs. intros p Hp Hr. rewrite (gr_blk _ _ _ _ _ _ G); [apply Hall; lia|by apply page_range|apply Hall; lia].
Qed.

(** * Writing the inode back *)

Definition inum_ok f i : Prop := 0 <= i_inum i < sb_ninodes (sb f).

Lemma IBLOCK_range f n : geometry f -> 0 <= n < sb_ninodes (sb f) ->
  IBLOCK n f = sb_inodestart (sb f) + n / IPB /\ sb_inodestart (sb f) <= IBLOCK n f < sb_bmapstart (sb f).
Proof.
  intros [G1 G2 G3 _] Hn. unfold IBLOCK, IPB, BPB in *. pose proof (Z.div_pos n 8). pose proof (Z.div_le_mono n (sb_ninodes (sb f)) 8).
  pose proof (Z.div_pos (sb_size (sb f)) 4096). rewrite u32_id by (unfold is_u32; lia). lia.
Qed.

Lemma IBLOCK_home f n : geometry f -> 0 <= n < sb_ninodes (sb f) -> home f (IBLOCK n f).
Proof.
  intros HG Hn. destruct (IBLOCK_range f n HG Hn) as [_ Hr]. apply (ge_home _ HG). destruct HG as [G1 G2 G3 _].
  unfold BPB in *. pose proof (Z.div_pos (sb_size (sb f)) 4096). lia.
Qed.

Lemma bmapstart_data f : geometry f -> sb_bmapstart (sb f) < datastart f.
Proof. intros [G1 _ _ _]. unfold datastart, BPB. pose proof (Z.div_pos (sb_size (sb f)) 4096). lia. Qed.

Lemma iupdate_spec f ip i :
  fs_wf f [] -> b_open (blocks f) -> icache f !! ip = Some i -> i_dev i = ROOTDEV -> inum_ok f i ->
  (size ({[IBLOCK (i_inum i) f]} ∪ L f) <= FSCAP)%nat ->
  exists f', iupdate ip f = Ok f' /\ ok f' [] /\ icache f' = icache f
    /\ effect f f' {[IBLOCK (i_inum i) f := put_dinode (V f (IBLOCK (i_inum i) f)) (dinode_at (i_inum i)) i]}.
Proof.
  intros Hw Ho Hip Hd Hn Hs. unfold iupdate. rewrite (the_inode_eq f ip i Hip). cbn [obind]. rewrite Hd.
  destruct (rmw_spec (fun d => put_dinode d (dinode_at (i_inum i)) i) f [] (IBLOCK (i_inum i) f)) as (f' & E & Hok & F & I);
    [apply Hw|apply IBLOCK_home; [apply Hw|done]|apply not_elem_of_nil|cbn; lia|done|done|].
  exists f'. done.
Qed.

(** A change of an inode block keeps every file. *)
Lemma inode_block_keeps f f' W n :
  fs_wf f [] -> effect f f' {[IBLOCK n f := W]} -> 0 <= n < sb_ninodes (sb f) -> ok f' [] ->
  fs_wf f' [] /\ (forall c, 0 <= c < sb_size (sb f) -> used f' c = used f c)
  /\ (forall c, datastart f <= c -> V f' c = V f c) /\ (forall j, inode_ok f j -> inode_ok f' j)
  /\ (forall j bn, inode_ok f j -> blk f' j bn = blk f j bn).
Proof.
  intros Hw E Hn Hok. pose proof (fw_geo _ _ Hw) as HG. destruct (IBLOCK_range f n HG Hn) as [_ Hr]. pose proof (bmapstart_data f HG).
  assert (forall c, 0 <= c < sb_size (sb f) -> used f' c = used f c) as Hu.
  { intros c Hc. apply (used_same _ _ _ _ E). destruct (BBLOCK_range f c HG Hc) as [_ Hb%bitmap_range]; [|done].
    rewrite lookup_singleton_ne; [done|lia]. }
  assert (forall c, datastart f <= c -> V f' c = V f c) as Hv.
  { intros c Hc. apply (ef_same _ _ _ _ E). rewrite lookup_singleton_ne; [done|lia]. }
  pose proof (ef_sb _ _ _ E) as Hsb. pose proof (datastart_effect _ _ _ E) as Hds. pose proof (datastart_le f HG).
  assert (forall j bn, inode_ok f j -> blk f' j bn = blk f j bn) as HB.
  { intros j bn Hj. apply blk_view. intros Hz. apply Hv. by destruct (owns_data f j _ HG Hj (owns_ind f j Hz)) as (_ & _ & ?). }
  split; [|split; [done|split; [done|split; [|done]]]].
  - destruct Hw as [_ _ W3 _]. split; [done|by eapply geometry_effect| |intros c Hc; by apply not_elem_of_nil in Hc].
    intros b. rewrite Hds. intros Hb. rewrite Hu by lia. by apply W3.
  - intros j Hj. assert (forall bn, blk f' j bn = blk f j bn) as HBj by (intros; by apply HB).
    pose proof Hj as [A1 A2 A3 A4 A5 A6 A7]. split; try done.
    + intros b Hb. rewrite Hds, Hsb. assert (owns f j b) as Hb'.
      { destruct Hb as [Hz [->|(bn & Hbn & <-)]]; split; try done; [by left|right]. exists bn. by rewrite HBj. }
      destruct (owns_data f j b HG Hj Hb') as (? & ? & ?). rewrite Hu by lia. split; [lia|done].
    + intros bn bn'. rewrite !HBj. apply A4.
    + intros bn. rewrite HBj. apply A5.
    + intros bn. rewrite HBj. apply A7.
Qed.

End Data.
