(* ===== verification/FsInode.v ===== *)
(** The disk format of an inode, and the inode cache. *)
From S2P Require Import Prelude Mem KString Spinlock Bio Log Fs FsBlocks FsTheory FsFile FsData.

(** * Encoding and decoding *)

Lemma ld8_st16_ne m a b v : (b < a \/ a + 2 <= b) -> ld8 (st16 m a v) b = ld8 m b.
Proof. intros. unfold st16. rewrite !ld8_st8_ne by lia. done. Qed.

Lemma ld16_ext m m' a : ld8 m a = ld8 m' a -> ld8 m (a + 1) = ld8 m' (a + 1) -> ld16 m a = ld16 m' a.
Proof. unfold ld16. by intros -> ->. Qed.

Lemma s16_u16 x : -32768 <= x < 32768 -> s16 (u16 x) = x.
Proof. intros. zlia. Qed.

Lemma ld8_put_words ws : forall d a k, (k < a \/ a + 4 * Z.of_nat (length ws) <= k) -> ld8 (put_words d a ws) k = ld8 d k.
Proof.
  induction ws as [|w ws IH]; intros d a k Hk; cbn [put_words]; [done|]. cbn [length] in Hk.
  rewrite IH by lia. apply ld8_st32_ne. lia.
Qed.

Lemma get_put_words ws : forall d a, Forall is_u32 ws -> get_words (put_words d a ws) a (length ws) = ws.
Proof.
  induction ws as [|w ws IH]; intros d a Hw; cbn [put_words get_words length]; [done|].
  apply Forall_cons in Hw as [Hw Hws]. f_equal; [|by apply IH].
  rewrite (ld32_ext _ (st32 d a w) a a) by (intros; apply ld8_put_words; lia). rewrite ld32_st32_eq. by apply u32_id.
Qed.

Lemma get_words_ext n : forall d d' a, (forall k, a <= k < a + 4 * Z.of_nat n -> ld8 d k = ld8 d' k) -> get_words d a n = get_words d' a n.
Proof.
  induction n as [|n IH]; intros d d' a Hk; cbn [get_words]; [done|]. f_equal.
  - apply ld32_ext. intros i Hi. apply Hk. lia.
  - apply IH. intros k Hr. apply Hk. lia.
Qed.

(** The in-memory fields fit their disk widths. *)
Record fits (i : inode) : Prop := {
  ft_type : -32768 <= i_type i < 32768;
  ft_major : -32768 <= i_major i < 32768;
  ft_minor : -32768 <= i_minor i < 32768;
  ft_nlink : -32768 <= i_nlink i < 32768;
  ft_size : is_u32 (i_size i);
  ft_addrs : length (i_addrs i) = 13%nat /\ Forall is_u32 (i_addrs i)
}.

(** The fields that live on disk. *)
Definition disk_fields (i : inode) : Z * Z * Z * Z * Z * list Z :=
  (i_type i, i_major i, i_minor i, i_nlink i, i_size i, i_addrs i).

Lemma ld16_st16_ne m a b v : (b + 2 <= a \/ a + 2 <= b) -> ld16 (st16 m a v) b = ld16 m b.
Proof. intros. apply ld16_ext; apply ld8_st16_ne; lia. Qed.

Lemma ld16_st32_ne m a b v : (b + 2 <= a \/ a + 4 <= b) -> ld16 (st32 m a v) b = ld16 m b.
Proof. intros. apply ld16_ext; apply ld8_st32_ne; lia. Qed.

Lemma ld16_put_words m a b ws : (b + 2 <= a \/ a + 4 * Z.of_nat (length ws) <= b) -> ld16 (put_words m a ws) b = ld16 m b.
Proof. intros. apply ld16_ext; apply ld8_put_words; lia. Qed.

Lemma ld32_put_words m a b ws : (b + 4 <= a \/ a + 4 * Z.of_nat (length ws) <= b) -> ld32 (put_words m a ws) b = ld32 m b.
Proof. intros. apply ld32_ext. intros i Hi. apply ld8_put_words. lia. Qed.

(** Decoding what was encoded gives the fields back. *)
Lemma get_put_dinode d a i j : fits i -> disk_fields (get_dinode (put_dinode d a i) a j) = disk_fields i.
Proof.
  intros [F1 F2 F3 F4 F5 [F6 F7]]. unfold disk_fields, get_dinode, put_dinode. cbn [i_type i_major i_minor i_nlink i_size i_addrs].
  rewrite !ld16_put_words by lia. rewrite !ld16_st32_ne by lia.
  rewrite (ld16_st16_eq _ (a + 6)). rewrite !(ld16_st16_ne _ (a + 6)) by lia.
  rewrite (ld16_st16_eq _ (a + 4)). rewrite !(ld16_st16_ne _ (a + 4)) by lia.
  rewrite (ld16_st16_eq _ (a + 2)). rewrite !(ld16_st16_ne _ (a + 2)) by lia. rewrite ld16_st16_eq.
  rewrite ld32_put_words by lia. rewrite ld32_st32_eq. rewrite !s16_u16, u32_id by done.
  rewrite <- F6. by rewrite get_put_words.
Qed.

Lemma ld8_put_dinode d a i k : length (i_addrs i) = 13%nat -> (k < a \/ a + 64 <= k) -> ld8 (put_dinode d a i) k = ld8 d k.
Proof.
  intros Hl Hk. unfold put_dinode. rewrite ld8_put_words by lia. rewrite ld8_st32_ne by lia. by rewrite !ld8_st16_ne by lia.
Qed.

Lemma get_dinode_ext d d' a j : (forall k, a <= k < a + 64 -> ld8 d k = ld8 d' k) -> get_dinode d a j = get_dinode d' a j.
Proof.
  intros Hk. unfold get_dinode. rewrite (get_words_ext 13 d d') by (intros; apply Hk; lia).
  rewrite !(ld16_ext d d') by (apply Hk; lia). by rewrite (ld32_ext d d' (a + 8) (a + 8)) by (intros; apply Hk; lia).
Qed.

(** Encoding one inode keeps the others of the block. *)
Lemma get_put_dinode_ne d i j n : length (i_addrs i) = 13%nat -> i_inum i mod IPB <> n mod IPB ->
  get_dinode (put_dinode d (dinode_at (i_inum i)) i) (dinode_at n) j = get_dinode d (dinode_at n) j.
Proof. intros Hl Hn. apply get_dinode_ext. intros k Hk. apply ld8_put_dinode; [done|]. unfold dinode_at in *. lia. Qed.
