(* ===== verification/FsWrite.v ===== *)
(** Total correctness of [writei] and [readi] on a file, and isolation of the
    other files. *)
From S2P Require Import Prelude Mem KString Spinlock Bio Log Fs FsBlocks FsTheory FsFile FsData FsInode.

Section Write.
Context {S : Type} `{BlockLaws S}.
Implicit Types f : fs S.
Implicit Types i : inode.

Abbreviation ok f := (b_ok (blocks f)).
Abbreviation V f := (b_view (blocks f)).
Abbreviation L f := (b_logged (blocks f)).

(** The disk copy of the inode agrees with the one in memory. *)
Definition synced f i : Prop :=
  disk_fields (get_dinode (V f (IBLOCK (i_inum i) f)) (dinode_at (i_inum i)) i) = disk_fields i.

(** The state in which fs.c works on the locked inode [i] at [ip]. *)
Record open_file f ip i : Prop := {
  of_wf : fs_wf f [];
  of_slot : icache f !! ip = Some i;
  of_ok : inode_ok f i;
  of_inum : inum_ok f i;
  of_type : i_type i <> T_DEV;
  of_fits : fits i
}.

(** What a write to file [i] leaves alone. *)
Record file_frame f i f' i' : Prop := {
  ff_new b : owns f' i' b -> owns f i b \/ (0 <= b < sb_size (sb f) /\ used f b = false);
  ff_used c : 0 <= c < sb_size (sb f) -> used f c = true -> used f' c = true;
  ff_view c : c ∉ bitmap_blocks f -> ~ owns f' i' c -> c <> IBLOCK (i_inum i) f -> V f' c = V f c;
  ff_inode n : i_inum i mod IPB <> n mod IPB \/ IBLOCK n f <> IBLOCK (i_inum i) f -> 0 <= n < sb_ninodes (sb f) ->
    forall j, get_dinode (V f' (IBLOCK n f)) (dinode_at n) j = get_dinode (V f (IBLOCK n f)) (dinode_at n) j;
  ff_sb : sb f' = sb f;
  ff_open : b_open (blocks f') <-> b_open (blocks f)
}.

(** The file after [src] was written at [off]. *)
Record written f ip i f' i' (off : Z) (src : list Z) : Prop := {
  wn_file : open_file f' ip i';
  wn_icache : icache f' = <[ip := i']> (icache f);
  wn_meta : i' = i_with_size (i_size i') (i_with_addrs (i_addrs i') i);
  wn_size : i_size i' = if decide (src = []) then i_size i else Z.max (i_size i) (off + Z.of_nat (length src));
  wn_byte p : 0 <= p < i_size i' ->
    byte f' i' p = if decide (off <= p < off + Z.of_nat (length src)) then u8 (default 0 (src !! Z.to_nat (p - off))) else byte f i p;
  wn_frame : file_frame f i f' i';
  wn_synced : synced f i -> synced f' i';
  wn_logged : (size (L f') <= footprint f i + blocks_of off (Z.of_nat (length src)) + 1)%nat
}.

Lemma fbyte_byte f i p : inode_ok f i -> 0 <= p < i_size i -> fbyte f i p = byte f i p.
Proof.
  intros Hi Hp. unfold fbyte. destruct (Z.eqb_spec (blk f i (p / BSIZE)) 0) as [Hz|]; [|done].
  exfalso. revert Hz. apply Hi; unfold BSIZE; zlia.
Qed.

(** Growing keeps the inode blocks. *)
Lemma grows_inode_block f i f' i' X n k :
  geometry f -> geometry f' -> inode_ok f' i' -> grows f i f' i' X n -> 0 <= k < sb_ninodes (sb f) -> V f' (IBLOCK k f) = V f (IBLOCK k f).
Proof.
  intros HG HG' Hi' G Hk. destruct (IBLOCK_range f k HG Hk) as [_ Hr]. apply (gr_view _ _ _ _ _ _ G).
  - intros Hb%bitmap_range; [lia|done].
  - intros Ho. destruct (owns_data f' i' _ HG' Hi' Ho) as (_ & _ & Hd).
    assert (datastart f' = datastart f) as Hds by (unfold datastart; by rewrite (gr_sb _ _ _ _ _ _ G)).
    pose proof (bmapstart_data f HG). lia.
Qed.

(** An inode whose size grew into blocks it has. *)
Lemma inode_ok_size f i z :
  inode_ok f i -> 0 <= z <= MAXFILE * BSIZE -> (forall bn, 0 <= bn -> bn * BSIZE < z -> blk f i bn <> 0) ->
  inode_ok f (i_with_size z i).
Proof. intros [A1 A2 A3 A4 A5 A6 A7] Hz Hf. by split. Qed.

Lemma addrs_fit f i : geometry f -> inode_ok f i -> Forall is_u32 (i_addrs i).
Proof.
  intros HG Hi. pose proof (io_len _ _ Hi) as Hl. apply Forall_lookup. intros k a Hk.
  assert (k < 13)%nat as Hlt by (rewrite <- Hl; by eapply lookup_lt_Some).
  assert (addr i (Z.of_nat k) = a) as Ha by (unfold addr; rewrite Nat2Z.id, Hk; done).
  destruct (decide (a = 0)) as [->|Hz]; [unfold is_u32; lia|].
  assert (owns f i a) as Ho.
  { split; [done|]. destruct (decide (k = 12)%nat) as [->|Hne]; [left; symmetry; exact Ha|].
    right. exists (Z.of_nat k). split; [unfold MAXFILE, NDIRECT, NINDIRECT; lia|]. unfold blk.
    destruct (Z.ltb_spec (Z.of_nat k) NDIRECT); [done|unfold NDIRECT in *; lia]. }
  destruct (owns_data f i a HG Hi Ho) as (? & _ & _). pose proof (ge_size _ HG). unfold is_u32. lia.
Qed.

(** The file after the loop of [writei], before the size is set. *)
Lemma wrote_file f ip i f' i' off src X n :
  open_file f ip i -> wrote f ip i f' i' off src X n -> open_file f' ip i'.
Proof.
  intros [A1 A2 A3 A4 A5 A6] [W1 W2 W3 W4 W5 W6]. pose proof (gr_meta _ _ _ _ _ _ W4) as Hm. split; try done.
  - rewrite W2. apply list_lookup_insert_eq. by eapply lookup_lt_Some.
  - unfold inum_ok in *. rewrite (gr_sb _ _ _ _ _ _ W4), Hm. exact A4.
  - rewrite Hm. exact A5.
  - destruct A6 as [F1 F2 F3 F4 F5 F6]. split; [by rewrite Hm..|]. split; [apply W3|].
    eapply addrs_fit; [apply W1|done].
Qed.

Lemma grows_frame f i f' i' X n :
  geometry f -> geometry f' -> inode_ok f' i' -> grows f i f' i' X n -> file_frame f i f' i'.
Proof.
  intros HG HG' Hi' G. split; try apply G.
  - intros c Hc Ho _. by apply G.
  - intros k _ Hk j. by rewrite (grows_inode_block f i f' i' X n k).
Qed.

Lemma synced_same f i f' i' X n :
  geometry f -> geometry f' -> inode_ok f' i' -> inum_ok f i -> grows f i f' i' X n -> i' = i -> synced f i -> synced f' i'.
Proof.
  intros HG HG' Hi' Hn G -> Hs. unfold synced in *. assert (IBLOCK (i_inum i) f' = IBLOCK (i_inum i) f) as ->.
  { unfold IBLOCK. by rewrite (gr_sb _ _ _ _ _ _ G). }
  by rewrite (grows_inode_block f i f' i X n).
Qed.

(** The end of [writei]: the larger size is stored and the inode written
    back. *)
Lemma writei_update f ip i z :
  open_file f ip i -> b_open (blocks f) -> 0 <= z <= MAXFILE * BSIZE -> (forall bn, 0 <= bn -> bn * BSIZE < z -> blk f i bn <> 0) ->
  (size (L f) < FSCAP)%nat ->
  let i' := i_with_size z i in
  exists f', iupdate ip (upd_inode ip (i_with_size z) f) = Ok f' /\ open_file f' ip i' /\ icache f' = <[ip := i']> (icache f)
    /\ (forall bn, blk f' i' bn = blk f i bn) /\ (forall c, datastart f <= c -> V f' c = V f c) /\ file_frame f i f' i' /\ synced f' i'
    /\ L f' = {[IBLOCK (i_inum i) f]} ∪ L f.
Proof.
  intros [A1 A2 A3 A4 A5 A6] Ho Hz Hfull Hs i'. pose proof (fw_geo _ _ A1) as HG.
  set (f0 := upd_inode ip (i_with_size z) f).
  assert (icache f0 = <[ip := i']> (icache f)) as HI0.
  { unfold f0, upd_inode. cbn [icache set_icache]. by rewrite (alter_lookup _ _ i). }
  assert (icache f0 !! ip = Some i') as Hi0 by (rewrite HI0; apply list_lookup_insert_eq; by eapply lookup_lt_Some).
  assert (effect f f0 ∅) as E0 by (apply effect_icache, effect_refl).
  assert (fs_wf f0 []) as Hw0 by (eapply fs_wf_effect0; [done|done|apply A1]).
  assert (inode_ok f0 i') as Hok0 by (eapply inode_ok_effect0; [done|]; by apply inode_ok_size).
  assert (fits i') as Hfit'.
  { destruct A6 as [F1 F2 F3 F4 F5 F6]. split; try done. unfold is_u32, MAXFILE, NDIRECT, NINDIRECT, BSIZE in *. cbn. lia. }
  destruct (iupdate_spec f0 ip i' Hw0 Ho Hi0 (io_dev _ _ A3) A4) as (f' & E & Hok' & I' & F).
  { pose proof (size_add (IBLOCK (i_inum i') f0) (L f0)). change (L f0) with (L f) in *. lia. }
  destruct (inode_block_keeps f0 f' _ (i_inum i') Hw0 F A4 Hok') as (Hw' & Hu & Hv & Hkeep & HB).
  destruct (IBLOCK_range f (i_inum i) HG A4) as [_ Hr]. pose proof (bmapstart_data f HG) as Hbd.
  exists f'. split; [done|]. split.
  { split; try done; [by rewrite I'|by apply Hkeep|]. unfold inum_ok. rewrite (ef_sb _ _ _ F). exact A4. }
  split; [congruence|]. split; [intros bn; by rewrite HB|]. split; [done|].
  assert (forall b, owns f' i' b <-> owns f i b) as HO.
  { intros b. unfold owns. assert (forall bn, blk f' i' bn = blk f i bn) as HB' by (intros bn; by rewrite HB). by setoid_rewrite HB'. }
  split; [split|].
  - intros b Hb%HO. by left.
  - intros c Hc Huc. by rewrite Hu.
  - intros c _ _ Hc. apply (ef_same _ _ _ _ F). by rewrite lookup_singleton_ne.
  - intros k Hk Hkr j. rewrite (ef_view _ _ _ F). change (IBLOCK (i_inum i') f0) with (IBLOCK (i_inum i) f).
    destruct (decide (IBLOCK k f = IBLOCK (i_inum i) f)) as [Ek|Ek].
    + rewrite Ek, lookup_singleton_eq. cbn [from_option id]. apply (get_put_dinode_ne _ i'); [apply Hfit'|]. cbn. tauto.
    + by rewrite lookup_singleton_ne.
  - apply F.
  - apply F.
  - split.
    + unfold synced. assert (IBLOCK (i_inum i') f' = IBLOCK (i_inum i') f0) as -> by (unfold IBLOCK; by rewrite (ef_sb _ _ _ F)).
      rewrite (ef_view _ _ _ F), lookup_singleton_eq. cbn [from_option id]. by apply get_put_dinode.
    + rewrite (ef_logged _ _ _ F), dom_singleton_L. done.
Qed.

Lemma frame_trans f i f1 i1 f2 i2 :
  geometry f -> inode_ok f i -> i_inum i1 = i_inum i -> bitmap_blocks f1 = bitmap_blocks f -> IBLOCK (i_inum i) f1 = IBLOCK (i_inum i) f ->
  (forall k, IBLOCK k f1 = IBLOCK k f) ->
  (forall b, owns f1 i1 b -> owns f2 i2 b) -> file_frame f i f1 i1 -> file_frame f1 i1 f2 i2 -> file_frame f i f2 i2.
Proof.
  intros HG Hi En Eb Ei Ek Hown A B. pose proof (ff_sb _ _ _ _ A) as Hsb. split.
  - intros b [Hb|[Hr Hb]]%(ff_new _ _ _ _ B); [by apply A|]. right. rewrite Hsb in Hr. split; [done|].
    destruct (used f b) eqn:E; [|done]. by rewrite (ff_used _ _ _ _ A) in Hb.
  - intros c Hc Hu. apply B; [by rewrite Hsb|]. by apply A.
  - intros c Hc Ho Hn. rewrite (ff_view _ _ _ _ B), (ff_view _ _ _ _ A); try done.
    + intros Ho1. by apply Ho, Hown.
    + by rewrite Eb.
    + rewrite En, Ei. done.
  - intros k Hk Hr j. rewrite <- (ff_inode _ _ _ _ A k Hk Hr j). rewrite <- (Ek k). apply B.
    + by rewrite En, !Ek.
    + by rewrite Hsb.
  - rewrite (ff_sb _ _ _ _ B). done.
  - by rewrite (ff_open _ _ _ _ B), (ff_open _ _ _ _ A).
Qed.

(** [writei] within the bounds of a file: all the bytes are written. *)
Lemma writei_spec (dev_write : Z -> option (nat -> list Z -> fs S -> outcome (Z * fs S))) f ip i off src :
  open_file f ip i -> b_open (blocks f) -> 0 <= off <= i_size i -> off + Z.of_nat (length src) <= MAXFILE * BSIZE ->
  let k := blocks_of off (Z.of_nat (length src)) in
  (footprint f i + k < FSCAP)%nat -> (ind_need i + k <= nfree f)%nat ->
  exists f' i', writei dev_write ip src off f = Ok (Z.of_nat (length src), f') /\ written f ip i f' i' off src.
Proof.
  intros Hof Ho Hoff Hmax k Hfp Hnf. pose proof Hof as [A1 A2 A3 A4 A5 A6]. pose proof (fw_geo _ _ A1) as HG.
  set (n := Z.of_nat (length src)) in *.
  assert (MAXFILE * BSIZE = 71680) as HM by done.
  unfold writei. fold n. rewrite (the_inode_eq f ip i A2). cbn [obind]. destruct (Z.eqb_spec (i_type i) T_DEV); [done|].
  rewrite (u32_id (off + n)) by (unfold is_u32; lia).
  destruct (Z.ltb_spec (i_size i) off); [lia|]. destruct (Z.ltb_spec (off + n) off); [lia|]. cbn [orb].
  destruct (Z.ltb_spec (MAXFILE * BSIZE) (off + n)); [lia|].
  destruct (writei_loop_spec (Z.to_nat (n / BSIZE + 2)) f ip i src off) as (f1 & i1 & X & m & -> & W & HX & Hm & Hsame); try done; try lia.
  { fold n. unfold blocks_of, BSIZE. destruct (Z.leb_spec n 0); zlia. }
  { fold n. unfold k in *. lia. }
  fold n in HX, Hm, Hsame. cbn [obind].
  pose proof (wrote_file _ _ _ _ _ _ _ _ _ Hof W) as Hof1. destruct W as [W1 W2 W3 W4 W5 W6]. fold n in W5, W6.
  pose proof (gr_meta _ _ _ _ _ _ W4) as Hmeta. pose proof (fw_geo _ _ W1) as HG1.
  assert (i_size i1 = i_size i) as Hsz1 by (by rewrite Hmeta).
  pose proof (io_size _ _ A3) as Hszr.
  rewrite (the_inode_eq f1 ip i1 (of_slot _ _ _ Hof1)). cbn [obind]. rewrite Hsz1.
  pose proof (grows_frame _ _ _ _ _ _ HG HG1 W3 W4) as Hfr1.
  pose proof (grows_footprint _ _ _ _ _ _ W4) as Hfp1.
  assert (size (L f1) <= footprint f1 i1)%nat as HL1.
  { unfold footprint. pose proof (subseteq_size (L f1) (bitmap_blocks f1 ∪ L f1 ∪ ind_set i1) ltac:(set_solver)). lia. }
  destruct ((0 <? n) && (i_size i <? off + n)) eqn:Eg.
  - apply andb_true_iff in Eg as [Hn%Z.ltb_lt Hgt%Z.ltb_lt].
    assert (src <> []) as Hne by (intros ->; cbn in n; lia).
    assert (forall bn, 0 <= bn -> bn * BSIZE < off + n -> blk f1 i1 bn <> 0) as Hfull.
    { intros bn Hbn Hb. destruct (decide (bn * BSIZE < i_size i)); [apply W3; [done|by rewrite Hsz1]|].
      replace bn with (bn * BSIZE / BSIZE) by (apply Z.div_mul; done). apply W6; lia. }
    destruct (writei_update f1 ip i1 (off + n) Hof1) as (f' & -> & Hof' & I' & HB & Hv & Hfr & Hsy & HL); try done; try lia.
    { by apply W4. }
    cbn [obind]. set (i' := i_with_size (off + n) i1) in *. exists f', i'. split; [done|]. split.
    + done.
    + by rewrite I', W2, list_insert_insert_eq.
    + unfold i'. by rewrite Hmeta.
    + rewrite decide_False by done. unfold i'. cbn. fold n. lia.
    + intros p Hp. change (i_size i') with (off + n) in Hp. fold n.
      assert (byte f' i' p = fbyte f1 i1 p) as ->.
      { unfold fbyte, byte. rewrite HB. destruct (Z.eqb_spec (blk f1 i1 (p / BSIZE)) 0) as [Hz|Hz].
        - exfalso. revert Hz. apply Hfull; unfold BSIZE; zlia.
        - rewrite Hv; [done|]. assert (owns f1 i1 (blk f1 i1 (p / BSIZE))) as Hb by (apply owns_blk; [apply page_range; lia|done]).
          by destruct (owns_data f1 i1 _ HG1 W3 Hb) as (_ & _ & ?). }
      rewrite W5 by lia. case_decide; [done|]. apply fbyte_byte; [done|lia].
    + eapply (frame_trans f i f1 i1); try done.
      * by rewrite Hmeta.
      * unfold bitmap_blocks. by rewrite (gr_sb _ _ _ _ _ _ W4).
      * unfold IBLOCK. by rewrite (gr_sb _ _ _ _ _ _ W4).
      * intros q. unfold IBLOCK. by rewrite (gr_sb _ _ _ _ _ _ W4).
      * intros b. unfold owns. by setoid_rewrite HB.
    + intros _. exact Hsy.
    + fold n. rewrite HL. pose proof (size_add (IBLOCK (i_inum i1) f1) (L f1)). unfold k in *. lia.
  - assert (src = [] \/ off + n <= i_size i) as Hcase.
    { destruct src; [by left|right]. apply andb_false_iff in Eg as [Hn%Z.ltb_ge|Hn%Z.ltb_ge]; [cbn in n; lia|lia]. }
    assert (i1 = i) as E1.
    { apply Hsame. intros p Hp Hr. destruct Hcase as [->|Hle]; [cbn in n; lia|]. apply A3; unfold BSIZE; zlia. }
    exists f1, i1. split; [done|]. split; try done.
    + rewrite E1. by destruct i.
    + rewrite Hsz1. case_decide; [done|]. destruct Hcase; [done|]. fold n. lia.
    + intros p Hp. rewrite Hsz1 in Hp. rewrite <- (fbyte_byte f1 i1) by (done || by rewrite Hsz1).
      rewrite W5 by lia. fold n. case_decide; [done|]. by apply fbyte_byte.
    + by eapply synced_same.
    + fold n. unfold k in *. lia.
Qed.

End Write.
