(* ===== verification/FsProps.v ===== *)
(** The properties of block allocation and file contents. *)
From S2P Require Import Prelude Mem KString Spinlock Bio BioTheory Log LogTheory LogProps Fs FsBlocks FsTheory FsFile FsData FsInode FsWrite.

Section Props.
Context {S : Type} `{BlockLaws S}.
Implicit Types f : fs S.
Implicit Types dev_read : Z -> option (nat -> Z -> fs S -> outcome (option (list Z) * fs S)).
Implicit Types dev_write : Z -> option (nat -> list Z -> fs S -> outcome (Z * fs S)).

Abbreviation V f := (b_view (blocks f)).
Abbreviation L f := (b_logged (blocks f)).

(** * Other files *)

Lemma other_keeps f ip i f' i' off src j :
  open_file f ip i -> written f ip i f' i' off src -> inode_ok f j -> (forall b, owns f i b -> ~ owns f j b) ->
  forall b, owns f j b -> V f' b = V f b /\ ~ owns f' i' b.
Proof.
  intros Hof Hw Hj Hd b Hb. pose proof (of_wf _ _ _ Hof) as Hwf. pose proof (fw_geo _ _ Hwf) as HG.
  destruct (owns_data f j b HG Hj Hb) as (Hr & Hu & Hds). pose proof (wn_frame _ _ _ _ _ _ _ Hw) as F.
  assert (~ owns f' i' b) as Hno.
  { intros [Ho|[_ Ho]]%(ff_new _ _ _ _ F); [by eapply Hd|congruence]. }
  split; [|done]. apply (ff_view _ _ _ _ F); [|done|].
  - intros Hbm%bitmap_range; [lia|done].
  - destruct (IBLOCK_range f (i_inum i) HG (of_inum _ _ _ Hof)) as [_ ?]. pose proof (bmapstart_data f HG). lia.
Qed.

Lemma other_blk f ip i f' i' off src j bn :
  open_file f ip i -> written f ip i f' i' off src -> inode_ok f j -> (forall b, owns f i b -> ~ owns f j b) ->
  blk f' j bn = blk f j bn.
Proof.
  intros Hof Hw Hj Hd. apply blk_view. intros Hz. eapply other_keeps; try done. by apply owns_ind.
Qed.

Lemma inode_slot f n m : geometry f -> 0 <= n < sb_ninodes (sb f) -> 0 <= m < sb_ninodes (sb f) -> n <> m ->
  n mod IPB <> m mod IPB \/ IBLOCK m f <> IBLOCK n f.
Proof.
  intros HG Hn Hm Hne. destruct (IBLOCK_range f n HG Hn) as [-> _], (IBLOCK_range f m HG Hm) as [-> _]. unfold IPB. zlia.
Qed.

(** * Properties *)

(** C3.  Writing a file: [writei] of a range that starts inside the file and ends
    below the maximal size, with enough free blocks and enough room in the
    log, writes every byte.  The file then has the larger size, the new bytes
    in the range and its old bytes elsewhere; blocks that were missing,
    the indirect block included, have been allocated; and [readi] of the range
    returns what was written. *)
Theorem writei_readi dev_read dev_write f ip i off src :
  open_file f ip i -> b_open (blocks f) -> 0 <= off <= i_size i -> off + Z.of_nat (length src) <= MAXFILE * BSIZE ->
  Forall (fun b => 0 <= b < 256) src ->
  (footprint f i + blocks_of off (Z.of_nat (length src)) < FSCAP)%nat ->
  (ind_need i + blocks_of off (Z.of_nat (length src)) <= nfree f)%nat ->
  exists f' i' f'', writei dev_write ip src off f = Ok (Z.of_nat (length src), f')
    /\ icache f' = <[ip := i']> (icache f)
    /\ i_size i' = (if decide (src = []) then i_size i else Z.max (i_size i) (off + Z.of_nat (length src)))
    /\ (forall p, 0 <= p < i_size i' -> byte f' i' p =
          if decide (off <= p < off + Z.of_nat (length src)) then default 0 (src !! Z.to_nat (p - off)) else byte f i p)
    /\ readi dev_read ip off (Z.of_nat (length src)) f' = Ok (Some src, f'').
Proof.
  intros Hof Ho Hoff Hmax Hby Hfp Hnf. destruct (writei_spec dev_write f ip i off src Hof Ho Hoff Hmax Hfp Hnf) as (f' & i' & E & W).
  pose proof (wn_size _ _ _ _ _ _ _ W) as Hsz. destruct (wn_file _ _ _ _ _ _ _ W) as [B1 B2 B3 B4 B5 B6].
  assert (MAXFILE * BSIZE = 71680) as HM by done. pose proof (io_size _ _ B3).
  assert (forall k, u8 (default 0 (src !! k)) = default 0 (src !! k)) as Hu8.
  { intros k. apply u8_id. destruct (src !! k) eqn:Ek; cbn; [|lia]. by eapply (Forall_lookup_1 _ _ _ _ Hby). }
  assert (forall p, 0 <= p < i_size i' -> byte f' i' p =
    if decide (off <= p < off + Z.of_nat (length src)) then default 0 (src !! Z.to_nat (p - off)) else byte f i p) as Hbyte.
  { intros p Hp. rewrite (wn_byte _ _ _ _ _ _ _ W) by done. clear Hsz. case_decide; [apply Hu8|done]. }
  pose proof (readi_spec dev_read f' ip i' off (Z.of_nat (length src)) B1 B2 B3 B5 ltac:(lia) ltac:(lia) ltac:(lia)) as HR.
  assert (src = [] \/ off + Z.of_nat (length src) <= i_size i') as Hin.
  { revert Hsz. destruct (decide (src = [])); [by left|intros Hsz; right; lia]. }
  assert (i_size i <= i_size i') as Hgrow by (revert Hsz; destruct (decide (src = [])); lia).
  rewrite decide_False in HR by lia.
  destruct HR as (f'' & ER & _). exists f', i', f''. split; [done|]. split; [apply W|]. split; [done|]. split; [done|].
  rewrite ER. f_equal. f_equal. f_equal.
  assert (Z.to_nat (Z.min (Z.of_nat (length src)) (i_size i' - off)) = length src) as -> by (destruct Hin as [->|]; cbn; lia).
  apply list_eq. intros k. unfold file_bytes. rewrite list_lookup_fmap. destruct (decide (k < length src)%nat) as [Hk|Hk].
  - rewrite lookup_seq_lt by done. cbn [fmap option_fmap option_map]. destruct Hin as [->|Hin]; [cbn in Hk; lia|].
    rewrite Hbyte, decide_True by lia. replace (Z.to_nat (off + Z.of_nat (0 + k) - off)) with k by lia.
    destruct (lookup_lt_is_Some_2 src k Hk) as [x ->]. done.
  - rewrite lookup_seq_ge by lia. cbn. symmetry. apply lookup_ge_None. lia.
Qed.

(** C6.  Files are isolated: a write to one file changes no byte, no block address
    and no disk inode of any other file, and the two files still share no
    block afterwards. *)
Theorem writei_isolated dev_write f ip i off src j :
  open_file f ip i -> b_open (blocks f) -> 0 <= off <= i_size i -> off + Z.of_nat (length src) <= MAXFILE * BSIZE ->
  (footprint f i + blocks_of off (Z.of_nat (length src)) < FSCAP)%nat ->
  (ind_need i + blocks_of off (Z.of_nat (length src)) <= nfree f)%nat ->
  inode_ok f j -> inum_ok f j -> i_inum j <> i_inum i -> (forall b, owns f i b -> ~ owns f j b) ->
  exists f' i', writei dev_write ip src off f = Ok (Z.of_nat (length src), f') /\ icache f' = <[ip := i']> (icache f)
    /\ (forall bn, blk f' j bn = blk f j bn)
    /\ (forall p, 0 <= p < i_size j -> byte f' j p = byte f j p)
    /\ (forall b, owns f' i' b -> ~ owns f' j b)
    /\ get_dinode (V f' (IBLOCK (i_inum j) f')) (dinode_at (i_inum j)) j
       = get_dinode (V f (IBLOCK (i_inum j) f)) (dinode_at (i_inum j)) j.
Proof.
  intros Hof Ho Hoff Hmax Hfp Hnf Hj Hnj Hne Hd.
  destruct (writei_spec dev_write f ip i off src Hof Ho Hoff Hmax Hfp Hnf) as (f' & i' & E & W).
  assert (forall bn, blk f' j bn = blk f j bn) as HB by (intros bn; by eapply other_blk).
  assert (forall b, owns f' j b -> owns f j b) as HO by (intros b; unfold owns; by setoid_rewrite HB).
  pose proof (wn_frame _ _ _ _ _ _ _ W) as F.
  exists f', i'. split; [done|]. split; [apply W|]. split; [done|]. split; [|split].
  - intros p Hp. unfold byte. rewrite HB. f_equal. eapply other_keeps; try done. pose proof (io_size _ _ Hj).
    apply owns_blk; [apply page_range; lia|]. apply Hj; unfold BSIZE; zlia.
  - intros b Hb Hbj%HO. by eapply (other_keeps f ip i f' i' off src j).
  - assert (IBLOCK (i_inum j) f' = IBLOCK (i_inum j) f) as -> by (unfold IBLOCK; by rewrite (ff_sb _ _ _ _ F)).
    apply F; [|done]. apply inode_slot; try done; [apply (of_wf _ _ _ Hof)|apply Hof].
Qed.

(** The allocator: [balloc] returns the lowest free block, zeroed and now
    marked in the bitmap, with the marks of all other blocks and the contents
    of all blocks but this one and its bitmap block unchanged; when every
    block is in use it panics. *)
Theorem balloc_first_free f held :
  fs_wf f held -> b_open (blocks f) -> (length held < 3)%nat -> (size (bitmap_blocks f ∪ L f) < FSCAP)%nat ->
  if decide (nfree f = 0%nat) then balloc ROOTDEV f = Panic "balloc: out of blocks"
  else exists a f', balloc ROOTDEV f = Ok (a, f') /\ first_free f a /\ datastart f <= a
    /\ (forall c, 0 <= c < sb_size (sb f) -> used f' c = bool_decide (c = a) || used f c)
    /\ (forall k, 0 <= k < BSIZE -> ld8 (V f' a) k = 0)
    /\ (forall c, c <> a -> c <> BBLOCK a f -> V f' c = V f c)
    /\ nfree f = Datatypes.S (nfree f').
Proof.
  intros Hw Ho Hl Hs. destruct (balloc_spec f held Hw Ho Hl Hs) as [(a & f' & E & Hff & Hok & F & I)|[E Hall]].
  - pose proof (used_alloc f f' held a Hw Hff F) as Hu. pose proof Hff as (Ha & Hfa & _).
    pose proof (nfree_alloc f f' a (ef_sb _ _ _ F) Ha Hfa Hu) as Hn.
    rewrite decide_False by lia. exists a, f'. split; [done|]. split; [done|].
    split; [by destruct (first_free_data f held a Hw Hff)|]. split; [done|]. split; [intros k Hk; by eapply alloc_zero|].
    split; [|done]. intros c Hc Hcb. apply (ef_same _ _ _ _ F). unfold alloc_writes.
    rewrite lookup_union_r by (by rewrite lookup_singleton_ne). by rewrite lookup_singleton_ne.
  - rewrite decide_True by (by apply nfree_none). done.
Qed.

(** Freeing: [bfree] clears exactly the block's mark, so the block can be
    allocated again, and it panics on a block that is free already. *)
Theorem bfree_frees f held b :
  fs_wf f held -> b_open (blocks f) -> (length held < 3)%nat -> (size ({[BBLOCK b f]} ∪ L f) <= FSCAP)%nat -> 0 <= b < sb_size (sb f) ->
  if used f b then exists f', bfree ROOTDEV b f = Ok f'
    /\ (forall c, 0 <= c < sb_size (sb f) -> used f' c = negb (bool_decide (c = b)) && used f c)
    /\ (forall c, c <> BBLOCK b f -> V f' c = V f c) /\ nfree f' = Datatypes.S (nfree f)
  else bfree ROOTDEV b f = Panic "freeing free block".
Proof.
  intros Hw Ho Hl Hs Hb. pose proof (bfree_spec f held b Hw Ho Hl Hs Hb) as HH. destruct (used f b) eqn:Eu; [|done].
  destruct HH as (f' & E & Hok & F & I). pose proof (used_free f f' b (fw_geo _ _ Hw) Hb F) as Hu.
  exists f'. split; [done|]. split; [done|]. split.
  - intros c Hc. apply (ef_same _ _ _ _ F). unfold free_writes. by rewrite lookup_singleton_ne.
  - unfold nfree. rewrite (ef_sb _ _ _ F). apply (filter_remove_one _ _ b).
    + apply NoDup_seqZ.
    + apply elem_of_seqZ. lia.
    + rewrite Hu by done. by rewrite bool_decide_eq_true_2.
    + intros x Hx%elem_of_seqZ. rewrite Hu by lia. case_bool_decide; cbn; [subst; naive_solver congruence|naive_solver].
Qed.

(** A write of at most 1536 bytes, the chunk [filewrite] passes to [writei]
    in one transaction, logs at most MAXOPBLOCKS further blocks on a disk whose
    bitmap is one block: the reservation of [begin_op] is enough. *)
Theorem writei_within_reservation dev_write f ip i off src :
  open_file f ip i -> b_open (blocks f) -> 0 <= off <= i_size i -> off + Z.of_nat (length src) <= MAXFILE * BSIZE ->
  Z.of_nat (length src) <= 1536 -> sb_size (sb f) < BPB -> (size (L f) <= 20)%nat -> (5 <= nfree f)%nat ->
  exists f', writei dev_write ip src off f = Ok (Z.of_nat (length src), f')
    /\ Z.of_nat (size (L f')) <= Z.of_nat (size (L f)) + MAXOPBLOCKS.
Proof.
  intros Hof Ho Hoff Hmax Hn Hbm HL Hnf.
  assert (size (bitmap_blocks f) <= 1)%nat as Hb1.
  { unfold bitmap_blocks. rewrite Z.div_small by (pose proof (ge_size _ (fw_geo _ _ (of_wf _ _ _ Hof))); lia).
    etrans; [apply (subseteq_size _ {[sb_bmapstart (sb f) + Z.of_nat 0]})|by rewrite size_singleton].
    change (Z.to_nat (0 + 1)) with 1%nat. cbn [seq]. rewrite fmap_cons, fmap_nil. set_solver. }
  assert (footprint f i <= size (L f) + 2)%nat as Hfp.
  { unfold footprint. pose proof (ind_set_need i). pose proof (size_union_le (bitmap_blocks f ∪ L f) (ind_set i)).
    pose proof (size_union_le (bitmap_blocks f) (L f)). lia. }
  assert (blocks_of off (Z.of_nat (length src)) <= 4)%nat as Hk.
  { unfold blocks_of, BSIZE. destruct (Z.leb_spec (Z.of_nat (length src)) 0); zlia. }
  assert (ind_need i <= 1)%nat by (unfold ind_need; case_decide; lia).
  destruct (writei_spec dev_write f ip i off src Hof Ho Hoff Hmax) as (f' & i' & E & W); [unfold FSCAP; lia|lia|].
  exists f'. split; [done|]. pose proof (wn_logged _ _ _ _ _ _ _ W). unfold MAXOPBLOCKS. lia.
Qed.

End Props.
