(* ===== verification/FsMount.v ===== *)
(** Mounting: the first process, in [forkret], reads the superblock and recovers
    the log; [iget] and [ilock] then load an inode from the disk. *)
From S2P Require Import Prelude Mem KString Spinlock Bio BioTheory Log LogTheory LogProps Fs FsBlocks FsTheory FsFile FsData FsInode FsWrite.

(** The part of [forkret] that runs once: [iinit(ROOTDEV)], with the log still
    zeroed, and [initlog(ROOTDEV)], over the cache that [binit] made. *)
Definition forkret_first (me : Z) (d : gmap Z mem) (size : Z) : outcome (fs lst) :=
  let! f := iinit (H := log_blocks me) ROOTDEV (Lst (binit d size) 0 0 0 false []) in
  let! l := initlog me (cache (blocks f)) in
  Ok (FS l (icache f) (sb f)).

Section Mount.
Context (me : Z).

Lemma read_head_length start s bl s' : read_head me start s = Ok (bl, s') -> length (bufs s') = length (bufs s).
Proof.
  unfold read_head. intros E. apply obind_Ok_inv in E as ([i s1] & E1 & E). apply obind_Ok_inv in E as (d & _ & E). cbn zeta in E. destruct (_ <? _); [done|].
  apply obind_Ok_inv in E as (s2 & E2 & E). injection E as _ <-. apply bread_length in E1. apply brelse_length in E2. congruence.
Qed.

Lemma recover_length l l' : recover_from_log me l = Ok l' -> length (bufs (cache l')) = length (bufs (cache l)).
Proof.
  unfold recover_from_log. intros E. apply obind_Ok_inv in E as ([bl s1] & E1 & E). apply obind_Ok_inv in E as (s2 & E2 & E). apply obind_Ok_inv in E as (s3 & E3 & E).
  injection E as <-. cbn. apply read_head_length in E1. apply install_trans_length in E2. apply write_head_length in E3. congruence.
Qed.

(** The file system after mounting: its log is empty and closed, and every block
    outside the log has what recovery of the disk gives. *)
Lemma forkret_first_spec d size start nlog :
  let sb := decode_sb (dblk d 1) in
  1 < size <= 2147483648 -> s32 (sb_logstart sb) = start -> s32 (sb_nlog sb) = nlog ->
  layout size start nlog (header_of start d) -> s32 (ld32 (dblk d start) 0) <= LOGSIZE -> Z.of_nat (length (header_of start d)) < nlog ->
  Z.of_nat FSCAP + 1 < nlog ->
  exists l, forkret_first me d size = Ok (FS l (replicate NINODE inode0) sb) /\ log_ok me l [] /\ lh l = [] /\ outstanding l = 0
    /\ log_start l = start /\ log_size l = nlog /\ disksize (cache l) = size
    /\ forall b, ~ in_log start nlog b -> view (cache l) b = recovered start d b.
Proof.
  intros sb Hsz Hst Hnl Hlay Hcnt Hlen Hcap. destruct (binit_ok me d size) as (Hw & Hi & Hsp & Hv & Hp). unfold forkret_first. set (c0 := binit d size) in *.
  assert (disksize c0 = size /\ disk c0 = d /\ length (bufs c0) = NBUF) as (Hz0 & Hd0 & Hb0) by done. clearbody c0.
  destruct (read_block me c0 1 Hw Hi) as (i1 & c1 & c2 & E1 & E2 & E3 & W1); [unfold in_disk; lia|lia|].
  pose proof (wr_spare _ _ _ _ W1) as Hs1. pose proof (wr_size _ _ _ _ W1) as Hz1.
  destruct (read_block me c2 1) as (i2 & c3 & c4 & E4 & E5 & E6 & W2); [apply W1|apply W1|unfold in_disk; lia|lia|].
  pose proof (wrote_trans me _ _ _ _ _ W1 W2) as W. cbn [app] in W. pose proof (wr_spare _ _ _ _ W) as Hs2. pose proof (wr_size _ _ _ _ W) as Hz2.
  assert (forall c, view c4 c = dblk d c) as Hv4 by (intros c; rewrite (wr_view _ _ _ _ W); apply Hv).
  assert (view c2 1 = dblk d 1) as Hv2 by (rewrite (wr_view _ _ _ _ W1); apply Hv).
  destruct (recover_from me c4 d start nlog) as (c5 & Wr & E7 & W3 & Hd5 & Hh5 & _); [apply W|apply W|lia|exact Hv4|by rewrite (wr_disk _ _ _ _ W)|by rewrite Hz2, Hz0|lia|done|done|].
  exists (Lst c5 start nlog 0 false []). split.
  - unfold iinit, fs_bread, fs_data, fs_brelse. cbn [b_read b_get b_rel log_blocks blocks set_blocks cache set_cache].
    rewrite E1. cbn [obind blocks set_blocks cache set_cache]. rewrite E2. cbn [obind]. rewrite E3. cbn [obind blocks icache sb set_blocks cache set_cache]. rewrite Hv.
    unfold initlog, readsb. rewrite E4. cbn [obind]. rewrite E5. cbn [obind]. rewrite E6. cbn [obind]. rewrite Hv2. fold sb. rewrite Hst, Hnl, E7. done.
  - pose proof (wr_size _ _ _ _ W3) as Hz3. assert (forall c, ~ pinned c5 c) as Hp5.
    { intros c Hc. apply (wr_pinned _ _ _ _ W3) in Hc as [_ Hc]. apply (wr_pinned _ _ _ _ W) in Hc as [_ Hc]. by apply Hp in Hc. }
    assert (length (bufs c5) = NBUF) as Hb5.
    { apply recover_length in E7. cbn in E7. apply bread_length in E1, E4. apply brelse_length in E3, E6. congruence. }
    split; [split; cbn [cache lh log_start log_size committing outstanding]|].
    + apply W3.
    + done.
    + intros j c. rewrite elem_of_nil. split; [apply W3|done].
    + constructor.
    + rewrite (spare_all me) by (done || apply W3). rewrite Hb5. done.
    + rewrite Hz3, Hz2, Hz0. destruct Hlay as [L1 _ _]. split; [done|constructor|]. intros b Hb. by apply not_elem_of_nil in Hb.
    + lia.
    + unfold FSCAP. cbn. lia.
    + intros c. rewrite elem_of_nil. split; [apply Hp5|done].
    + intros c Hc. by apply not_elem_of_nil in Hc.
    + exact Hh5.
    + done.
    + done.
    + lia.
    + split; [done|]. split; [done|]. split; [done|]. split; [done|]. split; [cbn; lia|]. intros b Hb. cbn [cache]. rewrite <- (Hd5 b Hb).
      destruct (view_clean me c5 b) as [Hc|Hc]; [apply W3|apply W3|by apply Hp5 in Hc|exact Hc].
Qed.

End Mount.

(** * Loading an inode *)

Section Load.
Context {S : Type} `{BlockLaws S} (me : Z).
Implicit Types f : fs S.

(** The inode [i], locked, with the fields of its disk inode. *)
Definition ilocked f (i : inode) : inode :=
  i_with_valid true (get_dinode (b_view (blocks f) (IBLOCK (i_inum i) f)) (dinode_at (i_inum i)) (i_with_lock (Sleeplock true me) i)).

Lemma brelse_icache bp c f : fs_brelse bp (set_icache c f) = (let! f' := fs_brelse bp f in Ok (set_icache c f')).
Proof. unfold fs_brelse. cbn [blocks set_icache]. by destruct (b_rel bp (blocks f)). Qed.

Lemma ilock_loads f ip i :
  b_ok (blocks f) [] -> icache f !! ip = Some i -> 1 <= i_ref i -> sl_locked (i_lock i) = false -> i_valid i = false -> i_dev i = ROOTDEV ->
  b_home (blocks f) (IBLOCK (i_inum i) f) ->
  if decide (i_type (ilocked f i) = 0) then ilock me ip f = Panic "ilock: no type"
  else exists f', ilock me ip f = Ok f' /\ b_ok (blocks f') [] /\ effect f f' ∅ /\ icache f' = <[ip := ilocked f i]> (icache f).
Proof.
  intros Hok Hip Hr Hl Hv Hd Hh. unfold ilock, lock_inode, acquiresleep. rewrite (the_inode_eq f ip i Hip). cbn [obind].
  destruct (Z.ltb_spec (i_ref i) 1); [lia|]. rewrite Hl. cbn [obind]. rewrite Hv, Hd.
  set (f0 := upd_inode ip (i_with_lock (Sleeplock true me)) f). assert (icache f0 = <[ip := i_with_lock (Sleeplock true me) i]> (icache f)) as I0.
  { unfold f0, upd_inode. cbn [icache set_icache]. by rewrite (alter_lookup _ _ i). }
  pose proof (lookup_lt_Some _ _ _ Hip) as Hlt.
  destruct (read_spec f0 [] (IBLOCK (i_inum i) f0) Hok Hh (not_elem_of_nil _)) as (bp & f1 & f' & E1 & E2 & E3 & Hok' & F & I); [cbn; lia|].
  assert (icache f1 = icache f0) as I1 by (unfold fs_bread in E1; apply obind_Ok_inv in E1 as ([? ?] & _ & E1); by injection E1 as _ <-).
  rewrite E1. cbn [obind]. rewrite E2. cbn [obind]. cbv zeta.
  change (b_view (blocks f0) (IBLOCK (i_inum i) f0)) with (b_view (blocks f) (IBLOCK (i_inum i) f)). set (g := get_dinode (b_view (blocks f) _) _).
  assert (fs_brelse bp (upd_inode ip g f1) = Ok (set_icache (alter g ip (icache f1)) f')) as -> by (unfold upd_inode; by rewrite brelse_icache, E3). cbn [obind].
  assert (upd_inode ip (i_with_valid true) (set_icache (alter g ip (icache f1)) f') = set_icache (<[ip := ilocked f i]> (icache f)) f') as ->.
  { unfold upd_inode, set_icache. cbn [icache blocks sb]. rewrite I1, I0. rewrite (alter_lookup g _ (i_with_lock (Sleeplock true me) i)) by (by rewrite list_lookup_insert_eq).
    rewrite list_insert_insert_eq. rewrite (alter_lookup (i_with_valid true) _ (g (i_with_lock (Sleeplock true me) i))) by (by rewrite list_lookup_insert_eq). by rewrite list_insert_insert_eq. }
  rewrite (the_inode_eq _ ip (ilocked f i)) by (cbn [icache set_icache]; by rewrite list_lookup_insert_eq). cbn [obind].
  destruct (Z.eqb_spec (i_type (ilocked f i)) 0) as [Hz|Hz]; [by rewrite decide_True|]. rewrite decide_False by done.
  eexists. split; [reflexivity|]. split; [exact Hok'|]. split; [|done]. apply effect_icache. by destruct F.
Qed.

(** In the empty cache [iget] takes the first entry. *)
Lemma iget_first f dev inum : icache f = replicate NINODE inode0 ->
  iget dev inum f = Ok (0%nat, set_icache (Inode dev inum 1 (i_lock inode0) false 0 0 0 0 0 (i_addrs inode0) :: replicate 49 inode0) f).
Proof. intros Hc. unfold iget, upd_inode. rewrite Hc. reflexivity. Qed.

End Load.
