(* ===== verification/FsRun.v ===== *)
(** A small disk, an empty file on it, and runs of the file operations. *)
From S2P Require Import Prelude Mem KString Spinlock Bio BioTheory Log LogTheory LogProps Fs FsBlocks FsTheory FsFile FsData FsInode FsWrite FsProps.

(** A disk of 100 blocks: log from 2, inodes from 40, bitmap 42, data from
    43.  The 43 blocks before the data are marked. *)
Definition demo_sb : superblock := Superblock 100 57 8 31 2 40 42.
Definition demo_bitmap : mem := put_bytes ∅ 0 [255; 255; 255; 255; 255; 7].
Definition demo_disk : gmap Z mem := {[42 := demo_bitmap]}.
Definition demo_log : lst := Lst (binit demo_disk 100) 2 31 1 false [].

(** Two empty files, inodes 1 and 2. *)
Definition demo_inode (n : Z) : inode := Inode 1 n 1 (Sleeplock true 7) true T_FILE 0 0 1 0 (replicate 13 0).
Definition demo_fs : fs lst := FS demo_log [demo_inode 1; demo_inode 2] demo_sb.

#[export] Instance demo_ops : BlockOps lst := log_blocks 7.
#[export] Instance demo_laws : BlockLaws lst := log_laws 7.

Lemma demo_log_ok : log_ok 7 demo_log [].
Proof.
  destruct (binit_ok 7 demo_disk 100) as (Hw & Hi & Hsp & Hv & Hp). split; try done.
  - intros j c. rewrite elem_of_nil. split; [apply Hi|done].
  - constructor.
  - split; [cbn; unfold LOGSIZE; lia|constructor|]. intros b Hb. by apply not_elem_of_nil in Hb.
  - unfold FSCAP. cbn. lia.
  - intros c. rewrite elem_of_nil. split; [apply Hp|done].
Qed.

Lemma demo_view c : b_view (blocks demo_fs) c = dblk demo_disk c.
Proof. destruct (binit_ok 7 demo_disk 100) as (_ & _ & _ & Hv & _). apply Hv. Qed.

Lemma demo_geometry : geometry demo_fs.
Proof.
  split; [by vm_compute..|]. intros b Hb. cbn in Hb. split; cbn; [lia|]. unfold in_log, LOGSIZE. lia.
Qed.

Lemma demo_used b : 0 <= b < 100 -> used demo_fs b = (b <? 43).
Proof.
  intros Hb. unfold used. rewrite (BBLOCK_eq demo_fs b demo_geometry Hb). rewrite demo_view.
  assert (forallb (fun b => Bool.eqb (bit_set (dblk demo_disk (sb_bmapstart (sb demo_fs) + b / BPB)) (b mod BPB)) (b <? 43)) (seqZ 0 100) = true) as Hall
    by (by vm_compute).
  rewrite forallb_forall in Hall. apply eqb_prop, Hall. apply list_elem_of_In, elem_of_seqZ. lia.
Qed.

Lemma demo_wf : fs_wf demo_fs [].
Proof.
  split.
  - exact demo_log_ok.
  - exact demo_geometry.
  - intros b Hb. change (datastart demo_fs) with 43 in Hb. rewrite demo_used by lia. apply Z.ltb_lt. lia.
  - intros c Hc. by apply not_elem_of_nil in Hc.
Qed.

Lemma demo_blk n bn : blk demo_fs (demo_inode n) bn = 0.
Proof.
  assert (forall k, addr (demo_inode n) k = 0) as Ha.
  { intros k. unfold addr. cbn [demo_inode i_addrs]. destruct (replicate 13 0 !! Z.to_nat k) eqn:E; [|done].
    by apply lookup_replicate_1 in E as [-> _]. }
  unfold blk, ind. rewrite !Ha. by destruct (bn <? NDIRECT).
Qed.

Lemma demo_owns n b : ~ owns demo_fs (demo_inode n) b.
Proof. intros [Hz [->|(bn & _ & <-)]]; apply Hz; [done|apply demo_blk]. Qed.

Lemma demo_inode_ok n : inode_ok demo_fs (demo_inode n).
Proof.
  split; try done.
  - intros b Hb. by apply demo_owns in Hb.
  - intros bn bn' _ _ Hz. by rewrite demo_blk in Hz.
  - intros bn Hbn Hs. cbn in Hs. unfold BSIZE in Hs. lia.
Qed.

Lemma demo_open : open_file demo_fs 0 (demo_inode 1).
Proof.
  split; try done.
  - exact demo_wf.
  - apply demo_inode_ok.
  - split; try done; cbn. unfold is_u32. repeat constructor; lia.
Qed.

Lemma demo_nfree : nfree demo_fs = 57%nat.
Proof.
  unfold nfree. change (sb_size (sb demo_fs)) with 100.
  rewrite (filter_iff_in _ (fun b => (b <? 43) = false)); [by vm_compute|].
  intros x Hx%elem_of_seqZ. by rewrite demo_used by lia.
Qed.

(** * Runs *)

Lemma demo_footprint : footprint demo_fs (demo_inode 1) = 2%nat.
Proof. by vm_compute. Qed.

Lemma writei_readi_witness :
  exists f' i' f'', writei (fun _ => None) 0 [104; 105] 0 demo_fs = Ok (2, f') /\ icache f' !! 0%nat = Some i' /\ i_size i' = 2
    /\ readi (fun _ => None) 0 0 2 f' = Ok (Some [104; 105], f'').
Proof.
  destruct (writei_readi (fun _ => None) (fun _ => None) demo_fs 0 (demo_inode 1) 0 [104; 105]) as (f' & i' & f'' & E1 & E2 & E3 & _ & E4).
  - exact demo_open.
  - exact (Z.le_refl 1).
  - cbn. lia.
  - by vm_compute.
  - repeat constructor; lia.
  - rewrite demo_footprint. apply Nat.ltb_lt. by vm_compute.
  - rewrite demo_nfree. apply Nat.leb_le. by vm_compute.
  - exists f', i', f''. split; [exact E1|]. split; [rewrite E2; reflexivity|]. split; [rewrite E3; reflexivity|exact E4].
Defined.

Lemma writei_isolated_witness :
  exists f' i', writei (fun _ => None) 0 [104; 105] 0 demo_fs = Ok (2, f') /\ icache f' = <[0%nat := i']> (icache demo_fs)
    /\ forall bn, blk f' (demo_inode 2) bn = blk demo_fs (demo_inode 2) bn.
Proof.
  destruct (writei_isolated (fun _ => None) demo_fs 0 (demo_inode 1) 0 [104; 105] (demo_inode 2)) as (f' & i' & E1 & E2 & E3 & _).
  - exact demo_open.
  - exact (Z.le_refl 1).
  - cbn. lia.
  - by vm_compute.
  - rewrite demo_footprint. apply Nat.ltb_lt. by vm_compute.
  - rewrite demo_nfree. apply Nat.leb_le. by vm_compute.
  - apply demo_inode_ok.
  - by vm_compute.
  - by vm_compute.
  - intros b Hb. by apply demo_owns in Hb.
  - exists f', i'. split; [exact E1|]. split; [exact E2|exact E3].
Defined.

Lemma balloc_first_free_witness : exists a f', balloc ROOTDEV demo_fs = Ok (a, f') /\ used demo_fs a = false /\ used f' a = true.
Proof.
  pose proof (balloc_first_free demo_fs [] demo_wf (Z.le_refl 1)) as HH. rewrite demo_nfree in HH.
  destruct HH as (a & f' & E & (Ha & Hf & _) & _ & Hu & _).
  - cbn. lia.
  - apply Nat.ltb_lt. by vm_compute.
  - exists a, f'. split; [exact E|]. split; [exact Hf|]. rewrite (Hu a Ha). by rewrite bool_decide_eq_true_2.
Defined.

Lemma bfree_frees_witness : bfree ROOTDEV 50 demo_fs = Panic "freeing free block".
Proof.
  pose proof (bfree_frees demo_fs [] 50 demo_wf (Z.le_refl 1)) as HH. rewrite demo_used in HH by lia. apply HH.
  - cbn. lia.
  - apply Nat.leb_le. by vm_compute.
  - by vm_compute.
Defined.

Lemma writei_within_reservation_witness : exists f', writei (fun _ => None) 0 [104; 105] 0 demo_fs = Ok (2, f').
Proof.
  destruct (writei_within_reservation (fun _ => None) demo_fs 0 (demo_inode 1) 0 [104; 105]) as (f' & E & _).
  - exact demo_open.
  - exact (Z.le_refl 1).
  - cbn. lia.
  - by vm_compute.
  - by vm_compute.
  - by vm_compute.
  - apply Nat.leb_le. by vm_compute.
  - rewrite demo_nfree. lia.
  - exists f'. exact E.
Defined.

(** * A directory linked into itself *)

(** Inode 1 as a directory, locked by the caller as [dirlink] expects. *)
Definition demo_dir : fs lst :=
  FS demo_log [Inode 1 1 1 (Sleeplock true 7) true T_DIR 0 0 1 0 (replicate 13 0); demo_inode 2] demo_sb.

(** [dirlink] of a name that is present calls [iput] on the inode it names; when
    that is the directory itself, whose lock the caller holds, [acquiresleep]
    waits for the lock its own process holds. *)
Theorem dirlink_self_deadlock :
  match dirlink 7 (fun _ => None) (fun _ => None) 0 [46] 1 demo_dir with
  | Ok (0, f) => dirlink 7 (fun _ => None) (fun _ => None) 0 [46] 2 f
  | r => r
  end = UB "acquiresleep: sleeps forever".
Proof. vm_compute. reflexivity. Qed.
