(* ===== verification/FsDir.v ===== *)
(** Directories: [dirlookup] finds what the entries of the directory say, and
    [dirlink] adds one name and leaves the others. *)
From S2P Require Import Prelude Mem KString Spinlock Bio BioTheory Log LogTheory LogProps Fs FsBlocks FsTheory FsFile FsData FsInode FsWrite FsProps FsRun.

(** * Names *)

(** What [namecmp] compares: the characters up to the NUL, at most [DIRSIZ]. *)
Definition dkey (s : list Z) : list Z := take (Z.to_nat DIRSIZ) (cstr s).

Lemma cstr_tail s : default 0 (head s) <> 0 -> cstr s = default 0 (head s) :: cstr (tail s).
Proof. destruct s as [|c s]; cbn; [done|]. destruct (Z.eqb_spec c 0); done. Qed.

Lemma cstr_zero s : default 0 (head s) = 0 -> cstr s = [].
Proof. destruct s as [|c s]; cbn; [done|]. by intros ->. Qed.

Lemma strncmp_key n : forall p q, strncmp_bytes n p q = 0 <-> take n (cstr p) = take n (cstr q).
Proof.
  induction n as [|n IH]; intros p q; [done|]. cbn [strncmp_bytes]. set (a := default 0 (head p)). set (b := default 0 (head q)).
  destruct (Z.eqb_spec a 0) as [Ea|Ea], (Z.eqb_spec b 0) as [Eb|Eb]; cbn [negb andb].
  - rewrite (cstr_zero p Ea), (cstr_zero q Eb). split; [done|lia].
  - rewrite (cstr_zero p Ea), (cstr_tail q Eb). cbn. fold b. split; [lia|done].
  - destruct (Z.eqb_spec a b); [lia|]. rewrite (cstr_zero q Eb), (cstr_tail p Ea). cbn. split; [lia|done].
  - rewrite (cstr_tail p Ea), (cstr_tail q Eb). cbn [take firstn]. fold a b. destruct (Z.eqb_spec a b) as [->|Hne]; [rewrite IH; split; [by intros ->|by intros [= ->]]|].
    split; [lia|]. by intros [= ? _].
Qed.

Lemma namecmp_key s t : namecmp s t = 0 <-> dkey s = dkey t.
Proof. apply strncmp_key. Qed.

Lemma strncpy_length n : forall t, length (strncpy_bytes n t) = n.
Proof. induction n as [|n IH]; intros t; [done|]. cbn [strncpy_bytes]. destruct (_ =? 0); [apply length_replicate|]. cbn. by rewrite IH. Qed.

Lemma strncpy_key n : forall t, take n (cstr (strncpy_bytes n t)) = take n (cstr t).
Proof.
  induction n as [|n IH]; intros t; [done|]. cbn [strncpy_bytes]. destruct (Z.eqb_spec (default 0 (head t)) 0) as [E|E].
  - by rewrite (cstr_zero t E).
  - rewrite (cstr_tail t E). cbn [cstr]. destruct (Z.eqb_spec (default 0 (head t)) 0); [done|]. cbn. by rewrite IH.
Qed.

(** The entry that [dirlink] writes. *)
Lemma mk_dirent_length inum name : length (mk_dirent inum name) = 16%nat.
Proof. unfold mk_dirent. cbn [length]. by rewrite strncpy_length. Qed.

Lemma mk_dirent_key inum name : dkey (de_name (mk_dirent inum name)) = dkey name.
Proof. apply (strncpy_key (Z.to_nat DIRSIZ)). Qed.

Lemma mk_dirent_inum inum name : 0 <= inum < 65536 -> de_inum (mk_dirent inum name) = inum.
Proof. intros H. unfold de_inum, mk_dirent, u8. cbn. zlia. Qed.

Lemma strncpy_bytes_Forall (P : Z -> Prop) n : P 0 -> forall t, Forall P t -> Forall P (strncpy_bytes n t).
Proof.
  intros H0. induction n as [|n IH]; intros t Ht; [constructor|]. cbn [strncpy_bytes]. destruct (_ =? 0); [by apply Forall_replicate|].
  constructor; destruct Ht; cbn; try done; by apply IH.
Qed.

Lemma mk_dirent_bytes inum name : Forall (fun c => 0 <= c < 256) name -> Forall (fun c => 0 <= c < 256) (mk_dirent inum name).
Proof. intros Hn. unfold mk_dirent, u8. repeat constructor; try zlia. apply strncpy_bytes_Forall; [lia|done]. Qed.

(** * Entries *)

(** The entry that a lookup of [name] stops at. *)
Definition answers (name de : list Z) : Prop := de_inum de <> 0 /\ dkey name = dkey (de_name de).
#[export] Instance answers_dec name de : Decision (answers name de).
Proof. apply _. Defined.

(** Lists that differ only where no element counts are searched alike. *)
Lemma list_find_agree {A} (P : A -> Prop) `{forall x, Decision (P x)} (l l' : list A) :
  (forall m x, P x -> l !! m = Some x <-> l' !! m = Some x) -> list_find P l = list_find P l'.
Proof.
  intros Hag. apply option_eq. intros [i x]. rewrite !list_find_Some.
  split; intros (A1 & A2 & A3); (split; [by apply Hag|]); (split; [done|]); intros j y Hj Hlt Hy; (eapply (A3 j y); [by apply Hag|done|done]).
Qed.

Section Dir.
Context {S : Type} `{BlockLaws S}.
Implicit Types f : fs S.
Context (dev_read : Z -> option (nat -> Z -> fs S -> outcome (option (list Z) * fs S))).
Context (dev_write : Z -> option (nat -> list Z -> fs S -> outcome (Z * fs S))).

Abbreviation ok f := (b_ok (blocks f)).

(** A directory that is open: its size is a whole number of entries. *)
Record open_dir f dp d : Prop := {
  od_file : open_file f dp d;
  od_type : i_type d = T_DIR;
  od_size : i_size d mod DESIZE = 0
}.

Definition nentries (d : inode) : nat := Z.to_nat (i_size d / DESIZE).
Definition dentry f d (k : nat) : list Z := file_bytes f d (DESIZE * Z.of_nat k) 16.
Definition dentries f d : list (list Z) := dentry f d <$> seq 0 (nentries d).

(** The name that is looked up, and the inode and place it has. *)
Definition found f d (name : list Z) : option (nat * list Z) := list_find (answers name) (dentries f d).

(** Reads leave the directory as it is. *)
Record reads f f' : Prop := { rd_ok : ok f' []; rd_effect : effect f f' ∅; rd_icache : icache f' = icache f }.

Lemma reads_refl f : ok f [] -> reads f f.
Proof. intros. split; [done|apply effect_refl|done]. Qed.

Lemma reads_trans f1 f2 f3 : reads f1 f2 -> reads f2 f3 -> reads f1 f3.
Proof. intros [A1 A2 A3] [B1 B2 B3]. split; [done|by eapply effect_trans0|congruence]. Qed.

Lemma open_file_reads f f' dp d : reads f f' -> open_file f dp d -> open_file f' dp d.
Proof.
  intros [A1 A2 A3] [B1 B2 B3 B4 B5 B6]. split; [by eapply fs_wf_effect0|by rewrite A3|by eapply inode_ok_effect0| |done|done].
  unfold inum_ok in *. by rewrite (ef_sb _ _ _ A2).
Qed.

Lemma open_dir_reads f f' dp d : reads f f' -> open_dir f dp d -> open_dir f' dp d.
Proof. intros R [A B C]. split; [by apply (open_file_reads f)|done|done]. Qed.

Lemma dentry_reads f f' d k : reads f f' -> dentry f' d k = dentry f d k.
Proof. intros [_ A _]. unfold dentry, file_bytes. apply list_fmap_ext. intros j x _. by apply byte_effect0. Qed.

Lemma size_entries f dp d : open_dir f dp d -> i_size d = DESIZE * Z.of_nat (nentries d) /\ 0 <= i_size d <= 71680.
Proof. intros [A _ B]. pose proof (io_size _ _ (of_ok _ _ _ A)) as Hs. change (MAXFILE * BSIZE) with 71680 in Hs. unfold nentries, DESIZE in *. zlia. Qed.

Lemma read_dirent_spec what f dp d k : open_dir f dp d -> (k < nentries d)%nat ->
  exists f', read_dirent dev_read what dp (DESIZE * Z.of_nat k) f = Ok (dentry f d k, f') /\ reads f f'.
Proof.
  intros Hd Hk. destruct (size_entries f dp d Hd) as [Hs Hr]. destruct (od_file _ _ _ Hd) as [A1 A2 A3 A4 A5 A6]. unfold DESIZE in *.
  pose proof (readi_spec dev_read f dp d (16 * Z.of_nat k) 16 A1 A2 A3 A5 ltac:(lia) ltac:(lia) ltac:(lia)) as HR. rewrite decide_False in HR by lia.
  destruct HR as (f' & E & R1 & R2 & R3). rewrite Z.min_l in E by lia. exists f'. split; [|done].
  unfold read_dirent, DESIZE. rewrite E. cbn [obind]. by rewrite file_bytes_length.
Qed.

Lemma dentries_lookup f d k : (k < nentries d)%nat -> dentries f d !! k = Some (dentry f d k).
Proof. intros Hk. unfold dentries. by rewrite list_lookup_fmap, lookup_seq_lt by done. Qed.

Lemma dentries_drop f d k : (k < nentries d)%nat -> drop k (dentries f d) = dentry f d k :: drop (Datatypes.S k) (dentries f d).
Proof. intros Hk. by apply drop_S, dentries_lookup. Qed.

Lemma dentries_length f d : length (dentries f d) = nentries d.
Proof. unfold dentries. by rewrite length_fmap, length_seq. Qed.

(** The loop of [dirlookup] from entry [k], in a state reached from [f] by reads. *)
Lemma dirlookup_loop_spec f dp d name : open_dir f dp d -> forall fuel k g, reads f g -> (k <= nentries d)%nat -> (nentries d - k <= fuel)%nat ->
  exists f1, reads f f1 /\ dirlookup_loop dev_read fuel dp name (DESIZE * Z.of_nat k) g =
    match list_find (answers name) (drop k (dentries f d)) with
    | Some (j, de) => let! (ip, f2) := iget (i_dev d) (de_inum de) f1 in Ok (Some (ip, DESIZE * Z.of_nat (k + j)), f2)
    | None => Ok (None, f1)
    end.
Proof.
  intros Hd. destruct (size_entries f dp d Hd) as [Hs Hr]. induction fuel as [|fuel IH]; intros k g Rg Hk Hf;
    pose proof (open_dir_reads _ _ _ _ Rg Hd) as Hg;
    cbn [dirlookup_loop]; rewrite (the_inode_eq g dp d (of_slot _ _ _ (od_file _ _ _ Hg))); cbn [obind]; rewrite Hs.
  - assert (k = nentries d) as -> by lia. rewrite Z.ltb_irrefl. cbn [negb]. rewrite drop_ge by (by rewrite dentries_length). by exists g.
  - destruct (decide (k = nentries d)) as [->|Hne]; [rewrite Z.ltb_irrefl; cbn [negb]; rewrite drop_ge by (by rewrite dentries_length); by exists g|].
    destruct (Z.ltb_spec (DESIZE * Z.of_nat k) (DESIZE * Z.of_nat (nentries d))) as [_|Hlt]; [|unfold DESIZE in Hlt; lia]. cbn [negb].
    destruct (read_dirent_spec "dirlookup read" g dp d k Hg ltac:(lia)) as (g1 & -> & Rg1). cbn [obind]. rewrite (dentry_reads f g d k Rg).
    assert (reads f g1) as Rf by (by eapply reads_trans). rewrite (dentries_drop f d k) by lia. cbn [list_find].
    destruct (IH (Datatypes.S k) g1 Rf ltac:(lia) ltac:(lia)) as (f1 & R1 & E1). replace (DESIZE * Z.of_nat (Datatypes.S k)) with (DESIZE * Z.of_nat k + DESIZE) in E1 by (unfold DESIZE; lia).
    destruct (Z.eqb_spec (de_inum (dentry f d k)) 0) as [Hz|Hz].
    + rewrite decide_False by (by intros [? _]). exists f1. split; [done|]. rewrite E1.
      destruct (list_find _ _) as [[j de]|]; [|done]. cbn. by rewrite <- Nat.add_succ_comm.
    + destruct (Z.eqb_spec (namecmp name (de_name (dentry f d k))) 0) as [Hn|Hn]; rewrite namecmp_key in Hn.
      * rewrite decide_True by done. exists g1. split; [done|]. by rewrite Nat.add_0_r.
      * rewrite decide_False by (by intros [_ ?]). exists f1. split; [done|]. rewrite E1.
        destruct (list_find _ _) as [[j de]|]; [|done]. cbn. by rewrite <- Nat.add_succ_comm.
Qed.

Lemma dirlookup_spec f dp d name : open_dir f dp d ->
  exists f1, reads f f1 /\ dirlookup dev_read dp name f =
    match found f d name with
    | Some (j, de) => let! (ip, f2) := iget (i_dev d) (de_inum de) f1 in Ok (Some (ip, DESIZE * Z.of_nat j), f2)
    | None => Ok (None, f1)
    end.
Proof.
  intros Hd. unfold dirlookup. rewrite (the_inode_eq f dp d (of_slot _ _ _ (od_file _ _ _ Hd))). cbn [obind].
  rewrite (od_type _ _ _ Hd), Z.eqb_refl. cbn [negb]. destruct (size_entries f dp d Hd) as [Hs Hr].
  destruct (dirlookup_loop_spec f dp d name Hd (Z.to_nat (i_size d / DESIZE + 1)) 0 f) as (f1 & R & E); [by apply reads_refl, Hd|lia|unfold nentries; lia|].
  exists f1. split; [done|]. exact E.
Qed.

(** The entry [dirlink] takes: the first empty one, or one past the end. *)
Definition empty_slot f d : nat :=
  match list_find (fun de => de_inum de = 0) (dentries f d) with Some (j, _) => j | None => nentries d end.

Lemma free_dirent_spec f dp d : open_dir f dp d -> forall fuel k g, reads f g -> (k <= nentries d)%nat -> (nentries d - k <= fuel)%nat ->
  exists f1, reads f f1 /\ free_dirent dev_read fuel dp (DESIZE * Z.of_nat k) g =
    Ok (DESIZE * Z.of_nat (match list_find (fun de => de_inum de = 0) (drop k (dentries f d)) with Some (j, _) => k + j | None => nentries d end), f1).
Proof.
  intros Hd. destruct (size_entries f dp d Hd) as [Hs Hr]. induction fuel as [|fuel IH]; intros k g Rg Hk Hf;
    pose proof (open_dir_reads _ _ _ _ Rg Hd) as Hg;
    cbn [free_dirent]; rewrite (the_inode_eq g dp d (of_slot _ _ _ (od_file _ _ _ Hg))); cbn [obind]; rewrite Hs.
  - assert (k = nentries d) as -> by lia. rewrite Z.ltb_irrefl. cbn [negb]. rewrite drop_ge by (by rewrite dentries_length). by exists g.
  - destruct (decide (k = nentries d)) as [->|Hne]; [rewrite Z.ltb_irrefl; cbn [negb]; rewrite drop_ge by (by rewrite dentries_length); by exists g|].
    destruct (Z.ltb_spec (DESIZE * Z.of_nat k) (DESIZE * Z.of_nat (nentries d))) as [_|Hlt]; [|unfold DESIZE in Hlt; lia]. cbn [negb].
    destruct (read_dirent_spec "dirlink read" g dp d k Hg ltac:(lia)) as (g1 & -> & Rg1). cbn [obind]. rewrite (dentry_reads f g d k Rg).
    assert (reads f g1) as Rf by (by eapply reads_trans). rewrite (dentries_drop f d k) by lia. cbn [list_find].
    destruct (Z.eqb_spec (de_inum (dentry f d k)) 0) as [Hz|Hz].
    + rewrite decide_True by done. exists g1. split; [done|]. by rewrite Nat.add_0_r.
    + rewrite decide_False by done. destruct (IH (Datatypes.S k) g1 Rf ltac:(lia) ltac:(lia)) as (f1 & R1 & E1).
      replace (DESIZE * Z.of_nat (Datatypes.S k)) with (DESIZE * Z.of_nat k + DESIZE) in E1 by (unfold DESIZE; lia).
      exists f1. split; [done|]. rewrite E1. destruct (list_find _ _) as [[j de]|]; [|done]. cbn. by rewrite <- Nat.add_succ_comm.
Qed.

Lemma empty_slot_le f d : (empty_slot f d <= nentries d)%nat.
Proof.
  unfold empty_slot. destruct (list_find _ _) as [[j de]|] eqn:E; [|done].
  apply list_find_Some in E as (Hj%lookup_lt_Some & _). rewrite dentries_length in Hj. lia.
Qed.

(** No entry that answers a lookup is overwritten. *)
Lemma empty_slot_free f d name de : dentries f d !! empty_slot f d = Some de -> ~ answers name de.
Proof.
  unfold empty_slot. destruct (list_find _ _) as [[j x]|] eqn:E; intros Hj.
  - apply list_find_Some in E as (Hx & Hz & _). rewrite Hx in Hj. injection Hj as <-. by intros [? _].
  - apply lookup_lt_Some in Hj. rewrite dentries_length in Hj. lia.
Qed.

(** * The directory after a write of one entry *)

Lemma written_entries f dp d f' d' k inum name :
  open_dir f dp d -> (k <= nentries d)%nat -> Forall (fun c => 0 <= c < 256) name -> written f dp d f' d' (DESIZE * Z.of_nat k) (mk_dirent inum name) ->
  open_dir f' dp d' /\ nentries d' = Nat.max (nentries d) (k + 1)
  /\ forall m, (m < nentries d')%nat -> dentry f' d' m = if decide (m = k) then mk_dirent inum name else dentry f d m.
Proof.
  intros Hd Hk Hby W. destruct (size_entries f dp d Hd) as [Hs Hr]. pose proof (wn_size _ _ _ _ _ _ _ W) as Hsz.
  rewrite mk_dirent_length in Hsz. rewrite decide_False in Hsz by done. unfold DESIZE in *.
  assert (i_size d' = 16 * Z.of_nat (Nat.max (nentries d) (k + 1))) as Hsz' by lia.
  assert (nentries d' = Nat.max (nentries d) (k + 1)) as Hn by (unfold nentries at 1, DESIZE; rewrite Hsz'; zlia).
  split; [|split; [done|]].
  - split; [apply W| |rewrite Hsz'; unfold DESIZE; zlia]. rewrite (wn_meta _ _ _ _ _ _ _ W). exact (od_type _ _ _ Hd).
  - intros m Hm. unfold dentry, DESIZE. apply list_eq. intros j. unfold file_bytes.
    destruct (decide (j < 16)%nat) as [Hj|Hj].
    + rewrite list_lookup_fmap, lookup_seq_lt by done. cbn [fmap option_fmap option_map Nat.add]. rewrite (wn_byte _ _ _ _ _ _ _ W) by lia. rewrite mk_dirent_length.
      case_decide as Hc; case_decide as Hc2; try lia.
      * subst m. replace (Z.to_nat (16 * Z.of_nat k + Z.of_nat j - 16 * Z.of_nat k)) with j by lia.
        destruct (lookup_lt_is_Some_2 (mk_dirent inum name) j ltac:(by rewrite mk_dirent_length)) as [c Hc']. rewrite Hc'. cbn [default from_option id]. f_equal.
        apply u8_id. pose proof (mk_dirent_bytes inum name Hby) as HB. rewrite Forall_lookup in HB. by apply (HB j).
      * by rewrite list_lookup_fmap, lookup_seq_lt by done.
    + rewrite lookup_ge_None_2 by (rewrite length_fmap, length_seq; lia). symmetry. apply lookup_ge_None_2.
      case_decide; [rewrite mk_dirent_length|rewrite length_fmap, length_seq]; lia.
Qed.

Lemma written_found f dp d f' d' inum name name' :
  open_dir f dp d -> Forall (fun c => 0 <= c < 256) name -> written f dp d f' d' (DESIZE * Z.of_nat (empty_slot f d)) (mk_dirent inum name) ->
  dkey name' <> dkey name -> found f' d' name' = found f d name'.
Proof.
  intros Hd Hby W Hne. destruct (written_entries f dp d f' d' (empty_slot f d) inum name Hd (empty_slot_le f d) Hby W) as (_ & Hn & HE).
  apply list_find_agree. intros m x Hx. destruct (decide (m = empty_slot f d)) as [->|Hm].
  - split; intros Hl.
    + exfalso. rewrite dentries_lookup, HE, decide_True in Hl by (lia || done).
      injection Hl as <-. destruct Hx as [_ Hk]. by rewrite mk_dirent_key in Hk.
    + by apply empty_slot_free with (name := name') in Hl.
  - pose proof (empty_slot_le f d). destruct (decide (m < nentries d)%nat) as [Hlt|Hge].
    + by rewrite !dentries_lookup, HE, decide_False by (lia || done).
    + by rewrite !(lookup_ge_None_2 (dentries _ _)) by (rewrite dentries_length; lia).
Qed.

Lemma written_new f dp d f' d' inum name :
  open_dir f dp d -> Forall (fun c => 0 <= c < 256) name -> written f dp d f' d' (DESIZE * Z.of_nat (empty_slot f d)) (mk_dirent inum name) ->
  0 < inum < 65536 -> found f d name = None -> found f' d' name = Some (empty_slot f d, mk_dirent inum name).
Proof.
  intros Hd Hby W Hi Habs. destruct (written_entries f dp d f' d' (empty_slot f d) inum name Hd (empty_slot_le f d) Hby W) as (_ & Hn & HE).
  pose proof (empty_slot_le f d) as Hle. apply list_find_Some. split; [|split].
  - by rewrite dentries_lookup, HE, decide_True by (lia || done).
  - split; [rewrite mk_dirent_inum by lia; lia|]. by rewrite mk_dirent_key.
  - intros j y Hj Hlt. rewrite dentries_lookup, HE, decide_False in Hj by lia. injection Hj as <-.
    apply list_find_None in Habs. rewrite Forall_lookup in Habs. apply (Habs j). by rewrite dentries_lookup by lia.
Qed.

(** * The inode a name leads to *)

(** The entry of the inode cache that holds [inum], the only one. *)
Record held_at f (dev inum : Z) (q : nat) : Prop := {
  ha_slot : exists i, icache f !! q = Some i /\ 0 < i_ref i /\ i_dev i = dev /\ i_inum i = inum;
  ha_only q' i' : icache f !! q' = Some i' -> 0 < i_ref i' -> i_dev i' = dev -> i_inum i' = inum -> q' = q
}.

Lemma iget_scan_first dev inum : forall (l : list inode) i0 q e,
  (exists i, l !! q = Some i /\ 0 < i_ref i /\ i_dev i = dev /\ i_inum i = inum) ->
  (forall q' i', l !! q' = Some i' -> 0 < i_ref i' -> i_dev i' = dev -> i_inum i' = inum -> q' = q) ->
  iget_scan dev inum i0 l e = inl (i0 + q)%nat.
Proof.
  induction l as [|a l IH]; intros i0 q e (i & Hi & H1 & H2 & H3) Ho; [done|]. cbn [iget_scan].
  destruct ((0 <? i_ref a) && (i_dev a =? dev) && (i_inum a =? inum)) eqn:E.
  - rewrite !andb_true_iff, Z.ltb_lt, !Z.eqb_eq in E. destruct E as [[E1 E2] E3]. rewrite <- (Ho 0%nat a eq_refl E1 E2 E3). by rewrite Nat.add_0_r.
  - destruct q as [|q].
    + injection Hi as ->. exfalso. apply Z.ltb_lt in H1. apply Z.eqb_eq in H2, H3. by rewrite H1, H2, H3 in E.
    + rewrite (IH (Datatypes.S i0) q); [f_equal; lia|by exists i|]. intros q' i' A B C D. by injection (Ho (Datatypes.S q') i' A B C D).
Qed.

Lemma iget_held f dev inum q : held_at f dev inum q -> iget dev inum f = Ok (q, upd_inode q (fun ip => i_with_ref (i_ref ip + 1) ip) f).
Proof. intros [A B]. unfold iget. by rewrite (iget_scan_first dev inum (icache f) 0 q None A B). Qed.

(** Writing another inode keeps the entry. *)
Lemma held_at_insert f f' dev inum q dp d d' : held_at f dev inum q -> icache f !! dp = Some d -> icache f' = <[dp := d']> (icache f) ->
  i_ref d' = i_ref d -> i_dev d' = i_dev d -> i_inum d' = i_inum d -> held_at f' dev inum q.
Proof.
  intros [(i & A1 & A2 & A3 & A4) B] Hd E R1 R2 R3. split; rewrite E.
  - destruct (decide (q = dp)) as [->|Hne]; [|exists i; by rewrite list_lookup_insert_ne by done].
    exists d'. rewrite list_lookup_insert_eq by (by eapply lookup_lt_Some). rewrite A1 in Hd. injection Hd as ->. by rewrite R1, R2, R3.
  - intros q' i'. destruct (decide (q' = dp)) as [->|Hne].
    + rewrite list_lookup_insert_eq by (by eapply lookup_lt_Some). intros [= <-]. rewrite R1, R2, R3. by apply B.
    + rewrite list_lookup_insert_ne by done. apply B.
Qed.

(** * Adding a name *)

Lemma entry_one_block k : blocks_of (DESIZE * Z.of_nat k) 16 = 1%nat.
Proof. unfold blocks_of, DESIZE, BSIZE. cbn [Z.leb Z.compare]. zlia. Qed.

Lemma dirlink_spec me f dp d name inum :
  open_dir f dp d -> b_open (blocks f) -> found f d name = None ->
  DESIZE * Z.of_nat (empty_slot f d) + DESIZE <= MAXFILE * BSIZE -> (footprint f d + 1 < FSCAP)%nat -> (ind_need d + 1 <= nfree f)%nat ->
  exists f1 f' d', reads f f1 /\ dirlink me dev_read dev_write dp name inum f = Ok (0, f')
    /\ written f1 dp d f' d' (DESIZE * Z.of_nat (empty_slot f d)) (mk_dirent inum name).
Proof.
  intros Hd Ho Habs Hmax Hfp Hnf. unfold dirlink. destruct (dirlookup_spec f dp d name Hd) as (f0 & R0 & ->). rewrite Habs. cbn [obind].
  rewrite (the_inode_eq f0 dp d) by (rewrite (rd_icache _ _ R0); apply Hd). cbn [obind].
  destruct (free_dirent_spec f dp d Hd (Z.to_nat (i_size d / DESIZE + 1)) 0 f0 R0 ltac:(lia) ltac:(unfold nentries; lia)) as (f1 & R1 & E1).
  rewrite Z.mul_0_r in E1. rewrite E1. cbn [obind]. change (drop 0 ?l) with l. fold (empty_slot f d).
  pose proof (open_dir_reads _ _ _ _ R1 Hd) as Hd1. destruct (size_entries f dp d Hd) as [Hs Hr]. pose proof (empty_slot_le f d) as Hle. pose proof (rd_effect _ _ R1) as He.
  assert (footprint f1 d = footprint f d) as Hfp1 by (unfold footprint, bitmap_blocks; by rewrite (ef_logged _ _ _ He), dom_empty_L, (left_id_L ∅ _), (ef_sb _ _ _ He)).
  destruct (writei_spec dev_write f1 dp d (DESIZE * Z.of_nat (empty_slot f d)) (mk_dirent inum name)) as (f' & d' & E & W).
  - apply Hd1.
  - by apply (ef_open _ _ _ He).
  - unfold DESIZE in *. lia.
  - rewrite mk_dirent_length. unfold DESIZE in *. lia.
  - rewrite mk_dirent_length, entry_one_block, Hfp1. done.
  - rewrite mk_dirent_length, entry_one_block, (nfree_effect0 _ _ He). done.
  - exists f1, f', d'. split; [done|]. split; [|done]. change (match list_find _ _ with Some _ => _ | None => _ end) with (empty_slot f d). rewrite E. cbn [obind]. by rewrite mk_dirent_length.
Qed.

Lemma reads_entries f f' d : reads f f' -> dentries f' d = dentries f d.
Proof. intros R. unfold dentries. apply list_fmap_ext. intros j x _. by apply dentry_reads. Qed.

(** C5.  Directories: linking a name that a directory does not have yet, to
    an inode that the cache holds, succeeds when the directory can grow within
    MAXFILE blocks, one block is free and another if the directory needs its indirect block,
    and the log has room; [dirlookup] of that name then returns that inode, and every
    other name -- one that differs within the first [DIRSIZ] characters -- has the
    entry it had, at the same place. *)
Theorem dirlink_dirlookup me f dp d name inum q :
  open_dir f dp d -> b_open (blocks f) -> found f d name = None -> held_at f (i_dev d) inum q ->
  0 < inum < 65536 -> Forall (fun c => 0 <= c < 256) name ->
  DESIZE * Z.of_nat (empty_slot f d) + DESIZE <= MAXFILE * BSIZE -> (footprint f d + 1 < FSCAP)%nat -> (ind_need d + 1 <= nfree f)%nat ->
  exists f' d' f'', dirlink me dev_read dev_write dp name inum f = Ok (0, f') /\ open_dir f' dp d'
    /\ dirlookup dev_read dp name f' = Ok (Some (q, DESIZE * Z.of_nat (empty_slot f d)), f'')
    /\ forall name', dkey name' <> dkey name -> found f' d' name' = found f d name'.
Proof.
  intros Hd Ho Habs Hq Hi Hby Hmax Hfp Hnf. destruct (dirlink_spec me f dp d name inum Hd Ho Habs Hmax Hfp Hnf) as (f1 & f' & d' & R & E & W).
  pose proof (open_dir_reads _ _ _ _ R Hd) as Hd1. pose proof (reads_entries _ _ d R) as HE.
  assert (empty_slot f d = empty_slot f1 d) as Hslot by (unfold empty_slot; by rewrite HE). rewrite Hslot in W |- *.
  assert (forall t, found f1 d t = found f d t) as Hfd by (intros t; unfold found; by rewrite HE).
  destruct (written_entries f1 dp d f' d' _ inum name Hd1 (empty_slot_le f1 d) Hby W) as (Hd' & _ & _).
  destruct (dirlookup_spec f' dp d' name Hd') as (g & Rg & Eg).
  rewrite (written_new f1 dp d f' d' inum name Hd1 Hby W Hi) in Eg by (by rewrite Hfd). rewrite mk_dirent_inum in Eg by lia.
  pose proof (wn_meta _ _ _ _ _ _ _ W) as Hm. assert (i_dev d' = i_dev d) as Hdev by (by rewrite Hm). rewrite Hdev in Eg.
  rewrite (iget_held g (i_dev d) inum q) in Eg.
  - eexists f', d', _. split; [done|]. split; [done|]. split; [exact Eg|]. intros t Ht. rewrite <- Hfd. by eapply written_found.
  - eapply (held_at_insert f1 g _ _ _ dp d d'); [|apply Hd1|by rewrite (rd_icache _ _ Rg), (wn_icache _ _ _ _ _ _ _ W)|by rewrite Hm..].
    destruct Hq as [Q1 Q2]. split; by rewrite (rd_icache _ _ R).
Qed.
End Dir.

(** * A run *)

Definition demo_dir : inode := Inode 1 1 1 (Sleeplock true 7) true T_DIR 0 0 1 0 (replicate 13 0).
Definition demo_dirfs : fs lst := FS demo_log [demo_dir; demo_inode 2] demo_sb.

Lemma demo_dir_open : open_dir demo_dirfs 0 demo_dir.
Proof.
  split; [|done|done]. destruct demo_wf, (demo_inode_ok 1). split; [split| |split| | |]; cbn in *; eauto; try done.
  - by destruct fw_geo.
  - split; try done; cbn. unfold is_u32. repeat constructor; lia.
Qed.

Lemma dirlink_dirlookup_witness :
  exists f' f'', dirlink 7 (fun _ => None) (fun _ => None) 0 [97] 2 demo_dirfs = Ok (0, f')
    /\ dirlookup (fun _ => None) 0 [97] f' = Ok (Some (1%nat, 0), f'').
Proof.
  destruct (dirlink_dirlookup (fun _ => None) (fun _ => None) 7 demo_dirfs 0 demo_dir [97] 2 1) as (f' & d' & f'' & E1 & _ & E2 & _).
  - exact demo_dir_open.
  - exact (Z.le_refl 1).
  - reflexivity.
  - split; [by exists (demo_inode 2)|]. intros [|[|q]] i' Hi _ _ H2; [|done|done]. injection Hi as <-. discriminate H2.
  - lia.
  - repeat constructor; lia.
  - by vm_compute.
  - apply Nat.ltb_lt. by vm_compute.
  - apply Nat.leb_le. change (nfree demo_dirfs) with (nfree demo_fs). rewrite demo_nfree. by vm_compute.
  - exists f', f''. split; [exact E1|exact E2].
Defined.
