(* ===== verification/File.v ===== *)
(** file.c and pipealloc of pipe.c: the table of open files.  A file is named
    by its index in [ftable.file], a pipe by the address of its page.  The
    critical sections on [ftable.lock] are atomic steps of this model; reads
    and writes of a pipe run until they return or sleep. *)
From S2P Require Import Prelude Mem KString Mmu Kalloc Spinlock Pipe Bio Log Fs.

Definition NFILE : nat := 100.

Inductive ftype := FD_NONE | FD_PIPE | FD_INODE.

#[export] Instance ftype_eq_dec : EqDecision ftype.
Proof. solve_decision. Defined.

(** [struct file]. *)
Record file := File {
  f_type : ftype;
  f_ref : Z;
  f_readable : bool;
  f_writable : bool;
  f_pipe : Z;
  f_ip : nat;
  f_off : Z;
  f_name : Z
}.

(** An entry of the zeroed [ftable]. *)
Definition file0 : file := File FD_NONE 0 false false 0 0 0 0.

Definition f_with_ref (r : Z) (f : file) : file :=
  File (f_type f) r (f_readable f) (f_writable f) (f_pipe f) (f_ip f) (f_off f) (f_name f).
Definition f_with_type (t : ftype) (f : file) : file :=
  File t (f_ref f) (f_readable f) (f_writable f) (f_pipe f) (f_ip f) (f_off f) (f_name f).
Definition f_with_mode (r w : bool) (f : file) : file :=
  File (f_type f) (f_ref f) r w (f_pipe f) (f_ip f) (f_off f) (f_name f).
Definition f_with_pipe (p : Z) (f : file) : file :=
  File (f_type f) (f_ref f) (f_readable f) (f_writable f) p (f_ip f) (f_off f) (f_name f).
Definition f_with_ip (ip : nat) (f : file) : file :=
  File (f_type f) (f_ref f) (f_readable f) (f_writable f) (f_pipe f) ip (f_off f) (f_name f).
Definition f_with_off (o : Z) (f : file) : file :=
  File (f_type f) (f_ref f) (f_readable f) (f_writable f) (f_pipe f) (f_ip f) o (f_name f).
Definition f_with_name (a : Z) (f : file) : file :=
  File (f_type f) (f_ref f) (f_readable f) (f_writable f) (f_pipe f) (f_ip f) (f_off f) a.

(** [ftable.file], the pipes in use by the address of their page, and the
    file system. *)
Record fstate (S : Type) := Fstate { ftab : list file; pipes : gmap Z pipe; ffs : fs S }.
Arguments Fstate {S}.
Arguments ftab {S}.
Arguments pipes {S}.
Arguments ffs {S}.

(** A call that may sleep: its result, or the channel it sleeps on; with the
    channels it woke. *)
Inductive fres (S A : Type) :=
| FDone (a : A) (woken : list Z) (s : fstate S)
| FSleep (c : Z) (woken : list Z) (s : fstate S).
Arguments FDone {S A}.
Arguments FSleep {S A}.

(** The addresses [&p->nread] and [&p->nwrite] in the page at [p], and the
    bytes of [p->data]. *)
Definition chan_addr (p : Z) (c : chan) : Z := match c with NREAD => p + 564 | NWRITE => p + 568 end.
Definition page_ring (m : mem) (p : Z) : list Z := bytes_at m (p + 52) (Z.to_nat PIPESIZE).

(** [max] of [filewrite]: ((MAXOPBLOCKS-1-1-2) / 2) * 512. *)
Definition max_chunk : Z := ((MAXOPBLOCKS - 1 - 1 - 2) / 2) * 512.

Section File.
Context {S : Type} `{BlockOps S} (me : Z).
Context (dev_read : Z -> option (nat -> Z -> fs S -> outcome (option (list Z) * fs S))).
Context (dev_write : Z -> option (nat -> list Z -> fs S -> outcome (Z * fs S))).
Context (kend : Z).

Definition set_ftab (t : list file) (s : fstate S) : fstate S := Fstate t (pipes s) (ffs s).
Definition set_pipes (p : gmap Z pipe) (s : fstate S) : fstate S := Fstate (ftab s) p (ffs s).
Definition set_ffs (f : fs S) (s : fstate S) : fstate S := Fstate (ftab s) (pipes s) f.
Definition upd_file (i : nat) (g : file -> file) (s : fstate S) : fstate S := set_ftab (alter g i (ftab s)) s.

Definition the_file (i : nat) (s : fstate S) : outcome file :=
  match ftab s !! i with Some f => Ok f | None => UB "file pointer out of bounds" end.

Definition the_pipe (p : Z) (s : fstate S) : outcome pipe :=
  match pipes s !! p with Some q => Ok q | None => UB "pipe pointer out of bounds" end.

(** [begin_op] and [end_op] of a file system call that runs alone. *)
Definition fs_begin_op (f : fs S) : outcome (fs S) :=
  match b_begin (blocks f) with
  | Some b => Ok (set_blocks b f)
  | None => UB "begin_op: sleeps forever"
  end.
Definition fs_end_op (f : fs S) : outcome (fs S) :=
  let! b := b_end (blocks f) in Ok (set_blocks b f).

(** The scan of [filealloc], from index [i]. *)
Fixpoint free_file (i : nat) (t : list file) : option nat :=
  match t with
  | [] => None
  | f :: t => if f_ref f =? 0 then Some i else free_file (Datatypes.S i) t
  end.

Definition filealloc (s : fstate S) : option nat * fstate S :=
  match free_file 0 (ftab s) with
  | Some i => (Some i, upd_file i (f_with_ref 1) s)
  | None => (None, s)
  end.

Definition filedup (i : nat) (s : fstate S) : outcome (fstate S) :=
  let! f := the_file i s in
  if f_ref f <? 1 then Panic "filedup"
  else if f_ref f =? 2147483647 then UB "filedup: ref overflows"
  else Ok (upd_file i (f_with_ref (f_ref f + 1)) s).

(** [pipeclose] on the pipe in the page [p], which it may free. *)
Definition pipe_close (p : Z) (writable : bool) (s : fstate S) (km : kst) : outcome (list Z * fstate S * kst) :=
  let! q := the_pipe p s in
  let '(q, c, dead) := pipeclose writable q in
  if dead then
    let! km := kfree kend p km in
    Ok ([chan_addr p c], set_pipes (delete p (pipes s)) s, km)
  else Ok ([chan_addr p c], set_pipes (<[p := q]> (pipes s)) s, km).

Definition fileclose (i : nat) (s : fstate S) (km : kst) : outcome (list Z * fstate S * kst) :=
  let! f := the_file i s in
  if f_ref f <? 1 then Panic "fileclose"
  else if 0 <? f_ref f - 1 then Ok ([], upd_file i (f_with_ref (f_ref f - 1)) s, km)
  else
    let s := upd_file i (fun f => f_with_type FD_NONE (f_with_ref 0 f)) s in
    match f_type f with
    | FD_PIPE => pipe_close (f_pipe f) (f_writable f) s km
    | FD_INODE =>
        let! g := fs_begin_op (ffs s) in
        let! g := iput me (f_ip f) g in
        let! g := fs_end_op g in
        Ok ([], set_ffs g s, km)
    | FD_NONE => Ok ([], s, km)
    end.

(** [None] is the result -1. *)
Definition filestat (i : nat) (s : fstate S) : outcome (option stat * fstate S) :=
  let! f := the_file i s in
  match f_type f with
  | FD_INODE =>
      let! g := ilock me (f_ip f) (ffs s) in
      let! ip := the_inode (f_ip f) g in
      let st := stati ip in
      let! g := iunlock me (f_ip f) g in
      Ok (Some st, set_ffs g s)
  | _ => Ok (None, s)
  end.

Definition fileseek (i : nat) (offset : Z) (s : fstate S) : outcome (fstate S) :=
  let! f := the_file i s in
  match f_type f with
  | FD_INODE =>
      let! g := ilock me (f_ip f) (ffs s) in
      let s := upd_file i (f_with_off (u32 offset)) s in
      let! g := iunlock me (f_ip f) g in
      Ok (set_ffs g s)
  | _ => Panic "fileseek"
  end.

(** A run of pipe.c on the pipe in the page [p]. *)
Definition pipe_run {A} (p : Z) (r : run A) (s : fstate S) : fres S A :=
  match r with
  | Slept c ws _ q => FSleep (chan_addr p c) (chan_addr p <$> ws) (set_pipes (<[p := q]> (pipes s)) s)
  | Returned a ws q => FDone a (chan_addr p <$> ws) (set_pipes (<[p := q]> (pipes s)) s)
  end.

(** [None] is the result -1; otherwise the bytes put at [addr]. *)
Definition fileread (killed : bool) (i : nat) (n : Z) (s : fstate S) : outcome (fres S (option (list Z))) :=
  let! f := the_file i s in
  if negb (f_readable f) then Ok (FDone None [] s)
  else
    match f_type f with
    | FD_PIPE =>
        let! q := the_pipe (f_pipe f) s in
        Ok (pipe_run (f_pipe f) (piperead killed n q) s)
    | FD_INODE =>
        let! g := ilock me (f_ip f) (ffs s) in
        let! (r, g) := readi dev_read (f_ip f) (f_off f) (u32 n) g in
        let s := match r with
                 | Some bytes => upd_file i (f_with_off (u32 (f_off f + Z.of_nat (length bytes)))) s
                 | None => s
                 end in
        let! g := iunlock me (f_ip f) g in
        Ok (FDone r [] (set_ffs g s))
    | FD_NONE => Panic "fileread"
    end.

(** The loop of [filewrite] and [overwrite_file] with [i] of the [n] bytes of
    [src] written; each round writes at most [max_chunk] bytes. *)
Fixpoint filewrite_loop (fuel : nat) (fi : nat) (src : list Z) (i n : Z) (s : fstate S) : outcome (Z * fstate S) :=
  if i <? n then
    match fuel with
    | O => UB "filewrite: fuel"
    | Datatypes.S fuel =>
        let n1 := Z.min (n - i) max_chunk in
        let! f := the_file fi s in
        let! g := fs_begin_op (ffs s) in
        let! g := ilock me (f_ip f) g in
        let! (r, g) := writei dev_write (f_ip f) (take (Z.to_nat n1) (drop (Z.to_nat i) src)) (f_off f) g in
        let s := if 0 <? r then upd_file fi (f_with_off (u32 (f_off f + r))) s else s in
        let! g := iunlock me (f_ip f) g in
        let! g := fs_end_op g in
        let s := set_ffs g s in
        if r <? 0 then Ok (i, s)
        else if negb (r =? n1) then Panic "short filewrite"
        else filewrite_loop fuel fi src (i + r) n s
    end
  else Ok (i, s).

Definition write_result (n : Z) (r : Z * fstate S) : fres S Z :=
  FDone (if r.1 =? n then n else -1) [] r.2.

Definition filewrite (killed : bool) (i : nat) (src : list Z) (n : Z) (s : fstate S) : outcome (fres S Z) :=
  let! f := the_file i s in
  if negb (f_writable f) then Ok (FDone (-1) [] s)
  else
    match f_type f with
    | FD_PIPE =>
        let! q := the_pipe (f_pipe f) s in
        Ok (pipe_run (f_pipe f) (pipewrite killed (take (Z.to_nat n) src) q) s)
    | FD_INODE => let! r := filewrite_loop (Z.to_nat n) i src 0 n s in Ok (write_result n r)
    | FD_NONE => Panic "filewrite"
    end.

(** [filewrite] from the start of the file. *)
Definition overwrite_file (killed : bool) (i : nat) (src : list Z) (n : Z) (s : fstate S) : outcome (fres S Z) :=
  let! f := the_file i s in
  if negb (f_writable f) then Ok (FDone (-1) [] s)
  else
    match f_type f with
    | FD_PIPE =>
        let! q := the_pipe (f_pipe f) s in
        Ok (pipe_run (f_pipe f) (pipewrite killed (take (Z.to_nat n) src) q) s)
    | FD_INODE =>
        let s := upd_file i (f_with_off 0) s in
        let! r := filewrite_loop (Z.to_nat n) i src 0 n s in Ok (write_result n r)
    | FD_NONE => Panic "filewrite"
    end.

(** [pipealloc]: the indices of the two ends, or [None] for -1.  The pages of
    [kalloc] are those of [km]. *)
Definition pipealloc (s : fstate S) (km : kst) : outcome (option (nat * nat) * fstate S * kst) :=
  let '(f0, s) := filealloc s in
  match f0 with
  | None => Ok (None, s, km)
  | Some f0 =>
      let '(f1, s) := filealloc s in
      match f1 with
      | None => let! (_, s, km) := fileclose f0 s km in Ok (None, s, km)
      | Some f1 =>
          let '(p, km) := kalloc km in
          if p =? 0 then
            let! (_, s, km) := fileclose f0 s km in
            let! (_, s, km) := fileclose f1 s km in
            Ok (None, s, km)
          else
            let s := set_pipes (<[p := pipe_init (page_ring (kmem_mem km) p)]> (pipes s)) s in
            let s := upd_file f0 (fun f => f_with_pipe p (f_with_mode true false (f_with_type FD_PIPE f))) s in
            let s := upd_file f1 (fun f => f_with_pipe p (f_with_mode false true (f_with_type FD_PIPE f))) s in
            Ok (Some (f0, f1), s, km)
      end
  end.

End File.
