(* ===== verification/Wmap.v ===== *)
(** sysproc.c, first part, and wmap.h: the table of memory mappings.  The
    table is an array of [MEM_HASH_SIZE] bucket heads; a bucket with more than
    one mapping chains through nodes of [nodePool], which are handed out once
    and never returned.  A pointer to a node names the array and the index, so
    that nodes are shared and updated in place as in the source; an index
    outside its array is undefined behaviour. *)
From S2P Require Import Prelude Mmu.

Definition MAP_PRIVATE : Z := 1.
Definition MAP_SHARED : Z := 2.
Definition MAP_ANONYMOUS : Z := 4.
Definition MAP_FIXED : Z := 8.
Definition MREMAP_MAYMOVE : Z := 1.
Definition MAX_UPAGE_INFO : Z := 32.
Definition MAX_WMMAP_INFO : Z := 16.
Definition MEM_HASH_SIZE : Z := 19.

(** [-1] and [FAILED] as a [uint]. *)
Definition U_FAILED : Z := 4294967295.

(** [&table[i]] or [&nodePool[i]]. *)
Inductive nref := Tab (i : Z) | Pool (i : Z).

#[export] Instance nref_eq_dec : EqDecision nref.
Proof. solve_decision. Defined.

Record memHashNode := Node {
  startAddress : Z;
  numPages : Z;
  nlength : Z;
  nfd : Z;
  nflags : Z;
  loadedPages : Z;
  next : option nref
}.

#[export] Instance memHashNode_eq_dec : EqDecision memHashNode.
Proof. solve_decision. Defined.

Record wst := Wst {
  table : list memHashNode;
  nodePool : list memHashNode;
  mostRecent : option nref;
  hashInit : Z;
  poolCounter : Z
}.

(** The globals before [main]: zeroed arrays, and the two initialisers. *)
Definition zero_node : memHashNode := Node 0 0 0 0 0 0 None.

Definition wst0 : wst :=
  Wst (replicate 19 zero_node) (replicate 16 zero_node) None (-1) 0.

(** Dereferencing and updating a node. *)
Definition node_at (w : wst) (r : nref) : option memHashNode :=
  match r with
  | Tab i => if 0 <=? i then table w !! Z.to_nat i else None
  | Pool i => if 0 <=? i then nodePool w !! Z.to_nat i else None
  end.

Definition deref (w : wst) (r : nref) : outcome memHashNode :=
  match node_at w r with Some n => Ok n | None => UB "node index out of bounds" end.

Definition set_node (r : nref) (n : memHashNode) (w : wst) : wst :=
  match r with
  | Tab i => Wst (<[Z.to_nat i := n]> (table w)) (nodePool w) (mostRecent w) (hashInit w) (poolCounter w)
  | Pool i => Wst (table w) (<[Z.to_nat i := n]> (nodePool w)) (mostRecent w) (hashInit w) (poolCounter w)
  end.

Definition set_mostRecent (r : nref) (w : wst) : wst :=
  Wst (table w) (nodePool w) (Some r) (hashInit w) (poolCounter w).

Definition set_hashInit (h : Z) (w : wst) : wst :=
  Wst (table w) (nodePool w) (mostRecent w) h (poolCounter w).

Definition set_poolCounter (c : Z) (w : wst) : wst :=
  Wst (table w) (nodePool w) (mostRecent w) (hashInit w) c.

Definition with_start (a : Z) (n : memHashNode) : memHashNode :=
  Node a (numPages n) (nlength n) (nfd n) (nflags n) (loadedPages n) (next n).

Definition with_next (p : option nref) (n : memHashNode) : memHashNode :=
  Node (startAddress n) (numPages n) (nlength n) (nfd n) (nflags n) (loadedPages n) p.

Definition with_length (len : Z) (n : memHashNode) : memHashNode :=
  Node (startAddress n) (numPages n) len (nfd n) (nflags n) (loadedPages n) (next n).

Definition with_loaded (k : Z) (n : memHashNode) : memHashNode :=
  Node (startAddress n) (numPages n) (nlength n) (nfd n) (nflags n) k (next n).

(** A walk along a chain visits at most the 19 + 16 nodes there are. *)
Definition NODES : nat := 36.

Definition hash (key : Z) : Z := Z.rem key MEM_HASH_SIZE.

Definition initHashTable (w : wst) : wst :=
  Wst ((fun n => with_next None (with_start U_FAILED n)) <$> table w)
      (nodePool w) (mostRecent w) (hashInit w) (poolCounter w).

Definition hashInsert (start length numPages fd flags : Z) (w : wst) : outcome wst :=
  let index := hash (s32 start) in
  let! head := deref w (Tab index) in
  if startAddress head =? U_FAILED then
    let n := Node start numPages length fd flags 0 (next head) in
    Ok (set_mostRecent (Tab index) (set_node (Tab index) n w))
  else
    let r := Pool (poolCounter w) in
    let w := set_poolCounter (poolCounter w + 1) w in
    let! _ := deref w r in
    let n := Node start numPages length fd flags 0 (next head) in
    let w := set_node r n w in
    let w := set_node (Tab index) (with_next (Some r) head) w in
    Ok (set_mostRecent r w).

Fixpoint hashSearch_loop (fuel : nat) (value : Z) (node : option nref) (w : wst) : outcome (option nref) :=
  match node with
  | None => Ok None
  | Some r =>
      match fuel with
      | O => UB "hashSearch: out of fuel"
      | S k =>
          let! n := deref w r in
          if startAddress n =? u32 value then Ok (Some r)
          else hashSearch_loop k value (next n) w
      end
  end.

Definition hashSearch (value : Z) (w : wst) : outcome (option nref) :=
  hashSearch_loop NODES value (Some (Tab (hash value))) w.

(** The walk of [removeValue]: the node with [start] and its predecessor. *)
Fixpoint removeValue_find (fuel : nat) (start : Z) (prev node : option nref) (w : wst)
    : outcome (option nref * option nref) :=
  match node with
  | None => Ok (prev, None)
  | Some r =>
      match fuel with
      | O => UB "removeValue: out of fuel"
      | S k =>
          let! n := deref w r in
          if startAddress n =? u32 start then Ok (prev, Some r)
          else removeValue_find k start (Some r) (next n) w
      end
  end.

Definition removeValue (start : Z) (w : wst) : outcome (Z * wst) :=
  let index := hash start in
  let! head := deref w (Tab index) in
  if startAddress head =? u32 start then
    match next head with
    | Some r =>
        let! temp := deref w r in
        Ok (1, set_node (Tab index) (with_next (next temp) (with_start (startAddress temp) head)) w)
    | None =>
        Ok (1, set_node (Tab index) (with_next None (with_start U_FAILED head)) w)
    end
  else
    let! (prev, node) := removeValue_find NODES start None (Some (Tab index)) w in
    match node with
    | None => Ok (-1, w)
    | Some r =>
        match prev with
        | Some p =>
            let! n := deref w r in
            let! pn := deref w p in
            let w := set_node p (with_next (next n) pn) w in
            Ok (1, set_node r (with_next None (with_start U_FAILED n)) w)
        | None => Ok (1, w)
        end
    end.

(** [startAddress <= address && address < startAddress + numPages * PGSIZE],
    compared as [uint]. *)
Definition covers (n : memHashNode) (address : Z) : bool :=
  (startAddress n <=? u32 address)
  && (u32 address <? u32 (startAddress n + s32 (numPages n * PGSIZE))).

Fixpoint covers_loop (fuel : nat) (address : Z) (node : option nref) (w : wst) : outcome (option nref) :=
  match node with
  | None => Ok None
  | Some r =>
      match fuel with
      | O => UB "pageInMappings: out of fuel"
      | S k =>
          let! n := deref w r in
          if covers n address then Ok (Some r) else covers_loop k address (next n) w
      end
  end.

(** [for (int i = 0; i < MEM_HASH_SIZE; i++)], from [i] with [n] to go. *)
Fixpoint pageInMappings_loop (n : nat) (i address : Z) (w : wst) : outcome (option nref) :=
  match n with
  | O => Ok None
  | S k =>
      let! r := covers_loop NODES address (Some (Tab i)) w in
      match r with
      | Some r => Ok (Some r)
      | None => pageInMappings_loop k (i + 1) address w
      end
  end.

Definition pageInMappings (address : Z) (w : wst) : outcome (option nref) :=
  let! node := hashSearch address w in
  match node with
  | Some r => Ok (Some r)
  | None => pageInMappings_loop (Z.to_nat MEM_HASH_SIZE) 0 address w
  end.

(** The end of a mapping, [startAddress + numPages * PGSIZE]. *)
Definition node_end (n : memHashNode) : Z := u32 (startAddress n + s32 (numPages n * PGSIZE)).

(** The inner [for] of [wmap]: the first [i] at which a page is taken, or
    [roundLength]. *)
Fixpoint wmap_scan (fuel : nat) (addr i roundLength : Z) (w : wst) : outcome Z :=
  if i <? roundLength then
    match fuel with
    | O => UB "wmap: out of fuel"
    | S k =>
        let! r := pageInMappings (s32 (addr + i)) w in
        match r with
        | Some _ => Ok i
        | None => wmap_scan k addr (i + PGSIZE) roundLength w
        end
    end
  else Ok i.

(** The [do ... while (baseAddr != addr)] of [wmap]: the address to map. *)
Fixpoint wmap_search (fuel : nat) (baseAddr addr roundLength : Z) (w : wst) : outcome Z :=
  match fuel with
  | O => UB "wmap: out of fuel"
  | S k =>
      let! i := wmap_scan (Z.to_nat (roundLength / PGSIZE + 1)) addr 0 roundLength w in
      if i =? roundLength then Ok addr
      else
        let! newNode := pageInMappings (s32 (addr + i)) w in
        let! addr := match newNode with
                     | None => Ok (u32 (addr + PGSIZE))
                     | Some r => let! n := deref w r in Ok (node_end n)
                     end in
        if u32 baseAddr =? addr then Ok addr else wmap_search k baseAddr addr roundLength w
  end.

Definition in_window (addr : Z) : bool := (1610612736 <=? addr) && (addr <? 2147483648).

Definition round_length (length : Z) : Z :=
  if negb (Z.rem length PGSIZE =? 0) then s32 (length + (PGSIZE - Z.rem length PGSIZE)) else length.

(** Where the search for a place begins: behind the mapping that contains [addr],
    or else behind the most recent one, or at the start of the window. *)
Definition wmap_base (addr : Z) (w : wst) : outcome Z :=
  let! node := pageInMappings (s32 addr) w in
  let! addr := match node with
               | None => match mostRecent w with
                         | None => UB "wmap: mostRecent is null"
                         | Some r => let! n := deref w r in Ok (node_end n)
                         end
               | Some r => let! n := deref w r in Ok (node_end n)
               end in
  Ok (if negb (in_window addr) then MMAPBASE else addr).

Definition wmap (addr length flags fd : Z) (w : wst) : outcome (Z * wst) :=
  let addr := if negb (addr mod 4096 =? 0) then PGROUNDDOWN addr else addr in
  let w := if hashInit w =? -1 then set_hashInit 1 (initHashTable w) else w in
  if length <=? 0 then Ok (U_FAILED, w)
  else
    let roundLength := round_length length in
    let createMap addr :=
      let! w := hashInsert addr length (Z.quot roundLength PGSIZE) fd flags w in Ok (addr, w) in
    if has flags MAP_FIXED then
      if negb (in_window addr) then Ok (U_FAILED, w)
      else
        let! r := pageInMappings (s32 addr) w in
        match r with
        | Some _ => Ok (U_FAILED, w)
        | None => createMap addr
        end
    else
      let! addr := wmap_base addr w in
      let! addr := wmap_search 64 (s32 addr) addr roundLength w in
      createMap addr.

(** [struct wmapinfo]: the count and the three arrays of 16. *)
Record wmapinfo := Wmapinfo {
  total_mmaps : Z;
  wi_addr : list Z;
  wi_length : list Z;
  wi_n_loaded_pages : list Z
}.

Definition zero_wmapinfo : wmapinfo :=
  Wmapinfo 0 (replicate 16 0) (replicate 16 0) (replicate 16 0).

(** Record one node at [pageCount]; the arrays have 16 slots. *)
Definition wmapinfo_add (n : memHashNode) (acc : wmapinfo * Z) : outcome (wmapinfo * Z) :=
  let '(wi, pageCount) := acc in
  if pageCount <? MAX_WMMAP_INFO then
    let k := Z.to_nat pageCount in
    Ok (Wmapinfo (total_mmaps wi + 1)
          (<[k := s32 (startAddress n)]> (wi_addr wi))
          (<[k := nlength n]> (wi_length wi))
          (<[k := loadedPages n]> (wi_n_loaded_pages wi)), pageCount + 1)
  else UB "getwmapinfo: array overflow".

Fixpoint getwmapinfo_chain (fuel : nat) (node : option nref) (w : wst) (acc : wmapinfo * Z)
    : outcome (wmapinfo * Z) :=
  match node with
  | None => Ok acc
  | Some r =>
      match fuel with
      | O => UB "getwmapinfo: out of fuel"
      | S k =>
          let! n := deref w r in
          let! acc := wmapinfo_add n acc in
          getwmapinfo_chain k (next n) w acc
      end
  end.

Fixpoint getwmapinfo_loop (n : nat) (i : Z) (w : wst) (acc : wmapinfo * Z) : outcome (wmapinfo * Z) :=
  match n with
  | O => Ok acc
  | S k =>
      let! h := deref w (Tab i) in
      let! acc := (if negb (startAddress h =? U_FAILED) then
                     let! acc := wmapinfo_add h acc in getwmapinfo_chain NODES (next h) w acc
                   else Ok acc) in
      getwmapinfo_loop k (i + 1) w acc
  end.

Definition getwmapinfo (w : wst) : outcome (wmapinfo * wst) :=
  if hashInit w =? -1 then Ok (zero_wmapinfo, set_hashInit 0 (initHashTable w))
  else
    let! (wi, _) := getwmapinfo_loop (Z.to_nat MEM_HASH_SIZE) 0 w (zero_wmapinfo, 0) in
    Ok (wi, w).

(** [while (node != 0 && node->startAddress != -1) { hashInsert(...); ... }] *)
Fixpoint forkHelper_chain (fuel : nat) (node : option nref) (w : wst) : outcome wst :=
  match node with
  | None => Ok w
  | Some r =>
      match fuel with
      | O => UB "forkHelper: out of fuel"
      | S k =>
          let! n := deref w r in
          if startAddress n =? U_FAILED then Ok w
          else
            let! w := hashInsert (startAddress n) (nlength n) (numPages n) (nfd n) (nflags n) w in
            let! n := deref w r in
            forkHelper_chain k (next n) w
      end
  end.

Fixpoint forkHelper_loop (n : nat) (i : Z) (w : wst) : outcome wst :=
  match n with
  | O => Ok w
  | S k =>
      let! w := forkHelper_chain NODES (Some (Tab i)) w in
      forkHelper_loop k (i + 1) w
  end.

Definition forkHelper (w : wst) : outcome wst := forkHelper_loop (Z.to_nat MEM_HASH_SIZE) 0 w.

(** [while (node != 0 && node->startAddress != -1) { removeValue(...); ... }] *)
Fixpoint exitHelper_chain (fuel : nat) (node : option nref) (w : wst) : outcome wst :=
  match node with
  | None => Ok w
  | Some r =>
      match fuel with
      | O => UB "exitHelper: out of fuel"
      | S k =>
          let! n := deref w r in
          if startAddress n =? U_FAILED then Ok w
          else
            let! (_, w) := removeValue (s32 (startAddress n)) w in
            let! n := deref w r in
            exitHelper_chain k (next n) w
      end
  end.

Fixpoint exitHelper_loop (n : nat) (i : Z) (w : wst) : outcome wst :=
  match n with
  | O => Ok w
  | S k =>
      let! w := exitHelper_chain NODES (Some (Tab i)) w in
      exitHelper_loop k (i + 1) w
  end.

Definition exitHelper (w : wst) : outcome wst := exitHelper_loop (Z.to_nat MEM_HASH_SIZE) 0 w.

(** [can_grow_in_place] scans the pages from the old end to the new one. *)
Fixpoint can_grow_loop (fuel : nat) (a stop : Z) (w : wst) : outcome bool :=
  if a <? stop then
    match fuel with
    | O => UB "can_grow_in_place: out of fuel"
    | S k =>
        let! r := pageInMappings (s32 a) w in
        match r with
        | Some _ => Ok false
        | None => can_grow_loop k (u32 (a + PGSIZE)) stop w
        end
    end
  else Ok true.

Definition can_grow_in_place (oldaddr oldsize newsize : Z) (w : wst) : outcome bool :=
  let a := u32 (oldaddr + oldsize) in
  let stop := u32 (oldaddr + newsize) in
  can_grow_loop (Z.to_nat (stop / PGSIZE + 1)) a stop w.
