(* ===== verification/Proc.v ===== *)
(** proc.c: the process table, the scheduler's choice, [sleep], [wakeup],
    [fork], [exit], [wait], [kill].  A process is named by its index in
    [ptable.proc].  What the code does under [ptable.lock] between two
    context switches is one step.  [fork] and [exit] reach the file system
    through the operations of the class [FileRefs]. *)
From S2P Require Import Prelude Mem KString Mmu Kalloc Vm Spinlock Wmap.

Definition NPROC : nat := 64.
Definition NOFILE : nat := 16.
Definition KSTACKSIZE : Z := 4096.
Definition FL_IF : Z := 512.
Definition SEG_UCODE : Z := 3.
Definition SEG_UDATA : Z := 4.
Definition DPL_USER : Z := 3.

Inductive procstate := UNUSED | EMBRYO | SLEEPING | RUNNABLE | RUNNING | ZOMBIE.

#[export] Instance procstate_eq_dec : EqDecision procstate.
Proof. solve_decision. Defined.

(** A sleep channel: a process pointer, as [wait] uses, or another address. *)
Inductive pchan := CProc (i : nat) | CAddr (a : Z).

#[export] Instance pchan_eq_dec : EqDecision pchan.
Proof. solve_decision. Defined.

Record proc := Proc {
  sz : Z;
  pgdir : Z;
  kstack : Z;
  state : procstate;
  pid : Z;
  parent : option nat;
  tf : Z;
  context : Z;
  pchan_of : option pchan;
  killed : bool;
  ofile : list (option nat);
  cwd : option nat;
  name : list Z
}.

(** An entry of the zeroed [ptable]. *)
Definition proc0 : proc := Proc 0 0 0 UNUSED 0 None 0 0 None false (replicate NOFILE None) None (replicate 16 0).

Definition with_state (s : procstate) (p : proc) : proc :=
  Proc (sz p) (pgdir p) (kstack p) s (pid p) (parent p) (tf p) (context p) (pchan_of p) (killed p) (ofile p) (cwd p) (name p).
Definition with_pid (i : Z) (p : proc) : proc :=
  Proc (sz p) (pgdir p) (kstack p) (state p) i (parent p) (tf p) (context p) (pchan_of p) (killed p) (ofile p) (cwd p) (name p).
Definition with_kstack (a : Z) (p : proc) : proc :=
  Proc (sz p) (pgdir p) a (state p) (pid p) (parent p) (tf p) (context p) (pchan_of p) (killed p) (ofile p) (cwd p) (name p).
Definition with_frames (t c : Z) (p : proc) : proc :=
  Proc (sz p) (pgdir p) (kstack p) (state p) (pid p) (parent p) t c (pchan_of p) (killed p) (ofile p) (cwd p) (name p).
Definition with_chan (c : option pchan) (p : proc) : proc :=
  Proc (sz p) (pgdir p) (kstack p) (state p) (pid p) (parent p) (tf p) (context p) c (killed p) (ofile p) (cwd p) (name p).
Definition with_killed (b : bool) (p : proc) : proc :=
  Proc (sz p) (pgdir p) (kstack p) (state p) (pid p) (parent p) (tf p) (context p) (pchan_of p) b (ofile p) (cwd p) (name p).
Definition with_parent (q : option nat) (p : proc) : proc :=
  Proc (sz p) (pgdir p) (kstack p) (state p) (pid p) q (tf p) (context p) (pchan_of p) (killed p) (ofile p) (cwd p) (name p).
Definition with_space (d n : Z) (p : proc) : proc :=
  Proc n d (kstack p) (state p) (pid p) (parent p) (tf p) (context p) (pchan_of p) (killed p) (ofile p) (cwd p) (name p).
Definition with_files (o : list (option nat)) (c : option nat) (p : proc) : proc :=
  Proc (sz p) (pgdir p) (kstack p) (state p) (pid p) (parent p) (tf p) (context p) (pchan_of p) (killed p) o c (name p).
Definition with_name (n : list Z) (p : proc) : proc :=
  Proc (sz p) (pgdir p) (kstack p) (state p) (pid p) (parent p) (tf p) (context p) (pchan_of p) (killed p) (ofile p) (cwd p) n.

(** What [fork] and [exit] ask of the file system: files and inodes are named
    by their index in [ftable] and [icache].  Closing a file may free the page
    of a pipe and wakes the processes asleep on the channels it returns. *)
Class FileRefs (F : Type) := {
  filedup : nat -> F -> outcome F;
  fileclose : nat -> F -> kst -> outcome (list Z * F * kst);
  idup : nat -> F -> outcome F;
  iput_op : nat -> F -> outcome F
}.

(** The kernel: [ptable.proc], [nextpid], [initproc], memory, the table of
    mappings, the files, [c->proc] of each CPU, and [ticks] of trap.c. *)
Record kern (F : Type) := Kern {
  ptable : list proc;
  nextpid : Z;
  initproc : option nat;
  kmem : kst;
  wtab : wst;
  files : F;
  cpu_proc : list (option nat);
  ticks : Z
}.
Arguments Kern {F}.
Arguments ptable {F}.
Arguments nextpid {F}.
Arguments initproc {F}.
Arguments kmem {F}.
Arguments wtab {F}.
Arguments files {F}.
Arguments cpu_proc {F}.
Arguments ticks {F}.

Section Proc.
Context {F : Type} {FR : FileRefs F}.
Context (kend kdata trapret forkret : Z).

Definition set_ptable (t : list proc) (k : kern F) : kern F :=
  Kern t (nextpid k) (initproc k) (kmem k) (wtab k) (files k) (cpu_proc k) (ticks k).
Definition set_kmem (m : kst) (k : kern F) : kern F :=
  Kern (ptable k) (nextpid k) (initproc k) m (wtab k) (files k) (cpu_proc k) (ticks k).
Definition set_wtab (w : wst) (k : kern F) : kern F :=
  Kern (ptable k) (nextpid k) (initproc k) (kmem k) w (files k) (cpu_proc k) (ticks k).
Definition set_files (f : F) (k : kern F) : kern F :=
  Kern (ptable k) (nextpid k) (initproc k) (kmem k) (wtab k) f (cpu_proc k) (ticks k).
Definition set_cpu_proc (c : nat) (p : option nat) (k : kern F) : kern F :=
  Kern (ptable k) (nextpid k) (initproc k) (kmem k) (wtab k) (files k) (<[c := p]> (cpu_proc k)) (ticks k).

Definition set_ticks (t : Z) (k : kern F) : kern F :=
  Kern (ptable k) (nextpid k) (initproc k) (kmem k) (wtab k) (files k) (cpu_proc k) t.

(** [p->field = v] for the process at [i]. *)
Definition upd (i : nat) (f : proc -> proc) (k : kern F) : kern F := set_ptable (alter f i (ptable k)) k.

Definition the_proc (i : nat) (k : kern F) : outcome proc :=
  match ptable k !! i with Some p => Ok p | None => UB "process pointer out of bounds" end.

(** [mycpu]: the CPU whose [apicid] is [id]; [cpus] lists the [apicid]s. *)
Fixpoint mycpu_loop (cpus : list Z) (i : nat) (id : Z) : outcome nat :=
  match cpus with
  | [] => Panic "unknown apicid"
  | a :: cpus => if a =? id then Ok i else mycpu_loop cpus (S i) id
  end.

Definition mycpu (IF : bool) (cpus : list Z) (id : Z) : outcome nat :=
  if IF then Panic "mycpu called with interrupts enabled" else mycpu_loop cpus 0 id.

(** The first process in state [st], from index [i]. *)
Fixpoint find_state (st : procstate) (i : nat) (ps : list proc) : option nat :=
  match ps with
  | [] => None
  | p :: ps => if decide (state p = st) then Some i else find_state st (S i) ps
  end.

(** sizeof(struct trapframe) and sizeof(struct context). *)
Definition TFSIZE : Z := 76.
Definition CTXSIZE : Z := 20.

(** [nextpid++] overflows the [int] after the last pid. *)
Definition allocproc (k : kern F) : outcome (option nat * kern F) :=
  match find_state UNUSED 0 (ptable k) with
  | None => Ok (None, k)
  | Some i =>
      if nextpid k =? 2147483647 then UB "allocproc: nextpid overflows" else
      let k := upd i (fun p => with_pid (nextpid k) (with_state EMBRYO p)) k in
      let k := Kern (ptable k) (nextpid k + 1) (initproc k) (kmem k) (wtab k) (files k) (cpu_proc k) (ticks k) in
      let '(ks, km) := kalloc (kmem k) in
      let k := upd i (with_kstack ks) (set_kmem km k) in
      if ks =? 0 then Ok (None, upd i (with_state UNUSED) k)
      else
        let t := ks + KSTACKSIZE - TFSIZE in
        let c := t - 4 - CTXSIZE in
        let m := st32 (kmem_mem (kmem k)) (t - 4) trapret in
        let m := memset m c 0 CTXSIZE in
        let m := st32 m (c + 16) forkret in
        Ok (Some i, upd i (with_frames t c) (set_kmem (set_mem m (kmem k)) k))
  end.

(** The checks of [switchuvm] and what it loads: [ts.esp0] and [cr3]. *)
Definition switchuvm (p : proc) : outcome (Z * Z) :=
  if kstack p =? 0 then Panic "switchuvm: no kstack"
  else if pgdir p =? 0 then Panic "switchuvm: no pgdir"
  else Ok (u32 (kstack p + KSTACKSIZE), V2P (pgdir p)).

Definition growproc (cur : nat) (n : Z) (k : kern F) : outcome (Z * kern F) :=
  let! p := the_proc cur k in
  let! (sz', km) :=
    (if 0 <? n then allocuvm kend (pgdir p) (sz p) (u32 (sz p + n)) (kmem k)
     else if n <? 0 then deallocuvm kend (pgdir p) (sz p) (u32 (sz p + n)) (kmem k)
     else Ok (sz p, kmem k)) in
  if negb (n =? 0) && (sz' =? 0) then Ok (-1, set_kmem km k)
  else
    let! _ := switchuvm p in
    Ok (0, upd cur (with_space (pgdir p) sz') (set_kmem km k)).

(** [for(i = 0; i < NOFILE; i++) if(curproc->ofile[i]) ... filedup(...)] *)
Fixpoint dup_files (os : list (option nat)) (f : F) : outcome F :=
  match os with
  | [] => Ok f
  | Some i :: os => let! f := filedup i f in dup_files os f
  | None :: os => dup_files os f
  end.

(** [safestrcpy] of [n] bytes onto the array [dst]. *)
Fixpoint copy_name (n : nat) (dst src : list Z) : list Z :=
  match n, dst with
  | O, _ => dst
  | _, [] => []
  | S O, d :: dst => 0 :: dst
  | S n, d :: dst =>
      match src with
      | [] => d :: dst
      | c :: src => if c =? 0 then 0 :: (match dst with [] => [] | _ :: dst => 0 :: dst end)
                    else c :: copy_name n dst src
      end
  end.

Definition fork (cur : nat) (k : kern F) : outcome (Z * kern F) :=
  let! curproc := the_proc cur k in
  let! (np, k) := allocproc k in
  match np with
  | None => Ok (-1, k)
  | Some i =>
      let! np := the_proc i k in
      let! (d, km) := copyuvm kend kdata (pgdir curproc) (sz curproc) (kmem k) in
      let k := upd i (with_space d (sz np)) (set_kmem km k) in
      if d =? 0 then
        let! km := kfree kend (kstack np) (kmem k) in
        Ok (-1, upd i (fun p => with_state UNUSED (with_kstack 0 p)) (set_kmem km k))
      else
        let m := memmove (kmem_mem (kmem k)) (tf np) (tf curproc) TFSIZE in
        let m := st32 m (tf np + 28) 0 in
        let k := upd i (fun p => with_parent (Some cur) (with_space d (sz curproc) p)) (set_kmem (set_mem m (kmem k)) k) in
        let! f := dup_files (ofile curproc) (files k) in
        let! c := match cwd curproc with Some c => Ok c | None => UB "fork: null cwd" end in
        let! f := idup c f in
        let os := zip_with (fun o o' => match o with Some _ => o | None => o' end) (ofile curproc) (ofile np) in
        let k := upd i (fun p => with_name (copy_name 16 (name p) (name curproc)) (with_files os (cwd curproc) p)) (set_files f k) in
        let! w := forkHelper (wtab k) in
        let k := set_wtab w k in
        Ok (pid np, upd i (with_state RUNNABLE) k)
  end.

(** [p->state == SLEEPING && p->chan == chan]. *)
Definition wake_if (c : option pchan) (p : proc) : proc :=
  if decide (state p = SLEEPING /\ pchan_of p = c) then with_state RUNNABLE p else p.

Definition wakeup1 (c : option pchan) (t : list proc) : list proc := wake_if c <$> t.

Definition wakeup (c : option pchan) (k : kern F) : kern F := set_ptable (wakeup1 c (ptable k)) k.

(** The wakeups of a list of channels, in order. *)
Fixpoint wake_all (ws : list Z) (k : kern F) : kern F :=
  match ws with
  | [] => k
  | a :: ws => wake_all ws (wakeup (Some (CAddr a)) k)
  end.

(** The [fd] loop of [exit]. *)
Fixpoint close_files (os : list (option nat)) (f : F) (km : kst) : outcome (list Z * F * kst) :=
  match os with
  | [] => Ok ([], f, km)
  | Some i :: os =>
      let! (ws, f, km) := fileclose i f km in
      let! (ws', f, km) := close_files os f km in
      Ok (ws ++ ws', f, km)
  | None :: os => close_files os f km
  end.

(** [for(p = ...) if(p->parent == curproc) ...] of [exit], from index [i]
    with [n] to go; [init] is [initproc]. *)
Fixpoint reparent (n : nat) (i cur : nat) (init : option nat) (t : list proc) : list proc :=
  match n with
  | O => t
  | S n =>
      let t := match t !! i with
               | Some p =>
                   if decide (parent p = Some cur) then
                     let t := alter (with_parent init) i t in
                     if decide (state p = ZOMBIE) then wakeup1 (CProc <$> init) t else t
                   else t
               | None => t
               end in
      reparent n (S i) cur init t
  end.

(** [exit] up to the switch to the scheduler. *)
Definition exit (cur : nat) (k : kern F) : outcome (kern F) :=
  let! p := the_proc cur k in
  if decide (initproc k = Some cur) then Panic "init exiting"
  else
    let! (ws, f, km) := close_files (ofile p) (files k) (kmem k) in
    let k := wake_all ws (set_kmem km (set_files f k)) in
    let k := upd cur (fun p => with_files (replicate (length (ofile p)) None) (cwd p) p) k in
    let! w := exitHelper (wtab k) in
    let k := set_wtab w k in
    let! c := match cwd p with Some c => Ok c | None => UB "exit: null cwd" end in
    let! f := iput_op c (files k) in
    let k := upd cur (fun p => with_files (ofile p) None p) (set_files f k) in
    let k := wakeup (CProc <$> parent p) k in
    let k := set_ptable (reparent (length (ptable k)) 0 cur (initproc k) (ptable k)) k in
    Ok (upd cur (with_state ZOMBIE) k).

(** The scan of [wait]: whether [cur] has children among the processes from
    index [i], and the first one that is a zombie. *)
Fixpoint wait_scan (cur i : nat) (t : list proc) (havekids : bool) : bool * option nat :=
  match t with
  | [] => (havekids, None)
  | p :: t =>
      if decide (parent p = Some cur) then
        if decide (state p = ZOMBIE) then (true, Some i) else wait_scan cur (S i) t true
      else wait_scan cur (S i) t havekids
  end.

(** [p->chan = chan; p->state = SLEEPING]. *)
Definition go_to_sleep (c : option pchan) (p : proc) : proc := with_state SLEEPING (with_chan c p).

(** [sleep] up to the switch, on CPU [c]; and what it does when it resumes. *)
Definition sleep (c cur : nat) (ch : option pchan) (k : kern F) : kern F :=
  set_cpu_proc c None (upd cur (go_to_sleep ch) k).

Definition sleep_resume (cur : nat) (k : kern F) : kern F := upd cur (with_chan None) k.

(** Freeing the slot of a zombie child. *)
Definition reap (i : nat) (k : kern F) : outcome (kern F) :=
  let! p := the_proc i k in
  let! km := kfree kend (kstack p) (kmem k) in
  let! km := freevm kend (pgdir p) km in
  let clear p := with_state UNUSED (with_killed false (with_name (<[0%nat := 0]> (name p))
                   (with_parent None (with_pid 0 (with_kstack 0 p))))) in
  Ok (upd i clear (set_kmem km k)).

(** One pass of the loop of [wait]: a return value, or [None] when it sleeps. *)
Definition wait (c cur : nat) (k : kern F) : outcome (option Z * kern F) :=
  let! p := the_proc cur k in
  match wait_scan cur 0 (ptable k) false with
  | (_, Some i) =>
      let! q := the_proc i k in
      let! k := reap i k in
      Ok (Some (pid q), k)
  | (havekids, None) =>
      if negb havekids || killed p then Ok (Some (-1), k)
      else Ok (None, sleep c cur (Some (CProc cur)) k)
  end.

(** The scheduler of CPU [c], its loop at index [pos]: the process it
    switches to. *)
Definition scheduler (c pos : nat) (k : kern F) : outcome (option nat * kern F) :=
  match find_state RUNNABLE pos (drop pos (ptable k)) with
  | None => Ok (None, k)
  | Some i =>
      let! p := the_proc i k in
      let! _ := switchuvm p in
      Ok (Some i, upd i (with_state RUNNING) (set_cpu_proc c (Some i) k))
  end.

(** The checks of [sched], on CPU [i] in state [cp] with [ptable.lock] [lk]. *)
Definition sched (lk : spinlock) (i : nat) (cp : cpu) (p : proc) : outcome bool :=
  let! (h, cp) := holding lk i cp in
  if negb h then Panic "sched ptable.lock"
  else if negb (ncli cp =? 1) then Panic "sched locks"
  else if decide (state p = RUNNING) then Panic "sched running"
  else if IF cp then Panic "sched interruptible"
  else Ok (intena cp).

(** [yield] up to the switch, on CPU [c]. *)
Definition yield (c cur : nat) (k : kern F) : kern F :=
  set_cpu_proc c None (upd cur (with_state RUNNABLE) k).

(** The loop of [kill], from index [i]. *)
Fixpoint kill_find (i : nat) (t : list proc) (id : Z) : option nat :=
  match t with
  | [] => None
  | p :: t => if pid p =? id then Some i else kill_find (S i) t id
  end.

Definition kill_proc (p : proc) : proc :=
  let p := with_killed true p in
  if decide (state p = SLEEPING) then with_state RUNNABLE p else p.

Definition kill (id : Z) (k : kern F) : Z * kern F :=
  match kill_find 0 (ptable k) id with
  | Some i => (0, upd i kill_proc k)
  | None => (-1, k)
  end.

(** The trap frame of the first process. *)
Definition user_frame (m : mem) (t : Z) : mem :=
  let m := memset m t 0 TFSIZE in
  let seg := Z.lor (Z.shiftl SEG_UCODE 3) DPL_USER in
  let dseg := Z.lor (Z.shiftl SEG_UDATA 3) DPL_USER in
  let m := st16 m (t + 60) seg in
  let m := st16 m (t + 44) dseg in
  let m := st16 m (t + 40) dseg in
  let m := st16 m (t + 72) dseg in
  let m := st32 m (t + 64) FL_IF in
  let m := st32 m (t + 68) PGSIZE in
  st32 m (t + 56) 0.

(** [userinit]: [initcode] and [size] are the linker's symbols of the boot
    program, [root] is [namei("/")], [nm] the bytes of "initcode". *)
Definition userinit (initcode size : Z) (root : option nat) (nm : list Z) (k : kern F) : outcome (kern F) :=
  let! (np, k) := allocproc k in
  match np with
  | None => UB "userinit: null process"
  | Some i =>
      let k := Kern (ptable k) (nextpid k) (Some i) (kmem k) (wtab k) (files k) (cpu_proc k) (ticks k) in
      let! p := the_proc i k in
      let! (d, km) := setupkvm kend kdata (kmem k) in
      if d =? 0 then Panic "userinit: out of memory?"
      else
        let! km := inituvm d initcode size km in
        let m := user_frame (kmem_mem km) (tf p) in
        let k := set_kmem (set_mem m km) k in
        let init p := with_state RUNNABLE (with_files (ofile p) root
                        (with_name (copy_name 16 (name p) nm) (with_space d PGSIZE p))) in
        Ok (upd i init k)
  end.

End Proc.
