(* ===== verification/Syscall.v ===== *)
(** syscall.c: the arguments of a system call and the dispatch.  The kernel
    reads and writes user addresses through the page table of the current
    process, so an access here walks the table as the hardware does; an access
    that would fault in the kernel is [UB]. *)
From S2P Require Import Prelude Mem KString Mmu Kalloc Vm Spinlock Wmap Proc.

(** Offsets of [struct trapframe]. *)
Definition TF_eax : Z := 28.
Definition TF_eip : Z := 56.

(** The kernel address of the byte at [va], for a read or a write.  With
    CR0.WP set the kernel too may write only through writable entries. *)
Definition translate (m : mem) (pgdir va : Z) (write : bool) : option Z :=
  let ok e := has e PTE_P && (negb write || has e PTE_W) in
  let d := ld32 m (pgdir + 4 * PDX va) in
  if ok d then
    let e := ld32 m (P2V (PTE_ADDR d) + 4 * PTX va) in
    if ok e then Some (P2V (PTE_ADDR e) + va mod PGSIZE) else None
  else None.

Definition uld8 (pgdir va : Z) (m : mem) : outcome Z :=
  match translate m pgdir va false with
  | Some a => Ok (ld8 m a)
  | None => UB "page fault on a user read"
  end.

Definition ust8 (pgdir va v : Z) (m : mem) : outcome mem :=
  match translate m pgdir va true with
  | Some a => Ok (st8 m a v)
  | None => UB "page fault on a user write"
  end.

(** [n] bytes at [va], and storing bytes there. *)
Fixpoint uget (pgdir va : Z) (n : nat) (m : mem) : outcome (list Z) :=
  match n with
  | O => Ok []
  | S n => let! b := uld8 pgdir va m in let! bs := uget pgdir (u32 (va + 1)) n m in Ok (b :: bs)
  end.

Fixpoint uput (pgdir va : Z) (bytes : list Z) (m : mem) : outcome mem :=
  match bytes with
  | [] => Ok m
  | b :: bytes => let! m := ust8 pgdir va b m in uput pgdir (u32 (va + 1)) bytes m
  end.

(** The bytes of a word, and the word of four bytes. *)
Definition word_bytes (v : Z) : list Z := [u8 v; u8 (v / 256); u8 (v / 65536); u8 (v / 16777216)].
Definition bytes_word (bs : list Z) : Z := foldr (fun b acc => b + 256 * acc) 0 bs.

Section Syscall.
Context {F : Type}.
Implicit Types k : kern F.

(** User accesses of process [p]. *)
Definition user_load (p : proc) (va n : Z) k : outcome (list Z) := uget (pgdir p) va (Z.to_nat n) (kmem_mem (kmem k)).
Definition user_store (p : proc) (va : Z) (bytes : list Z) k : outcome (kern F) :=
  let! m := uput (pgdir p) va bytes (kmem_mem (kmem k)) in
  Ok (set_kmem (set_mem m (kmem k)) k).

(** [None] is the result -1; otherwise [*ip]. *)
Definition fetchint (cur : nat) (addr : Z) k : outcome (option Z) :=
  let! p := the_proc cur k in
  if (sz p <=? addr) || (sz p <? u32 (addr + 4)) then Ok None
  else let! bs := user_load p addr 4 k in Ok (Some (s32 (bytes_word bs))).

(** The loop of [fetchstr] at [s], with [n] bytes left below [sz]. *)
Fixpoint fetchstr_loop (pgdir s : Z) (n : nat) (m : mem) : outcome (option (list Z)) :=
  match n with
  | O => Ok None
  | S n =>
      let! b := uld8 pgdir s m in
      if b =? 0 then Ok (Some [])
      else let! r := fetchstr_loop pgdir (s + 1) n m in Ok (cons b <$> r)
  end.

(** The string at [addr], whose length is the result, or [None] for -1. *)
Definition fetchstr (cur : nat) (addr : Z) k : outcome (option (list Z)) :=
  let! p := the_proc cur k in
  if sz p <=? addr then Ok None
  else fetchstr_loop (pgdir p) addr (Z.to_nat (sz p - addr)) (kmem_mem (kmem k)).

Definition argint (cur : nat) (n : Z) k : outcome (option Z) :=
  let! p := the_proc cur k in
  fetchint cur (u32 (ld32 (kmem_mem (kmem k)) (tf p + TF_esp) + 4 + 4 * n)) k.

Definition argptr (cur : nat) (n size : Z) k : outcome (option Z) :=
  let! p := the_proc cur k in
  let! i := argint cur n k in
  match i with
  | None => Ok None
  | Some i =>
      if (size <? 0) || (sz p <=? u32 i) || (sz p <? u32 (u32 i + size)) then Ok None
      else Ok (Some (u32 i))
  end.

(** The pointer and the string. *)
Definition argstr (cur : nat) (n : Z) k : outcome (option (Z * list Z)) :=
  let! a := argint cur n k in
  match a with
  | None => Ok None
  | Some a => let! s := fetchstr cur (u32 a) k in Ok (pair (u32 a) <$> s)
  end.

(** NELEM(syscalls). *)
Definition NSYSCALLS : Z := 28.

(** [syscalls[num]] is called as process [cur] on CPU [c]; the result of a
    call is a value, or [None] when the process went to sleep or exited. *)
Definition handler : Type := nat -> nat -> kern F -> outcome (option Z * kern F).

Definition set_eax (cur : nat) (v : Z) k : outcome (kern F) :=
  let! p := the_proc cur k in
  Ok (set_kmem (set_mem (st32 (kmem_mem (kmem k)) (tf p + TF_eax) v) (kmem k)) k).

Definition syscall (syscalls : Z -> option handler) (c cur : nat) k : outcome (kern F) :=
  let! p := the_proc cur k in
  let num := s32 (ld32 (kmem_mem (kmem k)) (tf p + TF_eax)) in
  match (if (0 <? num) && (num <? NSYSCALLS) then syscalls num else None) with
  | Some f =>
      let! (r, k) := f c cur k in
      match r with
      | Some v => set_eax cur (u32 v) k
      | None => Ok k
      end
  | None => set_eax cur (u32 (-1)) k
  end.

End Syscall.
