(* ===== verification/Sysfile.v ===== *)
(** sysfile.c: the file system calls, on the kernel of [Proc] whose files are
    those of [File].  What a call does after it has fetched its arguments is a
    definition of its own where the code has no function for it.  The array
    [name] that the callers of [nameiparent] leave uninitialised is the
    parameter [junk]. *)
From S2P Require Import Prelude Mem KString Mmu Kalloc Vm Spinlock Wmap Proc Syscall Pipe Bio Log Fs File.

Definition O_RDONLY : Z := 0.
Definition O_WRONLY : Z := 1.
Definition O_RDWR : Z := 2.
Definition O_CREATE : Z := 512.

Definition DOT : list Z := [46].
Definition DOTDOT : list Z := [46; 46].

(** [fdalloc]: the first empty slot of [ofile], from [fd]. *)
Fixpoint free_fd {A} (fd : nat) (os : list (option A)) : option nat :=
  match os with
  | [] => None
  | None :: _ => Some fd
  | Some _ :: os => free_fd (Datatypes.S fd) os
  end.

Section Sysfile.
Context {S : Type} `{BlockOps S}.
Context (dev_read : Z -> option (nat -> Z -> fs S -> outcome (option (list Z) * fs S))).
Context (dev_write : Z -> option (nat -> list Z -> fs S -> outcome (Z * fs S))).
Context (kend : Z) (junk : list Z).

Abbreviation kernel := (kern (fstate S)).

(** ** Calls on the file system, as process [me] in directory [cwd] *)

Section Paths.
Context (me : Z) (cwd : nat).

(** [ip->nlink += d] on the [short] of the inode, and [iupdate(ip)]. *)
Definition bump_nlink (ip : nat) (d : Z) (f : fs S) : outcome (fs S) :=
  iupdate ip (upd_inode ip (fun i => i_with_meta (i_major i) (i_minor i) (s16 (i_nlink i + d)) i) f).

(** [sys_link] between [begin_op] and [end_op]. *)
Definition link_op (old new : list Z) (f : fs S) : outcome (Z * fs S) :=
  let! (ip, f) := namei me dev_read cwd old f in
  match ip with
  | None => Ok (-1, f)
  | Some ip =>
      let! f := ilock me ip f in
      let! i := the_inode ip f in
      if i_type i =? T_DIR then let! f := iunlockput me ip f in Ok (-1, f)
      else
        let! f := bump_nlink ip 1 f in
        let! f := iunlock me ip f in
        let bad f :=
          let! f := ilock me ip f in
          let! f := bump_nlink ip (-1) f in
          let! f := iunlockput me ip f in
          Ok (-1, f) in
        let! (r, f) := nameiparent me dev_read cwd new junk f in
        match r with
        | None => bad f
        | Some (dp, name) =>
            let! f := ilock me dp f in
            let! d := the_inode dp f in
            let! i := the_inode ip f in
            if negb (i_dev d =? i_dev i) then let! f := iunlockput me dp f in bad f
            else
              let! (r, f) := dirlink me dev_read dev_write dp name (i_inum i) f in
              let! f := iunlockput me dp f in
              if r <? 0 then bad f
              else let! f := iput me ip f in Ok (0, f)
        end
  end.

(** The loop of [isdirempty] from [off]. *)
Fixpoint isdirempty_loop (fuel : nat) (dp : nat) (off : Z) (f : fs S) : outcome (bool * fs S) :=
  let! d := the_inode dp f in
  if negb (off <? i_size d) then Ok (true, f)
  else match fuel with
  | O => UB "isdirempty: fuel"
  | Datatypes.S fuel =>
      let! (de, f) := read_dirent dev_read "isdirempty: readi" dp off f in
      if negb (de_inum de =? 0) then Ok (false, f) else isdirempty_loop fuel dp (off + DESIZE) f
  end.

Definition isdirempty (dp : nat) (f : fs S) : outcome (bool * fs S) :=
  let! d := the_inode dp f in
  isdirempty_loop (Z.to_nat (i_size d / DESIZE + 1)) dp (2 * DESIZE) f.

(** [sys_unlink] between [begin_op] and [end_op]. *)
Definition unlink_op (path : list Z) (f : fs S) : outcome (Z * fs S) :=
  let! (r, f) := nameiparent me dev_read cwd path junk f in
  match r with
  | None => Ok (-1, f)
  | Some (dp, name) =>
      let! f := ilock me dp f in
      let bad f := let! f := iunlockput me dp f in Ok (-1, f) in
      if (namecmp name DOT =? 0) || (namecmp name DOTDOT =? 0) then bad f
      else
        let! (r, f) := dirlookup dev_read dp name f in
        match r with
        | None => bad f
        | Some (ip, off) =>
            let! f := ilock me ip f in
            let! i := the_inode ip f in
            if i_nlink i <? 1 then Panic "unlink: nlink < 1"
            else
              let! (empty, f) := (if i_type i =? T_DIR then isdirempty ip f else Ok (true, f)) in
              if negb empty then let! f := iunlockput me ip f in bad f
              else
                let! (n, f) := writei dev_write dp (replicate (Z.to_nat DESIZE) 0) off f in
                if negb (n =? DESIZE) then Panic "unlink: writei"
                else
                  let! f := (if i_type i =? T_DIR then bump_nlink dp (-1) f else Ok f) in
                  let! f := iunlockput me dp f in
                  let! f := bump_nlink ip (-1) f in
                  let! f := iunlockput me ip f in
                  Ok (0, f)
        end
  end.

(** [create]: the inode, locked. *)
Definition create (path : list Z) (type major minor : Z) (f : fs S) : outcome (option nat * fs S) :=
  let! (r, f) := nameiparent me dev_read cwd path junk f in
  match r with
  | None => Ok (None, f)
  | Some (dp, name) =>
      let! f := ilock me dp f in
      let! (r, f) := dirlookup dev_read dp name f in
      match r with
      | Some (ip, _) =>
          let! f := iunlockput me dp f in
          let! f := ilock me ip f in
          let! i := the_inode ip f in
          if (type =? T_FILE) && (i_type i =? T_FILE) then Ok (Some ip, f)
          else let! f := iunlockput me ip f in Ok (None, f)
      | None =>
          let! d := the_inode dp f in
          let! (ip, f) := ialloc (i_dev d) type f in
          let! f := ilock me ip f in
          let! f := iupdate ip (upd_inode ip (i_with_meta (s16 major) (s16 minor) 1) f) in
          let! i := the_inode ip f in
          let! f :=
            (if type =? T_DIR then
               let! f := bump_nlink dp 1 f in
               let! (r, f) := dirlink me dev_read dev_write ip DOT (i_inum i) f in
               if r <? 0 then Panic "create dots"
               else
                 let! (r, f) := dirlink me dev_read dev_write ip DOTDOT (i_inum d) f in
                 if r <? 0 then Panic "create dots" else Ok f
             else Ok f) in
          let! (r, f) := dirlink me dev_read dev_write dp name (i_inum i) f in
          if r <? 0 then Panic "create: dirlink"
          else
            let! f := iunlockput me dp f in
            Ok (Some ip, f)
      end
  end.

(** The first half of [sys_open], up to [filealloc]: the inode, locked. *)
Definition open_inode (path : list Z) (omode : Z) (f : fs S) : outcome (option nat * fs S) :=
  if has omode O_CREATE then create path T_FILE 0 0 f
  else
    let! (ip, f) := namei me dev_read cwd path f in
    match ip with
    | None => Ok (None, f)
    | Some ip =>
        let! f := ilock me ip f in
        let! i := the_inode ip f in
        if (i_type i =? T_DIR) && negb (omode =? O_RDONLY) then
          let! f := iunlockput me ip f in Ok (None, f)
        else Ok (Some ip, f)
    end.

End Paths.

(** ** The system calls *)

Definition set_fs (f : fs S) (k : kernel) : kernel := set_files (set_ffs f (files k)) k.
Definition set_ofile (cur fd : nat) (o : option nat) (k : kernel) : kernel :=
  upd cur (fun p => with_files (<[fd := o]> (ofile p)) (cwd p) p) k.

Definition the_cwd (p : proc) : outcome nat :=
  match cwd p with Some c => Ok c | None => UB "null cwd" end.

(** [begin_op(); ...; end_op()] around [op]. *)
Definition in_op {A} (op : fs S -> outcome (A * fs S)) (k : kernel) : outcome (A * kernel) :=
  let! f := fs_begin_op (ffs (files k)) in
  let! (a, f) := op f in
  let! f := fs_end_op f in
  Ok (a, set_fs f k).

(** [argfd]: the descriptor and the file. *)
Definition argfd (cur : nat) (n : Z) (k : kernel) : outcome (option (nat * nat)) :=
  let! p := the_proc cur k in
  let! fd := argint cur n k in
  match fd with
  | None => Ok None
  | Some fd =>
      if (fd <? 0) || (Z.of_nat NOFILE <=? fd) then Ok None
      else match ofile p !! Z.to_nat fd with
           | Some (Some f) => Ok (Some (Z.to_nat fd, f))
           | _ => Ok None
           end
  end.

Definition fdalloc (cur f : nat) (k : kernel) : outcome (option nat * kernel) :=
  let! p := the_proc cur k in
  match free_fd 0 (ofile p) with
  | Some fd => Ok (Some fd, set_ofile cur fd (Some f) k)
  | None => Ok (None, k)
  end.

(** [fileclose] with the wakeups and the page it frees. *)
Definition close_file (me : Z) (f : nat) (k : kernel) : outcome kernel :=
  let! (ws, s, km) := fileclose me kend f (files k) (kmem k) in
  Ok (wake_all ws (set_kmem km (set_files s k))).

Definition ret (v : Z) (k : kernel) : outcome (option Z * kernel) := Ok (Some v, k).

Definition sys_dup (c cur : nat) (k : kernel) : outcome (option Z * kernel) :=
  let! a := argfd cur 0 k in
  match a with
  | None => ret (-1) k
  | Some (_, f) =>
      let! (fd, k) := fdalloc cur f k in
      match fd with
      | None => ret (-1) k
      | Some fd =>
          let! s := filedup f (files k) in
          ret (Z.of_nat fd) (set_files s k)
      end
  end.

(** The bytes at the buffer are read before the call of [filewrite] and written
    after the return of [fileread]: no file is in user memory. *)

(** The arguments of [sys_read] and [sys_write]: file, buffer and length. *)
Definition rw_args (cur : nat) (k : kernel) : outcome (option (nat * Z * Z)) :=
  let! a := argfd cur 0 k in
  match a with
  | None => Ok None
  | Some (_, f) =>
      let! n := argint cur 2 k in
      match n with
      | None => Ok None
      | Some n =>
          let! p := argptr cur 1 n k in
          Ok (match p with None => None | Some p => Some (f, p, n) end)
      end
  end.

Definition sys_read (c cur : nat) (k : kernel) : outcome (option Z * kernel) :=
  let! p := the_proc cur k in
  let! a := rw_args cur k in
  match a with
  | None => ret (-1) k
  | Some (f, addr, n) =>
      let! r := fileread (pid p) dev_read (killed p) f n (files k) in
      match r with
      | FSleep ch ws s => Ok (None, sleep c cur (Some (CAddr ch)) (wake_all ws (set_files s k)))
      | FDone None ws s => ret (-1) (wake_all ws (set_files s k))
      | FDone (Some bytes) ws s =>
          let! k := user_store p addr bytes (wake_all ws (set_files s k)) in
          ret (Z.of_nat (length bytes)) k
      end
  end.

Definition sys_write (c cur : nat) (k : kernel) : outcome (option Z * kernel) :=
  let! p := the_proc cur k in
  let! a := rw_args cur k in
  match a with
  | None => ret (-1) k
  | Some (f, addr, n) =>
      let! src := user_load p addr n k in
      let! r := filewrite (pid p) dev_write (killed p) f src n (files k) in
      match r with
      | FSleep ch ws s => Ok (None, sleep c cur (Some (CAddr ch)) (wake_all ws (set_files s k)))
      | FDone r ws s => ret r (wake_all ws (set_files s k))
      end
  end.

Definition sys_close (c cur : nat) (k : kernel) : outcome (option Z * kernel) :=
  let! p := the_proc cur k in
  let! a := argfd cur 0 k in
  match a with
  | None => ret (-1) k
  | Some (fd, f) =>
      let! k := close_file (pid p) f (set_ofile cur fd None k) in
      ret 0 k
  end.

(** The fields of [struct stat] at [st]; its padding is left alone. *)
Definition put_stat (p : proc) (addr : Z) (st : stat) (k : kernel) : outcome kernel :=
  let! k := user_store p addr (take 2 (word_bytes (st_type st))) k in
  let! k := user_store p (addr + 4) (word_bytes (st_dev st)) k in
  let! k := user_store p (addr + 8) (word_bytes (st_ino st)) k in
  let! k := user_store p (addr + 12) (take 2 (word_bytes (st_nlink st))) k in
  user_store p (addr + 16) (word_bytes (st_size st)) k.

Definition STATSIZE : Z := 20.

Definition sys_fstat (c cur : nat) (k : kernel) : outcome (option Z * kernel) :=
  let! p := the_proc cur k in
  let! a := argfd cur 0 k in
  match a with
  | None => ret (-1) k
  | Some (_, f) =>
      let! st := argptr cur 1 STATSIZE k in
      match st with
      | None => ret (-1) k
      | Some addr =>
          let! (r, s) := filestat (pid p) f (files k) in
          match r with
          | None => ret (-1) (set_files s k)
          | Some st => let! k := put_stat p addr st (set_files s k) in ret 0 k
          end
      end
  end.

Definition sys_link (c cur : nat) (k : kernel) : outcome (option Z * kernel) :=
  let! p := the_proc cur k in
  let! old := argstr cur 0 k in
  match old with
  | None => ret (-1) k
  | Some (_, old) =>
      let! new := argstr cur 1 k in
      match new with
      | None => ret (-1) k
      | Some (_, new) =>
          let! wd := the_cwd p in
          let! (r, k) := in_op (link_op (pid p) wd old new) k in
          ret r k
      end
  end.

Definition sys_unlink (c cur : nat) (k : kernel) : outcome (option Z * kernel) :=
  let! p := the_proc cur k in
  let! path := argstr cur 0 k in
  match path with
  | None => ret (-1) k
  | Some (_, path) =>
      let! wd := the_cwd p in
      let! (r, k) := in_op (unlink_op (pid p) wd path) k in
      ret r k
  end.

(** The second half of [sys_open], with [ip] locked and the operation open. *)
Definition open_file_op (me : Z) (cur ip : nat) (path omode : Z) (k : kernel) : outcome (Z * kernel) :=
  let fail k :=
    let! f := iunlockput me ip (ffs (files k)) in
    let! f := fs_end_op f in
    Ok (-1, set_fs f k) in
  let '(f, s) := filealloc (files k) in
  let k := set_files s k in
  match f with
  | None => fail k
  | Some f =>
      let! (fd, k) := fdalloc cur f k in
      match fd with
      | None => let! k := close_file me f k in fail k
      | Some fd =>
          let! g := iunlock me ip (ffs (files k)) in
          let! g := fs_end_op g in
          let w := has omode O_WRONLY in
          let init f := f_with_name path (f_with_mode (negb w) (w || has omode O_RDWR)
                          (f_with_off 0 (f_with_ip ip (f_with_type FD_INODE f)))) in
          Ok (Z.of_nat fd, set_files (upd_file f init (set_ffs g (files k))) k)
      end
  end.

Definition sys_open (c cur : nat) (k : kernel) : outcome (option Z * kernel) :=
  let! p := the_proc cur k in
  let! path := argstr cur 0 k in
  match path with
  | None => ret (-1) k
  | Some (addr, path) =>
      let! omode := argint cur 1 k in
      match omode with
      | None => ret (-1) k
      | Some omode =>
          let! wd := the_cwd p in
          let! f := fs_begin_op (ffs (files k)) in
          let! (ip, f) := open_inode (pid p) wd path omode f in
          match ip with
          | None => let! f := fs_end_op f in ret (-1) (set_fs f k)
          | Some ip => let! (r, k) := open_file_op (pid p) cur ip addr omode (set_fs f k) in ret r k
          end
      end
  end.

(** [create] and [iunlockput] of its inode. *)
Definition make_op (me : Z) (wd : nat) (path : list Z) (type major minor : Z) (f : fs S) : outcome (Z * fs S) :=
  let! (ip, f) := create me wd path type major minor f in
  match ip with
  | None => Ok (-1, f)
  | Some ip => let! f := iunlockput me ip f in Ok (0, f)
  end.

Definition sys_mkdir (c cur : nat) (k : kernel) : outcome (option Z * kernel) :=
  let! p := the_proc cur k in
  let! path := argstr cur 0 k in
  let! wd := the_cwd p in
  let op f := match path with
              | None => Ok (-1, f)
              | Some (_, path) => make_op (pid p) wd path T_DIR 0 0 f
              end in
  let! (r, k) := in_op op k in
  ret r k.

Definition sys_mknod (c cur : nat) (k : kernel) : outcome (option Z * kernel) :=
  let! p := the_proc cur k in
  let! path := argstr cur 0 k in
  let! major := argint cur 1 k in
  let! minor := argint cur 2 k in
  let! wd := the_cwd p in
  let op f := match path, major, minor with
              | Some (_, path), Some major, Some minor => make_op (pid p) wd path T_DEV major minor f
              | _, _, _ => Ok (-1, f)
              end in
  let! (r, k) := in_op op k in
  ret r k.

(** [sys_chdir] between [begin_op] and [end_op]: the new directory. *)
Definition chdir_op (me : Z) (wd : nat) (path : list Z) (f : fs S) : outcome (option nat * fs S) :=
  let! (ip, f) := namei me dev_read wd path f in
  match ip with
  | None => Ok (None, f)
  | Some ip =>
      let! f := ilock me ip f in
      let! i := the_inode ip f in
      if negb (i_type i =? T_DIR) then let! f := iunlockput me ip f in Ok (None, f)
      else
        let! f := iunlock me ip f in
        let! f := iput me wd f in
        Ok (Some ip, f)
  end.

Definition sys_chdir (c cur : nat) (k : kernel) : outcome (option Z * kernel) :=
  let! p := the_proc cur k in
  let! path := argstr cur 0 k in
  let! wd := the_cwd p in
  let op f := match path with
              | None => Ok (None, f)
              | Some (_, path) => chdir_op (pid p) wd path f
              end in
  let! (r, k) := in_op op k in
  match r with
  | None => ret (-1) k
  | Some ip => ret 0 (upd cur (fun p => with_files (ofile p) (Some ip) p) k)
  end.

Definition sys_pipe (c cur : nat) (k : kernel) : outcome (option Z * kernel) :=
  let! p := the_proc cur k in
  let! fd := argptr cur 0 8 k in
  match fd with
  | None => ret (-1) k
  | Some addr =>
      let! (r, s, km) := pipealloc (pid p) kend (files k) (kmem k) in
      let k := set_kmem km (set_files s k) in
      match r with
      | None => ret (-1) k
      | Some (rf, wf) =>
          let fail k :=
            let! k := close_file (pid p) rf k in
            let! k := close_file (pid p) wf k in
            ret (-1) k in
          let! (fd0, k) := fdalloc cur rf k in
          match fd0 with
          | None => fail k
          | Some fd0 =>
              let! (fd1, k) := fdalloc cur wf k in
              match fd1 with
              | None => fail (set_ofile cur fd0 None k)
              | Some fd1 =>
                  let! k := user_store p addr (word_bytes (Z.of_nat fd0)) k in
                  let! k := user_store p (addr + 4) (word_bytes (Z.of_nat fd1)) k in
                  ret 0 k
              end
          end
      end
  end.

(** What [fork] and [exit] call, as process [me]. *)
Definition file_refs (me : Z) : FileRefs (fstate S) := {|
  Proc.filedup := filedup;
  Proc.fileclose := fileclose me kend;
  Proc.idup ip s := let! f := idup ip (ffs s) in Ok (set_ffs f s);
  Proc.iput_op ip s :=
    let! f := fs_begin_op (ffs s) in
    let! f := iput me ip f in
    let! f := fs_end_op f in
    Ok (set_ffs f s)
|}.

End Sysfile.
