(* ===== verification/Exec.v ===== *)
(** exec.c, [loaduvm] of vm.c and [sys_exec]: the loading of a program.  The
    argument strings and the array [ustack] are copied out as bytes:
    [copyout_bytes] is [copyout] with the bytes of its source. *)
From S2P Require Import Prelude Mem KString Mmu Kalloc Vm Spinlock Wmap Proc Syscall Pipe Bio Log Fs File Sysfile.

Definition MAXARG : nat := 32.
Definition ELF_MAGIC : Z := 1179403647.
Definition ELF_PROG_LOAD : Z := 1.

(** Little-endian fields of a structure read from a file. *)
Definition word_at (bs : list Z) (i : nat) : Z := bytes_word (take 4 (drop i bs)).
Definition half_at (bs : list Z) (i : nat) : Z := bytes_word (take 2 (drop i bs)).

(** The fields of [struct elfhdr] and [struct proghdr] that [exec] uses. *)
Record elfhdr := Elfhdr { eh_magic : Z; eh_entry : Z; eh_phoff : Z; eh_phnum : Z }.
Definition ELFHDRSIZE : Z := 52.
Definition get_elfhdr (bs : list Z) : elfhdr := Elfhdr (word_at bs 0) (word_at bs 24) (word_at bs 28) (half_at bs 44).

Record proghdr := Proghdr { ph_type : Z; ph_off : Z; ph_vaddr : Z; ph_filesz : Z; ph_memsz : Z }.
Definition PROGHDRSIZE : Z := 32.
Definition get_proghdr (bs : list Z) : proghdr :=
  Proghdr (word_at bs 0) (word_at bs 4) (word_at bs 8) (word_at bs 16) (word_at bs 20).

(** [copyout] of [bytes] to [va] in the table [pgdir]. *)
Fixpoint copyout_bytes_loop (fuel : nat) (pgdir va : Z) (bytes : list Z) (s : kst) : outcome (Z * kst) :=
  match bytes with
  | [] => Ok (0, s)
  | _ =>
      match fuel with
      | O => UB "copyout: out of fuel"
      | S k =>
          let va0 := PGROUNDDOWN va in
          let! pa0 := uva2ka pgdir va0 s in
          if pa0 =? 0 then Ok (-1, s)
          else
            let n := Z.to_nat (Z.min (Z.of_nat (length bytes)) (PGSIZE - (va - va0))) in
            let s := set_mem (put_bytes (kmem_mem s) (pa0 + (va - va0)) (take n bytes)) s in
            copyout_bytes_loop k pgdir (u32 (va0 + PGSIZE)) (drop n bytes) s
      end
  end.

Definition copyout_bytes (pgdir va : Z) (bytes : list Z) (s : kst) : outcome (Z * kst) :=
  copyout_bytes_loop (length bytes) pgdir va bytes s.

(** The path behind its last slash. *)
Fixpoint last_elem (last s : list Z) : list Z :=
  match s with
  | [] => last
  | c :: s => last_elem (if c =? SLASH then s else last) s
  end.

(** The loop that pushes the arguments: [sp], and the addresses pushed. *)
Fixpoint push_args (pgdir : Z) (argc : nat) (argv : list (list Z)) (sp : Z) (ustack : list Z) (km : kst)
    : outcome (option (Z * list Z) * kst) :=
  match argv with
  | [] => Ok (Some (sp, ustack), km)
  | a :: argv =>
      if (MAXARG <=? argc)%nat then Ok (None, km)
      else
        let sp := Z.land (u32 (sp - (Z.of_nat (length a) + 1))) (Z.lnot 3) in
        let! (r, km) := copyout_bytes pgdir sp (a ++ [0]) km in
        if r <? 0 then Ok (None, km)
        else push_args pgdir (Datatypes.S argc) argv sp (ustack ++ [sp]) km
  end.

Section Exec.
Context {S : Type} `{BlockOps S}.
Context (dev_read : Z -> option (nat -> Z -> fs S -> outcome (option (list Z) * fs S))).
Context (dev_write : Z -> option (nat -> list Z -> fs S -> outcome (Z * fs S))).
Context (kend kdata : Z).

Abbreviation kernel := (kern (fstate S)).

(** The loop of [loaduvm] from offset [i]. *)
Fixpoint loaduvm_loop (fuel : nat) (pgdir addr : Z) (ip : nat) (offset sz i : Z) (f : fs S) (km : kst)
    : outcome (Z * fs S * kst) :=
  if i <? sz then
    match fuel with
    | O => UB "loaduvm: fuel"
    | Datatypes.S fuel =>
        let '(pte, km) := walkpgdir pgdir (u32 (addr + i)) false km in
        if pte =? 0 then Panic "loaduvm: address should exist"
        else
          let pa := PTE_ADDR (ld32 (kmem_mem km) pte) in
          let n := if sz - i <? PGSIZE then sz - i else PGSIZE in
          let! (r, f) := readi dev_read ip (u32 (offset + i)) n f in
          match r with
          | None => Ok (-1, f, km)
          | Some bytes =>
              let km := set_mem (put_bytes (kmem_mem km) (P2V pa) bytes) km in
              if Z.of_nat (length bytes) =? n then loaduvm_loop fuel pgdir addr ip offset sz (i + PGSIZE) f km
              else Ok (-1, f, km)
          end
    end
  else Ok (0, f, km).

Definition loaduvm (pgdir addr : Z) (ip : nat) (offset sz : Z) (f : fs S) (km : kst) : outcome (Z * fs S * kst) :=
  if negb (addr mod PGSIZE =? 0) then Panic "loaduvm: addr must be page aligned"
  else loaduvm_loop (Z.to_nat (sz / PGSIZE + 1)) pgdir addr ip offset sz 0 f km.

(** The loop over the program headers, [n] to go: the size of the image, or
    [None] for [goto bad]. *)
Fixpoint load_segments (n : nat) (pgdir : Z) (ip : nat) (off sz : Z) (f : fs S) (km : kst)
    : outcome (option Z * fs S * kst) :=
  match n with
  | O => Ok (Some sz, f, km)
  | Datatypes.S n =>
      let! (r, f) := readi dev_read ip off PROGHDRSIZE f in
      match r with
      | None => Ok (None, f, km)
      | Some bytes =>
          let ph := get_proghdr bytes in
          if negb (Z.of_nat (length bytes) =? PROGHDRSIZE) then Ok (None, f, km)
          else if negb (ph_type ph =? ELF_PROG_LOAD) then load_segments n pgdir ip (u32 (off + PROGHDRSIZE)) sz f km
          else if ph_memsz ph <? ph_filesz ph then Ok (None, f, km)
          else if u32 (ph_vaddr ph + ph_memsz ph) <? ph_vaddr ph then Ok (None, f, km)
          else
            let! (sz, km) := allocuvm kend pgdir sz (u32 (ph_vaddr ph + ph_memsz ph)) km in
            if sz =? 0 then Ok (None, f, km)
            else if negb (ph_vaddr ph mod PGSIZE =? 0) then Ok (None, f, km)
            else
              let! (r, f, km) := loaduvm pgdir (ph_vaddr ph) ip (ph_off ph) (ph_filesz ph) f km in
              if r <? 0 then Ok (None, f, km)
              else load_segments n pgdir ip (u32 (off + PROGHDRSIZE)) sz f km
      end
  end.

(** Up to [iunlockput(ip)] with [ip] locked: the new table, 0 when there is
    none, and the entry point and size, or [None] for [goto bad]. *)
Definition load_image (ip : nat) (f : fs S) (km : kst) : outcome (Z * option (Z * Z) * fs S * kst) :=
  let! (r, f) := readi dev_read ip 0 ELFHDRSIZE f in
  match r with
  | None => Ok (0, None, f, km)
  | Some bytes =>
      let elf := get_elfhdr bytes in
      if negb (Z.of_nat (length bytes) =? ELFHDRSIZE) then Ok (0, None, f, km)
      else if negb (eh_magic elf =? ELF_MAGIC) then Ok (0, None, f, km)
      else
        let! (pgdir, km) := setupkvm kend kdata km in
        if pgdir =? 0 then Ok (0, None, f, km)
        else
          let! (r, f, km) := load_segments (Z.to_nat (eh_phnum elf)) pgdir ip (eh_phoff elf) 0 f km in
          Ok (pgdir, pair (eh_entry elf) <$> r, f, km)
  end.

(** The two pages of the stack and its contents: the size of the image and
    the stack pointer, or [None] for [goto bad]. *)
Definition build_stack (pgdir sz : Z) (argv : list (list Z)) (km : kst) : outcome (option (Z * Z) * kst) :=
  let sz := PGROUNDUP sz in
  let! (sz, km) := allocuvm kend pgdir sz (u32 (sz + 2 * PGSIZE)) km in
  if sz =? 0 then Ok (None, km)
  else
    let! km := clearpteu pgdir (u32 (sz - 2 * PGSIZE)) km in
    let! (r, km) := push_args pgdir 0 argv sz [] km in
    match r with
    | None => Ok (None, km)
    | Some (sp, args) =>
        let argc := Z.of_nat (length args) in
        let ustack := [4294967295; argc; u32 (sp - (argc + 1) * 4)] ++ args ++ [0] in
        let sp := u32 (sp - (3 + argc + 1) * 4) in
        let! (r, km) := copyout_bytes pgdir sp (ustack ≫= word_bytes) km in
        if r <? 0 then Ok (None, km) else Ok (Some (sz, sp), km)
    end.

Definition exec (cur : nat) (path : list Z) (argv : list (list Z)) (k : kernel) : outcome (Z * kernel) :=
  let! p := the_proc cur k in
  let! wd := the_cwd p in
  let! f := fs_begin_op (ffs (files k)) in
  let! (ip, f) := namei (pid p) dev_read wd path f in
  match ip with
  | None => let! f := fs_end_op f in Ok (-1, set_fs f k)
  | Some ip =>
      let! f := ilock (pid p) ip f in
      let! (pgdir, r, f, km) := load_image ip f (kmem k) in
      let bad km := if pgdir =? 0 then Ok km else freevm kend pgdir km in
      let put f := let! f := iunlockput (pid p) ip f in fs_end_op f in
      match r with
      | None =>
          let! km := bad km in
          let! f := put f in
          Ok (-1, set_kmem km (set_fs f k))
      | Some (entry, sz) =>
          let! f := put f in
          let k := set_fs f k in
          let! (r, km) := build_stack pgdir sz argv km in
          match r with
          | None => let! km := bad km in Ok (-1, set_kmem km k)
          | Some (sz, sp) =>
              let m := st32 (st32 (kmem_mem km) (tf p + TF_eip) entry) (tf p + TF_esp) sp in
              let init q := with_name (copy_name 16 (name q) (last_elem path path ++ [0])) (with_space pgdir sz q) in
              let k := upd cur init (set_kmem (set_mem m km) k) in
              let! _ := switchuvm (with_space pgdir sz p) in
              let! km := freevm kend (Proc.pgdir p) (kmem k) in
              Ok (0, set_kmem km k)
          end
      end
  end.

(** The loop of [sys_exec] at [i]: the arguments, or [None] for -1. *)
Fixpoint fetch_args (n : nat) (cur : nat) (uargv i : Z) (k : kernel) : outcome (option (list (list Z))) :=
  match n with
  | O => Ok None
  | Datatypes.S n =>
      let! uarg := fetchint cur (u32 (uargv + 4 * i)) k in
      match uarg with
      | None => Ok None
      | Some uarg =>
          if uarg =? 0 then Ok (Some [])
          else
            let! s := fetchstr cur (u32 uarg) k in
            match s with
            | None => Ok None
            | Some s => let! r := fetch_args n cur uargv (i + 1) k in Ok (cons s <$> r)
            end
      end
  end.

Definition sys_exec (c cur : nat) (k : kernel) : outcome (option Z * kernel) :=
  let! path := argstr cur 0 k in
  match path with
  | None => ret (-1) k
  | Some (_, path) =>
      let! uargv := argint cur 1 k in
      match uargv with
      | None => ret (-1) k
      | Some uargv =>
          let! argv := fetch_args MAXARG cur (u32 uargv) 0 k in
          match argv with
          | None => ret (-1) k
          | Some argv => let! (r, k) := exec cur path argv k in ret r k
          end
      end
  end.

End Exec.
