(* ===== verification/Fault.v ===== *)
(** The page-fault case of [trap] in trap.c, which loads the pages of a
    mapping when they are first touched, and the kernel's own accesses to user
    memory that rely on it. *)
From S2P Require Import Prelude Mem KString Mmu Kalloc Vm Spinlock Wmap Proc Syscall Pipe Bio Log Fs File Sysfile.

(** How the handler ends: it returns, it reaches [segFault] and calls [exit],
    or it sleeps in [fileread]. *)
Inductive verdict := Resumed | Segfault | Asleep (ch : Z).

#[export] Instance verdict_eq_dec : EqDecision verdict.
Proof. solve_decision. Defined.

Section Fault.
Context {S : Type} `{BlockOps S}.
Context (dev_read : Z -> option (nat -> Z -> fs S -> outcome (option (list Z) * fs S))).

Abbreviation kernel := (kern (fstate S)).

(** [mappages] of one page, whose result is ignored, and [++node->loadedPages]. *)
Definition load_page (pgdir pageAddr mp : Z) (node : nref) (k : kernel) : outcome kernel :=
  let! (_, km) := mappages pgdir pageAddr PGSIZE (V2P mp) (Z.lor PTE_W PTE_U) (kmem k) in
  let! n := deref (wtab k) node in
  Ok (set_wtab (set_node node (with_loaded (loadedPages n + 1) n) (wtab k)) (set_kmem km k)).

(** [myproc()->ofile[fd]] for any [fd]. *)
Definition ofile_at (p : proc) (fd : Z) : outcome (option nat) :=
  if fd <? 0 then UB "ofile index out of bounds"
  else match ofile p !! Z.to_nat fd with Some o => Ok o | None => UB "ofile index out of bounds" end.

(** The file-backed branch: the second page it allocates is the one mapped. *)
Definition load_file_page (p : proc) (pageAddr : Z) (node : nref) (n : memHashNode) (k : kernel)
    : outcome (verdict * kernel) :=
  let '(mp, km) := kalloc (kmem k) in
  let k := set_kmem km k in
  if mp =? 0 then Ok (Segfault, k)
  else
    let! f := ofile_at p (nfd n) in
    match f with
    | None => Ok (Segfault, k)
    | Some f =>
        let! r := fileread (pid p) dev_read (killed p) f PGSIZE (files k) in
        match r with
        | FSleep ch ws s => Ok (Asleep ch, wake_all ws (set_files s k))
        | FDone r ws s =>
            let k := wake_all ws (set_files s k) in
            let got := match r with Some bytes => Z.of_nat (length bytes) | None => -1 end in
            let m := put_bytes (kmem_mem (kmem k)) mp (default [] r) in
            let m := if got <? PGSIZE then memset m (mp + got) 0 (PGSIZE - got) else m in
            let! k := load_page (pgdir p) pageAddr mp node (set_kmem (set_mem m (kmem k)) k) in
            Ok (Resumed, k)
        end
    end.

(** The case [T_PGFLT], with [cr2] the faulting address. *)
Definition page_fault (cur : nat) (cr2 : Z) (k : kernel) : outcome (verdict * kernel) :=
  let! p := the_proc cur k in
  let! node := pageInMappings (s32 cr2) (wtab k) in
  match node with
  | None => Ok (Segfault, k)
  | Some node =>
      let! n := deref (wtab k) node in
      let offset := s32 (s32 cr2 - startAddress n) in
      let offset := offset - Z.rem offset PGSIZE in
      let pageAddr := u32 (startAddress n + offset) in
      let '(pte, km) := walkpgdir (pgdir p) pageAddr false (kmem k) in
      if negb (pte =? 0) then Ok (Resumed, k)
      else
        let '(mp, km) := kalloc km in
        if mp =? 0 then Ok (Segfault, set_kmem km k)
        else
          let k := set_kmem (set_mem (memset (kmem_mem km) mp 0 PGSIZE) km) k in
          if has (nflags n) MAP_ANONYMOUS then
            let! k := load_page (pgdir p) pageAddr mp node k in
            Ok (Resumed, k)
          else load_file_page p pageAddr node n k
  end.

(** An access of the kernel to [va] that may fault: the handler runs once and
    the access is made again; when the page is still absent it faults for
    ever. *)
Definition touch (cur : nat) (p : proc) (va : Z) (write : bool) (k : kernel) : outcome (Z * kernel) :=
  match translate (kmem_mem (kmem k)) (pgdir p) va write with
  | Some a => Ok (a, k)
  | None =>
      let! (v, k) := page_fault cur va k in
      match v with
      | Resumed =>
          match translate (kmem_mem (kmem k)) (pgdir p) va write with
          | Some a => Ok (a, k)
          | None => UB "page fault for ever"
          end
      | _ => UB "page fault in the kernel"
      end
  end.

(** [memmove] between user addresses: upwards, or downwards from the ends. *)
Fixpoint move_up (cur : nat) (p : proc) (d s : Z) (n : nat) (k : kernel) : outcome kernel :=
  match n with
  | O => Ok k
  | Datatypes.S n =>
      let! (a, k) := touch cur p s false k in
      let b := ld8 (kmem_mem (kmem k)) a in
      let! (a, k) := touch cur p d true k in
      move_up cur p (u32 (d + 1)) (u32 (s + 1)) n (set_kmem (set_mem (st8 (kmem_mem (kmem k)) a b) (kmem k)) k)
  end.

Fixpoint move_down (cur : nat) (p : proc) (d s : Z) (n : nat) (k : kernel) : outcome kernel :=
  match n with
  | O => Ok k
  | Datatypes.S n =>
      let! (a, k) := touch cur p (u32 (s - 1)) false k in
      let b := ld8 (kmem_mem (kmem k)) a in
      let! (a, k) := touch cur p (u32 (d - 1)) true k in
      move_down cur p (u32 (d - 1)) (u32 (s - 1)) n (set_kmem (set_mem (st8 (kmem_mem (kmem k)) a b) (kmem k)) k)
  end.

Definition user_memmove (cur : nat) (p : proc) (dst src n : Z) (k : kernel) : outcome kernel :=
  if (src <? dst) && (dst <? u32 (src + n)) then move_down cur p (u32 (dst + n)) (u32 (src + n)) (Z.to_nat n) k
  else move_up cur p dst src (Z.to_nat n) k.

End Fault.
