(* ===== verification/Sysproc.v ===== *)
(** sysproc.c, second part, [getfilename] of proc.c, and the table of
    system calls: the calls that need the whole kernel. *)
From S2P Require Import Prelude Mem KString Mmu Kalloc Vm Spinlock Wmap Proc Syscall Pipe Bio Log Fs File Sysfile Exec Fault.

(** The entries of page table [pgtab] of directory slot [i] that
    [getpgdirinfo] reports, from [j] with [n] to go. *)
Fixpoint user_ptes (n : nat) (m : mem) (pgtab i j : Z) : list (Z * Z) :=
  match n with
  | O => []
  | S n =>
      let e := ld32 m (pgtab + 4 * j) in
      let rest := user_ptes n m pgtab i (j + 1) in
      if has e PTE_P && has e PTE_U then (u32 (i * PGSIZE * NPTENTRIES + j * PGSIZE), PTE_ADDR e) :: rest else rest
  end.

(** The user pages of the table, from directory slot [i] with [n] to go. *)
Fixpoint user_pages (n : nat) (m : mem) (pgdir i : Z) : list (Z * Z) :=
  match n with
  | O => []
  | S n =>
      let d := ld32 m (pgdir + 4 * i) in
      let rest := user_pages n m pgdir (i + 1) in
      if has d PTE_P && has d PTE_U then
        user_ptes (Z.to_nat NPTENTRIES) m (P2V (PTE_ADDR d)) i 0 ++ rest
      else rest
  end.

(** sizeof(struct pgdirinfo) and sizeof(struct wmapinfo). *)
Definition PGDIRINFOSIZE : Z := 4 + 4 * MAX_UPAGE_INFO + 4 * MAX_UPAGE_INFO.
Definition WMAPINFOSIZE : Z := 4 + 3 * (4 * MAX_WMMAP_INFO).

(** [strncpy(s, t, n)] on user addresses. *)
Fixpoint ustrncpy (n : nat) (pgdir s t : Z) (m : mem) : outcome mem :=
  match n with
  | O => Ok m
  | S n =>
      let! b := uld8 pgdir t m in
      let! m := ust8 pgdir s b m in
      if b =? 0 then uput pgdir (u32 (s + 1)) (replicate n 0) m
      else ustrncpy n pgdir (u32 (s + 1)) (u32 (t + 1)) m
  end.

(** The first loop of [wunmap]: free the pages from [a] to [stop], up to the
    first address without an entry or with an empty one. *)
Fixpoint wunmap_free (kend : Z) (fuel : nat) (pgdir a stop : Z) (km : kst) : outcome kst :=
  if a <? stop then
    match fuel with
    | O => UB "wunmap: fuel"
    | S fuel =>
        let '(pte, km) := walkpgdir pgdir a false km in
        if pte =? 0 then Ok km
        else
          let pa := PTE_ADDR (ld32 (kmem_mem km) pte) in
          if pa =? 0 then Ok km
          else let! km := kfree kend (P2V pa) km in wunmap_free kend fuel pgdir (u32 (a + PGSIZE)) stop km
    end
  else Ok km.

(** The second loop: clear the entries. *)
Fixpoint wunmap_clear (fuel : nat) (pgdir a stop : Z) (km : kst) : outcome kst :=
  if a <? stop then
    match fuel with
    | O => UB "wunmap: fuel"
    | S fuel =>
        let '(pte, km) := walkpgdir pgdir a false km in
        if pte =? 0 then UB "wunmap: null pte"
        else wunmap_clear fuel pgdir (u32 (a + PGSIZE)) stop (set_mem (st32 (kmem_mem km) pte 0) km)
    end
  else Ok km.

(** The loop of [wunmap_partial]. *)
Fixpoint wunmap_partial_loop (fuel : nat) (pgdir a stop : Z) (km : kst) : outcome kst :=
  if a <? stop then
    match fuel with
    | O => UB "wunmap_partial: fuel"
    | S fuel =>
        let '(pte, km) := walkpgdir pgdir a false km in
        let km := if pte =? 0 then km else set_mem (st32 (kmem_mem km) pte 0) km in
        wunmap_partial_loop fuel pgdir (u32 (a + PGSIZE)) stop km
    end
  else Ok km.

(** Rounds of a loop over the pages from [a] below [stop]; a loop that needs
    more has gone through the end of the address space and does not end. *)
Definition page_rounds (a stop : Z) : nat := Z.to_nat ((stop - a) / PGSIZE + 1).

Definition wunmap_partial (pgdir addr length : Z) (km : kst) : outcome kst :=
  let stop := u32 (addr + length) in
  wunmap_partial_loop (page_rounds addr stop) pgdir addr stop km.

Section Sysproc.
Context {S : Type} `{BlockOps S}.
Context (dev_read : Z -> option (nat -> Z -> fs S -> outcome (option (list Z) * fs S))).
Context (dev_write : Z -> option (nat -> list Z -> fs S -> outcome (Z * fs S))).
Context (kend kdata trapret forkret ticks_addr : Z) (junk : list Z).

Abbreviation kernel := (kern (fstate S)).

Definition getpgdirinfo (p : proc) (pdinfo : Z) (k : kernel) : outcome (Z * kernel) :=
  let ps := user_pages (Z.to_nat NPDENTRIES) (kmem_mem (kmem k)) (pgdir p) 0 in
  let shown := take (Z.to_nat MAX_UPAGE_INFO) ps in
  let! k := user_store p (pdinfo + 4) ((fst <$> shown) ≫= word_bytes) k in
  let! k := user_store p (pdinfo + 4 + 4 * MAX_UPAGE_INFO) ((snd <$> shown) ≫= word_bytes) k in
  let! k := user_store p pdinfo (word_bytes (Z.of_nat (length ps))) k in
  Ok (0, k).

(** [getwmapinfo] into the structure at [wminfo]. *)
Definition put_wmapinfo (p : proc) (wminfo : Z) (k : kernel) : outcome (Z * kernel) :=
  let! (wi, w) := getwmapinfo (wtab k) in
  let bytes := word_bytes (total_mmaps wi) ++ (wi_addr wi ≫= word_bytes)
               ++ (wi_length wi ≫= word_bytes) ++ (wi_n_loaded_pages wi ≫= word_bytes) in
  let! k := user_store p wminfo bytes (set_wtab w k) in
  Ok (0, k).

(** The write-back of a shared file mapping: [None] when it sleeps.  The bytes
    are read with the inode locked, so a page that is not loaded ends the
    call: the handler would wait for that lock. *)
Definition write_back (c cur : nat) (p : proc) (n : memHashNode) (k : kernel) : outcome (option unit * kernel) :=
  let! f := ofile_at p (nfd n) in
  match f with
  | None => UB "wunmap: null file"
  | Some fi =>
      let! f := the_file fi (files k) in
      let! src := (if f_writable f then user_load p (startAddress n) (nlength n) k else Ok []) in
      let! r := overwrite_file (pid p) dev_write (killed p) fi src (nlength n) (files k) in
      match r with
      | FSleep ch ws s => Ok (None, sleep c cur (Some (CAddr ch)) (wake_all ws (set_files s k)))
      | FDone _ ws s => Ok (Some tt, wake_all ws (set_files s k))
      end
  end.

Definition wunmap (c cur : nat) (addr : Z) (k : kernel) : outcome (option Z * kernel) :=
  let! p := the_proc cur k in
  let! node := pageInMappings (s32 addr) (wtab k) in
  match node with
  | None => ret (-1) k
  | Some r =>
      let! n := deref (wtab k) r in
      let! (done, k) := (if negb (has (nflags n) MAP_ANONYMOUS) && has (nflags n) MAP_SHARED
                         then write_back c cur p n k else Ok (Some tt, k)) in
      match done with
      | None => Ok (None, k)
      | Some _ =>
          let! (_, w) := removeValue (s32 addr) (wtab k) in
          let! n := deref w r in
          let stop := u32 (addr + nlength n) in
          let! km := wunmap_free kend (page_rounds addr stop) (pgdir p) addr stop (kmem k) in
          let! km := wunmap_clear (page_rounds addr stop) (pgdir p) addr stop km in
          ret 0 (set_kmem km (set_wtab w k))
      end
  end.

Definition wremap (c cur : nat) (oldaddr oldsize newsize flags : Z) (k : kernel) : outcome (option Z * kernel) :=
  let! p := the_proc cur k in
  let! node := pageInMappings (s32 oldaddr) (wtab k) in
  match node with
  | None => ret U_FAILED k
  | Some r =>
      let! n := deref (wtab k) r in
      let resize k := set_wtab (set_node r (with_length newsize n) (wtab k)) k in
      if negb (nlength n =? oldsize) then ret U_FAILED k
      else if newsize <? oldsize then
        let! km := wunmap_partial (pgdir p) (u32 (oldaddr + newsize)) (s32 (oldsize - newsize)) (kmem k) in
        ret oldaddr (resize (set_kmem km k))
      else if oldsize <? newsize then
        let! fits := can_grow_in_place oldaddr oldsize newsize (wtab k) in
        if (fits : bool) then ret oldaddr (resize k)
        else if has flags MREMAP_MAYMOVE then
          let! (newaddr, w) := wmap MMAPBASE newsize (s32 (nflags n - MAP_FIXED)) (nfd n) (wtab k) in
          let k := set_wtab w k in
          if newaddr =? U_FAILED then ret U_FAILED k
          else
            let! k := user_memmove dev_read cur p newaddr oldaddr (u32 oldsize) k in
            let! (done, k) := wunmap c cur oldaddr k in
            match done with
            | None => Ok (None, k)
            | Some _ => ret newaddr k
            end
        else ret U_FAILED k
      else ret U_FAILED k
  end.

(** ** The system calls *)

Definition sys_wmap (c cur : nat) (k : kernel) : outcome (option Z * kernel) :=
  let! addr := argint cur 0 k in
  let! len := argint cur 1 k in
  let! flags := argint cur 2 k in
  let! fd := argint cur 3 k in
  match addr, len, flags, fd with
  | Some addr, Some len, Some flags, Some fd =>
      let! (r, w) := wmap (u32 addr) len flags fd (wtab k) in
      ret (s32 r) (set_wtab w k)
  | _, _, _, _ => ret (-1) k
  end.

Definition sys_wunmap (c cur : nat) (k : kernel) : outcome (option Z * kernel) :=
  let! addr := argint cur 0 k in
  match addr with
  | Some addr => wunmap c cur (u32 addr) k
  | None => ret (-1) k
  end.

Definition sys_wremap (c cur : nat) (k : kernel) : outcome (option Z * kernel) :=
  let! oldaddr := argint cur 0 k in
  let! oldsize := argint cur 1 k in
  let! newsize := argint cur 2 k in
  let! flags := argint cur 3 k in
  match oldaddr, oldsize, newsize, flags with
  | Some oldaddr, Some oldsize, Some newsize, Some flags =>
      let! (r, k) := wremap c cur (u32 oldaddr) oldsize newsize flags k in
      Ok (s32 <$> r, k)
  | _, _, _, _ => ret (-1) k
  end.

Definition sys_getpgdirinfo (c cur : nat) (k : kernel) : outcome (option Z * kernel) :=
  let! p := the_proc cur k in
  let! a := argptr cur 0 PGDIRINFOSIZE k in
  match a with
  | None => ret (-1) k
  | Some a => let! (r, k) := getpgdirinfo p a k in ret r k
  end.

Definition sys_getwmapinfo (c cur : nat) (k : kernel) : outcome (option Z * kernel) :=
  let! p := the_proc cur k in
  let! a := argptr cur 0 WMAPINFOSIZE k in
  match a with
  | None => ret (-1) k
  | Some a => let! (r, k) := put_wmapinfo p a k in ret r k
  end.

Definition sys_fork (c cur : nat) (k : kernel) : outcome (option Z * kernel) :=
  let! p := the_proc cur k in
  let! (r, k) := fork (FR := file_refs kend (pid p)) kend kdata trapret forkret cur k in
  ret r k.

Definition getfilename (p : proc) (fd buf n : Z) (k : kernel) : outcome kernel :=
  let! f := ofile_at p fd in
  match f with
  | None => UB "getfilename: null file"
  | Some f =>
      let! f := the_file f (files k) in
      let! m := ustrncpy (Z.to_nat n) (pgdir p) buf (f_name f) (kmem_mem (kmem k)) in
      Ok (set_kmem (set_mem m (kmem k)) k)
  end.

(** [argstr] returns the length: a buffer that does not hold the empty string
    makes the call fail. *)
Definition sys_getfilename (c cur : nat) (k : kernel) : outcome (option Z * kernel) :=
  let! p := the_proc cur k in
  let! a := argfd cur 0 k in
  match a with
  | None => ret (-1) k
  | Some (fd, _) =>
      let! buf := argstr cur 1 k in
      match buf with
      | Some (buf, []) =>
          let! n := argint cur 2 k in
          match n with
          | Some n => let! k := getfilename p (Z.of_nat fd) buf n k in ret 0 k
          | None => UB "sys_getfilename: n is uninitialised"
          end
      | _ => ret (-1) k
      end
  end.

(** The loop of [sys_exit] over the chain of [table[0]]. *)
Fixpoint exit_unmap (fuel : nat) (c cur : nat) (node : option nref) (k : kernel) : outcome (option unit * kernel) :=
  match node with
  | None => Ok (Some tt, k)
  | Some r =>
      match fuel with
      | O => UB "sys_exit: fuel"
      | Datatypes.S fuel =>
          let! n := deref (wtab k) r in
          let! (done, k) := wunmap c cur (startAddress n) k in
          match done with
          | None => Ok (None, k)
          | Some _ => exit_unmap fuel c cur (next n) k
          end
      end
  end.

(** [exit] and the switch to the scheduler, which does not return. *)
Definition do_exit (c cur : nat) (k : kernel) : outcome kernel :=
  let! p := the_proc cur k in
  let! k := exit (FR := file_refs kend (pid p)) cur k in
  Ok (set_cpu_proc c None k).

Definition sys_exit (c cur : nat) (k : kernel) : outcome (option Z * kernel) :=
  let! (done, k) := exit_unmap NODES c cur (Some (Tab 0)) k in
  match done with
  | None => Ok (None, k)
  | Some _ => let! k := do_exit c cur k in Ok (None, k)
  end.

Definition sys_wait (c cur : nat) (k : kernel) : outcome (option Z * kernel) := wait kend c cur k.

Definition sys_kill (c cur : nat) (k : kernel) : outcome (option Z * kernel) :=
  let! id := argint cur 0 k in
  match id with
  | None => ret (-1) k
  | Some id => let '(r, k) := kill id k in ret r k
  end.

Definition sys_getpid (c cur : nat) (k : kernel) : outcome (option Z * kernel) :=
  let! p := the_proc cur k in ret (pid p) k.

Definition sys_sbrk (c cur : nat) (k : kernel) : outcome (option Z * kernel) :=
  let! p := the_proc cur k in
  let! n := argint cur 0 k in
  match n with
  | None => ret (-1) k
  | Some n =>
      let! (r, k) := growproc kend cur n k in
      ret (if r <? 0 then -1 else s32 (sz p)) k
  end.

(** One pass of the loop of [sys_sleep]. *)
Definition sleep_loop (c cur : nat) (ticks0 n : Z) (k : kernel) : outcome (option Z * kernel) :=
  let! p := the_proc cur k in
  if u32 (ticks k - ticks0) <? u32 n then
    if killed p then ret (-1) k
    else Ok (None, sleep c cur (Some (CAddr ticks_addr)) k)
  else ret 0 k.

Definition sys_sleep (c cur : nat) (k : kernel) : outcome (option Z * kernel) :=
  let! n := argint cur 0 k in
  match n with
  | None => ret (-1) k
  | Some n => sleep_loop c cur (ticks k) n k
  end.

Definition sys_uptime (c cur : nat) (k : kernel) : outcome (option Z * kernel) := ret (s32 (ticks k)) k.

(** The array [syscalls]. *)
Definition syscalls (num : Z) : option handler :=
  [ None; Some sys_fork; Some sys_exit; Some sys_wait; Some (sys_pipe kend);
    Some (sys_read dev_read); Some sys_kill; Some (sys_exec dev_read kend kdata); Some sys_fstat;
    Some (sys_chdir dev_read); Some sys_dup; Some sys_getpid; Some sys_sbrk; Some sys_sleep; Some sys_uptime;
    Some (sys_open dev_read dev_write kend junk); Some (sys_write dev_write);
    Some (sys_mknod dev_read dev_write junk); Some (sys_unlink dev_read dev_write junk);
    Some (sys_link dev_read dev_write junk); Some (sys_mkdir dev_read dev_write junk);
    Some (sys_close kend); Some sys_getfilename; Some sys_wmap; Some sys_wunmap; Some sys_wremap;
    Some sys_getwmapinfo; Some sys_getpgdirinfo ] !! Z.to_nat num ≫= id.

End Sysproc.
