(* ===== verification/Trap.v ===== *)
(** trap.c: the dispatch of traps.  The keyboard and serial interrupts are the
    parameters [kbdintr] and [uartintr]; [ideintr] of memide.c and [lapiceoi]
    change nothing that is modelled. *)
From S2P Require Import Prelude Mem KString Mmu Kalloc Vm Spinlock Wmap Proc Syscall Pipe Bio Log Fs File Sysfile Exec Fault Sysproc.

Definition TF_trapno : Z := 48.
Definition TF_cs : Z := 60.

(** [trap] returns to the interrupted code, or the process leaves the CPU. *)
Inductive after (K : Type) := Back (k : K) | Gone (k : K).
Arguments Back {K}.
Arguments Gone {K}.

Section Trap.
Context {S : Type} `{BlockOps S}.
Context (dev_read : Z -> option (nat -> Z -> fs S -> outcome (option (list Z) * fs S))).
Context (dev_write : Z -> option (nat -> list Z -> fs S -> outcome (Z * fs S))).
Context (kend kdata trapret forkret ticks_addr : Z) (junk : list Z).

Abbreviation kernel := (kern (fstate S)).

Context (kbdintr uartintr : kernel -> outcome kernel).

(** [myproc()] on CPU [c]. *)
Definition myproc (c : nat) (k : kernel) : option nat := cpu_proc k !! c ≫= id.

Definition gone (c cur : nat) (k : kernel) : outcome (after kernel) :=
  let! k := do_exit kend c cur k in Ok (Gone k).

(** [if(myproc() && myproc()->killed && (tf->cs & 3) == DPL_USER) exit()]. *)
Definition exit_if_killed (c : nat) (cs : Z) (k : kernel) : outcome (after kernel) :=
  match myproc c k with
  | None => Ok (Back k)
  | Some cur =>
      let! p := the_proc cur k in
      if killed p && (Z.land cs 3 =? DPL_USER) then gone c cur k else Ok (Back k)
  end.

(** The branch [T_SYSCALL]. *)
Definition trap_syscall (c : nat) (tfa : Z) (k : kernel) : outcome (after kernel) :=
  match myproc c k with
  | None => UB "trap: null process"
  | Some cur =>
      let! p := the_proc cur k in
      if killed p then gone c cur k
      else
        let k := upd cur (fun p => with_frames tfa (context p) p) k in
        let! k := syscall (syscalls dev_read dev_write kend kdata trapret forkret ticks_addr junk) c cur k in
        if decide (myproc c k = Some cur) then
          let! p := the_proc cur k in
          if killed p then gone c cur k else Ok (Back k)
        else Ok (Gone k)
  end.

(** The switch, up to the checks behind it. *)
Definition trap_switch (c : nat) (trapno cs cr2 : Z) (k : kernel) : outcome (after kernel) :=
  if trapno =? T_IRQ0 + IRQ_TIMER then
    if (c =? 0)%nat then Ok (Back (wakeup (Some (CAddr ticks_addr)) (set_ticks (u32 (ticks k + 1)) k)))
    else Ok (Back k)
  else if (trapno =? T_IRQ0 + IRQ_IDE) || (trapno =? T_IRQ0 + IRQ_IDE + 1) then Ok (Back k)
  else if trapno =? T_IRQ0 + IRQ_KBD then let! k := kbdintr k in Ok (Back k)
  else if trapno =? T_IRQ0 + IRQ_COM1 then let! k := uartintr k in Ok (Back k)
  else if (trapno =? T_IRQ0 + 7) || (trapno =? T_IRQ0 + IRQ_SPURIOUS) then Ok (Back k)
  else if trapno =? T_PGFLT then
    match myproc c k with
    | None => UB "trap: null process"
    | Some cur =>
        let! (v, k) := page_fault dev_read cur cr2 k in
        match v with
        | Resumed => Ok (Back k)
        | Segfault => gone c cur k
        | Asleep ch => Ok (Gone (sleep c cur (Some (CAddr ch)) k))
        end
    end
  else
    match myproc c k with
    | None => Panic "trap"
    | Some cur =>
        if Z.land cs 3 =? 0 then Panic "trap"
        else Ok (Back (upd cur (with_killed true) k))
    end.

(** [trap] on CPU [c] with the frame at [tfa]; a process that yields runs
    [exit_if_killed] when it is scheduled again. *)
Definition trap (c : nat) (tfa cr2 : Z) (k : kernel) : outcome (after kernel) :=
  let trapno := ld32 (kmem_mem (kmem k)) (tfa + TF_trapno) in
  let cs := ld16 (kmem_mem (kmem k)) (tfa + TF_cs) in
  if trapno =? T_SYSCALL then trap_syscall c tfa k
  else
    let! r := trap_switch c trapno cs cr2 k in
    match r with
    | Gone k => Ok (Gone k)
    | Back k =>
        let! r := exit_if_killed c cs k in
        match r with
        | Gone k => Ok (Gone k)
        | Back k =>
            match myproc c k with
            | None => Ok (Back k)
            | Some cur =>
                let! p := the_proc cur k in
                if bool_decide (state p = RUNNING) && (trapno =? T_IRQ0 + IRQ_TIMER) then Ok (Gone (yield c cur k))
                else exit_if_killed c cs k
            end
        end
    end.

End Trap.
