(* ===== verification/ProcTheory.v ===== *)
(** The process table as an abstract machine, and proc.c as a refinement of
    it: the scheduling state, pid, parent and channel of each slot, which CPU
    runs which process.  The invariant of the machine holds in every state
    the kernel reaches. *)
From S2P Require Import Prelude Mem KString Mmu Kalloc Vm Spinlock Wmap Proc.

Record pcore := Pcore { c_state : procstate; c_pid : Z; c_parent : option nat; c_chan : option pchan }.

Definition core (p : proc) : pcore := Pcore (state p) (pid p) (parent p) (pchan_of p).

Record amach := Amach { a_tab : list pcore; a_next : Z; a_init : nat; a_cpu : list (option nat) }.

(** * The abstract steps *)

Definition c_wake (ch : option pchan) (q : pcore) : pcore :=
  if decide (c_state q = SLEEPING /\ c_chan q = ch) then Pcore RUNNABLE (c_pid q) (c_parent q) (c_chan q) else q.

Definition c_set_state (st : procstate) (q : pcore) : pcore := Pcore st (c_pid q) (c_parent q) (c_chan q).

Definition c_adopt (cur init : nat) (q : pcore) : pcore :=
  if decide (c_parent q = Some cur) then Pcore (c_state q) (c_pid q) (Some init) (c_chan q) else q.

Definition zombie_child (cur : nat) (q : pcore) : bool :=
  bool_decide (c_parent q = Some cur /\ c_state q = ZOMBIE).

Definition set_tab (t : list pcore) (s : amach) : amach := Amach t (a_next s) (a_init s) (a_cpu s).

(** [exit] of [cur]: wake the parent, hand the children to init (waking it
    when one of them is a zombie), become a zombie. *)
Definition a_exit_tab (cur : nat) (q : pcore) (s : amach) : list pcore :=
  let t := c_wake (CProc <$> c_parent q) <$> a_tab s in
  let t' := c_adopt cur (a_init s) <$> t in
  let t'' := if existsb (zombie_child cur) t then c_wake (Some (CProc (a_init s))) <$> t' else t' in
  alter (c_set_state ZOMBIE) cur t''.

Definition running (c cur : nat) (s : amach) : Prop := a_cpu s !! c = Some (Some cur).

(** No child of [i] is a zombie. *)
Definition no_zombie (i : nat) (t : list pcore) : Prop :=
  forall j r, t !! j = Some r -> c_parent r = Some i -> c_state r <> ZOMBIE.

Inductive astep : amach -> amach -> Prop :=
| as_fork s c cur i q :
    running c cur s -> a_tab s !! i = Some q -> c_state q = UNUSED ->
    astep s (Amach (<[i := Pcore RUNNABLE (a_next s) (Some cur) (c_chan q)]> (a_tab s))
               (a_next s + 1) (a_init s) (a_cpu s))
| as_fork_fail s i q :
    a_tab s !! i = Some q -> c_state q = UNUSED ->
    astep s (Amach (<[i := Pcore UNUSED (a_next s) (c_parent q) (c_chan q)]> (a_tab s))
               (a_next s + 1) (a_init s) (a_cpu s))
| as_sched s c i q :
    a_cpu s !! c = Some None -> a_tab s !! i = Some q -> c_state q = RUNNABLE ->
    astep s (Amach (<[i := c_set_state RUNNING q]> (a_tab s)) (a_next s) (a_init s) (<[c := Some i]> (a_cpu s)))
| as_yield s c cur q :
    running c cur s -> a_tab s !! cur = Some q ->
    astep s (Amach (<[cur := c_set_state RUNNABLE q]> (a_tab s)) (a_next s) (a_init s) (<[c := None]> (a_cpu s)))
| as_sleep s c cur q ch :
    running c cur s -> a_tab s !! cur = Some q ->
    (ch = Some (CProc cur) -> no_zombie cur (a_tab s)) ->
    astep s (Amach (<[cur := Pcore SLEEPING (c_pid q) (c_parent q) ch]> (a_tab s))
               (a_next s) (a_init s) (<[c := None]> (a_cpu s)))
| as_resume s c cur q :
    running c cur s -> a_tab s !! cur = Some q ->
    astep s (set_tab (<[cur := Pcore (c_state q) (c_pid q) (c_parent q) None]> (a_tab s)) s)
| as_wakeup s ch : astep s (set_tab (c_wake ch <$> a_tab s) s)
| as_kill s i q :
    a_tab s !! i = Some q -> c_state q = SLEEPING ->
    astep s (set_tab (<[i := c_set_state RUNNABLE q]> (a_tab s)) s)
| as_exit s c cur q :
    running c cur s -> a_tab s !! cur = Some q -> cur <> a_init s ->
    astep s (Amach (a_exit_tab cur q s) (a_next s) (a_init s) (<[c := None]> (a_cpu s)))
| as_reap s c cur i q :
    running c cur s -> a_tab s !! i = Some q -> c_state q = ZOMBIE -> c_parent q = Some cur ->
    astep s (set_tab (<[i := Pcore UNUSED 0 None (c_chan q)]> (a_tab s)) s).

(** * The invariant *)

Definition alive (q : pcore) : Prop := c_state q <> UNUSED /\ c_state q <> ZOMBIE.

Record ainv (s : amach) : Prop := {
  ai_next : 0 < a_next s;
  ai_pid i q : a_tab s !! i = Some q -> 0 <= c_pid q < a_next s;
  ai_pos i q : a_tab s !! i = Some q -> c_state q <> UNUSED -> 0 < c_pid q;
  ai_uniq i j q r : a_tab s !! i = Some q -> a_tab s !! j = Some r ->
    c_state q <> UNUSED -> c_state r <> UNUSED -> c_pid q = c_pid r -> i = j;
  ai_run c i : a_cpu s !! c = Some (Some i) -> exists q, a_tab s !! i = Some q /\ c_state q = RUNNING;
  ai_one c d i : a_cpu s !! c = Some (Some i) -> a_cpu s !! d = Some (Some i) -> c = d;
  ai_parent i q j : a_tab s !! i = Some q -> c_parent q = Some j ->
    i <> j /\ exists p, a_tab s !! j = Some p /\ alive p;
  ai_orphan i q : a_tab s !! i = Some q -> c_state q <> UNUSED -> i <> a_init s -> c_parent q <> None;
  ai_init : exists q, a_tab s !! a_init s = Some q /\ alive q /\ c_parent q = None;
  ai_wait i q : a_tab s !! i = Some q -> c_state q = SLEEPING -> c_chan q = Some (CProc i) ->
    no_zombie i (a_tab s)
}.

(** * Preservation *)

(** Changing one slot and the CPUs. *)
Lemma ainv_slot s i q q' next' cpus' :
  ainv s -> a_tab s !! i = Some q -> a_next s <= next' -> 0 <= c_pid q' < next' ->
  (c_state q' <> UNUSED -> 0 < c_pid q') ->
  (c_state q' <> UNUSED -> (c_state q <> UNUSED /\ c_pid q' = c_pid q) \/ c_pid q' = a_next s) ->
  (alive q -> alive q') ->
  (forall j, c_parent q' = Some j -> i <> j /\ exists p, a_tab s !! j = Some p /\ alive p) ->
  (c_state q' <> UNUSED -> i <> a_init s -> c_parent q' <> None) ->
  (i = a_init s -> c_parent q' = None) ->
  (c_state q' = SLEEPING -> c_chan q' = Some (CProc i) -> no_zombie i (a_tab s)) ->
  (c_state q' = ZOMBIE -> c_state q = ZOMBIE /\ c_parent q = c_parent q') ->
  (forall c j, cpus' !! c = Some (Some j) ->
     (j = i /\ c_state q' = RUNNING) \/ (j <> i /\ exists r, a_tab s !! j = Some r /\ c_state r = RUNNING)) ->
  (forall c d j, cpus' !! c = Some (Some j) -> cpus' !! d = Some (Some j) -> c = d) ->
  ainv (Amach (<[i := q']> (a_tab s)) next' (a_init s) cpus').
Proof.
  intros Hs Hi Hnx Hpid Hpos Hu Hal Hpar Horp Hini Hw Hz Hcpu Hone.
  assert (i < length (a_tab s))%nat as Hlt by (by eapply lookup_lt_Some).
  assert (forall j r, <[i := q']> (a_tab s) !! j = Some r -> (j = i /\ r = q') \/ (j <> i /\ a_tab s !! j = Some r)) as HL.
  { intros j r. destruct (decide (j = i)) as [->|Hne].
    - rewrite list_lookup_insert_eq by done. intros [= <-]. by left.
    - rewrite list_lookup_insert_ne by done. by right. }
  assert (forall j p, a_tab s !! j = Some p -> alive p -> exists p', <[i := q']> (a_tab s) !! j = Some p' /\ alive p') as HA.
  { intros j p Hj Hp. destruct (decide (j = i)) as [->|Hne].
    - exists q'. rewrite list_lookup_insert_eq by done. rewrite Hi in Hj. injection Hj as <-. auto.
    - exists p. by rewrite list_lookup_insert_ne. }
  destruct Hs as [I1 I2 I3 I4 I5 I6 I7 I8 I9 I10]. split; cbn.
  - lia.
  - intros j r [[-> ->]|[_ Hj]]%HL; [done|]. specialize (I2 j r Hj). lia.
  - intros j r [[-> ->]|[_ Hj]]%HL; [done|]. by apply I3 with j.
  - assert (forall j r, j <> i -> a_tab s !! j = Some r -> c_state r <> UNUSED ->
      c_state q' <> UNUSED -> c_pid q' <> c_pid r) as HD.
    { intros j r Hne Hj Hr Hq' E. destruct (Hu Hq') as [[Hq Ep]|Ep].
      - apply Hne, (I4 j i r q Hj Hi Hr Hq). congruence.
      - specialize (I2 j r Hj). lia. }
    intros j k r r' [[-> ->]|[Hj Hj']]%HL [[-> ->]|[Hk Hk']]%HL Hr Hr' E; [done| | |by eapply I4].
    + exfalso. by apply (HD k r').
    + exfalso. by apply (HD j r).
  - intros c j [[-> Hr]|(Hne & r & Hj & Hr)]%Hcpu.
    + exists q'. by rewrite list_lookup_insert_eq.
    + exists r. by rewrite list_lookup_insert_ne.
  - done.
  - intros j r k [[-> ->]|[Hne Hj]]%HL Hp.
    + destruct (Hpar k Hp) as (Hd & p & Hk & Hpa). split; [done|]. by eapply HA.
    + destruct (I7 j r k Hj Hp) as (Hd & p & Hk & Hpa). split; [done|]. by eapply HA.
  - intros j r [[-> ->]|[_ Hj]]%HL; [done|]. by eapply I8.
  - destruct I9 as (p & Hp & Hpa & Hpp). destruct (decide (a_init s = i)) as [E|Hne].
    + exists q'. rewrite E, list_lookup_insert_eq by done. rewrite E, Hi in Hp. injection Hp as <-. auto.
    + exists p. by rewrite list_lookup_insert_ne.
  - intros j r Hj Hr Hc k r' Hk Hp Hzz. apply HL in Hk.
    assert (no_zombie j (a_tab s)) as HN.
    { apply HL in Hj as [[-> ->]|[_ Hj]]; [by apply Hw|by eapply I10]. }
    destruct Hk as [[-> ->]|[_ Hk]]; [|by eapply HN].
    destruct (Hz Hzz) as [Hqz Hqp]. eapply (HN i q); congruence.
Qed.

(** Waking sleepers. *)
Definition woken (q q' : pcore) : Prop := q' = q \/ (c_state q = SLEEPING /\ q' = c_set_state RUNNABLE q).

Lemma woken_facts q q' : woken q q' ->
  c_pid q' = c_pid q /\ c_parent q' = c_parent q /\ c_chan q' = c_chan q
  /\ (c_state q' = UNUSED <-> c_state q = UNUSED) /\ (c_state q' = ZOMBIE <-> c_state q = ZOMBIE)
  /\ (c_state q' = SLEEPING -> c_state q = SLEEPING) /\ (c_state q = RUNNING -> c_state q' = RUNNING).
Proof. intros [->|[E ->]]; [by repeat split|]. cbn. rewrite E. by repeat split. Qed.

Lemma ainv_woken s t' : ainv s -> Forall2 woken (a_tab s) t' -> ainv (set_tab t' s).
Proof.
  intros [I1 I2 I3 I4 I5 I6 I7 I8 I9 I10] HF.
  assert (forall j r', t' !! j = Some r' -> exists r, a_tab s !! j = Some r /\ woken r r') as HL.
  { intros j r' Hj. by eapply Forall2_lookup_r. }
  assert (forall j r, a_tab s !! j = Some r -> exists r', t' !! j = Some r' /\ woken r r') as HR.
  { intros j r Hj. by eapply Forall2_lookup_l. }
  assert (forall r r', woken r r' -> alive r -> alive r') as HA.
  { intros r r' Hw [? ?]. destruct (woken_facts _ _ Hw) as (_&_&_&?&?&_). split; tauto. }
  split; cbn.
  - done.
  - intros j r' (r & Hj & Hw)%HL. destruct (woken_facts _ _ Hw) as (->&_). eauto.
  - intros j r' (r & Hj & Hw)%HL. destruct (woken_facts _ _ Hw) as (->&_&_&->&_). eauto.
  - intros j k r' q' (r & Hj & Hw)%HL (q & Hk & Hv)%HL.
    destruct (woken_facts _ _ Hw) as (->&_&_&->&_). destruct (woken_facts _ _ Hv) as (->&_&_&->&_). eauto.
  - intros c j (r & Hj & Hr)%I5. destruct (HR j r Hj) as (r' & Hj' & Hw). exists r'.
    destruct (woken_facts _ _ Hw) as (_&_&_&_&_&_&?). auto.
  - done.
  - intros j r' k (r & Hj & Hw)%HL. destruct (woken_facts _ _ Hw) as (_&->&_). intros Hp.
    destruct (I7 j r k Hj Hp) as (Hne & p & Hk & Hpa). split; [done|].
    destruct (HR k p Hk) as (p' & Hk' & Hv). eauto.
  - intros j r' (r & Hj & Hw)%HL. destruct (woken_facts _ _ Hw) as (_&->&_&->&_). eauto.
  - destruct I9 as (p & Hp & Hpa & Hpp). destruct (HR _ p Hp) as (p' & Hp' & Hv). exists p'.
    destruct (woken_facts _ _ Hv) as (_&->&_). eauto.
  - intros j r' (r & Hj & Hw)%HL Hr Hc k q' (q & Hk & Hv)%HL.
    destruct (woken_facts _ _ Hw) as (_&_&Ec&_&_&Es&_). destruct (woken_facts _ _ Hv) as (_&->&_&_&->&_).
    intros Hp. eapply (I10 j r); [done|auto|congruence|done|done].
Qed.

Lemma c_wake_woken ch q : woken q (c_wake ch q).
Proof. unfold c_wake. case_decide as H; [right|by left]. by destruct H. Qed.

Lemma c_wake_parent ch q : c_parent (c_wake ch q) = c_parent q.
Proof. unfold c_wake. by case_decide. Qed.

Lemma wake_woken ch t : Forall2 woken t (c_wake ch <$> t).
Proof. induction t; constructor; [apply c_wake_woken|done]. Qed.

Lemma no_zombie_existsb i t : existsb (zombie_child i) t = false <-> no_zombie i t.
Proof.
  split.
  - intros H j r Hj Hp Hz. apply list_elem_of_lookup_2, list_elem_of_In in Hj.
    assert (existsb (zombie_child i) t = true) as E; [|congruence].
    apply existsb_exists. exists r. split; [done|]. by apply bool_decide_eq_true.
  - intros H. destruct (existsb _ t) eqn:E; [|done]. apply existsb_exists in E as (r & Hr & Hb).
    apply bool_decide_eq_true in Hb as [Hp Hz]. apply list_elem_of_In, list_elem_of_lookup in Hr as [j Hj].
    by apply (H j r) in Hp.
Qed.

(** Handing the children of [cur] to init, waking it when one is a zombie. *)
Definition adopted (cur init : nat) (t : list pcore) : list pcore :=
  let t' := c_adopt cur init <$> t in
  if existsb (zombie_child cur) t then c_wake (Some (CProc init)) <$> t' else t'.

Definition adopt1 (cur init : nat) (b : bool) (q : pcore) : pcore :=
  if b then c_wake (Some (CProc init)) (c_adopt cur init q) else c_adopt cur init q.

Lemma adopted_lookup cur init t j r' :
  adopted cur init t !! j = Some r' <->
  exists r, t !! j = Some r /\ r' = adopt1 cur init (existsb (zombie_child cur) t) r.
Proof.
  unfold adopted, adopt1. destruct (existsb _ t).
  - rewrite <- list_fmap_compose, list_lookup_fmap, fmap_Some. done.
  - rewrite list_lookup_fmap, fmap_Some. done.
Qed.

Lemma adopt1_facts cur init b q : let q' := adopt1 cur init b q in
  c_pid q' = c_pid q /\ c_chan q' = c_chan q
  /\ c_parent q' = (if decide (c_parent q = Some cur) then Some init else c_parent q)
  /\ (c_state q' = UNUSED <-> c_state q = UNUSED) /\ (c_state q' = ZOMBIE <-> c_state q = ZOMBIE)
  /\ (c_state q' = SLEEPING -> c_state q = SLEEPING) /\ (c_state q = RUNNING -> c_state q' = RUNNING)
  /\ (b = true -> c_chan q = Some (CProc init) -> c_state q' <> SLEEPING).
Proof.
  cbn. unfold adopt1. assert (forall q, c_chan q = Some (CProc init) -> c_state (c_wake (Some (CProc init)) q) <> SLEEPING) as HW.
  { intros p Hc. unfold c_wake. case_decide as H; [done|]. tauto. }
  assert (c_pid (c_adopt cur init q) = c_pid q /\ c_chan (c_adopt cur init q) = c_chan q /\
    c_state (c_adopt cur init q) = c_state q /\
    c_parent (c_adopt cur init q) = (if decide (c_parent q = Some cur) then Some init else c_parent q)) as (E1 & E2 & E3 & E4).
  { unfold c_adopt. by case_decide. }
  destruct b.
  - destruct (woken_facts _ _ (c_wake_woken (Some (CProc init)) (c_adopt cur init q))) as (->&->&->&->&->&?&?).
    rewrite E1, E2, E3, E4 in *. repeat (split; [done|]). intros _ Hc. apply HW. congruence.
  - rewrite E1, E2, E3, E4. by repeat split.
Qed.

Lemma ainv_adopted s cur :
  ainv s -> cur <> a_init s -> ainv (set_tab (adopted cur (a_init s) (a_tab s)) s).
Proof.
  intros [I1 I2 I3 I4 I5 I6 I7 I8 I9 I10] Hne.
  set (b := existsb (zombie_child cur) (a_tab s)).
  assert (forall r, alive r -> alive (adopt1 cur (a_init s) b r)) as HA.
  { intros r [? ?]. destruct (adopt1_facts cur (a_init s) b r) as (_&_&_&?&?&_). split; tauto. }
  assert (forall j r, a_tab s !! j = Some r -> adopted cur (a_init s) (a_tab s) !! j = Some (adopt1 cur (a_init s) b r)) as HR.
  { intros j r Hj. apply adopted_lookup. eauto. }
  assert (forall j r', adopted cur (a_init s) (a_tab s) !! j = Some r' ->
    exists r, a_tab s !! j = Some r /\ r' = adopt1 cur (a_init s) b r) as HL by (intros j r'; apply adopted_lookup).
  destruct I9 as (p0 & Hp0 & Hpa0 & Hpp0).
  split; cbn.
  - done.
  - intros j r' (r & Hj & ->)%HL. destruct (adopt1_facts cur (a_init s) b r) as (->&_). eauto.
  - intros j r' (r & Hj & ->)%HL. destruct (adopt1_facts cur (a_init s) b r) as (->&_&_&->&_). eauto.
  - intros j k r' q' (r & Hj & ->)%HL (q & Hk & ->)%HL.
    destruct (adopt1_facts cur (a_init s) b r) as (->&_&_&->&_). destruct (adopt1_facts cur (a_init s) b q) as (->&_&_&->&_). eauto.
  - intros c j (r & Hj & Hr)%I5. eexists. split; [by apply HR|]. by apply adopt1_facts.
  - done.
  - intros j r' k (r & Hj & ->)%HL. destruct (adopt1_facts cur (a_init s) b r) as (_&_&->&_).
    case_decide as Hc; intros Hp.
    + injection Hp as <-. split; [|eauto]. intros ->. congruence.
    + destruct (I7 j r k Hj Hp) as (? & p & Hk & Hpa). split; [done|]. eauto.
  - intros j r' (r & Hj & ->)%HL. destruct (adopt1_facts cur (a_init s) b r) as (_&_&->&->&_).
    case_decide; [done|]. eauto.
  - eexists. split; [by apply HR|]. split; [auto|]. destruct (adopt1_facts cur (a_init s) b p0) as (_&_&->&_).
    rewrite Hpp0. by case_decide.
  - intros j r' (r & Hj & ->)%HL Hr Hc k q' (q & Hk & ->)%HL.
    destruct (adopt1_facts cur (a_init s) b r) as (_&Ec&_&_&_&Es&_&Hb).
    destruct (adopt1_facts cur (a_init s) b q) as (_&_&->&_&Hz&_). rewrite Ec in Hc. intros Hp Hzq. apply Hz in Hzq.
    case_decide as Hcc.
    + injection Hp as <-. apply (Hb); [|done|done]. apply existsb_exists. exists q.
      split; [by eapply list_elem_of_In, list_elem_of_lookup_2|]. by apply bool_decide_eq_true.
    + by eapply (I10 j r Hj (Es Hr) Hc).
Qed.

(** The running process becomes a zombie once it has no children and its
    parent is awake. *)
Lemma ainv_zombie s c cur q :
  ainv s -> running c cur s -> a_tab s !! cur = Some q -> cur <> a_init s ->
  (forall j r, a_tab s !! j = Some r -> c_parent r <> Some cur) ->
  (forall j p, c_parent q = Some j -> a_tab s !! j = Some p -> ~ (c_state p = SLEEPING /\ c_chan p = Some (CProc j))) ->
  ainv (Amach (<[cur := c_set_state ZOMBIE q]> (a_tab s)) (a_next s) (a_init s) (<[c := None]> (a_cpu s))).
Proof.
  intros Hs Hrun Hq Hne Hkids Hpar. assert (cur < length (a_tab s))%nat as Hlt by (by eapply lookup_lt_Some).
  assert (c < length (a_cpu s))%nat as Hltc by (by eapply lookup_lt_Some).
  assert (forall j r, <[cur := c_set_state ZOMBIE q]> (a_tab s) !! j = Some r ->
    (j = cur /\ r = c_set_state ZOMBIE q) \/ (j <> cur /\ a_tab s !! j = Some r)) as HL.
  { intros j r. destruct (decide (j = cur)) as [->|Hn].
    - rewrite list_lookup_insert_eq by done. intros [= <-]. by left.
    - rewrite list_lookup_insert_ne by done. by right. }
  assert (forall d j, <[c := None]> (a_cpu s) !! d = Some (Some j) -> d <> c /\ a_cpu s !! d = Some (Some j)) as HC.
  { intros d j. destruct (decide (d = c)) as [->|Hd]; [by rewrite list_lookup_insert_eq|].
    by rewrite list_lookup_insert_ne. }
  destruct Hs as [I1 I2 I3 I4 I5 I6 I7 I8 I9 I10].
  destruct (I5 c cur Hrun) as (q0 & Hq0 & Hst). rewrite Hq in Hq0. injection Hq0 as <-.
  assert (c_state q <> UNUSED) as Hnu by (by rewrite Hst).
  split; cbn.
  - done.
  - intros j r [[-> ->]|[_ Hj]]%HL; cbn; eauto.
  - intros j r [[-> ->]|[_ Hj]]%HL; cbn; eauto.
  - intros j k r r' [[-> ->]|[Hj Hj']]%HL [[-> ->]|[Hk Hk']]%HL Hr Hr' E; cbn in *; [done| | |by eapply I4].
    + by eapply (I4 cur k q r').
    + by eapply (I4 j cur r q).
  - intros d j [Hd Hj]%HC. destruct (I5 d j Hj) as (r & Hr & Hrs). exists r.
    rewrite list_lookup_insert_ne; [done|]. intros <-. by apply Hd, (I6 d c cur).
  - intros d e j [_ Hd]%HC [_ He]%HC. by eapply I6.
  - intros j r k Hj Hp.
    assert (exists r0, a_tab s !! j = Some r0 /\ c_parent r0 = Some k) as (r0 & Hj0 & Hp0).
    { apply HL in Hj as [[-> ->]|[_ Hj]]; eauto. }
    destruct (I7 j r0 k Hj0 Hp0) as (Hjk & p & Hk & Hpa). split; [done|]. exists p.
    rewrite list_lookup_insert_ne; [done|]. intros <-. by apply (Hkids j r0).
  - intros j r [[-> ->]|[_ Hj]]%HL; cbn; [intros _; by apply (I8 cur q)|by eapply I8].
  - destruct I9 as (p & Hp & Hpa & Hpp). exists p. by rewrite list_lookup_insert_ne.
  - intros j r Hj Hr Hc k r' Hk Hp Hz.
    apply HL in Hj as [[-> ->]|[Hjc Hj]]; [done|]. apply HL in Hk as [[-> ->]|[_ Hk]].
    + by apply (Hpar j r Hp Hj).
    + by eapply (I10 j r Hj Hr Hc k r').
Qed.

Lemma ainv_exit s c cur q :
  ainv s -> running c cur s -> a_tab s !! cur = Some q -> cur <> a_init s ->
  ainv (Amach (a_exit_tab cur q s) (a_next s) (a_init s) (<[c := None]> (a_cpu s))).
Proof.
  intros Hs Hrun Hq Hne. destruct (ai_run _ Hs c cur Hrun) as (q0 & Hq0 & Hst).
  rewrite Hq in Hq0. injection Hq0 as <-.
  set (t1 := c_wake (CProc <$> c_parent q) <$> a_tab s).
  set (s1 := set_tab t1 s). assert (ainv s1) as H1 by (apply ainv_woken, wake_woken; done).
  set (s2 := set_tab (adopted cur (a_init s1) (a_tab s1)) s1).
  assert (ainv s2) as H2 by (by apply ainv_adopted).
  assert (a_tab s1 !! cur = Some q) as Hq1.
  { cbn. unfold t1. rewrite list_lookup_fmap, Hq. cbn. unfold c_wake. rewrite Hst.
    by rewrite decide_False by (intros [? _]; done). }
  assert (c_parent q <> Some cur) as Hpq.
  { intros E. by destruct (ai_parent _ Hs cur q cur Hq E). }
  set (q2 := adopt1 cur (a_init s1) (existsb (zombie_child cur) (a_tab s1)) q).
  assert (a_tab s2 !! cur = Some q2) as Hq2 by (apply adopted_lookup; eauto).
  destruct (adopt1_facts cur (a_init s1) (existsb (zombie_child cur) (a_tab s1)) q) as (E1&E2&E3&_&_&_&E4&_).
  fold q2 in E1, E2, E3, E4. rewrite decide_False in E3 by done.
  assert (a_exit_tab cur q s = <[cur := c_set_state ZOMBIE q2]> (a_tab s2)) as ->.
  { unfold a_exit_tab. fold t1. by rewrite (alter_insert_list _ _ _ q2) by exact Hq2. }
  apply (ainv_zombie s2 c cur q2); try done.
  - intros j r (r0 & Hj & ->)%adopted_lookup Hp.
    destruct (adopt1_facts cur (a_init s1) (existsb (zombie_child cur) (a_tab s1)) r0) as (_&_&E&_).
    rewrite E in Hp. case_decide; [|done]. injection Hp as E'. by apply Hne.
  - intros j p Hp (p0 & Hj & ->)%adopted_lookup [Hsl Hch].
    destruct (adopt1_facts cur (a_init s1) (existsb (zombie_child cur) (a_tab s1)) p0) as (_&Ec&_&_&_&Es&_).
    rewrite Ec in Hch. apply Es in Hsl. rewrite E3 in Hp. cbn in Hj. unfold t1 in Hj.
    rewrite list_lookup_fmap in Hj. apply fmap_Some in Hj as (p1 & Hj & ->).
    revert Hsl Hch. unfold c_wake. rewrite Hp. cbn. case_decide as Hd; [done|]. tauto.
Qed.

(** A live process changes its scheduling state only. *)
Lemma ainv_restate s i q q' cpus' :
  ainv s -> a_tab s !! i = Some q -> alive q -> alive q' ->
  c_pid q' = c_pid q -> c_parent q' = c_parent q ->
  (c_state q' = SLEEPING -> c_chan q' = Some (CProc i) -> no_zombie i (a_tab s)) ->
  (forall c j, cpus' !! c = Some (Some j) ->
     (j = i /\ c_state q' = RUNNING) \/ (j <> i /\ exists r, a_tab s !! j = Some r /\ c_state r = RUNNING)) ->
  (forall c d j, cpus' !! c = Some (Some j) -> cpus' !! d = Some (Some j) -> c = d) ->
  ainv (Amach (<[i := q']> (a_tab s)) (a_next s) (a_init s) cpus').
Proof.
  intros Hs Hi Hq Hq' Ep Epar Hw Hc Ho. pose proof Hs as [I1 I2 I3 I4 I5 I6 I7 I8 I9 I10].
  destruct Hq as [Hq1 Hq2]. destruct Hq' as [Hq1' Hq2'].
  eapply (ainv_slot s i q); rewrite ?Ep, ?Epar; try done; try lia.
  - by eapply I2.
  - intros _. by eapply I3.
  - intros _. by left.
  - intros j Hj. by eapply I7.
  - intros _ Hii. by eapply I8.
  - intros ->. destruct I9 as (p & ? & _ & ?). congruence.
Qed.

(** What the CPUs run after CPU [c] gives up process [cur]. *)
Lemma cpu_drop s c cur : ainv s -> running c cur s -> forall d j,
  <[c := None]> (a_cpu s) !! d = Some (Some j) -> a_cpu s !! d = Some (Some j) /\ j <> cur.
Proof.
  intros Hs Hc d j. destruct (decide (d = c)) as [->|Hd].
  - rewrite list_lookup_insert_eq by (by eapply lookup_lt_Some). done.
  - rewrite list_lookup_insert_ne by done. intros Hj. split; [done|]. intros ->.
    by apply Hd, (ai_one _ Hs d c cur).
Qed.

(** A process that is not running is on no CPU. *)
Lemma cpu_off s i q : ainv s -> a_tab s !! i = Some q -> c_state q <> RUNNING -> forall c j,
  a_cpu s !! c = Some (Some j) -> j <> i /\ exists r, a_tab s !! j = Some r /\ c_state r = RUNNING.
Proof.
  intros Hs Hi Hq c j Hc. destruct (ai_run _ Hs c j Hc) as (r & Hj & Hr). split; [|eauto]. intros ->. congruence.
Qed.

(** The running process leaves its CPU. *)
Lemma ainv_leave s c cur q q' :
  ainv s -> running c cur s -> a_tab s !! cur = Some q -> alive q' ->
  c_pid q' = c_pid q -> c_parent q' = c_parent q ->
  (c_state q' = SLEEPING -> c_chan q' = Some (CProc cur) -> no_zombie cur (a_tab s)) ->
  ainv (Amach (<[cur := q']> (a_tab s)) (a_next s) (a_init s) (<[c := None]> (a_cpu s))).
Proof.
  intros Hs Hr Hi Hq' Ep Epar Hw. destruct (ai_run _ Hs c cur Hr) as (r & Hcur & Hrun).
  rewrite Hi in Hcur. injection Hcur as <-.
  apply (ainv_restate s cur q); try done.
  - split; by rewrite Hrun.
  - intros d j Hd. destruct (cpu_drop s c cur Hs Hr d j Hd) as [Hj Hne].
    right. split; [done|]. by eapply ai_run.
  - intros d e j Hd He. destruct (cpu_drop s c cur Hs Hr d j Hd), (cpu_drop s c cur Hs Hr e j He).
    by eapply (ai_one _ Hs).
Qed.

Lemma ainv_sched s c i q :
  ainv s -> a_cpu s !! c = Some None -> a_tab s !! i = Some q -> c_state q = RUNNABLE ->
  ainv (Amach (<[i := c_set_state RUNNING q]> (a_tab s)) (a_next s) (a_init s) (<[c := Some i]> (a_cpu s))).
Proof.
  intros Hs Hc Hi Hu.
  assert (forall d j, <[c := Some i]> (a_cpu s) !! d = Some (Some j) ->
    (d = c /\ j = i) \/ (d <> c /\ a_cpu s !! d = Some (Some j) /\ j <> i)) as HC.
  { intros d j. destruct (decide (d = c)) as [->|Hd].
    - rewrite list_lookup_insert_eq by (by eapply lookup_lt_Some). intros [= <-]. by left.
    - rewrite list_lookup_insert_ne by done. intros Hj. right. split; [done|]. split; [done|].
      eapply (cpu_off s i q); [done|done|by rewrite Hu|done]. }
  apply (ainv_restate s i q); try done.
  - split; by rewrite Hu.
  - intros d j [[-> ->]|(_ & Hj & Hne)]%HC; [by left|right]. split; [done|]. by eapply ai_run.
  - intros d e j [[-> ->]|(Hd & Hj & Hne)]%HC [[-> E]|(He & Hj' & Hne')]%HC; try done. by eapply (ai_one _ Hs).
Qed.

Lemma not_init s i q : ainv s -> a_tab s !! i = Some q -> ~ alive q -> i <> a_init s.
Proof. intros Hs Hi Hq ->. destruct (ai_init _ Hs) as (p & Hp & Ha & _). congruence. Qed.

(** Every abstract step keeps the invariant. *)
Lemma astep_inv s s' : ainv s -> astep s s' -> ainv s'.
Proof.
  intros Hs Hst. pose proof Hs as [I1 I2 I3 I4 I5 I6 I7 I8 I9 I10].
  destruct Hst as [s c cur i q Hr Hi Hu|s i q Hi Hu|s c i q Hc Hi Hu|s c cur q Hr Hi|s c cur q ch Hr Hi Hz
    |s c cur q Hr Hi|s ch|s i q Hi Hu|s c cur q Hr Hi Hne|s c cur i q Hr Hi Hu Hp].
  - destruct (I5 c cur Hr) as (r & Hcur & Hrun).
    assert (i <> a_init s) as Hii by (eapply not_init; [done|done|by intros [? _]]).
    eapply (ainv_slot s i q); cbn; try done; try lia.
    + intros j [= <-]. split; [congruence|]. exists r. split; [done|]. split; by rewrite Hrun.
    + intros d j Hd. right. eapply cpu_off; [done|done|by rewrite Hu|done].
  - assert (i <> a_init s) as Hii by (eapply not_init; [done|done|by intros [? _]]).
    eapply (ainv_slot s i q); cbn; try done; try lia.
    + by intros [? _].
    + intros j Hj. by apply (I7 i q).
    + intros d j Hd. right. eapply cpu_off; [done|done|by rewrite Hu|done].
  - by apply ainv_sched.
  - by apply (ainv_leave s c cur q).
  - by apply (ainv_leave s c cur q).
  - destruct (I5 c cur Hr) as (r & Hcur & Hrun). rewrite Hi in Hcur. injection Hcur as <-.
    apply (ainv_restate s cur q); try done; cbn.
    1,2: split; by rewrite Hrun.
    intros d j Hd. destruct (decide (j = cur)) as [->|]; [by left|right]. split; [done|]. by eapply I5.
  - apply ainv_woken, wake_woken. done.
  - apply ainv_woken; [done|]. rewrite <- (list_insert_id (a_tab s) i q) at 1 by done.
    apply Forall2_insert; [|by right]. assert (Reflexive woken) by (intros x; by left). done.
  - by apply ainv_exit.
  - assert (i <> a_init s) as Hii by (eapply not_init; [done|done|by intros [_ ?]]).
    pose proof (I2 i q Hi). eapply (ainv_slot s i q); cbn; try done; try lia.
    + by intros [_ ?].
    + intros d j Hd. right. eapply cpu_off; [done|done|by rewrite Hu|done].
Qed.

(** * proc.c refines the machine *)

Lemma core_wake_if ch p : core (wake_if ch p) = c_wake ch (core p).
Proof. unfold wake_if, c_wake. cbn. by case_decide. Qed.

Lemma core_wakeup1 ch t : core <$> wakeup1 ch t = c_wake ch <$> (core <$> t).
Proof.
  unfold wakeup1. rewrite <- !list_fmap_compose. apply list_fmap_ext. intros i p _. apply core_wake_if.
Qed.

Lemma core_alter (f : proc -> proc) (g : pcore -> pcore) (i : nat) (t : list proc) :
  (forall p, core (f p) = g (core p)) -> core <$> alter f i t = alter g i (core <$> t).
Proof. intros H. apply list_fmap_alter, Forall_true. intros. apply H. Qed.

Lemma core_alter_id (f : proc -> proc) (i : nat) (t : list proc) : (forall p, core (f p) = core p) -> core <$> alter f i t = core <$> t.
Proof.
  intros H. rewrite (core_alter f (fun q => q)) by done. apply list_alter_id. done.
Qed.

(** The loop of [exit] over the table, on cores. *)
Definition wake1b (init : nat) (b : bool) (q : pcore) : pcore :=
  if b then c_wake (Some (CProc init)) q else q.

Lemma c_wake_idem ch q : c_wake ch (c_wake ch q) = c_wake ch q.
Proof. unfold c_wake. repeat case_decide; try done. Qed.

Lemma c_wake_adopt1 cur init b q : c_wake (Some (CProc init)) (adopt1 cur init b q) = adopt1 cur init true q.
Proof. unfold adopt1. destruct b; [apply c_wake_idem|done]. Qed.

Lemma c_wake_wake1b init b q : c_wake (Some (CProc init)) (wake1b init b q) = wake1b init true q.
Proof. unfold wake1b. destruct b; [apply c_wake_idem|done]. Qed.

Lemma adopt1_wake1b cur init b q :
  c_adopt cur init (wake1b init b q) = adopt1 cur init b q.
Proof.
  unfold adopt1, wake1b, c_adopt, c_wake. destruct b; [|done]. 
  repeat case_decide; cbn in *; try done; tauto.
Qed.

(** The table once the loop has passed the processes [l1], with [l2] to go. *)
Definition midway (cur init : nat) (l1 l2 : list pcore) : list pcore :=
  let b := existsb (zombie_child cur) l1 in (adopt1 cur init b <$> l1) ++ (wake1b init b <$> l2).

Lemma reparent_midway cur init l2 : forall l1 t,
  core <$> t = midway cur init l1 l2 ->
  core <$> reparent (length l2) (length l1) cur (Some init) t = midway cur init (l1 ++ l2) [].
Proof.
  induction l2 as [|q l2 IH]; intros l1 t Ht; cbn [reparent length].
  - by rewrite app_nil_r.
  - set (b := existsb (zombie_child cur) l1).
    assert (core <$> t !! length l1 = Some (wake1b init b q)) as Hl.
    { rewrite <- list_lookup_fmap, Ht. unfold midway.
      rewrite lookup_app_r by (by rewrite length_fmap). by rewrite length_fmap, Nat.sub_diag. }
    destruct (t !! length l1) as [p|] eqn:Ep; [|done]. cbn in Hl. injection Hl as Hp.
    assert (c_parent (wake1b init b q) = c_parent q /\ (c_state (wake1b init b q) = ZOMBIE <-> c_state q = ZOMBIE)) as [Epar Ez].
    { unfold wake1b. destruct b; [|done]. destruct (woken_facts _ _ (c_wake_woken (Some (CProc init)) q)) as (_&?&_&_&?&_). done. }
    assert (parent p = c_parent q) as Hpar by (change (parent p) with (c_parent (core p)); congruence).
    assert (state p = ZOMBIE <-> c_state q = ZOMBIE) as Hz by (change (state p) with (c_state (core p)); by rewrite Hp).
    replace (l1 ++ q :: l2) with ((l1 ++ [q]) ++ l2) by (by rewrite <- app_assoc).
    replace (S (length l1)) with (length (l1 ++ [q])) by (rewrite length_app; cbn; lia).
    apply IH. unfold midway. rewrite existsb_app. cbn [existsb]. fold b. rewrite orb_false_r.
    assert (alter (fun q => Pcore (c_state q) (c_pid q) (Some init) (c_chan q)) (length l1) (core <$> t) =
      (adopt1 cur init b <$> l1) ++ Pcore (c_state (wake1b init b q)) (c_pid (wake1b init b q)) (Some init) (c_chan (wake1b init b q)) :: (wake1b init b <$> l2)) as Halt.
    { rewrite Ht. unfold midway. fold b. rewrite fmap_cons.
      replace (length l1) with (length (adopt1 cur init b <$> l1) + 0)%nat by (rewrite length_fmap; lia).
      by rewrite alter_app_r. }
    rewrite fmap_app. rewrite <- app_assoc. cbn [fmap list_fmap app].
    case_decide as Hc.
    + assert (Pcore (c_state (wake1b init b q)) (c_pid (wake1b init b q)) (Some init) (c_chan (wake1b init b q)) = adopt1 cur init b q) as Eq.
      { rewrite <- adopt1_wake1b. unfold c_adopt. rewrite decide_True by congruence. done. }
      rewrite Eq in Halt. unfold zombie_child. case_decide as Hzz.
      * rewrite bool_decide_true by (split; [congruence|tauto]). rewrite orb_true_r.
        rewrite core_wakeup1, (core_alter _ (fun q => Pcore (c_state q) (c_pid q) (Some init) (c_chan q))) by done.
        rewrite Halt, fmap_app, fmap_cons.
        change (option_fmap nat pchan CProc (Some init)) with (Some (CProc init)). rewrite c_wake_adopt1, <- !list_fmap_compose.
        f_equal; [|f_equal]; apply list_fmap_ext; intros i x _; cbn; [apply c_wake_adopt1|apply c_wake_wake1b].
      * rewrite bool_decide_false by tauto. rewrite orb_false_r.
        rewrite (core_alter _ (fun q => Pcore (c_state q) (c_pid q) (Some init) (c_chan q))) by done. done.
    + rewrite Ht. unfold midway. fold b. unfold zombie_child. rewrite bool_decide_false by (rewrite <- Hpar; tauto).
      rewrite orb_false_r, fmap_cons. do 2 f_equal. unfold adopt1, wake1b, c_adopt.
      rewrite decide_False by (by rewrite <- Hpar). done.
Qed.

Lemma reparent_adopted cur init t :
  core <$> reparent (length t) 0 cur (Some init) t = adopted cur init (core <$> t).
Proof.
  rewrite <- (length_fmap core t). change 0%nat with (length (@nil pcore)).
  rewrite (reparent_midway cur init (core <$> t) [] t).
  - cbn [app]. unfold midway, adopted. rewrite app_nil_r. unfold adopt1.
    destruct (existsb _ _); [|done]. by rewrite <- (list_fmap_compose (c_adopt cur init)).
  - unfold midway. cbn. unfold wake1b. by rewrite list_fmap_id.
Qed.
