(* ===== verification/ProcRefine.v ===== *)
(** Every step of the kernel's process code is a step of the abstract machine
    of [ProcTheory] or leaves it alone; the properties of proc.c follow. *)
From S2P Require Import Prelude Mem KString Mmu Kalloc Vm Spinlock Wmap Proc ProcTheory.

Section Refine.
Context {F : Type} {FR : FileRefs F}.
Context (kend kdata trapret forkret : Z).

Abbreviation kern := (kern F).

(** The steps of the kernel.  The process code runs on CPU [c] as process
    [cur]; [ks_other] is any other kernel or user code, which does not touch
    the process table. *)
Inductive kstep : kern -> kern -> Prop :=
| ks_sched k c pos i k' :
    cpu_proc k !! c = Some None -> scheduler c pos k = Ok (Some i, k') -> kstep k k'
| ks_yield k c cur : cpu_proc k !! c = Some (Some cur) -> kstep k (yield c cur k)
| ks_sleep k c cur a : cpu_proc k !! c = Some (Some cur) -> kstep k (sleep c cur (Some (CAddr a)) k)
| ks_resume k c cur : cpu_proc k !! c = Some (Some cur) -> kstep k (sleep_resume cur k)
| ks_wakeup k a : kstep k (wakeup (Some (CAddr a)) k)
| ks_kill k id : kstep k (kill id k).2
| ks_fork k c cur r k' :
    cpu_proc k !! c = Some (Some cur) -> fork kend kdata trapret forkret cur k = Ok (r, k') -> kstep k k'
| ks_exit k c cur k' :
    cpu_proc k !! c = Some (Some cur) -> exit cur k = Ok k' -> kstep k (set_cpu_proc c None k')
| ks_wait k c cur r k' :
    cpu_proc k !! c = Some (Some cur) -> wait kend c cur k = Ok (r, k') -> kstep k k'
| ks_grow k c cur n r k' :
    cpu_proc k !! c = Some (Some cur) -> growproc kend cur n k = Ok (r, k') -> kstep k k'
| ks_other k m w f t : kstep k (set_ticks t (set_files f (set_wtab w (set_kmem m k)))).

Definition abs (init : nat) (k : kern) : amach := Amach (core <$> ptable k) (nextpid k) init (cpu_proc k).

Lemma abs_upd init i f (g : pcore -> pcore) k q :
  (forall p, core (f p) = g (core p)) -> (core <$> ptable k) !! i = Some q ->
  abs init (upd i f k) = Amach (<[i := g q]> (core <$> ptable k)) (nextpid k) init (cpu_proc k).
Proof.
  intros H Hi. unfold abs, upd. cbn. by rewrite (core_alter f g), (alter_insert_list _ _ _ q).
Qed.

Lemma abs_upd_id init i f k : (forall p, core (f p) = core p) -> abs init (upd i f k) = abs init k.
Proof. intros H. unfold abs, upd. cbn. by rewrite core_alter_id. Qed.

Lemma the_proc_Some i (k : kern) p : the_proc i k = Ok p -> ptable k !! i = Some p.
Proof. unfold the_proc. destruct (ptable k !! i); [by intros [= ->]|done]. Qed.

Lemma core_lookup (t : list proc) i p : t !! i = Some p -> (core <$> t) !! i = Some (core p).
Proof. intros H. by rewrite list_lookup_fmap, H. Qed.

Lemma find_state_Some st t : forall i j,
  find_state st i t = Some j ->
  exists d p, j = (i + d)%nat /\ t !! d = Some p /\ state p = st
    /\ forall e q, (e < d)%nat -> t !! e = Some q -> state q <> st.
Proof.
  induction t as [|p t IH]; intros i j; cbn [find_state]; [done|].
  case_decide as Hp.
  - intros [= <-]. exists 0%nat, p. split; [lia|]. split; [done|]. split; [done|]. lia.
  - intros (d & q & -> & Hq & Hst & Hmin)%IH. exists (S d), q. split; [lia|]. split; [done|]. split; [done|].
    intros [|e] r He; cbn; [by intros [= <-]|]. intros Hr. eapply Hmin; [|done]. lia.
Qed.

Lemma wakeup_abs init ch k :
  abs init (wakeup ch k) = set_tab (c_wake ch <$> (core <$> ptable k)) (abs init k).
Proof. unfold abs, wakeup, set_tab. cbn. by rewrite core_wakeup1. Qed.

(** [allocproc] takes the first unused slot with a fresh pid. *)
Lemma allocproc_abs init k r k' :
  allocproc trapret forkret k = Ok (r, k') ->
  initproc k' = initproc k /\
  ((r = None /\ k' = k)
   \/ exists i q, (core <$> ptable k) !! i = Some q /\ c_state q = UNUSED /\
      ((r = None /\ abs init k' = Amach (<[i := Pcore UNUSED (nextpid k) (c_parent q) (c_chan q)]> (core <$> ptable k))
                                (nextpid k + 1) init (cpu_proc k))
       \/ (r = Some i /\ abs init k' = Amach (<[i := Pcore EMBRYO (nextpid k) (c_parent q) (c_chan q)]> (core <$> ptable k))
                                (nextpid k + 1) init (cpu_proc k)))).
Proof.
  unfold allocproc. destruct (find_state _ _ _) as [j|] eqn:Ef; [|intros [= <- <-]; split; [done|by left]].
  destruct (_ =? 2147483647); [done|].
  apply find_state_Some in Ef as (i & p & -> & Hp & Hst & _). cbn [Nat.add].
  destruct (kalloc _) as [ks km]. pose proof (core_lookup _ _ _ Hp) as Hc.
  assert (length (ptable k) > i)%nat as Hlt by (by eapply lookup_lt_Some).
  destruct (ks =? 0); intros [= <- <-]; (split; [done|]); right; exists i, (core p); (split; [done|]); (split; [done|]).
  - left. split; [done|]. unfold abs. cbn. f_equal.
    rewrite (core_alter (with_state UNUSED) (c_set_state UNUSED)) by done.
    rewrite (core_alter_id (with_kstack ks)) by done.
    rewrite (core_alter _ (fun q => Pcore EMBRYO (nextpid k) (c_parent q) (c_chan q))) by done.
    rewrite (alter_insert_list _ (core <$> ptable k) i (core p)) by done.
    erewrite alter_insert_list by (by apply list_lookup_insert_eq; rewrite length_fmap).
    by rewrite list_insert_insert_eq.
  - right. split; [done|]. unfold abs. cbn. f_equal.
    rewrite (core_alter_id (with_frames _ _)), (core_alter_id (with_kstack ks)) by done.
    rewrite (core_alter _ (fun q => Pcore EMBRYO (nextpid k) (c_parent q) (c_chan q))) by done.
    by rewrite (alter_insert_list _ (core <$> ptable k) i (core p)).
Qed.

(** What a sequence of updates of slot [i] makes of an inserted core. *)
Lemma core_alter_insert (f : proc -> proc) (g : pcore -> pcore) (i : nat) (t : list proc) tab q :
  (forall p, core (f p) = g (core p)) -> core <$> t = <[i := q]> tab -> (i < length tab)%nat ->
  core <$> alter f i t = <[i := g q]> tab.
Proof.
  intros H Ht Hi. rewrite (core_alter f g), Ht by done.
  rewrite (alter_insert_list _ _ _ q) by (by apply list_lookup_insert_eq). by rewrite list_insert_insert_eq.
Qed.

Lemma fork_abs init c cur k r k' :
  ainv (abs init k) -> cpu_proc k !! c = Some (Some cur) ->
  fork kend kdata trapret forkret cur k = Ok (r, k') ->
  initproc k' = initproc k /\
  ((r = -1 /\ (abs init k' = abs init k \/ astep (abs init k) (abs init k')))
   \/ (r = nextpid k /\ exists i q, (core <$> ptable k) !! i = Some q /\ c_state q = UNUSED
       /\ abs init k' = Amach (<[i := Pcore RUNNABLE r (Some cur) (c_chan q)]> (core <$> ptable k))
                          (nextpid k + 1) init (cpu_proc k))).
Proof.
  intros Hs Hr H. unfold fork in H. apply obind_Ok_inv in H as (curproc & Hcur & H).
  apply the_proc_Some in Hcur. apply obind_Ok_inv in H as ([np k1] & Ha & H).
  destruct (allocproc_abs init _ _ _ Ha) as [Hi1 [[-> ->]|(i & q & Hq & Hu & [[-> Hk1]|[-> Hk1]])]].
  - injection H as <- <-. split; [done|]. left. split; [done|]. by left.
  - injection H as <- <-. split; [done|]. left. split; [done|]. right. rewrite Hk1.
    by apply (as_fork_fail (abs init k) i q).
  - apply obind_Ok_inv in H as (np & Hnp & H). apply the_proc_Some in Hnp.
    apply obind_Ok_inv in H as ([d km] & Hcopy & H). 
    assert (i < length (core <$> ptable k))%nat as Hlt by (by eapply lookup_lt_Some).
    injection Hk1 as Ht Hn Hc. pose proof (core_lookup _ _ _ Hnp) as Hnpc.
    rewrite Ht, list_lookup_insert_eq in Hnpc by done. injection Hnpc as _ Hpid _ _.
    destruct (d =? 0).
    + apply obind_Ok_inv in H as (km' & Hk & H). injection H as <- <-. split; [done|].
      left. split; [done|]. right.
      assert (abs init (upd i (fun p => with_state UNUSED (with_kstack 0 p))
         (set_kmem km' (upd i (with_space d (sz np)) (set_kmem km k1)))) =
         Amach (<[i := Pcore UNUSED (nextpid k) (c_parent q) (c_chan q)]> (core <$> ptable k)) (nextpid k + 1) init (cpu_proc k)) as ->.
      { unfold abs. cbn. rewrite Hn, Hc. f_equal.
        etrans; [eapply (core_alter_insert _ (c_set_state UNUSED)); [done|rewrite core_alter_id by done; exact Ht|done]|done]. }
      by apply (as_fork_fail (abs init k) i q).
    + inv_bind. injection H as <- <-. split; [done|]. right. split; [congruence|]. exists i, q.
      split; [done|]. split; [done|]. unfold abs. cbn. rewrite Hn, Hc, <- Hpid. f_equal.
      etrans; [eapply (core_alter_insert _ (c_set_state RUNNABLE)); [done| |done]|].
      { rewrite core_alter_id by done.
        eapply (core_alter_insert _ (fun q => Pcore (c_state q) (c_pid q) (Some cur) (c_chan q))); [done| |done].
        rewrite core_alter_id by done. exact Ht. }
      done.
Qed.

(** Closing files only wakes processes. *)
Lemma wake_all_abs init ws : forall k,
  rtc astep (abs init k) (abs init (wake_all ws k))
  /\ initproc (wake_all ws k) = initproc k /\ cpu_proc (wake_all ws k) = cpu_proc k /\ nextpid (wake_all ws k) = nextpid k
  /\ forall i p, ptable k !! i = Some p -> exists p', ptable (wake_all ws k) !! i = Some p' /\ parent p' = parent p.
Proof.
  induction ws as [|a ws IH]; intros k; cbn [wake_all].
  - split; [done|]. repeat (split; [done|]). eauto.
  - destruct (IH (wakeup (Some (CAddr a)) k)) as (H1 & H2 & H3 & H4 & H5). split; [|repeat (split; [done|])].
    + eapply rtc_l; [|exact H1]. rewrite wakeup_abs. apply (as_wakeup (abs init k)).
    + intros i p Hp. destruct (H5 i (wake_if (Some (CAddr a)) p)) as (p' & Hp' & Hpar).
      * unfold wakeup, wakeup1. cbn. by rewrite list_lookup_fmap, Hp.
      * exists p'. split; [done|]. rewrite Hpar. unfold wake_if. by case_decide.
Qed.

(** [exit]: the wakeups of the pipes it closes, then the exit itself. *)
Lemma exit_abs init c cur k k' :
  initproc k = Some init -> cpu_proc k !! c = Some (Some cur) -> exit cur k = Ok k' ->
  initproc k' = initproc k /\
  exists k1 q, rtc astep (abs init k) (abs init k1) /\ cpu_proc k1 = cpu_proc k
    /\ (core <$> ptable k1) !! cur = Some q /\ cur <> init
    /\ (forall j p, ptable k !! j = Some p -> exists p', ptable k1 !! j = Some p' /\ parent p' = parent p)
    /\ abs init (set_cpu_proc c None k') =
       Amach (a_exit_tab cur q (abs init k1)) (nextpid k1) init (<[c := None]> (cpu_proc k1)).
Proof.
  intros Hi Hr H. unfold exit in H. apply obind_Ok_inv in H as (p & Hp & H). apply the_proc_Some in Hp.
  rewrite Hi in H. case_decide as Hd; [done|]. apply obind_Ok_inv in H as ([[ws f] km] & Hf & H).
  destruct (wake_all_abs init ws (set_kmem km (set_files f k))) as (W1 & W2 & W3 & W4 & W5).
  destruct (W5 cur p Hp) as (p1 & Hp1 & Hpar). set (k1 := wake_all ws (set_kmem km (set_files f k))) in *.
  inv_bind. injection H as <-.
  split; [done|]. exists k1, (core p1). split; [exact W1|]. split; [done|]. split; [by apply core_lookup|].
  split; [congruence|]. split; [exact W5|]. unfold abs. cbn. f_equal. unfold a_exit_tab. cbn.
  rewrite (core_alter _ (c_set_state ZOMBIE)) by done. cbn in W2. rewrite Hi in W2.
  rewrite W2, reparent_adopted, core_wakeup1, Hpar.
  rewrite core_alter_id by done. rewrite core_alter_id by done. done.
Qed.

Lemma wait_scan_spec cur t : forall i hk,
  match wait_scan cur i t hk with
  | (_, Some j) => exists d p, j = (i + d)%nat /\ t !! d = Some p /\ parent p = Some cur /\ state p = ZOMBIE
  | (hk', None) => no_zombie cur (core <$> t)
      /\ (hk' = true <-> hk = true \/ exists d p, t !! d = Some p /\ parent p = Some cur)
  end.
Proof.
  induction t as [|p t IH]; intros i hk; cbn [wait_scan].
  - split; [by intros [|j]|]. split; [by left|]. intros [?|(d & p & Hd & _)]; [done|].
    by rewrite lookup_nil in Hd.
  - case_decide as Hp; [case_decide as Hz|].
    + exists 0%nat, p. split; [lia|]. done.
    + specialize (IH (S i) true). destruct (wait_scan cur (S i) t true) as [hk' [j|]].
      * destruct IH as (d & q & -> & Hq & ?). exists (S d), q. split; [lia|]. done.
      * destruct IH as [H1 H2]. split.
        -- intros [|j] r; cbn; [by intros [= <-]|]. apply H1.
        -- split; [|intros _; apply H2; by left]. intros _. right. exists 0%nat, p. done.
    + specialize (IH (S i) hk). destruct (wait_scan cur (S i) t hk) as [hk' [j|]].
      * destruct IH as (d & q & -> & Hq & ?). exists (S d), q. split; [lia|]. done.
      * destruct IH as [H1 H2]. split.
        -- intros [|j] r; cbn; [by intros [= <-]|]. apply H1.
        -- rewrite H2. split; (intros [?|(d & q & Hd & Hq)]; [by left|right]).
           ++ exists (S d), q. done.
           ++ destruct d as [|d]; cbn in Hd; [congruence|]. by exists d, q.
Qed.

Lemma reap_abs init i k k' :
  reap kend i k = Ok k' -> initproc k' = initproc k /\
  exists p, ptable k !! i = Some p /\
    abs init k' = Amach (<[i := Pcore UNUSED 0 None (pchan_of p)]> (core <$> ptable k)) (nextpid k) init (cpu_proc k).
Proof.
  intros H. unfold reap in H. apply obind_Ok_inv in H as (p & Hp & H). apply the_proc_Some in Hp.
  inv_bind. injection H as <-. split; [done|]. exists p. split; [done|].
  rewrite (abs_upd init i _ (fun q => Pcore UNUSED 0 None (c_chan q)) _ (core p)); [done|done|]. by apply core_lookup.
Qed.

(** What [wait] returns: a reaped zombie child, -1 without children or when
    killed, or sleep when no child has exited. *)
Lemma wait_abs init c cur k r k' :
  cpu_proc k !! c = Some (Some cur) -> wait kend c cur k = Ok (r, k') ->
  initproc k' = initproc k /\ exists p, ptable k !! cur = Some p /\
  match r with
  | None => no_zombie cur (core <$> ptable k) /\ killed p = false
      /\ (exists d q, ptable k !! d = Some q /\ parent q = Some cur)
      /\ abs init k' = Amach (<[cur := Pcore SLEEPING (pid p) (parent p) (Some (CProc cur))]> (core <$> ptable k))
                         (nextpid k) init (<[c := None]> (cpu_proc k))
  | Some v =>
      (exists i q, ptable k !! i = Some q /\ parent q = Some cur /\ state q = ZOMBIE /\ v = pid q
         /\ abs init k' = Amach (<[i := Pcore UNUSED 0 None (pchan_of q)]> (core <$> ptable k)) (nextpid k) init (cpu_proc k))
      \/ (v = -1 /\ k' = k /\ no_zombie cur (core <$> ptable k)
          /\ (killed p = true \/ forall d q, ptable k !! d = Some q -> parent q <> Some cur))
  end.
Proof.
  intros Hr H. unfold wait in H. apply obind_Ok_inv in H as (p & Hp & H). apply the_proc_Some in Hp.
  pose proof (wait_scan_spec cur (ptable k) 0 false) as Hscan.
  destruct (wait_scan cur 0 (ptable k) false) as [hk [i|]].
  - destruct Hscan as (d & q & -> & Hq & Hpar & Hz). cbn [Nat.add] in *.
    apply obind_Ok_inv in H as (q' & Hq' & H). apply the_proc_Some in Hq'. rewrite Hq in Hq'. injection Hq' as <-.
    apply obind_Ok_inv in H as (k1 & Hre & H). injection H as <- <-.
    destruct (reap_abs init _ _ _ Hre) as (Hi & q' & Hq' & Habs). rewrite Hq in Hq'. injection Hq' as <-.
    split; [done|]. exists p. split; [done|]. left. by exists d, q.
  - destruct Hscan as [Hnz Hhk]. destruct (negb hk || killed p) eqn:Eb; injection H as <- <-; (split; [done|]); exists p; (split; [done|]).
    + right. split; [done|]. split; [done|]. split; [done|]. apply orb_true_iff in Eb as [Hn|?]; [right|by left].
      destruct hk; [done|]. intros d q Hd Hpq. assert (false = true); [|done]. apply Hhk. right. eauto.
    + apply orb_false_iff in Eb as [Hn Hkl]. split; [done|]. split; [done|]. split.
      * destruct hk; [|done]. destruct Hhk as [Hhk _]. destruct (Hhk eq_refl) as [?|?]; done.
      * unfold abs, sleep. cbn. f_equal.
        rewrite (core_alter _ (fun q => Pcore SLEEPING (c_pid q) (c_parent q) (Some (CProc cur)))) by done.
        by rewrite (alter_insert_list _ _ _ (core p)) by (by apply core_lookup).
Qed.

Lemma kill_find_spec id t : forall i,
  match kill_find i t id with
  | Some j => exists d p, j = (i + d)%nat /\ t !! d = Some p /\ pid p = id
      /\ forall e q, (e < d)%nat -> t !! e = Some q -> pid q <> id
  | None => forall d p, t !! d = Some p -> pid p <> id
  end.
Proof.
  induction t as [|p t IH]; intros i; cbn [kill_find]; [intros d p; by rewrite lookup_nil|].
  destruct (Z.eqb_spec (pid p) id) as [E|E].
  - exists 0%nat, p. split; [lia|]. split; [done|]. split; [done|]. lia.
  - specialize (IH (S i)). destruct (kill_find (S i) t id).
    + destruct IH as (d & q & -> & Hq & Hid & Hmin). exists (S d), q. split; [lia|]. split; [done|]. split; [done|].
      intros [|e] r He; cbn; [by intros [= <-]|]. apply Hmin. lia.
    + intros [|d] q; cbn; [by intros [= <-]|]. apply IH.
Qed.

Lemma core_kill_proc p :
  core (kill_proc p) = if decide (state p = SLEEPING) then c_set_state RUNNABLE (core p) else core p.
Proof. unfold kill_proc. cbn [state with_killed]. by case_decide. Qed.

Lemma eq_rtc (s s' : amach) : s = s' -> rtc astep s s'.
Proof. intros ->. apply rtc_refl. Qed.

Lemma stutter (s s' : amach) : s' = s \/ astep s s' -> rtc astep s s'.
Proof. intros [->|H]; [apply rtc_refl|by apply rtc_once]. Qed.

(** The refinement: a kernel step is a run of the machine, one step long except for
    the wakeups of [exit], or a stutter. *)
Lemma kstep_refines init k k' :
  ainv (abs init k) -> initproc k = Some init -> kstep k k' ->
  initproc k' = Some init /\ rtc astep (abs init k) (abs init k').
Proof.
  intros Hs Hi Hst.
  destruct Hst as [k c pos i k' Hc H|k c cur Hc|k c cur a Hc|k c cur Hc|k a|k id|k c cur r k' Hc H|k c cur k' Hc H
    |k c cur r k' Hc H|k c cur n r k' Hc H|k m w f t].
  - unfold scheduler in H. destruct (find_state _ _ _) as [j|] eqn:Ef; [|done].
    apply find_state_Some in Ef as (d & p & -> & Hp & Hst & _). rewrite lookup_drop in Hp.
    apply obind_Ok_inv in H as (p' & Hp' & H). inv_bind. injection H as <- <-. split; [done|]. apply rtc_once.
    assert (abs init (upd (pos + d) (with_state RUNNING) (set_cpu_proc c (Some (pos + d)%nat) k)) =
      Amach (<[(pos + d)%nat := c_set_state RUNNING (core p)]> (core <$> ptable k)) (nextpid k) init (<[c := Some (pos + d)%nat]> (cpu_proc k))) as ->.
    { rewrite (abs_upd init _ (with_state RUNNING) (c_set_state RUNNING) _ (core p)); [done|done|]. by apply core_lookup. }
    apply (as_sched (abs init k)); [done| |done]. by apply core_lookup.
  - split; [done|]. apply rtc_once. destruct (ai_run _ Hs c cur Hc) as (q & Hq & _).
    assert (abs init (yield c cur k) = Amach (<[cur := c_set_state RUNNABLE q]> (core <$> ptable k)) (nextpid k) init (<[c := None]> (cpu_proc k))) as ->.
    { unfold abs, yield. cbn. by rewrite (core_alter _ (c_set_state RUNNABLE)), (alter_insert_list _ _ _ q). }
    by apply (as_yield (abs init k)).
  - split; [done|]. apply rtc_once. destruct (ai_run _ Hs c cur Hc) as (q & Hq & _).
    assert (abs init (sleep c cur (Some (CAddr a)) k) = Amach (<[cur := Pcore SLEEPING (c_pid q) (c_parent q) (Some (CAddr a))]> (core <$> ptable k)) (nextpid k) init (<[c := None]> (cpu_proc k))) as ->.
    { unfold abs, sleep. cbn.
      by rewrite (core_alter _ (fun q => Pcore SLEEPING (c_pid q) (c_parent q) (Some (CAddr a)))), (alter_insert_list _ _ _ q). }
    by apply (as_sleep (abs init k)).
  - split; [done|]. apply rtc_once. destruct (ai_run _ Hs c cur Hc) as (q & Hq & _).
    assert (abs init (sleep_resume cur k) = set_tab (<[cur := Pcore (c_state q) (c_pid q) (c_parent q) None]> (core <$> ptable k)) (abs init k)) as ->.
    { unfold abs, sleep_resume, set_tab. cbn.
      by rewrite (core_alter _ (fun q => Pcore (c_state q) (c_pid q) (c_parent q) None)), (alter_insert_list _ _ _ q). }
    by apply (as_resume (abs init k) c).
  - split; [done|]. apply rtc_once. rewrite wakeup_abs. apply (as_wakeup (abs init k)).
  - unfold kill. pose proof (kill_find_spec id (ptable k) 0) as Hk. destruct (kill_find _ _ _) as [j|]; [|split; [done|apply rtc_refl]].
    destruct Hk as (i & p & -> & Hp & _). cbn [Nat.add snd]. split; [done|].
    destruct (decide (state p = SLEEPING)) as [Hsl|Hsl].
    + apply rtc_once. assert (abs init (upd i kill_proc k) = set_tab (<[i := c_set_state RUNNABLE (core p)]> (core <$> ptable k)) (abs init k)) as ->.
      { unfold abs, upd, set_tab. cbn. f_equal.
        rewrite (alter_insert_list _ _ _ p), list_fmap_insert, core_kill_proc, decide_True by done. done. }
      apply (as_kill (abs init k)); [|done]. by apply core_lookup.
    + apply eq_rtc. unfold abs, upd. cbn. f_equal. symmetry. rewrite (alter_insert_list _ _ _ p), list_fmap_insert, core_kill_proc, decide_False by done.
      apply list_insert_id. by apply core_lookup.
  - destruct (fork_abs init c cur k r k' Hs Hc H) as [Hi' [[_ ?]|(-> & i & q & Hq & Hu & ->)]]; (split; [congruence|]); [by apply stutter|].
    apply rtc_once. by apply (as_fork (abs init k) c).
  - destruct (exit_abs init c cur k k' Hi Hc H) as (Hi' & k1 & q & W1 & Hc1 & Hq & Hne & _ & ->). split; [cbn; congruence|].
    eapply rtc_r; [exact W1|]. apply (as_exit (abs init k1)); [by rewrite <- Hc1 in Hc|done|done].
  - destruct (wait_abs init c cur k r k' Hc H) as (Hi' & p & Hp & Hr). split; [congruence|]. destruct r as [v|].
    + destruct Hr as [(i & q & Hq & Hpar & Hz & _ & ->)|(_ & -> & _)]; [apply rtc_once|apply rtc_refl].
      apply (as_reap (abs init k) c cur i (core q)); [done| |done|done]. by apply core_lookup.
    + destruct Hr as (Hnz & _ & _ & ->). apply rtc_once. apply (as_sleep (abs init k) c cur (core p)); [done| |done].
      by apply core_lookup.
  - unfold growproc in H. apply obind_Ok_inv in H as (p & Hp & H). apply obind_Ok_inv in H as ([sz' km] & _ & H).
    destruct (_ && _); [injection H as <- <-; split; [done|apply rtc_refl]|].
    inv_bind. injection H as <- <-. split; [done|]. by rewrite abs_upd_id.
  - split; [done|apply rtc_refl].
Qed.

(** After [userinit]: init in slot 0 with pid 1, the rest of the table zeroed,
    every CPU in its scheduler. *)
Definition booted (k : kern) : Prop :=
  exists p, ptable k = p :: replicate 63 proc0 /\ state p = RUNNABLE /\ pid p = 1 /\ parent p = None
    /\ nextpid k = 2 /\ initproc k = Some 0%nat /\ Forall (fun x => x = None) (cpu_proc k).

Lemma userinit_booted initcode size root nm k k' :
  ptable k = replicate 64 proc0 -> nextpid k = 1 -> Forall (fun x => x = None) (cpu_proc k) ->
  userinit kend kdata trapret forkret initcode size root nm k = Ok k' -> booted k'.
Proof.
  intros Ht Hn Hc H. unfold userinit in H. apply obind_Ok_inv in H as ([np k1] & Ha & H).
  unfold allocproc in Ha. rewrite Ht, Hn in Ha. change (find_state UNUSED 0 (replicate 64 proc0)) with (Some 0%nat) in Ha.
  cbn iota in Ha. change (1 =? 2147483647) with false in Ha. cbn iota in Ha.
  destruct (kalloc _) as [ks km]. destruct (ks =? 0); injection Ha as <- <-; [done|].
  apply obind_Ok_inv in H as (p & Hp & H). apply obind_Ok_inv in H as ([d km'] & Hs & H).
  destruct (d =? 0); [done|]. apply obind_Ok_inv in H as (km'' & Hu & H). injection H as <-.
  unfold booted. cbn. rewrite Ht. cbn. eexists. split; [done|]. repeat (split; [done|]). by rewrite Hn.
Qed.

Lemma booted_inv k : booted k -> initproc k = Some 0%nat /\ ainv (abs 0%nat k).
Proof.
  intros (p & Ht & Hst & Hpid & Hpar & Hn & Hi & Hc). split; [done|].
  assert (forall i q, (core <$> ptable k) !! i = Some q ->
    (i = 0%nat /\ q = core p) \/ (i <> 0%nat /\ q = core proc0)) as HL.
  { intros i q. rewrite Ht, fmap_cons, fmap_replicate. destruct i as [|i]; [intros [= <-]; by left|].
    intros H. right. split; [done|]. change (replicate 63 (core proc0) !! i = Some q) in H.
    by apply lookup_replicate_1 in H as [-> _]. }
  assert (forall c j, cpu_proc k !! c = Some (Some j) -> False) as HC.
  { intros c j Hj. rewrite Forall_lookup in Hc. by apply Hc in Hj. }
  split; cbn.
  - lia.
  - intros i q [[-> ->]|[_ ->]]%HL; cbn; lia.
  - intros i q [[-> ->]|[_ ->]]%HL; cbn; [lia|done].
  - intros i j q r [[-> ->]|[_ ->]]%HL [[-> ->]|[_ ->]]%HL; cbn; done.
  - intros c i H. by apply HC in H.
  - intros c d i H. by apply HC in H.
  - intros i q j [[-> ->]|[_ ->]]%HL; cbn; [congruence|done].
  - intros i q [[-> ->]|[_ ->]]%HL; cbn; [done|done].
  - exists (core p). rewrite Ht. cbn. split; [done|]. split; [split; cbn; congruence|done].
  - intros i q [[-> ->]|[_ ->]]%HL; cbn; congruence.
Qed.

Lemma reachable_inv k0 k : booted k0 -> rtc kstep k0 k -> initproc k = Some 0%nat /\ ainv (abs 0%nat k).
Proof.
  intros Hb Hr. apply booted_inv in Hb as [Hi Hs].
  induction Hr as [k|k1 k2 k3 Hst Hr IH]; [done|].
  destruct (kstep_refines 0%nat k1 k2 Hs Hi Hst) as [Hi2 Hs2]. apply IH; [done|].
  clear -Hs Hs2. induction Hs2; [done|]. eauto using astep_inv.
Qed.

Lemma abs_core init k i p : ptable k !! i = Some p -> a_tab (abs init k) !! i = Some (core p).
Proof. apply core_lookup. Qed.

(** C2.  In every state the kernel reaches after boot, under any interleaving of
    scheduling, sleep, wakeup, fork, exit, wait and kill: live processes have
    distinct positive pids, a process runs on at most one CPU and only in
    state RUNNING, and init is neither unused nor a zombie. *)
Theorem proc_table_safe k0 k :
  booted k0 -> rtc kstep k0 k ->
  (forall i j p q, ptable k !! i = Some p -> ptable k !! j = Some q -> state p <> UNUSED -> state q <> UNUSED ->
     pid p = pid q -> i = j)
  /\ (forall i p, ptable k !! i = Some p -> state p <> UNUSED -> 0 < pid p < nextpid k)
  /\ (forall c d i, cpu_proc k !! c = Some (Some i) -> cpu_proc k !! d = Some (Some i) ->
        c = d /\ exists p, ptable k !! i = Some p /\ state p = RUNNING)
  /\ (exists p, ptable k !! 0%nat = Some p /\ state p <> UNUSED /\ state p <> ZOMBIE).
Proof.
  intros Hb Hr. destruct (reachable_inv k0 k Hb Hr) as [_ [I1 I2 I3 I4 I5 I6 I7 I8 I9 I10]].
  split; [|split; [|split]].
  - intros i j p q Hi Hj. apply (I4 i j (core p) (core q)); by apply abs_core.
  - intros i p Hi Hu. apply (abs_core 0%nat) in Hi. specialize (I2 _ _ Hi). specialize (I3 _ _ Hi Hu). cbn in *. lia.
  - intros c d i Hc Hd. split; [by eapply I6|]. destruct (I5 c i Hc) as (q & Hq & Hrun).
    cbn in Hq. rewrite list_lookup_fmap in Hq. apply fmap_Some in Hq as (p & Hp & ->). by exists p.
  - destruct I9 as (q & Hq & Ha & _). cbn in Hq. rewrite list_lookup_fmap in Hq.
    apply fmap_Some in Hq as (p & Hp & ->). exists p. split; [done|]. apply Ha.
Qed.

(** [exit] hands the children of the process to init, leaves the parents of the others
    and makes the process a zombie. *)
Lemma exit_reparents init c cur k k' :
  initproc k = Some init -> cpu_proc k !! c = Some (Some cur) -> exit cur k = Ok k' ->
  cur <> init /\ forall j q, ptable k !! j = Some q -> exists q', ptable k' !! j = Some q'
    /\ parent q' = (if decide (parent q = Some cur) then Some init else parent q) /\ (j = cur -> state q' = ZOMBIE).
Proof.
  intros Hi Hc H. destruct (exit_abs init c cur k k' Hi Hc H) as (_ & k1 & q1 & _ & _ & _ & Hne & Hpar & Habs).
  split; [done|]. intros j q Hj. destruct (Hpar j q Hj) as (p1 & Hp1 & Hpp).
  injection Habs as Ht _ _. cbn in Ht. unfold a_exit_tab in Ht. cbn [a_tab a_init abs] in Ht.
  set (t := c_wake _ <$> (core <$> ptable k1)) in Ht. change (core <$> ptable k' = alter (c_set_state ZOMBIE) cur (adopted cur init t)) in Ht.
  set (r := c_wake (CProc <$> c_parent q1) (core p1)).
  assert (t !! j = Some r) as Htj by (unfold t; by rewrite !list_lookup_fmap, Hp1).
  assert (adopted cur init t !! j = Some (adopt1 cur init (existsb (zombie_child cur) t) r)) as Ha by (apply adopted_lookup; eauto).
  destruct (adopt1_facts cur init (existsb (zombie_child cur) t) r) as (_ & _ & Hap & _).
  assert (c_parent r = parent q) as Hr by (unfold r; by rewrite c_wake_parent).
  rewrite Hr in Hap. apply (f_equal (lookup j)) in Ht. rewrite list_lookup_fmap in Ht.
  destruct (decide (j = cur)) as [->|Hjc].
  - rewrite list_lookup_alter_eq, Ha in Ht. cbn in Ht. apply fmap_Some in Ht as (q' & Hq' & E). exists q'. split; [done|].
    apply (f_equal c_parent) in E as Ep. apply (f_equal c_state) in E. cbn in Ep, E. split; [by rewrite <- Ep, <- Hap|done].
  - rewrite list_lookup_alter_ne, Ha in Ht by done. apply fmap_Some in Ht as (q' & Hq' & E). exists q'. split; [done|].
    apply (f_equal c_parent) in E as Ep. cbn in Ep. split; [by rewrite <- Ep, <- Hap|done].
Qed.

(** C30.  No exit is lost: a process asleep in [wait] has no zombie child, every
    process but init has a live parent, which can reap it when it exits, and an exit makes the
    process a zombie, hands its children to init and leaves the parents of all others. *)
Theorem no_lost_exit k0 k :
  booted k0 -> rtc kstep k0 k ->
  (forall i p, ptable k !! i = Some p -> state p = SLEEPING -> pchan_of p = Some (CProc i) ->
     forall j q, ptable k !! j = Some q -> parent q = Some i -> state q <> ZOMBIE)
  /\ (forall j q, ptable k !! j = Some q -> state q <> UNUSED -> j <> 0%nat ->
        exists i p, parent q = Some i /\ i <> j /\ ptable k !! i = Some p /\ state p <> UNUSED /\ state p <> ZOMBIE)
  /\ (forall c cur k', cpu_proc k !! c = Some (Some cur) -> exit cur k = Ok k' ->
        cur <> 0%nat /\ forall j q, ptable k !! j = Some q -> exists q', ptable k' !! j = Some q'
          /\ parent q' = (if decide (parent q = Some cur) then Some 0%nat else parent q) /\ (j = cur -> state q' = ZOMBIE)).
Proof.
  intros Hb Hr. destruct (reachable_inv k0 k Hb Hr) as [Hinit [I1 I2 I3 I4 I5 I6 I7 I8 I9 I10]]. split; [|split].
  - intros i p Hi Hs Hc j q Hj Hp. apply (I10 i (core p) (abs_core _ _ _ _ Hi) Hs Hc j (core q)); [|done].
    by apply abs_core.
  - intros j q Hj Hu Hne. pose proof (I8 j (core q) (abs_core _ _ _ _ Hj) Hu Hne) as Hp. cbn in Hp.
    destruct (parent q) as [i|] eqn:Ep; [|done].
    destruct (I7 j (core q) i (abs_core _ _ _ _ Hj) Ep) as (Hd & p & Hi & Ha).
    cbn in Hi. rewrite list_lookup_fmap in Hi. apply fmap_Some in Hi as (p' & Hp' & ->).
    exists i, p'. split; [done|]. split; [done|]. split; [done|]. apply Ha.
  - intros c cur k'. by apply exit_reparents.
Qed.

End Refine.
