(* ===== verification/ProcProps.v ===== *)
(** Runs of proc.c: the witnesses of [ProcRefine], and two behaviours of
    [kill] and [growproc] that their comments do not describe. *)
From S2P Require Import Prelude Mem KString Mmu Kalloc Vm VmTheory VmUser VmCopy VmProps Spinlock Wmap Proc ProcTheory ProcRefine.

(** A file layer that only counts references. *)
#[export] Instance count_refs : FileRefs Z := {
  filedup _ n := Ok (n + 1);
  fileclose _ n km := Ok ([], n - 1, km);
  idup _ n := Ok (n + 1);
  iput_op _ n := Ok (n - 1)
}.

(** A kernel after boot, with two CPUs. *)
Definition init_proc : proc :=
  Proc 4096 pgdir0 (page0 9) RUNNABLE 1 None 0 0 None false (replicate NOFILE None) (Some 0%nat) (replicate 16 0).
Definition kern0 : kern Z :=
  Kern (init_proc :: replicate 63 proc0) 2 (Some 0%nat) kst0 wst0 0 [None; None] 0.

Lemma kern0_booted : booted kern0.
Proof. exists init_proc. repeat (split; [done|]). repeat constructor. Qed.

(** CPU 1 picks init, which goes to sleep on the console. *)
Definition kern1 : kern Z :=
  sleep 1 0 (Some (CAddr 5)) (upd 0 (with_state RUNNING) (set_cpu_proc 1 (Some 0%nat) kern0)).

Lemma kern1_reach : rtc (kstep kend0 0 0 0) kern0 kern1.
Proof.
  eapply rtc_l; [eapply (ks_sched kend0 0 0 0 kern0 1%nat 0%nat 0%nat); [done|reflexivity]|].
  eapply rtc_l; [apply (ks_sleep kend0 0 0 0 _ 1%nat 0%nat 5); done|]. apply rtc_refl.
Qed.

Lemma proc_table_safe_witness :
  exists p, ptable kern1 !! 0%nat = Some p /\ state p <> UNUSED /\ state p <> ZOMBIE.
Proof. apply (proc_table_safe kend0 0 0 0 kern0 kern1 kern0_booted kern1_reach). Defined.

Lemma no_lost_exit_witness :
  rtc (kstep kend0 0 0 0) kern0 kern1
  /\ (forall j q, ptable kern1 !! j = Some q -> state q <> UNUSED -> j <> 0%nat ->
        exists i p, parent q = Some i /\ i <> j /\ ptable kern1 !! i = Some p /\ state p <> UNUSED /\ state p <> ZOMBIE).
Proof. split; [exact kern1_reach|]. apply (no_lost_exit kend0 0 0 0 kern0 kern1 kern0_booted kern1_reach). Defined.

Section Behaviours.
Context {F : Type} {FR : FileRefs F}.

(** [kill(0)] succeeds: it finds the first unused slot, whose pid is 0, and
    marks it killed; [allocproc] does not clear the mark, so the next process
    created in that slot starts out killed. *)
Theorem kill_zero_marks_next_child trapret forkret (k : kern F) :
  booted k ->
  exists k', kill 0 k = (0, k') /\
    match allocproc trapret forkret k' with
    | Ok (Some i, k'') => exists p, i = 1%nat /\ ptable k'' !! i = Some p /\ state p = EMBRYO /\ killed p = true
    | Ok (None, _) => (kalloc (kmem k)).1 = 0
    | _ => False
    end.
Proof.
  intros (p & Ht & Hst & Hpid & Hpar & Hn & Hi & Hc). unfold kill. rewrite Ht. cbn [kill_find]. rewrite Hpid.
  change (kill_find 1 (replicate 63 proc0) 0) with (Some 1%nat). cbn [Z.eqb]. eexists. split; [done|].
  assert (ptable (upd 1 kill_proc k) = p :: kill_proc proc0 :: replicate 62 proc0) as Ht1.
  { unfold upd. cbn [ptable set_ptable]. by rewrite Ht. }
  assert (find_state UNUSED 0 (ptable (upd 1 kill_proc k)) = Some 1%nat) as Hf.
  { rewrite Ht1. cbn. by rewrite decide_False by congruence. }
  unfold allocproc. rewrite Hf. change (nextpid (upd 1 kill_proc k)) with (nextpid k). rewrite Hn.
  change (2 =? 2147483647) with false. cbv iota. cbn [kmem].
  change (kmem (upd 1 _ (upd 1 kill_proc k))) with (kmem k).
  destruct (kalloc (kmem k)) as [ks km]. cbn [fst]. destruct (Z.eqb_spec ks 0) as [->|Hks]; [done|].
  eexists. split; [done|]. cbn. rewrite Ht. done.
Qed.

(** Shrinking a process to size 0 with [growproc] frees its pages and then
    reports failure: it returns -1 and leaves [sz] at the old size. *)
Theorem growproc_to_zero_fails kend (k : kern F) cur p l :
  kend_ok kend -> ptable k !! cur = Some p -> space kend (kmem k) l (pgdir p) -> 0 < sz p < KERNBASE ->
  exists km l', growproc kend cur (- sz p) k = Ok (-1, set_kmem km k)
    /\ space kend km l' (pgdir p)
    /\ (forall va, 0 <= va < sz p -> mapping (kmem_mem km) (pgdir p) va = None).
Proof.
  intros Hk Hp Hs Hsz. unfold growproc, the_proc. rewrite Hp. cbn [obind]. unfold KERNBASE in Hsz.
  destruct (Z.ltb_spec 0 (- sz p)); [lia|]. destruct (Z.ltb_spec (- sz p) 0); [|lia].
  rewrite Z.add_opp_diag_r. change (u32 0) with 0.
  destruct (deallocuvm_spec kend Hk (kmem k) l (pgdir p) (sz p) 0 Hs) as (km & l' & -> & Hs' & Hsh);
    [lia|unfold KERNBASE; lia|].
  cbn [obind]. destruct (Z.eqb_spec (- sz p) 0); [lia|]. cbn. exists km, l'. split; [done|]. split; [done|].
  intros va Hva. rewrite (sh_map _ _ _ _ _ _ _ Hsh) by zlia. rewrite decide_True; [done|].
  unfold in_pages. change (PGROUNDUP 0) with 0. zlia.
Qed.

End Behaviours.

Lemma kill_zero_marks_next_child_witness :
  exists k', kill 0 kern0 = (0, k').
Proof.
  destruct (kill_zero_marks_next_child 0 0 kern0 kern0_booted) as (k' & H & _). exists k'. exact H.
Defined.

Lemma growproc_to_zero_fails_witness :
  exists km, growproc kend0 0 (-4096) (set_kmem kst1 kern0) = Ok (-1, set_kmem km kern0).
Proof.
  destruct (growproc_to_zero_fails kend0 (set_kmem kst1 kern0) 0 init_proc [page0 3] kend0_ok eq_refl space1)
    as (km & l' & H & _); [unfold KERNBASE; cbn; lia|].
  exists km. exact H.
Defined.
