(* ===== verification/WmapTheory.v ===== *)
(** Theory of the mapping table of [Wmap]: its well-formedness, the list of
    mappings it stands for, and what each operation does to that list. *)
From S2P Require Import Prelude Mmu Wmap.

(** * The mappings a table stands for *)

(** A mapping without its link. *)
Definition erase (n : memHashNode) : memHashNode := with_next None n.

(** The nodes from [p] along the links. *)
Fixpoint walk (fuel : nat) (w : wst) (p : option nref) : list memHashNode :=
  match fuel, p with
  | S k, Some r => match node_at w r with Some n => n :: walk k w (next n) | None => [] end
  | _, _ => []
  end.

Definition bucket (w : wst) (i : Z) : list memHashNode :=
  match node_at w (Tab i) with
  | Some h => if startAddress h =? U_FAILED then [] else walk NODES w (Some (Tab i))
  | None => []
  end.

Definition indices : list Z := Z.of_nat <$> seq 0 19.

Definition mappings (w : wst) : list memHashNode :=
  erase <$> concat (bucket w <$> indices).

(** * Well-formedness *)

(** [l] is the chain of nodes that starts at [p]. *)
Fixpoint path (w : wst) (p : option nref) (l : list (nref * memHashNode)) : Prop :=
  match l with
  | [] => p = None
  | (r, n) :: l' => p = Some r /\ node_at w r = Some n /\ path w (next n) l'
  end.

(** A node of bucket [i] that holds a mapping: it starts in the lower half of
    the address space and its length in bytes is a positive [int]. *)
Definition node_ok (i : Z) (n : memHashNode) : Prop :=
  0 <= startAddress n < 2147483648 /\ hash (startAddress n) = i /\ 1 <= numPages n <= 524287.

Definition pool_ref (w : wst) (r : nref) : Prop := exists j, r = Pool j /\ 0 <= j < poolCounter w.

(** [h] is the head of bucket [i] and [c] the pool nodes chained behind it. *)
Record bucket_ok (w : wst) (i : Z) (h : memHashNode) (c : list (nref * memHashNode)) : Prop := {
  bk_path : path w (Some (Tab i)) ((Tab i, h) :: c);
  bk_pool : Forall (pool_ref w) (fst <$> c);
  bk_empty : startAddress h = U_FAILED -> c = [];
  bk_live : startAddress h <> U_FAILED -> Forall (node_ok i) (h :: (snd <$> c))
}.

(** A bucket: its head and its chain. *)
Abbreviation bkt := (memHashNode * list (nref * memHashNode))%type.

Record wf (w : wst) (B : Z -> bkt) : Prop := {
  wf_table : length (table w) = 19%nat;
  wf_pool : length (nodePool w) = 16%nat;
  wf_counter : 0 <= poolCounter w <= 16;
  wf_bucket i : 0 <= i < 19 -> bucket_ok w i (fst (B i)) (snd (B i));
  wf_nodup : NoDup (concat ((fun i => fst <$> snd (B i)) <$> indices))
}.

(** The state of a table that [initHashTable] has set up. *)
Definition wmap_wf (w : wst) : Prop := hashInit w <> -1 /\ exists B, wf w B.

(** * Walking a chain *)

Lemma elem_of_indices i : i ∈ indices <-> 0 <= i < 19.
Proof.
  unfold indices. rewrite list_elem_of_fmap. split.
  - intros (k & -> & Hk). apply elem_of_seq in Hk. lia.
  - intros Hi. exists (Z.to_nat i). rewrite elem_of_seq. lia.
Qed.

Lemma NoDup_indices : NoDup indices.
Proof. unfold indices. apply NoDup_fmap; [intros ???; lia|apply NoDup_seq]. Qed.

#[global] Arguments indices : simpl never.

Lemma deref_node w r n : node_at w r = Some n -> deref w r = Ok n.
Proof. unfold deref. by intros ->. Qed.

(** The first node of a chain that passes a test. *)
Fixpoint first (t : memHashNode -> bool) (l : list (nref * memHashNode)) : option nref :=
  match l with
  | [] => None
  | (r, n) :: l' => if t n then Some r else first t l'
  end.

Lemma hashSearch_loop_path w v l : forall fuel p,
  path w p l -> (length l <= fuel)%nat ->
  hashSearch_loop fuel v p w = Ok (first (fun n => startAddress n =? u32 v) l).
Proof.
  induction l as [|[r n] l IH]; intros fuel p Hp Hf; simpl in Hp.
  - rewrite Hp. by destruct fuel.
  - destruct Hp as (-> & Hn & Hp). destruct fuel as [|k]; simpl in Hf; [lia|]. simpl.
    rewrite (deref_node _ _ _ Hn). simpl. destruct (_ =? _); [done|]. apply IH; [done|lia].
Qed.

Lemma covers_loop_path w a l : forall fuel p,
  path w p l -> (length l <= fuel)%nat ->
  covers_loop fuel a p w = Ok (first (fun n => covers n a) l).
Proof.
  induction l as [|[r n] l IH]; intros fuel p Hp Hf; simpl in Hp.
  - rewrite Hp. by destruct fuel.
  - destruct Hp as (-> & Hn & Hp). destruct fuel as [|k]; simpl in Hf; [lia|]. simpl.
    rewrite (deref_node _ _ _ Hn). simpl. destruct (covers n a); [done|]. apply IH; [done|lia].
Qed.

Lemma walk_path w l : forall fuel p, path w p l -> (length l <= fuel)%nat -> walk fuel w p = snd <$> l.
Proof.
  induction l as [|[r n] l IH]; intros fuel p Hp Hf; simpl in Hp.
  - rewrite Hp. by destruct fuel.
  - destruct Hp as (-> & Hn & Hp). destruct fuel as [|k]; simpl in Hf; [lia|]. simpl.
    rewrite Hn. f_equal. apply IH; [done|lia].
Qed.

Lemma first_None t l : first t l = None <-> Forall (fun n => t n = false) (snd <$> l).
Proof.
  induction l as [|[r n] l IH]; simpl; [by split|].
  rewrite Forall_cons. destruct (t n); split; try done.
  - by intros [? _].
  - intros H. split; [done|]. by apply IH.
  - intros [_ H]. by apply IH.
Qed.

Lemma first_Some t l r : first t l = Some r -> exists n, (r, n) ∈ l /\ t n = true.
Proof.
  induction l as [|[r' n] l IH]; simpl; [done|]. destruct (t n) eqn:E.
  - intros [= <-]. exists n. split; [by left|done].
  - intros H. apply IH in H as (n' & ? & ?). exists n'. split; [by right|done].
Qed.

(** Distinct pool nodes: no chain is longer than the pool. *)
Lemma pool_bound (rs : list nref) (k : Z) :
  NoDup rs -> Forall (fun r => exists j, r = Pool j /\ 0 <= j < k) rs -> 0 <= k -> Z.of_nat (length rs) <= k.
Proof.
  intros Hn Hf Hk.
  set (idx := fun r => match r with Pool j => Z.to_nat j | Tab _ => 0%nat end).
  assert (NoDup (idx <$> rs)) as Hn'.
  { apply NoDup_fmap_2_strong; [|done]. intros r r' Hr Hr' Heq. rewrite Forall_forall in Hf.
    destruct (Hf r Hr) as (j & -> & ?), (Hf r' Hr') as (j' & -> & ?). simpl in Heq. f_equal. lia. }
  assert ((idx <$> rs) ⊆ seq 0 (Z.to_nat k)) as Hs.
  { intros x Hx. apply list_elem_of_fmap in Hx as (r & -> & Hr). rewrite Forall_forall in Hf.
    destruct (Hf r Hr) as (j & -> & ?). simpl. apply elem_of_seq. lia. }
  assert ((idx <$> rs) ⊆+ seq 0 (Z.to_nat k)) as H0 by (apply NoDup_submseteq; [done|]; apply Hs).
  apply submseteq_length in H0. rewrite length_fmap, length_seq in H0. lia.
Qed.

Lemma hash_range v : 0 <= v -> 0 <= hash v < 19.
Proof. intros. unfold hash, MEM_HASH_SIZE. apply Z.rem_bound_pos; lia. Qed.

Section Wf.
Context (w : wst) (B : Z -> bkt) (Hwf : wf w B).

Lemma chain_nodup i : 0 <= i < 19 -> NoDup (fst <$> snd (B i)).
Proof.
  intros Hi. pose proof (wf_nodup _ _ Hwf) as H. apply elem_of_indices in Hi.
  induction indices as [|j l IH]; [by apply not_elem_of_nil in Hi|].
  simpl in H. apply NoDup_app in H as (H1 & _ & H2).
  apply elem_of_cons in Hi as [->|Hi]; auto.
Qed.

Lemma chain_length i : 0 <= i < 19 -> (length (snd (B i)) <= 16)%nat.
Proof.
  intros Hi. pose proof (wf_counter _ _ Hwf).
  pose proof (pool_bound _ (poolCounter w) (chain_nodup i Hi)
    (bk_pool _ _ _ _ (wf_bucket _ _ Hwf i Hi))) as Hb.
  rewrite length_fmap in Hb. lia.
Qed.

(** The mappings of bucket [i]. *)
Definition live (b : bkt) : list memHashNode :=
  if startAddress (fst b) =? U_FAILED then [] else fst b :: (snd <$> snd b).

Lemma bucket_live i : 0 <= i < 19 -> bucket w i = live (B i).
Proof.
  intros Hi. destruct (wf_bucket _ _ Hwf i Hi) as [Hp _ _ _].
  pose proof Hp as (_ & Hn & _). unfold bucket, live. rewrite Hn. destruct (_ =? _); [done|].
  rewrite (walk_path w _ NODES (Some (Tab i)) Hp); [done|]. unfold NODES. simpl.
  pose proof (chain_length i Hi). lia.
Qed.

Lemma mappings_live : mappings w = erase <$> concat ((fun i => live (B i)) <$> indices).
Proof.
  unfold mappings. do 2 f_equal. apply list_fmap_ext. intros k i Hk. apply bucket_live.
  apply elem_of_indices. by eapply list_elem_of_lookup_2.
Qed.

Lemma elem_of_mappings n :
  n ∈ mappings w <-> exists i m, 0 <= i < 19 /\ m ∈ live (B i) /\ n = erase m.
Proof.
  rewrite mappings_live, list_elem_of_fmap. split.
  - intros (m & -> & Hm). apply list_elem_of_In, in_concat in Hm as (l & Hl & Hm).
    apply list_elem_of_In, list_elem_of_fmap in Hl as (i & -> & Hi).
    exists i, m. split; [by apply elem_of_indices|]. split; [by apply list_elem_of_In|done].
  - intros (i & m & Hi & Hm & ->). exists m. split; [done|].
    apply list_elem_of_In, in_concat. exists (live (B i)). split; [|by apply list_elem_of_In].
    apply list_elem_of_In, list_elem_of_fmap. exists i. split; [done|]. by apply elem_of_indices.
Qed.

Lemma live_ok i n : 0 <= i < 19 -> n ∈ live (B i) -> node_ok i n.
Proof.
  intros Hi. unfold live. destruct (Z.eqb_spec (startAddress (fst (B i))) U_FAILED) as [E|E].
  - by intros ?%not_elem_of_nil.
  - pose proof (bk_live _ _ _ _ (wf_bucket _ _ Hwf i Hi) E) as H. rewrite Forall_forall in H. apply H.
Qed.

(** A node that matches a test no empty head passes is a mapping. *)
Lemma first_live (t : memHashNode -> bool) i r :
  0 <= i < 19 -> (forall n, startAddress n = U_FAILED -> t n = false) ->
  first t ((Tab i, fst (B i)) :: snd (B i)) = Some r ->
  exists n, node_at w r = Some n /\ n ∈ live (B i) /\ t n = true.
Proof.
  intros Hi Ht Hf. apply first_Some in Hf as (n & Hin & Htn). exists n.
  destruct (wf_bucket _ _ Hwf i Hi) as [Hp _ He _].
  assert (node_at w r = Some n) as Hn.
  { clear -Hp Hin. revert Hp Hin. generalize (Some (Tab i)), ((Tab i, fst (B i)) :: snd (B i)).
    intros p l. revert p. induction l as [|[r' n'] l IH]; intros p Hp Hin; [by apply not_elem_of_nil in Hin|].
    simpl in Hp. destruct Hp as (_ & Hn & Hp).
    apply elem_of_cons in Hin as [[= -> ->]|Hin]; [done|]. by eapply IH. }
  split; [done|]. split; [|done]. unfold live.
  destruct (Z.eqb_spec (startAddress (fst (B i))) U_FAILED) as [E|E].
  - rewrite (He E) in Hin. apply list_elem_of_singleton in Hin as [= -> ->]. rewrite Ht in Htn; done.
  - apply elem_of_cons in Hin as [[= -> ->]|Hin]; [by left|]. right. apply list_elem_of_fmap. by exists (r, n).
Qed.

Lemma first_none_live (t : memHashNode -> bool) i n :
  0 <= i < 19 -> first t ((Tab i, fst (B i)) :: snd (B i)) = None -> n ∈ live (B i) -> t n = false.
Proof.
  intros Hi Hf Hn. apply first_None in Hf. rewrite Forall_forall in Hf. apply Hf. unfold live in Hn.
  destruct (_ =? _); [by apply not_elem_of_nil in Hn|done].
Qed.

Lemma hashSearch_first v :
  0 <= v < 2147483648 ->
  hashSearch v w = Ok (first (fun n => startAddress n =? v) ((Tab (hash v), fst (B (hash v))) :: snd (B (hash v)))).
Proof.
  intros Hv. assert (0 <= hash v < 19) as Hi by (apply hash_range; lia). unfold hashSearch.
  rewrite (hashSearch_loop_path w v ((Tab (hash v), fst (B (hash v))) :: snd (B (hash v)))).
  - rewrite u32_id by (unfold is_u32; lia). done.
  - apply (wf_bucket _ _ Hwf _ Hi).
  - simpl. unfold NODES. pose proof (chain_length _ Hi). lia.
Qed.

Lemma covers_ok i n a :
  node_ok i n -> 0 <= a < 2147483648 ->
  covers n a = (startAddress n <=? a) && (a <? startAddress n + numPages n * 4096).
Proof.
  intros (Hs & _ & Hn) Ha. unfold covers, PGSIZE.
  rewrite (u32_id a), s32_id, u32_id by (unfold is_u32, is_s32; lia). done.
Qed.

Lemma covers_empty n a : startAddress n = U_FAILED -> 0 <= a < 2147483648 -> covers n a = false.
Proof.
  intros Hs Ha. unfold covers. rewrite Hs, u32_id by (unfold is_u32; lia).
  destruct (Z.leb_spec U_FAILED a) as [H|]; [|done]. unfold U_FAILED in H. lia.
Qed.

Lemma pageInMappings_loop_spec a n : forall i,
  0 <= a < 2147483648 -> 0 <= i -> i + Z.of_nat n = 19 ->
  exists o, pageInMappings_loop n i a w = Ok o
    /\ match o with
       | Some r => exists j m, 0 <= j < 19 /\ node_at w r = Some m /\ m ∈ live (B j) /\ covers m a = true
       | None => forall j m, i <= j < 19 -> m ∈ live (B j) -> covers m a = false
       end.
Proof.
  induction n as [|n IH]; intros i Ha Hi Hin; cbn [pageInMappings_loop].
  - exists None. split; [done|]. intros. lia.
  - assert (0 <= i < 19) as Hr by lia.
    rewrite (covers_loop_path w a ((Tab i, fst (B i)) :: snd (B i)));
      [|apply (wf_bucket _ _ Hwf _ Hr)|simpl; unfold NODES; pose proof (chain_length _ Hr); lia].
    cbn [obind]. destruct (first _ _) as [r|] eqn:E.
    + exists (Some r). split; [done|]. apply first_live in E as (m & ? & ? & ?); [by exists i, m|done|].
      intros. by apply covers_empty.
    + destruct (IH (i + 1)) as (o & Ho & Hspec); [done|lia|lia|]. exists o. split; [done|].
      destruct o as [r|]; [done|]. intros j m Hj Hm.
      destruct (Z.eq_dec j i) as [->|]; [by eapply first_none_live in E|]. apply (Hspec j); [lia|done].
Qed.

(** [pageInMappings] finds a mapping that starts at or contains the address,
    exactly when there is one. *)
Lemma pageInMappings_spec a :
  0 <= a < 2147483648 ->
  exists o, pageInMappings a w = Ok o
    /\ match o with
       | Some r => exists j m, 0 <= j < 19 /\ node_at w r = Some m /\ m ∈ live (B j)
                   /\ startAddress m <= a < startAddress m + numPages m * 4096
       | None => forall j m, 0 <= j < 19 -> m ∈ live (B j) ->
                   ~ startAddress m <= a < startAddress m + numPages m * 4096
       end.
Proof.
  intros Ha. unfold pageInMappings. rewrite hashSearch_first by done. cbn [obind].
  assert (0 <= hash a < 19) as Hh by (apply hash_range; lia).
  destruct (first _ _) as [r|] eqn:E.
  - exists (Some r). split; [done|].
    apply first_live in E as (m & Hm & Hl & Ht); [|done|].
    + exists (hash a), m. split; [done|]. split; [done|]. split; [done|].
      apply Z.eqb_eq in Ht. destruct (live_ok _ _ Hh Hl) as (_ & _ & ?). lia.
    + intros n Hs. rewrite Hs. unfold U_FAILED. lia.
  - destruct (pageInMappings_loop_spec a (Z.to_nat MEM_HASH_SIZE) 0) as (o & -> & Hspec);
      [done|lia|done|]. exists o. split; [done|]. destruct o as [r|].
    + destruct Hspec as (j & m & Hj & Hm & Hl & Hc). exists j, m.
      split; [done|]. split; [done|]. split; [done|].
      rewrite (covers_ok j) in Hc by (done || by apply live_ok). lia.
    + intros j m Hj Hl Hin. specialize (Hspec j m Hj Hl).
      rewrite (covers_ok j) in Hspec by (done || by apply live_ok). lia.
Qed.

End Wf.

(** * Updating nodes *)

Lemma node_at_set w r n r' :
  is_Some (node_at w r) ->
  node_at (set_node r n w) r' = if decide (r' = r) then Some n else node_at w r'.
Proof.
  intros [m Hm]. destruct r as [i|i], r' as [j|j]; cbn [node_at set_node table nodePool] in *;
    destruct (Z.leb_spec 0 i) as [Hi|]; try done; case_decide as Hc; try done.
  1,3: injection Hc as ->; destruct (Z.leb_spec 0 i); [|lia];
    apply list_lookup_insert_eq; by eapply lookup_lt_Some.
  all: destruct (Z.leb_spec 0 j); [|done]; rewrite list_lookup_insert_ne; [done|];
    intros ?; apply Hc; f_equal; lia.
Qed.

Lemma set_node_sizes w r n :
  length (table (set_node r n w)) = length (table w)
  /\ length (nodePool (set_node r n w)) = length (nodePool w)
  /\ poolCounter (set_node r n w) = poolCounter w
  /\ hashInit (set_node r n w) = hashInit w
  /\ mostRecent (set_node r n w) = mostRecent w.
Proof. destruct r; simpl; rewrite ?length_insert; done. Qed.

Lemma path_ext w w' l : forall p,
  (forall r, r ∈ (fst <$> l) -> node_at w' r = node_at w r) -> path w p l -> path w' p l.
Proof.
  induction l as [|[r n] l IH]; intros p Hext Hp; simpl in *; [done|].
  destruct Hp as (-> & Hn & Hp). split; [done|]. rewrite Hext by (by left). split; [done|].
  apply IH; [|done]. intros r' Hr'. apply Hext. by right.
Qed.

Lemma path_node w l : forall p r n, path w p l -> (r, n) ∈ l -> node_at w r = Some n.
Proof.
  induction l as [|[r' n'] l IH]; intros p r n Hp Hin; [by apply not_elem_of_nil in Hin|].
  simpl in Hp. destruct Hp as (_ & Hn & Hp).
  apply elem_of_cons in Hin as [[= -> ->]|Hin]; [done|]. by eapply IH.
Qed.

(** Changing one bucket of a concatenation over distinct indices. *)
Lemma concat_update {A} (f g : Z -> list A) (l : list Z) i :
  NoDup l -> i ∈ l -> (forall j, j ∈ l -> j <> i -> g j = f j) ->
  exists u v, concat (f <$> l) = u ++ f i ++ v /\ concat (g <$> l) = u ++ g i ++ v.
Proof.
  induction l as [|j l IH]; intros Hn Hi Hfg; [by apply not_elem_of_nil in Hi|].
  apply NoDup_cons in Hn as [Hj Hn]. destruct (decide (i = j)) as [->|Hne].
  - exists [], (concat (f <$> l)). simpl. split; [done|]. f_equal. f_equal.
    apply list_fmap_ext. intros k x Hx. apply list_elem_of_lookup_2 in Hx.
    apply Hfg; [by right|]. by intros ->.
  - apply elem_of_cons in Hi as [|Hi]; [done|].
    destruct IH as (u & v & Hu & Hv); [done|done|intros; apply Hfg; [by right|done]|].
    exists (f j ++ u), v. rewrite !fmap_cons. cbn [concat]. rewrite Hu, Hv, (Hfg j) by (done || by left).
    by rewrite <- !app_assoc.
Qed.

Definition set_bkt (i : Z) (b : bkt) (B : Z -> bkt) : Z -> bkt := fun j => if decide (j = i) then b else B j.

Lemma set_bkt_eq i b B : set_bkt i b B i = b.
Proof. unfold set_bkt. by rewrite decide_True. Qed.

Lemma set_bkt_ne i j b B : j <> i -> set_bkt i b B j = B j.
Proof. intros. unfold set_bkt. by rewrite decide_False. Qed.

Lemma mappings_update w w' B i b :
  wf w B -> wf w' (set_bkt i b B) -> 0 <= i < 19 ->
  exists u v, mappings w = u ++ (erase <$> live (B i)) ++ v
           /\ mappings w' = u ++ (erase <$> live b) ++ v.
Proof.
  intros Hw Hw' Hi. rewrite (mappings_live _ _ Hw), (mappings_live _ _ Hw').
  destruct (concat_update (fun j => live (B j)) (fun j => live (set_bkt i b B j)) indices i)
    as (u & v & -> & ->).
  - apply NoDup_indices.
  - by apply elem_of_indices.
  - intros j _ Hj. by rewrite set_bkt_ne.
  - rewrite set_bkt_eq. exists (erase <$> u), (erase <$> v). by rewrite !fmap_app.
Qed.

Lemma pool_refs_lt w B r :
  wf w B -> r ∈ concat ((fun i => fst <$> snd (B i)) <$> indices) -> pool_ref w r.
Proof.
  intros Hw Hr. apply list_elem_of_In, in_concat in Hr as (l & Hl & Hr).
  apply list_elem_of_In, list_elem_of_fmap in Hl as (i & -> & Hi).
  apply elem_of_indices in Hi. apply list_elem_of_In in Hr.
  pose proof (bk_pool _ _ _ _ (wf_bucket _ _ Hw i Hi)) as H. rewrite Forall_forall in H. auto.
Qed.

(** The other buckets keep their well-formedness when only nodes they do not
    use change. *)
Lemma bucket_ok_ext w w' i h c :
  bucket_ok w i h c -> poolCounter w <= poolCounter w' ->
  (forall r, r = Tab i \/ r ∈ (fst <$> c) -> node_at w' r = node_at w r) -> bucket_ok w' i h c.
Proof.
  intros [H1 H2 H3 H4] Hpc Hext. split; [|..|done|done].
  - eapply path_ext; [|done]. intros r Hr. simpl in Hr. apply elem_of_cons in Hr. auto.
  - eapply Forall_impl; [done|]. intros r (j & -> & ?). exists j. split; [done|lia].
Qed.

Lemma chain_disjoint w B i j r :
  wf w B -> 0 <= i < 19 -> 0 <= j < 19 -> i <> j ->
  r ∈ (fst <$> snd (B i)) -> r ∈ (fst <$> snd (B j)) -> False.
Proof.
  intros Hw Hi Hj Hne H1 H2. pose proof (wf_nodup _ _ Hw) as Hn.
  apply elem_of_indices in Hi, Hj. revert Hn Hi Hj. generalize indices.
  induction l as [|k l IH]; intros Hn Hi Hj; [by apply not_elem_of_nil in Hi|].
  simpl in Hn. apply NoDup_app in Hn as (_ & Hd & Hn).
  assert (forall x, x ∈ l -> r ∈ (fst <$> snd (B x)) -> r ∈ concat ((fun i => fst <$> snd (B i)) <$> l)) as Hin.
  { intros x Hx Hr. apply list_elem_of_In, in_concat. exists (fst <$> snd (B x)).
    split; [|by apply list_elem_of_In]. apply list_elem_of_In, list_elem_of_fmap. eauto. }
  apply elem_of_cons in Hi as [->|Hi], Hj as [->|Hj]; [done| | |auto].
  - apply (Hd r); eauto.
  - apply (Hd r); eauto.
Qed.

(** Replacing bucket [i]: the new chain uses nodes of the old one, or nodes no
    bucket uses. *)
Lemma wf_set w w' B i b :
  wf w B -> 0 <= i < 19 ->
  length (table w') = length (table w) -> length (nodePool w') = length (nodePool w) ->
  poolCounter w <= poolCounter w' <= 16 ->
  (forall j r, 0 <= j < 19 -> j <> i -> r = Tab j \/ r ∈ (fst <$> snd (B j)) -> node_at w' r = node_at w r) ->
  bucket_ok w' i (fst b) (snd b) -> NoDup (fst <$> snd b) ->
  (forall r, r ∈ (fst <$> snd b) -> r ∈ (fst <$> snd (B i)) \/ ~ pool_ref w r) ->
  wf w' (set_bkt i b B).
Proof.
  intros Hw Hi Ht Hp Hpc Hext Hb Hn Hsub. split.
  - rewrite Ht. apply Hw.
  - rewrite Hp. apply Hw.
  - pose proof (wf_counter _ _ Hw). lia.
  - intros j Hj. destruct (decide (j = i)) as [->|Hne]; [by rewrite set_bkt_eq|].
    rewrite set_bkt_ne by done. eapply bucket_ok_ext; [by apply (wf_bucket _ _ Hw)|lia|].
    intros r Hr. by apply (Hext j).
  - destruct (concat_update (fun j => fst <$> snd (B j)) (fun j => fst <$> snd (set_bkt i b B j)) indices i)
      as (u & v & Hu & ->); [apply NoDup_indices|by apply elem_of_indices|intros; by rewrite set_bkt_ne|].
    rewrite set_bkt_eq. pose proof (wf_nodup _ _ Hw) as Hnd. rewrite Hu in Hnd.
    assert (forall r, r ∈ u \/ r ∈ v -> pool_ref w r) as Href.
    { intros r Hr. apply (pool_refs_lt w B); [done|]. rewrite Hu, !elem_of_app. tauto. }
    apply NoDup_app in Hnd as (N1 & D1 & Hnd). apply NoDup_app in Hnd as (_ & D2 & N3).
    apply NoDup_app. split; [done|]. split.
    + intros r Hr. rewrite elem_of_app. intros [Hin|Hin].
      * destruct (Hsub r Hin) as [?|Hnp]; [|by apply Hnp, Href; left].
        apply (D1 r Hr). rewrite elem_of_app. by left.
      * apply (D1 r Hr). rewrite elem_of_app. by right.
    + apply NoDup_app. split; [done|]. split; [|done]. intros r Hr Hin.
      destruct (Hsub r Hr) as [?|Hnp]; [by apply (D2 r)|]. by apply Hnp, Href; right.
Qed.

(** References of a bucket: its head or a pool node in use. *)
Lemma bucket_ref_kind w B j r :
  wf w B -> 0 <= j < 19 -> r = Tab j \/ r ∈ (fst <$> snd (B j)) -> r = Tab j \/ pool_ref w r.
Proof.
  intros Hw Hj [->|Hr]; [by left|right].
  pose proof (bk_pool _ _ _ _ (wf_bucket _ _ Hw j Hj)) as HF. rewrite Forall_forall in HF. auto.
Qed.

(** * hashInsert *)

Definition insert_after_head {A} (x : A) (l : list A) : list A :=
  match l with [] => [x] | h :: t => h :: x :: t end.

(** What [hashInsert] promises: the new mapping is in bucket [hash a], right
    after its head, and is the most recent one. *)
Definition inserted (w : wst) (B : Z -> bkt) (a len np fd fl : Z) (w' : wst) : Prop :=
  exists b r n,
    wf w' (set_bkt (hash a) b B) /\ hashInit w' = hashInit w
    /\ mostRecent w' = Some r /\ node_at w' r = Some n /\ erase n = Node a np len fd fl 0 None
    /\ erase <$> live b = insert_after_head (Node a np len fd fl 0 None) (erase <$> live (B (hash a)))
    /\ n ∈ live b.

Lemma live_start h c : startAddress h <> U_FAILED -> live (h, c) = h :: (snd <$> c).
Proof. intros. unfold live. simpl. destruct (Z.eqb_spec (startAddress h) U_FAILED); done. Qed.

Lemma live_empty h c : startAddress h = U_FAILED -> live (h, c) = [].
Proof. intros H. unfold live. simpl. by rewrite H. Qed.

Lemma hashInsert_empty w B a len np fd fl h c :
  wf w B -> 0 <= a < 2147483648 -> 1 <= np <= 524287 ->
  B (hash a) = (h, c) -> startAddress h = U_FAILED ->
  exists w', hashInsert a len np fd fl w = Ok w' /\ inserted w B a len np fd fl w'.
Proof.
  intros Hw Ha Hnp EB E. assert (0 <= hash a < 19) as Hi by (apply hash_range; lia).
  pose proof (wf_bucket _ _ Hw _ Hi) as Hb. rewrite EB in Hb. cbn [fst snd] in Hb.
  pose proof Hb as [(_ & Hh & Hc) _ Hempty _]. pose proof (Hempty E) as ->. simpl in Hc.
  unfold hashInsert. rewrite s32_id by (unfold is_s32; lia).
  rewrite (deref_node _ _ _ Hh). cbn [obind]. rewrite E, Z.eqb_refl, Hc.
  set (i := hash a) in *. set (n := Node a np len fd fl 0 None).
  assert (startAddress n <> U_FAILED) as HnF by (unfold U_FAILED; simpl; lia).
  assert (forall r', node_at (set_mostRecent (Tab i) (set_node (Tab i) n w)) r' =
            if decide (r' = Tab i) then Some n else node_at w r') as Hat.
  { intros r'. change (node_at (set_node (Tab i) n w) r' = if decide (r' = Tab i) then Some n else node_at w r').
    apply node_at_set. eauto. }
  destruct (set_node_sizes w (Tab i) n) as (S1 & S2 & S3 & S4 & S5).
  pose proof (wf_counter _ _ Hw).
  eexists. split; [done|]. exists (n, []), (Tab i), n. split.
  { apply (wf_set w); cbn [table nodePool poolCounter set_mostRecent]; try done; try lia.
    - intros j r Hj Hne Hr. rewrite Hat, decide_False; [done|]. intros ->.
      destruct (bucket_ref_kind w B j _ Hw Hj Hr) as [[= Hij]|(? & ? & ?)]; [unfold i in *; congruence|done].
    - split; cbn [fst snd]; [|constructor|done|].
      + cbn [path]. split; [done|]. split; [|done]. rewrite Hat. by rewrite decide_True.
      + intros _. constructor; [|constructor]. done.
    - constructor.
    - intros r Hr. simpl in Hr. by apply not_elem_of_nil in Hr. }
  split; [done|]. split; [done|]. split; [rewrite Hat; by rewrite decide_True|]. split; [done|].
  rewrite live_start by done. fold i. rewrite EB, live_empty by done. split; [done|]. by left.
Qed.

Lemma hashInsert_chain w B a len np fd fl h c :
  wf w B -> 0 <= a < 2147483648 -> 1 <= np <= 524287 ->
  B (hash a) = (h, c) -> startAddress h <> U_FAILED -> poolCounter w < 16 ->
  exists w', hashInsert a len np fd fl w = Ok w' /\ inserted w B a len np fd fl w'.
Proof.
  intros Hw Ha Hnp EB E Hroom. assert (0 <= hash a < 19) as Hi by (apply hash_range; lia).
  pose proof (wf_bucket _ _ Hw _ Hi) as Hb. rewrite EB in Hb. cbn [fst snd] in Hb.
  pose proof Hb as [(_ & Hh & Hc) Hpool _ Hlive]. specialize (Hlive E).
  unfold hashInsert. rewrite s32_id by (unfold is_s32; lia).
  rewrite (deref_node _ _ _ Hh). cbn [obind]. destruct (Z.eqb_spec (startAddress h) U_FAILED) as [|_]; [done|].
  set (i := hash a) in *. set (pc := poolCounter w) in *.
  pose proof (wf_counter _ _ Hw) as Hpc. fold pc in Hpc.
  set (w1 := set_poolCounter (pc + 1) w).
  set (n := Node a np len fd fl 0 (next h)). set (h' := with_next (Some (Pool pc)) h).
  assert (is_Some (node_at w1 (Pool pc))) as [old Hold].
  { simpl. destruct (Z.leb_spec 0 pc); [|lia]. apply lookup_lt_is_Some_2. rewrite (wf_pool _ _ Hw). lia. }
  rewrite (deref_node _ _ _ Hold). cbn [obind].
  set (w2 := set_node (Pool pc) n w1). set (w3 := set_mostRecent (Pool pc) (set_node (Tab i) h' w2)).
  assert (forall r', node_at w2 r' = if decide (r' = Pool pc) then Some n else node_at w r') as Hat2
    by (intros; unfold w2; rewrite node_at_set by eauto; done).
  assert (forall r', node_at w3 r' = if decide (r' = Tab i) then Some h' else
            if decide (r' = Pool pc) then Some n else node_at w r') as Hat3.
  { intros. change (node_at w3 r') with (node_at (set_node (Tab i) h' w2) r').
    rewrite node_at_set; [by rewrite Hat2|]. rewrite Hat2, decide_False by done. eauto. }
  assert (~ pool_ref w (Pool pc)) as Hfresh by (intros (j & [= <-] & ?); unfold pc in *; lia).
  assert (poolCounter w3 = pc + 1) as Hpc3 by (unfold w3, w2; simpl; by destruct (set_node_sizes w1 (Pool pc) n) as (_&_&?&_)).
  pose proof Hpool as Hpool'. rewrite Forall_forall in Hpool'.
  exists w3. split; [done|]. exists (h', (Pool pc, n) :: c), (Pool pc), n. split.
  { apply (wf_set w); try done.
    - unfold w3, w2. simpl. by rewrite length_insert.
    - unfold w3, w2. simpl. by rewrite length_insert.
    - rewrite Hpc3. unfold pc. lia.
    - intros j r Hj Hne Hr. apply (bucket_ref_kind w B j _ Hw Hj) in Hr.
      rewrite Hat3, !decide_False; [done| |]; intros ->; destruct Hr as [[= Hij]|Hr]; try done.
      by destruct Hr as (? & ? & ?).
    - split; cbn [fst snd].
      + cbn [path]. split; [done|]. split; [rewrite Hat3; by rewrite decide_True|].
        split; [done|]. split; [rewrite Hat3, decide_False by done; by rewrite decide_True|].
        apply (path_ext w); [|done]. intros r Hr. rewrite Hat3, !decide_False; [done| |]; intros ->.
        * by apply Hfresh, Hpool'.
        * by apply Hpool' in Hr as (? & ? & ?).
      + simpl. constructor; [exists pc; split; [done|]; rewrite Hpc3; lia|].
        eapply Forall_impl; [done|]. intros r (k & -> & Hk). exists k. split; [done|]. rewrite Hpc3. unfold pc. lia.
      + done.
      + intros _. apply Forall_cons in Hlive as [Hl1 Hl2]. simpl. constructor; [exact Hl1|].
        constructor; [done|exact Hl2].
    - simpl. constructor; [|pose proof (chain_nodup w B Hw i Hi) as Hcn; by rewrite EB in Hcn].
      intros Hin. by apply Hfresh, Hpool'.
    - intros r Hr. simpl in Hr. fold i. rewrite EB. apply elem_of_cons in Hr as [->|Hr]; [by right|by left]. }
  split; [done|]. split; [done|].
  split; [rewrite Hat3, decide_False by done; by rewrite decide_True|]. split; [done|].
  fold i. rewrite EB, !live_start by done. split; [done|]. right. by left.
Qed.

(** * removeValue *)

(** The reference before the end of [l], or [prev]. *)
Definition last_ref (prev : option nref) (l : list (nref * memHashNode)) : option nref :=
  match last l with Some (q, _) => Some q | None => prev end.

Lemma last_ref_cons prev r n l : last_ref prev ((r, n) :: l) = last_ref (Some r) l.
Proof. unfold last_ref. rewrite last_cons. by destruct (last l) as [[q ?]|]. Qed.

Lemma removeValue_find_hit w v r n l2 l1 : forall fuel prev p,
  path w p (l1 ++ (r, n) :: l2) -> (length l1 < fuel)%nat ->
  Forall (fun x => startAddress x <> u32 v) (snd <$> l1) -> startAddress n = u32 v ->
  removeValue_find fuel v prev p w = Ok (last_ref prev l1, Some r).
Proof.
  induction l1 as [|[q m] l1 IH]; intros fuel prev p Hp Hf Hne Hv; simpl in Hp;
    destruct Hp as (-> & Hn & Hp); destruct fuel as [|k]; simpl in Hf; try lia; cbn [removeValue_find];
    rewrite (deref_node _ _ _ Hn); cbn [obind].
  - by rewrite Hv, Z.eqb_refl.
  - simpl in Hne. apply Forall_cons in Hne as [Hm Hne].
    destruct (Z.eqb_spec (startAddress m) (u32 v)); [done|].
    rewrite (IH k (Some q)) by (done || lia). by rewrite last_ref_cons.
Qed.

Lemma removeValue_find_miss w v l : forall fuel prev p,
  path w p l -> (length l <= fuel)%nat ->
  Forall (fun x => startAddress x <> u32 v) (snd <$> l) ->
  exists q, removeValue_find fuel v prev p w = Ok (q, None).
Proof.
  induction l as [|[q m] l IH]; intros fuel prev p Hp Hf Hne; simpl in Hp.
  - rewrite Hp. destruct fuel; simpl; eauto.
  - destruct Hp as (-> & Hn & Hp). destruct fuel as [|k]; simpl in Hf; [lia|]. cbn [removeValue_find].
    rewrite (deref_node _ _ _ Hn). cbn [obind]. simpl in Hne. apply Forall_cons in Hne as [Hm Hne].
    destruct (Z.eqb_spec (startAddress m) (u32 v)); [done|]. apply IH; [done|lia|done].
Qed.

(** Unlinking the node [r] after [q] from a chain. *)
Lemma path_unlink w w' q m r n n' l2 l0 : forall p,
  path w p (l0 ++ (q, m) :: (r, n) :: l2) -> NoDup (fst <$> (l0 ++ (q, m) :: (r, n) :: l2)) ->
  (forall x, node_at w' x = if decide (x = r) then Some n'
             else if decide (x = q) then Some (with_next (next n) m) else node_at w x) ->
  path w' p (l0 ++ (q, with_next (next n) m) :: l2).
Proof.
  induction l0 as [|[x y] l0 IH]; intros p Hp Hn Hat.
  - simpl in Hp, Hn. destruct Hp as (-> & Hq & Hr & Hrn & Hp).
    apply NoDup_cons in Hn as [Hq' Hn]. apply NoDup_cons in Hn as [Hr' Hn].
    rewrite not_elem_of_cons in Hq'. simpl. split; [done|].
    split; [rewrite Hat, decide_False by tauto; by rewrite decide_True|].
    apply (path_ext w); [|done]. intros z Hz. rewrite Hat, !decide_False; [done| |]; intros ->; tauto.
  - simpl in Hp, Hn. destruct Hp as (-> & Hx & Hp). apply NoDup_cons in Hn as [Hx' Hn].
    rewrite fmap_app, elem_of_app in Hx'. simpl in Hx'. rewrite !not_elem_of_cons in Hx' || idtac.
    simpl. split; [done|]. split.
    + rewrite Hat, !decide_False; [done| |]; intros ->; apply Hx'; right; [by left|right; by left].
    + apply IH; done.
Qed.

Lemma removeValue_missing w B v :
  wf w B -> 0 <= v < 2147483648 ->
  startAddress (fst (B (hash v))) <> v -> Forall (fun n => startAddress n <> v) (snd <$> snd (B (hash v))) ->
  removeValue v w = Ok (-1, w).
Proof.
  intros Hw Hv Hh Hc. assert (0 <= hash v < 19) as Hi by (apply hash_range; lia).
  pose proof (bk_path _ _ _ _ (wf_bucket _ _ Hw _ Hi)) as Hp. pose proof Hp as (_ & Hn & _).
  unfold removeValue. rewrite (deref_node _ _ _ Hn). cbn [obind].
  rewrite u32_id by (unfold is_u32; lia). destruct (Z.eqb_spec (startAddress (fst (B (hash v)))) v); [done|].
  destruct (removeValue_find_miss w v _ NODES None _ Hp) as (q & ->).
  - simpl. unfold NODES. pose proof (chain_length _ _ Hw _ Hi). lia.
  - simpl. rewrite u32_id by (unfold is_u32; lia). by constructor.
  - done.
Qed.

(** Removing the only mapping of a bucket empties it. *)
Lemma removeValue_sole w B v h :
  wf w B -> 0 <= v < 2147483648 -> B (hash v) = (h, []) -> startAddress h = v ->
  exists w', removeValue v w = Ok (1, w') /\ hashInit w' = hashInit w
    /\ wf w' (set_bkt (hash v) (with_next None (with_start U_FAILED h), []) B).
Proof.
  intros Hw Hv EB Hh. assert (0 <= hash v < 19) as Hi by (apply hash_range; lia).
  pose proof (wf_bucket _ _ Hw _ Hi) as Hb. rewrite EB in Hb. cbn [fst snd] in Hb.
  pose proof (bk_path _ _ _ _ Hb) as (_ & Hn & Hx). simpl in Hx.
  unfold removeValue. rewrite (deref_node _ _ _ Hn). cbn [obind].
  rewrite u32_id by (unfold is_u32; lia). rewrite Hh, Z.eqb_refl, Hx.
  set (i := hash v) in *. set (h' := with_next None (with_start U_FAILED h)).
  assert (forall x, node_at (set_node (Tab i) h' w) x = if decide (x = Tab i) then Some h' else node_at w x) as Hat
    by (intros; apply node_at_set; eauto).
  destruct (set_node_sizes w (Tab i) h') as (S1 & S2 & S3 & S4 & S5). pose proof (wf_counter _ _ Hw).
  eexists. split; [done|]. split; [done|].
  apply (wf_set w); try done; try lia.
  - intros j r Hj Hne Hr. rewrite Hat, decide_False; [done|]. intros ->.
    destruct (bucket_ref_kind w B j _ Hw Hj Hr) as [[= Hij]|(? & ? & ?)]; [unfold i in *; congruence|done].
  - split; cbn [fst snd]; [|constructor|done|done].
    cbn [path]. split; [done|]. split; [|done]. rewrite Hat. by rewrite decide_True.
  - constructor.
  - intros r Hr. simpl in Hr. by apply not_elem_of_nil in Hr.
Qed.

(** Removing the head of a longer chain moves only the address and the link of
    the second node into it: the other fields stay those of the old head. *)
Lemma removeValue_promote w B v h r t c :
  wf w B -> 0 <= v < 2147483648 -> B (hash v) = (h, (r, t) :: c) -> startAddress h = v ->
  exists w', removeValue v w = Ok (1, w') /\ hashInit w' = hashInit w
    /\ wf w' (set_bkt (hash v) (with_next (next t) (with_start (startAddress t) h), c) B).
Proof.
  intros Hw Hv EB Hh. assert (0 <= hash v < 19) as Hi by (apply hash_range; lia).
  pose proof (wf_bucket _ _ Hw _ Hi) as Hb. rewrite EB in Hb. cbn [fst snd] in Hb.
  pose proof Hb as [(_ & Hn & Hx & Ht & Hc) Hpool _ Hlive].
  assert (startAddress h <> U_FAILED) as HhF by (rewrite Hh; unfold U_FAILED; lia).
  specialize (Hlive HhF). simpl in Hlive, Hpool.
  apply Forall_cons in Hlive as [(_ & _ & Hhp) Hlive]. apply Forall_cons in Hlive as [Htok Hlive].
  apply Forall_cons in Hpool as [Hrp Hpool].
  unfold removeValue. rewrite (deref_node _ _ _ Hn). cbn [obind].
  rewrite u32_id by (unfold is_u32; lia). rewrite Hh, Z.eqb_refl, Hx.
  rewrite (deref_node _ _ _ Ht). cbn [obind].
  set (i := hash v) in *. set (h' := with_next (next t) (with_start (startAddress t) h)).
  assert (forall x, node_at (set_node (Tab i) h' w) x = if decide (x = Tab i) then Some h' else node_at w x) as Hat
    by (intros; apply node_at_set; eauto).
  destruct (set_node_sizes w (Tab i) h') as (S1 & S2 & S3 & S4 & S5). pose proof (wf_counter _ _ Hw).
  pose proof (chain_nodup _ _ Hw i Hi) as Hcn. rewrite EB in Hcn. simpl in Hcn.
  apply NoDup_cons in Hcn as [_ Hcn].
  eexists. split; [done|]. split; [done|].
  apply (wf_set w); try done; try lia.
  - intros j x Hj Hne Hr. rewrite Hat, decide_False; [done|]. intros ->.
    destruct (bucket_ref_kind w B j _ Hw Hj Hr) as [[= Hij]|(? & ? & ?)]; [unfold i in *; congruence|done].
  - split; cbn [fst snd].
    + cbn [path]. split; [done|]. split; [rewrite Hat; by rewrite decide_True|].
      apply (path_ext w); [|done]. intros x Hr. rewrite Hat, decide_False; [done|]. intros ->.
      rewrite Forall_forall in Hpool. by apply Hpool in Hr as (? & ? & ?).
    + eapply Forall_impl; [done|]. intros x (k & -> & Hk). exists k. split; [done|]. by rewrite S3.
    + simpl. destruct Htok as (? & _). unfold U_FAILED. lia.
    + intros _. constructor; [|done]. destruct Htok as (? & ? & ?). done.
  - intros x Hr. left. fold i. rewrite EB. simpl. by right.
Qed.

Lemma erase_unlink (l0 : list (nref * memHashNode)) q m k l2 :
  erase <$> (snd <$> (l0 ++ (q, with_next k m) :: l2)) = erase <$> (snd <$> (l0 ++ (q, m) :: l2)).
Proof. rewrite !fmap_app. simpl. done. Qed.

(** The bucket of [h] and [c1 ++ (r, n) :: c2] with [r] taken out: [q], the node
    before it, now points to [k]. *)
Lemma unlinked_bucket i h c1 (r : nref) n c2 l0 q m k :
  (Tab i, h) :: c1 = l0 ++ [(q, m)] -> Forall (node_ok i) (h :: (snd <$> (c1 ++ (r, n) :: c2))) ->
  exists h' c', l0 ++ (q, with_next k m) :: c2 = (Tab i, h') :: c' /\ startAddress h' = startAddress h
    /\ (fst <$> c') = (fst <$> c1) ++ (fst <$> c2)
    /\ erase <$> (snd <$> ((Tab i, h') :: c')) = (erase <$> (snd <$> ((Tab i, h) :: c1))) ++ (erase <$> (snd <$> c2))
    /\ Forall (node_ok i) (snd <$> ((Tab i, h') :: c')).
Proof.
  intros Hl0 Hlive. set (m' := with_next k m).
  assert (Forall (node_ok i) (snd <$> (l0 ++ (q, m') :: c2))) as Hall.
  { change (h :: (snd <$> (c1 ++ (r, n) :: c2))) with (snd <$> (((Tab i, h) :: c1) ++ (r, n) :: c2)) in Hlive.
    rewrite Hl0, <- app_assoc, fmap_app in Hlive. simpl in Hlive. rewrite fmap_app. simpl.
    rewrite Forall_app, !Forall_cons in Hlive. rewrite Forall_app, Forall_cons.
    destruct Hlive as (L1 & L2 & _ & L4). split; [exact L1|]. split; [exact L2|exact L4]. }
  assert (erase <$> (snd <$> (l0 ++ (q, m') :: c2)) = (erase <$> (snd <$> ((Tab i, h) :: c1))) ++ (erase <$> (snd <$> c2))) as He.
  { unfold m'. rewrite erase_unlink, Hl0, !fmap_app. simpl. rewrite <- app_assoc. done. }
  destruct l0 as [|[q0 m0] l0]; simpl in Hl0.
  - injection Hl0 as <- <- ->. exists m', c2. simpl in *. done.
  - injection Hl0 as <- <- ->. exists h, (l0 ++ (q, m') :: c2). simpl in *.
    split; [done|]. split; [done|]. split; [|done]. rewrite !fmap_app. simpl. by rewrite <- app_assoc.
Qed.

(** A node of another bucket is not in the bucket of [v]. *)
Lemma other_bucket w B v h c j x :
  wf w B -> 0 <= hash v < 19 -> B (hash v) = (h, c) -> 0 <= j < 19 -> j <> hash v -> x = Tab j \/ x ∈ (fst <$> snd (B j)) ->
  x <> Tab (hash v) /\ x ∉ (fst <$> c).
Proof.
  intros Hw Hi EB Hj Hne Hr. pose proof (bk_pool _ _ _ _ (wf_bucket _ _ Hw _ Hi)) as Hpool. rewrite EB, Forall_forall in Hpool.
  destruct Hr as [->|Hr].
  - split; [congruence|]. intros Hin. by apply Hpool in Hin as (? & ? & ?).
  - split.
    + intros ->. pose proof (bk_pool _ _ _ _ (wf_bucket _ _ Hw j Hj)) as HF. rewrite Forall_forall in HF. by apply HF in Hr as (? & ? & ?).
    + intros Hin. apply (chain_disjoint w B j (hash v) x Hw Hj Hi); [congruence|done|]. by rewrite EB.
Qed.

(** Removing a mapping that is not the head of its bucket removes exactly it. *)
Lemma removeValue_chain w B v h c1 r n c2 :
  wf w B -> 0 <= v < 2147483648 -> B (hash v) = (h, c1 ++ (r, n) :: c2) ->
  startAddress h <> v -> Forall (fun x => startAddress x <> v) (snd <$> c1) -> startAddress n = v ->
  exists w' b, removeValue v w = Ok (1, w') /\ hashInit w' = hashInit w
    /\ wf w' (set_bkt (hash v) b B)
    /\ erase <$> live b = (erase h :: (erase <$> (snd <$> c1))) ++ (erase <$> (snd <$> c2)).
Proof.
  intros Hw Hv EB Hh Hc1 Hnv. assert (0 <= hash v < 19) as Hi by (apply hash_range; lia).
  pose proof (wf_bucket _ _ Hw _ Hi) as Hb. rewrite EB in Hb. cbn [fst snd] in Hb.
  pose proof Hb as [Hp Hpool Hempty Hlive]. pose proof Hp as (_ & Hn & _).
  assert (startAddress h <> U_FAILED) as HhF.
  { intros E. specialize (Hempty E). by destruct c1. }
  specialize (Hlive HhF).
  pose proof (chain_nodup _ _ Hw _ Hi) as Hcn. rewrite EB in Hcn. cbn [fst snd] in Hcn.
  pose proof (chain_length _ _ Hw _ Hi) as Hlen. rewrite EB in Hlen. cbn [snd] in Hlen. rewrite length_app in Hlen. simpl in Hlen.
  unfold removeValue. rewrite (deref_node _ _ _ Hn). cbn [obind].
  rewrite u32_id by (unfold is_u32; lia). destruct (Z.eqb_spec (startAddress h) v) as [|_]; [done|].
  rewrite (removeValue_find_hit w v r n c2 ((Tab (hash v), h) :: c1)).
  2: exact Hp.
  2: simpl; unfold NODES; lia.
  2: simpl; rewrite u32_id by (unfold is_u32; lia); by constructor.
  2: rewrite u32_id by (unfold is_u32; lia); done.
  set (i := hash v) in *.
  assert (NoDup (fst <$> ((Tab i, h) :: c1 ++ (r, n) :: c2))) as Hnd.
  { simpl. constructor; [|done]. intros Hin. rewrite Forall_forall in Hpool. by apply Hpool in Hin as (? & ? & ?). }
  cbn [obind].
  assert (exists l0 q m, (Tab i, h) :: c1 = l0 ++ [(q, m)]) as (l0 & q & m & Hl0).
  { destruct (last ((Tab i, h) :: c1)) as [[q m]|] eqn:E.
    - apply last_Some in E as (l0 & E). eauto.
    - by apply last_None in E. }
  assert (last_ref None ((Tab i, h) :: c1) = Some q) as ->.
  { unfold last_ref. rewrite Hl0, last_snoc. done. }
  change ((Tab i, h) :: c1 ++ (r, n) :: c2) with (((Tab i, h) :: c1) ++ (r, n) :: c2) in *.
  rewrite Hl0, <- app_assoc in Hp, Hnd. simpl in Hp, Hnd.
  assert (node_at w q = Some m) as Hqm.
  { eapply path_node; [exact Hp|]. rewrite elem_of_app. right. by left. }
  assert (node_at w r = Some n) as Hrn.
  { eapply path_node; [exact Hp|]. rewrite elem_of_app. right. right. by left. }
  rewrite (deref_node _ _ _ Hrn), (deref_node _ _ _ Hqm). cbn [obind].
  set (m' := with_next (next n) m). set (n' := with_next None (with_start U_FAILED n)).
  set (w1 := set_node q m' w). set (w2 := set_node r n' w1).
  assert (forall x, node_at w1 x = if decide (x = q) then Some m' else node_at w x) as Hat1
    by (intros; apply node_at_set; eauto).
  assert (forall x, node_at w2 x = if decide (x = r) then Some n'
             else if decide (x = q) then Some m' else node_at w x) as Hat2.
  { intros x. unfold w2. rewrite node_at_set; [by rewrite Hat1|]. rewrite Hat1. case_decide; eauto. }
  pose proof (path_unlink w w2 q m r n n' c2 l0 _ Hp Hnd Hat2) as Hp'. fold m' in Hp'.
  destruct (set_node_sizes w q m') as (S1 & S2 & S3 & S4 & S5).
  destruct (set_node_sizes w1 r n') as (T1 & T2 & T3 & T4 & T5).
  fold w1 in S1, S2, S3, S4, S5. fold w2 in T1, T2, T3, T4, T5.
  destruct (unlinked_bucket i h c1 r n c2 l0 q m (next n) Hl0 Hlive) as (h' & c' & Hbk & Hh' & Hfst & Her & Hok). fold m' in Hbk.
  rewrite Hbk in Hp'.
  exists w2, (h', c'). split; [done|]. split; [congruence|].
  assert (forall x, x ∈ (fst <$> c') -> x ∈ (fst <$> (c1 ++ (r, n) :: c2))) as Hsub.
  { intros x. rewrite Hfst, fmap_app, !elem_of_app. simpl. rewrite elem_of_cons. tauto. }
  split.
  { pose proof (wf_counter _ _ Hw) as Hpc. apply (wf_set w); try done; try congruence; try (rewrite T3, S3; lia).
    - intros j x Hj Hne Hr. destruct (other_bucket w B v h (c1 ++ (r, n) :: c2) j x Hw Hi EB Hj Hne Hr) as [Hx1 Hx2].
      rewrite Hat2, !decide_False; [done| |].
      + intros ->. assert (q ∈ (fst <$> ((Tab i, h) :: c1))) as Hq.
        { rewrite Hl0, fmap_app, elem_of_app. right. by left. }
        simpl in Hq. apply elem_of_cons in Hq as [?|Hq]; [done|]. apply Hx2. rewrite fmap_app, elem_of_app. by left.
      + intros ->. apply Hx2. rewrite fmap_app, elem_of_app. right. by left.
    - split; cbn [fst snd].
      + done.
      + apply Forall_forall. intros x Hx. apply Hsub in Hx. rewrite Forall_forall in Hpool.
        apply Hpool in Hx as (k & -> & Hk). exists k. split; [done|]. by rewrite T3, S3.
      + rewrite Hh'. done.
      + done.
    - cbn [snd]. rewrite Hfst. rewrite fmap_app in Hcn. simpl in Hcn.
      apply NoDup_app in Hcn as (N1 & D & N2). apply NoDup_cons in N2 as [_ N2].
      apply NoDup_app. split; [done|]. split; [|done]. intros x Hx Hx2. apply (D x Hx). by right.
    - intros x Hx. left. fold i. rewrite EB. by apply Hsub. }
  rewrite live_start by (by rewrite Hh'). exact Her.
Qed.

(** * Deciding well-formedness of a concrete table *)

Fixpoint rwalk (fuel : nat) (w : wst) (p : option nref) : list (nref * memHashNode) :=
  match fuel, p with
  | S k, Some r => match node_at w r with Some n => (r, n) :: rwalk k w (next n) | None => [] end
  | _, _ => []
  end.

Definition buckets_of (w : wst) (i : Z) : bkt :=
  match node_at w (Tab i) with
  | Some h => (h, rwalk NODES w (next h))
  | None => (zero_node, [])
  end.

#[export] Instance path_dec w p l : Decision (path w p l).
Proof.
  revert p. induction l as [|[r n] l IH]; intros p; simpl; [apply _|].
  apply and_dec; [apply _|]. apply and_dec; [apply _|]. apply IH.
Defined.

#[export] Instance pool_ref_dec w r : Decision (pool_ref w r).
Proof.
  destruct r as [i|i].
  - right. intros (j & ? & _). done.
  - destruct (decide (0 <= i < poolCounter w)) as [H|H].
    + left. by exists i.
    + right. intros (j & [= <-] & ?). done.
Defined.

#[export] Instance node_ok_dec i n : Decision (node_ok i n).
Proof. unfold node_ok. apply _. Defined.

Definition bucket_okb (w : wst) (i : Z) (b : bkt) : bool :=
  bool_decide (path w (Some (Tab i)) ((Tab i, fst b) :: snd b))
  && bool_decide (Forall (pool_ref w) (fst <$> snd b))
  && (if startAddress (fst b) =? U_FAILED then bool_decide (snd b = [])
      else bool_decide (Forall (node_ok i) (fst b :: (snd <$> snd b)))).

Lemma bucket_okb_sound w i b : bucket_okb w i b = true -> bucket_ok w i (fst b) (snd b).
Proof.
  unfold bucket_okb. rewrite !andb_true_iff. intros [[H1 H2] H3].
  apply bool_decide_eq_true in H1, H2.
  destruct (Z.eqb_spec (startAddress (fst b)) U_FAILED); apply bool_decide_eq_true in H3; by split.
Qed.

Definition wfb (w : wst) : bool :=
  bool_decide (length (table w) = 19%nat) && bool_decide (length (nodePool w) = 16%nat)
  && bool_decide (0 <= poolCounter w <= 16)
  && forallb (fun i => bucket_okb w i (buckets_of w i)) indices
  && bool_decide (NoDup (concat ((fun i => fst <$> snd (buckets_of w i)) <$> indices))).

Lemma wfb_sound w : wfb w = true -> wf w (buckets_of w).
Proof.
  unfold wfb. rewrite !andb_true_iff. intros [[[[H1 H2] H3] H4] H5].
  apply bool_decide_eq_true in H1, H2, H3, H5. rewrite forallb_forall in H4.
  split; [done|done|done| |done]. intros i Hi. apply bucket_okb_sound, H4.
  apply list_elem_of_In. by apply elem_of_indices.
Qed.

(** The table [initHashTable] sets up is well-formed and empty. *)
Lemma init_wf : wf (set_hashInit 1 (initHashTable wst0)) (buckets_of (set_hashInit 1 (initHashTable wst0))).
Proof. apply wfb_sound. vm_compute. done. Qed.
