(* ===== verification/WmapAlloc.v ===== *)
(** Placing a mapping: the address search of [wmap], for a request that may
    go anywhere and for one at a fixed address. *)
From S2P Require Import Prelude Mmu Wmap WmapTheory.

(** The first byte after a mapping. *)
Definition mend (n : memHashNode) : Z := startAddress n + numPages n * 4096.

(** Every mapping is page-aligned and lies in the window from MMAPBASE to
    KERNBASE. *)
Definition windowed (w : wst) : Prop :=
  Forall (fun n => 1610612736 <= startAddress n /\ startAddress n mod 4096 = 0
                   /\ 1 <= numPages n /\ mend n <= 2147483648) (mappings w).

(** No mapping touches the bytes from [a] to [a + len]. *)
Definition free_range (w : wst) (a len : Z) : Prop :=
  Forall (fun n => a + len <= startAddress n \/ mend n <= a) (mappings w).

Section Search.
Context (w : wst) (B : Z -> bkt) (Hw : wf w B) (Hwin : windowed w).

Lemma live_mapping j m : 0 <= j < 19 -> m ∈ live (B j) -> erase m ∈ mappings w.
Proof. intros. apply (elem_of_mappings w B Hw). eauto. Qed.

Lemma live_window j m :
  0 <= j < 19 -> m ∈ live (B j) ->
  1610612736 <= startAddress m /\ startAddress m mod 4096 = 0 /\ 1 <= numPages m /\ mend m <= 2147483648.
Proof.
  intros Hj Hm. pose proof Hwin as H. unfold windowed in H. rewrite Forall_forall in H.
  apply (H (erase m)). by eapply live_mapping.
Qed.

Lemma node_end_ok j m : 0 <= j < 19 -> m ∈ live (B j) -> node_end m = mend m.
Proof.
  intros Hj Hm. destruct (live_window j m Hj Hm) as (H1 & H2 & H3 & H4).
  unfold node_end, mend, PGSIZE in *. rewrite s32_id, u32_id by (unfold is_s32, is_u32; lia). done.
Qed.

(** The pages from [addr + i] on, up to the first one that is taken. *)
Lemma wmap_scan_spec addr rl fuel : forall i,
  0 <= addr -> addr mod 4096 = 0 -> 0 <= i <= rl -> i mod 4096 = 0 -> rl mod 4096 = 0 ->
  addr + rl <= 2147483648 -> (rl - i) / 4096 <= Z.of_nat fuel ->
  exists j, wmap_scan fuel addr i rl w = Ok j /\ i <= j <= rl /\ j mod 4096 = 0
    /\ (forall a, addr + i <= a < addr + j -> forall k m, 0 <= k < 19 -> m ∈ live (B k) ->
          ~ startAddress m <= a < mend m)
    /\ (j = rl \/ exists r k m, pageInMappings (addr + j) w = Ok (Some r) /\ 0 <= k < 19
          /\ node_at w r = Some m /\ m ∈ live (B k) /\ startAddress m <= addr + j < mend m).
Proof.
  induction fuel as [|f IH]; intros i Ha Haa Hi Hia Hra Hend Hf; cbn [wmap_scan];
    (destruct (Z.ltb_spec i rl) as [Hlt|Hge];
     [|exists i; assert (i = rl) as -> by lia; split; [done|]; split; [lia|]; split; [done|];
       split; [intros; lia|by left]]).
  { zlia. }
  rewrite s32_id by (unfold is_s32; lia).
  destruct (pageInMappings_spec w B Hw (addr + i)) as (o & Ho & Hspec); [lia|]. rewrite Ho. cbn [obind].
  destruct o as [r|].
  - exists i. split; [done|]. split; [lia|]. split; [done|]. split; [intros; lia|]. right.
    destruct Hspec as (k & m & Hk & Hm & Hl & Hr). by exists r, k, m.
  - unfold PGSIZE. destruct (IH (i + 4096)) as (j & Hj & Hr & Hja & Hfree & Hend'); try lia; try zlia.
    exists j. split; [done|]. split; [lia|]. split; [done|]. split; [|done].
    intros a Har k m Hk Hm Hin. destruct (Z_lt_dec a (addr + (i + 4096))) as [Hlo|Hhi].
    + destruct (live_window k m Hk Hm) as (H1 & H2 & H3 & H4).
      apply (Hspec k m Hk Hm). unfold mend in *. zlia.
    + apply (Hfree a) with (k := k) (m := m); [lia|done|done|done].
Qed.

(** How many mappings end above [addr]: each round of the search passes one. *)
Definition above (addr : Z) : nat := length (filter (fun n => addr < mend n) (mappings w)).

Lemma above_lt addr addr' n :
  n ∈ mappings w -> addr < mend n -> mend n <= addr' -> (above addr' < above addr)%nat.
Proof.
  unfold above. intros Hin Hlt Hle. induction (mappings w) as [|x l IH]; [by apply not_elem_of_nil in Hin|].
  assert (forall l : list memHashNode, (length (filter (fun n => (addr' < mend n)%Z) l)
            <= length (filter (fun n => (addr < mend n)%Z) l))%nat) as Hmono.
  { clear -Hlt Hle. induction l as [|y l IH]; [done|]. rewrite !filter_cons.
    repeat case_decide; simpl; lia. }
  rewrite !filter_cons. apply elem_of_cons in Hin as [->|Hin].
  - rewrite decide_False, decide_True by lia. simpl. specialize (Hmono l). lia.
  - specialize (IH Hin). repeat case_decide; simpl; lia.
Qed.

(** A place that the scan rejects is not free, nor is any before the end of the
    mapping that the scan met. *)
Lemma skip_mapping rl addr j n q :
  n ∈ mappings w -> startAddress n <= addr + j -> j < rl -> addr <= q -> free_range w q rl -> mend n <= q.
Proof. intros Hn Hs Hj Hq Hfr. unfold free_range in Hfr. rewrite Forall_forall in Hfr. destruct (Hfr n Hn); lia. Qed.

(** The search stops at the first free place at or above [addr], if there is one. *)
Lemma wmap_search_spec rl p fuel : forall base addr,
  1610612736 <= base <= addr -> addr mod 4096 = 0 -> 0 < rl -> rl mod 4096 = 0 ->
  addr <= p -> p + rl <= 2147483648 -> free_range w p rl -> (above addr < fuel)%nat ->
  exists a, wmap_search fuel base addr rl w = Ok a /\ addr <= a <= p /\ a mod 4096 = 0
    /\ free_range w a rl /\ forall q, addr <= q < a -> ~ free_range w q rl.
Proof.
  induction fuel as [|f IH]; intros base addr Hb Haa Hrl Hra Hp Hend Hpf Hf; [lia|]. cbn [wmap_search].
  destruct (wmap_scan_spec addr rl (Z.to_nat (rl / PGSIZE + 1)) 0) as (j & -> & Hj & Hja & Hfree & Hstop);
    try lia; try done; [unfold PGSIZE; zlia|]. cbn [obind].
  destruct (Z.eqb_spec j rl) as [->|Hne].
  - exists addr. split; [done|]. split; [lia|]. split; [done|]. split; [|lia].
    unfold free_range. apply Forall_forall. intros n Hn. apply (elem_of_mappings w B Hw) in Hn as (k & m & Hk & Hm & ->).
    change (startAddress (erase m)) with (startAddress m). change (mend (erase m)) with (mend m).
    destruct (live_window k m Hk Hm) as (H1 & H2 & H3 & H4).
    destruct (Z_le_dec (addr + rl) (startAddress m)); [by left|]. right.
    destruct (Z_le_dec (mend m) addr); [done|]. exfalso.
    apply (Hfree (Z.max addr (startAddress m))) with (k := k) (m := m); try done; unfold mend in *; lia.
  - destruct Hstop as [->|(r & k & m & Hpm & Hk & Hm & Hl & Hin)]; [done|].
    rewrite s32_id by (unfold is_s32; lia). rewrite Hpm. cbn [obind]. rewrite (deref_node _ _ _ Hm). cbn [obind].
    rewrite (node_end_ok k m Hk Hl). destruct (live_window k m Hk Hl) as (H1 & H2 & H3 & H4).
    rewrite u32_id by (unfold is_u32; lia).
    destruct (Z.eqb_spec base (mend m)) as [|_]; [lia|].
    pose proof (live_mapping k m Hk Hl) as Hlm.
    assert (forall q, addr <= q -> free_range w q rl -> mend m <= q) as Hskip.
    { intros q Hq Hqf. apply (skip_mapping rl addr j (erase m) q Hlm); [apply Hin|lia|done|done]. }
    destruct (IH base (mend m)) as (a & Ha & Hle & Haa' & Hfr & Hleast); try done; try lia; [unfold mend; zlia|by apply Hskip| |].
    + pose proof (above_lt addr (mend m) (erase m) Hlm) as Hlt. change (mend (erase m)) with (mend m) in Hlt. lia.
    + exists a. split; [done|]. split; [lia|]. split; [done|]. split; [done|]. intros q Hq Hqf.
      pose proof (Hskip q ltac:(lia) Hqf). by apply (Hleast q ltac:(lia)).
Qed.

(** There are at most 19 + 16 mappings. *)
Lemma mappings_bound : (length (mappings w) <= 35)%nat.
Proof.
  rewrite (mappings_live w B Hw), length_fmap.
  assert (forall l, (length (concat ((fun i => live (B i)) <$> l))
       <= length l + length (concat ((fun i => fst <$> snd (B i)) <$> l)))%nat) as H.
  { induction l as [|i l IH]; [done|]. rewrite !fmap_cons. cbn [concat length].
    rewrite !length_app, length_fmap.
    assert (length (live (B i)) <= S (length (snd (B i))))%nat; [|lia].
    unfold live. destruct (_ =? _); simpl; rewrite ?length_fmap; lia. }
  specialize (H indices).
  pose proof (pool_bound _ (poolCounter w) (wf_nodup _ _ Hw)) as Hp.
  pose proof (wf_counter _ _ Hw).
  assert (length indices = 19%nat) as Hi by done.
  specialize (Hp ltac:(apply Forall_forall; intros r Hr; by apply (pool_refs_lt w B)) ltac:(lia)). lia.
Qed.

Lemma above_bound addr : (above addr < 64)%nat.
Proof. unfold above. pose proof mappings_bound. pose proof (length_filter (fun n => addr < mend n) (mappings w)). lia. Qed.

End Search.

Lemma round_length_ok len :
  0 < len <= 2147479552 ->
  round_length len = (len + 4095) / 4096 * 4096 /\ 1 <= Z.quot (round_length len) PGSIZE <= 524287
  /\ Z.quot (round_length len) PGSIZE * 4096 = round_length len /\ len <= round_length len.
Proof.
  intros H. assert (round_length len = (len + 4095) / 4096 * 4096) as E.
  { unfold round_length, PGSIZE. rewrite Z.rem_mod_nonneg by lia.
    destruct (Z.eqb_spec (len mod 4096) 0); simpl; [zlia|]. rewrite s32_id by zlia. zlia. }
  rewrite E. unfold PGSIZE. rewrite Z.quot_div_nonneg by zlia. zlia.
Qed.

Lemma insert_after_head_perm {A} (x : A) l : insert_after_head x l ≡ₚ x :: l.
Proof. destruct l as [|h t]; [done|]. simpl. apply Permutation_swap. Qed.

(** There is a node for a mapping at [a]: the head of its bucket or one of the pool. *)
Definition node_left (w : wst) (a : Z) : Prop := bucket w (hash a) = [] \/ poolCounter w < 16.

Lemma bucket_empty w B i h c : wf w B -> 0 <= i < 19 -> B i = (h, c) -> bucket w i = [] <-> startAddress h = U_FAILED.
Proof.
  intros Hw Hi EB. pose proof (wf_bucket _ _ Hw _ Hi) as Hb. rewrite EB in Hb. destruct (bk_path _ _ _ _ Hb) as (_ & Hh & _). cbn [fst] in Hh.
  unfold bucket. rewrite Hh. destruct (Z.eqb_spec (startAddress h) U_FAILED); [done|]. unfold NODES. cbn [walk]. by rewrite Hh.
Qed.

Lemma hashInsert_inserted w B a len np fd fl :
  wf w B -> 0 <= a < 2147483648 -> 1 <= np <= 524287 -> node_left w a ->
  exists w', hashInsert a len np fd fl w = Ok w' /\ inserted w B a len np fd fl w'.
Proof.
  intros Hw Ha Hnp Hl. destruct (B (hash a)) as [h c] eqn:EB. destruct (decide (startAddress h = U_FAILED)) as [E|E]; [by eapply hashInsert_empty|].
  eapply hashInsert_chain; try done. destruct Hl as [Hl|]; [|done]. by apply (bucket_empty w B _ h c) in Hl; [|done|apply hash_range; lia|].
Qed.

Lemma hashInsert_full w B a len np fd fl :
  wf w B -> 0 <= a < 2147483648 -> ~ node_left w a -> hashInsert a len np fd fl w = UB "node index out of bounds".
Proof.
  intros Hw Ha Hl. unfold node_left in Hl. assert (0 <= hash a < 19) as Hi by (apply hash_range; lia).
  destruct (B (hash a)) as [h c] eqn:EB. rewrite (bucket_empty w B _ h c) in Hl by done.
  pose proof (wf_bucket _ _ Hw _ Hi) as Hb. rewrite EB in Hb. destruct (bk_path _ _ _ _ Hb) as (_ & Hh & _). cbn [fst] in Hh.
  unfold hashInsert. rewrite s32_id by (unfold is_s32; lia). rewrite (deref_node _ _ _ Hh). cbn [obind].
  destruct (Z.eqb_spec (startAddress h) U_FAILED) as [|_]; [tauto|]. unfold deref. cbn [node_at set_poolCounter nodePool].
  pose proof (wf_counter _ _ Hw). destruct (Z.leb_spec 0 (poolCounter w)); [|done].
  rewrite lookup_ge_None_2; [done|]. rewrite (wf_pool _ _ Hw). lia.
Qed.

Lemma hashInsert_mappings w B a len np fd fl :
  wf w B -> 0 <= a < 2147483648 -> 1 <= np <= 524287 -> node_left w a ->
  exists w' B' r n, hashInsert a len np fd fl w = Ok w' /\ wf w' B' /\ hashInit w' = hashInit w
    /\ mappings w' ≡ₚ Node a np len fd fl 0 None :: mappings w
    /\ mostRecent w' = Some r /\ node_at w' r = Some n /\ erase n = Node a np len fd fl 0 None.
Proof.
  intros Hw Ha Hnp Hpc. destruct (hashInsert_inserted w B a len np fd fl Hw Ha Hnp Hpc) as (w' & Hrun & Hins).
  destruct Hins as (b & r & n & Hw' & Hh & Hr & Hn & He & Hl & _).
  exists w', (set_bkt (hash a) b B), r, n. split; [done|]. split; [done|]. split; [done|].
  split; [|done].
  destruct (mappings_update w w' B (hash a) b Hw Hw') as (u & v & -> & ->); [apply hash_range; lia|].
  rewrite Hl, insert_after_head_perm. simpl. symmetry. apply Permutation_middle.
Qed.

(** The value a mapping is recorded with. *)
Definition new_mapping (a len fd fl : Z) : memHashNode :=
  Node a (Z.quot (round_length len) PGSIZE) len fd fl 0 None.

Lemma windowed_add w w' a len fd fl :
  windowed w -> mappings w' ≡ₚ new_mapping a len fd fl :: mappings w ->
  0 < len <= 2147479552 -> 1610612736 <= a -> a mod 4096 = 0 -> a + round_length len <= 2147483648 -> windowed w'.
Proof.
  intros Hwin Hp Hlen H1 H2 H3. destruct (round_length_ok len Hlen) as (_ & Hq & Hqq & _).
  unfold windowed. rewrite Hp. constructor; [|exact Hwin].
  unfold mend. cbn [new_mapping startAddress numPages]. lia.
Qed.

(** Recording the mapping at the address the search settled on. *)
Lemma createMap_spec w B a len fd fl :
  wf w B -> hashInit w <> -1 -> windowed w -> 0 < len <= 2147479552 -> poolCounter w < 16 ->
  1610612736 <= a -> a mod 4096 = 0 -> a + round_length len <= 2147483648 ->
  exists w', hashInsert a len (Z.quot (round_length len) PGSIZE) fd fl w = Ok w'
    /\ mappings w' ≡ₚ new_mapping a len fd fl :: mappings w /\ wmap_wf w' /\ windowed w'.
Proof.
  intros Hw Hh Hwin Hlen Hpc H1 H2 H3. destruct (round_length_ok len Hlen) as (_ & Hq & _ & Hge).
  destruct (hashInsert_mappings w B a len (Z.quot (round_length len) PGSIZE) fd fl)
    as (w' & B' & r & n & -> & Hw' & Hh' & Hm & _); try done; try lia; [by right|].
  exists w'. split; [done|]. split; [done|]. split; [split; [congruence|by exists B']|].
  by eapply windowed_add.
Qed.

Lemma page_hint addr :
  0 <= addr < 4294967296 ->
  (if negb (addr mod 4096 =? 0) then PGROUNDDOWN addr else addr) = addr - addr mod 4096.
Proof. intros. destruct (Z.eqb_spec (addr mod 4096) 0); simpl; [lia|]. by apply PGROUNDDOWN_alt. Qed.

Lemma wmap_base_window addr w e : wmap_base addr w = Ok e -> 1610612736 <= e < 2147483648.
Proof.
  unfold wmap_base. intros H. inv_bind. injection H as <-. unfold in_window, MMAPBASE.
  destruct (Z.leb_spec 1610612736 r0), (Z.ltb_spec r0 2147483648); cbn; lia.
Qed.


(** With MAP_FIXED, [wmap] rounds the address down to a page and fails
    without touching the table when that page lies outside the window or in an
    existing mapping; otherwise it records the mapping at exactly that page. *)
Theorem wmap_fixed w addr len fl fd :
  wmap_wf w -> is_u32 addr -> 0 < len <= 2147479552 -> has fl MAP_FIXED = true -> poolCounter w < 16 ->
  let a := addr - addr mod 4096 in
  let taken := Exists (fun n => startAddress n <= a < mend n) (mappings w) in
  ((~ MMAPBASE <= a < KERNBASE \/ taken) -> wmap addr len fl fd w = Ok (U_FAILED, w))
  /\ (MMAPBASE <= a < KERNBASE -> ~ taken ->
      exists w', wmap addr len fl fd w = Ok (a, w')
        /\ mappings w' ≡ₚ new_mapping a len fd fl :: mappings w /\ wmap_wf w').
Proof.
  intros [Hh [B Hw]] Ha Hlen Hfl Hpc a taken. destruct (round_length_ok len Hlen) as (_ & Hq & _ & _).
  unfold wmap. rewrite page_hint by done. fold a.
  destruct (Z.eqb_spec (hashInit w) (-1)); [done|]. destruct (Z.leb_spec len 0); [lia|]. rewrite Hfl.
  unfold in_window. destruct (Z.leb_spec 1610612736 a), (Z.ltb_spec a 2147483648); cbn [andb negb].
  2,3,4: split; [done|unfold MMAPBASE, KERNBASE; lia].
  rewrite s32_id by (unfold is_s32; lia).
  destruct (pageInMappings_spec w B Hw a) as (o & -> & Hspec); [lia|]. cbn [obind].
  assert (taken <-> exists j m, 0 <= j < 19 /\ m ∈ live (B j) /\ startAddress m <= a < mend m) as Htaken.
  { unfold taken. rewrite Exists_exists. split.
    - intros (n' & Hn & Hr). apply (elem_of_mappings w B Hw) in Hn as (j & m & Hj & Hm & ->). by exists j, m.
    - intros (j & m & Hj & Hm & Hr). exists (erase m). split; [by eapply live_mapping|done]. }
  destruct o as [r|].
  - split; [done|]. intros _ Hnt. exfalso. apply Hnt, Htaken.
    destruct Hspec as (j & m & Hj & _ & Hl & Hr). by exists j, m.
  - split.
    + unfold MMAPBASE, KERNBASE. intros [?|Ht]; [lia|]. apply Htaken in Ht as (j & m & Hj & Hl & Hr).
      by destruct (Hspec j m Hj Hl).
    + intros _ _. destruct (hashInsert_mappings w B a len (Z.quot (round_length len) PGSIZE) fd fl)
        as (w' & B' & r & m & -> & Hw' & Hh' & Hm & _); try done; try lia; [by right|].
      exists w'. split; [done|]. split; [done|]. split; [congruence|by exists B'].
Qed.

(** A table with one anonymous mapping of two pages at MMAPBASE. *)
Definition one_mapping : wst :=
  match wmap MMAPBASE 8192 (MAP_FIXED + MAP_ANONYMOUS) (-1) wst0 with Ok (_, w) => w | _ => wst0 end.

Lemma one_mapping_wf : wmap_wf one_mapping.
Proof. split; [vm_compute; done|]. exists (buckets_of one_mapping). apply wfb_sound. vm_compute. done. Qed.

Lemma one_mapping_list : mappings one_mapping = [Node 1610612736 2 8192 (-1) 12 0 None].
Proof. vm_compute. done. Qed.

Lemma one_mapping_windowed : windowed one_mapping.
Proof. unfold windowed. rewrite one_mapping_list. constructor; [|constructor]. vm_compute. repeat split; done. Qed.

Lemma one_mapping_free a len : 1610620928 <= a -> free_range one_mapping a len.
Proof. intros Ha. unfold free_range. rewrite one_mapping_list. constructor; [|constructor]. right. unfold mend. cbn. lia. Qed.


(** The first request of all, when it is without MAP_FIXED, reads through the null
    [mostRecent]. *)
Theorem wmap_first_null addr len fl fd : 0 < len -> has fl MAP_FIXED = false -> 0 <= addr < 2147483648 ->
  wmap addr len fl fd wst0 = UB "wmap: mostRecent is null".
Proof.
  intros Hl Hf Ha. unfold wmap. destruct (Z.leb_spec len 0); [lia|]. rewrite Hf, page_hint by lia.
  change (hashInit wst0 =? -1) with true. cbn iota. unfold wmap_base. rewrite s32_id by zlia.
  set (w := set_hashInit 1 (initHashTable wst0)).
  assert (wf w (buckets_of w)) as Hw by (apply wfb_sound; vm_compute; done).
  destruct (pageInMappings_spec w _ Hw (addr - addr mod 4096)) as (o & -> & Hs); [zlia|]. destruct o as [r|]; [|done].
  destruct Hs as (j & m & Hj & _ & Hm & _). exfalso.
  assert (erase m ∈ mappings w) as Hin by (apply (elem_of_mappings w _ Hw); eauto).
  assert (mappings w = []) as E by (vm_compute; done). rewrite E in Hin. by apply not_elem_of_nil in Hin.
Qed.

(** The search does not turn back at the end of the window: after one page mapped
    just below its last, two pages find no place, though almost all of the
    window is free. *)
Theorem wmap_search_leaves_window :
  match wmap 0x7fffe000 4096 (MAP_FIXED + MAP_ANONYMOUS) (-1) wst0 with
  | Ok (a, w) => a = 0x7fffe000 /\ free_range w MMAPBASE 8192 /\ exists e, wmap 0 8192 MAP_ANONYMOUS (-1) w = UB e
  | _ => False
  end.
Proof.
  destruct (wmap 0x7fffe000 4096 (MAP_FIXED + MAP_ANONYMOUS) (-1) wst0) as [[a w]| |] eqn:E; [|by vm_compute in E..].
  vm_compute in E. injection E as <- <-. split; [done|]. split; [by repeat constructor|]. eexists. vm_compute. reflexivity.
Qed.

Lemma wmap_fixed_witness :
  wmap 1610616832 4096 MAP_FIXED 0 one_mapping = Ok (U_FAILED, one_mapping)
  /\ exists w', wmap 1610620928 4096 MAP_FIXED 0 one_mapping = Ok (1610620928, w')
       /\ mappings w' ≡ₚ new_mapping 1610620928 4096 0 MAP_FIXED :: mappings one_mapping /\ wmap_wf w'.
Proof.
  pose proof one_mapping_wf as Hw. assert (poolCounter one_mapping < 16) as Hpc by (vm_compute; done).
  split.
  - apply (wmap_fixed one_mapping 1610616832 4096 MAP_FIXED 0 Hw ltac:(unfold is_u32; lia) ltac:(lia) eq_refl Hpc).
    right. rewrite one_mapping_list. constructor. vm_compute. split; [intros ?; discriminate|reflexivity].
  - apply (wmap_fixed one_mapping 1610620928 4096 MAP_FIXED 0 Hw ltac:(unfold is_u32; lia) ltac:(lia) eq_refl Hpc).
    + vm_compute. split; [intros ?; discriminate|reflexivity].
    + rewrite one_mapping_list. intros Hex. apply Exists_cons in Hex as [Hr|Hr]; [|by inversion Hr].
      revert Hr. vm_compute. intros [_ ?]. discriminate.
Defined.
