(* ===== verification/FaultProps.v ===== *)
(** The page-fault handler of trap.c on anonymous mappings. *)
From S2P Require Import Prelude Mem KString Mmu Kalloc Vm VmTheory VmUser VmCopy VmProps VmKernel Spinlock Wmap WmapTheory WmapAlloc Proc Syscall Pipe Bio Log LogProps Fs FsBlocks FsRun File Sysfile Fault.

(** [n] covers the address [a]. *)
Definition spans (a : Z) (n : memHashNode) : Prop := startAddress n <= a < mend n.

(** The mapping the handler finds. *)
Lemma fault_node w a :
  wmap_wf w -> windowed w -> Exists (spans a) (mappings w) ->
  0 <= a < 2147483648 /\
  exists r n, pageInMappings a w = Ok (Some r) /\ node_at w r = Some n /\ erase n ∈ mappings w
    /\ spans a n /\ startAddress n mod 4096 = 0 /\ 0 <= startAddress n.
Proof.
  intros [_ [B Hw]] Hwin Hex. apply Exists_exists in Hex as (n0 & Hn0 & Hs).
  pose proof Hwin as H. unfold windowed in H. rewrite Forall_forall in H.
  assert (0 <= a < 2147483648) as Ha by (destruct (H _ Hn0) as (? & _ & _ & ?); unfold spans in Hs; lia).
  split; [done|]. destruct (pageInMappings_spec w B Hw a Ha) as ([r|] & Ho & Hr).
  - destruct Hr as (j & m & Hj & Hm & Hl & Hc). exists r, m. split; [done|]. split; [done|].
    split; [by eapply live_mapping|]. split; [done|].
    destruct (live_window w B Hw Hwin j m Hj Hl) as (? & ? & _). split; [done|lia].
  - apply (elem_of_mappings w B Hw) in Hn0 as (j & m & Hj & Hl & ->). by destruct (Hr j m Hj Hl).
Qed.

(** The page address the handler computes. *)
Lemma fault_page a start :
  0 <= start <= a -> a < 2147483648 -> start mod 4096 = 0 ->
  let offset := s32 (s32 a - start) in u32 (start + (offset - Z.rem offset PGSIZE)) = a - a mod 4096.
Proof.
  intros Hs Ha Hm offset. unfold offset. rewrite (s32_id a), (s32_id (a - start)) by (unfold is_s32; lia).
  unfold PGSIZE. rewrite Z.rem_mod_nonneg by lia. rewrite u32_id by zlia. zlia.
Qed.

Lemma entry_page m pgdir a : is_u32 a -> entry m pgdir (a - a mod 4096) = entry m pgdir a.
Proof.
  intros Ha. unfold entry, pte_addr. rewrite !PDX_alt, !PTX_alt by zlia.
  replace ((a - a mod 4096) / 4194304) with (a / 4194304) by zlia.
  replace ((a - a mod 4096) / 4096) with (a / 4096) by zlia. done.
Qed.

(** [mappages] of one page in a region without a page table: it takes one page for
    the table and writes nothing but that page and the directory entry. *)
Lemma mappages_new_table kend s q l pgdir a pa perm :
  kend_ok kend -> kmem_wf kend s (q :: l) -> pt_wf kend (kmem_mem s) (q :: l) pgdir ->
  0 <= a -> a mod 4096 = 0 -> a < 4294963200 -> entry (kmem_mem s) pgdir a = None ->
  exists s', mappages pgdir a PGSIZE pa perm s = Ok (0, s') /\ kmem_wf kend s' l
    /\ forall x, ~ (q <= x < q + 4096) -> ~ (pgdir + 4 * PDX a <= x < pgdir + 4 * PDX a + 4) -> ld8 (kmem_mem s') x = ld8 (kmem_mem s) x.
Proof.
  intros Hkend Hk Hw Ha Haa Hab Hent. pose proof (PTX_range a) as HX. pose proof (PDX_slot a) as HD. unfold slot in HD.
  destruct (kalloc_cons kend s q l Hkend Hk) as (s1 & Hka & Hm & Hk1 & Hq & Hql & _).
  pose proof (page_aligned _ _ Hq) as Hqa. pose proof (page_aligned _ _ (pw_dir _ _ _ _ Hw)) as Hda.
  assert (q <> pgdir) as Hqd by (intros ->; apply (pw_dir_l _ _ _ _ Hw); by left).
  unfold mappages, PGSIZE. rewrite PGROUNDDOWN_alt, PGROUNDDOWN_alt by zlia.
  rewrite (u32_id (a + 4096 - 1)) by (unfold is_u32; lia).
  replace (a + 4096 - 1 - (a + 4096 - 1) mod 4096) with a by zlia. replace (a - a mod 4096) with a by zlia.
  cbn [mappages_loop]. unfold walkpgdir. unfold entry, pde in Hent. destruct (has (ld32 _ (pgdir + 4 * PDX a)) PTE_P); [done|].
  cbn [negb]. rewrite Hka. destruct (Z.eqb_spec q 0) as [->|_]; [by apply page_ok_nonzero in Hq|]. cbn [kmem_mem set_mem].
  destruct (Z.eqb_spec (q + 4 * PTX a) 0) as [E|_]; [apply page_ok_bounds in Hq as (Hb & _); [unfold KERNLINK, KERNBASE, EXTMEM in Hb; lia|done]|].
  set (m2 := st32 (memset (kmem_mem s1) q 0 PGSIZE) (pgdir + 4 * PDX a) _).
  assert (ld32 m2 (q + 4 * PTX a) = 0) as ->.
  { apply ld32_zero. intros b Hb. unfold m2. rewrite ld8_st32_ne by zlia. rewrite ld8_memset, decide_True by (unfold is_u32, PGSIZE; lia). done. }
  change (has 0 PTE_P) with false. cbn iota. rewrite Z.eqb_refl. eexists. split; [done|]. cbn [kmem_mem set_mem].
  assert (forall x v, ~ (q <= x < q + 4096) -> ~ (pgdir + 4 * PDX a <= x < pgdir + 4 * PDX a + 4) ->
    ld8 (st32 m2 (q + 4 * PTX a) v) x = ld8 (kmem_mem s) x) as HF.
  { intros x v H1 H2. rewrite ld8_st32_ne by lia. unfold m2. rewrite ld8_st32_ne by lia.
    rewrite ld8_memset, decide_False by (unfold is_u32, PGSIZE in *; lia). by rewrite Hm. }
  split; [|intros x; by apply HF]. apply (kmem_wf_frame kend s1 _ l Hk1). rewrite Forall_forall. intros r Hr x Hx. rewrite Hm.
  pose proof (kw_pages _ _ _ Hk1) as HP. rewrite Forall_forall in HP. pose proof (page_aligned _ _ (HP r Hr)) as Hra.
  assert (r <> q) by (by intros ->). assert (r <> pgdir) by (intros ->; apply (pw_dir_l _ _ _ _ Hw); by right). apply HF; zlia.
Qed.

Section Fault.
Context {S : Type} `{BlockOps S}.
Implicit Types k : kern (fstate S).

(** What the handler does for an anonymous mapping in a region without a page
    table. *)
Lemma load_anonymous kend dev_read k cur p a q q' l :
  kend_ok kend -> ptable k !! cur = Some p -> wmap_wf (wtab k) -> windowed (wtab k) ->
  Exists (spans a) (mappings (wtab k)) ->
  Forall (fun n => spans a n -> has (nflags n) MAP_ANONYMOUS = true) (mappings (wtab k)) ->
  space kend (kmem k) (q :: q' :: l) (pgdir p) -> entry (kmem_mem (kmem k)) (pgdir p) a = None ->
  exists r n km',
    page_fault dev_read cur a k =
      Ok (Resumed, set_wtab (set_node r (with_loaded (loadedPages n + 1) n) (wtab k)) (set_kmem km' k))
    /\ node_at (wtab k) r = Some n /\ spans a n
    /\ space kend km' l (pgdir p) /\ zero_page (kmem_mem km') q
    /\ (forall x, ~ (q <= x < q + 4096) -> ~ (q' <= x < q' + 4096) -> ~ (pgdir p + 4 * PDX a <= x < pgdir p + 4 * PDX a + 4) ->
          ld8 (kmem_mem km') x = ld8 (kmem_mem (kmem k)) x)
    /\ (forall va, is_u32 va -> mapping (kmem_mem km') (pgdir p) va =
          if decide (va / 4096 = a / 4096) then Some (V2P q + 7) else mapping (kmem_mem (kmem k)) (pgdir p) va).
Proof.
  intros Hkend Hp Hwf Hwin Hex Hanon Hsp Hent.
  destruct (fault_node _ _ Hwf Hwin Hex) as (Ha & r & n & Hr & Hn & Hin & Hs & Hal & H0).
  rewrite Forall_forall in Hanon. specialize (Hanon _ Hin Hs). cbn in Hanon.
  pose proof (fault_page a (startAddress n) ltac:(unfold spans in Hs; lia) ltac:(lia) Hal) as Hpg. cbn in Hpg.
  set (pa := a - a mod 4096) in *.
  assert (0 <= pa < KERNBASE /\ pa mod 4096 = 0 /\ pa / 4096 = a / 4096) as (Hpb & Hpm & Hpd).
  { unfold pa, KERNBASE. zlia. }
  rewrite <- entry_page in Hent by (unfold is_u32; lia). fold pa in Hent.
  assert (mapping (kmem_mem (kmem k)) (pgdir p) pa = None) as Hm by (unfold mapping; by rewrite Hent).
  destruct (kalloc_zeroed kend Hkend _ _ _ _ Hsp) as (s1 & Hka & Hq0 & Hqok & Hql & Hqt & Hsp2 & Hz & HM2 & HF2 & HT2).
  assert (kmem_mem s1 = kmem_mem (kmem k)) as Hm1.
  { destruct (kalloc_cons kend _ _ _ Hkend (sp_k _ _ _ _ Hsp)) as (s1' & E & E' & _). rewrite Hka in E. by injection E as <-. }
  assert (PDX pa = PDX a) as Hpdx by (rewrite !PDX_alt by (unfold is_u32, KERNBASE in *; lia); unfold pa; zlia).
  set (s2 := set_mem (memset (kmem_mem s1) q 0 PGSIZE) s1) in *.
  destruct (map_user_page kend Hkend s2 (q' :: l) (pgdir p) pa q) as
    (r1 & s3 & l3 & Hrun & Hsp3 & _ & Hsame & _ & _ & Hres); try done.
  { by rewrite HM2. } { by rewrite HT2. }
  { intros va e Hva. rewrite HM2. intros He Heq. destruct (uw_frame _ _ _ _ (sp_u _ _ _ _ Hsp) va e Hva He) as (_ & Hn' & _).
    apply Hn'. rewrite Heq. by left. }
  pose proof (page_ok_bounds kend q Hkend Hqok) as (Hb1 & Hb2 & HV).
  assert (entry (kmem_mem s2) (pgdir p) pa = None) as Hent2.
  { unfold entry in Hent |- *. rewrite (pde_frame (kmem_mem (kmem k)) (kmem_mem s2)); [by destruct (has (pde (kmem_mem (kmem k)) (pgdir p) (PDX pa)) PTE_P)|apply PDX_slot|].
    apply HF2; [apply (page_aligned kend), Hsp|]. intros E. apply (pw_dir_l _ _ _ _ (sp_pt _ _ _ _ Hsp)). rewrite E. by left. }
  destruct (mappages_new_table kend s2 q' l (pgdir p) pa (V2P q) (Z.lor PTE_W PTE_U)) as (s3' & Hroom & Hk3 & HF3); try done.
  { apply Hsp2. } { apply Hsp2. } { unfold KERNBASE in Hpb. lia. } { unfold KERNBASE in Hpb. lia. }
  rewrite Hroom in Hrun. injection Hrun as <- <-.
  destruct Hres as [(_ & _ & _ & HM3)|[? _]]; [|done].
  assert (l3 = l) as -> by (exact (kmem_wf_unique kend Hkend s3' l3 l (sp_k _ _ _ _ Hsp3) Hk3)).
  exists r, n, s3'. split; [|split; [done|]; split; [done|]; split; [done|]; split; [|split]].
  - unfold page_fault, the_proc. rewrite Hp. cbn [obind]. rewrite s32_id by (unfold is_s32; lia).
    rewrite Hr. cbn [obind]. rewrite (deref_node _ _ _ Hn). cbn [obind].
    rewrite (s32_id a) in Hpg by (unfold is_s32; lia). rewrite Hpg. unfold walkpgdir.
    unfold entry, pde in Hent. destruct (has (ld32 _ (pgdir p + 4 * PDX pa)) PTE_P); [done|]. cbn [negb Z.eqb].
    rewrite Hka. destruct (Z.eqb_spec q 0) as [|_]; [done|]. rewrite Hanon. unfold load_page.
    cbn [kmem set_kmem]. fold s2. rewrite Hroom. cbn [obind set_kmem wtab]. by rewrite (deref_node _ _ _ Hn).
  - intros o Ho. rewrite Hsame by done. by apply Hz.
  - intros x H1 H2 H3. rewrite HF3 by (rewrite ?Hpdx; done). unfold s2. cbn [kmem_mem set_mem]. rewrite ld8_memset, decide_False by (unfold is_u32, PGSIZE; lia).
    by rewrite Hm1.
  - intros va Hva. rewrite HM3 by done. rewrite Hpd, HM2. done.
Qed.

(** C9.  A first touch of an anonymous mapping, in a four-megabyte region that
    has no page table yet, loads the page.  With [q] and [q'] the first two free
    pages, the handler maps [q], zeroed and user-writable, at the faulting page,
    makes [q'] the page table, and changes no other translation; it counts the
    page in [loadedPages].  Nothing else of the kernel changes: the free list has
    lost those two pages, and no byte of memory outside them and the one directory
    entry is written. *)
Theorem page_fault_loads kend dev_read k cur p a q q' l :
  kend_ok kend -> ptable k !! cur = Some p -> wmap_wf (wtab k) -> windowed (wtab k) ->
  Exists (spans a) (mappings (wtab k)) ->
  Forall (fun n => spans a n -> has (nflags n) MAP_ANONYMOUS = true) (mappings (wtab k)) ->
  space kend (kmem k) (q :: q' :: l) (pgdir p) -> entry (kmem_mem (kmem k)) (pgdir p) a = None ->
  exists r n km',
    page_fault dev_read cur a k =
      Ok (Resumed, set_wtab (set_node r (with_loaded (loadedPages n + 1) n) (wtab k)) (set_kmem km' k))
    /\ node_at (wtab k) r = Some n /\ spans a n
    /\ space kend km' l (pgdir p) /\ zero_page (kmem_mem km') q
    /\ (forall x, ~ (q <= x < q + 4096) -> ~ (q' <= x < q' + 4096) -> ~ (pgdir p + 4 * PDX a <= x < pgdir p + 4 * PDX a + 4) ->
          ld8 (kmem_mem km') x = ld8 (kmem_mem (kmem k)) x)
    /\ (forall va, is_u32 va -> mapping (kmem_mem km') (pgdir p) va =
          if decide (va / 4096 = a / 4096) then Some (V2P q + 7) else mapping (kmem_mem (kmem k)) (pgdir p) va).
Proof. apply load_anonymous. Qed.

(** C40.  Only the first page of a four-megabyte region is ever loaded: when the
    region has a page table but the touched page is absent, the handler takes
    the table entry's address for a loaded page and returns without a change,
    so the access faults for ever, in the user program and in the kernel. *)
Theorem second_page_faults_forever kend dev_read k cur p a e l :
  kend_ok kend -> ptable k !! cur = Some p -> wmap_wf (wtab k) -> windowed (wtab k) ->
  Exists (spans a) (mappings (wtab k)) ->
  space kend (kmem k) l (pgdir p) -> entry (kmem_mem (kmem k)) (pgdir p) a = Some e -> has e PTE_P = false ->
  page_fault dev_read cur a k = Ok (Resumed, k)
  /\ (forall write, translate (kmem_mem (kmem k)) (pgdir p) a write = None)
  /\ (forall write, touch dev_read cur p a write k = UB "page fault for ever").
Proof.
  intros Hkend Hp Hwf Hwin Hex Hsp Hent He.
  destruct (fault_node _ _ Hwf Hwin Hex) as (Ha & r & n & Hr & Hn & Hin & Hs & Hal & H0).
  pose proof (fault_page a (startAddress n) ltac:(unfold spans in Hs; lia) ltac:(lia) Hal) as Hpg. cbn in Hpg.
  assert (page_fault dev_read cur a k = Ok (Resumed, k)) as HF.
  { unfold page_fault, the_proc. rewrite Hp. cbn [obind].
    rewrite (s32_id a) in Hpg |- * by (unfold is_s32; lia).
    rewrite Hr. cbn [obind]. rewrite (deref_node _ _ _ Hn). cbn [obind]. rewrite Hpg. unfold walkpgdir.
    rewrite <- entry_page in Hent by (unfold is_u32; lia). unfold entry in Hent. fold (pde (kmem_mem (kmem k)) (pgdir p) (PDX (a - a mod 4096))).
    destruct (has (pde _ _ _) PTE_P) eqn:EP; [|done].
    destruct (pw_pt _ _ _ _ (sp_pt _ _ _ _ Hsp) (PDX (a - a mod 4096)) (PDX_slot _) EP) as (Hok & _ & _).
    apply page_ok_bounds in Hok as (Hb & _ & _); [|done]. unfold ptp, pde in *.
    destruct (Z.eqb_spec (P2V (PTE_ADDR (ld32 (kmem_mem (kmem k)) (pgdir p + 4 * PDX (a - a mod 4096)))) + 4 * PTX (a - a mod 4096)) 0) as [E|_]; [|done].
    exfalso. rewrite PTX_alt in E by zlia. unfold KERNLINK, KERNBASE, EXTMEM in Hb. zlia. }
  assert (forall write, translate (kmem_mem (kmem k)) (pgdir p) a write = None) as HT.
  { intros write. unfold entry, pde, pte_addr, ptp, pde in Hent. unfold translate.
    destruct (has (ld32 _ (pgdir p + 4 * PDX a)) PTE_P); [|done]. injection Hent as Hent. rewrite Hent, He.
    cbn. by destruct (_ || _). }
  split; [done|]. split; [done|]. intros write. unfold touch. rewrite HT, HF. cbn [obind]. by rewrite HT.
Qed.

End Fault.

(** A process with an empty page table, three free pages, and an anonymous
    mapping of two pages at MMAPBASE. *)
Definition fault_proc : proc :=
  Proc 0 pgdir0 (page0 9) RUNNING 1 None 0 0 None false (replicate NOFILE None) None (replicate 16 0).
Definition fault_kern : kern (fstate lst) :=
  Kern [fault_proc] 2 (Some 0%nat) kst0 one_mapping (Fstate [] ∅ demo_fs) [Some 0%nat] 0.

(** After its first page was touched. *)
Definition fault_kern1 : kern (fstate lst) :=
  match page_fault (fun _ => None) 0 1610612736 fault_kern with Ok (_, k) => k | _ => fault_kern end.

Lemma fault_covers a : 1610612736 <= a < 1610620928 -> Exists (spans a) (mappings one_mapping).
Proof. intros Ha. rewrite one_mapping_list. constructor. unfold spans, mend. cbn. lia. Qed.

Lemma fault_anon a : Forall (fun n => spans a n -> has (nflags n) MAP_ANONYMOUS = true) (mappings one_mapping).
Proof. rewrite one_mapping_list. constructor; [|constructor]. intros _. reflexivity. Qed.

Lemma page_fault_loads_witness :
  exists r n km',
    page_fault (fun _ => None) 0 1610612746 fault_kern =
      Ok (Resumed, set_wtab (set_node r (with_loaded (loadedPages n + 1) n) one_mapping) (set_kmem km' fault_kern))
    /\ node_at one_mapping r = Some n /\ spans 1610612746 n
    /\ space kend0 km' [page0 3] pgdir0 /\ zero_page (kmem_mem km') (page0 1)
    /\ (forall x, ~ (page0 1 <= x < page0 1 + 4096) -> ~ (page0 2 <= x < page0 2 + 4096) ->
          ~ (pgdir0 + 4 * PDX 1610612746 <= x < pgdir0 + 4 * PDX 1610612746 + 4) -> ld8 (kmem_mem km') x = ld8 mem0 x)
    /\ (forall va, is_u32 va -> mapping (kmem_mem km') pgdir0 va =
          if decide (va / 4096 = 1610612746 / 4096) then Some (V2P (page0 1) + 7) else mapping mem0 pgdir0 va).
Proof.
  apply (page_fault_loads kend0 (fun _ => None) fault_kern 0 fault_proc 1610612746 (page0 1) (page0 2) [page0 3]).
  - exact kend0_ok.
  - reflexivity.
  - exact one_mapping_wf.
  - exact one_mapping_windowed.
  - apply fault_covers. lia.
  - apply fault_anon.
  - exact (proj1 space0).
  - vm_compute. reflexivity.
Defined.

Lemma fault_kern1_space :
  page_fault (fun _ => None) 0 1610612736 fault_kern = Ok (Resumed, fault_kern1)
  /\ exists l, space kend0 (kmem fault_kern1) l pgdir0.
Proof.
  destruct (load_anonymous kend0 (fun _ => None) fault_kern 0 fault_proc 1610612736 (page0 1) (page0 2) [page0 3])
    as (r & n & km' & Hrun & _ & _ & Hsp & _).
  - exact kend0_ok.
  - reflexivity.
  - exact one_mapping_wf.
  - exact one_mapping_windowed.
  - apply fault_covers. lia.
  - apply fault_anon.
  - exact (proj1 space0).
  - vm_compute. reflexivity.
  - unfold fault_kern1. rewrite Hrun. split; [reflexivity|]. exists [page0 3]. exact Hsp.
Qed.

Lemma second_page_faults_forever_witness :
  page_fault (fun _ => None) 0 1610612736 fault_kern = Ok (Resumed, fault_kern1)
  /\ page_fault (fun _ => None) 0 1610616832 fault_kern1 = Ok (Resumed, fault_kern1).
Proof.
  destruct fault_kern1_space as [Hrun [l Hsp]]. split; [exact Hrun|].
  apply (second_page_faults_forever kend0 (fun _ => None) fault_kern1 0 fault_proc 1610616832 0 l).
  - exact kend0_ok.
  - vm_compute. reflexivity.
  - split; [vm_compute; discriminate|]. exists (buckets_of (wtab fault_kern1)). apply wfb_sound. vm_compute. reflexivity.
  - assert (mappings (wtab fault_kern1) = [Node 1610612736 2 8192 (-1) 12 1 None]) as E by (vm_compute; reflexivity).
    unfold windowed. rewrite E. constructor; [|constructor]. vm_compute. repeat split; discriminate || reflexivity.
  - assert (mappings (wtab fault_kern1) = [Node 1610612736 2 8192 (-1) 12 1 None]) as E by (vm_compute; reflexivity).
    rewrite E. constructor. unfold spans, mend. cbn. lia.
  - exact Hsp.
  - vm_compute. reflexivity.
  - reflexivity.
Defined.
