(* ===== verification/SysprocProps.v ===== *)
(** Removing mappings: [removeValue], [wunmap], and what the exit and the fork
    of a process do to the table. *)
From S2P Require Import Prelude Mem KString Mmu Kalloc Vm VmTheory VmUser VmCopy VmProps Spinlock Wmap WmapTheory WmapAlloc Proc Syscall Pipe Bio Log LogProps Fs FsBlocks FsRun File Sysfile Exec Fault Sysproc FaultProps.

(** * removeValue *)

Lemma deref_inv w r n : deref w r = Ok n -> node_at w r = Some n.
Proof. unfold deref. destruct (node_at w r); [by intros [= ->]|done]. Qed.

(** [removeValue] changes only addresses and links. *)
Lemma removeValue_keeps v w z w' :
  removeValue v w = Ok (z, w') ->
  forall x n, node_at w x = Some n -> exists n', node_at w' x = Some n' /\ nlength n' = nlength n.
Proof.
  assert (forall w r m m', node_at w r = Some m -> nlength m' = nlength m ->
    forall x n, node_at w x = Some n -> exists n', node_at (set_node r m' w) x = Some n' /\ nlength n' = nlength n) as Hset.
  { intros w0 r m m' Hr Hl x n Hx. rewrite node_at_set by eauto. case_decide; [|eauto].
    subst x. exists m'. split; [done|]. congruence. }
  unfold removeValue. intros H. apply obind_Ok_inv in H as (h & Hh%deref_inv & H).
  destruct (_ =? _).
  - destruct (next h) as [r|]; [apply obind_Ok_inv in H as (t & _ & H)|]; injection H as _ <-.
    + exact (Hset w _ h (with_next (next t) (with_start (startAddress t) h)) Hh eq_refl).
    + exact (Hset w _ h (with_next None (with_start U_FAILED h)) Hh eq_refl).
  - apply obind_Ok_inv in H as ([prev node] & _ & H). destruct node as [r|]; [|injection H as _ <-; eauto].
    destruct prev as [q|]; [|injection H as _ <-; eauto].
    apply obind_Ok_inv in H as (n & Hn%deref_inv & H). apply obind_Ok_inv in H as (qn & Hq%deref_inv & H).
    injection H as _ <-. intros x m Hx.
    destruct (Hset w q qn (with_next (next n) qn) Hq eq_refl x m Hx) as (m1 & Hm1 & E1).
    destruct (Hset w q qn (with_next (next n) qn) Hq eq_refl r n Hn) as (n1 & Hn1 & En1).
    destruct (Hset _ r n1 (with_next None (with_start U_FAILED n)) Hn1 ltac:(cbn; congruence) x m1 Hm1) as (m2 & Hm2 & E2).
    exists m2. split; [done|]. congruence.
Qed.

(** The first node of a chain with address [v], if there is one. *)
Lemma split_chain v (c : list (nref * memHashNode)) :
  Forall (fun n => startAddress n <> v) (snd <$> c)
  \/ exists c1 r n c2, c = c1 ++ (r, n) :: c2 /\ startAddress n = v
       /\ Forall (fun n => startAddress n <> v) (snd <$> c1).
Proof.
  induction c as [|[r n] c IH]; [left; constructor|]. destruct (decide (startAddress n = v)) as [E|E].
  - right. exists [], r, n, c. split; [done|]. split; [done|constructor].
  - destruct IH as [H|(c1 & r' & n' & c2 & -> & Hv & Hc1)]; [left; by constructor|].
    right. exists ((r, n) :: c1), r', n', c2. split; [done|]. split; [done|]. by constructor.
Qed.

Lemma removeValue_total w B v :
  wf w B -> 0 <= v < 2147483648 -> exists z w', removeValue v w = Ok (z, w').
Proof.
  intros Hw Hv. destruct (B (hash v)) as [h c] eqn:EB.
  destruct (decide (startAddress h = v)) as [E|E].
  - destruct c as [|[r t] c].
    + destruct (removeValue_sole w B v h) as (w' & ? & _); eauto.
    + destruct (removeValue_promote w B v h r t c) as (w' & ? & _); eauto.
  - destruct (split_chain v c) as [Hc|(c1 & r & n & c2 & -> & Hn & Hc1)].
    + exists (-1), w. apply (removeValue_missing w B); rewrite ?EB; done.
    + destruct (removeValue_chain w B v h c1 r n c2) as (w' & b & ? & _); eauto.
Qed.

(** [removeValue] removes exactly the mapping at its address, unless that is
    the head of a bucket with further mappings. *)
Lemma removeValue_exact w B v h c :
  wf w B -> 0 <= v < 2147483648 -> B (hash v) = (h, c) -> startAddress h <> v \/ c = [] ->
  Exists (fun n => startAddress n = v) (live (h, c)) ->
  exists n w' B', removeValue v w = Ok (1, w') /\ hashInit w' = hashInit w /\ wf w' B'
    /\ startAddress n = v /\ mappings w ≡ₚ n :: mappings w'.
Proof.
  intros Hw Hv EB Hor Hex. assert (0 <= hash v < 19) as Hi by (apply hash_range; lia).
  assert (startAddress h <> U_FAILED) as Hlive by (intros E; rewrite live_empty in Hex by done; by inversion Hex).
  rewrite live_start in Hex by done. destruct (decide (startAddress h = v)) as [E|E].
  - destruct Hor as [| ->]; [done|].
    destruct (removeValue_sole w B v h Hw Hv EB E) as (w' & Hrun & Hh & Hw').
    exists (erase h), w'. eexists. split; [done|]. split; [done|]. split; [done|]. split; [done|].
    destruct (mappings_update _ _ _ _ _ Hw Hw' Hi) as (u & z & -> & ->).
    rewrite EB, live_start, live_empty by done. cbn. symmetry. apply Permutation_middle.
  - apply Exists_cons in Hex as [?|Hex]; [done|].
    destruct (split_chain v c) as [Hc|(c1 & r & n & c2 & -> & Hn & Hc1)].
    { apply Exists_exists in Hex as (x & Hx & ?). rewrite Forall_forall in Hc. by apply Hc in Hx. }
    destruct (removeValue_chain w B v h c1 r n c2 Hw Hv EB E Hc1 Hn) as (w' & b & Hrun & Hh & Hw' & Hb).
    exists (erase n), w'. eexists. split; [done|]. split; [done|]. split; [done|]. split; [done|].
    destruct (mappings_update _ _ _ _ _ Hw Hw' Hi) as (u & z & -> & ->).
    rewrite Hb, EB, live_start by done. rewrite fmap_cons, !fmap_app, !fmap_cons. cbn [snd].
    rewrite <- !app_comm_cons, <- !app_assoc, <- !app_comm_cons. rewrite <- !Permutation_middle. apply Permutation_swap.
Qed.

(** C22.  Recording a mapping at an address that has none and removing it again
    gives back the same mappings, whatever else is in its bucket, as long as
    there is a node for it: its bucket is empty, or fewer than the sixteen nodes
    of the pool have been handed out, which are never given back.  Without a node
    the insertion runs past the end of the pool. *)
Theorem insert_remove w a len np fd fl :
  wmap_wf w -> 0 <= a < 2147483648 -> 1 <= np <= 524287 ->
  Forall (fun n => startAddress n <> a) (mappings w) ->
  (node_left w a -> exists w1 w2, hashInsert a len np fd fl w = Ok w1
    /\ mappings w1 ≡ₚ Node a np len fd fl 0 None :: mappings w
    /\ removeValue a w1 = Ok (1, w2) /\ mappings w2 ≡ₚ mappings w /\ wmap_wf w2)
  /\ (~ node_left w a -> hashInsert a len np fd fl w = UB "node index out of bounds").
Proof.
  intros [Hinit [B Hw]] Ha Hnp Hfree. assert (0 <= hash a < 19) as Hi by (apply hash_range; lia).
  split; [|by apply (hashInsert_full w B)]. intros Hpc.
  destruct (hashInsert_mappings w B a len np fd fl Hw Ha Hnp Hpc) as (w1 & _ & _ & _ & Hrun & _ & _ & Hm1 & _).
  assert (inserted w B a len np fd fl w1) as (b & r & n & Hw1 & Hh1 & _ & _ & Hn & Hb & Hin).
  { destruct (hashInsert_inserted w B a len np fd fl Hw Ha Hnp Hpc) as (w' & Hr & ?). by rewrite Hr in Hrun; injection Hrun as <-. }
  assert (startAddress n = a) as Hna by (by apply (f_equal startAddress) in Hn).
  destruct b as [h1 c1]. destruct (removeValue_exact w1 (set_bkt (hash a) (h1, c1) B) a h1 c1 Hw1 Ha) as
    (n2 & w2 & B2 & Hr2 & Hh2 & Hw2 & Hn2 & Hm2).
  - apply set_bkt_eq.
  - destruct (decide (startAddress h1 = a)) as [E|]; [|by left]. right.
    rewrite live_start in Hb by (rewrite E; unfold U_FAILED; lia).
    destruct (live (B (hash a))) as [|m ms] eqn:El; [injection Hb as _ Hc; by destruct c1|].
    exfalso. injection Hb as Hm _. rewrite Forall_forall in Hfree. apply (Hfree (erase m)).
    + apply (elem_of_mappings w B Hw). exists (hash a), m. rewrite El. split; [done|]. split; [by left|done].
    + cbn. congruence.
  - apply Exists_exists. eauto.
  - exists w1, w2. split; [done|]. split; [done|]. split; [done|].
    assert (n2 = Node a np len fd fl 0 None) as ->.
    { assert (n2 ∈ Node a np len fd fl 0 None :: mappings w) as Hn2in by (rewrite <- Hm1, Hm2; by left).
      apply elem_of_cons in Hn2in as [|Hn2in]; [done|]. rewrite Forall_forall in Hfree. by apply Hfree in Hn2in. }
    rewrite Hm1 in Hm2. split; [symmetry; by eapply Permutation_cons_inv|]. split; [congruence|by exists B2].
Qed.

(** Removing a mapping that is the head of a bucket with another one
    corrupts the other: it keeps its address but takes over the pages, the
    length, the descriptor and the flags of the mapping that was removed. *)
Theorem remove_head_corrupts w B v h r t c :
  wf w B -> 0 <= v < 2147483648 -> B (hash v) = (h, (r, t) :: c) -> startAddress h = v ->
  exists w' u z, removeValue v w = Ok (1, w')
    /\ mappings w = u ++ erase h :: erase t :: (erase <$> (snd <$> c)) ++ z
    /\ mappings w' = u ++ with_start (startAddress t) (erase h) :: (erase <$> (snd <$> c)) ++ z.
Proof.
  intros Hw Hv EB Hh. assert (0 <= hash v < 19) as Hi by (apply hash_range; lia).
  destruct (removeValue_promote w B v h r t c Hw Hv EB Hh) as (w' & Hrun & _ & Hw').
  destruct (mappings_update _ _ _ _ _ Hw Hw' Hi) as (u & z & Hm & Hm').
  assert (node_ok (hash v) t) as Ht.
  { apply (live_ok w B Hw); [done|]. rewrite EB, live_start by (rewrite Hh; unfold U_FAILED; lia). right. by left. }
  exists w', u, z. split; [done|]. rewrite EB, live_start in Hm by (rewrite Hh; unfold U_FAILED; lia).
  rewrite live_start in Hm' by (cbn; destruct Ht as [? _]; unfold U_FAILED; lia). split; [exact Hm|exact Hm'].
Qed.

(** * wunmap and the exit of a process *)

Section Unmap.
Context {S : Type} `{BlockOps S}.
Implicit Types k : kern (fstate S).

(** Unmapping an anonymous mapping no page of which was touched, in a region
    without a page table, stores through the null pointer that [walkpgdir]
    returned: the first loop of [wunmap] stops at a missing entry, the second
    one does not. *)
Theorem wunmap_untouched_null dev_write kend c cur p a k :
  ptable k !! cur = Some p -> wmap_wf (wtab k) -> windowed (wtab k) ->
  Exists (spans a) (mappings (wtab k)) ->
  Forall (fun n => spans a n -> has (nflags n) MAP_ANONYMOUS = true /\ 1 <= nlength n < 2147483648) (mappings (wtab k)) ->
  entry (kmem_mem (kmem k)) (pgdir p) a = None ->
  wunmap dev_write kend c cur a k = UB "wunmap: null pte".
Proof.
  intros Hp Hwf Hwin Hex Hanon Hent.
  destruct (fault_node _ _ Hwf Hwin Hex) as (Ha & r & n & Hr & Hn & Hin & Hs & _).
  rewrite Forall_forall in Hanon. destruct (Hanon _ Hin Hs) as [Hfl Hlen]. cbn in Hfl, Hlen.
  destruct Hwf as [_ [B Hw]]. destruct (removeValue_total _ _ a Hw Ha) as (z & w' & Hrm).
  destruct (removeValue_keeps _ _ _ _ Hrm r n Hn) as (n' & Hn' & Hl').
  assert (forall s, kmem_mem s = kmem_mem (kmem k) -> walkpgdir (pgdir p) a false s = (0, s)) as Hwalk.
  { intros s Hs'. unfold walkpgdir. rewrite Hs'. unfold entry, pde in Hent. by destruct (has _ _). }
  unfold wunmap, the_proc. rewrite Hp. cbn [obind]. rewrite s32_id by (unfold is_s32; lia).
  rewrite Hr. cbn [obind]. rewrite (deref_node _ _ _ Hn). cbn [obind]. rewrite Hfl. cbn [negb andb obind].
  rewrite Hrm. cbn [obind]. rewrite (deref_node _ _ _ Hn'). cbn [obind]. rewrite Hl', u32_id by (unfold is_u32; lia).
  unfold page_rounds, PGSIZE. replace (Z.to_nat ((a + nlength n - a) / 4096 + 1)) with (Datatypes.S (Z.to_nat (nlength n / 4096))) by zlia.
  cbn [wunmap_free wunmap_clear]. destruct (Z.ltb_spec a (a + nlength n)) as [_|]; [|lia].
  rewrite Hwalk by done. cbn [Z.eqb obind]. by rewrite Hwalk by done.
Qed.

(** [exit] reads the mapping table in front of its start when bucket 0 is
    empty. *)
Lemma exit_empty_bucket dev_write kend c cur p n k :
  ptable k !! cur = Some p -> node_at (wtab k) (Tab 0) = Some n -> startAddress n = U_FAILED ->
  sys_exit dev_write kend c cur k = UB "node index out of bounds".
Proof.
  intros Hp Hn Hs. unfold sys_exit. change NODES with (Datatypes.S 35). cbn [exit_unmap].
  rewrite (deref_node _ _ _ Hn). cbn [obind]. unfold wunmap, the_proc. rewrite Hp. cbn [obind]. rewrite Hs. done.
Qed.

(** After boot the first process that exits leaves bucket 0 of the table
    marked empty, and from then on, as long as no mapping falls into that
    bucket, [sys_exit] looks up the address -1 in [table[-1]]. *)
Theorem second_exit_out_of_bounds dev_write kend c cur p k :
  ptable k !! cur = Some p -> wtab k = wst0 ->
  exists w', exit_unmap dev_write kend NODES c cur (Some (Tab 0)) k = Ok (Some tt, set_wtab w' k)
    /\ exitHelper w' = Ok w'
    /\ forall k' c' cur' p', wtab k' = w' -> ptable k' !! cur' = Some p' ->
         sys_exit dev_write kend c' cur' k' = UB "node index out of bounds".
Proof.
  intros Hp Hw. exists (set_node (Tab 0) (with_start U_FAILED zero_node) wst0).
  split; [|split; [by vm_compute|]].
  - assert (wunmap dev_write kend c cur 0 k =
      Ok (Some 0, set_kmem (kmem k) (set_wtab (set_node (Tab 0) (with_start U_FAILED zero_node) wst0) k))) as Hu.
    { unfold wunmap, the_proc. rewrite Hp. cbn [obind]. rewrite Hw.
      change (pageInMappings (s32 0) wst0) with (Ok (Some (Tab 0))). cbn [obind].
      change (deref wst0 (Tab 0)) with (Ok zero_node). cbn [obind].
      change (negb (has (nflags zero_node) MAP_ANONYMOUS) && has (nflags zero_node) MAP_SHARED) with false. cbn [obind].
      rewrite Hw. change (removeValue (s32 0) wst0) with (Ok (1, set_node (Tab 0) (with_start U_FAILED zero_node) wst0)).
      cbn [obind]. reflexivity. }
    change NODES with (Datatypes.S 35). generalize 35%nat. intros m. cbn [exit_unmap]. rewrite Hw.
    change (deref wst0 (Tab 0)) with (Ok zero_node). cbn [obind]. change (startAddress zero_node) with 0.
    rewrite Hu. cbn [obind]. change (next zero_node) with (@None nref). destruct m, k; done.
  - intros k' c' cur' p' Hk' Hp'. eapply exit_empty_bucket; [done|by rewrite Hk'|done].
Qed.

End Unmap.

(** The nodes behind the heads of the buckets are never given back: four
    forks of a process with a single mapping, each of which records the
    mappings once more, run past the end of [nodePool]. *)
Theorem four_forks_overflow :
  exists w1 w2 w3,
    forkHelper one_mapping = Ok w1 /\ length (mappings w1) = 3%nat
    /\ forkHelper w1 = Ok w2 /\ forkHelper w2 = Ok w3
    /\ forkHelper w3 = UB "node index out of bounds".
Proof.
  destruct (forkHelper one_mapping) as [w1| |] eqn:E1; [|vm_compute in E1; done..].
  destruct (forkHelper w1) as [w2| |] eqn:E2; [|vm_compute in E1; injection E1 as <-; vm_compute in E2; done..].
  destruct (forkHelper w2) as [w3| |] eqn:E3;
    [|vm_compute in E1; injection E1 as <-; vm_compute in E2; injection E2 as <-; vm_compute in E3; done..].
  exists w1, w2, w3. vm_compute in E1. injection E1 as <-. vm_compute in E2. injection E2 as <-.
  vm_compute in E3. injection E3 as <-. split; [done|]. split; [done|]. split; [done|]. split; [done|]. by vm_compute.
Qed.

(** * Runs *)

Lemma insert_remove_witness :
  exists w1 w2, hashInsert 1610690560 4096 1 3 MAP_SHARED one_mapping = Ok w1
    /\ mappings w1 ≡ₚ Node 1610690560 1 4096 3 MAP_SHARED 0 None :: mappings one_mapping
    /\ removeValue 1610690560 w1 = Ok (1, w2) /\ mappings w2 ≡ₚ mappings one_mapping /\ wmap_wf w2.
Proof.
  apply (insert_remove one_mapping 1610690560 4096 1 3 MAP_SHARED).
  - exact one_mapping_wf.
  - lia.
  - lia.
  - rewrite one_mapping_list. constructor; [vm_compute; discriminate|constructor].
  - right. vm_compute. reflexivity.
Defined.

(** The mapping of [one_mapping] with a file mapping behind it in its bucket. *)
Definition two_mappings : wst :=
  match hashInsert 1610690560 4096 1 3 MAP_SHARED one_mapping with Ok w => w | _ => one_mapping end.

Lemma remove_head_corrupts_witness :
  exists w' u z, removeValue 1610612736 two_mappings = Ok (1, w')
    /\ mappings two_mappings = u ++ [Node 1610612736 2 8192 (-1) 12 0 None; Node 1610690560 1 4096 3 2 0 None] ++ z
    /\ mappings w' = u ++ [Node 1610690560 2 8192 (-1) 12 0 None] ++ z.
Proof.
  assert (wf two_mappings (buckets_of two_mappings)) as Hw by (apply wfb_sound; vm_compute; reflexivity).
  exact (remove_head_corrupts two_mappings (buckets_of two_mappings) 1610612736
    (Node 1610612736 2 8192 (-1) 12 0 (Some (Pool 0))) (Pool 0) (Node 1610690560 1 4096 3 2 0 None) []
    Hw ltac:(lia) ltac:(vm_compute; reflexivity) ltac:(reflexivity)).
Defined.

Lemma wunmap_untouched_null_witness :
  wunmap (fun _ => None) kend0 0 0 1610612736 fault_kern = UB "wunmap: null pte".
Proof.
  apply (wunmap_untouched_null (fun _ => None) kend0 0 0 fault_proc 1610612736 fault_kern).
  - reflexivity.
  - exact one_mapping_wf.
  - exact one_mapping_windowed.
  - apply fault_covers. lia.
  - change (wtab fault_kern) with one_mapping. rewrite one_mapping_list. constructor; [|constructor].
    intros _. split; [reflexivity|]. cbn. lia.
  - vm_compute. reflexivity.
Defined.

Lemma second_exit_out_of_bounds_witness :
  exists w', exit_unmap (fun _ => None) kend0 NODES 0 0 (Some (Tab 0)) (set_wtab wst0 fault_kern)
      = Ok (Some tt, set_wtab w' (set_wtab wst0 fault_kern))
    /\ sys_exit (fun _ => None) kend0 0 0 (set_wtab w' fault_kern) = UB "node index out of bounds".
Proof.
  destruct (second_exit_out_of_bounds (fun _ => None) kend0 0 0 fault_proc (set_wtab wst0 fault_kern) eq_refl eq_refl)
    as (w' & H1 & _ & H3).
  exists w'. split; [exact H1|]. exact (H3 (set_wtab w' fault_kern) 0%nat 0%nat fault_proc eq_refl eq_refl).
Defined.
