(* ===== verification/SyscallProps.v ===== *)
(** System-call arguments: pointers and strings of user memory. *)
From S2P Require Import Prelude Mem KString Mmu Kalloc Vm VmTheory VmUser VmCopy VmProps Spinlock Wmap Proc Syscall.

(** The byte the kernel finds at a mapped user address. *)
Definition ubyte (m : mem) (pgdir va : Z) : Z :=
  match mapping m pgdir va with Some e => ld8 m (frame e + va mod 4096) | None => 0 end.

(** The address in memory of one of the [n] bytes at user address [a]. *)
Definition backs (m : mem) (pgdir a n x : Z) : Prop :=
  exists va e, a <= va < a + n /\ mapping m pgdir va = Some e /\ x = frame e + va mod 4096.

Section Image.
Context (kend : Z) (Hkend : kend_ok kend).

(** The image of a process of size [n]: a well-formed address space in which
    every page below [n] is present and writable. *)
Record image (s : kst) (l : list Z) (pgdir n : Z) : Prop := {
  im_space : space kend s l pgdir;
  im_size : 0 <= n <= KERNBASE;
  im_pde va : 0 <= va < n -> has (pde (kmem_mem s) pgdir (PDX va)) PTE_W = true;
  im_page va : 0 <= va < n -> exists e, mapping (kmem_mem s) pgdir va = Some e /\ has e PTE_W = true
}.

Lemma translate_image s l pgdir n va write :
  image s l pgdir n -> 0 <= va < n ->
  exists e, mapping (kmem_mem s) pgdir va = Some e
    /\ translate (kmem_mem s) pgdir va write = Some (frame e + va mod 4096).
Proof.
  intros I Hva. destruct (im_page _ _ _ _ I va Hva) as (e & He & HW). exists e. split; [done|].
  pose proof (im_pde _ _ _ _ I va Hva) as HD. unfold mapping, entry in He. unfold translate, pde, pte_addr, ptp, pde in *.
  destruct (has (ld32 _ (pgdir + 4 * PDX va)) PTE_P); [|done]. rewrite HD.
  destruct (has (ld32 _ (P2V _ + _)) PTE_P) eqn:EP; [|done]. injection He as He. rewrite He.
  rewrite HW, !orb_true_r. done.
Qed.

Lemma uld8_image s l pgdir n va :
  image s l pgdir n -> 0 <= va < n -> uld8 pgdir va (kmem_mem s) = Ok (ubyte (kmem_mem s) pgdir va).
Proof.
  intros I Hva. destruct (translate_image s l pgdir n va false I Hva) as (e & He & Ht).
  unfold uld8, ubyte. by rewrite Ht, He.
Qed.

(** Storing one byte keeps the image and the other bytes. *)
Lemma ust8_image s l pgdir n va b :
  image s l pgdir n -> 0 <= va < n ->
  exists m', ust8 pgdir va b (kmem_mem s) = Ok m' /\ image (set_mem m' s) l pgdir n
    /\ (forall a, 0 <= a < n -> ubyte m' pgdir a = if decide (a = va) then u8 b else ubyte (kmem_mem s) pgdir a)
    /\ (forall a, mapping m' pgdir a = mapping (kmem_mem s) pgdir a)
    /\ forall x, ~ backs (kmem_mem s) pgdir va 1 x -> ld8 m' x = ld8 (kmem_mem s) x.
Proof using Hkend.
  intros I Hva. pose proof (im_size _ _ _ _ I) as Hn. assert (0 <= va < KERNBASE) as Hvk by lia.
  destruct (translate_image s l pgdir n va true I Hva) as (e & He & Ht). unfold ust8. rewrite Ht.
  eexists. split; [done|]. pose proof (im_space _ _ _ _ I) as Hs. pose proof (sp_u _ _ _ _ Hs) as Hu.
  destruct (uw_frame _ _ _ _ Hu va e Hvk He) as (Hok & _ & Hnt). pose proof (page_aligned _ _ Hok) as Hal.
  pose proof (Z.mod_pos_bound va 4096 ltac:(lia)) as Hmod.
  set (m' := st8 _ _ _).
  assert (forall q, q mod 4096 = 0 -> q <> frame e -> same_page q (kmem_mem s) m') as HF.
  { intros q Hq Hne x Hx. unfold m'. apply ld8_st8_ne. zlia. }
  destruct (write_frame kend s l pgdir va e m' Hs Hvk He HF) as [Hs' HM].
  split; [|split; [|split; [done|]]].
  - split; [done|done| |].
    + intros a Ha. cbn. unfold pde. rewrite (same_page_ld32 pgdir (kmem_mem s)).
      * by apply (im_pde _ _ _ _ I).
      * apply HF; [eapply page_aligned, (pw_dir _ _ _ _ (sp_pt _ _ _ _ Hs))|]. intros E. apply Hnt. left. done.
      * pose proof (PDX_slot a) as Hsl. unfold slot in Hsl. lia.
      * pose proof (PDX_slot a) as Hsl. unfold slot in Hsl. lia.
    + intros a Ha. cbn. rewrite HM. by apply (im_page _ _ _ _ I).
  - intros a Ha. unfold ubyte. rewrite HM. case_decide as Ea.
    + subst a. rewrite He. unfold m'. by rewrite ld8_st8_eq.
    + destruct (im_page _ _ _ _ I a Ha) as (e' & He' & _). rewrite He'. unfold m'. apply ld8_st8_ne. intros Heq.
      assert (0 <= a < KERNBASE) as Hak by lia. destruct (uw_frame _ _ _ _ Hu a e' Hak He') as (Hok' & _ & _).
      pose proof (page_aligned _ _ Hok') as Hal'. pose proof (Z.mod_pos_bound a 4096 ltac:(lia)) as Hmod'.
      assert (frame e' = frame e) as Hfe by zlia.
      pose proof (uw_inj _ _ _ _ Hu a va e' e Hak Hvk He' He Hfe). zlia.
  - intros x Hx. unfold m'. apply ld8_st8_ne. intros E. apply Hx. exists va, e. split; [lia|]. split; [done|]. congruence.
Qed.

(** Storing bytes. *)
Lemma uput_image bytes : forall s l pgdir n va,
  image s l pgdir n -> 0 <= va -> va + Z.of_nat (length bytes) <= n -> Forall (fun b => 0 <= b < 256) bytes ->
  exists m', uput pgdir va bytes (kmem_mem s) = Ok m' /\ image (set_mem m' s) l pgdir n
    /\ (forall a, 0 <= a < n -> ubyte m' pgdir a =
         match bytes !! Z.to_nat (a - va) with
         | Some b => if decide (va <= a) then b else ubyte (kmem_mem s) pgdir a
         | None => ubyte (kmem_mem s) pgdir a
         end)
    /\ (forall a, mapping m' pgdir a = mapping (kmem_mem s) pgdir a)
    /\ forall x, ~ backs (kmem_mem s) pgdir va (Z.of_nat (length bytes)) x -> ld8 m' x = ld8 (kmem_mem s) x.
Proof using Hkend.
  induction bytes as [|b bytes IH]; intros s l pgdir n va I Hva Hn HB; cbn [uput length] in *.
  - exists (kmem_mem s). split; [done|]. split; [by destruct s|]. split; [intros a Ha; by rewrite lookup_nil|done].
  - apply Forall_cons in HB as [Hb HB].
    destruct (ust8_image s l pgdir n va b I ltac:(lia)) as (m1 & -> & I1 & HU1 & HM1 & HF1). cbn [obind].
    pose proof (im_size _ _ _ _ I) as Hsz. rewrite u32_id by (unfold is_u32, KERNBASE in *; lia).
    destruct (IH (set_mem m1 s) l pgdir n (va + 1) I1 ltac:(lia) ltac:(lia) HB) as (m2 & Hr2 & I2 & HU2 & HM2 & HF2).
    cbn [kmem_mem set_mem] in Hr2. rewrite Hr2.
    cbn [kmem_mem set_mem] in HM2, HF2. exists m2. split; [done|]. split; [done|]. split; [|split].
    2: { intros a. by rewrite HM2, HM1. }
    2: { intros x Hx. rewrite HF2, HF1; [done| |]; intros (a & e & Ha & He & ->); apply Hx; exists a, e; rewrite ?HM1 in He; (split; [lia|done]). }
    intros a Ha. rewrite HU2 by done. cbn [kmem_mem set_mem]. rewrite HU1 by done.
    destruct (Z_lt_dec a va) as [Hlt|Hge].
    + replace (Z.to_nat (a - va)) with 0%nat by lia. replace (Z.to_nat (a - (va + 1))) with 0%nat by lia.
      change ((b :: bytes) !! 0%nat) with (Some b). cbv beta iota. rewrite (decide_False (P := va <= a)) by lia.
      destruct (bytes !! 0%nat); repeat case_decide; done || lia.
    + destruct (Z.eq_dec a va) as [->|Hne].
      * rewrite Z.sub_diag. change ((b :: bytes) !! Z.to_nat 0) with (Some b). cbv beta iota. unfold u8.
        rewrite Z.mod_small by lia. destruct (bytes !! _); repeat case_decide; done || lia.
      * replace (Z.to_nat (a - va)) with (S (Z.to_nat (a - (va + 1)))) by lia.
        change ((b :: bytes) !! S (Z.to_nat (a - (va + 1)))) with (bytes !! Z.to_nat (a - (va + 1))).
        destruct (bytes !! _); repeat case_decide; done || lia.
Qed.

Lemma uget_image k : forall s l pgdir n va,
  image s l pgdir n -> 0 <= va -> va + Z.of_nat k <= n ->
  uget pgdir va k (kmem_mem s) = Ok ((fun i => ubyte (kmem_mem s) pgdir (va + Z.of_nat i)) <$> seq 0 k).
Proof using Hkend.
  induction k as [|k IH]; intros s l pgdir n va I Hva Hn; cbn [uget]; [done|].
  rewrite (uld8_image s l pgdir n) by (done || lia). cbn [obind].
  pose proof (im_size _ _ _ _ I) as Hsz. rewrite u32_id by (unfold is_u32, KERNBASE in *; lia).
  rewrite (IH s l pgdir n) by (done || lia). cbn [obind]. rewrite <- cons_seq, fmap_cons. do 2 f_equal.
  - f_equal. lia.
  - rewrite <- (fmap_S_seq 0 k), <- list_fmap_compose. apply list_fmap_ext. intros i x _. cbn. f_equal. lia.
Qed.

End Image.

(** The loop of [fetchstr]. *)
Lemma fetchstr_loop_spec kend c : forall s l pgdir n va,
  image kend s l pgdir n -> 0 <= va -> va + Z.of_nat c = n ->
  exists r, fetchstr_loop pgdir va c (kmem_mem s) = Ok r /\
    match r with
    | Some str => va + Z.of_nat (length str) < n /\ ubyte (kmem_mem s) pgdir (va + Z.of_nat (length str)) = 0
        /\ forall i, (i < length str)%nat ->
             str !! i = Some (ubyte (kmem_mem s) pgdir (va + Z.of_nat i)) /\ ubyte (kmem_mem s) pgdir (va + Z.of_nat i) <> 0
    | None => forall a, va <= a < n -> ubyte (kmem_mem s) pgdir a <> 0
    end.
Proof.
  induction c as [|c IH]; intros s l pgdir n va I Hva Hn; cbn [fetchstr_loop].
  - exists None. split; [done|]. intros. lia.
  - rewrite (uld8_image kend s l pgdir n) by (done || lia). cbn [obind].
    destruct (Z.eqb_spec (ubyte (kmem_mem s) pgdir va) 0) as [E|E].
    + exists (Some []). split; [done|]. cbn. rewrite Z.add_0_r. split; [lia|]. split; [done|]. intros. lia.
    + destruct (IH s l pgdir n (va + 1) I ltac:(lia) ltac:(lia)) as (r & -> & Hr). cbn [obind].
      eexists. split; [done|]. destruct r as [str|]; cbn.
      * destruct Hr as (H1 & H2 & H3). split; [lia|].
        replace (va + Z.of_nat (S (length str))) with (va + 1 + Z.of_nat (length str)) by lia. split; [done|].
        intros [|i] Hi; cbn; [by rewrite Z.add_0_r|].
        replace (va + Z.of_nat (S i)) with (va + 1 + Z.of_nat i) by lia. apply H3. lia.
      * intros a Ha. destruct (Z.eq_dec a va) as [->|]; [done|]. apply Hr. lia.
Qed.

Section Props.
Context {F : Type}.
Implicit Types k : kern F.

(** C20.  [argptr] checks a buffer: when the argument [i] can be fetched, it returns
    the pointer exactly if [size] is not negative and the whole buffer lies below the
    size of the process, and fails otherwise; it never takes a range that wraps
    around.  What it accepts is safe: storing up to [size] bytes there does not
    fault, reading them back gives the same bytes, and nothing else of the kernel
    changes -- no byte of memory but those of the buffer, and no field of the
    kernel's state but the memory. *)
Theorem argptr_buffer kend k cur p l n size i :
  kend_ok kend -> ptable k !! cur = Some p -> image kend (kmem k) l (pgdir p) (sz p) -> is_s32 size ->
  argint cur n k = Ok (Some i) ->
  argptr cur n size k = Ok (if decide (0 <= size /\ u32 i < sz p /\ u32 i + size <= sz p) then Some (u32 i) else None)
  /\ forall a bytes, argptr cur n size k = Ok (Some a) -> Z.of_nat (length bytes) <= size -> Forall (fun b => 0 <= b < 256) bytes ->
     exists m, user_store p a bytes k = Ok (set_kmem (set_mem m (kmem k)) k)
       /\ user_load p a (Z.of_nat (length bytes)) (set_kmem (set_mem m (kmem k)) k) = Ok bytes
       /\ image kend (set_mem m (kmem k)) l (pgdir p) (sz p)
       /\ forall x, ~ backs (kmem_mem (kmem k)) (pgdir p) a (Z.of_nat (length bytes)) x -> ld8 m x = ld8 (kmem_mem (kmem k)) x.
Proof.
  intros Hkend Hp I Hsize Harg. pose proof (im_size _ _ _ _ _ I) as Hsz. pose proof (u32_range i) as Hr.
  assert (argptr cur n size k = Ok (if decide (0 <= size /\ u32 i < sz p /\ u32 i + size <= sz p) then Some (u32 i) else None)) as E.
  { unfold argptr, the_proc. rewrite Hp. cbn [obind]. rewrite Harg. cbn [obind]. unfold is_s32, is_u32, KERNBASE in *.
    destruct (Z.ltb_spec size 0); cbn [orb]; [by rewrite decide_False by lia|].
    destruct (Z.leb_spec (sz p) (u32 i)); cbn [orb]; [by rewrite decide_False by lia|].
    rewrite (u32_id (u32 i + size)) by (unfold is_u32; lia). destruct (Z.ltb_spec (sz p) (u32 i + size)); case_decide; done || lia. }
  split; [done|]. intros a bytes Ha Hlen HB. rewrite E in Ha. case_decide as Hc; [|done]. injection Ha as <-. destruct Hc as (Hc1 & Hc2 & Hc3).
  unfold is_u32 in Hr.
  destruct (uput_image kend Hkend bytes (kmem k) l (pgdir p) (sz p) (u32 i) I) as (m' & Hput & I' & HU & _ & HF); [lia|lia|done|].
  exists m'. unfold user_store, user_load. rewrite Hput. split; [done|]. split; [|split; [done|done]].
  rewrite Nat2Z.id. cbn [kmem set_kmem]. rewrite (uget_image kend Hkend _ _ l (pgdir p) (sz p)) by (done || lia). f_equal.
  apply list_eq. intros j. rewrite list_lookup_fmap. destruct (decide (j < length bytes)%nat) as [Hj|Hj].
  - rewrite lookup_seq_lt by done. cbn [fmap option_fmap option_map]. cbn [kmem_mem set_mem]. rewrite HU by lia.
    replace (Z.to_nat (u32 i + Z.of_nat (0 + j) - u32 i)) with j by lia.
    destruct (lookup_lt_is_Some_2 bytes j Hj) as [b Hbj]. rewrite Hbj. rewrite decide_True by lia. done.
  - rewrite lookup_seq_ge, lookup_ge_None_2 by lia. done.
Qed.

(** C21.  [fetchstr] returns the string at a user address: the bytes up to the
    first 0 below the size of the process; it fails exactly when there is no
    such 0, and never reads beyond the process. *)
Theorem fetchstr_string kend k cur p l addr :
  ptable k !! cur = Some p -> image kend (kmem k) l (pgdir p) (sz p) -> 0 <= addr ->
  let b a := ubyte (kmem_mem (kmem k)) (pgdir p) a in
  exists r, fetchstr cur addr k = Ok r /\
    match r with
    | Some str => addr + Z.of_nat (length str) < sz p /\ b (addr + Z.of_nat (length str)) = 0
        /\ forall i, (i < length str)%nat ->
             str !! i = Some (b (addr + Z.of_nat i)) /\ b (addr + Z.of_nat i) <> 0
    | None => forall a, addr <= a < sz p -> b a <> 0
    end.
Proof.
  intros Hp I Ha. unfold fetchstr, the_proc. rewrite Hp. cbn [obind].
  destruct (Z.leb_spec (sz p) addr) as [H|H].
  - exists None. split; [done|]. intros. lia.
  - apply (fetchstr_loop_spec kend _ _ l); [done|done|lia].
Qed.

End Props.

(** * Runs *)

(** A process with one page, the string "hi" at address 16. *)
Definition arg_proc : proc :=
  Proc 4096 pgdir0 (page0 9) RUNNING 1 None (page0 5) 0 None false (replicate NOFILE None) None (replicate 16 0).
Definition arg_kst : kst :=
  match uput pgdir0 16 [104; 105] mem1 with Ok m => set_mem m kst1 | _ => kst1 end.
Definition arg_kern : kern Z := Kern [arg_proc] 2 (Some 0%nat) arg_kst wst0 0 [Some 0%nat] 0.

Lemma image1 : image kend0 kst1 [page0 3] pgdir0 4096.
Proof.
  split.
  - exact space1.
  - unfold KERNBASE. lia.
  - intros va Hva. cbn [kmem_mem kst1]. rewrite PDX_alt by (unfold is_u32; lia).
    rewrite pde1 by (unfold slot; zlia). by rewrite decide_True by zlia.
  - intros va Hva. cbn [kmem_mem kst1]. rewrite mapping1 by (unfold is_u32; lia).
    rewrite decide_True by zlia. eexists. split; [done|]. reflexivity.
Qed.

Lemma arg_image : image kend0 arg_kst [page0 3] pgdir0 4096.
Proof.
  destruct (uput_image kend0 kend0_ok [104; 105] kst1 [page0 3] pgdir0 4096 16 image1) as (m' & Hput & I & _).
  - lia.
  - cbn. lia.
  - repeat constructor; lia.
  - unfold arg_kst. change (kmem_mem kst1) with mem1 in Hput. rewrite Hput. exact I.
Qed.

Lemma argptr_buffer_witness :
  argptr 0 0 (-1) arg_kern = Ok None /\ exists m, user_store arg_proc 0 [1; 2; 3] arg_kern = Ok (set_kmem (set_mem m arg_kst) arg_kern)
    /\ user_load arg_proc 0 3 (set_kmem (set_mem m arg_kst) arg_kern) = Ok [1; 2; 3].
Proof.
  pose proof (fun size => argptr_buffer kend0 arg_kern 0 arg_proc [page0 3] 0 size 0 kend0_ok eq_refl arg_image) as H.
  split; [apply (H (-1)); [unfold is_s32; lia|vm_compute; reflexivity]|].
  destruct (H 8 ltac:(unfold is_s32; lia) ltac:(vm_compute; reflexivity)) as [_ H8].
  destruct (H8 0 [1; 2; 3]) as (m & H1 & H2 & _).
  - vm_compute. reflexivity.
  - cbn. lia.
  - repeat constructor; lia.
  - exists m. split; [exact H1|exact H2].
Defined.

Lemma fetchstr_string_witness :
  exists r, fetchstr 0 16 arg_kern = Ok (Some r) /\ r = [104; 105]
    /\ ubyte (kmem_mem arg_kst) pgdir0 (16 + Z.of_nat (length r)) = 0.
Proof.
  destruct (fetchstr_string kend0 arg_kern 0 arg_proc [page0 3] 16) as (r & Hr & Hspec).
  - reflexivity.
  - exact arg_image.
  - lia.
  - assert (fetchstr 0 16 arg_kern = Ok (Some [104; 105])) as E by (vm_compute; reflexivity).
    rewrite E in Hr. injection Hr as <-. exists [104; 105]. split; [exact E|]. split; [reflexivity|].
    destruct Hspec as (_ & H & _). exact H.
Defined.
