(* ===== verification/FileProps.v ===== *)
(** The reference counts of the file table: in every state between two calls,
    the count of a file is the number of descriptors that name it. *)
From S2P Require Import Prelude Mem KString Mmu Kalloc Vm Spinlock Wmap Proc Syscall Pipe Bio Log Fs File Sysfile Exec Fault Sysproc.

(** * Counting descriptors *)

Definition fdz (i : nat) (os : list (option nat)) : Z := Z.of_nat (length (filter (fun o => o = Some i) os)).

Definition refs (i : nat) (t : list proc) : Z := foldr (fun p acc => fdz i (ofile p) + acc) 0 t.

Definition hit (i : nat) (o : option nat) : Z := if decide (o = Some i) then 1 else 0.

Lemma fdz_cons i o os : fdz i (o :: os) = hit i o + fdz i os.
Proof. unfold fdz, hit. rewrite filter_cons. case_decide; cbn [length]; lia. Qed.

Lemma fdz_nonneg i os : 0 <= fdz i os.
Proof. unfold fdz. lia. Qed.

Lemma fdz_insert i os fd o o' : os !! fd = Some o -> fdz i (<[fd := o']> os) = fdz i os - hit i o + hit i o'.
Proof.
  revert fd. induction os as [|x os IH]; intros [|fd] H; [done|done| |]; cbn in H.
  - injection H as ->. change (<[0%nat:=o']> (o :: os)) with (o' :: os). rewrite !fdz_cons. lia.
  - change (<[Datatypes.S fd:=o']> (x :: os)) with (x :: <[fd:=o']> os). rewrite !fdz_cons, (IH fd) by done. lia.
Qed.

Lemma fdz_none i os : Forall (eq None) os -> fdz i os = 0.
Proof. induction 1 as [|o os <- _ IH]; [done|]. by rewrite fdz_cons, IH. Qed.

Lemma refs_cons i p t : refs i (p :: t) = fdz i (ofile p) + refs i t.
Proof. done. Qed.

Lemma refs_nonneg i t : 0 <= refs i t.
Proof. induction t as [|p t IH]; [done|]. rewrite refs_cons. pose proof (fdz_nonneg i (ofile p)). lia. Qed.

Lemma refs_alter i t j p g : t !! j = Some p -> refs i (alter g j t) = refs i t - fdz i (ofile p) + fdz i (ofile (g p)).
Proof.
  revert j. induction t as [|q t IH]; intros [|j] H; [done|done| |]; cbn in H.
  - injection H as ->. change (alter g 0%nat (p :: t)) with (g p :: t). rewrite !refs_cons. lia.
  - change (alter g (Datatypes.S j) (q :: t)) with (q :: alter g j t). rewrite !refs_cons, (IH j) by done. lia.
Qed.

Lemma refs_lookup i t j p fd : t !! j = Some p -> ofile p !! fd = Some (Some i) -> 1 <= refs i t.
Proof.
  revert j. induction t as [|q t IH]; intros [|j] H Ho; [done|done| |]; cbn in H.
  - injection H as ->. rewrite refs_cons. pose proof (refs_nonneg i t) as Hn.
    assert (1 <= fdz i (ofile p)); [|lia]. clear -Ho. revert fd Ho.
    induction (ofile p) as [|o os IH]; intros [|fd] Ho; [done|done| |]; cbn in Ho; rewrite fdz_cons.
    + injection Ho as ->. unfold hit. rewrite decide_True by done. pose proof (fdz_nonneg i os). lia.
    + apply IH in Ho. unfold hit. case_decide; lia.
  - rewrite refs_cons. pose proof (fdz_nonneg i (ofile q)). specialize (IH j H Ho). lia.
Qed.

(** * The invariant *)

(** A slot that runs no process. *)
Definition idle (p : proc) : Prop := state p = UNUSED \/ state p = ZOMBIE.

(** [d i] references to file [i] are held by the kernel code that runs, and
    the files of [X] are under construction. *)
Record held (tab : list file) (t : list proc) (d : nat -> Z) (X : gset nat) : Prop := {
  hd_ref i f : tab !! i = Some f -> f_ref f = refs i t + d i;
  hd_none i : tab !! i = None -> refs i t = 0 /\ d i = 0;
  hd_nonneg i : 0 <= d i;
  hd_free i f : tab !! i = Some f -> f_ref f = 0 -> f_type f = FD_NONE;
  hd_open i f : tab !! i = Some f -> f_ref f <> 0 -> i ∉ X -> f_type f <> FD_NONE;
  hd_idle j p : t !! j = Some p -> idle p -> Forall (eq None) (ofile p);
  hd_len j p : t !! j = Some p -> length (ofile p) = NOFILE
}.

Definition d0 : nat -> Z := fun _ => 0.
Definition bump (d : nat -> Z) (i : nat) (z : Z) : nat -> Z := fun j => if decide (j = i) then d j + z else d j.

Lemma held_ext tab t d d' X X' :
  (forall j, d j = d' j) -> X = X' -> held tab t d X -> held tab t d' X'.
Proof.
  intros Hd -> [H1 H2 H3 H4 H5 H6 H7]. split; try done.
  - intros i f Hf. rewrite <- Hd. by apply H1.
  - intros i Hi. rewrite <- Hd. by apply H2.
  - intros i. rewrite <- Hd. apply H3.
Qed.

(** Changes of a file that keep its count and its type. *)
Definition same_refs (tab tab' : list file) : Prop :=
  length tab' = length tab /\
  forall i f f', tab !! i = Some f -> tab' !! i = Some f' -> f_ref f' = f_ref f /\ f_type f' = f_type f.

Lemma same_refs_refl tab : same_refs tab tab.
Proof. split; [done|]. intros i f f' H H'. rewrite H in H'. by injection H' as ->. Qed.

Lemma same_refs_trans t1 t2 t3 : same_refs t1 t2 -> same_refs t2 t3 -> same_refs t1 t3.
Proof.
  intros [L1 H1] [L2 H2]. split; [congruence|]. intros i f f3 Hf Hf3.
  destruct (lookup_lt_is_Some_2 t2 i) as [f2 Hf2]; [rewrite L1; by eapply lookup_lt_Some|].
  destruct (H1 i f f2 Hf Hf2), (H2 i f2 f3 Hf2 Hf3). split; congruence.
Qed.

Lemma same_refs_alter tab i g :
  (forall f, f_ref (g f) = f_ref f /\ f_type (g f) = f_type f) -> same_refs tab (alter g i tab).
Proof.
  intros Hg. split; [by rewrite length_alter|]. intros j f f' Hf Hf'. rewrite list_lookup_alter in Hf'.
  case_decide; subst; rewrite Hf in Hf'; cbn in Hf'; injection Hf' as <-; done.
Qed.

Lemma held_same tab tab' t d X : same_refs tab tab' -> held tab t d X -> held tab' t d X.
Proof.
  intros [L H] [H1 H2 H3 H4 H5 H6 H7].
  assert (forall i f', tab' !! i = Some f' -> exists f, tab !! i = Some f /\ f_ref f' = f_ref f /\ f_type f' = f_type f) as HB.
  { intros i f' Hf'. destruct (lookup_lt_is_Some_2 tab i) as [f Hf]; [rewrite <- L; by eapply lookup_lt_Some|].
    exists f. split; [done|]. by apply (H i). }
  split; try done.
  - intros i f' (f & Hf & -> & _)%HB. by apply H1.
  - intros i Hi. apply H2. apply lookup_ge_None_2. rewrite <- L. by apply lookup_ge_None_1.
  - intros i f' (f & Hf & -> & ->)%HB. by apply (H4 i).
  - intros i f' (f & Hf & -> & ->)%HB. by apply (H5 i).
Qed.

(** A table of processes with the same descriptors and no new idle slot that
    has some. *)
Definition same_fds (t t' : list proc) : Prop :=
  length t' = length t /\
  forall j p p', t !! j = Some p -> t' !! j = Some p' -> ofile p' = ofile p /\ (idle p' -> idle p \/ Forall (eq None) (ofile p)).

Lemma refs_same i t : forall t',
  length t' = length t -> (forall j p p', t !! j = Some p -> t' !! j = Some p' -> ofile p' = ofile p) -> refs i t' = refs i t.
Proof.
  induction t as [|p t IH]; intros [|p' t'] L H; try done. cbn in L.
  rewrite !refs_cons, (H 0%nat p p') by done. rewrite (IH t'); [done|lia|].
  intros j q q' Hq Hq'. apply (H (Datatypes.S j)); done.
Qed.

Lemma held_procs tab t t' d X : same_fds t t' -> held tab t d X -> held tab t' d X.
Proof.
  intros [L H] [H1 H2 H3 H4 H5 H6 H7].
  assert (forall i, refs i t' = refs i t) as HR by (intros; apply refs_same; [done|intros j p p' Hp Hp'; by apply (H j p p')]).
  split; try done.
  - intros i f Hf. rewrite HR. by apply H1.
  - intros i Hi. rewrite HR. by apply H2.
  - intros j p' Hp' Hi. destruct (lookup_lt_is_Some_2 t j) as [p Hp]; [rewrite <- L; by eapply lookup_lt_Some|].
    destruct (H j p p' Hp Hp') as [E HI]. rewrite E. destruct (HI Hi); [by eapply H6|done].
  - intros j p' Hp'. destruct (lookup_lt_is_Some_2 t j) as [p Hp]; [rewrite <- L; by eapply lookup_lt_Some|].
    destruct (H j p p' Hp Hp') as [-> _]. by eapply H7.
Qed.

(** * The operations of file.c *)

(** Changing the count of file [i] by [z], and the references held. *)
Lemma held_count tab t d X i f g z :
  held tab t d X -> tab !! i = Some f -> f_ref (g f) = f_ref f + z -> 0 <= d i + z ->
  (f_ref (g f) = 0 -> f_type (g f) = FD_NONE) -> (f_ref (g f) <> 0 -> i ∉ X -> f_type (g f) <> FD_NONE) ->
  held (alter g i tab) t (bump d i z) X.
Proof.
  intros [H1 H2 H3 H4 H5 H6 H7] Hf Hr Hd Hfree Hopen.
  assert (forall j f', alter g i tab !! j = Some f' -> (j = i /\ f' = g f) \/ (j <> i /\ tab !! j = Some f')) as HB.
  { intros j f'. rewrite list_lookup_alter. case_decide; [subst; rewrite Hf; cbn; intros [= <-]; by left|].
    intros ?. right. split; [congruence|done]. }
  split; try done; unfold bump.
  - intros j f' [[-> ->]|[Hne Hj]]%HB; [rewrite decide_True, Hr, (H1 i f) by done; lia|].
    rewrite decide_False by done. by apply H1.
  - intros j Hj. rewrite list_lookup_alter in Hj. case_decide; [subst; by rewrite Hf in Hj|].
    rewrite decide_False by congruence. by apply H2.
  - intros j. case_decide; [subst; lia|]. apply H3.
  - intros j f' [[-> ->]|[Hne Hj]]%HB; [done|]. by apply (H4 j).
  - intros j f' [[-> ->]|[Hne Hj]]%HB; [done|]. by apply (H5 j).
Qed.

Lemma free_file_Some tab : forall b i,
  free_file b tab = Some i -> exists j f, i = (b + j)%nat /\ tab !! j = Some f /\ f_ref f = 0.
Proof.
  induction tab as [|f tab IH]; intros b i; cbn; [done|]. destruct (Z.eqb_spec (f_ref f) 0) as [E|E].
  - intros [= <-]. exists 0%nat, f. split; [lia|done].
  - intros (j & f' & -> & Hj & Hr)%IH. exists (Datatypes.S j), f'. split; [lia|done].
Qed.

Section Ops.
Context {S : Type} `{BlockOps S}.
Implicit Types s : fstate S.

Lemma the_file_inv i s f : the_file i s = Ok f -> ftab s !! i = Some f.
Proof. unfold the_file. destruct (ftab s !! i); [by intros [= ->]|done]. Qed.

(** A new file is held once and is under construction. *)
Lemma filealloc_held s t d X i s' :
  held (ftab s) t d X -> filealloc s = (Some i, s') ->
  held (ftab s') t (bump d i 1) (X ∪ {[i]}) /\ d i = 0 /\ refs i t = 0 /\ (i < length (ftab s))%nat /\ pipes s' = pipes s /\ ffs s' = ffs s
  /\ (forall f, ftab s' !! i = Some f -> f_type f = FD_NONE).
Proof.
  intros Hh. unfold filealloc. destruct (free_file 0 (ftab s)) as [j|] eqn:E; [|done]. intros [= -> <-].
  apply free_file_Some in E as (j & f & -> & Hj & Hr). cbn [Nat.add] in *.
  pose proof (hd_ref _ _ _ _ Hh j f Hj) as Hrf. pose proof (refs_nonneg j t). pose proof (hd_nonneg _ _ _ _ Hh j).
  pose proof (hd_free _ _ _ _ Hh j f Hj Hr) as Ht.
  split; [|split; [lia|]; split; [lia|]; split; [by eapply lookup_lt_Some|]; split; [done|]; split; [done|]].
  - cbn. assert (held (ftab s) t d (X ∪ {[j]})) as Hh'.
    { destruct Hh as [G1 G2 G3 G4 G5 G6 G7]. split; try done. intros i f' Hi Hn Hx. apply (G5 i); [done|done|]. set_solver. }
    eapply held_count; [done|done|cbn; lia|lia| |]; cbn; [done|]. intros _ Hx. set_solver.
  - intros f'. cbn. rewrite list_lookup_alter_eq, Hj. cbn. intros [= <-]. done.
Qed.

Lemma filealloc_none s s' : filealloc s = (None, s') -> s' = s.
Proof. unfold filealloc. destruct (free_file _ _); [done|]. by intros [= <-]. Qed.

(** Duplicating a file that a descriptor names adds a reference. *)
Lemma filedup_held s t d X i s' :
  held (ftab s) t d X -> filedup i s = Ok s' ->
  held (ftab s') t (bump d i 1) X /\ ffs s' = ffs s.
Proof.
  intros Hh Hd. unfold filedup in Hd. apply obind_Ok_inv in Hd as (f & Hf%the_file_inv & Hd).
  destruct (Z.ltb_spec (f_ref f) 1); [done|]. destruct (_ =? _); [done|]. injection Hd as <-. split; [|done].
  cbn. pose proof (hd_nonneg _ _ _ _ Hh i). eapply held_count; [done|done|done|lia| |]; cbn; [lia|].
  intros _ Hx. apply (hd_open _ _ _ _ Hh i f); [done|lia|done].
Qed.

(** Closing a file that is held gives one reference back. *)
Lemma fileclose_held me kend s t d X i km ws s' km' :
  held (ftab s) t d X -> 1 <= d i -> fileclose me kend i s km = Ok (ws, s', km') ->
  held (ftab s') t (bump d i (-1)) X.
Proof.
  intros Hh Hd Hc. unfold fileclose in Hc. apply obind_Ok_inv in Hc as (f & Hf%the_file_inv & Hc).
  destruct (Z.ltb_spec (f_ref f) 1) as [|Hpos]; [done|].
  destruct (Z.ltb_spec 0 (f_ref f - 1)) as [Hmore|Hlast].
  - injection Hc as _ <- _. cbn. eapply held_count; [done|done|cbn; lia|lia| |]; cbn; [lia|].
    intros _ Hx. apply (hd_open _ _ _ _ Hh i f); [done|lia|done].
  - assert (held (alter (fun f => f_with_type FD_NONE (f_with_ref 0 f)) i (ftab s)) t (bump d i (-1)) X) as Hh'.
    { eapply held_count; [done|done|cbn; lia|lia|done|]. cbn. lia. }
    destruct (f_type f).
    + injection Hc as _ <- _. done.
    + unfold pipe_close in Hc. apply obind_Ok_inv in Hc as (q & _ & Hc). destruct (pipeclose _ _) as [[q' ch] dead].
      destruct dead; [apply obind_Ok_inv in Hc as (km1 & _ & Hc)|]; injection Hc as _ <- _; done.
    + inv_bind. injection Hc as _ <- _. done.
Qed.

(** Setting the fields of a file under construction. *)
Lemma held_built tab t d X i g :
  held tab t d X -> (forall f, f_ref (g f) = f_ref f) -> (forall f, f_type (g f) <> FD_NONE) ->
  (i < length tab)%nat -> 1 <= refs i t + d i ->
  held (alter g i tab) t d (X ∖ {[i]}).
Proof.
  intros [H1 H2 H3 H4 H5 H6 H7] Hr Ht Hi Hpos.
  destruct (lookup_lt_is_Some_2 tab i Hi) as [f Hf].
  assert (forall j f', alter g i tab !! j = Some f' -> (j = i /\ f' = g f) \/ (j <> i /\ tab !! j = Some f')) as HB.
  { intros j f'. rewrite list_lookup_alter. case_decide; [subst; rewrite Hf; cbn; intros [= <-]; by left|].
    intros ?. right. split; [congruence|done]. }
  split; try done.
  - intros j f' [[-> ->]|[Hne Hj]]%HB; [rewrite Hr|]; by apply H1.
  - intros j Hj. rewrite list_lookup_alter in Hj. case_decide; [subst; by rewrite Hf in Hj|]. by apply H2.
  - intros j f' [[-> ->]|[Hne Hj]]%HB; [rewrite Hr, (H1 i f Hf); lia|]. by apply (H4 j).
  - intros j f' [[-> ->]|[Hne Hj]]%HB; [done|]. intros Hn Hx. apply (H5 j); [done|done|]. set_solver.
Qed.

End Ops.

(** * The system calls *)

Lemma idle_dec p : {idle p} + {~ idle p}.
Proof. unfold idle. destruct (state p); (left; by auto) || (right; intros [?|?]; done). Qed.

Lemma same_fds_refl t : same_fds t t.
Proof. split; [done|]. intros j p p' Hp Hp'. rewrite Hp in Hp'. injection Hp' as ->. split; [done|by left]. Qed.

(** Updates of a process that keep its descriptors. *)
Lemma same_fds_alter t j g :
  (forall p, t !! j = Some p -> ofile (g p) = ofile p /\ (idle (g p) -> idle p \/ Forall (eq None) (ofile p))) ->
  same_fds t (alter g j t).
Proof.
  intros Hg. split; [by rewrite length_alter|]. intros i p p' Hp Hp'. rewrite list_lookup_alter in Hp'.
  case_decide; subst; rewrite Hp in Hp'; cbn in Hp'; injection Hp' as <-; [by apply Hg|]. split; [done|by left].
Qed.

Lemma same_fds_wake c t : same_fds t (wakeup1 c t).
Proof.
  split; [unfold wakeup1; by rewrite length_fmap|]. intros j p p' Hp Hp'. unfold wakeup1 in Hp'.
  rewrite list_lookup_fmap, Hp in Hp'. cbn in Hp'. injection Hp' as <-.
  unfold wake_if. case_decide; [|split; [done|by left]]. split; [done|]. intros [?|?]; done.
Qed.

Section Calls.
Context {S : Type} `{BlockOps S}.
Implicit Types k : kern (fstate S).

Definition heldk k (d : nat -> Z) (X : gset nat) : Prop := held (ftab (files k)) (ptable k) d X.

(** The process at [cur] runs. *)
Definition runs (cur : nat) k : Prop := exists p, ptable k !! cur = Some p /\ ~ idle p.

Lemma the_proc_inv i k p : the_proc i k = Ok p -> ptable k !! i = Some p.
Proof. unfold the_proc. destruct (ptable k !! i); [by intros [= ->]|done]. Qed.

Lemma heldk_wake ws : forall k d X, heldk k d X -> heldk (wake_all ws k) d X.
Proof.
  induction ws as [|a ws IH]; intros k d X Hh; [done|]. apply IH. unfold heldk, wakeup. cbn.
  eapply held_procs; [apply same_fds_wake|done].
Qed.

Lemma runs_wake ws : forall k cur, runs cur k -> runs cur (wake_all ws k).
Proof.
  induction ws as [|a ws IH]; intros k cur (p & Hp & Hi); [by exists p|]. apply IH.
  exists (wake_if (Some (CAddr a)) p). split; [unfold wakeup, wakeup1; cbn; by rewrite list_lookup_fmap, Hp|].
  unfold wake_if. case_decide; [|done]. intros [?|?]; done.
Qed.

Lemma heldk_sleep c cur ch k d X : runs cur k -> heldk k d X -> heldk (sleep c cur ch k) d X.
Proof.
  intros (p & Hp & Hi) Hh. unfold heldk, sleep. cbn. eapply held_procs; [|done].
  apply same_fds_alter. intros q _. split; [done|]. intros [?|?]; done.
Qed.

(** Taking a descriptor away leaves its reference with the caller; giving a
    held reference to an empty descriptor. *)
Lemma set_ofile_held cur fd o o' k p d d' X :
  ptable k !! cur = Some p -> ~ idle p -> ofile p !! fd = Some o ->
  (forall i, d' i = d i + hit i o - hit i o') -> (forall i, 0 <= d' i) -> (forall f, o' = Some f -> (f < length (ftab (files k)))%nat) ->
  heldk k d X -> heldk (set_ofile cur fd o' k) d' X.
Proof.
  intros Hp Hi Ho Hd Hnn Hrange [H1 H2 H3 H4 H5 H6 H7].
  assert (forall i, refs i (ptable (set_ofile cur fd o' k)) = refs i (ptable k) - hit i o + hit i o') as HR.
  { intros i. unfold set_ofile, upd. cbn [ptable set_ptable]. rewrite (refs_alter i _ _ p) by done. cbn. rewrite (fdz_insert i _ _ o) by done. lia. }
  split; try done.
  - intros i f Hf. rewrite HR, Hd, (H1 i f Hf). lia.
  - intros i Hn. rewrite HR, Hd. destruct (H2 i Hn) as [E1 E2]. rewrite E1, E2.
    assert (hit i o = 0) as ->.
    { unfold hit. case_decide as E; [|done]. subst o. pose proof (refs_lookup i _ _ _ _ Hp Ho). lia. }
    unfold hit. case_decide as E; [|lia]. apply Hrange in E. apply lookup_ge_None_1 in Hn. cbn in Hn. lia.
  - intros j q. unfold set_ofile, upd. cbn [ptable set_ptable]. rewrite list_lookup_alter. case_decide.
    + subst j. rewrite Hp. cbn. intros [= <-] Hid. by destruct (Hi Hid).
    + by apply H6.
  - intros j q. unfold set_ofile, upd. cbn [ptable set_ptable]. rewrite list_lookup_alter. case_decide.
    + subst j. rewrite Hp. cbn. intros [= <-]. cbn. rewrite length_insert. by eapply H7.
    + by apply H7.
Qed.

Lemma hit_none i : hit i None = 0.
Proof. done. Qed.

Lemma take_fd cur fd f k p d X :
  ptable k !! cur = Some p -> ~ idle p -> ofile p !! fd = Some (Some f) -> heldk k d X ->
  heldk (set_ofile cur fd None k) (bump d f 1) X.
Proof.
  intros Hp Hi Ho Hh. eapply set_ofile_held; try done.
  - intros i. rewrite hit_none. unfold bump, hit. repeat case_decide; try lia; congruence.
  - intros i. unfold bump. pose proof (hd_nonneg _ _ _ _ Hh i). case_decide; lia.
Qed.

Lemma give_fd cur fd f k p d X :
  ptable k !! cur = Some p -> ~ idle p -> ofile p !! fd = Some None -> 1 <= d f -> heldk k d X ->
  heldk (set_ofile cur fd (Some f) k) (bump d f (-1)) X.
Proof.
  intros Hp Hi Ho Hd Hh. eapply set_ofile_held; try done.
  - intros i. rewrite hit_none. unfold bump, hit. repeat case_decide; try lia; congruence.
  - intros i. unfold bump. pose proof (hd_nonneg _ _ _ _ Hh i). case_decide; [subst|]; lia.
  - intros f' [= <-]. destruct (decide (f < length (ftab (files k)))%nat) as [|Hn]; [done|].
    destruct (hd_none _ _ _ _ Hh f); [apply lookup_ge_None_2; lia|]. lia.
Qed.

Lemma set_ofile_runs cur fd o k : runs cur k -> runs cur (set_ofile cur fd o k).
Proof.
  intros (p & Hp & Hi). eexists. unfold set_ofile, upd. cbn [ptable set_ptable]. rewrite list_lookup_alter_eq, Hp. cbn. split; [done|].
  exact Hi.
Qed.

Lemma argfd_inv cur n k fd f :
  argfd cur n k = Ok (Some (fd, f)) -> exists p, ptable k !! cur = Some p /\ ofile p !! fd = Some (Some f).
Proof.
  unfold argfd. intros Ha. apply obind_Ok_inv in Ha as (p & Hp%the_proc_inv & Ha).
  apply obind_Ok_inv in Ha as ([i|] & _ & Ha); [|done]. destruct (_ || _); [done|].
  destruct (ofile p !! Z.to_nat i) as [[f'|]|] eqn:E; [|done..]. injection Ha as <- <-. by exists p.
Qed.

Lemma free_fd_Some {A} (os : list (option A)) : forall b fd, free_fd b os = Some fd -> exists j, fd = (b + j)%nat /\ os !! j = Some None.
Proof.
  induction os as [|[o|] os IH]; intros b fd; cbn; [done| |].
  - intros (j & -> & Hj)%IH. exists (Datatypes.S j). split; [lia|done].
  - intros [= <-]. exists 0%nat. split; [lia|done].
Qed.

Lemma fdalloc_held cur f k fd k' d X :
  runs cur k -> 1 <= d f -> heldk k d X -> fdalloc cur f k = Ok (Some fd, k') ->
  heldk k' (bump d f (-1)) X /\ runs cur k' /\ files k' = files k
  /\ exists p, ptable k' !! cur = Some p /\ ofile p !! fd = Some (Some f).
Proof.
  intros Hrun Hd Hh Ha. unfold fdalloc in Ha. apply obind_Ok_inv in Ha as (p & Hp%the_proc_inv & Ha).
  destruct (free_fd 0 (ofile p)) as [fd'|] eqn:E; [|done]. injection Ha as <- <-.
  apply free_fd_Some in E as (j & -> & Hj). cbn [Nat.add] in *.
  destruct Hrun as (p' & Hp' & Hi). assert (p' = p) as -> by congruence.
  split; [by eapply give_fd|]. split; [apply set_ofile_runs; by exists p|]. split; [done|].
  eexists. unfold set_ofile, upd. cbn [ptable set_ptable]. rewrite list_lookup_alter_eq, Hp. cbn. split; [done|]. cbn.
  apply list_lookup_insert_eq. by eapply lookup_lt_Some.
Qed.

Lemma fdalloc_none cur f k k' : fdalloc cur f k = Ok (None, k') -> k' = k.
Proof.
  unfold fdalloc. intros Ha. apply obind_Ok_inv in Ha as (p & _ & Ha). destruct (free_fd _ _); [done|]. by injection Ha as <-.
Qed.

Lemma close_file_held me kend f k k' d X :
  heldk k d X -> 1 <= d f -> close_file kend me f k = Ok k' -> heldk k' (bump d f (-1)) X.
Proof.
  intros Hh Hd Hc. unfold close_file in Hc. apply obind_Ok_inv in Hc as ([[ws s] km] & Hc & E). injection E as <-.
  apply heldk_wake. unfold heldk. cbn. by eapply fileclose_held.
Qed.

End Calls.
