(* ===== verification/FileCalls.v ===== *)
(** The file system calls, [fork] and [exit] keep the reference counts of
    [FileProps]. *)
From S2P Require Import Prelude Mem KString Mmu Kalloc Vm Spinlock Wmap Proc Syscall Pipe Bio Log Fs File Sysfile Exec Fault Sysproc FileProps.

Lemma bump_back d i j : bump (bump d i 1) i (-1) j = d j.
Proof. unfold bump. case_decide; lia. Qed.

Section Calls.
Context {S : Type} `{BlockOps S}.
Implicit Types k : kern (fstate S).
Implicit Types s : fstate S.

(** A file with no reference needs no exemption. *)
Lemma held_drop tab t d X i : refs i t + d i = 0 -> held tab t d X -> held tab t d (X ∖ {[i]}).
Proof.
  intros Hz [G1 G2 G3 G4 G5 G6 G7]. split; try done. intros j f Hf Hn Hx. apply (G5 j); [done|done|].
  destruct (decide (j = i)) as [->|]; [|set_solver]. rewrite (G1 i f Hf) in Hn. lia.
Qed.

Lemma heldk_files s' k d X : held (ftab s') (ptable k) d X -> heldk (set_files s' k) d X.
Proof. done. Qed.

(** ** Reads and writes *)

Definition res_state {A} (r : fres S A) : fstate S :=
  match r with FDone _ _ s => s | FSleep _ _ s => s end.

Lemma pipe_run_tab {A} p (r : run A) s : ftab (res_state (pipe_run p r s)) = ftab s.
Proof. by destruct r. Qed.

Lemma fileread_same me dev_read kl i n s r :
  fileread me dev_read kl i n s = Ok r -> same_refs (ftab s) (ftab (res_state r)).
Proof.
  unfold fileread. intros Hr. apply obind_Ok_inv in Hr as (f & _ & Hr). destruct (negb _); [injection Hr as <-; apply same_refs_refl|].
  destruct (f_type f); [done| |].
  - apply obind_Ok_inv in Hr as (q & _ & Hr). injection Hr as <-. rewrite pipe_run_tab. apply same_refs_refl.
  - apply obind_Ok_inv in Hr as (g & _ & Hr). apply obind_Ok_inv in Hr as ([b g'] & _ & Hr).
    apply obind_Ok_inv in Hr as (g2 & _ & Hr). injection Hr as <-. cbn. destruct b; cbn; [by apply same_refs_alter|apply same_refs_refl].
Qed.

Lemma filewrite_loop_same me dev_write fi src n fuel : forall i s r,
  filewrite_loop me dev_write fuel fi src i n s = Ok r -> same_refs (ftab s) (ftab r.2).
Proof.
  induction fuel as [|fuel IH]; intros i s r; cbn [filewrite_loop].
  all: destruct (i <? n); [|intros [= <-]; apply same_refs_refl].
  { done. }
  intros Hr. apply obind_Ok_inv in Hr as (f & _ & Hr). apply obind_Ok_inv in Hr as (g & _ & Hr).
  apply obind_Ok_inv in Hr as (g1 & _ & Hr). apply obind_Ok_inv in Hr as ([w g2] & _ & Hr).
  apply obind_Ok_inv in Hr as (g3 & _ & Hr). apply obind_Ok_inv in Hr as (g4 & _ & Hr).
  assert (same_refs (ftab s) (ftab (set_ffs g4 (if 0 <? w then upd_file fi (f_with_off (u32 (f_off f + w))) s else s)))) as Hs.
  { cbn. destruct (0 <? w); cbn; [by apply same_refs_alter|apply same_refs_refl]. }
  destruct (w <? 0); [injection Hr as <-; done|]. destruct (negb _); [done|].
  eapply same_refs_trans; [exact Hs|]. by apply IH in Hr.
Qed.

Lemma filewrite_same me dev_write kl i src n s r :
  filewrite me dev_write kl i src n s = Ok r -> same_refs (ftab s) (ftab (res_state r)).
Proof.
  unfold filewrite. intros Hr. apply obind_Ok_inv in Hr as (f & _ & Hr). destruct (negb _); [injection Hr as <-; apply same_refs_refl|].
  destruct (f_type f); [done| |].
  - apply obind_Ok_inv in Hr as (q & _ & Hr). injection Hr as <-. rewrite pipe_run_tab. apply same_refs_refl.
  - apply obind_Ok_inv in Hr as (w & Hw & Hr). injection Hr as <-. by eapply filewrite_loop_same.
Qed.

Lemma user_store_held p a bytes k k' d X : user_store p a bytes k = Ok k' -> heldk k d X -> heldk k' d X.
Proof. unfold user_store. intros Hu. apply obind_Ok_inv in Hu as (m & _ & Hu). by injection Hu as <-. Qed.

Lemma sys_read_held dev_read c cur k r k' :
  runs cur k -> heldk k d0 ∅ -> sys_read dev_read c cur k = Ok (r, k') -> heldk k' d0 ∅.
Proof.
  intros Hrun Hh Hc. unfold sys_read in Hc. apply obind_Ok_inv in Hc as (p & _ & Hc).
  apply obind_Ok_inv in Hc as ([[[f a] n]|] & _ & Hc); [|by injection Hc as _ <-].
  apply obind_Ok_inv in Hc as (x & Hx & Hc). apply fileread_same in Hx.
  assert (heldk (set_files (res_state x) k) d0 ∅) as Hh' by (eapply held_same; done).
  destruct x as [b ws s|ch ws s]; cbn in Hh'.
  - destruct b; [|injection Hc as _ <-; by apply heldk_wake].
    apply obind_Ok_inv in Hc as (k2 & Hu & Hc). injection Hc as _ <-. eapply user_store_held; [done|]. by apply heldk_wake.
  - injection Hc as _ <-. apply heldk_sleep; [|by apply heldk_wake]. apply runs_wake. exact Hrun.
Qed.

Lemma sys_write_held dev_write c cur k r k' :
  runs cur k -> heldk k d0 ∅ -> sys_write dev_write c cur k = Ok (r, k') -> heldk k' d0 ∅.
Proof.
  intros Hrun Hh Hc. unfold sys_write in Hc. apply obind_Ok_inv in Hc as (p & _ & Hc).
  apply obind_Ok_inv in Hc as ([[[f a] n]|] & _ & Hc); [|by injection Hc as _ <-].
  apply obind_Ok_inv in Hc as (src & _ & Hc). apply obind_Ok_inv in Hc as (x & Hx & Hc). apply filewrite_same in Hx.
  assert (heldk (set_files (res_state x) k) d0 ∅) as Hh' by (eapply held_same; done).
  destruct x as [b ws s|ch ws s]; cbn in Hh'; injection Hc as _ <-; [by apply heldk_wake|].
  apply heldk_sleep; [|by apply heldk_wake]. apply runs_wake. exact Hrun.
Qed.

Lemma put_stat_held p a st k k' d X : put_stat p a st k = Ok k' -> heldk k d X -> heldk k' d X.
Proof.
  unfold put_stat. intros Hu Hh. do 4 (apply obind_Ok_inv in Hu as (? & Hx & Hu); apply (user_store_held _ _ _ _ _ d X) in Hx; [|done]; clear Hh; rename Hx into Hh).
  by eapply user_store_held.
Qed.

Lemma sys_fstat_held c cur k r k' : heldk k d0 ∅ -> sys_fstat c cur k = Ok (r, k') -> heldk k' d0 ∅.
Proof.
  intros Hh Hc. unfold sys_fstat in Hc. apply obind_Ok_inv in Hc as (p & _ & Hc).
  apply obind_Ok_inv in Hc as ([[fd f]|] & _ & Hc); [|by injection Hc as _ <-].
  apply obind_Ok_inv in Hc as ([a|] & _ & Hc); [|by injection Hc as _ <-].
  apply obind_Ok_inv in Hc as ([st s] & Hs & Hc). assert (ftab s = ftab (files k)) as Et.
  { unfold filestat in Hs. apply obind_Ok_inv in Hs as (g & _ & Hs). destruct (f_type g); [by injection Hs as _ <-|by injection Hs as _ <-|].
    inv_bind. by injection Hs as _ <-. }
  assert (heldk (set_files s k) d0 ∅) as Hh' by (unfold heldk; cbn; by rewrite Et).
  destruct st; [|by injection Hc as _ <-]. apply obind_Ok_inv in Hc as (k2 & Hp & Hc). injection Hc as _ <-.
  by eapply put_stat_held.
Qed.

(** ** Descriptors *)

Lemma sys_dup_held c cur k r k' :
  runs cur k -> heldk k d0 ∅ -> sys_dup c cur k = Ok (r, k') -> heldk k' d0 ∅.
Proof.
  intros Hrun Hh Hc. unfold sys_dup in Hc. apply obind_Ok_inv in Hc as ([[fd f]|] & Ha & Hc); [|by injection Hc as _ <-].
  apply obind_Ok_inv in Hc as ([[fd'|] k1] & Hf & Hc); [|apply fdalloc_none in Hf as ->; by injection Hc as _ <-].
  apply obind_Ok_inv in Hc as (s' & Hd & Hc). injection Hc as _ <-.
  assert (files k1 = files k) as Ek.
  { unfold fdalloc in Hf. apply obind_Ok_inv in Hf as (p & _ & Hf). destruct (free_fd _ _); [|done]. by injection Hf as _ <-. }
  rewrite Ek in Hd. destruct (filedup_held _ _ _ _ _ _ Hh Hd) as [Hh1 _].
  assert (fdalloc cur f (set_files s' k) = Ok (Some fd', set_files s' k1)) as Hf'.
  { unfold fdalloc, the_proc in Hf |- *. cbn. destruct (ptable k !! cur) as [p|]; [|done]. cbn in Hf |- *.
    destruct (free_fd 0 (ofile p)); [|done]. injection Hf as <- <-. done. }
  destruct (fdalloc_held cur f (set_files s' k) fd' (set_files s' k1) (bump d0 f 1) ∅ Hrun) as [Hh2 _]; [|exact Hh1|exact Hf'|].
  { unfold bump, d0. rewrite decide_True by done. lia. }
  eapply held_ext; [|done|exact Hh2]. intros j. apply bump_back.
Qed.

Lemma sys_close_held kend c cur k r k' :
  runs cur k -> heldk k d0 ∅ -> sys_close kend c cur k = Ok (r, k') -> heldk k' d0 ∅.
Proof.
  intros (p & Hp & Hi) Hh Hc. unfold sys_close in Hc. apply obind_Ok_inv in Hc as (p' & Hp' & Hc).
  apply obind_Ok_inv in Hc as ([[fd f]|] & Ha & Hc); [|by injection Hc as _ <-].
  apply obind_Ok_inv in Hc as (k1 & Hcl & Hc). injection Hc as _ <-.
  destruct (argfd_inv _ _ _ _ _ Ha) as (q & Hq & Ho). assert (q = p) as -> by congruence.
  pose proof (take_fd cur fd f k p d0 ∅ Hp Hi Ho Hh) as Hh1.
  apply (close_file_held _ _ _ _ _ _ _ Hh1) in Hcl; [|unfold bump, d0; rewrite decide_True by done; lia].
  eapply held_ext; [|done|exact Hcl]. intros j. apply bump_back.
Qed.

Ltac bumps := unfold bump, d0; repeat case_decide; subst; done || lia.

(** ** Opening files *)

Lemma refs_wake i ws : forall k, refs i (ptable (wake_all ws k)) = refs i (ptable k).
Proof.
  induction ws as [|a ws IH]; intros k; [done|]. cbn [wake_all]. rewrite IH. apply refs_same.
  - unfold wakeup, wakeup1. cbn. by rewrite length_fmap.
  - intros j p p' Hp Hp'. by apply (same_fds_wake (Some (CAddr a)) (ptable k)) with (j := j) (p := p) (p' := p').
Qed.

Lemma close_file_refs i kend me f k k' : close_file kend me f k = Ok k' -> refs i (ptable k') = refs i (ptable k).
Proof.
  unfold close_file. intros Hc. apply obind_Ok_inv in Hc as ([[ws s] km] & _ & E). injection E as <-. by rewrite refs_wake.
Qed.

Lemma open_file_op_held kend me cur ip path omode k r k' :
  runs cur k -> heldk k d0 ∅ -> open_file_op kend me cur ip path omode k = Ok (r, k') -> heldk k' d0 ∅.
Proof.
  intros Hrun Hh Hc. unfold open_file_op in Hc. destruct (filealloc (files k)) as [[f|] s] eqn:Ea.
  2: { apply filealloc_none in Ea as ->. inv_bind. injection Hc as _ <-. exact Hh. }
  destruct (filealloc_held _ _ _ _ _ _ Hh Ea) as (Hh1 & _ & Hr0 & Hlt & _ & _ & _).
  assert (length (ftab s) = length (ftab (files k))) as Hlen.
  { unfold filealloc in Ea. destruct (free_file _ _); [|done]. injection Ea as _ <-. cbn. by rewrite length_alter. }
  apply obind_Ok_inv in Hc as ([[fd|] k2] & Hf & Hc).
  - destruct (fdalloc_held cur f (set_files s k) fd k2 (bump d0 f 1) (∅ ∪ {[f]}) Hrun) as (Hh2 & _ & Ef & p & Hp & Ho);
      [bumps|exact Hh1|exact Hf|].
    apply obind_Ok_inv in Hc as (g & _ & Hc). apply obind_Ok_inv in Hc as (g' & _ & Hc). injection Hc as _ <-.
    pose proof (refs_lookup f _ _ _ _ Hp Ho) as Hr1.
    eapply (held_ext _ _ _ _ ((∅ ∪ {[f]}) ∖ {[f]})).
    3: { unfold heldk in *. cbn. rewrite Ef in *. cbn in *. eapply held_built; [exact Hh2|done|done|lia|]. bumps. }
    + intros j. apply bump_back.
    + set_solver.
  - apply fdalloc_none in Hf as ->. apply obind_Ok_inv in Hc as (k3 & Hcl & Hc).
    pose proof (close_file_refs f _ _ _ _ _ Hcl) as Hr3. apply (close_file_held _ _ _ _ _ (bump d0 f 1) (∅ ∪ {[f]})) in Hcl; [|exact Hh1|bumps].
    inv_bind. injection Hc as _ <-. eapply (held_ext _ _ _ _ ((∅ ∪ {[f]}) ∖ {[f]})).
    3: { eapply (held_drop (ftab (files k3)) (ptable k3)); [|exact Hcl]. rewrite Hr3. change (ptable (set_files s k)) with (ptable k). rewrite Hr0. bumps. }
    + intros j. apply bump_back.
    + set_solver.
Qed.

Lemma sys_open_held dev_read dev_write kend junk c cur k r k' :
  runs cur k -> heldk k d0 ∅ -> sys_open dev_read dev_write kend junk c cur k = Ok (r, k') -> heldk k' d0 ∅.
Proof.
  intros Hrun Hh Hc. unfold sys_open in Hc. apply obind_Ok_inv in Hc as (p & _ & Hc).
  apply obind_Ok_inv in Hc as ([[a path]|] & _ & Hc); [|by injection Hc as _ <-].
  apply obind_Ok_inv in Hc as ([omode|] & _ & Hc); [|by injection Hc as _ <-].
  apply obind_Ok_inv in Hc as (wd & _ & Hc). apply obind_Ok_inv in Hc as (f & _ & Hc).
  apply obind_Ok_inv in Hc as ([[ip|] f'] & _ & Hc).
  - apply obind_Ok_inv in Hc as ([v k1] & Ho & Hc). injection Hc as _ <-.
    eapply (open_file_op_held _ _ _ _ _ _ (set_fs f' k)); [exact Hrun|exact Hh|exact Ho].
  - inv_bind. injection Hc as _ <-. exact Hh.
Qed.

(** ** Pipes *)

Lemma pipealloc_held me kend s t km r s' km' :
  held (ftab s) t d0 ∅ -> pipealloc me kend s km = Ok (r, s', km') ->
  match r with
  | Some (f0, f1) => held (ftab s') t (bump (bump d0 f0 1) f1 1) ∅ /\ f0 <> f1
  | None => held (ftab s') t d0 ∅
  end.
Proof.
  intros Hh Hc. unfold pipealloc in Hc. destruct (filealloc s) as [[f0|] s1] eqn:E0.
  2: { apply filealloc_none in E0 as ->. injection Hc as <- <- _. done. }
  destruct (filealloc_held _ _ _ _ _ _ Hh E0) as (H1 & _ & R0 & _).
  destruct (filealloc s1) as [[f1|] s2] eqn:E1.
  2: { apply filealloc_none in E1 as ->. apply obind_Ok_inv in Hc as ([[ws s2] km2] & Hcl & Hc). injection Hc as <- <- _.
       apply (fileclose_held _ _ _ _ _ _ _ _ _ _ _ H1) in Hcl; [|bumps].
       apply (held_drop _ _ _ _ f0) in Hcl; [|rewrite R0; bumps]. eapply held_ext; [| |exact Hcl]; [intros j; apply bump_back|set_solver]. }
  destruct (filealloc_held _ _ _ _ _ _ H1 E1) as (H2 & D1 & R1 & L1 & _).
  assert (f0 <> f1) as Hne by (intros ->; revert D1; bumps).
  destruct (kalloc km) as [p km1]. destruct (p =? 0).
  - apply obind_Ok_inv in Hc as ([[ws s3] km3] & Hc0 & Hc). apply obind_Ok_inv in Hc as ([[ws' s4] km4] & Hc1 & Hc).
    injection Hc as <- <- _.
    apply (fileclose_held _ _ _ _ _ _ _ _ _ _ _ H2) in Hc0; [|bumps].
    apply (fileclose_held _ _ _ _ _ _ _ _ _ _ _ Hc0) in Hc1; [|bumps].
    apply (held_drop _ _ _ _ f0) in Hc1; [|rewrite R0; bumps]. apply (held_drop _ _ _ _ f1) in Hc1; [|rewrite R1; bumps].
    eapply held_ext; [| |exact Hc1]; [intros j; bumps|set_solver].
  - injection Hc as <- <- _. split; [|done].
    assert (length (ftab s2) = length (ftab s1)) as L2.
    { unfold filealloc in E1. destruct (free_file _ _); [|done]. injection E1 as _ <-. cbn. by rewrite length_alter. }
    assert (f0 < length (ftab s1))%nat as L0.
    { destruct (decide (f0 < length (ftab s1))%nat) as [|Hn]; [done|]. destruct (hd_none _ _ _ _ H1 f0) as [_ Hz]; [apply lookup_ge_None_2; lia|].
      revert Hz. bumps. }
    eapply held_ext; [done| |cbn; eapply held_built; [eapply held_built; [exact H2|done|done|lia|rewrite R0; bumps]|done|done|rewrite length_alter; lia|rewrite R1; bumps]].
    set_solver.
Qed.

Lemma sys_pipe_held kend c cur k r k' :
  runs cur k -> heldk k d0 ∅ -> sys_pipe kend c cur k = Ok (r, k') -> heldk k' d0 ∅.
Proof.
  intros Hrun Hh Hc. unfold sys_pipe in Hc. apply obind_Ok_inv in Hc as (p & _ & Hc).
  apply obind_Ok_inv in Hc as ([a|] & _ & Hc); [|by injection Hc as _ <-].
  apply obind_Ok_inv in Hc as ([[rs s] km] & Hp & Hc). apply (pipealloc_held _ _ _ _ _ _ _ _ Hh) in Hp.
  destruct rs as [[rf wf]|]; [|by injection Hc as _ <-]. destruct Hp as [H1 Hne].
  set (k1 := set_kmem km (set_files s k)) in *. assert (runs cur k1) as Hrun1 by exact Hrun.
  change (heldk k1 (bump (bump d0 rf 1) wf 1) ∅) in H1. clearbody k1. clear s Hh.
  apply obind_Ok_inv in Hc as ([[fd0|] k2] & Hf0 & Hc).
  - destruct (fdalloc_held cur rf k1 fd0 k2 (bump (bump d0 rf 1) wf 1) ∅ Hrun1 ltac:(bumps) H1 Hf0) as (H2 & Hrun2 & _ & q & Hq & Ho).
    apply obind_Ok_inv in Hc as ([[fd1|] k3] & Hf1 & Hc).
    + destruct (fdalloc_held cur wf k2 fd1 k3 (bump (bump (bump d0 rf 1) wf 1) rf (-1)) ∅ Hrun2 ltac:(bumps) H2 Hf1) as (H3 & _).
      apply obind_Ok_inv in Hc as (k4 & U1 & Hc). apply obind_Ok_inv in Hc as (k5 & U2 & Hc). injection Hc as _ <-.
      eapply user_store_held; [exact U2|]. eapply user_store_held; [exact U1|].
      eapply held_ext; [| |exact H3]; [intros j; bumps|done].
    + apply fdalloc_none in Hf1 as ->. apply obind_Ok_inv in Hc as (k4 & C0 & Hc). apply obind_Ok_inv in Hc as (k5 & C1 & Hc).
      injection Hc as _ <-. destruct Hrun2 as (q' & Hq' & Hi). assert (q' = q) as -> by congruence.
      pose proof (take_fd cur fd0 rf k2 q _ _ Hq Hi Ho H2) as H3.
      apply (close_file_held _ _ _ _ _ _ _ H3) in C0; [|bumps]. apply (close_file_held _ _ _ _ _ _ _ C0) in C1; [|bumps].
      eapply held_ext; [| |exact C1]; [intros j; bumps|done].
  - apply fdalloc_none in Hf0 as ->. apply obind_Ok_inv in Hc as (k4 & C0 & Hc). apply obind_Ok_inv in Hc as (k5 & C1 & Hc).
    injection Hc as _ <-. apply (close_file_held _ _ _ _ _ _ _ H1) in C0; [|bumps].
    apply (close_file_held _ _ _ _ _ _ _ C0) in C1; [|bumps].
    eapply held_ext; [| |exact C1]; [intros j; bumps|done].
Qed.

End Calls.
