(* ===== verification/FileFork.v ===== *)
(** [fork] and [exit] keep the reference counts of [FileProps], and with the
    file system calls every run of the kernel does. *)
From S2P Require Import Prelude Mem KString Mmu Kalloc Vm VmProps Spinlock Wmap Proc Syscall Pipe Bio Log Fs FsRun File Sysfile Exec Fault Sysproc SyscallProps FileProps FileCalls.

Lemma list_alter_twice {A} (f g : A -> A) i (l : list A) : alter f i (alter g i l) = alter (fun x => f (g x)) i l.
Proof.
  apply list_eq. intros j. destruct (decide (i = j)) as [->|Hne].
  - rewrite !list_lookup_alter_eq. by destruct (l !! j).
  - by rewrite !list_lookup_alter_ne.
Qed.

Lemma same_fds_trans t1 t2 t3 : same_fds t1 t2 -> same_fds t2 t3 -> same_fds t1 t3.
Proof.
  intros [L1 H1] [L2 H2]. split; [congruence|]. intros j p p3 Hp Hp3.
  destruct (lookup_lt_is_Some_2 t2 j) as [p2 Hp2]; [rewrite L1; by eapply lookup_lt_Some|].
  destruct (H1 j p p2 Hp Hp2) as [E1 I1], (H2 j p2 p3 Hp2 Hp3) as [E2 I2]. split; [congruence|].
  intros Hi. destruct (I2 Hi) as [Hi2|Hn]; [by apply I1|]. right. congruence.
Qed.

(** The same update on both sides, when it clears the descriptors. *)
Lemma same_fds_alter2 t t' j g :
  same_fds t t' -> (forall p p', ofile p' = ofile p -> ofile (g p') = ofile (g p)) ->
  (forall p, Forall (eq None) (ofile (g p))) -> same_fds (alter g j t) (alter g j t').
Proof.
  intros [L Ht] Hg Hn. split; [by rewrite !length_alter|]. intros i p p' Hp Hp'. rewrite list_lookup_alter in Hp, Hp'.
  case_decide as Hij; [subst i|by apply (Ht i)].
  destruct (t !! j) as [q|] eqn:E; [|done]. destruct (t' !! j) as [q'|] eqn:E'; [|done]. cbn in Hp, Hp'.
  injection Hp as <-. injection Hp' as <-. destruct (Ht j q q' E E') as [Eo _]. split; [by apply Hg|]. intros _. right. apply Hn.
Qed.

Lemma same_fds_reparent cur init n : forall i t, same_fds t (reparent n i cur init t).
Proof.
  induction n as [|n IH]; intros i t; [apply same_fds_refl|]. cbn [reparent].
  eapply same_fds_trans; [|apply IH]. destruct (t !! i) as [p|]; [|apply same_fds_refl].
  case_decide; [|apply same_fds_refl].
  assert (same_fds t (alter (with_parent init) i t)) as HA by (apply same_fds_alter; intros q _; split; [done|by left]).
  case_decide; [|done]. eapply same_fds_trans; [exact HA|]. apply same_fds_wake.
Qed.

(** Giving the held references of [os] to a process without descriptors. *)
Lemma held_child tab t d d' X i p g os :
  held tab t d X -> t !! i = Some p -> Forall (eq None) (ofile p) -> ofile (g p) = os -> length os = NOFILE -> ~ idle (g p) ->
  (forall j, d j = d' j + fdz j os) -> (forall j, 0 <= d' j) -> held tab (alter g i t) d' X.
Proof.
  intros [G1 G2 G3 G4 G5 G6 G7] Hp Hn Hos Hlen Hi Hd Hd'.
  assert (forall j, refs j (alter g i t) = refs j t + fdz j os) as HR.
  { intros j. rewrite (refs_alter j t i p) by done. rewrite (fdz_none j (ofile p)), Hos by done. lia. }
  assert (forall j q, alter g i t !! j = Some q -> (j = i /\ q = g p) \/ (j <> i /\ t !! j = Some q)) as HB.
  { intros j q. rewrite list_lookup_alter. case_decide; [subst; rewrite Hp; cbn; intros [= <-]; by left|].
    intros ?. right. split; [congruence|done]. }
  split; try done.
  - intros j f Hf. rewrite HR, (G1 j f Hf), Hd. lia.
  - intros j Hj. rewrite HR. destruct (G2 j Hj) as [E1 E2]. rewrite Hd in E2. pose proof (Hd' j). pose proof (fdz_nonneg j os). lia.
  - intros j q [[-> ->]|[_ Hj]]%HB; [by intros ?|by apply (G6 j)].
  - intros j q [[-> ->]|[_ Hj]]%HB; [by rewrite Hos|by apply (G7 j)].
Qed.

(** Taking all descriptors of a process away. *)
Lemma held_strip tab t d X i p g :
  held tab t d X -> t !! i = Some p -> Forall (eq None) (ofile (g p)) -> length (ofile (g p)) = NOFILE ->
  held tab (alter g i t) (fun j => d j + fdz j (ofile p)) X.
Proof.
  intros [G1 G2 G3 G4 G5 G6 G7] Hp Hn Hlen.
  assert (forall j, refs j (alter g i t) = refs j t - fdz j (ofile p)) as HR.
  { intros j. rewrite (refs_alter j t i p) by done. rewrite (fdz_none j (ofile (g p))) by done. lia. }
  assert (forall j q, alter g i t !! j = Some q -> (j = i /\ q = g p) \/ (j <> i /\ t !! j = Some q)) as HB.
  { intros j q. rewrite list_lookup_alter. case_decide; [subst; rewrite Hp; cbn; intros [= <-]; by left|].
    intros ?. right. split; [congruence|done]. }
  split; try done.
  - intros j f Hf. rewrite HR, (G1 j f Hf). lia.
  - intros j Hj. pose proof (refs_nonneg j (alter g i t)) as H0. rewrite HR in H0 |- *. destruct (G2 j Hj) as [E1 E2].
    pose proof (fdz_nonneg j (ofile p)). lia.
  - intros j. pose proof (G3 j). pose proof (fdz_nonneg j (ofile p)). lia.
  - intros j q [[-> ->]|[_ Hj]]%HB; [done|by apply (G6 j)].
  - intros j q [[-> ->]|[_ Hj]]%HB; [done|by apply (G7 j)].
Qed.

Lemma zip_parent (a b : list (option nat)) :
  Forall (eq None) b -> length a = length b ->
  zip_with (fun o o' => match o with Some _ => o | None => o' end) a b = a.
Proof.
  revert b. induction a as [|o a IH]; intros [|o' b] Hn Hl; try done. cbn. apply Forall_cons in Hn as [<- Hn].
  rewrite IH by (done || by injection Hl). by destruct o.
Qed.

Section Fork.
Context {S : Type} `{BlockOps S}.
Implicit Types k : kern (fstate S).
Implicit Types s : fstate S.

Lemma dup_files_held kend me os : forall s t d X s',
  held (ftab s) t d X -> dup_files (FR := file_refs kend me) os s = Ok s' ->
  held (ftab s') t (fun j => d j + fdz j os) X.
Proof.
  induction os as [|[i|] os IH]; intros s t d X s' Hh Hc; cbn [dup_files] in Hc.
  - injection Hc as <-. eapply held_ext; [| |exact Hh]; [|done]. intros j. unfold fdz. cbn. lia.
  - apply obind_Ok_inv in Hc as (s1 & Hd & Hc). destruct (filedup_held _ _ _ _ _ _ Hh Hd) as [H1 _].
    apply (IH _ _ _ _ _ H1) in Hc. eapply held_ext; [| |exact Hc]; [|done]. intros j. rewrite fdz_cons.
    unfold bump, hit. repeat case_decide; subst; try lia; congruence.
  - apply (IH _ _ _ _ _ Hh) in Hc. eapply held_ext; [| |exact Hc]; [|done]. intros j. by rewrite fdz_cons.
Qed.

Lemma close_files_held kend me os : forall s t d X km ws s' km',
  held (ftab s) t d X -> (forall j, fdz j os <= d j) ->
  close_files (FR := file_refs kend me) os s km = Ok (ws, s', km') ->
  held (ftab s') t (fun j => d j - fdz j os) X.
Proof.
  induction os as [|[i|] os IH]; intros s t d X km ws s' km' Hh Hle Hc; cbn [close_files] in Hc.
  - injection Hc as _ <- _. eapply held_ext; [| |exact Hh]; [|done]. intros j. unfold fdz. cbn. lia.
  - apply obind_Ok_inv in Hc as ([[ws1 s1] km1] & Hf & Hc). apply obind_Ok_inv in Hc as ([[ws2 s2] km2] & Hc & E).
    injection E as _ <- _. pose proof (Hle i) as Hi. rewrite fdz_cons in Hi. unfold hit in Hi. rewrite decide_True in Hi by done.
    pose proof (fdz_nonneg i os). apply (fileclose_held _ _ _ _ _ _ _ _ _ _ _ Hh) in Hf; [|lia].
    apply (IH _ _ _ _ _ _ _ _ Hf) in Hc.
    + eapply held_ext; [| |exact Hc]; [|done]. intros j. rewrite fdz_cons. unfold bump, hit.
      repeat case_decide; subst; try lia; congruence.
    + intros j. specialize (Hle j). rewrite fdz_cons in Hle. unfold bump, hit in *. repeat case_decide; subst; try lia; congruence.
  - apply (IH _ _ _ _ _ _ _ _ Hh) in Hc.
    + eapply held_ext; [| |exact Hc]; [|done]. intros j. by rewrite fdz_cons.
    + intros j. specialize (Hle j). by rewrite fdz_cons in Hle.
Qed.

(** [allocproc] takes an unused slot and leaves descriptors and files alone. *)
Lemma find_unused t : forall b i, find_state UNUSED b t = Some i -> exists j p, i = (b + j)%nat /\ t !! j = Some p /\ state p = UNUSED.
Proof.
  induction t as [|p t IH]; intros b i; cbn; [done|]. case_decide.
  - intros [= <-]. exists 0%nat, p. split; [lia|done].
  - intros (j & q & -> & ? & ?)%IH. exists (Datatypes.S j), q. split; [lia|done].
Qed.

Lemma allocproc_fds trapret forkret k r k1 :
  allocproc trapret forkret k = Ok (r, k1) ->
  same_fds (ptable k) (ptable k1) /\ files k1 = files k /\
  match r with
  | Some i => exists p p1, ptable k !! i = Some p /\ state p = UNUSED /\ ptable k1 !! i = Some p1 /\ ofile p1 = ofile p
      /\ state p1 = EMBRYO
  | None => True
  end.
Proof.
  unfold allocproc. destruct (find_state UNUSED 0 (ptable k)) as [i|] eqn:E; [|intros [= <- <-]; split; [apply same_fds_refl|done]].
  apply find_unused in E as (j & p & -> & Hp & Hst). cbn [Nat.add]. destruct (_ =? 2147483647); [done|].
  destruct (kalloc _) as [ks km].
  assert (forall g, (forall q, ofile (g q) = ofile q) -> same_fds (ptable k) (alter g j (ptable k))) as Hsame.
  { intros g Hg. apply same_fds_alter. intros q Hq. split; [apply Hg|]. intros _. left. left. by assert (q = p) as -> by congruence. }
  destruct (ks =? 0); intros [= <- <-]; (split; [|split; [done|]]).
  - unfold upd. cbn [ptable set_ptable set_kmem]. rewrite !list_alter_twice. by apply Hsame.
  - done.
  - unfold upd. cbn [ptable set_ptable set_kmem]. rewrite !list_alter_twice. by apply Hsame.
  - exists p. eexists. split; [done|]. split; [done|]. unfold upd. cbn [ptable set_ptable set_kmem].
    rewrite !list_alter_twice, list_lookup_alter_eq, Hp. split; [done|]. done.
Qed.

Lemma sys_fork_held kend kdata trapret forkret c cur k r k' :
  heldk k d0 ∅ -> sys_fork kend kdata trapret forkret c cur k = Ok (r, k') -> heldk k' d0 ∅.
Proof.
  intros Hh Hc. unfold sys_fork in Hc. apply obind_Ok_inv in Hc as (p0 & _ & Hc).
  apply obind_Ok_inv in Hc as ([v k0] & Hf & Hc). injection Hc as _ <-. unfold fork in Hf.
  apply obind_Ok_inv in Hf as (cp & Hcp%the_proc_inv & Hf). apply obind_Ok_inv in Hf as ([np k1] & Ha & Hf).
  destruct (allocproc_fds _ _ _ _ _ Ha) as (Hs1 & Hfiles & Hnp).
  assert (heldk k1 d0 ∅) as H1 by (unfold heldk; rewrite Hfiles; by eapply held_procs).
  destruct np as [i|]; [|injection Hf as _ <-; exact H1].
  destruct Hnp as (q & p1 & Hq & Hqs & Hp1 & Hop & Hst). pose proof (hd_idle _ _ _ _ Hh i q Hq (or_introl Hqs)) as Hn.
  apply obind_Ok_inv in Hf as (np & Hnp%the_proc_inv & Hf). assert (np = p1) as -> by congruence.
  apply obind_Ok_inv in Hf as ([pd km] & _ & Hf). destruct (pd =? 0).
  - apply obind_Ok_inv in Hf as (km2 & _ & Hf). injection Hf as _ <-. unfold heldk, upd. cbn [ptable set_ptable set_kmem files].
    rewrite list_alter_twice. eapply held_procs; [|exact H1]. apply same_fds_alter. intros p' Hp'.
    split; [done|]. intros _. right. assert (p' = p1) as -> by congruence. by rewrite Hop.
  - apply obind_Ok_inv in Hf as (s1 & Hd & Hf). apply obind_Ok_inv in Hf as (wd & _ & Hf).
    apply obind_Ok_inv in Hf as (s2 & Hi & Hf). apply obind_Ok_inv in Hf as (w & _ & Hf). injection Hf as _ <-.
    cbn [files upd set_ptable set_kmem] in Hd. apply (dup_files_held _ _ _ _ _ _ _ _ H1) in Hd.
    cbn in Hi. apply obind_Ok_inv in Hi as (g & _ & Hi). injection Hi as <-.
    unfold heldk, upd. cbn [ptable set_ptable set_kmem set_files set_wtab files]. rewrite !list_alter_twice.
    rewrite zip_parent; [|by rewrite Hop|by rewrite (hd_len _ _ _ _ Hh cur cp Hcp), (hd_len _ _ _ _ H1 i p1 Hp1)].
    eapply (held_child _ _ _ d0 _ i p1 _ (ofile cp)); [exact Hd|done|by rewrite Hop|done|by eapply (hd_len _ _ _ _ Hh)| | |].
    + intros [?|?]; done.
    + intros j. unfold d0. lia.
    + intros j. unfold d0. lia.
Qed.

Lemma files_wake ws : forall k, files (wake_all ws k) = files k.
Proof. induction ws as [|a ws IH]; intros k; [done|]. cbn [wake_all]. by rewrite IH. Qed.

Lemma exit_held kend c cur k k' : heldk k d0 ∅ -> do_exit kend c cur k = Ok k' -> heldk k' d0 ∅.
Proof.
  intros Hh Hc. unfold do_exit in Hc. apply obind_Ok_inv in Hc as (p0 & _ & Hc).
  apply obind_Ok_inv in Hc as (k0 & He & Hc). injection Hc as <-. unfold exit in He.
  apply obind_Ok_inv in He as (p & Hp%the_proc_inv & He). case_decide; [done|].
  apply obind_Ok_inv in He as ([[ws s] km] & Hcl & He). apply obind_Ok_inv in He as (w & _ & He).
  apply obind_Ok_inv in He as (wd & _ & He). apply obind_Ok_inv in He as (s2 & Hi & He). injection He as <-.
  set (clear := fun p => with_files (replicate (length (ofile p)) None) (cwd p) p) in *.
  assert (forall q, Forall (eq None) (ofile (clear q))) as Hclr by (intros q; apply Forall_replicate; done).
  pose proof (held_strip _ _ _ _ cur p clear Hh Hp (Hclr p)) as Hs0.
  assert (length (ofile (clear p)) = NOFILE) as Hlen by (cbn; rewrite length_replicate; by eapply (hd_len _ _ _ _ Hh)).
  specialize (Hs0 Hlen). apply (close_files_held _ _ _ _ _ _ _ _ _ _ _ Hs0) in Hcl; [|intros j; unfold d0; lia].
  assert (ftab s2 = ftab s) as Et.
  { cbn in Hi. inv_bind. injection Hi as <-. cbn. by rewrite files_wake. }
  unfold heldk, wakeup, upd. cbn [ptable set_ptable set_kmem set_files set_wtab files set_cpu_proc]. rewrite Et.
  set (t1 := ptable (wake_all ws (set_kmem km (set_files s k)))).
  assert (same_fds (ptable k) t1) as S1.
  { unfold t1. change (ptable k) with (ptable (set_kmem km (set_files s k))). generalize (set_kmem km (set_files s k)). clear.
    induction ws as [|a ws IH]; intros k; [apply same_fds_refl|]. eapply same_fds_trans; [|apply IH]. apply same_fds_wake. }
  assert (forall n i c' t, same_fds (alter clear cur (ptable k)) t -> same_fds (alter clear cur (ptable k)) (reparent n 0 cur i (wakeup1 c' t))) as S2.
  { intros n i c' t Ht. eapply same_fds_trans; [exact Ht|]. eapply same_fds_trans; [apply same_fds_wake|apply same_fds_reparent]. }
  set (t2 := alter (fun p => with_files (ofile p) None p) cur (alter clear cur t1)).
  assert (same_fds (alter clear cur (ptable k)) t2) as S3.
  { apply (same_fds_trans _ (alter clear cur t1)).
    - apply (same_fds_alter2 _ t1); [exact S1| |exact Hclr]. intros q q' Eq. cbn. by rewrite Eq.
    - apply same_fds_alter. intros q _. split; [done|by left]. }
  set (t4 := reparent _ _ _ _ _). assert (same_fds (alter clear cur (ptable k)) t4) as S4 by (apply S2; exact S3).
  eapply held_ext; [| |eapply held_procs; [|exact Hcl]]; [intros j; unfold d0; lia|done|].
  apply (same_fds_trans _ t4); [exact S4|]. apply same_fds_alter. intros q Hq. split; [done|]. intros _. right.
  destruct S4 as [_ S4]. destruct (S4 cur (clear p) q) as [-> _]; [by rewrite list_lookup_alter_eq, Hp|exact Hq|apply Hclr].
Qed.

End Fork.

(** * Runs of the kernel *)

Section Runs.
Context {S : Type} `{BlockOps S}.
Context (dev_read : Z -> option (nat -> Z -> fs S -> outcome (option (list Z) * fs S))).
Context (dev_write : Z -> option (nat -> list Z -> fs S -> outcome (Z * fs S))).
Context (kend kdata trapret forkret : Z) (junk : list Z).
Implicit Types k : kern (fstate S).

(** The calls that change descriptors or open files, made by a running
    process [cur]; [fc_other] is any other code: it leaves the descriptors,
    the counts and the types alone. *)
Inductive fcall : kern (fstate S) -> kern (fstate S) -> Prop :=
| fc_dup c cur r k k' : runs cur k -> sys_dup c cur k = Ok (r, k') -> fcall k k'
| fc_close c cur r k k' : runs cur k -> sys_close kend c cur k = Ok (r, k') -> fcall k k'
| fc_read c cur r k k' : runs cur k -> sys_read dev_read c cur k = Ok (r, k') -> fcall k k'
| fc_write c cur r k k' : runs cur k -> sys_write dev_write c cur k = Ok (r, k') -> fcall k k'
| fc_fstat c cur r k k' : runs cur k -> sys_fstat c cur k = Ok (r, k') -> fcall k k'
| fc_open c cur r k k' : runs cur k -> sys_open dev_read dev_write kend junk c cur k = Ok (r, k') -> fcall k k'
| fc_pipe c cur r k k' : runs cur k -> sys_pipe kend c cur k = Ok (r, k') -> fcall k k'
| fc_fork c cur r k k' : runs cur k -> sys_fork kend kdata trapret forkret c cur k = Ok (r, k') -> fcall k k'
| fc_exit c cur k k' : runs cur k -> do_exit kend c cur k = Ok k' -> fcall k k'
| fc_other k k' : same_fds (ptable k) (ptable k') -> same_refs (ftab (files k)) (ftab (files k')) -> fcall k k'.

Lemma fcall_held k k' : fcall k k' -> heldk k d0 ∅ -> heldk k' d0 ∅.
Proof.
  destruct 1; intros Hh.
  - by eapply sys_dup_held.
  - by eapply sys_close_held.
  - by eapply sys_read_held.
  - by eapply sys_write_held.
  - by eapply sys_fstat_held.
  - by eapply sys_open_held.
  - by eapply sys_pipe_held.
  - by eapply sys_fork_held.
  - by eapply exit_held.
  - eapply held_procs; [done|]. by eapply held_same.
Qed.

(** No file is open and no process has a descriptor. *)
Definition no_files k : Prop :=
  ftab (files k) = replicate NFILE file0 /\ Forall (fun p => ofile p = replicate NOFILE None) (ptable k).

Lemma no_files_held k : no_files k -> heldk k d0 ∅.
Proof.
  intros [Ht Hp]. rewrite Forall_lookup in Hp.
  assert (forall i, refs i (ptable k) = 0) as HR.
  { intros i. assert (Forall (fun p => ofile p = replicate NOFILE None) (ptable k)) as HF by (by apply Forall_lookup).
    clear -HF. induction HF as [|p t Hp _ IH]; [done|]. rewrite refs_cons, Hp, IH. rewrite fdz_none; [done|]. by apply Forall_replicate. }
  unfold heldk. rewrite Ht. split.
  - intros i f [-> _]%lookup_replicate_1. by rewrite HR.
  - intros i _. split; [apply HR|done].
  - intros i. done.
  - intros i f [-> _]%lookup_replicate_1. done.
  - intros i f [-> _]%lookup_replicate_1. done.
  - intros j p Hj _. rewrite (Hp j p Hj). by apply Forall_replicate.
  - intros j p Hj. rewrite (Hp j p Hj). by rewrite length_replicate.
Qed.

(** C8.  In every state the kernel reaches through opens, dups, reads, writes,
    closes, pipes, forks and exits of any processes, and other steps that leave
    descriptors and counts alone, the reference count of a
    file is the number of descriptors that name it; every descriptor names an
    open file; and a file without references is marked unused. *)
Theorem descriptor_refs k k' :
  no_files k -> rtc fcall k k' ->
  (forall i f, ftab (files k') !! i = Some f -> f_ref f = refs i (ptable k'))
  /\ (forall cur p fd i, ptable k' !! cur = Some p -> ofile p !! fd = Some (Some i) ->
        exists f, ftab (files k') !! i = Some f /\ 1 <= f_ref f /\ f_type f <> FD_NONE)
  /\ (forall i f, ftab (files k') !! i = Some f -> f_ref f = 0 -> f_type f = FD_NONE).
Proof.
  intros Hn Hr. apply no_files_held in Hn. assert (heldk k' d0 ∅) as Hh.
  { clear -Hn Hr. induction Hr; [done|]. eauto using fcall_held. }
  assert (forall i f, ftab (files k') !! i = Some f -> f_ref f = refs i (ptable k')) as HR.
  { intros i f Hf. rewrite (hd_ref _ _ _ _ Hh i f Hf). unfold d0. lia. }
  split; [exact HR|]. split; [|intros i f; by apply (hd_free _ _ _ _ Hh)].
  intros cur p fd i Hp Ho. pose proof (refs_lookup i _ _ _ _ Hp Ho) as H1.
  destruct (ftab (files k') !! i) as [f|] eqn:Hf; [|destruct (hd_none _ _ _ _ Hh i Hf); lia].
  exists f. split; [done|]. rewrite (HR i f Hf). split; [done|].
  apply (hd_open _ _ _ _ Hh i f Hf); [rewrite (HR i f Hf); lia|set_solver].
Qed.

End Runs.

(** A process that makes a pipe and duplicates its write end. *)
Definition pipe_kern : kern (fstate lst) :=
  Kern [with_state RUNNING arg_proc] 2 (Some 0%nat) arg_kst wst0 (Fstate (replicate NFILE file0) ∅ demo_fs) [Some 0%nat] 0.

(** The state after a call that returned. *)
Definition after (r : outcome (option Z * kern (fstate lst))) : kern (fstate lst) :=
  match r with Ok (_, k) => k | _ => pipe_kern end.
Definition returned (r : outcome (option Z * kern (fstate lst))) : option Z :=
  match r with Ok (r, _) => r | _ => None end.
Definition piped : kern (fstate lst) := after (sys_pipe kend0 0 0 pipe_kern).
Definition duped : kern (fstate lst) := after (sys_dup 0 0 piped).

Lemma after_returned r v : returned r = Some v -> r = Ok (Some v, after r).
Proof. destruct r as [[o k]|s|s]; cbn; [by intros ->|done|done]. Qed.

Lemma descriptor_refs_witness :
  map f_ref (take 3 (ftab (files duped))) = [1; 2; 0]
  /\ (forall i f, ftab (files duped) !! i = Some f -> f_ref f = refs i (ptable duped)).
Proof.
  assert (forall k : kern (fstate lst), map state (ptable k) = [RUNNING] -> runs 0 k) as Hruns.
  { intros k Hk. unfold runs. destruct (ptable k) as [|p t]; [done|]. injection Hk as Hp _.
    exists p. split; [done|]. intros [E|E]; congruence. }
  destruct (descriptor_refs (fun _ => None) (fun _ => None) kend0 0 0 0 [] pipe_kern duped) as (HR & _).
  - split; [reflexivity|]. repeat constructor.
  - eapply rtc_l; [|eapply rtc_l; [|apply rtc_refl]].
    + eapply (fc_pipe _ _ _ _ _ _ _ 0 0 (Some 0)); [apply Hruns; reflexivity|]. apply after_returned. vm_compute. reflexivity.
    + eapply (fc_dup _ _ _ _ _ _ _ 0 0 (Some 2)); [apply Hruns; vm_compute; reflexivity|]. apply after_returned. vm_compute. reflexivity.
  - split; [vm_compute; reflexivity|exact HR].
Defined.
