(* ===== verification/Grep.v ===== *)
(** grep.c: the pattern matcher and the loop that reads a file by buffers and
    prints the lines that match.  A C string is the list of its bytes before
    the NUL, so a pointer into one is a suffix, and the character it points to
    is 0 exactly at the end. *)
From S2P Require Import Prelude.

Definition NL : Z := 10.
Definition STAR : Z := 42.
Definition DOTC : Z := 46.
Definition DOLLAR : Z := 36.
Definition CARET : Z := 94.

(** The loop of [matchstar], given the matcher of what follows the star. *)
Fixpoint star_loop (here : list Z -> bool) (c : Z) (text : list Z) : bool :=
  if here text then true
  else match text with
       | [] => false
       | t :: ts => if (t =? c) || (c =? DOTC) then star_loop here c ts else false
       end.

Fixpoint matchhere (re text : list Z) : bool :=
  match re with
  | [] => true
  | c :: re1 =>
      match re1 with
      | d :: re2 => if d =? STAR then star_loop (matchhere re2) c text else
          match text with
          | t :: ts => if (c =? DOTC) || (c =? t) then matchhere re1 ts else false
          | [] => false
          end
      | [] =>
          if c =? DOLLAR then (match text with [] => true | _ => false end)
          else match text with
               | t :: ts => if (c =? DOTC) || (c =? t) then matchhere re1 ts else false
               | [] => false
               end
      end
  end.

Definition matchstar (c : Z) (re text : list Z) : bool := star_loop (matchhere re) c text.

(** The [do] loop of [match]: every suffix, the empty one included. *)
Fixpoint match_loop (re text : list Z) : bool :=
  if matchhere re text then true
  else match text with [] => false | _ :: ts => match_loop re ts end.

Definition match_ (re text : list Z) : bool :=
  match re with
  | c :: re1 => if c =? CARET then matchhere re1 text else match_loop re text
  | [] => match_loop re text
  end.

(** [strchr p '\n']: what is before and after the newline, which is looked for
    up to the first NUL. *)
Fixpoint strchr_nl (p : list Z) : option (list Z * list Z) :=
  match p with
  | [] => None
  | x :: r =>
      if x =? 0 then None
      else if x =? NL then Some ([], r)
      else match strchr_nl r with
           | Some (l, r') => Some (x :: l, r')
           | None => None
           end
  end.

(** The loop over the lines of the buffer: what is written, and the pointer
    [p] it ends with. *)
Fixpoint grep_lines (fuel : nat) (pattern p : list Z) : list Z * list Z :=
  match fuel with
  | O => ([], p)
  | S fuel =>
      match strchr_nl p with
      | None => ([], p)
      | Some (l, r) =>
          let (out, p') := grep_lines fuel pattern r in
          ((if match_ pattern l then l ++ [NL] else []) ++ out, p')
      end
  end.

Definition BUFSIZE : nat := 1024.

Section Grep.
(** [read n s] gives at most [n] of the bytes [s] still holds. *)
Context {src : Type} (read : nat -> src -> list Z * src).

(** [kept]: the first [m] bytes of [buf].  [None] when the fuel, which bounds
    the number of reads, runs out. *)
Fixpoint grep_loop (fuel : nat) (pattern kept : list Z) (s : src) : option (list Z) :=
  match fuel with
  | O => None
  | S fuel =>
      let (bytes, s) := read (BUFSIZE - length kept - 1) s in
      match bytes with
      | [] => Some []
      | _ =>
          let buf := kept ++ bytes in
          let (out, p) := grep_lines (length buf) pattern buf in
          let kept := if (length p =? length buf)%nat then [] else p in
          match grep_loop fuel pattern kept s with
          | Some out' => Some (out ++ out')
          | None => None
          end
      end
  end.

Definition grep (fuel : nat) (pattern : list Z) (s : src) : option (list Z) := grep_loop fuel pattern [] s.
End Grep.

(** Reading a file: as many bytes as asked for, while there are some. *)
Definition file_read (n : nat) (s : list Z) : list Z * list Z := (take n s, drop n s).

(** Reading a pipe or a console: what the next write left. *)
Definition chunk_read (n : nat) (s : list (list Z)) : list Z * list (list Z) :=
  match s with
  | [] => ([], [])
  | c :: s => (take n c, if (length c <=? n)%nat then s else drop n c :: s)
  end.

(** * The language of a pattern *)

Inductive atom := One (c : Z) | Star (c : Z).

(** The atoms of a pattern without its leading [^], and whether it ends in [$]. *)
Fixpoint atoms (re : list Z) : list atom * bool :=
  match re with
  | [] => ([], false)
  | c :: re1 =>
      match re1 with
      | d :: re2 =>
          if d =? STAR then let (a, e) := atoms re2 in (Star c :: a, e)
          else let (a, e) := atoms re1 in (One c :: a, e)
      | [] => if c =? DOLLAR then ([], true) else ([One c], false)
      end
  end.

Definition fits (c x : Z) : Prop := c = DOTC \/ x = c.

(** The words of a sequence of atoms. *)
Inductive word : list atom -> list Z -> Prop :=
| word_nil : word [] []
| word_one c x a w : fits c x -> word a w -> word (One c :: a) (x :: w)
| word_star c v a w : Forall (fits c) v -> word a w -> word (Star c :: a) (v ++ w).

Definition anchored (re : list Z) : bool * list Z :=
  match re with c :: r => if c =? CARET then (true, r) else (false, re) | [] => (false, re) end.

(** A part of [text] is a word of the pattern, at the ends the anchors ask for. *)
Definition matches (re text : list Z) : Prop :=
  let (a, r) := anchored re in
  exists pre mid post, text = pre ++ mid ++ post /\ word (fst (atoms r)) mid
    /\ (a = true -> pre = []) /\ (snd (atoms r) = true -> post = []).

(** A prefix of [text] is a word of the pattern. *)
Definition prefixed (re text : list Z) : Prop :=
  exists mid post, text = mid ++ post /\ word (fst (atoms re)) mid /\ (snd (atoms re) = true -> post = []).

Lemma star_loop_spec here c text :
  star_loop here c text = true <-> exists v w, text = v ++ w /\ Forall (fits c) v /\ here w = true.
Proof.
  induction text as [|t ts IH]; cbn.
  - destruct (here []) eqn:E.
    + split; [|done]. intros _. by exists [], [].
    + split; [done|]. intros (v & w & Ht & _ & Hw). symmetry in Ht. apply app_nil in Ht as [-> ->]. congruence.
  - destruct (here (t :: ts)) eqn:E.
    + split; [|done]. intros _. by exists [], (t :: ts).
    + split.
      * intros H. destruct ((t =? c) || (c =? DOTC)) eqn:Ec; [|done]. apply IH in H as (v & w & -> & Hv & Hw).
        exists (t :: v), w. split; [done|]. split; [|done]. constructor; [|done]. unfold fits. lia.
      * intros (v & w & Ht & Hv & Hw). destruct v as [|x v]; [cbn in Ht; subst w; congruence|].
        injection Ht as -> ->. apply Forall_cons in Hv as [Hx Hv].
        assert ((x =? c) || (c =? DOTC) = true) as -> by (unfold fits in Hx; lia). apply IH. by exists v, w.
Qed.

Lemma atoms_cons c re :
  (forall r, re <> STAR :: r) -> (re = [] -> c <> DOLLAR) ->
  atoms (c :: re) = (One c :: fst (atoms re), snd (atoms re)).
Proof.
  intros Hs Hd. cbn. destruct re as [|d r].
  - destruct (Z.eqb_spec c DOLLAR) as [E|_]; [by destruct (Hd eq_refl)|done].
  - destruct (Z.eqb_spec d STAR) as [->|_]; [by destruct (Hs r)|]. by destruct (atoms (d :: r)).
Qed.

Lemma prefixed_one c re text :
  atoms (c :: re) = (One c :: fst (atoms re), snd (atoms re)) ->
  prefixed (c :: re) text <-> exists t ts, text = t :: ts /\ fits c t /\ prefixed re ts.
Proof.
  intros Ha. unfold prefixed. rewrite Ha. cbn [fst snd]. split.
  - intros (mid & post & -> & Hw & He). inversion Hw as [|? x ? w Hx Hw'|]; subst.
    exists x, (w ++ post). split; [done|]. split; [done|]. by exists w, post.
  - intros (t & ts & -> & Ht & mid & post & -> & Hw & He). exists (t :: mid), post.
    split; [done|]. split; [by constructor|done].
Qed.

Lemma prefixed_star c re text :
  prefixed (c :: STAR :: re) text <-> exists v w, text = v ++ w /\ Forall (fits c) v /\ prefixed re w.
Proof.
  unfold prefixed. cbn. destruct (atoms re) as [a e]. cbn [fst snd]. split.
  - intros (mid & post & -> & Hw & He). inversion Hw as [| |? v ? w Hv Hw']; subst.
    exists v, (w ++ post). split; [by rewrite app_assoc|]. split; [done|]. by exists w, post.
  - intros (v & w & -> & Hv & mid & post & -> & Hw & He). exists (v ++ mid), post.
    split; [by rewrite app_assoc|]. split; [by constructor|done].
Qed.

Lemma one_step (here : list Z -> bool) (P : list Z -> Prop) c text :
  (forall t, here t = true <-> P t) ->
  (match text with t :: ts => if (c =? DOTC) || (c =? t) then here ts else false | [] => false end) = true
  <-> exists t ts, text = t :: ts /\ fits c t /\ P ts.
Proof.
  intros Hh. destruct text as [|t ts].
  - split; [done|]. by intros (? & ? & ? & _).
  - split.
    + intros H. destruct ((c =? DOTC) || (c =? t)) eqn:E; [|done]. exists t, ts. split; [done|].
      split; [unfold fits; lia|]. by apply Hh.
    + intros (t' & ts' & [= <- <-] & Hf & Hp). assert ((c =? DOTC) || (c =? t) = true) as -> by (unfold fits in Hf; lia).
      by apply Hh.
Qed.

Lemma matchhere_prefixed n : forall re text, (length re <= n)%nat -> matchhere re text = true <-> prefixed re text.
Proof.
  induction n as [|n IH]; intros re text Hn.
  - destruct re; [|cbn in Hn; lia]. split; [|done]. intros _. exists [], text. split; [done|]. split; [constructor|done].
  - destruct re as [|c re1]; [split; [|done]; intros _; exists [], text; split; [done|]; split; [constructor|done]|].
    cbn in Hn. destruct re1 as [|d re2].
    + cbn [matchhere]. destruct (Z.eqb_spec c DOLLAR) as [->|Hd].
      * unfold prefixed. cbn. split.
        -- destruct text; [|done]. intros _. exists [], []. split; [done|]. split; [constructor|done].
        -- intros (mid & post & -> & Hw & He). inversion Hw; subst. by rewrite He.
      * rewrite prefixed_one by (apply atoms_cons; [done|intros _; exact Hd]).
        apply (one_step (matchhere []) (prefixed [])). intros t. apply IH. cbn. lia.
    + cbn [matchhere]. destruct (Z.eqb_spec d STAR) as [->|Hd].
      * rewrite prefixed_star, star_loop_spec. cbn in Hn.
        split; intros (v & w & E & Hv & Hw); exists v, w; (split; [done|]; split; [done|]); (apply (IH re2); [cbn in *; lia|done]).
      * rewrite prefixed_one by (apply atoms_cons; [congruence|done]).
        apply (one_step (matchhere (d :: re2)) (prefixed (d :: re2))). intros t. apply IH. lia.
Qed.

Lemma match_loop_spec re text : match_loop re text = true <-> exists pre w, text = pre ++ w /\ prefixed re w.
Proof.
  induction text as [|t ts IH]; cbn; destruct (matchhere re _) eqn:E.
  - split; [|done]. intros _. exists [], []. split; [done|]. by eapply matchhere_prefixed.
  - split; [done|]. intros (pre & w & Ht & Hw). symmetry in Ht. apply app_nil in Ht as [-> ->].
    apply (matchhere_prefixed (length re)) in Hw; [congruence|done].
  - split; [|done]. intros _. exists [], (t :: ts). split; [done|]. by eapply matchhere_prefixed.
  - rewrite IH. split.
    + intros (pre & w & -> & Hw). by exists (t :: pre), w.
    + intros (pre & w & Ht & Hw). destruct pre as [|x pre].
      * cbn in Ht. subst w. apply (matchhere_prefixed (length re)) in Hw; [congruence|done].
      * injection Ht as -> ->. by exists pre, w.
Qed.

(** C32.  The matcher decides the language of the pattern: [match] accepts a
    text exactly when some part of it is a word of the sequence of characters,
    dots and starred characters, beginning at the start of the text when the
    pattern begins with a caret and reaching its end when it ends with a
    dollar. *)
Theorem match_decides re text : match_ re text = true <-> matches re text.
Proof.
  assert (match_loop re text = true <-> exists pre mid post, text = pre ++ mid ++ post
    /\ word (fst (atoms re)) mid /\ (false = true -> pre = []) /\ (snd (atoms re) = true -> post = [])) as HL.
  { rewrite match_loop_spec. split.
    - intros (pre & w & -> & mid & post & -> & Hw & He). by exists pre, mid, post.
    - intros (pre & mid & post & -> & Hw & _ & He). exists pre, (mid ++ post). split; [done|]. by exists mid, post. }
  unfold match_, matches, anchored. destruct re as [|c r]; [exact HL|].
  destruct (c =? CARET); [|exact HL]. rewrite (matchhere_prefixed (length r)) by done. split.
  - intros (mid & post & -> & Hw & He). by exists [], mid, post.
  - intros (pre & mid & post & -> & Hw & Hp & He). rewrite Hp by done. by exists mid, post.
Qed.

(** * Whole lines *)

(** A line of text: no newline and no NUL. *)
Definition plain (l : list Z) : Prop := Forall (fun x => x <> 0 /\ x <> NL) l.

(** The bytes of the lines [ls] followed by an unfinished line. *)
Definition content (ls : list (list Z)) (tail : list Z) : list Z := concat (map (fun l => l ++ [NL]) ls) ++ tail.

(** The lines that match, with their newlines. *)
Definition matching (pattern : list Z) (ls : list (list Z)) : list Z :=
  concat (map (fun l => if match_ pattern l then l ++ [NL] else []) ls).

Lemma strchr_nl_line l r : plain l -> strchr_nl (l ++ NL :: r) = Some (l, r).
Proof.
  induction 1 as [|x l [H0 H1] _ IH]; [done|]. cbn.
  destruct (Z.eqb_spec x 0); [done|]. destruct (Z.eqb_spec x NL); [done|]. by rewrite IH.
Qed.

Lemma strchr_nl_plain l : plain l -> strchr_nl l = None.
Proof.
  induction 1 as [|x l [H0 H1] _ IH]; [done|]. cbn.
  destruct (Z.eqb_spec x 0); [done|]. destruct (Z.eqb_spec x NL); [done|]. by rewrite IH.
Qed.

(** On the first bytes of a text the loop prints the matching lines among
    those it has whole, and stops at the start of the next. *)
Lemma grep_lines_prefix pattern tail : plain tail ->
  forall ls fuel buf s, Forall plain ls -> (length buf <= fuel)%nat -> buf ++ s = content ls tail ->
  exists ls1 ls2 p, ls = ls1 ++ ls2 /\ grep_lines fuel pattern buf = (matching pattern ls1, p)
    /\ plain p /\ p ++ s = content ls2 tail /\ (length p + length ls1 <= length buf)%nat /\ (ls1 = [] -> p = buf).
Proof.
  intros Ht ls. induction ls as [|l ls IH]; intros fuel buf s Hls Hf Hb.
  - exists [], [], buf. cbn in Hb. assert (plain buf) as Hp by (rewrite <- Hb in Ht; by apply Forall_app in Ht as [? _]).
    split; [done|]. split; [|split_and!; [done|done|cbn; lia|done]]. destruct fuel; [done|]. cbn. by rewrite strchr_nl_plain.
  - apply Forall_cons in Hls as [Hl Hls]. unfold content in Hb. cbn in Hb. rewrite <- !app_assoc in Hb. cbn in Hb.
    fold (content ls tail) in Hb. apply app_eq_inv in Hb as [(k & -> & Hk)|(k & -> & Hk)].
    + destruct k as [|z k].
      * cbn in Hk. exists [], (l :: ls), (l ++ []). rewrite app_nil_r. split; [done|]. split; [destruct fuel; [done|]; cbn; by rewrite strchr_nl_plain|].
        split_and!; [done|unfold content; cbn; rewrite <- !app_assoc; cbn; by rewrite <- Hk|cbn; lia|done].
      * injection Hk as <- Hk. rewrite length_app in Hf. cbn in Hf. destruct fuel as [|fuel]; [lia|].
        destruct (IH fuel k s Hls ltac:(lia) (eq_sym Hk)) as (ls1 & ls2 & p & -> & Hg & Hp & Hc & Hlen & _).
        exists (l :: ls1), ls2, p. split; [done|]. split; [cbn [grep_lines]; rewrite strchr_nl_line by done; by rewrite Hg|].
        split_and!; [done|done|rewrite length_app; cbn; lia|done].
    + exists [], ((buf ++ k) :: ls), buf. apply Forall_app in Hl as [Hp _]. split; [done|].
      split; [destruct fuel; [done|]; cbn; by rewrite strchr_nl_plain|].
      split_and!; [done|unfold content; cbn; rewrite <- !app_assoc, Hk; cbn; by rewrite <- ?app_assoc|cbn; lia|done].
Qed.

Lemma matching_app pattern l1 l2 : matching pattern (l1 ++ l2) = matching pattern l1 ++ matching pattern l2.
Proof. unfold matching. by rewrite map_app, concat_app. Qed.

Lemma content_plain ls tail : plain (content ls tail) -> ls = [] /\ content ls tail = tail.
Proof.
  destruct ls as [|l ls]; [done|]. unfold content. cbn. intros H. unfold plain in H. rewrite !Forall_app in H. destruct H as [[[_ H] _] _].
  apply Forall_cons in H as [[_ H] _]. done.
Qed.

(** A full buffer that starts with a line of at most 1022 bytes holds it whole. *)
Lemma grep_loop_lines pattern fuel :
  forall ls tail kept s, plain tail -> Forall plain ls -> Forall (fun l => length l <= 1022)%nat ls ->
  plain kept -> (length kept <= 1022)%nat -> kept ++ s = content ls tail -> (length s < fuel)%nat ->
  grep_loop file_read fuel pattern kept s = Some (matching pattern ls).
Proof.
  induction fuel as [|fuel IH]; intros ls tail kept s Ht Hls Hlen Hk Hkl Hc Hf; [lia|].
  cbn [grep_loop]. unfold file_read at 1. set (n := (BUFSIZE - length kept - 1)%nat). assert (0 < n)%nat as Hn by (unfold n, BUFSIZE; lia).
  destruct (take n s) as [|b bs] eqn:Etake.
  - assert (s = []) as -> by (destruct s, n; [done|done|lia|done]). rewrite app_nil_r in Hc.
    rewrite Hc in Hk. by apply content_plain in Hk as [-> _].
  - set (bytes := b :: bs) in *. assert (length (drop n s) < length s)%nat as Hdrop.
    { rewrite length_drop. destruct s; [by destruct n|]. cbn. lia. }
    assert ((kept ++ bytes) ++ drop n s = content ls tail) as Hb by (rewrite <- app_assoc, <- Etake, take_drop; done).
    destruct (grep_lines_prefix pattern tail Ht ls (length (kept ++ bytes)) _ _ Hls (Nat.le_refl _) Hb)
      as (ls1 & ls2 & p & -> & Hg & Hp & Hpc & Hpl & H0). rewrite Hg.
    apply Forall_app in Hls as [_ Hls2]. rewrite Forall_app in Hlen. destruct Hlen as [_ Hlen2].
    rewrite matching_app. destruct ls1 as [|l1 ls1].
    + rewrite (H0 eq_refl), Nat.eqb_refl. assert (ls2 = []) as ->.
      { destruct ls2 as [|l ls2]; [done|]. exfalso. apply Forall_cons in Hlen2 as [Hl _]. rewrite (H0 eq_refl) in Hpc, Hp.
        replace (content (l :: ls2) tail) with (l ++ NL :: content ls2 tail) in Hpc by (unfold content; cbn; by rewrite <- !app_assoc).
        assert ((kept ++ bytes) !! length l = Some NL) as Hnl.
        { rewrite <- (lookup_app_l _ (drop n s)), Hpc; [by rewrite lookup_app_r, Nat.sub_diag by lia|].
          destruct (decide (n <= length s)%nat) as [Hs|Hs].
          - rewrite length_app, <- Etake, length_take. unfold n, BUFSIZE in *. lia.
          - rewrite drop_ge, app_nil_r in Hpc by lia. rewrite Hpc, length_app. cbn. lia. }
        by apply (Forall_lookup_1 _ _ _ _ Hp) in Hnl as [_ ?]. }
      change (content [] tail) with tail in Hpc. rewrite <- Hpc in Ht. apply Forall_app in Ht as [_ Ht].
      rewrite (IH [] (drop n s) [] (drop n s)); [done|done|done|done|constructor|cbn; lia|done|lia].
    + destruct (Nat.eqb_spec (length p) (length (kept ++ bytes))) as [E|_]; [cbn in Hpl; lia|].
      rewrite (IH ls2 tail p (drop n s)); [done|done|done|done|done| |done|lia].
      cbn in Hpl. rewrite length_app, <- Etake, length_take in Hpl. unfold n, BUFSIZE in *. lia.
Qed.

(** On a file whose lines hold no NUL and are at most 1022 bytes long,
    [grep] ends, and prints exactly the matching lines, in order, whatever
    buffer boundaries they fall across; bytes after the last newline are
    ignored. *)
Theorem grep_prints pattern ls tail fuel :
  Forall plain ls -> plain tail -> Forall (fun l => length l <= 1022)%nat ls ->
  (length (content ls tail) < fuel)%nat ->
  grep file_read fuel pattern (content ls tail) = Some (matching pattern ls).
Proof.
  intros Hls Ht Hlen Hf. unfold grep. eapply grep_loop_lines; [exact Ht|done|done|constructor|cbn; lia|done|done].
Qed.

Lemma grep_prints_witness :
  grep file_read 20 [97; 42; 98; 36] (content [[97; 97; 98]; [98; 99]; [98]] [98])
  = Some [97; 97; 98; 10; 98; 10].
Proof.
  rewrite (grep_prints [97; 42; 98; 36] [[97; 97; 98]; [98; 99]; [98]] [98] 20).
  - vm_compute. reflexivity.
  - repeat constructor; discriminate.
  - repeat constructor; discriminate.
  - repeat constructor; cbn; lia.
  - vm_compute. lia.
Defined.

(** A line that arrives in two reads is lost when the first holds no
    newline: [grep] drops what it has kept.  The line [ab] matches the pattern
    [a], and reading it whole prints it; in two writes to a pipe it is not
    printed. *)
Theorem grep_split_line_lost :
  grep chunk_read 5 [97] [[97; 98; 10]] = Some [97; 98; 10]
  /\ grep chunk_read 5 [97] [[97]; [98; 10]] = Some [].
Proof. split; vm_compute; reflexivity. Qed.
