(* ===== verification/Printf.v ===== *)
(** The user library: ulib.c and printf.c, and the formatted output of
    console.c, which is a second version of the same code.  C strings are the
    lists of their bytes before the NUL. *)
From S2P Require Import Prelude.

(** * ulib.c *)

Fixpoint strcmp (p q : list Z) : Z :=
  match p, q with
  | [], [] => 0
  | [], y :: _ => 0 - u8 y
  | x :: _, [] => u8 x - 0
  | x :: p, y :: q => if x =? y then strcmp p q else u8 x - u8 y
  end.

(** The suffix [strchr] points to. *)
Fixpoint strchr (s : list Z) (c : Z) : option (list Z) :=
  match s with
  | [] => None
  | x :: r => if x =? c then Some s else strchr r c
  end.

Definition is_digit (c : Z) : bool := (48 <=? c) && (c <=? 57).

Fixpoint atoi_loop (n : Z) (s : list Z) : Z :=
  match s with
  | c :: s => if is_digit c then atoi_loop (s32 (s32 (s32 (n * 10) + c) - 48)) s else n
  | [] => n
  end.

Definition atoi (s : list Z) : Z := atoi_loop 0 s.

(** [gets]: the bytes the reads of one byte each deliver, up to a newline, a
    carriage return, the end of the input or [max - 1] of them; and the rest. *)
Fixpoint gets_loop (room : nat) (input : list Z) : list Z * list Z :=
  match room, input with
  | S room, c :: input =>
      if (c =? 10) || (c =? 13) then ([c], input)
      else let (b, rest) := gets_loop room input in (c :: b, rest)
  | _, _ => ([], input)
  end.

Definition gets (max : Z) (input : list Z) : list Z * list Z := gets_loop (Z.to_nat (max - 1)) input.

(** * Numbers *)

(** [digits[d]] of printf.c and of console.c. *)
Definition upper_digit (d : Z) : Z := if d <? 10 then 48 + d else 55 + d.
Definition lower_digit (d : Z) : Z := if d <? 10 then 48 + d else 87 + d.

(** The [do] loop: digits from the least significant one, into what is left of
    the 16 bytes of [buf]. *)
Fixpoint digit_loop (digit : Z -> Z) (room : nat) (x base : Z) : outcome (list Z) :=
  match room with
  | O => UB "buf overflow"
  | S room =>
      let c := digit (x mod base) in
      let x := x / base in
      if x =? 0 then Ok [c]
      else let! l := digit_loop digit room x base in Ok (c :: l)
  end.

(** [printint] of printf.c: what it prints. *)
Definition printint (xx base : Z) (sgn : bool) : outcome (list Z) :=
  let neg := sgn && (xx <? 0) in
  let x := if neg then u32 (- xx) else u32 xx in
  let! buf := digit_loop upper_digit 16 x base in
  let buf := if neg then buf ++ [45] else buf in
  if (16 <? Z.of_nat (length buf)) then UB "buf overflow" else Ok (rev buf).

(** [printint] of console.c. *)
Definition cons_printint (xx base : Z) (sign : bool) : outcome (list Z) :=
  let sign := sign && (xx <? 0) in
  let x := if sign then u32 (- xx) else u32 xx in
  let! buf := digit_loop lower_digit 16 x base in
  let buf := if sign then buf ++ [45] else buf in
  if (16 <? Z.of_nat (length buf)) then UB "buf overflow" else Ok (rev buf).

(** * Formats *)

Definition PERCENT : Z := 37.
Definition null_text : list Z := [40; 110; 117; 108; 108; 41].

(** [next ap]: [*ap] and [ap + 1]. *)
Definition next (ap : list Z) : outcome (Z * list Z) :=
  match ap with a :: ap => Ok (a, ap) | [] => UB "missing argument" end.

Section Formats.
(** The C string at an address. *)
Context (str : Z -> list Z).

Definition text (a : Z) : list Z := if a =? 0 then null_text else str a.

(** The loop of [printf]; [state] is whether the last character was a [%]. *)
Fixpoint printf_loop (state : bool) (fmt ap : list Z) : outcome (list Z) :=
  match fmt with
  | [] => Ok []
  | c :: fmt =>
      if negb state then
        if c =? PERCENT then printf_loop true fmt ap
        else let! out := printf_loop false fmt ap in Ok (c :: out)
      else if c =? 100 then
        let! (a, ap) := next ap in
        let! s := printint (s32 a) 10 true in
        let! out := printf_loop false fmt ap in Ok (s ++ out)
      else if (c =? 120) || (c =? 112) then
        let! (a, ap) := next ap in
        let! s := printint (s32 a) 16 false in
        let! out := printf_loop false fmt ap in Ok (s ++ out)
      else if c =? 115 then
        let! (a, ap) := next ap in
        let! out := printf_loop false fmt ap in Ok (text a ++ out)
      else if c =? 99 then
        let! (a, ap) := next ap in
        let! out := printf_loop false fmt ap in Ok (u8 a :: out)
      else if c =? PERCENT then
        let! out := printf_loop false fmt ap in Ok (c :: out)
      else
        let! out := printf_loop false fmt ap in Ok (PERCENT :: c :: out)
  end.

Definition printf (fmt ap : list Z) : outcome (list Z) := printf_loop false fmt ap.

(** The loop of [cprintf], which looks at the character after a [%] at once. *)
Fixpoint cprintf_loop (fmt ap : list Z) : outcome (list Z) :=
  match fmt with
  | [] => Ok []
  | c :: fmt =>
      if negb (c =? PERCENT) then
        let! out := cprintf_loop fmt ap in Ok (c :: out)
      else
        match fmt with
        | [] => Ok []
        | c :: fmt =>
            if c =? 100 then
              let! (a, ap) := next ap in
              let! s := cons_printint (s32 a) 10 true in
              let! out := cprintf_loop fmt ap in Ok (s ++ out)
            else if (c =? 120) || (c =? 112) then
              let! (a, ap) := next ap in
              let! s := cons_printint (s32 a) 16 false in
              let! out := cprintf_loop fmt ap in Ok (s ++ out)
            else if c =? 115 then
              let! (a, ap) := next ap in
              let! out := cprintf_loop fmt ap in Ok (text a ++ out)
            else if c =? PERCENT then
              let! out := cprintf_loop fmt ap in Ok (PERCENT :: out)
            else
              let! out := cprintf_loop fmt ap in Ok (PERCENT :: c :: out)
        end
  end.

Definition cprintf (fmt : option (list Z)) (ap : list Z) : outcome (list Z) :=
  match fmt with
  | None => Panic "null fmt"
  | Some fmt => cprintf_loop fmt ap
  end.
End Formats.

(** * Numbers are printed faithfully *)

(** The value of a digit of either case. *)
Definition digit_value (c : Z) : Z :=
  if c <=? 57 then c - 48 else if c <=? 90 then c - 55 else c - 87.

(** The value of a text, the least significant digit first. *)
Fixpoint value_rev (base : Z) (l : list Z) : Z :=
  match l with [] => 0 | c :: l => digit_value c + base * value_rev base l end.

(** The number a printed text denotes. *)
Definition denotes (base : Z) (s : list Z) : Z :=
  match s with
  | c :: r => if c =? 45 then - value_rev base (rev r) else value_rev base (rev s)
  | [] => 0
  end.

Section Digits.
Context (digit : Z -> Z) (base : Z).
Hypothesis Hbase : 2 <= base <= 16.
Hypothesis Hdigit : forall d, 0 <= d < base -> digit_value (digit d) = d /\ digit d <> 45.

Lemma digit_loop_value room : forall x, (0 < room)%nat -> 0 <= x < base ^ Z.of_nat room ->
  exists l, digit_loop digit room x base = Ok l /\ value_rev base l = x /\ l <> [] /\ (length l <= room)%nat
    /\ Forall (fun c => c <> 45) l.
Proof.
  induction room as [|room IH]; intros x Hr Hx; [lia|].
  assert (0 <= x mod base < base) as Hm by (apply Z.mod_pos_bound; lia).
  destruct (Hdigit _ Hm) as [Hd Hn]. pose proof (Z.div_mod x base ltac:(lia)) as Hdm.
  cbn [digit_loop]. cbv zeta. destruct (Z.eqb_spec (x / base) 0) as [E|E].
  - rewrite E in Hdm. eexists. split; [done|]. split; [cbn [value_rev]; lia|]. split; [done|]. split; [cbn; lia|]. by repeat constructor.
  - assert (0 <= x / base < base ^ Z.of_nat room) as Hq.
    { split; [apply Z.div_pos; lia|]. apply Z.div_lt_upper_bound; [lia|]. rewrite Nat2Z.inj_succ, Z.pow_succ_r in Hx by lia. lia. }
    destruct (IH (x / base)) as (l & -> & Hv & _ & Hl & Hf); [destruct room; [cbn in Hq; lia|lia]|done|].
    eexists. split; [done|]. split; [cbn [value_rev]; rewrite Hv; lia|]. split; [done|]. split; [cbn; lia|]. by constructor.
Qed.
End Digits.

Lemma digit_loop_more digit base room room' : forall x l,
  digit_loop digit room x base = Ok l -> (room <= room')%nat -> digit_loop digit room' x base = Ok l.
Proof.
  revert room'. induction room as [|room IH]; intros room' x l Hl Hr; [done|]. destruct room' as [|room']; [lia|].
  cbn in *. destruct (x / base =? 0); [done|]. apply obind_Ok_inv in Hl as (l' & Hl' & Hl).
  rewrite (IH room' _ _ Hl') by lia. exact Hl.
Qed.

Lemma upper_digit_ok d : 0 <= d < 16 -> digit_value (upper_digit d) = d /\ upper_digit d <> 45.
Proof. intros Hd. unfold upper_digit, digit_value. repeat case_match; lia. Qed.

Lemma lower_digit_ok d : 0 <= d < 16 -> digit_value (lower_digit d) = d /\ lower_digit d <> 45.
Proof. intros Hd. unfold lower_digit, digit_value. repeat case_match; lia. Qed.

(** What both versions of [printint] do with the magnitude and the sign. *)
Definition signed_text (digit : Z -> Z) (x base : Z) (neg : bool) : outcome (list Z) :=
  let! buf := digit_loop digit 16 x base in
  let buf := if neg then buf ++ [45] else buf in
  if (16 <? Z.of_nat (length buf)) then UB "buf overflow" else Ok (rev buf).

Lemma signed_text_denotes digit base x neg :
  (forall d, 0 <= d < 16 -> digit_value (digit d) = d /\ digit d <> 45) ->
  base = 10 \/ base = 16 -> 0 <= x < 4294967296 ->
  exists s, signed_text digit x base neg = Ok s /\ denotes base s = (if neg then - x else x).
Proof.
  intros Hd Hb Hx.
  destruct (digit_loop_value digit base ltac:(lia) ltac:(intros; apply Hd; lia) 10 x ltac:(lia)) as (l & Hl & Hv & Hne & Hlen & Hm);
    [destruct Hb as [->| ->]; cbn; lia|].
  assert (digit_loop digit 16 x base = Ok l) as Hl16 by (eapply (digit_loop_more digit base 10 16); [exact Hl|lia]).
  unfold signed_text. rewrite Hl16. cbn [obind]. destruct neg.
  - rewrite length_app. cbn [length]. assert ((16 <? Z.of_nat (length l + 1)) = false) as -> by (apply Z.ltb_ge; lia). eexists. split; [done|].
    rewrite rev_app_distr. cbn. rewrite rev_involutive. lia.
  - assert ((16 <? Z.of_nat (length l)) = false) as -> by (apply Z.ltb_ge; lia). eexists. split; [done|]. rewrite <- (rev_involutive l) in Hne, Hm, Hv.
    destruct (rev l) as [|c r]; [done|]. unfold denotes. apply Forall_rev in Hm. rewrite rev_involutive in Hm.
    apply Forall_cons in Hm as [Hc _]. destruct (Z.eqb_spec c 45); [done|exact Hv].
Qed.

(** Both versions of [printint] print every 32-bit value within their
    16-byte buffer, in decimal with its sign and in hexadecimal without: the
    text read back is the number, for the least [int] too. *)
Theorem printint_denotes a (hex : bool) :
  is_s32 a ->
  let base := if hex then 16 else 10 in
  let v := if hex then u32 a else a in
  (exists s, printint a base (negb hex) = Ok s /\ denotes base s = v)
  /\ (exists s, cons_printint a base (negb hex) = Ok s /\ denotes base s = v).
Proof.
  intros Ha base v.
  assert (forall digit, (forall d, 0 <= d < 16 -> digit_value (digit d) = d /\ digit d <> 45) ->
    exists s, signed_text digit (if negb hex && (a <? 0) then u32 (- a) else u32 a) base (negb hex && (a <? 0)) = Ok s /\ denotes base s = v) as H.
  { intros digit Hd. destruct (signed_text_denotes digit base (if negb hex && (a <? 0) then u32 (- a) else u32 a) (negb hex && (a <? 0)) Hd)
      as (s & Hs & Hv); [destruct hex; cbn; lia|destruct (_ && _); apply u32_range|].
    exists s. split; [exact Hs|]. rewrite Hv. unfold v. destruct hex; [done|]. cbn [negb andb]. destruct (Z.ltb_spec a 0); zlia. }
  split; [apply (H upper_digit upper_digit_ok)|apply (H lower_digit lower_digit_ok)].
Qed.

Lemma printint_denotes_witness :
  (exists s, printint (-2147483648) 10 true = Ok s /\ denotes 10 s = -2147483648)
  /\ printint (-2147483648) 10 true = Ok [45; 50; 49; 52; 55; 52; 56; 51; 54; 52; 56].
Proof.
  split; [apply (printint_denotes (-2147483648) false)|vm_compute; reflexivity]. unfold is_s32. lia.
Defined.

(** * Reading a printed number back *)

Lemma digit_loop_digits room : forall x l, 0 <= x ->
  digit_loop upper_digit room x 10 = Ok l -> Forall (fun c => is_digit c = true /\ digit_value c = c - 48) l.
Proof.
  induction room as [|room IH]; intros x l Hx Hl; [done|]. cbn [digit_loop] in Hl. cbv zeta in Hl.
  assert (is_digit (upper_digit (x mod 10)) = true /\ digit_value (upper_digit (x mod 10)) = upper_digit (x mod 10) - 48) as Hc.
  { assert (0 <= x mod 10 < 10) by (apply Z.mod_pos_bound; lia). unfold upper_digit, is_digit, digit_value.
    destruct (Z.ltb_spec (x mod 10) 10); [|lia]. destruct (Z.leb_spec (48 + x mod 10) 57); [|lia]. lia. }
  destruct (x / 10 =? 0); [injection Hl as <-; by constructor|].
  apply obind_Ok_inv in Hl as (l' & Hl' & [= <-]). constructor; [done|]. eapply IH; [|done]. apply Z.div_pos; lia.
Qed.

Lemma s32_step n c : s32 (s32 (s32 (n * 10) + c) - 48) = s32 (10 * n + (c - 48)).
Proof. zlia. Qed.

Lemma s32_mul_l x y z : s32 (s32 x * y + z) = s32 (x * y + z).
Proof.
  unfold s32. set (k := (x + 2147483648) / 4294967296).
  replace ((x + 2147483648) mod 4294967296) with (x + 2147483648 - 4294967296 * k) by (unfold k; pose proof (Z.div_mod (x + 2147483648) 4294967296); lia).
  f_equal. replace ((x + 2147483648 - 4294967296 * k - 2147483648) * y + z + 2147483648) with (x * y + z + 2147483648 + (- (k * y)) * 4294967296) by ring.
  by rewrite Z.mod_add by lia.
Qed.

Lemma value_rev_snoc base l c : value_rev base (l ++ [c]) = value_rev base l + digit_value c * base ^ Z.of_nat (length l).
Proof.
  induction l as [|x l IH]; [cbn; lia|]. cbn [app value_rev length]. rewrite IH, Nat2Z.inj_succ, Z.pow_succ_r by lia. ring.
Qed.

Lemma atoi_loop_value s : forall n rest,
  is_s32 n -> Forall (fun c => is_digit c = true /\ digit_value c = c - 48) s ->
  match rest with c :: _ => is_digit c = false | [] => True end ->
  atoi_loop n (s ++ rest) = s32 (n * 10 ^ Z.of_nat (length s) + value_rev 10 (rev s)).
Proof.
  induction s as [|c s IH]; intros n rest Hn Hs Hr.
  - cbn. rewrite Z.mul_1_r, Z.add_0_r, s32_id by done. destruct rest as [|c rest]; [done|]. cbn. by rewrite Hr.
  - apply Forall_cons in Hs as [[Hd Hv] Hs]. cbn [app atoi_loop]. rewrite Hd, s32_step, IH; [|apply s32_range|done|done].
    cbn [rev length]. rewrite value_rev_snoc, length_rev, Hv, Nat2Z.inj_succ, Z.pow_succ_r by lia.
    rewrite s32_mul_l. f_equal. lia.
Qed.

(** [atoi] reads back what [printf] prints for [%d], for every
    non-negative [int], whatever follows that is not a digit. *)
Theorem atoi_printint n s rest :
  0 <= n < 2147483648 -> match rest with c :: _ => is_digit c = false | [] => True end ->
  printint n 10 true = Ok s -> atoi (s ++ rest) = n.
Proof.
  intros Hn Hr Hs. unfold printint in Hs. assert ((n <? 0) = false) as E by (apply Z.ltb_ge; lia). rewrite E in Hs. cbn [andb] in Hs.
  rewrite u32_id in Hs by (unfold is_u32; lia). apply obind_Ok_inv in Hs as (l & Hl & Hs).
  destruct (_ <? _) in Hs; [done|]. injection Hs as <-.
  destruct (digit_loop_value upper_digit 10 ltac:(lia) ltac:(intros; apply upper_digit_ok; lia) 16 n ltac:(lia)) as (l' & Hl' & Hv & _); [cbn; lia|].
  rewrite Hl in Hl'. injection Hl' as <-. unfold atoi. rewrite atoi_loop_value; [|unfold is_s32; lia| |done].
  - rewrite rev_involutive, Hv, Z.mul_0_l, Z.add_0_l. apply s32_id. unfold is_s32. lia.
  - apply Forall_rev. eapply digit_loop_digits; [|exact Hl]. lia.
Qed.

Lemma atoi_printint_witness : atoi ([50; 49; 52; 55; 52; 56; 51; 54; 52; 55] ++ [32]) = 2147483647.
Proof.
  apply (atoi_printint 2147483647); [lia|reflexivity|vm_compute; reflexivity].
Defined.

(** * The two formatters *)

(** No directive that the two print differently: [%x] and [%p] print letters of
    different case, and the kernel has no [%c]. *)
Fixpoint common (state : bool) (fmt : list Z) : bool :=
  match fmt with
  | [] => true
  | c :: fmt =>
      if state then negb ((c =? 120) || (c =? 112) || (c =? 99)) && common false fmt
      else common (c =? PERCENT) fmt
  end.

Lemma decimal_digits room : forall x, digit_loop lower_digit room x 10 = digit_loop upper_digit room x 10.
Proof.
  induction room as [|room IH]; intros x; [done|]. cbn [digit_loop]. cbv zeta. rewrite IH.
  assert (lower_digit (x mod 10) = upper_digit (x mod 10)) as ->; [|done].
  assert (0 <= x mod 10 < 10) by (apply Z.mod_pos_bound; lia). unfold lower_digit, upper_digit.
  destruct (Z.ltb_spec (x mod 10) 10); [done|lia].
Qed.

Lemma decimal_same a : cons_printint a 10 true = printint a 10 true.
Proof. unfold cons_printint, printint. by rewrite decimal_digits. Qed.

Lemma cprintf_loop_printf str n : forall fmt ap, (length fmt <= n)%nat -> common false fmt = true ->
  cprintf_loop str fmt ap = printf_loop str false fmt ap.
Proof.
  induction n as [|n IH]; intros fmt ap Hn Hc; [by destruct fmt; [|cbn in Hn; lia]|].
  destruct fmt as [|c fmt]; [done|]. cbn in Hn. cbn [common] in Hc. cbn [cprintf_loop printf_loop negb].
  destruct (c =? PERCENT) eqn:Ec; cbn [negb]; [|rewrite IH; [done|lia|done]].
  destruct fmt as [|d fmt]; [done|]. cbn in Hn. cbn [common] in Hc. apply andb_prop in Hc as [Hd Hc].
  assert (forall ap, cprintf_loop str fmt ap = printf_loop str false fmt ap) as IH' by (intros; apply IH; [lia|done]).
  cbn [printf_loop negb]. destruct (d =? 100); [|destruct ((d =? 120) || (d =? 112)) eqn:Ex; [cbn in Hd; discriminate|]; destruct (d =? 115)].
  - destruct ap as [|a ap]; cbn; [done|]. rewrite decimal_same. destruct (printint _ _ _); cbn; [|done|done]. by rewrite IH'.
  - destruct ap as [|a ap]; cbn; [done|]. by rewrite IH'.
  - rewrite !IH'. cbn [orb] in Hd. destruct (d =? 99); [done|]. destruct (Z.eqb_spec d PERCENT) as [->|_]; done.
Qed.

(** The kernel's [cprintf], which looks one character ahead, and the
    user's [printf], which keeps a state, print the same text for the same
    arguments, and read as many of them, on every format without [%x], [%p]
    and [%c]. *)
Theorem cprintf_printf str fmt ap : common false fmt = true -> cprintf str (Some fmt) ap = printf str fmt ap.
Proof. apply (cprintf_loop_printf str (length fmt)). lia. Qed.

Lemma cprintf_printf_witness :
  cprintf (fun _ => [104; 105]) (Some [37; 100; 58; 37; 115; 37]) [4294967289; 1] = Ok [45; 55; 58; 104; 105]
  /\ cprintf (fun _ => [104; 105]) (Some [37; 100; 58; 37; 115; 37]) [4294967289; 1]
     = printf (fun _ => [104; 105]) [37; 100; 58; 37; 115; 37] [4294967289; 1].
Proof. split; [vm_compute; reflexivity|apply cprintf_printf; reflexivity]. Defined.
