(* ===== verification/Console.v ===== *)
(** console.c and kbd.c: the screen, the line editor of the input ring, and the
    translation of key codes.  The lock [cons.lock] makes each operation a
    step; the bytes sent to the serial port are a log.  The inode lock that
    [consoleread] and [consolewrite] release and take again is the caller's. *)
From S2P Require Import Prelude.

Definition BACKSPACE : Z := 256.
Definition INPUT_BUF : Z := 128.
Definition NEWLINE : Z := 10.
(** [C('P')], [C('U')], [C('H')], [C('D')]. *)
Definition CTRL_P : Z := 16.
Definition CTRL_U : Z := 21.
Definition CTRL_H : Z := 8.
Definition CTRL_D : Z := 4.

Record console := Console {
  ibuf : list Z;      (* input.buf *)
  ir : Z;             (* input.r *)
  iw : Z;             (* input.w *)
  ie : Z;             (* input.e *)
  crt : list Z;       (* the character memory *)
  cursor : Z;         (* the cursor registers *)
  serial : list Z     (* bytes sent by uartputc, the last first *)
}.

Definition set_input (b : list Z) (r w e : Z) (k : console) : console :=
  Console b r w e (crt k) (cursor k) (serial k).

(** * Output *)

Definition crt_set (i c : Z) (m : list Z) : outcome (list Z) :=
  if (0 <=? i) && (i <? Z.of_nat (length m)) then Ok (<[Z.to_nat i := c]> m) else UB "crt".

(** Rows 1 to 23 move up by one and the rest of row 23 is cleared from [pos]. *)
Definition scroll (m : list Z) (pos : Z) : list Z :=
  let m := take (23 * 80) (drop 80 m) ++ drop (23 * 80) m in
  take (Z.to_nat pos) m ++ replicate (24 * 80 - Z.to_nat pos) 0 ++ drop (24 * 80) m.

Definition cgaputc (c : Z) (m : list Z) (pos : Z) : outcome (list Z * Z) :=
  let! (m, pos) :=
    if c =? NEWLINE then Ok (m, pos + (80 - pos mod 80))
    else if c =? BACKSPACE then Ok (m, if 0 <? pos then pos - 1 else pos)
    else let! m := crt_set pos (Z.lor (Z.land c 255) 1792) m in Ok (m, pos + 1) in
  if (pos <? 0) || (25 * 80 <? pos) then Panic "pos under/overflow"
  else
    let (m, pos) := if 24 <=? pos / 80 then (scroll m (pos - 80), pos - 80) else (m, pos) in
    let! m := crt_set pos (Z.lor 32 1792) m in
    Ok (m, pos).

Definition consputc (c : Z) (k : console) : outcome console :=
  let sent := if c =? BACKSPACE then [8; 32; 8] else [c] in
  let! (m, pos) := cgaputc c (crt k) (cursor k) in
  Ok (Console (ibuf k) (ir k) (iw k) (ie k) m pos (sent ++ serial k)).

Fixpoint consputs (s : list Z) (k : console) : outcome console :=
  match s with
  | [] => Ok k
  | c :: s => let! k := consputc c k in consputs s k
  end.

Definition consolewrite (s : list Z) (k : console) : outcome (Z * console) :=
  let! k := consputs (map (fun c => Z.land c 255) s) k in
  Ok (Z.of_nat (length s), k).

(** * Input *)

Definition ring_slot (i : Z) : nat := Z.to_nat (i mod INPUT_BUF).

(** [input.buf[i % INPUT_BUF]]. *)
Definition at_ (k : console) (i : Z) : Z := default 0 (ibuf k !! ring_slot i).

(** The loop of [C('U')]. *)
Fixpoint kill_line (fuel : nat) (k : console) : outcome console :=
  match fuel with
  | O => UB "kill_line does not end"
  | S fuel =>
      if negb (ie k =? iw k) && negb (at_ k (u32 (ie k - 1)) =? NEWLINE) then
        let! k := consputc BACKSPACE (set_input (ibuf k) (ir k) (iw k) (u32 (ie k - 1)) k) in
        kill_line fuel k
      else Ok k
  end.

(** One character of [consoleintr]; whether the readers are woken and whether
    a process listing is asked for. *)
Definition console_key (c : Z) (k : console) : outcome (console * bool * bool) :=
  if c =? CTRL_P then Ok (k, false, true)
  else if c =? CTRL_U then let! k := kill_line 129 k in Ok (k, false, false)
  else if (c =? CTRL_H) || (c =? 127) then
    if negb (ie k =? iw k) then
      let! k := consputc BACKSPACE (set_input (ibuf k) (ir k) (iw k) (u32 (ie k - 1)) k) in
      Ok (k, false, false)
    else Ok (k, false, false)
  else if negb (c =? 0) && (u32 (ie k - ir k) <? INPUT_BUF) then
    let c := if c =? 13 then NEWLINE else c in
    let k := set_input (<[ring_slot (ie k) := u8 c]> (ibuf k)) (ir k) (iw k) (u32 (ie k + 1)) k in
    let! k := consputc c k in
    if (c =? NEWLINE) || (c =? CTRL_D) || (ie k =? u32 (ir k + INPUT_BUF)) then
      Ok (set_input (ibuf k) (ir k) (ie k) (ie k) k, true, false)
    else Ok (k, false, false)
  else Ok (k, false, false).

(** [consoleintr] on the characters [getc] returns before it returns -1. *)
Fixpoint consoleintr (cs : list Z) (k : console) : outcome (console * bool * bool) :=
  match cs with
  | [] => Ok (k, false, false)
  | c :: cs =>
      let! (k, woken, dump) := console_key c k in
      let! (k, woken', dump') := consoleintr cs k in
      Ok (k, woken || woken', dump || dump')
  end.

(** The result of a read: the bytes copied when it returns, or when it sleeps
    on [input.r] with so many still to copy; or -1. *)
Inductive rdres := Returned (dst : list Z) | Asleep (dst : list Z) (n : nat) | Failed.

(** The loop of [consoleread] with [n] bytes to go; [some]: [n < target]. *)
Fixpoint read_loop (killed some : bool) (n : nat) (k : console) : rdres * console :=
  match n with
  | O => (Returned [], k)
  | S n' =>
      if ir k =? iw k then (if killed then Failed else Asleep [] n, k)
      else
        let c := at_ k (ir k) in
        let k' := set_input (ibuf k) (u32 (ir k + 1)) (iw k) (ie k) k in
        if c =? CTRL_D then
          (Returned [], if some then set_input (ibuf k') (u32 (ir k' - 1)) (iw k') (ie k') k' else k')
        else if c =? NEWLINE then (Returned [c], k')
        else
          match read_loop killed true n' k' with
          | (Returned l, k) => (Returned (c :: l), k)
          | (Asleep l m, k) => (Asleep (c :: l) m, k)
          | (Failed, k) => (Failed, k)
          end
  end.

Definition consoleread (killed : bool) (n : Z) (k : console) : rdres * console :=
  read_loop killed false (Z.to_nat n) k.

(** The console after [consoleinit], with a blank screen. *)
Definition console0 : console := Console (replicate 128 0) 0 0 0 (replicate 2000 0) 0 [].

(** * The keyboard *)

Definition SHIFT : Z := 1.
Definition CTL : Z := 2.
Definition ALT : Z := 4.
Definition CAPSLOCK : Z := 8.
Definition NUMLOCK : Z := 16.
Definition SCROLLLOCK : Z := 32.
Definition E0ESC : Z := 64.

Definition shiftcode (d : Z) : Z :=
  if d =? 29 then CTL else if d =? 42 then SHIFT else if d =? 54 then SHIFT
  else if d =? 56 then ALT else if d =? 157 then CTL else if d =? 184 then ALT else 0.

Definition togglecode (d : Z) : Z :=
  if d =? 58 then CAPSLOCK else if d =? 69 then NUMLOCK else if d =? 70 then SCROLLLOCK else 0.

(** The keys the three maps share: enter and slash of the keypad, given, and
    the cursor keys. *)
Definition keypad (enter slash d : Z) : Z :=
  if d =? 156 then enter else if d =? 181 then slash
  else if d =? 200 then 226 else if d =? 208 then 227 else if d =? 201 then 230 else if d =? 209 then 231
  else if d =? 203 then 228 else if d =? 205 then 229 else if d =? 151 then 224 else if d =? 207 then 225
  else if d =? 210 then 232 else if d =? 211 then 233 else 0.

Definition normal_keys : list Z :=
  [0; 27; 49; 50; 51; 52; 53; 54; 55; 56; 57; 48; 45; 61; 8; 9;
   113; 119; 101; 114; 116; 121; 117; 105; 111; 112; 91; 93; 10; 0; 97; 115;
   100; 102; 103; 104; 106; 107; 108; 59; 39; 96; 0; 92; 122; 120; 99; 118;
   98; 110; 109; 44; 46; 47; 0; 42; 0; 32; 0; 0; 0; 0; 0; 0;
   0; 0; 0; 0; 0; 0; 0; 55; 56; 57; 45; 52; 53; 54; 43; 49;
   50; 51; 48; 46; 0; 0; 0; 0].

Definition shift_keys : list Z :=
  [0; 27; 33; 64; 35; 36; 37; 94; 38; 42; 40; 41; 95; 43; 8; 9;
   81; 87; 69; 82; 84; 89; 85; 73; 79; 80; 123; 125; 10; 0; 65; 83;
   68; 70; 71; 72; 74; 75; 76; 58; 34; 126; 0; 124; 90; 88; 67; 86;
   66; 78; 77; 60; 62; 63; 0; 42; 0; 32; 0; 0; 0; 0; 0; 0;
   0; 0; 0; 0; 0; 0; 0; 55; 56; 57; 45; 52; 53; 54; 43; 49;
   50; 51; 48; 46; 0; 0; 0; 0].

(** [C('/')] is -17, stored in a byte as 239. *)
Definition ctl_keys : list Z :=
  [0; 0; 0; 0; 0; 0; 0; 0; 0; 0; 0; 0; 0; 0; 0; 0;
   17; 23; 5; 18; 20; 25; 21; 9; 15; 16; 0; 0; 13; 0; 1; 19;
   4; 6; 7; 8; 10; 11; 12; 0; 0; 0; 0; 28; 26; 24; 3; 22;
   2; 14; 13; 0; 0; 239; 0; 0].

Definition normalmap (d : Z) : Z := default (keypad 10 47 d) (normal_keys !! Z.to_nat d).
Definition shiftmap (d : Z) : Z := default (keypad 10 47 d) (shift_keys !! Z.to_nat d).
Definition ctlmap (d : Z) : Z := default (keypad 13 239 d) (ctl_keys !! Z.to_nat d).

(** [charcode[shift & (CTL | SHIFT)]]. *)
Definition charcode (shift : Z) : Z -> Z :=
  let i := Z.land shift (Z.lor CTL SHIFT) in
  if i =? 0 then normalmap else if i =? 1 then shiftmap else ctlmap.

(** [kbdgetc] when the controller has a byte: the character and [shift]. *)
Definition kbdgetc (data shift : Z) : Z * Z :=
  if data =? 224 then (0, Z.lor shift E0ESC)
  else if negb (Z.land data 128 =? 0) then
    let data := if Z.land shift E0ESC =? 0 then Z.land data 127 else data in
    (0, Z.ldiff shift (Z.lor (shiftcode data) E0ESC))
  else
    let esc := negb (Z.land shift E0ESC =? 0) in
    let data := if esc then Z.lor data 128 else data in
    let shift := if esc then Z.ldiff shift E0ESC else shift in
    let shift := Z.lxor (Z.lor shift (shiftcode data)) (togglecode data) in
    let c := charcode shift data in
    let c := if Z.land shift CAPSLOCK =? 0 then c
             else if (97 <=? c) && (c <=? 122) then c - 32
             else if (65 <=? c) && (c <=? 90) then c + 32 else c in
    (c, shift).

(** The characters [consoleintr] takes from the bytes the controller holds. *)
Fixpoint kbd_chars (data : list Z) (shift : Z) : list Z * Z :=
  match data with
  | [] => ([], shift)
  | d :: data =>
      let (c, shift) := kbdgetc d shift in
      let (cs, shift) := kbd_chars data shift in (c :: cs, shift)
  end.

Definition kbdintr (data : list Z) (shift : Z) (k : console) : outcome (console * bool * bool * Z) :=
  let (cs, shift) := kbd_chars data shift in
  let! (k, woken, dump) := consoleintr cs k in
  Ok (k, woken, dump, shift).
