(* ===== verification/ConsoleProps.v ===== *)
(** The console: the screen stays within its rows, and the input ring with its
    three wrapping indices is a line editor on lists. *)
From S2P Require Import Prelude Console.

(** * The screen *)

Definition screen_ok (m : list Z) (pos : Z) : Prop := length m = 2000%nat /\ 0 <= pos < 1920.

Lemma crt_set_ok i c m : length m = 2000%nat -> 0 <= i < 2000 ->
  exists m', crt_set i c m = Ok m' /\ length m' = 2000%nat.
Proof.
  intros Hm Hi. unfold crt_set. rewrite Hm. change (Z.of_nat 2000) with 2000.
  assert ((0 <=? i) && (i <? 2000) = true) as -> by lia. eexists. split; [done|]. by rewrite length_insert.
Qed.

Lemma length_scroll m pos : length m = 2000%nat -> 0 <= pos <= 1920 -> length (scroll m pos) = 2000%nat.
Proof.
  intros Hm Hp. unfold scroll. rewrite !length_app, length_replicate, length_drop, length_take, !length_app, length_take, !length_drop. lia.
Qed.

Lemma cgaputc_ok c m pos : screen_ok m pos -> exists m' pos', cgaputc c m pos = Ok (m', pos') /\ screen_ok m' pos'.
Proof.
  intros [Hm Hp]. assert (exists m1 p1, (if c =? NEWLINE then Ok (m, pos + (80 - pos mod 80))
    else if c =? BACKSPACE then Ok (m, if 0 <? pos then pos - 1 else pos)
    else let! m := crt_set pos (Z.lor (Z.land c 255) 1792) m in Ok (m, pos + 1)) = Ok (m1, p1)
    /\ length m1 = 2000%nat /\ 0 <= p1 < 2000) as (m1 & p1 & E & Hm1 & Hp1).
  { destruct (c =? NEWLINE); [eexists _, _; split; [done|]; split; [done|]; zlia|]. destruct (c =? BACKSPACE).
    - eexists _, _. split; [done|]. split; [done|]. destruct (Z.ltb_spec 0 pos); lia.
    - destruct (crt_set_ok pos (Z.lor (Z.land c 255) 1792) m Hm ltac:(lia)) as (m' & -> & Hm').
      eexists _, _. split; [done|]. split; [done|]. lia. }
  unfold cgaputc. rewrite E. cbn [obind]. assert ((p1 <? 0) || (25 * 80 <? p1) = false) as -> by lia.
  destruct (Z.leb_spec 24 (p1 / 80)) as [H|H].
  - destruct (crt_set_ok (p1 - 80) (Z.lor 32 1792) (scroll m1 (p1 - 80))) as (m2 & -> & Hm2); [apply length_scroll; [done|]; zlia|zlia|].
    eexists _, _. split; [done|]. split; [done|]. zlia.
  - destruct (crt_set_ok p1 (Z.lor 32 1792) m1 Hm1 ltac:(lia)) as (m2 & -> & Hm2).
    eexists _, _. split; [done|]. split; [done|]. zlia.
Qed.

(** What [consputc] leaves alone. *)
Definition same_input (k k' : console) : Prop :=
  ibuf k' = ibuf k /\ ir k' = ir k /\ iw k' = iw k /\ ie k' = ie k.

Lemma consputc_ok c k : screen_ok (crt k) (cursor k) ->
  exists k', consputc c k = Ok k' /\ screen_ok (crt k') (cursor k') /\ same_input k k'.
Proof.
  intros Hk. unfold consputc. destruct (cgaputc_ok c _ _ Hk) as (m & p & -> & Hs). cbn [obind].
  eexists. split; [done|]. split; [exact Hs|done].
Qed.

(** * The ring *)

(** The [n] bytes from index [s]. *)
Definition win (b : list Z) (s : Z) (n : nat) : list Z := map (fun i => default 0 (b !! ring_slot (s + Z.of_nat i))) (seq 0 n).

Lemma slot_u32 x : ring_slot (u32 x) = ring_slot x.
Proof. unfold ring_slot, INPUT_BUF. zlia. Qed.

Lemma slot_lt x : (ring_slot x < 128)%nat.
Proof. unfold ring_slot, INPUT_BUF. zlia. Qed.

Lemma slot_ne x y : 0 < x - y < 128 -> ring_slot x <> ring_slot y.
Proof. unfold ring_slot, INPUT_BUF. zlia. Qed.

Lemma win_ext b s n b' s' : (forall i, (i < n)%nat -> b !! ring_slot (s + Z.of_nat i) = b' !! ring_slot (s' + Z.of_nat i)) -> win b s n = win b' s' n.
Proof. intros H. apply map_ext_in. intros i Hi%in_seq. by rewrite H by lia. Qed.

Lemma win_S_r b s n : win b s (S n) = win b s n ++ [default 0 (b !! ring_slot (s + Z.of_nat n))].
Proof. unfold win. by rewrite seq_S, map_app. Qed.

Lemma win_S_l b s n : win b s (S n) = default 0 (b !! ring_slot s) :: win b (s + 1) n.
Proof.
  unfold win. cbn [seq map]. rewrite Z.add_0_r. f_equal. rewrite <- seq_shift, map_map. apply map_ext.
  intros i. by replace (s + Z.of_nat (S i)) with (s + 1 + Z.of_nat i) by lia.
Qed.

Lemma win_u32 b s n : win b (u32 s) n = win b s n.
Proof.
  apply win_ext. intros i _. rewrite <- (slot_u32 (u32 s + _)), u32_add_l. by rewrite slot_u32.
Qed.

Lemma length_win b s n : length (win b s n) = n.
Proof. unfold win. by rewrite length_map, length_seq. Qed.

Lemma win_app b n : forall s m, win b s (n + m) = win b s n ++ win b (s + Z.of_nat n) m.
Proof.
  induction n as [|n IH]; intros s m; [by rewrite Z.add_0_r|]. cbn [Nat.add]. rewrite !win_S_l, IH. cbn [app].
  by replace (s + Z.of_nat (S n)) with (s + 1 + Z.of_nat n) by lia.
Qed.

Lemma win_insert b s n x c :
  (forall i, (i < n)%nat -> ring_slot (s + Z.of_nat i) <> ring_slot x) -> win (<[ring_slot x := c]> b) s n = win b s n.
Proof. intros H. apply win_ext. intros i Hi. apply list_lookup_insert_ne. by apply not_eq_sym, H. Qed.

(** * The line editor *)

(** Bytes that can be read, and the line still being typed. *)
Record editor := Ed { ready : list Z; line : list Z }.

Definition ed_key (c : Z) (s : editor) : editor * bool :=
  if c =? CTRL_P then (s, false)
  else if c =? CTRL_U then (Ed (ready s) [], false)
  else if (c =? CTRL_H) || (c =? 127) then (Ed (ready s) (removelast (line s)), false)
  else if negb (c =? 0) && (length (ready s) + length (line s) <? 128)%nat then
    let c := if c =? 13 then NEWLINE else c in
    let l := line s ++ [c] in
    if (c =? NEWLINE) || (c =? CTRL_D) || (length (ready s) + length l =? 128)%nat then (Ed (ready s ++ l) [], true)
    else (Ed (ready s) l, false)
  else (s, false).

Fixpoint ed_keys (cs : list Z) (s : editor) : editor * bool :=
  match cs with
  | [] => (s, false)
  | c :: cs => let (s, b) := ed_key c s in let (s, b') := ed_keys cs s in (s, b || b')
  end.

(** A read takes bytes up to a newline; an end-of-file mark ends it, and stays
    for the next read unless it is the first byte. *)
Fixpoint ed_read (killed some : bool) (n : nat) (q : list Z) : rdres * list Z :=
  match n with
  | O => (Returned [], q)
  | S n' =>
      match q with
      | [] => (if killed then Failed else Asleep [] n, [])
      | c :: q' =>
          if c =? CTRL_D then (Returned [], if some then q else q')
          else if c =? NEWLINE then (Returned [c], q')
          else match ed_read killed true n' q' with
               | (Returned l, q) => (Returned (c :: l), q)
               | (Asleep l m, q) => (Asleep (c :: l) m, q)
               | (Failed, q) => (Failed, q)
               end
      end
  end.

(** The ring holds the editor's state. *)
Record sim (k : console) (s : editor) : Prop := {
  sim_screen : screen_ok (crt k) (cursor k);
  sim_len : length (ibuf k) = 128%nat;
  sim_r : is_u32 (ir k);
  sim_w : iw k = u32 (ir k + Z.of_nat (length (ready s)));
  sim_e : ie k = u32 (iw k + Z.of_nat (length (line s)));
  sim_room : (length (ready s) + length (line s) <= 128)%nat;
  sim_ready : ready s = win (ibuf k) (ir k) (length (ready s));
  sim_line : line s = win (ibuf k) (iw k) (length (line s));
  sim_plain : NEWLINE ∉ line s
}.

Lemma sim_console0 : sim console0 (Ed [] []).
Proof. split; cbn; try done; try lia. all: set_solver. Qed.

Lemma sim_same k k' s : same_input k k' -> screen_ok (crt k') (cursor k') -> sim k s -> sim k' s.
Proof. intros (E1 & E2 & E3 & E4) Hs []. split; rewrite ?E1, ?E2, ?E3, ?E4; done. Qed.

Lemma sim_we k s : sim k s -> ie k = iw k <-> line s = [].
Proof.
  intros []. rewrite sim_e0. split.
  - intros E. apply length_zero_iff_nil. zlia.
  - intros ->. cbn. zlia.
Qed.

(** The last byte typed is before [e]. *)
Lemma sim_last k r l c : sim k (Ed r (l ++ [c])) -> at_ k (u32 (ie k - 1)) = c.
Proof.
  intros []. cbn [ready line] in *. unfold at_. rewrite slot_u32. rewrite length_app in *. cbn [length] in *.
  rewrite Nat.add_1_r, win_S_r in sim_line0. apply app_inj_tail in sim_line0 as [_ Hc]. rewrite Hc. do 2 f_equal.
  rewrite <- (slot_u32 (iw k + _)), <- (slot_u32 (ie k - 1)). f_equal. rewrite sim_e0. zlia.
Qed.

(** One byte back. *)
Lemma sim_back k r l c : sim k (Ed r (l ++ [c])) ->
  sim (set_input (ibuf k) (ir k) (iw k) (u32 (ie k - 1)) k) (Ed r l).
Proof.
  intros []. cbn [ready line] in *. rewrite length_app in *. cbn [length] in *. rewrite Nat.add_1_r, win_S_r in sim_line0.
  apply app_inj_tail in sim_line0 as [Hl _]. split; cbn; try done.
  - rewrite sim_e0. zlia.
  - lia.
  - set_solver.
Qed.

(** The windows after a byte is stored at [e]. *)
Lemma type_windows k r l c : sim k (Ed r l) -> (length r + length l < 128)%nat ->
  let b := <[ring_slot (ie k) := c]> (ibuf k) in
  r = win b (ir k) (length r) /\ l ++ [c] = win b (iw k) (length (l ++ [c])).
Proof.
  intros [] Hroom b. cbn [ready line] in *.
  assert (ring_slot (ie k) = ring_slot (ir k + Z.of_nat (length r) + Z.of_nat (length l))) as He.
  { rewrite sim_e0, slot_u32, sim_w0. rewrite <- (slot_u32 (u32 _ + _)), u32_add_l. apply slot_u32. }
  assert (forall i, ring_slot (iw k + i) = ring_slot (ir k + Z.of_nat (length r) + i)) as Hw.
  { intros i. rewrite sim_w0. rewrite <- (slot_u32 (u32 _ + _)), u32_add_l. apply slot_u32. }
  split.
  - rewrite sim_ready0 at 1. symmetry. unfold b. rewrite He. apply win_insert. intros i Hi. apply not_eq_sym, slot_ne. lia.
  - rewrite length_app, Nat.add_1_r, win_S_r. f_equal.
    + rewrite sim_line0 at 1. symmetry. unfold b. rewrite He. apply win_insert. intros i Hi. rewrite Hw. apply not_eq_sym, slot_ne. lia.
    + unfold b. rewrite Hw, <- He, list_lookup_insert_eq; [done|]. rewrite sim_len0. apply slot_lt.
Qed.

Lemma sim_type k r l c : sim k (Ed r l) -> (length r + length l < 128)%nat -> c <> NEWLINE ->
  sim (set_input (<[ring_slot (ie k) := c]> (ibuf k)) (ir k) (iw k) (u32 (ie k + 1)) k) (Ed r (l ++ [c])).
Proof.
  intros Hs Hroom Hc. destruct (type_windows k r l c Hs Hroom) as [Hr Hl]. destruct Hs. cbn [ready line] in *.
  split; cbn [ready line set_input ibuf ir iw ie crt cursor]; try done.
  - by rewrite length_insert.
  - rewrite sim_e0, length_app. cbn [length]. rewrite u32_add_l. f_equal. lia.
  - rewrite length_app. cbn. lia.
  - set_solver.
Qed.

Lemma sim_commit k r l c : sim k (Ed r l) -> (length r + length l < 128)%nat ->
  sim (set_input (<[ring_slot (ie k) := c]> (ibuf k)) (ir k) (u32 (ie k + 1)) (u32 (ie k + 1)) k) (Ed (r ++ l ++ [c]) []).
Proof.
  intros Hs Hroom. destruct (type_windows k r l c Hs Hroom) as [Hr Hl]. destruct Hs. cbn [ready line] in *.
  split; cbn [ready line set_input ibuf ir iw ie crt cursor]; try done.
  - by rewrite length_insert.
  - rewrite sim_e0, u32_add_l, sim_w0, !length_app. cbn [length]. rewrite <- Z.add_assoc, u32_add_l. f_equal. lia.
  - cbn [length]. rewrite Z.add_0_r. by rewrite u32_u32.
  - rewrite !length_app. cbn. lia.
  - rewrite length_app, win_app, <- Hr. f_equal. rewrite Hl at 1. rewrite sim_w0. apply win_u32.
  - set_solver.
Qed.

Lemma kill_line_ok r l : forall fuel k, (length l < fuel)%nat -> sim k (Ed r l) ->
  exists k', kill_line fuel k = Ok k' /\ sim k' (Ed r []).
Proof.
  induction l as [|c l IH] using rev_ind; intros fuel k Hf Hs; (destruct fuel as [|fuel]; [cbn in Hf; lia|]); cbn [kill_line].
  - assert (ie k = iw k) as -> by (by apply (sim_we _ _ Hs)). rewrite Z.eqb_refl. by exists k.
  - destruct (Z.eqb_spec (ie k) (iw k)) as [E|_].
    { apply (sim_we _ _ Hs) in E. cbn in E. by apply app_nil in E as [_ ?]. }
    rewrite (sim_last _ _ _ _ Hs). destruct (Z.eqb_spec c NEWLINE) as [->|_].
    { destruct (sim_plain _ _ Hs). cbn. set_solver. }
    cbn [negb andb]. pose proof (sim_back _ _ _ _ Hs) as Hb.
    destruct (consputc_ok BACKSPACE _ (sim_screen _ _ Hb)) as (k1 & -> & Hscr & Hin). cbn [obind].
    apply IH; [rewrite length_app in Hf; cbn in Hf; lia|]. by eapply sim_same.
Qed.

Lemma console_key_ok c k s : 0 <= c < 256 -> sim k s ->
  exists k' d, console_key c k = Ok (k', snd (ed_key c s), d) /\ sim k' (fst (ed_key c s)).
Proof.
  intros Hc Hs. destruct s as [r l]. unfold console_key, ed_key. cbn [ready line].
  destruct (c =? CTRL_P); [by exists k, true|]. destruct (c =? CTRL_U).
  { destruct (kill_line_ok r l 129 k) as (k' & -> & Hk'); [pose proof (sim_room _ _ Hs); cbn in *; lia|done|]. by exists k', false. }
  destruct ((c =? CTRL_H) || (c =? 127)).
  { destruct (snoc_cases l) as [->|(l' & x & ->)].
    - assert (ie k = iw k) as -> by (by apply (sim_we _ _ Hs)). rewrite Z.eqb_refl. by exists k, false.
    - destruct (Z.eqb_spec (ie k) (iw k)) as [E|_]; [apply (sim_we _ _ Hs) in E; cbn in E; by apply app_nil in E as [_ ?]|].
      pose proof (sim_back _ _ _ _ Hs) as Hb. cbn [negb].
      destruct (consputc_ok BACKSPACE _ (sim_screen _ _ Hb)) as (k1 & -> & Hscr & Hin). cbn [obind]. rewrite removelast_last.
      exists k1, false. split; [done|]. by eapply sim_same. }
  assert (u32 (ie k - ir k) = Z.of_nat (length r + length l)) as Hfill.
  { destruct Hs. cbn [ready line] in *. rewrite sim_e0, sim_w0. zlia. }
  assert ((u32 (ie k - ir k) <? INPUT_BUF) = (length r + length l <? 128)%nat) as ->.
  { rewrite Hfill. unfold INPUT_BUF. destruct (Nat.ltb_spec (length r + length l) 128); [apply Z.ltb_lt|apply Z.ltb_ge]; lia. }
  destruct (Z.eqb_spec c 0); [by exists k, false|]. cbn [negb andb].
  destruct (Nat.ltb_spec (length r + length l) 128) as [Hroom|_]; [|by exists k, false].
  cbv zeta. set (c' := if c =? 13 then NEWLINE else c).
  assert (u8 c' = c') as Hu by (unfold c', NEWLINE; destruct (c =? 13); apply u8_id; lia). rewrite Hu.
  match goal with |- context [consputc c' ?x] => destruct (consputc_ok c' x (sim_screen _ _ Hs)) as (k1 & -> & Hscr & Hin) end.
  cbn [obind]. pose proof Hin as (E1 & E2 & E3 & E4). cbn [set_input ibuf ir iw ie] in E1, E2, E3, E4.
  assert ((ie k1 =? u32 (ir k1 + INPUT_BUF)) = (length r + length (l ++ [c']) =? 128)%nat) as ->.
  { rewrite E4, E2, length_app. cbn [length]. unfold INPUT_BUF. destruct Hs. cbn [ready line] in *. 
    destruct (Nat.eqb_spec (length r + (length l + 1)) 128); [apply Z.eqb_eq|apply Z.eqb_neq]; zlia. }
  destruct ((c' =? NEWLINE) || (c' =? CTRL_D) || _) eqn:Ec.
  - exists (set_input (ibuf k1) (ir k1) (ie k1) (ie k1) k1), false. split; [done|]. cbn [fst].
    eapply sim_same; [| |apply (sim_commit k r l c' Hs Hroom)]; [|exact Hscr]. unfold same_input. cbn. by rewrite E1, E2, E4.
  - exists k1, false. split; [done|]. cbn [fst]. eapply sim_same; [exact Hin|exact Hscr|]. apply sim_type; [done|done|].
    intros E. rewrite E in Ec. done.
Qed.

Lemma sim_take k c r l : sim k (Ed (c :: r) l) ->
  ir k <> iw k /\ at_ k (ir k) = c /\ sim (set_input (ibuf k) (u32 (ir k + 1)) (iw k) (ie k) k) (Ed r l).
Proof.
  intros []. cbn [ready line length] in *. rewrite win_S_l in sim_ready0. injection sim_ready0 as Hc Hr.
  split; [rewrite sim_w0; zlia|]. split; [by rewrite Hc|].
  split; cbn [ready line set_input ibuf ir iw ie crt cursor]; try done.
  - apply u32_range.
  - rewrite sim_w0, u32_add_l. f_equal. lia.
  - lia.
  - rewrite win_u32. exact Hr.
Qed.

Lemma sim_empty k l : sim k (Ed [] l) -> ir k = iw k.
Proof. intros []. cbn in *. rewrite sim_w0. zlia. Qed.

Lemma read_loop_ok killed n : forall some k r l, sim k (Ed r l) ->
  exists k', read_loop killed some n k = (fst (ed_read killed some n r), k') /\ sim k' (Ed (snd (ed_read killed some n r)) l).
Proof.
  induction n as [|n IH]; intros some k r l Hs; [by exists k|]. cbn [read_loop ed_read]. destruct r as [|c r].
  { rewrite (sim_empty _ _ Hs), Z.eqb_refl. by exists k. }
  destruct (sim_take _ _ _ _ Hs) as (Hne & Hat & Ht). destruct (Z.eqb_spec (ir k) (iw k)); [done|]. rewrite Hat.
  destruct (Z.eqb_spec c CTRL_D) as [->|_].
  { destruct some; eexists; (split; [done|]); [|exact Ht]. cbn [set_input ibuf ir iw ie].
    assert (u32 (u32 (ir k + 1) - 1) = ir k) as -> by (pose proof (sim_r _ _ Hs); zlia). by destruct k. }
  destruct (c =? NEWLINE); [eexists; split; [done|exact Ht]|].
  destruct (IH true _ _ _ Ht) as (k' & E & Hk'). rewrite E. destruct (ed_read killed true n r) as [[d|d m|] q]; by exists k'.
Qed.

(** * Histories *)

(** An interrupt that delivers characters, and a call to read. *)
Inductive event := Keys (cs : list Z) | Read (killed : bool) (n : Z).
Inductive answer := Woke (b : bool) | Got (r : rdres).

Fixpoint con_run (evs : list event) (k : console) : outcome (list answer * console) :=
  match evs with
  | [] => Ok ([], k)
  | Keys cs :: evs =>
      let! (k, woken, _) := consoleintr cs k in
      let! (a, k) := con_run evs k in Ok (Woke woken :: a, k)
  | Read killed n :: evs =>
      let (r, k) := consoleread killed n k in
      let! (a, k) := con_run evs k in Ok (Got r :: a, k)
  end.

Fixpoint ed_run (evs : list event) (s : editor) : list answer * editor :=
  match evs with
  | [] => ([], s)
  | Keys cs :: evs =>
      let (s, woken) := ed_keys cs s in
      let (a, s) := ed_run evs s in (Woke woken :: a, s)
  | Read killed n :: evs =>
      let (r, q) := ed_read killed false (Z.to_nat n) (ready s) in
      let (a, s) := ed_run evs (Ed q (line s)) in (Got r :: a, s)
  end.

(** Characters are bytes. *)
Definition bytes_in (ev : event) : Prop :=
  match ev with Keys cs => Forall (fun c => 0 <= c < 256) cs | Read _ _ => True end.

Lemma consoleintr_ok cs : forall k s, Forall (fun c => 0 <= c < 256) cs -> sim k s ->
  exists k' d, consoleintr cs k = Ok (k', snd (ed_keys cs s), d) /\ sim k' (fst (ed_keys cs s)).
Proof.
  induction cs as [|c cs IH]; intros k s Hc Hs; [by exists k, false|]. apply Forall_cons in Hc as [Hc Hcs]. cbn [consoleintr ed_keys].
  destruct (console_key_ok c k s Hc Hs) as (k1 & d1 & -> & H1). cbn [obind]. destruct (ed_key c s) as [s1 b1]. cbn [fst snd] in H1.
  destruct (IH k1 s1 Hcs H1) as (k2 & d2 & -> & H2). cbn [obind]. destruct (ed_keys cs s1) as [s2 b2]. by exists k2, (d1 || d2).
Qed.

Lemma con_run_ok evs : forall k s, Forall bytes_in evs -> sim k s ->
  exists k', con_run evs k = Ok (fst (ed_run evs s), k') /\ sim k' (snd (ed_run evs s)).
Proof.
  induction evs as [|ev evs IH]; intros k s Hev Hs; [by exists k|]. apply Forall_cons in Hev as [Hc Hev].
  destruct ev as [cs|killed n]; cbn [con_run ed_run].
  - destruct (consoleintr_ok cs k s Hc Hs) as (k1 & d & -> & H1). cbn [obind]. destruct (ed_keys cs s) as [s1 b]. cbn [fst snd] in H1 |- *.
    destruct (IH k1 s1 Hev H1) as (k2 & -> & H2). cbn [obind]. destruct (ed_run evs s1) as [a s2]. by exists k2.
  - destruct s as [r l]. unfold consoleread. destruct (read_loop_ok killed (Z.to_nat n) false k r l Hs) as (k1 & -> & H1).
    cbn [ready line]. destruct (ed_read killed false (Z.to_nat n) r) as [res q]. cbn [fst snd] in H1 |- *.
    destruct (IH k1 _ Hev H1) as (k2 & -> & H2). cbn [obind]. destruct (ed_run evs _) as [a s2]. by exists k2.
Qed.

(** C26.  From start-up on, whatever characters arrive and whatever reads are
    made, the console answers as the line editor on lists does: a byte typed
    is read once and in order, erasing and killing act on the unfinished line
    only, readers are woken exactly when a line is finished or the ring is
    full, however often the indices wrap around; and the screen driver never
    leaves its memory nor panics. *)
Theorem console_refines evs : Forall bytes_in evs ->
  exists k, con_run evs console0 = Ok (fst (ed_run evs (Ed [] [])), k) /\ screen_ok (crt k) (cursor k).
Proof.
  intros Hev. destruct (con_run_ok evs console0 _ Hev sim_console0) as (k & E & Hs). exists k. split; [exact E|apply Hs].
Qed.

Lemma console_refines_witness :
  exists k, con_run [Keys [108; 120; 8; 115; 13; 97]; Read false 100; Read false 100] console0
    = Ok ([Woke true; Got (Returned [108; 115; 10]); Got (Asleep [] 100)], k) /\ screen_ok (crt k) (cursor k).
Proof.
  apply (console_refines [Keys [108; 120; 8; 115; 13; 97]; Read false 100; Read false 100]).
  repeat constructor; lia.
Defined.

(** * The keyboard feeds the editor bytes *)

Definition byte (c : Z) : Prop := 0 <= c < 256.

Lemma keypad_byte e s d : byte e -> byte s -> byte (keypad e s d).
Proof. intros He Hs. unfold keypad. repeat (destruct (_ =? _); [first [done|unfold byte; lia]|]). unfold byte. lia. Qed.

Lemma keys_byte l e s d : Forall byte l -> byte e -> byte s -> byte (default (keypad e s d) (l !! Z.to_nat d)).
Proof.
  intros Hl He Hs. destruct (l !! Z.to_nat d) as [c|] eqn:E; cbn; [by eapply Forall_lookup_1|by apply keypad_byte].
Qed.

Lemma charcode_byte shift d : byte (charcode shift d).
Proof.
  unfold charcode. repeat (destruct (_ =? _)); apply keys_byte; try (unfold byte; lia); repeat constructor; unfold byte; lia.
Qed.

Lemma kbdgetc_byte d shift : byte (fst (kbdgetc d shift)).
Proof.
  unfold kbdgetc. destruct (d =? 224); [unfold byte; cbn; lia|]. destruct (negb _); [unfold byte; cbn; lia|]. cbv zeta. cbn [fst].
  match goal with |- context [charcode ?s ?x] => pose proof (charcode_byte s x) as Hc; generalize dependent (charcode s x) end.
  intros c Hc. unfold byte in *. match goal with |- context [if ?b then c else _] => destruct b end; [done|].
  destruct ((97 <=? c) && _) eqn:E1; [lia|]. destruct ((65 <=? c) && _) eqn:E2; lia.
Qed.

Lemma kbd_chars_byte data : forall shift, Forall byte (fst (kbd_chars data shift)).
Proof.
  induction data as [|d data IH]; intros shift; [constructor|]. cbn. pose proof (kbdgetc_byte d shift) as Hc.
  destruct (kbdgetc d shift) as [c s1]. specialize (IH s1). destruct (kbd_chars data s1). by constructor.
Qed.

(** A keyboard interrupt is a step of the editor on the characters the keys
    stand for, for every sequence of key codes. *)
Lemma kbdintr_ok data shift k s : sim k s ->
  exists k' d, kbdintr data shift k = Ok (k', snd (ed_keys (fst (kbd_chars data shift)) s), d, snd (kbd_chars data shift))
    /\ sim k' (fst (ed_keys (fst (kbd_chars data shift)) s)).
Proof.
  intros Hs. unfold kbdintr. pose proof (kbd_chars_byte data shift) as Hb. destruct (kbd_chars data shift) as [cs sh]. cbn [fst snd] in *.
  destruct (consoleintr_ok cs k s Hb Hs) as (k' & d & -> & Hk'). by exists k', d.
Qed.
