(* ===== verification/Sh.v ===== *)
(** sh.c: the parser of the shell.  The line is a C string; a pointer into it
    is the suffix it points to, so the characters it reads past the end are
    the NUL.  A syntax error is [Panic] with the message the shell prints
    before it exits.  The constructors' [malloc] is taken to succeed: the shell
    does not test its result. *)
From S2P Require Import Prelude.

Definition MAXARGS : nat := 10.
(** [O_RDONLY], and [O_WRONLY|O_CREATE]. *)
Definition RD : Z := 0.
Definition WR : Z := 513.

Definition whitespace : list Z := [32; 9; 13; 10; 11].
Definition symbols : list Z := [60; 124; 62; 38; 59; 40; 41].

Definition among (c : Z) (s : list Z) : bool := existsb (Z.eqb c) s.

(** [while(s < es && strchr(whitespace, *s)) s++]. *)
Fixpoint skip_ws (s : list Z) : list Z :=
  match s with
  | c :: r => if among c whitespace then skip_ws r else s
  | [] => []
  end.

Definition word_char (c : Z) : bool := negb (among c whitespace) && negb (among c symbols).

Fixpoint skip_word (s : list Z) : list Z :=
  match s with
  | c :: r => if word_char c then skip_word r else s
  | [] => []
  end.

(** Tokens: [0], ['a'], ['+'] or a symbol. *)
Definition TWORD : Z := 97.
Definition TAPPEND : Z := 43.

(** The token, [*q], [*eq] and [*ps]. *)
Definition gettoken (ps : list Z) : Z * list Z * list Z * list Z :=
  let q := skip_ws ps in
  let '(ret, eq) :=
    match q with
    | [] => (0, q)
    | c :: r =>
        if among c [124; 40; 41; 59; 38; 60] then (c, r)
        else if c =? 62 then
          match r with
          | d :: r' => if d =? 62 then (TAPPEND, r') else (c, r)
          | [] => (c, r)
          end
        else (TWORD, skip_word q)
    end in
  (ret, q, eq, skip_ws eq).

(** The answer of [peek] and [*ps]. *)
Definition peek (ps toks : list Z) : bool * list Z :=
  let s := skip_ws ps in
  (match s with [] => false | c :: _ => among c toks end, s).

(** A counted string: its first character and the one past its end. *)
Definition token : Type := list Z * list Z.

Inductive cmd :=
| EXEC (argv : list token)
| REDIR (c : cmd) (file : token) (mode fd : Z)
| PIPE (left right : cmd)
| LIST (left right : cmd)
| BACK (c : cmd).

(** [redircmd] around a command for each redirection, the first innermost. *)
Definition redircmd (c : cmd) (r : token * Z * Z) : cmd := REDIR c (r.1.1) (r.1.2) (r.2).
Definition redircmds (c : cmd) (rs : list (token * Z * Z)) : cmd := fold_left redircmd rs c.

(** The loop of [parseredirs]: the redirections it wraps around its command. *)
Fixpoint parseredirs (fuel : nat) (s : list Z) : outcome (list (token * Z * Z) * list Z) :=
  match fuel with
  | O => UB "fuel"
  | S fuel =>
      let (more, s) := peek s [60; 62] in
      if negb more then Ok ([], s)
      else
        let '(tok, _, _, s) := gettoken s in
        let '(t, q, eq, s) := gettoken s in
        if negb (t =? TWORD) then Panic "missing file for redirection"
        else
          let r := if tok =? 60 then [((q, eq), RD, 0)]
                   else if tok =? 62 then [((q, eq), WR, 1)]
                   else if tok =? TAPPEND then [((q, eq), WR, 1)] else [] in
          let! (rs, s) := parseredirs fuel s in
          Ok (r ++ rs, s)
  end.

(** The loop of [parseexec] with [argc] arguments stored: the rest of [argv],
    and the redirections around the command. *)
Fixpoint parseargs (fuel argc : nat) (s : list Z) : outcome (list token * list (token * Z * Z) * list Z) :=
  match fuel with
  | O => UB "fuel"
  | S fuel =>
      let (stop, s) := peek s [124; 41; 38; 59] in
      if stop then Ok ([], [], s)
      else
        let '(tok, q, eq, s) := gettoken s in
        if tok =? 0 then Ok ([], [], s)
        else if negb (tok =? TWORD) then Panic "syntax"
        else if (MAXARGS <=? S argc)%nat then Panic "too many args"
        else
          let! (rs, s) := parseredirs (S (length s)) s in
          let! (args, rs', s) := parseargs fuel (S argc) s in
          Ok ((q, eq) :: args, rs ++ rs', s)
  end.

(** [while(peek(ps, es, "&"))] of [parseline]. *)
Fixpoint parseback (fuel : nat) (c : cmd) (s : list Z) : outcome (cmd * list Z) :=
  match fuel with
  | O => UB "fuel"
  | S fuel =>
      let (more, s) := peek s [38] in
      if more then let '(_, _, _, s) := gettoken s in parseback fuel (BACK c) s
      else Ok (c, s)
  end.

Fixpoint parseline (n : nat) (s : list Z) : outcome (cmd * list Z) :=
  match n with
  | O => UB "fuel"
  | S n =>
      let! (c, s) := parsepipe n s in
      let! (c, s) := parseback (S (length s)) c s in
      let (more, s) := peek s [59] in
      if more then
        let '(_, _, _, s) := gettoken s in
        let! (c', s) := parseline n s in
        Ok (LIST c c', s)
      else Ok (c, s)
  end
with parsepipe (n : nat) (s : list Z) : outcome (cmd * list Z) :=
  match n with
  | O => UB "fuel"
  | S n =>
      let! (c, s) := parseexec n s in
      let (more, s) := peek s [124] in
      if more then
        let '(_, _, _, s) := gettoken s in
        let! (c', s) := parsepipe n s in
        Ok (PIPE c c', s)
      else Ok (c, s)
  end
with parseexec (n : nat) (s : list Z) : outcome (cmd * list Z) :=
  match n with
  | O => UB "fuel"
  | S n =>
      let (block, s) := peek s [40] in
      if block then parseblock n s
      else
        let! (rs, s) := parseredirs (S (length s)) s in
        let! (args, rs', s) := parseargs (S (length s)) 0 s in
        Ok (redircmds (EXEC args) (rs ++ rs'), s)
  end
with parseblock (n : nat) (s : list Z) : outcome (cmd * list Z) :=
  match n with
  | O => UB "fuel"
  | S n =>
      let (block, s) := peek s [40] in
      if negb block then Panic "parseblock"
      else
        let '(_, _, _, s) := gettoken s in
        let! (c, s) := parseline n s in
        let (closed, s) := peek s [41] in
        if negb closed then Panic "syntax - missing )"
        else
          let '(_, _, _, s) := gettoken s in
          let! (rs, s) := parseredirs (S (length s)) s in
          Ok (redircmds c rs, s)
  end.

(** [nulterminate] on a buffer of [len] characters and the NUL: the tokens'
    ends are overwritten. *)
Definition cut (len : nat) (t : token) (buf : list Z) : list Z := <[(len - length t.2)%nat := 0]> buf.

Fixpoint nulterminate (len : nat) (c : cmd) (buf : list Z) : list Z :=
  match c with
  | EXEC argv => fold_left (fun b t => cut len t b) argv buf
  | REDIR c file _ _ => cut len file (nulterminate len c buf)
  | PIPE l r | LIST l r => nulterminate len r (nulterminate len l buf)
  | BACK c => nulterminate len c buf
  end.

(** [parsecmd]: the command and the buffer its tokens point into. *)
Definition parsecmd (s : list Z) : outcome (cmd * list Z) :=
  let! (c, rest) := parseline (4 * length s + 4) s in
  let (_, rest) := peek rest [] in
  match rest with
  | [] => Ok (c, nulterminate (length s) c (s ++ [0]))
  | _ => Panic "syntax"
  end.

(** The string a token's pointer gives in a buffer of [len] characters. *)
Definition text_at (len : nat) (buf : list Z) (t : token) : list Z := cstr (drop (len - length t.1) buf).
