(* ===== verification/ShPrint.v ===== *)
(** The shell parses every command it can print: lists, background commands,
    pipes, blocks, redirections and words come back as the tree they were, and
    after [nulterminate] every token is the C string of its word. *)
From S2P Require Import Prelude Sh ShProps.

#[local] Arguments among : simpl never.
#[local] Arguments word_char : simpl never.

(** * Commands and their text *)

Definition word : Type := list Z.
Inductive rkind := RIn | ROut | RApp.

(** The grammar of the parser; a simple command has redirections before its
    first word and after each word. *)
Inductive line :=
| LEnd (p : pipeline) (bg : nat)
| LSeq (p : pipeline) (bg : nat) (l : line)
with pipeline :=
| POne (e : xcmd)
| PBar (e : xcmd) (p : pipeline)
with xcmd :=
| XBlock (l : line) (rs : list (rkind * word))
| XSimple (rs : list (rkind * word)) (args : list (word * list (rkind * word))).

Scheme line_mut := Induction for line Sort Prop
with pipeline_mut := Induction for pipeline Sort Prop
with exec_mut := Induction for xcmd Sort Prop.
Combined Scheme syntax_ind from line_mut, pipeline_mut, exec_mut.

Definition print_redir (r : rkind * word) : list Z :=
  (match r.1 with RIn => [60; 32] | ROut => [62; 32] | RApp => [62; 62; 32] end) ++ r.2 ++ [32].
Definition print_redirs (rs : list (rkind * word)) : list Z := concat (map print_redir rs).
Definition print_args (args : list (word * list (rkind * word))) : list Z :=
  concat (map (fun a => a.1 ++ [32] ++ print_redirs a.2) args).
Definition print_bg (bg : nat) : list Z := concat (replicate bg [38; 32]).

Fixpoint print_line (l : line) : list Z :=
  match l with
  | LEnd p bg => print_pipe p ++ print_bg bg
  | LSeq p bg l => print_pipe p ++ print_bg bg ++ [59; 32] ++ print_line l
  end
with print_pipe (p : pipeline) : list Z :=
  match p with
  | POne e => print_exec e
  | PBar e p => print_exec e ++ [124; 32] ++ print_pipe p
  end
with print_exec (e : xcmd) : list Z :=
  match e with
  | XBlock l rs => [40; 32] ++ print_line l ++ [41; 32] ++ print_redirs rs
  | XSimple rs args => print_redirs rs ++ print_args args
  end.

(** A word: not empty, and no white space, symbol or NUL. *)
Definition wordy (w : word) : Prop := w <> [] /\ Forall (fun c => word_char c = true /\ c <> 0) w.
Definition redirs_ok (rs : list (rkind * word)) : Prop := Forall (fun r => wordy r.2) rs.

(** Fewer words than [argv] has room for. *)
Fixpoint line_ok (l : line) : Prop :=
  match l with LEnd p _ => pipe_ok p | LSeq p _ l => pipe_ok p /\ line_ok l end
with pipe_ok (p : pipeline) : Prop :=
  match p with POne e => exec_ok e | PBar e p => exec_ok e /\ pipe_ok p end
with exec_ok (e : xcmd) : Prop :=
  match e with
  | XBlock l rs => line_ok l /\ redirs_ok rs
  | XSimple rs args => redirs_ok rs /\ Forall (fun a => wordy a.1 /\ redirs_ok a.2) args /\ (length args < MAXARGS)%nat
  end.

(** * The trees *)

(** A command tree with words for tokens. *)
Inductive tree :=
| TEXEC (argv : list word)
| TREDIR (c : tree) (file : word) (mode fd : Z)
| TPIPE (left right : tree)
| TLIST (left right : tree)
| TBACK (c : tree).

Definition tredir (c : tree) (r : rkind * word) : tree :=
  match r.1 with RIn => TREDIR c r.2 RD 0 | ROut | RApp => TREDIR c r.2 WR 1 end.
Definition tredirs (c : tree) (rs : list (rkind * word)) : tree := fold_left tredir rs c.

Fixpoint tree_line (l : line) : tree :=
  match l with
  | LEnd p bg => Nat.iter bg TBACK (tree_pipe p)
  | LSeq p bg l => TLIST (Nat.iter bg TBACK (tree_pipe p)) (tree_line l)
  end
with tree_pipe (p : pipeline) : tree :=
  match p with POne e => tree_exec e | PBar e p => TPIPE (tree_exec e) (tree_pipe p) end
with tree_exec (e : xcmd) : tree :=
  match e with
  | XBlock l rs => tredirs (tree_line l) rs
  | XSimple rs args => tredirs (TEXEC (map fst args)) (rs ++ concat (map snd args))
  end.

Fixpoint view (len : nat) (buf : list Z) (c : cmd) : tree :=
  match c with
  | EXEC argv => TEXEC (map (text_at len buf) argv)
  | REDIR c file mode fd => TREDIR (view len buf c) (text_at len buf file) mode fd
  | PIPE l r => TPIPE (view len buf l) (view len buf r)
  | LIST l r => TLIST (view len buf l) (view len buf r)
  | BACK c => TBACK (view len buf c)
  end.

(** * Tokens and words *)

(** The token spans the word [w] of the line [b], up to a delimiter. *)
Definition spans (b : list Z) (t : token) (w : word) : Prop :=
  t.1 `suffix_of` b /\ t.1 = w ++ t.2 /\ Forall (fun c => word_char c = true /\ c <> 0) w
  /\ match t.2 with [] => True | c :: _ => word_char c = false end.

Fixpoint rep (b : list Z) (c : cmd) (a : tree) : Prop :=
  match c, a with
  | EXEC argv, TEXEC ws => Forall2 (spans b) argv ws
  | REDIR c f m d, TREDIR a w m' d' => rep b c a /\ spans b f w /\ m = m' /\ d = d'
  | PIPE l r, TPIPE l' r' | LIST l r, TLIST l' r' => rep b l l' /\ rep b r r'
  | BACK c, TBACK a => rep b c a
  | _, _ => False
  end.

(** [buf] is the line with NULs over some of its delimiters. *)
Definition marked (b buf : list Z) : Prop :=
  length buf = S (length b) /\
  forall i c, (b ++ [0]) !! i = Some c -> buf !! i = Some c \/ (buf !! i = Some 0 /\ (c = 0 \/ word_char c = false)).

Lemma marked_cut b buf t w : marked b buf -> spans b t w -> marked b (cut (length b) t buf).
Proof.
  intros [Hl Hb] ([pre ->] & Ht & _ & Hd). unfold cut. split; [by rewrite length_insert|]. intros i c Hc.
  destruct (decide (i = length (pre ++ t.1) - length t.2)%nat) as [->|Hne]; [|rewrite list_lookup_insert_ne by done; by apply Hb].
  right. split; [apply list_lookup_insert_eq; rewrite Hl; lia|]. rewrite Ht in Hc.
  assert (length (pre ++ w ++ t.2) - length t.2 = length (pre ++ w))%nat as E by (rewrite !length_app; lia).
  rewrite E in Hc. rewrite app_assoc, <- app_assoc, lookup_app_r, Nat.sub_diag in Hc by lia. destruct t.2 as [|d e]; cbn in Hc; injection Hc as <-; [by left|by right].
Qed.

(** The end of a token is marked. *)
Definition ended (b buf : list Z) (t : token) : Prop := buf !! (length b - length t.2)%nat = Some 0.

Lemma ended_cut b buf t t' : marked b buf -> t = t' \/ ended b buf t' -> ended b (cut (length b) t buf) t'.
Proof.
  intros [Hl _] H. unfold ended, cut. destruct (decide ((length b - length t.2) = (length b - length t'.2))%nat) as [->|Hne].
  - apply list_lookup_insert_eq. rewrite Hl. lia.
  - destruct H as [->|H]; [done|]. by rewrite list_lookup_insert_ne.
Qed.

Fixpoint toks (c : cmd) : list token :=
  match c with
  | EXEC argv => argv
  | REDIR c f _ _ => f :: toks c
  | PIPE l r | LIST l r => toks l ++ toks r
  | BACK c => toks c
  end.

Lemma cut_all b argv : forall ws buf, Forall2 (spans b) argv ws -> marked b buf ->
  let buf' := fold_left (fun x t => cut (length b) t x) argv buf in
  marked b buf' /\ Forall (ended b buf') argv /\ (forall t, ended b buf t -> ended b buf' t).
Proof.
  induction argv as [|t argv IH]; intros ws buf Hr Hm; [by split_and!|]. inversion Hr as [|? w ? ws' Ht Hr']; subst. cbn.
  destruct (IH ws' (cut (length b) t buf) Hr' (marked_cut _ _ _ _ Hm Ht)) as (H1 & H2 & H3).
  split_and!; [done| |intros t' He; by apply H3, ended_cut; [|right]]. constructor; [|done]. apply H3, ended_cut; [done|by left].
Qed.

Lemma nulterminate_marks b c : forall a buf, rep b c a -> marked b buf ->
  let buf' := nulterminate (length b) c buf in
  marked b buf' /\ Forall (ended b buf') (toks c) /\ (forall t, ended b buf t -> ended b buf' t).
Proof.
  induction c as [argv|c IH f m d|l IHl r IHr|l IHl r IHr|c IH]; intros a buf Hr Hm; destruct a; try done; cbn [rep toks nulterminate] in *.
  - by eapply cut_all.
  - destruct Hr as (Hr & Hf & _). destruct (IH _ _ Hr Hm) as (H1 & H2 & H3). split_and!; [by eapply marked_cut| |].
    + constructor; [apply ended_cut; [done|by left]|]. eapply Forall_impl; [exact H2|]. intros t Ht. apply ended_cut; [done|by right].
    + intros t Ht. apply ended_cut; [done|right; by apply H3].
  - destruct Hr as [Hl Hr]. destruct (IHl _ _ Hl Hm) as (H1 & H2 & H3), (IHr _ _ Hr H1) as (H4 & H5 & H6).
    split_and!; [done| |eauto]. apply Forall_app. split; [|done]. eapply Forall_impl; [exact H2|done].
  - destruct Hr as [Hl Hr]. destruct (IHl _ _ Hl Hm) as (H1 & H2 & H3), (IHr _ _ Hr H1) as (H4 & H5 & H6).
    split_and!; [done| |eauto]. apply Forall_app. split; [|done]. eapply Forall_impl; [exact H2|done].
  - by eapply IH.
Qed.

Lemma cstr_prefix w : forall l, Forall (fun c => c <> 0) w -> (forall i c, w !! i = Some c -> l !! i = Some c) ->
  l !! length w = Some 0 -> cstr l = w.
Proof.
  induction w as [|c w IH]; intros l Hw Hl H0; (destruct l as [|x l]; [done|]); cbn in H0.
  - injection H0 as ->. done.
  - apply Forall_cons in Hw as [Hc Hw]. assert (x = c) as -> by (specialize (Hl 0%nat c eq_refl); cbn in Hl; congruence).
    cbn. destruct (Z.eqb_spec c 0); [done|]. f_equal. apply IH; [done| |done]. intros i y Hy. by apply (Hl (S i) y).
Qed.

Lemma text_at_word b buf t w : marked b buf -> spans b t w -> ended b buf t -> text_at (length b) buf t = w.
Proof.
  intros [Hl Hb] ([pre Hpre] & Ht & Hw & _) He. unfold text_at. assert (length b = length pre + length t.1)%nat as Hlen by (by rewrite Hpre, length_app).
  assert (length t.1 = length w + length t.2)%nat as Hlt by (by rewrite Ht, length_app).
  apply cstr_prefix; [by eapply Forall_impl; [exact Hw|]; intros ? [_ ?]| |].
  - intros i c Hi. rewrite lookup_drop. pose proof (lookup_lt_Some _ _ _ Hi) as Hlt'.
    destruct (Hb (length b - length t.1 + i)%nat c) as [H|[_ H]]; [|done|].
    + replace (length b - length t.1 + i)%nat with (length pre + i)%nat by lia. rewrite Hpre, <- app_assoc, lookup_app_r by lia.
      replace (length pre + i - length pre)%nat with i by lia. rewrite Ht, <- app_assoc. by rewrite lookup_app_l by lia.
    + apply (Forall_lookup_1 _ _ _ _ Hw) in Hi as [H1 H2]. destruct H; congruence.
  - rewrite lookup_drop. unfold ended in He. rewrite <- He. f_equal. lia.
Qed.

Lemma view_rep b buf c : forall a, rep b c a -> marked b buf -> Forall (ended b buf) (toks c) -> view (length b) buf c = a.
Proof.
  induction c as [argv|c IH f m d|l IHl r IHr|l IHl r IHr|c IH]; intros a Hr Hm He; destruct a as [ws| | | |]; try done; cbn [rep toks view] in *.
  - f_equal. revert He. induction Hr as [|t w argv ws Ht _ IH]; intros He; [done|]. apply Forall_cons in He as [H1 H2]. cbn.
    f_equal; [by eapply text_at_word|by apply IH].
  - destruct Hr as (Hr & Hf & -> & ->). apply Forall_cons in He as [H1 H2]. by rewrite (IH _ Hr Hm H2), (text_at_word b buf f _ Hm Hf H1).
  - destruct Hr as [Hl Hr]. apply Forall_app in He as [H1 H2]. by rewrite (IHl _ Hl Hm H1), (IHr _ Hr Hm H2).
  - destruct Hr as [Hl Hr]. apply Forall_app in He as [H1 H2]. by rewrite (IHl _ Hl Hm H1), (IHr _ Hr Hm H2).
  - by rewrite (IH _ Hr Hm He).
Qed.

Lemma marked_self b : marked b (b ++ [0]).
Proof. split; [rewrite length_app; cbn; lia|]. intros i c Hc. by left. Qed.

(** * Parsing what was printed *)

(** No white space in front. *)
Definition clean (s : list Z) : Prop := match s with [] => True | c :: _ => among c whitespace = false end.
Definition starts (toks s : list Z) : bool := match s with [] => false | c :: _ => among c toks end.

Lemma skip_ws_clean s : clean s -> skip_ws s = s.
Proof. destruct s as [|c s]; [done|]. cbn. by intros ->. Qed.

Lemma peek_clean s toks : clean s -> peek s toks = (starts toks s, s).
Proof. intros Hc. unfold peek. by rewrite (skip_ws_clean _ Hc). Qed.

Lemma skip_word_word w rest : Forall (fun c => word_char c = true /\ c <> 0) w -> skip_word (w ++ 32 :: rest) = 32 :: rest.
Proof. induction 1 as [|c w [Hc _] _ IH]; [done|]. cbn. by rewrite Hc. Qed.

Lemma word_char_plain c : word_char c = true -> among c whitespace = false /\ among c symbols = false.
Proof. unfold word_char. destruct (among c whitespace), (among c symbols); done. Qed.

Lemma gettoken_word w rest : wordy w -> clean rest ->
  gettoken (w ++ 32 :: rest) = (TWORD, w ++ 32 :: rest, 32 :: rest, rest).
Proof.
  intros [Hne Hw] Hc. destruct w as [|c w]; [done|]. pose proof (skip_word_word _ rest Hw) as Hs. apply Forall_cons in Hw as [[Hwc _] _].
  destruct (word_char_plain c Hwc) as [H1 H2]. unfold gettoken. rewrite (skip_ws_clean ((c :: w) ++ _)) by done. cbn [app].
  assert (among c [124; 40; 41; 59; 38; 60] = false) as -> by (unfold among, symbols in *; cbn [existsb] in *; lia).
  assert ((c =? 62) = false) as -> by (unfold among, symbols in *; cbn [existsb] in *; lia).
  cbn [app] in Hs. rewrite Hs. cbn. by rewrite (skip_ws_clean _ Hc).
Qed.

Lemma gettoken_symbol c rest : among c [124; 40; 41; 59; 38; 60; 62] = true -> clean rest ->
  exists q e, gettoken (c :: 32 :: rest) = (c, q, e, rest).
Proof.
  intros Hs Hc. unfold gettoken. assert (among c whitespace = false) as Hw by (unfold among, whitespace in *; cbn [existsb] in *; lia).
  cbn [skip_ws]. rewrite Hw. destruct (among c [124; 40; 41; 59; 38; 60]) eqn:E; [eexists _, _; cbn; by rewrite (skip_ws_clean _ Hc)|].
  assert ((c =? 62) = true) as -> by (unfold among in *; cbn [existsb] in *; lia). eexists _, _. cbn. by rewrite (skip_ws_clean _ Hc).
Qed.

Lemma gettoken_append rest : clean rest -> exists q e, gettoken (62 :: 62 :: 32 :: rest) = (TAPPEND, q, e, rest).
Proof. intros Hc. exists (62 :: 62 :: 32 :: rest), (32 :: rest). rewrite <- (skip_ws_clean _ Hc) at 4. reflexivity. Qed.

Lemma suffix_app_r (a s b : list Z) : a ++ s `suffix_of` b -> s `suffix_of` b.
Proof. intros [k ->]. exists (k ++ a). by rewrite app_assoc. Qed.

Lemma spans_word b w rest : wordy w -> w ++ 32 :: rest `suffix_of` b -> spans b (w ++ 32 :: rest, 32 :: rest) w.
Proof. intros [_ Hw] Hs. by split_and!. Qed.

Lemma clean_word w rest : wordy w -> clean (w ++ rest).
Proof. intros [Hne Hw]. destruct w as [|c w]; [done|]. apply Forall_cons in Hw as [[Hc _] _]. cbn. by apply word_char_plain. Qed.

Lemma clean_redirs rs rest : clean rest -> clean (print_redirs rs ++ rest).
Proof. destruct rs as [|[[] w] rs]; done. Qed.

Lemma clean_args args rest : Forall (fun a => wordy a.1 /\ redirs_ok a.2) args -> clean rest -> clean (print_args args ++ rest).
Proof.
  intros Ha Hr. destruct args as [|[w rs] args]; [done|]. apply Forall_cons in Ha as [[Hw _] _]. cbn. rewrite <- !app_assoc. by apply clean_word.
Qed.

Lemma print_redirs_cons k w rs rest :
  print_redirs ((k, w) :: rs) ++ rest
  = (match k with RIn => [60; 32] | ROut => [62; 32] | RApp => [62; 62; 32] end) ++ w ++ 32 :: (print_redirs rs ++ rest).
Proof. unfold print_redirs, print_redir. cbn. by rewrite <- !app_assoc. Qed.

Lemma starts_word w rest toks : wordy w -> Forall (fun c => among c symbols = true) toks -> starts toks (w ++ rest) = false.
Proof.
  intros [Hne Hw] Ht. destruct w as [|c w]; [done|]. apply Forall_cons in Hw as [[Hc _] _]. apply word_char_plain in Hc as [_ Hc].
  cbn. destruct (among c toks) eqn:E; [|done]. unfold among in E. apply existsb_exists in E as (x & Hx & E). apply Z.eqb_eq in E. subst x.
  rewrite Forall_forall in Ht. rewrite (Ht c) in Hc; [done|]. by apply list_elem_of_In.
Qed.

Lemma length_print_redirs rs : (length rs <= length (print_redirs rs))%nat.
Proof.
  induction rs as [|[k w] rs IH]; [done|]. rewrite <- (app_nil_r (print_redirs _)), print_redirs_cons, !length_app. cbn. rewrite length_app. lia.
Qed.

Definition rep_redir (b : list Z) (t : token * Z * Z) (r : rkind * word) : Prop :=
  spans b t.1.1 r.2 /\ match r.1 with RIn => t.1.2 = RD /\ t.2 = 0 | _ => t.1.2 = WR /\ t.2 = 1 end.

Lemma parse_redirs b rs : forall fuel rest, redirs_ok rs -> (length rs < fuel)%nat -> clean rest -> starts [60; 62] rest = false ->
  print_redirs rs ++ rest `suffix_of` b ->
  exists ts, parseredirs fuel (print_redirs rs ++ rest) = Ok (ts, rest) /\ Forall2 (rep_redir b) ts rs.
Proof.
  induction rs as [|[k w] rs IH]; intros fuel rest Hok Hf Hc Hst Hs; (destruct fuel as [|fuel]; [cbn in Hf; lia|]); cbn [parseredirs].
  - change (print_redirs [] ++ rest) with rest. rewrite peek_clean, Hst by done. by exists [].
  - apply Forall_cons in Hok as [Hw Hok]. cbn in Hw, Hf. set (tail := print_redirs rs ++ rest).
    assert (clean tail) as Htail by (by apply clean_redirs).
    assert (exists pre tok, print_redirs ((k, w) :: rs) ++ rest = pre ++ w ++ 32 :: tail /\ starts [60; 62] (pre ++ w ++ 32 :: tail) = true
      /\ clean (pre ++ w ++ 32 :: tail) /\ (exists q e, gettoken (pre ++ w ++ 32 :: tail) = (tok, q, e, w ++ 32 :: tail))
      /\ tok = match k with RIn => 60 | ROut => 62 | RApp => TAPPEND end) as (pre & tok & Epr & Hst' & Hcl & (q & e & Hg) & Htok).
    { assert (clean (w ++ 32 :: tail)) by (by apply clean_word). rewrite print_redirs_cons. fold tail. destruct k.
      - exists [60; 32], 60. split_and!; [done|done|done|by apply gettoken_symbol|done].
      - exists [62; 32], 62. split_and!; [done|done|done|by apply gettoken_symbol|done].
      - exists [62; 62; 32], TAPPEND. split_and!; [done|done|done|by apply gettoken_append|done]. }
    rewrite Epr in Hs |- *. rewrite peek_clean, Hst' by done. cbn [negb]. rewrite Hg, gettoken_word by done. cbn [Z.eqb negb]. rewrite Z.eqb_refl. cbn [negb].
    assert (w ++ 32 :: tail `suffix_of` b) as Hsw by (by eapply suffix_app_r).
    destruct (IH fuel rest Hok ltac:(lia) Hc Hst) as (ts & Hp & Hts); [eapply (suffix_app_r (w ++ [32])); by rewrite <- app_assoc|].
    fold tail in Hp. rewrite Hp. cbn [obind]. pose proof (spans_word b w tail Hw Hsw) as Hsp. rewrite Htok. destruct k; cbn; eexists; (split; [done|]); by constructor.
Qed.

(** What may follow a simple command, a pipeline and a line. *)
Definition follows (toks rest : list Z) : Prop := rest = [] \/ starts toks rest = true.

Lemma starts_other toks toks' rest : follows toks rest -> Forall (fun c => among c toks' = false) toks -> starts toks' rest = false.
Proof.
  intros [->|H] Ht; [done|]. destruct rest as [|c rest]; [done|]. cbn in *. unfold among in H. apply existsb_exists in H as (x & Hx & E).
  apply Z.eqb_eq in E. subst x. rewrite Forall_forall in Ht. apply (Ht c). by apply list_elem_of_In.
Qed.

Lemma follows_clean toks rest : follows toks rest -> Forall (fun c => among c whitespace = false) toks -> clean rest.
Proof. intros H Ht. pose proof (starts_other _ whitespace _ H Ht) as Hs. by destruct rest. Qed.

Lemma print_args_cons w rs args rest :
  print_args ((w, rs) :: args) ++ rest = w ++ 32 :: (print_redirs rs ++ (print_args args ++ rest)).
Proof. unfold print_args. cbn. by rewrite <- !app_assoc. Qed.

Lemma parse_args b args : forall fuel argc rest,
  Forall (fun a => wordy a.1 /\ redirs_ok a.2) args -> (length args < fuel)%nat -> (argc + length args < MAXARGS)%nat ->
  follows [124; 41; 38; 59] rest -> print_args args ++ rest `suffix_of` b ->
  exists ts rs, parseargs fuel argc (print_args args ++ rest) = Ok (ts, rs, rest)
    /\ Forall2 (spans b) ts (map fst args) /\ Forall2 (rep_redir b) rs (concat (map snd args)).
Proof.
  induction args as [|[w rs] args IH]; intros fuel argc rest Hok Hf Hm Hfo Hs; (destruct fuel as [|fuel]; [cbn in Hf; lia|]); cbn [parseargs].
  - change (print_args [] ++ rest) with rest. assert (clean rest) by (eapply follows_clean; [done|by repeat constructor]).
    rewrite peek_clean by done. destruct Hfo as [->|Hst].
    + cbn. by exists [], [].
    + rewrite Hst. by exists [], [].
  - apply Forall_cons in Hok as [[Hw Hrs] Hok]. cbn in Hw, Hrs, Hf, Hm.
    rewrite print_args_cons in Hs |- *. set (tail := print_args args ++ rest) in *.
    assert (clean rest) as Hcr by (eapply follows_clean; [done|by repeat constructor]).
    assert (clean tail) as Hct by (by apply clean_args).
    assert (starts [60; 62] tail = false) as Hst.
    { unfold tail. destruct args as [|[w' rs'] args]; [eapply starts_other; [exact Hfo|by repeat constructor]|].
      apply Forall_cons in Hok as [[Hw' _] _]. rewrite print_args_cons. apply starts_word; [done|by repeat constructor]. }
    rewrite peek_clean by (by apply clean_word). rewrite (starts_word w _ [124; 41; 38; 59] Hw) by (by repeat constructor).
    rewrite gettoken_word by (done || by apply clean_redirs). cbn [Z.eqb]. rewrite Z.eqb_refl. cbn [negb].
    assert ((MAXARGS <=? S argc)%nat = false) as -> by (apply Nat.leb_gt; lia).
    assert (print_redirs rs ++ tail `suffix_of` b) as Hs1 by (eapply (suffix_app_r (w ++ [32])); by rewrite <- app_assoc).
    destruct (parse_redirs b rs (S (length (print_redirs rs ++ tail))) tail Hrs) as (ts1 & -> & H1); [|done|done|done|].
    { rewrite length_app. pose proof (length_print_redirs rs). lia. }
    cbn [obind]. destruct (IH fuel (S argc) rest Hok ltac:(lia) ltac:(lia) Hfo) as (ts2 & rs2 & Hp & H2 & H3); [by eapply suffix_app_r|].
    fold tail in Hp. rewrite Hp. cbn [obind]. eexists _, _. split; [done|]. split.
    + constructor; [|done]. by apply spans_word.
    + cbn. by apply Forall2_app.
Qed.

Lemma rep_redircmds b ts rs : forall c a, Forall2 (rep_redir b) ts rs -> rep b c a -> rep b (redircmds c ts) (tredirs a rs).
Proof.
  intros c a Hr. revert c a. induction Hr as [|[[t m] d] [k w] ts rs [Hs Hk] _ IH]; intros c a Hc; [done|]. cbn. apply IH.
  cbn in Hs, Hk. destruct k; cbn; by destruct Hk as [-> ->].
Qed.

Lemma clean_bg bg rest : clean rest -> clean (print_bg bg ++ rest).
Proof. by destruct bg. Qed.

Lemma clean_syntax :
  (forall l rest, line_ok l -> clean rest -> clean (print_line l ++ rest))
  /\ (forall p rest, pipe_ok p -> clean rest -> clean (print_pipe p ++ rest))
  /\ (forall e rest, exec_ok e -> clean rest -> clean (print_exec e ++ rest)).
Proof.
  apply syntax_ind; cbn.
  - intros p IH bg rest Hok Hc. rewrite <- app_assoc. by apply IH, clean_bg.
  - intros p IH bg l _ rest [Hp _] Hc. rewrite <- !app_assoc. by apply IH, clean_bg.
  - intros e IH rest Hok Hc. by apply IH.
  - intros e IH p _ rest [He _] Hc. rewrite <- app_assoc. by apply IH.
  - intros l IH rs rest _ Hc. done.
  - intros rs args rest (_ & Ha & _) Hc. rewrite <- app_assoc. by apply clean_redirs, clean_args.
Qed.

Lemma parse_back b bg : forall fuel c a rest, (bg < fuel)%nat -> clean rest -> starts [38] rest = false -> rep b c a ->
  exists c', parseback fuel c (print_bg bg ++ rest) = Ok (c', rest) /\ rep b c' (Nat.iter bg TBACK a).
Proof.
  induction bg as [|bg IH]; intros fuel c a rest Hf Hc Hst Hr; (destruct fuel as [|fuel]; [lia|]); cbn [parseback].
  - change (print_bg 0 ++ rest) with rest. rewrite peek_clean, Hst by done. by exists c.
  - change (print_bg (S bg) ++ rest) with (38 :: 32 :: (print_bg bg ++ rest)). rewrite peek_clean by done.
    change (starts [38] (38 :: _)) with true. cbv iota.
    destruct (gettoken_symbol 38 (print_bg bg ++ rest)) as (q & e & ->); [done|by apply clean_bg|].
    destruct (IH fuel (BACK c) (TBACK a) rest) as (c' & Hp & Hc'); [lia|done|done|done|]. exists c'. split; [exact Hp|]. 
    rewrite Nat.iter_succ_r. exact Hc'.
Qed.

Lemma length_print_bg bg : (bg <= length (print_bg bg))%nat.
Proof. induction bg as [|bg IH]; [done|]. cbn in *. unfold print_bg in IH. lia. Qed.

Lemma length_print_args args : (length args <= length (print_args args))%nat.
Proof.
  induction args as [|[w rs] args IH]; [done|]. rewrite <- (app_nil_r (print_args _)), print_args_cons, !length_app. cbn [length].
  rewrite !length_app. lia.
Qed.

Lemma starts_simple rs args rest : Forall (fun a => wordy a.1 /\ redirs_ok a.2) args -> follows [124; 41; 38; 59] rest ->
  starts [40] (print_redirs rs ++ print_args args ++ rest) = false.
Proof.
  intros Ha Hf. destruct rs as [|[k w] rs]; [|by destruct k]. cbn [print_redirs map concat app].
  destruct args as [|[w rs] args]; [eapply starts_other; [exact Hf|by repeat constructor]|].
  rewrite print_args_cons. apply Forall_cons in Ha as [[Hw _] _]. apply starts_word; [done|by repeat constructor].
Qed.

Lemma parse_simple b rs args n rest :
  exec_ok (XSimple rs args) -> follows [124; 41; 38; 59] rest -> print_exec (XSimple rs args) ++ rest `suffix_of` b ->
  exists c, parseexec (S n) (print_exec (XSimple rs args) ++ rest) = Ok (c, rest) /\ rep b c (tree_exec (XSimple rs args)).
Proof.
  intros (Hrs & Ha & Hm) Hf Hs. cbn [print_exec parseexec] in *. rewrite <- app_assoc in *.
  assert (clean rest) as Hcr by (eapply follows_clean; [done|by repeat constructor]).
  assert (clean (print_args args ++ rest)) as Hca by (by apply clean_args).
  rewrite peek_clean by (by apply clean_redirs). rewrite starts_simple by done.
  destruct (parse_redirs b rs (S (length (print_redirs rs ++ print_args args ++ rest))) (print_args args ++ rest) Hrs) as (ts & -> & H1); [|done| |done|].
  { rewrite length_app. pose proof (length_print_redirs rs). lia. }
  { destruct args as [|[w rs'] args]; [eapply starts_other; [exact Hf|by repeat constructor]|].
    rewrite print_args_cons. apply Forall_cons in Ha as [[Hw _] _]. apply starts_word; [done|by repeat constructor]. }
  cbn [obind]. destruct (parse_args b args (S (length (print_args args ++ rest))) 0 rest Ha) as (us & rs2 & -> & H2 & H3); [|lia|done|by eapply suffix_app_r|].
  { rewrite length_app. pose proof (length_print_args args). lia. }
  cbn [obind]. eexists. split; [done|]. cbn [tree_exec]. apply rep_redircmds; [by apply Forall2_app|exact H2].
Qed.

Lemma follows_cons c toks rest : among c toks = true -> follows toks (c :: rest).
Proof. intros H. by right. Qed.

Lemma follows_bg bg toks rest : among 38 toks = true -> follows toks rest -> follows toks (print_bg bg ++ rest).
Proof. intros H Hr. destruct bg; [done|by apply follows_cons]. Qed.

Lemma follows_more toks toks' rest : follows toks rest -> Forall (fun c => among c toks' = true) toks -> follows toks' rest.
Proof.
  intros [->|H] Ht; [by left|]. right. destruct rest as [|c rest]; [done|]. cbn in *. unfold among in H. apply existsb_exists in H as (x & Hx & E).
  apply Z.eqb_eq in E. subst x. rewrite Forall_forall in Ht. apply (Ht c). by apply list_elem_of_In.
Qed.

(** A pipeline and its background marks, in front of [rest]. *)
Lemma parse_front b p bg n rest :
  (forall n rest, pipe_ok p -> (4 * length (print_pipe p) + 3 <= n)%nat -> follows [41; 38; 59] rest -> print_pipe p ++ rest `suffix_of` b ->
    exists c, parsepipe n (print_pipe p ++ rest) = Ok (c, rest) /\ rep b c (tree_pipe p)) ->
  pipe_ok p -> (4 * length (print_pipe p) + 3 <= n)%nat -> follows [41; 59] rest -> print_pipe p ++ print_bg bg ++ rest `suffix_of` b ->
  exists c, (let! (c, s) := parsepipe n (print_pipe p ++ print_bg bg ++ rest) in parseback (S (length s)) c s) = Ok (c, rest)
    /\ rep b c (Nat.iter bg TBACK (tree_pipe p)).
Proof.
  intros IH Hok Hn Hf Hs. assert (clean rest) as Hc by (eapply follows_clean; [exact Hf|by repeat constructor]).
  destruct (IH n (print_bg bg ++ rest) Hok Hn) as (c & -> & Hr); [|done|].
  { apply follows_bg; [done|]. eapply follows_more; [exact Hf|by repeat constructor]. }
  cbn [obind]. apply parse_back; [|done| |done].
  - rewrite length_app. pose proof (length_print_bg bg). lia.
  - eapply starts_other; [exact Hf|by repeat constructor].
Qed.

Lemma obind_assoc_pair {A B C} (x : outcome (A * B)) (f : A -> B -> outcome C) {D} (g : C -> outcome D) :
  (let! (a, s) := x in let! c := f a s in g c) = (let! c := (let! (a, s) := x in f a s) in g c).
Proof. by destruct x as [[a s]|?|?]. Qed.

Lemma parse_syntax b :
  (forall l n rest, line_ok l -> (4 * length (print_line l) + 4 <= n)%nat -> follows [41] rest -> print_line l ++ rest `suffix_of` b ->
    exists c, parseline n (print_line l ++ rest) = Ok (c, rest) /\ rep b c (tree_line l))
  /\ (forall p n rest, pipe_ok p -> (4 * length (print_pipe p) + 3 <= n)%nat -> follows [41; 38; 59] rest -> print_pipe p ++ rest `suffix_of` b ->
    exists c, parsepipe n (print_pipe p ++ rest) = Ok (c, rest) /\ rep b c (tree_pipe p))
  /\ (forall e n rest, exec_ok e -> (4 * length (print_exec e) + 2 <= n)%nat -> follows [124; 41; 38; 59] rest -> print_exec e ++ rest `suffix_of` b ->
    exists c, parseexec n (print_exec e ++ rest) = Ok (c, rest) /\ rep b c (tree_exec e)).
Proof.
  apply syntax_ind.
  - intros p IH bg n rest Hok Hn Hf Hs. destruct n as [|n]; [lia|]. cbn [print_line line_ok tree_line] in *. rewrite <- app_assoc in *. rewrite length_app in Hn.
    destruct (parse_front b p bg n rest IH Hok ltac:(lia)) as (c & Hp & Hr); [eapply follows_more; [exact Hf|by repeat constructor]|done|].
    cbn [parseline]. rewrite obind_assoc_pair, Hp. cbn [obind].
    rewrite peek_clean by (eapply follows_clean; [exact Hf|by repeat constructor]).
    rewrite (starts_other [41] [59] rest) by (done || by repeat constructor). by exists c.
  - intros p IH bg l IHl n rest [Hp Hl] Hn Hf Hs. destruct n as [|n]; [lia|]. cbn [print_line tree_line] in *. rewrite <- !app_assoc in *. rewrite !length_app in Hn. cbn [length] in Hn.
    assert (clean rest) as Hcr by (eapply follows_clean; [exact Hf|by repeat constructor]).
    destruct (parse_front b p bg n ([59; 32] ++ print_line l ++ rest) IH Hp ltac:(lia)) as (c & Hpp & Hr); [by right|done|].
    cbn [parseline]. rewrite obind_assoc_pair, Hpp. cbn [obind]. rewrite peek_clean by done. change (starts [59] ([59; 32] ++ _)) with true. cbv iota.
    destruct (gettoken_symbol 59 (print_line l ++ rest)) as (q & e & Hg); [done|by apply clean_syntax|]. cbn [app]. rewrite Hg.
    destruct (IHl n rest Hl ltac:(lia) Hf) as (c' & -> & Hr'); [by eapply (suffix_app_r [59; 32]), (suffix_app_r (print_bg bg)), (suffix_app_r (print_pipe p))|].
    cbn [obind]. by exists (LIST c c').
  - intros e IH n rest Hok Hn Hf Hs. destruct n as [|n]; [lia|]. cbn [print_pipe pipe_ok tree_pipe parsepipe] in *.
    destruct (IH n rest Hok ltac:(lia)) as (c & -> & Hr); [eapply follows_more; [exact Hf|by repeat constructor]|done|]. cbn [obind].
    rewrite peek_clean by (eapply follows_clean; [exact Hf|by repeat constructor]).
    rewrite (starts_other [41; 38; 59] [124] rest) by (done || by repeat constructor). by exists c.
  - intros e IH p IHp n rest [He Hp] Hn Hf Hs. destruct n as [|n]; [lia|]. cbn [print_pipe tree_pipe parsepipe] in *. rewrite <- !app_assoc in *. rewrite !length_app in Hn. cbn [length] in Hn.
    assert (clean rest) as Hcr by (eapply follows_clean; [exact Hf|by repeat constructor]).
    destruct (IH n ([124; 32] ++ print_pipe p ++ rest) He ltac:(lia)) as (c & -> & Hr); [by right|done|]. cbn [obind].
    rewrite peek_clean by done. change (starts [124] ([124; 32] ++ _)) with true. cbv iota.
    destruct (gettoken_symbol 124 (print_pipe p ++ rest)) as (q & e' & Hg); [done|by apply clean_syntax|]. cbn [app]. rewrite Hg.
    destruct (IHp n rest Hp ltac:(lia) Hf) as (c' & -> & Hr'); [by eapply (suffix_app_r [124; 32]), (suffix_app_r (print_exec e))|].
    cbn [obind]. by exists (PIPE c c').
  - intros l IH rs n rest [Hl Hrs] Hn Hf Hs. cbn [print_exec tree_exec] in *. rewrite <- !app_assoc in *. rewrite !length_app in Hn. cbn [length] in Hn.
    destruct n as [|[|n]]; [lia|lia|]. cbn [parseexec parseblock]. assert (clean rest) as Hcr by (eapply follows_clean; [exact Hf|by repeat constructor]).
    rewrite peek_clean by done. change (starts [40] ([40; 32] ++ _)) with true. cbv iota. rewrite peek_clean by done. change (starts [40] ([40; 32] ++ _)) with true. cbn [negb].
    set (tail := print_redirs rs ++ rest) in *. assert (clean tail) as Hct by (by apply clean_redirs).
    destruct (gettoken_symbol 40 (print_line l ++ [41; 32] ++ tail)) as (q & e & Hg); [done|by apply clean_syntax|]. cbn [app] in Hg |- *. rewrite Hg.
    destruct (IH n ([41; 32] ++ tail) Hl ltac:(lia)) as (c & Hp & Hr); [by right|by eapply (suffix_app_r [40; 32])|].
    cbn [app] in Hp. rewrite Hp. cbn [obind]. rewrite peek_clean by done. change (starts [41] (41 :: _)) with true. cbn [negb].
    destruct (gettoken_symbol 41 tail) as (q' & e' & ->); [done|done|].
    destruct (parse_redirs b rs (S (length tail)) rest Hrs) as (ts & Hp' & Hts).
    + unfold tail. rewrite length_app. pose proof (length_print_redirs rs). lia.
    + done.
    + eapply starts_other; [exact Hf|by repeat constructor].
    + eapply (suffix_app_r [41; 32]), (suffix_app_r (print_line l)), (suffix_app_r [40; 32]). exact Hs.
    + fold tail in Hp'. rewrite Hp'. cbn [obind]. eexists. split; [done|]. by apply rep_redircmds.
  - intros rs args n rest Hok Hn Hf Hs. destruct n as [|n]; [lia|]. by apply parse_simple.
Qed.


