(* ===== verification/Umalloc.v ===== *)
(** umalloc.c: the allocator of the user library.  Addresses count headers of
    8 bytes, so [p + 1] is the pointer after a header.  The state holds the
    headers that were written; [sbrk] moves the break up to [limit], or fails. *)
From S2P Require Import Prelude.

Record heap := Heap {
  hdr : gmap Z (Z * Z);   (* address -> s.ptr, s.size *)
  freep : Z;              (* 0: not yet started *)
  brk : Z                 (* the break, in headers *)
}.

Definition set_hdr (p : Z) (h : Z * Z) (st : heap) : heap := Heap (<[p := h]> (hdr st)) (freep st) (brk st).
Definition set_freep (p : Z) (st : heap) : heap := Heap (hdr st) p (brk st).

Definition header (p : Z) (st : heap) : outcome (Z * Z) :=
  match hdr st !! p with Some h => Ok h | None => UB "header" end.

(** The loop of [free]: the free block [bp] goes after. *)
Fixpoint free_search (fuel : nat) (bp p : Z) (st : heap) : outcome Z :=
  match fuel with
  | O => UB "free does not end"
  | S fuel =>
      let! (next, _) := header p st in
      if (p <? bp) && (bp <? next) then Ok p
      else if (next <=? p) && ((p <? bp) || (bp <? next)) then Ok p
      else free_search fuel bp next st
  end.

(** The two tests that join [bp] with its neighbours. *)
Definition join_next (bp p : Z) (st : heap) : outcome heap :=
  let! (_, size) := header bp st in
  let! (next, _) := header p st in
  if bp + size =? next then
    let! (next', nsize) := header next st in
    Ok (set_hdr bp (next', u32 (size + nsize)) st)
  else Ok (set_hdr bp (next, size) st).

Definition join_prev (bp p : Z) (st : heap) : outcome heap :=
  let! (next, size) := header bp st in
  let! (_, psize) := header p st in
  if p + psize =? bp then Ok (set_hdr p (next, u32 (psize + size)) st)
  else Ok (set_hdr p (bp, psize) st).

Definition free (fuel : nat) (ap : Z) (st : heap) : outcome heap :=
  let bp := ap - 1 in
  let! p := free_search fuel bp (freep st) st in
  let! st := join_next bp p st in
  let! st := join_prev bp p st in
  Ok (set_freep p st).

Section Malloc.
(** [&base], and the highest break the kernel grants. *)
Context (base limit : Z).

(** [sbrk] by [n] headers: the old break. *)
Definition sbrk (n : Z) (st : heap) : option (Z * heap) :=
  if brk st + n <=? limit then Some (brk st, Heap (hdr st) (freep st) (brk st + n)) else None.

Definition morecore (fuel : nat) (nu : Z) (st : heap) : outcome (option Z * heap) :=
  let nu := if nu <? 4096 then 4096 else nu in
  if 2147483648 <=? nu * 8 then UB "sbrk of a negative size"
  else
    match sbrk nu st with
    | None => Ok (None, st)
    | Some (p, st) =>
        let ptr := match hdr st !! p with Some (q, _) => q | None => 0 end in
        let! st := free fuel (p + 1) (set_hdr p (ptr, nu) st) in
        Ok (Some (freep st), st)
    end.

Definition nunits (nbytes : Z) : Z := u32 (u32 (nbytes + 8 - 1) / 8 + 1).

(** Taking [n] units of the block [p], behind [prevp]. *)
Definition take_block (n prevp p : Z) (st : heap) : outcome (Z * heap) :=
  let! (next, size) := header p st in
  if size =? n then
    let! (_, psize) := header prevp st in
    Ok (p, set_freep prevp (set_hdr prevp (next, psize) st))
  else
    let st := set_hdr p (next, u32 (size - n)) st in
    let q := p + u32 (size - n) in
    let ptr := match hdr st !! q with Some (x, _) => x | None => 0 end in
    Ok (q, set_freep prevp (set_hdr q (ptr, n) st)).

Fixpoint malloc_loop (fuel : nat) (n prevp p : Z) (st : heap) : outcome (option Z * heap) :=
  match fuel with
  | O => UB "malloc does not end"
  | S fuel' =>
      let! (next, size) := header p st in
      if n <=? size then
        let! (q, st) := take_block n prevp p st in
        Ok (Some (q + 1), st)
      else if p =? freep st then
        let! (r, st) := morecore fuel n st in
        match r with
        | None => Ok (None, st)
        | Some p => let! (next, _) := header p st in malloc_loop fuel' n p next st
        end
      else malloc_loop fuel' n p next st
  end.

Definition malloc (fuel : nat) (nbytes : Z) (st : heap) : outcome (option Z * heap) :=
  let st := if freep st =? 0 then set_freep base (set_hdr base (base, 0) st) else st in
  let! (p, _) := header (freep st) st in
  malloc_loop fuel (nunits nbytes) (freep st) p st.
End Malloc.
