(* ===== verification/UmallocProps.v ===== *)
(** The allocator keeps the heap tiled by blocks: used ones with their sizes in
    their headers, and free ones on a circular list in address order with no
    two adjacent. *)
From S2P Require Import Prelude Umalloc.

(** A block: address, size, and whether it is in use. *)
Definition block : Type := Z * Z * bool.

(** Blocks from [lo] to [hi] without a gap. *)
Fixpoint tiled (lo : Z) (H : list block) (hi : Z) : Prop :=
  match H with
  | [] => lo = hi
  | (a, s, _) :: H => a = lo /\ 0 < s /\ tiled (lo + s) H hi
  end.

Fixpoint frees (H : list block) : list (Z * Z) :=
  match H with
  | [] => []
  | (a, s, u) :: H => if u : bool then frees H else (a, s) :: frees H
  end.

Fixpoint used (H : list block) : list (Z * Z) :=
  match H with
  | [] => []
  | (a, s, u) :: H => if u : bool then (a, s) :: used H else used H
  end.

(** No free block after a free one. *)
Fixpoint joined (H : list block) : Prop :=
  match H with
  | (_, _, false) :: (((_, _, false) :: _) as H') => False
  | _ :: H' => joined H'
  | [] => True
  end.

Definition hd_addr (l : list (Z * Z)) (d : Z) : Z := match l with (a, _) :: _ => a | [] => d end.

(** Each block of [l] points to the next, and the last one to [next]. *)
Fixpoint chain (h : gmap Z (Z * Z)) (l : list (Z * Z)) (next : Z) : Prop :=
  match l with
  | [] => True
  | (a, s) :: l => h !! a = Some (hd_addr l next, s) /\ chain h l next
  end.

(** * Tilings *)

Lemma tiled_app H1 : forall lo H2 hi, tiled lo (H1 ++ H2) hi <-> exists mid, tiled lo H1 mid /\ tiled mid H2 hi.
Proof.
  induction H1 as [|[[a s] u] H1 IH]; intros lo H2 hi; cbn.
  - split; [intros H; by exists lo|by intros (? & <- & H)].
  - rewrite IH. split.
    + intros (-> & Hs & mid & H & H'). by exists mid.
    + intros (mid & (-> & Hs & H) & H'). split; [done|]. split; [done|]. by exists mid.
Qed.

Lemma tiled_le H : forall lo hi, tiled lo H hi -> lo <= hi.
Proof. induction H as [|[[a s] u] H IH]; intros lo hi; cbn; [lia|]. intros (_ & Hs & H'). apply IH in H'. lia. Qed.

Lemma frees_app H1 H2 : frees (H1 ++ H2) = frees H1 ++ frees H2.
Proof. induction H1 as [|[[a s] []] H1 IH]; cbn; by rewrite ?IH. Qed.

Lemma used_app H1 H2 : used (H1 ++ H2) = used H1 ++ used H2.
Proof. induction H1 as [|[[a s] []] H1 IH]; cbn; by rewrite ?IH. Qed.

Lemma length_frees H : (length (frees H) <= length H)%nat.
Proof. induction H as [|[[a s] []] H IH]; cbn; lia. Qed.

Lemma frees_in H : forall lo hi a s, tiled lo H hi -> (a, s) ∈ frees H -> lo <= a /\ 0 < s /\ a + s <= hi.
Proof.
  induction H as [|[[b t] u] H IH]; intros lo hi a s Ht Hin; cbn in *; [set_solver|]. destruct Ht as (-> & Hs & Ht). pose proof (tiled_le _ _ _ Ht).
  destruct u; [destruct (IH _ _ _ _ Ht Hin); lia|]. apply elem_of_cons in Hin as [[= -> ->]|Hin]; [lia|]. destruct (IH _ _ _ _ Ht Hin); lia.
Qed.

Lemma frees_split H a s : (a, s) ∈ frees H -> exists H1 H2, H = H1 ++ (a, s, false) :: H2.
Proof.
  induction H as [|[[b t] u] H IH]; cbn; [set_solver|]. intros Hin.
  assert ((u = false /\ b = a /\ t = s) \/ (a, s) ∈ frees H) as [(-> & -> & ->)|Hin'].
  { destruct u; [by right|]. apply elem_of_cons in Hin as [[= -> ->]|?]; [by left|by right]. }
  - by exists [], H.
  - destruct (IH Hin') as (H1 & H2 & ->). by exists ((b, t, u) :: H1), H2.
Qed.

Lemma used_in H a s : (a, s) ∈ used H <-> (a, s, true) ∈ H.
Proof.
  induction H as [|[[b t] u] H IH]; cbn; [set_solver|]. rewrite elem_of_cons, <- IH.
  destruct u; [rewrite elem_of_cons|]; naive_solver.
Qed.

Lemma tiled_in H : forall lo hi a s u, tiled lo H hi -> (a, s, u) ∈ H -> lo <= a /\ 0 < s /\ a + s <= hi.
Proof.
  induction H as [|[[b t] v] H IH]; intros lo hi a s u Ht Hin; cbn in *; [set_solver|]. destruct Ht as (-> & Hs & Ht). pose proof (tiled_le _ _ _ Ht).
  apply elem_of_cons in Hin as [[= -> -> ->]|Hin]; [lia|]. destruct (IH _ _ _ _ _ Ht Hin); lia.
Qed.

Lemma tiled_inj H : forall lo hi a s u t v, tiled lo H hi -> (a, s, u) ∈ H -> (a, t, v) ∈ H -> s = t /\ u = v.
Proof.
  induction H as [|[[b n] w] H IH]; intros lo hi a s u t v Ht H1 H2; [set_solver|]. cbn in Ht. destruct Ht as (-> & Hn & Ht).
  apply elem_of_cons in H1 as [E1|H1], H2 as [E2|H2]; [|injection E1 as -> -> ->|injection E2 as -> -> ->|by eapply IH].
  - split; congruence.
  - pose proof (tiled_in _ _ _ _ _ _ Ht H2). lia.
  - pose proof (tiled_in _ _ _ _ _ _ Ht H1). lia.
Qed.

Lemma joined_cons x H : joined (x :: H) -> joined H.
Proof. destruct x as [[a s] []], H as [|[[b t] []] H]; cbn; tauto. Qed.

Lemma joined_app_l H1 H2 : joined (H1 ++ H2) -> joined H1.
Proof.
  induction H1 as [|[[a s] u] H1 IH]; [done|]. intros H. pose proof (joined_cons _ _ H) as H'. specialize (IH H').
  destruct u, H1 as [|[[b t] []] H1]; done.
Qed.

Lemma joined_app_r H1 H2 : joined (H1 ++ H2) -> joined H2.
Proof. induction H1 as [|x H1 IH]; [done|]. intros H. by apply IH, (joined_cons x). Qed.

(** Two runs of blocks join at a used one. *)
Lemma joined_used H1 a s H2 : joined (H1 ++ [(a, s, true)]) -> joined H2 -> joined (H1 ++ (a, s, true) :: H2).
Proof.
  induction H1 as [|[[b t] u] H1 IH]; intros Hl Hr; [by destruct H2 as [|[[? ?] []] ?]|].
  pose proof (IH (joined_cons _ _ Hl) Hr) as H. destruct u, H1 as [|[[c v] []] H1]; done.
Qed.

(** The first block is not free. *)
Definition head_used (H : list block) : Prop := match H with (_, _, false) :: _ => False | _ => True end.
Definition last_used (H : list block) : Prop := match last H with Some (_, _, false) => False | _ => True end.

Lemma joined_free H1 a s x H2 : joined (H1 ++ [(a, s, false)]) -> joined H2 -> head_used H2 -> joined (H1 ++ (a, x, false) :: H2).
Proof.
  induction H1 as [|[[b t] u] H1 IH]; intros Hl Hr Hh; [by destruct H2 as [|[[? ?] []] ?]|].
  pose proof (IH (joined_cons _ _ Hl) Hr Hh) as H. destruct u, H1 as [|[[c v] []] H1]; done.
Qed.

Lemma joined_last H1 a s : joined H1 -> last_used H1 -> joined (H1 ++ [(a, s, false)]).
Proof.
  induction H1 as [|[[b t] u] H1 IH]; intros Hj Hl; [done|]. destruct H1 as [|[[c v] w] H1]; [by destruct u|].
  pose proof (IH (joined_cons _ _ Hj) Hl) as H. destruct u, w; done.
Qed.

(** A block of size [s] takes in the free block after it. *)
Definition absorb (s : Z) (H : list block) : Z * list block :=
  match H with (_, n, false) :: H' => (s + n, H') | _ => (s, H) end.

Lemma absorb_facts s H x H' lo hi : absorb s H = (x, H') -> joined H -> tiled lo H hi -> 0 < s ->
  s <= x /\ tiled (lo - s + x) H' hi /\ used H' = used H /\ head_used H' /\ joined H'
  /\ (exists l, frees H = l ++ frees H') /\ (forall y, y ∈ H' -> y ∈ H).
Proof.
  intros Ha Hj Ht Hs. destruct H as [|[[a n] u] H].
  { cbn in Ha. injection Ha as <- <-. split_and!; [lia|by replace (lo - s + s) with lo by lia|done|done|done|by exists []|done]. }
  destruct u; cbn in Ha; injection Ha as <- <-.
  - split_and!; [lia|by replace (lo - s + s) with lo by lia|done|done|done|by exists []|done].
  - cbn in Ht. destruct Ht as (-> & Hn & Ht). split_and!; [lia|by replace (lo - s + (s + n)) with (lo + n) by lia|done| | |by exists [(lo, n)]|set_solver].
    + by destruct H as [|[[? ?] []] ?].
    + by eapply joined_cons.
Qed.

(** * Chains *)

Lemma chain_app h l1 : forall l2 next, chain h (l1 ++ l2) next <-> chain h l1 (hd_addr l2 next) /\ chain h l2 next.
Proof.
  induction l1 as [|[a s] l1 IH]; intros l2 next; cbn; [tauto|]. rewrite IH.
  assert (hd_addr (l1 ++ l2) next = hd_addr l1 (hd_addr l2 next)) as -> by (by destruct l1 as [|[? ?] ?]). tauto.
Qed.

Lemma chain_insert h x v l next : x ∉ map fst l -> chain (<[x := v]> h) l next <-> chain h l next.
Proof.
  induction l as [|[a s] l IH]; [done|]. cbn. intros Hx. rewrite lookup_insert_ne by set_solver. rewrite IH by set_solver. done.
Qed.

Lemma hd_addr_app l1 l2 d : hd_addr (l1 ++ l2) d = hd_addr l1 (hd_addr l2 d).
Proof. by destruct l1 as [|[? ?] ?]. Qed.

(** Addresses increase along [l], from above [p]. *)
Fixpoint incr (p : Z) (l : list (Z * Z)) : Prop :=
  match l with [] => True | (a, _) :: l => p < a /\ incr a l end.

Lemma frees_incr H : forall p lo hi, tiled lo H hi -> p < lo -> incr p (frees H).
Proof.
  induction H as [|[[a s] u] H IH]; intros p lo hi Ht Hp; cbn in *; [done|]. destruct Ht as (-> & Hs & Ht).
  destruct u; [by eapply IH; [exact Ht|lia]|]. split; [done|]. eapply IH; [exact Ht|lia].
Qed.

Lemma incr_app l1 : forall p l2, incr p (l1 ++ l2) -> incr p l1 /\ incr p l2.
Proof.
  induction l1 as [|[a s] l1 IH]; intros p l2; cbn; [done|]. intros [Ha H]. apply IH in H as [H1 H2]. split; [done|].
  destruct l2 as [|[b t] l2]; [done|]. cbn in *. split; [lia|tauto].
Qed.

Lemma incr_in l : forall p a s, incr p l -> (a, s) ∈ l -> p < a.
Proof.
  induction l as [|[b t] l IH]; intros p a s; cbn; [set_solver|]. intros [Hb H] [[= -> ->]|Hin]%elem_of_cons; [done|].
  specialize (IH _ _ _ H Hin). lia.
Qed.

Lemma incr_notin p l : incr p l -> p ∉ map fst l.
Proof. intros H Hin. apply list_elem_of_fmap in Hin as ([a s] & -> & Hin). pose proof (incr_in _ _ _ _ H Hin). cbn in *. lia. Qed.

(** The last address of [l], or [d]. *)
Definition last_addr (d : Z) (l : list (Z * Z)) : Z := match last l with Some (a, _) => a | None => d end.

Lemma last_addr_cons d a s l : last_addr d ((a, s) :: l) = last_addr a l.
Proof. unfold last_addr. destruct l as [|[b t] l]; [done|]. cbn [last]. destruct (last ((b, t) :: l)) as [[? ?]|] eqn:E; [done|]. by apply last_None in E. Qed.

Lemma last_addr_snoc d l a s : last_addr d (l ++ [(a, s)]) = a.
Proof. unfold last_addr. by rewrite last_snoc. Qed.

Section Alloc.
(** The address of [base], below the start [lo] of the heap, and the highest
    break; all of it in the lower half of the address space. *)
Context (base lo limit : Z).
Hypothesis Hbase : 0 < base < lo.
Hypothesis Hlimit : limit <= 268435456.

Record good (st : heap) (H : list block) : Prop := {
  g_tiled : tiled lo H (brk st);
  g_brk : brk st <= limit;
  g_joined : joined H;
  g_chain : chain (hdr st) ((base, 0) :: frees H) base;
  g_freep : freep st ∈ base :: map fst (frees H);
  g_used a s : (a, s, true) ∈ H -> exists q, hdr st !! a = Some (q, s)
}.

(** * Freeing *)

Section Search.
Context (st : heap) (bp : Z) (Hbp : base < bp).

Lemma search_up l1 : forall l2 p sp fuel,
  chain (hdr st) ((p, sp) :: l1 ++ l2) base -> base <= p < bp -> incr p (l1 ++ l2) ->
  Forall (fun x => x.1 < bp) l1 -> Forall (fun x => bp < x.1) l2 -> (length l1 < fuel)%nat ->
  free_search fuel bp p st = Ok (last_addr p l1).
Proof.
  induction l1 as [|[a s] l1 IH]; intros l2 p sp fuel [Hp Hc] Hlt Hi H1 H2 Hf; (destruct fuel as [|fuel]; [cbn in Hf; lia|]);
    cbn [free_search]; unfold header; rewrite Hp; cbn [obind].
  - destruct l2 as [|[b t] l2]; cbn.
    + assert ((p <? bp) && (bp <? base) = false) as -> by lia. by assert ((base <=? p) && ((p <? bp) || (bp <? base)) = true) as -> by lia.
    + apply Forall_cons in H2 as [Hb _]. cbn in Hb. by assert ((p <? bp) && (bp <? b) = true) as -> by lia.
  - apply Forall_cons in H1 as [Ha H1]. cbn in Ha, Hi, Hf. cbn [app hd_addr].
    assert ((p <? bp) && (bp <? a) = false) as -> by lia. assert ((a <=? p) && ((p <? bp) || (bp <? a)) = false) as -> by lia.
    rewrite last_addr_cons. eapply IH; [exact Hc|lia|tauto|done|exact H2|lia].
Qed.

Lemma search_over l : forall p sp fuel,
  chain (hdr st) ((p, sp) :: l) base -> bp < p -> incr p l ->
  free_search (S (length l) + fuel) bp p st = free_search fuel bp base st.
Proof.
  induction l as [|[a s] l IH]; intros p sp fuel [Hp Hc] Hlt Hi; cbn [length Nat.add free_search]; unfold header; rewrite Hp; cbn [obind hd_addr].
  - assert ((p <? bp) && (bp <? base) = false) as -> by lia. by assert ((base <=? p) && ((p <? bp) || (bp <? base)) = false) as -> by lia.
  - cbn in Hi. assert ((p <? bp) && (bp <? a) = false) as -> by lia. assert ((a <=? p) && ((p <? bp) || (bp <? a)) = false) as -> by lia.
    apply (IH a s); [exact Hc|lia|tauto].
Qed.

Lemma free_search_ok F1 F2 f fuel :
  chain (hdr st) ((base, 0) :: F1 ++ F2) base -> incr base (F1 ++ F2) -> f ∈ base :: map fst (F1 ++ F2) ->
  Forall (fun x => x.1 < bp) F1 -> Forall (fun x => bp < x.1) F2 -> (length F1 + length F2 + 1 < fuel)%nat ->
  free_search fuel bp f st = Ok (last_addr base F1).
Proof.
  intros Hc Hi Hin H1 H2 Hf. rewrite elem_of_cons, map_app, elem_of_app in Hin. destruct Hin as [->|[Hin|Hin]].
  - eapply search_up; [exact Hc|lia|done|done|done|lia].
  - apply list_elem_of_fmap in Hin as ([a s] & -> & Hin). cbn. apply list_elem_of_split in Hin as (G1 & G2 & ->).
    rewrite <- app_assoc in Hc, Hi. cbn in Hc, Hi. apply incr_app in Hi as [_ Hi].
    destruct Hc as [_ Hc]. apply chain_app in Hc as [_ Hc]. apply Forall_app in H1 as [_ H1]. apply Forall_cons in H1 as [Ha H1]. cbn in Ha, Hi.
    rewrite length_app in Hf. cbn in Hf. rewrite (search_up G2 F2 a s fuel); [|exact Hc|lia|tauto|done|done|lia].
    f_equal. unfold last_addr. rewrite last_app. cbn [last]. destruct G2; [done|]. by destruct (last _) as [[? ?]|] eqn:E; [|apply last_None in E].
  - apply list_elem_of_fmap in Hin as ([a s] & -> & Hin). cbn. apply list_elem_of_split in Hin as (G1 & G2 & ->).
    pose proof Hc as [_ Hc']. rewrite !app_assoc in Hc'. apply chain_app in Hc' as [_ Hc']. 
    pose proof Hi as Hi'. rewrite app_assoc in Hi'. apply incr_app in Hi' as [_ Hi']. pose proof H2 as H2'.
    apply Forall_app in H2' as [_ H2']. apply Forall_cons in H2' as [Ha _]. cbn in Ha, Hi'. rewrite length_app in Hf. cbn in Hf.
    replace fuel with (S (length G2) + (fuel - S (length G2)))%nat by lia.
    rewrite (search_over G2 a s); [|exact Hc'|lia|tauto]. eapply search_up; [exact Hc|lia|done|done|done|lia].
Qed.
End Search.

(** [free] of the used block [bp] between [H1] and [H2]. *)
Definition ab_free (H1 : list block) (bp s : Z) (H2 : list block) : list block :=
  let '(x, H2') := absorb s H2 in
  match last H1 with
  | Some (p, sp, false) => removelast H1 ++ (p, sp + x, false) :: H2'
  | _ => H1 ++ (bp, x, false) :: H2'
  end.

Lemma ab_free_alone H1 bp s H2 x H2' : last_used H1 -> absorb s H2 = (x, H2') -> ab_free H1 bp s H2 = H1 ++ (bp, x, false) :: H2'.
Proof. intros Hl Ha. unfold ab_free. rewrite Ha. unfold last_used in Hl. by destruct (last H1) as [[[? ?] []]|]. Qed.

Lemma ab_free_onto G p sp bp s H2 x H2' : absorb s H2 = (x, H2') ->
  ab_free (G ++ [(p, sp, false)]) bp s H2 = G ++ (p, sp + x, false) :: H2'.
Proof. intros Ha. unfold ab_free. by rewrite Ha, last_snoc, removelast_last. Qed.

Section Free.
Context (st : heap) (H1 H2 : list block) (bp s : Z).
Hypothesis Hgood : good st (H1 ++ (bp, s, true) :: H2).

Lemma free_tiled : tiled lo H1 bp /\ 0 < s /\ tiled (bp + s) H2 (brk st).
Proof.
  destruct (proj1 (tiled_app _ _ _ _) (g_tiled _ _ Hgood)) as (mid & T1 & T2). cbn in T2. destruct T2 as (-> & Hs & T2). done.
Qed.

Lemma free_joined : joined H1 /\ joined H2.
Proof.
  pose proof (g_joined _ _ Hgood) as Hj. split; [by eapply joined_app_l|]. apply joined_app_r in Hj. by apply (joined_cons (bp, s, true)).
Qed.

Lemma free_chain : chain (hdr st) ((base, 0) :: frees H1 ++ frees H2) base.
Proof. pose proof (g_chain _ _ Hgood) as Hc. by rewrite frees_app in Hc. Qed.

Lemma frees_below : Forall (fun x => x.1 < bp) (frees H1).
Proof. apply Forall_forall. intros [a t] Hin. destruct free_tiled as (T1 & _). destruct (frees_in _ _ _ _ _ T1 Hin); cbn; lia. Qed.

Lemma frees_above : Forall (fun x => bp < x.1) (frees H2).
Proof. apply Forall_forall. intros [a t] Hin. destruct free_tiled as (_ & Hs & T2). destruct (frees_in _ _ _ _ _ T2 Hin); cbn; lia. Qed.

Lemma free_bp : lo <= bp /\ bp + s <= brk st.
Proof. destruct free_tiled as (T1 & Hs & T2). apply tiled_le in T1, T2. lia. Qed.

Lemma free_incr : incr base (frees H1 ++ frees H2).
Proof. pose proof (frees_incr _ base _ _ (g_tiled _ _ Hgood) ltac:(lia)) as Hi. by rewrite frees_app in Hi. Qed.

(** The free block before [bp], or [base]. *)
Lemma free_pred : exists P sp, (base, 0) :: frees H1 = P ++ [(last_addr base (frees H1), sp)].
Proof.
  destruct (snoc_cases (frees H1)) as [->|(l & [a t] & ->)]; [by exists [], 0|]. rewrite last_addr_snoc.
  by exists ((base, 0) :: l), t.
Qed.

Lemma join_next_ok p sp : hdr st !! p = Some (hd_addr (frees H2) base, sp) ->
  let '(x, H2') := absorb s H2 in
  exists st1, join_next bp p st = Ok st1 /\ hdr st1 = <[bp := (hd_addr (frees H2') base, x)]> (hdr st)
    /\ freep st1 = freep st /\ brk st1 = brk st.
Proof.
  intros Hp. destruct (g_used _ _ Hgood bp s) as (q & Hq); [set_solver|]. destruct free_tiled as (_ & Hs & T2). pose proof free_bp.
  unfold join_next, header. rewrite Hq. cbn [obind]. rewrite Hp. cbn [obind].
  assert (head_used H2 -> bp + s <> hd_addr (frees H2) base) as Hne.
  { destruct H2 as [|[[a n] []] H2']; cbn; [lia| |done]. intros _. cbn in T2. destruct T2 as (-> & Hn & T2).
    destruct (frees H2') as [|[b t] l] eqn:E; cbn; [lia|]. destruct (frees_in _ _ _ b t T2) as (Hb & _); [rewrite E; set_solver|lia]. }
  pose proof (g_brk _ _ Hgood). pose proof free_chain as [_ Hc]. apply chain_app in Hc as [_ Hc].
  destruct H2 as [|[[a n] []] H2']; cbn [absorb].
  - destruct (Z.eqb_spec (bp + s) (hd_addr (frees []) base)); [by destruct Hne|]. by eexists.
  - destruct (_ =? _) eqn:Eb; [apply Z.eqb_eq in Eb; by destruct Hne|]. by eexists.
  - cbn in T2. destruct T2 as (-> & Hn & T2). cbn [frees hd_addr]. rewrite Z.eqb_refl.
    cbn in Hc. destruct Hc as [Hc _]. rewrite Hc. cbn [obind]. apply tiled_le in T2. rewrite u32_id by (unfold is_u32; lia). by eexists.
Qed.

(** The state after both tests: the block before [bp] grew, or points to it. *)
Lemma join_prev_ok st1 p sp x next :
  hdr st1 !! bp = Some (next, x) -> hdr st1 !! p = Some (hd_addr (frees H2) base, sp) -> p + sp + x < 4294967296 -> 0 <= sp -> 0 < p -> 0 < x ->
  exists st2, join_prev bp p st1 = Ok st2 /\ freep st2 = freep st1 /\ brk st2 = brk st1
    /\ hdr st2 = <[p := if decide (p + sp = bp) then (next, sp + x) else (bp, sp)]> (hdr st1).
Proof.
  intros Hb Hp Hlt H0 Hpp Hx. unfold join_prev, header. rewrite Hb. cbn [obind]. rewrite Hp. cbn [obind].
  destruct (Z.eqb_spec (p + sp) bp) as [E|E].
  - rewrite u32_id by (unfold is_u32; lia). rewrite decide_True by done. by eexists.
  - rewrite decide_False by done. by eexists.
Qed.
End Free.

Lemma incr_snoc_notin P : forall q p sp, incr q (P ++ [(p, sp)]) -> p ∉ map fst P.
Proof.
  induction P as [|[a t] P IH]; intros q p sp; cbn; [set_solver|]. intros [_ H]. apply not_elem_of_cons. split; [|by eapply IH].
  intros ->. pose proof (incr_in _ _ a sp H). assert (a < a) by (apply H0; set_solver). lia.
Qed.

(** The free block before [bp]: either the last block, which it touches, or
    one that does not reach [bp]. *)
Lemma pred_place H1 P p sp bp : tiled lo H1 bp -> (base, 0) :: frees H1 = P ++ [(p, sp)] ->
  0 < p /\ 0 <= sp /\ (p < bp /\ p + sp <= bp) /\ (p ∉ map fst P) /\ (bp ∉ map fst P)
  /\ ((exists G, H1 = G ++ [(p, sp, false)] /\ p + sp = bp /\ P = (base, 0) :: frees G)
      \/ (last_used H1 /\ p + sp <> bp /\ (p = base \/ (p, sp, false) ∈ H1))).
Proof.
  intros T HP. assert (incr (base - 1) ((base, 0) :: frees H1)) as Hi by (cbn; split; [lia|eapply frees_incr; [exact T|lia]]).
  pose proof (tiled_le _ _ _ T) as Hle.
  assert (forall a t, (a, t) ∈ (base, 0) :: frees H1 -> 0 < a /\ 0 <= t /\ (a < bp /\ a + t <= bp)) as Hin.
  { intros a t [[= -> ->]|Hin]%elem_of_cons; [lia|]. destruct (frees_in _ _ _ _ _ T Hin). lia. }
  assert ((p, sp) ∈ (base, 0) :: frees H1) as Hpin by (rewrite HP; set_solver). destruct (Hin _ _ Hpin) as (H0 & Hsp & Hlt).
  split_and!; [done|done|lia|lia|rewrite HP in Hi; by eapply incr_snoc_notin| |].
  { intros Hb. apply list_elem_of_fmap in Hb as ([a t] & -> & Hb). destruct (Hin a t); [rewrite HP; set_solver|]. cbn in *. lia. }
  destruct (snoc_cases H1) as [->|(G & [[a sa] u] & ->)].
  { right. cbn in HP. destruct P as [|? [|? ?]]; [|done|done]. injection HP as <- <-. split_and!; [done|cbn in T; lia|by left]. }
  apply tiled_app in T as (mid & TG & TA). cbn in TA. destruct TA as (-> & Hsa & TA). destruct u.
  - right. unfold last_used. rewrite last_snoc. rewrite frees_app in HP. cbn in HP. rewrite app_nil_r in HP. split; [done|].
    apply elem_of_cons in Hpin as [[= -> ->]|Hpin]; [split; [pose proof (tiled_le _ _ _ TG); lia|by left]|].
    rewrite frees_app in Hpin. cbn in Hpin. rewrite app_nil_r in Hpin. pose proof (frees_in _ _ _ _ _ TG Hpin). split; [lia|].
    right. apply frees_split in Hpin as (G1 & G2 & ->). set_solver.
  - left. rewrite frees_app in HP. cbn in HP. rewrite app_comm_cons in HP. apply app_inj_tail in HP as [<- [= -> ->]]. by exists G.
Qed.

(** What both tests of [free] need to restore the invariant: the list is
    linked, and no used block's header was written. *)
Lemma good_after st st' H H' p bp :
  good st H -> brk st' = brk st -> tiled lo H' (brk st) -> joined H' -> chain (hdr st') ((base, 0) :: frees H') base ->
  freep st' ∈ base :: map fst (frees H') ->
  (forall a, a <> p -> a <> bp -> hdr st' !! a = hdr st !! a) ->
  (forall a s, (a, s, true) ∈ H' -> (a, s, true) ∈ H /\ a <> p /\ a <> bp) -> good st' H'.
Proof.
  intros [] Hb Ht Hj Hc Hf Hh Hu. split; rewrite ?Hb; try done. intros a s Hin. destruct (Hu a s Hin) as (Hin' & H1 & H2).
  rewrite Hh by done. by apply g_used0.
Qed.

Lemma free_ok st H1 bp s H2 fuel :
  good st (H1 ++ (bp, s, true) :: H2) -> (length (frees H1) + length (frees H2) + 1 < fuel)%nat ->
  exists st', free fuel (bp + 1) st = Ok st' /\ good st' (ab_free H1 bp s H2) /\ brk st' = brk st.
Proof.
  intros Hg Hf. destruct (free_tiled _ _ _ _ _ Hg) as (T1 & Hs & T2). destruct (free_joined _ _ _ _ _ Hg) as [J1 J2].
  destruct (free_bp _ _ _ _ _ Hg) as [Hlo Hhi]. pose proof (free_chain _ _ _ _ _ Hg) as Hc. pose proof (g_brk _ _ Hg) as Hbrk.
  set (p := last_addr base (frees H1)). destruct (free_pred H1) as (P & sp & HP). fold p in HP.
  assert (free_search fuel bp (freep st) st = Ok p) as Hsearch.
  { apply (free_search_ok st bp ltac:(lia) (frees H1) (frees H2)); [done|by eapply free_incr| |by eapply frees_below|by eapply frees_above|lia].
    pose proof (g_freep _ _ Hg) as Hfp. by rewrite frees_app in Hfp. }
  clearbody p.
  assert (chain (hdr st) (P ++ (p, sp) :: frees H2) base) as HcP by (by rewrite cons_middle, app_assoc, <- HP).
  apply chain_app in HcP as [HcP [Hp HcF]]. cbn [hd_addr] in HcP.
  unfold free. replace (bp + 1 - 1) with bp by lia. rewrite Hsearch. cbn [obind].
  pose proof (join_next_ok st H1 H2 bp s Hg p sp Hp) as Hjn. destruct (absorb s H2) as [x H2'] eqn:Eab.
  destruct Hjn as (st1 & -> & Hh1 & Hf1 & Hb1). cbn [obind].
  destruct (absorb_facts _ _ _ _ _ _ Eab J2 T2 Hs) as (Hx & T2' & Eu & Hhu & J2' & (Fx & HFx) & Hsub). replace (bp + s - s + x) with (bp + x) in T2' by lia.
  destruct (pred_place H1 P p sp bp T1 HP) as (Hp0 & Hsp & Hpbp & HpP & HPbp & Hcase).
  pose proof (tiled_le _ _ _ T2') as Hle.
  destruct (join_prev_ok H2 bp st1 p sp x (hd_addr (frees H2') base)) as (st2 & -> & Hf2 & Hb2 & Hh2); [by rewrite Hh1, lookup_insert_eq| |lia|lia|lia|lia|].
  { rewrite Hh1, lookup_insert_ne by lia. exact Hp. }
  cbn [obind]. eexists. split; [done|]. split; [|cbn; congruence].
  assert (bp ∉ map fst (frees H2')) as HbF.
  { intros Hb. apply list_elem_of_fmap in Hb as ([a t] & E & Hb). pose proof (frees_in _ _ _ _ _ T2' Hb). cbn in E. lia. }
  assert (p ∉ map fst (frees H2')) as HpF.
  { intros Hb. apply list_elem_of_fmap in Hb as ([a t] & E & Hb). pose proof (frees_in _ _ _ _ _ T2' Hb). cbn in E. lia. }
  rewrite HFx in HcF. apply chain_app in HcF as [_ HcF].
  assert (chain (hdr st2) P p) as HcP2 by (rewrite Hh2, Hh1, !chain_insert by done; exact HcP).
  assert (chain (hdr st2) (frees H2') base) as HcF2 by (rewrite Hh2, Hh1, !chain_insert by done; exact HcF).
  assert (forall a, a <> p -> a <> bp -> hdr st2 !! a = hdr st !! a) as Hkeep by (intros a Ha Hb; by rewrite Hh2, Hh1, !lookup_insert_ne by done).
  assert (forall a t, (a, t, true) ∈ H2' -> a <> p /\ a <> bp) as Hu2 by (intros a t Hin; pose proof (tiled_in _ _ _ _ _ _ T2' Hin); lia).
  destruct Hcase as [(G & -> & Hend & ->)|(Hlu & Hend & Hpin)].
  - rewrite (ab_free_onto _ _ _ _ _ _ _ _ Eab). rewrite decide_True in Hh2 by done. apply tiled_app in T1 as (mid & TG & TA). cbn in TA. destruct TA as (<- & _ & _).
    eapply (good_after st _ _ _ p bp Hg); [cbn; congruence| |by eapply joined_free| | |exact Hkeep|].
    + apply tiled_app. exists p. split; [done|]. cbn. split; [done|]. split; [lia|]. by replace (p + (sp + x)) with (bp + x) by lia.
    + cbn [hdr set_freep]. rewrite frees_app, app_comm_cons. apply chain_app. split; [exact HcP2|]. cbn. split; [by rewrite Hh2, lookup_insert_eq|exact HcF2].
    + cbn [freep set_freep]. rewrite frees_app. cbn. set_solver.
    + intros a t [Hin|[[=]|Hin]%elem_of_cons]%elem_of_app; [|split; [set_solver|by eapply Hu2]].
      pose proof (tiled_in _ _ _ _ _ _ TG Hin). split; [set_solver|lia].
  - rewrite (ab_free_alone _ _ _ _ _ _ Hlu Eab).
    rewrite decide_False in Hh2 by done. eapply (good_after st _ _ _ p bp Hg); [cbn; congruence| | | | |exact Hkeep|].
    + apply tiled_app. exists bp. split; [done|]. cbn. split; [done|]. split; [lia|done].
    + apply (joined_free H1 bp 0); [by apply joined_last|done|done].
    + cbn [hdr set_freep]. rewrite frees_app. cbn [frees]. rewrite app_comm_cons, HP, <- app_assoc. apply chain_app. split; [exact HcP2|]. cbn.
      split; [by rewrite Hh2, lookup_insert_eq|]. split; [|exact HcF2]. by rewrite Hh2, lookup_insert_ne, Hh1, lookup_insert_eq by lia.
    + cbn [freep set_freep]. rewrite frees_app, map_app. assert (p ∈ map fst ((base, 0) :: frees H1)) as Hin by (rewrite HP, map_app; cbn; set_solver). cbn in Hin. set_solver.
    + intros a t [Hin|[[=]|Hin]%elem_of_cons]%elem_of_app; [|split; [set_solver|by eapply Hu2]].
      pose proof (tiled_in _ _ _ _ _ _ T1 Hin). split; [set_solver|]. split; [|lia]. intros ->.
      destruct Hpin as [->|Hpin]; [lia|]. destruct (tiled_inj _ _ _ _ _ _ _ _ T1 Hin Hpin). done.
Qed.

Lemma ab_free_used H1 bp s H2 : used (ab_free H1 bp s H2) = used H1 ++ used H2.
Proof.
  unfold ab_free. assert (used (snd (absorb s H2)) = used H2) as E by (by destruct H2 as [|[[? ?] []] ?]).
  destruct (absorb s H2) as [x H2']. cbn in E. destruct (snoc_cases H1) as [->|(G & [[p sp] u] & ->)]; [cbn; by rewrite E|].
  rewrite last_snoc. destruct u; [rewrite used_app; cbn; by rewrite E|]. rewrite removelast_last, !used_app. cbn. by rewrite E, app_nil_r.
Qed.

(** The freed units are in one free block. *)
Lemma ab_free_block st H1 bp s H2 : good st (H1 ++ (bp, s, true) :: H2) -> exists a t, (a, t) ∈ frees (ab_free H1 bp s H2) /\ s <= t.
Proof.
  intros Hg. destruct (free_tiled _ _ _ _ _ Hg) as (T1 & Hs & T2). destruct (free_joined _ _ _ _ _ Hg) as [_ J2].
  unfold ab_free. destruct (absorb s H2) as [x H2'] eqn:E. destruct (absorb_facts _ _ _ _ _ _ E J2 T2 Hs) as (Hx & _).
  destruct (snoc_cases H1) as [->|(G & [[p sp] u] & ->)]; [exists bp, x; cbn; split; [set_solver|done]|].
  rewrite last_snoc. destruct u; [exists bp, x; rewrite frees_app; cbn; split; [set_solver|done]|].
  rewrite removelast_last. exists p, (sp + x). rewrite frees_app. cbn. split; [set_solver|].
  destruct (tiled_in _ _ _ p sp false T1); [set_solver|]. lia.
Qed.

Lemma length_ab_free H1 bp s H2 : (length (ab_free H1 bp s H2) <= length H1 + length H2 + 1)%nat.
Proof.
  unfold ab_free. assert (length (snd (absorb s H2)) <= length H2)%nat as E by (destruct H2 as [|[[? ?] []] ?]; cbn; lia).
  destruct (absorb s H2) as [x H2']. cbn in E. destruct (snoc_cases H1) as [->|(G & [[p sp] u] & ->)]; [cbn; lia|].
  rewrite last_snoc. destruct u; [rewrite !length_app; cbn; lia|]. rewrite removelast_last, !length_app. cbn. lia.
Qed.

(** * Allocating *)

(** The search from [freep] round to it: the first block that is large enough,
    with the one before it; or more memory is asked for. *)
Lemma scan_ring st n sf fnext : forall X k prev,
  chain (hdr st) X (freep st) -> hdr st !! freep st = Some (fnext, sf) -> freep st ∉ map fst X ->
  (exists X1 a sa X2, X ++ [(freep st, sf)] = X1 ++ (a, sa) :: X2 /\ n <= sa
     /\ malloc_loop limit (length X + S k) n prev (hd_addr X (freep st)) st
        = (let! (q, st) := take_block n (last_addr prev X1) a st in Ok (Some (q + 1), st)))
  \/ (Forall (fun x => x.2 < n) (X ++ [(freep st, sf)])
     /\ malloc_loop limit (length X + S k) n prev (hd_addr X (freep st)) st
        = (let! (r, st) := morecore limit (S k) n st in
           match r with
           | None => Ok (None, st)
           | Some p => let! (next, _) := header p st in malloc_loop limit k n p next st
           end)).
Proof.
  induction X as [|[a s] X IH]; intros k prev Hc Hf Hn; cbn [length Nat.add hd_addr malloc_loop app].
  - unfold header at 1 3. rewrite Hf. cbn [obind]. destruct (Z.leb_spec n sf) as [Hle|Hlt].
    + left. by exists [], (freep st), sf, [].
    + right. rewrite Z.eqb_refl. split; [by repeat constructor|done].
  - cbn in Hc, Hn. destruct Hc as [Ha Hc]. apply not_elem_of_cons in Hn as [Hne Hn].
    unfold header at 1 3. rewrite Ha. cbn [obind]. destruct (Z.leb_spec n s) as [Hle|Hlt].
    + left. by exists [], a, s, (X ++ [(freep st, sf)]).
    + destruct (Z.eqb_spec a (freep st)); [done|]. destruct (IH k a Hc Hf Hn) as [(X1 & b & sb & X2 & E & Hle & Hm)|[Hall Hm]].
      * left. exists ((a, s) :: X1), b, sb, X2. rewrite last_addr_cons. split; [by rewrite E|]. done.
      * right. split; [by constructor|done].
Qed.

(** The block the search stops at comes after the one it names. *)
Lemma prev_linear L1 f sf L2 X1 a sa X2 F :
  (base, 0) :: F = L1 ++ (f, sf) :: L2 -> (L2 ++ L1) ++ [(f, sf)] = X1 ++ (a, sa) :: X2 -> 0 < sa ->
  exists P sp Q, (base, 0) :: F = P ++ (last_addr f X1, sp) :: (a, sa) :: Q.
Proof.
  intros HL HX Hsa. rewrite <- app_assoc in HX. apply app_eq_inv in HX as [(k & E1 & E2)|(k & E1 & E2)].
  - destruct k as [|y k].
    { cbn in E2. rewrite app_nil_r in E1. subst X1. destruct L1 as [|[b t] L1].
      - cbn in E2, HL. injection E2 as -> -> ->. injection HL as <- <- _. lia.
      - cbn in E2. injection E2 as -> -> _. injection HL as <- <- _. lia. }
    cbn in E2. injection E2 as <- ->. subst L2. destruct (snoc_cases X1) as [->|(Y & [b t] & ->)].
    + exists L1, sf, k. by rewrite HL.
    + rewrite last_addr_snoc. exists (L1 ++ (f, sf) :: Y), t, k. rewrite HL. by simplify_list_eq.
  - subst X1. destruct (snoc_cases k) as [->|(Y & [b t] & ->)].
    { exfalso. cbn in E2. destruct L1 as [|[b t] L1]; cbn in E2, HL.
      - injection E2 as -> -> <-. injection HL as <- <- _. lia.
      - injection E2 as -> -> _. injection HL as <- <- _. lia. }
    rewrite app_assoc, last_addr_snoc. rewrite <- app_assoc in E2. cbn in E2.
    destruct (snoc_cases X2) as [->|(X2' & y & ->)].
    + replace (Y ++ (b, t) :: [(a, sa)]) with ((Y ++ [(b, t)]) ++ [(a, sa)]) in E2 by (by rewrite <- app_assoc).
      apply app_inj_tail in E2 as [-> [= <- <-]]. exists Y, t, L2. rewrite HL. by simplify_list_eq.
    + replace (Y ++ (b, t) :: (a, sa) :: X2' ++ [y]) with ((Y ++ (b, t) :: (a, sa) :: X2') ++ [y]) in E2 by (by rewrite <- app_assoc).
      apply app_inj_tail in E2 as [-> _]. exists Y, t, (X2' ++ (f, sf) :: L2). rewrite HL. by simplify_list_eq.
Qed.

Lemma frees_cut H : forall F1 a s F2, frees H = F1 ++ (a, s) :: F2 ->
  exists H1 H2, H = H1 ++ (a, s, false) :: H2 /\ frees H1 = F1 /\ frees H2 = F2.
Proof.
  induction H as [|[[b t] u] H IH]; intros F1 a s F2 E; cbn in E; [by destruct F1|]. destruct u.
  - destruct (IH _ _ _ _ E) as (H1 & H2 & -> & E1 & E2). by exists ((b, t, true) :: H1), H2.
  - destruct F1 as [|x F1]; [injection E as -> -> <-; by exists [], H|]. injection E as <- E.
    destruct (IH _ _ _ _ E) as (H1 & H2 & -> & E1 & E2). exists ((b, t, false) :: H1), H2. cbn. by rewrite E1.
Qed.

Lemma joined_snoc_used H1 a s : joined H1 -> joined (H1 ++ [(a, s, true)]).
Proof.
  induction H1 as [|[[b t] u] H1 IH]; intros Hj; [done|]. pose proof (IH (joined_cons _ _ Hj)) as H. by destruct u, H1 as [|[[c v] []] H1].
Qed.

(** The used blocks with [x] added somewhere. *)
Definition added (U : list (Z * Z)) (x : Z * Z) (U' : list (Z * Z)) : Prop :=
  exists U1 U2, U = U1 ++ U2 /\ U' = U1 ++ x :: U2.

Lemma take_ok st H n P pv sp a sa Q :
  good st H -> (base, 0) :: frees H = P ++ (pv, sp) :: (a, sa) :: Q -> 0 < n <= sa ->
  exists q st' H', take_block n pv a st = Ok (q, st') /\ good st' H' /\ added (used H) (q, n) (used H') /\ (length H' <= S (length H))%nat.
Proof.
  intros Hg HL Hn. assert (exists F1, P ++ [(pv, sp)] = (base, 0) :: F1 /\ frees H = F1 ++ (a, sa) :: Q) as (F1 & HP & HF).
  { destruct P as [|y P]; cbn in HL; [injection HL as <- <- HF; by exists []|]. injection HL as <- HF. exists (P ++ [(pv, sp)]). by rewrite <- app_assoc. }
  destruct (frees_cut _ _ _ _ _ HF) as (H1 & H2 & -> & E1 & E2). subst F1 Q.
  destruct Hg as [Ht Hb Hj Hc Hf Hu]. rewrite HL in Hc. pose proof Ht as Ht'. apply tiled_app in Ht as (mid & T1 & T2). cbn in T2. destruct T2 as (<- & Hsa & T2).
  destruct (pred_place H1 P pv sp a T1 (eq_sym HP)) as (Hp0 & Hsp & Hpa & HpP & HaP & Hpin).
  apply chain_app in Hc as [HcP (Hpv & Ha & HcQ)]. cbn [hd_addr] in HcP, Hpv.
  assert (forall b t, (b, t) ∈ frees H2 -> a + sa <= b) as HQ by (intros b t Hin; pose proof (frees_in _ _ _ _ _ T2 Hin); lia).
  assert (forall z, z < a + sa -> z ∉ map fst (frees H2)) as HQ' by (intros z Hz Hin; apply list_elem_of_fmap in Hin as ([b t] & -> & Hin); apply HQ in Hin; cbn in Hz; lia).
  pose proof (tiled_le _ _ _ T2) as Hle. pose proof (tiled_le _ _ _ T1) as Hle1.
  assert (forall b t, (b, t, true) ∈ H1 -> b <> pv /\ b < a) as Hu1.
  { intros b t Hin. pose proof (tiled_in _ _ _ _ _ _ T1 Hin). split; [|lia]. intros ->.
    assert (pv = base \/ (pv, sp, false) ∈ H1) as [->|Hp] by (destruct Hpin as [(G & -> & _)|(_ & _ & ?)]; [right; set_solver|done]); [lia|].
    by destruct (tiled_inj _ _ _ _ _ _ _ _ T1 Hin Hp). }
  assert (forall b t, (b, t, true) ∈ H2 -> a + sa <= b) as Hu2 by (intros b t Hin; pose proof (tiled_in _ _ _ _ _ _ T2 Hin); lia).
  assert (used (H1 ++ (a, sa, false) :: H2) = used H1 ++ used H2) as EU by (by rewrite used_app).
  unfold take_block, header. rewrite Ha. cbn [obind]. destruct (Z.eqb_spec sa n) as [->|Hne].
  - rewrite Hpv. cbn [obind]. eexists _, _, (H1 ++ (a, n, true) :: H2). split; [done|]. split; [|split; [|rewrite !length_app; cbn; lia]].
    2:{ exists (used H1), (used H2). split; [done|]. by rewrite used_app. }
    split; cbn [hdr freep brk set_freep set_hdr].
    + apply tiled_app. exists a. split; [done|]. cbn. done.
    + done.
    + apply joined_used; [|eapply (joined_cons (a, n, false)), joined_app_r; exact Hj]. apply joined_snoc_used. by eapply joined_app_l.
    + rewrite frees_app. cbn [frees]. rewrite app_comm_cons, <- HP, <- app_assoc. cbn [app]. apply chain_app. cbn [hd_addr chain].
      rewrite !chain_insert, lookup_insert_eq by (done || apply HQ'; lia). done.
    + rewrite frees_app. cbn [frees]. assert (pv ∈ map fst ((base, 0) :: frees H1)) as Hin by (rewrite <- HP, map_app; cbn; set_solver). cbn in Hin. rewrite map_app. set_solver.
    + intros b t [Hin|[[= -> ->]|Hin]%elem_of_cons]%elem_of_app.
      * rewrite lookup_insert_ne by (apply not_eq_sym; by eapply Hu1). apply Hu. set_solver.
      * rewrite lookup_insert_ne by lia. by eexists.
      * rewrite lookup_insert_ne by (apply Hu2 in Hin; lia). apply Hu. set_solver.
  - rewrite (u32_id (sa - n)) by (unfold is_u32; lia). cbv zeta.
    set (q := a + (sa - n)). match goal with |- context [set_hdr q (?z, n) _] => set (ptr := z) end.
    eexists q, _, (H1 ++ (a, sa - n, false) :: (q, n, true) :: H2). split; [done|]. split; [|split; [|rewrite !length_app; cbn; lia]].
    2:{ exists (used H1), (used H2). split; [done|]. by rewrite used_app. }
    split; cbn [hdr freep brk set_freep set_hdr].
    + apply tiled_app. exists a. split; [done|]. cbn. unfold q. split; [done|]. split; [lia|]. split; [lia|]. split; [lia|]. by replace (a + (sa - n) + n) with (a + sa) by lia.
    + done.
    + apply (joined_free H1 a sa); [|pose proof (joined_cons (a, sa, false) _ (joined_app_r _ _ Hj)) as Hj2; by destruct H2 as [|[[? ?] []] ?]|done].
      apply (joined_app_l _ H2). by rewrite <- app_assoc.
    + rewrite frees_app. cbn [frees]. rewrite app_comm_cons, <- HP, <- app_assoc. cbn [app]. apply chain_app. cbn [hd_addr chain].
      assert (q ∉ map fst P) as HqP.
      { intros Hin. assert (q ∈ map fst ((base, 0) :: frees H1)) as Hin' by (rewrite <- HP, map_app; set_solver). cbn in Hin'.
        apply elem_of_cons in Hin' as [E|Hin']; [unfold q in E; lia|]. apply list_elem_of_fmap in Hin' as ([b t] & E & Hin'). pose proof (frees_in _ _ _ _ _ T1 Hin'). unfold q in E. cbn in E. lia. }
      rewrite !chain_insert by (done || apply HQ'; lia). rewrite (lookup_insert_ne _ q pv), (lookup_insert_ne _ a pv), (lookup_insert_ne _ q a), lookup_insert_eq by lia. done.
    + rewrite frees_app. cbn [frees]. assert (pv ∈ map fst ((base, 0) :: frees H1)) as Hin by (rewrite <- HP, map_app; cbn; set_solver). cbn in Hin. rewrite map_app. set_solver.
    + intros b t [Hin|[[=]|[[= -> ->]|Hin]%elem_of_cons]%elem_of_cons]%elem_of_app.
      * pose proof (Hu1 _ _ Hin). rewrite !lookup_insert_ne by lia. apply Hu. set_solver.
      * rewrite lookup_insert_eq. by eexists.
      * pose proof (Hu2 _ _ Hin). rewrite !lookup_insert_ne by lia. apply Hu. set_solver.
Qed.

(** The search from [freep] of a well-formed heap. *)
Lemma scan_good st H n k : good st H -> 0 < n ->
  exists fnext, header (freep st) st = Ok (fnext, snd (default (0, 0) (hdr st !! freep st))) /\
  ((exists q st' H', malloc_loop limit (length (frees H) + S k) n (freep st) fnext st = Ok (Some (q + 1), st')
      /\ good st' H' /\ added (used H) (q, n) (used H') /\ (length H' <= S (length H))%nat)
   \/ (Forall (fun x => x.2 < n) (frees H)
      /\ malloc_loop limit (length (frees H) + S k) n (freep st) fnext st
         = (let! (r, st) := morecore limit (S k) n st in
            match r with
            | None => Ok (None, st)
            | Some p => let! (next, _) := header p st in malloc_loop limit k n p next st
            end))).
Proof.
  intros Hg Hn. pose proof (g_chain _ _ Hg) as Hc. pose proof (g_freep _ _ Hg) as Hf.
  assert (exists L1 sf L2, (base, 0) :: frees H = L1 ++ (freep st, sf) :: L2) as (L1 & sf & L2 & HL).
  { change (base :: map fst (frees H)) with (map fst ((base, 0) :: frees H)) in Hf. apply list_elem_of_fmap in Hf as ([a t] & -> & Hf).
    apply list_elem_of_split in Hf as (L1 & L2 & E). by exists L1, t, L2. }
  pose proof Hc as Hc'. rewrite HL in Hc'. apply chain_app in Hc' as [C1 [Hfp C2]]. cbn [hd_addr] in C1.
  assert (hd_addr (L1 ++ [(freep st, sf)]) base = base) as Hhd by (destruct L1 as [|[b t] L1]; cbn in HL; by injection HL).
  assert (incr (base - 1) ((base, 0) :: frees H)) as Hi by (cbn; split; [lia|eapply frees_incr; [apply (g_tiled _ _ Hg)|lia]]).
  assert (freep st ∉ map fst (L2 ++ L1)) as Hnin.
  { rewrite HL in Hi. rewrite map_app. apply not_elem_of_app. split.
    - apply incr_app in Hi as [_ Hi]. destruct Hi as [_ Hi]. by apply incr_notin.
    - rewrite cons_middle, app_assoc in Hi. apply incr_app in Hi as [Hi _]. by eapply incr_snoc_notin. }
  assert (length (frees H) = length (L2 ++ L1)) as Hlen.
  { apply (f_equal length) in HL. rewrite length_app in HL |- *. cbn in HL. lia. }
  exists (hd_addr L2 base). split; [unfold header; by rewrite Hfp|]. rewrite Hlen.
  assert (hd_addr L2 base = hd_addr (L2 ++ L1) (freep st)) as Ehd.
  { rewrite hd_addr_app. f_equal. by rewrite <- Hhd, hd_addr_app. }
  rewrite Ehd. destruct (scan_ring st n sf (hd_addr L2 base) (L2 ++ L1) k (freep st)) as [(X1 & a & sa & X2 & E & Hle & ->)|[Hall ->]]; [|done|done| |].
  - apply chain_app. split; [|done]. assert (hd_addr L1 (freep st) = base) as -> by (by rewrite <- Hhd, hd_addr_app). done.
  - left. destruct (prev_linear _ _ _ _ _ _ _ _ _ HL E ltac:(lia)) as (P & sp & Q & HL'). 
    destruct (take_ok st H n P _ sp a sa Q Hg HL' ltac:(lia)) as (q & st' & H' & -> & Hg' & Ha & Hlen'). cbn [obind]. by exists q, st', H'.
  - right. split; [|done]. apply Forall_forall. intros x Hx. rewrite Forall_forall in Hall. apply Hall.
    assert (x ∈ L1 ++ (freep st, sf) :: L2) as Hin by (rewrite <- HL; set_solver). set_solver.
Qed.

(** [sbrk] brings a new block, which [free] puts on the list. *)
Lemma morecore_ok st H n k : good st H -> 0 < n -> n * 8 < 2147483648 -> (length (frees H) + 1 < k)%nat ->
  (morecore limit k n st = Ok (None, st) /\ limit < brk st + Z.max 4096 n)
  \/ exists st' H', morecore limit k n st = Ok (Some (freep st'), st') /\ good st' H' /\ used H' = used H
       /\ (exists a t, (a, t) ∈ frees H' /\ n <= t) /\ (length H' <= S (length H))%nat.
Proof.
  intros Hg Hn Hn8 Hk. unfold morecore. set (nu := if n <? 4096 then 4096 else n).
  assert (n <= nu /\ 0 < nu /\ nu * 8 < 2147483648 /\ nu = Z.max 4096 n) as (Hnu & Hnu0 & Hnu8 & Hmax) by (unfold nu; destruct (Z.ltb_spec n 4096); lia).
  destruct (Z.leb_spec 2147483648 (nu * 8)); [lia|]. unfold sbrk. destruct (Z.leb_spec (brk st + nu) limit) as [Hl|Hl]; [|left; by rewrite <- Hmax].
  right. cbn [hdr]. match goal with |- context [set_hdr _ (?z, nu) _] => set (ptr := z) end.
  set (st1 := set_hdr (brk st) (ptr, nu) (Heap (hdr st) (freep st) (brk st + nu))).
  pose proof (tiled_le _ _ _ (g_tiled _ _ Hg)) as Hle. assert (good st1 (H ++ [(brk st, nu, true)])) as Hg1.
  { destruct Hg as [Ht Hb Hj Hc Hf Hu]. assert (brk st ∉ map fst ((base, 0) :: frees H)) as Hnb.
    { cbn. apply not_elem_of_cons. split; [lia|]. intros Hin. apply list_elem_of_fmap in Hin as ([b t] & E & Hin). pose proof (frees_in _ _ _ _ _ Ht Hin). cbn in E. lia. }
    split; cbn [hdr freep brk st1 set_hdr]; rewrite ?frees_app; cbn [frees]; rewrite ?app_nil_r; try done.
    - apply tiled_app. exists (brk st). split; [done|]. cbn. done.
    - by apply joined_snoc_used.
    - by rewrite chain_insert.
    - intros a s [Hin|[[= -> ->]|Hin]%elem_of_cons]%elem_of_app; [|by eexists; rewrite lookup_insert_eq|set_solver].
      pose proof (tiled_in _ _ _ _ _ _ Ht Hin). rewrite lookup_insert_ne by lia. by apply Hu. }
  destruct (free_ok st1 H (brk st) nu [] k Hg1) as (st2 & -> & Hg2 & _); [cbn; lia|]. cbn [obind].
  exists st2, (ab_free H (brk st) nu []). split; [done|]. split; [done|]. split; [by rewrite ab_free_used, app_nil_r|]. split.
  - destruct (ab_free_block _ _ _ _ _ Hg1) as (a & t & Hin & Ht). exists a, t. split; [done|lia].
  - pose proof (length_ab_free H (brk st) nu []) as Hl'. cbn [length] in Hl'. lia.
Qed.

(** The heap before the first call. *)
Definition unused (st : heap) : Prop := freep st = 0 /\ brk st = lo.

Lemma unused_start st : unused st -> lo <= limit -> good (set_freep base (set_hdr base (base, 0) st)) [].
Proof.
  intros [Hf Hb] Hl. split; cbn; rewrite ?Hb; [done|done|done|by rewrite lookup_insert_eq|set_solver|set_solver].
Qed.

(** What [malloc] promises for [n] units. *)
Definition malloc_post (H : list block) (n brk0 : Z) (r : option Z) (st' : heap) : Prop :=
  exists H', good st' H' /\ (length H' <= length H + 2)%nat /\
  match r with
  | Some ap => added (used H) (ap - 1, n) (used H')
  | None => used H' = used H /\ Forall (fun x => x.2 < n) (frees H) /\ limit < brk0 + Z.max 4096 n
  end.

Lemma malloc_loop_ok st H n fuel : good st H -> 0 < n -> n * 8 < 2147483648 -> (2 * length H + 5 < fuel)%nat ->
  exists next r st', header (freep st) st = Ok (next, snd (default (0, 0) (hdr st !! freep st))) /\
    malloc_loop limit fuel n (freep st) next st = Ok (r, st') /\ malloc_post H n (brk st) r st'.
Proof.
  intros Hg Hn Hn8 Hf. pose proof (length_frees H) as HF. set (k := (fuel - length (frees H) - 1)%nat).
  replace fuel with (length (frees H) + S k)%nat by (unfold k; lia).
  destruct (scan_good st H n k Hg Hn) as (next & Hh & [(q & st' & H' & Hm & Hg' & Ha & Hl)|[Hsmall Hm]]).
  { exists next, (Some (q + 1)), st'. split; [done|]. split; [done|]. exists H'. split; [done|]. split; [lia|]. by replace (q + 1 - 1) with q by lia. }
  exists next. rewrite Hm. destruct (morecore_ok st H n (S k) Hg Hn Hn8 ltac:(unfold k; lia)) as [[-> Hlim]|(st1 & H1 & -> & Hg1 & Hu1 & (a & t & Hin & Ht) & Hl1)].
  { exists None, st. split; [done|]. split; [done|]. exists H. split; [done|]. split; [lia|done]. }
  cbn [obind]. pose proof (length_frees H1) as HF1. set (k' := (k - length (frees H1) - 1)%nat).
  destruct (scan_good st1 H1 n k' Hg1 Hn) as (next1 & Hh1 & [(q & st' & H' & Hm1 & Hg' & Ha & Hl)|[Hsmall1 _]]).
  - rewrite Hh1. cbn [obind]. replace k with (length (frees H1) + S k')%nat by (unfold k', k; lia).
    exists (Some (q + 1)), st'. split; [done|]. split; [done|]. exists H'. split; [done|]. split; [lia|]. replace (q + 1 - 1) with q by lia. by rewrite <- Hu1.
  - exfalso. rewrite Forall_forall in Hsmall1. apply Hsmall1 in Hin. cbn in Hin. lia.
Qed.

Lemma nunits_ok nbytes : 0 <= nbytes < 2147483632 ->
  0 < nunits nbytes /\ nunits nbytes * 8 < 2147483648 /\ nbytes <= 8 * (nunits nbytes - 1).
Proof. intros Hn. unfold nunits. zlia. Qed.

(** A heap in use, or one before its first call. *)
Definition heap_ok (st : heap) (H : list block) : Prop := good st H \/ (unused st /\ H = [] /\ lo <= limit).

Lemma malloc_ok st H nbytes fuel : heap_ok st H -> 0 <= nbytes < 2147483632 -> (2 * length H + 5 < fuel)%nat ->
  exists r st', malloc base limit fuel nbytes st = Ok (r, st') /\ malloc_post H (nunits nbytes) (brk st) r st'.
Proof.
  intros Hok Hn Hf. destruct (nunits_ok _ Hn) as (H0 & H8 & _). unfold malloc. destruct Hok as [Hg|(Hu & -> & Hl)].
  - destruct (Z.eqb_spec (freep st) 0) as [E|_].
    { pose proof (g_freep _ _ Hg) as Hfp. rewrite E in Hfp. apply elem_of_cons in Hfp as [Hz|Hz]; [lia|].
      apply list_elem_of_fmap in Hz as ([a t] & Hz & Hin). pose proof (frees_in _ _ _ _ _ (g_tiled _ _ Hg) Hin). cbn in Hz. lia. }
    destruct (malloc_loop_ok st H _ fuel Hg H0 H8 Hf) as (next & r & st' & -> & Hm & Hp). cbn [obind]. by exists r, st'.
  - pose proof (unused_start st Hu Hl) as Hg. destruct Hu as [Hfp _]. rewrite Hfp. cbn [Z.eqb].
    destruct (malloc_loop_ok _ [] _ fuel Hg H0 H8 Hf) as (next & r & st' & -> & Hm & Hp). cbn [obind]. by exists r, st'.
Qed.

(** * Histories *)

(** [malloc] of a size, and [free] of the [i]-th live pointer. *)
Inductive call := Malloc (nbytes : Z) | Free (i : nat).

(** The live pointers with the sizes asked for, after a sequence of calls, and the
    requests that [malloc] refused, with the break at that time. *)
Fixpoint run (fuel : nat) (cs : list call) (live refused : list (Z * Z)) (st : heap) : outcome (list (Z * Z) * list (Z * Z) * heap) :=
  match cs with
  | [] => Ok (live, refused, st)
  | Malloc nbytes :: cs =>
      let! (r, st1) := malloc base limit fuel nbytes st in
      match r with
      | Some ap => run fuel cs ((ap, nbytes) :: live) refused st1
      | None => run fuel cs live ((nbytes, brk st) :: refused) st1
      end
  | Free i :: cs =>
      match live !! i with
      | Some (ap, _) => let! st := free fuel ap st in run fuel cs (delete i live) refused st
      | None => run fuel cs live refused st
      end
  end.

(** The sizes for which [sbrk] is not called with a negative argument. *)
Definition call_ok (c : call) : Prop := match c with Malloc nbytes => 0 <= nbytes < 2147483632 | Free _ => True end.

(** The break could not have moved by what the request needs, or by the least
    that is asked of [sbrk]. *)
Definition too_big (x : Z * Z) : Prop := limit < x.2 + Z.max 4096 (nunits x.1).

Definition live_block (x : Z * Z) : Z * Z := (x.1 - 1, nunits x.2).

Lemma added_perm U x U' : added U x U' -> U' ≡ₚ x :: U.
Proof. intros (U1 & U2 & -> & ->). by rewrite Permutation_middle. Qed.

Lemma used_split H a s : (a, s) ∈ used H -> exists H1 H2 : list block, H = H1 ++ (a, s, true) :: H2.
Proof. intros Hin. apply used_in, list_elem_of_split in Hin as (H1 & H2 & ->). by exists H1, H2. Qed.

Definition size_ok (n : Z) : Prop := 0 <= n < 2147483632.

Lemma run_ok fuel cs : forall live refused st H,
  heap_ok st H -> Forall call_ok cs -> map live_block live ≡ₚ used H -> Forall (fun x => size_ok x.2) live -> Forall too_big refused ->
  (2 * (length H + 2 * length cs) + 5 < fuel)%nat ->
  exists live' refused' st' H', run fuel cs live refused st = Ok (live', refused', st') /\ heap_ok st' H' /\ map live_block live' ≡ₚ used H'
    /\ Forall (fun x => size_ok x.2) live' /\ Forall too_big refused'.
Proof.
  induction cs as [|c cs IH]; intros live refused st H Hok Hcs Hlive Hsz Href Hf; [by exists live, refused, st, H|]. apply Forall_cons in Hcs as [Hc Hcs]. cbn in Hf.
  destruct c as [nbytes|i]; cbn [run].
  - destruct (malloc_ok st H nbytes fuel Hok Hc ltac:(lia)) as (r & st1 & -> & H1 & Hg1 & Hlen & Hr). cbn [obind].
    destruct r as [ap|].
    + apply (IH _ _ st1 H1); [by left|done| |by constructor|done|lia]. cbn. rewrite (added_perm _ _ _ Hr). by f_equiv.
    + destruct Hr as (Hu & _ & Hlim). apply (IH _ _ st1 H1); [by left|done|by rewrite Hu|done|by constructor|lia].
  - destruct (live !! i) as [[ap n]|] eqn:Ei; [|apply (IH _ _ st H); done || lia].
    assert ((ap - 1, nunits n) ∈ used H) as Hin by (rewrite <- Hlive; apply list_elem_of_fmap; exists (ap, n); split; [done|]; by eapply list_elem_of_lookup_2).
    destruct Hok as [Hg|(_ & -> & _)]; [|cbn in Hin; set_solver]. apply used_split in Hin as (H1 & H2 & ->).
    pose proof (length_frees H1). pose proof (length_frees H2). rewrite length_app in Hf. cbn in Hf.
    destruct (free_ok st H1 _ _ H2 fuel Hg ltac:(lia)) as (st1 & Hfree & Hg1 & _). replace (ap - 1 + 1) with ap in Hfree by lia.
    rewrite Hfree. cbn [obind]. apply (IH _ _ st1 (ab_free H1 (ap - 1) (nunits n) H2)); [by left|done| |by apply Forall_delete|done|].
    + rewrite ab_free_used. rewrite used_app in Hlive. cbn in Hlive. rewrite <- Permutation_middle in Hlive.
      apply (Permutation_cons_inv (a := (ap - 1, nunits n))). rewrite <- Hlive. by rewrite (delete_Permutation live i (ap, n) Ei) at 2.
    + pose proof (length_ab_free H1 (ap - 1) (nunits n) H2). lia.
Qed.
End Alloc.

Lemma tiled_order H : forall lo hi a s u b t v, tiled lo H hi -> (a, s, u) ∈ H -> (b, t, v) ∈ H -> a < b -> a + s <= b.
Proof.
  induction H as [|[[c n] w] H IH]; intros lo hi a s u b t v Ht H1 H2 Hlt; [set_solver|]. cbn in Ht. destruct Ht as (-> & Hn & Ht).
  apply elem_of_cons in H1 as [E1|H1], H2 as [E2|H2]; [injection E1; injection E2; lia|injection E1 as -> -> ->|injection E2 as -> -> ->|by eapply IH].
  - pose proof (tiled_in _ _ _ _ _ _ Ht H2). lia.
  - pose proof (tiled_in _ _ _ _ _ _ Ht H1). lia.
Qed.

Lemma used_nodup H : forall lo hi, tiled lo H hi -> NoDup (map fst (used H)).
Proof.
  induction H as [|[[a s] u] H IH]; intros lo hi Ht; [constructor|]. cbn in Ht. destruct Ht as (-> & Hs & Ht). specialize (IH _ _ Ht).
  destruct u; [|done]. cbn. constructor; [|done]. intros Hin. apply list_elem_of_fmap in Hin as ([b t] & E & Hin). apply used_in in Hin.
  pose proof (tiled_in _ _ _ _ _ _ Ht Hin). cbn in E. lia.
Qed.

(** C25.  Whatever sequence of [malloc] of fewer than 2147483632 bytes and of [free]
    of live pointers a program makes in a heap of at most two gigabytes, both
    always return; the pointers given out are distinct, each has the bytes asked
    for inside the heap, and the bytes of one end before the header of the
    next.  [malloc] returns 0 only when [sbrk] refuses: the break, at that time,
    could not move by the units of the request or by 4096 of them.  (A request
    of more bytes makes the argument of [sbrk] negative or wraps around.) *)
Theorem malloc_disjoint base lo limit fuel cs :
  0 < base < lo -> lo <= limit <= 268435456 -> Forall call_ok cs -> (4 * length cs + 5 < fuel)%nat ->
  exists live refused st, run base limit fuel cs [] [] (Heap ∅ 0 lo) = Ok (live, refused, st) /\ NoDup (map fst live)
    /\ (forall a n, (a, n) ∈ live -> 8 * lo < 8 * a /\ 8 * a + n <= 8 * brk st <= 8 * limit)
    /\ (forall a n b m, (a, n) ∈ live -> (b, m) ∈ live -> a < b -> 8 * a + n <= 8 * (b - 1))
    /\ Forall (fun x => limit < x.2 + Z.max 4096 (nunits x.1)) refused.
Proof.
  intros Hbase Hlim Hcs Hf.
  destruct (run_ok base lo limit Hbase ltac:(lia) fuel cs [] [] (Heap ∅ 0 lo) []) as (live & refused & st & H & Hrun & Hok & Hp & Hsz & Href);
    [right; split; [by split|]; split; [done|lia]|done|done|constructor|constructor|cbn; lia|].
  exists live, refused, st. split; [done|]. assert (tiled lo H (brk st) /\ brk st <= limit) as [Ht Hb].
  { destruct Hok as [[]|([_ Hb] & -> & _)]; [done|]. cbn. rewrite Hb. lia. }
  assert (forall a n, (a, n) ∈ live -> (a - 1, nunits n, true) ∈ H /\ n <= 8 * (nunits n - 1)) as Hin.
  { intros a n Hin. split; [|rewrite Forall_forall in Hsz; apply nunits_ok, (Hsz (a, n) Hin)].
    apply used_in. rewrite <- Hp. apply list_elem_of_fmap. by exists (a, n). }
  split; [|split; [|split; [|exact Href]]].
  - pose proof (used_nodup _ _ _ Ht) as Hnd. rewrite <- Hp, map_map in Hnd.
    apply (NoDup_fmap_1 (fun z => z - 1)). change (NoDup (map (fun z => z - 1) (map fst live))). by rewrite map_map.
  - intros a n Hl. destruct (Hin _ _ Hl) as [Hi Hn]. pose proof (tiled_in _ _ _ _ _ _ Ht Hi). lia.
  - intros a n b m Ha Hbm Hlt. destruct (Hin _ _ Ha) as [Hi Hn], (Hin _ _ Hbm) as [Hj _].
    pose proof (tiled_order _ _ _ _ _ _ _ _ _ Ht Hi Hj ltac:(lia)). lia.
Qed.

Lemma malloc_disjoint_witness :
  exists live refused st, run 16 10000 40 [Malloc 100; Malloc 7; Free 1; Malloc 5000; Malloc 64; Malloc 100000] [] [] (Heap ∅ 0 64) = Ok (live, refused, st)
    /\ NoDup (map fst live) /\ Forall (fun x => 10000 < x.2 + Z.max 4096 (nunits x.1)) refused.
Proof.
  destruct (malloc_disjoint 16 64 10000 40 [Malloc 100; Malloc 7; Free 1; Malloc 5000; Malloc 64; Malloc 100000]) as (live & refused & st & Hr & Hn & _ & _ & Href).
  - lia.
  - lia.
  - repeat constructor; lia.
  - cbn. lia.
  - exists live, refused, st. exact (conj Hr (conj Hn Href)).
Defined.

(** The size computation wraps around: [malloc] of 4294967295 bytes
    returns a block of one header, with no byte for the caller. *)
Theorem malloc_wraps :
  nunits 4294967295 = 1
  /\ exists st, malloc 16 10000 10 4294967295 (Heap ∅ 0 64) = Ok (Some 4160, st) /\ hdr st !! 4159 = Some (0, 1).
Proof. split; [reflexivity|]. eexists. split; [vm_compute; reflexivity|reflexivity]. Qed.
