(* ===== verification/Ports.v ===== *)
(** x86.h: input and output of the machine.  What answers at a port or behind
    a memory-mapped register is hardware, so the accesses are the operations of
    a class, [Machine], over an arbitrary state of the devices.  [AtaLaws] says
    of such a machine that its ports 0x1f0 to 0x1f7 are those of a disk
    controller in programmed I/O with drives that have no faults: the registers
    latch, a command transfers one sector of 128 words, and the status port
    reads busy at most [patience] times. *)
From S2P Require Import Prelude Mem.

Class Machine (D : Type) := {
  in8 : Z -> D -> Z * D;
  out8 : Z -> Z -> D -> D;
  in32 : Z -> D -> Z * D;
  out32 : Z -> Z -> D -> D;
  mmio_read : Z -> D -> Z * D;
  mmio_write : Z -> Z -> D -> D
}.

Section Ports.
Context {D : Type} `{Machine D}.

Definition inb (port : Z) (d : D) : Z * D := let '(v, d) := in8 (u16 port) d in (u8 v, d).

Definition outb (port data : Z) (d : D) : D := out8 (u16 port) (u8 data) d.

(** [rep insl]: [cnt] words from the port to consecutive addresses. *)
Fixpoint rep_insl (port : Z) (m : mem) (addr : Z) (cnt : nat) (d : D) : mem * D :=
  match cnt with
  | O => (m, d)
  | S k => let '(w, d) := in32 port d in rep_insl port (st32 m addr w) (addr + 4) k d
  end.

Definition insl (port addr cnt : Z) (m : mem) (d : D) : mem * D := rep_insl port m addr (Z.to_nat (u32 cnt)) d.

(** [rep outsl]: [cnt] words from consecutive addresses to the port. *)
Fixpoint rep_outsl (port : Z) (m : mem) (addr : Z) (cnt : nat) (d : D) : D :=
  match cnt with
  | O => d
  | S k => rep_outsl port m (addr + 4) k (out32 port (ld32 m addr) d)
  end.

Definition outsl (port addr cnt : Z) (m : mem) (d : D) : D := rep_outsl port m addr (Z.to_nat (u32 cnt)) d.

End Ports.

(** * Disk drives behind the ports *)

(** A sector is 128 words. *)
Definition SECTWORDS : nat := 128.

(** Between commands; sending the rest of a sector; receiving a sector. *)
Inductive ata_mode := Ready | Sending (ws : list Z) | Receiving (ws : list Z).

(** The registers, the sectors by drive and number, and the number of
    interrupts raised so far. *)
Record ata := Ata {
  at_count : Z;
  at_low : Z;
  at_mid : Z;
  at_high : Z;
  at_drive : Z;
  at_mode : ata_mode;
  at_disk : gmap (Z * Z) (list Z);
  at_irqs : nat
}.

Definition at_lba (a : ata) : Z := at_low a + 256 * at_mid a + 65536 * at_high a + 16777216 * (at_drive a mod 16).
Definition at_unit (a : ata) : Z := (at_drive a / 16) mod 2.
Definition sector (a : ata) (unit lba : Z) : list Z := default (replicate SECTWORDS 0) (at_disk a !! (unit, lba)).

Definition set_mode (m : ata_mode) (a : ata) : ata :=
  Ata (at_count a) (at_low a) (at_mid a) (at_high a) (at_drive a) m (at_disk a) (at_irqs a).
Definition set_irqs (n : nat) (a : ata) : ata :=
  Ata (at_count a) (at_low a) (at_mid a) (at_high a) (at_drive a) (at_mode a) (at_disk a) n.

(** A byte written to a port; [None] where nothing is promised. *)
Definition ata_out8 (port v : Z) (a : ata) : option ata :=
  if port =? 0x1f2 then Some (Ata v (at_low a) (at_mid a) (at_high a) (at_drive a) (at_mode a) (at_disk a) (at_irqs a))
  else if port =? 0x1f3 then Some (Ata (at_count a) v (at_mid a) (at_high a) (at_drive a) (at_mode a) (at_disk a) (at_irqs a))
  else if port =? 0x1f4 then Some (Ata (at_count a) (at_low a) v (at_high a) (at_drive a) (at_mode a) (at_disk a) (at_irqs a))
  else if port =? 0x1f5 then Some (Ata (at_count a) (at_low a) (at_mid a) v (at_drive a) (at_mode a) (at_disk a) (at_irqs a))
  else if port =? 0x1f6 then Some (Ata (at_count a) (at_low a) (at_mid a) (at_high a) v (at_mode a) (at_disk a) (at_irqs a))
  else if (port =? 0x3f6) && (v =? 0) then Some a
  else if port =? 0x1f7 then
    match at_mode a with
    | Ready =>
        if negb (at_count a =? 1) then None
        else if v =? 0x20 then Some (set_irqs (S (at_irqs a)) (set_mode (Sending (sector a (at_unit a) (at_lba a))) a))
        else if v =? 0x30 then Some (set_mode (Receiving []) a)
        else None
    | _ => None
    end
  else None.

(** A word read from the data port. *)
Definition ata_in32 (a : ata) : option (Z * ata) :=
  match at_mode a with
  | Sending [w] => Some (w, set_mode Ready a)
  | Sending (w :: ws) => Some (w, set_mode (Sending ws) a)
  | _ => None
  end.

(** A word written to the data port; the last one of a sector stores it. *)
Definition ata_out32 (w : Z) (a : ata) : option ata :=
  match at_mode a with
  | Receiving ws =>
      let ws := ws ++ [w] in
      if (length ws <? SECTWORDS)%nat then Some (set_mode (Receiving ws) a)
      else Some (Ata (at_count a) (at_low a) (at_mid a) (at_high a) (at_drive a) Ready
                   (<[(at_unit a, at_lba a) := ws]> (at_disk a)) (S (at_irqs a)))
  | _ => None
  end.

Class AtaLaws (D : Type) `{Machine D} := {
  ata_of : D -> ata;
  patience : nat;
  delay : D -> nat;
  law_delay d : (delay d <= patience)%nat;
  law_out8 port v d a : ata_out8 port v (ata_of d) = Some a -> ata_of (out8 port v d) = a;
  law_out32 w d a : ata_out32 w (ata_of d) = Some a -> ata_of (out32 0x1f0 w d) = a;
  law_in32 d w a : ata_in32 (ata_of d) = Some (w, a) -> exists d', in32 0x1f0 d = (w, d') /\ ata_of d' = a;
  law_status d : exists s d', in8 0x1f7 d = (s, d') /\ 0 <= s < 256 /\ ata_of d' = ata_of d
    /\ ((Z.land s 0xc0 = 0x40 /\ Z.land s 0x21 = 0) \/ (Z.land s 0xc0 <> 0x40 /\ (delay d' < delay d)%nat))
}.

(** The words of the block [m], as they travel through the data port. *)
Fixpoint words_at (m : mem) (a : Z) (n : nat) : list Z :=
  match n with O => [] | S n => ld32 m a :: words_at m (a + 4) n end.

Section Data.
Context {D : Type} `{AtaLaws D}.

Lemma rep_outsl_store n : forall m a ws (d : D),
  at_mode (ata_of d) = Receiving ws -> (0 < n)%nat -> (length ws + n = SECTWORDS)%nat ->
  ata_of (rep_outsl 0x1f0 m a n d) =
    Ata (at_count (ata_of d)) (at_low (ata_of d)) (at_mid (ata_of d)) (at_high (ata_of d)) (at_drive (ata_of d)) Ready
      (<[(at_unit (ata_of d), at_lba (ata_of d)) := ws ++ words_at m a n]> (at_disk (ata_of d))) (S (at_irqs (ata_of d))).
Proof.
  induction n as [|n IH]; intros m a ws d Hm Hn Hl; [lia|]. cbn [rep_outsl words_at].
  set (d1 := out32 0x1f0 (ld32 m a) d).
  assert (ata_out32 (ld32 m a) (ata_of d) = Some (ata_of d1)) as E1.
  { destruct (ata_out32 (ld32 m a) (ata_of d)) as [a1|] eqn:E; [f_equal; symmetry; by apply law_out32|].
    unfold ata_out32 in E. rewrite Hm in E. by destruct (_ <? _)%nat. }
  unfold ata_out32 in E1. rewrite Hm, length_app in E1. cbn [length] in E1.
  destruct (Nat.ltb_spec (length ws + 1) SECTWORDS) as [Hlt|Hge]; injection E1 as E1.
  - rewrite (IH m (a + 4) (ws ++ [ld32 m a]) d1) by (rewrite <- ?E1, ?length_app; cbn [length]; done || lia).
    rewrite <- E1, <- app_assoc. done.
  - assert (n = 0%nat) as -> by lia. cbn [rep_outsl words_at]. by rewrite <- E1.
Qed.

(** Reading [n] words puts them at [a] and leaves the rest of memory alone. *)
Lemma rep_insl_load n : forall m a ws (d : D),
  at_mode (ata_of d) = Sending ws -> (0 < n)%nat -> length ws = n -> Forall is_u32 ws ->
  exists m' d', rep_insl 0x1f0 m a n d = (m', d') /\ ata_of d' = set_mode Ready (ata_of d)
    /\ words_at m' a n = ws /\ (forall b, b < a \/ a + 4 * Z.of_nat n <= b -> ld8 m' b = ld8 m b).
Proof.
  induction n as [|n IH]; intros m a ws d Hm Hn Hl Hw; [lia|]. destruct ws as [|w ws]; [done|].
  apply Forall_cons in Hw as [Hw Hws]. cbn [rep_insl].
  destruct (law_in32 d w (match ws with [] => set_mode Ready (ata_of d) | _ => set_mode (Sending ws) (ata_of d) end)) as (d1 & -> & E1).
  { unfold ata_in32. rewrite Hm. by destruct ws. }
  destruct (decide (n = 0%nat)) as [->|Hn0].
  - destruct ws; [|done]. cbn [rep_insl words_at]. exists (st32 m a w), d1. rewrite ld32_st32_eq, u32_id by done.
    split; [done|]. split; [done|]. split; [done|]. intros b Hb. apply ld8_st32_ne. lia.
  - destruct ws as [|w' ws]; [cbn in Hl; lia|].
    destruct (IH (st32 m a w) (a + 4) (w' :: ws) d1) as (m' & d' & -> & E2 & Hd & Hf); try done; try lia.
    { by rewrite E1. }
    { cbn in Hl |- *. lia. }
    exists m', d'. split; [done|]. split; [by rewrite E2, E1|]. split.
    + cbn [words_at]. f_equal; [|done]. transitivity (ld32 (st32 m a w) a); [|by rewrite ld32_st32_eq, u32_id].
      apply ld32_ext. intros i Hi. apply Hf. lia.
    + intros b Hb. rewrite Hf by lia. apply ld8_st32_ne. lia.
Qed.

(** A register write the drive understands. *)
Lemma outb_law port v d a : 0 <= port < 65536 -> ata_out8 port (u8 v) (ata_of d) = Some a -> ata_of (outb port v d) = a.
Proof. intros Hp Ha. unfold outb, u16. rewrite Z.mod_small by lia. by apply law_out8. Qed.

End Data.

(** Two memories with the same bytes at [a] and above hold the same words. *)
Lemma words_at_ext n : forall m m' a, (forall b, a <= b < a + 4 * Z.of_nat n -> ld8 m b = ld8 m' b) -> words_at m a n = words_at m' a n.
Proof.
  induction n as [|n IH]; intros m m' a Hb; [done|]. cbn [words_at]. f_equal.
  - apply ld32_ext. intros i Hi. apply Hb. lia.
  - apply IH. intros b Hb'. apply Hb. lia.
Qed.

Lemma words_at_u32 n : forall m a, Forall is_u32 (words_at m a n).
Proof. induction n as [|n IH]; intros m a; cbn [words_at]; constructor; [apply ld32_range|apply IH]. Qed.

Lemma words_at_length n : forall m a, length (words_at m a n) = n.
Proof. induction n as [|n IH]; intros m a; cbn [words_at length]; [done|]. by rewrite IH. Qed.

(** A word determines its bytes. *)
Lemma ld32_inj m m' a b : ld32 m a = ld32 m' b -> forall i, 0 <= i < 4 -> ld8 m (a + i) = ld8 m' (b + i).
Proof.
  unfold ld32. intros Heq i Hi.
  pose proof (ld8_range m a). pose proof (ld8_range m (a + 1)). pose proof (ld8_range m (a + 2)). pose proof (ld8_range m (a + 3)).
  pose proof (ld8_range m' b). pose proof (ld8_range m' (b + 1)). pose proof (ld8_range m' (b + 2)). pose proof (ld8_range m' (b + 3)).
  assert (i = 0 \/ i = 1 \/ i = 2 \/ i = 3) as [->|[->|[->| ->]]] by lia; rewrite ?Z.add_0_r; lia.
Qed.

Lemma words_at_inj n : forall m m' a b, words_at m a n = words_at m' b n ->
  forall i, 0 <= i < 4 * Z.of_nat n -> ld8 m (a + i) = ld8 m' (b + i).
Proof.
  induction n as [|n IH]; intros m m' a b Heq i Hi; [lia|]. cbn [words_at] in Heq. injection Heq as Hw Hws.
  destruct (Z_lt_dec i 4) as [Hlt|Hge]; [by apply ld32_inj; [|lia]|].
  specialize (IH m m' (a + 4) (b + 4) Hws (i - 4) ltac:(lia)).
  by replace (a + i) with (a + 4 + (i - 4)) by lia; replace (b + i) with (b + 4 + (i - 4)) by lia.
Qed.
