(* ===== verification/Devices.v ===== *)
(** lapic.c, ioapic.c, picirq.c and uart.c: the interrupt controllers, the
    clock and the serial line, over the accesses of [Ports].  [lapic] is the
    address in the variable of that name; the loops that poll a register take
    the number of times they look.  What the routines do is stated for devices
    with the laws of a class, which has an instance at the end. *)
From S2P Require Import Prelude Mem Mmu Console Ports.

(** * lapic.c *)

(** Indices of the registers and the fields of their values. *)
Definition ID : Z := 0x20 / 4.
Definition VER : Z := 0x30 / 4.
Definition TPR : Z := 0x80 / 4.
Definition EOI : Z := 0xb0 / 4.
Definition SVR : Z := 0xf0 / 4.
Definition ENABLE : Z := 0x100.
Definition ESR : Z := 0x280 / 4.
Definition ICRLO : Z := 0x300 / 4.
Definition INIT : Z := 0x500.
Definition STARTUP : Z := 0x600.
Definition DELIVS : Z := 0x1000.
Definition ASSERT : Z := 0x4000.
Definition LEVEL : Z := 0x8000.
Definition BCAST : Z := 0x80000.
Definition ICRHI : Z := 0x310 / 4.
Definition TIMER : Z := 0x320 / 4.
Definition X1 : Z := 0xb.
Definition PERIODIC : Z := 0x20000.
Definition PCINT : Z := 0x340 / 4.
Definition LINT0 : Z := 0x350 / 4.
Definition LINT1 : Z := 0x360 / 4.
Definition ERROR : Z := 0x370 / 4.
Definition MASKED : Z := 0x10000.
Definition TICR : Z := 0x380 / 4.
Definition TDCR : Z := 0x3e0 / 4.

Section Lapic.
Context {D : Type} `{Machine D} (lapic : Z).

Definition lapicr (index : Z) (d : D) : Z * D := mmio_read (lapic + 4 * index) d.

Definition lapicw (index value : Z) (d : D) : D :=
  let d := mmio_write (lapic + 4 * index) (u32 value) d in
  let '(_, d) := lapicr ID d in d.

(** [while(lapic[ICRLO] & DELIVS) ;] *)
Fixpoint wait_delivered (fuel : nat) (d : D) : outcome D :=
  match fuel with
  | O => UB "lapicinit: fuel"
  | S fuel =>
      let '(v, d) := lapicr ICRLO d in
      if negb (Z.land v DELIVS =? 0) then wait_delivered fuel d else Ok d
  end.

Definition lapicinit (fuel : nat) (d : D) : outcome D :=
  if lapic =? 0 then Ok d
  else
    let d := lapicw SVR (Z.lor ENABLE (T_IRQ0 + IRQ_SPURIOUS)) d in
    let d := lapicw TDCR X1 d in
    let d := lapicw TIMER (Z.lor PERIODIC (T_IRQ0 + IRQ_TIMER)) d in
    let d := lapicw TICR 10000000 d in
    let d := lapicw LINT0 MASKED d in
    let d := lapicw LINT1 MASKED d in
    let '(v, d) := lapicr VER d in
    let d := if 4 <=? Z.land (Z.shiftr v 16) 255 then lapicw PCINT MASKED d else d in
    let d := lapicw ERROR (T_IRQ0 + IRQ_ERROR) d in
    let d := lapicw ESR 0 d in
    let d := lapicw ESR 0 d in
    let d := lapicw EOI 0 d in
    let d := lapicw ICRHI 0 d in
    let d := lapicw ICRLO (Z.lor (Z.lor BCAST INIT) LEVEL) d in
    let! d := wait_delivered fuel d in
    Ok (lapicw TPR 0 d).

Definition lapicid (d : D) : Z * D :=
  if lapic =? 0 then (0, d)
  else let '(v, d) := lapicr ID d in (Z.shiftr v 24, d).

Definition lapiceoi (d : D) : D := if lapic =? 0 then d else lapicw EOI 0 d.

(** [microdelay] has an empty body. *)
Definition microdelay (us : Z) (d : D) : D := d.

Definition CMOS_PORT : Z := 0x70.
Definition CMOS_RETURN : Z := 0x71.

(** The loop that sends the startup interrupt, [i] times more. *)
Fixpoint send_startup (i : nat) (apicid addr : Z) (d : D) : D :=
  match i with
  | O => d
  | S i =>
      let d := lapicw ICRHI (Z.shiftl apicid 24) d in
      let d := lapicw ICRLO (Z.lor STARTUP (Z.shiftr addr 12)) d in
      send_startup i apicid addr (microdelay 200 d)
  end.

Definition lapicstartap (apicid addr : Z) (m : mem) (d : D) : mem * D :=
  let d := outb CMOS_PORT 15 d in
  let d := outb (CMOS_PORT + 1) 10 d in
  let wrv := P2V (Z.lor (Z.shiftl 0x40 4) 0x67) in
  let m := st16 m wrv 0 in
  let m := st16 m (wrv + 2) (Z.shiftr addr 4) in
  let d := lapicw ICRHI (Z.shiftl apicid 24) d in
  let d := lapicw ICRLO (Z.lor (Z.lor INIT LEVEL) ASSERT) d in
  let d := microdelay 200 d in
  let d := lapicw ICRLO (Z.lor INIT LEVEL) d in
  let d := microdelay 100 d in
  (m, send_startup 2 apicid addr d).

(** ** The clock *)

Definition CMOS_STATA : Z := 0x0a.
Definition CMOS_STATB : Z := 0x0b.
Definition CMOS_UIP : Z := 128.

Definition cmos_read (reg : Z) (d : D) : Z * D :=
  let d := outb CMOS_PORT reg d in
  let d := microdelay 200 d in
  inb CMOS_RETURN d.

(** [struct rtcdate]. *)
Record rtcdate := Rtcdate { second : Z; minute : Z; hour : Z; day : Z; month : Z; year : Z }.

#[export] Instance rtcdate_eq_dec : EqDecision rtcdate.
Proof. solve_decision. Defined.

Definition fill_rtcdate (d : D) : rtcdate * D :=
  let '(s, d) := cmos_read 0 d in
  let '(mi, d) := cmos_read 2 d in
  let '(h, d) := cmos_read 4 d in
  let '(da, d) := cmos_read 7 d in
  let '(mo, d) := cmos_read 8 d in
  let '(y, d) := cmos_read 9 d in
  (Rtcdate s mi h da mo y, d).

(** The loop that reads until two readings agree. *)
Fixpoint read_twice (fuel : nat) (d : D) : outcome (rtcdate * D) :=
  match fuel with
  | O => UB "cmostime: fuel"
  | S fuel =>
      let '(t1, d) := fill_rtcdate d in
      let '(a, d) := cmos_read CMOS_STATA d in
      if negb (Z.land a CMOS_UIP =? 0) then read_twice fuel d
      else
        let '(t2, d) := fill_rtcdate d in
        if bool_decide (t1 = t2) then Ok (t1, d) else read_twice fuel d
  end.

Definition CONV (x : Z) : Z := u32 (Z.shiftr x 4 * 10 + Z.land x 15).

Definition cmostime (fuel : nat) (d : D) : outcome (rtcdate * D) :=
  let '(sb, d) := cmos_read CMOS_STATB d in
  let bcd := Z.land sb (Z.shiftl 1 2) =? 0 in
  let! (t1, d) := read_twice fuel d in
  let t1 :=
    if bcd then Rtcdate (CONV (second t1)) (CONV (minute t1)) (CONV (hour t1)) (CONV (day t1)) (CONV (month t1)) (CONV (year t1))
    else t1 in
  Ok (Rtcdate (second t1) (minute t1) (hour t1) (day t1) (month t1) (u32 (year t1 + 2000)), d).

End Lapic.

(** * ioapic.c *)

Definition IOAPIC : Z := 0xfec00000.
Definition REG_ID : Z := 0.
Definition REG_VER : Z := 1.
Definition REG_TABLE : Z := 0x10.
Definition INT_DISABLED : Z := 0x10000.

Section Ioapic.
Context {D : Type} `{Machine D}.

(** [ioapic->reg] is at offset 0 and [ioapic->data] at offset 16. *)
Definition ioapicread (reg : Z) (d : D) : Z * D :=
  mmio_read (IOAPIC + 16) (mmio_write IOAPIC (u32 reg) d).

Definition ioapicwrite (reg data : Z) (d : D) : D :=
  mmio_write (IOAPIC + 16) (u32 data) (mmio_write IOAPIC (u32 reg) d).

(** The loop of [ioapicinit], with [n] entries to go from [i]. *)
Fixpoint mask_all (n : nat) (i : Z) (d : D) : D :=
  match n with
  | O => d
  | S n =>
      let d := ioapicwrite (REG_TABLE + 2 * i) (Z.lor INT_DISABLED (T_IRQ0 + i)) d in
      let d := ioapicwrite (REG_TABLE + 2 * i + 1) 0 d in
      mask_all n (i + 1) d
  end.

(** The result says whether the identifier is [ioapicid]; if not the kernel
    prints a message. *)
Definition ioapicinit (ioapicid : Z) (d : D) : bool * D :=
  let '(v, d) := ioapicread REG_VER d in
  let maxintr := Z.land (Z.shiftr v 16) 255 in
  let '(v, d) := ioapicread REG_ID d in
  let id := Z.shiftr v 24 in
  (id =? ioapicid, mask_all (Z.to_nat (maxintr + 1)) 0 d).

Definition ioapicenable (irq cpunum : Z) (d : D) : D :=
  let d := ioapicwrite (REG_TABLE + 2 * irq) (T_IRQ0 + irq) d in
  ioapicwrite (REG_TABLE + 2 * irq + 1) (Z.shiftl cpunum 24) d.

(** * picirq.c *)

Definition picinit (d : D) : D := outb (0xa0 + 1) 255 (outb (0x20 + 1) 255 d).

(** * uart.c *)

Definition COM1 : Z := 0x3f8.

(** The polling loop of [uartputc], at most [n] times. *)
Fixpoint uart_wait (n : nat) (d : D) : D :=
  match n with
  | O => d
  | S n =>
      let '(s, d) := inb (COM1 + 5) d in
      if Z.land s 0x20 =? 0 then uart_wait n (microdelay 10 d) else d
  end.

(** [uart] is the variable that says whether the port is there. *)
Definition uartputc (uart : bool) (c : Z) (d : D) : D :=
  if negb uart then d else outb (COM1 + 0) c (uart_wait 128 d).

Fixpoint uart_puts (uart : bool) (s : list Z) (d : D) : D :=
  match s with [] => d | c :: s => uart_puts uart s (uartputc uart c d) end.

(** The characters of the greeting. *)
Definition uart_hello : list Z := [120; 118; 54; 46; 46; 46; 10].

Definition uartinit (d : D) : bool * D :=
  let d := outb (COM1 + 2) 0 d in
  let d := outb (COM1 + 3) 0x80 d in
  let d := outb (COM1 + 0) (115200 / 9600) d in
  let d := outb (COM1 + 1) 0 d in
  let d := outb (COM1 + 3) 0x03 d in
  let d := outb (COM1 + 4) 0 d in
  let d := outb (COM1 + 1) 0x01 d in
  let '(s, d) := inb (COM1 + 5) d in
  if s =? 0xff then (false, d)
  else
    let '(_, d) := inb (COM1 + 2) d in
    let '(_, d) := inb (COM1 + 0) d in
    let d := ioapicenable IRQ_COM1 0 d in
    (true, uart_puts true uart_hello d).

Definition uartgetc (uart : bool) (d : D) : Z * D :=
  if negb uart then (-1, d)
  else
    let '(s, d) := inb (COM1 + 5) d in
    if Z.land s 0x01 =? 0 then (-1, d) else inb (COM1 + 0) d.

(** [consoleintr(uartgetc)]: the loop takes characters until there is none. *)
Fixpoint uartintr (fuel : nat) (uart : bool) (k : console) (d : D) : outcome (console * bool * bool * D) :=
  match fuel with
  | O => UB "uartintr: fuel"
  | S fuel =>
      let '(c, d) := uartgetc uart d in
      if c <? 0 then Ok (k, false, false, d)
      else
        let! (k, woken, dump) := console_key c k in
        let! (k, woken', dump', d) := uartintr fuel uart k d in
        Ok (k, woken || woken', dump || dump', d)
  end.

End Ioapic.

(** * What the devices do *)

(** * The I/O APIC *)

(** A register is selected at one address and read and written at another. *)
Class IoapicLaws (D : Type) `{Machine D} := {
  io_sel : D -> Z;
  io_reg : D -> Z -> Z;
  io_max : Z;
  law_io_max : 0 <= io_max < 256;
  law_io_select v d : io_sel (mmio_write IOAPIC v d) = v /\ (forall r, io_reg (mmio_write IOAPIC v d) r = io_reg d r);
  law_io_write v d : REG_TABLE <= io_sel d < REG_TABLE + 2 * (io_max + 1) ->
    forall r, io_reg (mmio_write (IOAPIC + 16) v d) r = if decide (r = io_sel d) then v else io_reg d r;
  law_io_read d : exists v d', mmio_read (IOAPIC + 16) d = (v, d') /\ (forall r, io_reg d' r = io_reg d r)
    /\ (io_sel d = REG_VER -> Z.land (Z.shiftr v 16) 255 = io_max)
}.

Section Ioapic.
Context {D : Type} `{IoapicLaws D}.

Lemma ioapicwrite_reg r v (d : D) : REG_TABLE <= r < REG_TABLE + 2 * (io_max + 1) -> is_u32 v ->
  forall q, io_reg (ioapicwrite r v d) q = if decide (q = r) then v else io_reg d q.
Proof.
  intros Hr Hv q. pose proof law_io_max as Hm. unfold ioapicwrite. rewrite !u32_id by (done || unfold is_u32, REG_TABLE in *; lia).
  destruct (law_io_select r d) as [Hs Ht]. rewrite law_io_write by (by rewrite Hs). by rewrite Hs, Ht.
Qed.

(** The two halves of the entry of [i]: masked, or enabled for a processor. *)
Definition entry_is (d : D) (i : Z) (route : option Z) : Prop :=
  match route with
  | None => io_reg d (REG_TABLE + 2 * i) = Z.lor INT_DISABLED (T_IRQ0 + i) /\ io_reg d (REG_TABLE + 2 * i + 1) = 0
  | Some cpu => io_reg d (REG_TABLE + 2 * i) = T_IRQ0 + i /\ io_reg d (REG_TABLE + 2 * i + 1) = Z.shiftl cpu 24
  end.

Lemma disabled_u32 i : 0 <= i < 256 -> is_u32 (Z.lor INT_DISABLED (T_IRQ0 + i)).
Proof.
  intros Hi. unfold is_u32, INT_DISABLED, T_IRQ0. split; [apply Z.lor_nonneg; lia|].
  apply Z.log2_lt_cancel. rewrite Z.log2_lor by lia. change (Z.log2 4294967296) with 32. change (Z.log2 0x10000) with 16.
  apply Z.max_lub_lt; [lia|]. apply Z.log2_lt_pow2; [lia|]. change (2 ^ 32) with 4294967296. lia.
Qed.

Lemma mask_all_spec n : forall i (d : D), 0 <= i -> i + Z.of_nat n = io_max + 1 ->
  (forall j, 0 <= j < i -> entry_is d j None) -> forall j, 0 <= j <= io_max -> entry_is (mask_all n i d) j None.
Proof.
  pose proof law_io_max as Hm. induction n as [|n IH]; intros i d Hi Hn Hd j Hj; cbn [mask_all]; [apply Hd; lia|].
  apply IH; [lia|lia| |done]. intros k Hk. unfold entry_is, REG_TABLE in *.
  assert (is_u32 0) as H0' by (unfold is_u32; lia). pose proof (disabled_u32 i ltac:(lia)) as Hu.
  rewrite !(ioapicwrite_reg (16 + 2 * i + 1)), !(ioapicwrite_reg (16 + 2 * i)) by (done || unfold REG_TABLE; lia).
  rewrite (decide_False (P := 16 + 2 * k = 16 + 2 * i + 1)), (decide_False (P := 16 + 2 * k + 1 = 16 + 2 * i)) by lia.
  destruct (decide (k = i)) as [->|Hne]; [by rewrite !decide_True|]. rewrite !decide_False by lia. apply Hd. lia.
Qed.

(** Interrupts enabled one after the other. *)
Fixpoint enable_all (l : list (Z * Z)) (d : D) : D :=
  match l with [] => d | (irq, cpu) :: l => enable_all l (ioapicenable irq cpu d) end.

(** The processor an interrupt goes to: the last one it was enabled for. *)
Fixpoint route (l : list (Z * Z)) (i : Z) (r : option Z) : option Z :=
  match l with [] => r | (irq, cpu) :: l => route l i (if irq =? i then Some cpu else r) end.

Lemma ioapicenable_spec irq cpu (d : D) i r : 0 <= irq <= io_max -> 0 <= cpu < 256 -> 0 <= i <= io_max -> entry_is d i r ->
  entry_is (ioapicenable irq cpu d) i (if irq =? i then Some cpu else r).
Proof.
  pose proof law_io_max as Hm. intros Hi Hc Hj He. unfold ioapicenable.
  assert (is_u32 (Z.shiftl cpu 24)) as Hs by (rewrite Z.shiftl_mul_pow2 by lia; unfold is_u32; change (2 ^ 24) with 16777216; lia).
  assert (is_u32 (T_IRQ0 + irq)) as Hv by (unfold is_u32, T_IRQ0; lia).
  assert (forall q, io_reg (ioapicwrite (REG_TABLE + 2 * irq + 1) (Z.shiftl cpu 24) (ioapicwrite (REG_TABLE + 2 * irq) (T_IRQ0 + irq) d)) q
    = if decide (q = REG_TABLE + 2 * irq + 1) then Z.shiftl cpu 24 else if decide (q = REG_TABLE + 2 * irq) then T_IRQ0 + irq else io_reg d q) as Hq.
  { intros q. by rewrite !ioapicwrite_reg by (done || unfold REG_TABLE; lia). }
  unfold entry_is in *. destruct (Z.eqb_spec irq i) as [->|Hne].
  - rewrite !Hq. rewrite decide_False, decide_True, decide_True by lia. done.
  - destruct r; rewrite !Hq, !decide_False by lia; done.
Qed.

(** After [ioapicinit] every interrupt is masked; enabling some of them routes
    each to the processor it was last enabled for and leaves the others masked. *)
Theorem ioapic_routes ioapicid l (d : D) i :
  Forall (fun '(irq, cpu) => 0 <= irq <= io_max /\ 0 <= cpu < 256) l -> 0 <= i <= io_max ->
  entry_is (enable_all l (snd (ioapicinit ioapicid d))) i (route l i None).
Proof.
  intros Hl Hi. pose proof law_io_max as Hm.
  assert (entry_is (snd (ioapicinit ioapicid d)) i None) as Hd.
  { unfold ioapicinit, ioapicread. destruct (law_io_read (mmio_write IOAPIC (u32 REG_VER) d)) as (v & d1 & -> & _ & Hv).
    destruct (law_io_read (mmio_write IOAPIC (u32 REG_ID) d1)) as (v2 & d2 & -> & _).
    rewrite Hv by (destruct (law_io_select (u32 REG_VER) d) as [-> _]; done). cbn [snd].
    apply mask_all_spec; [done| |intros j Hj; lia|done]. rewrite Z2Nat.id by lia. done. }
  revert Hd. generalize (snd (ioapicinit ioapicid d)) as d1. generalize (@None Z) as r. induction l as [|[irq cpu] l IH]; intros r d1 Hd; [done|].
  apply Forall_cons in Hl as [[Hq Hc] Hl]. cbn [enable_all route]. by apply IH, ioapicenable_spec.
Qed.

End Ioapic.

(** * The local APIC *)

(** The log of interrupts sent to other processors, each with the value of the
    high register of the command. *)
Class LapicLaws (D : Type) `{Machine D} (lapic : Z) := {
  ipis : D -> list (Z * Z);
  icr_hi : D -> Z;
  law_hi v d : icr_hi (mmio_write (lapic + 4 * ICRHI) v d) = v /\ ipis (mmio_write (lapic + 4 * ICRHI) v d) = ipis d;
  law_lo v d : icr_hi (mmio_write (lapic + 4 * ICRLO) v d) = icr_hi d /\ ipis (mmio_write (lapic + 4 * ICRLO) v d) = ipis d ++ [(icr_hi d, v)];
  law_id d : exists v d', mmio_read (lapic + 4 * ID) d = (v, d') /\ icr_hi d' = icr_hi d /\ ipis d' = ipis d;
  law_port port v d : icr_hi (out8 port v d) = icr_hi d /\ ipis (out8 port v d) = ipis d
}.

Section Lapic.
Context {D : Type} {lapic : Z} `{LapicLaws D lapic}.

Lemma lapicw_hi v (d : D) : icr_hi (lapicw lapic ICRHI v d) = u32 v /\ ipis (lapicw lapic ICRHI v d) = ipis d.
Proof.
  unfold lapicw, lapicr. destruct (law_id (mmio_write (lapic + 4 * ICRHI) (u32 v) d)) as (w & d' & -> & -> & ->). apply law_hi.
Qed.

Lemma lapicw_lo v (d : D) : icr_hi (lapicw lapic ICRLO v d) = icr_hi d /\ ipis (lapicw lapic ICRLO v d) = ipis d ++ [(icr_hi d, u32 v)].
Proof.
  unfold lapicw, lapicr. destruct (law_id (mmio_write (lapic + 4 * ICRLO) (u32 v) d)) as (w & d' & -> & -> & ->). apply law_lo.
Qed.

(** The startup of another processor: an INIT that is asserted and deasserted,
    then two STARTUP interrupts, all addressed to it, whose vector and warm
    reset vector both name the page of the code. *)
Theorem lapicstartap_sends apicid addr m (d : D) m' d' :
  0 <= apicid < 256 -> 0 <= addr < 1048576 -> addr mod 4096 = 0 ->
  lapicstartap lapic apicid addr m d = (m', d') ->
  ipis d' = ipis d ++ ((fun v => (apicid * 16777216, v)) <$>
    [Z.lor (Z.lor INIT LEVEL) ASSERT; Z.lor INIT LEVEL; STARTUP + addr / 4096; STARTUP + addr / 4096])
  /\ ld16 m' (P2V 0x467) = 0 /\ 16 * ld16 m' (P2V 0x469) = addr.
Proof.
  intros Ha Hb Hal. assert (Z.shiftl apicid 24 = apicid * 16777216) as Hsh by (by rewrite Z.shiftl_mul_pow2).
  assert (Z.lor STARTUP (Z.shiftr addr 12) = STARTUP + addr / 4096) as Hst.
  { rewrite Z.shiftr_div_pow2 by lia. change STARTUP with (Z.shiftl 6 8). apply (lor_shiftl 6 (addr / 2 ^ 12) 8); [lia|].
    change (2 ^ 12) with 4096. change (2 ^ 8) with 256. zlia. }
  unfold lapicstartap, microdelay. cbn [send_startup]. unfold microdelay.
  change (P2V (Z.lor (Z.shiftl 0x40 4) 0x67)) with (P2V 0x467). change (P2V 0x467 + 2) with (P2V 0x469).
  intros [= <- <-]. rewrite Hsh, Hst. split.
  - destruct (lapicw_lo (STARTUP + addr / 4096) (lapicw lapic ICRHI (apicid * 16777216)
      (lapicw lapic ICRLO (STARTUP + addr / 4096) (lapicw lapic ICRHI (apicid * 16777216)
        (lapicw lapic ICRLO (Z.lor INIT LEVEL) (lapicw lapic ICRLO (Z.lor (Z.lor INIT LEVEL) ASSERT) (lapicw lapic ICRHI (apicid * 16777216)
          (outb (CMOS_PORT + 1) 10 (outb CMOS_PORT 15 d))))))))) as [_ ->].
    repeat (rewrite (proj1 (lapicw_hi _ _)) || rewrite (proj2 (lapicw_hi _ _)) || rewrite (proj1 (lapicw_lo _ _)) || rewrite (proj2 (lapicw_lo _ _))).
    unfold outb. rewrite !(proj2 (law_port _ _ _)). rewrite !(u32_id (apicid * 16777216)) by (unfold is_u32; lia).
    rewrite !(u32_id (STARTUP + addr / 4096)) by (unfold is_u32, STARTUP; zlia). rewrite <- !app_assoc. done.
  - assert (forall a v, ld16 (st16 (st16 m a 0) (a + 2) v) a = 0 /\ ld16 (st16 (st16 m a 0) (a + 2) v) (a + 2) = u16 v) as Hld.
    { intros a v. split; [|apply ld16_st16_eq]. unfold ld16, st16. rewrite !ld8_st8. repeat case_decide; try lia. done. }
    change (P2V 0x469) with (P2V 0x467 + 2). destruct (Hld (P2V 0x467) (Z.shiftr addr 4)) as [-> ->]. split; [done|].
    rewrite Z.shiftr_div_pow2 by lia. change (2 ^ 4) with 16. zlia.
Qed.
End Lapic.

(** * The serial line *)

(** Bytes sent and bytes that wait, and the bit that turns the data register
    into the divisor. *)
Class UartLaws (D : Type) `{Machine D} := {
  tx : D -> list Z;
  rx : D -> list Z;
  dlab : D -> bool;
  law_thr v d : tx (out8 COM1 v d) = (if dlab d then tx d else tx d ++ [v]) /\ rx (out8 COM1 v d) = rx d /\ dlab (out8 COM1 v d) = dlab d;
  law_lcr v d : dlab (out8 (COM1 + 3) v d) = Z.testbit v 7 /\ tx (out8 (COM1 + 3) v d) = tx d /\ rx (out8 (COM1 + 3) v d) = rx d;
  law_control port v d : (port = COM1 + 1 \/ port = COM1 + 2 \/ port = COM1 + 4) ->
    tx (out8 port v d) = tx d /\ rx (out8 port v d) = rx d /\ dlab (out8 port v d) = dlab d;
  law_lsr d : exists s d', in8 (COM1 + 5) d = (s, d') /\ 0 <= s < 255 /\ Z.testbit s 0 = bool_decide (rx d <> [])
    /\ tx d' = tx d /\ rx d' = rx d /\ dlab d' = dlab d;
  law_rbr d : dlab d = false -> exists d', in8 COM1 d = (default 0 (head (rx d)), d') /\ rx d' = tail (rx d) /\ tx d' = tx d /\ dlab d' = dlab d;
  law_rx d : Forall (fun c => 0 <= c < 256) (rx d);
  law_iir d : exists s d', in8 (COM1 + 2) d = (s, d') /\ tx d' = tx d /\ rx d' = rx d /\ dlab d' = dlab d;
  law_mmio a v d : tx (mmio_write a v d) = tx d /\ rx (mmio_write a v d) = rx d /\ dlab (mmio_write a v d) = dlab d
}.

Section Uart.
Context {D : Type} `{UartLaws D}.

(** Two states of the line that differ in nothing but time. *)
Definition same_line (d d' : D) : Prop := tx d' = tx d /\ rx d' = rx d /\ dlab d' = dlab d.

Lemma uart_wait_same n : forall d : D, same_line d (uart_wait n d).
Proof.
  induction n as [|n IH]; intros d; cbn [uart_wait]; [done|]. unfold inb. change (u16 (COM1 + 5)) with (COM1 + 5).
  destruct (law_lsr d) as (s & d' & -> & _ & _ & Ht & Hr & Hd). destruct (_ =? 0); [|by repeat split].
  unfold microdelay. destruct (IH d') as (Ht' & Hr' & Hd'). repeat split; congruence.
Qed.

Lemma uartputc_sends c (d : D) : dlab d = false ->
  tx (uartputc true c d) = tx d ++ [u8 c] /\ rx (uartputc true c d) = rx d /\ dlab (uartputc true c d) = false.
Proof.
  intros Hd. unfold uartputc, outb. cbn [negb]. change (u16 (COM1 + 0)) with COM1.
  destruct (uart_wait_same 128 d) as (Ht & Hr & Hb). destruct (law_thr (u8 c) (uart_wait 128 d)) as (Ht' & Hr' & Hb').
  rewrite Ht', Hr', Hb', Hb, Hd, Ht, Hr. done.
Qed.

Lemma uart_puts_sends s : forall d : D, dlab d = false ->
  tx (uart_puts true s d) = tx d ++ map u8 s /\ rx (uart_puts true s d) = rx d /\ dlab (uart_puts true s d) = false.
Proof.
  induction s as [|c s IH]; intros d Hd; cbn [uart_puts map]; [by rewrite app_nil_r|].
  destruct (uartputc_sends c d Hd) as (Ht & Hr & Hb). destruct (IH _ Hb) as (-> & -> & ->). by rewrite Ht, Hr, <- app_assoc.
Qed.

(** [uartinit] finds the line, leaves it ready for data, and sends its
    greeting and nothing else. *)
Theorem uartinit_greets (d : D) : exists d', uartinit d = (true, d') /\ tx d' = tx d ++ uart_hello /\ dlab d' = false.
Proof.
  unfold uartinit. set (d1 := outb (COM1 + 1) 1 _).
  assert (tx d1 = tx d /\ dlab d1 = false) as [Ht1 Hd1].
  { unfold d1, outb. change (u16 (COM1 + 0)) with COM1. change (u16 (COM1 + 1)) with (COM1 + 1). change (u16 (COM1 + 2)) with (COM1 + 2).
    change (u16 (COM1 + 3)) with (COM1 + 3). change (u16 (COM1 + 4)) with (COM1 + 4).
    assert (forall v d, tx (out8 (COM1 + 1) v d) = tx d /\ dlab (out8 (COM1 + 1) v d) = dlab d) as L1
      by (intros v x; destruct (law_control (COM1 + 1) v x) as (? & ? & ?); auto).
    assert (forall v d, tx (out8 (COM1 + 2) v d) = tx d /\ dlab (out8 (COM1 + 2) v d) = dlab d) as L2
      by (intros v x; destruct (law_control (COM1 + 2) v x) as (? & ? & ?); auto).
    assert (forall v d, tx (out8 (COM1 + 4) v d) = tx d /\ dlab (out8 (COM1 + 4) v d) = dlab d) as L4
      by (intros v x; destruct (law_control (COM1 + 4) v x) as (? & ? & ?); auto).
    rewrite !(proj1 (L1 _ _)), !(proj2 (L1 _ _)), !(proj1 (L4 _ _)), !(proj2 (L4 _ _)).
    destruct (law_lcr (u8 3) (out8 (COM1 + 1) (u8 0) (out8 COM1 (u8 (115200 / 9600)) (out8 (COM1 + 3) (u8 128) (out8 (COM1 + 2) (u8 0) d))))) as (-> & -> & _).
    split; [|done]. rewrite (proj1 (L1 _ _)). destruct (law_thr (u8 (115200 / 9600)) (out8 (COM1 + 3) (u8 128) (out8 (COM1 + 2) (u8 0) d))) as (-> & _).
    destruct (law_lcr (u8 128) (out8 (COM1 + 2) (u8 0) d)) as (-> & -> & _). change (Z.testbit (u8 128) 7) with true. cbv iota. apply L2. }
  clearbody d1. unfold inb. change (u16 (COM1 + 5)) with (COM1 + 5). change (u16 (COM1 + 2)) with (COM1 + 2). change (u16 (COM1 + 0)) with COM1.
  destruct (law_lsr d1) as (s & d2 & -> & Hs & _ & Ht2 & _ & Hd2). rewrite u8_id by lia. rewrite (proj2 (Z.eqb_neq s 255)) by lia.
  destruct (law_iir d2) as (s2 & d3 & -> & Ht3 & _ & Hd3). destruct (law_rbr d3) as (d4 & -> & _ & Ht4 & Hd4); [congruence|].
  set (d5 := ioapicenable IRQ_COM1 0 d4).
  assert (tx d5 = tx d4 /\ dlab d5 = dlab d4) as [Ht5 Hd5].
  { unfold d5, ioapicenable, ioapicwrite. split; [by rewrite !(proj1 (law_mmio _ _ _))|by rewrite !(proj2 (proj2 (law_mmio _ _ _)))]. }
  destruct (uart_puts_sends uart_hello d5) as (Ht6 & _ & Hd6); [congruence|].
  eexists. split; [reflexivity|]. split; [|done]. rewrite Ht6. change (map u8 uart_hello) with uart_hello. congruence.
Qed.

(** The interrupt of the serial line gives the console every byte that waits,
    in order. *)
Theorem uartintr_drains (d : D) k fuel :
  dlab d = false -> (length (rx d) < fuel)%nat ->
  exists d', rx d' = [] /\ uartintr fuel true k d = (let! (k, woken, dump) := consoleintr (rx d) k in Ok (k, woken, dump, d')).
Proof.
  remember (rx d) as cs eqn:Ec. revert d k fuel Ec. induction cs as [|c cs IH]; intros d k fuel Ec Hd Hf; (destruct fuel as [|fuel]; [cbn in Hf; lia|]);
    cbn [uartintr]; unfold uartgetc, inb; cbn [negb]; change (u16 (COM1 + 5)) with (COM1 + 5); change (u16 (COM1 + 0)) with COM1;
    destruct (law_lsr d) as (s & d1 & -> & Hs & Hb & Ht1 & Hr1 & Hd1); rewrite u8_id by lia; rewrite <- Ec in Hb;
    (replace (Z.land s 1 =? 0) with (negb (Z.testbit s 0)) by
      (change 1 with (Z.ones 1); rewrite Z.land_ones, <- Z.bit0_mod by lia; by destruct (Z.testbit s 0))); rewrite Hb.
  - rewrite bool_decide_false by naive_solver. cbn. exists d1. split; [congruence|done].
  - rewrite bool_decide_true by done. cbn [negb]. destruct (law_rbr d1) as (d2 & -> & Hr2 & Ht2 & Hd2); [congruence|].
    rewrite Hr1, <- Ec in Hr2 |- *. cbn [head default tail] in *. pose proof (law_rx d) as Hrx. rewrite <- Ec in Hrx. apply Forall_cons in Hrx as [Hc _].
    unfold id. rewrite u8_id by lia. rewrite (proj2 (Z.ltb_ge c 0)) by lia. cbn [consoleintr].
    destruct (console_key c k) as [[[k1 w1] p1]|m|m]; cbn [obind].
    + destruct (IH d2 k1 fuel) as (d' & Hr' & E); [done|congruence|cbn in Hf; lia|].
      exists d'. split; [done|]. rewrite E. by destruct (consoleintr cs k1) as [[[? ?] ?]|?|?].
    + destruct (IH d2 k fuel) as (d' & Hr' & _); [done|congruence|cbn in Hf; lia|]. by exists d'.
    + destruct (IH d2 k fuel) as (d' & Hr' & _); [done|congruence|cbn in Hf; lia|]. by exists d'.
Qed.

End Uart.

(** * The clock *)

Definition bcd (x : Z) : Z := 16 * (x / 10) + x mod 10.

Lemma CONV_bcd x : 0 <= x < 100 -> CONV (bcd x) = x.
Proof.
  intros Hx. unfold CONV, bcd. change 15 with (Z.ones 4). rewrite Z.land_ones, Z.shiftr_div_pow2 by lia. change (2 ^ 4) with 16.
  rewrite u32_id by (unfold is_u32; zlia). zlia.
Qed.

(** Registers that do not change while they are read. *)
Class RtcLaws (D : Type) `{Machine D} := {
  clock : D -> Z -> Z;
  law_clock d reg : 0 <= reg < 128 -> exists v d', in8 CMOS_RETURN (out8 CMOS_PORT reg d) = (v, d') /\ v = clock d reg /\ 0 <= v < 256
    /\ (forall r, clock d' r = clock d r);
  law_quiet d : Z.land (clock d CMOS_STATA) CMOS_UIP = 0
}.

Section Clock.
Context {D : Type} `{RtcLaws D}.

Lemma cmos_read_clock reg (d : D) : 0 <= reg < 128 -> exists d', cmos_read reg d = (clock d reg, d') /\ forall r, clock d' r = clock d r.
Proof.
  intros Hr. unfold cmos_read, inb, outb, microdelay. change (u16 CMOS_RETURN) with CMOS_RETURN. change (u16 CMOS_PORT) with CMOS_PORT.
  rewrite u8_id by lia. destruct (law_clock d reg Hr) as (v & d' & -> & -> & Hv & Hc). rewrite u8_id by done. by exists d'.
Qed.

Definition clock_date (c : Z -> Z) : rtcdate := Rtcdate (c 0) (c 2) (c 4) (c 7) (c 8) (c 9).

Lemma fill_rtcdate_clock (d : D) : exists d', fill_rtcdate d = (clock_date (clock d), d') /\ forall r, clock d' r = clock d r.
Proof.
  unfold fill_rtcdate, clock_date.
  destruct (cmos_read_clock 0 d) as (d1 & -> & E1); [lia|]. destruct (cmos_read_clock 2 d1) as (d2 & -> & E2); [lia|].
  destruct (cmos_read_clock 4 d2) as (d3 & -> & E3); [lia|]. destruct (cmos_read_clock 7 d3) as (d4 & -> & E4); [lia|].
  destruct (cmos_read_clock 8 d4) as (d5 & -> & E5); [lia|]. destruct (cmos_read_clock 9 d5) as (d6 & -> & E6); [lia|].
  exists d6. split; [by rewrite !E5, !E4, !E3, !E2, !E1|]. intros r. by rewrite E6, E5, E4, E3, E2, E1.
Qed.

(** The date [cmostime] reads is the one in the clock, from registers in either
    of the two codes that status B tells apart. *)
Theorem cmostime_reads (d : D) fuel s mi h da mo y (code := if Z.testbit (clock d CMOS_STATB) 2 then fun x => x else bcd) :
  clock d 0 = code s -> clock d 2 = code mi -> clock d 4 = code h -> clock d 7 = code da -> clock d 8 = code mo -> clock d 9 = code y ->
  0 <= s < 100 -> 0 <= mi < 100 -> 0 <= h < 100 -> 0 <= da < 100 -> 0 <= mo < 100 -> 0 <= y < 100 ->
  exists d', cmostime (S fuel) d = Ok (Rtcdate s mi h da mo (2000 + y), d').
Proof.
  intros E0 E2 E4 E7 E8 E9 Hs Hmi Hh Hda Hmo Hy. unfold cmostime.
  destruct (cmos_read_clock CMOS_STATB d) as (d1 & -> & C1); [unfold CMOS_STATB; lia|]. cbn [read_twice].
  destruct (fill_rtcdate_clock d1) as (d2 & -> & C2). destruct (cmos_read_clock CMOS_STATA d2) as (d3 & -> & C3); [unfold CMOS_STATA; lia|].
  rewrite law_quiet. cbn [Z.eqb negb]. destruct (fill_rtcdate_clock d3) as (d4 & -> & C4).
  assert (forall c c' : Z -> Z, (forall r, c r = c' r) -> clock_date c = clock_date c') as Hext by (intros c c' Hc; unfold clock_date; by rewrite !Hc).
  rewrite bool_decide_true by (apply Hext; intros r; by rewrite C3, C2). cbn [obind]. rewrite (Hext _ (clock d)) by (intros r; by rewrite C1).
  exists d4. change (Z.shiftl 1 2) with (2 ^ 2).
  assert ((Z.land (clock d CMOS_STATB) (2 ^ 2) =? 0) = negb (Z.testbit (clock d CMOS_STATB) 2)) as ->.
  { destruct (Z.eqb_spec (Z.land (clock d CMOS_STATB) (2 ^ 2)) 0) as [Hz|Hz].
    - symmetry. apply negb_true_iff. rewrite <- (andb_true_r (Z.testbit _ 2)). change true with (Z.testbit (2 ^ 2) 2). by rewrite <- Z.land_spec, Hz, Z.bits_0.
    - symmetry. apply negb_false_iff. destruct (Z.testbit (clock d CMOS_STATB) 2) eqn:E; [done|]. exfalso. apply Hz. apply Z.bits_inj'. intros n Hn.
      rewrite Z.land_spec, Z.pow2_bits_eqb, Z.bits_0 by lia. destruct (Z.eqb_spec 2 n) as [<-|]; [by rewrite E|by rewrite andb_false_r]. }
  unfold clock_date. cbn [second minute hour day month year]. rewrite E0, E2, E4, E7, E8, E9. unfold code.
  destruct (Z.testbit (clock d CMOS_STATB) 2); cbn [negb second minute hour day month year]; rewrite ?CONV_bcd by done;
    rewrite (Z.add_comm y), u32_id by (unfold is_u32; lia); done.
Qed.

End Clock.

(** * A machine with these devices *)

Record pc := Pc {
  pc_sel : Z; pc_regs : gmap Z Z;
  pc_icrhi : Z; pc_ipis : list (Z * Z);
  pc_tx : list Z; pc_rx : list Z; pc_dlab : bool;
  pc_index : Z
}.

(** The local APIC is at 0xfee00000; the clock holds register number [r] in
    register [r] below 10, with the update flag clear and the binary code. *)
Definition pc_write (a v : Z) (d : pc) : pc :=
  if a =? IOAPIC then Pc v (pc_regs d) (pc_icrhi d) (pc_ipis d) (pc_tx d) (pc_rx d) (pc_dlab d) (pc_index d)
  else if a =? IOAPIC + 16 then Pc (pc_sel d) (<[pc_sel d := v]> (pc_regs d)) (pc_icrhi d) (pc_ipis d) (pc_tx d) (pc_rx d) (pc_dlab d) (pc_index d)
  else if a =? 0xfee00000 + 4 * ICRHI then Pc (pc_sel d) (pc_regs d) v (pc_ipis d) (pc_tx d) (pc_rx d) (pc_dlab d) (pc_index d)
  else if a =? 0xfee00000 + 4 * ICRLO then Pc (pc_sel d) (pc_regs d) (pc_icrhi d) (pc_ipis d ++ [(pc_icrhi d, v)]) (pc_tx d) (pc_rx d) (pc_dlab d) (pc_index d)
  else d.

Definition pc_out8 (port v : Z) (d : pc) : pc :=
  if port =? COM1 then
    Pc (pc_sel d) (pc_regs d) (pc_icrhi d) (pc_ipis d) (if pc_dlab d then pc_tx d else pc_tx d ++ [v]) (pc_rx d) (pc_dlab d) (pc_index d)
  else if port =? COM1 + 3 then Pc (pc_sel d) (pc_regs d) (pc_icrhi d) (pc_ipis d) (pc_tx d) (pc_rx d) (Z.testbit v 7) (pc_index d)
  else if port =? CMOS_PORT then Pc (pc_sel d) (pc_regs d) (pc_icrhi d) (pc_ipis d) (pc_tx d) (pc_rx d) (pc_dlab d) v
  else d.

Definition pc_in8 (port : Z) (d : pc) : Z * pc :=
  if port =? COM1 then
    (default 0 (head (u8 <$> pc_rx d)),
     if pc_dlab d then d
     else Pc (pc_sel d) (pc_regs d) (pc_icrhi d) (pc_ipis d) (pc_tx d) (tail (pc_rx d)) (pc_dlab d) (pc_index d))
  else if port =? COM1 + 5 then (match pc_rx d with [] => 0x20 | _ => 0x21 end, d)
  else if port =? CMOS_RETURN then (if pc_index d <? 10 then pc_index d else if pc_index d =? CMOS_STATB then 4 else 0, d)
  else (0, d).

#[export] Instance pc_ops : Machine pc := {
  in8 := pc_in8;
  out8 := pc_out8;
  in32 _ d := (0, d);
  out32 _ _ d := d;
  mmio_read a d := (if a =? IOAPIC + 16 then if pc_sel d =? REG_VER then 23 * 65536 else 0 else 0, d);
  mmio_write := pc_write
}.

#[export] Program Instance pc_ioapic : IoapicLaws pc := {
  io_sel := pc_sel;
  io_reg d r := default 0 (pc_regs d !! r);
  io_max := 23
}.
Next Obligation. lia. Qed.
Next Obligation. done. Qed.
Next Obligation.
  intros v d _ r. cbv beta. replace (pc_regs (mmio_write (IOAPIC + 16) v d)) with (<[pc_sel d := v]> (pc_regs d)) by done. rewrite lookup_insert.
  case_decide; case_decide; done || lia.
Qed.
Next Obligation. intros d. cbn. eexists _, d. split; [reflexivity|]. split; [done|]. by intros ->. Qed.

#[export] Program Instance pc_lapic : LapicLaws pc 0xfee00000 := {
  ipis := pc_ipis;
  icr_hi := pc_icrhi
}.
Next Obligation. done. Qed.
Next Obligation. done. Qed.
Next Obligation. intros d. by eexists _, d. Qed.
Next Obligation. intros port v d. cbn. unfold pc_out8. by repeat destruct (_ =? _). Qed.

#[export] Program Instance pc_uart : UartLaws pc := {
  tx := pc_tx;
  rx d := u8 <$> pc_rx d;
  dlab := pc_dlab
}.
Next Obligation. done. Qed.
Next Obligation. done. Qed.
Next Obligation. by intros port v d [->|[->| ->]]. Qed.
Next Obligation. intros d. destruct (pc_rx d) as [|c l] eqn:E; [exists 0x20, d|exists 0x21, d]; cbn; unfold pc_in8; cbn; rewrite E; cbn; split_and?; done || lia. Qed.
Next Obligation. intros d Hd. eexists. split; [reflexivity|]. rewrite Hd. cbn. split; [by destruct (pc_rx d)|done]. Qed.
Next Obligation. intros d. apply Forall_fmap, Forall_forall. intros c _. apply u8_range. Qed.
Next Obligation. intros d. by eexists _, d. Qed.
Next Obligation. intros a v d. cbn. unfold pc_write. by repeat destruct (_ =? _). Qed.

(** The machine at the start, and one that has received two bytes. *)
Definition pc0 : pc := Pc 0 ∅ 0 [] [] [] false 0.

Lemma ioapic_routes_witness : entry_is (enable_all [(14, 1); (4, 0)] (snd (ioapicinit 0 pc0))) 14 (Some 1).
Proof. apply (ioapic_routes 0 [(14, 1); (4, 0)] pc0 14); [repeat constructor; cbn; lia|cbn; lia]. Defined.

Lemma lapicstartap_sends_witness :
  ipis (snd (lapicstartap 0xfee00000 1 0x7000 ∅ pc0))
  = [(16777216, 0xc500); (16777216, 0x8500); (16777216, 0x607); (16777216, 0x607)].
Proof. apply (lapicstartap_sends 1 0x7000 ∅ pc0 _ _ ltac:(lia) ltac:(lia) ltac:(done) (surjective_pairing _)). Defined.

Lemma uartintr_drains_witness : exists d', rx d' = [] /\
  uartintr 3 true console0 (Pc 0 ∅ 0 [] [] [104; 105] false 0) = (let! (k, woken, dump) := consoleintr [104; 105] console0 in Ok (k, woken, dump, d')).
Proof.
  destruct (uartintr_drains (Pc 0 ∅ 0 [] [] [104; 105] false 0) console0 3) as (d' & Hr & E); [by vm_compute|apply Nat.ltb_lt; by vm_compute|].
  exists d'. split; [exact Hr|]. replace (rx (Pc 0 ∅ 0 [] [] [104; 105] false 0)) with [104; 105] in E by (by vm_compute). exact E.
Defined.
