(* ===== verification/Ide.v ===== *)
(** ide.c: the disk driver, over the accesses of [Ports].  A buffer pointer is
    its number in the buffer cache; [qnext] holds the field of that name, and
    [idequeue] is the head of the list threaded through it.  [wait] bounds the
    status reads of one [idewait]; [me] is [myproc()->pid].  [iderw] sleeps, so
    it is cut there: [iderw_submit] up to the loop, [iderw_done] its condition.
    The system [istep] runs requests, interrupts and wakeups in any order. *)
From S2P Require Import Prelude Mem Mmu Spinlock Ports Devices Bio.

Definition SECTOR_SIZE : Z := 512.
Definition IDE_BSY : Z := 0x80.
Definition IDE_DRDY : Z := 0x40.
Definition IDE_DF : Z := 0x20.
Definition IDE_ERR : Z := 0x01.
Definition IDE_CMD_READ : Z := 0x20.
Definition IDE_CMD_WRITE : Z := 0x30.
Definition IDE_CMD_RDMUL : Z := 0xc4.
Definition IDE_CMD_WRMUL : Z := 0xc5.

Record ide (D : Type) := Ide {
  ibufs : list buf;
  qnext : list (option nat);
  idequeue : option nat;
  havedisk1 : bool;
  idev : D
}.
Arguments Ide {D}.
Arguments ibufs {D}.
Arguments qnext {D}.
Arguments idequeue {D}.
Arguments havedisk1 {D}.
Arguments idev {D}.

Section Ide.
Context {D : Type} `{Machine D} (wait : nat).

Definition set_dev (d : D) (s : ide D) : ide D := Ide (ibufs s) (qnext s) (idequeue s) (havedisk1 s) d.
Definition set_ibuf (b : nat) (bf : buf) (s : ide D) : ide D :=
  Ide (<[b := bf]> (ibufs s)) (qnext s) (idequeue s) (havedisk1 s) (idev s).
Definition set_qnext (b : nat) (q : option nat) (s : ide D) : ide D :=
  Ide (ibufs s) (<[b := q]> (qnext s)) (idequeue s) (havedisk1 s) (idev s).
Definition set_queue (q : option nat) (s : ide D) : ide D :=
  Ide (ibufs s) (qnext s) q (havedisk1 s) (idev s).

Definition ide_buf (b : nat) (s : ide D) : outcome buf :=
  match ibufs s !! b with Some bf => Ok bf | None => UB "buffer pointer out of bounds" end.
Definition ide_next (b : nat) (s : ide D) : outcome (option nat) :=
  match qnext s !! b with Some q => Ok q | None => UB "buffer pointer out of bounds" end.

Fixpoint idewait_loop (n : nat) (d : D) : outcome (Z * D) :=
  match n with
  | O => UB "idewait: fuel"
  | S n =>
      let '(r, d) := inb 0x1f7 d in
      if negb (Z.land r (Z.lor IDE_BSY IDE_DRDY) =? IDE_DRDY) then idewait_loop n d else Ok (r, d)
  end.

Definition idewait (checkerr : bool) (d : D) : outcome (Z * D) :=
  let! (r, d) := idewait_loop wait d in
  if checkerr && negb (Z.land r (Z.lor IDE_DF IDE_ERR) =? 0) then Ok (-1, d) else Ok (0, d).

(** The loop that looks for disk 1. *)
Fixpoint probe_disk1 (n : nat) (d : D) : bool * D :=
  match n with
  | O => (false, d)
  | S n => let '(r, d) := inb 0x1f7 d in if negb (r =? 0) then (true, d) else probe_disk1 n d
  end.

Definition ideinit (ncpu : Z) (s : ide D) : outcome (ide D) :=
  let d := ioapicenable IRQ_IDE (ncpu - 1) (idev s) in
  let! (_, d) := idewait false d in
  let d := outb 0x1f6 (Z.lor 0xe0 (Z.shiftl 1 4)) d in
  let '(found, d) := probe_disk1 1000 d in
  let d := outb 0x1f6 (Z.lor 0xe0 (Z.shiftl 0 4)) d in
  Ok (Ide (ibufs s) (qnext s) (idequeue s) (found || havedisk1 s) d).

Definition idestart (b : option nat) (s : ide D) : outcome (ide D) :=
  match b with
  | None => Panic "idestart"
  | Some b =>
      let! bf := ide_buf b s in
      if FSSIZE <=? b_blockno bf then Panic "incorrect blockno"
      else
        let sector_per_block := BSIZE / SECTOR_SIZE in
        let sector := b_blockno bf * sector_per_block in
        let read_cmd := if sector_per_block =? 1 then IDE_CMD_READ else IDE_CMD_RDMUL in
        let write_cmd := if sector_per_block =? 1 then IDE_CMD_WRITE else IDE_CMD_WRMUL in
        if 7 <? sector_per_block then Panic "idestart"
        else
          let! (_, d) := idewait false (idev s) in
          let d := outb 0x3f6 0 d in
          let d := outb 0x1f2 sector_per_block d in
          let d := outb 0x1f3 (Z.land sector 0xff) d in
          let d := outb 0x1f4 (Z.land (Z.shiftr sector 8) 0xff) d in
          let d := outb 0x1f5 (Z.land (Z.shiftr sector 16) 0xff) d in
          let d := outb 0x1f6 (Z.lor (Z.lor 0xe0 (Z.shiftl (Z.land (b_dev bf) 1) 4)) (Z.land (Z.shiftr sector 24) 0x0f)) d in
          let d :=
            if b_dirty bf then outsl 0x1f0 0 (BSIZE / 4) (b_data bf) (outb 0x1f7 write_cmd d)
            else outb 0x1f7 read_cmd d in
          Ok (set_dev d s)
  end.

(** The result is the channel of [wakeup]. *)
Definition ideintr (s : ide D) : outcome (option nat * ide D) :=
  match idequeue s with
  | None => Ok (None, s)
  | Some b =>
      let! q := ide_next b s in
      let s := set_queue q s in
      let! bf := ide_buf b s in
      let! (data, d) :=
        (if negb (b_dirty bf) then
           let! (r, d) := idewait true (idev s) in
           if 0 <=? r then Ok (insl 0x1f0 0 (BSIZE / 4) (b_data bf) d) else Ok (b_data bf, d)
         else Ok (b_data bf, idev s)) in
      let s := set_ibuf b (Buf true false (b_dev bf) (b_blockno bf) (b_lock bf) (b_refcnt bf) data) (set_dev d s) in
      let! s := (match idequeue s with Some _ => idestart (idequeue s) s | None => Ok s end) in
      Ok (Some b, s)
  end.

(** The loop of [iderw] from a buffer on the queue: the last one. *)
Fixpoint queue_tail (fuel : nat) (p : nat) (s : ide D) : outcome nat :=
  let! q := ide_next p s in
  match q with
  | None => Ok p
  | Some q => match fuel with O => UB "iderw: fuel" | S fuel => queue_tail fuel q s end
  end.

Definition queue_append (b : nat) (s : ide D) : outcome (ide D) :=
  match idequeue s with
  | None => Ok (set_queue (Some b) s)
  | Some p => let! p := queue_tail (length (qnext s)) p s in Ok (set_qnext p (Some b) s)
  end.

Definition iderw_submit (me : Z) (b : nat) (s : ide D) : outcome (ide D) :=
  let! bf := ide_buf b s in
  if negb (holdingsleep me (b_lock bf)) then Panic "iderw: buf not locked"
  else if b_valid bf && negb (b_dirty bf) then Panic "iderw: nothing to do"
  else if negb (b_dev bf =? 0) && negb (havedisk1 s) then Panic "iderw: ide disk 1 not present"
  else
    let! s := queue_append b (set_qnext b None s) in
    if bool_decide (idequeue s = Some b) then idestart (Some b) s else Ok s.

(** The condition of the loop in which [iderw] sleeps is false. *)
Definition iderw_done (bf : buf) : bool := b_valid bf && negb (b_dirty bf).

End Ide.

(** * Requests and interrupts *)

(** The driver, the buffers whose process sleeps in [iderw], those whose
    process was woken and has not run, and the interrupts taken. *)
Record isys (D : Type) := Isys {
  drv : ide D;
  asleep : gset nat;
  awake : gset nat;
  taken : nat
}.
Arguments Isys {D}.
Arguments drv {D}.
Arguments asleep {D}.
Arguments awake {D}.
Arguments taken {D}.

Section System.
Context {D : Type} `{AtaLaws D}.

(** The bound on status reads that a drive of patience [patience] needs. *)
Definition enough : nat := S patience.

(** A process submits a request for a block of disk 1; the drive has raised
    an interrupt that was not taken yet; a woken process runs and returns or
    sleeps again; the owner of a buffer uses it. *)
Inductive istep : isys D -> isys D -> Prop :=
| i_submit s me b bf v :
    ibufs (drv s) !! b = Some bf -> b ∉ asleep s -> b ∉ awake s ->
    b_dev bf = 1 -> 0 <= b_blockno bf < FSSIZE ->
    iderw_submit enough me b (drv s) = Ok v ->
    istep s (Isys v ({[b]} ∪ asleep s) (awake s) (taken s))
| i_intr s b v :
    (taken s < at_irqs (ata_of (idev (drv s))))%nat ->
    ideintr enough (drv s) = Ok (Some b, v) ->
    istep s (Isys v (asleep s ∖ {[b]}) ((asleep s ∩ {[b]}) ∪ awake s) (S (taken s)))
| i_return s b bf :
    b ∈ awake s -> ibufs (drv s) !! b = Some bf -> iderw_done bf = true ->
    istep s (Isys (drv s) (asleep s) (awake s ∖ {[b]}) (taken s))
| i_again s b bf :
    b ∈ awake s -> ibufs (drv s) !! b = Some bf -> iderw_done bf = false ->
    istep s (Isys (drv s) ({[b]} ∪ asleep s) (awake s ∖ {[b]}) (taken s))
| i_owner s b bf :
    b ∉ asleep s -> b ∉ awake s ->
    istep s (Isys (set_ibuf b bf (drv s)) (asleep s) (awake s) (taken s)).

End System.
