(* ===== verification/IdeProps.v ===== *)
(** The disk driver of ide.c serves requests as memide.c does: every run of
    requests and interrupts is a run of a machine that keeps the requests in
    order and serves each by [Bio.iderw], and a request that is queued is
    served by the interrupts that follow. *)
From S2P Require Import Prelude Mem Spinlock Ports Devices Bio Ide.

(** * Blocks with the same bytes *)

Definition same_block (m m' : mem) : Prop := forall k, 0 <= k < BSIZE -> ld8 m k = ld8 m' k.

#[export] Instance same_block_equiv : Equivalence same_block.
Proof. split; intros ?; unfold same_block; naive_solver congruence. Qed.

#[export] Instance words_at_same : Proper (same_block ==> eq) (fun m => words_at m 0 SECTWORDS).
Proof. intros m m' Hm. apply words_at_ext. intros b Hb. apply Hm. unfold BSIZE, SECTWORDS in *. lia. Qed.

Lemma words_same m m' : words_at m 0 SECTWORDS = words_at m' 0 SECTWORDS -> same_block m m'.
Proof. intros Hw k Hk. apply (words_at_inj _ _ _ 0 0 Hw k). unfold BSIZE, SECTWORDS in *. lia. Qed.

(** Buffers that differ at most in bytes outside the block. *)
Record buf_eq (bf bf' : buf) : Prop := {
  be_valid : b_valid bf = b_valid bf';
  be_dirty : b_dirty bf = b_dirty bf';
  be_dev : b_dev bf = b_dev bf';
  be_blockno : b_blockno bf = b_blockno bf';
  be_lock : b_lock bf = b_lock bf';
  be_refcnt : b_refcnt bf = b_refcnt bf';
  be_data : same_block (b_data bf) (b_data bf')
}.

#[export] Instance buf_eq_refl : Reflexive buf_eq.
Proof. intros bf. by split. Qed.

(** * Requests served in order by the memory disk *)

Record msys := Msys { mst : bst; pend : list nat; finished : gset nat }.

Inductive mstep : msys -> msys -> Prop :=
| m_submit s me b bf :
    bufs (mst s) !! b = Some bf -> b ∉ pend s -> b ∉ finished s ->
    holdingsleep me (b_lock bf) = true -> iderw_done bf = false ->
    mstep s (Msys (mst s) (pend s ++ [b]) (finished s))
| m_serve s me b r st :
    pend s = b :: r -> iderw me b (mst s) = Ok st ->
    mstep s (Msys st r ({[b]} ∪ finished s))
| m_return s b bf :
    b ∈ finished s -> bufs (mst s) !! b = Some bf -> iderw_done bf = true ->
    mstep s (Msys (mst s) (pend s) (finished s ∖ {[b]}))
| m_owner s b bf :
    b ∉ pend s -> b ∉ finished s ->
    mstep s (Msys (set_buf b bf (mst s)) (pend s) (finished s)).

(** * The queue *)

Fixpoint chain (next : list (option nat)) (q : option nat) (l : list nat) : Prop :=
  match l with
  | [] => q = None
  | b :: l => q = Some b /\ exists n, next !! b = Some n /\ chain next n l
  end.

Lemma chain_set next b n l : forall q, b ∉ l -> chain next q l -> chain (<[b := n]> next) q l.
Proof.
  induction l as [|c l IH]; intros q Hb; [done|]. apply not_elem_of_cons in Hb as [Hne Hb].
  intros [-> (n' & Hn & Hc)]. split; [done|]. exists n'. rewrite list_lookup_insert_ne by done. auto.
Qed.

Lemma chain_bound next q l : chain next q l -> forall b, b ∈ l -> (b < length next)%nat.
Proof.
  revert q. induction l as [|c l IH]; intros q Hc b Hb; [by apply not_elem_of_nil in Hb|].
  destruct Hc as [-> (n & Hn & Hc)]. apply elem_of_cons in Hb as [->|Hb]; [by eapply lookup_lt_Some|by eapply IH].
Qed.

Lemma bounded_length (l : list nat) n : NoDup l -> (forall b, b ∈ l -> (b < n)%nat) -> (length l <= n)%nat.
Proof.
  intros Hnd Hb. rewrite <- (length_seq n 0). apply submseteq_length, NoDup_submseteq; [done|].
  intros b Hin. rewrite list_elem_of_In, in_seq. specialize (Hb b Hin). lia.
Qed.

Lemma NoDup_snoc (l : list nat) b : NoDup l -> b ∉ l -> NoDup (l ++ [b]).
Proof. intros Hl Hb. apply NoDup_app. split; [done|]. split; [|apply NoDup_singleton]. intros x Hx ->%list_elem_of_singleton. done. Qed.

(** Appending [b], whose link is empty, to a queue that is not. *)
Lemma chain_snoc next b l : forall p, next !! b = Some None -> b ∉ p :: l -> NoDup (p :: l) -> chain next (Some p) (p :: l) ->
  exists t, last (p :: l) = Some t /\ chain (<[t := Some b]> next) (Some p) ((p :: l) ++ [b]).
Proof.
  induction l as [|c l IH]; intros p Hb Hnb Hnd [_ (n & Hn & Hc)].
  - cbn in Hc. subst n. exists p. split; [done|]. cbn. split; [done|]. exists (Some b).
    rewrite list_lookup_insert_eq by (by eapply lookup_lt_Some). split; [done|]. split; [done|]. exists None.
    rewrite list_lookup_insert_ne by set_solver. done.
  - destruct Hc as [-> Hc]. destruct (IH c Hb) as (t & Ht & Hch); [set_solver|by inversion Hnd|split; done|].
    exists t. split; [done|]. cbn [app chain] in Hch |- *. split; [done|]. exists (Some c). split; [|done].
    rewrite list_lookup_insert_ne; [done|]. intros ->. apply last_Some_elem_of in Ht. by inversion Hnd.
Qed.

Section Props.
Context {D : Type} `{AtaLaws D}.

Lemma queue_tail_chain l : forall fuel p (s : ide D), chain (qnext s) (Some p) (p :: l) -> (length l <= fuel)%nat ->
  exists t, last (p :: l) = Some t /\ queue_tail fuel p s = Ok t.
Proof.
  induction l as [|c l IH]; intros fuel p s [_ (n & Hn & Hc)] Hf.
  - cbn in Hc. subst n. exists p. destruct fuel; cbn [queue_tail]; unfold ide_next; by rewrite Hn.
  - destruct Hc as [-> Hc]. destruct fuel as [|fuel]; [cbn in Hf; lia|].
    destruct (IH fuel c s) as (t & Ht & Hq); [split; done|cbn in Hf; lia|].
    exists t. split; [done|]. cbn [queue_tail]. unfold ide_next. by rewrite Hn.
Qed.

Lemma queue_append_chain (s : ide D) b l :
  chain (qnext s) (idequeue s) l -> NoDup l -> b ∉ l -> qnext s !! b = Some None ->
  exists nx, queue_append b s = Ok (Ide (ibufs s) nx (Some (hd b l)) (havedisk1 s) (idev s))
    /\ chain nx (Some (hd b l)) (l ++ [b]) /\ length nx = length (qnext s).
Proof.
  intros Hc Hnd Hb Hn. unfold queue_append. destruct l as [|p l].
  - cbn in Hc. rewrite Hc. exists (qnext s). split; [done|]. split; [|done]. cbn. split; [done|]. by exists None.
  - pose proof (chain_bound _ _ _ Hc) as Hbd. destruct Hc as [Hq Hc]. rewrite Hq.
    destruct (queue_tail_chain l (length (qnext s)) p s) as (t & Ht & ->); [split; done| |].
    { pose proof (bounded_length (p :: l) (length (qnext s)) Hnd Hbd) as Hl. cbn in Hl. lia. }
    destruct (chain_snoc (qnext s) b l p) as (t' & Ht' & Hch); try done.
    rewrite Ht in Ht'. injection Ht' as <-. exists (<[t := Some b]> (qnext s)). split; [|split; [done|by rewrite length_insert]].
    cbn [obind hd]. unfold set_qnext. by rewrite Hq.
Qed.

(** * The drive *)

Lemma inb_status (d : D) : exists r d', inb 0x1f7 d = (r, d') /\ ata_of d' = ata_of d
  /\ ((Z.land r 0xc0 = 0x40 /\ Z.land r 0x21 = 0) \/ (Z.land r 0xc0 <> 0x40 /\ (delay d' < delay d)%nat)).
Proof.
  destruct (law_status d) as (r & d' & Hr & Hrange & Ha & Hs). exists r, d'. unfold inb. change (u16 0x1f7) with 0x1f7.
  rewrite Hr, u8_id by done. done.
Qed.

Lemma idewait_loop_ok n : forall d : D, (delay d < n)%nat ->
  exists r d', idewait_loop n d = Ok (r, d') /\ ata_of d' = ata_of d /\ Z.land r 0x21 = 0.
Proof.
  induction n as [|n IH]; intros d Hd; [lia|]. cbn [idewait_loop].
  destruct (inb_status d) as (r & d' & -> & Ha & [[Hr He]|[Hr Hlt]]); change (Z.lor IDE_BSY IDE_DRDY) with 0xc0; change IDE_DRDY with 0x40.
  - rewrite (proj2 (Z.eqb_eq _ _) Hr). by exists r, d'.
  - rewrite (proj2 (Z.eqb_neq _ _) Hr). destruct (IH d') as (r' & d2 & -> & Ha' & He); [lia|].
    exists r', d2. split; [done|]. split; [congruence|done].
Qed.

Lemma idewait_ok c (d : D) : exists d', idewait enough c d = Ok (0, d') /\ ata_of d' = ata_of d.
Proof.
  unfold idewait, enough. pose proof (law_delay d) as Hd. destruct (idewait_loop_ok (S patience) d) as (r & d' & -> & Ha & He); [lia|].
  cbn [obind]. change (Z.lor IDE_DF IDE_ERR) with 0x21. rewrite He. cbn. rewrite andb_false_r. by exists d'.
Qed.

Definition lba_regs (a : ata) (n : Z) : Prop := at_count a = 1 /\ at_lba a = n /\ at_unit a = 1.

(** The registers [idestart] writes address the sector of the block. *)
Lemma start_regs (d : D) n d' :
  0 <= n < FSSIZE ->
  d' = outb 0x1f6 (Z.lor (Z.lor 0xe0 (Z.shiftl (Z.land 1 1) 4)) (Z.land (Z.shiftr n 24) 0x0f))
         (outb 0x1f5 (Z.land (Z.shiftr n 16) 0xff) (outb 0x1f4 (Z.land (Z.shiftr n 8) 0xff)
            (outb 0x1f3 (Z.land n 0xff) (outb 0x1f2 1 (outb 0x3f6 0 d))))) ->
  lba_regs (ata_of d') n /\ at_mode (ata_of d') = at_mode (ata_of d) /\ at_disk (ata_of d') = at_disk (ata_of d)
  /\ at_irqs (ata_of d') = at_irqs (ata_of d).
Proof.
  intros Hn ->. unfold FSSIZE in Hn.
  erewrite (outb_law 0x1f6); [|lia|reflexivity]. erewrite (outb_law 0x1f5); [|lia|reflexivity].
  erewrite (outb_law 0x1f4); [|lia|reflexivity]. erewrite (outb_law 0x1f3); [|lia|reflexivity].
  erewrite (outb_law 0x1f2); [|lia|reflexivity]. erewrite (outb_law 0x3f6); [|lia|reflexivity].
  split; [|done]. unfold lba_regs, at_lba, at_unit. cbn [at_count at_low at_mid at_high at_drive].
  change 0xff with (Z.ones 8). rewrite !Z.land_ones, !Z.shiftr_div_pow2 by lia.
  change (2 ^ 8) with 256. change (2 ^ 16) with 65536. change (2 ^ 24) with 16777216.
  rewrite (Z.div_small n 65536), (Z.div_small n 16777216) by lia. split; [done|]. split; [|done].
  rewrite (u8_id (n mod 256)) by (apply Z.mod_pos_bound; lia). rewrite (u8_id ((n / 256) mod 256)) by (apply Z.mod_pos_bound; lia).
  change (u8 (0 mod 256)) with 0. change (u8 _ mod 16) with 0. zlia.
Qed.

(** What [idestart] leaves of a drive that was ready. *)
Definition started (bf : buf) (a a' : ata) : Prop :=
  at_irqs a' = S (at_irqs a)
  /\ if b_dirty bf then at_mode a' = Ready /\ at_disk a' = <[(1, b_blockno bf) := words_at (b_data bf) 0 SECTWORDS]> (at_disk a)
     else at_mode a' = Sending (sector a 1 (b_blockno bf)) /\ at_disk a' = at_disk a.

Lemma idestart_ok (s : ide D) b bf :
  ibufs s !! b = Some bf -> b_dev bf = 1 -> 0 <= b_blockno bf < FSSIZE -> at_mode (ata_of (idev s)) = Ready ->
  exists d', idestart enough (Some b) s = Ok (set_dev d' s) /\ started bf (ata_of (idev s)) (ata_of d').
Proof.
  intros Hb Hd Hn Hm. unfold idestart, ide_buf. rewrite Hb. cbn [obind].
  destruct (Z.leb_spec FSSIZE (b_blockno bf)) as [|_]; [lia|].
  change (BSIZE / SECTOR_SIZE) with 1. cbn [Z.eqb Z.ltb Z.compare Pos.eqb Pos.compare Pos.compare_cont]. rewrite Z.mul_1_r, Hd.
  destruct (idewait_ok false (idev s)) as (d0 & -> & Ha0). cbn [obind].
  set (d1 := outb 0x1f6 _ _). destruct (start_regs d0 (b_blockno bf) d1 Hn eq_refl) as ((Hc & Hl & Hu) & Hm1 & Hd1 & Hi1).
  rewrite Ha0 in Hm1, Hd1, Hi1. rewrite Hm in Hm1. clearbody d1.
  eexists. split; [reflexivity|]. unfold started. destruct (b_dirty bf).
  - set (d2 := outb 0x1f7 IDE_CMD_WRITE d1).
    assert (ata_of d2 = set_mode (Receiving []) (ata_of d1)) as Ha2.
    { apply outb_law; [lia|]. unfold ata_out8. cbn. by rewrite Hm1, Hc. }
    unfold outsl. change (Z.to_nat (u32 (BSIZE / 4))) with SECTWORDS.
    rewrite (rep_outsl_store SECTWORDS (b_data bf) 0 [] d2) by (rewrite ?Ha2; done || (unfold SECTWORDS; lia)).
    rewrite Ha2. cbn [at_irqs at_mode at_disk set_mode]. unfold at_unit, at_lba in *. cbn [at_drive at_low at_mid at_high set_mode].
    rewrite Hu, Hl, Hi1, Hd1. done.
  - set (d2 := outb 0x1f7 IDE_CMD_READ d1).
    assert (ata_of d2 = set_irqs (S (at_irqs (ata_of d1))) (set_mode (Sending (sector (ata_of d1) 1 (b_blockno bf))) (ata_of d1))) as ->.
    { apply outb_law; [lia|]. unfold ata_out8. cbn. by rewrite Hm1, Hc, Hu, Hl. }
    cbn [at_irqs at_mode at_disk set_mode set_irqs]. unfold sector. by rewrite Hi1, Hd1.
Qed.

(** * The relation *)

(** Block [n] on the disk: the write of the first request is there already. *)
Definition on_disk (bs : list buf) (l : list nat) (dk : gmap Z mem) (n : Z) : mem :=
  match l with
  | b :: _ =>
      match bs !! b with
      | Some bf => if b_dirty bf && (b_blockno bf =? n) then b_data bf else dblk dk n
      | None => dblk dk n
      end
  | [] => dblk dk n
  end.

(** A request waits: its buffer is locked and out of date. *)
Definition waiting (bf : buf) : Prop :=
  b_dev bf = 1 /\ 0 <= b_blockno bf < FSSIZE /\ iderw_done bf = false /\ sl_locked (b_lock bf) = true.

(** The drive works on the first request. *)
Definition works (a : ata) (bs : list buf) (l : list nat) : Prop :=
  match l with
  | [] => at_mode a = Ready
  | b :: _ => exists bf, bs !! b = Some bf
      /\ at_mode a = if b_dirty bf then Ready else Sending (sector a 1 (b_blockno bf))
  end.

Record rel (s : isys D) (a : msys) : Prop := {
  re_bufs : Forall2 buf_eq (ibufs (drv s)) (bufs (mst a));
  re_len : length (qnext (drv s)) = length (ibufs (drv s));
  re_queue : chain (qnext (drv s)) (idequeue (drv s)) (pend a);
  re_nodup : NoDup (pend a);
  re_asleep b : b ∈ asleep s <-> b ∈ pend a;
  re_awake : awake s = finished a;
  re_done b : b ∈ awake s -> b ∉ pend a /\ exists bf, ibufs (drv s) !! b = Some bf /\ iderw_done bf = true;
  re_waiting b : b ∈ pend a -> exists bf, ibufs (drv s) !! b = Some bf /\ waiting bf;
  re_irqs : at_irqs (ata_of (idev (drv s))) = (taken s + match pend a with [] => 0 | _ => 1 end)%nat;
  re_works : works (ata_of (idev (drv s))) (ibufs (drv s)) (pend a);
  re_disk n : 0 <= n < FSSIZE ->
    sector (ata_of (idev (drv s))) 1 n = words_at (on_disk (ibufs (drv s)) (pend a) (disk (mst a)) n) 0 SECTWORDS;
  re_size : disksize (mst a) = FSSIZE;
  re_have : havedisk1 (drv s) = true
}.

Lemma chain_hd nx q l b : chain nx q (b :: l) -> exists n, q = Some b /\ nx !! b = Some n /\ chain nx n l.
Proof. intros [-> (n & Hn & Hc)]. by exists n. Qed.

(** The drive after [idestart] of [c] holds the blocks of [bs], and works on
    [c]. *)
Lemma started_works bs (a a' : ata) c r bf dk :
  bs !! c = Some bf -> waiting bf -> started bf a a' -> at_mode a = Ready ->
  (forall n, 0 <= n < FSSIZE -> sector a 1 n = words_at (dblk dk n) 0 SECTWORDS) ->
  works a' bs (c :: r) /\ (forall n, 0 <= n < FSSIZE -> sector a' 1 n = words_at (on_disk bs (c :: r) dk n) 0 SECTWORDS).
Proof.
  intros Hc (Hd & Hn & _) [_ Hst] Hm Hsec. unfold works, on_disk, sector in *. rewrite Hc.
  destruct (b_dirty bf) eqn:Ed; cbn [andb]; destruct Hst as [Hm' Hd'].
  - split; [exists bf; by rewrite Ed, Hm'|]. intros n Hn'. rewrite Hd'. destruct (Z.eqb_spec (b_blockno bf) n) as [->|Hne].
    + by rewrite lookup_insert_eq.
    + rewrite lookup_insert_ne by congruence. by apply Hsec.
  - split; [exists bf; by rewrite Ed, Hm', Hd'|]. intros n Hn'. rewrite Hd'. by apply Hsec.
Qed.

(** A request that may be submitted. *)
Definition ready_buf (me : Z) (bf : buf) : Prop :=
  b_dev bf = 1 /\ 0 <= b_blockno bf < FSSIZE /\ holdingsleep me (b_lock bf) = true /\ iderw_done bf = false.

Lemma enqueue_step (s : isys D) a me b bf :
  rel s a -> ibufs (drv s) !! b = Some bf -> b ∉ asleep s -> b ∉ awake s -> ready_buf me bf ->
  exists v, iderw_submit enough me b (drv s) = Ok v /\ mstep a (Msys (mst a) (pend a ++ [b]) (finished a))
  /\ rel (Isys v ({[b]} ∪ asleep s) (awake s) (taken s)) (Msys (mst a) (pend a ++ [b]) (finished a)).
Proof.
  intros [Rb Rl Rq Rn Ra Rw Rd Rp Ri Ro Rk Rz Rh] Hb Hns Hnw (Hdev & Hblk & Hlk & Hfl).
  assert (b ∉ pend a) as Hnp by (by rewrite <- Ra). assert (b ∉ finished a) as Hnf by (by rewrite <- Rw).
  assert (waiting bf) as Hwt.
  { split; [done|]. split; [done|]. split; [done|]. unfold holdingsleep in Hlk. by apply andb_prop in Hlk as [-> _]. }
  destruct (queue_append_chain (set_qnext b None (drv s)) b (pend a)) as (nx & Hqa & Hch & Hln); try done.
  { cbn. by apply chain_set. }
  { cbn. apply list_lookup_insert_eq. rewrite Rl. by eapply lookup_lt_Some. }
  cbn [idequeue set_qnext ibufs havedisk1 idev qnext] in Hqa, Hln.
  destruct (Forall2_lookup_l _ _ _ _ _ Rb Hb) as (bf' & Hb' & Heq).
  assert (exists d', iderw_submit enough me b (drv s) = Ok (Ide (ibufs (drv s)) nx (Some (hd b (pend a))) (havedisk1 (drv s)) d')
    /\ at_irqs (ata_of d') = (taken s + 1)%nat /\ works (ata_of d') (ibufs (drv s)) (pend a ++ [b])
    /\ forall n, 0 <= n < FSSIZE -> sector (ata_of d') 1 n = words_at (on_disk (ibufs (drv s)) (pend a ++ [b]) (disk (mst a)) n) 0 SECTWORDS)
    as (d' & Hv & Hirq & Hwk & Hsec).
  { unfold iderw_submit, ide_buf. rewrite Hb. cbn [obind]. unfold iderw_done in Hfl. rewrite Hlk, Hfl, Hdev, Rh. cbn [negb andb Z.eqb].
    rewrite Hqa. cbn [obind idequeue]. rewrite <- Rh. destruct (pend a) as [|p l] eqn:Ep; cbn [hd].
    - rewrite bool_decide_true by done.
      destruct (idestart_ok (Ide (ibufs (drv s)) nx (Some b) (havedisk1 (drv s)) (idev (drv s))) b bf) as (d' & Hd' & Hst); try done.
      rewrite Hd'. exists d'. split; [done|].
      destruct (started_works (ibufs (drv s)) _ (ata_of d') b [] bf (disk (mst a)) Hb Hwt Hst Ro Rk) as [Hwk Hsec].
      split; [|done]. destruct Hst as [-> _]. cbn [idev] in *. rewrite Ri. lia.
    - rewrite bool_decide_false by (intros [= ->]; apply Hnp; by left).
      exists (idev (drv s)). done. }
  eexists. split; [exact Hv|]. split.
  { eapply m_submit; try done; [by rewrite <- (be_lock _ _ Heq)|]. unfold iderw_done. by rewrite <- (be_valid _ _ Heq), <- (be_dirty _ _ Heq). }
  split; cbn [drv asleep awake taken mst pend finished ibufs qnext idequeue idev]; try done.
  - rewrite Hln, length_insert. done.
  - by apply NoDup_snoc.
  - intros c. rewrite elem_of_union, elem_of_singleton, Ra, elem_of_app, list_elem_of_singleton. tauto.
  - intros c Hc. destruct (Rd c Hc) as [Hcp Hcb]. split; [|done]. rewrite elem_of_app, list_elem_of_singleton. intros [?| ->]; done.
  - intros c Hc. apply elem_of_app in Hc as [Hc|Hc]; [by apply Rp|]. apply list_elem_of_singleton in Hc as ->. by exists bf.
  - rewrite Hirq. by destruct (pend a).
Qed.

(** The interrupt handler gets the data of the first request. *)
Lemma intr_data (v : ide D) b r bf dk :
  ibufs v !! b = Some bf -> works (ata_of (idev v)) (ibufs v) (b :: r) ->
  (forall n, 0 <= n < FSSIZE -> sector (ata_of (idev v)) 1 n = words_at (on_disk (ibufs v) (b :: r) dk n) 0 SECTWORDS) ->
  0 <= b_blockno bf < FSSIZE ->
  exists data d,
    (if negb (b_dirty bf) then
       let! (r, d) := idewait enough true (idev v) in
       if 0 <=? r then Ok (insl 0x1f0 0 (BSIZE / 4) (b_data bf) d) else Ok (b_data bf, d)
     else Ok (b_data bf, idev v)) = Ok (data, d)
    /\ at_mode (ata_of d) = Ready /\ at_irqs (ata_of d) = at_irqs (ata_of (idev v)) /\ at_disk (ata_of d) = at_disk (ata_of (idev v))
    /\ same_block data (if b_dirty bf then b_data bf else dblk dk (b_blockno bf)).
Proof.
  intros Hb (bf' & Hb' & Hm) Hsec Hn. rewrite Hb in Hb'. injection Hb' as <-. specialize (Hsec _ Hn). unfold on_disk in Hsec. rewrite Hb in Hsec.
  destruct (b_dirty bf); cbn [negb andb] in *; [by exists (b_data bf), (idev v)|].
  destruct (idewait_ok true (idev v)) as (d0 & -> & Ha0). cbn [obind Z.leb Z.compare].
  unfold insl. change (Z.to_nat (u32 (BSIZE / 4))) with SECTWORDS. rewrite <- Ha0 in Hm, Hsec.
  destruct (rep_insl_load SECTWORDS (b_data bf) 0 _ d0 Hm) as (m' & d1 & -> & Ha1 & Hw & _).
  { unfold SECTWORDS. lia. }
  { rewrite Hsec. apply words_at_length. }
  { rewrite Hsec. apply words_at_u32. }
  exists m', d1. split; [done|]. rewrite Ha1, <- Ha0. split; [done|]. split; [done|]. split; [done|].
  apply words_same. by rewrite Hw.
Qed.

(** [iderw] of memide.c on a request that waits. *)
Lemma memide_serves st b bf :
  bufs st !! b = Some bf -> waiting bf -> disksize st = FSSIZE ->
  iderw (sl_pid (b_lock bf)) b st =
    Ok (Bst (<[b := Buf true false (b_dev bf) (b_blockno bf) (b_lock bf) (b_refcnt bf)
               (if b_dirty bf then b_data bf else dblk (disk st) (b_blockno bf))]> (bufs st)) (order st)
          (if b_dirty bf then <[b_blockno bf := b_data bf]> (disk st) else disk st) (disksize st)
          (if b_dirty bf then writes st ++ [(b_blockno bf, b_data bf)] else writes st)).
Proof.
  intros Hb (Hd & Hn & Hw & Hl) Hz. unfold iderw, the_buf. rewrite Hb. cbn [obind]. unfold holdingsleep. rewrite Hl, Z.eqb_refl. cbn [andb negb].
  unfold iderw_done in Hw. rewrite Hw, Hd, Hz. cbn [negb Z.eqb Pos.eqb]. destruct (Z.leb_spec FSSIZE (b_blockno bf)); [lia|].
  unfold set_buf. cbn [bufs order disk disksize writes]. destruct (b_dirty bf); rewrite <- Hd, ?Hz; by destruct st.
Qed.

Lemma waiting_eq bf bf' : buf_eq bf bf' -> waiting bf -> waiting bf'.
Proof. intros [V W De Bl Lk _ _]. unfold waiting, iderw_done. by rewrite V, W, De, Bl, Lk. Qed.

(** The blocks after the first request is served. *)
Lemma served_disk bs l dk bf bf' b n :
  bs !! b = Some bf -> same_block (b_data bf) (b_data bf') -> b_blockno bf = b_blockno bf' -> b_dirty bf = b_dirty bf' ->
  words_at (on_disk bs (b :: l) dk n) 0 SECTWORDS
  = words_at (dblk (if b_dirty bf' then <[b_blockno bf' := b_data bf']> dk else dk) n) 0 SECTWORDS.
Proof.
  intros Hb Hd Hn Hdi. unfold on_disk. rewrite Hb, Hdi, Hn. destruct (b_dirty bf'); [|done]. cbn [andb].
  unfold dblk. destruct (Z.eqb_spec (b_blockno bf') n) as [->|Hne].
  - rewrite lookup_insert_eq. by apply words_at_same.
  - by rewrite lookup_insert_ne.
Qed.

Lemma serve_step (s : isys D) a b r :
  rel s a -> pend a = b :: r ->
  exists v a', ideintr enough (drv s) = Ok (Some b, v) /\ mstep a a' /\ pend a' = r
    /\ rel (Isys v (asleep s ∖ {[b]}) ((asleep s ∩ {[b]}) ∪ awake s) (S (taken s))) a'.
Proof.
  intros [Rb Rl Rq Rn Ra Rw Rd Rp Ri Ro Rk Rz Rh] Hp. rewrite Hp in *.
  destruct (Rp b ltac:(by left)) as (bf & Hb & Hwt). apply NoDup_cons in Rn as [Hbr Hnd].
  destruct (chain_hd _ _ _ _ Rq) as (n & Hq & Hnx & Hch).
  destruct (Forall2_lookup_l _ _ _ _ _ Rb Hb) as (bf' & Hb' & Heq).
  destruct (intr_data (set_queue n (drv s)) b r bf (disk (mst a)) Hb Ro Rk) as (data & d & Hdata & Hm & Hi & Hdk & Hsame); [apply Hwt|]. cbn [set_queue idev] in Hi, Hdk.
  set (bfn := Buf true false (b_dev bf) (b_blockno bf) (b_lock bf) (b_refcnt bf) data).
  set (v1 := set_ibuf b bfn (set_dev d (set_queue n (drv s)))).
  set (dk' := if b_dirty bf' then <[b_blockno bf' := b_data bf']> (disk (mst a)) else disk (mst a)).
  assert (forall k, 0 <= k < FSSIZE -> sector (ata_of d) 1 k = words_at (dblk dk' k) 0 SECTWORDS) as Hsec.
  { intros k Hk. unfold sector. rewrite Hdk. specialize (Rk k Hk). unfold sector in Rk. rewrite Rk.
    by apply (served_disk _ _ _ bf); destruct Heq. }
  assert (forall c, c ∈ r -> ibufs v1 !! c = ibufs (drv s) !! c) as Hoth.
  { intros c Hc. apply list_lookup_insert_ne. by intros ->. }
  assert (exists d', (match idequeue v1 with Some _ => idestart enough (idequeue v1) v1 | None => Ok v1 end) = Ok (set_dev d' v1)
    /\ at_irqs (ata_of d') = (S (taken s) + match r with [] => 0 | _ => 1 end)%nat /\ works (ata_of d') (ibufs v1) r
    /\ forall k, 0 <= k < FSSIZE -> sector (ata_of d') 1 k = words_at (on_disk (ibufs v1) r dk' k) 0 SECTWORDS) as (d' & Hst & Hirq & Hwk & Hsec').
  { rewrite Ri in Hi. destruct r as [|c r].
    - cbn in Hch. subst n. exists d. split; [done|]. split; [rewrite Hi; lia|]. done.
    - destruct Hch as [-> Hch]. destruct (Rp c ltac:(by right; left)) as (bfc & Hc & Hwc). rewrite <- (Hoth c ltac:(by left)) in Hc.
      change (idequeue v1) with (Some c). cbv iota.
      destruct (idestart_ok v1 c bfc) as (d' & -> & Hsd); [done|apply Hwc..|done|].
      exists d'. split; [done|]. destruct (started_works (ibufs v1) (ata_of d) (ata_of d') c r bfc dk' Hc Hwc Hsd Hm Hsec) as [Hwk Hs'].
      split; [|done]. destruct Hsd as [-> _]. cbn [v1 set_ibuf set_dev idev]. rewrite Hi. lia. }
  exists (set_dev d' v1). eexists. split; [|split; [|split]].
  { unfold ideintr. rewrite Hq. unfold ide_next. rewrite Hnx. cbn [obind]. unfold ide_buf. change (ibufs (set_queue n (drv s))) with (ibufs (drv s)).
    rewrite Hb. cbn [obind]. rewrite Hdata. cbn [obind]. fold bfn. fold v1. rewrite Hst. done. }
  { eapply m_serve; [exact Hp|]. apply memide_serves; [done|by eapply waiting_eq|done]. }
  { done. }
  split; cbn [drv asleep awake taken mst pend finished bufs disk disksize set_dev ibufs qnext idequeue idev v1 set_ibuf set_queue]; try done.
  - apply Forall2_insert; [done|]. split; try done; try apply Heq. cbn [b_data bfn]. rewrite Hsame, (be_dirty _ _ Heq).
    destruct (b_dirty bf'); [apply Heq|]. by rewrite (be_blockno _ _ Heq).
  - by rewrite length_insert.
  - intros c. rewrite elem_of_difference, Ra, elem_of_cons, elem_of_singleton. split; [tauto|]. intros Hc. split; [by right|]. by intros ->.
  - rewrite Rw. f_equal. apply set_eq. intros c. rewrite elem_of_intersection, Ra, elem_of_cons, elem_of_singleton. tauto.
  - intros c. rewrite elem_of_union, elem_of_intersection, elem_of_singleton. intros [[_ ->]|Hc].
    + split; [done|]. exists bfn. by rewrite list_lookup_insert_eq by (by eapply lookup_lt_Some).
    + destruct (Rd c Hc) as [Hcp Hcb]. apply not_elem_of_cons in Hcp as [Hne Hcr]. split; [done|].
      by rewrite list_lookup_insert_ne by (by apply not_eq_sym).
  - intros c Hc. pose proof (Hoth c Hc) as Ho. cbn in Ho. rewrite Ho. apply Rp. by right.
Qed.

(** * The theorems *)

(** [iderw] returns from the panics before the queue only for such requests. *)
Lemma submit_ready (v : ide D) me b bf v' :
  ibufs v !! b = Some bf -> b_dev bf = 1 -> 0 <= b_blockno bf < FSSIZE -> iderw_submit enough me b v = Ok v' -> ready_buf me bf.
Proof.
  intros Hb Hd Hn Hv. unfold iderw_submit, ide_buf in Hv. rewrite Hb in Hv. cbn [obind] in Hv. unfold ready_buf, iderw_done.
  destruct (holdingsleep me (b_lock bf)); [|done]. by destruct (b_valid bf && negb (b_dirty bf)).
Qed.

Lemma istep_mstep (s s' : isys D) a : rel s a -> istep s s' -> exists a', mstep a a' /\ rel s' a'.
Proof.
  intros HR Hs. destruct Hs as [s me b bf v Hb Hns Hnw Hd Hn Hv|s b v Ht Hv|s b bf Hb Hbf Hok|s b bf Hb Hbf Hno|s b bf Hns Hnw].
  - destruct (enqueue_step s a me b bf HR Hb Hns Hnw) as (v' & Hv' & Hm & HR'); [by eapply submit_ready|].
    rewrite Hv in Hv'. injection Hv' as <-. eauto.
  - destruct (pend a) as [|c r] eqn:Ep.
    { pose proof (re_irqs _ _ HR) as Hi. rewrite Ep in Hi. lia. }
    destruct (serve_step s a c r HR Ep) as (v' & a' & Hv' & Hm & _ & HR'). rewrite Hv in Hv'. injection Hv' as <- <-. eauto.
  - destruct HR as [Rb Rl Rq Rn Ra Rw Rd Rp Ri Ro Rk Rz Rh]. destruct (Forall2_lookup_l _ _ _ _ _ Rb Hbf) as (bf' & Hb' & Heq).
    eexists. split; [eapply (m_return a b bf'); [by rewrite <- Rw|done|]|].
    { unfold iderw_done. rewrite <- (be_valid _ _ Heq), <- (be_dirty _ _ Heq). exact Hok. }
    split; cbn [drv asleep awake taken mst pend finished]; try done; [by rewrite Rw|].
    intros c [Hc _]%elem_of_difference. by apply Rd.
  - destruct (re_done _ _ HR b Hb) as (_ & bf' & Hb' & Hok). congruence.
  - destruct HR as [Rb Rl Rq Rn Ra Rw Rd Rp Ri Ro Rk Rz Rh].
    assert (b ∉ pend a) as Hnp by (by rewrite <- Ra).
    assert (forall c, c ∈ pend a -> <[b := bf]> (ibufs (drv s)) !! c = ibufs (drv s) !! c) as Ho.
    { intros c Hc. apply list_lookup_insert_ne. by intros ->. }
    exists (Msys (set_buf b bf (mst a)) (pend a) (finished a)). split; [apply m_owner; [done|by rewrite <- Rw]|].
    split; cbn [drv asleep awake taken mst pend finished set_ibuf ibufs qnext idequeue idev havedisk1 set_buf bufs disk disksize]; try done.
    + by apply Forall2_insert.
    + by rewrite length_insert.
    + intros c Hc. destruct (Rd c Hc) as [Hcp Hcb]. split; [done|]. rewrite list_lookup_insert_ne by (by intros ->). done.
    + intros c Hc. rewrite Ho by done. by apply Rp.
    + unfold works in *. destruct (pend a) as [|c r]; [done|]. by rewrite Ho by (by left).
    + intros n Hn. rewrite (Rk n Hn). unfold on_disk. destruct (pend a) as [|c r]; [done|]. by rewrite Ho by (by left).
Qed.

Lemma isteps_msteps (s s' : isys D) : rtc istep s s' -> forall a, rel s a -> exists a', rtc mstep a a' /\ rel s' a'.
Proof.
  induction 1 as [s|s s1 s2 Hs _ IH]; intros a HR; [eauto using rtc_refl|].
  destruct (istep_mstep s s1 a HR Hs) as (a1 & Hm & HR1). destruct (IH a1 HR1) as (a2 & Hms & HR2). eauto using rtc_l.
Qed.

(** The driver at rest, over the drive [d]. *)
Definition at_rest (bs : list buf) (d : D) : isys D :=
  Isys (Ide bs (replicate (length bs) None) None true d) ∅ ∅ (at_irqs (ata_of d)).

(** Disk 1 of [d] holds the blocks [dk]. *)
Definition holds_disk (d : D) (dk : gmap Z mem) : Prop :=
  at_mode (ata_of d) = Ready /\ forall n, 0 <= n < FSSIZE -> sector (ata_of d) 1 n = words_at (dblk dk n) 0 SECTWORDS.

Lemma rel_rest bs d dk o : holds_disk d dk -> rel (at_rest bs d) (Msys (Bst bs o dk FSSIZE []) [] ∅).
Proof.
  intros [Hm Hs]. split; cbn [at_rest drv asleep awake taken mst pend finished ibufs qnext idequeue idev havedisk1 bufs disk disksize]; try done.
  - apply length_replicate.
  - constructor.
  - intros b. by rewrite elem_of_empty, elem_of_nil.
  - intros b Hb. by apply not_elem_of_nil in Hb.
Qed.

(** C12.  The driver of ide.c refines the memory disk: every run of requests,
    interrupts, wakeups and uses of buffers by their owners, from a driver at
    rest, matches a run in which each request is served at once by [iderw] of
    memide.c, in the order of submission.  The buffers have the same contents,
    the processes asleep are those whose request is pending, and disk 1 holds
    the blocks of the memory disk, with the write of the first request early. *)
Theorem ide_refines_memide (bs : list buf) (d : D) (dk : gmap Z mem) o s :
  holds_disk d dk -> rtc istep (at_rest bs d) s ->
  exists a, rtc mstep (Msys (Bst bs o dk FSSIZE []) [] ∅) a
    /\ Forall2 buf_eq (ibufs (drv s)) (bufs (mst a))
    /\ (forall b, b ∈ asleep s <-> b ∈ pend a) /\ awake s = finished a
    /\ (forall n, 0 <= n < FSSIZE ->
          sector (ata_of (idev (drv s))) 1 n = words_at (on_disk (ibufs (drv s)) (pend a) (disk (mst a)) n) 0 SECTWORDS).
Proof.
  intros Hd Hs. destruct (isteps_msteps _ _ Hs _ (rel_rest bs d dk o Hd)) as (a & Ha & HR).
  exists a. split; [done|]. by destruct HR.
Qed.

(** All that is asleep is woken by interrupts the drive has raised or raises. *)
Lemma drain (s : isys D) a : rel s a ->
  exists s', rtc istep s s' /\ asleep s' = ∅ /\ awake s' = asleep s ∪ awake s /\ (taken s' = taken s + length (pend a))%nat.
Proof.
  remember (pend a) as l eqn:El. revert s a El. induction l as [|b r IH]; intros s a El HR.
  - exists s. split; [apply rtc_refl|]. assert (asleep s = ∅) as ->.
    { apply elem_of_equiv_empty_L. intros b. rewrite (re_asleep _ _ HR), <- El. apply not_elem_of_nil. }
    split; [done|]. split; [by rewrite (left_id_L ∅ (∪))|cbn; lia].
  - destruct (serve_step s a b r HR (eq_sym El)) as (v & a' & Hv & Hm & Hr & HR').
    set (s1 := Isys v (asleep s ∖ {[b]}) ((asleep s ∩ {[b]}) ∪ awake s) (S (taken s))) in *.
    destruct (IH s1 a' (eq_sym Hr) HR') as (s' & Hs & Has & Haw & Ht).
    exists s'. split; [eapply rtc_l; [|exact Hs]|].
    { eapply i_intr; [|done]. rewrite (re_irqs _ _ HR), <- El. lia. }
    split; [done|]. split; [|rewrite Ht; cbn; lia]. rewrite Haw. cbn [s1 asleep awake].
    apply set_eq. intros c. rewrite !elem_of_union, elem_of_difference, elem_of_intersection. destruct (decide (c ∈ ({[b]} : gset nat))); tauto.
Qed.

(** C37.  No request is lost: in every reachable state each sleeping process is
    woken by the interrupts of the drive, one for each request, and every
    process that was woken finds its buffer valid and clean and returns; and a
    request for a block of disk 1 is always accepted. *)
Theorem ide_serves_all (bs : list buf) (d : D) (dk : gmap Z mem) s :
  holds_disk d dk -> rtc istep (at_rest bs d) s ->
  (exists s', rtc istep s s' /\ asleep s' = ∅ /\ awake s' = asleep s ∪ awake s /\ (taken s' = taken s + size (asleep s))%nat)
  /\ (forall b, b ∈ awake s -> exists bf, ibufs (drv s) !! b = Some bf /\ iderw_done bf = true)
  /\ (forall me b bf, ibufs (drv s) !! b = Some bf -> b ∉ asleep s -> b ∉ awake s -> ready_buf me bf ->
        exists v, iderw_submit enough me b (drv s) = Ok v).
Proof.
  intros Hd Hs. destruct (isteps_msteps _ _ Hs _ (rel_rest bs d dk [] Hd)) as (a & _ & HR). split; [|split].
  - destruct (drain s a HR) as (s' & Hs' & H1 & H2 & H3). exists s'. split; [done|]. split; [done|]. split; [done|]. rewrite H3. f_equal.
    rewrite <- (size_list_to_set (C := gset nat) (pend a)) by apply HR. f_equal. apply set_eq. intros b.
    by rewrite elem_of_list_to_set, (re_asleep _ _ HR).
  - intros b Hb. by destruct (re_done _ _ HR b Hb) as [_ Hbf].
  - intros me b bf Hb Hns Hnw Hr. destruct (enqueue_step s a me b bf HR Hb Hns Hnw Hr) as (v & Hv & _). by exists v.
Qed.

End Props.

(** A read that fails is taken for one that succeeded: when the drive reports
    an error, the handler skips the transfer and still marks the buffer valid,
    so [bread] returns what the buffer held before. *)
Theorem ide_read_error_ignored {D} `{Machine D} wait (s : ide D) b bf r d :
  idequeue s = Some b -> qnext s !! b = Some None -> ibufs s !! b = Some bf -> b_dirty bf = false ->
  inb 0x1f7 (idev s) = (r, d) -> Z.land r 0xc0 = 0x40 -> Z.land r 0x21 <> 0 ->
  exists s', ideintr (S wait) s = Ok (Some b, s')
    /\ ibufs s' !! b = Some (Buf true false (b_dev bf) (b_blockno bf) (b_lock bf) (b_refcnt bf) (b_data bf)).
Proof.
  intros Hq Hn Hb Hd Hr Hrdy Herr. unfold ideintr. rewrite Hq. unfold ide_next. rewrite Hn. cbn [obind]. unfold ide_buf.
  change (ibufs (set_queue None s)) with (ibufs s). rewrite Hb. cbn [obind]. rewrite Hd. cbn [negb].
  unfold idewait. cbn [idewait_loop]. change (idev (set_queue None s)) with (idev s). rewrite Hr.
  change (Z.lor IDE_BSY IDE_DRDY) with 0xc0. change IDE_DRDY with 0x40. rewrite Hrdy. cbn [Z.eqb Pos.eqb negb obind].
  change (Z.lor IDE_DF IDE_ERR) with 0x21. rewrite (proj2 (Z.eqb_neq _ _) Herr). cbn [negb andb obind Z.leb Z.compare].
  eexists. split; [reflexivity|]. cbn. apply list_lookup_insert_eq. by eapply lookup_lt_Some.
Qed.

(** * A drive *)

(** A drive that is busy for one status read after each command. *)
#[export] Instance drive_ops : Machine (ata * bool) := {
  in8 port '(a, busy) := if port =? 0x1f7 then (if busy then 0x80 else 0x40, (a, false)) else (0, (a, busy));
  out8 port v '(a, busy) := (default a (ata_out8 port v a), busy || (port =? 0x1f7));
  in32 port '(a, busy) := match ata_in32 a with Some (w, a) => (w, (a, busy)) | None => (0, (a, busy)) end;
  out32 port w '(a, busy) := (default a (ata_out32 w a), busy);
  mmio_read _ d := (0, d);
  mmio_write _ _ d := d
}.

#[export] Program Instance drive_laws : AtaLaws (ata * bool) := {
  ata_of := fst;
  patience := 1;
  delay d := if snd d then 1%nat else 0%nat
}.
Next Obligation. intros [a []]; cbn; lia. Qed.
Next Obligation. intros port v [a busy] a' Ha. cbn in *. by rewrite Ha. Qed.
Next Obligation. intros w [a busy] a' Ha. cbn in *. by rewrite Ha. Qed.
Next Obligation. intros [a busy] w a' Ha. cbn in *. rewrite Ha. by exists (a', busy). Qed.
Next Obligation.
  intros [a []]; cbn.
  - exists 0x80, (a, false). split; [done|]. split; [lia|]. split; [done|]. right. split; [done|apply Nat.lt_0_1].
  - exists 0x40, (a, false). split; [done|]. split; [lia|]. split; [done|]. by left.
Qed.

(** Two buffers, a block to read and a block to write. *)
Definition two_bufs : list buf :=
  [Buf false false 1 5 (Sleeplock true 7) 1 ∅; Buf true true 1 6 (Sleeplock true 8) 1 {[0 := 65]}].
Definition blank_drive : ata * bool := (Ata 0 0 0 0 0 Ready ∅ 0, false).

Lemma blank_holds : holds_disk blank_drive ∅.
Proof. split; [done|]. intros n _. unfold sector, dblk. rewrite !lookup_empty. by vm_compute. Qed.

(** Both requests submitted. *)
Definition two_requests : isys (ata * bool) :=
  let s := at_rest two_bufs blank_drive in
  match (let! v := iderw_submit enough 7 0 (drv s) in iderw_submit enough 8 1 v) with
  | Ok v => Isys v ({[1%nat]} ∪ ({[0%nat]} ∪ asleep s)) (awake s) (taken s)
  | _ => s
  end.

Lemma two_requests_run : rtc istep (at_rest two_bufs blank_drive) two_requests.
Proof.
  unfold two_requests. cbv zeta. destruct (iderw_submit enough 7 0 _) as [v|m|m] eqn:E1; [|apply rtc_refl..]. cbn [obind].
  destruct (iderw_submit enough 8 1 v) as [v2|m|m] eqn:E2; [|apply rtc_refl..].
  assert (ibufs v !! 1%nat = Some (Buf true true 1 6 (Sleeplock true 8) 1 {[0 := 65]})) as Hb.
  { assert (match iderw_submit enough 7 0 (drv (at_rest two_bufs blank_drive)) with Ok v => ibufs v !! 1%nat | _ => None end
      = Some (Buf true true 1 6 (Sleeplock true 8) 1 {[0 := 65]})) as Hc by (by vm_compute). by rewrite E1 in Hc. }
  eapply rtc_l; [|apply rtc_once].
  - by eapply (i_submit _ 7 0); [done|set_solver|set_solver|done|unfold FSSIZE; cbn; lia|exact E1].
  - refine (i_submit (Isys v ({[0%nat]} ∪ asleep _) (awake _) (taken _)) 8 1 _ v2 Hb _ _ _ _ E2); [set_solver|set_solver|done|unfold FSSIZE; cbn; lia].
Qed.

Lemma ide_refines_memide_witness :
  exists a, rtc mstep (Msys (Bst two_bufs [] ∅ FSSIZE []) [] ∅) a /\ (forall b, b ∈ asleep two_requests <-> b ∈ pend a).
Proof.
  destruct (ide_refines_memide two_bufs blank_drive ∅ [] two_requests blank_holds two_requests_run) as (a & Ha & _ & Hp & _).
  exists a. split; [exact Ha|exact Hp].
Defined.

Lemma ide_serves_all_witness :
  exists s', rtc istep two_requests s' /\ asleep s' = ∅ /\ awake s' = asleep two_requests ∪ awake two_requests.
Proof.
  destruct (ide_serves_all two_bufs blank_drive ∅ two_requests blank_holds two_requests_run) as ((s' & Hs & Ha & Hw & _) & _).
  exists s'. split; [exact Hs|]. split; [exact Ha|exact Hw].
Defined.

(** A drive that reports an error on every status read. *)
Definition faulty_drive : Machine unit := {|
  in8 _ d := (0x41, d); out8 _ _ d := d; in32 _ d := (0, d); out32 _ _ d := d; mmio_read _ d := (0, d); mmio_write _ _ d := d |}.

Lemma ide_read_error_ignored_witness :
  exists s', ideintr (H := faulty_drive) 1 (Ide two_bufs [None; None] (Some 0%nat) true tt) = Ok (Some 0%nat, s')
    /\ ibufs s' !! 0%nat = Some (Buf true false 1 5 (Sleeplock true 7) 1 ∅).
Proof.
  apply (@ide_read_error_ignored unit faulty_drive 0 (Ide two_bufs [None; None] (Some 0%nat) true tt) 0
    (Buf false false 1 5 (Sleeplock true 7) 1 ∅) 0x41 tt); done.
Defined.
