(* ===== verification/Boot.v ===== *)
(** bootmain.c: the boot loader reads the kernel, an ELF file that starts at
    sector 1 of disk 0, into physical memory.  [wait] bounds the status reads
    of one [waitdisk]; pointers are 32-bit addresses. *)
From S2P Require Import Prelude Mem Ports Bio Ide IdeProps.

Definition SECTSIZE : Z := 512.
Definition BOOT_ELF_MAGIC : Z := 0x464c457f.

Section Boot.
Context {D : Type} `{Machine D} (wait : nat).

Fixpoint waitdisk_loop (n : nat) (d : D) : outcome D :=
  match n with
  | O => UB "waitdisk: fuel"
  | S n => let '(r, d) := inb 0x1f7 d in if negb (Z.land r 0xc0 =? 0x40) then waitdisk_loop n d else Ok d
  end.

Definition waitdisk (d : D) : outcome D := waitdisk_loop wait d.

Definition readsect (dst offset : Z) (m : mem) (d : D) : outcome (mem * D) :=
  let! d := waitdisk d in
  let d := outb 0x1f2 1 d in
  let d := outb 0x1f3 offset d in
  let d := outb 0x1f4 (Z.shiftr offset 8) d in
  let d := outb 0x1f5 (Z.shiftr offset 16) d in
  let d := outb 0x1f6 (Z.lor (Z.shiftr offset 24) 0xe0) d in
  let d := outb 0x1f7 0x20 d in
  let! d := waitdisk d in
  Ok (insl 0x1f0 dst (SECTSIZE / 4) m d).

(** The loop of [readseg]. *)
Fixpoint readseg_loop (fuel : nat) (pa epa offset : Z) (m : mem) (d : D) : outcome (mem * D) :=
  if pa <? epa then
    match fuel with
    | O => UB "readseg: fuel"
    | S fuel =>
        let! (m, d) := readsect pa offset m d in
        readseg_loop fuel (u32 (pa + SECTSIZE)) epa (u32 (offset + 1)) m d
    end
  else Ok (m, d).

Definition readseg (pa count offset : Z) (m : mem) (d : D) : outcome (mem * D) :=
  let epa := u32 (pa + count) in
  let pa := u32 (pa - offset mod SECTSIZE) in
  let offset := offset / SECTSIZE + 1 in
  readseg_loop (Z.to_nat ((epa - pa) / SECTSIZE + 1)) pa epa offset m d.

(** The loop over the program headers from [ph]. *)
Fixpoint boot_segments (fuel : nat) (ph eph : Z) (m : mem) (d : D) : outcome (mem * D) :=
  if ph <? eph then
    match fuel with
    | O => UB "bootmain: fuel"
    | S fuel =>
        let pa := ld32 m (ph + 12) in
        let! (m, d) := readseg pa (ld32 m (ph + 16)) (ld32 m (ph + 4)) m d in
        let filesz := ld32 m (ph + 16) in
        let memsz := ld32 m (ph + 20) in
        let m := if filesz <? memsz then stosb m (u32 (pa + filesz)) 0 (memsz - filesz) else m in
        boot_segments fuel (u32 (ph + 32)) eph m d
    end
  else Ok (m, d).

(** The entry point it jumps to, or [None] where it returns to bootasm.S. *)
Definition bootmain (m : mem) (d : D) : outcome (option Z * mem * D) :=
  let elf := 0x10000 in
  let! (m, d) := readseg elf 4096 0 m d in
  if negb (ld32 m elf =? BOOT_ELF_MAGIC) then Ok (None, m, d)
  else
    let ph := u32 (elf + ld32 m (elf + 28)) in
    let eph := u32 (ph + 32 * ld16 m (elf + 44)) in
    let! (m, d) := boot_segments (Z.to_nat (ld16 m (elf + 44))) ph eph m d in
    Ok (Some (ld32 m (elf + 24)), m, d).

End Boot.

(** * Loading *)

(** Disk 0 holds the bytes of [im] from sector 1 on. *)
Definition holds_image {D} `{AtaLaws D} (d : D) (im : mem) : Prop :=
  at_mode (ata_of d) = Ready
  /\ forall n, 0 <= n < 8388608 -> sector (ata_of d) 0 (n + 1) = words_at im (512 * n) SECTWORDS.

(** What [readseg] touches: from [pa] down to a sector of the file, and up to
    the end of the last sector. *)
Definition window_lo (pa off : Z) : Z := pa - off mod 512.
Definition window_hi (pa count off : Z) : Z := window_lo pa off + (count + off mod 512 + 511) / 512 * 512.

Section Loads.
Context {D : Type} `{AtaLaws D}.

Lemma waitdisk_ok (d : D) : exists d', waitdisk enough d = Ok d' /\ ata_of d' = ata_of d.
Proof.
  unfold waitdisk, enough. pose proof (law_delay d) as Hd. assert (delay d < S patience)%nat as Hlt by lia. clear Hd. revert Hlt.
  generalize (S patience) as n. intros n. revert d. induction n as [|n IH]; intros d Hd; [lia|]. cbn [waitdisk_loop].
  destruct (inb_status d) as (r & d' & -> & Ha & [[Hr _]|[Hr Hlt]]).
  - rewrite Hr. by exists d'.
  - rewrite (proj2 (Z.eqb_neq _ _) Hr). destruct (IH d') as (d2 & -> & Ha2); [lia|]. exists d2. split; [done|congruence].
Qed.

(** One sector: 512 bytes of the file at [dst]. *)
Lemma readsect_ok (d : D) im m dst n :
  holds_image d im -> 0 <= n < 8388608 ->
  exists m' d', readsect enough dst (n + 1) m d = Ok (m', d') /\ holds_image d' im
    /\ forall b, ld8 m' b = if decide (dst <= b < dst + 512) then ld8 im (512 * n + (b - dst)) else ld8 m b.
Proof.
  intros [Hm Hs] Hn. unfold readsect. destruct (waitdisk_ok d) as (d0 & -> & Ha0). cbn [obind].
  set (d1 := outb 0x1f6 _ _).
  assert (at_count (ata_of d1) = 1 /\ at_lba (ata_of d1) = n + 1 /\ at_unit (ata_of d1) = 0 /\ at_mode (ata_of d1) = Ready
    /\ at_disk (ata_of d1) = at_disk (ata_of d)) as (Hc & Hl & Hu & Hm1 & Hd1).
  { unfold d1. erewrite (outb_law 0x1f6); [|lia|reflexivity]. erewrite (outb_law 0x1f5); [|lia|reflexivity].
    erewrite (outb_law 0x1f4); [|lia|reflexivity]. erewrite (outb_law 0x1f3); [|lia|reflexivity].
    erewrite (outb_law 0x1f2); [|lia|reflexivity]. rewrite Ha0. unfold at_lba, at_unit. cbn [at_count at_low at_mid at_high at_drive at_mode at_disk].
    rewrite !Z.shiftr_div_pow2 by lia. change (2 ^ 8) with 256. change (2 ^ 16) with 65536. change (2 ^ 24) with 16777216.
    rewrite (Z.div_small (n + 1) 16777216) by lia. change (u8 (Z.lor 0 0xe0)) with 224. change (224 mod 16) with 0. change ((224 / 16) mod 2) with 0.
    split; [done|]. split; [zlia|done]. }
  clearbody d1. set (d2 := outb 0x1f7 0x20 d1).
  assert (ata_of d2 = set_irqs (S (at_irqs (ata_of d1))) (set_mode (Sending (sector (ata_of d1) 0 (n + 1))) (ata_of d1))) as Ha2.
  { apply outb_law; [lia|]. unfold ata_out8. cbn. by rewrite Hm1, Hc, Hu, Hl. }
  destruct (waitdisk_ok d2) as (d3 & -> & Ha3). cbn [obind]. unfold insl. change (Z.to_nat (u32 (SECTSIZE / 4))) with SECTWORDS.
  assert (sector (ata_of d1) 0 (n + 1) = words_at im (512 * n) SECTWORDS) as Hsec.
  { specialize (Hs n Hn). unfold sector in *. by rewrite Hd1. }
  destruct (rep_insl_load SECTWORDS m dst (words_at im (512 * n) SECTWORDS) d3) as (m' & d4 & -> & Ha4 & Hw & Hf).
  { rewrite Ha3, Ha2, <- Hsec. done. }
  { unfold SECTWORDS. lia. }
  { apply words_at_length. }
  { apply words_at_u32. }
  exists m', d4. split; [done|]. split.
  - split; [by rewrite Ha4|]. intros k Hk. specialize (Hs k Hk). unfold sector in *. rewrite Ha4. cbn [set_mode at_disk].
    rewrite Ha3, Ha2. cbn [set_mode set_irqs at_disk]. by rewrite Hd1.
  - intros b. unfold SECTWORDS in Hf. case_decide as Hb; [|apply Hf; lia].
    replace b with (dst + (b - dst)) at 1 by lia. apply (words_at_inj _ _ _ _ _ Hw). unfold SECTWORDS. lia.
Qed.

Lemma readseg_loop_ok fuel : forall (d : D) im m pa epa n,
  holds_image d im -> 0 <= pa -> epa + 512 <= 4294967296 -> 0 <= n -> n + (epa - pa + 511) / 512 <= 8388608 ->
  (epa - pa + 511) / 512 <= Z.of_nat fuel ->
  exists m' d', readseg_loop enough fuel pa epa (n + 1) m d = Ok (m', d') /\ holds_image d' im
    /\ forall b, ld8 m' b = if decide (pa <= b < pa + (epa - pa + 511) / 512 * 512) then ld8 im (512 * n + (b - pa)) else ld8 m b.
Proof.
  induction fuel as [|fuel IH]; intros d im m pa epa n Hh Hpa He Hn Hmax Hf; cbn [readseg_loop]; destruct (Z.ltb_spec pa epa) as [Hlt|Hge].
  1: zlia.
  1, 3: exists m, d; split; [done|]; split; [done|]; intros b; rewrite decide_False; [done|zlia].
  destruct (readsect_ok d im m pa n Hh) as (m1 & d1 & -> & Hh1 & Hb1); [zlia|]. cbn [obind]. unfold SECTSIZE.
  rewrite !u32_id by (unfold is_u32; zlia). replace (n + 1 + 1) with ((n + 1) + 1) by lia.
  destruct (IH d1 im m1 (pa + 512) epa (n + 1)) as (m2 & d2 & -> & Hh2 & Hb2); [done|zlia..|].
  exists m2, d2. split; [done|]. split; [done|]. intros b. rewrite Hb2, Hb1. repeat case_decide; try done; try zlia. f_equal. lia.
Qed.

(** [readseg] puts the bytes of the file in its window and no others. *)
Lemma readseg_ok (d : D) im m pa count off :
  holds_image d im -> 0 <= window_lo pa off -> 0 <= count -> pa + count + 512 <= 4294967296 -> 0 <= off -> off + count + 1024 <= 4294967296 ->
  exists m' d', readseg enough pa count off m d = Ok (m', d') /\ holds_image d' im
    /\ forall b, ld8 m' b = if decide (window_lo pa off <= b < window_hi pa count off) then ld8 im (off + (b - pa)) else ld8 m b.
Proof.
  intros Hh Hlo Hc Hpa Ho Hoc. unfold readseg, window_hi, window_lo, SECTSIZE in *. rewrite !u32_id by (unfold is_u32; zlia).
  destruct (readseg_loop_ok (Z.to_nat ((pa + count - (pa - off mod 512)) / 512 + 1)) d im m (pa - off mod 512) (pa + count) (off / 512))
    as (m' & d' & -> & Hh' & Hb); [done|zlia..|].
  exists m', d'. split; [done|]. split; [done|]. intros b. rewrite Hb.
  replace (pa + count - (pa - off mod 512) + 511) with (count + off mod 512 + 511) by lia. case_decide; [|done]. f_equal. zlia.
Qed.

(** * The program headers *)

(** The fields of a program header that the loader uses. *)
Record segment := Segment { sg_off : Z; sg_pa : Z; sg_filesz : Z; sg_memsz : Z }.

Definition image_seg (im : mem) (i : nat) : segment :=
  let ph := ld32 im 28 + 32 * Z.of_nat i in
  Segment (ld32 im (ph + 4)) (ld32 im (ph + 12)) (ld32 im (ph + 16)) (ld32 im (ph + 20)).

Definition image_segs (im : mem) : list segment := image_seg im <$> seq 0 (Z.to_nat (ld16 im 44)).

(** The size of a segment in memory, and the bytes that loading it writes. *)
Definition sg_size (sg : segment) : Z := Z.max (sg_filesz sg) (sg_memsz sg).
Definition touches (sg : segment) (b : Z) : Prop :=
  window_lo (sg_pa sg) (sg_off sg) <= b < Z.max (window_hi (sg_pa sg) (sg_filesz sg) (sg_off sg)) (sg_pa sg + sg_size sg).

(** The segment lies in 32-bit memory, away from the header at 0x10000. *)
Record placed (sg : segment) : Prop := {
  pl_lo : 0 <= window_lo (sg_pa sg) (sg_off sg);
  pl_hi : sg_pa sg + sg_size sg + 512 <= 4294967296;
  pl_off : sg_off sg + sg_filesz sg + 1024 <= 4294967296;
  pl_header b : touches sg b -> ~ 0x10000 <= b < 0x11000
}.

(** Its bytes are those of the file, then zeros. *)
Definition loaded (im m : mem) (sg : segment) : Prop :=
  forall k, 0 <= k < sg_size sg -> ld8 m (sg_pa sg + k) = if decide (k < sg_filesz sg) then ld8 im (sg_off sg + k) else 0.

(** The header, in place in memory. *)
Definition header_at (im m : mem) : Prop := forall k, 0 <= k < 4096 -> ld8 m (0x10000 + k) = ld8 im k.

Lemma header_word im m k : header_at im m -> 0 <= k <= 4092 -> ld32 m (0x10000 + k) = ld32 im k.
Proof. intros Hm Hk. apply ld32_ext. intros i Hi. rewrite <- Z.add_assoc. apply Hm. lia. Qed.

Lemma stosb_zero m a n b : 0 <= n < 4294967296 -> ld8 (stosb m a 0 n) b = if decide (a <= b < a + n) then 0 else ld8 m b.
Proof. intros Hn. unfold stosb. rewrite u32_id, ld8_rep_stosb, Z2Nat.id by (done || lia). done. Qed.

(** The body of the loop on one program header. *)
Lemma load_one (d : D) im m i (ph := 0x10000 + (ld32 im 28 + 32 * Z.of_nat i)) (sg := image_seg im i) :
  holds_image d im -> header_at im m -> ld32 im 28 + 32 * Z.of_nat (S i) <= 4096 -> placed sg ->
  exists m1 d', readseg enough (ld32 m (ph + 12)) (ld32 m (ph + 16)) (ld32 m (ph + 4)) m d = Ok (m1, d') /\ holds_image d' im
    /\ let m' := if ld32 m1 (ph + 16) <? ld32 m1 (ph + 20)
                 then stosb m1 (u32 (ld32 m (ph + 12) + ld32 m1 (ph + 16))) 0 (ld32 m1 (ph + 20) - ld32 m1 (ph + 16)) else m1 in
       header_at im m' /\ loaded im m' sg /\ forall b, ~ touches sg b -> ld8 m' b = ld8 m b.
Proof.
  intros Hh Hm Hi [Hlo Hhi Hoff Hhdr]. pose proof (ld32_range im 28) as Hr.
  assert (forall m0 k, header_at im m0 -> 0 <= k <= 28 -> ld32 m0 (ph + k) = ld32 im (ld32 im 28 + 32 * Z.of_nat i + k)) as Hw.
  { intros m0 k Hm0 Hk. unfold ph. rewrite <- Z.add_assoc. apply header_word; [done|lia]. }
  rewrite !Hw by (done || lia). fold (sg_pa sg) (sg_filesz sg) (sg_off sg).
  change (ld32 im (ld32 im 28 + 32 * Z.of_nat i + 12)) with (sg_pa sg).
  change (ld32 im (ld32 im 28 + 32 * Z.of_nat i + 16)) with (sg_filesz sg).
  change (ld32 im (ld32 im 28 + 32 * Z.of_nat i + 4)) with (sg_off sg).
  assert (is_u32 (sg_off sg) /\ is_u32 (sg_pa sg) /\ is_u32 (sg_filesz sg) /\ is_u32 (sg_memsz sg)) as (Ro & Rp & Rf & Rm)
    by (repeat split; apply ld32_range). unfold is_u32, sg_size in *.
  destruct (readseg_ok d im m (sg_pa sg) (sg_filesz sg) (sg_off sg)) as (m1 & d' & Hrs & Hh' & Hb); [done|lia..|].
  exists m1, d'. split; [done|]. split; [done|].
  assert (header_at im m1) as Hm1.
  { intros k Hk. rewrite Hb, decide_False; [by apply Hm|]. intros Hin. apply (Hhdr (0x10000 + k)); [|lia]. unfold touches. lia. }
  rewrite !Hw by (done || lia). change (ld32 im (ld32 im 28 + 32 * Z.of_nat i + 16)) with (sg_filesz sg).
  change (ld32 im (ld32 im 28 + 32 * Z.of_nat i + 20)) with (sg_memsz sg).
  assert (forall b, ld8 (if sg_filesz sg <? sg_memsz sg then stosb m1 (u32 (sg_pa sg + sg_filesz sg)) 0 (sg_memsz sg - sg_filesz sg) else m1) b
    = if decide (sg_pa sg + sg_filesz sg <= b < sg_pa sg + sg_memsz sg) then 0 else ld8 m1 b) as Hz.
  { intros b. destruct (Z.ltb_spec (sg_filesz sg) (sg_memsz sg)).
    - rewrite stosb_zero, u32_id by (unfold is_u32; lia). repeat case_decide; done || lia.
    - rewrite decide_False by lia. done. }
  cbv zeta. unfold header_at, loaded, touches, window_hi, window_lo, sg_size in *. split; [|split].
  - intros k Hk. rewrite Hz, decide_False by (intros ?; apply (Hhdr (0x10000 + k)); zlia). by apply Hm1.
  - intros k Hk. rewrite Hz, Hb. repeat case_decide; try done; try zlia. f_equal. lia.
  - intros b Hnb. rewrite Hz, Hb. rewrite !decide_False by zlia. done.
Qed.

(** No segment is written over by a later one. *)
Definition in_order (l : list segment) : Prop :=
  forall i j si sj b, (i < j)%nat -> l !! i = Some si -> l !! j = Some sj -> touches sj b -> ~ sg_pa si <= b < sg_pa si + sg_size si.

Lemma load_segments_ok n : forall (d : D) im m i fuel,
  holds_image d im -> header_at im m -> ld32 im 28 + 32 * Z.of_nat (i + n) <= 4096 -> (n <= fuel)%nat ->
  (forall j, (i <= j < i + n)%nat -> placed (image_seg im j)) ->
  (forall j k b, (i <= j < k)%nat -> (k < i + n)%nat -> touches (image_seg im k) b ->
     ~ sg_pa (image_seg im j) <= b < sg_pa (image_seg im j) + sg_size (image_seg im j)) ->
  exists m' d', boot_segments enough fuel (0x10000 + (ld32 im 28 + 32 * Z.of_nat i)) (0x10000 + (ld32 im 28 + 32 * Z.of_nat (i + n))) m d = Ok (m', d')
    /\ header_at im m' /\ (forall j, (i <= j < i + n)%nat -> loaded im m' (image_seg im j))
    /\ (forall b, (forall j, (i <= j < i + n)%nat -> ~ touches (image_seg im j) b) -> ld8 m' b = ld8 m b).
Proof.
  induction n as [|n IH]; intros d im m i fuel Hh Hm Hi Hf Hp Ho; pose proof (ld32_range im 28) as Hr.
  - exists m, d. destruct fuel; cbn [boot_segments]; (rewrite (proj2 (Z.ltb_ge _ _)) by lia); (split; [done|]; split; [done|]; split; [intros j Hj; lia|done]).
  - destruct fuel as [|fuel]; [lia|]. cbn [boot_segments]. rewrite (proj2 (Z.ltb_lt _ _)) by lia.
    destruct (load_one d im m i Hh Hm) as (m1 & d1 & -> & Hh1 & Hm1 & Hl1 & Hf1); [lia|apply Hp; lia|]. cbn [obind]. cbv zeta in Hm1, Hl1, Hf1 |- *.
    set (m2 := if _ <? _ then _ else _) in *. rewrite u32_id by (unfold is_u32; lia).
    replace (0x10000 + (ld32 im 28 + 32 * Z.of_nat i) + 32) with (0x10000 + (ld32 im 28 + 32 * Z.of_nat (S i))) by lia.
    replace (i + S n)%nat with (S i + n)%nat in * by lia.
    destruct (IH d1 im m2 (S i) fuel) as (m' & d' & -> & Hm' & Hl' & Hf'); try done; try lia.
    { intros j Hj. apply Hp. lia. }
    { intros j k b Hjk Hk. apply Ho; lia. }
    exists m', d'. split; [done|]. split; [done|]. split.
    + intros j Hj. destruct (decide (j = i)) as [->|Hne]; [|apply Hl'; lia].
      intros k Hk. rewrite Hf'; [by apply Hl1|]. intros j Hj' Ht. apply (Ho i j _ ltac:(lia) ltac:(lia) Ht). lia.
    + intros b Hb. rewrite Hf' by (intros j Hj; apply Hb; lia). apply Hf1, Hb. lia.
Qed.

(** C39.  The boot loader loads the kernel: for an ELF file on disk 0 whose program
    headers lie in its first page, whose segments fit in memory away from the
    header and are not written over by a later one, it jumps to the entry point
    with the bytes of every segment in place and its tail zeroed. *)
Theorem bootmain_loads (d : D) im m :
  holds_image d im -> ld32 im 0 = BOOT_ELF_MAGIC -> ld32 im 28 + 32 * ld16 im 44 <= 4096 ->
  Forall placed (image_segs im) -> in_order (image_segs im) ->
  exists m' d', bootmain enough m d = Ok (Some (ld32 im 24), m', d') /\ Forall (loaded im m') (image_segs im).
Proof.
  intros Hh Hmag Hsz Hp Ho. unfold bootmain. pose proof (ld32_range im 28) as Hr. pose proof (ld16_range im 44) as Hr16.
  destruct (readseg_ok d im m 0x10000 4096 0) as (m0 & d0 & -> & Hh0 & Hb0); [done|by vm_compute|lia..|]. cbn [obind].
  assert (header_at im m0) as Hm0.
  { intros k Hk. rewrite Hb0, decide_True by (unfold window_hi, window_lo; zlia). f_equal. lia. }
  assert (ld16 m0 (0x10000 + 44) = ld16 im 44) as E16.
  { unfold ld16. rewrite (Hm0 44) by lia. replace (0x10000 + 44 + 1) with (0x10000 + 45) by lia. rewrite (Hm0 45) by lia. done. }
  rewrite E16, (header_word im m0 28) by (done || lia). replace (ld32 m0 0x10000) with (ld32 im 0) by (symmetry; by apply (header_word im m0 0); [|lia]).
  rewrite Hmag. cbn [Z.eqb negb BOOT_ELF_MAGIC Pos.eqb]. rewrite !u32_id by (unfold is_u32; lia).
  assert (forall j, (j < Z.to_nat (ld16 im 44))%nat -> image_segs im !! j = Some (image_seg im j)) as Hseg.
  { intros j Hj. unfold image_segs. rewrite list_lookup_fmap, lookup_seq_lt by done. done. }
  destruct (load_segments_ok (Z.to_nat (ld16 im 44)) d0 im m0 0 (Z.to_nat (ld16 im 44))) as (m' & d' & Hls & Hm' & Hl' & _); try done; try lia.
  { intros j Hj. rewrite Forall_lookup in Hp. apply (Hp j), Hseg. lia. }
  { intros j k b Hjk Hk. apply (Ho j k _ _ b); [lia|apply Hseg; lia..]. }
  rewrite Z.mul_0_r, Z.add_0_r, Nat.add_0_l, Z2Nat.id in Hls by lia.
  replace (0x10000 + ld32 im 28 + 32 * ld16 im 44) with (0x10000 + (ld32 im 28 + 32 * ld16 im 44)) by lia. rewrite Hls. cbn [obind].
  exists m', d'. split; [by rewrite (header_word im m' 24) by (done || lia)|].
  apply Forall_lookup. intros j sg Hj. pose proof (lookup_lt_Some _ _ _ Hj) as Hlt. unfold image_segs in Hlt. rewrite length_fmap, length_seq in Hlt.
  rewrite (Hseg j Hlt) in Hj. injection Hj as <-. apply Hl'. lia.
Qed.

End Loads.

(** * A kernel on a disk *)

(** Disk 0 with the sectors of [im] up to [n], behind the boot sector. *)
Definition image_drive (im : mem) (n : nat) : ata * bool :=
  (Ata 0 0 0 0 0 Ready (list_to_map ((fun k => ((0, Z.of_nat k + 1), words_at im (512 * Z.of_nat k) SECTWORDS)) <$> seq 0 n)) 0, false).

Lemma words_at_zero n : forall m a, (forall b, a <= b -> m !! b = None) -> words_at m a n = replicate n 0.
Proof.
  induction n as [|n IH]; intros m a Hm; [done|]. cbn [words_at replicate]. f_equal.
  - unfold ld32, ld8. rewrite !Hm by lia. done.
  - apply IH. intros b Hb. apply Hm. lia.
Qed.

Lemma image_drive_holds im n : (forall b, 512 * Z.of_nat n <= b -> im !! b = None) -> holds_image (image_drive im n) im.
Proof.
  intros Hi. split; [done|]. intros k Hk. unfold sector, image_drive. cbn [ata_of drive_laws fst at_disk].
  destruct (decide (k < Z.of_nat n)) as [Hlt|Hge].
  - erewrite elem_of_list_to_map_1; [done| |].
    + rewrite <- list_fmap_compose. apply NoDup_fmap_2; [|apply NoDup_seq]. intros x y [= Heq]. lia.
    + apply list_elem_of_fmap. exists (Z.to_nat k). rewrite Z2Nat.id by lia. split; [done|]. apply list_elem_of_In, in_seq. lia.
  - rewrite not_elem_of_list_to_map_1.
    + cbn [default]. symmetry. apply words_at_zero. intros b Hb. apply Hi. lia.
    + rewrite <- list_fmap_compose. intros (x & [= Heq] & Hx%list_elem_of_In%in_seq)%list_elem_of_fmap. lia.
Qed.

Fixpoint poke (m : mem) (l : list (Z * Z)) : mem :=
  match l with [] => m | (a, w) :: l => poke (st32 m a w) l end.

(** One segment of four bytes and four zeros at 1 MB. *)
Definition tiny_kernel : mem :=
  poke ∅ [(0, BOOT_ELF_MAGIC); (24, 0x100000); (28, 52); (44, 1); (56, 512); (64, 0x100000); (68, 4); (72, 8); (512, 0x04030201)].

Lemma bootmain_loads_witness :
  exists m' d', bootmain enough ∅ (image_drive tiny_kernel 2) = Ok (Some 0x100000, m', d') /\ loaded tiny_kernel m' (Segment 512 0x100000 4 8).
Proof.
  assert (image_segs tiny_kernel = [Segment 512 0x100000 4 8]) as Hs by (by vm_compute).
  assert (ld32 tiny_kernel 24 = 0x100000) as He by (by vm_compute).
  destruct (bootmain_loads (image_drive tiny_kernel 2) tiny_kernel ∅) as (m' & d' & E & Hl).
  - apply image_drive_holds. intros b Hb.
    assert (forallb (fun kv => kv.1 <? 1024) (map_to_list tiny_kernel) = true) as HF by (by vm_compute).
    destruct (tiny_kernel !! b) as [v|] eqn:Ev; [|done]. apply elem_of_map_to_list, list_elem_of_In in Ev.
    rewrite forallb_forall in HF. apply HF, Z.ltb_lt in Ev. cbn in Ev. lia.
  - by vm_compute.
  - by vm_compute.
  - rewrite Hs. apply Forall_singleton. split; [by vm_compute..|].
    intros b [Hb _]. change (window_lo _ _) with 0x100000 in Hb. lia.
  - rewrite Hs. intros i j si sj b Hij _ Hj. apply lookup_lt_Some in Hj. cbn [length] in Hj. lia.
  - exists m', d'. rewrite He in E. split; [exact E|]. rewrite Hs in Hl. apply Forall_cons in Hl as [Hl _]. exact Hl.
Defined.

(** Two segments in increasing order, the second 48 bytes into a sector of the
    file. *)
Definition odd_kernel : mem :=
  poke ∅ [(0, BOOT_ELF_MAGIC); (24, 0x100000); (28, 52); (44, 2);
          (56, 512); (64, 0x100000); (68, 4); (72, 256); (88, 560); (96, 0x100100); (100, 4); (104, 4); (512, 0x04030201)].

(** Loading in increasing order is not enough: [readseg] also writes below the
    address it is given, down to a sector boundary of the file, and so puts
    bytes of the file into the zeroed end of the segment loaded before. *)
Theorem readseg_overwrites_segment :
  match bootmain enough ∅ (image_drive odd_kernel 2) with
  | Ok (Some _, m, _) => ld8 m 0x1000d0 = 1 /\ sg_pa (image_seg odd_kernel 0) + 4 <= 0x1000d0 < sg_pa (image_seg odd_kernel 0) + sg_memsz (image_seg odd_kernel 0)
  | _ => False
  end.
Proof. by vm_compute. Qed.
