(* ===== verification/Mp.v ===== *)
(** mp.c: the search for the multiprocessor tables of the firmware and the
    list of processors they give.  The tables are read from memory through the
    kernel's direct map. *)
From S2P Require Import Prelude Mem Mmu Ports.

Definition NCPU : nat := 8.
Definition MPSIZE : Z := 16.
Definition MPCONFSIZE : Z := 44.
Definition MPPROC : Z := 0.
Definition MPBUS : Z := 1.
Definition MPIOAPIC : Z := 2.
Definition MPIOINTR : Z := 3.
Definition MPLINTR : Z := 4.

(** [memcmp(p, lit, n) == 0] for a literal of [n] bytes. *)
Fixpoint bytes_match (m : mem) (p : Z) (lit : list Z) : bool :=
  match lit with [] => true | c :: lit => (ld8 m p =? c) && bytes_match m (p + 1) lit end.

Fixpoint sum_loop (m : mem) (addr : Z) (n : nat) (acc : Z) : Z :=
  match n with O => acc | S n => sum_loop m (addr + 1) n (s32 (acc + ld8 m addr)) end.

(** The result is a [uchar]. *)
Definition sum (m : mem) (addr len : Z) : Z := u8 (sum_loop m addr (Z.to_nat len) 0).

(** "_MP_" and "PCMP". *)
Definition SIG_MP : list Z := [95; 77; 80; 95].
Definition SIG_PCMP : list Z := [80; 67; 77; 80].

(** The loop of [mpsearch1], with [n] structures to look at; 0 is the null
    pointer. *)
Fixpoint mpsearch1_loop (m : mem) (n : nat) (p : Z) : Z :=
  match n with
  | O => 0
  | S n => if bytes_match m p SIG_MP && (sum m p MPSIZE =? 0) then p else mpsearch1_loop m n (p + MPSIZE)
  end.

Definition mpsearch1 (m : mem) (a len : Z) : Z := mpsearch1_loop m (Z.to_nat (len / MPSIZE)) (P2V a).

Definition mpsearch (m : mem) : Z :=
  let bda := P2V 0x400 in
  let p := Z.shiftl (Z.lor (Z.shiftl (ld8 m (bda + 0x0f)) 8) (ld8 m (bda + 0x0e))) 4 in
  let mp :=
    if negb (p =? 0) then mpsearch1 m p 1024
    else mpsearch1 m (u32 (Z.lor (Z.shiftl (ld8 m (bda + 0x14)) 8) (ld8 m (bda + 0x13)) * 1024 - 1024)) 1024 in
  if negb (mp =? 0) then mp else mpsearch1 m 0xf0000 0x10000.

(** The table and the floating pointer structure, when they are valid. *)
Definition mpconfig (m : mem) : option (Z * Z) :=
  let mp := mpsearch m in
  if (mp =? 0) || (ld32 m (mp + 4) =? 0) then None
  else
    let conf := P2V (ld32 m (mp + 4)) in
    if negb (bytes_match m conf SIG_PCMP) then None
    else if negb (ld8 m (conf + 6) =? 1) && negb (ld8 m (conf + 6) =? 4) then None
    else if negb (sum m conf (ld16 m (conf + 4)) =? 0) then None
    else Some (conf, mp).

(** What [mpinit] sets: [ismp], the [apicid] of each of the [ncpu] entries of
    [cpus], and [ioapicid]. *)
Record mpstate := Mpstate { ismp : bool; apicids : list Z; ioapicid : Z }.

(** The loop over the entries from [p]; a [break] in the [default] case leaves
    the switch and not the loop. *)
Fixpoint mpinit_loop (fuel : nat) (m : mem) (p e : Z) (s : mpstate) : outcome mpstate :=
  if p <? e then
    match fuel with
    | O => UB "mpinit: fuel"
    | S fuel =>
        let t := ld8 m p in
        if t =? MPPROC then
          let s := if (length (apicids s) <? NCPU)%nat then Mpstate (ismp s) (apicids s ++ [ld8 m (p + 1)]) (ioapicid s) else s in
          mpinit_loop fuel m (p + 20) e s
        else if t =? MPIOAPIC then mpinit_loop fuel m (p + 8) e (Mpstate (ismp s) (apicids s) (ld8 m (p + 1)))
        else if (t =? MPBUS) || (t =? MPIOINTR) || (t =? MPLINTR) then mpinit_loop fuel m (p + 8) e s
        else mpinit_loop fuel m p e (Mpstate false (apicids s) (ioapicid s))
    end
  else Ok s.

(** The result has the address of the local APIC, [lapic], first. *)
Definition mpinit {D} `{Machine D} (fuel : nat) (m : mem) (d : D) : outcome (Z * mpstate * D) :=
  match mpconfig m with
  | None => Panic "Expect to run on an SMP"
  | Some (conf, mp) =>
      let lapic := ld32 m (conf + 36) in
      let! s := mpinit_loop fuel m (conf + MPCONFSIZE) (conf + ld16 m (conf + 4)) (Mpstate true [] 0) in
      if negb (ismp s) then Panic "Didn't find a suitable machine"
      else if negb (ld8 m (mp + 12) =? 0) then
        let d := outb 0x22 0x70 d in
        let '(v, d) := inb 0x23 d in
        Ok (lapic, s, outb 0x23 (Z.lor v 1) d)
      else Ok (lapic, s, d)
  end.

(** * The search *)

Definition mp_valid (m : mem) (p : Z) : Prop :=
  (forall i c, SIG_MP !! i = Some c -> ld8 m (p + Z.of_nat i) = c)
  /\ (foldr Z.add 0 ((fun i => ld8 m (p + Z.of_nat i)) <$> seq 0 16)) mod 256 = 0.

Lemma bytes_match_spec lit : forall m p, bytes_match m p lit = true <-> forall i c, lit !! i = Some c -> ld8 m (p + Z.of_nat i) = c.
Proof.
  induction lit as [|c lit IH]; intros m p; cbn [bytes_match]; [done|]. rewrite andb_true_iff, Z.eqb_eq, IH. split.
  - intros [Hc Hl] [|i] c' Hi; [injection Hi as <-; by rewrite Z.add_0_r|]. rewrite <- (Hl i c' Hi). f_equal. lia.
  - intros Hl. split; [rewrite <- (Hl 0%nat c eq_refl); f_equal; lia|]. intros i c' Hi. rewrite <- (Hl (S i) c' Hi). f_equal. lia.
Qed.

Lemma sum_loop_mod n : forall m a acc,
  u8 (sum_loop m a n acc) = u8 (acc + foldr Z.add 0 ((fun i => ld8 m (a + Z.of_nat i)) <$> seq 0 n)).
Proof.
  induction n as [|n IH]; intros m a acc; cbn [sum_loop seq fmap list_fmap foldr]; [by rewrite Z.add_0_r|].
  rewrite IH. rewrite <- (fmap_S_seq 0 n), <- list_fmap_compose.
  rewrite (list_fmap_ext ((fun i => ld8 m (a + Z.of_nat i)) ∘ S) (fun i => ld8 m (a + 1 + Z.of_nat i))) by (intros; cbn; f_equal; lia).
  rewrite Z.add_0_r. set (r := foldr _ _ _). unfold u8. zlia.
Qed.

Lemma mp_test m p : bytes_match m p SIG_MP && (sum m p MPSIZE =? 0) = true <-> mp_valid m p.
Proof. unfold mp_valid. rewrite andb_true_iff, bytes_match_spec, Z.eqb_eq. unfold sum. by rewrite sum_loop_mod. Qed.

Lemma mpsearch1_loop_spec m n : forall p, 0 < p ->
  (exists k, (k < n)%nat /\ mpsearch1_loop m n p = p + 16 * Z.of_nat k /\ mp_valid m (p + 16 * Z.of_nat k)
     /\ forall j, (j < k)%nat -> ~ mp_valid m (p + 16 * Z.of_nat j))
  \/ (mpsearch1_loop m n p = 0 /\ forall j, (j < n)%nat -> ~ mp_valid m (p + 16 * Z.of_nat j)).
Proof.
  induction n as [|n IH]; intros p Hp; cbn [mpsearch1_loop]; [right; split; [done|lia]|].
  pose proof (mp_test m p) as Ht. destruct (_ && _).
  - left. exists 0%nat. rewrite Z.mul_0_r, Z.add_0_r. split; [lia|]. split; [done|]. split; [by apply Ht|lia].
  - assert (~ mp_valid m p) as Hn by (intros ?%Ht; done). unfold MPSIZE. destruct (IH (p + 16) ltac:(lia)) as [(k & Hk & -> & Hv & Hj)|[-> Hj]].
    + left. exists (S k). replace (p + 16 * Z.of_nat (S k)) with (p + 16 + 16 * Z.of_nat k) by lia. split; [lia|]. split; [done|]. split; [done|].
      intros [|j] Hlt; [by rewrite Z.mul_0_r, Z.add_0_r|]. replace (p + 16 * Z.of_nat (S j)) with (p + 16 + 16 * Z.of_nat j) by lia. apply Hj. lia.
    + right. split; [done|]. intros [|j] Hlt; [by rewrite Z.mul_0_r, Z.add_0_r|].
      replace (p + 16 * Z.of_nat (S j)) with (p + 16 + 16 * Z.of_nat j) by lia. apply Hj. lia.
Qed.

(** * The table *)

(** The entries of the table, and what they say. *)
Inductive mpentry := Eproc (apicid : Z) | Eioapic (id : Z) | Eother (type : Z).

Definition esize (en : mpentry) : Z := match en with Eproc _ => 20 | _ => 8 end.

Definition entry_at (m : mem) (p : Z) (en : mpentry) : Prop :=
  match en with
  | Eproc a => ld8 m p = MPPROC /\ ld8 m (p + 1) = a
  | Eioapic a => ld8 m p = MPIOAPIC /\ ld8 m (p + 1) = a
  | Eother t => ld8 m p = t /\ (t = MPBUS \/ t = MPIOINTR \/ t = MPLINTR)
  end.

Fixpoint table_at (m : mem) (p e : Z) (l : list mpentry) : Prop :=
  match l with [] => p = e | en :: l => entry_at m p en /\ table_at m (p + esize en) e l end.

Definition procs (l : list mpentry) : list Z := omap (fun en => match en with Eproc a => Some a | _ => None end) l.
Definition last_ioapic (l : list mpentry) (id : Z) : Z := foldl (fun id en => match en with Eioapic a => a | _ => id end) id l.

Lemma table_at_le l : forall m p e, table_at m p e l -> p <= e.
Proof. induction l as [|en l IH]; intros m p e; cbn [table_at]; [lia|]. intros [_ Ht]. apply IH in Ht. destruct en; cbn in Ht; lia. Qed.

(** On a table of known entries the loop ends, and finds the first [NCPU]
    processors and the last I/O APIC. *)
Lemma mpinit_loop_table l : forall m p e fuel s, table_at m p e l -> (length l <= fuel)%nat -> (length (apicids s) <= NCPU)%nat ->
  mpinit_loop fuel m p e s = Ok (Mpstate (ismp s) (take NCPU (apicids s ++ procs l)) (last_ioapic l (ioapicid s))).
Proof.
  induction l as [|en l IH]; intros m p e fuel [sm sa si] Ht Hf Hs; cbn [table_at ismp apicids ioapicid] in *.
  - subst e. destruct fuel; cbn [mpinit_loop]; rewrite Z.ltb_irrefl; cbn; rewrite app_nil_r, take_ge by done; done.
  - destruct Ht as [He Ht]. pose proof (table_at_le _ _ _ _ Ht) as Hle. destruct fuel as [|fuel]; [cbn in Hf; lia|]. cbn [mpinit_loop].
    rewrite (proj2 (Z.ltb_lt p e)) by (destruct en; cbn in Hle; lia). cbn [length] in Hf.
    destruct en as [a|a|t]; cbn [entry_at esize] in He, Ht; destruct He as [Hty Ha].
    + rewrite Hty, Ha, Z.eqb_refl. cbn [apicids ismp ioapicid]. destruct (Nat.ltb_spec (length sa) NCPU) as [Hlt|Hge].
      * rewrite IH by (done || lia || (cbn [apicids]; rewrite length_app; cbn; lia)). cbn. by rewrite <- app_assoc.
      * rewrite IH by (done || lia). cbn [ismp apicids ioapicid procs omap list_omap last_ioapic foldl].
        rewrite !take_app_le by (cbn; lia). done.
    + rewrite Hty. cbn. rewrite Ha. by rewrite IH by (done || lia).
    + rewrite Hty. destruct Ha as [->|[->| ->]]; cbn; by rewrite IH by (done || lia).
Qed.

(** An entry of another type is never passed. *)
Lemma mpinit_loop_stuck m p e : p < e -> ld8 m p > 4 -> forall fuel s, mpinit_loop fuel m p e s = UB "mpinit: fuel".
Proof.
  intros Hlt Ht. induction fuel as [|fuel IH]; intros s; cbn [mpinit_loop]; rewrite (proj2 (Z.ltb_lt p e) Hlt); [done|].
  unfold MPPROC, MPIOAPIC, MPBUS, MPIOINTR, MPLINTR.
  rewrite !(proj2 (Z.eqb_neq _ _)) by lia. apply IH.
Qed.

Lemma mpinit_loop_prefix l : forall m p q e, table_at m p q l -> q < e -> ld8 m q > 4 ->
  forall fuel s, mpinit_loop fuel m p e s = UB "mpinit: fuel".
Proof.
  induction l as [|en l IH]; intros m p q e Ht Hq Hty fuel s; cbn [table_at] in Ht; [subst q; by apply mpinit_loop_stuck|].
  destruct Ht as [He Ht]. pose proof (table_at_le _ _ _ _ Ht) as Hle.
  assert (p < e) as Hlt by (destruct en; cbn in Hle; lia).
  destruct fuel as [|fuel]; cbn [mpinit_loop]; rewrite (proj2 (Z.ltb_lt p e) Hlt); [done|].
  destruct en as [a|a|t]; cbn [entry_at esize] in He, Ht; destruct He as [Ety Ea]; rewrite Ety; cbn; [by eapply IH..|].
  destruct Ea as [->|[->| ->]]; cbn; by eapply IH.
Qed.

(** * The theorems *)

(** The search returns the first valid floating pointer structure of the
    range: the signature is there and the sixteen bytes add up to 0 modulo 256;
    and a null pointer only when there is none. *)
Theorem mpsearch1_first m a len :
  0 <= a < KERNBASE -> 0 <= len ->
  (exists k, 0 <= k < len / 16 /\ mpsearch1 m a len = P2V a + 16 * k /\ mp_valid m (P2V a + 16 * k)
     /\ forall j, 0 <= j < k -> ~ mp_valid m (P2V a + 16 * j))
  \/ (mpsearch1 m a len = 0 /\ forall j, 0 <= j < len / 16 -> ~ mp_valid m (P2V a + 16 * j)).
Proof.
  intros Ha Hlen. unfold mpsearch1, MPSIZE. assert (0 < P2V a) as Hp by (unfold P2V, KERNBASE in *; rewrite u32_id; unfold is_u32; lia).
  assert (0 <= len / 16) as Hl by zlia.
  destruct (mpsearch1_loop_spec m (Z.to_nat (len / 16)) (P2V a) Hp) as [(k & Hk & -> & Hv & Hj)|[-> Hj]].
  - left. exists (Z.of_nat k). split; [lia|]. split; [done|]. split; [done|]. intros j Hlt. specialize (Hj (Z.to_nat j)).
    rewrite Z2Nat.id in Hj by lia. apply Hj. lia.
  - right. split; [done|]. intros j Hlt. specialize (Hj (Z.to_nat j)). rewrite Z2Nat.id in Hj by lia. apply Hj. lia.
Qed.

(** The processors [mpinit] finds are those of the table, in order, at most
    [NCPU] of them; the I/O APIC is the last one named. *)
Theorem mpinit_processors {D} `{Machine D} m (d : D) conf mp l fuel :
  mpconfig m = Some (conf, mp) -> table_at m (conf + MPCONFSIZE) (conf + ld16 m (conf + 4)) l -> (length l <= fuel)%nat ->
  exists d', mpinit fuel m d = Ok (ld32 m (conf + 36), Mpstate true (take NCPU (procs l)) (last_ioapic l 0), d').
Proof.
  intros Hc Ht Hf. unfold mpinit. rewrite Hc. rewrite (mpinit_loop_table l) by (done || cbn; lia). cbn [obind ismp negb apicids ioapicid app].
  destruct (_ =? 0); cbn [negb]; [by exists d|]. destruct (inb 0x23 (outb 0x22 0x70 d)) as [v d']. by eexists.
Qed.

(** A table with an entry of an unknown type hangs the start of the machine:
    the [break] of the [default] case leaves the switch only, and the loop
    looks at the same entry for ever instead of giving up. *)
Theorem mpinit_unknown_entry_hangs {D} `{Machine D} m (d : D) conf mp l q :
  mpconfig m = Some (conf, mp) -> table_at m (conf + MPCONFSIZE) q l -> q < conf + ld16 m (conf + 4) -> ld8 m q > 4 ->
  forall fuel, mpinit fuel m d = UB "mpinit: fuel".
Proof. intros Hc Ht Hq Hty fuel. unfold mpinit. rewrite Hc. by rewrite (mpinit_loop_prefix l _ _ q) by done. Qed.

(** * A machine with two processors *)

Fixpoint poke_bytes (m : mem) (a : Z) (l : list Z) : mem :=
  match l with [] => m | b :: l => poke_bytes (st8 m a b) (a + 1) l end.

Definition mp_tables (sum type : Z) : mem :=
  poke_bytes (poke_bytes ∅ (P2V 0xf0000) [95; 77; 80; 95; 0; 16; 0; 0; 1; 4; 144; 0; 0; 0; 0; 0]) (P2V 0x1000)
    ([80; 67; 77; 80; 100; 0; 4; sum] ++ replicate 28 0 ++ [0; 0; 224; 254; 0; 0; 0; 0]
     ++ [0; 0; 20; 3] ++ replicate 16 0 ++ [0; 1; 20; 1] ++ replicate 16 0 ++ [2; 2; 17; 1; 0; 0; 192; 254; type; 0; 0; 0; 0; 0; 0; 0]).

#[local] Instance no_devices : Machine unit := {|
  in8 _ d := (0, d); out8 _ _ d := d; in32 _ d := (0, d); out32 _ _ d := d; mmio_read _ d := (0, d); mmio_write _ _ d := d |}.

Lemma mpinit_processors_witness :
  exists d', mpinit 4 (mp_tables 136 1) tt = Ok (0xfee00000, Mpstate true [0; 1] 2, d').
Proof.
  destruct (mpinit_processors (mp_tables 136 1) tt (P2V 0x1000) (P2V 0xf0000) [Eproc 0; Eproc 1; Eioapic 2; Eother 1] 4) as (d' & E).
  - by vm_compute.
  - repeat split; try by vm_compute. by left.
  - apply Nat.le_refl.
  - exists d'. assert (ld32 (mp_tables 136 1) (P2V 0x1000 + 36) = 0xfee00000) as Hl by (by vm_compute). rewrite Hl in E. exact E.
Defined.

Lemma mpinit_unknown_entry_hangs_witness : mpinit 1000 (mp_tables 8 129) tt = UB "mpinit: fuel".
Proof.
  apply (mpinit_unknown_entry_hangs (mp_tables 8 129) tt (P2V 0x1000) (P2V 0xf0000) [Eproc 0; Eproc 1; Eioapic 2] (P2V 0x1000 + 92)).
  - by vm_compute.
  - repeat split; by vm_compute.
  - by vm_compute.
  - by vm_compute.
Defined.

Lemma mpsearch1_first_witness : mpsearch1 (mp_tables 136 1) 0xf0000 0x10000 = P2V 0xf0000.
Proof.
  destruct (mpsearch1_first (mp_tables 136 1) 0xf0000 0x10000) as [(k & Hk & E & _ & Hj)|[_ Hj]]; [unfold KERNBASE; lia|lia| |].
  - rewrite E. destruct (Z.eq_dec k 0) as [->|Hk0]; [by vm_compute|]. exfalso. apply (Hj 0); [lia|]. apply mp_test. by vm_compute.
  - exfalso. apply (Hj 0); [change (0x10000 / 16) with 4096; lia|]. apply mp_test. by vm_compute.
Defined.
