(* ===== verification/Asm.v ===== *)
(** The assembly of the kernel: swtch.S, trapasm.S, the vectors that vectors.pl
    prints, usys.S and initcode.S, as sequences of instructions on the registers and the
    byte memory of one processor.  [int_entry] and [iret] are what the processor
    does at an interrupt and at [iret].  Layouts: [struct context] of proc.h and
    [struct trapframe] of x86.h. *)
From S2P Require Import Prelude Mem Mmu.

(** The registers but the stack pointer. *)
Inductive reg := EAX | EBX | ECX | EDX | ESI | EDI | EBP | EIP | EFLAGS | CS | DS | ES | FS | GS | SS.

Definition reg_id (r : reg) : nat :=
  match r with
  | EAX => 0 | EBX => 1 | ECX => 2 | EDX => 3 | ESI => 4 | EDI => 5 | EBP => 6 | EIP => 7 | EFLAGS => 8
  | CS => 9 | DS => 10 | ES => 11 | FS => 12 | GS => 13 | SS => 14
  end.

Record cpu86 := Cpu86 { gr : reg -> Z; esp : Z; mm : mem }.

Definition set_reg (r : reg) (v : Z) (c : cpu86) : cpu86 :=
  Cpu86 (fun q => if (reg_id q =? reg_id r)%nat then v else gr c q) (esp c) (mm c).
Definition set_esp (v : Z) (c : cpu86) : cpu86 := Cpu86 (gr c) (u32 v) (mm c).

Definition pushl (v : Z) (c : cpu86) : cpu86 :=
  let a := u32 (esp c - 4) in Cpu86 (gr c) a (st32 (mm c) a v).
Definition pop_to (r : reg) (c : cpu86) : cpu86 := set_esp (esp c + 4) (set_reg r (ld32 (mm c) (esp c)) c).
Definition push_reg (r : reg) (c : cpu86) : cpu86 := pushl (gr c r) c.
(** Segment registers have 16 bits. *)
Definition pop_seg (r : reg) (c : cpu86) : cpu86 := set_esp (esp c + 4) (set_reg r (u16 (ld32 (mm c) (esp c))) c).

(** [movl o(%esp), %r], [movl %esp, (%r)], [movl %r, %esp], [addl $o, %esp],
    [movw $v, %ax] and [movw %ax, %r]. *)
Definition load_arg (o : Z) (r : reg) (c : cpu86) : cpu86 := set_reg r (ld32 (mm c) (esp c + o)) c.
Definition store_esp (r : reg) (c : cpu86) : cpu86 := Cpu86 (gr c) (esp c) (st32 (mm c) (gr c r) (esp c)).
Definition esp_from (r : reg) (c : cpu86) : cpu86 := set_esp (gr c r) c.
Definition add_esp (o : Z) (c : cpu86) : cpu86 := set_esp (esp c + o) c.
Definition mov_ax (v : Z) (c : cpu86) : cpu86 := set_reg EAX (gr c EAX / 65536 * 65536 + v) c.
Definition mov_seg (r : reg) (c : cpu86) : cpu86 := set_reg r (u16 (gr c EAX)) c.

(** * swtch.S *)

(** [swtch(old, new)] from its first instruction to its [retl]. *)
Definition swtch (c : cpu86) : cpu86 :=
  let c := load_arg 4 EAX c in
  let c := load_arg 8 EDX c in
  let c := push_reg EBP c in
  let c := push_reg EBX c in
  let c := push_reg ESI c in
  let c := push_reg EDI c in
  let c := store_esp EAX c in
  let c := esp_from EDX c in
  let c := pop_to EDI c in
  let c := pop_to ESI c in
  let c := pop_to EBX c in
  let c := pop_to EBP c in
  pop_to EIP c.

(** * Traps *)

Definition SEG_KCODE : Z := 1.
Definition SEG_KDATA : Z := 2.
Definition SEG_TSS : Z := 5.

(** The exceptions for which the processor pushes an error code. *)
Definition has_error (n : Z) : bool := (n =? 8) || ((10 <=? n) && (n <=? 14)) || (n =? 17).

(** What the processor does at interrupt [n]: the gate holds the selector [sel]
    of a code segment of privilege 0, the address [vec] and whether it is a trap
    gate, that is, interrupts stay enabled; the task state holds the stack [ss0],
    [esp0]. *)
Definition int_entry (n err esp0 ss0 sel vec : Z) (trapgate : bool) (c : cpu86) : cpu86 :=
  let flags := gr c EFLAGS in
  let user := Z.land (gr c CS) 3 =? 3 in
  let c1 := if user then push_reg SS (Cpu86 (gr c) esp0 (mm c)) else c in
  let c1 := if user then set_reg SS ss0 (pushl (esp c) c1) else c1 in
  let c1 := pushl flags c1 in
  let c1 := push_reg CS c1 in
  let c1 := push_reg EIP c1 in
  let c1 := if has_error n then pushl err c1 else c1 in
  let c1 := set_reg EFLAGS (if trapgate then flags else Z.ldiff flags 512) c1 in
  set_reg EIP vec (set_reg CS sel c1).

(** [vector n] up to its jump to [alltraps]. *)
Definition vector (n : Z) (c : cpu86) : cpu86 :=
  let c := if negb ((n =? 8) || ((10 <=? n) && (n <=? 14)) || (n =? 17)) then pushl 0 c else c in
  pushl n c.

Definition pushal (c : cpu86) : cpu86 :=
  let s := esp c in
  push_reg EDI (push_reg ESI (push_reg EBP (pushl s (push_reg EBX (push_reg EDX (push_reg ECX (push_reg EAX c))))))).

(** [alltraps] up to [pushl %esp]; the stack pointer is [tf]. *)
Definition alltraps (c : cpu86) : cpu86 :=
  let c := push_reg DS c in
  let c := push_reg ES c in
  let c := push_reg FS c in
  let c := push_reg GS c in
  let c := pushal c in
  let c := mov_ax (Z.shiftl SEG_KDATA 3) c in
  let c := mov_seg DS c in
  mov_seg ES c.

Definition popal (c : cpu86) : cpu86 :=
  let c := pop_to EBP (pop_to ESI (pop_to EDI c)) in
  let c := add_esp 4 c in
  pop_to EAX (pop_to ECX (pop_to EDX (pop_to EBX c))).

(** [iret] in kernel mode; the stack is switched when it returns to user mode. *)
Definition pop_stack (c : cpu86) : cpu86 :=
  if Z.land (gr c CS) 3 =? 3 then
    let s := ld32 (mm c) (esp c) in
    set_esp s (pop_seg SS (add_esp 4 c))
  else c.
Definition iret (c : cpu86) : cpu86 :=
  let c := pop_to EIP c in
  let c := pop_seg CS c in
  let c := pop_to EFLAGS c in
  pop_stack c.

Definition trapret (c : cpu86) : cpu86 :=
  let c := popal c in
  let c := pop_seg GS c in
  let c := pop_seg FS c in
  let c := pop_seg ES c in
  let c := pop_seg DS c in
  let c := add_esp 8 c in
  iret c.

(** * usys.S and initcode.S *)

(** A stub up to its trap, whose number is [T_SYSCALL]; it returns with [retl]. *)
Definition usys_stub (num : Z) (c : cpu86) : cpu86 := set_reg EAX num c.
Definition retl (c : cpu86) : cpu86 := pop_to EIP c.

(** The first trap of initcode: [exec(init, argv)]. *)
Definition SYS_exec : Z := 7.
Definition initcode_start (init argv : Z) (c : cpu86) : cpu86 :=
  let c := pushl 0 (pushl init (pushl argv c)) in
  set_reg EAX SYS_exec c.

(** * Layouts *)

(** The fields of [struct context], by offset. *)
Definition context_field (o : Z) : option reg :=
  if o =? 0 then Some EDI else if o =? 4 then Some ESI else if o =? 8 then Some EBX else if o =? 12 then Some EBP
  else if o =? 16 then Some EIP else None.

(** The fields of [struct trapframe] that hold registers, by offset. *)
Definition frame_field (o : Z) : option reg :=
  if o =? 0 then Some EDI else if o =? 4 then Some ESI else if o =? 8 then Some EBP else if o =? 16 then Some EBX
  else if o =? 20 then Some EDX else if o =? 24 then Some ECX else if o =? 28 then Some EAX else if o =? 32 then Some GS
  else if o =? 36 then Some FS else if o =? 40 then Some ES else if o =? 44 then Some DS else if o =? 56 then Some EIP
  else if o =? 60 then Some CS else if o =? 64 then Some EFLAGS else None.

Definition TF_ss : Z := 72.

(** * Evaluation without wrap-around *)

Lemma pushl_cpu v g s m : 4 <= s < 4294967296 -> pushl v (Cpu86 g s m) = Cpu86 g (s - 4) (st32 m (s - 4) v).
Proof. intros Hs. unfold pushl. cbn. by rewrite u32_id by (unfold is_u32; lia). Qed.

Lemma push_reg_cpu r g s m : 4 <= s < 4294967296 -> push_reg r (Cpu86 g s m) = Cpu86 g (s - 4) (st32 m (s - 4) (g r)).
Proof. intros Hs. unfold push_reg. by rewrite pushl_cpu. Qed.

Lemma set_esp_cpu v g s m : 0 <= v < 4294967296 -> set_esp v (Cpu86 g s m) = Cpu86 g v m.
Proof. intros Hv. unfold set_esp. by rewrite u32_id. Qed.

Lemma set_reg_cpu r v g s m : set_reg r v (Cpu86 g s m) = Cpu86 (fun q => if (reg_id q =? reg_id r)%nat then v else g q) s m.
Proof. done. Qed.

Lemma pop_to_cpu r g s m : 0 <= s < 4294967292 ->
  pop_to r (Cpu86 g s m) = Cpu86 (fun q => if (reg_id q =? reg_id r)%nat then ld32 m s else g q) (s + 4) m.
Proof. intros Hs. unfold pop_to, set_reg. cbn [gr esp mm]. by rewrite set_esp_cpu by lia. Qed.

Lemma pop_seg_cpu r g s m : 0 <= s < 4294967292 ->
  pop_seg r (Cpu86 g s m) = Cpu86 (fun q => if (reg_id q =? reg_id r)%nat then u16 (ld32 m s) else g q) (s + 4) m.
Proof. intros Hs. unfold pop_seg, set_reg. cbn [gr esp mm]. by rewrite set_esp_cpu by lia. Qed.

Lemma load_arg_cpu o r g s m : load_arg o r (Cpu86 g s m) = Cpu86 (fun q => if (reg_id q =? reg_id r)%nat then ld32 m (s + o) else g q) s m.
Proof. done. Qed.

Lemma store_esp_cpu r g s m : store_esp r (Cpu86 g s m) = Cpu86 g s (st32 m (g r) s).
Proof. done. Qed.

Lemma esp_from_cpu r g s m : 0 <= g r < 4294967296 -> esp_from r (Cpu86 g s m) = Cpu86 g (g r) m.
Proof. intros Hr. unfold esp_from. cbn [gr]. by rewrite set_esp_cpu. Qed.

Lemma add_esp_cpu o g s m : 0 <= s + o < 4294967296 -> add_esp o (Cpu86 g s m) = Cpu86 g (s + o) m.
Proof. intros Hr. unfold add_esp. cbn [esp]. by rewrite set_esp_cpu. Qed.

Lemma mov_ax_cpu v g s m : mov_ax v (Cpu86 g s m) = Cpu86 (fun q => if (reg_id q =? reg_id EAX)%nat then g EAX / 65536 * 65536 + v else g q) s m.
Proof. done. Qed.

Lemma mov_seg_cpu r g s m : mov_seg r (Cpu86 g s m) = Cpu86 (fun q => if (reg_id q =? reg_id r)%nat then u16 (g EAX) else g q) s m.
Proof. done. Qed.

(** Runs the innermost instruction of the goal on an evaluated state. *)
Ltac run1 :=
  first
  [ rewrite push_reg_cpu by lia | rewrite pushl_cpu by lia | rewrite pop_to_cpu by lia | rewrite pop_seg_cpu by lia
  | rewrite load_arg_cpu | rewrite store_esp_cpu | rewrite esp_from_cpu by (cbn [reg_id Nat.eqb]; lia) | rewrite add_esp_cpu by lia
  | rewrite mov_ax_cpu | rewrite mov_seg_cpu | rewrite set_reg_cpu ];
  cbn [reg_id Nat.eqb].

(** Loads behind a series of stores at other words. *)
Ltac ld_frame := repeat first [rewrite ld32_st32_eq | rewrite ld32_st32_ne by lia].
