(* ===== verification/AsmProps.v ===== *)
(** The context switch saves and restores what the compiler relies on, a trap
    saves and restores every register, and a new process runs from the frames
    that proc.c builds for it. *)
From S2P Require Import Prelude Mem KString Mmu Kalloc Vm VmProps Spinlock Wmap Proc ProcProps Asm.

(** * The context switch *)

(** The words of a call [swtch(old, new)]: return address, [old], [new]. *)
Definition swtch_old (c : cpu86) : Z := ld32 (mm c) (esp c + 4).
Definition swtch_new (c : cpu86) : Z := ld32 (mm c) (esp c + 8).

(** Four words below the stack pointer are saved. *)
Definition saved_mem (c : cpu86) : mem :=
  let s := esp c in
  st32 (st32 (st32 (st32 (st32 (mm c) (s - 4) (gr c EBP)) (s - 8) (gr c EBX)) (s - 12) (gr c ESI)) (s - 16) (gr c EDI)) (swtch_old c) (s - 16).

Lemma swtch_eq c : 16 <= esp c < 4294967296 -> swtch_new c + 20 < 4294967296 ->
  let c' := swtch c in
  mm c' = saved_mem c /\ esp c' = swtch_new c + 20
  /\ forall o r, context_field o = Some r -> gr c' r = ld32 (saved_mem c) (swtch_new c + o).
Proof.
  intros Hs Hn. pose proof (ld32_range (mm c) (esp c + 8)) as Hr. unfold swtch_new in *. unfold swtch, saved_mem, swtch_old. cbv zeta.
  destruct c as [g s m]. cbn [gr esp mm] in *. repeat run1. cbn [gr esp mm].
  replace (s - 4 - 4 - 4 - 4) with (s - 16) by lia. replace (s - 4 - 4 - 4) with (s - 12) by lia. replace (s - 4 - 4) with (s - 8) by lia.
  split; [done|]. split; [lia|]. intros o r Hor. unfold context_field in Hor.
  repeat (match type of Hor with (if ?x =? ?y then _ else _) = _ => destruct (Z.eqb_spec x y) as [->|]; [injection Hor as <-; cbn [reg_id Nat.eqb]; f_equal; lia|] end).
  done.
Qed.

(** Memory that agrees on the words of the context at [a]. *)
Definition same_words (a n : Z) (m m' : mem) : Prop := forall b, a <= b < a + 4 * n -> ld8 m' b = ld8 m b.

Lemma same_words_ld32 a n m m' b : same_words a n m m' -> a <= b -> b + 4 <= a + 4 * n -> ld32 m' b = ld32 m b.
Proof. intros Hm Ha Hb. apply ld32_ext. intros i Hi. apply Hm. lia. Qed.

(** C17.  A kernel thread that is switched away from resumes as if [swtch] had
    returned: when some processor later switches to the context it left, and
    nothing wrote to the stack of the thread in between, the registers a caller
    relies on, the stack pointer and the program counter are what they were. *)
Theorem swtch_resumes c c2 :
  16 <= esp c -> esp c + 24 < 4294967296 -> 16 <= esp c2 < 4294967296 ->
  (forall b, esp c - 16 <= b < esp c + 4 -> ~ swtch_old c <= b < swtch_old c + 4) ->
  swtch_new c + 20 < 4294967296 ->
  swtch_new c2 = ld32 (mm (swtch c)) (swtch_old c) ->
  same_words (esp c - 16) 5 (mm (swtch c)) (mm c2) ->
  (forall b, esp c - 16 <= b < esp c + 4 -> ~ esp c2 - 16 <= b < esp c2 /\ ~ swtch_old c2 <= b < swtch_old c2 + 4) ->
  gr (swtch c2) EBX = u32 (gr c EBX) /\ gr (swtch c2) ESI = u32 (gr c ESI) /\ gr (swtch c2) EDI = u32 (gr c EDI)
  /\ gr (swtch c2) EBP = u32 (gr c EBP) /\ esp (swtch c2) = esp c + 4 /\ gr (swtch c2) EIP = ld32 (mm c) (esp c).
Proof.
  intros Hs Hs' Hs2 Hold Hnew Hn2 Hsame Hdis. destruct (swtch_eq c ltac:(lia) Hnew) as (Hm1 & _ & _).
  assert (swtch_new c2 = esp c - 16) as En.
  { rewrite Hn2, Hm1. unfold saved_mem. cbv zeta. rewrite ld32_st32_eq, u32_id by (unfold is_u32; lia). done. }
  destruct (swtch_eq c2 Hs2 ltac:(lia)) as (Hm2 & He2 & Hf2).
  assert (forall o, 0 <= o -> o + 4 <= 20 -> ld32 (saved_mem c2) (esp c - 16 + o) = ld32 (saved_mem c) (esp c - 16 + o)) as Hk.
  { intros o Ho1 Ho2. transitivity (ld32 (mm c2) (esp c - 16 + o)).
    - apply ld32_ext. intros i Hi. destruct (Hdis (esp c - 16 + o + i) ltac:(lia)) as [Hd1 Hd2]. unfold saved_mem. cbv zeta.
      rewrite !ld8_st32_ne by lia. done.
    - rewrite <- Hm1. apply (same_words_ld32 (esp c - 16) 5); [done|lia..]. }
  assert (forall o v, 0 <= o -> o + 4 <= 20 -> ld32 (st32 v (swtch_old c) (esp c - 16)) (esp c - 16 + o) = ld32 v (esp c - 16 + o)) as Ho.
  { intros o v Ho1 Ho2. apply ld32_ext. intros i Hi. apply ld8_st32_ne. specialize (Hold (esp c - 16 + o + i) ltac:(lia)). lia. }
  rewrite (Hf2 8 EBX), (Hf2 4 ESI), (Hf2 0 EDI), (Hf2 12 EBP), (Hf2 16 EIP), He2, En by done. rewrite !Hk by lia.
  unfold saved_mem. cbv zeta. rewrite !Ho by lia.
  replace (esp c - 16 + 8) with (esp c - 8) by lia. replace (esp c - 16 + 4) with (esp c - 12) by lia. rewrite Z.add_0_r.
  replace (esp c - 16 + 12) with (esp c - 4) by lia. replace (esp c - 16 + 16) with (esp c) by lia. ld_frame.
  do 4 (split; [done|]). split; [lia|done].
Qed.

(** * Traps *)

(** Words pushed one after the other from [s] down. *)
Fixpoint st_down (m : mem) (s : Z) (ws : list Z) : mem :=
  match ws with [] => m | w :: ws => st_down (st32 m (s - 4) w) (s - 4) ws end.

Lemma ld8_st_down ws : forall m s b, b < s - 4 * Z.of_nat (length ws) \/ s <= b -> ld8 (st_down m s ws) b = ld8 m b.
Proof.
  induction ws as [|w ws IH]; intros m s b Hb; cbn [st_down length] in *; [done|]. rewrite IH by lia. apply ld8_st32_ne. lia.
Qed.

Lemma ld32_st_down ws : forall m s i w, ws !! i = Some w -> ld32 (st_down m s ws) (s - 4 * Z.of_nat (S i)) = u32 w.
Proof.
  induction ws as [|w' ws IH]; intros m s i w Hi; [done|]. cbn [st_down]. destruct i as [|i].
  - injection Hi as ->. transitivity (ld32 (st32 m (s - 4) w) (s - 4)); [|apply ld32_st32_eq].
    apply ld32_ext. intros k Hk. rewrite ld8_st_down by lia. done.
  - rewrite <- (IH (st32 m (s - 4) w') (s - 4) i w Hi). f_equal. lia.
Qed.

(** The words at [a] in ascending order are those of [ws]. *)
Definition holds_words (m : mem) (a : Z) (ws : list Z) : Prop := forall k w, ws !! k = Some w -> ld32 m (a + 4 * Z.of_nat k) = u32 w.

Lemma st_down_rev m s ws : holds_words (st_down m s (reverse ws)) (s - 4 * Z.of_nat (length ws)) ws.
Proof.
  intros k w Hk. pose proof (lookup_lt_Some _ _ _ Hk) as Hlt.
  rewrite <- (ld32_st_down (reverse ws) m s (length ws - 1 - k) w).
  - f_equal. lia.
  - rewrite reverse_lookup by lia. by replace (length ws - S (length ws - 1 - k))%nat with k by lia.
Qed.

(** The stack on which the trap frame is built, and the frame. *)
Definition from_user (c : cpu86) : bool := Z.land (gr c CS) 3 =? 3.
Definition trap_stack (esp0 : Z) (c : cpu86) : Z := if from_user c then esp0 else esp c.

(** The words of [struct trapframe] for a trap at interrupt [n], from offset 0;
    the last two only for a trap from user mode. *)
Definition frame_words (n err esp0 : Z) (c : cpu86) : list Z :=
  [gr c EDI; gr c ESI; gr c EBP; trap_stack esp0 c - (if from_user c then 44 else 36); gr c EBX; gr c EDX; gr c ECX; gr c EAX;
   gr c GS; gr c FS; gr c ES; gr c DS; n; (if has_error n then err else 0); gr c EIP; gr c CS; gr c EFLAGS]
  ++ if from_user c then [esp c; gr c SS] else [].

Definition frame_size (c : cpu86) : Z := if from_user c then 76 else 68.

(** A trap, up to the call of the C function. *)
Definition enter (n err esp0 vec : Z) (trapgate : bool) (c : cpu86) : cpu86 :=
  alltraps (vector n (int_entry n err esp0 (Z.shiftl SEG_KDATA 3) (Z.shiftl SEG_KCODE 3) vec trapgate c)).

Lemma enter_eq n err esp0 vec g c :
  frame_size c + 4 <= trap_stack esp0 c < 4294967296 ->
  exists g', enter n err esp0 vec g c
    = Cpu86 g' (trap_stack esp0 c - frame_size c) (st_down (mm c) (trap_stack esp0 c) (reverse (frame_words n err esp0 c))).
Proof.
  destruct c as [gg s m]. unfold frame_size, frame_words, trap_stack, enter, alltraps, vector, int_entry, pushal. cbv zeta.
  unfold from_user. cbn [gr esp mm]. fold (has_error n).
  destruct (Z.land (gg CS) 3 =? 3) eqn:Eu; intros Hs; destruct (has_error n) eqn:Ee; cbn [negb]; repeat (run1; cbn [gr esp mm]).
  all: eexists; f_equal; [lia|]; cbn [reverse app]; unfold reverse; cbn [rev_append st_down]; repeat (f_equal; try lia).
Qed.

Definition is_seg (r : reg) : bool := match r with CS | DS | ES | FS | GS | SS => true | _ => false end.

(** Offsets that a series of pops left as sums. *)
Ltac sum_offsets :=
  repeat rewrite <- Z.add_assoc;
  repeat match goal with |- context [Zpos ?p + Zpos ?q] => let r := eval vm_compute in (Zpos p + Zpos q) in change (Zpos p + Zpos q) with r end.

(** What [trapret] loads from the frame at the stack pointer. *)
Lemma trapret_eq c : 0 <= esp c -> esp c + 80 < 4294967296 ->
  let c' := trapret c in
  (forall o r, frame_field o = Some r -> gr c' r = if is_seg r then u16 (ld32 (mm c) (esp c + o)) else ld32 (mm c) (esp c + o))
  /\ if Z.land (u16 (ld32 (mm c) (esp c + 60))) 3 =? 3
     then esp c' = ld32 (mm c) (esp c + TF_esp) /\ gr c' SS = u16 (ld32 (mm c) (esp c + TF_ss))
     else esp c' = esp c + 68 /\ gr c' SS = gr c SS.
Proof.
  destruct c as [g s m]. cbn [gr esp mm]. intros Hs Hm. unfold trapret, popal, iret. cbv zeta. repeat run1. unfold pop_stack. cbn [gr esp mm reg_id Nat.eqb].
  sum_offsets. unfold TF_esp, TF_ss.
  destruct (Z.land (u16 (ld32 m (s + 60))) 3 =? 3); [repeat run1; rewrite set_esp_cpu by apply ld32_range|]; cbn [gr esp mm reg_id Nat.eqb]; sum_offsets.
  all: split; [|done].
  all: intros o r Ho; unfold frame_field in Ho.
  all: repeat (match type of Ho with (if ?x =? ?y then _ else _) = _ => destruct (Z.eqb_spec x y) as [->|]; [injection Ho as <-; cbn [reg_id Nat.eqb is_seg]; rewrite ?Z.add_0_r; done|] end); done.
Qed.

(** Registers that hold machine values. *)
Definition regs_ok (c : cpu86) : Prop := is_u32 (esp c) /\ forall r, if is_seg r then 0 <= gr c r < 65536 else is_u32 (gr c r).

Lemma frame_field_words n err esp0 c o r : frame_field o = Some r ->
  exists k, o = 4 * Z.of_nat k /\ frame_words n err esp0 c !! k = Some (gr c r).
Proof.
  unfold frame_field, frame_words. intros Ho.
  repeat (match type of Ho with (if ?x =? ?y then _ else _) = _ => destruct (Z.eqb_spec x y) as [->|];
    [injection Ho as <-; match goal with |- exists k, ?y = _ /\ _ => exists (Z.to_nat (y / 4)) end; done|] end); done.
Qed.

Lemma frame_words_len n err esp0 c : 4 * Z.of_nat (length (frame_words n err esp0 c)) = frame_size c.
Proof. unfold frame_words, frame_size. by destruct (from_user c). Qed.

(** The frame of a trap holds the registers, for every register it has a field for. *)
Lemma enter_frame n err esp0 vec g c : frame_size c + 4 <= trap_stack esp0 c < 4294967296 -> regs_ok c ->
  let e := enter n err esp0 vec g c in
  holds_words (mm e) (esp e) (frame_words n err esp0 c) /\ esp e = trap_stack esp0 c - frame_size c.
Proof.
  intros Hs Hr. destruct (enter_eq n err esp0 vec g c Hs) as [g' E]. cbv zeta. rewrite E. cbn [mm esp].
  split; [|done]. rewrite <- (frame_words_len n err esp0 c). apply st_down_rev.
Qed.

(** C16.  A trap handler that leaves the frame alone, but for the result in the field
    [eax], returns to the interrupted code with every register as it was: both
    for a trap from user mode, where the processor switches stacks, and for one
    in the kernel. *)
Theorem trap_roundtrip n err esp0 vec g c c2 :
  regs_ok c -> frame_size c + 4 <= trap_stack esp0 c -> trap_stack esp0 c + 12 < 4294967296 ->
  let e := enter n err esp0 vec g c in
  esp c2 = esp e ->
  (forall b, esp e <= b < esp e + frame_size c -> ~ esp e + 28 <= b < esp e + 32 -> ld8 (mm c2) b = ld8 (mm e) b) ->
  let c' := trapret c2 in
  (forall o r, frame_field o = Some r -> r <> EAX -> gr c' r = gr c r)
  /\ gr c' EAX = ld32 (mm c2) (esp e + 28) /\ esp c' = esp c /\ (from_user c = true -> gr c' SS = gr c SS).
Proof.
  intros Hr Hlo Hhi e He2 Hm c'. destruct (enter_frame n err esp0 vec g c ltac:(lia) Hr) as [Hw Hesp]. fold e in Hw, Hesp.
  assert (0 <= frame_size c) as Hfs by (unfold frame_size; case_match; lia).
  assert (frame_size c = 68 \/ frame_size c = 76 /\ from_user c = true) as Hfc by (unfold frame_size; case_match; tauto).
  destruct (trapret_eq c2 ltac:(lia) ltac:(lia)) as [Hf Hu]. fold c' in Hf, Hu. rewrite He2 in Hf, Hu.
  assert (forall k w, frame_words n err esp0 c !! k = Some w -> k <> 7%nat -> ld32 (mm c2) (esp e + 4 * Z.of_nat k) = u32 w) as Hk.
  { intros k w Hkw Hne. rewrite <- (Hw k w Hkw). apply lookup_lt_Some in Hkw. pose proof (frame_words_len n err esp0 c).
    apply ld32_ext. intros i Hi. apply Hm; lia. }
  assert (forall r, is_seg r = true -> u16 (u32 (gr c r)) = gr c r) as Hseg.
  { intros r Er. destruct Hr as [_ Hr]. specialize (Hr r). rewrite Er in Hr. rewrite u32_id by (unfold is_u32; lia). apply Z.mod_small. lia. }
  pose proof (Hk 15%nat (gr c CS) eq_refl ltac:(lia) : ld32 (mm c2) (esp e + 60) = _) as Hcs.
  rewrite Hcs, Hseg in Hu by done. fold (from_user c) in Hu.
  split; [|split; [|split]].
  - intros o r Ho Hne. rewrite (Hf o r Ho). destruct (frame_field_words n err esp0 c o r Ho) as (k & -> & Hkr).
    assert (k <> 7%nat) by (intros ->; vm_compute in Ho; congruence). rewrite (Hk k _ Hkr) by done.
    destruct (is_seg r) eqn:Er; [by apply Hseg|]. destruct Hr as [_ Hr]. specialize (Hr r). rewrite Er in Hr. by apply u32_id.
  - by rewrite (Hf 28 EAX).
  - unfold trap_stack, frame_size in *. destruct (from_user c) eqn:Eu; [|lia]. destruct Hu as [-> _].
    rewrite (Hk 17%nat (esp c) ltac:(unfold frame_words; by rewrite Eu) ltac:(lia) : ld32 (mm c2) (esp e + TF_esp) = _). apply u32_id, Hr.
  - intros Eu. rewrite Eu in Hu. destruct Hu as [_ ->].
    rewrite (Hk 18%nat (gr c SS) ltac:(unfold frame_words; by rewrite Eu) ltac:(lia) : ld32 (mm c2) (esp e + TF_ss) = _). by apply Hseg.
Qed.

(** * The first run of a process *)

Section FirstRun.
Context {F : Type} {FR : FileRefs F}.
Context (kend kdata trapret_addr forkret_addr : Z).

Lemma ld32_memset m d c n b : is_u32 n -> d <= b -> b + 4 <= d + n -> ld32 (memset m d c n) b = 16843009 * u8 c.
Proof. intros Hn Hl Hh. unfold ld32. rewrite !ld8_memset by done. rewrite !decide_True by lia. lia. Qed.

(** The stack that [allocproc] prepares: above it the trap frame, then the
    address of [trapret], then a context whose [eip] is [forkret]. *)
Lemma allocproc_frames (k k' : kern F) i p :
  allocproc trapret_addr forkret_addr k = Ok (Some i, k') -> ptable k' !! i = Some p ->
  let m := kmem_mem (kmem k') in
  tf p = kstack p + 4020 /\ context p = tf p - 24 /\ ld32 m (tf p - 4) = u32 trapret_addr
  /\ ld32 m (context p + 16) = u32 forkret_addr /\ forall o, In o [0; 4; 8; 12] -> ld32 m (context p + o) = 0.
Proof.
  unfold allocproc. destruct (find_state _ _ _) as [j|]; [|done]. destruct (_ =? _); [done|]. destruct (kalloc _) as [ks km].
  destruct (ks =? 0); [done|]. intros [= -> <-]. cbn [ptable upd set_ptable set_kmem kmem set_mem kmem_mem].
  rewrite list_lookup_alter_eq, fmap_Some. intros (q & Hq & ->). cbn in Hq. rewrite list_lookup_alter_eq, fmap_Some in Hq.
  destruct Hq as (q' & _ & ->). cbn [tf with_frames kstack context with_kstack]. unfold KSTACKSIZE, TFSIZE, CTXSIZE.
  split; [lia|]. split; [lia|]. split; [|split].
  - rewrite ld32_st32_ne by lia. erewrite ld32_ext; [apply ld32_st32_eq|]. intros b Hb. rewrite ld8_memset, decide_False by (unfold is_u32; lia). done.
  - apply ld32_st32_eq.
  - intros o Ho. rewrite ld32_st32_ne by (cbn in Ho; lia). by rewrite ld32_memset by (unfold is_u32; cbn in Ho; lia).
Qed.

(** C18.  When the scheduler switches to a process that [allocproc] made, the processor
    continues at [forkret]; and when [forkret] has returned, at [trapret] with the
    stack pointer at the trap frame of the process. *)
Theorem new_process_starts (k k' : kern F) i p c c2 :
  allocproc trapret_addr forkret_addr k = Ok (Some i, k') -> ptable k' !! i = Some p ->
  0 <= kstack p -> kstack p + 4096 < 4294967296 -> 16 <= esp c < 4294967296 -> swtch_new c = context p ->
  same_words (context p) 6 (kmem_mem (kmem k')) (mm c) ->
  (forall b, context p <= b < tf p -> ~ esp c - 16 <= b < esp c /\ ~ swtch_old c <= b < swtch_old c + 4) ->
  esp c2 = esp (swtch c) -> same_words (tf p - 4) 1 (mm (swtch c)) (mm c2) ->
  gr (swtch c) EIP = u32 forkret_addr /\ gr (swtch c) EBP = 0 /\ gr (retl c2) EIP = u32 trapret_addr /\ esp (retl c2) = tf p.
Proof.
  intros Ha Hp Hk0 Hk Hs Hn Hm Hd He2 Hm2. destruct (allocproc_frames k k' i p Ha Hp) as (Et & Ec & Etr & Ef & Ez).
  destruct (swtch_eq c Hs ltac:(lia)) as (Hsm & Hse & Hsr). rewrite Hn in Hse, Hsr.
  assert (forall o, 0 <= o <= 20 -> ld32 (saved_mem c) (context p + o) = ld32 (kmem_mem (kmem k')) (context p + o)) as Hw.
  { intros o Ho. rewrite <- (same_words_ld32 _ _ _ _ (context p + o) Hm) by lia. apply ld32_ext. intros b Hb.
    destruct (Hd (context p + o + b) ltac:(lia)). unfold saved_mem. cbv zeta. rewrite !ld8_st32_ne by lia. done. }
  assert (retl c2 = Cpu86 (fun q => if (reg_id q =? reg_id EIP)%nat then ld32 (mm c2) (tf p - 4) else gr c2 q) (tf p) (mm c2)) as ->.
  { destruct c2 as [g2 s2 m2]. cbn [esp] in He2. subst s2. unfold retl. rewrite pop_to_cpu by lia. rewrite Hse. f_equal; [|lia].
    cbn. by replace (tf p - 4) with (context p + 20) by lia. }
  cbn [gr esp reg_id Nat.eqb]. rewrite (same_words_ld32 _ _ _ _ (tf p - 4) Hm2), Hsm by lia.
  rewrite (Hsr 16 EIP eq_refl), (Hsr 12 EBP eq_refl), !Hw by lia.
  replace (tf p - 4) with (context p + 20) in * by lia. rewrite Hw by lia. split; [done|]. split; [|done]. apply Ez. cbn. tauto.
Qed.

Lemma u16_ld32 m a : u16 (ld32 m a) = ld16 m a.
Proof. unfold ld32, ld16. pose proof (ld8_range m a). pose proof (ld8_range m (a + 1)). unfold u16. zlia. Qed.

Lemma ld16_st_other m a b v : b + 2 <= a \/ a + 4 <= b -> ld16 (st32 m a v) b = ld16 m b.
Proof. intros H. unfold ld16. by rewrite !ld8_st32_ne by lia. Qed.

Lemma ld16_st16_other m a b v : b + 2 <= a \/ a + 2 <= b -> ld16 (st16 m a v) b = ld16 m b.
Proof. intros H. unfold ld16, st16. by rewrite !ld8_st8_ne by lia. Qed.

Lemma ld32_st16_other m a b v : b + 4 <= a \/ a + 2 <= b -> ld32 (st16 m a v) b = ld32 m b.
Proof. intros H. unfold ld32, st16. by rewrite !ld8_st8_ne by lia. Qed.

(** The first return to user mode: with the trap frame that [userinit] builds, the
    processor runs at address 0 of the one page of the process, with the user's
    segments at privilege 3, the stack at the end of the page, interrupts enabled
    and the other registers zero. *)
Theorem user_frame_enters m t c :
  esp c = t -> 0 <= t -> t + 80 < 4294967296 -> same_words t 19 (user_frame m t) (mm c) ->
  let u := trapret c in
  gr u CS = 27 /\ gr u DS = 35 /\ gr u ES = 35 /\ gr u SS = 35 /\ gr u EIP = 0 /\ gr u EFLAGS = FL_IF /\ esp u = 4096
  /\ forall r, In r [EAX; EBX; ECX; EDX; ESI; EDI; EBP; FS; GS] -> gr u r = 0.
Proof.
  intros Hc H0 H1 Hm u. destruct (trapret_eq c ltac:(lia) ltac:(lia)) as [Hr Hu]. fold u in Hr, Hu. rewrite Hc in Hr, Hu.
  set (mk' := user_frame m t) in Hm.
  assert (forall o, 0 <= o <= 72 -> ld32 (mm c) (t + o) = ld32 mk' (t + o)) as Hw by (intros o Ho; apply (same_words_ld32 _ _ _ _ _ Hm); lia).
  assert (forall o r, frame_field o = Some r -> 0 <= o <= 72) as Hb.
  { intros o r Ho. unfold frame_field in Ho. repeat (match type of Ho with (if ?x =? ?y then _ else _) = _ => destruct (Z.eqb_spec x y) as [->|]; [lia|] end). done. }
  assert (forall o, In o [60; 44; 40; 72] -> u16 (ld32 (mm c) (t + o)) = if o =? 60 then 27 else 35) as Hseg.
  { intros o Ho. rewrite Hw, u16_ld32 by (cbn in Ho; lia). unfold mk', user_frame. cbv zeta. rewrite !ld16_st_other by (cbn in Ho; lia).
    cbn in Ho. repeat (destruct Ho as [<-|Ho]; [repeat first [rewrite ld16_st16_eq; done | rewrite ld16_st16_other by lia]|]). done. }
  assert (forall o, In o [0; 4; 8; 16; 20; 24; 28; 32; 36; 56] -> ld32 (mm c) (t + o) = 0) as Hz.
  { intros o Ho. rewrite Hw by (cbn in Ho; lia). unfold mk', user_frame. cbv zeta. destruct (decide (o = 56)) as [->|]; [by rewrite ld32_st32_eq|].
    rewrite !ld32_st32_ne, !ld32_st16_other by (cbn in Ho; lia). rewrite ld32_memset by (unfold is_u32, TFSIZE; cbn in Ho; lia). done. }
  rewrite (Hseg 60) in Hu by (cbn; tauto). destruct Hu as [Hesp Hss].
  rewrite (Hr 60 CS eq_refl), (Hr 44 DS eq_refl), (Hr 40 ES eq_refl), (Hr 56 EIP eq_refl), (Hr 64 EFLAGS eq_refl), Hss, Hesp. cbn [is_seg]. unfold TF_esp, TF_ss.
  rewrite (Hseg 60), (Hseg 44), (Hseg 40), (Hseg 72), (Hz 56), !Hw by (first [by cbn; tauto|lia]). do 5 (split; [done|]).
  unfold mk', user_frame. cbv zeta. rewrite ld32_st32_ne, ld32_st32_ne, ld32_st32_eq by lia. split; [done|].
  rewrite ld32_st32_ne, ld32_st32_eq by lia. split; [done|].
  assert (forall o r, frame_field o = Some r -> In o [0; 4; 8; 16; 20; 24; 28; 32; 36; 56] -> gr u r = 0) as Hg.
  { intros o r Ho Hin. rewrite (Hr o r Ho), (Hz o Hin). by destruct (is_seg r). }
  intros r Hin. cbn in Hin. destruct Hin as [<-|[<-|[<-|[<-|[<-|[<-|[<-|[<-|[<-|[]]]]]]]]]].
  1: apply (Hg 28). 3: apply (Hg 16). 5: apply (Hg 24). 7: apply (Hg 20). 9: apply (Hg 4). 11: apply (Hg 0). 13: apply (Hg 8).
  15: apply (Hg 36). 17: apply (Hg 32). all: first [reflexivity | by cbn; tauto].
Qed.

Lemma userinit_frame (k k' : kern F) initcode size root nm :
  userinit kend kdata trapret_addr forkret_addr initcode size root nm k = Ok k' ->
  exists i p m, initproc k' = Some i /\ ptable k' !! i = Some p /\ state p = RUNNABLE /\ sz p = 4096 /\ kmem_mem (kmem k') = user_frame m (tf p).
Proof.
  unfold userinit. intros H. apply obind_Ok_inv in H as ([[i|] k1] & Ha & H); [|done].
  apply obind_Ok_inv in H as (p & Hp & H). unfold the_proc in Hp. cbn [ptable] in Hp. destruct (ptable k1 !! i) as [p'|] eqn:Hi; [|done].
  injection Hp as ->. apply obind_Ok_inv in H as ([d km] & _ & H). destruct (d =? 0); [done|].
  apply obind_Ok_inv in H as (km' & _ & H). cbv zeta in H. injection H as <-. exists i, (with_state RUNNABLE (with_files (ofile p) root
    (with_name (copy_name 16 (name p) nm) (with_space d PGSIZE p)))), (kmem_mem km').
  cbn [initproc upd set_ptable set_kmem ptable kmem set_mem kmem_mem]. split; [done|]. split; [by rewrite list_lookup_alter_eq, Hi|]. done.
Qed.

(** Frames that agree but for [eax] return to the same registers. *)
Lemma trapret_same c1 c2 :
  0 <= esp c1 -> esp c1 + 80 < 4294967296 -> 0 <= esp c2 -> esp c2 + 80 < 4294967296 ->
  (forall b, 0 <= b < 76 -> ~ 28 <= b < 32 -> ld8 (mm c2) (esp c2 + b) = ld8 (mm c1) (esp c1 + b)) ->
  (forall o r, frame_field o = Some r -> r <> EAX -> gr (trapret c2) r = gr (trapret c1) r)
  /\ (Z.land (gr (trapret c1) CS) 3 = 3 -> esp (trapret c2) = esp (trapret c1)).
Proof.
  intros H1 H1' H2 H2' Hm. destruct (trapret_eq c1 H1 H1') as [Hf1 Hu1]. destruct (trapret_eq c2 H2 H2') as [Hf2 Hu2].
  assert (forall o, 0 <= o <= 72 -> o + 4 <= 28 \/ 32 <= o -> ld32 (mm c2) (esp c2 + o) = ld32 (mm c1) (esp c1 + o)) as Hw.
  { intros o Ho Hne. apply ld32_ext. intros i Hi. rewrite <- !Z.add_assoc. apply Hm; lia. }
  split.
  - intros o r Ho Hne. rewrite (Hf1 o r Ho), (Hf2 o r Ho), Hw; [done|..]; unfold frame_field in Ho;
      repeat (match type of Ho with (if ?x =? ?y then _ else _) = _ => destruct (Z.eqb_spec x y) as [->|]; [first [lia|congruence]|] end); done.
  - intros Hcs. rewrite (Hf1 60 CS eq_refl) in Hcs. cbn [is_seg] in Hcs. rewrite Hw in Hu2 by lia.
    rewrite (proj2 (Z.eqb_eq _ _) Hcs) in Hu1, Hu2. destruct Hu1 as [-> _], Hu2 as [-> _]. apply Hw; unfold TF_esp; lia.
Qed.

(** After [fork] the child returns to user mode with the registers of its parent,
    and 0 in [eax]. *)
Theorem fork_child_returns (k k' : kern F) cur p pid' :
  fork kend kdata trapret_addr forkret_addr cur k = Ok (pid', k') -> pid' <> -1 -> ptable k !! cur = Some p ->
  exists i np, ptable k' !! i = Some np /\ state np = RUNNABLE /\ pid np = pid'
  /\ forall c cp, esp c = tf np -> esp cp = tf p -> mm c = kmem_mem (kmem k') -> mm cp = kmem_mem (kmem k') ->
     0 <= tf np -> tf np + 80 < 4294967296 -> 0 <= tf p -> tf p + 80 < 4294967296 -> tf np + 76 <= tf p \/ tf p + 76 <= tf np ->
     (forall o r, frame_field o = Some r -> r <> EAX -> gr (trapret c) r = gr (trapret cp) r)
     /\ gr (trapret c) EAX = 0 /\ (Z.land (gr (trapret cp) CS) 3 = 3 -> esp (trapret c) = esp (trapret cp)).
Proof.
  unfold fork. intros H Hpid Hp. apply obind_Ok_inv in H as (p' & Hp' & H). unfold the_proc in Hp'. rewrite Hp in Hp'. injection Hp' as <-.
  apply obind_Ok_inv in H as ([[i|] k1] & Ha & H); [|congruence]. apply obind_Ok_inv in H as (np & Hnp & H).
  unfold the_proc in Hnp. destruct (ptable k1 !! i) as [q|] eqn:Hi; [|done]. injection Hnp as ->.
  apply obind_Ok_inv in H as ([d km] & _ & H). destruct (d =? 0); [apply obind_Ok_inv in H as (? & _ & H); congruence|].
  apply obind_Ok_inv in H as (f1 & _ & H). apply obind_Ok_inv in H as (w & _ & H). apply obind_Ok_inv in H as (f2 & _ & H).
  apply obind_Ok_inv in H as (w' & _ & H). injection H as <- <-. exists i. eexists.
  cbn [ptable upd set_ptable set_kmem set_wtab set_files kmem set_mem kmem_mem]. rewrite !list_lookup_alter_eq, Hi. cbn [fmap option_fmap option_map].
  split; [reflexivity|]. split; [done|]. split; [done|]. cbn [tf with_state with_name with_files with_parent with_space].
  intros c cp Hc Hcp Hm Hmp Hn1 Hn2 Hp1 Hp2 Hdis. destruct (trapret_same cp c) as [Hr He]; [lia..| |].
  - intros b Hb Hne. rewrite Hc, Hcp, Hm, Hmp. rewrite !ld8_st32_ne by lia. rewrite !ld8_memmove by (unfold is_u32, TFSIZE; lia).
    unfold TFSIZE. rewrite decide_True, decide_False by lia. f_equal. lia.
  - split; [done|]. split; [|done]. destruct (trapret_eq c ltac:(lia) ltac:(lia)) as [Hf _]. rewrite (Hf 28 EAX eq_refl), Hc, Hm. apply ld32_st32_eq.
Qed.
End FirstRun.

(** * Runs *)

(** A call [swtch(&old, new)] at stack address [s]: [retl] is its return address. *)
Definition calls_swtch (g : reg -> Z) (m : mem) (s retl old new : Z) : cpu86 :=
  Cpu86 g s (st32 (st32 (st32 m s retl) (s + 4) old) (s + 8) new).

Lemma swtch_resumes_witness :
  let c := calls_swtch (fun r => Z.of_nat (reg_id r) + 100) ∅ 8192 777 4096 16384 in
  let c2 := calls_swtch (fun _ => 0) (mm (swtch c)) 20480 888 4100 8176 in
  gr (swtch c2) EBX = 101 /\ gr (swtch c2) EIP = 777 /\ esp (swtch c2) = 8196.
Proof.
  cbv zeta.
  pose proof (swtch_resumes (calls_swtch (fun r => Z.of_nat (reg_id r) + 100) ∅ 8192 777 4096 16384)
    (calls_swtch (fun _ => 0) (mm (swtch (calls_swtch (fun r => Z.of_nat (reg_id r) + 100) ∅ 8192 777 4096 16384))) 20480 888 4100 8176)) as H.
  destruct H as (H1 & _ & _ & _ & H5 & H6).
  - by vm_compute.
  - by vm_compute.
  - by vm_compute.
  - intros b Hb. change (esp _) with 8192 in Hb. replace (swtch_old _) with 4096 by (by vm_compute). lia.
  - by vm_compute.
  - by vm_compute.
  - intros b Hb. change (esp _) with 8192 in Hb. unfold calls_swtch at 1. cbn [mm]. by rewrite !ld8_st32_ne by lia.
  - intros b Hb. change (esp (calls_swtch _ ∅ _ _ _ _)) with 8192 in Hb. change (esp _) with 20480.
    replace (swtch_old _) with 4100 by (by vm_compute). lia.
  - split; [exact H1|]. split; [exact (eq_trans H6 eq_refl)|exact H5].
Defined.

(** A system call from user code at 256 with its stack at 8000, the kernel stack
    at 65536; the handler returns 5. *)
Definition user_code : cpu86 := Cpu86 (fun r => match r with CS => 27 | DS | ES | SS => 35 | EIP => 256 | EBX => 42 | _ => 0 end) 8000 ∅.

Lemma trap_roundtrip_witness :
  let e := enter 64 0 65536 4096 true user_code in
  let c' := trapret (Cpu86 (fun _ => 1) (esp e) (st32 (mm e) (esp e + 28) 5)) in
  gr c' EAX = 5 /\ gr c' EBX = 42 /\ gr c' CS = 27 /\ gr c' EIP = 256 /\ esp c' = 8000 /\ gr c' SS = 35.
Proof.
  pose proof (trap_roundtrip 64 0 65536 4096 true user_code) as H. cbv zeta in *. revert H. generalize (enter 64 0 65536 4096 true user_code). intros e H.
  destruct (H (Cpu86 (fun _ => 1) (esp e) (st32 (mm e) (esp e + 28) 5))) as (H1 & H2 & H3 & H4); clear H.
  - split; [done|]. intros r. by destruct r.
  - by vm_compute.
  - by vm_compute.
  - done.
  - intros b Hb Hne. apply ld8_st32_ne. lia.
  - rewrite H2, (H1 16 EBX eq_refl), (H1 60 CS eq_refl), (H1 56 EIP eq_refl) by done. cbn [mm]. rewrite ld32_st32_eq.
    do 4 (split; [done|]). split; [exact H3|]. by apply H4.
Defined.

Lemma user_frame_enters_witness :
  let u := trapret (Cpu86 (fun _ => 7) 4020 (user_frame ∅ 4020)) in gr u CS = 27 /\ gr u EIP = 0 /\ esp u = 4096.
Proof.
  destruct (user_frame_enters ∅ 4020 (Cpu86 (fun _ => 7) 4020 (user_frame ∅ 4020))) as (H1 & _ & _ & _ & H5 & _ & H7 & _); [done|lia|lia|by intros b Hb|].
  split; [done|]. by split.
Defined.

(** The process made from [kern0], and the scheduler switching to it. *)
Definition kern_new : kern Z := match allocproc 1000 2000 kern0 with Ok (_, k) => k | _ => kern0 end.
Definition proc_new : proc := default init_proc (ptable kern_new !! 1%nat).
Definition sched_cpu : cpu86 := calls_swtch (fun _ => 0) (kmem_mem (kmem kern_new)) 8192 777 4096 (context proc_new).

Lemma new_process_starts_witness :
  gr (swtch sched_cpu) EIP = 2000 /\ gr (retl (swtch sched_cpu)) EIP = 1000 /\ esp (retl (swtch sched_cpu)) = tf proc_new.
Proof.
  destruct (new_process_starts 1000 2000 kern0 kern_new 1 proc_new sched_cpu (swtch sched_cpu)) as (H1 & _ & H3 & H4).
  - by vm_compute.
  - by vm_compute.
  - by vm_compute.
  - by vm_compute.
  - by vm_compute.
  - by vm_compute.
  - intros b Hb. replace (context proc_new) with 2148540316 in Hb by (by vm_compute).
    unfold sched_cpu, calls_swtch. cbn [mm]. by rewrite !ld8_st32_ne by lia.
  - intros b Hb. replace (context proc_new) with 2148540316 in Hb by (by vm_compute). change (esp _) with 8192.
    replace (swtch_old _) with 4096 by (by vm_compute). lia.
  - reflexivity.
  - by intros b Hb.
  - split; [exact H1|]. by split.
Defined.
