(* ===== verification/Desc.v ===== *)
(** Descriptor tables: the segment and gate descriptors of mmu.h and asm.h, the
    task state, [seginit], [kvmalloc], [switchkvm] and [switchuvm] of vm.c, and
    [tvinit] and [idtinit] of trap.c.  A descriptor is the record of its bit
    fields; [segdesc_word] and [gatedesc_word] are the eight bytes the compiler
    lays out, [desc_*] and [gate_*] what the processor reads from them, and
    [deliver] how it enters a handler. *)
From S2P Require Import Prelude Mem Mmu Kalloc Vm Spinlock Wmap Proc Syscall Trap Asm.

(** * Bit fields *)

(** Adjacent fields of a struct, each a width and a value, the first in the low
    bits; an assignment keeps the bits that fit. *)
Fixpoint pack (fs : list (Z * Z)) : Z :=
  match fs with [] => 0 | (w, v) :: fs => v mod 2 ^ w + 2 ^ w * pack fs end.

(** Bits [lo] to [lo + w - 1] of a word. *)
Definition bits (lo w word : Z) : Z := Z.land (Z.shiftr word lo) (Z.ones w).

(** * Segment descriptors *)

Record segdesc := Segdesc {
  lim_15_0 : Z; base_15_0 : Z; base_23_16 : Z; sd_type : Z; sd_s : Z; sd_dpl : Z; sd_p : Z;
  lim_19_16 : Z; sd_avl : Z; sd_rsv1 : Z; sd_db : Z; sd_g : Z; base_31_24 : Z
}.

Definition segdesc_word (d : segdesc) : Z :=
  pack [(16, lim_15_0 d); (16, base_15_0 d); (8, base_23_16 d); (4, sd_type d); (1, sd_s d); (2, sd_dpl d); (1, sd_p d);
        (4, lim_19_16 d); (1, sd_avl d); (1, sd_rsv1 d); (1, sd_db d); (1, sd_g d); (8, base_31_24 d)].

Definition SEG (type base lim dpl : Z) : segdesc :=
  Segdesc (Z.land (Z.shiftr lim 12) 65535) (Z.land (u32 base) 65535) (Z.land (Z.shiftr (u32 base) 16) 255) type 1 dpl 1
          (Z.shiftr (u32 lim) 28) 0 0 1 1 (Z.shiftr (u32 base) 24).
Definition SEG16 (type base lim dpl : Z) : segdesc :=
  Segdesc (Z.land lim 65535) (Z.land (u32 base) 65535) (Z.land (Z.shiftr (u32 base) 16) 255) type 1 dpl 1
          (Z.shiftr (u32 lim) 16) 0 0 1 0 (Z.shiftr (u32 base) 24).
Definition with_s (v : Z) (d : segdesc) : segdesc :=
  Segdesc (lim_15_0 d) (base_15_0 d) (base_23_16 d) (sd_type d) v (sd_dpl d) (sd_p d) (lim_19_16 d) (sd_avl d) (sd_rsv1 d)
          (sd_db d) (sd_g d) (base_31_24 d).

(** asm.h: two words and four bytes, in order. *)
Definition SEG_ASM (type base lim : Z) : list (Z * Z) :=
  [(16, Z.land (Z.shiftr lim 12) 65535); (16, Z.land base 65535); (8, Z.land (Z.shiftr base 16) 255); (8, Z.lor 144 type);
   (8, Z.lor 192 (Z.land (Z.shiftr lim 28) 15)); (8, Z.land (Z.shiftr base 24) 255)].
Definition SEG_NULLASM : list (Z * Z) := [(16, 0); (16, 0); (8, 0); (8, 0); (8, 0); (8, 0)].

(** What the processor reads. *)
Definition desc_base (w : Z) : Z := bits 16 24 w + 16777216 * bits 56 8 w.
Definition desc_limit (w : Z) : Z :=
  let l := bits 0 16 w + 65536 * bits 48 4 w in
  if bits 55 1 w =? 1 then 4096 * l + 4095 else l.
Definition desc_type (w : Z) : Z := bits 40 4 w.
Definition desc_s (w : Z) : Z := bits 44 1 w.
Definition desc_dpl (w : Z) : Z := bits 45 2 w.
Definition desc_p (w : Z) : Z := bits 47 1 w.

Definition STA_X : Z := 8.
Definition STA_W : Z := 2.
Definition STA_R : Z := 2.
Definition STS_T32A : Z := 9.
Definition STS_IG32 : Z := 14.
Definition STS_TG32 : Z := 15.
Definition NSEGS : nat := 6.

(** * Gate descriptors *)

Record gatedesc := Gatedesc {
  off_15_0 : Z; g_cs : Z; g_args : Z; g_rsv1 : Z; g_type : Z; g_s : Z; g_dpl : Z; g_p : Z; off_31_16 : Z
}.

Definition gatedesc_word (g : gatedesc) : Z :=
  pack [(16, off_15_0 g); (16, g_cs g); (5, g_args g); (3, g_rsv1 g); (4, g_type g); (1, g_s g); (2, g_dpl g); (1, g_p g); (16, off_31_16 g)].

Definition SETGATE (istrap : bool) (sel off d : Z) : gatedesc :=
  Gatedesc (Z.land (u32 off) 65535) sel 0 0 (if istrap then STS_TG32 else STS_IG32) 0 d 1 (Z.shiftr (u32 off) 16).

Definition gate_off (w : Z) : Z := bits 0 16 w + 65536 * bits 48 16 w.
Definition gate_sel (w : Z) : Z := bits 16 16 w.
Definition gate_type (w : Z) : Z := bits 40 5 w.
Definition gate_dpl (w : Z) : Z := bits 45 2 w.
Definition gate_p (w : Z) : Z := bits 47 1 w.

(** * The processor's tables *)

(** [struct taskstate]: the fields in order, with their sizes in bytes, and the values of
    those the kernel stores; the others stay zero. *)
Definition taskstate_layout : list (string * Z) :=
  [("link", 4); ("esp0", 4); ("ss0", 2); ("padding1", 2); ("esp1", 4); ("ss1", 2); ("padding2", 2); ("esp2", 4);
   ("ss2", 2); ("padding3", 2); ("cr3", 4); ("eip", 4); ("eflags", 4); ("eax", 4); ("ecx", 4); ("edx", 4);
   ("ebx", 4); ("esp", 4); ("ebp", 4); ("esi", 4); ("edi", 4); ("es", 2); ("padding4", 2); ("cs", 2);
   ("padding5", 2); ("ss", 2); ("padding6", 2); ("ds", 2); ("padding7", 2); ("fs", 2); ("padding8", 2); ("gs", 2);
   ("padding9", 2); ("ldt", 2); ("padding10", 2); ("t", 2); ("iomb", 2)].
Record taskstate := Taskstate { esp0 : Z; ss0 : Z; iomb : Z }.
Definition sizeof_ts : Z := Eval vm_compute in foldr (fun f n => f.2 + n) 0 taskstate_layout.

(** [gdt] and [ts] of [struct cpu], and the registers: base and limit of the two
    tables, the task register and [cr3]. *)
Record segs := Segs { gdt : list segdesc; ts : taskstate; gdtr : Z * Z; idtr : Z * Z; tr : Z; cr3 : Z }.

(** The three words in memory that [lgdt] and [lidt] pass, as the processor reads them. *)
Definition pseudo_desc (p size : Z) : Z * Z :=
  let pd := [u16 (size - 1); u16 p; u16 (Z.shiftr (u32 p) 16)] in
  (nth 1 pd 0 + 65536 * nth 2 pd 0, nth 0 pd 0).

Definition lgdt (p size : Z) (s : segs) : segs := Segs (gdt s) (ts s) (pseudo_desc p size) (idtr s) (tr s) (cr3 s).
Definition lidt (p size : Z) (s : segs) : segs := Segs (gdt s) (ts s) (gdtr s) (pseudo_desc p size) (tr s) (cr3 s).
Definition ltr (sel : Z) (s : segs) : segs := Segs (gdt s) (ts s) (gdtr s) (idtr s) (u16 sel) (cr3 s).
Definition lcr3 (val : Z) (s : segs) : segs := Segs (gdt s) (ts s) (gdtr s) (idtr s) (tr s) val.
Definition set_gdt (i : Z) (d : segdesc) (s : segs) : segs :=
  Segs (<[Z.to_nat i := d]> (gdt s)) (ts s) (gdtr s) (idtr s) (tr s) (cr3 s).
Definition set_ts (t : taskstate) (s : segs) : segs := Segs (gdt s) t (gdtr s) (idtr s) (tr s) (cr3 s).

(** [a] is the address of [c->gdt]. *)
Definition seginit (a : Z) (s : segs) : segs :=
  let s := set_gdt SEG_KCODE (SEG (Z.lor STA_X STA_R) 0 4294967295 0) s in
  let s := set_gdt SEG_KDATA (SEG STA_W 0 4294967295 0) s in
  let s := set_gdt SEG_UCODE (SEG (Z.lor STA_X STA_R) 0 4294967295 DPL_USER) s in
  let s := set_gdt SEG_UDATA (SEG STA_W 0 4294967295 DPL_USER) s in
  lgdt a (8 * Z.of_nat NSEGS) s.

Definition switchkvm (kpgdir : Z) (s : segs) : segs := lcr3 (V2P kpgdir) s.

Definition kvmalloc (kend kdata : Z) (km : kst) (s : segs) : outcome (Z * kst * segs) :=
  let! (kpgdir, km) := setupkvm kend kdata km in
  Ok (kpgdir, km, switchkvm kpgdir s).

(** [switchuvm] on the processor whose [ts] is at [tsa]; [None] is a null pointer. *)
Definition switchuvm_cpu (tsa : Z) (p : option proc) (s : segs) : outcome segs :=
  match p with
  | None => Panic "switchuvm: no process"
  | Some p =>
      if kstack p =? 0 then Panic "switchuvm: no kstack"
      else if pgdir p =? 0 then Panic "switchuvm: no pgdir"
      else
        let s := set_gdt SEG_TSS (SEG16 STS_T32A tsa (sizeof_ts - 1) 0) s in
        let s := set_gdt SEG_TSS (with_s 0 (default (SEG16 STS_T32A tsa (sizeof_ts - 1) 0) (gdt s !! Z.to_nat SEG_TSS))) s in
        let s := set_ts (Taskstate (esp0 (ts s)) (u16 (Z.shiftl SEG_KDATA 3)) (iomb (ts s))) s in
        let s := set_ts (Taskstate (u32 (kstack p + KSTACKSIZE)) (ss0 (ts s)) (iomb (ts s))) s in
        let s := set_ts (Taskstate (esp0 (ts s)) (ss0 (ts s)) 65535) s in
        let s := ltr (Z.shiftl SEG_TSS 3) s in
        Ok (lcr3 (V2P (pgdir p)) s)
  end.

(** * Interrupt vectors *)

Fixpoint tvinit_loop (n : nat) (i : nat) (vectors : list Z) (idt : list gatedesc) : list gatedesc :=
  match n with
  | O => idt
  | S n => tvinit_loop n (S i) vectors (<[i := SETGATE false (Z.shiftl SEG_KCODE 3) (nth i vectors 0) 0]> idt)
  end.

Definition tvinit (vectors : list Z) (idt : list gatedesc) : list gatedesc :=
  let idt := tvinit_loop 256 0 vectors idt in
  <[Z.to_nat T_SYSCALL := SETGATE true (Z.shiftl SEG_KCODE 3) (nth (Z.to_nat T_SYSCALL) vectors 0) DPL_USER]> idt.

(** [a] is the address of [idt]. *)
Definition idtinit (a : Z) (s : segs) : segs := lidt a (8 * 256) s.

(** How the processor delivers interrupt [n]: [soft] is the [int] instruction,
    which the privilege of the gate must allow; the handler's segment must be
    present code of privilege 0.  Without it a protection fault is raised. *)
Definition deliver (idt : list gatedesc) (s : segs) (n err : Z) (soft : bool) (c : cpu86) : option cpu86 :=
  match idt !! Z.to_nat n with
  | None => None
  | Some g =>
      let w := gatedesc_word g in
      let cpl := Z.land (gr c CS) 3 in
      if soft && (gate_dpl w <? cpl) then None
      else if negb (gate_p w =? 1) then None
      else match gdt s !! Z.to_nat (Z.shiftr (gate_sel w) 3) with
           | None => None
           | Some d =>
               let dw := segdesc_word d in
               if (desc_p dw =? 1) && (desc_s dw =? 1) && (Z.land (desc_type dw) STA_X =? STA_X) && (desc_dpl dw =? 0)
               then Some (int_entry n err (esp0 (ts s)) (ss0 (ts s)) (gate_sel w) (gate_off w) (gate_type w =? STS_TG32) c)
               else None
           end
  end.
