(* ===== verification/DescProps.v ===== *)
(** Descriptors mean what their macros are given, and user code enters the kernel
    only where the tables let it. *)
From S2P Require Import Prelude Mem Mmu Kalloc Vm VmProps Spinlock Wmap Proc ProcProps Syscall Trap Asm Desc.

(** * Bit fields *)

Definition width (fs : list (Z * Z)) : Z := foldr (fun f n => f.1 + n) 0 fs.
Definition widths_ok (fs : list (Z * Z)) : bool := forallb (fun f => 0 <=? f.1) fs.

Lemma width_nonneg fs : widths_ok fs = true -> 0 <= width fs.
Proof.
  induction fs as [|[w v] fs IH]; cbn [widths_ok forallb width foldr]; [lia|]. intros H. apply andb_true_iff in H as [H1 H2].
  cbn in *. specialize (IH H2). unfold width in IH. lia.
Qed.

Lemma pack_range fs : widths_ok fs = true -> 0 <= pack fs < 2 ^ width fs.
Proof.
  induction fs as [|[w v] fs IH]; cbn [pack]; intros H; [by cbn|]. apply andb_true_iff in H as [H1 H2]. cbn in H1.
  specialize (IH H2). pose proof (width_nonneg fs H2) as Hn. change (width ((w, v) :: fs)) with (w + width fs). rewrite Z.pow_add_r by lia.
  pose proof (Z.pow_pos_nonneg 2 w ltac:(lia) ltac:(lia)). pose proof (Z.mod_pos_bound v (2 ^ w) ltac:(lia)). nia.
Qed.

Lemma pack_app fs1 fs2 : widths_ok fs1 = true -> pack (fs1 ++ fs2) = pack fs1 + 2 ^ width fs1 * pack fs2.
Proof.
  induction fs1 as [|[w v] fs1 IH]; cbn [pack app]; intros H; [by rewrite Z.mul_1_l|]. apply andb_true_iff in H as [H1 H2]. cbn in H1.
  rewrite IH by done. change (width ((w, v) :: fs1)) with (w + width fs1). rewrite Z.pow_add_r by (try apply width_nonneg; done || lia). lia.
Qed.

Lemma bits_mod lo w x : 0 <= lo -> 0 <= w -> bits lo w x = (x / 2 ^ lo) mod 2 ^ w.
Proof. intros Hl Hw. unfold bits. by rewrite Z.shiftr_div_pow2, Z.land_ones by lia. Qed.

(** The bits of a struct between two positions are the fields there. *)
Lemma bits_pack fs1 fs2 fs3 lo w :
  widths_ok fs1 = true -> widths_ok fs2 = true -> width fs1 = lo -> width fs2 = w -> bits lo w (pack (fs1 ++ fs2 ++ fs3)) = pack fs2.
Proof.
  intros H1 H2 <- <-. pose proof (width_nonneg _ H1). pose proof (width_nonneg _ H2). rewrite bits_mod by lia. rewrite !pack_app by done.
  pose proof (pack_range _ H1) as Hr1. pose proof (pack_range _ H2) as Hr2. rewrite Z.mul_comm, Z.div_add by lia.
  rewrite Z.div_small by lia. rewrite Z.add_0_l, (Z.mul_comm _ (pack fs3)), Z.mod_add by lia. by apply Z.mod_small.
Qed.

Lemma pack1 w v : 0 <= v < 2 ^ w -> pack [(w, v)] = v.
Proof. intros H. cbn [pack]. rewrite Z.mul_0_r, Z.add_0_r. by apply Z.mod_small. Qed.

(** [n] fields after the first [k]. *)
Lemma bits_fields k n fs lo w :
  widths_ok (take k fs) = true -> widths_ok (take n (drop k fs)) = true -> width (take k fs) = lo -> width (take n (drop k fs)) = w ->
  bits lo w (pack fs) = pack (take n (drop k fs)).
Proof. intros H1 H2 H3 H4. rewrite <- (take_drop k fs) at 1. rewrite <- (take_drop n (drop k fs)) at 1. by apply bits_pack. Qed.

Lemma land_65535 x : Z.land x 65535 = x mod 65536.
Proof. change 65535 with (Z.ones 16). by rewrite Z.land_ones. Qed.
Lemma land_255' x : Z.land x 255 = x mod 256.
Proof. change 255 with (Z.ones 8). by rewrite Z.land_ones. Qed.

(** * Segments *)

(** The fields of a descriptor fit their widths. *)
Definition seg_ok (d : segdesc) : Prop :=
  0 <= lim_15_0 d < 65536 /\ 0 <= base_15_0 d < 65536 /\ 0 <= base_23_16 d < 256 /\ 0 <= sd_type d < 16 /\ 0 <= sd_s d < 2
  /\ 0 <= sd_dpl d < 4 /\ 0 <= sd_p d < 2 /\ 0 <= lim_19_16 d < 16 /\ 0 <= sd_avl d < 2 /\ 0 <= sd_rsv1 d < 2 /\ 0 <= sd_db d < 2
  /\ 0 <= sd_g d < 2 /\ 0 <= base_31_24 d < 256.

(** What the processor reads from a descriptor whose fields fit. *)
Lemma segdesc_read d : seg_ok d ->
  let w := segdesc_word d in
  desc_base w = base_15_0 d + 65536 * base_23_16 d + 16777216 * base_31_24 d
  /\ desc_limit w = (let l := lim_15_0 d + 65536 * lim_19_16 d in if sd_g d =? 1 then 4096 * l + 4095 else l)
  /\ desc_type w = sd_type d /\ desc_s w = sd_s d /\ desc_dpl w = sd_dpl d /\ desc_p w = sd_p d.
Proof.
  intros (H1 & H2 & H3 & H4 & H5 & H6 & H7 & H8 & H9 & H10 & H11 & H12 & H13). cbv zeta.
  unfold desc_base, desc_limit, desc_type, desc_s, desc_dpl, desc_p, segdesc_word. cbv zeta.
  rewrite (bits_fields 1 2 _ 16 24), (bits_fields 12 1 _ 56 8), (bits_fields 0 1 _ 0 16), (bits_fields 7 1 _ 48 4), (bits_fields 11 1 _ 55 1),
    (bits_fields 3 1 _ 40 4), (bits_fields 4 1 _ 44 1), (bits_fields 5 1 _ 45 2), (bits_fields 6 1 _ 47 1) by reflexivity.
  cbn [take drop]. rewrite !pack1 by (by cbn). cbn [pack]. rewrite !Z.mod_small by (by cbn).
  repeat (split; [first [reflexivity|cbn; lia]|]). done.
Qed.

(** A type for descriptors: what the macros build fits its fields. *)
Lemma SEG_ok type base lim dpl : is_u32 lim -> 0 <= type < 16 -> 0 <= dpl < 4 -> seg_ok (SEG type base lim dpl).
Proof.
  unfold is_u32, seg_ok, SEG. intros Hl Ht Hd. cbn [lim_15_0 base_15_0 base_23_16 sd_type sd_s sd_dpl sd_p lim_19_16 sd_avl sd_rsv1 sd_db sd_g base_31_24].
  rewrite !land_65535, land_255', !Z.shiftr_div_pow2 by lia. pose proof (Z.mod_pos_bound base 4294967296 ltac:(lia)). unfold u32.
  rewrite (Z.mod_small lim) by lia. change (2 ^ 12) with 4096. change (2 ^ 16) with 65536. change (2 ^ 24) with 16777216. change (2 ^ 28) with 268435456.
  repeat split; zlia.
Qed.

Lemma SEG16_ok type base lim dpl : 0 <= lim < 1048576 -> 0 <= type < 16 -> 0 <= dpl < 4 -> seg_ok (SEG16 type base lim dpl).
Proof.
  unfold seg_ok, SEG16. intros Hl Ht Hd. cbn [lim_15_0 base_15_0 base_23_16 sd_type sd_s sd_dpl sd_p lim_19_16 sd_avl sd_rsv1 sd_db sd_g base_31_24].
  rewrite !land_65535, land_255', !Z.shiftr_div_pow2 by lia. pose proof (Z.mod_pos_bound base 4294967296 ltac:(lia)). unfold u32.
  rewrite (Z.mod_small lim 4294967296) by lia. change (2 ^ 16) with 65536. change (2 ^ 24) with 16777216.
  repeat split; zlia.
Qed.

(** A base is put together again from its three fields. *)
Lemma base_fields base : is_u32 base ->
  Z.land (u32 base) 65535 + 65536 * Z.land (Z.shiftr (u32 base) 16) 255 + 16777216 * Z.shiftr (u32 base) 24 = base.
Proof.
  intros Hb. rewrite u32_id, land_65535, land_255', !Z.shiftr_div_pow2 by (done || lia). unfold is_u32 in Hb.
  change (2 ^ 16) with 65536. change (2 ^ 24) with 16777216. zlia.
Qed.

(** A descriptor built by [SEG] describes the segment it is given: its base, its
    limit in whole pages, its type and privilege, present, for code or data. *)
Theorem SEG_describes type base lim dpl :
  is_u32 base -> is_u32 lim -> 0 <= type < 16 -> 0 <= dpl < 4 ->
  let w := segdesc_word (SEG type base lim dpl) in
  desc_base w = base /\ desc_limit w = 4096 * (lim / 4096) + 4095 /\ desc_type w = type /\ desc_s w = 1 /\ desc_dpl w = dpl /\ desc_p w = 1.
Proof.
  intros Hb Hl Ht Hd. destruct (segdesc_read _ (SEG_ok type base lim dpl Hl Ht Hd)) as (Eb & El & Et & Es & Ed & Ep). cbv zeta in *.
  rewrite Eb, El, Et, Es, Ed, Ep. unfold SEG. cbn [lim_15_0 base_15_0 base_23_16 sd_type sd_s sd_dpl sd_p lim_19_16 sd_g base_31_24].
  split; [by apply base_fields|]. split; [|done]. unfold is_u32 in Hl. rewrite u32_id, land_65535, !Z.shiftr_div_pow2 by (done || lia).
  change (2 ^ 12) with 4096. change (2 ^ 28) with 268435456. change (1 =? 1) with true. cbv iota. zlia.
Qed.

(** [SEG16] has its limit in bytes. *)
Lemma SEG16_describes type base lim dpl :
  is_u32 base -> 0 <= lim < 1048576 -> 0 <= type < 16 -> 0 <= dpl < 4 ->
  let w := segdesc_word (SEG16 type base lim dpl) in
  desc_base w = base /\ desc_limit w = lim /\ desc_type w = type /\ desc_dpl w = dpl /\ desc_p w = 1.
Proof.
  intros Hb Hl Ht Hd. destruct (segdesc_read _ (SEG16_ok type base lim dpl Hl Ht Hd)) as (Eb & El & Et & Es & Ed & Ep). cbv zeta in *.
  rewrite Eb, El, Et, Ed, Ep. unfold SEG16. cbn [lim_15_0 base_15_0 base_23_16 sd_type sd_s sd_dpl sd_p lim_19_16 sd_g base_31_24].
  split; [by apply base_fields|]. split; [|done]. rewrite u32_id, land_65535, !Z.shiftr_div_pow2 by (unfold is_u32; lia).
  change (2 ^ 16) with 65536. change (0 =? 1) with false. cbv iota. zlia.
Qed.

(** The assembler's macro lays out the same descriptor as the compiler's, at privilege 0. *)
Theorem SEG_ASM_is_SEG type base lim : is_u32 base -> is_u32 lim -> 0 <= type < 16 -> pack (SEG_ASM type base lim) = segdesc_word (SEG type base lim 0).
Proof.
  intros Hb Hl Ht. unfold SEG_ASM, segdesc_word, SEG. cbn [pack lim_15_0 base_15_0 base_23_16 sd_type sd_s sd_dpl sd_p lim_19_16 sd_avl sd_rsv1 sd_db sd_g base_31_24].
  change 15 with (Z.ones 4). rewrite !u32_id, !land_65535, !land_255', Z.land_ones, !Z.shiftr_div_pow2 by (done || lia).
  replace (Z.lor 144 type) with (144 + type); [|symmetry; apply (lor_shiftl 9 type 4); lia].
  replace (Z.lor 192 _) with (192 + (lim / 2 ^ 28) mod 2 ^ 4); [|symmetry; apply (lor_shiftl 12 _ 4); [lia|apply Z.mod_pos_bound; lia]].
  unfold is_u32 in *. change (2 ^ 12) with 4096. change (2 ^ 16) with 65536. change (2 ^ 24) with 16777216. change (2 ^ 28) with 268435456.
  change (2 ^ 4) with 16. change (2 ^ 8) with 256. change (2 ^ 1) with 2. change (2 ^ 2) with 4. zlia.
Qed.

(** * Gates *)

Lemma SETGATE_describes istrap sel off d : 0 <= sel < 65536 -> 0 <= d < 4 ->
  let w := gatedesc_word (SETGATE istrap sel off d) in
  gate_off w = u32 off /\ gate_sel w = sel /\ gate_type w = (if istrap then STS_TG32 else STS_IG32) /\ gate_dpl w = d /\ gate_p w = 1.
Proof.
  intros Hs Hd. cbv zeta. unfold gate_off, gate_sel, gate_type, gate_dpl, gate_p, gatedesc_word.
  rewrite (bits_fields 0 1 _ 0 16), (bits_fields 8 1 _ 48 16), (bits_fields 1 1 _ 16 16), (bits_fields 4 2 _ 40 5), (bits_fields 6 1 _ 45 2),
    (bits_fields 7 1 _ 47 1) by reflexivity.
  unfold SETGATE. cbn [take drop off_15_0 g_cs g_args g_rsv1 g_type g_s g_dpl g_p off_31_16]. pose proof (Z.mod_pos_bound off 4294967296 ltac:(lia)).
  rewrite land_65535, Z.shiftr_div_pow2 by lia. unfold u32. change (2 ^ 16) with 65536.
  rewrite !pack1 by (try (by cbn); change (2 ^ 16) with 65536; zlia). split; [zlia|]. split; [done|]. split; [by destruct istrap|]. done.
Qed.

Lemma tvinit_loop_lookup n : forall i vectors idt j, (j < length idt)%nat ->
  tvinit_loop n i vectors idt !! j
    = if decide (i <= j < i + n)%nat then Some (SETGATE false (Z.shiftl SEG_KCODE 3) (nth j vectors 0) 0) else idt !! j.
Proof.
  induction n as [|n IH]; intros i vectors idt j Hj; cbn [tvinit_loop]; [by rewrite decide_False by lia|].
  rewrite IH by (by rewrite length_insert). destruct (decide (j = i)) as [->|].
  - rewrite decide_False by lia. rewrite decide_True by lia. by rewrite list_lookup_insert_eq.
  - rewrite list_lookup_insert_ne by done. repeat case_decide; done || lia.
Qed.

Lemma tvinit_loop_length n : forall i vectors idt, length (tvinit_loop n i vectors idt) = length idt.
Proof. induction n as [|n IH]; intros i vectors idt; cbn [tvinit_loop]; [done|]. by rewrite IH, length_insert. Qed.

Lemma tvinit_lookup vectors idt n : length idt = 256%nat -> 0 <= n < 256 ->
  tvinit vectors idt !! Z.to_nat n
    = Some (SETGATE (n =? T_SYSCALL) (Z.shiftl SEG_KCODE 3) (nth (Z.to_nat n) vectors 0) (if n =? T_SYSCALL then DPL_USER else 0)).
Proof.
  intros Hl Hn. unfold tvinit. destruct (Z.eqb_spec n T_SYSCALL) as [->|Hne].
  - apply list_lookup_insert_eq. rewrite tvinit_loop_length, Hl. unfold T_SYSCALL. lia.
  - rewrite list_lookup_insert_ne by (unfold T_SYSCALL in *; lia). rewrite tvinit_loop_lookup by lia. by rewrite decide_True by lia.
Qed.

(** * The tables of a running process *)

(** The task state segment. *)
Lemma tss_reads tsa : is_u32 tsa -> let w := segdesc_word (with_s 0 (SEG16 STS_T32A tsa (sizeof_ts - 1) 0)) in
  desc_base w = tsa /\ desc_limit w = 103 /\ desc_type w = STS_T32A /\ desc_s w = 0 /\ desc_dpl w = 0 /\ desc_p w = 1.
Proof.
  intros Ht w. assert (0 <= sizeof_ts - 1 < 1048576) as Hz by (unfold sizeof_ts; lia). assert (0 <= STS_T32A < 16) as Hty by (unfold STS_T32A; lia).
  pose proof (SEG16_ok STS_T32A tsa (sizeof_ts - 1) 0 Hz Hty ltac:(lia)) as Hok.
  assert (seg_ok (with_s 0 (SEG16 STS_T32A tsa (sizeof_ts - 1) 0))) as Hok'.
  { unfold seg_ok in *. cbn [with_s lim_15_0 base_15_0 base_23_16 sd_type sd_s sd_dpl sd_p lim_19_16 sd_avl sd_rsv1 sd_db sd_g base_31_24]. intuition lia. }
  destruct (segdesc_read _ Hok) as (Eb & El & _). destruct (segdesc_read _ Hok') as (Eb' & El' & Et' & Es' & Ed' & Ep'). cbv zeta in *.
  destruct (SEG16_describes STS_T32A tsa (sizeof_ts - 1) 0 Ht Hz Hty ltac:(lia)) as (Db & Dl & _). cbv zeta in *.
  unfold w. rewrite Eb', El', Et', Es', Ed', Ep'. rewrite Eb in Db. rewrite El in Dl. split; [exact Db|]. split; [exact Dl|]. done.
Qed.

(** What [switchuvm] loads agrees with what [Proc] has of it, errors included;
    the task register holds a system segment over the task state. *)
Theorem switchuvm_cpu_loads tsa p s : is_u32 tsa -> length (gdt s) = NSEGS ->
  match switchuvm_cpu tsa (Some p) s, switchuvm p with
  | Ok s', Ok (e, c) =>
      esp0 (ts s') = e /\ cr3 s' = c /\ ss0 (ts s') = 16 /\ desc_limit (segdesc_word (SEG16 STS_T32A tsa (sizeof_ts - 1) 0)) < iomb (ts s')
      /\ (exists d, gdt s' !! Z.to_nat (tr s' / 8) = Some d /\ desc_base (segdesc_word d) = tsa /\ desc_limit (segdesc_word d) = 103
            /\ desc_s (segdesc_word d) = 0 /\ desc_type (segdesc_word d) = STS_T32A)
      /\ forall i, i <> 5%nat -> gdt s' !! i = gdt s !! i
  | Panic x, Panic y => x = y
  | _, _ => False
  end.
Proof.
  intros Ht Hl. unfold switchuvm_cpu, switchuvm. destruct (kstack p =? 0); [done|]. destruct (pgdir p =? 0); [done|].
  assert (0 <= sizeof_ts - 1 < 1048576) as Hz by (unfold sizeof_ts; lia).
  assert (0 <= STS_T32A < 16) as Hty by (unfold STS_T32A; lia).
  cbv zeta. cbn [ts esp0 ss0 iomb cr3 lcr3 ltr set_ts set_gdt gdt tr]. split; [done|]. split; [done|]. split; [done|].
  split. { destruct (SEG16_describes STS_T32A tsa (sizeof_ts - 1) 0 Ht Hz Hty ltac:(lia)) as (_ & -> & _). done. }
  rewrite (list_lookup_insert_eq (gdt s) (Z.to_nat SEG_TSS)) by (rewrite Hl; vm_compute; lia). cbn [default].
  split.
  - exists (with_s 0 (SEG16 STS_T32A tsa (sizeof_ts - 1) 0)). change (Z.to_nat (u16 (Z.shiftl SEG_TSS 3) / 8)) with 5%nat. change (Z.to_nat SEG_TSS) with 5%nat.
    rewrite list_lookup_insert_eq by (rewrite length_insert, Hl; unfold NSEGS; lia). split; [done|].
    by destruct (tss_reads tsa Ht) as (? & ? & ? & ? & _).
  - intros i Hi. change (Z.to_nat SEG_TSS) with 5%nat. by rewrite !list_lookup_insert_ne by done.
Qed.

(** [seginit]: flat segments, two for the kernel and two for the user. *)
Lemma seginit_lookup a s : length (gdt s) = NSEGS -> gdt (seginit a s) !! 1%nat = Some (SEG 10 0 4294967295 0) /\ length (gdt (seginit a s)) = NSEGS.
Proof.
  intros Hl. unfold seginit. cbv zeta. cbn [lgdt gdt set_gdt]. unfold NSEGS in *. change (Z.to_nat SEG_KCODE) with 1%nat. change (Z.to_nat SEG_KDATA) with 2%nat.
  change (Z.to_nat SEG_UCODE) with 3%nat. change (Z.to_nat SEG_UDATA) with 4%nat. rewrite !length_insert. split; [|done].
  rewrite !list_lookup_insert_ne by done. by rewrite list_lookup_insert_eq by lia.
Qed.

(** C13.  With the tables the kernel sets up, user code can raise only interrupt 64
    itself; a delivered interrupt runs the kernel's handler for its number at
    privilege 0, on the kernel stack of the running process, and with interrupts
    disabled unless it is the system call. *)
Theorem user_enters_kernel vectors idt0 a tsa p s0 s c n err :
  length idt0 = 256%nat -> length (gdt s0) = NSEGS -> is_u32 tsa ->
  switchuvm_cpu tsa (Some p) (seginit a s0) = Ok s -> 0 <= n < 256 -> Z.land (gr c CS) 3 = 3 ->
  let idt := tvinit vectors idt0 in
  (n <> T_SYSCALL -> deliver idt s n err true c = None)
  /\ forall soft, (soft = true -> n = T_SYSCALL) -> exists e, deliver idt s n err soft c = Some e
     /\ e = int_entry n err (u32 (kstack p + KSTACKSIZE)) 16 8 (u32 (nth (Z.to_nat n) vectors 0)) (n =? T_SYSCALL) c
     /\ gr e CS = 8 /\ gr e SS = 16 /\ gr e EIP = u32 (nth (Z.to_nat n) vectors 0)
     /\ Z.testbit (gr e EFLAGS) 9 = if n =? T_SYSCALL then Z.testbit (gr c EFLAGS) 9 else false.
Proof.
  intros Hi Hg Ht Hs Hn Hc idt.
  destruct (seginit_lookup a s0 Hg) as [Hk Hlen]. pose proof (switchuvm_cpu_loads tsa p (seginit a s0) Ht Hlen) as Hsw. rewrite Hs in Hsw.
  destruct (switchuvm p) as [[e0 c0]|x|x] eqn:Esw; [|done|done]. destruct Hsw as (He0 & _ & Hss & _ & _ & Hgd).
  assert (e0 = u32 (kstack p + KSTACKSIZE)) as ->.
  { unfold switchuvm in Esw. destruct (kstack p =? 0), (pgdir p =? 0); try done. by injection Esw as <- _. }
  specialize (Hgd 1%nat ltac:(done)). rewrite Hk in Hgd.
  set (g := SETGATE (n =? T_SYSCALL) (Z.shiftl SEG_KCODE 3) (nth (Z.to_nat n) vectors 0) (if n =? T_SYSCALL then DPL_USER else 0)).
  destruct (SETGATE_describes (n =? T_SYSCALL) (Z.shiftl SEG_KCODE 3) (nth (Z.to_nat n) vectors 0) (if n =? T_SYSCALL then DPL_USER else 0))
    as (Eo & Es & Et & Ed & Ep); [done|by destruct (n =? T_SYSCALL)|]. fold g in Eo, Es, Et, Ed, Ep.
  unfold deliver. unfold idt. rewrite tvinit_lookup by done. fold g. rewrite Ed, Hc, Ep, Es, Et, Eo, He0, Hss. change (Z.to_nat (Z.shiftr (Z.shiftl SEG_KCODE 3) 3)) with 1%nat.
  rewrite Hgd. change (_ && (desc_dpl (segdesc_word (SEG 10 0 4294967295 0)) =? 0)) with true. cbv iota zeta. change (negb (1 =? 1)) with false. cbv iota.
  split; [intros Hne; by rewrite (proj2 (Z.eqb_neq _ _) Hne)|].
  intros soft Hsoft. replace (soft && ((if n =? T_SYSCALL then DPL_USER else 0) <? 3)) with false
    by (destruct soft; [rewrite (Hsoft eq_refl)|]; done).
  eexists. split; [reflexivity|]. split; [by destruct (n =? T_SYSCALL)|]. unfold int_entry. cbv zeta. rewrite Hc. cbn [Z.eqb Pos.eqb].
  destruct (has_error n), (n =? T_SYSCALL); cbn [gr set_reg reg_id Nat.eqb pushl push_reg]; repeat (split; [reflexivity|]);
    try reflexivity. all: change (STS_IG32 =? STS_TG32) with false; cbv iota; by rewrite Z.ldiff_spec, andb_false_r.
Qed.

(** * The contents of the tables *)

(** Entry [i] of the table, as the processor reads it. *)
Definition describes (g : list segdesc) (i base limit type sys dpl : Z) : Prop :=
  exists d, g !! Z.to_nat i = Some d /\ let w := segdesc_word d in
    desc_base w = base /\ desc_limit w = limit /\ desc_type w = type /\ desc_s w = sys /\ desc_dpl w = dpl /\ desc_p w = 1.

Lemma describes_SEG g i type dpl : g !! Z.to_nat i = Some (SEG type 0 4294967295 dpl) -> 0 <= type < 16 -> 0 <= dpl < 4 ->
  describes g i 0 4294967295 type 1 dpl.
Proof.
  intros Hg Ht Hd. exists (SEG type 0 4294967295 dpl). split; [done|].
  by destruct (SEG_describes type 0 4294967295 dpl) as (E1 & E2 & E3 & E4 & E5 & E6).
Qed.

Lemma seginit_segments a s : length (gdt s) = NSEGS ->
  gdt (seginit a s) !! 0%nat = gdt s !! 0%nat /\ gdt (seginit a s) !! 2%nat = Some (SEG 2 0 4294967295 0)
  /\ gdt (seginit a s) !! 3%nat = Some (SEG 10 0 4294967295 3) /\ gdt (seginit a s) !! 4%nat = Some (SEG 2 0 4294967295 3).
Proof.
  intros Hl. unfold seginit. cbv zeta. cbn [lgdt gdt set_gdt]. unfold NSEGS in *. change (Z.to_nat SEG_KCODE) with 1%nat. change (Z.to_nat SEG_KDATA) with 2%nat.
  change (Z.to_nat SEG_UCODE) with 3%nat. change (Z.to_nat SEG_UDATA) with 4%nat.
  split; [by repeat rewrite list_lookup_insert_ne by done|].
  repeat split; repeat rewrite list_lookup_insert_ne by done; by rewrite list_lookup_insert_eq by (rewrite ?length_insert; lia).
Qed.

Lemma pseudo_desc_reads p size : is_u32 p -> 0 < size <= 65536 -> pseudo_desc p size = (p, size - 1).
Proof.
  intros Hp Hs. unfold pseudo_desc, u16. cbn [nth]. rewrite u32_id, Z.shiftr_div_pow2 by (done || lia). unfold is_u32 in Hp. f_equal; zlia.
Qed.

(** C38.  The tables a processor runs a process with, one that has a kernel stack and a page
    directory, from whatever they held: as the
    processor decodes them, the kernel's and the user's code and data segments cover
    the address space with privilege 0 and 3, the task register names a system
    segment of privilege 0 over the task state, which holds the top of the
    process's kernel stack and no I/O permission map; the registers hold the
    tables and the page directory; each of the 256 gates is present and leads to
    its vector in the kernel's code segment; only gate 64 is open to users
    and a trap gate. *)
Theorem tables_describe vectors idt a ia tsa p s :
  length idt = 256%nat -> length (gdt s) = NSEGS -> is_u32 a -> is_u32 ia -> is_u32 tsa -> kstack p <> 0 -> pgdir p <> 0 ->
  (exists s', switchuvm_cpu tsa (Some p) (idtinit ia (seginit a s)) = Ok s'
    /\ describes (gdt s') SEG_KCODE 0 4294967295 (Z.lor STA_X STA_R) 1 0 /\ describes (gdt s') SEG_KDATA 0 4294967295 STA_W 1 0
    /\ describes (gdt s') SEG_UCODE 0 4294967295 (Z.lor STA_X STA_R) 1 3 /\ describes (gdt s') SEG_UDATA 0 4294967295 STA_W 1 3
    /\ describes (gdt s') (tr s' / 8) tsa 103 STS_T32A 0 0 /\ gdt s' !! 0%nat = gdt s !! 0%nat
    /\ ts s' = Taskstate (u32 (kstack p + KSTACKSIZE)) (8 * SEG_KDATA) 65535
    /\ gdtr s' = (a, 8 * 6 - 1) /\ idtr s' = (ia, 8 * 256 - 1) /\ cr3 s' = V2P (pgdir p))
  /\ forall n, 0 <= n < 256 -> exists g, tvinit vectors idt !! Z.to_nat n = Some g /\ let w := gatedesc_word g in
       gate_off w = u32 (nth (Z.to_nat n) vectors 0) /\ gate_sel w = 8 * SEG_KCODE /\ gate_p w = 1
       /\ gate_type w = (if n =? 64 then STS_TG32 else STS_IG32) /\ gate_dpl w = if n =? 64 then 3 else 0.
Proof.
  intros Hi Hg Ha Hia Ht Hks Hpd. split.
  - destruct (seginit_lookup a s Hg) as [G1 Hlen]. destruct (seginit_segments a s Hg) as (G0 & G2 & G3 & G4).
    unfold switchuvm_cpu. rewrite (proj2 (Z.eqb_neq _ _) Hks), (proj2 (Z.eqb_neq _ _) Hpd). cbv zeta. eexists. split; [reflexivity|].
    cbn [gdt gdtr idtr tr cr3 ts lcr3 ltr set_ts set_gdt idtinit lidt esp0 ss0 iomb]. change (Z.to_nat SEG_TSS) with 5%nat.
    rewrite list_lookup_insert_eq by (rewrite Hlen; unfold NSEGS; lia). cbn [default]. rewrite list_insert_insert_eq.
    set (d := with_s 0 _). repeat (split; [apply describes_SEG; [rewrite list_lookup_insert_ne by done; assumption|by vm_compute|by vm_compute]|]).
    split. { exists d. change (Z.to_nat (u16 (Z.shiftl SEG_TSS 3) / 8)) with 5%nat. split; [apply list_lookup_insert_eq; rewrite Hlen; unfold NSEGS; lia|]. by apply tss_reads. }
    split; [by rewrite list_lookup_insert_ne by done|]. split; [done|]. split; [by apply pseudo_desc_reads|]. split; [by apply pseudo_desc_reads|done].
  - intros n Hn. rewrite tvinit_lookup by done. eexists. split; [done|]. change T_SYSCALL with 64.
    destruct (SETGATE_describes (n =? 64) (Z.shiftl SEG_KCODE 3) (nth (Z.to_nat n) vectors 0) (if n =? 64 then DPL_USER else 0))
      as (Eo & Es & Et & Ed & Ep); [done|by destruct (n =? 64)|]. by destruct (n =? 64).
Qed.

(** * Runs *)

Definition segs0 : segs := Segs (replicate NSEGS (Segdesc 0 0 0 0 0 0 0 0 0 0 0 0 0)) (Taskstate 0 0 0) (0, 0) (0, 0) 0 0.
Definition idt0 : list gatedesc := replicate 256 (Gatedesc 0 0 0 0 0 0 0 0 0).
Definition segs1 : segs := match switchuvm_cpu 2148600000 (Some init_proc) (seginit 2148599000 segs0) with Ok s => s | _ => segs0 end.
Definition user_cpu : cpu86 := Cpu86 (fun r => match r with CS => 27 | DS | ES | SS => 35 | EFLAGS => 512 | _ => 0 end) 8000 ∅.

Lemma user_enters_kernel_witness :
  deliver (tvinit (seqZ 5000 256) idt0) segs1 33 0 true user_cpu = None
  /\ exists e, deliver (tvinit (seqZ 5000 256) idt0) segs1 33 0 false user_cpu = Some e /\ gr e EIP = 5033 /\ gr e CS = 8.
Proof.
  destruct (user_enters_kernel (seqZ 5000 256) idt0 2148599000 2148600000 init_proc segs0 segs1 user_cpu 33 0) as [H1 H2];
    [reflexivity|reflexivity|unfold is_u32; lia|by vm_compute|lia|reflexivity|].
  split; [apply H1; unfold T_SYSCALL; lia|]. destruct (H2 false ltac:(discriminate)) as (e & He & _ & Hcs & _ & Hip & _). exists e. split; [exact He|]. split; [exact Hip|exact Hcs].
Defined.

Lemma switchuvm_cpu_loads_witness : esp0 (ts segs1) = u32 (kstack init_proc + 4096) /\ cr3 segs1 = V2P (pgdir init_proc).
Proof.
  pose proof (switchuvm_cpu_loads 2148600000 init_proc (seginit 2148599000 segs0)) as H.
  destruct H as (H1 & H2 & _); [unfold is_u32; lia|reflexivity|]. split; [exact H1|exact H2].
Defined.

Lemma SEG_describes_witness : desc_limit (segdesc_word (SEG 10 0 4294967295 3)) = 4294967295.
Proof. destruct (SEG_describes 10 0 4294967295 3) as (_ & H & _); [done|done|lia|lia|]. exact H. Defined.

(** Init on the first processor. *)
Lemma tables_describe_witness :
  exists s', switchuvm_cpu 2148600000 (Some init_proc) (idtinit 2148700000 (seginit 2148599000 segs0)) = Ok s'
    /\ describes (gdt s') SEG_UCODE 0 4294967295 10 1 3 /\ esp0 (ts s') = u32 (kstack init_proc + 4096).
Proof.
  destruct (tables_describe (seqZ 5000 256) idt0 2148599000 2148700000 2148600000 init_proc segs0) as [(s' & E & _ & _ & H & _ & _ & _ & Hts & _) _];
    [done|done|unfold is_u32; lia|unfold is_u32; lia|unfold is_u32; lia|done|done|]. exists s'. split; [exact E|]. split; [exact H|]. clear E. by rewrite Hts.
Defined.
