(* ===== verification/Main.v ===== *)
(** Starting the machine: the boot block's and the kernel's entry code
    (bootasm.S, entry.S, entryother.S) as sequences of instructions on the
    registers of [Asm] and [Desc] with the control registers, and main.c: the boot
    page directory, [startothers], [mpenter], [mpmain] and [main]. *)
From S2P Require Import Prelude Mem KString Mmu Kalloc Vm Spinlock Wmap Proc Syscall Trap Ports Devices Ide Mp Asm Desc.

Definition CR0_PE : Z := 1.
Definition CR0_WP : Z := 65536.
Definition CR0_PG : Z := 2147483648.
Definition CR4_PSE : Z := 16.
Definition PTE_PS : Z := 128.

(** A processor with its control registers. *)
Record xcpu := Xcpu { core : cpu86; xsegs : segs; cr0 : Z; cr4 : Z }.

Definition on_core (f : cpu86 -> cpu86) (x : xcpu) : xcpu := Xcpu (f (core x)) (xsegs x) (cr0 x) (cr4 x).
Definition on_segs (f : segs -> segs) (x : xcpu) : xcpu := Xcpu (core x) (f (xsegs x)) (cr0 x) (cr4 x).

(** [movl %cr0, %eax; orl $v, %eax; movl %eax, %cr0] and the same for [cr4]. *)
Definition or_cr0 (v : Z) (x : xcpu) : xcpu :=
  let x := on_core (set_reg EAX (cr0 x)) x in
  let x := on_core (set_reg EAX (Z.lor (gr (core x) EAX) v)) x in
  Xcpu (core x) (xsegs x) (gr (core x) EAX) (cr4 x).
Definition or_cr4 (v : Z) (x : xcpu) : xcpu :=
  let x := on_core (set_reg EAX (cr4 x)) x in
  let x := on_core (set_reg EAX (Z.lor (gr (core x) EAX) v)) x in
  Xcpu (core x) (xsegs x) (cr0 x) (gr (core x) EAX).
Definition mov_cr3 (x : xcpu) : xcpu := on_segs (lcr3 (gr (core x) EAX)) x.

Definition cli (c : cpu86) : cpu86 := set_reg EFLAGS (Z.ldiff (gr c EFLAGS) FL_IF) c.
Definition ljmp (sel target : Z) (c : cpu86) : cpu86 := set_reg EIP target (set_reg CS sel c).
(** [calll] of an address, from the instruction before [next]. *)
Definition calll (target next : Z) (c : cpu86) : cpu86 := set_reg EIP target (pushl next c).

(** The segment registers at the start and after the switch to protected mode. *)
Definition zero_segs (c : cpu86) : cpu86 := mov_seg SS (mov_seg ES (mov_seg DS (mov_ax 0 c))).
Definition load_segs (c : cpu86) : cpu86 :=
  let c := mov_ax (Z.shiftl SEG_KDATA 3) c in
  let c := mov_seg SS (mov_seg ES (mov_seg DS c)) in
  let c := mov_ax 0 c in
  mov_seg GS (mov_seg FS c).

(** The bootstrap descriptor table of bootasm.S and entryother.S. *)
Definition boot_gdt : list Z :=
  [pack SEG_NULLASM; pack (SEG_ASM (Z.lor STA_X STA_R) 0 4294967295); pack (SEG_ASM STA_W 0 4294967295)].

(** [lgdt gdtdesc], where [a] is the address of the table. *)
Definition lgdt_boot (a : Z) (s : segs) : segs := Segs (gdt s) (ts s) (a, 8 * Z.of_nat (length boot_gdt) - 1) (idtr s) (tr s) (Desc.cr3 s).

Section Boot.
Context {D : Type} {MD : Machine D}.

(** [seta20.1] and [seta20.2]: look at the keyboard controller at most [fuel] times. *)
Fixpoint seta20 (fuel : nat) (d : D) : outcome D :=
  match fuel with
  | O => UB "seta20: fuel"
  | S fuel =>
      let '(al, d) := inb 0x64 d in
      if Z.land al 2 =? 0 then Ok d else seta20 fuel d
  end.

(** bootasm.S from [start] to the calll of [bootmain]; [gdta] is the address of its
    table, [start32] and [next] those of the code after the jump and the calll. *)
Definition bootasm (fuel : nat) (start start32 gdta bootmain next : Z) (x : xcpu) (d : D) : outcome (xcpu * D) :=
  let x := on_core (fun c => zero_segs (cli c)) x in
  let! d := seta20 fuel d in
  let d := outb 0x64 0xd1 d in
  let! d := seta20 fuel d in
  let d := outb 0x60 0xdf d in
  let x := on_segs (lgdt_boot gdta) x in
  let x := or_cr0 CR0_PE x in
  let x := on_core (ljmp (Z.shiftl SEG_KCODE 3) start32) x in
  let x := on_core load_segs x in
  let x := on_core (set_esp start) x in
  Ok (on_core (calll bootmain next) x, d).
End Boot.

(** entry.S: [pgd] is [V2P_WO(entrypgdir)], [stack] and [main] are addresses of the kernel. *)
Definition entry_S (pgd stack main : Z) (x : xcpu) : xcpu :=
  let x := or_cr4 CR4_PSE x in
  let x := mov_cr3 (on_core (set_reg EAX pgd) x) in
  let x := or_cr0 (Z.lor CR0_PG CR0_WP) x in
  let x := on_core (set_esp (stack + KSTACKSIZE)) x in
  let x := on_core (set_reg EAX main) x in
  on_core (fun c => set_reg EIP (gr c EAX) c) x.

(** entryother.S at physical address [start]; the words below it are read through
    the kernel's direct map of memory. *)
Definition entryother (start start32 gdta next : Z) (x : xcpu) : xcpu :=
  let x := on_core (fun c => zero_segs (cli c)) x in
  let x := on_segs (lgdt_boot gdta) x in
  let x := or_cr0 CR0_PE x in
  let x := on_core (ljmp (Z.shiftl SEG_KCODE 3) start32) x in
  let x := on_core load_segs x in
  let x := or_cr4 CR4_PSE x in
  let x := mov_cr3 (on_core (fun c => set_reg EAX (ld32 (mm c) (P2V (start - 12))) c) x) in
  let x := or_cr0 (Z.lor (Z.lor CR0_PE CR0_PG) CR0_WP) x in
  let x := on_core (fun c => set_esp (ld32 (mm c) (P2V (start - 4))) c) x in
  on_core (fun c => calll (ld32 (mm c) (P2V (start - 8))) next c) x.

(** [entrypgdir] of main.c. *)
Definition entrypgdir : list Z :=
  <[Z.to_nat 0 := Z.lor (Z.lor (Z.lor 0 PTE_P) PTE_W) PTE_PS]>
    (<[Z.to_nat (Z.shiftr KERNBASE PDXSHIFT) := Z.lor (Z.lor (Z.lor 0 PTE_P) PTE_W) PTE_PS]> (replicate (Z.to_nat NPDENTRIES) 0)).

(** Translation through a directory of 4-Mbyte pages: the physical address and
    whether writes are allowed. *)
Definition translate4m (dir : list Z) (va : Z) : option (Z * bool) :=
  let e := nth (Z.to_nat (PDX va)) dir 0 in
  if has e PTE_P && has e PTE_PS then Some (e / 4194304 * 4194304 + va mod 4194304, has e PTE_W) else None.

(** * main.c *)

(** Addresses and sizes the linker fixes: [im_gdt i] is the address of
    [cpus[i].gdt], [im_other] that of the image of entryother.S, [im_start32],
    [im_othergdt] and [im_next] the offsets in it of [start32], of the table and
    of the code after the calll. *)
Record bootimage := Image {
  im_end : Z; im_data : Z; im_trapret : Z; im_forkret : Z; im_mpenter : Z; im_entrypgdir : Z; im_idt : Z; im_gdt : nat -> Z;
  im_other : Z; im_othersize : Z; im_start32 : Z; im_othergdt : Z; im_next : Z; im_initcode : Z; im_initsize : Z; im_vectors : list Z
}.

Section Main.
Context {F : Type} {FR : FileRefs F} {D : Type} {MD : Machine D} (im : bootimage) (fuel : nat).

(** The kernel while it starts.  [b_segs] and [b_started] have an entry for each
    processor; [b_aps] are the processors that were started, as they entered
    [mpenter]. *)
Record boot := Boot {
  b_kern : kern F; b_ide : ide D; b_segs : list segs; b_idt : list gatedesc; b_started : list bool; b_kpgdir : Z;
  b_lapic : Z; b_mp : mpstate; b_aps : list xcpu
}.

Definition with_kern (k : kern F) (b : boot) : boot :=
  Boot k (b_ide b) (b_segs b) (b_idt b) (b_started b) (b_kpgdir b) (b_lapic b) (b_mp b) (b_aps b).
Definition with_mem (m : mem) (b : boot) : boot := with_kern (set_kmem (set_mem m (kmem (b_kern b))) (b_kern b)) b.
Definition with_dev (d : D) (b : boot) : boot :=
  Boot (b_kern b) (set_dev d (b_ide b)) (b_segs b) (b_idt b) (b_started b) (b_kpgdir b) (b_lapic b) (b_mp b) (b_aps b).
Definition on_cpu (i : nat) (f : segs -> segs) (b : boot) : boot :=
  Boot (b_kern b) (b_ide b) (alter f i (b_segs b)) (b_idt b) (b_started b) (b_kpgdir b) (b_lapic b) (b_mp b) (b_aps b).
Definition with_idt (t : list gatedesc) (b : boot) : boot :=
  Boot (b_kern b) (b_ide b) (b_segs b) t (b_started b) (b_kpgdir b) (b_lapic b) (b_mp b) (b_aps b).
Definition with_started (i : nat) (b : boot) : boot :=
  Boot (b_kern b) (b_ide b) (b_segs b) (b_idt b) (<[i := true]> (b_started b)) (b_kpgdir b) (b_lapic b) (b_mp b) (b_aps b).
Definition with_ap (x : xcpu) (b : boot) : boot :=
  Boot (b_kern b) (b_ide b) (b_segs b) (b_idt b) (b_started b) (b_kpgdir b) (b_lapic b) (b_mp b) (b_aps b ++ [x]).
Definition dev (b : boot) : D := idev (b_ide b).
Definition bmem (b : boot) : mem := kmem_mem (kmem (b_kern b)).

(** [mpmain] on processor [i], up to [scheduler]. *)
Definition mpmain (i : nat) (b : boot) : boot := with_started i (on_cpu i (idtinit (im_idt im)) b).

Definition mpenter (i : nat) (b : boot) : outcome boot :=
  let b := on_cpu i (switchkvm (b_kpgdir b)) b in
  let b := on_cpu i (seginit (im_gdt im i)) b in
  let! d := lapicinit (b_lapic b) fuel (dev b) in
  Ok (mpmain i (with_dev d b)).

(** [code] of [startothers]. *)
Definition code : Z := P2V 0x7000.

(** One processor of the loop.  The boot processor waits while the other one runs
    the code at 0x7000 and [mpenter], up to its store to [started]. *)
Definition startother (x0 : xcpu) (i : nat) (apicid : Z) (b : boot) : outcome boot :=
  let '(stack, km) := kalloc (kmem (b_kern b)) in
  let m := st32 (kmem_mem km) (code - 4) (stack + KSTACKSIZE) in
  let m := st32 m (code - 8) (im_mpenter im) in
  let m := st32 m (code - 12) (V2P (im_entrypgdir im)) in
  let '(m, d) := lapicstartap (b_lapic b) apicid (V2P code) m (dev b) in
  let b := with_dev d (with_kern (set_kmem (set_mem m km) (b_kern b)) b) in
  let x := entryother 0x7000 (0x7000 + im_start32 im) (0x7000 + im_othergdt im) (0x7000 + im_next im)
             (Xcpu (Cpu86 (gr (core x0)) (esp (core x0)) (bmem b)) (xsegs x0) (cr0 x0) (cr4 x0)) in
  mpenter i (with_ap x (with_mem (mm (core x)) b)).

Fixpoint startothers_loop (x0 : xcpu) (me : nat) (cs : list Z) (i : nat) (b : boot) : outcome boot :=
  match cs with
  | [] => Ok b
  | a :: cs =>
      if (i =? me)%nat then startothers_loop x0 me cs (S i) b
      else let! b := startother x0 i a b in startothers_loop x0 me cs (S i) b
  end.

(** [x0] is the state of a processor that gets the startup interrupt. *)
Definition startothers (x0 : xcpu) (me : nat) (b : boot) : outcome boot :=
  let b := with_mem (memmove (bmem b) code (im_other im) (im_othersize im)) b in
  startothers_loop x0 me (apicids (b_mp b)) 0 b.

(** [consoleinit]: the part that reaches a device; the table of [read] and [write]
    functions is that of [File]. *)
Definition consoleinit (b : boot) : boot := with_dev (ioapicenable 1 0 (dev b)) b.

Definition set_mp (lapic : Z) (s : mpstate) (b : boot) : boot :=
  Boot (b_kern b) (b_ide b) (b_segs b) (b_idt b) (b_started b) (b_kpgdir b) lapic s (b_aps b).
Definition set_kpgdir (p : Z) (b : boot) : boot :=
  Boot (b_kern b) (b_ide b) (b_segs b) (b_idt b) (b_started b) p (b_lapic b) (b_mp b) (b_aps b).
Definition set_ide (s : ide D) (b : boot) : boot :=
  Boot (b_kern b) s (b_segs b) (b_idt b) (b_started b) (b_kpgdir b) (b_lapic b) (b_mp b) (b_aps b).

(** [main] up to [startothers]; the result has the index of the boot processor.
    [pinit] and [fileinit] initialise locks, [binit]
    is that of [Bio]; [bs] are the descriptor registers of the boot processor. *)
Definition main_early (bs : segs) (b : boot) : outcome (nat * boot) :=
  let! km := kinit1 (im_end im) (im_end im) (P2V (4 * 1024 * 1024)) (kmem (b_kern b)) in
  let b := with_kern (set_kmem km (b_kern b)) b in
  let! (kpgdir, km, bs) := kvmalloc (im_end im) (im_data im) (kmem (b_kern b)) bs in
  let b := set_kpgdir kpgdir (with_kern (set_kmem km (b_kern b)) b) in
  let! (lapic, s, d) := mpinit fuel (bmem b) (dev b) in
  let b := set_mp lapic s (with_dev d b) in
  let! d := lapicinit lapic fuel (dev b) in
  let b := with_dev d b in
  let '(id, d) := lapicid lapic (dev b) in
  let b := with_dev d b in
  let! me := mycpu false (apicids s) id in
  let b := on_cpu me (fun _ => seginit (im_gdt im me) bs) b in
  let b := with_dev (picinit (dev b)) b in
  let '(_, d) := ioapicinit (ioapicid s) (dev b) in
  let b := consoleinit (with_dev d b) in
  let '(_, d) := uartinit (dev b) in
  let b := with_idt (tvinit (im_vectors im) (b_idt b)) (with_dev d b) in
  let! i := ideinit fuel (Z.of_nat (length (apicids s))) (b_ide b) in
  Ok (me, set_ide i b).

(** [main] up to the scheduler; [root] is [namei("/")], [nm] the bytes of
    "initcode". *)
Definition main (x0 : xcpu) (bs : segs) (root : option nat) (nm : list Z) (b : boot) : outcome boot :=
  let! (me, b) := main_early bs b in
  let! b := startothers x0 me b in
  let! km := kinit2 (im_end im) (P2V (4 * 1024 * 1024)) (P2V PHYSTOP) (kmem (b_kern b)) in
  let b := with_kern (set_kmem km (b_kern b)) b in
  let! k := userinit (im_end im) (im_data im) (im_trapret im) (im_forkret im) (im_initcode im) (im_initsize im) root nm (b_kern b) in
  Ok (mpmain me (with_kern k b)).
End Main.
