(* ===== verification/MainProps.v ===== *)
(** What the entry code establishes, that the other processors start on stacks of
    their own, and that the kernel that [main] leaves is the one the theorems on
    processes start from. *)
From S2P Require Import Prelude Mem KString Mmu Kalloc Vm VmTheory VmUser VmCopy VmProps VmKernel Spinlock Wmap Proc ProcTheory ProcRefine ProcProps Syscall Trap Ports Devices Ide Mp Asm AsmProps Desc DescProps Main.

(** * The boot page directory *)

Lemma entrypgdir_slot i : 0 <= i < 1024 -> nth (Z.to_nat i) entrypgdir 0 = if (i =? 0) || (i =? 512) then 131 else 0.
Proof.
  intros Hi. unfold entrypgdir. change (Z.to_nat (Z.shiftr KERNBASE PDXSHIFT)) with 512%nat. change (Z.lor (Z.lor (Z.lor 0 PTE_P) PTE_W) PTE_PS) with 131.
  change (Z.to_nat 0) with 0%nat. change (Z.to_nat NPDENTRIES) with 1024%nat. rewrite nth_lookup.
  destruct (decide (i = 0)) as [->|H0]; [by rewrite list_lookup_insert_eq by (rewrite length_insert, length_replicate; lia)|].
  rewrite list_lookup_insert_ne by lia. destruct (decide (i = 512)) as [->|H1].
  - change (Z.to_nat 512) with 512%nat. by rewrite list_lookup_insert_eq by (rewrite length_replicate; lia).
  - rewrite list_lookup_insert_ne by lia. rewrite lookup_replicate_2 by lia.
    rewrite (proj2 (Z.eqb_neq _ _) H0), (proj2 (Z.eqb_neq _ _) H1). done.
Qed.

(** The directory that entry.S and entryother.S load maps the first 4 Mbytes of
    memory at 0 and at [KERNBASE], writable, and nothing else. *)
Theorem entrypgdir_maps va : is_u32 va ->
  translate4m entrypgdir va
    = if decide (va < 4194304 \/ KERNBASE <= va < KERNBASE + 4194304) then Some (va mod 4194304, true) else None.
Proof.
  intros Hv. unfold is_u32 in Hv. unfold translate4m. rewrite PDX_alt by done. rewrite entrypgdir_slot by zlia. unfold KERNBASE.
  destruct (Z.eqb_spec (va / 4194304) 0), (Z.eqb_spec (va / 4194304) 512); cbn [orb]; case_decide; try zlia; try done.
  all: by vm_compute (has 131 _).
Qed.

(** * Entry code *)

(** Selectors 8 and 16 of the bootstrap table are flat segments of privilege 0. *)
Lemma boot_gdt_flat : forall i t, (i = 1%nat /\ t = 10 \/ i = 2%nat /\ t = 2) -> exists w, boot_gdt !! i = Some w
  /\ desc_base w = 0 /\ desc_limit w = 4294967295 /\ desc_type w = t /\ desc_dpl w = 0 /\ desc_p w = 1.
Proof. intros i t [[-> ->]|[-> ->]]; (eexists; split; [reflexivity|]); by vm_compute. Qed.

Definition flat_kernel (x : xcpu) : Prop :=
  gr (core x) CS = 8 /\ gr (core x) DS = 16 /\ gr (core x) ES = 16 /\ gr (core x) SS = 16 /\ gr (core x) FS = 0 /\ gr (core x) GS = 0
  /\ Z.testbit (gr (core x) EFLAGS) 9 = false.

Lemma u16_low a v : 0 <= v < 65536 -> u16 (a / 65536 * 65536 + v) = v.
Proof. intros Hv. unfold u16. rewrite Z.add_comm, Z.mod_add by lia. by apply Z.mod_small. Qed.

Lemma load_segs_regs c : let c' := load_segs c in
  gr c' DS = 16 /\ gr c' ES = 16 /\ gr c' SS = 16 /\ gr c' FS = 0 /\ gr c' GS = 0
  /\ gr c' CS = gr c CS /\ gr c' EFLAGS = gr c EFLAGS /\ mm c' = mm c.
Proof.
  destruct c as [g s m]. unfold load_segs. cbv zeta. repeat run1. cbn [gr esp mm reg_id Nat.eqb]. change (Z.shiftl SEG_KDATA 3) with 16.
  rewrite !u16_low by lia. done.
Qed.

Lemma zero_segs_flags c : gr (zero_segs c) EFLAGS = gr c EFLAGS /\ mm (zero_segs c) = mm c.
Proof. destruct c as [g s m]. unfold zero_segs. repeat run1. done. Qed.

(** The code that bootasm.S and entryother.S have in common, around the wait for
    the keyboard controller. *)
Lemma to_protected gdta start32 x :
  let x' := on_core load_segs (on_core (ljmp (Z.shiftl SEG_KCODE 3) start32) (or_cr0 CR0_PE (on_segs (lgdt_boot gdta) (on_core (fun c => zero_segs (cli c)) x)))) in
  flat_kernel x' /\ cr0 x' = Z.lor (cr0 x) 1 /\ cr4 x' = cr4 x /\ gdtr (xsegs x') = (gdta, 23) /\ mm (core x') = mm (core x).
Proof.
  cbv zeta. destruct x as [c sg c0 c4]. unfold flat_kernel, or_cr0, on_segs, on_core. cbn [core xsegs cr0 cr4 gdtr lgdt_boot].
  destruct (zero_segs_flags (cli c)) as [Hf Hm]. set (z := zero_segs (cli c)) in *. clearbody z.
  match goal with |- context [load_segs ?y] => destruct (load_segs_regs y) as (H1 & H2 & H3 & H4 & H5 & H6 & H7 & H8) end. cbv zeta in *.
  rewrite H1, H2, H3, H4, H5, H6, H7, H8. cbn [ljmp set_reg gr mm reg_id Nat.eqb]. split; [|done].
  do 6 (split; [done|]). rewrite Hf. unfold cli. cbn [set_reg gr reg_id Nat.eqb]. unfold FL_IF. rewrite Z.ldiff_spec. by rewrite andb_false_r.
Qed.

(** bootasm.S calls [bootmain] in protected mode, with flat segments, interrupts
    off and the stack below itself. *)
Theorem bootasm_protected {D} {MD : Machine D} fuel start start32 gdta bm next x (d : D) x' d' :
  bootasm fuel start start32 gdta bm next x d = Ok (x', d') -> 4 <= start < 4294967296 ->
  flat_kernel x' /\ Z.testbit (cr0 x') 0 = true /\ gdtr (xsegs x') = (gdta, 23)
  /\ gr (core x') EIP = bm /\ esp (core x') = start - 4 /\ ld32 (mm (core x')) (start - 4) = u32 next.
Proof.
  unfold bootasm. intros H Hs. inv_bind. injection H as <- <-. destruct (to_protected gdta start32 x) as (Hf & H0 & _ & Hg & _). cbv zeta in *.
  set (y := on_core load_segs _) in *. clearbody y. destruct y as [[g s m] sg c0 c4]. unfold on_core. cbn [core cr0 cr4 xsegs] in *.
  unfold calll. rewrite set_esp_cpu by lia. rewrite pushl_cpu by lia. rewrite set_reg_cpu. cbn [gr esp mm reg_id Nat.eqb].
  split; [exact Hf|]. split; [rewrite H0, Z.lor_spec; by rewrite orb_true_r|]. split; [done|]. split; [done|]. split; [done|]. apply ld32_st32_eq.
Qed.

(** What setting bits of a control register leaves alone. *)
Definition same_but_eax (x x' : xcpu) : Prop :=
  esp (core x') = esp (core x) /\ mm (core x') = mm (core x) /\ xsegs x' = xsegs x /\ forall r, r <> EAX -> gr (core x') r = gr (core x) r.

Lemma or_cr0_eq v x : cr0 (or_cr0 v x) = Z.lor (cr0 x) v /\ cr4 (or_cr0 v x) = cr4 x /\ same_but_eax x (or_cr0 v x).
Proof. destruct x as [[g s m] sg c0 c4]. do 2 (split; [done|]). do 3 (split; [done|]). intros r Hr. by destruct r. Qed.

Lemma or_cr4_eq v x : cr0 (or_cr4 v x) = cr0 x /\ cr4 (or_cr4 v x) = Z.lor (cr4 x) v /\ same_but_eax x (or_cr4 v x).
Proof. destruct x as [[g s m] sg c0 c4]. do 2 (split; [done|]). do 3 (split; [done|]). intros r Hr. by destruct r. Qed.

(** entry.S jumps to [main] with paging on through [entrypgdir] and a stack of its
    own; the physical address at which it turned paging on is still mapped to itself. *)
Theorem entry_runs pgd stack mn x : is_u32 (stack + 4096) ->
  let x' := entry_S pgd stack mn x in
  gr (core x') EIP = mn /\ esp (core x') = stack + 4096 /\ Desc.cr3 (xsegs x') = pgd
  /\ Z.testbit (cr0 x') 31 = true /\ Z.testbit (cr0 x') 16 = true /\ Z.testbit (cr4 x') 4 = true
  /\ forall pc, 0 <= pc < 4194304 -> translate4m entrypgdir pc = Some (pc, true) /\ translate4m entrypgdir (KERNBASE + pc) = Some (pc, true).
Proof.
  intros Hs. cbv zeta. unfold entry_S. cbv zeta. destruct (or_cr4_eq CR4_PSE x) as (_ & H4 & _). set (x1 := or_cr4 CR4_PSE x) in *. clearbody x1.
  set (x2 := mov_cr3 _). assert (Desc.cr3 (xsegs x2) = pgd /\ cr4 x2 = cr4 x1) as [H3 H4'] by done. clearbody x2.
  destruct (or_cr0_eq (Z.lor CR0_PG CR0_WP) x2) as (H0 & H04 & _ & _ & Hsg & _). set (x3 := or_cr0 _ x2) in *. clearbody x3.
  unfold on_core. cbn [core xsegs cr0 cr4 gr set_reg reg_id Nat.eqb esp set_esp]. rewrite Hsg, H0, H04, H4', H4, !Z.lor_spec.
  unfold KSTACKSIZE. rewrite u32_id by done.
  split; [done|]. split; [done|]. split; [done|]. split; [by rewrite orb_true_r|]. split; [by rewrite orb_true_r|]. split; [by rewrite orb_true_r|].
  intros pc Hpc. unfold KERNBASE. split; rewrite entrypgdir_maps by (unfold is_u32; lia); unfold KERNBASE; rewrite decide_True by lia; do 2 f_equal; zlia.
Qed.

Lemma mov_cr3_eq f x : let x' := mov_cr3 (on_core (fun c => set_reg EAX (f c) c) x) in
  Desc.cr3 (xsegs x') = f (core x) /\ cr4 x' = cr4 x /\ cr0 x' = cr0 x /\ mm (core x') = mm (core x) /\ forall r, r <> EAX -> gr (core x') r = gr (core x) r.
Proof. destruct x as [[g s m] sg c0 c4]. do 4 (split; [done|]). intros r Hr. by destruct r. Qed.

Lemma call_eq target next stack x : 4 <= stack < 4294967296 ->
  let x' := on_core (fun c => calll target next c) (on_core (fun c => set_esp stack c) x) in
  gr (core x') EIP = target /\ esp (core x') = stack - 4 /\ mm (core x') = st32 (mm (core x)) (stack - 4) next
  /\ (forall r, r <> EIP -> gr (core x') r = gr (core x) r) /\ cr0 x' = cr0 x /\ cr4 x' = cr4 x /\ xsegs x' = xsegs x.
Proof.
  intros Hs. destruct x as [[g s m] sg c0 c4]. unfold on_core, calll. cbn [core]. rewrite set_esp_cpu by lia. rewrite pushl_cpu by lia.
  cbn [set_reg gr esp mm reg_id Nat.eqb]. do 3 (split; [done|]). split; [|done]. intros r Hr. by destruct r.
Qed.

(** The second half of entryother.S. *)
Definition other_paging (start next : Z) (y : xcpu) : xcpu :=
  let x := mov_cr3 (on_core (fun c => set_reg EAX (ld32 (mm c) (P2V (start - 12))) c) (or_cr4 CR4_PSE y)) in
  let x := or_cr0 (Z.lor (Z.lor CR0_PE CR0_PG) CR0_WP) x in
  let x := on_core (fun c => set_esp (ld32 (mm c) (P2V (start - 4))) c) x in
  on_core (fun c => calll (ld32 (mm c) (P2V (start - 8))) next c) x.

Lemma other_paging_eq start next y :
  let m := mm (core y) in let stack := ld32 m (P2V (start - 4)) in 4 <= stack -> flat_kernel y ->
  let x' := other_paging start next y in
  flat_kernel x' /\ gr (core x') EIP = ld32 m (P2V (start - 8)) /\ esp (core x') = stack - 4 /\ mm (core x') = st32 m (stack - 4) next
  /\ Desc.cr3 (xsegs x') = ld32 m (P2V (start - 12)) /\ Z.testbit (cr0 x') 31 = true /\ Z.testbit (cr0 x') 0 = true /\ Z.testbit (cr4 x') 4 = true.
Proof.
  cbv zeta. intros Hst Hf. unfold other_paging. cbv zeta.
  destruct (or_cr4_eq CR4_PSE y) as (_ & H14 & _ & Hm1 & _ & Hr1). set (x1 := or_cr4 CR4_PSE y) in *. clearbody x1.
  destruct (mov_cr3_eq (fun c => ld32 (mm c) (P2V (start - 12))) x1) as (H3 & H24 & _ & Hm2 & Hr2). cbv zeta in *. set (x2 := mov_cr3 _) in *. clearbody x2.
  destruct (or_cr0_eq (Z.lor (Z.lor CR0_PE CR0_PG) CR0_WP) x2) as (H30 & H34 & _ & Hm3 & Hsg3 & Hr3). set (x3 := or_cr0 _ x2) in *. clearbody x3.
  assert (mm (core x3) = mm (core y)) as Hm by congruence. pose proof (ld32_range (mm (core y)) (P2V (start - 4))).
  change (on_core (fun c => calll (ld32 (mm c) (P2V (start - 8))) next c) (on_core (fun c => set_esp (ld32 (mm c) (P2V (start - 4))) c) x3))
    with (on_core (fun c => calll (ld32 (mm (core x3)) (P2V (start - 8))) next c) (on_core (fun c => set_esp (ld32 (mm (core x3)) (P2V (start - 4))) c) x3)).
  rewrite Hm. destruct (call_eq (ld32 (mm (core y)) (P2V (start - 8))) next (ld32 (mm (core y)) (P2V (start - 4))) x3 ltac:(lia)) as (E1 & E2 & E3 & E4 & E5 & E6 & E7).
  cbv zeta in *. unfold flat_kernel in *. rewrite E1, E2, E3, E5, E6, E7, !E4, !Hr3, !Hr2, !Hr1, Hsg3, H30, H34, H24, H14, H3, Hm1, Hm, !Z.lor_spec by done.
  split; [exact Hf|]. do 4 (split; [done|]). by rewrite !orb_true_r.
Qed.

(** A processor that runs entryother.S calls the function, on the stack and with
    the directory, that the words below the code name. *)
Theorem entryother_runs start start32 gdta next x :
  let m := mm (core x) in let stack := ld32 m (P2V (start - 4)) in 4 <= stack ->
  let x' := entryother start start32 gdta next x in
  flat_kernel x' /\ gr (core x') EIP = ld32 m (P2V (start - 8)) /\ esp (core x') = stack - 4 /\ mm (core x') = st32 m (stack - 4) next
  /\ Desc.cr3 (xsegs x') = ld32 m (P2V (start - 12)) /\ Z.testbit (cr0 x') 31 = true /\ Z.testbit (cr0 x') 0 = true /\ Z.testbit (cr4 x') 4 = true.
Proof.
  cbv zeta. intros Hst. destruct (to_protected gdta start32 x) as (Hf & _ & _ & _ & Hm). cbv zeta in *.
  set (y := on_core load_segs _) in *. replace (entryother start start32 gdta next x) with (other_paging start next y) by reflexivity.
  clearbody y. rewrite <- Hm in *. by apply other_paging_eq.
Qed.

(** * The other processors *)

Section Others.
Context {F : Type} {FR : FileRefs F} {D : Type} {MD : Machine D} (im : bootimage) (fuel : nat).
Context (Hend : kend_ok (im_end im)) (Hmp : is_u32 (im_mpenter im)).
#[local] Abbreviation boot := (@boot F D).

(** The parts of the kernel that starting the processors leaves alone. *)
Definition same_kern (k k' : kern F) : Prop :=
  ptable k' = ptable k /\ nextpid k' = nextpid k /\ initproc k' = initproc k /\ cpu_proc k' = cpu_proc k /\ files k' = files k.

(** A processor at [mpenter], on the stack page [p]. *)
Definition started_on (p : Z) (x : xcpu) : Prop :=
  flat_kernel x /\ gr (core x) EIP = im_mpenter im /\ esp (core x) = p + 4092 /\ Desc.cr3 (xsegs x) = V2P (im_entrypgdir im)
  /\ Z.testbit (cr0 x) 31 = true.

(** The words that [startothers] leaves for the processor. *)
Lemma other_words m stack a d m' d' lapic : is_u32 stack ->
  lapicstartap lapic a (V2P code) (st32 (st32 (st32 m (code - 4) stack) (code - 8) (im_mpenter im)) (code - 12) (V2P (im_entrypgdir im))) d = (m', d') ->
  ld32 m' (P2V (0x7000 - 4)) = stack /\ ld32 m' (P2V (0x7000 - 8)) = im_mpenter im /\ ld32 m' (P2V (0x7000 - 12)) = V2P (im_entrypgdir im)
  /\ forall b, KERNLINK <= b -> ld8 m' b = ld8 m b.
Proof.
  intros Hst H. injection H as <- _. change code with 2147512320. change (P2V (0x7000 - 4)) with 2147512316. change (P2V (0x7000 - 8)) with 2147512312.
  change (P2V (0x7000 - 12)) with 2147512308. change (P2V (Z.lor (Z.shiftl 0x40 4) 0x67)) with 2147484775.
  rewrite !ld32_st16_other by lia. assert (is_u32 (V2P (im_entrypgdir im))) by apply u32_range.
  ld_frame. rewrite !u32_id by done. do 3 (split; [done|]).
  unfold KERNLINK, KERNBASE, EXTMEM. intros b Hb. unfold st16. rewrite !ld8_st8_ne by lia. by rewrite !ld8_st32_ne by lia.
Qed.

Lemma mpenter_keeps i (b b' : boot) : mpenter im fuel i b = Ok b' -> b_kern b' = b_kern b /\ b_aps b' = b_aps b /\ b_mp b' = b_mp b.
Proof. unfold mpenter. intros H. inv_bind. by injection H as <-. Qed.

Lemma startother_runs x0 i a (b b' : boot) p l :
  kmem_wf (im_end im) (kmem (b_kern b)) (p :: l) -> startother im fuel x0 i a b = Ok b' ->
  kmem_wf (im_end im) (kmem (b_kern b')) l /\ same_kern (b_kern b) (b_kern b') /\ b_mp b' = b_mp b
  /\ exists x, b_aps b' = b_aps b ++ [x] /\ started_on p x.
Proof.
  intros Hk H. unfold startother in H. destruct (kalloc_cons (im_end im) _ p l Hend Hk) as (km & E & Hm & Hk1 & Hp & Hpl & _). rewrite E in H.
  destruct (page_ok_bounds _ p Hend Hp) as (Hb & Hb2 & _). unfold KERNLINK, KERNBASE, EXTMEM, PHYSTOP in Hb, Hb2. unfold KSTACKSIZE in H.
  destruct (lapicstartap _ _ _ _ _) as [m' d'] eqn:El in H. apply other_words in El as (W1 & W2 & W3 & W4); [|unfold is_u32; lia].
  match type of H with mpenter _ _ _ (with_ap (entryother _ ?s32 ?g ?nx ?x) _) = _ =>
    destruct (entryother_runs 0x7000 s32 g nx x) as (Hf & H1 & H2 & H3 & H4 & H5 & _) end; [cbn; rewrite W1; lia|].
  set (x := entryother _ _ _ _ _) in *. cbv zeta in H2, H3, H4. cbn [core mm bmem with_dev with_kern b_kern kmem set_kmem set_mem kmem_mem] in H1, H2, H3, H4. clearbody x.
  apply mpenter_keeps in H as (Hk' & Ha & Hmpb). rewrite Hk', Ha, Hmpb.
  cbn [with_ap with_mem with_kern with_dev b_kern b_aps b_mp kmem set_kmem set_mem kmem_mem]. rewrite H3, W1. split; [|split; [done|split; [done|]]].
  - change (Kst ?m (freelist ?k) (use_lock ?k)) with (set_mem m k).
    apply (kmem_wf_frame (im_end im) km); [done|]. apply Forall_forall. intros q Hq y Hy.
    pose proof (kw_pages _ _ _ Hk1) as Hpg. rewrite Forall_forall in Hpg. pose proof (Hpg q Hq) as Hqok. destruct (page_ok_bounds _ q Hend Hqok) as (Hqb & _).
    pose proof (page_aligned _ _ Hqok). pose proof (page_aligned _ _ Hp). assert (q <> p) by (by intros ->).
    rewrite ld8_st32_ne by zlia. rewrite W4 by lia. done.
  - exists x. split; [done|]. unfold started_on. rewrite H1, H2, H4, W1, W2, W3. split; [done|]. split; [done|]. split; [lia|]. by split.
Qed.

(** How many of [n] processors from index [i] are not [me]. *)
Definition others (me i n : nat) : nat := if decide (i <= me < i + n)%nat then (n - 1)%nat else n.

(** [startothers] brings every other processor to [mpenter], each on a page of its
    own from the free list, with paging on. *)
Theorem startothers_stacks x0 me cs : forall i (b b' : boot) l,
  kmem_wf (im_end im) (kmem (b_kern b)) l -> (others me i (length cs) <= length l)%nat ->
  startothers_loop im fuel x0 me cs i b = Ok b' ->
  let n := others me i (length cs) in
  kmem_wf (im_end im) (kmem (b_kern b')) (drop n l) /\ same_kern (b_kern b) (b_kern b')
  /\ exists xs, b_aps b' = b_aps b ++ xs /\ NoDup (take n l) /\ Forall2 started_on (take n l) xs.
Proof.
  induction cs as [|a cs IH]; intros i b b' l Hk Hl H; cbn [startothers_loop length] in *.
  { injection H as <-. unfold others. rewrite decide_False by lia. cbn [drop take]. split; [done|]. split; [done|]. exists []. rewrite app_nil_r. split; [done|]. split; constructor. }
  destruct (Nat.eqb_spec i me) as [->|Hne].
  - replace (others me me (S (length cs))) with (others me (S me) (length cs)) in *; [by apply (IH (S me) b b' l)|].
    unfold others. rewrite decide_False, decide_True by lia. lia.
  - replace (others me i (S (length cs))) with (S (others me (S i) (length cs))) in *.
    2: { unfold others in *. repeat case_decide; lia. }
    destruct l as [|p l]; [cbn in Hl; lia|]. apply obind_Ok_inv in H as (b1 & H1 & H).
    destruct (startother_runs x0 i a b b1 p l Hk H1) as (Hk1 & Hs1 & _ & x & Hx & Hst).
    destruct (IH (S i) b1 b' l Hk1 ltac:(cbn in Hl; lia) H) as (Hk' & Hs' & xs & Hxs & Hnd & Hall). cbn [drop take].
    split; [done|]. split; [unfold same_kern in *; intuition congruence|]. exists (x :: xs). split; [by rewrite Hxs, Hx, <- app_assoc|].
    split; [|by constructor]. apply NoDup_cons. split; [|done]. pose proof (kw_nodup _ _ _ Hk) as Hn. apply NoDup_cons in Hn as [Hn _].
    intros Hin. apply Hn. by eapply elem_of_take in Hin as (j & Hj & _); apply list_elem_of_lookup_2 in Hj.
Qed.
End Others.

(** * Memory *)

(** The pages that [kinit1] frees are enough for the kernel's page table when the
    kernel ends 67 pages below 4 Mbytes. *)
Theorem kvmalloc_ok kend kdata m b s :
  kend_ok kend -> kend <= KERNBASE + 4194304 - 4096 * 67 -> kdata_ok kdata ->
  exists km kpgdir km' s' l, kinit1 kend kend (P2V (4 * 1024 * 1024)) (Kst m 0 b) = Ok km /\ kvmalloc kend kdata km s = Ok (kpgdir, km', s')
  /\ kpgdir <> 0 /\ Desc.cr3 s' = V2P kpgdir /\ space kend km' l kpgdir
  /\ forall x, is_u32 x -> mapping (kmem_mem km') kpgdir x = rows_map (kmap kdata) x.
Proof.
  intros Hk He Hd. pose proof Hk as Hk'. unfold kend_ok, KERNLINK, KERNBASE, EXTMEM in Hk', He. change (P2V (4 * 1024 * 1024)) with 2151677952.
  unfold kinit1, freerange. rewrite PGROUNDUP_alt by lia. set (p := (kend + 4095) / 4096 * 4096).
  assert (kend <= p < kend + 4096 /\ p mod 4096 = 0) as [Hp Hpa] by (unfold p; zlia). set (n := Z.to_nat ((2151677952 - p) / PGSIZE)).
  destruct (freerange_loop_ok kend n p 2151677952 (Kst m 0 false) []) as (km & Hrun & Hwf & _);
    [done|split; [done|constructor..]|done|lia|unfold KERNBASE, PHYSTOP; lia|unfold n, PGSIZE; zlia|intros q _; apply not_elem_of_nil|].
  exists km. unfold kvmalloc. cbn [kmem_mem freelist].
  destruct (setupkvm_maps kend kdata Hk km _ Hd Hwf) as (d & s1 & l1 & -> & _ & _ & [(Hd0 & _ & Hsp & HM & _)|(_ & Hlen & _)]).
  - exists d, s1, (switchkvm d s), l1. cbn [obind]. split; [exact Hrun|]. done.
  - rewrite app_nil_r, length_rev, pages_from_length in Hlen. unfold n, PGSIZE in Hlen. zlia.
Qed.

Section UserInit.
Context {F : Type} {FR : FileRefs F} (kend kdata trapret_addr forkret_addr : Z) (Hkend : kend_ok kend) (Hkd : kdata_ok kdata).

(** [allocproc] with a slot and a page: only the page is written. *)
Lemma allocproc_ok (k : kern F) i q ks l :
  find_state UNUSED 0 (ptable k) = Some i -> ptable k !! i = Some q -> nextpid k <> 2147483647 -> kmem_wf kend (kmem k) (ks :: l) ->
  exists k1 p, allocproc trapret_addr forkret_addr k = Ok (Some i, k1) /\ kmem_wf kend (kmem k1) l /\ page_ok kend ks /\ ks ∉ l
  /\ ptable k1 !! i = Some p /\ kstack p = ks /\ tf p = ks + 4020
  /\ forall a, a mod 4096 = 0 -> a <> ks -> same_page a (kmem_mem (kmem k)) (kmem_mem (kmem k1)).
Proof.
  intros Hf Hq Hn Hk. unfold allocproc. rewrite Hf, (proj2 (Z.eqb_neq _ _) Hn).
  destruct (kalloc_cons kend (kmem k) ks l Hkend Hk) as (km & E & Hm & Hk1 & Hp & Hpl & _). cbn [kmem upd set_ptable]. rewrite E.
  destruct (Z.eqb_spec ks 0) as [->|_]; [by apply page_ok_nonzero in Hp|]. pose proof (page_aligned _ _ Hp) as Hpa.
  unfold KSTACKSIZE, TFSIZE, CTXSIZE. cbn [kmem upd set_ptable set_kmem kmem_mem set_mem].
  assert (forall a, a mod 4096 = 0 -> a <> ks -> same_page a (kmem_mem km)
    (st32 (memset (st32 (kmem_mem km) (ks + 4096 - 76 - 4) trapret_addr) (ks + 4096 - 76 - 4 - 20) 0 20) (ks + 4096 - 76 - 4 - 20 + 16) forkret_addr)) as HF.
  { intros a Ha Hne b Hb. rewrite ld8_st32_ne by zlia. rewrite ld8_memset, decide_False by (unfold is_u32; zlia). by rewrite ld8_st32_ne by zlia. }
  eexists _, _. split; [reflexivity|]. split.
  { cbn [kmem upd set_ptable set_kmem]. apply kmem_wf_frame; [done|]. apply Forall_forall. intros a Ha. pose proof (kw_pages _ _ _ Hk1) as Hpg. rewrite Forall_forall in Hpg.
    apply HF; [by eapply page_aligned, Hpg|by intros ->]. }
  rewrite <- Hm. split; [done|]. split; [done|]. cbn [ptable upd set_ptable set_kmem]. split; [by rewrite !list_lookup_alter_eq, Hq|]. cbn. split; [done|]. split; [lia|]. exact HF.
Qed.

(** The frame of [userinit] is written in the page of the kernel stack. *)
Lemma same_page_user_frame m ks a : ks mod 4096 = 0 -> a mod 4096 = 0 -> a <> ks -> same_page a m (user_frame m (ks + 4020)).
Proof.
  intros Hk Ha Hne b Hb. unfold user_frame, st16. cbv zeta. rewrite !ld8_st32_ne by zlia. rewrite !ld8_st8_ne by zlia.
  rewrite ld8_memset, decide_False by (unfold is_u32, TFSIZE; zlia). done.
Qed.

(** C15.  The first process.  From a fresh process table and 69 free pages, none of which
    holds the program, [userinit] succeeds: slot 0 is runnable with one user page,
    which holds the program and then zeros, mapped at 0; above it are the kernel's
    mappings; and its trap frame is the one that enters user mode. *)
Theorem userinit_ok (k : kern F) initcode size root nm l :
  ptable k = replicate 64 proc0 -> nextpid k = 1 -> Forall (fun x => x = None) (cpu_proc k) ->
  kmem_wf kend (kmem k) l -> (69 <= length l)%nat -> 0 <= size < 4096 ->
  (forall q b, q ∈ l -> initcode <= b < initcode + size -> ~ q <= b < q + 4096) ->
  exists k' p e m, userinit kend kdata trapret_addr forkret_addr initcode size root nm k = Ok k' /\ booted k'
  /\ ptable k' !! 0%nat = Some p /\ kmem_mem (kmem k') = user_frame m (tf p) /\ kstack p ∈ l /\ tf p = kstack p + 4020
  /\ (forall va, is_u32 va -> mapping (kmem_mem (kmem k')) (pgdir p) va = if decide (va < 4096) then Some e else rows_map (kmap kdata) va)
  /\ PTE_FLAGS e = 7
  /\ forall o, 0 <= o < 4096 -> ld8 (kmem_mem (kmem k')) (frame e + o) = if o <? size then ld8 (kmem_mem (kmem k)) (initcode + o) else 0.
Proof.
  intros Ht Hn Hc Hk Hl Hsz Hinit. destruct l as [|ks l]; [cbn in Hl; lia|].
  destruct (allocproc_ok k 0 proc0 ks l) as (k1 & p & Ha & Hk1 & Hks & Hksl & Hp & Eks & Etf & HF1); [by rewrite Ht|by rewrite Ht|lia|done|].
  pose proof (page_aligned _ _ Hks) as Hksa.
  destruct (setupkvm_maps kend kdata Hkend (kmem k1) l Hkd Hk1) as (d & s2 & l2 & Hs & Hk2 & HF2 & [(Hd0 & _ & Hsp & HM & Hq & Hlen)|(_ & Hlen & _)]);
    [|cbn in Hl; lia].
  assert (no_user (kmem_mem s2) d) as Hnu.
  { intros x Hx. rewrite HM by (unfold is_u32, KERNBASE in *; lia). apply (rows_map_below KERNBASE); [by apply kmap_ok|lia]. }
  destruct (inituvm_maps kend Hkend d initcode size s2 l2 Hsp Hnu) as (e & s3 & l3 & Hi & Hsp3 & Hfl & HM3 & Hb3 & (Hfe & Hl3 & Ht3) & HF3);
    [cbn in Hl; lia|done| |].
  { intros q b Hin. apply Hinit. right. by apply Hq. }
  assert (forall q, q ∈ l -> q <> ks) as Hlk by (by intros q Hin ->).
  assert (forall q, tpage (kmem_mem s3) d q -> q <> ks) as Htk.
  { intros q Hin. apply Hlk. apply Hq. apply Ht3 in Hin as [Hin|Hin]; tauto. }
  assert (forall a, a mod 4096 = 0 -> a <> ks -> same_page a (kmem_mem s3) (user_frame (kmem_mem s3) (tf p))) as HF4.
  { intros a Ha' Hne. rewrite Etf. by apply same_page_user_frame. }
  set (k' := upd 0 (fun p => with_state RUNNABLE (with_files (ofile p) root (with_name (copy_name 16 (name p) nm) (with_space d PGSIZE p))))
    (set_kmem (set_mem (user_frame (kmem_mem s3) (tf p)) s3) (Kern (ptable k1) (nextpid k1) (Some 0%nat) (kmem k1) (wtab k1) (files k1) (cpu_proc k1) (ticks k1)))).
  assert (userinit kend kdata trapret_addr forkret_addr initcode size root nm k = Ok k') as Hrun.
  { unfold userinit. rewrite Ha. cbn [obind]. unfold the_proc. cbn [ptable kmem]. rewrite Hp. cbn [obind]. rewrite Hs. cbn [obind].
    rewrite (proj2 (Z.eqb_neq _ _) Hd0), Hi. done. }
  exists k', (with_state RUNNABLE (with_files (ofile p) root (with_name (copy_name 16 (name p) nm) (with_space d PGSIZE p)))), e, (kmem_mem s3).
  split; [done|]. split; [by eapply userinit_booted|]. split; [unfold k'; cbn [ptable upd set_ptable set_kmem]; by rewrite list_lookup_alter_eq, Hp|].
  split; [done|]. change (kstack _) with (kstack p). rewrite Eks. split; [by left|]. split; [exact Etf|].
  change (kmem_mem (kmem k')) with (user_frame (kmem_mem s3) (tf p)). change (pgdir _) with d. split; [|split; [done|]].
  - intros va Hva. rewrite (mapping_frame (kmem_mem s3)), HM3 by (done || (intros q Hin; apply HF4; [eapply page_aligned, (tpage_ok _ _ _ _ _ (sp_pt _ _ _ _ Hsp3) Hin)|by apply Htk])).
    case_decide; [done|]. by apply HM.
  - intros o Ho. assert (page_ok kend (frame e)) as Hok.
    { pose proof (kw_pages _ _ _ (sp_k _ _ _ _ Hsp)) as Hpg. rewrite Forall_forall in Hpg. by apply Hpg. }
    rewrite (HF4 (frame e) ltac:(by eapply page_aligned) ltac:(apply Hlk, Hq; by left)) by lia. rewrite Hb3 by done. destruct (Z.ltb_spec o size); [|done].
    set (q := (initcode + o) - (initcode + o) mod 4096). assert (q mod 4096 = 0 /\ q <= initcode + o < q + 4096) as [Hqa Hqb] by (unfold q; zlia).
    assert (q ∉ ks :: l) as Hnl by (intros Hin; by apply (Hinit q (initcode + o) Hin ltac:(lia))). apply not_elem_of_cons in Hnl as [Hne Hnl].
    rewrite (HF2 q) by done. by apply (HF1 q).
Qed.
End UserInit.

(** * main *)

Section Whole.
Context {F : Type} {FR : FileRefs F} {D : Type} {MD : Machine D} (im : bootimage) (fuel : nat).
#[local] Abbreviation boot := (@boot F D).

Lemma startothers_kern x0 me cs : forall i (b b' : boot), startothers_loop im fuel x0 me cs i b = Ok b' -> same_kern (b_kern b) (b_kern b').
Proof.
  induction cs as [|a cs IH]; intros i b b' H; cbn [startothers_loop] in H; [by injection H as <-|]. destruct (_ =? _)%nat; [by apply IH in H|].
  apply obind_Ok_inv in H as (b1 & H1 & H). apply IH in H. unfold startother in H1. destruct (kalloc _) as [st km]. destruct (lapicstartap _ _ _ _ _) as [m' d'].
  apply mpenter_keeps in H1 as (Hk & _). rewrite Hk in H. unfold same_kern in *. cbn in H. exact H.
Qed.

Lemma startothers_idt x0 me cs : forall i (b b' : boot), startothers_loop im fuel x0 me cs i b = Ok b' -> b_idt b' = b_idt b.
Proof.
  induction cs as [|a cs IH]; intros i b b' H; cbn [startothers_loop] in H; [by injection H as <-|]. destruct (_ =? _)%nat; [by apply IH in H|].
  apply obind_Ok_inv in H as (b1 & H1 & H). apply IH in H. rewrite H. unfold startother in H1. destruct (kalloc _) as [st km]. destruct (lapicstartap _ _ _ _ _) as [m' d'].
  unfold mpenter in H1. inv_bind. by injection H1 as <-.
Qed.

Lemma main_early_keeps bs (b : boot) me b' : main_early im fuel bs b = Ok (me, b') ->
  same_kern (b_kern b) (b_kern b') /\ b_idt b' = tvinit (im_vectors im) (b_idt b).
Proof.
  unfold main_early. intros H. apply obind_Ok_inv in H as (km & _ & H). apply obind_Ok_inv in H as ([[kpgdir km'] bs'] & _ & H).
  apply obind_Ok_inv in H as ([[lapic s] d] & _ & H). apply obind_Ok_inv in H as (d1 & _ & H). destruct (lapicid _ _) as [id d2].
  apply obind_Ok_inv in H as (me' & _ & H). destruct (ioapicinit _ _) as [w d3]. destruct (uartinit _) as [w' d4].
  apply obind_Ok_inv in H as (i & _ & H). injection H as <- <-. done.
Qed.

(** When [main] reaches the scheduler the process table is the one from which the
    theorems on processes start: init alone, runnable, every processor idle. *)
Theorem main_booted x0 bs root nm (b b' : boot) :
  ptable (b_kern b) = replicate 64 proc0 -> nextpid (b_kern b) = 1 -> Forall (fun x => x = None) (cpu_proc (b_kern b)) ->
  main im fuel x0 bs root nm b = Ok b' -> booted (b_kern b') /\ b_idt b' = tvinit (im_vectors im) (b_idt b).
Proof.
  intros Ht Hn Hc H. unfold main in H. apply obind_Ok_inv in H as ([me b1] & H1 & H). apply obind_Ok_inv in H as (b2 & H2 & H).
  apply obind_Ok_inv in H as (km & _ & H). apply obind_Ok_inv in H as (k & Hu & H). injection H as <-. cbn [mpmain with_started on_cpu with_kern b_kern b_idt].
  apply main_early_keeps in H1 as [(E1 & E2 & _ & E4 & _) Ei]. unfold startothers in H2.
  pose proof (startothers_idt _ _ _ _ _ _ H2) as Hi. apply startothers_kern in H2 as (E1' & E2' & _ & E4' & _). cbn in E1', E2', E4', Hi.
  split; [|by rewrite Hi, Ei]. eapply userinit_booted; [| | |exact Hu].
  - exact (eq_trans E1' (eq_trans E1 Ht)).
  - exact (eq_trans E2' (eq_trans E2 Hn)).
  - change (Forall (fun x => x = None) (cpu_proc (b_kern b2))). by rewrite E4', E4.
Qed.
End Whole.

(** * Runs *)

(** A kernel that ends at 1 Mbyte plus 100 pages. *)
Lemma kvmalloc_ok_witness : exists km kpgdir km' s',
  kinit1 (page0 100) (page0 100) (P2V (4 * 1024 * 1024)) (Kst ∅ 0 true) = Ok km /\ kvmalloc (page0 100) kdata0 km segs0 = Ok (kpgdir, km', s') /\ kpgdir <> 0.
Proof.
  destruct (kvmalloc_ok (page0 100) kdata0 ∅ true segs0) as (km & d & km' & s' & l & H1 & H2 & H3 & _).
  - by vm_compute.
  - by vm_compute.
  - split; [split|]; by vm_compute.
  - exists km, d, km', s'. split; [exact H1|]. split; [exact H2|exact H3].
Defined.

(** The page of zeros that is the whole program. *)
Definition fresh_kern (s : kst) : kern Z := Kern (replicate 64 proc0) 1 None s wst0 0 [None; None] 0.

Lemma userinit_ok_witness : exists s k', userinit kend0 kdata0 1000 2000 KERNLINK 16 (Some 0%nat) [105; 0] (fresh_kern s) = Ok k' /\ booted k'.
Proof.
  destruct free_pages_100 as [s Hk]. exists s.
  destruct (userinit_ok kend0 kdata0 1000 2000 kend0_ok ltac:(split; [split|]; by vm_compute) (fresh_kern s) KERNLINK 16 (Some 0%nat) [105; 0] _
    eq_refl eq_refl ltac:(repeat constructor) Hk) as (k' & p & e & m & Hrun & Hb & _).
  - rewrite length_app, length_rev, pages_from_length. cbn. lia.
  - lia.
  - intros q b Hq Hb. rewrite app_nil_r, elem_of_rev, elem_of_pages_from in Hq. destruct Hq as (i & Hi & ->). unfold page0 in *. lia.
  - exists k'. split; [exact Hrun|exact Hb].
Defined.

Lemma entryother_runs_witness :
  let x := Xcpu (Cpu86 (fun _ => 0) 0 (st32 (st32 ∅ (P2V 28668) 8192) (P2V 28664) 777)) segs0 16 0 in
  let x' := entryother 28672 28720 28784 28776 x in gr (core x') EIP = 777 /\ esp (core x') = 8188.
Proof.
  pose proof (entryother_runs 28672 28720 28784 28776 (Xcpu (Cpu86 (fun _ => 0) 0 (st32 (st32 ∅ (P2V 28668) 8192) (P2V 28664) 777)) segs0 16 0)) as H. cbv zeta in *.
  destruct H as (_ & H1 & H2 & _); [by vm_compute|]. rewrite H1, H2. split; by vm_compute.
Defined.
