(* ===== verification/Mkfs.v ===== *)
(** mkfs.c: the program that builds the file system image.  The image is a map
    from sector numbers to their bytes; a sector that was never written is beyond
    the end of the file.  [exit(1)] and a failed assertion are panics.  An inode
    on disk is the record of [Fs], of which only the fields on disk matter. *)
From S2P Require Import Prelude Mem KString Spinlock Bio Log Fs.

Definition NINODES : Z := 200.
Definition nbitmap : Z := FSSIZE / (BSIZE * 8) + 1.
Definition ninodeblocks : Z := NINODES / IPB + 1.
Definition nlog : Z := LOGSIZE.
Definition nmeta : Z := 2 + nlog + ninodeblocks + nbitmap.
Definition nblocks : Z := FSSIZE - nmeta.

(** The bytes stored are those of a little-endian word, read back on a
    little-endian host. *)
Definition xshort (x : Z) : Z := u8 x + 256 * u8 (Z.shiftr x 8).
Definition xint (x : Z) : Z := u8 x + 256 * u8 (Z.shiftr x 8) + 65536 * u8 (Z.shiftr x 16) + 16777216 * u8 (Z.shiftr x 24).

Definition mksb : superblock :=
  Superblock (xint FSSIZE) (xint nblocks) (xint NINODES) (xint nlog) (xint 2) (xint (2 + nlog)) (xint (2 + nlog + ninodeblocks)).

(** [fsfd], [freeinode] and [freeblock]. *)
Record mkst := Mkst { img : gmap Z mem; freeinode : Z; freeblock : Z }.

Definition wsect (sec : Z) (buf : mem) (s : mkst) : mkst := Mkst (<[sec := buf]> (img s)) (freeinode s) (freeblock s).

Definition rsect (sec : Z) (s : mkst) : outcome mem :=
  match img s !! sec with Some d => Ok d | None => Panic "read" end.

Definition mk_IBLOCK (i : Z) : Z := i / IPB + sb_inodestart mksb.

Definition winode (inum : Z) (ip : inode) (s : mkst) : outcome mkst :=
  let bn := mk_IBLOCK inum in
  let! buf := rsect bn s in
  Ok (wsect bn (put_dinode buf (dinode_at inum) ip) s).

Definition rinode (inum : Z) (s : mkst) : outcome inode :=
  let bn := mk_IBLOCK inum in
  let! buf := rsect bn s in
  Ok (get_dinode buf (dinode_at inum) inode0).

Definition mk_ialloc (type : Z) (s : mkst) : outcome (Z * mkst) :=
  let inum := freeinode s in
  let s := Mkst (img s) (u32 (freeinode s + 1)) (freeblock s) in
  let din := Inode 0 0 0 initsleeplock false (xshort type) 0 0 (xshort 1) (xint 0) (replicate 13 0) in
  let! s := winode inum din s in
  Ok (inum, s).

(** [freeblock++] *)
Definition mk_take_block (s : mkst) : Z * mkst := (freeblock s, Mkst (img s) (freeinode s) (u32 (freeblock s + 1))).

(** The sector of block [fbn] of the file, allocated if need be. *)
Definition iappend_block (din : inode) (fbn : Z) (s : mkst) : outcome (Z * inode * mkst) :=
  if fbn <? NDIRECT then
    let '(din, s) :=
      (if xint (nth (Z.to_nat fbn) (i_addrs din) 0) =? 0 then
         let '(b, s) := mk_take_block s in (i_with_addrs (<[Z.to_nat fbn := xint b]> (i_addrs din)) din, s)
       else (din, s)) in
    Ok (xint (nth (Z.to_nat fbn) (i_addrs din) 0), din, s)
  else
    let '(din, s) :=
      (if xint (nth (Z.to_nat NDIRECT) (i_addrs din) 0) =? 0 then
         let '(b, s) := mk_take_block s in (i_with_addrs (<[Z.to_nat NDIRECT := xint b]> (i_addrs din)) din, s)
       else (din, s)) in
    let ib := xint (nth (Z.to_nat NDIRECT) (i_addrs din) 0) in
    let! indirect := rsect ib s in
    let '(indirect, s) :=
      (if ld32 indirect (4 * (fbn - NDIRECT)) =? 0 then
         let '(b, s) := mk_take_block s in
         let indirect := st32 indirect (4 * (fbn - NDIRECT)) (xint b) in
         (indirect, wsect ib indirect s)
       else (indirect, s)) in
    Ok (xint (ld32 indirect (4 * (fbn - NDIRECT))), din, s).

(** The loop of [iappend] over the bytes [p]. *)
Fixpoint iappend_loop (fuel : nat) (din : inode) (off : Z) (p : list Z) (s : mkst) : outcome (inode * Z * mkst) :=
  match p with
  | [] => Ok (din, off, s)
  | _ =>
      match fuel with
      | O => UB "iappend: out of fuel"
      | S fuel =>
          let fbn := off / BSIZE in
          if negb (fbn <? MAXFILE) then Panic "assert(fbn < MAXFILE)"
          else
            let! (x, din, s) := iappend_block din fbn s in
            let n1 := Z.min (Z.of_nat (length p)) ((fbn + 1) * BSIZE - off) in
            let! buf := rsect x s in
            let s := wsect x (put_bytes buf (off - fbn * BSIZE) (take (Z.to_nat n1) p)) s in
            iappend_loop fuel din (u32 (off + n1)) (drop (Z.to_nat n1) p) s
      end
  end.

Definition iappend (inum : Z) (p : list Z) (s : mkst) : outcome mkst :=
  let! din := rinode inum s in
  let! (din, off, s) := iappend_loop (length p) din (xint (i_size din)) p s in
  winode inum (i_with_size (xint off) din) s.

Fixpoint mark_used (n : nat) (i : Z) (buf : mem) : mem :=
  match n with
  | O => buf
  | S n => mark_used n (i + 1) (st8 buf (i / 8) (Z.lor (ld8 buf (i / 8)) (Z.shiftl 1 (i mod 8))))
  end.

Definition mk_balloc (used : Z) (s : mkst) : outcome mkst :=
  if negb (used <? BSIZE * 8) then Panic "assert(used < BSIZE*8)"
  else Ok (wsect (sb_bmapstart mksb) (mark_used (Z.to_nat used) 0 ∅) s).

(** A [struct dirent] with the bytes of a name, as [strcpy] and [strncpy] leave it
    in a zeroed record. *)
Definition dirent (inum : Z) (name : list Z) : list Z :=
  let i := xshort inum in
  let nm := take (Z.to_nat DIRSIZ) name in
  [i mod 256; i / 256] ++ nm ++ replicate (Z.to_nat DIRSIZ - length nm) 0.

Fixpoint zero_sectors (n : nat) (i : Z) (s : mkst) : mkst :=
  match n with O => s | S n => zero_sectors n (i + 1) (wsect i ∅ s) end.

(** The copy of one file: [read] returns up to a block at a time. *)
Fixpoint append_file (fuel : nat) (inum : Z) (bytes : list Z) (s : mkst) : outcome mkst :=
  match bytes with
  | [] => Ok s
  | _ =>
      match fuel with
      | O => UB "main: out of fuel"
      | S fuel => let! s := iappend inum (take (Z.to_nat BSIZE) bytes) s in append_file fuel inum (drop (Z.to_nat BSIZE) bytes) s
      end
  end.

(** One argument: its name, and its bytes unless [open] fails. *)
Definition add_file (rootino : Z) (f : list Z * option (list Z)) (s : mkst) : outcome mkst :=
  let '(name, bytes) := f in
  if existsb (Z.eqb 47) name then Panic "assert(index(argv[i], '/') == 0)"
  else match bytes with
  | None => Panic "exit(1)"
  | Some bytes =>
      let name := match name with 95 :: rest => rest | _ => name end in
      let! (inum, s) := mk_ialloc T_FILE s in
      let! s := iappend rootino (dirent inum name) s in
      append_file (length bytes) inum bytes s
  end.

Fixpoint add_files (rootino : Z) (fs : list (list Z * option (list Z))) (s : mkst) : outcome mkst :=
  match fs with [] => Ok s | f :: fs => let! s := add_file rootino f s in add_files rootino fs s end.

Definition put_sb (sb : superblock) : mem :=
  put_words ∅ 0 [sb_size sb; sb_nblocks sb; sb_ninodes sb; sb_nlog sb; sb_logstart sb; sb_inodestart sb; sb_bmapstart sb].

(** The root directory, with its first two entries. *)
Definition mk_root (s : mkst) : outcome (Z * mkst) :=
  let! (rootino, s) := mk_ialloc T_DIR s in
  if negb (rootino =? ROOTINO) then Panic "assert(rootino == ROOTINO)"
  else
    let! s := iappend rootino (dirent rootino [46]) s in
    let! s := iappend rootino (dirent rootino [46; 46]) s in
    Ok (rootino, s).

(** The image before the files: zeroed sectors, the superblock, the root directory. *)
Definition mk_empty : outcome (Z * mkst) :=
  mk_root (wsect 1 (put_sb mksb) (zero_sectors (Z.to_nat FSSIZE) 0 (Mkst ∅ 1 nmeta))).

(** [main], with the files that follow the name of the image. *)
Definition mkfs_main (files : list (list Z * option (list Z))) : outcome mkst :=
  let! (rootino, s) := mk_empty in
  let! s := add_files rootino files s in
  let! din := rinode rootino s in
  let off := xint (i_size din) in
  let off := u32 ((off / BSIZE + 1) * BSIZE) in
  let! s := winode rootino (i_with_size (xint off) din) s in
  mk_balloc (freeblock s) s.
