(* ===== verification/MkfsTheory.v ===== *)
(** The image that mkfs builds, as a table of files: the invariant of its
    sectors, and [iappend] as appending to one file.  The image holds exactly the
    files that were given. *)
From S2P Require Import Prelude Mem KString Spinlock Bio BioTheory Log LogTheory LogProps Fs FsBlocks FsTheory FsFile FsData FsInode FsWrite Mkfs.

(** * Byte order *)

Lemma xint_id x : is_u32 x -> xint x = x.
Proof. intros Hx. unfold xint. rewrite !Z.shiftr_div_pow2 by lia. change (2 ^ 8) with 256. change (2 ^ 16) with 65536. change (2 ^ 24) with 16777216. zlia. Qed.

Lemma xshort_id x : 0 <= x < 65536 -> xshort x = x.
Proof. intros Hx. unfold xshort. rewrite !Z.shiftr_div_pow2 by lia. change (2 ^ 8) with 256. zlia. Qed.

(** * Files of an image *)

(** The map of [FsFile], over the bytes of the sectors. *)
Definition gblk (V : Z -> mem) (i : inode) (bn : Z) : Z :=
  if bn <? NDIRECT then addr i bn else if ind i =? 0 then 0 else ld32 (V (ind i)) (4 * (bn - NDIRECT)).
Definition gowns (V : Z -> mem) (i : inode) (b : Z) : Prop := b <> 0 /\ (b = ind i \/ exists bn, 0 <= bn < MAXFILE /\ gblk V i bn = b).
Definition gbyte (V : Z -> mem) (i : inode) (off : Z) : Z := ld8 (V (gblk V i (off / BSIZE))) (off mod BSIZE).
Definition gbytes (V : Z -> mem) (i : inode) (off : Z) (n : nat) : list Z := (fun k => gbyte V i (off + Z.of_nat k)) <$> seq 0 n.

(** The sectors of a file of [sz] bytes, with its indirect block. *)
Definition nblk (sz : Z) : Z := (sz + 511) / 512 + (if 6144 <? sz then 1 else 0).

(** An inode with exactly the sectors that [sz] bytes need, all different, in
    [lo, hi). *)
Record file_img (V : Z -> mem) (lo hi : Z) (i : inode) (sz : Z) : Prop := {
  fi_addrs : length (i_addrs i) = 13%nat /\ Forall is_u32 (i_addrs i);
  fi_size : 0 <= sz <= MAXFILE * BSIZE;
  fi_full bn : 0 <= bn < MAXFILE -> gblk V i bn <> 0 <-> bn * BSIZE < sz;
  fi_ind : ind i <> 0 <-> NDIRECT * BSIZE < sz;
  fi_range b : gowns V i b -> lo <= b < hi;
  fi_inj bn bn' : 0 <= bn < MAXFILE -> 0 <= bn' < MAXFILE -> gblk V i bn <> 0 -> gblk V i bn = gblk V i bn' -> bn = bn';
  fi_indne bn : 0 <= bn < MAXFILE -> ind i <> 0 -> gblk V i bn <> ind i
}.

Lemma gblk_ext V V' i bn : (ind i <> 0 -> V' (ind i) = V (ind i)) -> gblk V' i bn = gblk V i bn.
Proof. intros H. unfold gblk. destruct (bn <? NDIRECT); [done|]. destruct (Z.eqb_spec (ind i) 0); [done|]. by rewrite H. Qed.

Lemma gowns_blk V i bn : 0 <= bn < MAXFILE -> gblk V i bn <> 0 -> gowns V i (gblk V i bn).
Proof. intros Hb Hn. split; [done|]. right. by exists bn. Qed.

Lemma gowns_ind V i : ind i <> 0 -> gowns V i (ind i).
Proof. intros Hn. split; [done|]. by left. Qed.

(** A file does not change when its sectors keep their bytes. *)
Lemma file_img_ext V V' lo hi hi' i sz : file_img V lo hi i sz -> hi <= hi' -> (forall b, gowns V i b -> V' b = V b) ->
  file_img V' lo hi' i sz /\ (forall bn, gblk V' i bn = gblk V i bn) /\ (forall b, gowns V' i b <-> gowns V i b)
  /\ forall off, 0 <= off < (sz + 511) / 512 * 512 -> gbyte V' i off = gbyte V i off.
Proof.
  intros [A B C D E F G] Hh HV. assert (forall bn, gblk V' i bn = gblk V i bn) as Hb by (intros bn; apply gblk_ext; intros Hn; by apply HV, gowns_ind).
  assert (forall b, gowns V' i b <-> gowns V i b) as Ho by (intros b; unfold gowns; by setoid_rewrite Hb).
  split; [|split; [done|split; [done|]]].
  - split; [done|done|intros bn; rewrite Hb; apply C|done|intros b; rewrite Ho; intros Hg; apply E in Hg; lia|intros bn bn'; rewrite !Hb; apply F|intros bn; rewrite Hb; apply G].
  - intros off Hoff. unfold gbyte. rewrite Hb. rewrite HV; [done|]. unfold MAXFILE, NDIRECT, NINDIRECT, BSIZE in *. apply gowns_blk; [unfold MAXFILE, NDIRECT, NINDIRECT; zlia|].
    apply C; [unfold MAXFILE, NDIRECT, NINDIRECT; zlia|]. zlia.
Qed.

(** The size matters only through the sectors it needs. *)
Lemma file_img_size V lo hi i sz sz' : file_img V lo hi i sz -> 0 < sz -> sz <= sz' -> sz' <= ((sz - 1) / BSIZE + 1) * BSIZE -> sz' <= MAXFILE * BSIZE -> file_img V lo hi i sz'.
Proof.
  intros [A B C D E F G] H0 H1 H2 H3. unfold MAXFILE, NDIRECT, NINDIRECT, BSIZE in *.
  split; [done|unfold MAXFILE, NDIRECT, NINDIRECT, BSIZE; lia| | |done|done|done].
  - intros bn Hbn. rewrite (C bn Hbn). unfold BSIZE. zlia.
  - rewrite D. unfold NDIRECT, BSIZE. zlia.
Qed.

(** One more sector for a file whose sectors are full, and perhaps its indirect
    block, from the sectors [hi] on. *)
Lemma file_img_add V V' lo hi hi' i i' off b :
  file_img V lo hi i off -> off mod BSIZE = 0 -> off < MAXFILE * BSIZE -> lo <= hi -> 0 < hi ->
  length (i_addrs i') = 13%nat /\ Forall is_u32 (i_addrs i') ->
  (forall k, 0 <= k < MAXFILE -> gblk V' i' k = if decide (k = off / BSIZE) then b else gblk V i k) ->
  hi <= b < hi' -> ind i' = ind i \/ (ind i = 0 /\ hi <= ind i' < hi') -> (ind i' <> 0 <-> NDIRECT * BSIZE < off + 1) -> b <> ind i' ->
  file_img V' lo hi' i' (off + 1) /\ forall c, gowns V' i' c -> gowns V i c \/ hi <= c.
Proof.
  intros [A B C D E F G] Hm Hlt Hlo Hhi Ha Hk Hb Hi Hind Hne. unfold MAXFILE, NDIRECT, NINDIRECT, BSIZE in Hm, Hlt, B.
  assert (0 <= off / BSIZE < MAXFILE) as Hbn by (unfold MAXFILE, NDIRECT, NINDIRECT, BSIZE; zlia).
  assert (forall c, gowns V' i' c -> gowns V i c \/ hi <= c < hi') as Ho.
  { intros c [Hc [->|(bn & Hbnr & <-)]].
    - destruct Hi as [Hi|[_ Hi]]; [left; rewrite Hi in *; by apply gowns_ind|by right].
    - rewrite Hk in Hc |- * by done. case_decide; [by right|]. left. by apply gowns_blk. }
  assert (forall bn, 0 <= bn < MAXFILE -> gblk V i bn <> 0 -> gblk V i bn < hi) as Hold by (intros bn H1 H2; apply E, gowns_blk; done).
  split; [|intros c Hc; apply Ho in Hc as [Hc|Hc]; [by left|right; lia]]. split; [done|unfold MAXFILE, NDIRECT, NINDIRECT, BSIZE; lia| |done| | |].
  - intros bn Hbnr. rewrite Hk by done. case_decide as Hd.
    + subst bn. unfold BSIZE. split; [zlia|lia].
    + rewrite (C bn Hbnr). unfold BSIZE in *. zlia.
  - intros c Hc. apply Ho in Hc as [Hc|Hc]; [apply E in Hc; lia|lia].
  - intros bn bn' H1 H2. rewrite !Hk by done. repeat case_decide; subst; try done.
    + intros _ Heq. assert (gblk V i bn' < hi) by (apply Hold; [done|lia]). lia.
    + intros Hnz Heq. pose proof (Hold bn H1 Hnz). lia.
    + by apply F.
  - intros bn H1 Hn. rewrite Hk by done. case_decide; [done|]. destruct Hi as [Hi|[H0 Hi]]; [rewrite Hi in *; by apply G|].
    intros Heq. assert (gblk V i bn < hi) by (apply Hold; [done|lia]). lia.
Qed.

(** The sectors of a state. *)
Abbreviation sect s := (dblk (img s)).

(** All the sectors exist; those not yet handed out are zero. *)
Record disk_img (s : mkst) : Prop := {
  di_all b : 0 <= b < FSSIZE -> is_Some (img s !! b);
  di_free : nmeta <= freeblock s <= FSSIZE;
  di_zero b : freeblock s <= b < FSSIZE -> sect s b = ∅
}.

Lemma rsect_ok s b : disk_img s -> 0 <= b < FSSIZE -> rsect b s = Ok (sect s b).
Proof. intros Hd Hb. unfold rsect, dblk. by destruct (di_all s Hd b Hb) as [d ->]. Qed.

Lemma sect_wsect s b d c : sect (wsect b d s) c = if decide (c = b) then d else sect s c.
Proof. unfold dblk. cbn. case_decide; [subst; by rewrite lookup_insert_eq|by rewrite lookup_insert_ne]. Qed.

Lemma disk_img_wsect s b d : disk_img s -> b < freeblock s -> disk_img (wsect b d s).
Proof.
  intros [A B C] Hb. split; [|done|].
  - intros c Hc. cbn. destruct (decide (c = b)) as [->|]; [rewrite lookup_insert_eq; by eexists|rewrite lookup_insert_ne by done; by apply A].
  - intros c Hc. cbn in Hc. rewrite sect_wsect, decide_False by lia. by apply C.
Qed.

Lemma take_block_eq s : disk_img s -> freeblock s < FSSIZE ->
  mk_take_block s = (freeblock s, Mkst (img s) (freeinode s) (freeblock s + 1)) /\ disk_img (Mkst (img s) (freeinode s) (freeblock s + 1)).
Proof.
  intros [A B C] Hf. change nmeta with 59 in B. change FSSIZE with 1000 in *. split.
  - unfold mk_take_block. by rewrite u32_id by (unfold is_u32; lia).
  - split; cbn [img freeblock]; [done|change nmeta with 59; change FSSIZE with 1000; lia|]. intros b Hb. change FSSIZE with 1000 in Hb. apply C. lia.
Qed.

Lemma nth_addr i k : nth (Z.to_nat k) (i_addrs i) 0 = addr i k.
Proof. unfold addr. apply nth_lookup. Qed.

Lemma addr_u32 i k : Forall is_u32 (i_addrs i) -> is_u32 (addr i k).
Proof.
  intros HF. unfold addr. destruct (i_addrs i !! Z.to_nat k) as [a|] eqn:E; [|done]. cbn. rewrite Forall_lookup in HF. by eapply HF.
Qed.

(** The bytes of the last sector past the size are zero. *)
Definition tail0 (V : Z -> mem) (i : inode) (sz hi : Z) : Prop := forall o, sz <= o < hi -> gbyte V i o = 0.

Lemma tail0_empty V i off : V (gblk V i (off / BSIZE)) = ∅ -> off mod 512 = 0 -> tail0 V i off ((off / 512 + 1) * 512).
Proof.
  intros HV Hm o Ho. unfold gbyte. replace (o / BSIZE) with (off / BSIZE) by (unfold BSIZE; zlia). rewrite HV. unfold ld8. by rewrite lookup_empty.
Qed.

(** What finding the sector for offset [off] does. *)
Record block_step (s : mkst) (d : inode) (off : Z) (s' : mkst) (d' : inode) : Prop := {
  bs_img : disk_img s';
  bs_file : file_img (sect s') nmeta (freeblock s') d' (off + 1);
  bs_fb : freeblock s' = freeblock s + (nblk (off + 1) - nblk off);
  bs_fi : freeinode s' = freeinode s;
  bs_same b : b < freeblock s -> (ind d <> 0 -> b <> ind d) -> sect s' b = sect s b;
  bs_owns b : gowns (sect s') d' b -> gowns (sect s) d b \/ freeblock s <= b;
  bs_bytes o : 0 <= o < off -> gbyte (sect s') d' o = gbyte (sect s) d o;
  bs_tail : tail0 (sect s) d off ((off + 511) / 512 * 512) -> tail0 (sect s') d' off ((off / 512 + 1) * 512);
  bs_meta : exists a, d' = i_with_addrs a d
}.

Lemma nblk_step off : 0 <= off -> nblk (off + 1) - nblk off = if off mod 512 =? 0 then (if off =? 6144 then 2 else 1) else 0.
Proof.
  intros H. unfold nblk. destruct (Z.eqb_spec (off mod 512) 0); [destruct (Z.eqb_spec off 6144)|]; destruct (Z.ltb_spec 6144 off), (Z.ltb_spec 6144 (off + 1)); zlia.
Qed.

(** The bytes below a full sector do not see the sectors that are added. *)
Lemma bytes_below V V' lo hi i i' off :
  file_img V lo hi i off -> off mod BSIZE = 0 ->
  (forall k, 0 <= k < MAXFILE -> k <> off / BSIZE -> gblk V' i' k = gblk V i k) -> (forall b, b < hi -> b <> ind i -> V' b = V b) ->
  forall o, 0 <= o < off -> gbyte V' i' o = gbyte V i o.
Proof.
  intros [A B C D E F G] Hm Hk HV o Ho. unfold MAXFILE, NDIRECT, NINDIRECT, BSIZE in *. unfold gbyte.
  assert (0 <= o / BSIZE < MAXFILE) as Hr by (unfold MAXFILE, NDIRECT, NINDIRECT, BSIZE; zlia). unfold MAXFILE, NDIRECT, NINDIRECT, BSIZE in Hr.
  unfold BSIZE. rewrite Hk by zlia. assert (gblk V i (o / 512) <> 0) as Hn by (apply C; zlia).
  rewrite HV; [done|apply E, gowns_blk; [unfold MAXFILE, NDIRECT, NINDIRECT; lia|done]|].
  intros Heq. destruct (Z.eq_dec (ind i) 0) as [H0|H0]; [lia|]. by apply (G (o / 512)).
Qed.

Lemma block_old s d off : disk_img s -> file_img (sect s) nmeta (freeblock s) d off -> off < MAXFILE * BSIZE -> off mod 512 <> 0 -> block_step s d off s d.
Proof.
  intros Hd Hf Hlt Hm. pose proof (fi_size _ _ _ _ _ Hf). split; [done| | |done|done|by left|done| |].
  - apply (file_img_size _ _ _ _ off); [done|zlia|lia|unfold BSIZE; zlia|lia].
  - rewrite nblk_step by lia. rewrite (proj2 (Z.eqb_neq _ _) Hm). lia.
  - by replace (off / 512 + 1) with ((off + 511) / 512) by zlia.
  - exists (i_addrs d). by destruct d.
Qed.

Lemma block_new_direct s d off : disk_img s -> file_img (sect s) nmeta (freeblock s) d off -> off mod 512 = 0 -> off / BSIZE < NDIRECT ->
  freeblock s < FSSIZE ->
  let s' := Mkst (img s) (freeinode s) (freeblock s + 1) in
  let d' := i_with_addrs (<[Z.to_nat (off / BSIZE) := freeblock s]> (i_addrs d)) d in
  block_step s d off s' d' /\ gblk (sect s') d' (off / BSIZE) = freeblock s.
Proof.
  intros Hd Hf Hm Hlt Hr s' d'. pose proof (fi_size _ _ _ _ _ Hf) as Hsz. destruct (fi_addrs _ _ _ _ _ Hf) as [Hlen Hu32].
  unfold MAXFILE, NDIRECT, NINDIRECT, BSIZE in *. pose proof (di_free s Hd) as Hfr. change nmeta with 59 in Hfr. change FSSIZE with 1000 in Hr, Hfr.
  destruct (take_block_eq s Hd ltac:(change FSSIZE with 1000; lia)) as [_ Hd'].
  assert (0 <= off / 512 < 12) as Hbn by zlia. assert (off < 6144) as Ho by zlia.
  assert (ind d' = ind d) as Hind by (unfold ind, d'; apply addr_set_ne; unfold NDIRECT; lia).
  assert (forall k, 0 <= k < 140 -> gblk (sect s') d' k = if decide (k = off / 512) then freeblock s else gblk (sect s) d k) as Hk.
  { intros k Hk. unfold gblk. rewrite Hind. change (sect s') with (sect s). unfold NDIRECT. destruct (Z.ltb_spec k 12).
    - case_decide as Hc; [subst k; unfold d'; apply addr_set_eq; [done|lia]|unfold d'; apply addr_set_ne; lia].
    - by rewrite decide_False by lia. }
  assert (ind d = 0) as Hi0 by (destruct (Z.eq_dec (ind d) 0) as [|Hn]; [done|]; apply (fi_ind _ _ _ _ _ Hf) in Hn; unfold NDIRECT, BSIZE in Hn; lia).
  destruct (file_img_add (sect s) (sect s') nmeta (freeblock s) (freeblock s + 1) d d' off (freeblock s) Hf) as [Hf' Ho'];
    try (unfold MAXFILE, NDIRECT, NINDIRECT, BSIZE; rewrite ?Hind; change nmeta with 59; lia).
  { split; [unfold d'; cbn; by rewrite length_insert|]. unfold d'. cbn. apply Forall_insert; [done|unfold is_u32; lia]. }
  { intros k. unfold MAXFILE, NDIRECT, NINDIRECT, BSIZE. intros Hk'. by apply Hk. }
  split; [|by rewrite Hk, decide_True by lia]. split; [done|done| |done|done|done| | |by eexists].
  - rewrite nblk_step by lia. rewrite (proj2 (Z.eqb_eq _ _) Hm). rewrite (proj2 (Z.eqb_neq off 6144)) by lia. done.
  - apply (bytes_below _ _ nmeta (freeblock s) d d' off); [done|unfold BSIZE; lia| |done].
    intros k. unfold MAXFILE, NDIRECT, NINDIRECT, BSIZE. intros Hk1 Hk2. by rewrite Hk, decide_False by lia.
  - intros _. apply tail0_empty; [|done]. unfold BSIZE. rewrite Hk, decide_True by lia. apply (di_zero s Hd). change FSSIZE with 1000. lia.
Qed.

(** The indirect block [ib], which is the file's or a zeroed new one, gets the
    sector [b] for block [off / BSIZE]. *)
Lemma block_new_indirect s s1 d d1 off b :
  disk_img s -> file_img (sect s) nmeta (freeblock s) d off -> off mod 512 = 0 -> NDIRECT <= off / BSIZE -> off < MAXFILE * BSIZE ->
  (ind d <> 0 /\ s1 = s /\ d1 = d) \/
  (ind d = 0 /\ freeblock s + 1 < FSSIZE /\ s1 = Mkst (img s) (freeinode s) (freeblock s + 1)
     /\ d1 = i_with_addrs (<[Z.to_nat NDIRECT := freeblock s]> (i_addrs d)) d) ->
  b = freeblock s1 -> b < FSSIZE ->
  let s' := wsect (ind d1) (st32 (sect s (ind d1)) (4 * (off / BSIZE - NDIRECT)) b) (Mkst (img s1) (freeinode s1) (b + 1)) in
  block_step s d off s' d1 /\ gblk (sect s') d1 (off / BSIZE) = b /\ ld32 (sect s (ind d1)) (4 * (off / BSIZE - NDIRECT)) = 0
  /\ 0 < ind d1 < b.
Proof.
  intros Hd Hf Hm Hge Hlt Hcase -> Hr s'. pose proof (fi_size _ _ _ _ _ Hf) as Hsz. destruct (fi_addrs _ _ _ _ _ Hf) as [Hlen Hu32].
  unfold MAXFILE, NDIRECT, NINDIRECT, BSIZE in Hge, Hlt, Hsz. pose proof (di_free s Hd) as Hfr. change nmeta with 59 in Hfr. change FSSIZE with 1000 in Hr, Hfr, Hcase.
  set (bn := off / BSIZE) in *. assert (bn = off / 512) as Ebn by done. assert (12 <= bn < 140 /\ 6144 <= off) as [Hbn Hoff] by zlia.
  assert (gblk (sect s) d bn = 0) as Hg0.
  { destruct (Z.eq_dec (gblk (sect s) d bn) 0) as [|Hn]; [done|]. apply (fi_full _ _ _ _ _ Hf) in Hn; [|unfold MAXFILE, NDIRECT, NINDIRECT; lia]. unfold BSIZE in Hn. zlia. }
  assert (disk_img s1 /\ img s1 = img s /\ freeinode s1 = freeinode s /\ freeblock s1 + 1 = freeblock s + (nblk (off + 1) - nblk off)) as (Hd1 & Himg & Hfi & Hfb).
  { rewrite nblk_step by lia. rewrite (proj2 (Z.eqb_eq _ _) Hm). destruct Hcase as [(Hn & -> & _)|(Hn & Hroom & -> & _)].
    - apply (fi_ind _ _ _ _ _ Hf) in Hn. unfold NDIRECT, BSIZE in Hn. rewrite (proj2 (Z.eqb_neq off 6144)) by lia. done.
    - assert (off = 6144) as ->. { destruct (Z.eq_dec off 6144) as [|Hne]; [done|]. destruct (proj2 (fi_ind _ _ _ _ _ Hf)); [unfold NDIRECT, BSIZE; zlia|done]. }
      split; [by apply take_block_eq; [done|change FSSIZE with 1000; lia]|]. cbn [img freeinode freeblock]. split; [done|]. split; [done|]. change (6144 =? 6144) with true. cbv iota. lia. }
  assert (freeblock s <= freeblock s1 /\ 59 <= ind d1 < freeblock s1 /\ (ind d1 = ind d \/ ind d = 0 /\ freeblock s <= ind d1)
    /\ length (i_addrs d1) = 13%nat /\ Forall is_u32 (i_addrs d1) /\ (exists a, d1 = i_with_addrs a d)
    /\ forall k, 0 <= k < 140 -> gblk (sect s) d1 k = gblk (sect s) d k) as (Hle & Hib & Hii & Hl1 & Hu1 & Hmeta & Hg1).
  { destruct Hcase as [(Hn & -> & ->)|(Hn & Hroom & -> & ->)].
    - split; [lia|]. split; [apply (fi_range _ _ _ _ _ Hf), gowns_ind, Hn|]. split; [by left|]. split; [done|]. split; [done|]. split; [|done]. exists (i_addrs d). by destruct d.
    - cbn [freeblock i_addrs i_with_addrs]. assert (ind (i_with_addrs (<[Z.to_nat NDIRECT := freeblock s]> (i_addrs d)) d) = freeblock s) as Hi1
        by (unfold ind; apply addr_set_eq; [done|unfold NDIRECT; lia]).
      rewrite Hi1. split; [lia|]. split; [lia|]. split; [right; lia|]. split; [by rewrite length_insert|]. split; [apply Forall_insert; [done|unfold is_u32; lia]|]. split; [by eexists|].
      intros k Hk. unfold gblk. rewrite Hi1, Hn, (proj2 (Z.eqb_neq (freeblock s) 0)) by lia. rewrite (di_zero s Hd) by (change FSSIZE with 1000; lia).
      unfold NDIRECT. destruct (Z.ltb_spec k 12); [by apply addr_set_ne; lia|]. by unfold ld32, ld8; rewrite !lookup_empty. }
  assert (forall k, 0 <= k < 140 -> gblk (sect s') d1 k = if decide (k = bn) then freeblock s1 else gblk (sect s) d k) as Hk.
  { intros k Hk. rewrite <- Hg1 by done. unfold gblk. unfold NDIRECT. destruct (Z.ltb_spec k 12); [by rewrite decide_False by lia|].
    rewrite (proj2 (Z.eqb_neq (ind d1) 0)) by lia. unfold s'. rewrite sect_wsect, decide_True by done. unfold NDIRECT. case_decide as Hc.
    - subst k. rewrite ld32_st32_eq. apply u32_id. unfold is_u32. lia.
    - by rewrite ld32_st32_ne by lia. }
  assert (forall c, c < freeblock s -> (ind d <> 0 -> c <> ind d) -> sect s' c = sect s c) as Hsame.
  { intros c Hc Hn. unfold s'. rewrite sect_wsect, decide_False by lia. unfold dblk. cbn. by rewrite Himg. }
  destruct (file_img_add (sect s) (sect s') nmeta (freeblock s) (freeblock s1 + 1) d d1 off (freeblock s1) Hf) as [Hf' Ho'];
    try (unfold MAXFILE, NDIRECT, NINDIRECT, BSIZE; change nmeta with 59; lia).
  { done. } { intros k. unfold MAXFILE, NDIRECT, NINDIRECT. intros Hk'. by apply Hk. }
  split; [split; [|done|done|done|done|done| | |done]|].
  - apply disk_img_wsect; [apply take_block_eq; [done|change FSSIZE with 1000; lia]|cbn; lia].
  - apply (bytes_below _ _ nmeta (freeblock s) d d1 off); [done|unfold BSIZE; lia| |intros c Hc1 Hc2; by apply Hsame].
    intros k. unfold MAXFILE, NDIRECT, NINDIRECT, BSIZE. intros Hk1 Hk2. by rewrite Hk, decide_False by lia.
  - intros _. apply tail0_empty; [|done]. fold bn. rewrite Hk, decide_True by lia. unfold s'. rewrite sect_wsect, decide_False by lia.
    unfold dblk. cbn [img]. rewrite Himg. apply (di_zero s Hd). change FSSIZE with 1000. lia.
  - split; [by rewrite Hk, decide_True by lia|]. split; [|lia]. rewrite <- Hg1 in Hg0 by lia. unfold gblk in Hg0. unfold NDIRECT in *.
    destruct (Z.ltb_spec bn 12); [lia|]. by rewrite (proj2 (Z.eqb_neq (ind d1) 0)) in Hg0 by lia.
Qed.

Lemma iappend_block_spec s d off :
  disk_img s -> file_img (sect s) nmeta (freeblock s) d off -> off < MAXFILE * BSIZE ->
  freeblock s + (nblk (off + 1) - nblk off) <= FSSIZE ->
  exists s' d', iappend_block d (off / BSIZE) s = Ok (gblk (sect s') d' (off / BSIZE), d', s') /\ block_step s d off s' d'.
Proof.
  intros Hd Hf Hlt Hroom. pose proof (fi_size _ _ _ _ _ Hf) as Hsz. destruct (fi_addrs _ _ _ _ _ Hf) as [Hlen Hu].
  pose proof (di_free s Hd) as Hfr. change nmeta with 59 in Hfr. rewrite nblk_step in Hroom by lia. change FSSIZE with 1000 in Hfr, Hroom.
  unfold MAXFILE, NDIRECT, NINDIRECT, BSIZE in Hlt, Hsz. assert (0 <= off / BSIZE < MAXFILE) as Hbn by (unfold MAXFILE, NDIRECT, NINDIRECT, BSIZE; zlia).
  assert (gblk (sect s) d (off / BSIZE) <> 0 <-> off mod 512 <> 0) as Hg.
  { rewrite (fi_full _ _ _ _ _ Hf) by done. unfold BSIZE. zlia. }
  assert (forall i k, Forall is_u32 (i_addrs i) -> xint (nth (Z.to_nat k) (i_addrs i) 0) = addr i k) as Hx.
  { intros i k Hi. rewrite nth_addr. by apply xint_id, addr_u32. }
  unfold iappend_block. rewrite !(Hx d) by done. change (addr d NDIRECT) with (ind d). destruct (Z.ltb_spec (off / BSIZE) NDIRECT) as [Hdir|Hind].
  - assert (gblk (sect s) d (off / BSIZE) = addr d (off / BSIZE)) as Eg by (unfold gblk; by rewrite (proj2 (Z.ltb_lt _ _) Hdir)).
    rewrite Eg in Hg. destruct (Z.eqb_spec (addr d (off / BSIZE)) 0) as [H0|H0].
    + destruct (Z.eqb_spec (off mod 512) 0) as [Hm|Hm]; [|by apply Hg in Hm].
      destruct (take_block_eq s Hd) as [-> Hd']; [change FSSIZE with 1000; destruct (off =? 6144); lia|].
      rewrite (xint_id (freeblock s)) by (unfold is_u32; lia). destruct (block_new_direct s d off Hd Hf Hm Hdir) as [Hst Hgb]; [change FSSIZE with 1000; destruct (off =? 6144); lia|].
      eexists _, _. split; [|exact Hst]. rewrite Hgb, Hx by (apply Forall_insert; [done|unfold is_u32; lia]). do 3 f_equal. unfold NDIRECT in Hdir. by apply addr_set_eq; [done|lia].
    + exists s, d. rewrite Hx, Eg by done. split; [done|]. apply block_old; [done|done|unfold MAXFILE, NDIRECT, NINDIRECT, BSIZE; lia|by apply Hg].
  - destruct (Z.eq_dec (off mod 512) 0) as [Hm|Hm].
    + rewrite (proj2 (Z.eqb_eq _ _) Hm) in Hroom.
      set (r := if ind d =? 0 then _ else _). assert (exists d1 s1, r = (d1, s1) /\ disk_img s1 /\ img s1 = img s /\ freeblock s1 < 1000 /\ Forall is_u32 (i_addrs d1) /\
        (ind d <> 0 /\ s1 = s /\ d1 = d \/ ind d = 0 /\ freeblock s + 1 < 1000 /\ s1 = Mkst (img s) (freeinode s) (freeblock s + 1)
          /\ d1 = i_with_addrs (<[Z.to_nat NDIRECT := freeblock s]> (i_addrs d)) d)) as (d1 & s1 & -> & Hd1 & Himg & Hfb1 & Hu1 & Hcase).
      { unfold r. destruct (Z.eqb_spec (ind d) 0) as [H0|H0].
        - assert (off = 6144) as ->. { destruct (Z.eq_dec off 6144) as [|Hne]; [done|]. destruct (proj2 (fi_ind _ _ _ _ _ Hf)); [unfold NDIRECT, BSIZE in *; zlia|done]. }
          change (6144 =? 6144) with true in Hroom. cbv iota in Hroom. destruct (take_block_eq s Hd) as [-> Hd']; [change FSSIZE with 1000; lia|]. rewrite (xint_id (freeblock s)) by (unfold is_u32; lia).
          eexists _, _. split; [reflexivity|]. split; [done|]. split; [done|]. split; [cbn; lia|]. split; [apply Forall_insert; [done|unfold is_u32; lia]|]. right. split; [done|]. split; [lia|done].
        - exists d, s. do 3 (split; [done|]). split; [destruct (off =? 6144); lia|]. split; [done|]. by left. }
      destruct (block_new_indirect s s1 d d1 off (freeblock s1) Hd Hf Hm Hind ltac:(unfold MAXFILE, NDIRECT, NINDIRECT, BSIZE; lia) Hcase eq_refl Hfb1) as (Hst & Hgb & Hz & Hib).
      rewrite Hx by done. change (addr d1 NDIRECT) with (ind d1). rewrite rsect_ok by (done || (change FSSIZE with 1000; lia)). cbn [obind].
      assert (sect s1 (ind d1) = sect s (ind d1)) as -> by (unfold dblk; by rewrite Himg). rewrite (proj2 (Z.eqb_eq _ _) Hz).
      destruct (take_block_eq s1 Hd1 Hfb1) as [-> _]. rewrite (xint_id (freeblock s1)) by (unfold is_u32; lia).
      eexists _, _. split; [|exact Hst]. rewrite Hgb, ld32_st32_eq, u32_id by (unfold is_u32; lia). by rewrite xint_id by (unfold is_u32; lia).
    + pose proof (proj2 Hg Hm) as Hn. assert (ind d <> 0) as Hi0.
      { intros H0. apply Hn. unfold gblk. rewrite (proj2 (Z.ltb_ge _ _) Hind), H0. done. }
      assert (gblk (sect s) d (off / BSIZE) = ld32 (sect s (ind d)) (4 * (off / BSIZE - NDIRECT))) as Eg.
      { unfold gblk. by rewrite (proj2 (Z.ltb_ge _ _) Hind), (proj2 (Z.eqb_neq _ _) Hi0). }
      rewrite (proj2 (Z.eqb_neq _ _) Hi0), Hx by done. change (addr d NDIRECT) with (ind d).
      pose proof (fi_range _ _ _ _ _ Hf _ (gowns_ind _ _ Hi0)) as Hir. change nmeta with 59 in Hir.
      rewrite rsect_ok by (done || (change FSSIZE with 1000; lia)). cbn [obind]. rewrite <- Eg, (proj2 (Z.eqb_neq _ _) Hn), <- Eg.
      exists s, d. rewrite xint_id by (rewrite Eg; apply ld32_range). split; [done|]. apply block_old; [done|done|unfold MAXFILE, NDIRECT, NINDIRECT, BSIZE; lia|done].
Qed.

(** After the bytes [p] were appended to a file that was [d0], of size [off0], in
    the state [s0]. *)
Record appended (s0 : mkst) (d0 : inode) (off0 : Z) (s : mkst) (d : inode) (off : Z) (p : list Z) : Prop := {
  ap_img : disk_img s;
  ap_file : file_img (sect s) nmeta (freeblock s) d off;
  ap_fb : freeblock s = freeblock s0 + (nblk off - nblk off0);
  ap_fi : freeinode s = freeinode s0;
  ap_same b : b < freeblock s0 -> ~ gowns (sect s0) d0 b -> sect s b = sect s0 b;
  ap_owns b : gowns (sect s) d b -> gowns (sect s0) d0 b \/ freeblock s0 <= b;
  ap_old o : 0 <= o < off0 -> gbyte (sect s) d o = gbyte (sect s0) d0 o;
  ap_len : off = off0 + Z.of_nat (length p);
  ap_tail : tail0 (sect s) d off ((off + 511) / 512 * 512);
  ap_new k c : p !! k = Some c -> gbyte (sect s) d (off0 + Z.of_nat k) = c;
  ap_meta : exists a, d = i_with_addrs a d0
}.

Lemma nblk_mono a b : a <= b -> nblk a <= nblk b.
Proof. intros H. unfold nblk. destruct (Z.ltb_spec 6144 a), (Z.ltb_spec 6144 b); zlia. Qed.

(** An inode sees the sectors through their map only. *)
Lemma file_img_map V V' lo hi i sz : file_img V lo hi i sz -> (forall bn, gblk V' i bn = gblk V i bn) ->
  file_img V' lo hi i sz /\ forall b, gowns V' i b <-> gowns V i b.
Proof.
  intros [A B C D E F G] Hb. assert (forall b, gowns V' i b <-> gowns V i b) as Ho by (intros b; unfold gowns; by setoid_rewrite Hb).
  split; [|done]. split; [done|done|intros bn; rewrite Hb; apply C|done|intros b; rewrite Ho; apply E|intros bn bn'; rewrite !Hb; apply F|intros bn; rewrite Hb; apply G].
Qed.

(** The bytes after a write of [q] at [off] in the sector of its block. *)
Lemma gbyte_write V lo hi i off q o :
  file_img V lo hi i (off + 1) -> 0 <= off < MAXFILE * BSIZE -> off + Z.of_nat (length q) <= (off / BSIZE + 1) * BSIZE -> q <> [] ->
  Forall (fun c => 0 <= c < 256) q ->
  let x := gblk V i (off / BSIZE) in
  let V' := fun b => if decide (b = x) then put_bytes (V x) (off - off / BSIZE * BSIZE) q else V b in
  (forall bn, gblk V' i bn = gblk V i bn)
  /\ (0 <= o < (off / 512 + 1) * 512 -> gbyte V' i o = if decide (off <= o < off + Z.of_nat (length q)) then default 0 (q !! Z.to_nat (o - off)) else gbyte V i o).
Proof.
  intros Hf Hoff Hlen Hq HF x V'. unfold MAXFILE, NDIRECT, NINDIRECT, BSIZE in Hoff, Hlen.
  assert (0 <= off / BSIZE < MAXFILE) as Hbn by (unfold MAXFILE, NDIRECT, NINDIRECT, BSIZE; zlia).
  assert (x <> 0) as Hx0 by (apply (fi_full _ _ _ _ _ Hf); [done|unfold BSIZE; zlia]).
  assert (forall bn, gblk V' i bn = gblk V i bn) as Hb.
  { intros bn. apply gblk_ext. intros Hn. unfold V'. rewrite decide_False; [done|]. intros Heq. by destruct (fi_indne _ _ _ _ _ Hf (off / BSIZE) Hbn Hn). }
  split; [done|]. intros Ho. unfold gbyte. rewrite Hb.
  assert (0 <= o / BSIZE < MAXFILE) as Hob by (unfold MAXFILE, NDIRECT, NINDIRECT, BSIZE; zlia).
  assert (gblk V i (o / BSIZE) <> 0) as Ho0 by (apply (fi_full _ _ _ _ _ Hf); [done|unfold BSIZE; zlia]).
  unfold V'. destruct (decide (gblk V i (o / BSIZE) = x)) as [Heq|Hne].
  - apply (fi_inj _ _ _ _ _ Hf) in Heq; [|done..]. unfold BSIZE in *. rewrite ld8_put_bytes. repeat case_decide; try zlia.
    + replace (o mod 512 - (off - off / 512 * 512)) with (o - off) by zlia. destruct (q !! Z.to_nat (o - off)) as [c|] eqn:E; [|done]. cbn.
      rewrite Forall_lookup in HF. apply HF in E. by apply Z.mod_small.
    + unfold x. by rewrite Heq.
  - assert (o / BSIZE <> off / BSIZE) as Hd by (intros Heq; apply Hne; unfold x; by rewrite Heq). unfold BSIZE in *. rewrite decide_False by zlia. done.
Qed.

(** Writing in the sector of block [off / BSIZE]. *)
Lemma append_chunk s0 d0 off0 s d off p s1 d1 q :
  appended s0 d0 off0 s d off p -> block_step s d off s1 d1 -> 0 <= off0 -> off < MAXFILE * BSIZE -> q <> [] ->
  off + Z.of_nat (length q) <= (off / BSIZE + 1) * BSIZE -> Forall (fun c => 0 <= c < 256) q ->
  let x := gblk (sect s1) d1 (off / BSIZE) in
  let s2 := wsect x (put_bytes (sect s1 x) (off - off / BSIZE * BSIZE) q) s1 in
  0 <= x < FSSIZE /\ appended s0 d0 off0 s2 d1 (off + Z.of_nat (length q)) (p ++ q).
Proof.
  intros [A1 A2 A3 A4 A5 A6 A7 A8 At A9 A10] [B1 B2 B3 B4 B5 B6 B7 Bt B8] H0 Hlt Hq Hlen HF x s2.
  pose proof (fi_size _ _ _ _ _ A2) as Hsz. unfold MAXFILE, NDIRECT, NINDIRECT, BSIZE in Hlt, Hsz, Hlen.
  assert (0 <= off / BSIZE < MAXFILE) as Hbn by (unfold MAXFILE, NDIRECT, NINDIRECT, BSIZE; zlia).
  assert (0 < length q)%nat as Hql by (destruct q; cbn; [done|lia]).
  assert (x <> 0) as Hx0 by (apply (fi_full _ _ _ _ _ B2); [done|unfold BSIZE; zlia]).
  assert (gowns (sect s1) d1 x) as Hxo by (by apply gowns_blk). pose proof (fi_range _ _ _ _ _ B2 _ Hxo) as Hxr.
  pose proof (di_free _ B1) as Hfr. change nmeta with 59 in Hxr, Hfr. split; [lia|].
  pose proof (fun o => gbyte_write (sect s1) nmeta (freeblock s1) d1 off q o B2 ltac:(unfold MAXFILE, NDIRECT, NINDIRECT, BSIZE; lia) ltac:(unfold BSIZE; lia) Hq HF) as Hw.
  cbv zeta in Hw. fold x in Hw. set (V' := fun b => if decide (b = x) then _ else sect s1 b) in Hw.
  assert (forall b, sect s2 b = V' b) as HV by (intros b; unfold s2; apply sect_wsect).
  assert (forall bn, gblk (sect s2) d1 bn = gblk (sect s1) d1 bn) as Hb.
  { intros bn. rewrite <- (proj1 (Hw 0)). apply gblk_ext. intros _. apply HV. }
  assert (forall o, 0 <= o < (off / 512 + 1) * 512 -> gbyte (sect s2) d1 o = if decide (off <= o < off + Z.of_nat (length q)) then default 0 (q !! Z.to_nat (o - off)) else gbyte (sect s1) d1 o) as Hby.
  { intros o Ho. rewrite <- (proj2 (Hw o) Ho). unfold gbyte. by rewrite HV, Hb, (proj1 (Hw o)). }
  destruct (file_img_map _ (sect s2) _ _ _ _ B2 Hb) as [Hf2 Ho2]. split.
  - apply disk_img_wsect; [done|lia].
  - apply (file_img_size _ _ _ _ (off + 1)); [done|lia|lia|unfold BSIZE; zlia|unfold MAXFILE, NDIRECT, NINDIRECT, BSIZE; zlia].
  - change (freeblock s2) with (freeblock s1). assert (nblk (off + Z.of_nat (length q)) = nblk (off + 1)) as ->; [|lia].
    unfold nblk. destruct (Z.ltb_spec 6144 (off + Z.of_nat (length q))), (Z.ltb_spec 6144 (off + 1)); zlia.
  - cbn. congruence.
  - intros b Hlb Hnb. rewrite HV. unfold V'. rewrite decide_False.
    + rewrite B5; [by apply A5|pose proof (nblk_mono off0 off); lia|]. intros Hi ->. destruct (A6 (ind d) (gowns_ind _ _ Hi)); [done|lia].
    + intros ->. apply B6 in Hxo as [Hxo|Hxo]; [apply A6 in Hxo as [Hxo|Hxo]; [done|lia]|pose proof (nblk_mono off0 off); lia].
  - intros b. rewrite Ho2. intros Hg. apply B6 in Hg as [Hg|Hg]; [by apply A6|right; pose proof (nblk_mono off0 off); lia].
  - intros o Ho. rewrite Hby, decide_False by zlia. rewrite B7 by lia. by apply A7.
  - rewrite length_app. lia.
  - intros o Ho. rewrite Hby, decide_False by zlia. apply Bt; [done|zlia].
  - intros k c Hk. apply lookup_app_Some in Hk as [Hk|[Hk1 Hk2]].
    + pose proof (lookup_lt_Some _ _ _ Hk). rewrite Hby, decide_False by zlia. rewrite B7 by lia. by apply A9.
    + pose proof (lookup_lt_Some _ _ _ Hk2). rewrite Hby, decide_True by zlia. replace (Z.to_nat _) with (k - length p)%nat by lia. by rewrite Hk2.
  - destruct B8 as [a ->], A10 as [a' ->]. by exists a.
Qed.

Lemma appended_refl s d off : disk_img s -> file_img (sect s) nmeta (freeblock s) d off -> tail0 (sect s) d off ((off + 511) / 512 * 512) -> appended s d off s d off [].
Proof. intros Hd Hf Ht. split; [done|done|lia|done|done|by left|done|cbn; lia|done|done|]. exists (i_addrs d). by destruct d. Qed.

(** The loop appends all the bytes when there is room for them. *)
Lemma iappend_loop_spec fuel : forall s0 d0 off0 s d off p q,
  appended s0 d0 off0 s d off p -> 0 <= off0 -> (length q <= fuel)%nat -> Forall (fun c => 0 <= c < 256) q ->
  off + Z.of_nat (length q) <= MAXFILE * BSIZE -> freeblock s + (nblk (off + Z.of_nat (length q)) - nblk off) <= FSSIZE ->
  exists s' d', iappend_loop fuel d off q s = Ok (d', off + Z.of_nat (length q), s')
    /\ appended s0 d0 off0 s' d' (off + Z.of_nat (length q)) (p ++ q).
Proof.
  induction fuel as [|fuel IH]; intros s0 d0 off0 s d off p q Ha H0 Hl HF Hmax Hroom; (destruct q as [|c q]; [exists s, d; cbn [length Z.of_nat]; rewrite Z.add_0_r, app_nil_r; by split|]); [cbn in Hl; lia|].
  cbn [iappend_loop]. set (q0 := c :: q) in *. assert (0 < length q0)%nat as Hpos by (cbn; lia).
  pose proof (fi_size _ _ _ _ _ (ap_file _ _ _ _ _ _ _ Ha)) as Hsz. unfold MAXFILE, NDIRECT, NINDIRECT, BSIZE in Hmax, Hsz.
  assert (off / BSIZE < MAXFILE) as Hbn by (unfold MAXFILE, NDIRECT, NINDIRECT, BSIZE; zlia). rewrite (proj2 (Z.ltb_lt _ _) Hbn). cbn [negb].
  destruct (iappend_block_spec s d off (ap_img _ _ _ _ _ _ _ Ha) (ap_file _ _ _ _ _ _ _ Ha)) as (s1 & d1 & -> & Hst).
  { unfold MAXFILE, NDIRECT, NINDIRECT, BSIZE. lia. } { pose proof (nblk_mono (off + 1) (off + Z.of_nat (length q0))). lia. }
  cbn [obind]. set (n1 := Z.min _ _). assert (0 < n1 <= Z.of_nat (length q0) /\ off + n1 <= (off / BSIZE + 1) * BSIZE) as [Hn1 Hn2] by (unfold n1, BSIZE; zlia).
  assert (Z.of_nat (length (take (Z.to_nat n1) q0)) = n1) as Elen by (rewrite length_take; lia).
  destruct (append_chunk s0 d0 off0 s d off p s1 d1 (take (Z.to_nat n1) q0) Ha Hst H0) as [Hxr Ha2].
  { unfold MAXFILE, NDIRECT, NINDIRECT, BSIZE. lia. } { intros Hn. rewrite Hn in Elen. cbn in Elen. lia. } { by rewrite Elen. } { by apply Forall_take. }
  rewrite rsect_ok by (apply Hst || exact Hxr). cbn [obind]. set (s2 := wsect _ _ s1) in *. rewrite Elen in Ha2.
  assert (length q0 = (Z.to_nat n1 + length (drop (Z.to_nat n1) q0))%nat) as Ed by (rewrite length_drop; lia).
  rewrite u32_id by (unfold is_u32; lia).
  destruct (IH s0 d0 off0 s2 d1 (off + n1) (p ++ take (Z.to_nat n1) q0) (drop (Z.to_nat n1) q0) Ha2 H0) as (s' & d' & E & Ha').
  { lia. } { by apply Forall_drop. } { unfold MAXFILE, NDIRECT, NINDIRECT, BSIZE. lia. }
  { pose proof (ap_fb _ _ _ _ _ _ _ Ha2). pose proof (ap_fb _ _ _ _ _ _ _ Ha). replace (off + n1 + Z.of_nat (length (drop (Z.to_nat n1) q0))) with (off + Z.of_nat (length q0)) by lia. lia. }
  replace (off + n1 + Z.of_nat (length (drop (Z.to_nat n1) q0))) with (off + Z.of_nat (length q0)) in * by lia.
  rewrite <- app_assoc, take_drop in Ha'. exists s', d'. by split.
Qed.

(** * The whole image *)

(** The inode [n] on the image. *)
Definition din (s : mkst) (n : Z) : inode := get_dinode (sect s (mk_IBLOCK n)) (dinode_at n) inode0.

Lemma mk_IBLOCK_eq n : mk_IBLOCK n = n / 8 + 32.
Proof. reflexivity. Qed.

Lemma rinode_ok s n : disk_img s -> 0 <= n < 208 -> rinode n s = Ok (din s n).
Proof. intros Hd Hn. unfold rinode. rewrite rsect_ok; [done|done|]. rewrite mk_IBLOCK_eq. change FSSIZE with 1000. zlia. Qed.

Lemma winode_spec s n i : disk_img s -> 0 <= n < 208 -> fits i ->
  exists s', winode n i s = Ok s' /\ disk_img s' /\ freeinode s' = freeinode s /\ freeblock s' = freeblock s
    /\ (forall b, b <> mk_IBLOCK n -> sect s' b = sect s b) /\ disk_fields (din s' n) = disk_fields i
    /\ forall m, m <> n -> din s' m = din s m.
Proof.
  intros Hd Hn Hi. pose proof (di_free s Hd) as Hfr. change nmeta with 59 in Hfr. unfold winode.
  rewrite rsect_ok by (done || (rewrite mk_IBLOCK_eq; change FSSIZE with 1000; zlia)). cbn [obind]. eexists. split; [reflexivity|].
  split; [apply disk_img_wsect; [done|rewrite mk_IBLOCK_eq; zlia]|]. split; [done|]. split; [done|]. split; [intros b Hb; by rewrite sect_wsect, decide_False|].
  split; [unfold din; rewrite sect_wsect, decide_True by done; by apply get_put_dinode|].
  intros m Hne. unfold din. rewrite sect_wsect. case_decide as Hc; [|done]. rewrite Hc. apply get_dinode_ext. intros k Hk.
  apply ld8_put_dinode; [apply Hi|]. rewrite !mk_IBLOCK_eq in Hc. unfold dinode_at, IPB in *. zlia.
Qed.

(** A file is seen through the addresses of its inode. *)
Lemma gblk_addrs V i i' bn : i_addrs i' = i_addrs i -> gblk V i' bn = gblk V i bn.
Proof. intros H. unfold gblk, ind, addr. by rewrite H. Qed.

Lemma gowns_addrs V i i' b : i_addrs i' = i_addrs i -> gowns V i' b <-> gowns V i b.
Proof. intros H. unfold gowns. setoid_rewrite (gblk_addrs V i i' _ H). unfold ind, addr. by rewrite H. Qed.

Lemma gbyte_addrs V i i' o : i_addrs i' = i_addrs i -> gbyte V i' o = gbyte V i o.
Proof. intros H. unfold gbyte. by rewrite (gblk_addrs V i i' _ H). Qed.

Lemma file_img_addrs V lo hi i i' sz : i_addrs i' = i_addrs i -> file_img V lo hi i sz -> file_img V lo hi i' sz.
Proof.
  intros H [A B C D E F G]. assert (ind i' = ind i) as Hi by (unfold ind, addr; by rewrite H). split.
  - by rewrite H.
  - done.
  - intros bn. rewrite (gblk_addrs V i i' _ H). apply C.
  - by rewrite Hi.
  - intros b. rewrite (gowns_addrs V i i' _ H). apply E.
  - intros bn bn'. rewrite !(gblk_addrs V i i' _ H). apply F.
  - intros bn. rewrite Hi, (gblk_addrs V i i' _ H). apply G.
Qed.

(** Inode [n] is a file of type [t] with the bytes [c]. *)
Record fs_file (s : mkst) (n t : Z) (c : list Z) : Prop := {
  ff_fields : disk_fields (din s n) = (t, 0, 0, 1, Z.of_nat (length c), i_addrs (din s n));
  ff_type : 0 <= t < 32768;
  ff_img : file_img (sect s) nmeta (freeblock s) (din s n) (Z.of_nat (length c));
  ff_tail : tail0 (sect s) (din s n) (Z.of_nat (length c)) ((Z.of_nat (length c) + 511) / 512 * 512);
  ff_bytes k v : c !! k = Some v -> gbyte (sect s) (din s n) (Z.of_nat k) = v
}.

(** It stays as long as its inode and its sectors do. *)
Lemma fs_file_frame s s' n t c : fs_file s n t c -> freeblock s <= freeblock s' -> din s' n = din s n ->
  (forall b, gowns (sect s) (din s n) b -> sect s' b = sect s b) ->
  fs_file s' n t c /\ forall b, gowns (sect s') (din s' n) b <-> gowns (sect s) (din s n) b.
Proof.
  intros [A T B Z0 C] Hfb Hdin Hs. destruct (file_img_ext _ (sect s') _ _ (freeblock s') _ _ B Hfb Hs) as (B' & Hblk & Hown & Hby).
  rewrite Hdin. split; [|exact Hown]. split; rewrite ?Hdin; [done|done|done| |].
  - intros o Ho. rewrite Hby by lia. by apply Z0.
  - intros k v Hk. pose proof (lookup_lt_Some _ _ _ Hk). rewrite Hby by zlia. by apply C.
Qed.

(** The sectors of a list of files. *)
Definition total (L : list (Z * list Z)) : Z := foldr (fun tc n => nblk (Z.of_nat (length tc.2)) + n) 0 L.

(** The image holds the files [L], inode 1 first, and nothing else: the other
    inodes are free, the sectors from [freeblock] on are zero, and so are the
    log and the bitmap, which is written last. *)
Record fs_img (s : mkst) (L : list (Z * list Z)) : Prop := {
  fg_disk : disk_img s;
  fg_fi : freeinode s = Z.of_nat (length L) + 1;
  fg_max : (length L <= 199)%nat;
  fg_fb : freeblock s = nmeta + total L;
  fg_file k t c : L !! k = Some (t, c) -> fs_file s (Z.of_nat k + 1) t c;
  fg_disj k k' b : (k < length L)%nat -> (k' < length L)%nat -> k <> k' ->
    gowns (sect s) (din s (Z.of_nat k + 1)) b -> gowns (sect s) (din s (Z.of_nat k' + 1)) b -> False;
  fg_free n : Z.of_nat (length L) < n < 208 -> i_type (din s n) = 0;
  fg_sb : sect s 1 = put_sb mksb;
  fg_zero b : b = 0 \/ 2 <= b < 32 \/ b = 58 -> sect s b = ∅
}.

Lemma nblk_nonneg z : 0 <= z -> 0 <= nblk z.
Proof. intros H. unfold nblk. destruct (Z.ltb_spec 6144 z); zlia. Qed.

Lemma total_cons tc L : total (tc :: L) = nblk (Z.of_nat (length tc.2)) + total L.
Proof. reflexivity. Qed.

Lemma total_insert L k t c t' c' : L !! k = Some (t, c) ->
  total (<[k := (t', c')]> L) = total L + (nblk (Z.of_nat (length c')) - nblk (Z.of_nat (length c))).
Proof.
  revert k. induction L as [|[u e] L IH]; intros k Hk; [done|]. destruct k as [|k].
  - injection Hk as -> ->. change (<[0%nat := (t', c')]> ((t, c) :: L)) with ((t', c') :: L). rewrite !total_cons. cbn [snd]. lia.
  - change (<[S k := (t', c')]> ((u, e) :: L)) with ((u, e) :: <[k := (t', c')]> L). rewrite !total_cons, (IH k Hk). lia.
Qed.

Lemma total_app L L' : total (L ++ L') = total L + total L'.
Proof. induction L as [|tc L IH]; [done|]. rewrite <- app_comm_cons, !total_cons, IH. lia. Qed.

Lemma total_nonneg L : 0 <= total L.
Proof. induction L as [|tc L IH]; [done|]. rewrite total_cons. pose proof (nblk_nonneg (Z.of_nat (length tc.2))). lia. Qed.

(** The changes of one file's inode and sectors keep the rest of the image. *)
Lemma fs_img_update s s' L k t c c' :
  fs_img s L -> L !! k = Some (t, c) -> disk_img s' -> freeinode s' = freeinode s ->
  freeblock s' = freeblock s + (nblk (Z.of_nat (length c')) - nblk (Z.of_nat (length c))) -> freeblock s <= freeblock s' ->
  (forall m, 0 <= m < 208 -> m <> Z.of_nat k + 1 -> din s' m = din s m) ->
  (forall b, b < freeblock s -> ~ gowns (sect s) (din s (Z.of_nat k + 1)) b -> b < 32 \/ 58 <= b -> sect s' b = sect s b) ->
  (forall b, gowns (sect s') (din s' (Z.of_nat k + 1)) b -> gowns (sect s) (din s (Z.of_nat k + 1)) b \/ freeblock s <= b) ->
  fs_file s' (Z.of_nat k + 1) t c' -> fs_img s' (<[k := (t, c')]> L).
Proof.
  intros [A B M C D E F G H] Hk Hd Hfi Hfb Hle Hdin Hsec Hown Hfile. pose proof (lookup_lt_Some _ _ _ Hk) as Hkl.
  pose proof (ff_img _ _ _ _ (D _ _ _ Hk)) as Hi. pose proof (di_free s A) as Hfr. change nmeta with 59 in Hfr.
  assert (forall b, b = 0 \/ 2 <= b < 32 \/ b = 58 \/ b = 1 -> sect s' b = sect s b) as Hmeta.
  { intros b Hb. apply Hsec; [lia| |lia]. intros Hg. apply (fi_range _ _ _ _ _ Hi) in Hg. change nmeta with 59 in Hg. lia. }
  assert (forall j, (j < length L)%nat -> j <> k -> exists u e, L !! j = Some (u, e) /\ fs_file s' (Z.of_nat j + 1) u e
    /\ forall b, gowns (sect s') (din s' (Z.of_nat j + 1)) b <-> gowns (sect s) (din s (Z.of_nat j + 1)) b) as Hoth.
  { intros j Hj Hne. destruct (lookup_lt_is_Some_2 L j Hj) as [[u e] He]. exists u, e. split; [done|]. pose proof (D _ _ _ He) as Hf.
    apply (fs_file_frame s); [done|done|apply Hdin; lia|]. intros b Hb. pose proof (fi_range _ _ _ _ _ (ff_img _ _ _ _ Hf) b Hb) as Hr. change nmeta with 59 in Hr.
    apply Hsec; [lia| |lia]. intros Hg. by apply (E j k b). }
  split; rewrite ?length_insert; [done|congruence|done| | | | |by rewrite Hmeta by lia|intros b Hb; rewrite Hmeta by tauto; by apply H].
  - rewrite (total_insert L k t c) by done. lia.
  - intros j u e Hj. destruct (decide (j = k)) as [->|Hne].
    + rewrite list_lookup_insert_eq in Hj by done. by injection Hj as <- <-.
    + rewrite list_lookup_insert_ne in Hj by done. destruct (Hoth j (lookup_lt_Some _ _ _ Hj) Hne) as (u' & e' & E1 & E2 & _). congruence.
  - intros j j' b Hj Hj' Hne. destruct (decide (j = k)) as [->|H1], (decide (j' = k)) as [->|H2]; try done.
    + destruct (Hoth j' Hj' H2) as (u & e & E1 & _ & E3). rewrite E3. intros Hg Hg'. apply Hown in Hg as [Hg|Hg]; [by apply (E k j' b)|].
      pose proof (fi_range _ _ _ _ _ (ff_img _ _ _ _ (D _ _ _ E1)) b Hg'). lia.
    + destruct (Hoth j Hj H1) as (u & e & E1 & _ & E3). rewrite E3. intros Hg' Hg. apply Hown in Hg as [Hg|Hg]; [by apply (E k j b)|].
      pose proof (fi_range _ _ _ _ _ (ff_img _ _ _ _ (D _ _ _ E1)) b Hg'). lia.
    + destruct (Hoth j Hj H1) as (? & ? & _ & _ & E3), (Hoth j' Hj' H2) as (? & ? & _ & _ & E3'). rewrite E3, E3'. by apply E.
  - intros n Hn. rewrite Hdin by lia. by apply F.
Qed.

Lemma disk_fields_inv i t ma mi nl sz a : disk_fields i = (t, ma, mi, nl, sz, a) ->
  i_type i = t /\ i_major i = ma /\ i_minor i = mi /\ i_nlink i = nl /\ i_size i = sz /\ i_addrs i = a.
Proof. unfold disk_fields. by intros [= -> -> -> -> -> ->]. Qed.

Lemma fits_file s n t c : fs_file s n t c -> fits (din s n).
Proof.
  intros [A T B _ _]. pose proof (fi_size _ _ _ _ _ B) as Hsz. unfold MAXFILE, NDIRECT, NINDIRECT, BSIZE in Hsz.
  apply disk_fields_inv in A as (A1 & A2 & A3 & A4 & A5 & _). split; try lia; [unfold is_u32; lia|apply B].
Qed.

(** [iappend] appends to one file and leaves the others. *)
Lemma iappend_img s L k t c p :
  fs_img s L -> L !! k = Some (t, c) -> Forall (fun v => 0 <= v < 256) p ->
  Z.of_nat (length (c ++ p)) <= MAXFILE * BSIZE -> nmeta + total (<[k := (t, c ++ p)]> L) <= FSSIZE ->
  exists s', iappend (Z.of_nat k + 1) p s = Ok s' /\ fs_img s' (<[k := (t, c ++ p)]> L).
Proof.
  intros HI Hk HF Hmax Hroom. pose proof (fg_file _ _ HI _ _ _ Hk) as Hfile. pose proof (fg_disk _ _ HI) as Hd. pose proof (fits_file _ _ _ _ Hfile) as Hfit.
  pose proof (lookup_lt_Some _ _ _ Hk) as Hkl. pose proof (fg_max _ _ HI) as Hlm. set (n := Z.of_nat k + 1) in *. assert (0 <= n < 208) as Hn by lia.
  rewrite (total_insert L k t c) in Hroom by done. pose proof (fg_fb _ _ HI) as Hfb. destruct Hfile as [Hff Htt Hfi Htl Hby].
  assert (i_size (din s n) = Z.of_nat (length c)) as Hsz by (by apply (disk_fields_inv _ _ _ _ _ _ _ Hff)).
  unfold iappend. rewrite rinode_ok by done. cbn [obind]. rewrite Hsz. rewrite xint_id by (rewrite <- Hsz; apply Hfit). rewrite length_app, Nat2Z.inj_add in *.
  destruct (iappend_loop_spec (length p) s (din s n) (Z.of_nat (length c)) s (din s n) (Z.of_nat (length c)) [] p) as (s1 & d1 & -> & Ha);
    [by apply appended_refl|lia|lia|done|done|lia|].
  cbn [obind]. destruct Ha as [A1 A2 A3 A4 A5 A6 A7 A8 At A9 [a A10]]. rewrite app_nil_l in *.
  set (sz := Z.of_nat (length c) + Z.of_nat (length p)) in *. unfold MAXFILE, NDIRECT, NINDIRECT, BSIZE in Hmax.
  rewrite xint_id by (unfold is_u32; lia). set (d2 := i_with_size sz d1).
  assert (fits d2) as Hfit2.
  { destruct Hfit as [F1 F2 F3 F4 F5 F6]. unfold d2. rewrite A10 in *. split; cbn [i_type i_major i_minor i_nlink i_size i_addrs i_with_size i_with_addrs]; [done..|unfold is_u32; lia|apply (fi_addrs _ _ _ _ _ A2)]. }
  destruct (winode_spec s1 n d2 A1 Hn Hfit2) as (s' & -> & D1 & D2 & D3 & D4 & D5 & D6). exists s'. split; [done|].
  assert (i_addrs (din s' n) = i_addrs d1) as Hadr by (by apply (disk_fields_inv _ _ _ _ _ _ _ D5)).
  assert (forall b, b < 32 \/ 58 <= b -> sect s' b = sect s1 b) as Hs'.
  { intros b Hb. apply D4. rewrite mk_IBLOCK_eq. zlia. }
  assert (forall b, gowns (sect s1) d1 b -> sect s' b = sect s1 b) as Hg1.
  { intros b Hb. apply (fi_range _ _ _ _ _ A2) in Hb. change nmeta with 59 in Hb. apply Hs'. lia. }
  destruct (file_img_ext _ (sect s') _ _ (freeblock s') _ _ A2 ltac:(lia) Hg1) as (B1 & B2 & B3 & B4).
  pose proof (nblk_mono (Z.of_nat (length c)) sz ltac:(lia)) as Hmono. pose proof (di_free s Hd) as Hfr. change nmeta with 59 in Hfr.
  apply (fs_img_update s s' L k t c); [done|done|done|congruence|rewrite length_app, Nat2Z.inj_add; fold sz; lia|lia| | | |].
  - intros m Hm Hne. rewrite D6 by done. unfold din. rewrite A5; [done|rewrite mk_IBLOCK_eq; zlia|]. intros Hg.
    apply (fi_range _ _ _ _ _ Hfi) in Hg. rewrite mk_IBLOCK_eq in Hg. change nmeta with 59 in Hg. zlia.
  - intros b Hb Hg Hr. rewrite Hs' by done. by apply A5.
  - intros b. fold n. rewrite (gowns_addrs _ d1 (din s' n) b Hadr), B3. apply A6.
  - fold n. split; rewrite ?length_app, ?Nat2Z.inj_add; fold sz.
    + apply disk_fields_inv in Hff as (F1 & F2 & F3 & F4 & _). rewrite Hadr. rewrite D5. unfold disk_fields, d2. rewrite A10. cbn [i_type i_major i_minor i_nlink i_size i_addrs i_with_size i_with_addrs]. by rewrite F1, F2, F3, F4.
    + done.
    + by apply (file_img_addrs _ _ _ d1).
    + intros o Ho. rewrite (gbyte_addrs _ d1) by done. rewrite B4 by lia. by apply At.
    + intros j v Hj. pose proof (lookup_lt_Some _ _ _ Hj) as Hjl. rewrite length_app in Hjl. rewrite (gbyte_addrs _ d1) by done. rewrite B4 by zlia.
      apply lookup_app_Some in Hj as [Hj|[Hj1 Hj2]].
      * pose proof (lookup_lt_Some _ _ _ Hj). rewrite A7 by lia. by apply Hby.
      * rewrite <- (A9 _ _ Hj2). f_equal. lia.
Qed.

(** An inode without addresses is an empty file. *)
Lemma file_img_empty V lo hi i : i_addrs i = replicate 13 0 -> file_img V lo hi i 0 /\ forall b, ~ gowns V i b.
Proof.
  intros Ha. assert (forall k, addr i k = 0) as H0.
  { intros k. unfold addr. rewrite Ha. destruct (replicate 13 0 !! Z.to_nat k) eqn:E; [|done]. by apply lookup_replicate_1 in E as [-> _]. }
  assert (forall bn, gblk V i bn = 0) as Hb by (intros bn; unfold gblk, ind; rewrite !H0; by destruct (bn <? NDIRECT)).
  assert (forall b, ~ gowns V i b) as Hn by (intros b [Hz [->|(bn & _ & <-)]]; apply Hz; [apply H0|apply Hb]).
  split; [|done]. split.
  - rewrite Ha. split; [done|]. by apply Forall_replicate.
  - unfold MAXFILE, NDIRECT, NINDIRECT, BSIZE. lia.
  - intros bn Hbn. rewrite Hb. unfold BSIZE. lia.
  - unfold ind. rewrite H0. unfold NDIRECT, BSIZE. lia.
  - intros b Hg. by apply Hn in Hg.
  - intros bn bn' _ _ Hz. by rewrite Hb in Hz.
  - intros bn _ Hz. by unfold ind in Hz; rewrite H0 in Hz.
Qed.

Lemma ialloc_img s L t : fs_img s L -> (length L < 199)%nat -> 0 <= t < 32768 ->
  exists s', mk_ialloc t s = Ok (Z.of_nat (length L) + 1, s') /\ fs_img s' (L ++ [(t, [])]).
Proof.
  intros [A B M C D E F G H] Hlt Ht. pose proof (di_free s A) as Hfr. change nmeta with 59 in Hfr. unfold mk_ialloc. rewrite B. cbn [freeinode img freeblock].
  set (n := Z.of_nat (length L) + 1) in *. rewrite (u32_id (n + 1)) by (unfold is_u32; lia). rewrite (xshort_id t) by lia. change (xshort 1) with 1. change (xint 0) with 0.
  set (s1 := Mkst (img s) (n + 1) (freeblock s)). set (i := Inode _ _ _ _ _ _ _ _ _ _ _).
  assert (fits i) as Hfit by (split; cbn [i i_type i_major i_minor i_nlink i_size i_addrs]; try (unfold is_u32; lia); split; [done|by apply (Forall_replicate is_u32 13 0)]).
  destruct (winode_spec s1 n i) as (s' & -> & D1 & D2 & D3 & D4 & D5 & D6); [by destruct A; split|lia|done|]. cbn [obind]. exists s'. split; [done|].
  cbn [s1 freeinode freeblock] in D2, D3. change (sect s1) with (sect s) in D4. change (din s1) with (din s) in D6.
  destruct (disk_fields_inv _ _ _ _ _ _ _ D5) as (_ & _ & _ & _ & _ & Hadr). cbn [i i_addrs] in Hadr.
  destruct (file_img_empty (sect s') nmeta (freeblock s') (din s' n) Hadr) as [Hemp Hown].
  assert (forall b, b < 32 \/ 58 <= b -> sect s' b = sect s b) as Hs' by (intros b Hb; apply D4; rewrite mk_IBLOCK_eq; zlia).
  assert (forall j u e, L !! j = Some (u, e) -> fs_file s' (Z.of_nat j + 1) u e
    /\ forall b, gowns (sect s') (din s' (Z.of_nat j + 1)) b <-> gowns (sect s) (din s (Z.of_nat j + 1)) b) as Hoth.
  { intros j u e He. pose proof (lookup_lt_Some _ _ _ He). apply (fs_file_frame s); [by apply D|lia|apply D6; lia|].
    intros b Hb. apply (fi_range _ _ _ _ _ (ff_img _ _ _ _ (D _ _ _ He))) in Hb. change nmeta with 59 in Hb. apply Hs'. lia. }
  assert (forall j b, (j < length L)%nat -> gowns (sect s') (din s' (Z.of_nat j + 1)) b -> gowns (sect s) (din s (Z.of_nat j + 1)) b) as Hoth'.
  { intros j b Hj. destruct (lookup_lt_is_Some_2 L j Hj) as [[u e] He]. by apply (Hoth j u e). }
  split; rewrite ?length_app; cbn [length]; [done|lia|lia| | | | |by rewrite Hs' by lia|intros b Hb; rewrite Hs' by lia; by apply H].
  - rewrite total_app. change (total [(t, [])]) with 0. lia.
  - intros k u e Hk. apply lookup_app_Some in Hk as [Hk|[Hk1 Hk2]]; [by apply Hoth|]. apply list_lookup_singleton_Some in Hk2 as [Hk2 Hk3].
    injection Hk3 as <- <-. replace (Z.of_nat k + 1) with n by lia. split; [|done|done| |done].
    + rewrite D5. rewrite Hadr. reflexivity.
    + intros o Ho. cbn [length] in Ho. zlia.
  - intros k k' b Hk Hk' Hne Hg Hg'. destruct (decide (k = length L)) as [->|]; [by apply Hown in Hg|]. destruct (decide (k' = length L)) as [->|]; [by apply Hown in Hg'|].
    apply Hoth' in Hg, Hg'; [|lia..]. apply (E k k' b); [lia|lia|done|done|done].
  - intros m Hm. rewrite D6 by lia. apply F. lia.
Qed.

Lemma append_file_img fuel : forall s L k t c p,
  fs_img s L -> L !! k = Some (t, c) -> (length p <= fuel)%nat -> Forall (fun v => 0 <= v < 256) p ->
  Z.of_nat (length (c ++ p)) <= MAXFILE * BSIZE -> nmeta + total (<[k := (t, c ++ p)]> L) <= FSSIZE ->
  exists s', append_file fuel (Z.of_nat k + 1) p s = Ok s' /\ fs_img s' (<[k := (t, c ++ p)]> L).
Proof.
  induction fuel as [|fuel IH]; intros s L k t c p HI Hk Hl HF Hmax Hroom;
    (destruct p as [|v p]; [exists s; split; [done|]; rewrite app_nil_r; by rewrite list_insert_id|]); [cbn in Hl; lia|].
  cbn [append_file]. set (q := v :: p) in *. assert (0 < length q)%nat as Hq by (cbn; lia). set (m := Z.to_nat BSIZE).
  assert (c ++ q = (c ++ take m q) ++ drop m q) as Eq by (by rewrite <- app_assoc, take_drop).
  pose proof (f_equal length Eq) as El. rewrite (length_app _ (drop m q)) in El. pose proof (lookup_lt_Some _ _ _ Hk) as Hkl.
  rewrite (total_insert L k t c) in Hroom by done.
  destruct (iappend_img s L k t c (take m q) HI Hk) as (s1 & -> & HI1); [by apply Forall_take|lia| |].
  { rewrite (total_insert L k t c) by done. pose proof (nblk_mono (Z.of_nat (length (c ++ take m q))) (Z.of_nat (length (c ++ q)))). lia. }
  cbn [obind]. destruct (IH s1 _ k t (c ++ take m q) (drop m q) HI1) as (s' & E & HI').
  - by apply list_lookup_insert_eq.
  - rewrite length_drop. change m with 512%nat. lia.
  - by apply Forall_drop.
  - by rewrite <- Eq.
  - rewrite <- Eq, list_insert_insert_eq, (total_insert L k t c) by done. lia.
  - exists s'. rewrite <- Eq, list_insert_insert_eq in HI'. by split.
Qed.

(** * The files of the command line *)

Definition strip (name : list Z) : list Z := match name with 95 :: rest => rest | _ => name end.

(** The root directory: an entry for each file, from inode [n] on. *)
Fixpoint entries (n : Z) (files : list (list Z * list Z)) : list Z :=
  match files with [] => [] | f :: files => dirent n (strip f.1) ++ entries (n + 1) files end.

Definition root_dir (files : list (list Z * list Z)) : list Z := dirent 1 [46] ++ dirent 1 [46; 46] ++ entries 2 files.

(** The files of the image: the root directory, then those given. *)
Definition image_files (files : list (list Z * list Z)) : list (Z * list Z) :=
  (T_DIR, root_dir files) :: ((fun f => (T_FILE, f.2)) <$> files).

(** A file that mkfs takes. *)
Record good_file (f : list Z * list Z) : Prop := {
  gf_name : existsb (Z.eqb 47) f.1 = false;
  gf_chars : Forall (fun v => 0 <= v < 256) f.1;
  gf_bytes : Forall (fun v => 0 <= v < 256) f.2;
  gf_size : Z.of_nat (length f.2) <= MAXFILE * BSIZE
}.

Lemma dirent_length n name : length (dirent n name) = 16%nat.
Proof. unfold dirent. rewrite !length_app, length_take, length_replicate. cbn [length]. change (Z.to_nat DIRSIZ) with 14%nat. lia. Qed.

Lemma xshort_range x : 0 <= xshort x < 65536.
Proof. unfold xshort, u8. zlia. Qed.

Lemma dirent_bytes n name : Forall (fun v => 0 <= v < 256) name -> Forall (fun v => 0 <= v < 256) (dirent n name).
Proof.
  intros HF. pose proof (xshort_range n). unfold dirent. apply Forall_app. split; [repeat constructor; zlia|]. apply Forall_app. split; [by apply Forall_take|].
  apply Forall_replicate. lia.
Qed.

Lemma strip_bytes name : Forall (fun v => 0 <= v < 256) name -> Forall (fun v => 0 <= v < 256) (strip name).
Proof. intros HF. unfold strip. destruct name as [|c name]; [done|]. apply Forall_cons in HF as [HF1 HF2]. repeat case_match; try (by constructor); subst; by inversion HF1. Qed.

Lemma add_file_img s r F f :
  fs_img s ((T_DIR, r) :: F) -> good_file f -> (length F < 198)%nat ->
  Z.of_nat (length r) + 16 <= MAXFILE * BSIZE ->
  let L' := (T_DIR, r ++ dirent (Z.of_nat (length F) + 2) (strip f.1)) :: F ++ [(T_FILE, f.2)] in
  nmeta + total L' <= FSSIZE ->
  exists s', add_file 1 (f.1, Some f.2) s = Ok s' /\ fs_img s' L'.
Proof.
  intros HI [G1 G2 G3 G4] Hl Hr L' Hroom. unfold add_file. rewrite G1. set (e := dirent _ _) in L'.
  destruct (ialloc_img s _ T_FILE HI) as (s1 & E1 & HI1); [cbn; lia|unfold T_FILE; lia|]. fold (strip f.1). rewrite E1. cbn [obind length].
  replace (Z.of_nat (S (length F)) + 1) with (Z.of_nat (length F) + 2) by lia. fold e. unfold L' in *. rewrite total_cons, total_app in Hroom. cbn [snd] in Hroom.
  destruct (iappend_img s1 _ 0 T_DIR r e HI1) as (s2 & E2 & HI2); [done|by apply dirent_bytes, strip_bytes|rewrite length_app; unfold e; rewrite dirent_length; lia| |].
  { cbn [app]. change (<[0%nat := (T_DIR, r ++ e)]> ((T_DIR, r) :: F ++ [(T_FILE, [])])) with ((T_DIR, r ++ e) :: F ++ [(T_FILE, [])]).
    rewrite total_cons, total_app. cbn [snd]. change (total [(T_FILE, [])]) with 0. pose proof (total_nonneg [(T_FILE, f.2)]). lia. }
  change (Z.of_nat 0 + 1) with 1 in E2. rewrite E2. cbn [obind]. cbn [app] in HI2.
  change (<[0%nat := (T_DIR, r ++ e)]> ((T_DIR, r) :: F ++ [(T_FILE, [])])) with (((T_DIR, r ++ e) :: F) ++ [(T_FILE, [])]) in HI2.
  assert (length ((T_DIR, r ++ e) :: F) = S (length F)) as Elen by done.
  destruct (append_file_img (length f.2) s2 _ (S (length F)) T_FILE [] f.2 HI2) as (s3 & E3 & HI3); [|done|done|done| |].
  { rewrite lookup_app_r by lia. rewrite Elen, Nat.sub_diag. done. }
  { rewrite insert_app_r_alt, Elen, Nat.sub_diag by lia. cbn [app]. rewrite total_cons, total_app. cbn [snd]. change (<[0%nat := (T_FILE, f.2)]> [(T_FILE, [])]) with [(T_FILE, f.2)]. lia. }
  rewrite insert_app_r_alt, Elen, Nat.sub_diag in HI3 by lia. cbn [app] in HI3. change (<[0%nat := (T_FILE, f.2)]> [(T_FILE, [])]) with [(T_FILE, f.2)] in HI3.
  replace (Z.of_nat (S (length F)) + 1) with (Z.of_nat (length F) + 2) in E3 by lia. exists s3. by split.
Qed.

Lemma add_files_img files : forall s r F,
  fs_img s ((T_DIR, r) :: F) -> Forall good_file files -> (length F + length files <= 198)%nat ->
  Z.of_nat (length r) + 16 * Z.of_nat (length files) <= MAXFILE * BSIZE ->
  let L' := (T_DIR, r ++ entries (Z.of_nat (length F) + 2) files) :: F ++ ((fun f => (T_FILE, f.2)) <$> files) in
  nmeta + total L' <= FSSIZE ->
  exists s', add_files 1 ((fun f => (f.1, Some f.2)) <$> files) s = Ok s' /\ fs_img s' L'.
Proof.
  induction files as [|f files IH]; intros s r F HI HF Hl Hr L' Hroom.
  { exists s. split; [done|]. unfold L'. cbn [entries fmap list_fmap]. by rewrite !app_nil_r. }
  apply Forall_cons in HF as [Hf HF]. cbn [length] in Hl, Hr. cbn [fmap list_fmap add_files]. unfold L' in *. rewrite fmap_cons in Hroom. cbn [entries] in *.
  set (e := dirent _ _) in *. set (es := entries _ _) in *. assert (length e = 16%nat) as He by apply dirent_length.
  rewrite !total_cons, total_app, total_cons in Hroom. cbn [snd] in Hroom.
  assert (nblk (Z.of_nat (length (r ++ e))) <= nblk (Z.of_nat (length (r ++ e ++ es)))) as Hmono by (apply nblk_mono; rewrite !length_app; lia).
  destruct (add_file_img s r F f HI Hf) as (s1 & E1 & HI1); [lia|lia| |].
  { fold e. rewrite total_cons, total_app, total_cons. cbn [snd]. change (total []) with 0. pose proof (total_nonneg ((fun f => (T_FILE, f.2)) <$> files)). lia. }
  rewrite E1. cbn [obind]. fold e in HI1.
  destruct (IH s1 (r ++ e) (F ++ [(T_FILE, f.2)]) HI1 HF) as (s' & E & HI').
  - rewrite length_app. cbn. lia.
  - rewrite length_app. lia.
  - rewrite length_app. cbn [length]. replace (Z.of_nat (length F + 1) + 2) with (Z.of_nat (length F) + 2 + 1) by lia. fold es.
    rewrite <- !app_assoc. rewrite total_cons, total_app. cbn [snd app]. rewrite total_cons. cbn [snd]. lia.
  - exists s'. split; [exact E|]. rewrite length_app in HI'. cbn [length] in HI'. replace (Z.of_nat (length F + 1) + 2) with (Z.of_nat (length F) + 2 + 1) in HI' by lia.
    fold es in HI'. by rewrite <- !app_assoc in HI'.
Qed.

Lemma zero_sectors_spec n : forall i s, freeinode (zero_sectors n i s) = freeinode s /\ freeblock (zero_sectors n i s) = freeblock s
  /\ forall b, img (zero_sectors n i s) !! b = if decide (i <= b < i + Z.of_nat n) then Some ∅ else img s !! b.
Proof.
  induction n as [|n IH]; intros i s; cbn [zero_sectors]; [split; [done|]; split; [done|]; intros b; by rewrite decide_False by lia|].
  destruct (IH (i + 1) (wsect i ∅ s)) as (-> & -> & Hb). split; [done|]. split; [done|]. intros b. rewrite Hb. cbn [wsect img].
  destruct (decide (b = i)) as [->|Hne]; [rewrite lookup_insert_eq; repeat case_decide; (done || lia)|]. rewrite lookup_insert_ne by done. repeat case_decide; (done || lia).
Qed.

Lemma mk_start_img s0 : freeinode s0 = 1 -> freeblock s0 = nmeta -> (forall b, img s0 !! b = if decide (0 <= b < FSSIZE) then Some ∅ else None) ->
  fs_img (wsect 1 (put_sb mksb) s0) [].
Proof.
  intros Hfi Hfb Hb. set (s1 := wsect 1 (put_sb mksb) s0). change FSSIZE with 1000 in Hb.
  assert (forall b, b <> 1 -> sect s1 b = ∅) as Hs1.
  { intros b Hne. unfold s1. rewrite sect_wsect, decide_False by done. unfold dblk. rewrite Hb. by case_decide. }
  split; [split|..]; cbn [length].
  - intros b Hr. change FSSIZE with 1000 in Hr. cbn. destruct (decide (b = 1)) as [->|Hne]; [rewrite lookup_insert_eq; by eexists|]. rewrite lookup_insert_ne, Hb, decide_True by lia. by eexists.
  - cbn [s1 wsect freeblock]. rewrite Hfb. change nmeta with 59. change FSSIZE with 1000. lia.
  - intros b Hr. apply Hs1. cbn [s1 wsect freeblock] in Hr. rewrite Hfb in Hr. change nmeta with 59 in Hr. lia.
  - exact Hfi.
  - lia.
  - cbn [s1 wsect freeblock]. rewrite Hfb. unfold total. cbn [foldr]. lia.
  - done.
  - intros k k' b Hk. lia.
  - intros n Hn. unfold din. rewrite Hs1 by (rewrite mk_IBLOCK_eq; zlia). done.
  - unfold s1. by rewrite sect_wsect, decide_True.
  - intros b Hr. apply Hs1. lia.
Qed.

Lemma mk_root_img s1 : fs_img s1 [] -> exists s, mk_root s1 = Ok (1, s) /\ fs_img s [(T_DIR, dirent 1 [46] ++ dirent 1 [46; 46])].
Proof.
  intros HI. unfold mk_root.
  destruct (ialloc_img s1 [] T_DIR HI) as (s2 & E2 & HI2); [cbn; lia|unfold T_DIR; lia|]. rewrite E2. cbn [obind length]. change (Z.of_nat 0 + 1) with 1.
  change (negb (1 =? ROOTINO)) with false. cbv iota. cbn [app] in HI2.
  destruct (iappend_img s2 _ 0 T_DIR [] (dirent 1 [46]) HI2) as (s3 & E3 & HI3); [done|apply dirent_bytes; repeat constructor; lia|by vm_compute|by vm_compute|].
  change (Z.of_nat 0 + 1) with 1 in E3. rewrite E3. cbn [obind]. cbn [app] in HI3.
  destruct (iappend_img s3 _ 0 T_DIR (dirent 1 [46]) (dirent 1 [46; 46]) HI3) as (s4 & E4 & HI4); [done|apply dirent_bytes; repeat constructor; lia|by vm_compute|by vm_compute|].
  change (Z.of_nat 0 + 1) with 1 in E4. rewrite E4. cbn [obind]. exists s4. split; [done|]. exact HI4.
Qed.

Lemma mk_empty_img : exists s, mk_empty = Ok (1, s) /\ fs_img s [(T_DIR, dirent 1 [46] ++ dirent 1 [46; 46])].
Proof.
  unfold mk_empty. apply mk_root_img. destruct (zero_sectors_spec (Z.to_nat FSSIZE) 0 (Mkst ∅ 1 nmeta)) as (Hfi & Hfb & Hb). apply mk_start_img; [exact Hfi|exact Hfb|].
  intros b. rewrite Hb, Z2Nat.id by (change FSSIZE with 1000; lia). cbn [img]. by rewrite lookup_empty.
Qed.

Lemma mark_used_spec n : forall i d bj, 0 <= i -> 0 <= bj ->
  bit_set (mark_used n i d) bj = bool_decide (i <= bj < i + Z.of_nat n) || bit_set d bj.
Proof.
  induction n as [|n IH]; intros i d bj Hi Hj; cbn [mark_used]; [by rewrite bool_decide_eq_false_2 by lia|].
  rewrite IH by lia. change (Z.shiftl 1 (i mod 8)) with (bit_mask i). rewrite bit_set_mark by done.
  rewrite orb_assoc. f_equal. repeat case_bool_decide; (done || lia).
Qed.

Lemma entries_length n files : length (entries n files) = (16 * length files)%nat.
Proof. revert n. induction files as [|f files IH]; intros n; cbn [entries length]; [done|]. rewrite length_app, dirent_length, IH. lia. Qed.

Lemma root_dir_length files : Z.of_nat (length (root_dir files)) = 16 * (Z.of_nat (length files) + 2).
Proof. unfold root_dir. rewrite !length_app, !dirent_length, entries_length. lia. Qed.

(** The size that mkfs gives the root directory. *)
Definition root_size (files : list (list Z * list Z)) : Z := (Z.of_nat (length (root_dir files)) / BSIZE + 1) * BSIZE.

(** What mkfs leaves: the files, of which the root directory has its size
    rounded, and the bitmap of the sectors handed out. *)
Record built (s : mkst) (files : list (list Z * list Z)) : Prop := {
  bu_img : exists s1, fs_img s1 (image_files files) /\ freeblock s = freeblock s1
    /\ (forall b, b < 32 \/ 59 <= b -> sect s b = sect s1 b) /\ (forall n, 0 <= n < 208 -> n <> 1 -> din s n = din s1 n)
    /\ disk_fields (din s 1) = disk_fields (i_with_size (root_size files) (din s1 1));
  bu_map : forall b, 0 <= b -> bit_set (sect s 58) b = bool_decide (b < freeblock s)
}.

(** Files that fit in the sectors and the inodes. *)
Record fit (files : list (list Z * list Z)) : Prop := {
  ft_good : Forall good_file files;
  ft_inodes : (length files <= 198)%nat;
  ft_blocks : nmeta + total (image_files files) <= FSSIZE
}.

Lemma mkfs_main_spec files : fit files -> exists s, mkfs_main ((fun f => (f.1, Some f.2)) <$> files) = Ok s /\ built s files.
Proof.
  intros [HF Hn Hroom]. unfold mkfs_main. destruct mk_empty_img as (s0 & -> & HI0). cbn [obind].
  destruct (add_files_img files s0 _ [] HI0 HF) as (s1 & -> & HI1); [cbn; lia| |by rewrite <- app_assoc|].
  { rewrite length_app, !dirent_length. unfold MAXFILE, NDIRECT, NINDIRECT, BSIZE. lia. }
  rewrite <- app_assoc in HI1. change (Z.of_nat (length (A := Z * list Z) []) + 2) with 2 in HI1. cbn [app] in HI1. change (fs_img s1 (image_files files)) in HI1. cbn [obind].
  pose proof (fg_file _ _ HI1 0 T_DIR (root_dir files) eq_refl) as Hroot. change (Z.of_nat 0 + 1) with 1 in Hroot. pose proof (fg_disk _ _ HI1) as Hd1. pose proof (di_free _ Hd1) as Hfr.
  change nmeta with 59 in Hfr. change FSSIZE with 1000 in Hfr.
  rewrite rinode_ok by (done || lia). cbn [obind]. destruct (disk_fields_inv _ _ _ _ _ _ _ (ff_fields _ _ _ _ Hroot)) as (_ & _ & _ & _ & Hsz & _). rewrite Hsz.
  pose proof (root_dir_length files) as Hlen. rewrite (xint_id (Z.of_nat (length (root_dir files)))) by (unfold is_u32; lia).
  assert (is_u32 (root_size files)) as Hrs by (unfold is_u32, root_size, BSIZE; zlia). fold (root_size files). rewrite (u32_id (root_size files)), (xint_id (root_size files)) by done.
  destruct (winode_spec s1 1 (i_with_size (root_size files) (din s1 1))) as (s2 & -> & D1 & D2 & D3 & D4 & D5 & D6);
    [done|lia|by destruct (fits_file _ _ _ _ Hroot); split|]. cbn [obind]. unfold mk_balloc. rewrite D3. destruct (Z.ltb_spec (freeblock s1) (BSIZE * 8)); [|unfold BSIZE in *; lia]. cbn [negb].
  eexists. split; [reflexivity|]. change (sb_bmapstart mksb) with 58. split.
  - exists s1. split; [done|]. split; [done|]. split; [intros b Hb; rewrite sect_wsect, decide_False by lia; apply D4; change (mk_IBLOCK 1) with 32; lia|].
    assert (forall n, 0 <= n < 208 -> din (wsect 58 (mark_used (Z.to_nat (freeblock s1)) 0 ∅) s2) n = din s2 n) as Hdin.
    { intros n Hr. unfold din. rewrite sect_wsect, decide_False; [done|]. rewrite mk_IBLOCK_eq. zlia. }
    split; [intros n Hr Hne; rewrite Hdin by done; by apply D6|]. rewrite Hdin by lia. exact D5.
  - intros b Hb. rewrite sect_wsect, decide_True by done. rewrite mark_used_spec by lia. assert (bit_set ∅ b = false) as -> by (unfold bit_set, ld8; by rewrite lookup_empty).
    rewrite orb_false_r. apply bool_decide_ext. cbn [freeblock wsect]. rewrite D3. lia.
Qed.
