(* ===== verification/MkfsMount.v ===== *)
(** The kernel mounts what mkfs built: the file system is well formed, the bitmap
    marks exactly the blocks in use, and every file reads back as it was given. *)
From S2P Require Import Prelude Mem KString Spinlock Bio BioTheory Log LogTheory LogProps Fs FsBlocks FsTheory FsFile FsData FsInode FsWrite FsMount Mkfs MkfsTheory.

Section Mounted.
Context (me : Z).

#[local] Instance mk_ops : BlockOps lst := log_blocks me.
#[local] Instance mk_laws : BlockLaws lst := log_laws me.

(** A file system with the superblock of mkfs over the sectors of [s]. *)
Record mounted (s : mkst) (f : fs lst) : Prop := {
  mt_ok : log_ok me (blocks f) [];
  mt_cache : icache f = replicate NINODE inode0;
  mt_sb : sb f = mksb;
  mt_closed : outstanding (blocks f) = 0;
  mt_home b : log_home (blocks f) b <-> 0 <= b < FSSIZE /\ ~ 2 <= b < 32;
  mt_view b : ~ 2 <= b < 32 -> view (cache (blocks f)) b = sect s b
}.

Lemma decode_mksb : decode_sb (put_sb mksb) = mksb.
Proof. by vm_compute. Qed.

Lemma forkret_mounts s files : built s files -> exists f, forkret_first me (img s) FSSIZE = Ok f /\ mounted s f.
Proof.
  intros [(s1 & HI & Hfb & Hsec & Hdin & Hroot) Hmap].
  assert (sect s 1 = put_sb mksb) as H1 by (rewrite Hsec by lia; apply HI). assert (sect s 2 = ∅) as H2 by (rewrite Hsec by lia; apply (fg_zero _ _ HI); lia).
  assert (header_of 2 (img s) = []) as Hh by (unfold header_of; rewrite H2; done).
  destruct (forkret_first_spec me (img s) FSSIZE 2 30) as (l & E & Hok & Hlh & Ho & Hst & Hnl & Hsz & Hv).
  - change FSSIZE with 1000. lia.
  - rewrite H1, decode_mksb. by vm_compute.
  - rewrite H1, decode_mksb. by vm_compute.
  - rewrite Hh. split; [change FSSIZE with 1000; lia|constructor|]. intros b Hb. by apply not_elem_of_nil in Hb.
  - rewrite H2. by vm_compute.
  - rewrite Hh. cbn. lia.
  - unfold FSCAP. cbn. lia.
  - rewrite H1, decode_mksb in E. eexists. split; [exact E|]. split; cbn [blocks icache sb]; [done|done|done|done| |].
    + intros b. unfold log_home, in_log. rewrite Hst, Hnl, Hsz. lia.
    + intros b Hb. rewrite Hv by (unfold in_log; lia). by apply recovered_empty.
Qed.

Lemma mounted_geometry s f : mounted s f -> geometry f.
Proof.
  intros [_ _ Hsb _ Hh _]. split; rewrite ?Hsb; [by vm_compute..|]. intros b Hb. apply Hh. change (sb_inodestart mksb) with 32 in Hb. change (sb_size mksb) with 1000 in Hb. change FSSIZE with 1000. lia.
Qed.

Lemma mounted_used s files f b : built s files -> mounted s f -> 0 <= b < FSSIZE -> used f b = (b <? freeblock s).
Proof.
  intros Hb Hm Hr. pose proof (mounted_geometry _ _ Hm) as HG. change FSSIZE with 1000 in Hr. unfold used. rewrite (BBLOCK_eq f b HG) by (rewrite (mt_sb _ _ Hm); change (sb_size mksb) with 1000; lia).
  rewrite (mt_sb _ _ Hm). change (sb_bmapstart mksb) with 58. unfold BPB, BSIZE. replace (58 + b / 4096) with 58 by zlia. replace (b mod 4096) with b by zlia.
  change (b_view (blocks f) 58) with (view (cache (blocks f)) 58). rewrite (mt_view _ _ Hm) by lia. rewrite (bu_map _ _ Hb) by lia.
  destruct (Z.ltb_spec b (freeblock s)); [by rewrite bool_decide_eq_true_2|by rewrite bool_decide_eq_false_2 by lia].
Qed.

Lemma built_free s files : built s files -> 59 <= freeblock s <= 1000.
Proof. intros [(s1 & HI & -> & _) _]. exact (di_free _ (fg_disk _ _ HI)). Qed.

Lemma mounted_wf s files f : built s files -> mounted s f -> fs_wf f [].
Proof.
  intros Hb Hm. pose proof (built_free _ _ Hb). split; [apply Hm|by eapply mounted_geometry| |].
  - intros b Hr. assert (datastart f = 59) as Hds by (unfold datastart; rewrite (mt_sb _ _ Hm); by vm_compute). rewrite Hds in Hr.
    rewrite (mounted_used s files) by (done || (change FSSIZE with 1000; lia)). apply Z.ltb_lt. lia.
  - intros c Hc. by apply not_elem_of_nil in Hc.
Qed.

(** An inode with the addresses of a file of the image, whose size ends in the
    file's last sector. *)
Lemma mounted_inode s files f s1 d sz i :
  built s files -> mounted s f -> (forall b, 59 <= b -> sect s b = sect s1 b) -> freeblock s = freeblock s1 ->
  file_img (sect s1) nmeta (freeblock s1) d sz -> i_addrs i = i_addrs d -> i_dev i = ROOTDEV -> sz <= i_size i <= (sz + 511) / 512 * 512 ->
  inode_ok f i /\ forall o, 0 <= o < (sz + 511) / 512 * 512 -> byte f i o = gbyte (sect s1) d o.
Proof.
  intros Hb Hm Hsec Hfb Hf Ha Hd Hsz. pose proof (built_free _ _ Hb) as Hfr. apply (file_img_addrs _ _ _ _ i) in Hf as Hi; [|done].
  assert (forall b, gowns (sect s1) i b -> b_view (blocks f) b = sect s1 b) as Hv.
  { intros b Hg. apply (fi_range _ _ _ _ _ Hi) in Hg. change nmeta with 59 in Hg. rewrite <- Hsec by lia. apply (mt_view _ _ Hm). lia. }
  destruct (file_img_ext _ (b_view (blocks f)) _ _ (freeblock s1) _ _ Hi ltac:(lia) Hv) as (Hi' & Hblk & Hown & Hby).
  split; [|intros o Ho; rewrite <- (gbyte_addrs (sect s1) d i o Ha); by apply Hby]. destruct Hi' as [A B C D E F G].
  assert (datastart f = 59 /\ sb_size (sb f) = 1000) as [Hds Hss] by (unfold datastart; rewrite (mt_sb _ _ Hm); by vm_compute).
  unfold MAXFILE, NDIRECT, NINDIRECT, BSIZE in B. split; [done|apply A| |exact F|exact G| |].
  - intros b Hg. apply E in Hg. change nmeta with 59 in Hg. rewrite Hds, Hss. split; [lia|]. rewrite (mounted_used s files) by (done || (change FSSIZE with 1000; lia)). apply Z.ltb_lt. lia.
  - unfold MAXFILE, NDIRECT, NINDIRECT, BSIZE. zlia.
  - intros bn Hbn Hlt. unfold BSIZE in Hlt. change (gblk (b_view (blocks f)) i bn <> 0). apply C; [unfold MAXFILE, NDIRECT, NINDIRECT; zlia|unfold BSIZE; zlia].
Qed.

(** [iget], [ilock] and [readi] of an inode of the mounted file system. *)
Lemma mounted_read (dev_read : Z -> option (nat -> Z -> fs lst -> outcome (option (list Z) * fs lst))) s files f s1 n d sz off cnt :
  built s files -> mounted s f -> (forall b, 59 <= b -> sect s b = sect s1 b) -> freeblock s = freeblock s1 -> 0 <= n < 200 ->
  file_img (sect s1) nmeta (freeblock s1) d sz -> i_addrs (din s n) = i_addrs d -> sz <= i_size (din s n) <= (sz + 511) / 512 * 512 ->
  i_type (din s n) <> 0 -> i_type (din s n) <> T_DEV -> 0 <= off -> off + Z.of_nat cnt <= i_size (din s n) ->
  exists f1 f2 f3 i, iget ROOTDEV n f = Ok (0%nat, f1) /\ ilock me 0 f1 = Ok f2 /\ icache f2 !! 0%nat = Some i
    /\ disk_fields i = disk_fields (din s n) /\ inode_ok f2 i
    /\ readi dev_read 0 off (Z.of_nat cnt) f2 = Ok (Some ((fun k => gbyte (sect s1) d (off + Z.of_nat k)) <$> seq 0 cnt), f3).
Proof.
  intros Hb Hm Hsec Hfb Hn Hf Ha Hsz Ht Ht' Ho Hc. pose proof (mounted_wf _ _ _ Hb Hm) as Hw. pose proof (fi_size _ _ _ _ _ Hf) as Hmax. unfold MAXFILE, NDIRECT, NINDIRECT, BSIZE in Hmax.
  pose proof (iget_first f ROOTDEV n (mt_cache _ _ Hm)) as E1. set (i0 := Inode _ _ _ _ _ _ _ _ _ _ _) in E1. set (f1 := set_icache _ f) in E1.
  assert (IBLOCK n f = mk_IBLOCK n) as Hib by (unfold IBLOCK; rewrite (mt_sb _ _ Hm), mk_IBLOCK_eq; change (sb_inodestart mksb) with 32; apply u32_id; unfold is_u32, IPB; zlia).
  assert (disk_fields (ilocked me f1 i0) = disk_fields (din s n)) as Hld.
  { unfold ilocked, din. cbn [i_inum i0]. change (IBLOCK n f1) with (IBLOCK n f). rewrite Hib. change (b_view (blocks f1)) with (view (cache (blocks f))).
    rewrite (mt_view _ _ Hm) by (rewrite mk_IBLOCK_eq; zlia). reflexivity. }
  destruct (disk_fields_inv _ _ _ _ _ _ _ Hld) as (Hty & _ & _ & _ & Hs & Hadr).
  pose proof (ilock_loads me f1 0 i0 (mt_ok _ _ Hm) eq_refl (Z.le_refl 1) eq_refl eq_refl eq_refl) as HL. rewrite decide_False in HL by congruence.
  destruct HL as (f2 & E2 & Hok2 & F2 & I2). { cbn [i_inum i0]. change (IBLOCK n f1) with (IBLOCK n f). rewrite Hib. apply (mt_home _ _ Hm). rewrite mk_IBLOCK_eq. change FSSIZE with 1000. zlia. }
  set (i := ilocked me f1 i0) in *. destruct (mounted_inode s files f s1 d sz i) as [Hio Hby]; [done..|congruence|done|by rewrite Hs|].
  assert (effect f f2 ∅) as F by (by destruct F2).
  assert (inode_ok f2 i) as Hio2 by (by eapply inode_ok_effect0).
  pose proof (readi_spec dev_read f2 0 i off (Z.of_nat cnt)) as HR. rewrite decide_False in HR by lia.
  destruct HR as (f3 & E3 & _); [by eapply fs_wf_effect0|by rewrite I2|done|congruence|done|lia|zlia|].
  exists f1, f2, f3, i. split; [done|]. split; [done|]. split; [by rewrite I2|]. split; [done|]. split; [done|]. rewrite E3. do 3 f_equal.
  rewrite Z.min_l, Nat2Z.id by lia. unfold file_bytes. apply list_fmap_ext. intros k x Hx. apply lookup_seq in Hx as [-> Hx].
  rewrite <- Hby by lia. unfold byte. cbn [Nat.add]. rewrite (blk_view f f2) by (intros _; by apply (ef_same _ _ _ _ F)). f_equal. by apply (ef_same _ _ _ _ F).
Qed.

End Mounted.

Lemma built_file s files s1 k name bytes :
  fs_img s1 (image_files files) -> (forall n, 0 <= n < 208 -> n <> 1 -> din s n = din s1 n) -> files !! k = Some (name, bytes) ->
  fs_file s1 (Z.of_nat k + 2) T_FILE bytes /\ din s (Z.of_nat k + 2) = din s1 (Z.of_nat k + 2) /\ 0 <= Z.of_nat k + 2 < 200.
Proof.
  intros HI Hdin Hk. assert (image_files files !! S k = Some (T_FILE, bytes)) as Hl
    by (change (((fun fl => (T_FILE, fl.2)) <$> files) !! k = Some (T_FILE, bytes)); by rewrite list_lookup_fmap, Hk).
  pose proof (fg_file _ _ HI _ _ _ Hl) as Hf. replace (Z.of_nat (S k) + 1) with (Z.of_nat k + 2) in Hf by lia.
  pose proof (lookup_lt_Some _ _ _ Hl). pose proof (fg_max _ _ HI). split; [done|]. split; [apply Hdin; lia|lia].
Qed.

(** C11.  The kernel mounts the image that mkfs builds of files that fit: the file
    system is well formed, the bitmap marks the blocks handed out and no other,
    and [iget], [ilock] and [readi] of inode [k + 2] give file [k] as it was. *)
Theorem mkfs_mounts me (dev_read : Z -> option (nat -> Z -> fs lst -> outcome (option (list Z) * fs lst))) files : fit files ->
  exists s f, mkfs_main ((fun fl => (fl.1, Some fl.2)) <$> files) = Ok s /\ forkret_first me (img s) FSSIZE = Ok f
    /\ fs_wf (H0 := log_laws me) f [] /\ sb f = mksb /\ (forall b, 0 <= b < FSSIZE -> used (H0 := log_laws me) f b = (b <? freeblock s))
    /\ forall k name bytes, files !! k = Some (name, bytes) ->
       exists f1 f2 f3 i, iget ROOTDEV (Z.of_nat k + 2) f = Ok (0%nat, f1) /\ ilock (H := log_blocks me) me 0 f1 = Ok f2 /\ icache f2 !! 0%nat = Some i
         /\ i_type i = T_FILE /\ i_nlink i = 1 /\ i_size i = Z.of_nat (length bytes)
         /\ readi (H := log_blocks me) dev_read 0 0 (Z.of_nat (length bytes)) f2 = Ok (Some bytes, f3).
Proof.
  intros Hfit. destruct (mkfs_main_spec files Hfit) as (s & E & Hb). destruct (forkret_mounts me s files Hb) as (f & Em & Hm).
  exists s, f. split; [done|]. split; [done|]. split; [by eapply mounted_wf|]. split; [apply Hm|]. split; [intros b Hr; by eapply mounted_used|].
  intros k name bytes Hk. destruct (bu_img _ _ Hb) as (s1 & HI & Hfb & Hsec & Hdin & _). destruct (built_file s files s1 k name bytes HI Hdin Hk) as (Hf & Ed & Hn).
  pose proof (ff_fields _ _ _ _ Hf) as Hff. destruct (disk_fields_inv _ _ _ _ _ _ _ Hff) as (Ht & _ & _ & Hl & Hs & _).
  assert (forall b, 59 <= b -> sect s b = sect s1 b) as Hsec' by (intros b Hb'; apply Hsec; lia).
  destruct (mounted_read me dev_read s files f s1 (Z.of_nat k + 2) (din s1 (Z.of_nat k + 2)) (Z.of_nat (length bytes)) 0 (length bytes)
    Hb Hm Hsec' Hfb Hn (ff_img _ _ _ _ Hf)) as (f1 & f2 & f3 & i & E1 & E2 & E3 & Ei & _ & E4);
    [by rewrite Ed|rewrite Ed, Hs; zlia|by rewrite Ed, Ht|by rewrite Ed, Ht|lia|rewrite Ed, Hs; lia|].
  exists f1, f2, f3, i. rewrite Ed, Hff in Ei. destruct (disk_fields_inv _ _ _ _ _ _ _ Ei) as (Ht' & _ & _ & Hl' & Hs' & _).
  split; [done|]. split; [done|]. split; [done|]. split; [done|]. split; [done|]. split; [done|]. etrans; [exact E4|]. do 3 f_equal.
  apply list_eq. intros j. rewrite list_lookup_fmap. destruct (decide (j < length bytes)%nat) as [Hj|Hj].
  - rewrite lookup_seq_lt by done. destruct (lookup_lt_is_Some_2 bytes j Hj) as [v Hv]. rewrite Hv. cbn. f_equal. by apply (ff_bytes _ _ _ _ Hf).
  - rewrite lookup_seq_ge by lia. symmetry. apply lookup_ge_None. lia.
Qed.

(** The root directory reads as its entries and then free slots, as long as they
    do not fill their last block. *)
Theorem mkfs_root me (dev_read : Z -> option (nat -> Z -> fs lst -> outcome (option (list Z) * fs lst))) files :
  fit files -> (Z.of_nat (length files) + 2) mod 32 <> 0 ->
  exists s f f1 f2 f3, mkfs_main ((fun fl => (fl.1, Some fl.2)) <$> files) = Ok s /\ forkret_first me (img s) FSSIZE = Ok f
    /\ iget ROOTDEV ROOTINO f = Ok (0%nat, f1) /\ ilock (H := log_blocks me) me 0 f1 = Ok f2
    /\ readi (H := log_blocks me) dev_read 0 0 (root_size files) f2
       = Ok (Some (root_dir files ++ replicate (Z.to_nat (root_size files) - length (root_dir files)) 0), f3).
Proof.
  intros Hfit Hmod. destruct (mkfs_main_spec files Hfit) as (s & E & Hb). destruct (forkret_mounts me s files Hb) as (f & Em & Hm).
  destruct (bu_img _ _ Hb) as (s1 & HI & Hfb & Hsec & Hdin & Hroot). pose proof (fg_file _ _ HI 0 T_DIR (root_dir files) eq_refl) as Hf. change (Z.of_nat 0 + 1) with 1 in Hf.
  pose proof (ff_fields _ _ _ _ Hf) as Hff. destruct (disk_fields_inv _ _ _ _ _ _ _ Hff) as (Ht & _ & _ & _ & _ & _).
  destruct (disk_fields_inv _ _ _ _ _ _ _ Hroot) as (Ht' & _ & _ & _ & Hs & Ha). cbn [i_with_size i_type i_size i_addrs] in Ht', Hs, Ha.
  pose proof (root_dir_length files) as Hlen. set (n := Z.of_nat (length (root_dir files))) in *.
  assert (root_size files = (n + 511) / 512 * 512) as Hrs by (unfold root_size; fold n; unfold BSIZE; zlia).
  assert (n <= root_size files) as Hle by (rewrite Hrs; zlia).
  assert (forall b, 59 <= b -> sect s b = sect s1 b) as Hsec' by (intros b Hb'; apply Hsec; lia).
  destruct (mounted_read me dev_read s files f s1 1 (din s1 1) n 0 (Z.to_nat (root_size files)) Hb Hm Hsec' Hfb ltac:(lia) (ff_img _ _ _ _ Hf) Ha)
    as (f1 & f2 & f3 & i & E1 & E2 & E3 & Ei & _ & E4); [rewrite Hs, Hrs; zlia|by rewrite Ht', Ht|by rewrite Ht', Ht|lia|rewrite Hs; zlia|].
  exists s, f, f1, f2, f3. split; [done|]. split; [done|]. split; [done|]. split; [done|]. rewrite Z2Nat.id in E4 by zlia. etrans; [exact E4|]. do 3 f_equal.
  apply list_eq. intros j. rewrite list_lookup_fmap. destruct (decide (j < Z.to_nat (root_size files))%nat) as [Hj|Hj].
  - rewrite lookup_seq_lt by done. cbn [fmap option_fmap option_map Nat.add]. destruct (decide (j < length (root_dir files))%nat) as [Hj'|Hj'].
    + rewrite lookup_app_l by done. destruct (lookup_lt_is_Some_2 _ j Hj') as [v Hv]. rewrite Hv. f_equal. by apply (ff_bytes _ _ _ _ Hf).
    + rewrite lookup_app_r, lookup_replicate_2 by lia. f_equal. apply (ff_tail _ _ _ _ Hf). fold n. rewrite <- Hrs. lia.
  - rewrite lookup_seq_ge by lia. symmetry. apply lookup_ge_None. rewrite length_app, length_replicate. lia.
Qed.

(** Thirty empty files: with the two entries of the directory itself their entries
    fill one block, mkfs rounds the size up to two, and the second block was never
    allocated. *)
Definition files30 : list (list Z * list Z) := (fun k => ([97 + Z.of_nat k], [])) <$> seq 0 30.

(** Reading on past the entries before any lookup has gone that far panics the
    kernel: [readi] outside a transaction allocates the missing block. *)
Theorem mkfs_full_root_panics :
  (let! s := mkfs_main ((fun fl => (fl.1, Some fl.2)) <$> files30) in
   let! f := forkret_first 7 (img s) FSSIZE in
   let! (ip, f) := iget ROOTDEV ROOTINO f in
   let! f := ilock (H := log_blocks 7) 7 ip f in
   readi (H := log_blocks 7) (fun _ => None) ip 512 16 f) = Panic "log_write outside of trans".
Proof. by vm_compute. Qed.

(** A run of the operations of a transaction: [Some (k, i)] has operation [k] log
    buffer [i], [None] begins one. *)
Fixpoint run_ops (ops : list (option (nat * nat))) (x : lst * list Z) : option (lst * list Z) :=
  match ops with
  | [] => Some x
  | None :: ops => match begin_op x.1 with Some l => run_ops ops (l, 0 :: x.2) | None => None end
  | Some (k, i) :: ops =>
      match x.2 !! k, log_write i x.1 with
      | Some u, Ok l => if u <? MAXOPBLOCKS then run_ops ops (l, <[k := u + 1]> x.2) else None
      | _, _ => None
      end
  end.

Lemma run_ops_steps me ops : forall x y, run_ops ops x = Some y -> rtc (opstep me) x y.
Proof.
  induction ops as [|[[k i]|] ops IH]; intros [l used] y; cbn [run_ops fst snd].
  - intros [= ->]. apply rtc_refl.
  - destruct (used !! k) as [u|] eqn:Hu; [|done]. destruct (log_write i l) as [l'| |] eqn:E; try done. destruct (Z.ltb_spec u MAXOPBLOCKS); [|done].
    intros HR. eapply rtc_l; [by eapply op_write|by apply IH].
  - destruct (begin_op l) as [l'|] eqn:E; [|done]. intros HR. eapply rtc_l; [by eapply op_begin|by apply IH].
Qed.

(** The log that mkfs lays out is one block short of what [begin_op] reserves:
    three operations, each within MAXOPBLOCKS blocks, drive [log_write] into its
    panic. *)
Theorem mkfs_log_too_small me :
  exists l used u, rtc (opstep me) (Lst full_cache (sb_logstart mksb) (sb_nlog mksb) 0 false [], []) (l, used)
    /\ length used = 3%nat /\ used !! 0%nat = Some u /\ u < MAXOPBLOCKS /\ log_write 29 l = Panic "too big a transaction".
Proof.
  set (ops := [None; None; None] ++ ((fun i => Some (2%nat, i)) <$> seq 0 10) ++ ((fun i => Some (1%nat, i)) <$> seq 10 10) ++ ((fun i => Some (0%nat, i)) <$> seq 20 9)).
  assert (exists y, run_ops ops (Lst full_cache (sb_logstart mksb) (sb_nlog mksb) 0 false [], []) = Some y
    /\ y.2 = [9; 10; 10] /\ log_write 29 y.1 = Panic "too big a transaction") as ([l used] & E & Hu & Hw) by (eexists; split; [vm_compute; reflexivity|by vm_compute]).
  cbn [fst snd] in Hu, Hw. subst used. exists l, [9; 10; 10], 9. split; [exact (run_ops_steps me ops _ _ E)|].
  split; [reflexivity|]. split; [reflexivity|]. split; [reflexivity|exact Hw].
Qed.

(** * Runs *)

(** Two files, one with a name that starts with an underscore. *)
Definition files2 : list (list Z * list Z) := [([95; 97], [104; 105]); ([98], replicate 600 7)].

Lemma files2_fit : fit files2.
Proof.
  split; [|cbn; lia|by vm_compute]. repeat constructor; cbn [fst snd]; try (by vm_compute); try lia; apply Forall_replicate; lia.
Qed.

Lemma mkfs_mounts_witness :
  exists s f f1 f2 f3, mkfs_main ((fun fl => (fl.1, Some fl.2)) <$> files2) = Ok s /\ forkret_first 7 (img s) FSSIZE = Ok f
    /\ iget ROOTDEV 3 f = Ok (0%nat, f1) /\ ilock (H := log_blocks 7) 7 0 f1 = Ok f2
    /\ readi (H := log_blocks 7) (fun _ => None) 0 0 600 f2 = Ok (Some (replicate 600 7), f3).
Proof.
  destruct (mkfs_mounts 7 (fun _ => None) files2 files2_fit) as (s & f & E1 & E2 & _ & _ & _ & Hk).
  destruct (Hk 1%nat [98] (replicate 600 7) eq_refl) as (f1 & f2 & f3 & i & E3 & E4 & _ & _ & _ & _ & E5).
  exists s, f, f1, f2, f3. split; [exact E1|]. split; [exact E2|]. split; [exact E3|]. split; [exact E4|exact E5].
Defined.

Lemma mkfs_root_witness : exists s f f1 f2 f3, mkfs_main ((fun fl => (fl.1, Some fl.2)) <$> files2) = Ok s /\ forkret_first 7 (img s) FSSIZE = Ok f
  /\ iget ROOTDEV ROOTINO f = Ok (0%nat, f1) /\ ilock (H := log_blocks 7) 7 0 f1 = Ok f2
  /\ readi (H := log_blocks 7) (fun _ => None) 0 0 512 f2 = Ok (Some (root_dir files2 ++ replicate 448 0), f3).
Proof.
  destruct (mkfs_root 7 (fun _ => None) files2 files2_fit) as (s & f & f1 & f2 & f3 & E1 & E2 & E3 & E4 & E5); [by vm_compute|].
  exists s, f, f1, f2, f3. split; [exact E1|]. split; [exact E2|]. split; [exact E3|]. split; [exact E4|exact E5].
Defined.
