(* ===== verification/User.v ===== *)
(** User programs.  A program is the tree of the system calls it makes: a node
    per call, a branch per result, the bytes passed and returned as lists.
    usys.S and the traps below it are [Asm], [Syscall] and [Sysfile]; here a call
    is an edge.  A program that loops takes the number of rounds it may make. *)
From S2P Require Import Prelude Fs Printf Grep.

Inductive prog :=
| Exit
| Stuck (why : string)
| Fork (k : Z -> prog)
| Wait (k : Z -> prog)
| Exec (path : list Z) (argv : list (list Z)) (k : Z -> prog)
| Pipe (k : option (Z * Z) -> prog)
| Open (path : list Z) (mode : Z) (k : Z -> prog)
| Close (fd : Z) (k : Z -> prog)
| Dup (fd : Z) (k : Z -> prog)
| Read (fd n : Z) (k : option (list Z) -> prog)
| Write (fd : Z) (bytes : list Z) (k : Z -> prog)
| Fstat (fd : Z) (k : option stat -> prog)
| Link (old new : list Z) (k : Z -> prog)
| Unlink (path : list Z) (k : Z -> prog)
| Mkdir (path : list Z) (k : Z -> prog)
| Mknod (path : list Z) (major minor : Z) (k : Z -> prog)
| Chdir (path : list Z) (k : Z -> prog)
| Kill (pid : Z) (k : Z -> prog)
| Sleep (n : Z) (k : Z -> prog).

(** The characters of a literal. *)
Definition lit (s : string) : list Z := (fun c => Z.of_nat (Ascii.nat_of_ascii c)) <$> String.list_ascii_of_string s.
Definition litn (s : string) : list Z := lit s ++ [10].

(** * ulib.c and printf.c over the calls *)

(** [putc] for each character. *)
Fixpoint put_chars (fd : Z) (s : list Z) (k : prog) : prog :=
  match s with [] => k | c :: s => Write fd [c] (fun _ => put_chars fd s k) end.

(** [printf(fd, fmt, ...)]; string arguments are positions, from 1, in [strs]. *)
Definition fprintf (fd : Z) (fmt : list Z) (strs : list (list Z)) (ap : list Z) (k : prog) : prog :=
  match printf (fun a => default [] (strs !! Z.to_nat (a - 1))) fmt ap with
  | Ok s => put_chars fd s k
  | Panic e | UB e => Stuck e
  end.

(** A message with one [%s], and one without arguments. *)
Definition complain (fd : Z) (fmt : list Z) (arg : list Z) (k : prog) : prog := fprintf fd fmt [arg] [1] k.
Definition say (fd : Z) (fmt : list Z) (k : prog) : prog := fprintf fd fmt [] [] k.

(** [gets]: [room] more characters fit; [acc] those read. *)
Fixpoint gets_call (room : nat) (acc : list Z) (k : list Z -> prog) : prog :=
  match room with
  | O => k acc
  | S room =>
      Read 0 1 (fun r =>
        match r with
        | Some (c :: _) => if (c =? 10) || (c =? 13) then k (acc ++ [c]) else gets_call room (acc ++ [c]) k
        | _ => k acc
        end)
  end.

Definition stat_call (path : list Z) (k : option stat -> prog) : prog :=
  Open path 0 (fun fd =>
    if fd <? 0 then k None
    else Fstat fd (fun st => Close fd (fun _ => k st))).

(** * The programs, from [argv] without the name of the program *)

(** cat.c; [rounds] bounds the reads of each file. *)
Fixpoint cat (rounds : nat) (fd : Z) (k : prog) : prog :=
  match rounds with
  | O => Stuck "cat: rounds"
  | S rounds =>
      Read fd 512 (fun r =>
        match r with
        | None => say 1 (litn "cat: read error") Exit
        | Some [] => k
        | Some bytes =>
            Write 1 bytes (fun n =>
              if negb (n =? Z.of_nat (length bytes)) then say 1 (litn "cat: write error") Exit
              else cat rounds fd k)
        end)
  end.

Fixpoint cat_files (rounds : nat) (argv : list (list Z)) : prog :=
  match argv with
  | [] => Exit
  | a :: argv =>
      Open a 0 (fun fd =>
        if fd <? 0 then complain 1 (litn "cat: cannot open %s") a Exit
        else cat rounds fd (Close fd (fun _ => cat_files rounds argv)))
  end.

Definition cat_main (rounds : nat) (argv : list (list Z)) : prog :=
  match argv with [] => cat rounds 0 Exit | _ => cat_files rounds argv end.

(** echo.c *)
Fixpoint echo_main (argv : list (list Z)) : prog :=
  match argv with
  | [] => Exit
  | a :: rest => fprintf 1 (lit "%s%s") [a; match rest with [] => [10] | _ => [32] end] [1; 2] (echo_main rest)
  end.

(** wc.c: the lines, words and characters counted so far, and [inword]. *)
Record wcst := Wcst { wl : Z; ww : Z; wch : Z; inword : bool }.

Definition wc_space : list Z := [32; 13; 9; 10; 11].

Definition wc_char (s : wcst) (b : Z) : wcst :=
  let c := s32 (wch s + 1) in
  let l := if b =? 10 then s32 (wl s + 1) else wl s in
  match strchr wc_space b with
  | Some _ => Wcst l (ww s) c false
  | None => if inword s then Wcst l (ww s) c true else Wcst l (s32 (ww s + 1)) c true
  end.

Fixpoint wc (rounds : nat) (fd : Z) (name : list Z) (s : wcst) (k : prog) : prog :=
  match rounds with
  | O => Stuck "wc: rounds"
  | S rounds =>
      Read fd 512 (fun r =>
        match r with
        | None => say 1 (litn "wc: read error") Exit
        | Some [] => fprintf 1 (litn "%d %d %d %s") [name] [wl s; ww s; wch s; 1] k
        | Some bytes => wc rounds fd name (fold_left wc_char bytes s) k
        end)
  end.

Definition wc0 : wcst := Wcst 0 0 0 false.

Fixpoint wc_files (rounds : nat) (argv : list (list Z)) : prog :=
  match argv with
  | [] => Exit
  | a :: argv =>
      Open a 0 (fun fd =>
        if fd <? 0 then complain 1 (litn "wc: cannot open %s") a Exit
        else wc rounds fd a wc0 (Close fd (fun _ => wc_files rounds argv)))
  end.

Definition wc_main (rounds : nat) (argv : list (list Z)) : prog :=
  match argv with [] => wc rounds 0 [] wc0 Exit | _ => wc_files rounds argv end.

(** ls.c: the characters after the last slash of [path]. *)
Definition after_slash (path : list Z) : list Z := fold_left (fun s c => if c =? 47 then [] else s ++ [c]) path [].

Definition fmtname (path : list Z) : list Z :=
  let p := after_slash path in
  if DIRSIZ <=? Z.of_nat (length p) then p else p ++ replicate (Z.to_nat DIRSIZ - length p) 32.

Definition ls_line (path : list Z) (st : stat) (k : prog) : prog :=
  fprintf 1 (litn "%s %d %d %d") [fmtname path] [1; st_type st; st_ino st; st_size st] k.

(** The loop over the entries; [buf] is the path with its slash. *)
Fixpoint ls_dir (rounds : nat) (fd : Z) (buf : list Z) (k : prog) : prog :=
  match rounds with
  | O => Stuck "ls: rounds"
  | S rounds =>
      Read fd 16 (fun r =>
        match r with
        | Some (i0 :: i1 :: name) =>
            if negb (length name =? 14)%nat then k
            else if u8 i0 + 256 * u8 i1 =? 0 then ls_dir rounds fd buf k
            else
              let file := cstr (buf ++ name) in
              stat_call file (fun st =>
                match st with
                | None => complain 1 (litn "ls: cannot stat %s") file (ls_dir rounds fd buf k)
                | Some st => ls_line file st (ls_dir rounds fd buf k)
                end)
        | _ => k
        end)
  end.

Definition ls (rounds : nat) (path : list Z) (k : prog) : prog :=
  Open path 0 (fun fd =>
    if fd <? 0 then complain 2 (litn "ls: cannot open %s") path k
    else Fstat fd (fun st =>
      let done := Close fd (fun _ => k) in
      match st with
      | None => complain 2 (litn "ls: cannot stat %s") path done
      | Some st =>
          if st_type st =? T_FILE then ls_line path st done
          else if st_type st =? T_DIR then
            if 512 <? Z.of_nat (length path) + 1 + DIRSIZ + 1 then say 1 (litn "ls: path too long") done
            else ls_dir rounds fd (path ++ [47]) done
          else done
      end)).

Fixpoint ls_files (rounds : nat) (argv : list (list Z)) : prog :=
  match argv with [] => Exit | a :: argv => ls rounds a (ls_files rounds argv) end.

Definition ls_main (rounds : nat) (argv : list (list Z)) : prog :=
  match argv with [] => ls rounds [46] Exit | _ => ls_files rounds argv end.

(** rm.c and mkdir.c: the calls stop at the first failure. *)
Fixpoint rm_files (argv : list (list Z)) : prog :=
  match argv with
  | [] => Exit
  | a :: argv => Unlink a (fun r => if r <? 0 then complain 2 (litn "rm: %s failed to delete") a Exit else rm_files argv)
  end.

Definition rm_main (argv : list (list Z)) : prog :=
  match argv with [] => say 2 (litn "Usage: rm files...") Exit | _ => rm_files argv end.

Fixpoint mkdir_files (argv : list (list Z)) : prog :=
  match argv with
  | [] => Exit
  | a :: argv => Mkdir a (fun r => if r <? 0 then complain 2 (litn "mkdir: %s failed to create") a Exit else mkdir_files argv)
  end.

Definition mkdir_main (argv : list (list Z)) : prog :=
  match argv with [] => say 2 (litn "Usage: mkdir files...") Exit | _ => mkdir_files argv end.

(** ln.c, kill.c and zombie.c. *)
Definition ln_main (argv : list (list Z)) : prog :=
  match argv with
  | [old; new] => Link old new (fun r => if r <? 0 then fprintf 2 (litn "link %s %s: failed") [old; new] [1; 2] Exit else Exit)
  | _ => say 2 (litn "Usage: ln old new") Exit
  end.

Fixpoint kill_all (argv : list (list Z)) : prog :=
  match argv with [] => Exit | a :: argv => Kill (atoi a) (fun _ => kill_all argv) end.

Definition kill_main (argv : list (list Z)) : prog :=
  match argv with [] => say 2 (litn "usage: kill pid...") Exit | _ => kill_all argv end.

Definition zombie_main : prog := Fork (fun pid => if 0 <? pid then Sleep 5 (fun _ => Exit) else Exit).

(** grep.c over the calls: the whole lines at the front of [p], then the rest. *)
Fixpoint grep_write (fuel : nat) (pattern p : list Z) (k : list Z -> prog) : prog :=
  match fuel with
  | O => k p
  | S fuel =>
      match strchr_nl p with
      | None => k p
      | Some (l, r) =>
          if match_ pattern l then Write 1 (l ++ [NL]) (fun _ => grep_write fuel pattern r k)
          else grep_write fuel pattern r k
      end
  end.

Fixpoint grep_call (rounds : nat) (pattern kept : list Z) (fd : Z) (k : prog) : prog :=
  match rounds with
  | O => Stuck "grep: rounds"
  | S rounds =>
      Read fd (Z.of_nat (BUFSIZE - length kept - 1)) (fun r =>
        match r with
        | Some (c :: bytes) =>
            let buf := kept ++ c :: bytes in
            grep_write (length buf) pattern buf (fun p =>
              grep_call rounds pattern (if (length p =? length buf)%nat then [] else p) fd k)
        | _ => k
        end)
  end.

Fixpoint grep_files (rounds : nat) (pattern : list Z) (argv : list (list Z)) : prog :=
  match argv with
  | [] => Exit
  | a :: argv =>
      Open a 0 (fun fd =>
        if fd <? 0 then complain 1 (litn "grep: cannot open %s") a Exit
        else grep_call rounds pattern [] fd (Close fd (fun _ => grep_files rounds pattern argv)))
  end.

Definition grep_main (rounds : nat) (argv : list (list Z)) : prog :=
  match argv with
  | [] => say 2 (litn "usage: grep pattern [file ...]") Exit
  | [pattern] => grep_call rounds pattern [] 0 Exit
  | pattern :: files => grep_files rounds pattern files
  end.
