(* ===== verification/UserSys.v ===== *)
(** Running the user programs that do not fork, over any system with the calls of
    [Sys], and what they print under the laws of [StdLaws]. *)
From S2P Require Import Prelude Fs Printf Grep User.

(** The calls, on a state [W] of the system. *)
Class Sys (W : Type) := {
  do_open : list Z -> Z -> W -> outcome (Z * W);
  do_close : Z -> W -> outcome (Z * W);
  do_dup : Z -> W -> outcome (Z * W);
  do_read : Z -> Z -> W -> outcome (option (list Z) * W);
  do_write : Z -> list Z -> W -> outcome (Z * W);
  do_fstat : Z -> W -> outcome (option stat * W);
  do_link : list Z -> list Z -> W -> outcome (Z * W);
  do_unlink : list Z -> W -> outcome (Z * W);
  do_mkdir : list Z -> W -> outcome (Z * W);
  do_mknod : list Z -> Z -> Z -> W -> outcome (Z * W);
  do_chdir : list Z -> W -> outcome (Z * W);
  do_kill : Z -> W -> outcome (Z * W);
  do_sleep : Z -> W -> outcome (Z * W)
}.

(** A program up to its [exit]. *)
Fixpoint run_prog {W} `{Sys W} (p : prog) (w : W) : outcome W :=
  match p with
  | Exit => Ok w
  | Stuck why => UB why
  | Fork _ | Wait _ | Exec _ _ _ | Pipe _ => UB "run_prog: a call about processes"
  | Open path mode k => let! (r, w) := do_open path mode w in run_prog (k r) w
  | Close fd k => let! (r, w) := do_close fd w in run_prog (k r) w
  | Dup fd k => let! (r, w) := do_dup fd w in run_prog (k r) w
  | Read fd n k => let! (r, w) := do_read fd n w in run_prog (k r) w
  | Write fd bytes k => let! (r, w) := do_write fd bytes w in run_prog (k r) w
  | Fstat fd k => let! (r, w) := do_fstat fd w in run_prog (k r) w
  | Link old new k => let! (r, w) := do_link old new w in run_prog (k r) w
  | Unlink path k => let! (r, w) := do_unlink path w in run_prog (k r) w
  | Mkdir path k => let! (r, w) := do_mkdir path w in run_prog (k r) w
  | Mknod path major minor k => let! (r, w) := do_mknod path major minor w in run_prog (k r) w
  | Chdir path k => let! (r, w) := do_chdir path w in run_prog (k r) w
  | Kill pid k => let! (r, w) := do_kill pid w in run_prog (k r) w
  | Sleep n k => let! (r, w) := do_sleep n w in run_prog (k r) w
  end.

(** * What wc counts *)

Definition blank (c : Z) : bool := existsb (fun d => d =? c) wc_space.
Definition newlines (l : list Z) : nat := length (filter (fun c => c = 10) l).

(** A word starts at a character that is not blank, at the start of the text or
    after a blank. *)
Definition word_start (l : list Z) (i : nat) : bool :=
  match l !! i with
  | Some c => negb (blank c) && match i with O => true | S j => match l !! j with Some d => blank d | None => false end end
  | None => false
  end.

Definition words (l : list Z) : nat := length (filter (fun i => word_start l i = true) (seq 0 (length l))).

Definition in_word (l : list Z) : bool := match last l with Some c => negb (blank c) | None => false end.

Lemma strchr_blank c : match strchr wc_space c with Some _ => true | None => false end = blank c.
Proof. unfold blank, wc_space. cbn. by repeat case_match. Qed.

Lemma filter_agree (p q : nat -> bool) (l : list nat) : (forall i, i ∈ l -> p i = q i) -> filter (fun i => p i = true) l = filter (fun i => q i = true) l.
Proof.
  induction l as [|i l IH]; intros H; [done|]. rewrite !filter_cons, (H i) by left. rewrite IH; [done|]. intros k Hk. apply H. by right.
Qed.

Lemma word_start_app l c i : (i < length l)%nat -> word_start (l ++ [c]) i = word_start l i.
Proof.
  intros Hi. unfold word_start. rewrite lookup_app_l by done. destruct (l !! i); [|done]. destruct i as [|j]; [done|].
  by rewrite lookup_app_l by lia.
Qed.

Lemma word_start_last l c : word_start (l ++ [c]) (length l) = negb (blank c) && negb (in_word l).
Proof.
  unfold word_start, in_word. rewrite lookup_app_r, Nat.sub_diag by lia. change ([c] !! 0%nat) with (Some c). cbv iota. f_equal.
  destruct l as [|d l _] using rev_ind; [done|]. rewrite length_app, last_snoc. cbn [length]. rewrite Nat.add_1_r.
  rewrite <- app_assoc, lookup_app_r, Nat.sub_diag by lia. change (([d] ++ [c]) !! 0%nat) with (Some d). symmetry. apply negb_involutive.
Qed.

Lemma words_snoc l c : words (l ++ [c]) = (words l + if negb (blank c) && negb (in_word l) then 1 else 0)%nat.
Proof.
  unfold words. rewrite length_app. cbn [length]. rewrite Nat.add_1_r, seq_S, filter_app, length_app. cbn [Nat.add]. f_equal.
  - f_equal. apply filter_agree. intros i [_ Hi]%elem_of_seq. by apply word_start_app.
  - rewrite filter_cons, filter_nil, word_start_last. by destruct (negb _ && _).
Qed.

Lemma wc_counted l : Z.of_nat (length l) < 2147483648 ->
  fold_left wc_char l wc0 = Wcst (Z.of_nat (newlines l)) (Z.of_nat (words l)) (Z.of_nat (length l)) (in_word l)
  /\ (newlines l <= length l)%nat /\ (words l <= length l)%nat.
Proof.
  induction l as [|c l IH] using rev_ind; intros L; [done|]. rewrite length_app in L. cbn [length] in L.
  destruct IH as (E & N & Wd); [lia|]. rewrite fold_left_app, E. cbn [fold_left]. unfold wc_char. cbn [wl ww wch inword].
  rewrite !s32_id by (unfold is_s32; lia). unfold newlines in *. rewrite filter_app, words_snoc, !length_app. cbn [length].
  unfold in_word at 3. rewrite last_snoc. rewrite <- !strchr_blank, filter_cons, filter_nil. cbv zeta.
  destruct (Z.eqb_spec c 10); [rewrite decide_True by done|rewrite decide_False by done]; cbn [length];
    destruct (strchr wc_space c), (in_word l); cbn [negb andb]; (split; [f_equal; lia|lia]).
Qed.

(** Named files that can be read, descriptors with the bytes still to come, and
    the bytes written to descriptors 1 and 2, which go to none of the files. *)
Class StdLaws (W : Type) `{Sys W} := {
  filed : list Z -> W -> option (list Z);
  pending : Z -> W -> option (list Z);
  printed : Z -> W -> list Z;
  open_law path w : match filed path w with
    | Some l => exists fd w', do_open path 0 w = Ok (fd, w') /\ 0 <= fd /\ pending fd w' = Some l
        /\ (forall p, filed p w' = filed p w) /\ (forall d, printed d w' = printed d w)
    | None => exists r w', do_open path 0 w = Ok (r, w') /\ r < 0 /\ (forall d, printed d w' = printed d w)
    end;
  close_law fd w : exists r w', do_close fd w = Ok (r, w')
    /\ (forall p, filed p w' = filed p w) /\ (forall d, printed d w' = printed d w);
  read_law fd n l w : pending fd w = Some l -> 0 < n ->
    exists k w', do_read fd n w = Ok (Some (take k l), w') /\ Z.of_nat k <= n /\ (l <> [] -> (0 < k)%nat)
      /\ pending fd w' = Some (drop k l) /\ (forall p, filed p w' = filed p w) /\ (forall d, printed d w' = printed d w);
  write_law fd bytes w : fd = 1 \/ fd = 2 ->
    exists w', do_write fd bytes w = Ok (Z.of_nat (length bytes), w')
      /\ (forall d, printed d w' = if decide (d = fd) then printed d w ++ bytes else printed d w)
      /\ (forall p, filed p w' = filed p w) /\ (forall d, pending d w' = pending d w)
}.

Section Std.
Context {W : Type} `{StdLaws W}.
Implicit Types w : W.

(** From [w] to [w'] the program wrote [out] to descriptor 1 and [err] to 2. *)
Record writes w w' (out err : list Z) : Prop := {
  ws_out : printed 1 w' = printed 1 w ++ out;
  ws_err : printed 2 w' = printed 2 w ++ err;
  ws_files p : filed p w' = filed p w
}.

Lemma writes_refl w : writes w w [] [].
Proof. split; [by rewrite app_nil_r|by rewrite app_nil_r|done]. Qed.

Lemma writes_trans w1 w2 w3 o1 e1 o2 e2 : writes w1 w2 o1 e1 -> writes w2 w3 o2 e2 -> writes w1 w3 (o1 ++ o2) (e1 ++ e2).
Proof. intros [A B C] [A' B' C']. split; [by rewrite A', A, app_assoc|by rewrite B', B, app_assoc|intros p; by rewrite C']. Qed.

Lemma writes_quiet w w' : (forall p, filed p w' = filed p w) -> (forall d, printed d w' = printed d w) -> writes w w' [] [].
Proof. intros C P. split; [by rewrite P, app_nil_r|by rewrite P, app_nil_r|done]. Qed.

Lemma write_out w bytes : exists w', do_write 1 bytes w = Ok (Z.of_nat (length bytes), w') /\ writes w w' bytes [] /\ (forall d, pending d w' = pending d w).
Proof.
  destruct (write_law 1 bytes w (or_introl eq_refl)) as (w' & E & P & C & R). exists w'. split; [done|]. split; [|done].
  split; [by rewrite P, decide_True|by rewrite P, decide_False, app_nil_r|done].
Qed.

Lemma put_chars_out s : forall w k, exists w', run_prog (put_chars 1 s k) w = run_prog k w' /\ writes w w' s [] /\ (forall d, pending d w' = pending d w).
Proof.
  induction s as [|c s IH]; intros w k; cbn [put_chars]; [exists w; split; [done|split; [apply writes_refl|done]]|].
  cbn [run_prog]. destruct (write_out w [c]) as (w1 & -> & W1 & R1). cbn [obind]. destruct (IH w1 k) as (w2 & -> & W2 & R2).
  exists w2. split; [done|]. split; [exact (writes_trans _ _ _ _ _ _ _ W1 W2)|intros d; by rewrite R2].
Qed.

(** [printf] to descriptor 1 writes its text. *)
Lemma fprintf_out fmt strs ap s w k :
  printf (fun a => default [] (strs !! Z.to_nat (a - 1))) fmt ap = Ok s ->
  exists w', run_prog (fprintf 1 fmt strs ap k) w = run_prog k w' /\ writes w w' s [] /\ (forall d, pending d w' = pending d w).
Proof. intros E. unfold fprintf. rewrite E. apply put_chars_out. Qed.

(** * cat *)

Lemma cat_spec rounds fd : forall l w k, pending fd w = Some l -> (length l < rounds)%nat ->
  exists w', run_prog (cat rounds fd k) w = run_prog k w' /\ writes w w' l [].
Proof.
  induction rounds as [|rounds IH]; intros l w k P L; [lia|]. cbn [cat run_prog].
  destruct (read_law fd 512 l w P ltac:(lia)) as (n & w1 & -> & _ & Hn & P1 & C1 & D1). cbn [obind].
  pose proof (writes_quiet _ _ C1 D1) as W1. destruct (take n l) as [|c bs] eqn:T.
  - assert (l = []) as -> by (destruct l; [done|]; specialize (Hn ltac:(done)); destruct n; [lia|done]).
    by exists w1.
  - cbn [run_prog]. destruct (write_out w1 (c :: bs)) as (w2 & -> & W2 & R2). cbn [obind]. rewrite Z.eqb_refl. cbn [negb].
    destruct (IH (drop n l) w2 k) as (w3 & -> & W3); [by rewrite R2|assert (length (take n l) = S (length bs)) as H' by (by rewrite T); rewrite length_take in H'; rewrite length_drop; lia|].
    exists w3. split; [done|]. rewrite <- (take_drop n l), T.
    exact (writes_trans _ _ _ _ _ _ _ W1 (writes_trans _ _ _ _ _ _ _ W2 W3)).
Qed.

(** The files of [argv], in order, and their bytes. *)
Definition files_are w (argv ls : list (list Z)) : Prop := Forall2 (fun a l => filed a w = Some l) argv ls.

Lemma files_are_writes w w' argv ls o e : writes w w' o e -> files_are w argv ls -> files_are w' argv ls.
Proof. intros [_ _ C] F. eapply Forall2_impl; [exact F|]. intros a l. by rewrite C. Qed.

(** One file of the loops of [main]: opened, read by [body], closed. *)
Lemma open_reads a l w : filed a w = Some l ->
  exists fd w', do_open a 0 w = Ok (fd, w') /\ (fd <? 0) = false /\ pending fd w' = Some l /\ writes w w' [] [].
Proof.
  intros F. pose proof (open_law a w) as O. rewrite F in O. destruct O as (fd & w' & E & Hfd & P & C & D).
  exists fd, w'. split; [done|]. split; [by apply Z.ltb_ge|]. split; [done|]. by apply writes_quiet.
Qed.

Lemma close_writes fd k w : exists w', run_prog (Close fd (fun _ => k)) w = run_prog k w' /\ writes w w' [] [].
Proof. destruct (close_law fd w) as (r & w' & E & C & D). exists w'. cbn [run_prog]. rewrite E. split; [done|]. by apply writes_quiet. Qed.

Lemma cat_files_spec rounds argv : forall ls w, files_are w argv ls -> Forall (fun l => (length l < rounds)%nat) ls ->
  exists w', run_prog (cat_files rounds argv) w = Ok w' /\ writes w w' (concat ls) [].
Proof.
  induction argv as [|a argv IH]; intros ls w F L.
  - apply Forall2_nil_inv_l in F as ->. exists w. split; [done|apply writes_refl].
  - apply Forall2_cons_inv_l in F as (l & ls' & Ha & F & ->). apply Forall_cons in L as [Ll L]. cbn [cat_files run_prog].
    destruct (open_reads a l w Ha) as (fd & w1 & -> & E & P & W1). cbn [obind]. rewrite E.
    destruct (cat_spec rounds fd l w1 (Close fd (fun _ => cat_files rounds argv)) P Ll) as (w2 & -> & W2).
    destruct (close_writes fd (cat_files rounds argv) w2) as (w3 & -> & W3).
    pose proof (writes_trans _ _ _ _ _ _ _ W1 (writes_trans _ _ _ _ _ _ _ W2 W3)) as W5. rewrite app_nil_r in W5.
    destruct (IH ls' w3) as (w4 & E4 & W4); [exact (files_are_writes _ _ _ _ _ _ W5 F)|done|].
    exists w4. split; [exact E4|]. exact (writes_trans _ _ _ _ _ _ _ W5 W4).
Qed.

(** [cat] of files that can be read writes their bytes one after the other to
    descriptor 1 and nothing to descriptor 2, however the reads split them; it
    ends whenever the rounds of its loop outnumber the bytes of each file. *)
Theorem cat_copies rounds argv ls w :
  argv <> [] -> files_are w argv ls -> Forall (fun l => (length l < rounds)%nat) ls ->
  exists w', run_prog (cat_main rounds argv) w = Ok w' /\ printed 1 w' = printed 1 w ++ concat ls /\ printed 2 w' = printed 2 w.
Proof.
  intros Ha F L. unfold cat_main. destruct argv as [|a argv]; [done|].
  destruct (cat_files_spec rounds (a :: argv) ls w F L) as (w' & E & [A B _]). exists w'. by rewrite app_nil_r in B.
Qed.

(** * wc *)

(** The line [wc] prints, from the three numbers printed. *)
Definition wc_line (a b c name : list Z) : list Z := a ++ [32] ++ b ++ [32] ++ c ++ [32] ++ name ++ [10].

(** [out] is the line of [wc] for a text [l]: the numbers of its newlines, words and characters. *)
Definition wc_report (name l out : list Z) : Prop :=
  exists a b c, out = wc_line a b c name /\ denotes 10 a = Z.of_nat (newlines l)
    /\ denotes 10 b = Z.of_nat (words l) /\ denotes 10 c = Z.of_nat (length l).

Lemma decimal_text n : 0 <= n < 2147483648 -> exists s, printint n 10 true = Ok s /\ denotes 10 s = n.
Proof.
  intros Hn. destruct (signed_text_denotes upper_digit 10 n false upper_digit_ok ltac:(lia) ltac:(lia)) as (s & E & D).
  exists s. split; [|done]. unfold printint. destruct (Z.ltb_spec n 0); [lia|]. cbn [andb]. rewrite u32_id by (unfold is_u32; lia). exact E.
Qed.

Lemma wc_format name a b c : 0 <= a < 2147483648 -> 0 <= b < 2147483648 -> 0 <= c < 2147483648 ->
  exists sa sb sc, printf (fun p => default [] ([name] !! Z.to_nat (p - 1))) (litn "%d %d %d %s") [a; b; c; 1] = Ok (wc_line sa sb sc name)
    /\ denotes 10 sa = a /\ denotes 10 sb = b /\ denotes 10 sc = c.
Proof.
  intros A B C. destruct (decimal_text a A) as (sa & Ea & Da), (decimal_text b B) as (sb & Eb & Db), (decimal_text c C) as (sc & Ec & Dc).
  exists sa, sb, sc. split; [|done]. unfold printf.
  change (litn "%d %d %d %s") with [37; 100; 32; 37; 100; 32; 37; 100; 32; 37; 115; 10].
  cbn [printf_loop negb Z.eqb Pos.eqb PERCENT orb next obind]. rewrite !s32_id by (unfold is_s32; lia). rewrite Ea. cbn [obind].
  rewrite Eb. cbn [obind]. rewrite Ec. cbn [obind]. reflexivity.
Qed.

Lemma wc_spec rounds fd name k : forall l before w, pending fd w = Some l -> (length l < rounds)%nat ->
  Z.of_nat (length (before ++ l)) < 2147483648 ->
  exists w' out, run_prog (wc rounds fd name (fold_left wc_char before wc0) k) w = run_prog k w' /\ wc_report name (before ++ l) out /\ writes w w' out [].
Proof.
  induction rounds as [|rounds IH]; intros l before w P L B; [lia|]. cbn [wc run_prog].
  destruct (read_law fd 512 l w P ltac:(lia)) as (n & w1 & -> & _ & Hn & P1 & C1 & D1). cbn [obind].
  pose proof (writes_quiet _ _ C1 D1) as W1. destruct (take n l) as [|c bs] eqn:T.
  - assert (l = []) as -> by (destruct l; [done|]; specialize (Hn ltac:(done)); destruct n; [lia|done]).
    rewrite app_nil_r in *. destruct (wc_counted before B) as (-> & N & Wd). cbn [wl ww wch].
    destruct (wc_format name (Z.of_nat (newlines before)) (Z.of_nat (words before)) (Z.of_nat (length before)) ltac:(lia) ltac:(lia) ltac:(lia))
      as (sa & sb & sc & E & Ds).
    destruct (fprintf_out _ _ _ _ w1 k E) as (w2 & -> & W2 & _). exists w2, (wc_line sa sb sc name). split; [done|].
    split; [by exists sa, sb, sc|]. exact (writes_trans _ _ _ _ _ _ _ W1 W2).
  - rewrite <- T, <- fold_left_app.
    assert (length (take n l) = S (length bs)) as H' by (by rewrite T). rewrite length_take in H'.
    destruct (IH (drop n l) (before ++ take n l) w1) as (w2 & out & E2 & R2 & W2); [done|rewrite length_drop; lia|by rewrite <- app_assoc, take_drop|].
    rewrite <- app_assoc, take_drop in R2. exists w2, out. split; [exact E2|]. split; [done|]. exact (writes_trans _ _ _ _ _ _ _ W1 W2).
Qed.

Lemma wc_files_spec rounds argv : forall ls w, files_are w argv ls ->
  Forall (fun l => (length l < rounds)%nat /\ Z.of_nat (length l) < 2147483648) ls ->
  exists w' outs, run_prog (wc_files rounds argv) w = Ok w' /\ Forall3 wc_report argv ls outs /\ writes w w' (concat outs) [].
Proof.
  induction argv as [|a argv IH]; intros ls w F L.
  - apply Forall2_nil_inv_l in F as ->. exists w, []. split; [done|]. split; [constructor|apply writes_refl].
  - apply Forall2_cons_inv_l in F as (l & ls' & Ha & F & ->). apply Forall_cons in L as [[Ll Bl] L]. cbn [wc_files run_prog].
    destruct (open_reads a l w Ha) as (fd & w1 & -> & E & P & W1). cbn [obind]. rewrite E.
    destruct (wc_spec rounds fd a (Close fd (fun _ => wc_files rounds argv)) l [] w1 P Ll Bl) as (w2 & out & E2 & R2 & W2). cbn [fold_left] in E2. rewrite E2.
    destruct (close_writes fd (wc_files rounds argv) w2) as (w3 & -> & W3).
    pose proof (writes_trans _ _ _ _ _ _ _ W1 (writes_trans _ _ _ _ _ _ _ W2 W3)) as W5. rewrite app_nil_r in W5.
    destruct (IH ls' w3) as (w4 & outs & E4 & R4 & W4); [exact (files_are_writes _ _ _ _ _ _ W5 F)|done|].
    exists w4, (out :: outs). split; [exact E4|]. split; [by constructor|]. exact (writes_trans _ _ _ _ _ _ _ W5 W4).
Qed.

(** C36.  [wc] of files that can be read prints for each a line with the numbers of
    its newlines, of its words and of its characters and its name, however the
    reads split the file, words cut in two by a read included. *)
Theorem wc_counts rounds argv ls w :
  argv <> [] -> files_are w argv ls -> Forall (fun l => (length l < rounds)%nat /\ Z.of_nat (length l) < 2147483648) ls ->
  exists w' outs, run_prog (wc_main rounds argv) w = Ok w' /\ Forall3 wc_report argv ls outs
    /\ printed 1 w' = printed 1 w ++ concat outs /\ printed 2 w' = printed 2 w.
Proof.
  intros Ha F L. unfold wc_main. destruct argv as [|a argv]; [done|].
  destruct (wc_files_spec rounds (a :: argv) ls w F L) as (w' & outs & E & R & [A B _]). exists w', outs. by rewrite app_nil_r in B.
Qed.

(** * echo *)

(** The arguments, a space between them and a newline after the last. *)
Definition echoed (argv : list (list Z)) : list Z :=
  match argv with [] => [] | _ => tail (concat ((fun a => 32 :: a) <$> argv)) ++ [10] end.

Lemma echo_format a b : printf (fun p => default [] ([a; b] !! Z.to_nat (p - 1))) (lit "%s%s") [1; 2] = Ok (a ++ b).
Proof. unfold printf. change (lit "%s%s") with [37; 115; 37; 115]. cbn. by rewrite app_nil_r. Qed.

(** [echo] prints its arguments with a space between them and a newline after
    the last; without arguments it prints nothing, not even the newline. *)
Theorem echo_prints argv : forall w, exists w',
  run_prog (echo_main argv) w = Ok w' /\ printed 1 w' = printed 1 w ++ echoed argv /\ printed 2 w' = printed 2 w.
Proof.
  induction argv as [|a argv IH]; intros w; [exists w; by rewrite app_nil_r|]. cbn [echo_main].
  destruct (fprintf_out _ _ _ _ w (echo_main argv) (echo_format a (match argv with [] => [10] | _ => [32] end))) as (w1 & -> & [O1 E1 _] & _).
  destruct (IH w1) as (w2 & E & O2 & E2). exists w2. split; [exact E|]. split; [|by rewrite E2, E1, app_nil_r].
  rewrite O2, O1, <- app_assoc. f_equal. destruct argv as [|b argv]; cbn; [by rewrite !app_nil_r|].
  rewrite <- !app_assoc. cbn. by rewrite <- !app_assoc.
Qed.
End Std.

(** * A system with the laws *)

(** Files by name; each open descriptor with the bytes it has left, of which a
    read gives at most [few]; descriptors from 3. *)
Record toy := Toy { ty_files : list (list Z * list Z); ty_fds : list (list Z); ty_out : list Z; ty_err : list Z }.
Definition few : nat := 7.

Definition toy_pending (fd : Z) (w : toy) : option (list Z) := if fd <? 3 then None else ty_fds w !! Z.to_nat (fd - 3).
Definition toy_filed (path : list Z) (w : toy) : option (list Z) := snd <$> find (fun f => bool_decide (f.1 = path)) (ty_files w).
Definition toy_printed (fd : Z) (w : toy) : list Z := if fd =? 1 then ty_out w else if fd =? 2 then ty_err w else [].

#[export] Instance toy_sys : Sys toy := {|
  do_open path mode w := match toy_filed path w with
    | Some l => Ok (3 + Z.of_nat (length (ty_fds w)), Toy (ty_files w) (ty_fds w ++ [l]) (ty_out w) (ty_err w))
    | None => Ok (-1, w)
    end;
  do_close fd w := Ok (0, w);
  do_dup fd w := Ok (-1, w);
  do_read fd n w := match toy_pending fd w with
    | Some l => let k := Nat.min few (Z.to_nat n) in
        Ok (Some (take k l), Toy (ty_files w) (<[Z.to_nat (fd - 3) := drop k l]> (ty_fds w)) (ty_out w) (ty_err w))
    | None => Ok (None, w)
    end;
  do_write fd bytes w :=
    if fd =? 1 then Ok (Z.of_nat (length bytes), Toy (ty_files w) (ty_fds w) (ty_out w ++ bytes) (ty_err w))
    else if fd =? 2 then Ok (Z.of_nat (length bytes), Toy (ty_files w) (ty_fds w) (ty_out w) (ty_err w ++ bytes))
    else Ok (-1, w);
  do_fstat fd w := Ok (None, w); do_link old new w := Ok (-1, w); do_unlink path w := Ok (-1, w); do_mkdir path w := Ok (-1, w);
  do_mknod path major minor w := Ok (-1, w); do_chdir path w := Ok (-1, w); do_kill pid w := Ok (-1, w); do_sleep n w := Ok (0, w)
|}.

#[export, refine] Instance toy_laws : StdLaws toy := {| filed := toy_filed; pending := toy_pending; printed := toy_printed |}.
Proof.
  - intros path w. destruct (toy_filed path w) as [l|] eqn:E; cbn; rewrite E; [|by eexists _, _].
    eexists _, _. split; [done|]. split; [lia|]. split; [|done]. unfold toy_pending. cbn [ty_fds].
    destruct (Z.ltb_spec (3 + Z.of_nat (length (ty_fds w))) 3); [lia|].
    replace (Z.to_nat _) with (length (ty_fds w)) by lia. by rewrite lookup_app_r, Nat.sub_diag by lia.
  - intros fd w. by eexists _, _.
  - intros fd n l w P Hn. cbn [do_read toy_sys]. rewrite P. eexists _, _. split; [done|]. split; [lia|].
    split; [unfold few; lia|]. split; [|done]. unfold toy_pending in *. cbn [ty_fds]. destruct (fd <? 3); [done|].
    apply list_lookup_insert_eq. by eapply lookup_lt_Some.
  - intros fd bytes w [->| ->]; cbn; (eexists; split; [done|]; split; [|done]); intros d; unfold toy_printed; cbn;
      repeat case_match; simplify_eq; done || lia.
Defined.

Definition toy0 : toy := Toy [(lit "a", lit "one two" ++ [10] ++ lit "three"); (lit "b", lit "so it goes" ++ [10])] [] [] [].

Lemma cat_copies_witness : exists w', run_prog (cat_main 20 [lit "b"; lit "a"]) toy0 = Ok w'
  /\ ty_out w' = lit "so it goes" ++ [10] ++ lit "one two" ++ [10] ++ lit "three" /\ ty_err w' = [].
Proof.
  destruct (cat_copies 20 [lit "b"; lit "a"] [lit "so it goes" ++ [10]; lit "one two" ++ [10] ++ lit "three"] toy0) as (w' & E & O & R); [done| | |].
  - repeat constructor.
  - repeat (constructor; [cbn; lia|]). constructor.
  - exists w'. split; [exact E|]. split; [exact O|exact R].
Defined.

Lemma wc_counts_witness : (exists w' outs, run_prog (wc_main 20 [lit "b"; lit "a"]) toy0 = Ok w'
    /\ Forall3 wc_report [lit "b"; lit "a"] [lit "so it goes" ++ [10]; lit "one two" ++ [10] ++ lit "three"] outs
    /\ ty_out w' = concat outs /\ ty_err w' = [])
  /\ (ty_out <$> match run_prog (wc_main 20 [lit "b"; lit "a"]) toy0 with Ok w => Some w | _ => None end) = Some (litn "1 3 11 b" ++ litn "1 3 13 a").
Proof.
  split; [|vm_compute; reflexivity].
  destruct (wc_counts 20 [lit "b"; lit "a"] [lit "so it goes" ++ [10]; lit "one two" ++ [10] ++ lit "three"] toy0) as (w' & outs & E & F & O & R); [done| | |].
  - repeat constructor.
  - repeat (constructor; [cbn; lia|]). constructor.
  - exists w', outs. split; [exact E|]. split; [exact F|]. split; [exact O|exact R].
Defined.

Lemma echo_prints_witness : exists w', run_prog (echo_main [lit "hello"; lit "world"]) toy0 = Ok w'
  /\ ty_out w' = litn "hello world" /\ ty_err w' = [].
Proof.
  destruct (echo_prints [lit "hello"; lit "world"] toy0) as (w' & E & O & R). exists w'. split; [exact E|]. split; [exact O|exact R].
Defined.
