(* ===== verification/ShRun.v ===== *)
(** sh.c and init.c as programs: running a parsed command, the loop of the shell
    and the loop of init. *)
From S2P Require Import Prelude Fs Printf Grep Sysfile Sh User.

Definition panic (s : list Z) : prog := complain 2 (litn "%s") s Exit.

(** [if(fork1() == 0) child; parent]: the child never returns. *)
Definition fork1 (child parent : prog) : prog :=
  Fork (fun pid => if pid =? -1 then panic (lit "fork") else if pid =? 0 then child else parent).

(** [runcmd] on a command whose tokens point into [buf]; the case of a null
    command does not arise. *)
Fixpoint runcmd (len : nat) (buf : list Z) (c : cmd) : prog :=
  match c with
  | EXEC [] => Exit
  | EXEC ((a :: _) as argv) =>
      Exec (text_at len buf a) (text_at len buf <$> argv) (fun _ => complain 2 (litn "exec %s failed") (text_at len buf a) Exit)
  | REDIR c file mode fd =>
      Close fd (fun _ =>
        Open (text_at len buf file) mode (fun r =>
          if r <? 0 then complain 2 (litn "open %s failed") (text_at len buf file) Exit
          else runcmd len buf c))
  | LIST l r => fork1 (runcmd len buf l) (Wait (fun _ => runcmd len buf r))
  | PIPE l r =>
      Pipe (fun p =>
        match p with
        | None => panic (lit "pipe")
        | Some (p0, p1) =>
            fork1 (Close 1 (fun _ => Dup p1 (fun _ => Close p0 (fun _ => Close p1 (fun _ => runcmd len buf l)))))
            (fork1 (Close 0 (fun _ => Dup p0 (fun _ => Close p0 (fun _ => Close p1 (fun _ => runcmd len buf r)))))
               (Close p0 (fun _ => Close p1 (fun _ => Wait (fun _ => Wait (fun _ => Exit))))))
        end)
  | BACK c => fork1 (runcmd len buf c) Exit
  end.

(** [runcmd(parsecmd(buf))], with the messages of [parsecmd]. *)
Definition parse_run (s : list Z) : prog :=
  match parseline (4 * length s + 4) s with
  | Ok (c, rest) =>
      match (peek rest []).2 with
      | [] => runcmd (length s) (nulterminate (length s) c (s ++ [0])) c
      | rest => complain 2 (litn "leftovers: %s") rest (panic (lit "syntax"))
      end
  | Panic e => panic (lit e)
  | UB e => Stuck e
  end.

(** [getcmd] with the 100 characters of [main]'s [buf]: the string read, or [None]
    at the end of the input. *)
Definition getcmd (k : option (list Z) -> prog) : prog :=
  say 2 (lit "$ ") (gets_call 99 [] (fun buf => k (match cstr buf with [] => None | s => Some s end))).

(** [while((fd = open("console", O_RDWR)) >= 0)]. *)
Fixpoint three_open (rounds : nat) (k : prog) : prog :=
  match rounds with
  | O => Stuck "sh: rounds"
  | S rounds =>
      Open (lit "console") O_RDWR (fun fd =>
        if fd <? 0 then k else if 3 <=? fd then Close fd (fun _ => k) else three_open rounds k)
  end.

(** The loop of [main]: [buf[strlen(buf)-1] = 0] chops the newline. *)
Fixpoint sh_loop (rounds : nat) : prog :=
  match rounds with
  | O => Stuck "sh: rounds"
  | S rounds =>
      getcmd (fun r =>
        match r with
        | None => Exit
        | Some buf =>
            if bool_decide (take 3 buf = lit "cd ") then
              let dir := drop 3 (removelast buf) in
              Chdir dir (fun r => if r <? 0 then complain 2 (litn "cannot cd %s") dir (sh_loop rounds) else sh_loop rounds)
            else fork1 (parse_run buf) (Wait (fun _ => sh_loop rounds))
        end)
  end.

Definition sh_main (rounds : nat) : prog := three_open rounds (sh_loop rounds).

(** init.c: [while((wpid=wait()) >= 0 && wpid != pid)]. *)
Fixpoint init_wait (rounds : nat) (pid : Z) (k : prog) : prog :=
  match rounds with
  | O => Stuck "init: rounds"
  | S rounds => Wait (fun wpid => if (0 <=? wpid) && negb (wpid =? pid) then say 1 (litn "zombie!") (init_wait rounds pid k) else k)
  end.

Fixpoint init_loop (rounds : nat) : prog :=
  match rounds with
  | O => Stuck "init: rounds"
  | S rounds' =>
      say 1 (litn "init: starting sh") (Fork (fun pid =>
        if pid <? 0 then say 1 (litn "init: fork failed") Exit
        else if pid =? 0 then Exec (lit "sh") [lit "sh"] (fun _ => say 1 (litn "init: exec sh failed") Exit)
        else init_wait rounds pid (init_loop rounds')))
  end.

(** init.c up to its loop. *)
Definition init_console (k : prog) : prog :=
  let dups := Dup 0 (fun _ => Dup 0 (fun _ => k)) in
  Open (lit "console") O_RDWR (fun fd =>
    if fd <? 0 then Mknod (lit "console") 1 1 (fun _ => Open (lit "console") O_RDWR (fun _ => dups)) else dups).

Definition init_main (rounds : nat) : prog := init_console (init_loop rounds).

(** * What the parser hands to [runcmd] *)

(** Redirections are of the standard descriptors. *)
Fixpoint std_redirs (c : cmd) : Prop :=
  match c with
  | EXEC _ => True
  | REDIR c _ _ fd => 0 <= fd < 3 /\ std_redirs c
  | PIPE l r | LIST l r => std_redirs l /\ std_redirs r
  | BACK c => std_redirs c
  end.

Lemma parse_run_ok s c buf : parsecmd s = Ok (c, buf) -> parse_run s = runcmd (length s) buf c.
Proof.
  unfold parsecmd, parse_run. destruct (parseline _ s) as [[c' rest]| |]; [|done..]. cbn [obind].
  destruct (peek rest []) as [b [|x r]]; [|done]. by intros [= <- <-].
Qed.

Lemma redircmds_std c rs : std_redirs c -> Forall (fun r => 0 <= r.2 < 3) rs -> std_redirs (redircmds c rs).
Proof.
  unfold redircmds. revert c. induction rs as [|r rs IH]; intros c Hc Hr; [done|]. apply Forall_cons in Hr as [H Hr]. cbn [fold_left].
  by apply IH.
Qed.

Lemma parseredirs_std fuel : forall s rs s', parseredirs fuel s = Ok (rs, s') -> Forall (fun r => 0 <= r.2 < 3) rs.
Proof.
  induction fuel as [|fuel IH]; intros s rs s' E; [done|]. cbn [parseredirs] in E. destruct (peek s _) as [more s1].
  destruct (negb more); [by injection E as <- _|]. destruct (gettoken s1) as [[[tok q0] eq0] s2]. destruct (gettoken s2) as [[[t q] eq] s3].
  destruct (negb _); [done|]. apply obind_Ok_inv in E as ([rs1 s4] & E1 & [= <- _]). apply Forall_app. split; [|by eapply IH].
  repeat case_match; repeat constructor; cbn; lia.
Qed.

Lemma parseargs_std fuel : forall argc s args rs s', parseargs fuel argc s = Ok (args, rs, s') -> Forall (fun r => 0 <= r.2 < 3) rs.
Proof.
  induction fuel as [|fuel IH]; intros argc s args rs s' E; [done|]. cbn [parseargs] in E. destruct (peek s _) as [stop s1].
  destruct stop; [by injection E as _ <- _|]. destruct (gettoken s1) as [[[tok q] eq] s2]. destruct (tok =? 0); [by injection E as _ <- _|].
  destruct (negb _); [done|]. destruct (_ <=? _)%nat; [done|]. apply obind_Ok_inv in E as ([rs1 s3] & E1 & E).
  apply obind_Ok_inv in E as ([[args1 rs2] s4] & E2 & [= _ <- _]). apply Forall_app. split; [by eapply parseredirs_std|by eapply IH].
Qed.

Lemma parseback_std fuel : forall c s c' s', std_redirs c -> parseback fuel c s = Ok (c', s') -> std_redirs c'.
Proof.
  induction fuel as [|fuel IH]; intros c s c' s' Hc E; [done|]. cbn [parseback] in E. destruct (peek s _) as [more s1].
  destruct more; [|by injection E as <- _]. destruct (gettoken s1) as [[[t q] eq] s2]. by eapply (IH (BACK c)).
Qed.

Lemma parse_std n :
  (forall s c s', parseline n s = Ok (c, s') -> std_redirs c) /\ (forall s c s', parsepipe n s = Ok (c, s') -> std_redirs c)
  /\ (forall s c s', parseexec n s = Ok (c, s') -> std_redirs c) /\ (forall s c s', parseblock n s = Ok (c, s') -> std_redirs c).
Proof.
  induction n as [|n (IHl & IHp & IHe & IHb)]; [done|]. split_and!; intros s c s' E; cbn [parseline parsepipe parseexec parseblock] in E.
  - apply obind_Ok_inv in E as ([c1 s1] & E1 & E). apply obind_Ok_inv in E as ([c2 s2] & E2 & E). apply IHp in E1. eapply parseback_std in E2; [|done].
    destruct (peek s2 _) as [[] s3]; [|by injection E as <- _]. destruct (gettoken s3) as [[[t q] eq] s4].
    apply obind_Ok_inv in E as ([c3 s5] & E3 & [= <- _]). split; [done|by eapply IHl].
  - apply obind_Ok_inv in E as ([c1 s1] & E1 & E). apply IHe in E1. destruct (peek s1 _) as [[] s3]; [|by injection E as <- _].
    destruct (gettoken s3) as [[[t q] eq] s4]. apply obind_Ok_inv in E as ([c3 s5] & E3 & [= <- _]). split; [done|by eapply IHp].
  - destruct (peek s _) as [[] s1]; [by eapply IHb|]. apply obind_Ok_inv in E as ([rs s2] & E1 & E).
    apply obind_Ok_inv in E as ([[args rs'] s3] & E2 & [= <- _]). apply redircmds_std; [done|]. apply Forall_app.
    split; [by eapply parseredirs_std|by eapply parseargs_std].
  - destruct (peek s _) as [b s1]. destruct (negb b); [done|]. destruct (gettoken s1) as [[[t q] eq] s2].
    apply obind_Ok_inv in E as ([c1 s3] & E1 & E). destruct (peek s3 _) as [b2 s4]. destruct (negb b2); [done|].
    destruct (gettoken s4) as [[[t2 q2] eq2] s5]. apply obind_Ok_inv in E as ([rs s6] & E2 & [= <- _]).
    apply redircmds_std; [by eapply IHl|by eapply parseredirs_std].
Qed.

Lemma parsecmd_std s c buf : parsecmd s = Ok (c, buf) -> std_redirs c.
Proof.
  unfold parsecmd. intros E. apply obind_Ok_inv in E as ([c' rest] & E1 & E). destruct (peek rest []) as [b [|x r]]; [|done].
  injection E as <- _. by eapply (proj1 (parse_std _)).
Qed.
