(* ===== verification/ShPool.v ===== *)
(** The processes of a command line.  A pool of tasks makes the calls of [User] in
    any order: tables of descriptors, [fork], [wait], [exec], pipes with two ends.
    For [runcmd] every order ends, none is stuck, and every command of the line
    is executed once, with the descriptors the line gives it. *)
From Stdlib Require Import Relation_Operators.
From stdpp Require Import relations.
From S2P Require Import Prelude Fs Printf Grep Sysfile Sh User ShRun.

(** What a descriptor refers to. *)
Inductive obj := Console | FileAt (path : list Z) (mode : Z) | RdEnd (p : nat) | WrEnd (p : nat).

Abbreviation tab := (list (option obj)).

(** A call of [exec]: the arguments and the table. *)
Abbreviation entry := (list (list Z) * list (option obj))%type.

(** A task runs its own code, or the program it executed, or has exited. *)
Inductive status := Code (p : prog) | Ran (argv : list (list Z)) | Zombie.

Record task := Task { t_pid : nat; t_parent : nat; t_tab : tab; t_st : status }.

(** [p_log] records the calls of [exec] that succeeded, [p_failed] whether a call
    failed that could have succeeded. *)
Record pool := Pool { tasks : list task; p_next : nat; p_pipes : nat; p_log : list entry; p_failed : bool }.

(** ** Calls that concern the task alone *)

Inductive lcall : prog -> tab -> prog -> tab -> bool -> Prop :=
| c_open path mode k T fd : free_fd 0 T = Some fd -> lcall (Open path mode k) T (k (Z.of_nat fd)) (<[fd := Some (FileAt path mode)]> T) false
| c_open_fails path mode k T : lcall (Open path mode k) T (k (-1)) T true
| c_close fd k T o : 0 <= fd -> T !! Z.to_nat fd = Some (Some o) -> lcall (Close fd k) T (k 0) (<[Z.to_nat fd := None]> T) false
| c_close_bad fd k T : ~ (0 <= fd /\ exists o, T !! Z.to_nat fd = Some (Some o)) -> lcall (Close fd k) T (k (-1)) T false
| c_dup fd k T o new : 0 <= fd -> T !! Z.to_nat fd = Some (Some o) -> free_fd 0 T = Some new ->
    lcall (Dup fd k) T (k (Z.of_nat new)) (<[new := Some o]> T) false
| c_dup_bad fd k T : ~ (0 <= fd /\ exists o, T !! Z.to_nat fd = Some (Some o)) \/ free_fd 0 T = None -> lcall (Dup fd k) T (k (-1)) T false
| c_fork_fails k T : lcall (Fork k) T (k (-1)) T true
| c_pipe_fails k T : lcall (Pipe k) T (k None) T true
| c_exec_fails path argv k T : lcall (Exec path argv k) T (k (-1)) T true
| c_read fd n k r T : lcall (Read fd n k) T (k r) T false
| c_write fd bytes k r T : lcall (Write fd bytes k) T (k r) T false
| c_fstat fd k r T : lcall (Fstat fd k) T (k r) T false
| c_link old new k r T : lcall (Link old new k) T (k r) T false
| c_unlink path k r T : lcall (Unlink path k) T (k r) T false
| c_mkdir path k r T : lcall (Mkdir path k) T (k r) T false
| c_mknod path major minor k r T : lcall (Mknod path major minor k) T (k r) T false
| c_chdir path k r T : lcall (Chdir path k) T (k r) T false
| c_kill pid k r T : lcall (Kill pid k) T (k r) T false
| c_sleep n k r T : lcall (Sleep n k) T (k r) T false.

(** ** Steps of the pool *)

Definition with_code (p : prog) (T : tab) (t : task) : task := Task (t_pid t) (t_parent t) T (Code p).
Definition dead (t : task) : task := Task (t_pid t) (t_parent t) (replicate 16 None) Zombie.
Definition orphan (pid : nat) (t : task) : task := if decide (t_parent t = pid) then Task (t_pid t) 0 (t_tab t) (t_st t) else t.
Definition has_end (T : tab) (o : obj) : Prop := Some o ∈ T.

(** A fork puts the child before its parent.  A program that reads from a pipe is
    taken to read it to its end: it exits only when no task has the write end. *)
Inductive step : pool -> pool -> Prop :=
| st_call l1 t l2 n m g b p p' T' b' : t_st t = Code p -> lcall p (t_tab t) p' T' b' ->
    step (Pool (l1 ++ t :: l2) n m g b) (Pool (l1 ++ with_code p' T' t :: l2) n m g (b || b'))
| st_pipe l1 t l2 n m g b k fd0 fd1 : t_st t = Code (Pipe k) ->
    free_fd 0 (t_tab t) = Some fd0 -> free_fd 0 (<[fd0 := Some (RdEnd m)]> (t_tab t)) = Some fd1 ->
    step (Pool (l1 ++ t :: l2) n m g b)
      (Pool (l1 ++ with_code (k (Some (Z.of_nat fd0, Z.of_nat fd1))) (<[fd1 := Some (WrEnd m)]> (<[fd0 := Some (RdEnd m)]> (t_tab t))) t :: l2) n (S m) g b)
| st_fork l1 t l2 n m g b k : t_st t = Code (Fork k) ->
    step (Pool (l1 ++ t :: l2) n m g b)
      (Pool (l1 ++ Task n (t_pid t) (t_tab t) (Code (k 0)) :: with_code (k (Z.of_nat n)) (t_tab t) t :: l2) (S n) m g b)
| st_wait l1 t l2 n m g b k q : t_st t = Code (Wait k) -> q ∈ l1 ++ t :: l2 -> t_parent q = t_pid t -> t_st q = Zombie ->
    step (Pool (l1 ++ t :: l2) n m g b)
      (Pool (filter (fun x => t_pid x <> t_pid q) (l1 ++ with_code (k (Z.of_nat (t_pid q))) (t_tab t) t :: l2)) n m g b)
| st_wait_none l1 t l2 n m g b k : t_st t = Code (Wait k) -> (forall q, q ∈ l1 ++ t :: l2 -> t_parent q <> t_pid t) ->
    step (Pool (l1 ++ t :: l2) n m g b) (Pool (l1 ++ with_code (k (-1)) (t_tab t) t :: l2) n m g b)
| st_exec l1 t l2 n m g b path argv k : t_st t = Code (Exec path argv k) ->
    step (Pool (l1 ++ t :: l2) n m g b)
      (Pool (l1 ++ Task (t_pid t) (t_parent t) (t_tab t) (Ran argv) :: l2) n m (g ++ [(argv, t_tab t)]) b)
| st_exit l1 t l2 n m g b : t_st t = Code Exit ->
    step (Pool (l1 ++ t :: l2) n m g b) (Pool (orphan (t_pid t) <$> (l1 ++ dead t :: l2)) n m g b)
| st_ran l1 t l2 n m g b argv : t_st t = Ran argv ->
    (forall p q, t_tab t !! 0%nat = Some (Some (RdEnd p)) -> q ∈ l1 ++ t :: l2 -> ~ has_end (t_tab q) (WrEnd p)) ->
    step (Pool (l1 ++ t :: l2) n m g b) (Pool (orphan (t_pid t) <$> (l1 ++ dead t :: l2)) n m g b)
| st_init l1 t l2 n m g b : t_st t = Zombie -> t_parent t = 0%nat ->
    step (Pool (l1 ++ t :: l2) n m g b) (Pool (l1 ++ l2) n m g b).

(** * What a command line asks for *)

(** The three standard descriptors. *)
Record std := Std { s0 : obj; s1 : obj; s2 : obj }.

Definition set_std (fd : Z) (o : obj) (F : std) : std :=
  if fd =? 0 then Std o (s1 F) (s2 F) else if fd =? 1 then Std (s0 F) o (s2 F) else Std (s0 F) (s1 F) o.

Definition tab3 (F : std) : tab := [Some (s0 F); Some (s1 F); Some (s2 F)] ++ replicate 13 None.

Section Asks.
Context (len : nat) (buf : list Z).
Abbreviation text := (text_at len buf).

(** [asks c F argv G]: [c] with the descriptors [F] executes [argv] with [G]. *)
Inductive asks : cmd -> std -> list (list Z) -> std -> Prop :=
| k_exec argv F : argv <> [] -> asks (EXEC argv) F (text <$> argv) F
| k_redir c file mode fd F a G : asks c (set_std fd (FileAt (text file) mode) F) a G -> asks (REDIR c file mode fd) F a G
| k_list_l l r F a G : asks l F a G -> asks (LIST l r) F a G
| k_list_r l r F a G : asks r F a G -> asks (LIST l r) F a G
| k_pipe_l l r p F a G : asks l (set_std 1 (WrEnd p) F) a G -> asks (PIPE l r) F a G
| k_pipe_r l r p F a G : asks r (set_std 0 (RdEnd p) F) a G -> asks (PIPE l r) F a G
| k_back c F a G : asks c F a G -> asks (BACK c) F a G.

(** [line_runs c F L ps]: the commands [c] executes with [F], from the left, each once
    and with its table; [ps] are the pipes, one for each [PIPE]. *)
Inductive line_runs : cmd -> std -> list entry -> list nat -> Prop :=
| r_none F : line_runs (EXEC []) F [] []
| r_exec a argv F : line_runs (EXEC (a :: argv)) F [(text <$> a :: argv, tab3 F)] []
| r_redir c file mode fd F L ps : line_runs c (set_std fd (FileAt (text file) mode) F) L ps -> line_runs (REDIR c file mode fd) F L ps
| r_list l r F L1 L2 ps1 ps2 : line_runs l F L1 ps1 -> line_runs r F L2 ps2 -> line_runs (LIST l r) F (L1 ++ L2) (ps1 ++ ps2)
| r_pipe l r p F L1 L2 ps1 ps2 : line_runs l (set_std 1 (WrEnd p) F) L1 ps1 -> line_runs r (set_std 0 (RdEnd p) F) L2 ps2 ->
    line_runs (PIPE l r) F (L1 ++ L2) (p :: ps1 ++ ps2)
| r_back c F L ps : line_runs c F L ps -> line_runs (BACK c) F L ps.
End Asks.

(** * Where a task is in [runcmd] *)

(** Messages and the exit. *)
Fixpoint quiet (p : prog) : Prop :=
  match p with Exit => True | Write _ _ k => forall r, quiet (k r) | _ => False end.

Definition tab5 (F : std) (p : nat) : tab := [Some (s0 F); Some (s1 F); Some (s2 F); Some (RdEnd p); Some (WrEnd p)] ++ replicate 11 None.

Section Line.
Context (len : nat) (buf : list Z) (ok : list (list Z) -> std -> Prop).

Definition asks_ok (c : cmd) (F : std) : Prop := std_redirs c /\ forall a G, asks len buf c F a G -> ok a G.

(** What is left to execute: nothing, or the two sides of the pipe [p]. *)
Abbreviation todo := (list entry -> list nat -> Prop).
Definition nothing : todo := fun L ps => L = [] /\ ps = [].
Definition both (l r : cmd) (p : nat) (F : std) : todo := fun L ps =>
  exists L1 L2 ps1 ps2, L = L1 ++ L2 /\ ps = ps1 ++ ps2
    /\ line_runs len buf l (set_std 1 (WrEnd p) F) L1 ps1 /\ line_runs len buf r (set_std 0 (RdEnd p) F) L2 ps2.

Definition close34 (K : prog) : prog := Close 3 (fun _ => Close 4 (fun _ => K)).
Definition right_code (r : cmd) : prog := fork1 (Close 0 (fun _ => Dup 3 (fun _ => close34 (runcmd len buf r)))) (close34 (Wait (fun _ => Wait (fun _ => Exit)))).
Definition pipe_code (l r : cmd) : prog := fork1 (Close 1 (fun _ => Dup 4 (fun _ => close34 (runcmd len buf l)))) (right_code r).

(** [at_code p T F own td]: the code [p] with the table [T] is a point of
    [runcmd]; [F] are the descriptors it settles on, [own] a pipe whose reader is
    not forked yet, and [td] what it has left to execute. *)
Inductive at_code : prog -> tab -> std -> option nat -> todo -> Prop :=
| a_run c F : asks_ok c F -> at_code (runcmd len buf c) (tab3 F) F None (line_runs len buf c F)
| a_quiet p T F : quiet p -> at_code p T F None nothing
| a_open c file mode fd F : 0 <= fd < 3 -> asks_ok (REDIR c file mode fd) F ->
    at_code (Open (text_at len buf file) mode (fun r => if r <? 0 then complain 2 (litn "open %s failed") (text_at len buf file) Exit else runcmd len buf c))
      (<[Z.to_nat fd := None]> (tab3 F)) F None (line_runs len buf (REDIR c file mode fd) F)
| a_wait r F : asks_ok r F -> at_code (Wait (fun _ => runcmd len buf r)) (tab3 F) F None (line_runs len buf r F)
| a_wait2 F : at_code (Wait (fun _ => Wait (fun _ => Exit))) (tab3 F) F None nothing
| a_wait1 F : at_code (Wait (fun _ => Exit)) (tab3 F) F None nothing
| a_pipe l r p F : asks_ok (PIPE l r) F -> at_code (pipe_code l r) (tab5 F p) F (Some p) (both l r p F)
| a_right l r p F : asks_ok (PIPE l r) F -> at_code (right_code r) (tab5 F p) F (Some p) (line_runs len buf r (set_std 0 (RdEnd p) F))
| a_close3 p F K td : at_code K (tab3 F) F None td -> at_code (close34 K) (tab5 F p) F None td
| a_close4 p F K td : at_code K (tab3 F) F None td -> at_code (Close 4 (fun _ => K)) (<[3%nat := None]> (tab5 F p)) F None td
| a_dup4 p F K td : s1 F = WrEnd p -> at_code K (tab3 F) F None td -> at_code (Dup 4 (fun _ => close34 K)) (<[1%nat := None]> (tab5 F p)) F None td
| a_left p F o K td : s1 F = WrEnd p -> at_code K (tab3 F) F None td ->
    at_code (Close 1 (fun _ => Dup 4 (fun _ => close34 K))) (tab5 (Std (s0 F) o (s2 F)) p) F None td
| a_dup3 p F K td : s0 F = RdEnd p -> at_code K (tab3 F) F None td -> at_code (Dup 3 (fun _ => close34 K)) (<[0%nat := None]> (tab5 F p)) F None td
| a_rchild p F o K td : s0 F = RdEnd p -> at_code K (tab3 F) F None td ->
    at_code (Close 0 (fun _ => Dup 3 (fun _ => close34 K))) (tab5 (Std o (s1 F) (s2 F)) p) F None td.

Lemma put_chars_quiet s fd : quiet (put_chars fd s Exit).
Proof. induction s as [|c s IH]; [done|]. by intros r. Qed.

Lemma complain_quiet s arg : s ∈ ["exec %s failed"%string; "open %s failed"%string; "%s"%string] -> quiet (complain 2 (litn s) arg Exit).
Proof.
  intros Hs. assert (exists t, printf (fun a => default [] ([arg] !! Z.to_nat (a - 1))) (litn s) [1] = Ok t) as [t E].
  { rewrite !elem_of_cons in Hs. destruct Hs as [->|[->|[->|[]%elem_of_nil]]]; eexists; vm_compute; reflexivity. }
  unfold complain, fprintf. rewrite E. apply put_chars_quiet.
Qed.

Lemma panic_quiet s : quiet (panic s).
Proof. apply complain_quiet. set_solver. Qed.

(** [F'] has no pipe ends that [F] has not. *)
Definition wr (F : std) (p : nat) : Prop := s0 F = WrEnd p \/ s1 F = WrEnd p \/ s2 F = WrEnd p.
Definition fewer (F' F : std) : Prop := (forall p, s0 F' = RdEnd p -> s0 F = RdEnd p) /\ (forall p, wr F' p -> wr F p).

Lemma fewer_refl F : fewer F F.
Proof. done. Qed.

Lemma set_file_fewer fd path mode F : fewer (set_std fd (FileAt path mode) F) F.
Proof. unfold fewer, wr, set_std. repeat case_match; cbn; split; intros p; intuition congruence. Qed.

Lemma open_slot fd o F : 0 <= fd < 3 ->
  free_fd 0 (<[Z.to_nat fd := None]> (tab3 F)) = Some (Z.to_nat fd) /\ <[Z.to_nat fd := Some o]> (<[Z.to_nat fd := None]> (tab3 F)) = tab3 (set_std fd o F).
Proof. intros H. assert (fd = 0 \/ fd = 1 \/ fd = 2) as [->|[->| ->]] by lia; done. Qed.

(** A point of [runcmd] that makes a call of its own moves to another. *)
Definition moves (p' : prog) (T' : tab) (F : std) (td : todo) (b : bool) : Prop :=
  exists F' td', at_code p' T' F' None td' /\ fewer F' F /\ (b = false -> forall L ps, td' L ps -> td L ps).

Lemma moves_quiet p' T' F td : quiet p' -> moves p' T' F td true.
Proof. intros Q. exists F, nothing. split; [by apply a_quiet|done]. Qed.

Lemma moves_at p' T' F td b : at_code p' T' F None td -> moves p' T' F td b.
Proof. intros A. by exists F, td. Qed.

#[local] Opaque litn lit panic complain.

(** The descriptor is open. *)
Ltac is_open := exfalso; match goal with H : ~ (_ /\ _) |- _ => apply H; split; [lia|eexists; reflexivity] end.

(** What [dup] returns. *)
Ltac dup_slot :=
  match goal with H : _ !! Z.to_nat _ = Some (Some _) |- _ => vm_compute in H; injection H as <- end;
  match goal with H : free_fd 0 _ = Some _ |- _ => vm_compute in H; injection H as <- end.

Lemma asks_redir c file mode fd F : asks_ok (REDIR c file mode fd) F -> asks_ok c (set_std fd (FileAt (text_at len buf file) mode) F).
Proof. intros [[_ H1] H2]. split; [done|]. intros a G H. apply H2. by constructor. Qed.

Lemma run_moves c F p' T' b : asks_ok c F -> lcall (runcmd len buf c) (tab3 F) p' T' b -> moves p' T' F (line_runs len buf c F) b.
Proof.
  intros A C. destruct c as [[|a argv]|c file mode fd|l r|l r|c]; inversion C; subst.
  - apply moves_quiet, complain_quiet. set_solver.
  - apply moves_at. destruct A as [[Hfd A1] A2]. by apply (a_open c file mode fd F).
  - exfalso. destruct A as [[Hfd _] _]. assert (fd = 0 \/ fd = 1 \/ fd = 2) as [->|[->| ->]] by lia; is_open.
  - apply moves_quiet, panic_quiet.
  - apply moves_quiet, panic_quiet.
  - apply moves_quiet, panic_quiet.
Qed.

Lemma call_moves p T F own td p' T' b : at_code p T F own td -> lcall p T p' T' b -> moves p' T' F td b.
Proof.
  intros A. destruct A as [c F A|p T F A|c file mode fd F Hfd A|r F A|F|F|l r q F A|l r q F A|q F K td A|q F K td A|q F K td E A|q F o K td E A|q F K td E A|q F o K td E A]; intros C.
  - by eapply run_moves.
  - destruct p; try done; inversion C; subst. apply moves_at, a_quiet, A.
  - destruct (open_slot fd (FileAt (text_at len buf file) mode) F Hfd) as [E1 E2]. inversion C; subst.
    + match goal with H : free_fd 0 _ = Some ?n |- _ => assert (n = Z.to_nat fd) as -> by congruence end. rewrite E2. rewrite Z2Nat.id by lia. destruct (Z.ltb_spec fd 0); [lia|].
      eexists _, _. split; [apply a_run; by apply asks_redir|]. split; [apply set_file_fewer|]. intros _ L ps. apply r_redir.
    + apply moves_quiet, complain_quiet. set_solver.
  - inversion C.
  - inversion C.
  - inversion C.
  - inversion C; subst. by apply moves_quiet, panic_quiet.
  - inversion C; subst. by apply moves_quiet, panic_quiet.
  - inversion C; subst; [|is_open]. apply moves_at. by apply a_close4.
  - inversion C; subst; [|is_open]. apply moves_at. exact A.
  - inversion C; subst; [|match goal with H : _ \/ _ |- _ => destruct H as [H|H] end; [is_open|done]].
    dup_slot. apply moves_at. pose proof (a_close3 q F K td A) as A'. unfold tab5 in A'. rewrite E in A'. exact A'.
  - inversion C; subst; [|is_open]. apply moves_at. by apply (a_dup4 q F K td).
  - inversion C; subst; [|match goal with H : _ \/ _ |- _ => destruct H as [H|H] end; [is_open|done]].
    dup_slot. apply moves_at. pose proof (a_close3 q F K td A) as A'. unfold tab5 in A'. rewrite E in A'. exact A'.
  - inversion C; subst; [|is_open]. apply moves_at. by apply (a_dup3 q F K td).
Qed.

(** ** The other calls *)

Ltac at_inv A :=
  lazymatch type of A with
  | at_code ?p ?T ?F ?own ?td =>
      remember p as p0 eqn:Hp; remember own as own0 eqn:Hown;
      destruct A as [c F1 A|p1 T1 F1 A|c file mode fd F1 Hfd A|r F1 A|F1|F1|l r q F1 A|l r q F1 A|q F1 K td1 A|q F1 K td1 A|q F1 K td1 E A|q F1 o K td1 E A|q F1 K td1 E A|q F1 o K td1 E A];
      try (destruct c as [[|a0 argv0]|c file mode fd|l r|l r|c]); try discriminate Hp; try (subst; contradiction A)
  end.

Lemma pipe_at k T F own td m fd0 fd1 : at_code (Pipe k) T F own td -> free_fd 0 T = Some fd0 ->
  free_fd 0 (<[fd0 := Some (RdEnd m)]> T) = Some fd1 ->
  own = None /\ exists td', at_code (k (Some (Z.of_nat fd0, Z.of_nat fd1))) (<[fd1 := Some (WrEnd m)]> (<[fd0 := Some (RdEnd m)]> T)) F (Some m) td'
    /\ forall L ps, td' L ps -> td L (m :: ps).
Proof.
  intros A E0 E1. at_inv A. injection Hp as <-. vm_compute in E0. injection E0 as <-. vm_compute in E1. injection E1 as <-.
  split; [done|]. eexists. split; [apply (a_pipe l r m F1 A)|]. intros L ps (L1 & L2 & ps1 & ps2 & -> & -> & H1 & H2). by apply r_pipe.
Qed.

(** The child of a fork: nothing new, the writer of the pipe, or its reader. *)
Inductive forks : option nat -> std -> option nat -> std -> Prop :=
| f_same F : forks None F None F
| f_writer p F : forks (Some p) F (Some p) (set_std 1 (WrEnd p) F)
| f_reader p F : forks (Some p) F None (set_std 0 (RdEnd p) F).

Lemma asks_pipe l r p F : asks_ok (PIPE l r) F -> asks_ok l (set_std 1 (WrEnd p) F) /\ asks_ok r (set_std 0 (RdEnd p) F).
Proof.
  intros [[H1 H2] H3]. split; (split; [done|]); intros a G H; apply H3; [by apply k_pipe_l with p|by apply k_pipe_r with p].
Qed.

Lemma fork_at k T F own td n : at_code (Fork k) T F own td -> 0 < n ->
  exists own' Fc tdc td', at_code (k 0) T Fc None tdc /\ at_code (k n) T F own' td' /\ forks own F own' Fc
    /\ forall L1 ps1 L2 ps2, tdc L1 ps1 -> td' L2 ps2 -> td (L1 ++ L2) (ps1 ++ ps2).
Proof.
  intros A Hn. at_inv A; injection Hp as <-; cbv beta iota; (assert (n =? -1 = false) as -> by lia; assert (n =? 0 = false) as -> by lia; change (0 =? -1) with false; change (0 =? 0) with true; cbv iota).
  - destruct A as [[H1 H2] H3]. eexists None, F1, _, _. split; [apply a_run; split; [exact H1|]|]; [intros a G H; apply H3; by constructor|].
    split; [apply a_wait; split; [exact H2|]|split; [constructor|]]; [intros a G H; apply H3; by constructor|]. intros L1 ps1 L2 ps2. apply r_list.
  - destruct A as [H1 H3]. eexists None, F1, _, nothing. split; [apply a_run; split; [exact H1|]|]; [intros a G H; apply H3; by constructor|].
    split; [by apply a_quiet|]. split; [constructor|]. intros L1 ps1 L2 ps2 H [-> ->]. rewrite !app_nil_r. by apply r_back.
  - destruct (asks_pipe l r q F1 A) as [Al Ar]. eexists (Some q), (set_std 1 (WrEnd q) F1), _, _.
    split; [|split; [by apply (a_right l r q F1)|split; [subst own; constructor|]]].
    + apply (a_left q (set_std 1 (WrEnd q) F1) (s1 F1)); [done|]. by apply a_run.
    + intros L1 ps1 L2 ps2 H1 H2. by exists L1, L2, ps1, ps2.
  - destruct (asks_pipe l r q F1 A) as [Al Ar]. eexists None, (set_std 0 (RdEnd q) F1), _, nothing.
    split; [|split; [apply a_close3, a_wait2|split; [subst own; constructor|]]].
    + apply (a_rchild q (set_std 0 (RdEnd q) F1) (s0 F1)); [done|]. by apply a_run.
    + intros L1 ps1 L2 ps2 H [-> ->]. by rewrite !app_nil_r.
Qed.

Lemma wait_at k T F own td : at_code (Wait k) T F own td -> own = None /\ T = tab3 F /\ forall r, at_code (k r) T F None td.
Proof.
  intros A. at_inv A; injection Hp as <-; (split; [done|]; split; [done|]; intros n).
  - by apply a_run.
  - apply a_wait1.
  - by apply a_quiet.
Qed.

Lemma exec_at path argv k T F own td : at_code (Exec path argv k) T F own td -> own = None /\ T = tab3 F /\ td [(argv, T)] [] /\ ok argv F.
Proof.
  intros A. at_inv A. injection Hp as <- <- <-. split; [done|]. split; [done|]. split; [apply r_exec|]. destruct A as [_ A]. apply A. by apply (k_exec len buf (a0 :: argv0)).
Qed.

Lemma exit_at T F own td : at_code Exit T F own td -> own = None /\ td [] [].
Proof. intros A. at_inv A; (split; [done|]); [apply r_none|done]. Qed.

(** * The invariant of the pool *)

(** What is known of a task: the descriptors it settles on, the pipe it owns and
    the commands it still has to execute. *)
Record ghost := Ghost { g_std : std; g_own : option nat; g_todo : todo }.
Abbreviation known := (task * ghost)%type.
Definition exited : ghost := Ghost (Std Console Console Console) None nothing.

Definition at_task (x : known) : Prop :=
  match t_st x.1 with
  | Code p => at_code p (t_tab x.1) (g_std x.2) (g_own x.2) (g_todo x.2)
  | Ran _ => t_tab x.1 = tab3 (g_std x.2) /\ g_own x.2 = None /\ g_todo x.2 = nothing
  | Zombie => t_tab x.1 = replicate 16 None /\ x.2 = exited
  end.

Abbreviation fd0 x := (s0 (g_std x.2)).
Abbreviation writer x := (wr (g_std x.2)).

(** Identifiers and pipes are among those handed out; a reader of a pipe is no
    writer of it, and its owner is neither. *)
Record lone (n m : nat) (x : known) : Prop := {
  ln_at : at_task x;
  ln_pid : (0 < t_pid x.1 < n)%nat;
  ln_parent : (t_parent x.1 < t_pid x.1)%nat;
  ln_rd p : fd0 x = RdEnd p -> (p < m)%nat /\ ~ writer x p;
  ln_wr p : writer x p -> (p < m)%nat;
  ln_own p : g_own x.2 = Some p -> (p < m)%nat /\ fd0 x <> RdEnd p /\ ~ writer x p
}.

(** [x] is before [y]: no child of [x], and no writer of the pipe that [x] reads
    or owns; nobody reads a pipe that is owned, and no pipe has two owners. *)
Record before (x y : known) : Prop := {
  bf_pid : t_pid x.1 <> t_pid y.1;
  bf_child : t_parent y.1 <> t_pid x.1;
  bf_rd p : fd0 x = RdEnd p -> ~ writer y p;
  bf_own p : g_own x.2 = Some p -> fd0 y <> RdEnd p /\ ~ writer y p /\ g_own y.2 <> Some p;
  bf_owned p : g_own y.2 = Some p -> fd0 x <> RdEnd p
}.

Fixpoint ordered (l : list known) : Prop :=
  match l with [] => True | x :: l => (forall y, y ∈ l -> before x y) /\ ordered l end.

Lemma ordered_app l1 l2 : ordered (l1 ++ l2) <-> ordered l1 /\ ordered l2 /\ forall x y, x ∈ l1 -> y ∈ l2 -> before x y.
Proof.
  induction l1 as [|x l1 IH]; cbn; [set_solver|]. rewrite IH. setoid_rewrite elem_of_app. setoid_rewrite elem_of_cons. naive_solver.
Qed.

Lemma ordered_mid l1 x l2 : ordered (l1 ++ x :: l2) <->
  ordered (l1 ++ l2) /\ (forall y, y ∈ l1 -> before y x) /\ (forall y, y ∈ l2 -> before x y).
Proof. rewrite !ordered_app. cbn. setoid_rewrite elem_of_cons. naive_solver. Qed.

Lemma ordered_filter (P : known -> Prop) `{forall x, Decision (P x)} l : ordered l -> ordered (filter P l).
Proof.
  induction l as [|x l IH]; [done|]. intros [H1 H2]. rewrite filter_cons. case_decide; [|by apply IH]. split; [|by apply IH].
  intros y [_ Hy]%list_elem_of_filter. by apply H1.
Qed.

Lemma ordered_fmap (f : known -> known) l :
  (forall x y, x ∈ l -> y ∈ l -> before x y -> before (f x) (f y)) -> ordered l -> ordered (f <$> l).
Proof.
  induction l as [|x l IH]; cbn; [done|]. intros Hf [H1 H2]. split.
  - intros y' (y & -> & Hy)%list_elem_of_fmap. apply Hf; [by left|by right|by apply H1].
  - apply IH; [|done]. intros a b Ha Hb. apply Hf; by right.
Qed.

(** [x'] is [x] further on: the same task with no more pipe ends. *)
Record later (x' x : known) : Prop := {
  lt_pid : t_pid x'.1 = t_pid x.1;
  lt_parent : t_parent x'.1 = t_parent x.1 \/ t_parent x'.1 = 0%nat;
  lt_std : fewer (g_std x'.2) (g_std x.2);
  lt_own : g_own x'.2 = None \/ g_own x'.2 = g_own x.2
}.

Lemma later_refl x : later x x.
Proof. split; [done|by left|apply fewer_refl|by right]. Qed.

Lemma before_later x x' y y' : (0 < t_pid x.1)%nat -> later x' x -> later y' y -> before x y -> before x' y'.
Proof.
  intros Hx [P1 Q1 [A1 B1] O1] [P2 Q2 [A2 B2] O2] [C1 C2 C3 C4 C5]. split.
  - congruence.
  - destruct Q2 as [->| ->]; [congruence|lia].
  - intros p H1 H2. by eapply C3; [apply A1|apply B2].
  - intros p H1. assert (g_own x.2 = Some p) as H2 by (destruct O1; congruence). destruct (C4 p H2) as (D1 & D2 & D3).
    split; [by intros H3%A2|]. split; [by intros H3%B2|]. destruct O2; congruence.
  - intros p H1 H2%A1. apply (C5 p); [destruct O2; congruence|done].
Qed.

Lemma lone_later n m x x' : later x' x -> at_task x' -> lone n m x -> lone n m x'.
Proof.
  intros [P1 Q1 [A1 B1] O1] Ht [C1 C2 C3 C4 C5 C6]. split.
  - done.
  - by rewrite P1.
  - destruct Q1 as [->| ->]; lia.
  - intros p H%A1. destruct (C4 p H) as [H1 H2]. split; [done|]. by intros H3%B1.
  - intros p H%B1. by apply C5.
  - intros p H. destruct (C6 p) as (D1 & D2 & D3); [destruct O1; congruence|]. split; [done|]. split; [by intros H3%A1|by intros H3%B1].
Qed.

Lemma lone_more n m n' m' x : (n <= n')%nat -> (m <= m')%nat -> lone n m x -> lone n' m' x.
Proof.
  intros Hn Hm [C1 C2 C3 C4 C5 C6]. split; [done|lia|lia| | |].
  - intros p H. destruct (C4 p H). split; [lia|done].
  - intros p H. specialize (C5 p H). lia.
  - intros p H. destruct (C6 p H). split; [lia|done].
Qed.

(** Every parent is in the pool and has not exited, or is init. *)
Definition parents_ok (l : list task) : Prop :=
  forall x, x ∈ l -> t_parent x = 0%nat \/ exists y, y ∈ l /\ t_pid y = t_parent x /\ t_st y <> Zombie.

(** [spec] is what the whole line may execute; whatever the tasks still execute
    completes what is logged to that. *)
Record inv (spec : todo) (s : pool) (l : list known) : Prop := {
  iv_tasks : tasks s = l.*1;
  iv_next : (0 < p_next s)%nat;
  iv_lone x : x ∈ l -> lone (p_next s) (p_pipes s) x;
  iv_order : ordered l;
  iv_parents : parents_ok (tasks s);
  iv_log a T : (a, T) ∈ p_log s -> exists G, T = tab3 G /\ ok a G;
  iv_spec : p_failed s = false -> forall Ls, Forall2 (fun (x : known) e => g_todo x.2 e.1 e.2) l Ls ->
    exists L ps, spec L ps /\ L ≡ₚ p_log s ++ concat Ls.*1 /\ ps ≡ₚ seq 0 (p_pipes s) ++ concat Ls.*2
}.

Section Steps.
Context (spec : todo).

Lemma known_split s l l1 t l2 : inv spec s l -> tasks s = l1 ++ t :: l2 ->
  exists g1 g g2, l = g1 ++ (t, g) :: g2 /\ l1 = g1.*1 /\ l2 = g2.*1.
Proof.
  intros I E. rewrite (iv_tasks _ _ _ I) in E. apply fmap_app_inv in E as (g1 & r & -> & E & ->).
  symmetry in E. apply fmap_cons_inv in E as ([t' g] & g2 & -> & -> & ->). by exists g1, g, g2.
Qed.

Lemma lone_in s l x : inv spec s l -> x ∈ l -> (0 < t_pid x.1)%nat.
Proof. intros I Hx. apply (iv_lone _ _ _ I) in Hx as []. lia. Qed.

(** What the tasks still execute. *)
Definition left_over (l : list known) (Ls : list (list entry * list nat)) : Prop := Forall2 (fun (x : known) e => g_todo x.2 e.1 e.2) l Ls.
Definition complete (l : list known) (m : nat) (log : list entry) : Prop := forall Ls, left_over l Ls ->
  exists L ps, spec L ps /\ L ≡ₚ log ++ concat Ls.*1 /\ ps ≡ₚ seq 0 m ++ concat Ls.*2.

Lemma perm_mid {A} (a b c d x y : list A) : d ++ y ≡ₚ a ++ x -> a ++ b ++ x ++ c ≡ₚ d ++ b ++ y ++ c.
Proof. intros P. by rewrite (Permutation_app_swap_app b x c), (Permutation_app_swap_app b y c), (app_assoc a), (app_assoc d), P. Qed.

(** A task is replaced by tasks that execute what it had left. *)
Lemma complete_mid g1 x g2 mid m m' log log' : complete (g1 ++ x :: g2) m log ->
  (forall Lm, left_over mid Lm -> exists L0 ps0, g_todo x.2 L0 ps0 /\ log' ++ concat Lm.*1 ≡ₚ log ++ L0 /\ seq 0 m' ++ concat Lm.*2 ≡ₚ seq 0 m ++ ps0) ->
  complete (g1 ++ mid ++ g2) m' log'.
Proof.
  intros C H Ls HL. apply Forall2_app_inv_l in HL as (A1 & R & H1 & HL & ->). apply Forall2_app_inv_l in HL as (Lm & A2 & H2 & H3 & ->).
  destruct (H Lm H2) as (L0 & ps0 & Hx & P1 & P2).
  destruct (C (A1 ++ (L0, ps0) :: A2)) as (L & ps & HS & Q1 & Q2); [apply Forall2_app; [done|by constructor]|].
  exists L, ps. split; [done|]. rewrite !fmap_app, fmap_cons, !concat_app in *. cbn [concat fst snd] in *.
  split; [rewrite Q1|rewrite Q2]; by apply perm_mid.
Qed.

(** What the list of tasks owes to [parents_ok] when a task is replaced. *)
Lemma parents_replace l1 t l2 t' : parents_ok (l1 ++ t :: l2) -> t_pid t' = t_pid t -> t_parent t' = t_parent t -> t_st t' <> Zombie ->
  parents_ok (l1 ++ t' :: l2).
Proof.
  intros H Hp Hq Z x Hx.
  assert (exists x0, x0 ∈ l1 ++ t :: l2 /\ t_parent x0 = t_parent x) as (x0 & H0 & <-)
    by (apply elem_of_app in Hx as [Hx|Hx]; [|apply elem_of_cons in Hx as [->|Hx]]; eexists; (split; [|done || by symmetry]); set_solver).
  destruct (H x0 H0) as [E|(y & Hy & E & Zy)]; [by left|right].
  apply elem_of_app in Hy as [Hy|Hy]; [|apply elem_of_cons in Hy as [->|Hy]].
  - exists y. split; [set_solver|done].
  - exists t'. split; [set_solver|]. by rewrite Hp.
  - exists y. split; [set_solver|done].
Qed.

(** One task moves on, nothing else changes. *)
Lemma inv_move l1 t l2 n m log b g1 g g2 t' g' log' b' :
  inv spec (Pool (l1 ++ t :: l2) n m log b) (g1 ++ (t, g) :: g2) -> l1 = g1.*1 -> l2 = g2.*1 ->
  later (t', g') (t, g) -> t_parent t' = t_parent t -> at_task (t', g') -> t_st t' <> Zombie ->
  (forall a T, (a, T) ∈ log' -> exists G, T = tab3 G /\ ok a G) ->
  (b' = false -> b = false /\ forall L ps, g_todo g' L ps -> exists L0, g_todo g L0 ps /\ log' ++ L ≡ₚ log ++ L0) ->
  inv spec (Pool (l1 ++ t' :: l2) n m log' b') (g1 ++ (t', g') :: g2).
Proof.
  intros I -> -> L HP A Z HL HT. split; cbn [tasks p_next p_pipes p_log p_failed].
  - by rewrite fmap_app.
  - apply (iv_next _ _ _ I).
  - intros x Hx. apply elem_of_app in Hx as [Hx|Hx]; [|apply elem_of_cons in Hx as [->|Hx]].
    + apply (iv_lone _ _ _ I). set_solver.
    + eapply lone_later; [exact L|done|]. apply (iv_lone _ _ _ I). set_solver.
    + apply (iv_lone _ _ _ I). set_solver.
  - pose proof (iv_order _ _ _ I) as O. apply ordered_mid in O as (O1 & O2 & O3). apply ordered_mid. split; [done|]. split; intros y Hy.
    + eapply before_later; [|apply later_refl|exact L|by apply O2]. eapply (lone_in _ _ _ I). set_solver.
    + eapply before_later; [|exact L|apply later_refl|by apply O3]. eapply (lone_in _ _ _ I). set_solver.
  - destruct L as [Lp _ _ _]. eapply parents_replace; [apply (iv_parents _ _ _ I)|done..].
  - exact HL.
  - intros Hb. destruct (HT Hb) as [Hb0 HT']. apply (complete_mid g1 (t, g) g2 [(t', g')] m m log log' (iv_spec _ _ _ I Hb0)).
    intros Lm Hm. apply Forall2_cons_inv_l in Hm as ([L1 ps] & ? & Hm & ->%Forall2_nil_inv_l & ->). cbn [fmap list_fmap concat fst snd]. rewrite !app_nil_r.
    destruct (HT' L1 ps Hm) as (L0 & ? & ?). by exists L0, ps.
Qed.

(** The pipe [m] is new: nobody has it. *)
Lemma inv_pipe l1 t l2 n m log b g1 g g2 t' (td' : todo) :
  inv spec (Pool (l1 ++ t :: l2) n m log b) (g1 ++ (t, g) :: g2) -> l1 = g1.*1 -> l2 = g2.*1 ->
  t_pid t' = t_pid t -> t_parent t' = t_parent t -> t_st t' <> Zombie -> g_own g = None -> at_task (t', Ghost (g_std g) (Some m) td') ->
  (forall L ps, td' L ps -> g_todo g L (m :: ps)) ->
  inv spec (Pool (l1 ++ t' :: l2) n (S m) log b) (g1 ++ (t', Ghost (g_std g) (Some m) td') :: g2).
Proof.
  intros I -> -> Hp Hq Z Hown A Htd. pose proof (iv_lone _ _ _ I) as Ll. cbn [p_next p_pipes] in Ll. pose proof (iv_order _ _ _ I) as O. apply ordered_mid in O as (O1 & O2 & O3).
  assert (forall y, y ∈ g1 ++ (t, g) :: g2 -> fd0 y <> RdEnd m /\ ~ writer y m /\ g_own y.2 <> Some m) as F.
  { intros y Hy. destruct (Ll y Hy) as [_ _ _ H1 H2 H3]. split_and!; [intros H%H1|intros H%H2|intros H%H3]; lia. }
  destruct (F (t, g)) as (F1 & F2 & _); [set_solver|]. cbn [snd] in F1, F2. split; cbn [tasks p_next p_pipes p_log p_failed].
  - by rewrite fmap_app.
  - apply (iv_next _ _ _ I).
  - intros x Hx. apply elem_of_app in Hx as [Hx|Hx]; [|apply elem_of_cons in Hx as [->|Hx]].
    + eapply lone_more; [done|apply Nat.le_succ_diag_r|]. apply Ll. set_solver.
    + destruct (Ll (t, g)) as [_ H2 H3 H4 H5 _]; [set_solver|]. cbn [fst snd] in *. split; cbn [fst snd g_std g_own]; [done|by rewrite Hp|lia| | |].
      * intros p H. destruct (H4 p H). split; [lia|done].
      * intros p H. specialize (H5 p H). lia.
      * intros p [= <-]. split; [lia|done].
    + eapply lone_more; [done|apply Nat.le_succ_diag_r|]. apply Ll. set_solver.
  - apply ordered_mid. split; [done|]. split; intros y Hy.
    + destruct (O2 y Hy) as [B1 B2 B3 B4 B5]. cbn [fst snd] in *. split; cbn [fst snd g_std g_own]; [by rewrite Hp|by rewrite Hq|done| |].
      * intros p H. destruct (B4 p H) as (H1 & H2 & _). split; [done|]. split; [done|]. intros [= <-]. destruct (F y) as (_ & _ & F3); [set_solver|done].
      * intros p [= <-]. destruct (F y); [set_solver|done].
    + destruct (O3 y Hy) as [B1 B2 B3 B4 B5]. cbn [fst snd] in *. split; cbn [fst snd g_std g_own]; [by rewrite Hp|by rewrite Hp|done| |done].
      intros p [= <-]. apply F. set_solver.
  - eapply parents_replace; [apply (iv_parents _ _ _ I)|done..].
  - apply (iv_log _ _ _ I).
  - intros Hb. apply (complete_mid g1 (t, g) g2 [(t', Ghost (g_std g) (Some m) td')] m (S m) log log (iv_spec _ _ _ I Hb)).
    intros Lm Hm. apply Forall2_cons_inv_l in Hm as ([L ps] & ? & Hm & ->%Forall2_nil_inv_l & ->). cbn [fmap list_fmap concat fst snd]. rewrite !app_nil_r.
    exists L, (m :: ps). split; [by apply Htd|]. split; [done|]. by rewrite seq_S, <- app_assoc.
Qed.

Lemma forks_wr own F own' Fc p : forks own F own' Fc -> wr Fc p -> wr F p \/ own = Some p /\ own' = Some p.
Proof. intros H. destruct H; unfold wr; cbn; intuition congruence. Qed.

Lemma forks_rd own F own' Fc p : forks own F own' Fc -> s0 Fc = RdEnd p -> s0 F = RdEnd p \/ own = Some p /\ own' = None.
Proof. intros H. destruct H; cbn; intuition congruence. Qed.

Lemma forks_own own F own' Fc : forks own F own' Fc -> own' = None \/ own' = own.
Proof. intros H. destruct H; auto. Qed.

Section Fork.
Context (n m : nat) (t c t' : task) (g : ghost) (own' : option nat) (Fc : std) (tdc td' : todo).
Context (HX : lone n m (t, g)) (Hc1 : t_pid c = n) (Hc2 : t_parent c = t_pid t) (Ht1 : t_pid t' = t_pid t) (Ht2 : t_parent t' = t_parent t).
Context (Hf : forks (g_own g) (g_std g) own' Fc).
Abbreviation child := (c, Ghost Fc None tdc).
Abbreviation parent' := (t', Ghost (g_std g) own' td').

Lemma fork_later : later parent' (t, g).
Proof. split; cbn [fst snd g_std g_own]; [done|by left|apply fewer_refl|by eapply forks_own]. Qed.

Lemma fork_before_child y : lone n m y -> before y (t, g) -> before y child.
Proof.
  intros [_ L2 L3 L4 L5 L6] [B1 B2 B3 B4 B5]. cbn [fst snd] in *. split; cbn [fst snd g_std g_own]; [lia|congruence| | |done].
  - intros p Hp Hw. destruct (forks_wr _ _ _ _ _ Hf Hw) as [Hw'|[Hw' _]]; [by eapply B3|by eapply B5].
  - intros p Hp. destruct (B4 p Hp) as (D1 & D2 & D3). split; [|split; [|done]].
    + intros H. destruct (forks_rd _ _ _ _ _ Hf H) as [?|[? _]]; done.
    + intros H. destruct (forks_wr _ _ _ _ _ Hf H) as [?|[? _]]; done.
Qed.

Lemma fork_child_before y : lone n m y -> before (t, g) y -> before child y.
Proof.
  intros [_ L2 L3 L4 L5 L6] [B1 B2 B3 B4 B5]. cbn [fst snd] in *. split; cbn [fst snd g_std g_own]; [lia|lia| |done|].
  - intros p Hp. destruct (forks_rd _ _ _ _ _ Hf Hp) as [H|[H _]]; [by apply B3|]. by destruct (B4 p H) as (_ & ? & _).
  - intros p Hp H. destruct (forks_rd _ _ _ _ _ Hf H) as [H'|[H' _]]; [by eapply B5|]. by destruct (B4 p H') as (_ & _ & ?).
Qed.

Lemma fork_child_parent : before child parent'.
Proof.
  destruct HX as [_ L2 L3 L4 L5 L6]. cbn [fst snd] in *. split; cbn [fst snd g_std g_own]; [lia|lia| |done|].
  - intros p Hp. destruct (forks_rd _ _ _ _ _ Hf Hp) as [H|[H _]]; [by destruct (L4 p H)|]. by destruct (L6 p H) as (_ & _ & ?).
  - intros p Hp H. destruct (forks_rd _ _ _ _ _ Hf H) as [H'|[H' Hn]]; [|congruence].
    destruct (forks_own _ _ _ _ Hf) as [E|E]; [congruence|]. rewrite E in Hp. by destruct (L6 p Hp) as (_ & ? & _).
Qed.

Lemma fork_child_lone : at_task child -> lone (S n) m child.
Proof.
  intros A. destruct HX as [_ L2 L3 L4 L5 L6]. cbn [fst snd] in *. split; cbn [fst snd g_std g_own]; [done|lia|lia| | |done].
  - intros p Hp. destruct (forks_rd _ _ _ _ _ Hf Hp) as [H|[H Hn]].
    + destruct (L4 p H) as [D1 D2]. split; [done|]. intros Hw. destruct (forks_wr _ _ _ _ _ Hf Hw) as [?|[Ho _]]; [done|]. by destruct (L6 p Ho) as (_ & ? & _).
    + destruct (L6 p H) as (D1 & D2 & D3). split; [done|]. intros Hw. destruct (forks_wr _ _ _ _ _ Hf Hw) as [?|[_ Ho]]; [done|congruence].
  - intros p Hw. destruct (forks_wr _ _ _ _ _ Hf Hw) as [H|[H _]]; [by apply L5|by destruct (L6 p H)].
Qed.
End Fork.

Lemma inv_fork l1 t l2 n m log b g1 g g2 c t' Fc own' tdc td' :
  inv spec (Pool (l1 ++ t :: l2) n m log b) (g1 ++ (t, g) :: g2) -> l1 = g1.*1 -> l2 = g2.*1 ->
  t_pid c = n -> t_parent c = t_pid t -> t_pid t' = t_pid t -> t_parent t' = t_parent t -> t_st t' <> Zombie ->
  forks (g_own g) (g_std g) own' Fc -> at_task (c, Ghost Fc None tdc) -> at_task (t', Ghost (g_std g) own' td') ->
  (forall L1 ps1 L2 ps2, tdc L1 ps1 -> td' L2 ps2 -> g_todo g (L1 ++ L2) (ps1 ++ ps2)) ->
  inv spec (Pool (l1 ++ c :: t' :: l2) (S n) m log b) (g1 ++ (c, Ghost Fc None tdc) :: (t', Ghost (g_std g) own' td') :: g2).
Proof.
  intros I -> -> Hc1 Hc2 Ht1 Ht2 Z Hf Ac At Htd. pose proof (iv_lone _ _ _ I) as Ll. cbn [p_next p_pipes] in Ll.
  pose proof (iv_order _ _ _ I) as O. apply ordered_mid in O as (O1 & O2 & O3).
  assert (lone n m (t, g)) as HX by (apply Ll; set_solver). pose proof (fork_later t t' g own' Fc td' Ht1 Ht2 Hf) as L.
  assert (forall y, y ∈ g1 -> lone n m y) as Lg1 by (intros; apply Ll; set_solver). assert (forall y, y ∈ g2 -> lone n m y) as Lg2 by (intros; apply Ll; set_solver).
  split; cbn [tasks p_next p_pipes p_log p_failed].
  - by rewrite fmap_app.
  - lia.
  - intros x Hx. apply elem_of_app in Hx as [Hx|Hx]; [|apply elem_of_cons in Hx as [->|Hx]; [|apply elem_of_cons in Hx as [->|Hx]]].
    + eapply lone_more; [apply Nat.le_succ_diag_r|done|by apply Lg1].
    + by eapply fork_child_lone.
    + eapply lone_more; [apply Nat.le_succ_diag_r|done|]. by eapply lone_later.
    + eapply lone_more; [apply Nat.le_succ_diag_r|done|by apply Lg2].
  - apply ordered_mid. split; [apply ordered_mid; split; [done|split]|split]; intros y Hy.
    + eapply before_later; [|apply later_refl|exact L|by apply O2]. destruct (Lg1 y Hy). lia.
    + eapply before_later; [|exact L|apply later_refl|by apply O3]. destruct HX. lia.
    + eapply fork_before_child; [done..|by apply Lg1|by apply O2].
    + apply elem_of_cons in Hy as [->|Hy]; [by eapply fork_child_parent|]. eapply fork_child_before; [done..|by apply Lg2|by apply O3].
  - pose proof (parents_replace _ _ _ t' (iv_parents _ _ _ I) Ht1 Ht2 Z) as P. intros x Hx.
    assert (x = c \/ x ∈ g1.*1 ++ t' :: g2.*1) as [->|Hx'] by set_solver.
    + right. exists t'. split; [set_solver|]. by rewrite Hc2.
    + destruct (P x Hx') as [?|(y & Hy & ?)]; [by left|right]. exists y. split; [clear -Hy; set_solver|done].
  - apply (iv_log _ _ _ I).
  - intros Hb. apply (complete_mid g1 (t, g) g2 [(c, Ghost Fc None tdc); (t', Ghost (g_std g) own' td')] m m log log (iv_spec _ _ _ I Hb)).
    intros Lm Hm. apply Forall2_cons_inv_l in Hm as ([L1 ps1] & ? & H1 & Hm & ->). apply Forall2_cons_inv_l in Hm as ([L2 ps2] & ? & H2 & ->%Forall2_nil_inv_l & ->).
    exists (L1 ++ L2), (ps1 ++ ps2). split; [by apply Htd|]. cbn [fmap list_fmap concat fst snd]. by rewrite !app_nil_r.
Qed.

(** A task exits: its children go to init. *)
Lemma inv_die l1 t l2 n m log b g1 g g2 :
  inv spec (Pool (l1 ++ t :: l2) n m log b) (g1 ++ (t, g) :: g2) -> l1 = g1.*1 -> l2 = g2.*1 -> g_todo g [] [] ->
  inv spec (Pool (orphan (t_pid t) <$> (l1 ++ dead t :: l2)) n m log b)
    ((fun x => (orphan (t_pid t) x.1, x.2)) <$> (g1 ++ (dead t, exited) :: g2)).
Proof.
  intros I -> -> Htd. set (f := fun x : known => (orphan (t_pid t) x.1, x.2)).
  pose proof (iv_lone _ _ _ I) as Ll. cbn [p_next p_pipes] in Ll.
  assert (later (dead t, exited) (t, g)) as L by (split; cbn; [done|by left|split; [done|intros p [?|[?|?]]; done]|by left]).
  assert (forall x : known, later (f x) x) as Lf.
  { intros x. unfold f, orphan. destruct (decide (t_parent x.1 = t_pid t)); split; cbn; auto using fewer_refl. }
  assert (forall x, x ∈ g1 ++ (dead t, exited) :: g2 -> lone n m x) as Ld.
  { intros x Hx. assert (x = (dead t, exited) \/ x ∈ g1 ++ (t, g) :: g2) as [->|Hx'] by (rewrite elem_of_app, elem_of_cons in *; tauto).
    - eapply lone_later; [exact L|done|]. apply Ll. set_solver.
    - by apply Ll. }
  split; cbn [tasks p_next p_pipes p_log p_failed].
  - rewrite <- list_fmap_compose. unfold f. cbn [fst compose]. rewrite !fmap_app, !fmap_cons, <- !list_fmap_compose. done.
  - apply (iv_next _ _ _ I).
  - intros x' (x & -> & Hx)%list_elem_of_fmap. eapply lone_later; [apply Lf| |by apply Ld]. destruct (Ld x Hx) as [A _ _ _ _ _].
    unfold at_task, f, orphan in *. case_decide; exact A.
  - apply ordered_fmap; [intros x y Hx Hy; apply before_later; [destruct (Ld x Hx); lia|apply Lf|apply Lf]|].
    pose proof (iv_order _ _ _ I) as O. apply ordered_mid in O as (O1 & O2 & O3). apply ordered_mid. split; [done|]. split; intros y Hy.
    + eapply before_later; [|apply later_refl|exact L|by apply O2]. eapply (lone_in _ _ _ I). set_solver.
    + eapply before_later; [|exact L|apply later_refl|by apply O3]. eapply (lone_in _ _ _ I). set_solver.
  - intros x' (x & -> & Hx)%list_elem_of_fmap. destruct (decide (t_parent x = t_pid t)) as [D|D]; [left; unfold orphan; by rewrite decide_True|].
    assert (orphan (t_pid t) x = x) as -> by (unfold orphan; by rewrite decide_False).
    assert (exists x0, x0 ∈ g1.*1 ++ t :: g2.*1 /\ t_parent x0 = t_parent x) as (x0 & H0 & E0)
      by (apply elem_of_app in Hx as [Hx|Hx]; [exists x|apply elem_of_cons in Hx as [->|Hx]; [exists t|exists x]]; (split; [rewrite elem_of_app, elem_of_cons; tauto|done])).
    destruct (iv_parents _ _ _ I x0 H0) as [E|(y & Hy & E & Zy)]; [left; congruence|right]. cbn [tasks] in Hy.
    assert (y <> t) as Hyt by (intros ->; congruence). exists (orphan (t_pid t) y). split; [apply list_elem_of_fmap; exists y; split; [done|]; rewrite elem_of_app, elem_of_cons in *; tauto|].
    unfold orphan. case_decide; (split; [cbn; congruence|done]).
  - apply (iv_log _ _ _ I).
  - intros Hb. assert (complete (g1 ++ [(dead t, exited)] ++ g2) m log) as Cd.
    { apply (complete_mid g1 (t, g) g2 [(dead t, exited)] m m log log (iv_spec _ _ _ I Hb)). intros Lm Hm.
      apply Forall2_cons_inv_l in Hm as ([L1 ps] & ? & [Hl Hps] & ->%Forall2_nil_inv_l & ->). cbn [fst snd] in Hl, Hps. subst. by exists [], []. }
    intros Ls HL. apply Cd. by apply Forall2_fmap_l in HL.
Qed.

Lemma complete_filter (P : known -> Prop) `{forall x, Decision (P x)} l m log :
  (forall x, x ∈ l -> ~ P x -> g_todo x.2 [] []) -> complete l m log -> complete (filter P l) m log.
Proof.
  intros HT C Ls HL. assert (exists Ls', left_over l Ls' /\ concat Ls'.*1 = concat Ls.*1 /\ concat Ls'.*2 = concat Ls.*2) as (Ls' & H1 & <- & <-); [|by apply C].
  clear C. revert Ls HL. induction l as [|x l IH]; intros Ls HL; [apply Forall2_nil_inv_l in HL as ->; exists []; by split; [constructor|]|]. rewrite filter_cons in HL. case_decide as D.
  - apply Forall2_cons_inv_l in HL as (e & Ls1 & He & HL & ->). destruct (IH (fun y Hy => HT y (list_elem_of_further _ _ _ Hy)) Ls1 HL) as (Ls' & H1 & H2 & H3).
    exists (e :: Ls'). split; [by constructor|]. rewrite !fmap_cons. cbn [concat]. by rewrite H2, H3.
  - destruct (IH (fun y Hy => HT y (list_elem_of_further _ _ _ Hy)) Ls HL) as (Ls' & H1 & H2 & H3).
    exists (([], []) :: Ls'). split; [constructor; [by apply HT; [left|]|done]|done].
Qed.

(** A task that has exited leaves the pool. *)
Lemma inv_remove ts ts' n m log b l (P : known -> Prop) `{forall x, Decision (P x)} :
  inv spec (Pool ts n m log b) l -> (forall x, x ∈ l -> ~ P x -> t_st x.1 = Zombie) -> ts' = (filter P l).*1 ->
  inv spec (Pool ts' n m log b) (filter P l).
Proof.
  intros I HP ->. pose proof (iv_lone _ _ _ I) as Ll. cbn [p_next p_pipes] in Ll. split; cbn [tasks p_next p_pipes p_log p_failed].
  - done.
  - apply (iv_next _ _ _ I).
  - intros x [_ Hx]%list_elem_of_filter. by apply Ll.
  - apply ordered_filter, (iv_order _ _ _ I).
  - intros x' (x & -> & [Px Hx]%list_elem_of_filter)%list_elem_of_fmap.
    pose proof (iv_parents _ _ _ I) as Q. rewrite (iv_tasks _ _ _ I) in Q.
    destruct (Q x.1) as [?|(y' & (y & -> & Hy)%list_elem_of_fmap & E & Zy)]; [apply list_elem_of_fmap; by exists x|by left|right].
    exists y.1. split; [|done]. apply list_elem_of_fmap. exists y. split; [done|]. apply list_elem_of_filter. split; [|done].
    destruct (decide (P y)); [done|]. by destruct Zy; apply HP.
  - apply (iv_log _ _ _ I).
  - intros Hb Ls HL. apply (complete_filter P l m log); [|exact (iv_spec _ _ _ I Hb)|exact HL].
    intros x Hx HnP. destruct (Ll x Hx) as [A _ _ _ _ _]. unfold at_task in A. rewrite (HP x Hx HnP) in A. destruct A as [_ ->]. by split.
Qed.

Lemma ordered_unique l x y : ordered l -> x ∈ l -> y ∈ l -> t_pid x.1 = t_pid y.1 -> x = y.
Proof.
  induction l as [|z l IH]; intros O Hx Hy E; [by apply not_elem_of_nil in Hx|]. destruct O as [O1 O2].
  apply elem_of_cons in Hx as [->|Hx], Hy as [->|Hy]; [done| | |by apply IH]; [by destruct (O1 y Hy)|by destruct (O1 x Hx)].
Qed.

Lemma filter_known (l : list known) (i : nat) : filter (fun x => t_pid x <> i) l.*1 = (filter (fun x : known => t_pid x.1 <> i) l).*1.
Proof. induction l as [|x l IH]; [done|]. rewrite fmap_cons, !filter_cons. case_decide; [by rewrite fmap_cons, IH|done]. Qed.

Lemma inv_step s s' l : step s s' -> inv spec s l -> exists l', inv spec s' l'.
Proof.
  intros St I. destruct St as [l1 t l2 n m log b p p' T' b' Ep C|l1 t l2 n m log b k fd0 fd1 Ep E0 E1|l1 t l2 n m log b k Ep|l1 t l2 n m log b k q Ep Hq Eq Zq
    |l1 t l2 n m log b k Ep Hq|l1 t l2 n m log b path argv k Ep|l1 t l2 n m log b Ep|l1 t l2 n m log b argv Ep Hr|l1 t l2 n m log b Ep Hq];
  destruct (known_split _ _ _ _ _ I eq_refl) as (g1 & [F own td] & g2 & -> & E1' & E2'); (assert (at_task (t, Ghost F own td)) as A by (apply (iv_lone _ _ _ I); clear; set_solver));
  unfold at_task in A; cbn [fst snd g_std g_own g_todo] in A; rewrite Ep in A.
  - destruct (call_moves _ _ _ _ _ _ _ _ A C) as (F' & td' & A' & Hf & Ht).
    exists (g1 ++ (with_code p' T' t, Ghost F' None td') :: g2). eapply inv_move; [exact I|done|done| |reflexivity|exact A'|done|apply (iv_log _ _ _ I)|].
    + split; [done|by left|done|by left].
    + intros [-> ->]%orb_false_elim. split; [done|]. intros L ps HL. exists L. split; [by apply Ht|done].
  - destruct (pipe_at _ _ _ _ _ m _ _ A E0 E1) as (-> & td' & A' & Htd). eexists. by eapply (inv_pipe _ _ _ _ _ _ _ _ (Ghost F None td) _ _ td'); [exact I|..].
  - destruct (fork_at k _ _ _ _ (Z.of_nat n) A) as (own' & Fc & tdc & td' & Ac & At & Hf & Htd).
    { pose proof (iv_next _ _ _ I) as H. cbn in H. lia. }
    eexists. by eapply (inv_fork _ _ _ _ _ _ _ _ _ _ _ _ Fc own' tdc td'); [exact I|..].
  - destruct (wait_at _ _ _ _ _ A) as (-> & _ & A').
    assert (inv spec (Pool (l1 ++ with_code (k (Z.of_nat (t_pid q))) (t_tab t) t :: l2) n m log b) (g1 ++ (with_code (k (Z.of_nat (t_pid q))) (t_tab t) t, Ghost F None td) :: g2)) as I'.
    { eapply inv_move; [exact I|done|done|by split; [|left|apply fewer_refl|left]|done|apply A'|done|apply (iv_log _ _ _ I)|]. intros ->. split; [done|]. intros L ps HL. by exists L. }
    eexists. eapply inv_remove with (P := fun x : known => t_pid x.1 <> t_pid q); [exact I'| |rewrite <- filter_known; f_equal; apply (iv_tasks _ _ _ I')].
    intros x Hx Hn. assert (q ∈ l1 \/ q ∈ l2) as Hq' by (apply elem_of_app in Hq as [?|[->|?]%elem_of_cons]; [by left|congruence|by right]).
    assert (exists gq, (q, gq) ∈ g1 ++ (with_code (k (Z.of_nat (t_pid q))) (t_tab t) t, Ghost F None td) :: g2) as [gq Hgq].
    { destruct Hq' as [H|H]; subst; apply list_elem_of_fmap in H as ([q' gq] & -> & H); exists gq; clear -H; set_solver. }
    rewrite (ordered_unique _ x (q, gq) (iv_order _ _ _ I') Hx Hgq); [done|]. by apply dec_stable.
  - destruct (wait_at _ _ _ _ _ A) as (-> & _ & A').
    exists (g1 ++ (with_code (k (-1)) (t_tab t) t, Ghost F None td) :: g2).
    eapply inv_move; [exact I|done|done|by split; [|left|apply fewer_refl|left]|done|apply A'|done|apply (iv_log _ _ _ I)|]. intros ->. split; [done|]. intros L ps HL. by exists L.
  - destruct (exec_at _ _ _ _ _ _ _ A) as (-> & E & Htd & Hok). eexists.
    eapply (inv_move _ _ _ _ _ _ _ _ _ _ _ (Ghost F None nothing)); [exact I|done|done|by split; [|left|apply fewer_refl|left]|done|by split|done| |].
    + intros a T [H|H%list_elem_of_singleton]%elem_of_app; [by apply (iv_log _ _ _ I)|]. injection H as -> ->. by exists F.
    + intros ->. split; [done|]. intros L ps [-> ->]. exists [(argv, t_tab t)]. by rewrite app_nil_r.
  - destruct (exit_at _ _ _ _ A) as [-> Htd]. eexists. by eapply inv_die.
  - destruct A as (_ & _ & ->). eexists. by eapply inv_die.
  - eexists. eapply inv_remove with (P := fun x : known => t_pid x.1 <> t_pid t); [exact I| |].
    + intros x Hx Hn. rewrite (ordered_unique _ x (t, Ghost F own td) (iv_order _ _ _ I) Hx); [done|clear; set_solver|]. by apply dec_stable.
    + rewrite filter_app, filter_cons, decide_False by (cbn; tauto). subst. rewrite fmap_app, <- !filter_known.
      pose proof (iv_order _ _ _ I) as O. apply ordered_mid in O as (_ & O2 & O3).
      f_equal; symmetry; apply filter_Forall, Forall_forall; intros y (x & -> & Hx)%list_elem_of_fmap; [by destruct (O2 x Hx)|].
      destruct (O3 x Hx) as [H _ _ _ _]. cbn in H. congruence.
Qed.
End Steps.
End Line.
