(* ===== verification/ShLine.v ===== *)
(** Running a command line: every interleaving of its processes ends, with all of
    them gone; none is stuck on the way; and every command of the line has been
    executed once, with its own descriptors. *)
From stdpp Require Import relations.
From S2P Require Import Prelude Fs Printf Grep Sysfile Sh User ShRun ShPool.

(** * No task is stuck for good *)

Section Progress.
Context (len : nat) (buf : list Z) (ok : list (list Z) -> std -> Prop) (spec : list entry -> list nat -> Prop).
Abbreviation at_code := (at_code len buf ok).
Abbreviation inv := (inv len buf ok spec).

(** The task can move and no call has to fail. *)
Definition can_move (p : prog) (T : tab) : Prop :=
  forall l1 t l2 n m g b, t_st t = Code p -> t_tab t = T ->
    exists s', step (Pool (l1 ++ t :: l2) n m g b) s' /\ p_failed s' = b.

Lemma call_can_move p T p' T' : lcall p T p' T' false -> can_move p T.
Proof. intros C l1 t l2 n m g b E <-. eexists. split; [by eapply st_call|]. apply orb_false_r. Qed.

Lemma quiet_can_move p T : quiet p -> can_move p T.
Proof.
  destruct p; try done; intros Q.
  - intros l1 t l2 n m g b E _. eexists. split; [by apply st_exit|done].
  - eapply call_can_move. by apply (c_write _ _ _ 0).
Qed.

Lemma fork_can_move k T : can_move (Fork k) T.
Proof. intros l1 t l2 n m g b E <-. eexists. split; [by eapply st_fork|done]. Qed.

#[local] Opaque litn lit panic complain.

Lemma run_can_move c F : asks_ok len buf ok c F -> can_move (runcmd len buf c) (tab3 F).
Proof.
  intros [A _]. destruct c as [[|a argv]|c file mode fd|l r|l r|c]; cbn [runcmd].
  - by apply quiet_can_move.
  - intros l1 t l2 n m g b E _. eexists. split; [by eapply st_exec|done].
  - destruct A as [Hfd _]. assert (fd = 0 \/ fd = 1 \/ fd = 2) as [->|[->| ->]] by lia; (eapply call_can_move, c_close; [lia|reflexivity]).
  - intros l1 t l2 n m g b E HT. eexists. split; [by eapply st_pipe; [exact E|rewrite HT; reflexivity..]|done].
  - apply fork_can_move.
  - apply fork_can_move.
Qed.

Lemma code_can_move p T F own td : at_code p T F own td -> (exists k, p = Wait k /\ T = tab3 F) \/ can_move p T.
Proof.
  intros A. destruct A as [c F A|p T F A|c file mode fd F Hfd A|r F A|F|F|l r q F A|l r q F A|q F K td A|q F K td A|q F K td E A|q F o K td E A|q F K td E A|q F o K td E A];
    try (left; eexists; split; reflexivity); right.
  - by apply run_can_move.
  - by apply quiet_can_move.
  - destruct (open_slot fd Console F Hfd) as [E _]. by eapply call_can_move, c_open.
  - apply fork_can_move.
  - apply fork_can_move.
  - eapply call_can_move, c_close; [lia|reflexivity].
  - eapply call_can_move, c_close; [lia|reflexivity].
  - eapply call_can_move, c_dup; [lia|reflexivity|reflexivity].
  - eapply call_can_move, c_close; [lia|reflexivity].
  - eapply call_can_move, c_dup; [lia|reflexivity|reflexivity].
  - eapply call_can_move, c_close; [lia|reflexivity].
Qed.

(** A task that waits, runs another program or has exited: its descriptors are
    those it settled on, or none. *)
Definition settled (x : task * ghost) : Prop :=
  match t_st x.1 with
  | Code p => (exists k, p = Wait k) /\ t_tab x.1 = tab3 (g_std x.2)
  | Ran _ => t_tab x.1 = tab3 (g_std x.2)
  | Zombie => t_tab x.1 = replicate 16 None
  end.

Lemma moves_or_settled s l : inv s l -> (exists s', step s s' /\ p_failed s' = p_failed s) \/ forall x, x ∈ l -> settled x.
Proof.
  intros I. destruct s as [ts n m g b]. pose proof (iv_tasks _ _ _ _ _ _ I) as E. cbn in E. subst ts.
  pose proof (iv_lone _ _ _ _ _ _ I) as Ll. cbn [p_next p_pipes] in Ll. clear I.
  assert (forall pre, (exists s', step (Pool (pre ++ l.*1) n m g b) s' /\ p_failed s' = b) \/ forall x, x ∈ l -> settled x) as H; [|apply (H [])].
  induction l as [|[t gh] l IH]; intros pre; [right; set_solver|].
  destruct (IH (fun x Hx => Ll x (list_elem_of_further _ _ _ Hx)) (pre ++ [t])) as [H|H].
  { left. by rewrite <- app_assoc in H. }
  destruct (Ll (t, gh)) as [A _ _ _ _ _]; [by left|]. unfold at_task in A. cbn [fst snd] in A. destruct (t_st t) as [p|argv|] eqn:Est.
  - destruct (code_can_move _ _ _ _ _ A) as [(k & -> & HT)|M].
    + right. intros x [->|Hx]%elem_of_cons; [|by apply H]. unfold settled. cbn [fst snd]. rewrite Est. split; [by exists k|done].
    + left. exact (M pre t l.*1 n m g b Est eq_refl).
  - right. intros x [->|Hx]%elem_of_cons; [|by apply H]. unfold settled. cbn [fst snd]. rewrite Est. apply A.
  - right. intros x [->|Hx]%elem_of_cons; [|by apply H]. unfold settled. cbn [fst snd]. rewrite Est. apply A.
Qed.

(** The first task that has not exited. *)
Lemma leftmost_live (l : list (task * ghost)) : (forall x, x ∈ l -> t_st x.1 = Zombie) \/
  exists l1 x l2, l = l1 ++ x :: l2 /\ t_st x.1 <> Zombie /\ forall y, y ∈ l1 -> t_st y.1 = Zombie.
Proof.
  induction l as [|x l IH]; [left; set_solver|]. destruct (t_st x.1) eqn:E.
  1,2: right; exists [], x, l; split; [done|]; split; [by rewrite E|set_solver].
  destruct IH as [H|(l1 & y & l2 & -> & H1 & H2)]; [left; intros y [->|Hy]%elem_of_cons; auto|].
  right. exists (x :: l1), y, l2. split; [done|]. split; [done|]. intros z [->|Hz]%elem_of_cons; auto.
Qed.

Lemma tab3_holds F p : has_end (tab3 F) (WrEnd p) -> wr F p.
Proof.
  unfold has_end, tab3, wr. rewrite elem_of_app, !elem_of_cons, elem_of_replicate. intros [[H|[H|[H|H%elem_of_nil]]]|[H _]]; naive_solver.
Qed.

Lemma progress s l : inv s l -> tasks s <> [] -> exists s', step s s' /\ p_failed s' = p_failed s.
Proof.
  intros I Hne. destruct (moves_or_settled s l I) as [H|HS]; [done|]. destruct s as [ts n m g b]. pose proof (iv_tasks _ _ _ _ _ _ I) as E. cbn in E, Hne. subst ts.
  pose proof (iv_lone _ _ _ _ _ _ I) as Ll. pose proof (iv_order _ _ _ _ _ _ I) as O. pose proof (iv_parents _ _ _ _ _ _ I) as P. cbn [p_next p_pipes tasks] in Ll, P.
  destruct (leftmost_live l) as [HZ|(l1 & [t gh] & l2 & -> & Hx & HZ)].
  - destruct l as [|[t gh] l]; [done|]. exists (Pool l.*1 n m g b). split; [|done]. apply (st_init [] t); [apply (HZ (t, gh)); by left|].
    destruct (P t) as [?|(y & (x & -> & Hx)%list_elem_of_fmap & _ & Hn)]; [by left|done|]. by destruct Hn; apply HZ.
  - rewrite fmap_app, fmap_cons in *. cbn [fst] in *. apply ordered_mid in O as (_ & _ & O3).
    assert (lone len buf ok n m (t, gh)) as Lx by (apply Ll; set_solver). specialize (HS (t, gh) ltac:(set_solver)) as Sx. unfold settled in Sx. cbn [fst snd] in Sx.
    destruct (t_st t) as [p|argv|] eqn:Est; [| |done].
    + destruct Sx as [[k ->] HT].
      destruct (decide (Exists (fun q => t_parent q = t_pid t) (l1.*1 ++ t :: l2.*1))) as [[q [Hq Eq]]%Exists_exists|Hn].
      * assert (t_st q = Zombie) as Zq.
        { apply elem_of_app in Hq as [(x & -> & Hx')%list_elem_of_fmap|[->|(x & -> & Hx')%list_elem_of_fmap]%elem_of_cons]; [by apply HZ|destruct Lx; cbn in *; lia|].
          destruct (O3 x Hx') as [_ H _ _ _]. cbn in H. congruence. }
        eexists. split; [by eapply st_wait|done].
      * eexists. split; [eapply st_wait_none; [exact Est|]|done]. intros q Hq Eq. apply Hn, Exists_exists. by exists q.
    + eexists. split; [eapply st_ran; [exact Est|]|done]. intros p q Hp Hq Hh. rewrite Sx in Hp. injection Hp as Hp.
      destruct Lx as [_ _ _ Lr _ _]. specialize (Lr p Hp) as [_ Lr]. cbn [fst snd] in *.
      apply elem_of_app in Hq as [(x & -> & Hx')%list_elem_of_fmap|[->|(x & -> & Hx')%list_elem_of_fmap]%elem_of_cons].
      * specialize (HS x ltac:(set_solver)). unfold settled in HS. rewrite (HZ x Hx') in HS. rewrite HS in Hh. unfold has_end in Hh. apply elem_of_replicate in Hh as [? _]. done.
      * rewrite Sx in Hh. by apply Lr, tab3_holds.
      * destruct (O3 x Hx') as [_ _ H _ _]. apply (H p Hp), tab3_holds. specialize (HS x ltac:(set_solver)). unfold settled in HS.
        destruct (t_st x.1); [by destruct HS as [_ <-]|by rewrite <- HS|]. rewrite HS in Hh. unfold has_end in Hh. by apply elem_of_replicate in Hh as [? _].
Qed.
End Progress.

(** * Every run ends *)

(** What comes next in a program. *)
Inductive next_of : prog -> prog -> Prop :=
| n_fork k r : next_of (k r) (Fork k)
| n_wait k r : next_of (k r) (Wait k)
| n_exec path argv k r : next_of (k r) (Exec path argv k)
| n_pipe k r : next_of (k r) (Pipe k)
| n_open path mode k r : next_of (k r) (Open path mode k)
| n_close fd k r : next_of (k r) (Close fd k)
| n_dup fd k r : next_of (k r) (Dup fd k)
| n_read fd n k r : next_of (k r) (Read fd n k)
| n_write fd bytes k r : next_of (k r) (Write fd bytes k)
| n_fstat fd k r : next_of (k r) (Fstat fd k)
| n_link old new k r : next_of (k r) (Link old new k)
| n_unlink path k r : next_of (k r) (Unlink path k)
| n_mkdir path k r : next_of (k r) (Mkdir path k)
| n_mknod path major minor k r : next_of (k r) (Mknod path major minor k)
| n_chdir path k r : next_of (k r) (Chdir path k)
| n_kill pid k r : next_of (k r) (Kill pid k)
| n_sleep n k r : next_of (k r) (Sleep n k).

(** A status after another. *)
Inductive below : status -> status -> Prop :=
| b_next p' p : next_of p' p -> below (Code p') (Code p)
| b_ran argv p : below (Ran argv) (Code p)
| b_exit p : below Zombie (Code p)
| b_done argv : below Zombie (Ran argv).

Lemma below_wf : well_founded below.
Proof.
  assert (Acc below Zombie) as AZ by (constructor; intros y H; inversion H).
  assert (forall argv, Acc below (Ran argv)) as AR by (intros argv; constructor; intros y H; inversion H; subst; exact AZ).
  assert (forall p, Acc below (Code p)) as AC; [|intros [p|argv|]; auto].
  induction p; constructor; intros y H'; inversion H' as [p' p0 Hn| | |]; subst; auto; inversion Hn; subst; auto.
Qed.

(** One element of a collection is replaced by some below it, and others go. *)
Definition shrinks (l' l : list status) : Prop :=
  exists x ys r, l ≡ₚ x :: r /\ l' ⊆+ ys ++ r /\ forall y, y ∈ ys -> below y x.

Lemma acc_sub l k : Acc shrinks l -> k ⊆+ l -> Acc shrinks k.
Proof.
  intros [A] S. constructor. intros j (x & ys & r & E1 & E2 & E3). apply A. apply submseteq_Permutation in S as [e E].
  exists x, ys, (r ++ e). split; [by rewrite E, E1|]. split; [|done]. rewrite E2, app_assoc. by apply submseteq_inserts_r.
Qed.

Lemma cons_perm_inv (x z : status) l r : x :: l ≡ₚ z :: r -> x = z /\ l ≡ₚ r \/ exists r', r ≡ₚ x :: r' /\ l ≡ₚ z :: r'.
Proof.
  intros P. assert (x ∈ z :: r) as Hx by (rewrite <- P; by left). apply elem_of_cons in Hx as [<-|Hx].
  - left. split; [done|]. by apply Permutation_cons_inv in P.
  - right. apply elem_of_Permutation in Hx as [r' E]. exists r'. split; [done|]. rewrite E, (Permutation_swap x z) in P. by apply Permutation_cons_inv in P.
Qed.

Lemma acc_cons x l : Acc shrinks l -> Acc shrinks (x :: l).
Proof.
  revert l. induction (below_wf x) as [x _ IHx]. intros l A. induction A as [l A IHl].
  constructor. intros m (z & ys & r & E1 & E2 & E3). apply cons_perm_inv in E1 as [[-> E]|(r' & Er & El)].
  - apply acc_sub with (ys ++ l); [|by rewrite E]. clear E2. induction ys as [|y ys IHy]; [by constructor|].
    apply (IHx y); [by apply E3; left|]. apply IHy. intros w Hw. apply E3. by right.
  - apply acc_sub with (x :: ys ++ r'); [|rewrite E2, Er; by rewrite Permutation_middle].
    apply IHl. exists z, ys, r'. split; [done|]. split; [done|done].
Qed.

Lemma shrinks_wf : well_founded shrinks.
Proof. intros l. induction l as [|x l IH]; [constructor; intros k (x & ys & r & E & _); by apply Permutation_nil_cons in E|by apply acc_cons]. Qed.

Lemma call_next p T p' T' b : lcall p T p' T' b -> next_of p' p.
Proof. intros C. destruct C; constructor. Qed.

(** The statuses of a pool. *)
Definition stats (s : pool) : list status := t_st <$> tasks s.

Lemma replace_shrinks (l1 : list task) t l2 (mid l' : list task) :
  l' ⊆+ l1 ++ mid ++ l2 -> (forall x, x ∈ mid -> below (t_st x) (t_st t)) -> shrinks (t_st <$> l') (t_st <$> (l1 ++ t :: l2)).
Proof.
  intros S B. exists (t_st t), (t_st <$> mid), (t_st <$> (l1 ++ l2)). split; [|split].
  - by rewrite !fmap_app, fmap_cons, Permutation_middle.
  - rewrite <- fmap_app. apply fmap_submseteq. by rewrite S, Permutation_app_swap_app.
  - intros y (x & -> & Hx)%list_elem_of_fmap. by apply B.
Qed.

Lemma replace_one (l1 : list task) t l2 x l' :
  l' ⊆+ l1 ++ x :: l2 -> below (t_st x) (t_st t) -> shrinks (t_st <$> l') (t_st <$> (l1 ++ t :: l2)).
Proof. intros S B. apply (replace_shrinks l1 t l2 [x] l' S). by intros y ->%list_elem_of_singleton. Qed.

Lemma orphan_stats pid (l : list task) : t_st <$> (orphan pid <$> l) = t_st <$> l.
Proof. rewrite <- list_fmap_compose. apply list_fmap_ext. intros i x _. cbn. unfold orphan. by case_decide. Qed.

Lemma step_shrinks s s' : step s s' -> shrinks (stats s') (stats s).
Proof.
  intros St. destruct St as [l1 t l2 n m g b p p' T' b' Ep C|l1 t l2 n m g b k fd0 fd1 Ep _ _|l1 t l2 n m g b k Ep|l1 t l2 n m g b k q Ep _ _ _
    |l1 t l2 n m g b k Ep _|l1 t l2 n m g b path argv k Ep|l1 t l2 n m g b Ep|l1 t l2 n m g b argv Ep _|l1 t l2 n m g b Ep _]; unfold stats; cbn [tasks]; rewrite ?orphan_stats.
  all: try (eapply (replace_one l1 t l2); [reflexivity|rewrite Ep; cbn; repeat constructor; by eapply call_next]).
  - apply (replace_shrinks l1 t l2 [Task n (t_pid t) (t_tab t) (Code (k 0)); with_code (k (Z.of_nat n)) (t_tab t) t]); [done|].
    intros x [->| ->%list_elem_of_singleton]%elem_of_cons; rewrite Ep; cbn; repeat constructor.
  - eapply (replace_one l1 t l2); [apply sublist_submseteq, sublist_filter|]. rewrite Ep. cbn. repeat constructor.
  - apply (replace_shrinks l1 t l2 []); [done|]. intros x Hx. by apply not_elem_of_nil in Hx.
Qed.

Lemma step_wf : well_founded (fun s' s => step s s').
Proof. intros s. generalize (eq_refl (stats s)). generalize (stats s) at 1. intros l. revert s. induction (shrinks_wf l) as [l _ IH]. intros s ->.
  constructor. intros s' St. eapply IH; [by apply step_shrinks|done]. Qed.

(** * The theorems *)

(** The child of the shell on a line it read, with the descriptors [F]. *)
Definition shell (s : list Z) (F : std) : pool := Pool [Task 1 0 (tab3 F) (Code (parse_run s))] 2 0 [] false.

Definition no_ends (F : std) : Prop := forall p, s0 F <> RdEnd p /\ ~ wr F p.

Section Line.
Context (s : list Z) (c : cmd) (buf : list Z) (F : std).
Context (Hs : parsecmd s = Ok (c, buf)) (HF : no_ends F).

Lemma shell_inv : inv (length s) buf (asks (length s) buf c F) (line_runs (length s) buf c F) (shell s F) [(Task 1 0 (tab3 F) (Code (parse_run s)), Ghost F None (line_runs (length s) buf c F))].
Proof.
  split; cbn [tasks p_next p_pipes p_log p_failed shell].
  - done.
  - lia.
  - intros x ->%list_elem_of_singleton. split; cbn [fst snd t_pid t_parent g_std g_own]; [|lia|lia| | |done].
    + unfold at_task. cbn [fst snd t_st t_tab g_std g_own g_todo]. rewrite (parse_run_ok s c buf Hs). apply a_run. split; [by eapply parsecmd_std|done].
    + intros p Hp. by destruct (HF p).
    + intros p Hp. by destruct (HF p).
  - split; [|done]. intros y Hy. by apply not_elem_of_nil in Hy.
  - intros x ->%list_elem_of_singleton. by left.
  - intros a T Hx. by apply not_elem_of_nil in Hx.
  - intros _ Ls HL. apply Forall2_cons_inv_l in HL as ([L ps] & ? & HL & ->%Forall2_nil_inv_l & ->). exists L, ps. cbn. by rewrite !app_nil_r.
Qed.

Lemma shell_reachable st : rtc step (shell s F) st -> exists l, inv (length s) buf (asks (length s) buf c F) (line_runs (length s) buf c F) st l.
Proof.
  intros R. eapply (rtc_ind_r (fun st => exists l, inv (length s) buf (asks (length s) buf c F) (line_runs (length s) buf c F) st l) (shell s F)); [| |exact R].
  - eexists. apply shell_inv.
  - intros y z _ St [l I]. by eapply inv_step.
Qed.

Lemma line_finishes st : rtc step (shell s F) st -> exists st', rtc step st st' /\ tasks st' = [] /\ p_failed st' = p_failed st.
Proof.
  intros R. induction (step_wf st) as [st _ IH].
  destruct (tasks st) as [|t ts] eqn:E; [by exists st; split; [apply rtc_refl|]|]. destruct (shell_reachable st R) as [l I].
  destruct (progress _ _ _ _ st l I) as (st1 & St & Hf); [by rewrite E|]. destruct (IH st1 St) as (st2 & R2 & E2 & Hf2); [by eapply rtc_r|].
  exists st2. split; [by eapply rtc_l|]. split; [done|congruence].
Qed.

(** C4.  Every way the processes of a command line interleave ends, and at every point
    the line can still be run to its end, with all processes gone and without a
    call that fails: no process waits for ever, though a program that reads from
    a pipe waits until every write end of it is closed. *)
Theorem sh_line_ends :
  Acc (fun y x => step x y) (shell s F)
  /\ forall st, rtc step (shell s F) st -> exists st', rtc step st st' /\ tasks st' = [] /\ p_failed st' = p_failed st.
Proof. split; [apply step_wf|exact line_finishes]. Qed.

(** C10.  Whatever the order, each command executed is one the line asks for, with
    exactly the descriptors 0, 1 and 2 open and these referring to what its
    redirections and pipes say.  When all is done and no call has failed, the
    commands executed are those of the line, each once, and the two sides of each
    [|] had the two ends of one pipe, a different one for each. *)
Theorem sh_line_execs st : rtc step (shell s F) st ->
  (forall argv T, (argv, T) ∈ p_log st -> exists G, T = tab3 G /\ asks (length s) buf c F argv G)
  /\ (tasks st = [] -> p_failed st = false -> exists L ps, line_runs (length s) buf c F L ps /\ L ≡ₚ p_log st /\ NoDup ps).
Proof.
  intros R. destruct (shell_reachable st R) as [l I]. split; [apply (iv_log _ _ _ _ _ _ I)|]. intros Ht Hf.
  assert (l = []) as -> by (pose proof (iv_tasks _ _ _ _ _ _ I) as E; rewrite Ht in E; by destruct l).
  destruct (iv_spec _ _ _ _ _ _ I Hf [] ltac:(constructor)) as (L & ps & HL & P1 & P2). exists L, ps. cbn in P1, P2. rewrite app_nil_r in P1, P2.
  split; [done|]. split; [done|]. rewrite P2. apply NoDup_seq.
Qed.
End Line.

(** * A run *)

Definition std0 : std := Std Console Console Console.
Definition demo_line : list Z := litn "cat < a | wc > b; echo ok &".

Lemma no_ends0 : no_ends std0.
Proof. intros p. by split; [|intros [?|[?|?]]]. Qed.

Lemma sh_line_ends_witness : exists st', rtc step (shell demo_line std0) st' /\ tasks st' = [] /\ p_failed st' = false.
Proof.
  destruct (parsecmd demo_line) as [[c buf]| |] eqn:E; [|vm_compute in E; discriminate E..].
  destruct (sh_line_ends demo_line c buf std0 E no_ends0) as [_ H]. exact (H _ (rtc_refl _ _)).
Defined.

(** [line_runs] as a function of the pipes, in their order. *)
Fixpoint executes (len : nat) (buf : list Z) (c : cmd) (F : std) (ps : list nat) : option (list entry * list nat) :=
  match c with
  | EXEC [] => Some ([], ps)
  | EXEC argv => Some ([(text_at len buf <$> argv, tab3 F)], ps)
  | REDIR c file mode fd => executes len buf c (set_std fd (FileAt (text_at len buf file) mode) F) ps
  | LIST l r =>
      match executes len buf l F ps with
      | Some (L1, ps) => match executes len buf r F ps with Some (L2, ps) => Some (L1 ++ L2, ps) | None => None end
      | None => None
      end
  | PIPE l r =>
      match ps with
      | p :: ps =>
          match executes len buf l (set_std 1 (WrEnd p) F) ps with
          | Some (L1, ps) => match executes len buf r (set_std 0 (RdEnd p) F) ps with Some (L2, ps) => Some (L1 ++ L2, ps) | None => None end
          | None => None
          end
      | [] => None
      end
  | BACK c => executes len buf c F ps
  end.

Lemma runs_executes len buf c F L ps : line_runs len buf c F L ps -> forall rest, executes len buf c F (ps ++ rest) = Some (L, rest).
Proof.
  induction 1 as [F|a argv F|c file mode fd F L ps _ IH|l r F L1 L2 ps1 ps2 _ IH1 _ IH2|l r p F L1 L2 ps1 ps2 _ IH1 _ IH2|c F L ps _ IH]; intros rest; cbn; auto.
  - by rewrite <- app_assoc, IH1, IH2.
  - by rewrite <- app_assoc, IH1, IH2.
Qed.

Lemma sh_line_execs_witness : exists st' L, rtc step (shell demo_line std0) st' /\ tasks st' = [] /\ L ≡ₚ p_log st'
  /\ exists p, L = [([lit "cat"], tab3 (Std (FileAt (lit "a") 0) (WrEnd p) Console));
                    ([lit "wc"], tab3 (Std (RdEnd p) (FileAt (lit "b") 513) Console));
                    ([lit "echo"; lit "ok"], tab3 std0)].
Proof.
  destruct (parsecmd demo_line) as [[c buf]| |] eqn:E; [|vm_compute in E; discriminate E..].
  destruct (line_finishes demo_line c buf std0 E no_ends0 _ (rtc_refl _ _)) as (st' & R & Ht & Hf).
  destruct (sh_line_execs demo_line c buf std0 E no_ends0 st' R) as [_ H]. destruct (H Ht Hf) as (L & ps & HL & P & _).
  exists st', L. split; [exact R|]. split; [exact Ht|]. split; [exact P|]. apply runs_executes with (rest := []) in HL. rewrite app_nil_r in HL.
  vm_compute in E. injection E as <- <-. destruct ps as [|p [|q ps]]; vm_compute in HL; [discriminate HL| |discriminate HL].
  exists p. injection HL as <-. vm_compute. reflexivity.
Defined.
