(* ===== verification/UserKernel.v ===== *)
(** User programs on the kernel: the calls of [User] answered by what the system
    calls of [Sysfile] do once their arguments are fetched, for a process alone
    on the machine, from an image that mkfs built.  The console prints what is
    written to it and has the lines of [tty_in] to read. *)
From S2P Require Import Prelude Mem KString Mmu Kalloc Vm Spinlock Wmap Proc Syscall Pipe Bio Log LogTheory LogProps Fs FsBlocks File Sysfile FsMount.
From S2P Require Import Mkfs MkfsMount Printf Grep User UserSys Sh ShRun MkfsTheory.

Definition me : Z := 1.
Definition CONSOLE : Z := 1.
#[local] Instance kernel_blocks : BlockOps lst := log_blocks me.

Record kw := Kw { kk : kern (fstate lst); tty_in : list (list Z); tty_out : list Z }.

(** [consoleread] and [consolewrite], as far as a file sees them. *)
Definition tty_read (w : kw) (major : Z) : option (nat -> Z -> fs lst -> outcome (option (list Z) * fs lst)) :=
  if major =? CONSOLE then Some (fun _ n f => Ok (Some (take (Z.to_nat n) (default [] (head (tty_in w)))), f)) else None.
Definition tty_write (major : Z) : option (nat -> list Z -> fs lst -> outcome (Z * fs lst)) :=
  if major =? CONSOLE then Some (fun _ bytes f => Ok (Z.of_nat (length bytes), f)) else None.

Section Calls.
Context (kend : Z).

(** The file behind descriptor [fd] of process 0, as [argfd] finds it. *)
Definition fd_file (fd : Z) (k : kern (fstate lst)) : outcome (option nat) :=
  let! p := the_proc 0 k in
  if (fd <? 0) || (Z.of_nat NOFILE <=? fd) then Ok None
  else Ok (match ofile p !! Z.to_nat fd with Some (Some f) => Some f | _ => None end).

(** Whether the file is the console. *)
Definition is_tty (f : nat) (k : kern (fstate lst)) : bool :=
  match ftab (files k) !! f with
  | Some fl => match icache (ffs (files k)) !! f_ip fl with
               | Some i => bool_decide (f_type fl = FD_INODE) && (i_type i =? T_DEV)
               | None => false
               end
  | None => false
  end.

Definition with_kk (k : kern (fstate lst)) (w : kw) : kw := Kw k (tty_in w) (tty_out w).

(** A call between [begin_op] and [end_op], in the current directory. *)
Definition path_call (op : Z -> nat -> fs lst -> outcome (Z * fs lst)) (w : kw) : outcome (Z * kw) :=
  let! p := the_proc 0 (kk w) in
  let! wd := the_cwd p in
  let! (r, k) := in_op (op (pid p) wd) (kk w) in
  Ok (r, with_kk k w).

(** [addr] is where the path is in the memory of the process. *)
Definition open_call (addr : Z) (path : list Z) (mode : Z) (w : kw) : outcome (Z * kw) :=
  let! p := the_proc 0 (kk w) in
  let! wd := the_cwd p in
  let! f := fs_begin_op (ffs (files (kk w))) in
  let! (ip, f) := open_inode (tty_read w) tty_write [] (pid p) wd path mode f in
  match ip with
  | None => let! f := fs_end_op f in Ok (-1, with_kk (set_fs f (kk w)) w)
  | Some ip => let! (r, k) := open_file_op kend (pid p) 0 ip addr mode (set_fs f (kk w)) in Ok (r, with_kk k w)
  end.

Definition close_call (fd : Z) (w : kw) : outcome (Z * kw) :=
  let! p := the_proc 0 (kk w) in
  let! f := fd_file fd (kk w) in
  match f with
  | None => Ok (-1, w)
  | Some f => let! k := close_file kend (pid p) f (set_ofile 0 (Z.to_nat fd) None (kk w)) in Ok (0, with_kk k w)
  end.

Definition dup_call (fd : Z) (w : kw) : outcome (Z * kw) :=
  let! f := fd_file fd (kk w) in
  match f with
  | None => Ok (-1, w)
  | Some f =>
      let! (fd, k) := fdalloc 0 f (kk w) in
      match fd with
      | None => Ok (-1, with_kk k w)
      | Some fd => let! s := filedup f (files k) in Ok (Z.of_nat fd, with_kk (set_files s k) w)
      end
  end.

Definition read_call (fd n : Z) (w : kw) : outcome (option (list Z) * kw) :=
  let! p := the_proc 0 (kk w) in
  let! f := fd_file fd (kk w) in
  match f with
  | None => Ok (None, w)
  | Some f =>
      let! r := fileread (pid p) (tty_read w) (killed p) f n (files (kk w)) in
      match r with
      | FSleep _ _ _ => UB "read sleeps with no other process"
      | FDone r ws s =>
          let w := with_kk (wake_all ws (set_files s (kk w))) w in
          Ok (r, if is_tty f (kk w) then
                   match tty_in w with
                   | l :: ls => Kw (kk w) (if (length l <=? Z.to_nat n)%nat then ls else drop (Z.to_nat n) l :: ls) (tty_out w)
                   | [] => w
                   end
                 else w)
      end
  end.

Definition write_call (fd : Z) (bytes : list Z) (w : kw) : outcome (Z * kw) :=
  let! p := the_proc 0 (kk w) in
  let! f := fd_file fd (kk w) in
  match f with
  | None => Ok (-1, w)
  | Some f =>
      let! r := filewrite (pid p) tty_write (killed p) f bytes (Z.of_nat (length bytes)) (files (kk w)) in
      match r with
      | FSleep _ _ _ => UB "write sleeps with no other process"
      | FDone r ws s =>
          let w := with_kk (wake_all ws (set_files s (kk w))) w in
          Ok (r, if is_tty f (kk w) && (r =? Z.of_nat (length bytes)) then Kw (kk w) (tty_in w) (tty_out w ++ bytes) else w)
      end
  end.

Definition fstat_call (fd : Z) (w : kw) : outcome (option stat * kw) :=
  let! p := the_proc 0 (kk w) in
  let! f := fd_file fd (kk w) in
  match f with
  | None => Ok (None, w)
  | Some f => let! (st, s) := filestat (pid p) f (files (kk w)) in Ok (st, with_kk (set_files s (kk w)) w)
  end.

Definition chdir_call (path : list Z) (w : kw) : outcome (Z * kw) :=
  let! p := the_proc 0 (kk w) in
  let! wd := the_cwd p in
  let! (r, k) := in_op (chdir_op (tty_read w) (pid p) wd path) (kk w) in
  match r with
  | None => Ok (-1, with_kk k w)
  | Some ip => Ok (0, with_kk (upd 0 (fun p => with_files (ofile p) (Some ip) p) k) w)
  end.

Definition kill_call (pid : Z) (w : kw) : outcome (Z * kw) :=
  let (r, k) := kill pid (kk w) in Ok (r, with_kk k w).

#[export] Instance kernel_sys : Sys kw := {|
  do_open := open_call 0; do_close := close_call; do_dup := dup_call; do_read := read_call; do_write := write_call; do_fstat := fstat_call;
  do_link old new w := path_call (fun me wd => link_op (tty_read w) tty_write [] me wd old new) w;
  do_unlink path w := path_call (fun me wd => unlink_op (tty_read w) tty_write [] me wd path) w;
  do_mkdir path w := path_call (fun me wd => make_op (tty_read w) tty_write [] me wd path T_DIR 0 0) w;
  do_mknod path major minor w := path_call (fun me wd => make_op (tty_read w) tty_write [] me wd path T_DEV major minor) w;
  do_chdir := chdir_call; do_kill := kill_call;
  do_sleep n w := Ok (0, w)
|}.

(** ** The calls are those of the kernel *)

Lemma sys_open_call c w addr path mode :
  argstr 0 0 (kk w) = Ok (Some (addr, path)) -> argint 0 1 (kk w) = Ok (Some mode) ->
  sys_open (tty_read w) tty_write kend [] c 0 (kk w) = let! (r, w') := open_call addr path mode w in Ok (Some r, kk w').
Proof.
  intros Es Ei. unfold sys_open, open_call. rewrite Es, Ei. destruct (the_proc 0 (kk w)) as [p| |]; [|done|done]. cbn [obind].
  destruct (the_cwd p) as [wd| |]; [|done|done]. cbn [obind]. destruct (fs_begin_op _) as [f| |]; [|done|done]. cbn [obind].
  destruct (open_inode _ _ _ _ _ _ _ _) as [[[ip|] f1]| |]; [| |done|done]; cbn [obind].
  - by destruct (open_file_op _ _ _ _ _ _ _) as [[r k]| |].
  - by destruct (fs_end_op _).
Qed.

Lemma sys_close_call c w fd f :
  argfd 0 0 (kk w) = Ok (Some (fd, f)) -> fd_file (Z.of_nat fd) (kk w) = Ok (Some f) ->
  sys_close kend c 0 (kk w) = let! (r, w') := close_call (Z.of_nat fd) w in Ok (Some r, kk w').
Proof.
  intros Ea Ef. unfold sys_close, close_call. rewrite Ea, Ef. destruct (the_proc 0 (kk w)) as [p| |]; [|done|done]. cbn [obind].
  rewrite Nat2Z.id. by destruct (close_file _ _ _ _).
Qed.

Lemma sys_read_call c w fd f addr n p bytes w' :
  the_proc 0 (kk w) = Ok p -> rw_args 0 (kk w) = Ok (Some (f, addr, n)) -> fd_file fd (kk w) = Ok (Some f) ->
  read_call fd n w = Ok (Some bytes, w') ->
  sys_read (tty_read w) c 0 (kk w) = let! k := user_store p addr bytes (kk w') in ret (Z.of_nat (length bytes)) k.
Proof.
  intros Ep Ea Ef. unfold sys_read, read_call. rewrite Ep, Ea, Ef. cbn [obind].
  destruct (fileread _ _ _ _ _ _) as [[r ws s| ]| |]; [|done..]. cbn [obind]. intros [= -> <-]. by repeat case_match.
Qed.

Lemma sys_write_call c w fd f addr p bytes r w' :
  the_proc 0 (kk w) = Ok p -> rw_args 0 (kk w) = Ok (Some (f, addr, Z.of_nat (length bytes))) ->
  user_load p addr (Z.of_nat (length bytes)) (kk w) = Ok bytes -> fd_file fd (kk w) = Ok (Some f) ->
  write_call fd bytes w = Ok (r, w') -> sys_write tty_write c 0 (kk w) = ret r (kk w').
Proof.
  intros Ep Ea El Ef. unfold sys_write, write_call. rewrite Ep, Ea, Ef. cbn [obind]. rewrite El. cbn [obind].
  destruct (filewrite _ _ _ _ _ _ _) as [[r' ws s| ]| |]; [|done..]. cbn [obind]. intros [= -> <-]. by case_match.
Qed.
End Calls.

(** * From mkfs to the console *)

(** A kernel with one process, whose current directory is the root of the image. *)
Definition mount (s : mkst) : outcome kw :=
  let! f := forkret_first me (img s) FSSIZE in
  let! (ip, f) := namei me (fun _ => None) 0 [47] f in
  let p := with_files (replicate NOFILE None) ip (with_pid me (with_state RUNNING proc0)) in
  Ok (Kw (Kern [p] 2 (Some 0%nat) (Kst ∅ 0 true) wst0 (Fstate (replicate NFILE file0) ∅ f) [Some 0%nat] 0) [] []).

(** What the console shows of [p], run after [init_console] on a mounted system. *)
Definition shows (p : prog) (w : outcome kw) : outcome (list Z) :=
  let! w := w in let! w := run_prog (H := kernel_sys 0) (init_console p) w in Ok (tty_out w).

Definition start (files : list (list Z * list Z)) : outcome kw :=
  let! s := mkfs_main ((fun fl => (fl.1, Some fl.2)) <$> files) in mount s.

(** The machine started again on the disk that [p] leaves. *)
Definition restart (p : prog) (w : outcome kw) : outcome kw :=
  let! w := w in
  let! w := run_prog (H := kernel_sys 0) (init_console p) w in
  mount (Mkst (disk (cache (blocks (ffs (files (kk w)))))) 0 0).

Definition disk2 : list (list Z * list Z) := [(lit "_ls", lit "binary"); (lit "README", litn "xv6 is a" ++ litn "re-implementation")].

(** A file in a new directory, with a second link outside it. *)
Definition in_dir (k : prog) : prog :=
  Mkdir (lit "d") (fun _ => Open (lit "d/x") 513 (fun fd => Write fd (lit "hi") (fun _ => Close fd (fun _ => Link (lit "d/x") (lit "y") (fun _ => k))))).

(** The programs on the kernel on the image of mkfs: ls lists what mkfs put there
    and the console that init made, with the types, inodes and sizes; cat and wc
    of files; rm of a directory that is not empty; a file read through its second
    link after its first and the directory are gone. *)
Example programs_run :
  shows (ls_main 40 []) (start disk2) = Ok (litn ".              1 1 512" ++ litn "..             1 1 512" ++ litn "ls             2 2 6"
    ++ litn "README         2 3 27" ++ litn "console        3 4 0")
  /\ shows (cat_main 10 [lit "README"]) (start disk2) = Ok (litn "xv6 is a" ++ litn "re-implementation")
  /\ shows (wc_main 10 [lit "README"; lit "ls"]) (start disk2) = Ok (litn "2 4 27 README" ++ litn "0 1 6 ls")
  /\ shows (in_dir (rm_main [lit "d"])) (start disk2) = Ok (litn "rm: d failed to delete")
  /\ shows (in_dir (Unlink (lit "d/x") (fun _ => Unlink (lit "d") (fun _ => cat_main 10 [lit "y"; lit "d/x"])))) (start disk2)
     = Ok (lit "hi" ++ litn "cat: cannot open d/x").
Proof. repeat split; vm_compute; reflexivity. Qed.

(** A file created and written by a user program. *)
Definition save (k : prog) : prog := Open (lit "new") 513 (fun fd => Write fd (lit "hi") (fun _ => Close fd (fun _ => k))).

(** With thirty files the root fills its only block and mkfs still rounds its size
    up by a block.  The first lookup of a missing name allocates that block in
    memory only, and what is created there is lost: the program that wrote the
    file reads it back, and after a restart it is gone.  With one file less it
    is still there. *)
Theorem full_root_loses_files :
  shows (save (cat_main 10 [lit "new"])) (start files30) = Ok (lit "hi")
  /\ shows (cat_main 10 [lit "new"]) (restart (save Exit) (start files30)) = Ok (litn "cat: cannot open new")
  /\ shows (cat_main 10 [lit "new"]) (restart (save Exit) (start (take 29 files30))) = Ok (lit "hi").
Proof. repeat split; vm_compute; reflexivity. Qed.
