(* ===== verification/Usertests.v ===== *)
(** usertests.c: the tests that run in one process, as programs, and their runs
    on the kernel, from an image that mkfs built.  A test takes the contents of
    the array [buf] and goes on with what it leaves there. *)
From S2P Require Import Prelude Fs Printf User UserSys ShRun UserKernel.

Declare Scope prog_scope.
Delimit Scope prog_scope with prog.
Notation "'let?' x := c 'in' k" := (c (fun x => k)) (at level 200, x name, c at level 100, k at level 200) : prog_scope.
Notation "'do?' c 'in' k" := (c (fun _ => k)) (at level 200, c at level 100, k at level 200) : prog_scope.
Notation "e ;; k" := (e k) (at level 100, k at level 200, right associativity, only parsing) : prog_scope.
Open Scope prog_scope.

Definition utest : Type := list Z -> (list Z -> prog) -> prog.

(** [printf(1, "...\n")], and with [exit()] unless [ok]. *)
Definition out (s : string) (k : prog) : prog := say 1 (litn s) k.
Definition need (ok : bool) (s : string) (k : prog) : prog := if ok then k else say 1 (litn s) Exit.

(** What [read(fd, buf, n)] leaves in [buf] and what it returns. *)
Definition over (r : option (list Z)) (buf : list Z) : list Z := match r with Some bytes => bytes ++ drop (length bytes) buf | None => buf end.
Definition count (r : option (list Z)) : Z := match r with Some bytes => Z.of_nat (length bytes) | None => -1 end.

Definition BUFLEN : Z := 8192.
Definition RDWR : Z := 2.
Definition CREATE : Z := 512.
Definition CRDWR : Z := 514.

(** [for(i = from; i < from + n; i++)]. *)
Fixpoint loop (n : nat) (from : Z) (body : Z -> prog -> prog) (k : prog) : prog :=
  match n with O => k | S n => body from (loop n (from + 1) body k) end.

Definition iputtest : utest := fun buf k =>
  out "iput test" ;;
  let? r := Mkdir (lit "iputdir") in need (0 <=? r) "mkdir failed" ;;
  let? r := Chdir (lit "iputdir") in need (0 <=? r) "chdir iputdir failed" ;;
  let? r := Unlink (lit "../iputdir") in need (0 <=? r) "unlink ../iputdir failed" ;;
  let? r := Chdir (lit "/") in need (0 <=? r) "chdir / failed" ;;
  out "iput test ok" ;; k buf.

Definition opentest : utest := fun buf k =>
  out "open test" ;;
  let? fd := Open (lit "echo") 0 in need (0 <=? fd) "open echo failed!" ;;
  do? Close fd in
  let? fd := Open (lit "doesnotexist") 0 in need (fd <? 0) "open doesnotexist succeeded!" ;;
  out "open test ok" ;; k buf.

Definition writetest : utest := fun buf k =>
  out "small file test" ;;
  let? fd := Open (lit "small") CRDWR in
  need (0 <=? fd) "error: creat small failed!" ;;
  out "creat small succeeded; ok" ;;
  loop 100 0 (fun i k =>
    let? r := Write fd (lit "aaaaaaaaaa") in
    if negb (r =? 10) then fprintf 1 (litn "error: write aa %d new file failed") [] [i] Exit
    else
      let? r := Write fd (lit "bbbbbbbbbb") in
      if negb (r =? 10) then fprintf 1 (litn "error: write bb %d new file failed") [] [i] Exit else k) ;;
  out "writes ok" ;;
  do? Close fd in
  let? fd := Open (lit "small") 0 in
  need (0 <=? fd) "error: open small failed!" ;;
  out "open small succeeded ok" ;;
  let? r := Read fd 2000 in
  let buf := over r buf in
  need (count r =? 2000) "read failed" ;;
  out "read succeeded ok" ;;
  do? Close fd in
  let? r := Unlink (lit "small") in need (0 <=? r) "unlink small failed" ;;
  out "small file test ok" ;; k buf.

(** [((int* )buf)[0] = i], and its value. *)
Definition set_int (i : Z) (buf : list Z) : list Z := [i mod 256; i / 256 mod 256; i / 65536 mod 256; i / 16777216 mod 256] ++ drop 4 buf.
Definition get_int (buf : list Z) : Z :=
  match buf with a :: b :: c :: d :: _ => s32 (u8 a + 256 * u8 b + 65536 * u8 c + 16777216 * u8 d) | _ => 0 end.

Fixpoint writetest1_write (rounds : nat) (i fd : Z) (buf : list Z) (k : list Z -> prog) : prog :=
  match rounds with
  | O => k buf
  | S rounds =>
      let buf := set_int i buf in
      let? r := Write fd (take 512 buf) in need (r =? 512) "error: write big file failed" ;;
      writetest1_write rounds (i + 1) fd buf k
  end.

Fixpoint writetest1_read (rounds : nat) (n fd : Z) (buf : list Z) (k : list Z -> prog) : prog :=
  match rounds with
  | O => Stuck "writetest1: rounds"
  | S rounds =>
      let? r := Read fd 512 in
      let buf := over r buf in
      if count r =? 0 then
        if n =? MAXFILE - 1 then fprintf 1 (lit "read only %d blocks from big") [] [n] Exit else k buf
      else if negb (count r =? 512) then fprintf 1 (litn "read failed %d") [] [count r] Exit
      else if negb (get_int buf =? n) then fprintf 1 (litn "read content of block %d is %d") [] [n; get_int buf] Exit
      else writetest1_read rounds (n + 1) fd buf k
  end.

Definition writetest1 : utest := fun buf k =>
  out "big files test" ;;
  let? fd := Open (lit "big") CRDWR in need (0 <=? fd) "error: creat big failed!" ;;
  let? buf := writetest1_write (Z.to_nat MAXFILE) 0 fd buf in
  do? Close fd in
  let? fd := Open (lit "big") 0 in need (0 <=? fd) "error: open big failed!" ;;
  let? buf := writetest1_read (Z.to_nat MAXFILE + 1) 0 fd buf in
  do? Close fd in
  let? r := Unlink (lit "big") in need (0 <=? r) "unlink big failed" ;;
  out "big files ok" ;; k buf.

Definition createtest : utest := fun buf k =>
  out "many creates, followed by unlink test" ;;
  loop 52 0 (fun i k => let? fd := Open [97; 48 + i] CRDWR in do? Close fd in k) ;;
  loop 52 0 (fun i k => do? Unlink [97; 48 + i] in k) ;;
  out "many creates, followed by unlink; ok" ;; k buf.

Definition dirtest : utest := fun buf k =>
  out "mkdir test" ;;
  let? r := Mkdir (lit "dir0") in need (0 <=? r) "mkdir failed" ;;
  let? r := Chdir (lit "dir0") in need (0 <=? r) "chdir dir0 failed" ;;
  let? r := Chdir (lit "..") in need (0 <=? r) "chdir .. failed" ;;
  let? r := Unlink (lit "dir0") in need (0 <=? r) "unlink dir0 failed" ;;
  out "mkdir test ok" ;; k buf.

(** The first character of [buf]. *)
Definition buf0 (buf : list Z) : Z := default 0 (buf !! 0%nat).

Definition unlinkread : utest := fun buf k =>
  out "unlinkread test" ;;
  let? fd := Open (lit "unlinkread") CRDWR in need (0 <=? fd) "create unlinkread failed" ;;
  do? Write fd (lit "hello") in
  do? Close fd in
  let? fd := Open (lit "unlinkread") RDWR in need (0 <=? fd) "open unlinkread failed" ;;
  let? r := Unlink (lit "unlinkread") in need (r =? 0) "unlink unlinkread failed" ;;
  let? fd1 := Open (lit "unlinkread") CRDWR in
  do? Write fd1 (lit "yyy") in
  do? Close fd1 in
  let? r := Read fd BUFLEN in
  let buf := over r buf in
  if negb (count r =? 5) then say 1 (lit "unlinkread read failed") Exit
  else
    need (buf0 buf =? 104) "unlinkread wrong data" ;;
    let? r := Write fd (take 10 buf) in need (r =? 10) "unlinkread write failed" ;;
    do? Close fd in
    do? Unlink (lit "unlinkread") in
    out "unlinkread ok" ;; k buf.

Definition linktest : utest := fun buf k =>
  out "linktest" ;;
  do? Unlink (lit "lf1") in
  do? Unlink (lit "lf2") in
  let? fd := Open (lit "lf1") CRDWR in need (0 <=? fd) "create lf1 failed" ;;
  let? r := Write fd (lit "hello") in need (r =? 5) "write lf1 failed" ;;
  do? Close fd in
  let? r := Link (lit "lf1") (lit "lf2") in need (0 <=? r) "link lf1 lf2 failed" ;;
  do? Unlink (lit "lf1") in
  let? r := Open (lit "lf1") 0 in need (r <? 0) "unlinked lf1 but it is still there!" ;;
  let? fd := Open (lit "lf2") 0 in need (0 <=? fd) "open lf2 failed" ;;
  let? r := Read fd BUFLEN in
  let buf := over r buf in
  need (count r =? 5) "read lf2 failed" ;;
  do? Close fd in
  let? r := Link (lit "lf2") (lit "lf2") in need (r <? 0) "link lf2 lf2 succeeded! oops" ;;
  do? Unlink (lit "lf2") in
  let? r := Link (lit "lf2") (lit "lf1") in need (r <? 0) "link non-existant succeeded! oops" ;;
  let? r := Link (lit ".") (lit "lf1") in need (r <? 0) "link . lf1 succeeded! oops" ;;
  out "linktest ok" ;; k buf.

(** [name] of [bigdir] for [i]. *)
Definition bigdir_name (i : Z) : list Z := [120; 48 + i / 64; 48 + i mod 64].

Definition bigdir : utest := fun buf k =>
  out "bigdir test" ;;
  do? Unlink (lit "bd") in
  let? fd := Open (lit "bd") CREATE in need (0 <=? fd) "bigdir create failed" ;;
  do? Close fd in
  loop 500 0 (fun i k => let? r := Link (lit "bd") (bigdir_name i) in need (r =? 0) "bigdir link failed" ;; k) ;;
  do? Unlink (lit "bd") in
  loop 500 0 (fun i k => let? r := Unlink (bigdir_name i) in if negb (r =? 0) then say 1 (lit "bigdir unlink failed") Exit else k) ;;
  out "bigdir ok" ;; k buf.

Definition subdir : utest := fun buf k =>
  out "subdir test" ;;
  do? Unlink (lit "ff") in
  let? r := Mkdir (lit "dd") in need (r =? 0) "subdir mkdir dd failed" ;;
  let? fd := Open (lit "dd/ff") CRDWR in need (0 <=? fd) "create dd/ff failed" ;;
  do? Write fd (lit "ff") in
  do? Close fd in
  let? r := Unlink (lit "dd") in need (r <? 0) "unlink dd (non-empty dir) succeeded!" ;;
  let? r := Mkdir (lit "/dd/dd") in need (r =? 0) "subdir mkdir dd/dd failed" ;;
  let? fd := Open (lit "dd/dd/ff") CRDWR in need (0 <=? fd) "create dd/dd/ff failed" ;;
  do? Write fd (lit "FF") in
  do? Close fd in
  let? fd := Open (lit "dd/dd/../ff") 0 in need (0 <=? fd) "open dd/dd/../ff failed" ;;
  let? r := Read fd BUFLEN in
  let buf := over r buf in
  need ((count r =? 2) && (buf0 buf =? 102)) "dd/dd/../ff wrong content" ;;
  do? Close fd in
  let? r := Link (lit "dd/dd/ff") (lit "dd/dd/ffff") in need (r =? 0) "link dd/dd/ff dd/dd/ffff failed" ;;
  let? r := Unlink (lit "dd/dd/ff") in need (r =? 0) "unlink dd/dd/ff failed" ;;
  let? r := Open (lit "dd/dd/ff") 0 in need (r <? 0) "open (unlinked) dd/dd/ff succeeded" ;;
  let? r := Chdir (lit "dd") in need (r =? 0) "chdir dd failed" ;;
  let? r := Chdir (lit "dd/../../dd") in need (r =? 0) "chdir dd/../../dd failed" ;;
  let? r := Chdir (lit "dd/../../../dd") in need (r =? 0) "chdir dd/../../dd failed" ;;
  let? r := Chdir (lit "./..") in need (r =? 0) "chdir ./.. failed" ;;
  let? fd := Open (lit "dd/dd/ffff") 0 in need (0 <=? fd) "open dd/dd/ffff failed" ;;
  let? r := Read fd BUFLEN in
  let buf := over r buf in
  need (count r =? 2) "read dd/dd/ffff wrong len" ;;
  do? Close fd in
  let? r := Open (lit "dd/dd/ff") 0 in need (r <? 0) "open (unlinked) dd/dd/ff succeeded!" ;;
  let? r := Open (lit "dd/ff/ff") CRDWR in need (r <? 0) "create dd/ff/ff succeeded!" ;;
  let? r := Open (lit "dd/xx/ff") CRDWR in need (r <? 0) "create dd/xx/ff succeeded!" ;;
  let? r := Open (lit "dd") CREATE in need (r <? 0) "create dd succeeded!" ;;
  let? r := Open (lit "dd") RDWR in need (r <? 0) "open dd rdwr succeeded!" ;;
  let? r := Open (lit "dd") 1 in need (r <? 0) "open dd wronly succeeded!" ;;
  let? r := Link (lit "dd/ff/ff") (lit "dd/dd/xx") in need (negb (r =? 0)) "link dd/ff/ff dd/dd/xx succeeded!" ;;
  let? r := Link (lit "dd/xx/ff") (lit "dd/dd/xx") in need (negb (r =? 0)) "link dd/xx/ff dd/dd/xx succeeded!" ;;
  let? r := Link (lit "dd/ff") (lit "dd/dd/ffff") in need (negb (r =? 0)) "link dd/ff dd/dd/ffff succeeded!" ;;
  let? r := Mkdir (lit "dd/ff/ff") in need (negb (r =? 0)) "mkdir dd/ff/ff succeeded!" ;;
  let? r := Mkdir (lit "dd/xx/ff") in need (negb (r =? 0)) "mkdir dd/xx/ff succeeded!" ;;
  let? r := Mkdir (lit "dd/dd/ffff") in need (negb (r =? 0)) "mkdir dd/dd/ffff succeeded!" ;;
  let? r := Unlink (lit "dd/xx/ff") in need (negb (r =? 0)) "unlink dd/xx/ff succeeded!" ;;
  let? r := Unlink (lit "dd/ff/ff") in need (negb (r =? 0)) "unlink dd/ff/ff succeeded!" ;;
  let? r := Chdir (lit "dd/ff") in need (negb (r =? 0)) "chdir dd/ff succeeded!" ;;
  let? r := Chdir (lit "dd/xx") in need (negb (r =? 0)) "chdir dd/xx succeeded!" ;;
  let? r := Unlink (lit "dd/dd/ffff") in need (r =? 0) "unlink dd/dd/ff failed" ;;
  let? r := Unlink (lit "dd/ff") in need (r =? 0) "unlink dd/ff failed" ;;
  let? r := Unlink (lit "dd") in need (negb (r =? 0)) "unlink non-empty dd succeeded!" ;;
  let? r := Unlink (lit "dd/dd") in need (0 <=? r) "unlink dd/dd failed" ;;
  let? r := Unlink (lit "dd") in need (0 <=? r) "unlink dd failed" ;;
  out "subdir ok" ;; k buf.

(** The sizes 499, 970, ... below 12 blocks. *)
Definition bigwrite : utest := fun buf k =>
  out "bigwrite test" ;;
  do? Unlink (lit "bigwrite") in
  loop 12 0 (fun i k =>
    let sz := 499 + 471 * i in
    let? fd := Open (lit "bigwrite") CRDWR in need (0 <=? fd) "cannot create bigwrite" ;;
    loop 2 0 (fun _ k =>
      let? cc := Write fd (take (Z.to_nat sz) buf) in
      if negb (cc =? sz) then fprintf 1 (litn "write(%d) ret %d") [] [sz; cc] Exit else k) ;;
    do? Close fd in
    do? Unlink (lit "bigwrite") in k) ;;
  out "bigwrite ok" ;; k buf.

Fixpoint bigfile_write (rounds : nat) (i fd : Z) (buf : list Z) (k : list Z -> prog) : prog :=
  match rounds with
  | O => k buf
  | S rounds =>
      let buf := replicate 600 i ++ drop 600 buf in
      let? r := Write fd (take 600 buf) in need (r =? 600) "write bigfile failed" ;;
      bigfile_write rounds (i + 1) fd buf k
  end.

Fixpoint bigfile_read (rounds : nat) (i total fd : Z) (buf : list Z) (k : Z -> list Z -> prog) : prog :=
  match rounds with
  | O => Stuck "bigfile: rounds"
  | S rounds =>
      let? r := Read fd 300 in
      let buf := over r buf in
      need (0 <=? count r) "read bigfile failed" ;;
      if count r =? 0 then k total buf
      else
        need (count r =? 300) "short read bigfile" ;;
        need ((buf0 buf =? i / 2) && (default 0 (buf !! 299%nat) =? i / 2)) "read bigfile wrong data" ;;
        bigfile_read rounds (i + 1) (total + count r) fd buf k
  end.

Definition bigfile : utest := fun buf k =>
  out "bigfile test" ;;
  do? Unlink (lit "bigfile") in
  let? fd := Open (lit "bigfile") CRDWR in
  if fd <? 0 then say 1 (lit "cannot create bigfile") Exit
  else
    let? buf := bigfile_write 20 0 fd buf in
    do? Close fd in
    let? fd := Open (lit "bigfile") 0 in need (0 <=? fd) "cannot open bigfile" ;;
    bigfile_read 41 0 0 fd buf (fun total buf =>
      do? Close fd in
      need (total =? 12000) "read bigfile wrong total" ;;
      do? Unlink (lit "bigfile") in
      out "bigfile test ok" ;; k buf).

Definition fourteen : utest := fun buf k =>
  out "fourteen test" ;;
  let? r := Mkdir (lit "12345678901234") in need (r =? 0) "mkdir 12345678901234 failed" ;;
  let? r := Mkdir (lit "12345678901234/123456789012345") in need (r =? 0) "mkdir 12345678901234/123456789012345 failed" ;;
  let? fd := Open (lit "123456789012345/123456789012345/123456789012345") CREATE in
  need (0 <=? fd) "create 123456789012345/123456789012345/123456789012345 failed" ;;
  do? Close fd in
  let? fd := Open (lit "12345678901234/12345678901234/12345678901234") 0 in
  need (0 <=? fd) "open 12345678901234/12345678901234/12345678901234 failed" ;;
  do? Close fd in
  let? r := Mkdir (lit "12345678901234/12345678901234") in need (negb (r =? 0)) "mkdir 12345678901234/12345678901234 succeeded!" ;;
  let? r := Mkdir (lit "123456789012345/12345678901234") in need (negb (r =? 0)) "mkdir 12345678901234/123456789012345 succeeded!" ;;
  out "fourteen ok" ;; k buf.

Definition rmdot : utest := fun buf k =>
  out "rmdot test" ;;
  let? r := Mkdir (lit "dots") in need (r =? 0) "mkdir dots failed" ;;
  let? r := Chdir (lit "dots") in need (r =? 0) "chdir dots failed" ;;
  let? r := Unlink (lit ".") in need (negb (r =? 0)) "rm . worked!" ;;
  let? r := Unlink (lit "..") in need (negb (r =? 0)) "rm .. worked!" ;;
  let? r := Chdir (lit "/") in need (r =? 0) "chdir / failed" ;;
  let? r := Unlink (lit "dots/.") in need (negb (r =? 0)) "unlink dots/. worked!" ;;
  let? r := Unlink (lit "dots/..") in need (negb (r =? 0)) "unlink dots/.. worked!" ;;
  let? r := Unlink (lit "dots") in need (r =? 0) "unlink dots failed!" ;;
  out "rmdot ok" ;; k buf.

Definition dirfile : utest := fun buf k =>
  out "dir vs file" ;;
  let? fd := Open (lit "dirfile") CREATE in need (0 <=? fd) "create dirfile failed" ;;
  do? Close fd in
  let? r := Chdir (lit "dirfile") in need (negb (r =? 0)) "chdir dirfile succeeded!" ;;
  let? fd := Open (lit "dirfile/xx") 0 in need (fd <? 0) "create dirfile/xx succeeded!" ;;
  let? fd := Open (lit "dirfile/xx") CREATE in need (fd <? 0) "create dirfile/xx succeeded!" ;;
  let? r := Mkdir (lit "dirfile/xx") in need (negb (r =? 0)) "mkdir dirfile/xx succeeded!" ;;
  let? r := Unlink (lit "dirfile/xx") in need (negb (r =? 0)) "unlink dirfile/xx succeeded!" ;;
  let? r := Link (lit "README") (lit "dirfile/xx") in need (negb (r =? 0)) "link to dirfile/xx succeeded!" ;;
  let? r := Unlink (lit "dirfile") in need (r =? 0) "unlink dirfile failed!" ;;
  let? fd := Open (lit ".") RDWR in need (fd <? 0) "open . for writing succeeded!" ;;
  let? fd := Open (lit ".") 0 in
  let? r := Write fd (lit "x") in need (negb (0 <? r)) "write . succeeded!" ;;
  do? Close fd in
  out "dir vs file OK" ;; k buf.

(** [if(fd >= 0) close(fd)]. *)
Definition close_open (fd : Z) (k : prog) : prog := if 0 <=? fd then do? Close fd in k else k.

Definition iref : utest := fun buf k =>
  out "empty file name" ;;
  loop 51 0 (fun _ k =>
    let? r := Mkdir (lit "irefd") in need (r =? 0) "mkdir irefd failed" ;;
    let? r := Chdir (lit "irefd") in need (r =? 0) "chdir irefd failed" ;;
    do? Mkdir [] in
    do? Link (lit "README") [] in
    let? fd := Open [] CREATE in close_open fd ;;
    let? fd := Open (lit "xx") CREATE in close_open fd ;;
    do? Unlink (lit "xx") in k) ;;
  do? Chdir (lit "/") in
  out "empty file name OK" ;; k buf.

(** [fsfull]: the name of file [n], and the writes until one is short. *)
Definition fsfull_name (n : Z) : list Z := [102; 48 + n / 1000; 48 + n mod 1000 / 100; 48 + n mod 100 / 10; 48 + n mod 10].

Fixpoint fsfull_write (rounds : nat) (fd total : Z) (buf : list Z) (k : Z -> prog) : prog :=
  match rounds with
  | O => Stuck "fsfull: rounds"
  | S rounds => let? cc := Write fd (take 512 buf) in if cc <? 512 then k total else fsfull_write rounds fd (total + cc) buf k
  end.

Fixpoint fsfull_files (rounds : nat) (nfiles : Z) (buf : list Z) (k : Z -> prog) : prog :=
  match rounds with
  | O => Stuck "fsfull: rounds"
  | S rounds =>
      complain 1 (litn "writing %s") (fsfull_name nfiles) ;;
      let? fd := Open (fsfull_name nfiles) CRDWR in
      if fd <? 0 then complain 1 (litn "open %s failed") (fsfull_name nfiles) ;; k nfiles
      else
        let? total := fsfull_write (Z.to_nat MAXFILE + 1) fd 0 buf in
        fprintf 1 (litn "wrote %d bytes") [] [total] ;;
        do? Close fd in
        if total =? 0 then k nfiles else fsfull_files rounds (nfiles + 1) buf k
  end.

Fixpoint fsfull_unlink (n : nat) (k : prog) : prog :=
  match n with O => k | S n => do? Unlink (fsfull_name (Z.of_nat n)) in fsfull_unlink n k end.

Definition fsfull (rounds : nat) : utest := fun buf k =>
  out "fsfull test" ;;
  let? nfiles := fsfull_files rounds 0 buf in
  fsfull_unlink (Z.to_nat nfiles + 1) ;;
  out "fsfull test finished" ;; k buf.

(** [main] up to its tests: they run once on an image. *)
Definition usertests_start (k : prog) : prog :=
  out "usertests starting" ;;
  let? fd := Open (lit "usertests.ran") 0 in
  need (fd <? 0) "already ran user tests -- rebuild fs.img" ;;
  let? fd := Open (lit "usertests.ran") CREATE in
  do? Close fd in k.

(** * The tests on the kernel *)

(** The files that the tests expect. *)
Definition tests_image : list (list Z * list Z) := (fun name => (lit name, lit "binary")) <$> ["README"; "_cat"; "_echo"; "_init"]%string.
Definition zeros : list Z := replicate (Z.to_nat BUFLEN) 0.

(** Tests one after the other, then [exit]. *)
Fixpoint in_turn (ts : list utest) (buf : list Z) : prog :=
  match ts with [] => Exit | t :: ts => t buf (in_turn ts) end.

(** The tests that [main] runs in one process, in its order; [dirtest], which
    [main] does not call, is added. *)
Definition single_tests : list utest :=
  [bigwrite; opentest; writetest; writetest1; createtest; iputtest; dirtest; rmdot; fourteen; bigfile; subdir; linktest; unlinkread; dirfile; iref].

Definition transcript : list string :=
  ["usertests starting"; "bigwrite test"; "bigwrite ok"; "open test"; "open test ok"; "small file test"; "creat small succeeded; ok"; "writes ok";
   "open small succeeded ok"; "read succeeded ok"; "small file test ok"; "big files test"; "big files ok"; "many creates, followed by unlink test";
   "many creates, followed by unlink; ok"; "iput test"; "iput test ok"; "mkdir test"; "mkdir test ok"; "rmdot test"; "rmdot ok"; "fourteen test"; "fourteen ok";
   "bigfile test"; "bigfile test ok"; "subdir test"; "subdir ok"; "linktest"; "linktest ok"; "unlinkread test"; "unlinkread ok"; "dir vs file"; "dir vs file OK";
   "empty file name"; "empty file name OK"]%string.

(** A run of the repository's own tests of the file system on the kernel: what they
    print on the console, one after the other from a fresh image, is the
    transcript of success; and started again after a run without tests, the
    program says that it has been run. *)
Example usertests_pass :
  shows (usertests_start (in_turn single_tests zeros)) (start tests_image) = Ok (concat (litn <$> transcript))
  /\ shows (usertests_start Exit) (restart (usertests_start Exit) (start tests_image)) = Ok (litn "usertests starting" ++ litn "already ran user tests -- rebuild fs.img").
Proof. split; [vm_cast_no_check (@eq_refl (outcome (list Z)) (Ok (concat (litn <$> transcript))))|vm_compute; reflexivity]. Qed.

(** Running out of blocks panics the kernel, as the comment on [fsfull] says. *)
Example fsfull_panics : shows (fsfull 100 zeros (fun _ => Exit)) (start tests_image) = Panic "balloc: out of blocks".
Proof. vm_cast_no_check (@eq_refl (outcome (list Z)) (Panic "balloc: out of blocks")). Qed.
